(* ===== verification/_CoqProject ===== *)
-Q . S2P
Prelude.v
CommonUtils.v
Base64.v
WpaBuf.v
EapCommon.v
EapI.v
EapServer.v
EapServerInv.v
EapMethods.v
EapServerProps.v
EapServerI.v
EapServerInst.v
EapolAuth.v
EapolAuthInv.v
EapolAuthRun.v
EapolAuthProps.v
EapolStack.v
WpaCommon.v
Pmksa.v
PmksaProps.v
PmksaSpec.v
WpaAuthI.v
WpaAuthIe.v
WpaIeProps.v
WpaIeSpec.v
WpaAuthSm.v
WpaAuth.v
WpaAuthWf.v
WpaAuthCtl.v
WpaAuthRest.v
WpaAuthRef.v
WpaAuthRun.v
WpaAuthWorld.v
WpaAuthRx.v
WpaAuthEvents.v
WpaAuthRekey.v
WpaAuthRecv.v
WpaAuthReach.v
WpaAuthInit.v
WpaAuthLive.v
WpaAuthEx.v
WpaAuthSpec.v
WpaSuppI.v
WpaSuppPmksa.v
WpaSuppIe.v
WpaSupp.v
WpaSuppWf.v
WpaSuppIeProps.v
WpaSuppRun.v
WpaSuppKeys.v
WpaSuppMsg.v
WpaSuppRx.v
WpaSuppIeGen.v
WpaSuppOps.v
WpaSuppSteps.v
WpaSuppSpec.v
WpaSuppErr.v
Handshake.v
HandshakeEx.v
Aes.v
AesProps.v
AesModes.v
AesModesProps.v
AesMac.v
Hash.v
Md5.v
Sha1.v
Sha256.v
HashProps.v
Sha1Fips.v
Hmac.v
HmacProps.v
Rc4.v
CryptoInst.v
Radius.v
RadiusRep.v
RadiusProps.v
RadiusAuth.v
RadiusKeys.v
RadiusSpec.v
