(* ===== verification/Prelude.v ===== *)
(** * Verification of the security core of athr-hostap

    This library models the core of [athr-hostap/src], the Atheros branch of hostapd
    and wpa_supplicant, and proves what makes it correct: the authenticator (IEEE
    802.1X, EAP and the WPA handshakes), the WPA supplicant at the other end of the
    handshakes, the cryptographic functions both use, and the messages of RADIUS by
    which the authenticator talks to its server.  All file names below are relative
    to [src/athr-hostap/src].

    ** The program and its model

    An access point with IEEE 802.1X runs, for every station, an EAPOL
    authenticator (eapol_auth/eapol_auth_sm.c), which controls the port, on top
    of an EAP server (eap_server/eap_server.c), which talks to the station with
    EAP methods.  The two share [struct eap_eapol_interface]; the authenticator
    drives the server by calling [eap_server_sm_step] until nothing changes, the
    server hands requests back through the shared variables, and the owner of
    the authenticator (ap/ieee802_1x.c) is told by callbacks.

    - [Prelude]: the result monad with its faults, C integers, byte lists, checked
      reads, shared lemmas and tactics (macros of utils/common.h);
    - [CommonUtils] (utils/common.c), [Base64] (utils/base64.c), [WpaBuf]
      (utils/wpabuf.c): the utilities;
    - [EapCommon] (eap_common/eap_common.c, eap_defs.h): EAP headers;
    - [EapI] (eap_server/eap_i.h, eap.h, eap_server_methods.c): data of the EAP
      server, the class [MethodLaws] every method has to keep, the registry;
    - [EapServer] (eap_server/eap_server.c, utils/state_machine.h): the EAP server,
      one definition per [SM_STATE], one for [SM_STEP], the policy functions and
      the API; [EapServerInv] its invariant, [EapServerProps] its theorems;
    - [EapMethods] (eap_server_identity.c, eap_server_md5.c, eap_common/chap.c):
      two methods, shown to keep [MethodLaws];
    - [EapServerI]: what the EAP server promises to the layer above, as the classes
      [EapServerOps] and [EapServerLaws]; [EapServerInst] discharges them;
    - [EapolAuth] (eapol_auth/eapol_auth_sm.c and its headers): the six machines of
      the authenticator, the driver, the tick, allocation and configuration, over
      any [EapServerOps] and any owner ([EapolAuthCb]); [EapolAuthInv] its
      invariant, [EapolAuthRun] the driver, [EapolAuthProps] its theorems;
    - [EapolStack]: both layers together, with a concrete port.

    When EAP is over, or with a pre-shared key at once, the WPA authenticator
    (ap/wpa_auth.c) proves to the station that it knows the pairwise master key
    and gives it the keys of the cell: the 4-way and the group key handshake.
    One state machine WPA_PTK and one WPA_PTK_GROUP per station and one machine per
    group run in the loop of [wpa_sm_step]; they start from the frames of
    [wpa_receive], from timeouts, from events of the driver and from each other,
    for a new group key steps every station.  ap/wpa_auth_glue.c answers their
    questions and gives keys to the driver.

    - [WpaCommon] (common/wpa_common.c, wpa_common.h, defs.h): suites, the parsers
      of the WPA and RSN elements, MIC, PTK and PMKID, over the class [Crypto];
    - [Pmksa] (ap/pmksa_cache_auth.c): the PMKSA cache as a heap of linked entries;
      [PmksaProps] its invariant, [PmksaSpec] its theorems;
    - [WpaAuthI] (ap/wpa_auth.h, wpa_auth_i.h): one record per structure;
    - [WpaAuthIe] (ap/wpa_auth_ie.c): elements and key data, written, parsed and
      validated; [WpaIeProps] the bytes, [WpaIeSpec] its theorems;
    - [WpaAuthSm] (ap/wpa_auth.c): what one station does by itself: EAPOL-Key frames
      ([wpa_send_eapol_] for [__wpa_send_eapol]), one definition per [SM_STATE] and
      [SM_STEP] of WPA_PTK and WPA_PTK_GROUP, the keys of a group.  The owner of the
      machines (ap/wpa_auth_glue.c), the event loop, the random pool and the
      allocator are the class [Owner]: an answer is any function of the log of
      all that happened so far, and every effect is an entry of that log;
    - [WpaAuth] (ap/wpa_auth.c): the [world] of groups and stations; the group
      machine, [wpa_sm_step], [wpa_receive], timeouts, events, [wpa_init] to
      [wpa_deinit];
    - [WpaAuthWf]: the type invariant of one station, and every entry of a state;
      [WpaAuthCtl]: the abstract machine of IEEE 802.11i (states, flags, counters;
      no keys, no frames); [WpaAuthRef], [WpaAuthRun]: the machines refine it;
      [WpaAuthRest]: stations at rest, and termination;
    - [WpaAuthWorld] the loop of [wpa_sm_step], [WpaAuthRx] and [WpaAuthRecv] the
      reception of frames, [WpaAuthEvents] and [WpaAuthRekey] the timeouts, events
      and group keys, [WpaAuthInit] the start, [WpaAuthReach] the interface as one
      function [handle] and what it reaches, [WpaAuthLive] unanswered stations;
    - [WpaAuthEx] a concrete owner and a whole handshake by evaluation, [WpaAuthSpec]
      the theorems.

    At the other end is the WPA supplicant (rsn_supp/wpa.c).  It keeps the keys and
    the replay counter of one association, is configured by wpa_supplicant, answers
    the EAPOL-Key frames that [wpa_sm_rx_eapol] gets and installs the keys; its PMKSA
    cache has pointers from outside into its list.

    - [WpaSuppI] (rsn_supp/wpa.h, wpa_i.h, pmksa_cache.h): the records; the class
      [Host] is wpa_supplicant (the callbacks of [struct wpa_sm_ctx], the EAPOL
      machine it asks for the PMK, allocator, clock, random source and former stack
      contents), again as functions of the log, with its laws [HostLaws];
    - [WpaSuppPmksa] (rsn_supp/pmksa_cache.c): the cache, with entries that are
      freed while a pointer to them is kept;
    - [WpaSuppIe] (rsn_supp/wpa_ie.c): the elements of an association and the parser
      of key data; [WpaSuppIeProps] its bounds and its agreement with the parser of
      the authenticator, [WpaSuppIeGen] what is generated;
    - [WpaSupp] (rsn_supp/wpa.c; rsn_supp/preauth.c only for [rsn_preauth_deinit]):
      the machine, one definition per function;
    - [WpaSuppWf] the type invariant, [WpaSuppRun] and [WpaSuppKeys] what the
      operations keep, [WpaSuppMsg] the messages, [WpaSuppRx] reception, [WpaSuppOps]
      the other calls, [WpaSuppSteps] the interface as one function [perform] with its
      contract [op_ok] and what it reaches, [WpaSuppSpec] the theorems, [WpaSuppErr]
      the defects;
    - [Handshake]: both ends together; [HandshakeEx]: a station joins an access point,
      by evaluation, and the witnesses.

    Both ends take the hash functions, the MACs and key wrapping from the classes
    [Crypto] and [KeyUnwrap] of [WpaCommon]; these are implemented by crypto/:

    - [Aes] (crypto/aes-internal.c, aes-internal-enc.c, aes-internal-dec.c, aes_i.h):
      AES-128 with the small tables; [AesProps]: decryption undoes encryption;
    - [AesModes] (aes-wrap.c, aes-unwrap.c, aes-omac1.c, aes-ctr.c, aes-eax.c,
      aes-cbc.c, aes-encblock.c): its modes; [AesModesProps] key wrapping against RFC
      3394, [AesMac] the MAC against SP 800-38B, and the round trips of the others;
    - [Hash]: words, buffers, blocks and padding; [Md5], [Sha1], [Sha256]
      (md5-internal.c, sha1-internal.c, sha256-internal.c): contexts, updates and
      final blocks; [HashProps]: data in pieces; [Sha1Fips]: the unrolled SHA-1 against
      FIPS 180-2;
    - [Hmac] (md5.c, sha1.c, sha256.c, sha1-pbkdf2.c): HMAC and the derivation of keys;
      [HmacProps] against RFC 2104, IEEE 802.11i and PKCS #5;
    - [Rc4] (rc4.c);
    - [CryptoInst]: the instance of the classes, its laws, and what the MIC, the PTK and
      the PMKID are with it.

    An access point that leaves authentication to a server carries the EAP packets in
    RADIUS messages (radius/radius.c), secured by a secret shared with the server:

    - [Radius]: the message (a [wpabuf], the places of its attributes in it, the
      parsed header), making, parsing, finishing and verifying it, EAP, MPPE keys,
      User-Password and the tunnel attributes.  As in the code an attribute is an
      offset in the buffer, which moves when the buffer grows; every access is
      checked against the buffer.  MD5 and HMAC-MD5 come from the class of [Hash],
      whether [os_malloc] succeeds, fresh memory and random octets are arguments;
    - [RadiusRep]: which list of attributes a message [holds], and [attr_loop], the
      walk all readers share; [RadiusProps] parsing, building, EAP and the
      readers, [RadiusAuth] authenticators and verification,
      [RadiusKeys] the hidden attributes; [RadiusSpec] the theorems.

    ** Conventions

    A C structure is a record with the source's field names; sub-records group
    fields that travel together.  [x <| f := v |>] is the assignment of a field.
    Integers are [Z]; wrap-around is written out ([u8], [u16], [u32], [s32]).
    Memory errors are values: [res A] is [Ok a] or [Fault f] with [f] an access
    outside an object, a NULL dereference, the [abort()] of [wpabuf_put] or
    exhausted fuel, and a theorem that an operation gives [Ok] says that none of
    them happens.  What a call takes from outside (whether [os_malloc] succeeds,
    random bytes, the clock) comes from an [env] that may differ at every step.
    Debug output, [wpa_hexdump] and event messages have no effect on the state
    and are left out.

    ** Bounds and fuel

    [eap_server_sm_step] loops without a bound in the source; the model runs it
    with fuel 64 and [eap_server_sm_step_total] shows that a rank below 64
    decreases in every round, so the fuel never runs out.  [eapol_sm_step_run] has
    the bound of 100 rounds in the source itself.  Loops over buffers have the
    length of the buffer as fuel, walks through the PMKSA cache its number of
    entries plus one ([pmksa_cache_get_okc] may not end: with any fuel).

    [wpa_sm_step] loops until no machine of the station changes: the model gives it
    [step_rounds] = 160 rounds, above the rank of the abstract machine
    ([WpaAuthWorld.rounds_enough]).  Its group machine may step every station,
    itself included: [step_depth] bounds the nesting by the number of groups plus
    two.  A group machine called by [wpa_rekey_gtk] changes at most 4 times in a
    row, and the walk over the list of groups has their number plus one as fuel.
    That all of this is enough is part of [wpa_auth_never_fails], which gives [Ok]
    for every call; [supplicant_runs] says so for the supplicant.

    In crypto the loops over data take their length as fuel, those over blocks the
    number of blocks; the padding loop of [SHA1Final] has 63 turns, and
    [hash_vectors_concat], [omac1_aes_128_vector_cmac] and [prf_prefixes] give the
    results, so that no fuel runs out.  Lengths are those the code's [u32] can hold
    ([fits]: 64 octets below 2^32).

    ** What the theorems show

    - safety of the port: [port_opened_by_method], [eapol_port_opened_only_by_eap],
      [eap_success_justified]: whatever the station sends and the callbacks do, the
      port opens only after an EAP method (not Identity) or the AAA server
      accepted, a key was cached, or management forced it;
    - invariants: those of the layers, [eapol_port_mirrors_driver] and, for the
      supplicant, [accepted_counters_increase];
    - termination: [eapol_step_run_total], [eap_server_sm_step_total];
    - errors: [eap_step_faults_iff_stuck] characterises the one memory error of the
      server's steps, [eap_missing_method_null_deref] reaches it,
      [eapol_conf_clone_spec] the one of the configuration;
    - protocol behaviour: discarding, retransmission, limits, Nak processing,
      quiet period, logoff, the Identity and MD5 methods;
    - the WPA authenticator, from [wpa_init] on and in any order of calls: a station
      is let in only by message 4/4 ([wpa_port_opened_by_msg4]), no call fails or
      breaks the types ([wpa_auth_never_fails]), the pairwise machine is the one of
      IEEE 802.11i ([ptk_step_refines]), an unanswered station is dropped
      ([unanswered_station_dropped]), keys come from the PMK the owner offered
      ([ptk_derived_from_offered_pmk]), replays change nothing
      ([replayed_frame_dropped]);
    - the supplicant: no call that keeps the contract fails ([supplicant_runs]),
      nothing is installed or opened without the MIC of the derived key
      ([consequences_need_mic]), counters increase, MIC verification is its
      specification ([verify_eq_spec]), and four defects;
    - both ends: the answer to message 1/4 explains its MIC at the authenticator
      ([answer_accepted]), frames of the authenticator pass the verification
      ([sent_frame_vouched]), key data decrypts to what was encrypted
      ([key_data_decrypts]), the parsers agree, and a whole handshake
      ([handshake_completes]);
    - crypto: each function is its standard ([aes_wrap_rfc3394],
      [omac1_aes_128_vector_cmac], [hash_vectors_concat], [sha1_vector_fips],
      [hmac_vectors_rfc2104], [prf_prefixes]), AES and its modes are undone by their
      inverses, the library keeps the laws of the classes ([library_implements]), and
      the handshake computes what IEEE 802.11i prescribes ([handshake_standard]);
    - RADIUS: what is parsed is what was sent, and nothing else is accepted
      ([radius_parse_exact]), verification accepts exactly the answers that know the
      secret ([radius_verify_exact]), an EAP packet of any length arrives whole
      ([radius_eap_delivered]), as do the session keys ([radius_keys_delivered]); a
      short Message-Authenticator makes the check write past its attribute
      ([radius_short_msg_auth_overrun]);
    - elements and key data: round trips, bounds, the policy of association
      ([wpa_validate_policy]); the PMKSA cache: its operations against a list, and
      the two defects of its lookup and of its expiration;
    - utilities: bounds of every read and write, round trips of hexadecimal,
      Base64 and EAP packets, the refinement of [wpabuf] to a byte string.

    ** Not modelled

    The peer side of IEEE 802.1X and EAP (eap_peer, eapol_supp), the tunnelled EAP
    methods, the RADIUS client and server (radius_client.c, radius_server.c: sockets,
    timers and sessions), the text of [radius_msg_dump], WPS, P2P, TLS; of crypto the random source (an argument),
    DES, MD4, MS-CHAP, Milenage, the TLS PRF, Diffie-Hellman and the bindings of
    libraries outside the repository; drivers, the event loop and the OS layer, the
    daemons; the older copies hostap-0.7.1, hostap-0.7.2, wpa2 and the other
    applications of the repository.

    Of ap/wpa_auth.c: the text of [wpa_get_mib] and [wpa_get_mib_sta]; fast
    transition, PeerKey and STAKey, which the build leaves out.  [wpa_reconfig],
    [wpa_auth_sta_set_vlan] and the PMKSA operations have definitions but are not
    among the calls of [handle].  ap/wpa_auth_glue.c is known by the laws of
    [Owner]; none of its callbacks re-enters the machines, and the model allows
    none.

    Of rsn_supp: the text of [wpa_sm_get_mib], [wpa_sm_get_status] and the list of the
    cache; the candidates and the second EAPOL machine of pre-authentication
    (preauth.c): [wpa_sm_start_preauth] only records that it asks for them;
    PeerKey, TDLS and fast transition, which the build leaves out. *)

From stdpp Require Export base list option numbers relations strings.
From Stdlib Require Export ZArith Lia.

(** Indices, lengths and C integers are all [Z]. *)
#[global] Open Scope Z_scope.

(** ** Faults and results *)

(** What the C program must never do: an access outside an object, a NULL
    dereference, the [abort()] of [wpabuf_overflow], and, for a loop modelled
    with fuel, the fuel running out (theorems show that it does not). *)
Inductive fault :=
  | OutOfBounds
  | NullDeref
  | Aborted
  | OutOfFuel.

Inductive res (A : Type) :=
  | Ok (a : A)
  | Fault (f : fault).
Arguments Ok {A} a.
Arguments Fault {A} f.

#[global] Instance fault_eq_dec : EqDecision fault.
Proof. solve_decision. Defined.

#[global] Instance res_ret : MRet res := fun A a => Ok a.
#[global] Instance res_bind : MBind res := fun A B k m =>
  match m with Ok a => k a | Fault f => Fault f end.
#[global] Instance res_fmap : FMap res := fun A B g m =>
  match m with Ok a => Ok (g a) | Fault f => Fault f end.

(** [no_fault m] is the safety half of a specification, [m = Ok _] the
    functional half. *)
Definition no_fault {A} (m : res A) : Prop := exists a, m = Ok a.

Section res_lemmas.
Context {A B : Type}.

Lemma bind_ok (m : res A) (k : A -> res B) b :
  (m ≫= k) = Ok b <-> exists a, m = Ok a /\ k a = Ok b.
Proof.
  destruct m as [a|f]; cbn; split.
  - eauto.
  - by intros (? & [= ->] & ?).
  - done.
  - by intros (? & ? & ?).
Qed.

Lemma bind_eq (m : res A) (k : A -> res B) a : m = Ok a -> (m ≫= k) = k a.
Proof. by intros ->. Qed.

Lemma bind_fault (m : res A) (k : A -> res B) f : m = Fault f -> (m ≫= k) = Fault f.
Proof. by intros ->. Qed.

Lemma no_fault_ok (a : A) : no_fault (Ok a).
Proof. by exists a. Qed.

Lemma no_fault_bind (m : res A) (k : A -> res B) :
  no_fault m -> (forall a, m = Ok a -> no_fault (k a)) -> no_fault (m ≫= k).
Proof. intros [a ->] Hk. by apply Hk. Qed.
End res_lemmas.

(** [runs m P]: [m] returns, without a fault, something with [P]. *)
Definition runs {A} (m : res A) (P : A -> Prop) : Prop := exists a, m = Ok a /\ P a.

Lemma runs_ret {A} (a : A) P : P a -> runs (mret a) P.
Proof. by exists a. Qed.
Lemma runs_bind {A B} (m : res A) (k : A -> res B) P Q :
  runs m P -> (forall a, P a -> runs (k a) Q) -> runs (m ≫= k) Q.
Proof. intros (a & -> & Ha) Hk. by apply Hk. Qed.
Lemma runs_weaken {A} (m : res A) (P Q : A -> Prop) :
  runs m P -> (forall a, P a -> Q a) -> runs m Q.
Proof. intros (a & -> & Ha) H. exists a. auto. Qed.
Lemma runs_inv {A} (m : res A) P a : runs m P -> m = Ok a -> P a.
Proof. intros (b & -> & Hb) [= ->]. done. Qed.

(** The first statement of a block [t] runs, and gives [b] with [H]. *)
Tactic Notation "rstep" tactic3(t) "as" simple_intropattern(b) ident(H) :=
  eapply runs_bind; [t|cbn beta; intros b H].

(** ** Logs *)

(** A log, newest first, grew by entries with [P]. *)
Definition log_ext {A} (P : A -> Prop) (l l' : list A) : Prop := exists d, l' = d ++ l /\ Forall P d.

Lemma log_ext_refl {A} (P : A -> Prop) l : log_ext P l l.
Proof. by exists []. Qed.
Lemma log_ext_trans {A} (P : A -> Prop) l1 l2 l3 : log_ext P l1 l2 -> log_ext P l2 l3 -> log_ext P l1 l3.
Proof.
  intros (d1 & -> & H1) (d2 & -> & H2). exists (d2 ++ d1). rewrite app_assoc.
  split; [done|]. by apply Forall_app.
Qed.
Lemma log_ext_cons {A} (P : A -> Prop) c l : P c -> log_ext P l (c :: l).
Proof. intros. exists [c]. split; [done|by constructor]. Qed.
Lemma log_ext_weaken {A} (P Q : A -> Prop) l l' : (forall c, P c -> Q c) -> log_ext P l l' -> log_ext Q l l'.
Proof. intros HPQ (d & -> & H). exists d. split; [done|]. by eapply Forall_impl. Qed.

(** ** Record update

    [r <| f := v |>] is the C assignment [r->f = v;].  The updated field's
    setter is found by eta-expanding the record, so no setter has to be
    written by hand. *)
Class Setter {R T : Type} (f : R -> T) := put : (T -> T) -> R -> R.

Ltac eta_record r :=
  let R := type of r in
  let m := open_constr:(ltac:(econstructor) : R) in
  let _ := constr:(eq_refl : m = r) in m.

Ltac solve_setter :=
  lazymatch goal with
  | |- @Setter ?R ?T ?f =>
      let u := fresh "u" in
      let r := fresh "r" in
      hnf; intros u r;
      let e := eta_record r in
      let g := eval cbv beta in (f r) in
      match e with context C [g] => let e' := context C [u g] in exact e' end
  end.
#[global] Hint Extern 0 (Setter _) => solve_setter : typeclass_instances.

Notation "r <| f := v |>" := (put (f := f) (fun _ => v) r)
  (at level 1, f constr at level 10, v constr at level 200,
   left associativity, format "r <|  f  :=  v  |>") : Z_scope.
Notation "r <| f := v |>" := (put (f := f) (fun _ => v) r) : stdpp_scope.
(** [r->g.f = v;] *)
Notation "r <| g ; f := v |>" := (put (f := g) (put (f := f) (fun _ => v)) r)
  (at level 1, g constr at level 10, f constr at level 10, v constr at level 200,
   left associativity, format "r <|  g  ;  f  :=  v  |>") : Z_scope.
Notation "r <| g ; f := v |>" := (put (f := g) (put (f := f) (fun _ => v)) r) : stdpp_scope.

(** ** Machine integers *)

(** [lia] with division and modulus by constants. *)
Ltac zlia := Z.to_euclidean_division_equations; lia.

Definition u8 (z : Z) : Z := z mod 256.
Definition u16 (z : Z) : Z := z mod 65536.
Definition u32 (z : Z) : Z := z mod 4294967296.
(** [size_t] of the MIPS32 access points this code is built for. *)
Definition size_t (z : Z) : Z := z mod 4294967296.

Definition is_byte (b : Z) : Prop := 0 <= b < 256.
#[global] Instance is_byte_dec b : Decision (is_byte b).
Proof. unfold is_byte. apply _. Defined.

Abbreviation bytes := (Forall is_byte).

Lemma u8_byte z : is_byte (u8 z).
Proof. unfold is_byte, u8. zlia. Qed.
Lemma u8_id z : is_byte z -> u8 z = z.
Proof. unfold is_byte, u8. intros. by apply Z.mod_small. Qed.
Lemma u16_id z : 0 <= z < 65536 -> u16 z = z.
Proof. unfold u16. intros. by apply Z.mod_small. Qed.
Lemma u32_id z : 0 <= z < 4294967296 -> u32 z = z.
Proof. unfold u32. intros. by apply Z.mod_small. Qed.
Lemma size_t_id z : 0 <= z < 4294967296 -> size_t z = z.
Proof. unfold size_t. intros. by apply Z.mod_small. Qed.

(** Bitwise composition of disjoint fields is addition. *)
Lemma lor_shiftl_add a b n :
  0 <= n -> 0 <= b < 2 ^ n -> Z.lor (Z.shiftl a n) b = a * 2 ^ n + b.
Proof.
  intros Hn Hb. rewrite <- Z.shiftl_mul_pow2 by done.
  rewrite <- Z.lxor_lor, <- Z.add_nocarry_lxor; [done | |].
  all: apply Z.bits_inj'; intros i Hi; rewrite Z.land_spec, Z.bits_0;
    destruct (Z.lt_ge_cases i n);
    [ rewrite Z.shiftl_spec_low by done; done
    | rewrite <- (Z.mod_small b (2 ^ n)), Z.mod_pow2_bits_high by lia;
      apply andb_false_r ].
Qed.

Lemma land_ones_mod a n : 0 <= n -> Z.land a (2 ^ n - 1) = a mod 2 ^ n.
Proof. intros. rewrite <- Z.land_ones, Z.ones_equiv by done. f_equal; lia. Qed.

Lemma land_255 a : Z.land a 255 = a mod 256.
Proof. exact (land_ones_mod a 8 ltac:(lia)). Qed.

(** ** Byte buffers *)

Definition zlen {A} (l : list A) : Z := Z.of_nat (length l).

(** [l[i]]: the read of one byte, a fault outside the object. *)
Definition rd (l : list Z) (i : Z) : res Z :=
  if (0 <=? i) && (i <? zlen l) then Ok (nth (Z.to_nat i) l 0)
  else Fault OutOfBounds.

(** [memcpy(dst, l + i, n)]: the [n] bytes at [i]. *)
Definition rd_n (l : list Z) (i n : Z) : res (list Z) :=
  if (0 <=? i) && (0 <=? n) && (i + n <=? zlen l)
  then Ok (take (Z.to_nat n) (drop (Z.to_nat i) l))
  else Fault OutOfBounds.

Lemma zlen_nonneg {A} (l : list A) : 0 <= zlen l.
Proof. unfold zlen. lia. Qed.
Lemma zlen_app {A} (l k : list A) : zlen (l ++ k) = zlen l + zlen k.
Proof. unfold zlen. rewrite length_app. lia. Qed.
Lemma zlen_cons {A} (x : A) l : zlen (x :: l) = 1 + zlen l.
Proof. unfold zlen. cbn [length]. lia. Qed.
Lemma zlen_replicate {A} n (x : A) : zlen (replicate n x) = Z.of_nat n.
Proof. unfold zlen. by rewrite length_replicate. Qed.

(** Normalises the lengths in goal and context. *)
Ltac zlen_simpl :=
  rewrite ?zlen_app, ?zlen_cons, ?zlen_replicate in *;
  change (zlen (@nil Z)) with 0 in *.

(** Arithmetic about buffer lengths. *)
Ltac zlen_lia :=
  zlen_simpl;
  repeat match goal with
  | |- context [zlen ?l] =>
      lazymatch goal with H : 0 <= zlen l |- _ => fail | _ => pose proof (zlen_nonneg l) end
  | _ : context [zlen ?l] |- _ =>
      lazymatch goal with H : 0 <= zlen l |- _ => fail | _ => pose proof (zlen_nonneg l) end
  end; lia.

Lemma rd_ok l i : 0 <= i < zlen l -> rd l i = Ok (nth (Z.to_nat i) l 0).
Proof.
  intros. unfold rd.
  rewrite (proj2 (Z.leb_le 0 i)), (proj2 (Z.ltb_lt i (zlen l))) by lia. done.
Qed.

Lemma rd_lookup l i b : 0 <= i -> l !! Z.to_nat i = Some b -> rd l i = Ok b.
Proof.
  intros Hi Hl. pose proof (lookup_lt_Some _ _ _ Hl).
  rewrite rd_ok by (unfold zlen; lia). f_equal.
  rewrite nth_lookup, Hl. done.
Qed.

Lemma rd_inv l i b : rd l i = Ok b -> 0 <= i < zlen l /\ b = nth (Z.to_nat i) l 0.
Proof.
  unfold rd. destruct (Z.leb_spec 0 i), (Z.ltb_spec i (zlen l)); cbn; naive_solver lia.
Qed.

Lemma rd_byte l i b : bytes l -> rd l i = Ok b -> is_byte b.
Proof.
  intros Hl [Hi ->]%rd_inv. unfold zlen in Hi.
  eapply Forall_forall; [exact Hl|].
  apply list_elem_of_In, nth_In. lia.
Qed.

Lemma rd_app_l l k i : 0 <= i < zlen l -> rd (l ++ k) i = rd l i.
Proof.
  intros. pose proof (zlen_nonneg k). rewrite !rd_ok by (rewrite ?zlen_app; lia).
  f_equal. apply app_nth1. unfold zlen in *. lia.
Qed.

Lemma rd_app_r l k i : zlen l <= i < zlen l + zlen k ->
  rd (l ++ k) i = rd k (i - zlen l).
Proof.
  intros. pose proof (zlen_nonneg l). rewrite !rd_ok by (rewrite ?zlen_app; lia).
  f_equal. unfold zlen in *. rewrite app_nth2 by lia. f_equal. lia.
Qed.

Lemma rd_n_ok l i n : 0 <= i -> 0 <= n -> i + n <= zlen l ->
  rd_n l i n = Ok (take (Z.to_nat n) (drop (Z.to_nat i) l)).
Proof.
  intros. unfold rd_n.
  rewrite (proj2 (Z.leb_le 0 i)), (proj2 (Z.leb_le 0 n)),
    (proj2 (Z.leb_le (i + n) (zlen l))) by lia. done.
Qed.

Lemma rd_n_app_mid l k r :
  rd_n (l ++ k ++ r) (zlen l) (zlen k) = Ok k.
Proof.
  pose proof (zlen_nonneg l); pose proof (zlen_nonneg k); pose proof (zlen_nonneg r).
  rewrite rd_n_ok by (rewrite ?zlen_app; lia).
  unfold zlen. rewrite !Nat2Z.id, drop_app_length, take_app_length. done.
Qed.

Lemma rd_n_all l : rd_n l 0 (zlen l) = Ok l.
Proof.
  pose proof (zlen_nonneg l). rewrite rd_n_ok by lia.
  unfold zlen. rewrite Nat2Z.id. cbn. by rewrite take_ge.
Qed.

(** ** Big and little endian fields: the [WPA_GET_*]/[WPA_PUT_*] macros *)

Definition WPA_GET_BE16 (a : list Z) (o : Z) : res Z :=
  a0 ← rd a o; a1 ← rd a (o + 1);
  mret (u16 (Z.lor (Z.shiftl a0 8) a1)).

Definition WPA_PUT_BE16 (val : Z) : list Z :=
  [u8 (Z.shiftr (u16 val) 8); Z.land (u16 val) 255].

Definition WPA_GET_LE16 (a : list Z) (o : Z) : res Z :=
  a0 ← rd a o; a1 ← rd a (o + 1);
  mret (u16 (Z.lor (Z.shiftl a1 8) a0)).

Definition WPA_PUT_LE16 (val : Z) : list Z :=
  [Z.land (u16 val) 255; u8 (Z.shiftr (u16 val) 8)].

Definition WPA_GET_BE24 (a : list Z) (o : Z) : res Z :=
  a0 ← rd a o; a1 ← rd a (o + 1); a2 ← rd a (o + 2);
  mret (Z.lor (Z.lor (Z.shiftl a0 16) (Z.shiftl a1 8)) a2).

Definition WPA_PUT_BE24 (val : Z) : list Z :=
  [u8 (Z.land (Z.shiftr (u32 val) 16) 255);
   u8 (Z.land (Z.shiftr (u32 val) 8) 255);
   u8 (Z.land (u32 val) 255)].

Definition WPA_GET_BE32 (a : list Z) (o : Z) : res Z :=
  a0 ← rd a o; a1 ← rd a (o + 1); a2 ← rd a (o + 2); a3 ← rd a (o + 3);
  mret (Z.lor (Z.lor (Z.lor (Z.shiftl a0 24) (Z.shiftl a1 16)) (Z.shiftl a2 8)) a3).

Definition WPA_PUT_BE32 (val : Z) : list Z :=
  [u8 (Z.land (Z.shiftr (u32 val) 24) 255);
   u8 (Z.land (Z.shiftr (u32 val) 16) 255);
   u8 (Z.land (Z.shiftr (u32 val) 8) 255);
   u8 (Z.land (u32 val) 255)].

Definition WPA_PUT_LE32 (val : Z) : list Z :=
  [u8 (Z.land (u32 val) 255);
   u8 (Z.land (Z.shiftr (u32 val) 8) 255);
   u8 (Z.land (Z.shiftr (u32 val) 16) 255);
   u8 (Z.land (Z.shiftr (u32 val) 24) 255)].

Lemma rd_shift l k i : 0 <= i < zlen k -> rd (l ++ k) (zlen l + i) = rd k i.
Proof. intros. rewrite rd_app_r by lia. f_equal. lia. Qed.

Lemma rd_shift0 l k : 0 < zlen k -> rd (l ++ k) (zlen l) = rd k 0.
Proof. intros. rewrite rd_app_r by lia. f_equal. lia. Qed.

Lemma rd_total l i : 0 <= i < zlen l -> bytes l ->
  exists b, rd l i = Ok b /\ is_byte b.
Proof.
  intros Hi Hl. exists (nth (Z.to_nat i) l 0). split; [by apply rd_ok|].
  eapply rd_byte; [done|]. by apply rd_ok.
Qed.

Lemma be16_value a b : is_byte a -> is_byte b ->
  u16 (Z.lor (Z.shiftl a 8) b) = a * 256 + b.
Proof.
  unfold is_byte. intros. rewrite (lor_shiftl_add a b 8) by (change (2 ^ 8) with 256; lia).
  change (2 ^ 8) with 256. apply u16_id. lia.
Qed.

Lemma be24_value a b c : is_byte a -> is_byte b -> is_byte c ->
  Z.lor (Z.lor (Z.shiftl a 16) (Z.shiftl b 8)) c = a * 65536 + b * 256 + c.
Proof.
  unfold is_byte. intros.
  rewrite (lor_shiftl_add a (Z.shiftl b 8) 16)
    by (rewrite ?Z.shiftl_mul_pow2 by lia; change (2 ^ 8) with 256; change (2 ^ 16) with 65536; lia).
  rewrite Z.shiftl_mul_pow2 by lia.
  replace (a * 2 ^ 16 + b * 2 ^ 8) with (Z.shiftl (a * 256 + b) 8)
    by (rewrite Z.shiftl_mul_pow2 by lia; change (2 ^ 8) with 256; change (2 ^ 16) with 65536; lia).
  rewrite lor_shiftl_add by (change (2 ^ 8) with 256; lia).
  change (2 ^ 8) with 256. lia.
Qed.

Lemma be32_value a b c d : is_byte a -> is_byte b -> is_byte c -> is_byte d ->
  Z.lor (Z.lor (Z.lor (Z.shiftl a 24) (Z.shiftl b 16)) (Z.shiftl c 8)) d =
  a * 16777216 + b * 65536 + c * 256 + d.
Proof.
  intros Ha Hb Hc Hd.
  replace (Z.lor (Z.lor (Z.shiftl a 24) (Z.shiftl b 16)) (Z.shiftl c 8))
    with (Z.shiftl (Z.lor (Z.lor (Z.shiftl a 16) (Z.shiftl b 8)) c) 8)
    by (rewrite !Z.shiftl_lor, !Z.shiftl_shiftl by lia; done).
  rewrite be24_value by done. unfold is_byte in *.
  rewrite lor_shiftl_add by (change (2 ^ 8) with 256; lia).
  change (2 ^ 8) with 256. lia.
Qed.

(** Reading a field that lies inside a byte buffer succeeds. *)
Lemma WPA_GET_BE16_total l o : bytes l -> 0 <= o -> o + 2 <= zlen l ->
  exists v, WPA_GET_BE16 l o = Ok v /\ 0 <= v < 65536.
Proof.
  intros Hl ??. unfold WPA_GET_BE16.
  destruct (rd_total l o) as (a & -> & Ha); [lia | done |].
  destruct (rd_total l (o + 1)) as (b & -> & Hb); [lia | done |].
  cbn. rewrite be16_value by done. eexists; split; [done|]. unfold is_byte in *. lia.
Qed.

Lemma WPA_GET_BE24_total l o : bytes l -> 0 <= o -> o + 3 <= zlen l ->
  exists v, WPA_GET_BE24 l o = Ok v /\ 0 <= v < 16777216.
Proof.
  intros Hl ??. unfold WPA_GET_BE24.
  destruct (rd_total l o) as (a & -> & Ha); [lia | done |].
  destruct (rd_total l (o + 1)) as (b & -> & Hb); [lia | done |].
  destruct (rd_total l (o + 2)) as (c & -> & Hc); [lia | done |].
  cbn. rewrite be24_value by done. eexists; split; [done|]. unfold is_byte in *. lia.
Qed.

Lemma WPA_GET_BE32_total l o : bytes l -> 0 <= o -> o + 4 <= zlen l ->
  exists v, WPA_GET_BE32 l o = Ok v /\ 0 <= v < 4294967296.
Proof.
  intros Hl ??. unfold WPA_GET_BE32.
  destruct (rd_total l o) as (a & -> & Ha); [lia | done |].
  destruct (rd_total l (o + 1)) as (b & -> & Hb); [lia | done |].
  destruct (rd_total l (o + 2)) as (c & -> & Hc); [lia | done |].
  destruct (rd_total l (o + 3)) as (d & -> & Hd); [lia | done |].
  cbn. rewrite be32_value by done. eexists; split; [done|]. unfold is_byte in *. lia.
Qed.

Lemma zlen_BE16 v : zlen (WPA_PUT_BE16 v) = 2.
Proof. done. Qed.
Lemma WPA_PUT_BE16_bytes v : bytes (WPA_PUT_BE16 v).
Proof.
  unfold WPA_PUT_BE16. rewrite land_255.
  constructor; [apply u8_byte|]. constructor; [apply (u8_byte (u16 v)) | constructor].
Qed.
Lemma WPA_PUT_BE24_bytes v : bytes (WPA_PUT_BE24 v).
Proof. unfold WPA_PUT_BE24. repeat constructor; apply u8_byte. Qed.
Lemma WPA_PUT_BE32_bytes v : bytes (WPA_PUT_BE32 v).
Proof. unfold WPA_PUT_BE32. repeat constructor; apply u8_byte. Qed.

(** A field written with [WPA_PUT_*] is read back by [WPA_GET_*], modulo the
    width of the field. *)
Lemma WPA_GET_PUT_BE16 l v r :
  WPA_GET_BE16 (l ++ WPA_PUT_BE16 v ++ r) (zlen l) = Ok (u16 v).
Proof.
  unfold WPA_GET_BE16, WPA_PUT_BE16. pose proof (zlen_nonneg r).
  rewrite rd_shift0, rd_shift by zlen_lia.
  erewrite !rd_lookup by (lia || reflexivity). cbn.
  rewrite land_255, Z.shiftr_div_pow2 by lia. change (2 ^ 8) with 256.
  rewrite be16_value by (apply u8_byte || apply (u8_byte (u16 v))).
  f_equal. unfold u8, u16. zlia.
Qed.

Lemma WPA_GET_PUT_BE24 l v r :
  WPA_GET_BE24 (l ++ WPA_PUT_BE24 v ++ r) (zlen l) = Ok (v mod 16777216).
Proof.
  unfold WPA_GET_BE24, WPA_PUT_BE24. pose proof (zlen_nonneg r).
  rewrite rd_shift0, !rd_shift by zlen_lia.
  erewrite !rd_lookup by (lia || reflexivity). cbn.
  rewrite !land_255, !Z.shiftr_div_pow2 by lia.
  change (2 ^ 8) with 256; change (2 ^ 16) with 65536.
  rewrite be24_value by apply u8_byte. f_equal. unfold u8, u32. zlia.
Qed.

Lemma WPA_GET_PUT_BE32 l v r :
  WPA_GET_BE32 (l ++ WPA_PUT_BE32 v ++ r) (zlen l) = Ok (u32 v).
Proof.
  unfold WPA_GET_BE32, WPA_PUT_BE32. pose proof (zlen_nonneg r).
  rewrite rd_shift0, !rd_shift by zlen_lia.
  erewrite !rd_lookup by (lia || reflexivity). cbn.
  rewrite !land_255, !Z.shiftr_div_pow2 by lia.
  change (2 ^ 8) with 256; change (2 ^ 16) with 65536; change (2 ^ 24) with 16777216.
  rewrite be32_value by apply u8_byte. f_equal. unfold u8, u32. zlia.
Qed.

(** ** Writes into a buffer *)

(** [l[i] = v]. *)
Definition wr (l : list Z) (i v : Z) : res (list Z) :=
  if (0 <=? i) && (i <? zlen l) then Ok (<[Z.to_nat i := v]> l)
  else Fault OutOfBounds.

(** [memcpy(l + i, d, zlen d)]. *)
Definition wr_n (l : list Z) (i : Z) (d : list Z) : res (list Z) :=
  if (0 <=? i) && (i + zlen d <=? zlen l)
  then Ok (take (Z.to_nat i) l ++ d ++ drop (Z.to_nat i + length d) l)
  else Fault OutOfBounds.

Lemma wr_ok l i v : 0 <= i < zlen l -> wr l i v = Ok (<[Z.to_nat i := v]> l).
Proof.
  intros. unfold wr.
  rewrite (proj2 (Z.leb_le 0 i)), (proj2 (Z.ltb_lt i (zlen l))) by lia. done.
Qed.

Lemma wr_inv l i v l' : wr l i v = Ok l' ->
  0 <= i < zlen l /\ l' = <[Z.to_nat i := v]> l.
Proof.
  unfold wr. destruct (Z.leb_spec 0 i), (Z.ltb_spec i (zlen l)); cbn; naive_solver lia.
Qed.

Lemma zlen_insert (l : list Z) n v : zlen (<[n := v]> l) = zlen l.
Proof. unfold zlen. by rewrite length_insert. Qed.

Lemma wr_n_ok l i d : 0 <= i -> i + zlen d <= zlen l ->
  wr_n l i d = Ok (take (Z.to_nat i) l ++ d ++ drop (Z.to_nat i + length d) l).
Proof.
  intros. unfold wr_n.
  rewrite (proj2 (Z.leb_le 0 i)), (proj2 (Z.leb_le (i + zlen d) (zlen l))) by lia. done.
Qed.

Lemma wr_n_inv l i d l' : wr_n l i d = Ok l' ->
  0 <= i /\ i + zlen d <= zlen l /\
  l' = take (Z.to_nat i) l ++ d ++ drop (Z.to_nat i + length d) l.
Proof.
  unfold wr_n.
  destruct (Z.leb_spec 0 i), (Z.leb_spec (i + zlen d) (zlen l)); cbn; naive_solver lia.
Qed.

(** Writing at the split point of a buffer replaces exactly the bytes there. *)
Lemma wr_n_app p d0 r d : length d0 = length d ->
  wr_n (p ++ d0 ++ r) (zlen p) d = Ok (p ++ d ++ r).
Proof.
  intros Hd. assert (zlen d0 = zlen d) by (unfold zlen; lia).
  rewrite wr_n_ok by zlen_lia. unfold zlen. rewrite Nat2Z.id, take_app_length.
  do 3 f_equal. rewrite <- Hd, <- length_app, app_assoc. apply drop_app_length.
Qed.

Lemma wr_n_length l i d l' : wr_n l i d = Ok l' -> zlen l' = zlen l.
Proof.
  intros (? & Hle & ->)%wr_n_inv. unfold zlen in *.
  rewrite !length_app, length_take, length_drop. lia.
Qed.

Lemma wr_n_runs buf i d : 0 <= i -> i + zlen d <= zlen buf ->
  exists buf', wr_n buf i d = Ok buf' /\ zlen buf' = zlen buf.
Proof.
  intros. eexists. split; [by apply wr_n_ok|].
  eapply wr_n_length. by apply wr_n_ok.
Qed.

Lemma rd_n_runs l i n : 0 <= i -> 0 <= n -> i + n <= zlen l ->
  exists d, rd_n l i n = Ok d /\ zlen d = n.
Proof.
  intros. eexists. split; [by apply rd_n_ok|]. unfold zlen in *.
  rewrite length_take, length_drop. lia.
Qed.
