(* ===== verification/CommonUtils.v ===== *)
(** * utils/common.c: hexadecimal text, MAC addresses, counters

    Models [athr-hostap/src/utils/common.c].  A C string is the list of its
    bytes with the terminating NUL included, read through [rd], so that a
    theorem "no fault" says that a parser stops at the terminator. *)

From S2P Require Import Prelude.

Definition ETH_ALEN : nat := 6.

(** Character constants of the source. *)
Definition chr_0 : Z := 48.
Definition chr_9 : Z := 57.
Definition chr_a : Z := 97.
Definition chr_f : Z := 102.
Definition chr_A : Z := 65.
Definition chr_F : Z := 70.
Definition chr_colon : Z := 58.
Definition chr_dot : Z := 46.
Definition chr_dash : Z := 45.
Definition chr_underscore : Z := 95.

Definition hex2num (c : Z) : Z :=
  if (chr_0 <=? c) && (c <=? chr_9) then c - chr_0
  else if (chr_a <=? c) && (c <=? chr_f) then c - chr_a + 10
  else if (chr_A <=? c) && (c <=? chr_F) then c - chr_A + 10
  else -1.

(** The two digits at [hex + o]; the second one is read only when the first is
    a digit. *)
Definition hex2byte (hex : list Z) (o : Z) : res Z :=
  c ← rd hex o;
  let a := hex2num c in
  if a <? 0 then mret (-1) else
  c ← rd hex (o + 1);
  let b := hex2num c in
  if b <? 0 then mret (-1) else
  mret (Z.lor (Z.shiftl a 4) b).

(** The parsers return the C return value and the bytes stored at [addr]. *)
Fixpoint hwaddr_aton_loop (n : nat) (i : Z) (txt : list Z) (pos : Z)
    (addr : list Z) : res (Z * list Z) :=
  match n with
  | O => mret (0, addr)
  | S n =>
      c ← rd txt pos;
      let a := hex2num c in
      if a <? 0 then mret (-1, addr) else
      c ← rd txt (pos + 1);
      let b := hex2num c in
      if b <? 0 then mret (-1, addr) else
      let addr := addr ++ [u8 (Z.lor (Z.shiftl a 4) b)] in
      if i <? 5 then
        d ← rd txt (pos + 2);
        if negb (d =? chr_colon) then mret (-1, addr)
        else hwaddr_aton_loop n (i + 1) txt (pos + 3) addr
      else hwaddr_aton_loop n (i + 1) txt (pos + 2) addr
  end.

Definition hwaddr_aton (txt : list Z) : res (Z * list Z) :=
  hwaddr_aton_loop 6 0 txt 0 [].

Fixpoint hwaddr_compact_aton_loop (n : nat) (txt : list Z) (pos : Z)
    (addr : list Z) : res (Z * list Z) :=
  match n with
  | O => mret (0, addr)
  | S n =>
      c ← rd txt pos;
      let a := hex2num c in
      if a <? 0 then mret (-1, addr) else
      c ← rd txt (pos + 1);
      let b := hex2num c in
      if b <? 0 then mret (-1, addr) else
      hwaddr_compact_aton_loop n txt (pos + 2)
        (addr ++ [u8 (Z.lor (Z.shiftl a 4) b)])
  end.

Definition hwaddr_compact_aton (txt : list Z) : res (Z * list Z) :=
  hwaddr_compact_aton_loop 6 txt 0 [].

Definition is_delim (c : Z) : bool :=
  (c =? chr_colon) || (c =? chr_dot) || (c =? chr_dash).

(** The inner [while] loop of [hwaddr_aton2]: skip [:], [.] and [-]. *)
Fixpoint skip_delims (fuel : nat) (txt : list Z) (pos : Z) : res Z :=
  match fuel with
  | O => Fault OutOfFuel
  | S fuel =>
      c ← rd txt pos;
      if is_delim c then skip_delims fuel txt (pos + 1) else mret pos
  end.

Fixpoint hwaddr_aton2_loop (n : nat) (txt : list Z) (pos : Z)
    (addr : list Z) : res (Z * list Z) :=
  match n with
  | O => mret (pos, addr)
  | S n =>
      pos ← skip_delims (S (length txt)) txt pos;
      c ← rd txt pos;
      let a := hex2num c in
      if a <? 0 then mret (-1, addr) else
      c ← rd txt (pos + 1);
      let b := hex2num c in
      if b <? 0 then mret (-1, addr) else
      hwaddr_aton2_loop n txt (pos + 2)
        (addr ++ [u8 (Z.lor (Z.shiftl a 4) b)])
  end.

Definition hwaddr_aton2 (txt : list Z) : res (Z * list Z) :=
  hwaddr_aton2_loop 6 txt 0 [].

Fixpoint hexstr2bin_loop (n : nat) (hex : list Z) (ipos : Z)
    (buf : list Z) : res (Z * list Z) :=
  match n with
  | O => mret (0, buf)
  | S n =>
      a ← hex2byte hex ipos;
      if a <? 0 then mret (-1, buf)
      else hexstr2bin_loop n hex (ipos + 2) (buf ++ [u8 a])
  end.

Definition hexstr2bin (hex : list Z) (len : nat) : res (Z * list Z) :=
  hexstr2bin_loop len hex 0 [].

(** [counter[pos]++] from the last byte while the byte wraps to zero; [n] is
    [pos + 1]. *)
Fixpoint inc_byte_array_loop (n : nat) (counter : list Z) : res (list Z) :=
  match n with
  | O => mret counter
  | S pos =>
      c ← rd counter (Z.of_nat pos);
      let c := u8 (c + 1) in
      counter ← wr counter (Z.of_nat pos) c;
      if negb (c =? 0) then mret counter else inc_byte_array_loop pos counter
  end.

Definition inc_byte_array (counter : list Z) (len : nat) : res (list Z) :=
  inc_byte_array_loop len counter.

(** [now.sec] and [now.usec] of [os_get_time] are the arguments. *)
Definition wpa_get_ntp_timestamp (now_sec now_usec : Z) : list Z :=
  let sec := u32 (now_sec + 2208988800) in
  let usec := u32 now_usec in
  let usec := u32 (u32 (u32 (4295 * usec) - Z.shiftr usec 5) - Z.shiftr usec 9) in
  WPA_PUT_BE32 sec ++ WPA_PUT_BE32 usec.

Definition hex_digit (uppercase : bool) (d : Z) : Z :=
  if d <? 10 then chr_0 + d
  else (if uppercase then chr_A else chr_a) + (d - 10).

(** [os_snprintf(pos, room, "%02x", b)] on a byte: the text needs 2 characters
    and a NUL; what does not fit in [room] bytes is cut. *)
Definition snprintf_02x (uppercase : bool) (buf : list Z) (pos room b : Z)
    : res (Z * list Z) :=
  let text := [hex_digit uppercase (Z.shiftr b 4);
               hex_digit uppercase (Z.land b 15)] in
  buf ← (if room <=? 0 then mret buf
         else wr_n buf pos (take (Z.to_nat (room - 1)) text ++ [0]));
  mret (2, buf).

Fixpoint wpa_snprintf_hex_loop (uppercase : bool) (buf : list Z)
    (buf_size : Z) (pos : Z) (data : list Z) : res (Z * list Z) :=
  match data with
  | [] =>
      buf ← wr buf (buf_size - 1) 0;
      mret (pos, buf)
  | b :: data =>
      '(ret, buf) ← snprintf_02x uppercase buf pos (buf_size - pos) b;
      if (ret <? 0) || (buf_size - pos <=? ret) then
        buf ← wr buf (buf_size - 1) 0;
        mret (pos, buf)
      else wpa_snprintf_hex_loop uppercase buf buf_size (pos + ret) data
  end.

(** [_wpa_snprintf_hex]: the number of characters written and the buffer. *)
Definition wpa_snprintf_hex_ (buf : list Z) (buf_size : Z) (data : list Z)
    (uppercase : bool) : res (Z * list Z) :=
  if buf_size =? 0 then mret (0, buf)
  else wpa_snprintf_hex_loop uppercase buf buf_size 0 data.

Definition wpa_snprintf_hex (buf : list Z) (buf_size : Z) (data : list Z) :=
  wpa_snprintf_hex_ buf buf_size data false.

Definition wpa_snprintf_hex_uppercase (buf : list Z) (buf_size : Z) (data : list Z) :=
  wpa_snprintf_hex_ buf buf_size data true.

Fixpoint ssid_mask (txt : list Z) : list Z :=
  match txt with
  | [] => []
  | c :: txt =>
      if c =? 0 then c :: txt
      else (if (u8 c <? 32) || (127 <=? u8 c) then chr_underscore else c) :: ssid_mask txt
  end.

(** The contents of the 33 byte static buffer after the call; [old] is what an
    earlier call left in it. *)
Definition wpa_ssid_txt (old ssid : list Z) (ssid_len : Z) : res (list Z) :=
  let ssid_len := if 32 <? ssid_len then 32 else ssid_len in
  d ← rd_n ssid 0 ssid_len;
  txt ← wr_n old 0 d;
  txt ← wr txt ssid_len 0;
  mret (ssid_mask txt).

(** ** Parsers stop at the terminator *)

Lemma hex2num_digit c : 0 <= hex2num c -> c <> 0.
Proof. unfold hex2num. intros H ->. revert H. cbn. lia. Qed.

Lemma hex2num_range c : -1 <= hex2num c <= 15.
Proof.
  unfold hex2num, chr_0, chr_9, chr_a, chr_f, chr_A, chr_F.
  repeat case_match; lia.
Qed.

Lemma rd_before txt n x p : rd txt n = Ok x -> 0 <= p <= n ->
  exists b, rd txt p = Ok b /\ (b <> x -> p < n).
Proof.
  intros Hn Hp. destruct (rd_inv _ _ _ Hn) as [Hr _].
  exists (nth (Z.to_nat p) txt 0). rewrite rd_ok by lia. split; [done|].
  intros Hne. destruct (decide (p = n)) as [->|]; [|lia].
  rewrite rd_ok in Hn by lia. congruence.
Qed.

Section terminated.
Context (txt : list Z) (n : Z) (Hnul : rd txt n = Ok 0).

(** One character at or before the terminator can be read; when it is not the
    terminator the next one can be read as well. *)
Ltac next_char p :=
  let c := fresh "c" in let E := fresh "E" in let H := fresh "Hc" in
  destruct (rd_before txt n 0 p Hnul) as (c & E & H); [lia|];
  rewrite E; cbn [mbind res_bind].

Lemma hwaddr_aton_loop_no_fault k i pos addr :
  0 <= pos <= n -> no_fault (hwaddr_aton_loop k i txt pos addr).
Proof.
  revert i pos addr. induction k as [|k IH]; intros i pos addr Hp; [apply no_fault_ok|].
  cbn [hwaddr_aton_loop]. next_char pos.
  destruct (Z.ltb_spec (hex2num c) 0); [apply no_fault_ok|].
  assert (pos < n) by (apply Hc, hex2num_digit; lia). next_char (pos + 1).
  destruct (Z.ltb_spec (hex2num c0) 0); [apply no_fault_ok|].
  assert (pos + 1 < n) by (apply Hc0, hex2num_digit; lia).
  destruct (i <? 5); [|apply IH; lia]. next_char (pos + 2).
  destruct (Z.eqb_spec c1 chr_colon) as [->|]; [|apply no_fault_ok].
  assert (pos + 2 < n) by (by apply Hc1). apply IH. lia.
Qed.

Lemma hwaddr_compact_aton_loop_no_fault k pos addr :
  0 <= pos <= n -> no_fault (hwaddr_compact_aton_loop k txt pos addr).
Proof.
  revert pos addr. induction k as [|k IH]; intros pos addr Hp; [apply no_fault_ok|].
  cbn [hwaddr_compact_aton_loop]. next_char pos.
  destruct (Z.ltb_spec (hex2num c) 0); [apply no_fault_ok|].
  assert (pos < n) by (apply Hc, hex2num_digit; lia). next_char (pos + 1).
  destruct (Z.ltb_spec (hex2num c0) 0); [apply no_fault_ok|].
  assert (pos + 1 < n) by (apply Hc0, hex2num_digit; lia). apply IH. lia.
Qed.

Lemma skip_delims_ok fuel pos : 0 <= pos <= n -> n - pos < Z.of_nat fuel ->
  exists pos', skip_delims fuel txt pos = Ok pos' /\ pos <= pos' <= n.
Proof.
  revert pos. induction fuel as [|fuel IH]; intros pos Hp Hf; [lia|].
  cbn [skip_delims]. next_char pos. destruct (is_delim c) eqn:Ed; [|by exists pos; split; [|lia]].
  assert (pos < n) by (apply Hc; by intros ->).
  destruct (IH (pos + 1)) as (p' & -> & ?); [lia | lia |]. exists p'. split; [done | lia].
Qed.

Lemma hwaddr_aton2_loop_no_fault k pos addr :
  0 <= pos <= n -> no_fault (hwaddr_aton2_loop k txt pos addr).
Proof.
  revert pos addr. induction k as [|k IH]; intros pos addr Hp; [apply no_fault_ok|].
  cbn [hwaddr_aton2_loop]. destruct (rd_inv _ _ _ Hnul) as [Hn _]. unfold zlen in Hn.
  destruct (skip_delims_ok (S (length txt)) pos) as (p & -> & Hpp); [lia | lia |].
  cbn [mbind res_bind]. next_char p.
  destruct (Z.ltb_spec (hex2num c) 0); [apply no_fault_ok|].
  assert (p < n) by (apply Hc, hex2num_digit; lia). next_char (p + 1).
  destruct (Z.ltb_spec (hex2num c0) 0); [apply no_fault_ok|].
  assert (p + 1 < n) by (apply Hc0, hex2num_digit; lia). apply IH. lia.
Qed.

Lemma hexstr2bin_loop_no_fault k pos buf :
  0 <= pos <= n -> no_fault (hexstr2bin_loop k txt pos buf).
Proof.
  revert pos buf. induction k as [|k IH]; intros pos buf Hp; [apply no_fault_ok|].
  cbn [hexstr2bin_loop]. unfold hex2byte. next_char pos.
  destruct (Z.ltb_spec (hex2num c) 0); [apply no_fault_ok|].
  assert (pos < n) by (apply Hc, hex2num_digit; lia). next_char (pos + 1).
  destruct (Z.ltb_spec (hex2num c0) 0); [apply no_fault_ok|].
  assert (pos + 1 < n) by (apply Hc0, hex2num_digit; lia).
  cbn [mret res_ret mbind res_bind].
  case_match; [apply no_fault_ok | apply IH; lia].
Qed.
End terminated.

(** ** Counters *)

(** The number a byte array stands for, most significant byte first. *)
Definition be_value (l : list Z) : Z := foldl (fun acc b => acc * 256 + b) 0 l.

Lemma be_value_snoc l b : be_value (l ++ [b]) = be_value l * 256 + b.
Proof. unfold be_value. by rewrite foldl_app. Qed.

Lemma be_value_app l k : be_value (l ++ k) = be_value l * 256 ^ zlen k + be_value k.
Proof.
  revert l. induction k as [|b k IH] using rev_ind; intros l.
  - rewrite app_nil_r. change (zlen []) with 0. cbn. lia.
  - rewrite app_assoc, !be_value_snoc, IH, zlen_app, Z.pow_add_r by zlen_lia.
    change (zlen [b]) with 1. change (256 ^ 1) with 256. ring.
Qed.

Lemma be_value_zeros n : be_value (replicate n 0) = 0.
Proof.
  induction n as [|n IH]; [done|].
  rewrite replicate_S_end, be_value_snoc, IH. done.
Qed.

Lemma be_value_bound l : bytes l -> 0 <= be_value l < 256 ^ zlen l.
Proof.
  induction l as [|b l IH] using rev_ind; intros Hl; [done|].
  apply Forall_app in Hl as [Hl Hb]. apply Forall_inv in Hb. unfold is_byte in Hb.
  rewrite be_value_snoc, zlen_app, Z.pow_add_r by zlen_lia.
  change (zlen [b]) with 1. change (256 ^ 1) with 256. specialize (IH Hl). lia.
Qed.

(** The loop on the first [length l] bytes of [l ++ r]: increment with carry. *)
Lemma inc_byte_array_loop_spec l r : bytes l -> exists l',
  inc_byte_array_loop (length l) (l ++ r) = Ok (l' ++ r) /\
  length l' = length l /\ bytes l' /\
  be_value l' = (be_value l + 1) mod 256 ^ zlen l.
Proof.
  revert r. induction l as [|b l IH] using rev_ind; intros r Hl.
  - exists []. cbn. by split_and!.
  - apply Forall_app in Hl as [Hl Hb]. apply Forall_inv in Hb.
    replace (length (l ++ [b])) with (S (length l)) by (rewrite length_app; cbn; lia).
    cbn [inc_byte_array_loop]. rewrite <- app_assoc.
    change (Z.of_nat (length l)) with (zlen l).
    rewrite rd_shift0 by zlen_lia. cbn [app]. erewrite rd_lookup by (lia || reflexivity).
    cbn [mbind res_bind]. rewrite wr_ok by zlen_lia.
    unfold zlen at 1. rewrite Nat2Z.id, insert_app_r_alt, Nat.sub_diag by lia. cbn.
    pose proof (be_value_bound l Hl) as Hv. pose proof (zlen_nonneg l) as Hz.
    assert (256 ^ zlen (l ++ [b]) = 256 * 256 ^ zlen l) as Hp
      by (rewrite zlen_app, Z.pow_add_r by zlen_lia; change (256 ^ zlen [b]) with 256; lia).
    rewrite Hp, be_value_snoc. unfold is_byte in Hb.
    destruct (Z.eqb_spec (u8 (b + 1)) 0) as [E|E]; cbn.
    + assert (b = 255) as -> by (unfold u8 in E; zlia).
      destruct (IH (u8 (255 + 1) :: r) Hl) as (l' & -> & Hlen & Hbs & Hval).
      exists (l' ++ [0]). rewrite <- app_assoc. split_and!; [done | rewrite !length_app; cbn; lia | |].
      { apply Forall_app; split; [done|]. apply Forall_singleton. unfold is_byte. lia. }
      rewrite be_value_snoc, Hval.
      replace (be_value l * 256 + 255 + 1) with (256 * (be_value l + 1)) by lia.
      rewrite Z.mul_mod_distr_l by lia. lia.
    + assert (u8 (b + 1) = b + 1) as Hu by (unfold u8 in *; zlia).
      exists (l ++ [u8 (b + 1)]). rewrite <- app_assoc.
      split_and!; [done | rewrite !length_app; cbn; lia | |].
      { apply Forall_app; split; [done|]. apply Forall_singleton, u8_byte. }
      rewrite be_value_snoc, Z.mod_small by (unfold u8 in *; zlia). lia.
Qed.

(** ** Hexadecimal text *)

Lemma hex2num_hex_digit up d : 0 <= d < 16 -> hex2num (hex_digit up d) = d.
Proof.
  intros. unfold hex_digit, hex2num, chr_0, chr_9, chr_a, chr_f, chr_A, chr_F.
  destruct (Z.ltb_spec d 10); destruct up;
    repeat match goal with |- context [Z.leb ?x ?y] => destruct (Z.leb_spec x y) end;
    cbn; lia.
Qed.

Lemma nibbles b : is_byte b ->
  0 <= Z.shiftr b 4 < 16 /\ 0 <= Z.land b 15 < 16 /\
  Z.lor (Z.shiftl (Z.shiftr b 4) 4) (Z.land b 15) = b.
Proof.
  unfold is_byte. intros.
  change 15 with (2 ^ 4 - 1). rewrite (land_ones_mod b 4), Z.shiftr_div_pow2 by lia.
  rewrite lor_shiftl_add by (change (2 ^ 4) with 16; zlia).
  change (2 ^ 4) with 16. zlia.
Qed.

Definition hex_text (up : bool) (data : list Z) : list Z :=
  concat (map (fun b => [hex_digit up (Z.shiftr b 4); hex_digit up (Z.land b 15)]) data).

Lemma zlen_hex_text up data : zlen (hex_text up data) = 2 * zlen data.
Proof.
  unfold hex_text. induction data as [|b data IH]; [done|].
  cbn [map concat]. zlen_lia.
Qed.

Lemma hex2byte_hex_digits up p b r : is_byte b ->
  hex2byte (p ++ [hex_digit up (Z.shiftr b 4); hex_digit up (Z.land b 15)] ++ r) (zlen p)
  = Ok b.
Proof.
  intros Hb. destruct (nibbles b Hb) as (H1 & H2 & H3). unfold hex2byte.
  rewrite rd_shift0, rd_shift by zlen_lia.
  erewrite !rd_lookup by (lia || reflexivity). cbn [mbind res_bind].
  rewrite !hex2num_hex_digit by done.
  rewrite !(proj2 (Z.ltb_ge _ _)) by lia. by rewrite H3.
Qed.

Lemma hexstr2bin_loop_text up data p r buf : bytes data ->
  hexstr2bin_loop (length data) (p ++ hex_text up data ++ r) (zlen p) buf =
  Ok (0, buf ++ data).
Proof.
  revert p buf. induction data as [|b data IH]; intros p buf Hd.
  { cbn. by rewrite app_nil_r. }
  apply Forall_cons in Hd as [Hb Hd]. unfold hex_text. cbn [map concat length hexstr2bin_loop].
  fold (hex_text up data). rewrite <- app_assoc, hex2byte_hex_digits by done. cbn [mbind res_bind].
  rewrite (proj2 (Z.ltb_ge b 0)) by (unfold is_byte in Hb; lia).
  rewrite u8_id by done.
  set (d := [hex_digit up (b ≫ 4); hex_digit up (Z.land b 15)]).
  specialize (IH (p ++ d) (buf ++ [b]) Hd).
  rewrite zlen_app, <- !app_assoc in IH. exact IH.
Qed.

(** The printing loop when the rest of the text and its NUL fit. *)
Lemma wpa_snprintf_hex_loop_fits up data p r : 
  2 * zlen data + 1 <= zlen r ->
  exists r', wpa_snprintf_hex_loop up (p ++ r) (zlen (p ++ r)) (zlen p) data =
    Ok (zlen p + 2 * zlen data, p ++ hex_text up data ++ r') /\
    zlen r' = zlen r - 2 * zlen data.
Proof.
  revert p r. induction data as [|b data IH]; intros p r Hr.
  - cbn [wpa_snprintf_hex_loop]. rewrite wr_ok by zlen_lia. cbn.
    exists (<[Z.to_nat (zlen r - 1) := 0]> r). rewrite zlen_insert. split; [|zlen_lia].
    do 2 f_equal; [change (zlen []) with 0; lia|]. rewrite zlen_app. unfold zlen in *.
    rewrite insert_app_r_alt by lia. f_equal. f_equal. lia.
  - cbn [wpa_snprintf_hex_loop]. unfold snprintf_02x. zlen_simpl.
    rewrite (proj2 (Z.leb_gt _ 0)) by zlen_lia.
    destruct r as [|r0 [|r1 [|r2 r]]]; try (exfalso; zlen_lia).
    set (d := [hex_digit up (b ≫ 4); hex_digit up (Z.land b 15)]).
    rewrite take_ge by (unfold d, zlen in *; cbn; zlen_simpl; zlen_lia).
    change (p ++ r0 :: r1 :: r2 :: r) with (p ++ [r0; r1; r2] ++ r).
    rewrite wr_n_app by done. cbn [mbind res_bind mret res_ret].
    rewrite (proj2 (Z.leb_gt _ 2)) by zlen_lia. cbn [orb Z.ltb Z.compare].
    destruct (IH (p ++ d) (0 :: r)) as (r' & Hr' & Hlen); [zlen_lia|].
    exists r'. revert Hr'. zlen_simpl. change (zlen d) with 2. rewrite <- !app_assoc.
    intros Hr'. split; [|lia].
    replace (zlen p + (1 + (1 + (1 + zlen r)))) with (zlen p + 2 + (1 + zlen r)) by lia.
    change ([0] ++ r) with (0 :: r). rewrite Hr'. f_equal. f_equal; lia.
Qed.

Lemma inc_byte_array_loop_runs n l : (n <= length l)%nat ->
  exists l', inc_byte_array_loop n l = Ok l' /\ zlen l' = zlen l.
Proof.
  revert l. induction n as [|n IH]; intros l Hn; [by exists l|]. cbn [inc_byte_array_loop].
  rewrite rd_ok by (unfold zlen; lia). cbn [mbind res_bind].
  rewrite wr_ok by (unfold zlen; lia). cbn [mbind res_bind].
  set (l1 := <[_ := _]> l). assert (length l1 = length l) as Hl by apply length_insert.
  destruct (negb _); [exists l1; split; [done|unfold zlen; by rewrite Hl]|].
  destruct (IH l1) as (l' & -> & Hl'); [lia|]. exists l'. split; [done|].
  unfold zlen in *. lia.
Qed.

(** ** SSID text *)

Lemma ssid_mask_length txt : length (ssid_mask txt) = length txt.
Proof. induction txt as [|c txt IH]; cbn; [done|]. destruct (c =? 0); cbn; lia. Qed.

Definition printable (c : Z) : Prop := 32 <= c < 127.

(** Up to the first NUL every character of a masked text is printable. *)
Lemma ssid_mask_printable txt : bytes txt -> 0 ∈ txt ->
  exists t r, ssid_mask txt = t ++ 0 :: r /\ Forall printable t.
Proof.
  induction txt as [|c txt IH]; intros Hb Hin; [by apply not_elem_of_nil in Hin|].
  apply Forall_cons in Hb as [Hc Hb]. cbn.
  destruct (Z.eqb_spec c 0) as [->|Hne]; [by exists [], txt|].
  apply elem_of_cons in Hin as [E|Hin]; [congruence|].
  destruct (IH Hb Hin) as (t & r & -> & Ht). rewrite u8_id by done.
  eexists (_ :: t), r. split; [done|]. constructor; [|done].
  unfold printable, chr_underscore.
  destruct (Z.ltb_spec c 32), (Z.leb_spec 127 c); cbn; lia.
Qed.

(** ** Properties *)

(** [inc_byte_array]: on a counter of [len] bytes the function terminates
    without an access outside the array, keeps its length, and replaces the big
    endian number it holds by its successor modulo [256^len]; replay counters
    and nonces that are stepped with it only repeat after a full period. *)
Theorem inc_byte_array_correct (counter : list Z) :
  bytes counter ->
  exists counter', inc_byte_array counter (length counter) = Ok counter' /\
    length counter' = length counter /\ bytes counter' /\
    be_value counter' = (be_value counter + 1) mod 256 ^ zlen counter.
Proof.
  intros Hb. destruct (inc_byte_array_loop_spec counter [] Hb) as (l' & H & ? & ? & ?).
  exists l'. rewrite !app_nil_r in H. by split_and!.
Qed.

Lemma inc_byte_array_correct_witness :
  bytes [0; 255; 255] /\
  exists c', inc_byte_array [0; 255; 255] 3 = Ok c' /\ length c' = 3%nat /\
    bytes c' /\ be_value c' = (be_value [0; 255; 255] + 1) mod 256 ^ zlen [0; 255; 255].
Proof.
  assert (bytes [0; 255; 255]) as H by (repeat constructor; unfold is_byte; lia).
  split; [exact H | exact (inc_byte_array_correct [0; 255; 255] H)].
Defined.

(** ([_wpa_snprintf_hex] / [hexstr2bin]): printing bytes as hexadecimal text
    of either case into a buffer with room for [2 * len + 1] characters writes
    only inside the buffer and returns [2 * len]; parsing the result with
    [hexstr2bin] succeeds and gives the bytes back. *)
Theorem hex_print_parse_roundtrip (buf data : list Z) (uppercase : bool) :
  bytes data -> 2 * zlen data + 1 <= zlen buf ->
  exists buf', wpa_snprintf_hex_ buf (zlen buf) data uppercase = Ok (2 * zlen data, buf') /\
    zlen buf' = zlen buf /\
    hexstr2bin buf' (length data) = Ok (0, data).
Proof.
  intros Hd Hroom. unfold wpa_snprintf_hex_.
  rewrite (proj2 (Z.eqb_neq (zlen buf) 0)) by zlen_lia.
  destruct (wpa_snprintf_hex_loop_fits uppercase data [] buf Hroom) as (r' & Hp & Hr).
  exists (hex_text uppercase data ++ r'). split_and!.
  - exact Hp.
  - rewrite zlen_app, zlen_hex_text. lia.
  - exact (hexstr2bin_loop_text uppercase data [] r' [] Hd).
Qed.

Lemma hex_print_parse_roundtrip_witness :
  exists buf', wpa_snprintf_hex_ (replicate 5 9) 5 [1; 171] false = Ok (4, buf') /\
    zlen buf' = 5 /\ hexstr2bin buf' 2 = Ok (0, [1; 171]).
Proof.
  apply (hex_print_parse_roundtrip (replicate 5 9) [1; 171] false).
  - repeat constructor; unfold is_byte; lia.
  - vm_compute. done.
Defined.

(** (address and hex parsers): given a NUL-terminated string, whatever its
    contents, [hwaddr_aton], [hwaddr_compact_aton], [hwaddr_aton2] and
    [hexstr2bin] terminate and never read past the terminator. *)
Theorem address_parsers_stop_at_nul (txt : list Z) (n : Z) (len : nat) :
  rd txt n = Ok 0 ->
  no_fault (hwaddr_aton txt) /\ no_fault (hwaddr_compact_aton txt) /\
  no_fault (hwaddr_aton2 txt) /\ no_fault (hexstr2bin txt len).
Proof.
  intros Hn. destruct (rd_inv _ _ _ Hn) as [? _]. split_and!.
  - apply (hwaddr_aton_loop_no_fault txt n Hn). lia.
  - apply (hwaddr_compact_aton_loop_no_fault txt n Hn). lia.
  - apply (hwaddr_aton2_loop_no_fault txt n Hn). lia.
  - apply (hexstr2bin_loop_no_fault txt n Hn). lia.
Qed.

Lemma address_parsers_stop_at_nul_witness :
  let txt := [48; 65; 58; 0] in
  rd txt 3 = Ok 0 /\
  no_fault (hwaddr_aton txt) /\ no_fault (hwaddr_compact_aton txt) /\
  no_fault (hwaddr_aton2 txt) /\ no_fault (hexstr2bin txt 7).
Proof.
  split; [reflexivity|]. apply (address_parsers_stop_at_nul _ 3 7). reflexivity.
Defined.

(** [wpa_ssid_txt]: for any SSID length and whatever the static buffer
    held before, the copy stays inside the 33 byte buffer and the C string in
    it consists of printable characters only. *)
Theorem wpa_ssid_txt_printable (old ssid : list Z) (ssid_len : Z) :
  zlen old = 33 -> bytes old -> bytes ssid -> 0 <= ssid_len <= zlen ssid ->
  exists t r, wpa_ssid_txt old ssid ssid_len = Ok (t ++ 0 :: r) /\
    zlen (t ++ 0 :: r) = 33 /\ zlen t <= 32 /\ Forall printable t.
Proof.
  intros Hold Hbo Hbs Hlen. unfold wpa_ssid_txt.
  set (n := if 32 <? ssid_len then 32 else ssid_len).
  assert (0 <= n <= 32 /\ n <= zlen ssid) as [Hn Hns]
    by (subst n; destruct (Z.ltb_spec 32 ssid_len); lia).
  rewrite rd_n_ok by lia. cbn [mbind res_bind].
  set (d := take (Z.to_nat n) (drop (Z.to_nat 0) ssid)).
  assert (zlen d = n) as Hd.
  { subst d. unfold zlen in *. rewrite length_take, length_drop. lia. }
  rewrite wr_n_ok by lia. cbn [mbind res_bind].
  set (txt := take _ old ++ d ++ drop _ old).
  assert (zlen txt = 33) as Ht.
  { subst txt. unfold zlen in *. rewrite !length_app, length_take, length_drop. lia. }
  rewrite wr_ok by lia. cbn [mbind res_bind mret res_ret].
  set (txt' := <[Z.to_nat n := 0]> txt).
  assert (zlen txt' = 33) as Ht' by (subst txt'; by rewrite zlen_insert).
  destruct (ssid_mask_printable txt') as (t & r & E & Hp).
  - apply Forall_insert; [|unfold is_byte; lia]. apply Forall_app; split; [by apply Forall_take|].
    apply Forall_app; split; [by apply Forall_take, Forall_drop | by apply Forall_drop].
  - apply list_elem_of_lookup. exists (Z.to_nat n). apply list_lookup_insert_eq.
    unfold zlen in *. lia.
  - exists t, r. rewrite E. assert (zlen (t ++ 0 :: r) = 33) as Hz.
    { rewrite <- E. unfold zlen in *. rewrite ssid_mask_length. lia. }
    split_and!; [done..| zlen_lia | done].
Qed.

Lemma wpa_ssid_txt_printable_witness :
  exists t r, wpa_ssid_txt (replicate 33 7) [65; 10; 66] 3 = Ok (t ++ 0 :: r) /\
    zlen (t ++ 0 :: r) = 33 /\ zlen t <= 32 /\ Forall printable t.
Proof.
  apply (wpa_ssid_txt_printable (replicate 33 7) [65; 10; 66] 3).
  - reflexivity.
  - repeat constructor; unfold is_byte; lia.
  - repeat constructor; unfold is_byte; lia.
  - vm_compute. split; discriminate.
Defined.
