(* ===== verification/Base64.v ===== *)
(** * utils/base64.c: Base64 encoding and decoding

    Models [athr-hostap/src/utils/base64.c].  The output buffer is modelled by
    the bytes written so far and the size that was allocated for it: [emit]
    faults when a byte would be written past the allocation.  [malloc_ok n]
    says whether [os_malloc(n)] succeeds. *)

From S2P Require Import Prelude.

Definition chr_nl : Z := 10.
Definition chr_eq : Z := 61.

Definition base64_table : list Z :=
  [65; 66; 67; 68; 69; 70; 71; 72; 73; 74; 75; 76; 77; 78; 79; 80; 81; 82; 83;
   84; 85; 86; 87; 88; 89; 90;
   97; 98; 99; 100; 101; 102; 103; 104; 105; 106; 107; 108; 109; 110; 111; 112;
   113; 114; 115; 116; 117; 118; 119; 120; 121; 122;
   48; 49; 50; 51; 52; 53; 54; 55; 56; 57; 43; 47].

(** [*pos++ = c] into an allocation of [olen] bytes. *)
Definition emit (olen : Z) (c : Z) (out : list Z) : res (list Z) :=
  if zlen out <? olen then Ok (out ++ [c]) else Fault OutOfBounds.

(** [while (end - in >= 3)]: the rest of the input, the line length and the
    output when the loop ends. *)
Fixpoint base64_encode_loop (olen : Z) (src : list Z) (line_len : Z)
    (out : list Z) : res (list Z * Z * list Z) :=
  match src with
  | in0 :: in1 :: in2 :: src' =>
      c ← rd base64_table (Z.shiftr in0 2); out ← emit olen c out;
      c ← rd base64_table (Z.lor (Z.shiftl (Z.land in0 3) 4) (Z.shiftr in1 4));
      out ← emit olen c out;
      c ← rd base64_table (Z.lor (Z.shiftl (Z.land in1 15) 2) (Z.shiftr in2 6));
      out ← emit olen c out;
      c ← rd base64_table (Z.land in2 63); out ← emit olen c out;
      let line_len := line_len + 4 in
      if 72 <=? line_len then
        out ← emit olen chr_nl out;
        base64_encode_loop olen src' 0 out
      else base64_encode_loop olen src' line_len out
  | _ => mret (src, line_len, out)
  end.

(** The last one or two bytes, with padding. *)
Definition base64_encode_tail (olen : Z) (src : list Z) (line_len : Z)
    (out : list Z) : res (Z * list Z) :=
  match src with
  | [] => mret (line_len, out)
  | in0 :: rest =>
      c ← rd base64_table (Z.shiftr in0 2); out ← emit olen c out;
      out ← match rest with
            | [] =>
                c ← rd base64_table (Z.shiftl (Z.land in0 3) 4);
                out ← emit olen c out;
                emit olen chr_eq out
            | in1 :: _ =>
                c ← rd base64_table (Z.lor (Z.shiftl (Z.land in0 3) 4) (Z.shiftr in1 4));
                out ← emit olen c out;
                c ← rd base64_table (Z.shiftl (Z.land in1 15) 2);
                emit olen c out
            end;
      out ← emit olen chr_eq out;
      mret (line_len + 4, out)
  end.

(** [olen] of [base64_encode], in [size_t] arithmetic. *)
Definition base64_olen (len : Z) : Z :=
  let olen := size_t (size_t (len * 4) / 3 + 4) in
  let olen := size_t (olen + olen / 72) in
  size_t (olen + 1).

(** [None] is the [NULL] result; the text excludes the NUL that is written
    after it. *)
Definition base64_encode (malloc_ok : Z -> bool) (src : list Z)
    : res (option (list Z)) :=
  let len := zlen src in
  let olen := base64_olen len in
  if olen <? len then mret None else
  if negb (malloc_ok olen) then mret None else
  '(rest, line_len, out) ← base64_encode_loop olen src 0 [];
  '(line_len, out) ← base64_encode_tail olen rest line_len out;
  out ← (if negb (line_len =? 0) then emit olen chr_nl out else mret out);
  _ ← emit olen 0 out;
  mret (Some out).

(** [dtable]: 0x80 for a character outside the alphabet. *)
Fixpoint fill_dtable (i : Z) (table dtable : list Z) : list Z :=
  match table with
  | [] => dtable
  | c :: table => fill_dtable (i + 1) table (<[Z.to_nat c := i]> dtable)
  end.

Definition dtable : list Z :=
  <[Z.to_nat chr_eq := 0]> (fill_dtable 0 base64_table (replicate 256 128)).

Fixpoint count_valid (src : list Z) (count : Z) : res Z :=
  match src with
  | [] => mret count
  | c :: src =>
      tmp ← rd dtable c;
      count_valid src (if negb (tmp =? 128) then count + 1 else count)
  end.

Fixpoint base64_decode_loop (olen : Z) (src : list Z) (count : Z)
    (inb block out : list Z) : res (list Z * list Z) :=
  match src with
  | [] => mret (inb, out)
  | c :: src =>
      tmp ← rd dtable c;
      if tmp =? 128 then base64_decode_loop olen src count inb block out else
      inb ← wr inb count c;
      block ← wr block count tmp;
      let count := count + 1 in
      if count =? 4 then
        b0 ← rd block 0; b1 ← rd block 1; b2 ← rd block 2; b3 ← rd block 3;
        out ← emit olen (u8 (Z.lor (Z.shiftl b0 2) (Z.shiftr b1 4))) out;
        out ← emit olen (u8 (Z.lor (Z.shiftl b1 4) (Z.shiftr b2 2))) out;
        out ← emit olen (u8 (Z.lor (Z.shiftl b2 6) b3)) out;
        base64_decode_loop olen src 0 inb block out
      else base64_decode_loop olen src count inb block out
  end.

Definition base64_decode (malloc_ok : Z -> bool) (src : list Z)
    : res (option (list Z)) :=
  count ← count_valid src 0;
  if (count =? 0) || negb (count mod 4 =? 0) then mret None else
  let olen := count / 4 * 3 in
  if negb (malloc_ok olen) then mret None else
  '(inb, out) ← base64_decode_loop olen src 0 (replicate 4 0) (replicate 4 0) [];
  out ← (if 0 <? zlen out then
           i2 ← rd inb 2; i3 ← rd inb 3;
           if i2 =? chr_eq then mret (take (length out - 2) out)
           else if i3 =? chr_eq then mret (take (length out - 1) out)
           else mret out
         else mret out);
  mret (Some out).

Example base64_ex :
  base64_encode (fun _ => true) [72; 101; 108; 108; 111] =
  Ok (Some [83; 71; 86; 115; 98; 71; 56; 61; 10]) /\
  base64_decode (fun _ => true) [83; 71; 86; 115; 98; 71; 56; 61; 10] =
  Ok (Some [72; 101; 108; 108; 111]).
Proof. split; vm_compute; reflexivity. Qed.

(** ** The encoded text as a function of the input *)

Definition tbl (i : Z) : Z := nth (Z.to_nat i) base64_table 0.

Definition quad (a b c : Z) : list Z :=
  [tbl (a / 4); tbl (a mod 4 * 16 + b / 16); tbl (b mod 16 * 4 + c / 64); tbl (c mod 64)].
Definition pad1 (a : Z) : list Z := [tbl (a / 4); tbl (a mod 4 * 16); chr_eq; chr_eq].
Definition pad2 (a b : Z) : list Z :=
  [tbl (a / 4); tbl (a mod 4 * 16 + b / 16); tbl (b mod 16 * 4); chr_eq].

Fixpoint b64 (src : list Z) (line : Z) : list Z :=
  match src with
  | a :: b :: c :: src' =>
      quad a b c ++ (if 72 <=? line + 4 then chr_nl :: b64 src' 0 else b64 src' (line + 4))
  | [] => if line =? 0 then [] else [chr_nl]
  | [a] => pad1 a ++ [chr_nl]
  | [a; b] => pad2 a b ++ [chr_nl]
  end.

Lemma list_ind3 {A} (P : list A -> Prop) :
  P [] -> (forall a, P [a]) -> (forall a b, P [a; b]) ->
  (forall a b c l, P l -> P (a :: b :: c :: l)) -> forall l, P l.
Proof.
  intros H0 H1 H2 H3. fix IH 1. intros [|a [|b [|c l]]]; [done..|]. apply H3, IH.
Qed.

(** The six bit groups of the source, arithmetically. *)
Lemma group1 a : Z.shiftr a 2 = a / 4.
Proof. by rewrite Z.shiftr_div_pow2. Qed.
Lemma group2_pad a : Z.shiftl (Z.land a 3) 4 = a mod 4 * 16.
Proof. change 3 with (2 ^ 2 - 1). by rewrite land_ones_mod, Z.shiftl_mul_pow2. Qed.
Lemma group2 a b : is_byte b ->
  Z.lor (Z.shiftl (Z.land a 3) 4) (Z.shiftr b 4) = a mod 4 * 16 + b / 16.
Proof.
  unfold is_byte. intros. change 3 with (2 ^ 2 - 1).
  rewrite land_ones_mod, Z.shiftr_div_pow2 by lia. change (2 ^ 4) with 16.
  rewrite lor_shiftl_add by (change (2 ^ 4) with 16; zlia). done.
Qed.
Lemma group3_pad b : Z.shiftl (Z.land b 15) 2 = b mod 16 * 4.
Proof. change 15 with (2 ^ 4 - 1). by rewrite land_ones_mod, Z.shiftl_mul_pow2. Qed.
Lemma group3 b c : is_byte c ->
  Z.lor (Z.shiftl (Z.land b 15) 2) (Z.shiftr c 6) = b mod 16 * 4 + c / 64.
Proof.
  unfold is_byte. intros. change 15 with (2 ^ 4 - 1).
  rewrite land_ones_mod, Z.shiftr_div_pow2 by lia. change (2 ^ 6) with 64.
  rewrite lor_shiftl_add by (change (2 ^ 2) with 4; zlia). done.
Qed.
Lemma group4 c : Z.land c 63 = c mod 64.
Proof. change 63 with (2 ^ 6 - 1). by rewrite land_ones_mod. Qed.

Lemma tbl_rd i : 0 <= i < 64 -> rd base64_table i = Ok (tbl i).
Proof. intros. by apply rd_ok. Qed.

Lemma emit_ok olen c out : zlen out < olen -> emit olen c out = Ok (out ++ [c]).
Proof. intros. unfold emit. by rewrite (proj2 (Z.ltb_lt _ _)). Qed.

(** Performs the emissions at the head of the goal. *)
Ltac emits :=
  repeat (rewrite emit_ok by zlen_lia; cbn [mbind res_bind]; rewrite <- ?app_assoc);
  cbn [app].

Definition base64_encode_end (olen : Z) (p : list Z * Z * list Z) : res (option (list Z)) :=
  let '(rest, line_len, out) := p in
  '(line_len, out) ← base64_encode_tail olen rest line_len out;
  out ← (if negb (line_len =? 0) then emit olen chr_nl out else mret out);
  _ ← emit olen 0 out;
  mret (Some out).

Lemma base64_encode_loop_spec olen src : forall line out,
  bytes src -> 0 <= line -> zlen out + zlen (b64 src line) + 1 <= olen ->
  (base64_encode_loop olen src line out ≫= base64_encode_end olen) =
  Ok (Some (out ++ b64 src line)).
Proof.
  induction src as [|a|a b|a b c src IH] using list_ind3;
    intros line out Hs Hl Hroom; cbn [b64] in Hroom |- *.
  - cbn. destruct (Z.eqb_spec line 0); cbn; emits; [by rewrite app_nil_r | done].
  - apply Forall_inv in Hs. unfold is_byte in Hs. unfold pad1 in *.
    cbn [base64_encode_loop mbind res_bind base64_encode_end base64_encode_tail mret res_ret].
    rewrite group1, group2_pad by done.
    rewrite !tbl_rd by zlia. cbn [mbind res_bind]. emits.
    cbn [mret res_ret mbind res_bind].
    rewrite (proj2 (Z.eqb_neq _ 0)) by lia. cbn [negb]. emits. done.
  - apply Forall_cons in Hs as [Ha Hb%Forall_inv]. unfold pad2 in *.
    cbn [base64_encode_loop mbind res_bind base64_encode_end base64_encode_tail mret res_ret].
    rewrite group1, group2, group3_pad by done. unfold is_byte in *.
    rewrite !tbl_rd by zlia. cbn [mbind res_bind]. emits.
    cbn [mret res_ret mbind res_bind].
    rewrite (proj2 (Z.eqb_neq _ 0)) by lia. cbn [negb]. emits. done.
  - do 3 (apply Forall_cons in Hs as [? Hs]). unfold quad in *.
    cbn [base64_encode_loop]. rewrite group1, group2, group3, group4 by done. unfold is_byte in *.
    rewrite !tbl_rd by zlia. cbn [mbind res_bind]. emits. destruct (72 <=? line + 4).
    + emits. rewrite IH by (done || zlen_lia). f_equal. f_equal. by rewrite <- app_assoc.
    + rewrite IH by (done || zlen_lia). f_equal. f_equal. by rewrite <- app_assoc.
Qed.

(** ** Its length and the size computed for it *)

Lemma zlen_b64 src : forall line, 0 <= line < 72 -> line mod 4 = 0 ->
  let g := (zlen src + 2) / 3 in
  zlen (b64 src line) = 4 * g + (line + 4 * g + 71) / 72.
Proof.
  induction src as [|a|a b|a b c src IH] using list_ind3; intros line Hl Hm; cbn [b64]; cbv zeta in *.
  - change (zlen []) with 0. destruct (Z.eqb_spec line 0) as [->|]; [done|].
    change (zlen [chr_nl]) with 1. zlia.
  - change (zlen (pad1 a ++ [chr_nl])) with 5. change (zlen [a]) with 1. zlia.
  - change (zlen (pad2 a b ++ [chr_nl])) with 5. change (zlen [a; b]) with 2. zlia.
  - rewrite zlen_app, !zlen_cons. change (zlen (quad a b c)) with 4.
    destruct (Z.leb_spec 72 (line + 4)).
    + rewrite zlen_cons, IH by (done || lia). assert (line = 68) as -> by zlia. zlia.
    + rewrite IH by zlia. zlia.
Qed.

Lemma base64_olen_large len :
  2 ^ 30 <= len < 2 ^ 32 -> base64_olen len < len.
Proof. unfold base64_olen, size_t. cbn zeta. intros. zlia. Qed.

Lemma base64_olen_small len : 0 <= len < 2 ^ 30 ->
  let g := (len + 2) / 3 in
  4 * g + (4 * g + 71) / 72 + 1 <= base64_olen len /\ len <= base64_olen len.
Proof.
  intros Hlen g. subst g. unfold base64_olen. rewrite (size_t_id (len * 4)) by lia.
  rewrite (size_t_id (_ / 3 + 4)) by zlia. rewrite (size_t_id (_ + _ / 72)) by zlia.
  rewrite size_t_id by zlia.
  assert (4 * ((len + 2) / 3) + 1 <= len * 4 / 3 + 4) as Hg by zlia.
  assert (len <= len * 4 / 3 + 4) as Hl by zlia.
  revert Hg Hl. generalize (4 * ((len + 2) / 3)), (len * 4 / 3 + 4). intros. zlia.
Qed.

(** ** Decoding the text *)

Lemma dtable_tbl i : 0 <= i < 64 ->
  rd dtable (tbl i) = Ok i /\ (i =? 128) = false /\ tbl i <> chr_eq.
Proof.
  intros Hi.
  assert (forallb (fun n => let i := Z.of_nat n in
    match rd dtable (tbl i) with Ok v => v =? i | _ => false end
    && negb (tbl i =? chr_eq)) (seq 0 64) = true) as H by (vm_compute; reflexivity).
  rewrite forallb_forall in H. specialize (H (Z.to_nat i)).
  rewrite Z2Nat.id in H by lia.
  destruct (andb_prop _ _ (H ltac:(apply in_seq; lia))) as [H1 H2].
  destruct (rd dtable (tbl i)) as [v|]; [|done].
  apply Z.eqb_eq in H1 as ->. apply negb_true_iff, Z.eqb_neq in H2.
  split_and!; [done | lia | done].
Qed.

Lemma dtable_eq : rd dtable chr_eq = Ok 0.
Proof. reflexivity. Qed.

Lemma dtable_nl : rd dtable chr_nl = Ok 128.
Proof. reflexivity. Qed.

Lemma decode_skip_nl olen src count inb block out :
  base64_decode_loop olen (chr_nl :: src) count inb block out =
  base64_decode_loop olen src count inb block out.
Proof. reflexivity. Qed.

(** Accesses to the four element arrays [in] and [block]. *)
Section arr4.
Context (a b c d v : Z).
Lemma wr4_0 : wr [a; b; c; d] 0 v = Ok [v; b; c; d]. Proof. reflexivity. Qed.
Lemma wr4_1 : wr [a; b; c; d] 1 v = Ok [a; v; c; d]. Proof. reflexivity. Qed.
Lemma wr4_2 : wr [a; b; c; d] 2 v = Ok [a; b; v; d]. Proof. reflexivity. Qed.
Lemma wr4_3 : wr [a; b; c; d] 3 v = Ok [a; b; c; v]. Proof. reflexivity. Qed.
Lemma rd4_0 : rd [a; b; c; d] 0 = Ok a. Proof. reflexivity. Qed.
Lemma rd4_1 : rd [a; b; c; d] 1 = Ok b. Proof. reflexivity. Qed.
Lemma rd4_2 : rd [a; b; c; d] 2 = Ok c. Proof. reflexivity. Qed.
Lemma rd4_3 : rd [a; b; c; d] 3 = Ok d. Proof. reflexivity. Qed.
End arr4.
Create Rewrite HintDb arr4.
#[local] Hint Rewrite wr4_0 wr4_1 wr4_2 wr4_3 rd4_0 rd4_1 rd4_2 rd4_3 : arr4.

(** Four alphabet characters are one block of three bytes. *)
Lemma decode_block olen c0 c1 c2 c3 v0 v1 v2 v3 src inb block out :
  rd dtable c0 = Ok v0 -> rd dtable c1 = Ok v1 -> rd dtable c2 = Ok v2 ->
  rd dtable c3 = Ok v3 ->
  (v0 =? 128) = false -> (v1 =? 128) = false -> (v2 =? 128) = false -> (v3 =? 128) = false ->
  length inb = 4%nat -> length block = 4%nat -> zlen out + 3 <= olen ->
  base64_decode_loop olen (c0 :: c1 :: c2 :: c3 :: src) 0 inb block out =
  base64_decode_loop olen src 0 [c0; c1; c2; c3] [v0; v1; v2; v3]
    (out ++ [u8 (Z.lor (Z.shiftl v0 2) (Z.shiftr v1 4));
             u8 (Z.lor (Z.shiftl v1 4) (Z.shiftr v2 2));
             u8 (Z.lor (Z.shiftl v2 6) v3)]).
Proof.
  intros E0 E1 E2 E3 N0 N1 N2 N3 Li Lb Hroom.
  destruct inb as [|? [|? [|? [|? [|]]]]]; try done.
  destruct block as [|? [|? [|? [|? [|]]]]]; try done.
  cbn [base64_decode_loop]. rewrite E0, E1, E2, E3. cbn [mbind res_bind].
  rewrite N0, N1, N2, N3. change (0 + 1) with 1. change (1 + 1) with 2.
  change (2 + 1) with 3. change (3 + 1) with 4. cbn [Z.eqb Pos.eqb].
  repeat (progress (autorewrite with arr4; cbn [mbind res_bind])).
  emits. done.
Qed.

(** The bytes decoded from a block of the encoder. *)
Lemma ungroup1 a b : is_byte a -> is_byte b ->
  u8 (Z.lor (Z.shiftl (a / 4) 2) (Z.shiftr (a mod 4 * 16 + b / 16) 4)) = a.
Proof.
  unfold is_byte. intros. rewrite Z.shiftr_div_pow2 by lia. change (2 ^ 4) with 16.
  rewrite lor_shiftl_add by (change (2 ^ 2) with 4; zlia). change (2 ^ 2) with 4.
  rewrite u8_id by (unfold is_byte; zlia). zlia.
Qed.
Lemma ungroup2 a b c : is_byte a -> is_byte b -> is_byte c ->
  u8 (Z.lor (Z.shiftl (a mod 4 * 16 + b / 16) 4) (Z.shiftr (b mod 16 * 4 + c / 64) 2)) = b.
Proof.
  unfold is_byte. intros. rewrite Z.shiftr_div_pow2 by lia. change (2 ^ 2) with 4.
  rewrite lor_shiftl_add by (change (2 ^ 4) with 16; zlia). change (2 ^ 4) with 16.
  unfold u8. zlia.
Qed.
Lemma ungroup3 b c : is_byte b -> is_byte c ->
  u8 (Z.lor (Z.shiftl (b mod 16 * 4 + c / 64) 6) (c mod 64)) = c.
Proof.
  unfold is_byte. intros.
  rewrite lor_shiftl_add by (change (2 ^ 6) with 64; zlia). change (2 ^ 6) with 64.
  unfold u8. zlia.
Qed.

(** The padding characters that end the text and the bytes they stand for. *)
Definition pad_of (n : Z) (inb0 inb : list Z) (zeros : list Z) : Prop :=
  if n mod 3 =? 0 then zeros = [] /\
    (n = 0 /\ inb = inb0 \/ n <> 0 /\ exists i2 i3, rd inb 2 = Ok i2 /\ rd inb 3 = Ok i3 /\
                                       i2 <> chr_eq /\ i3 <> chr_eq)
  else if n mod 3 =? 1 then zeros = [0; 0] /\ rd inb 2 = Ok chr_eq /\ rd inb 3 = Ok chr_eq
  else zeros = [0] /\ rd inb 3 = Ok chr_eq /\ exists i2, rd inb 2 = Ok i2 /\ i2 <> chr_eq.

Lemma decode_b64 olen src : forall line inb block out,
  bytes src -> 0 <= line -> length inb = 4%nat -> length block = 4%nat ->
  zlen out + 3 * ((zlen src + 2) / 3) <= olen ->
  exists inb' zeros,
    base64_decode_loop olen (b64 src line) 0 inb block out = Ok (inb', out ++ src ++ zeros) /\
    pad_of (zlen src) inb inb' zeros.
Proof.
  induction src as [|a|a b|a b c src IH] using list_ind3;
    intros line inb block out Hs Hl Li Lb Hroom; cbn [b64].
  - exists inb, []. rewrite app_nil_r. split; [by destruct (line =? 0)|].
    cbn. split; [done | by left].
  - apply Forall_inv in Hs as Ha. assert (is_byte 0) by (unfold is_byte; lia).
    change (zlen [a]) with 1 in Hroom. unfold pad1. cbn [app].
    unfold is_byte in Ha.
    destruct (dtable_tbl (a / 4)) as (E0 & N0 & _); [zlia|].
    destruct (dtable_tbl (a mod 4 * 16)) as (E1 & N1 & _); [zlia|].
    erewrite decode_block by first [eassumption | apply dtable_eq | done | zlia].
    rewrite decode_skip_nl. cbn [base64_decode_loop].
    pose proof (ungroup1 a 0) as G1. rewrite Z.div_0_l, Z.add_0_r in G1 by lia.
    rewrite G1 by done. pose proof (ungroup2 a 0 0) as G2.
    change (0 mod 16 * 4 + 0 / 64) with 0 in G2. change (0 / 16) with 0 in G2.
    rewrite Z.add_0_r in G2.
    rewrite G2 by done. eexists _, [0; 0]. split; [done|]. done.
  - apply Forall_cons in Hs as [Ha Hb%Forall_inv]. assert (is_byte 0) by (unfold is_byte; lia).
    change (zlen [a; b]) with 2 in Hroom. unfold pad2. cbn [app].
    unfold is_byte in Ha, Hb.
    destruct (dtable_tbl (a / 4)) as (E0 & N0 & _); [zlia|].
    destruct (dtable_tbl (a mod 4 * 16 + b / 16)) as (E1 & N1 & _); [zlia|].
    destruct (dtable_tbl (b mod 16 * 4)) as (E2 & N2 & Q2); [zlia|].
    erewrite decode_block by first [eassumption | apply dtable_eq | done | zlia].
    rewrite decode_skip_nl. cbn [base64_decode_loop].
    rewrite ungroup1 by done. pose proof (ungroup2 a b 0) as G2.
    rewrite Z.div_0_l, Z.add_0_r in G2 by lia. rewrite G2 by done.
    pose proof (ungroup3 b 0) as G3.
    change (0 mod 64) with 0 in G3. change (0 / 64) with 0 in G3.
    rewrite Z.add_0_r in G3. rewrite G3 by done.
    eexists _, [0]. split; [done|]. cbn. split_and!; [done..|]. eexists. by split.
  - do 3 (apply Forall_cons in Hs as [? Hs]). unfold quad. cbn [app].
    rewrite !zlen_cons in Hroom. unfold is_byte in *.
    destruct (dtable_tbl (a / 4)) as (E0 & N0 & _); [zlia|].
    destruct (dtable_tbl (a mod 4 * 16 + b / 16)) as (E1 & N1 & _); [zlia|].
    destruct (dtable_tbl (b mod 16 * 4 + c / 64)) as (E2 & N2 & Q2); [zlia|].
    destruct (dtable_tbl (c mod 64)) as (E3 & N3 & Q3); [zlia|].
    pose proof (zlen_nonneg src) as Hsrc. pose proof (zlen_nonneg out) as Hout.
    erewrite decode_block by first [eassumption | done | zlia].
    rewrite ungroup1, ungroup2, ungroup3 by done.
    assert (forall l, 0 <= l -> exists inb' zeros,
      base64_decode_loop olen (b64 src l) 0
        [tbl (a / 4); tbl (a mod 4 * 16 + b / 16); tbl (b mod 16 * 4 + c / 64); tbl (c mod 64)]
        [a / 4; a mod 4 * 16 + b / 16; b mod 16 * 4 + c / 64; c mod 64] (out ++ [a; b; c]) =
      Ok (inb', out ++ (a :: b :: c :: src) ++ zeros) /\
      pad_of (zlen (a :: b :: c :: src)) inb inb' zeros) as Hrest.
    { intros l Hl0. edestruct (IH l) as (inb' & zeros & -> & Hp); [done.. | |].
      { zlen_simpl. zlia. }
      exists inb', zeros. rewrite <- app_assoc. split; [done|].
      unfold pad_of in *. rewrite !zlen_cons.
      replace (1 + (1 + (1 + zlen src))) with (zlen src + 1 * 3) by lia.
      rewrite Z.mod_add by lia. destruct (zlen src mod 3 =? 0); [|done].
      destruct Hp as [-> [[_ ->]|(_ & Hp)]]; (split; [done|right; split; [lia|]]); [|done].
      do 2 eexists. split_and!; [reflexivity | reflexivity | done..]. }
    destruct (72 <=? line + 4); [rewrite decode_skip_nl|]; apply Hrest; lia.
Qed.

Lemma count_valid_b64 src : forall line count, bytes src ->
  count_valid (b64 src line) count = Ok (count + 4 * ((zlen src + 2) / 3)).
Proof.
  induction src as [|a|a b|a b c src IH] using list_ind3; intros line count Hs; cbn [b64].
  - transitivity (Ok count); [by destruct (line =? 0)|].
    f_equal. change ((zlen [] + 2) / 3) with 0. lia.
  - apply Forall_inv in Hs. unfold is_byte in Hs. unfold pad1. cbn [app count_valid].
    destruct (dtable_tbl (a / 4)) as (-> & N0 & _); [zlia|].
    destruct (dtable_tbl (a mod 4 * 16)) as (-> & N1 & _); [zlia|].
    rewrite dtable_eq, dtable_nl. cbn [mbind res_bind]. rewrite N0, N1. cbn. f_equal.
    change (zlen [a]) with 1. zlia.
  - apply Forall_cons in Hs as [Ha Hb%Forall_inv]. unfold is_byte in *. unfold pad2.
    cbn [app count_valid].
    destruct (dtable_tbl (a / 4)) as (-> & N0 & _); [zlia|].
    destruct (dtable_tbl (a mod 4 * 16 + b / 16)) as (-> & N1 & _); [zlia|].
    destruct (dtable_tbl (b mod 16 * 4)) as (-> & N2 & _); [zlia|].
    rewrite dtable_eq, dtable_nl. cbn [mbind res_bind]. rewrite N0, N1, N2. cbn. f_equal.
    change (zlen [a; b]) with 2. zlia.
  - do 3 (apply Forall_cons in Hs as [? Hs]). unfold is_byte in *. unfold quad.
    cbn [app count_valid].
    destruct (dtable_tbl (a / 4)) as (-> & N0 & _); [zlia|].
    destruct (dtable_tbl (a mod 4 * 16 + b / 16)) as (-> & N1 & _); [zlia|].
    destruct (dtable_tbl (b mod 16 * 4 + c / 64)) as (-> & N2 & _); [zlia|].
    destruct (dtable_tbl (c mod 64)) as (-> & N3 & _); [zlia|].
    cbn [mbind res_bind]. rewrite N0, N1, N2, N3. cbn [negb].
    rewrite !zlen_cons.
    destruct (72 <=? line + 4); [change (count_valid (chr_nl :: ?l) ?n) with (count_valid l n)|];
      rewrite IH by done; f_equal; zlia.
Qed.

(** ** Properties *)

(** ([base64_encode], memory safety and overflow): for every input shorter
    than 4 GiB and whatever [os_malloc] does, the encoder never writes outside
    the [olen] bytes it allocated, terminating NUL included; inputs whose
    [olen] computation wraps around are all caught by the [olen < len] test. *)
Theorem base64_encode_in_bounds (malloc_ok : Z -> bool) (src : list Z) :
  bytes src -> zlen src < 2 ^ 32 ->
  no_fault (base64_encode malloc_ok src) /\
  (2 ^ 30 <= zlen src -> base64_encode malloc_ok src = Ok None) /\
  (zlen src < 2 ^ 30 -> malloc_ok (base64_olen (zlen src)) = true ->
   base64_encode malloc_ok src = Ok (Some (b64 src 0))).
Proof.
  intros Hb Hmax. pose proof (zlen_nonneg src) as Hpos. unfold base64_encode.
  destruct (Z.lt_ge_cases (zlen src) (2 ^ 30)) as [Hsm|Hlg].
  - destruct (base64_olen_small (zlen src)) as [Hfit Hge]; [lia|].
    rewrite (proj2 (Z.ltb_ge _ _)) by lia.
    pose proof (zlen_b64 src 0 ltac:(lia) eq_refl) as Hlen. cbv zeta in Hlen. rewrite Z.add_0_l in Hlen.
    pose proof (base64_encode_loop_spec (base64_olen (zlen src)) src 0 [] Hb) as Hloop.
    unfold base64_encode_end in Hloop. cbn [app] in Hloop.
    rewrite Hloop by (change (zlen []) with 0; lia).
    destruct (malloc_ok _); cbn; split_and!; try apply no_fault_ok; (done || lia).
  - rewrite (proj2 (Z.ltb_lt _ _)) by (apply base64_olen_large; lia).
    split_and!; [apply no_fault_ok | done | lia].
Qed.

Lemma base64_encode_in_bounds_witness :
  no_fault (base64_encode (fun _ => true) [1; 2; 250; 4]) /\
  (2 ^ 30 <= zlen [1; 2; 250; 4] -> base64_encode (fun _ => true) [1; 2; 250; 4] = Ok None) /\
  (zlen [1; 2; 250; 4] < 2 ^ 30 -> true = true ->
   base64_encode (fun _ => true) [1; 2; 250; 4] = Ok (Some (b64 [1; 2; 250; 4] 0))).
Proof.
  apply (base64_encode_in_bounds (fun _ => true)).
  - repeat constructor; unfold is_byte; lia.
  - reflexivity.
Defined.

(** (Base64 round trip): decoding the text the encoder produced gives the
    input back, for every non-empty input below 1 GiB when memory is available,
    in particular for every position of the line breaks and every padding
    length. *)
Theorem base64_decode_encode (malloc_ok : Z -> bool) (src : list Z) :
  bytes src -> 0 < zlen src < 2 ^ 30 -> (forall n, malloc_ok n = true) ->
  exists text, base64_encode malloc_ok src = Ok (Some text) /\
    base64_decode malloc_ok text = Ok (Some src).
Proof.
  intros Hb Hlen Hm. exists (b64 src 0). split.
  { unfold base64_encode. destruct (base64_olen_small (zlen src)) as [Hfit Hge]; [lia|].
    rewrite (proj2 (Z.ltb_ge _ _)), Hm by lia. cbn [negb].
    pose proof (zlen_b64 src 0 ltac:(lia) eq_refl) as Hz. cbv zeta in Hz. rewrite Z.add_0_l in Hz.
    apply (base64_encode_loop_spec (base64_olen (zlen src)) src 0 [] Hb); [lia|].
    change (zlen []) with 0. lia. }
  unfold base64_decode. rewrite count_valid_b64 by done. cbn [mbind res_bind].
  set (g := (zlen src + 2) / 3). assert (0 < g) by (subst g; zlia). rewrite Z.add_0_l.
  rewrite (proj2 (Z.eqb_neq (4 * g) 0)), Z.mul_comm, Z.mod_mul, Z.div_mul by lia.
  cbn [orb negb Z.eqb]. rewrite Hm. cbn [negb].
  destruct (decode_b64 (g * 3) src 0 (replicate 4 0) (replicate 4 0) []) as (inb & zeros & -> & Hp);
    [done.. | change (zlen []) with 0; fold g; lia |].
  cbn [mbind res_bind app]. rewrite (proj2 (Z.ltb_lt 0 _)) by zlen_lia.
  unfold pad_of in Hp. destruct (zlen src mod 3 =? 0).
  - destruct Hp as [-> [[? _]|(_ & i2 & i3 & -> & -> & Q2 & Q3)]]; [lia|]. cbn [mbind res_bind].
    rewrite (proj2 (Z.eqb_neq _ _) Q2), (proj2 (Z.eqb_neq _ _) Q3), app_nil_r. done.
  - destruct (zlen src mod 3 =? 1).
    + destruct Hp as (-> & -> & ->). cbn. do 2 f_equal. rewrite length_app.
      apply take_app_length'. cbn. lia.
    + destruct Hp as (-> & -> & i2 & -> & Q2). cbn [mbind res_bind].
      rewrite (proj2 (Z.eqb_neq _ _) Q2). cbn. do 2 f_equal. rewrite length_app.
      apply take_app_length'. cbn. lia.
Qed.

Lemma base64_decode_encode_witness :
  exists text, base64_encode (fun _ => true) [255; 0; 16; 9] = Ok (Some text) /\
    base64_decode (fun _ => true) text = Ok (Some [255; 0; 16; 9]).
Proof.
  apply (base64_decode_encode (fun _ => true)).
  - repeat constructor; unfold is_byte; lia.
  - vm_compute. split; reflexivity.
  - reflexivity.
Defined.
