(* ===== verification/WpaBuf.v ===== *)
(** * utils/wpabuf.c, utils/wpabuf.h: dynamic data buffers

    Models [athr-hostap/src/utils/wpabuf.[ch]] without the [WPA_TRACE] debug
    layer.  A buffer keeps its bytes either behind the structure ([inline]) or
    in an external block ([ext_data]); all functions of the source reach them
    through [wpabuf_head]/[wpabuf_mhead], and so does the model.  Lengths are
    [size_t]: every addition of the source wraps.  [malloc_ok n] says whether
    an allocation of [n] bytes succeeds; a [NULL] result is [None]. *)

From S2P Require Import Prelude.

#[projections(primitive)]
Record wpabuf := mk_wpabuf {
  size : Z;
  used : Z;
  ext_data : option (list Z);
  inline : list Z;
}.

(** [sizeof(struct wpabuf)]: two [size_t] and a pointer. *)
Definition sizeof_wpabuf : Z := 12.

Definition wpabuf_size (buf : wpabuf) : Z := size buf.
Definition wpabuf_len (buf : wpabuf) : Z := used buf.
Definition wpabuf_tailroom (buf : wpabuf) : Z := size_t (size buf - used buf).

Definition wpabuf_head (buf : wpabuf) : list Z :=
  match ext_data buf with Some d => d | None => inline buf end.

(** What a store through [wpabuf_mhead] changes. *)
Definition wpabuf_mhead_set (buf : wpabuf) (d : list Z) : wpabuf :=
  match ext_data buf with
  | Some _ => buf <| ext_data := Some d |>
  | None => buf <| inline := d |>
  end.

(** [wpabuf_put]: the offset of the returned pointer and the buffer;
    [wpabuf_overflow] prints and calls [abort()]. *)
Definition wpabuf_put (buf : wpabuf) (len : Z) : res (Z * wpabuf) :=
  let tmp := wpabuf_len buf in
  let buf := buf <| used := size_t (used buf + len) |> in
  if size buf <? used buf then Fault Aborted else mret (tmp, buf).

(** [memcpy(wpabuf_put(buf, zlen d), d, zlen d)]. *)
Definition wpabuf_put_bytes (buf : wpabuf) (d : list Z) : res wpabuf :=
  '(pos, buf) ← wpabuf_put buf (zlen d);
  h ← wr_n (wpabuf_head buf) pos d;
  mret (wpabuf_mhead_set buf h).

Definition wpabuf_put_u8 (buf : wpabuf) (data : Z) : res wpabuf :=
  wpabuf_put_bytes buf [u8 data].
Definition wpabuf_put_le16 (buf : wpabuf) (data : Z) : res wpabuf :=
  wpabuf_put_bytes buf (WPA_PUT_LE16 data).
Definition wpabuf_put_le32 (buf : wpabuf) (data : Z) : res wpabuf :=
  wpabuf_put_bytes buf (WPA_PUT_LE32 data).
Definition wpabuf_put_be16 (buf : wpabuf) (data : Z) : res wpabuf :=
  wpabuf_put_bytes buf (WPA_PUT_BE16 data).
Definition wpabuf_put_be24 (buf : wpabuf) (data : Z) : res wpabuf :=
  wpabuf_put_bytes buf (WPA_PUT_BE24 data).
Definition wpabuf_put_be32 (buf : wpabuf) (data : Z) : res wpabuf :=
  wpabuf_put_bytes buf (WPA_PUT_BE32 data).

(** [data] is [None] for a [NULL] pointer, which makes the call a no-op. *)
Definition wpabuf_put_data (buf : wpabuf) (data : option (list Z)) (len : Z)
    : res wpabuf :=
  match data with
  | None => mret buf
  | Some d => d ← rd_n d 0 len; wpabuf_put_bytes buf d
  end.

Definition wpabuf_put_buf (dst src : wpabuf) : res wpabuf :=
  wpabuf_put_data dst (Some (wpabuf_head src)) (wpabuf_len src).

Definition wpabuf_set (buf : wpabuf) (data : list Z) (len : Z) : wpabuf :=
  buf <| ext_data := Some data |> <| size := len |> <| used := len |>.

(** [os_strlen]: the index of the first NUL. *)
Fixpoint os_strlen (str : list Z) : res Z :=
  match str with
  | [] => Fault OutOfBounds
  | c :: str => if c =? 0 then mret 0 else n ← os_strlen str; mret (n + 1)
  end.

Definition wpabuf_put_str (dst : wpabuf) (str : list Z) : res wpabuf :=
  n ← os_strlen str; wpabuf_put_data dst (Some str) n.

(** [text] is the formatted text; [vsnprintf] stores what fits with a NUL. *)
Definition wpabuf_printf (buf : wpabuf) (text : list Z) : res wpabuf :=
  let room := size_t (size buf - used buf) in
  h ← (if room =? 0 then mret (wpabuf_head buf)
       else wr_n (wpabuf_head buf) (used buf) (take (Z.to_nat (room - 1)) text ++ [0]));
  let buf := wpabuf_mhead_set buf h in
  if room <=? zlen text then Fault Aborted
  else mret (buf <| used := size_t (used buf + zlen text) |>).

Section alloc.
Context (malloc_ok : Z -> bool).

(** [os_zalloc(sizeof(struct wpabuf) + len)]: the request wraps like any
    [size_t], so the bytes behind the structure are what is left of it. *)
Definition wpabuf_alloc (len : Z) : option wpabuf :=
  let n := size_t (sizeof_wpabuf + len) in
  if malloc_ok n then
    Some {| size := len; used := 0; ext_data := None;
            inline := replicate (Z.to_nat (n - sizeof_wpabuf)) 0 |}
  else None.

Definition wpabuf_alloc_ext_data (data : option (list Z)) (len : Z) : option wpabuf :=
  if malloc_ok sizeof_wpabuf then
    Some {| size := len; used := len; ext_data := data; inline := [] |}
  else None.

Definition wpabuf_alloc_copy (data : option (list Z)) (len : Z) : res (option wpabuf) :=
  match wpabuf_alloc len with
  | Some buf => buf ← wpabuf_put_data buf data len; mret (Some buf)
  | None => mret None
  end.

Definition wpabuf_dup (src : wpabuf) : res (option wpabuf) :=
  match wpabuf_alloc (wpabuf_len src) with
  | Some buf =>
      buf ← wpabuf_put_data buf (Some (wpabuf_head src)) (wpabuf_len src);
      mret (Some buf)
  | None => mret None
  end.

(** [os_realloc(p, n)] keeps the old bytes that fit in the new block and
    [memset(p + from, 0, len)] clears its tail. *)
Definition realloc_clear (old : list Z) (n from len : Z) : res (list Z) :=
  let p := take (Z.to_nat n) (old ++ replicate (Z.to_nat n) 0) in
  wr_n p from (replicate (Z.to_nat len) 0).

(** The return value and the buffer that [*_buf] points to afterwards. *)
Definition wpabuf_resize (buf_ : option wpabuf) (add_len : Z)
    : res (Z * option wpabuf) :=
  match buf_ with
  | None =>
      let b := wpabuf_alloc add_len in
      mret (match b with None => -1 | Some _ => 0 end, b)
  | Some buf =>
      let n := size_t (used buf + add_len) in
      if size buf <? n then
        match ext_data buf with
        | Some d =>
            if malloc_ok n then
              nbuf ← realloc_clear d n (used buf) add_len;
              mret (0, Some (buf <| ext_data := Some nbuf |> <| size := n |>))
            else mret (-1, buf_)
        | None =>
            if malloc_ok (size_t (sizeof_wpabuf + used buf + add_len)) then
              nbuf ← realloc_clear (inline buf)
                (size_t (sizeof_wpabuf + used buf + add_len) - sizeof_wpabuf)
                (used buf) add_len;
              mret (0, Some (buf <| inline := nbuf |> <| size := n |>))
            else mret (-1, buf_)
        end
      else mret (0, buf_)
  end.

(** [wpabuf_free] of the arguments has no observable effect here. *)
Definition wpabuf_concat (a b : option wpabuf) : res (option wpabuf) :=
  match b with
  | None => mret a
  | Some b =>
      let len := 0 in
      let len := match a with Some a => size_t (len + wpabuf_len a) | None => len end in
      let len := size_t (len + wpabuf_len b) in
      match wpabuf_alloc len with
      | None => mret None
      | Some n =>
          n ← match a with Some a => wpabuf_put_buf n a | None => mret n end;
          n ← wpabuf_put_buf n b;
          mret (Some n)
      end
  end.

Definition wpabuf_zeropad (buf : option wpabuf) (len : Z) : res (option wpabuf) :=
  match buf with
  | None => mret None
  | Some buf =>
      let blen := wpabuf_len buf in
      if len <=? blen then mret (Some buf) else
      match wpabuf_alloc len with
      | None => mret None
      | Some ret =>
          ret ← wpabuf_put_bytes ret (replicate (Z.to_nat (len - blen)) 0);
          ret ← wpabuf_put_buf ret buf;
          mret (Some ret)
      end
  end.
End alloc.

(** ** Abstract view: a byte string with a capacity *)

Definition contents (b : wpabuf) : list Z := take (Z.to_nat (used b)) (wpabuf_head b).

Definition max_wpabuf : Z := 4294967296 - sizeof_wpabuf.

Definition wf (b : wpabuf) : Prop :=
  0 <= used b <= size b /\ size b < max_wpabuf /\
  zlen (wpabuf_head b) = size b /\ bytes (wpabuf_head b).

Lemma rd_n_contents b : wf b -> rd_n (wpabuf_head b) 0 (wpabuf_len b) = Ok (contents b).
Proof.
  intros (Hu & _ & Hz & _). unfold wpabuf_len, contents. rewrite rd_n_ok by lia. done.
Qed.

(** [b] holds [l] in a buffer of [cap] bytes. *)
Definition repr (b : wpabuf) (l : list Z) (cap : Z) : Prop :=
  wf b /\ contents b = l /\ size b = cap.

Lemma repr_len b l cap : repr b l cap -> used b = zlen l /\ zlen l <= cap < max_wpabuf.
Proof.
  intros ((Hu & Hs & Hz & _) & <- & <-). unfold contents, zlen in *.
  rewrite length_take. lia.
Qed.

Lemma repr_bytes b l cap : repr b l cap -> bytes l.
Proof. intros ((_ & _ & _ & Hb) & <- & _). by apply Forall_take. Qed.

Lemma wpabuf_head_split b l cap : repr b l cap ->
  exists r, wpabuf_head b = l ++ r /\ zlen r = cap - zlen l /\ bytes r.
Proof.
  intros H. destruct (repr_len _ _ _ H). destruct H as ((_ & _ & Hz & Hb) & <- & <-).
  unfold contents. exists (drop (Z.to_nat (used b)) (wpabuf_head b)).
  rewrite take_drop. split_and!; [done | | by apply Forall_drop].
  unfold zlen in *. rewrite length_take, length_drop in *. lia.
Qed.

Lemma wpabuf_mhead_set_head b d : wpabuf_head (wpabuf_mhead_set b d) = d.
Proof. unfold wpabuf_mhead_set, wpabuf_head. by destruct (ext_data b) eqn:E; cbn; rewrite ?E. Qed.
Lemma wpabuf_mhead_set_used b d : used (wpabuf_mhead_set b d) = used b.
Proof. unfold wpabuf_mhead_set. by destruct (ext_data b). Qed.
Lemma wpabuf_mhead_set_size b d : size (wpabuf_mhead_set b d) = size b.
Proof. unfold wpabuf_mhead_set. by destruct (ext_data b). Qed.

(** Appending within the capacity. *)
Lemma wpabuf_put_bytes_fits b l cap d :
  repr b l cap -> bytes d -> zlen l + zlen d <= cap ->
  exists b', wpabuf_put_bytes b d = Ok b' /\ repr b' (l ++ d) cap.
Proof.
  intros H Hd Hfit. destruct (repr_len _ _ _ H) as [Hu Hc].
  destruct (wpabuf_head_split _ _ _ H) as (r & Hh & Hr & Hbr).
  pose proof (repr_bytes _ _ _ H) as Hbl. destruct H as (_ & _ & Hs).
  unfold max_wpabuf, sizeof_wpabuf in *.
  unfold wpabuf_put_bytes, wpabuf_put, wpabuf_len. cbn [mbind res_bind put size used].
  rewrite Hu, Hs, size_t_id by zlen_lia.
  rewrite (proj2 (Z.ltb_ge _ _)) by lia. cbn [mbind res_bind mret res_ret].
  change (wpabuf_head _) with (wpabuf_head b). rewrite Hh.
  rewrite <- (take_drop (length d) r), wr_n_app.
  2: { rewrite length_take. unfold zlen in *. lia. }
  cbn [mbind res_bind]. eexists. split; [done|].
  unfold repr, wf, contents, max_wpabuf, sizeof_wpabuf.
  rewrite wpabuf_mhead_set_used, wpabuf_mhead_set_size, wpabuf_mhead_set_head.
  cbn [put used size]. rewrite Hs, app_assoc. split_and!; try zlen_lia.
  - unfold zlen in *. rewrite !length_app, length_drop. lia.
  - rewrite !Forall_app. split_and!; [done.. | by apply Forall_drop].
  - apply take_app_length'. unfold zlen. rewrite length_app. lia.
Qed.

(** Appending beyond the capacity ends in [wpabuf_overflow]. *)
Lemma wpabuf_put_bytes_overflow b l cap d :
  repr b l cap -> cap < zlen l + zlen d < 4294967296 ->
  wpabuf_put_bytes b d = Fault Aborted.
Proof.
  intros H Hov. destruct (repr_len _ _ _ H) as [Hu Hc]. destruct H as (_ & _ & Hs).
  unfold wpabuf_put_bytes, wpabuf_put, wpabuf_len. cbn [mbind res_bind put size used].
  rewrite Hu, Hs, size_t_id by zlen_lia. by rewrite (proj2 (Z.ltb_lt _ _)) by lia.
Qed.

Lemma wpabuf_put_data_all b d : wpabuf_put_data b (Some d) (zlen d) = wpabuf_put_bytes b d.
Proof. unfold wpabuf_put_data. by rewrite rd_n_all. Qed.

Lemma wpabuf_put_buf_contents dst b l cap :
  repr b l cap -> wpabuf_put_buf dst b = wpabuf_put_bytes dst l.
Proof.
  intros H. destruct (repr_len _ _ _ H) as [Hu _].
  destruct (wpabuf_head_split _ _ _ H) as (r & Hh & _ & _).
  unfold wpabuf_put_buf, wpabuf_put_data, wpabuf_len. rewrite Hu, Hh.
  change (l ++ r) with ([] ++ l ++ r). change 0 with (zlen (@nil Z)).
  by rewrite rd_n_app_mid.
Qed.

Section alloc_lemmas.
Context (malloc_ok : Z -> bool).

Lemma wpabuf_alloc_repr len b : 0 <= len < max_wpabuf ->
  wpabuf_alloc malloc_ok len = Some b -> repr b [] len.
Proof.
  unfold wpabuf_alloc, max_wpabuf, sizeof_wpabuf. intros Hl.
  rewrite size_t_id by lia. case_match; [|done]. intros [= <-].
  unfold repr, wf, contents, wpabuf_head, max_wpabuf, sizeof_wpabuf. cbn.
  split_and!; try lia; try done.
  - unfold zlen. rewrite length_replicate. lia.
  - apply Forall_replicate. unfold is_byte. lia.
Qed.

Lemma wpabuf_alloc_some len : 0 <= len < max_wpabuf ->
  malloc_ok (sizeof_wpabuf + len) = true -> exists b, wpabuf_alloc malloc_ok len = Some b.
Proof.
  unfold wpabuf_alloc, max_wpabuf. intros Hl Hm.
  rewrite size_t_id by (unfold sizeof_wpabuf in *; lia). rewrite Hm. eauto.
Qed.

(** Allocate and append pieces whose lengths sum to the allocation. *)
Lemma wpabuf_alloc_copy_repr d len : bytes d -> 0 <= len < max_wpabuf -> len = zlen d ->
  wpabuf_alloc_copy malloc_ok (Some d) len = Ok None \/
  exists b, wpabuf_alloc_copy malloc_ok (Some d) len = Ok (Some b) /\ repr b d len.
Proof.
  intros Hd Hl ->. unfold wpabuf_alloc_copy.
  destruct (wpabuf_alloc malloc_ok (zlen d)) as [b|] eqn:E; [right | by left].
  apply wpabuf_alloc_repr in E; [|done]. rewrite wpabuf_put_data_all.
  destruct (wpabuf_put_bytes_fits b [] (zlen d) d E Hd) as (b' & -> & Hb').
  { change (zlen []) with 0. lia. }
  by exists b'.
Qed.

Lemma wpabuf_dup_repr b l cap : repr b l cap ->
  wpabuf_dup malloc_ok b = Ok None \/
  exists b', wpabuf_dup malloc_ok b = Ok (Some b') /\ repr b' l (zlen l).
Proof.
  intros H. destruct (repr_len _ _ _ H) as [Hu Hc]. pose proof (repr_bytes _ _ _ H) as Hb.
  unfold wpabuf_dup, wpabuf_len. rewrite Hu.
  destruct (wpabuf_alloc malloc_ok (zlen l)) as [n|] eqn:E; [right | by left].
  apply wpabuf_alloc_repr in E; [|zlen_lia].
  pose proof (wpabuf_put_buf_contents n b l cap H) as Hp.
  unfold wpabuf_put_buf, wpabuf_len in Hp. rewrite Hu in Hp. rewrite Hp.
  destruct (wpabuf_put_bytes_fits n [] (zlen l) l E Hb) as (b' & -> & Hb').
  { change (zlen []) with 0. lia. }
  by exists b'.
Qed.
End alloc_lemmas.

Section resize_lemmas.
Context (malloc_ok : Z -> bool).

Lemma realloc_clear_spec old n from len :
  0 <= from -> 0 <= len -> from + len = n -> from <= zlen old <= n ->
  realloc_clear old n from len =
  Ok (take (Z.to_nat from) old ++ replicate (Z.to_nat len) 0).
Proof.
  intros Hf Hl <- Ho. unfold realloc_clear.
  assert (zlen (take (Z.to_nat (from + len)) (old ++ replicate (Z.to_nat (from + len)) 0))
          = from + len) as Hz.
  { unfold zlen in *. rewrite length_take, length_app, length_replicate. lia. }
  rewrite wr_n_ok by (rewrite ?zlen_replicate, ?Hz; lia).
  rewrite length_replicate, drop_ge, app_nil_r by (unfold zlen in Hz; lia).
  rewrite take_take, Nat.min_l by lia.
  rewrite take_app_le by (unfold zlen in *; lia). done.
Qed.

(** The buffer a successful [realloc] leaves behind. *)
Lemma resized_repr b l cap add d :
  repr b l cap -> 0 <= add -> zlen l + add < max_wpabuf ->
  used d = zlen l -> size d = zlen l + add ->
  wpabuf_head d = l ++ replicate (Z.to_nat add) 0 ->
  repr d l (zlen l + add).
Proof.
  intros H Ha Hm Hu Hs Hh. pose proof (repr_bytes _ _ _ H) as Hb.
  unfold repr, wf, contents. rewrite Hu, Hs, Hh. split_and!; try zlen_lia.
  - apply Forall_app. split; [done|]. apply Forall_replicate. unfold is_byte. lia.
  - unfold zlen. rewrite Nat2Z.id. apply take_app_length.
Qed.

Lemma wpabuf_resize_repr b l cap add :
  repr b l cap -> 0 <= add -> zlen l + add < max_wpabuf ->
  wpabuf_resize malloc_ok (Some b) add = Ok (-1, Some b) \/
  exists b' cap', wpabuf_resize malloc_ok (Some b) add = Ok (0, Some b') /\
    repr b' l cap' /\ zlen l + add <= cap'.
Proof.
  intros H Ha Hm. destruct (repr_len _ _ _ H) as [Hu Hc].
  destruct (wpabuf_head_split _ _ _ H) as (r & Hh & Hr & Hbr).
  pose proof H as (Hwf & _ & Hs). unfold wpabuf_resize.
  unfold max_wpabuf, sizeof_wpabuf in *.
  rewrite Hu, !Hs, !size_t_id by zlen_lia.
  destruct (Z.ltb_spec cap (zlen l + add)) as [Hgrow|]; [|right; exists b, cap; by split_and!].
  assert (forall h, h = wpabuf_head b ->
    realloc_clear h (zlen l + add) (zlen l) add = Ok (l ++ replicate (Z.to_nat add) 0)) as Hre.
  { intros h ->. rewrite realloc_clear_spec by (rewrite ?Hh; zlen_lia).
    rewrite Hh. unfold zlen. by rewrite Nat2Z.id, take_app_length. }
  destruct (ext_data b) as [d|] eqn:E; case_match; try (by left); right.
  - rewrite Hre by (unfold wpabuf_head; by rewrite E). cbn [mbind res_bind mret res_ret].
    eexists _, (zlen l + add). split_and!; [done | | lia].
    eapply resized_repr; [done.. | |]; done.
  - replace (12 + zlen l + add - 12) with (zlen l + add) by lia.
    rewrite Hre by (unfold wpabuf_head; by rewrite E). cbn [mbind res_bind mret res_ret].
    eexists _, (zlen l + add). split_and!; [done | | lia].
    eapply resized_repr; [done..| |]; [done|]. unfold wpabuf_head. cbn. by rewrite E.
Qed.
End resize_lemmas.

(** ** Properties *)

(** ([wpabuf_put] and the [wpabuf_put_*] family): a buffer that holds [l]
    and has [cap] bytes refines the abstract byte string with a capacity: bytes
    that fit are appended and nothing else changes, bytes that do not fit end
    in [wpabuf_overflow]'s abort before anything is stored out of bounds.  The
    only proviso is that the length counter itself does not wrap. *)
Theorem wpabuf_put_refines_append (b : wpabuf) (l d : list Z) (cap : Z) :
  repr b l cap -> bytes d -> zlen l + zlen d < 4294967296 ->
  (zlen l + zlen d <= cap ->
    exists b', wpabuf_put_bytes b d = Ok b' /\ repr b' (l ++ d) cap) /\
  (cap < zlen l + zlen d -> wpabuf_put_bytes b d = Fault Aborted) /\
  (forall src ls cs, repr src ls cs -> wpabuf_put_buf b src = wpabuf_put_bytes b ls).
Proof.
  intros H Hd Hw. split_and!.
  - by apply wpabuf_put_bytes_fits.
  - intros. eapply wpabuf_put_bytes_overflow; [done|lia].
  - intros. by eapply wpabuf_put_buf_contents.
Qed.

Definition buf3 : wpabuf :=
  {| size := 3; used := 1; ext_data := None; inline := [7; 0; 0] |}.

Lemma buf3_repr : repr buf3 [7] 3.
Proof.
  unfold repr, wf, contents. cbn. split_and!; try done.
  repeat constructor; unfold is_byte; lia.
Qed.

Lemma wpabuf_put_refines_append_witness :
  (zlen [7] + zlen [8; 9] <= 3 ->
    exists b', wpabuf_put_bytes buf3 [8; 9] = Ok b' /\ repr b' ([7] ++ [8; 9]) 3) /\
  (3 < zlen [7] + zlen [8; 9] -> wpabuf_put_bytes buf3 [8; 9] = Fault Aborted) /\
  (forall src ls cs, repr src ls cs -> wpabuf_put_buf buf3 src = wpabuf_put_bytes buf3 ls).
Proof.
  apply wpabuf_put_refines_append.
  - exact buf3_repr.
  - repeat constructor; unfold is_byte; lia.
  - reflexivity.
Defined.

(** ([wpabuf_resize]): growing a buffer either fails and leaves it as it is,
    or succeeds, keeps the contents and makes room for at least [add_len] more
    bytes, for data behind the structure and for external data alike. *)
Theorem wpabuf_resize_makes_room (malloc_ok : Z -> bool) (b : wpabuf) (l : list Z)
    (cap add_len : Z) :
  repr b l cap -> 0 <= add_len -> zlen l + add_len < max_wpabuf ->
  wpabuf_resize malloc_ok (Some b) add_len = Ok (-1, Some b) \/
  exists b' cap', wpabuf_resize malloc_ok (Some b) add_len = Ok (0, Some b') /\
    repr b' l cap' /\
    forall d, bytes d -> zlen d <= add_len ->
      exists b'', wpabuf_put_bytes b' d = Ok b'' /\ repr b'' (l ++ d) cap'.
Proof.
  intros H Ha Hm. destruct (wpabuf_resize_repr malloc_ok b l cap add_len H Ha Hm)
    as [?|(b' & cap' & ? & Hr & ?)]; [by left | right].
  exists b', cap'. split_and!; [done..|]. intros d Hd Hl.
  apply wpabuf_put_bytes_fits; [done.. | lia].
Qed.

Lemma wpabuf_resize_makes_room_witness :
  wpabuf_resize (fun _ => true) (Some buf3) 9 = Ok (-1, Some buf3) \/
  exists b' cap', wpabuf_resize (fun _ => true) (Some buf3) 9 = Ok (0, Some b') /\
    repr b' [7] cap' /\
    forall d, bytes d -> zlen d <= 9 ->
      exists b'', wpabuf_put_bytes b' d = Ok b'' /\ repr b'' ([7] ++ d) cap'.
Proof.
  apply (wpabuf_resize_makes_room (fun _ => true) buf3 [7] 3).
  - exact buf3_repr.
  - lia.
  - reflexivity.
Defined.

(** ([wpabuf_concat] / [wpabuf_zeropad] / [wpabuf_dup]): the combined buffer
    holds the first contents followed by the second, the padded one the
    contents behind zeros up to the requested length (or is returned as it is
    when long enough), the duplicate the same contents; when memory runs out
    the result is [NULL], never a fault. *)
Theorem wpabuf_combine_contents (malloc_ok : Z -> bool) (a b : wpabuf) (la lb : list Z)
    (ca cb len : Z) :
  repr a la ca -> repr b lb cb -> zlen la + zlen lb < max_wpabuf -> len < max_wpabuf ->
  (wpabuf_concat malloc_ok (Some a) (Some b) = Ok None \/
   exists n, wpabuf_concat malloc_ok (Some a) (Some b) = Ok (Some n) /\
     repr n (la ++ lb) (zlen la + zlen lb)) /\
  (wpabuf_zeropad malloc_ok (Some a) len = Ok None \/
   exists n, wpabuf_zeropad malloc_ok (Some a) len = Ok (Some n) /\
     contents n = replicate (Z.to_nat (len - zlen la)) 0 ++ la) /\
  (wpabuf_dup malloc_ok a = Ok None \/
   exists n, wpabuf_dup malloc_ok a = Ok (Some n) /\ repr n la (zlen la)).
Proof.
  intros Ha Hb Hsum Hlen.
  destruct (repr_len _ _ _ Ha) as [Hua Hca]. destruct (repr_len _ _ _ Hb) as [Hub Hcb].
  pose proof (repr_bytes _ _ _ Ha) as Hba. pose proof (repr_bytes _ _ _ Hb) as Hbb.
  split_and!; [| |by eapply wpabuf_dup_repr].
  - unfold wpabuf_concat, wpabuf_len. rewrite Hua, Hub.
    rewrite Z.add_0_l, (size_t_id (zlen la)), size_t_id
      by (unfold max_wpabuf, sizeof_wpabuf in *; zlen_lia).
    destruct (wpabuf_alloc malloc_ok _) as [n|] eqn:E; [right | by left].
    apply wpabuf_alloc_repr in E; [|zlen_lia].
    rewrite (wpabuf_put_buf_contents n a la ca Ha).
    destruct (wpabuf_put_bytes_fits _ _ _ la E Hba) as (n1 & -> & H1); [zlen_lia|].
    cbn [mbind res_bind]. rewrite (wpabuf_put_buf_contents n1 b lb cb Hb).
    destruct (wpabuf_put_bytes_fits _ _ _ lb H1 Hbb) as (n2 & -> & H2); [zlen_lia|].
    by exists n2.
  - unfold wpabuf_zeropad, wpabuf_len. rewrite Hua.
    destruct (Z.leb_spec len (zlen la)).
    { right. exists a. split; [done|].
      replace (Z.to_nat (len - zlen la)) with 0%nat by lia. by destruct Ha as (_ & ? & _). }
    destruct (wpabuf_alloc malloc_ok len) as [n|] eqn:E; [right | by left].
    apply wpabuf_alloc_repr in E; [|zlen_lia].
    destruct (wpabuf_put_bytes_fits _ _ _ (replicate (Z.to_nat (len - zlen la)) 0) E)
      as (n1 & -> & H1).
    { apply Forall_replicate. unfold is_byte. lia. }
    { rewrite zlen_replicate. change (zlen []) with 0. zlen_lia. }
    cbn [mbind res_bind]. rewrite (wpabuf_put_buf_contents n1 a la ca Ha).
    destruct (wpabuf_put_bytes_fits _ _ _ la H1 Hba) as (n2 & -> & H2); [zlen_lia|].
    exists n2. split; [done|]. by destruct H2 as (_ & ? & _).
Qed.

Lemma wpabuf_combine_contents_witness :
  (wpabuf_concat (fun _ => true) (Some buf3) (Some buf3) = Ok None \/
   exists n, wpabuf_concat (fun _ => true) (Some buf3) (Some buf3) = Ok (Some n) /\
     repr n ([7] ++ [7]) 2) /\
  (wpabuf_zeropad (fun _ => true) (Some buf3) 4 = Ok None \/
   exists n, wpabuf_zeropad (fun _ => true) (Some buf3) 4 = Ok (Some n) /\
     contents n = replicate 3 0 ++ [7]) /\
  (wpabuf_dup (fun _ => true) buf3 = Ok None \/
   exists n, wpabuf_dup (fun _ => true) buf3 = Ok (Some n) /\ repr n [7] 1).
Proof.
  apply (wpabuf_combine_contents (fun _ => true) buf3 buf3 [7] [7] 3 3 4).
  - exact buf3_repr.
  - exact buf3_repr.
  - reflexivity.
  - reflexivity.
Defined.
