(* ===== verification/EapCommon.v ===== *)
(** * eap_common/eap_common.c, eap_common/eap_defs.h: EAP packet headers

    Models the EAP header ([struct eap_hdr]), the codes and type numbers and the
    helpers every EAP method uses.  A pointer into a message is its offset from
    [wpabuf_head]; [EapType] is an enumeration that the code also fills from
    bytes of the network, so it is [Z] with the constants of the source. *)

From S2P Require Import Prelude WpaBuf.

Definition EAP_CODE_REQUEST : Z := 1.
Definition EAP_CODE_RESPONSE : Z := 2.
Definition EAP_CODE_SUCCESS : Z := 3.
Definition EAP_CODE_FAILURE : Z := 4.

Definition EAP_TYPE_NONE : Z := 0.
Definition EAP_TYPE_IDENTITY : Z := 1.
Definition EAP_TYPE_NOTIFICATION : Z := 2.
Definition EAP_TYPE_NAK : Z := 3.
Definition EAP_TYPE_MD5 : Z := 4.
Definition EAP_TYPE_EXPANDED : Z := 254.

Definition EAP_VENDOR_IETF : Z := 0.
Definition EAP_VENDOR_WFA : Z := 14122.

(** [struct eap_hdr]: code, identifier and a big endian length. *)
Definition sizeof_eap_hdr : Z := 4.
Definition eap_hdr_code (msg : wpabuf) : res Z := rd (wpabuf_head msg) 0.
Definition eap_hdr_identifier (msg : wpabuf) : res Z := rd (wpabuf_head msg) 1.
Definition eap_hdr_length (msg : wpabuf) : res Z := WPA_GET_BE16 (wpabuf_head msg) 2.

(** The bytes of a header. *)
Definition eap_hdr_bytes (code identifier len : Z) : list Z :=
  [u8 code; u8 identifier] ++ WPA_PUT_BE16 len.

(** The returned pointer and [*plen], or [None] for [NULL]. *)
Definition eap_hdr_validate (vendor eap_type : Z) (msg : wpabuf) : res (option (Z * Z)) :=
  if wpabuf_len msg <? sizeof_eap_hdr then mret None else
  len ← eap_hdr_length msg;
  if (len <? sizeof_eap_hdr + 1) || (wpabuf_len msg <? len) then mret None else
  let pos := sizeof_eap_hdr in
  t ← rd (wpabuf_head msg) pos;
  if t =? EAP_TYPE_EXPANDED then
    if len <? sizeof_eap_hdr + 8 then mret None else
    let pos := pos + 1 in
    exp_vendor ← WPA_GET_BE24 (wpabuf_head msg) pos;
    let pos := pos + 3 in
    exp_type ← WPA_GET_BE32 (wpabuf_head msg) pos;
    let pos := pos + 4 in
    if negb (exp_vendor =? vendor) || negb (exp_type =? u32 eap_type) then mret None else
    mret (Some (pos, size_t (len - sizeof_eap_hdr - 8)))
  else
    if negb (vendor =? EAP_VENDOR_IETF) || negb (t =? eap_type) then mret None else
    mret (Some (pos + 1, size_t (len - sizeof_eap_hdr - 1))).

Definition eap_msg_alloc (malloc_ok : Z -> bool) (vendor type payload_len code identifier : Z)
    : res (option wpabuf) :=
  let len := size_t (sizeof_eap_hdr + (if vendor =? EAP_VENDOR_IETF then 1 else 8) +
                     payload_len) in
  match wpabuf_alloc malloc_ok len with
  | None => mret None
  | Some buf =>
      buf ← wpabuf_put_bytes buf (eap_hdr_bytes code identifier len);
      if vendor =? EAP_VENDOR_IETF then
        buf ← wpabuf_put_u8 buf type;
        mret (Some buf)
      else
        buf ← wpabuf_put_u8 buf EAP_TYPE_EXPANDED;
        buf ← wpabuf_put_be24 buf vendor;
        buf ← wpabuf_put_be32 buf type;
        mret (Some buf)
  end.

Definition eap_update_len (msg : wpabuf) : res wpabuf :=
  if wpabuf_len msg <? sizeof_eap_hdr then mret msg else
  h ← wr_n (wpabuf_head msg) 2 (WPA_PUT_BE16 (wpabuf_len msg));
  mret (wpabuf_mhead_set msg h).

Definition eap_get_id (msg : wpabuf) : res Z :=
  if wpabuf_len msg <? sizeof_eap_hdr then mret 0 else eap_hdr_identifier msg.

Definition eap_get_type (msg : wpabuf) : res Z :=
  if wpabuf_len msg <? sizeof_eap_hdr + 1 then mret EAP_TYPE_NONE
  else rd (wpabuf_head msg) sizeof_eap_hdr.

(** ** Reading a well-formed message *)

Section reads.
Context (b : wpabuf) (Hwf : wf b).

Lemma wf_head_len : used b <= zlen (wpabuf_head b).
Proof using Hwf. destruct Hwf as (? & ? & ? & ?). lia. Qed.

Lemma wf_head_bytes : bytes (wpabuf_head b).
Proof using Hwf. by destruct Hwf as (? & ? & ? & ?). Qed.

Lemma wf_rd i : 0 <= i < used b -> exists x, rd (wpabuf_head b) i = Ok x /\ is_byte x.
Proof using Hwf.
  intros. apply rd_total; [|apply wf_head_bytes]. pose proof wf_head_len. lia.
Qed.

Lemma wf_hdr_length : 4 <= used b ->
  exists len, eap_hdr_length b = Ok len /\ 0 <= len < 65536.
Proof using Hwf.
  intros. apply WPA_GET_BE16_total; [apply wf_head_bytes | lia |].
  pose proof wf_head_len. lia.
Qed.

Lemma wf_be24 o : 0 <= o -> o + 3 <= used b ->
  exists v, WPA_GET_BE24 (wpabuf_head b) o = Ok v /\ 0 <= v < 16777216.
Proof using Hwf.
  intros. apply WPA_GET_BE24_total; [apply wf_head_bytes | lia |].
  pose proof wf_head_len. lia.
Qed.

Lemma wf_be32 o : 0 <= o -> o + 4 <= used b ->
  exists v, WPA_GET_BE32 (wpabuf_head b) o = Ok v /\ 0 <= v < 4294967296.
Proof using Hwf.
  intros. apply WPA_GET_BE32_total; [apply wf_head_bytes | lia |].
  pose proof wf_head_len. lia.
Qed.

(** The payload that [eap_hdr_validate] returns lies inside the message. *)
Definition inside (pos plen : Z) : Prop := 0 <= plen /\ 4 < pos /\ pos + plen <= used b.

Lemma eap_hdr_validate_total vendor type :
  exists r, eap_hdr_validate vendor type b = Ok r /\
    forall pos plen, r = Some (pos, plen) -> inside pos plen /\ plen < 65536.
Proof using Hwf.
  unfold eap_hdr_validate, wpabuf_len, sizeof_eap_hdr, inside.
  destruct (Z.ltb_spec (used b) 4); [by eexists; split; [done|]|].
  destruct wf_hdr_length as (len & -> & Hl); [lia|]. cbn [mbind res_bind].
  destruct (Z.ltb_spec len (4 + 1)); [by eexists; split; [done|]|].
  destruct (Z.ltb_spec (used b) len); [by eexists; split; [done|]|]. cbn [orb].
  destruct (wf_rd 4) as (t & -> & Ht); [lia|]. cbn [mbind res_bind].
  destruct (t =? EAP_TYPE_EXPANDED).
  - destruct (Z.ltb_spec len (4 + 8)); [by eexists; split; [done|]|].
    destruct (wf_be24 (4 + 1)) as (v & -> & Hv); [lia..|]. cbn [mbind res_bind].
    destruct (wf_be32 (4 + 1 + 3)) as (w & -> & Hw); [lia..|]. cbn [mbind res_bind].
    rewrite (size_t_id (len - 4 - 8)) by lia.
    case_match; (eexists; split; [done|]); intros ?? [=]; lia.
  - rewrite (size_t_id (len - 4 - 1)) by lia.
    case_match; (eexists; split; [done|]); intros ?? [=]; lia.
Qed.

Lemma eap_get_id_total : exists id, eap_get_id b = Ok id /\ is_byte id.
Proof using Hwf.
  unfold eap_get_id, wpabuf_len, sizeof_eap_hdr, eap_hdr_identifier.
  destruct (Z.ltb_spec (used b) 4).
  - exists 0. split; [done|]. unfold is_byte. lia.
  - apply wf_rd. lia.
Qed.

Lemma eap_get_type_total : exists t, eap_get_type b = Ok t.
Proof using Hwf.
  unfold eap_get_type, wpabuf_len, sizeof_eap_hdr.
  destruct (Z.ltb_spec (used b) (4 + 1)); [by eexists|].
  destruct (wf_rd 4) as (t & -> & _); [lia | by eexists].
Qed.
End reads.

(** ** Building a message *)

Definition type_bytes (vendor type : Z) : list Z :=
  if vendor =? EAP_VENDOR_IETF then [u8 type]
  else [EAP_TYPE_EXPANDED] ++ WPA_PUT_BE24 vendor ++ WPA_PUT_BE32 type.

Definition type_len (vendor : Z) : Z := if vendor =? EAP_VENDOR_IETF then 1 else 8.

Lemma type_bytes_len vendor type : zlen (type_bytes vendor type) = type_len vendor.
Proof. unfold type_bytes, type_len. by case_match. Qed.

Lemma type_len_bounds vendor : 1 <= type_len vendor <= 8.
Proof. unfold type_len. case_match; lia. Qed.

Lemma eap_hdr_bytes_bytes c i l : bytes (eap_hdr_bytes c i l).
Proof.
  unfold eap_hdr_bytes. constructor; [apply u8_byte|].
  constructor; [apply u8_byte|]. apply WPA_PUT_BE16_bytes.
Qed.

(** A fresh message holds the header and the type and has room for the payload. *)
Lemma eap_msg_alloc_repr malloc_ok vendor type n code id :
  0 <= n < 4294967296 - 24 ->
  eap_msg_alloc malloc_ok vendor type n code id = Ok None \/
  exists b, eap_msg_alloc malloc_ok vendor type n code id = Ok (Some b) /\
    repr b (eap_hdr_bytes code id (4 + type_len vendor + n) ++ type_bytes vendor type)
      (4 + type_len vendor + n).
Proof.
  intros Hn. unfold eap_msg_alloc. fold (type_len vendor).
  pose proof (type_len_bounds vendor) as Ht. unfold sizeof_eap_hdr.
  rewrite size_t_id by lia.
  destruct (wpabuf_alloc _ _) as [b|] eqn:E; [right | by left].
  apply wpabuf_alloc_repr in E; [|unfold max_wpabuf, sizeof_wpabuf; lia].
  edestruct (wpabuf_put_bytes_fits b [] _ (eap_hdr_bytes code id (4 + type_len vendor + n)) E)
    as (b1 & -> & H1);
    [apply eap_hdr_bytes_bytes | change (zlen (eap_hdr_bytes _ _ _)) with 4; zlen_lia |].
  cbn [mbind res_bind]. rewrite app_nil_l in H1.
  assert (forall x, zlen (eap_hdr_bytes code id x) = 4) as Hz by done.
  unfold type_bytes, type_len in *. case_match.
  - edestruct (wpabuf_put_bytes_fits _ _ _ [u8 type] H1) as (b2 & Hb2 & H2);
      [repeat constructor; apply u8_byte | rewrite Hz; zlen_lia|].
    unfold wpabuf_put_u8. rewrite Hb2. by exists b2.
  - unfold wpabuf_put_u8, wpabuf_put_be24, wpabuf_put_be32.
    edestruct (wpabuf_put_bytes_fits _ _ _ [u8 EAP_TYPE_EXPANDED] H1) as (b2 & -> & H2);
      [repeat constructor; apply u8_byte | rewrite Hz; zlen_lia|]. cbn [mbind res_bind].
    edestruct (wpabuf_put_bytes_fits _ _ _ (WPA_PUT_BE24 vendor) H2) as (b3 & -> & H3);
      [apply WPA_PUT_BE24_bytes | rewrite zlen_app, Hz; change (zlen (WPA_PUT_BE24 _)) with 3; zlen_lia|].
    cbn [mbind res_bind].
    edestruct (wpabuf_put_bytes_fits _ _ _ (WPA_PUT_BE32 type) H3) as (b4 & -> & H4);
      [apply WPA_PUT_BE32_bytes
      | rewrite !zlen_app, Hz; change (zlen (WPA_PUT_BE24 _)) with 3;
        change (zlen (WPA_PUT_BE32 _)) with 4; zlen_lia|].
    exists b4. split; [done|]. by rewrite <- !app_assoc in H4.
Qed.

Lemma hdr_bytes_length c i v r : WPA_GET_BE16 (eap_hdr_bytes c i v ++ r) 2 = Ok (u16 v).
Proof. exact (WPA_GET_PUT_BE16 [u8 c; u8 i] v r). Qed.

(** Parsing what the builder lays out: header, type and payload. *)
Lemma validate_layout b vendor type code id n l cap :
  repr b (eap_hdr_bytes code id (4 + type_len vendor + n) ++ type_bytes vendor type ++ l) cap ->
  n = zlen l -> 4 + type_len vendor + n < 65536 ->
  0 <= vendor < 16777216 -> 0 <= type < (if vendor =? EAP_VENDOR_IETF then 254 else 4294967296) ->
  eap_hdr_validate vendor type b = Ok (Some (4 + type_len vendor, n)).
Proof.
  intros H -> Hsmall Hv Ht. pose proof (type_len_bounds vendor) as Htl.
  destruct (repr_len _ _ _ H) as [Hu _].
  destruct (wpabuf_head_split _ _ _ H) as (r & Hh & _ & _).
  assert (zlen (eap_hdr_bytes code id (4 + type_len vendor + zlen l)) = 4) as Hz by done.
  rewrite !zlen_app, Hz, type_bytes_len in Hu. rewrite <- !app_assoc in Hh.
  unfold eap_hdr_validate, eap_hdr_length, wpabuf_len, sizeof_eap_hdr. rewrite Hu, Hh.
  rewrite (proj2 (Z.ltb_ge _ 4)) by zlen_lia.
  rewrite hdr_bytes_length, u16_id by zlen_lia. cbn [mbind res_bind].
  rewrite (proj2 (Z.ltb_ge _ (4 + 1))), (proj2 (Z.ltb_ge _ _)) by zlen_lia. cbn [orb].
  unfold type_bytes, type_len in *. destruct (Z.eqb_spec vendor EAP_VENDOR_IETF) as [->|Hne].
  - erewrite rd_lookup by (lia || reflexivity). cbn [mbind res_bind].
    rewrite (u8_id type) by (unfold is_byte; lia).
    rewrite (proj2 (Z.eqb_neq type EAP_TYPE_EXPANDED)) by (unfold EAP_TYPE_EXPANDED; lia).
    rewrite Z.eqb_refl. cbn [negb orb mret res_ret]. rewrite size_t_id by zlen_lia.
    repeat f_equal; lia.
  - erewrite rd_lookup by (lia || reflexivity). cbn [mbind res_bind].
    rewrite Z.eqb_refl, (proj2 (Z.ltb_ge _ (4 + 8))) by zlen_lia.
    set (h := eap_hdr_bytes _ _ _) in *.
    assert (forall v t, WPA_GET_BE24 (h ++ ([EAP_TYPE_EXPANDED] ++ WPA_PUT_BE24 v ++ t) ++ l ++ r)
      (4 + 1) = Ok (v mod 16777216)) as ->.
    { intros. replace (4 + 1) with (zlen (h ++ [EAP_TYPE_EXPANDED])) by done.
      rewrite <- !app_assoc, (app_assoc h). apply WPA_GET_PUT_BE24. }
    cbn [mbind res_bind].
    assert (forall v t, WPA_GET_BE32 (h ++ ([EAP_TYPE_EXPANDED] ++ WPA_PUT_BE24 v ++
      WPA_PUT_BE32 t) ++ l ++ r) (4 + 1 + 3) = Ok (u32 t)) as ->.
    { intros. replace (4 + 1 + 3) with (zlen (h ++ [EAP_TYPE_EXPANDED] ++ WPA_PUT_BE24 v)) by done.
      rewrite <- !app_assoc, (app_assoc _ (WPA_PUT_BE24 v)), (app_assoc h). apply WPA_GET_PUT_BE32. }
    cbn [mbind res_bind]. rewrite Z.mod_small, !Z.eqb_refl by lia. cbn [negb orb mret res_ret].
    rewrite size_t_id by zlen_lia. repeat f_equal; lia.
Qed.

(** ** Properties *)

(** ([eap_hdr_validate] / [eap_get_id] / [eap_get_type]): on any message of
    any length, well-formed or not as EAP, the header helpers read only inside
    the buffer and return; a payload that [eap_hdr_validate] hands to a method
    lies wholly within the received bytes. *)
Theorem eap_hdr_validate_in_bounds (b : wpabuf) (vendor type : Z) :
  wf b ->
  (exists r, eap_hdr_validate vendor type b = Ok r /\
     forall pos plen, r = Some (pos, plen) ->
       4 < pos /\ 0 <= plen /\ pos + plen <= wpabuf_len b) /\
  no_fault (eap_get_id b) /\ no_fault (eap_get_type b).
Proof.
  intros Hwf. split_and!.
  - destruct (eap_hdr_validate_total b Hwf vendor type) as (r & -> & Hr).
    exists r. split; [done|]. intros pos plen Hp. apply Hr in Hp. unfold inside, wpabuf_len in *. lia.
  - destruct (eap_get_id_total b Hwf) as (id & -> & _). apply no_fault_ok.
  - destruct (eap_get_type_total b Hwf) as (t & ->). apply no_fault_ok.
Qed.

(** An Identity response with identifier 7 and the identity [ab]. *)
Definition id_resp : wpabuf :=
  {| size := 7; used := 7; ext_data := None; inline := [2; 7; 0; 7; 1; 97; 98] |}.

Lemma id_resp_wf : wf id_resp.
Proof.
  unfold wf. cbn. split_and!; try done. repeat constructor; unfold is_byte; lia.
Qed.

Lemma eap_hdr_validate_in_bounds_witness :
  (exists r, eap_hdr_validate 0 1 id_resp = Ok r /\
     forall pos plen, r = Some (pos, plen) -> 4 < pos /\ 0 <= plen /\ pos + plen <= 7) /\
  no_fault (eap_get_id id_resp) /\ no_fault (eap_get_type id_resp).
Proof. apply (eap_hdr_validate_in_bounds id_resp 0 1). exact id_resp_wf. Defined.

(** ([eap_msg_alloc] / [eap_hdr_validate]): a message allocated for a payload
    and filled with it is parsed back to exactly that payload, for IETF types in
    the one byte type field and for vendor types in the expanded header. *)
Theorem eap_msg_roundtrip (malloc_ok : Z -> bool) (vendor type code id : Z) (payload : list Z) :
  bytes payload -> zlen payload < 65000 -> 0 <= vendor < 16777216 ->
  0 <= type < (if vendor =? EAP_VENDOR_IETF then 254 else 4294967296) ->
  eap_msg_alloc malloc_ok vendor type (zlen payload) code id = Ok None \/
  exists b0 b, eap_msg_alloc malloc_ok vendor type (zlen payload) code id = Ok (Some b0) /\
    wpabuf_put_data b0 (Some payload) (zlen payload) = Ok b /\
    exists pos, eap_hdr_validate vendor type b = Ok (Some (pos, zlen payload)) /\
      rd_n (wpabuf_head b) pos (zlen payload) = Ok payload /\
      eap_get_id b = Ok (u8 id).
Proof.
  intros Hp Hl Hv Ht. pose proof (type_len_bounds vendor) as Htl.
  destruct (eap_msg_alloc_repr malloc_ok vendor type (zlen payload) code id)
    as [?|(b0 & -> & H0)]; [zlen_lia | by left | right].
  assert (forall x, zlen (eap_hdr_bytes code id x) = 4) as Hz by done.
  destruct (wpabuf_put_bytes_fits _ _ _ payload H0 Hp) as (b & Hb & H).
  { rewrite zlen_app, Hz, type_bytes_len. lia. }
  rewrite <- app_assoc in H. exists b0, b. rewrite wpabuf_put_data_all. split_and!; [done..|].
  exists (4 + type_len vendor). split_and!.
  - eapply validate_layout; [exact H | done | lia | done | done].
  - destruct (wpabuf_head_split _ _ _ H) as (r & -> & _ & _).
    set (h := eap_hdr_bytes _ _ _).
    replace (4 + type_len vendor) with (zlen (h ++ type_bytes vendor type))
      by (unfold h; rewrite zlen_app, Hz, type_bytes_len; lia).
    rewrite app_assoc, <- (app_assoc _ payload). apply rd_n_app_mid.
  - unfold eap_get_id, eap_hdr_identifier, wpabuf_len, sizeof_eap_hdr.
    destruct (repr_len _ _ _ H) as [-> _].
    rewrite !zlen_app, Hz, type_bytes_len, (proj2 (Z.ltb_ge _ 4)) by zlen_lia.
    destruct (wpabuf_head_split _ _ _ H) as (r & -> & _ & _).
    by erewrite rd_lookup by (lia || reflexivity).
Qed.

Lemma eap_msg_roundtrip_witness :
  eap_msg_alloc (fun _ => true) EAP_VENDOR_WFA 1 2 1 9 = Ok None \/
  exists b0 b, eap_msg_alloc (fun _ => true) EAP_VENDOR_WFA 1 2 1 9 = Ok (Some b0) /\
    wpabuf_put_data b0 (Some [97; 98]) 2 = Ok b /\
    exists pos, eap_hdr_validate EAP_VENDOR_WFA 1 b = Ok (Some (pos, 2)) /\
      rd_n (wpabuf_head b) pos 2 = Ok [97; 98] /\ eap_get_id b = Ok (u8 9).
Proof.
  apply (eap_msg_roundtrip (fun _ => true) EAP_VENDOR_WFA 1 1 9 [97; 98]).
  - repeat constructor; unfold is_byte; lia.
  - reflexivity.
  - unfold EAP_VENDOR_WFA. lia.
  - cbn. lia.
Defined.
