(* ===== verification/EapI.v ===== *)
(** * eap_server/eap_i.h, eap_server/eap.h, eap_server/eap_server_methods.c

    The data of the EAP server (RFC 4137 authenticator): the state machine
    structure [struct eap_sm], the variables it shares with the EAPOL layer
    ([struct eap_eapol_interface]), the EAP method interface
    ([struct eap_method], a record of operations) and the registry of methods.

    A method's private data ([void *priv]) has a type [P] that the development
    is parametric in; [sm->m] points to an entry of the registry and is the key
    [(vendor, method)] of that entry.  What a call takes from the outside (heap,
    [rand()], [random_get_bytes()]) comes from an [env]. *)

From S2P Require Import Prelude WpaBuf EapCommon.

(** ** The outside world of one call *)
Record env := {
  malloc_ok : Z -> bool;
  rand : Z;
  random_get_bytes : Z -> option (list Z);
}.

(** ** eap.h *)
Definition EAP_MAX_METHODS : Z := 8.

#[projections(primitive)]
Record eap_user := {
  methods : list (Z * Z);
  password : option (list Z);
  password_len : Z;
  password_hash : Z;
  phase2 : Z;
  force_version : Z;
  ttls_auth : Z;
}.

Definition sizeof_eap_user : Z := 88.

#[projections(primitive)]
Record eap_eapol_interface := {
  eapResp : bool;
  eapRespData : option wpabuf;
  portEnabled : bool;
  retransWhile : Z;
  eapRestart : bool;
  eapSRTT : Z;
  eapRTTVAR : Z;
  eapReq : bool;
  eapNoReq : bool;
  eapSuccess : bool;
  eapFail : bool;
  eapTimeout : bool;
  eapReqData : option wpabuf;
  eapKeyData : option (list Z);
  eapKeyDataLen : Z;
  eapKeyAvailable : bool;
  aaaEapReq : bool;
  aaaEapNoReq : bool;
  aaaSuccess : bool;
  aaaFail : bool;
  aaaEapReqData : option wpabuf;
  aaaEapKeyData : option (list Z);
  aaaEapKeyDataLen : Z;
  aaaEapKeyAvailable : bool;
  aaaMethodTimeout : Z;
  aaaEapResp : bool;
  aaaEapRespData : option wpabuf;
  aaaTimeout : bool;
}.

(** [os_zalloc]. *)
Definition eap_if_zero : eap_eapol_interface :=
  {| eapResp := false; eapRespData := None; portEnabled := false; retransWhile := 0;
     eapRestart := false; eapSRTT := 0; eapRTTVAR := 0; eapReq := false; eapNoReq := false;
     eapSuccess := false; eapFail := false; eapTimeout := false; eapReqData := None;
     eapKeyData := None; eapKeyDataLen := 0; eapKeyAvailable := false; aaaEapReq := false;
     aaaEapNoReq := false; aaaSuccess := false; aaaFail := false; aaaEapReqData := None;
     aaaEapKeyData := None; aaaEapKeyDataLen := 0; aaaEapKeyAvailable := false;
     aaaMethodTimeout := 0; aaaEapResp := false; aaaEapRespData := None;
     aaaTimeout := false |}.

(** The callbacks; [get_eap_user identity phase2] is the user entry it fills, or
    [None] for a non-zero return. *)
Record eapol_callbacks := {
  get_eap_user : option (list Z -> Z -> option eap_user);
  get_eap_req_id_text : option (option (list Z) * Z);
}.

#[projections(primitive)]
Record eap_config := {
  conf_ssl_ctx : Z;
  conf_msg_ctx : Z;
  conf_eap_sim_db_priv : Z;
  conf_backend_auth : bool;
  conf_eap_server : Z;
  conf_pwd_group : Z;
  conf_pac_opaque_encr_key : option (list Z);
  conf_eap_fast_a_id : option (list Z);
  conf_eap_fast_a_id_len : Z;
  conf_eap_fast_a_id_info : option (list Z);
  conf_eap_fast_prov : Z;
  conf_pac_key_lifetime : Z;
  conf_pac_key_refresh_time : Z;
  conf_eap_sim_aka_result_ind : Z;
  conf_tnc : Z;
  conf_wps : Z;
  conf_assoc_wps_ie : option wpabuf;
  conf_assoc_p2p_ie : option wpabuf;
  conf_peer_addr : option (list Z);
  conf_fragment_size : Z;
}.

(** ** eap_i.h *)
Inductive EAP_state_t :=
  | EAP_DISABLED | EAP_INITIALIZE | EAP_IDLE | EAP_RECEIVED
  | EAP_INTEGRITY_CHECK | EAP_METHOD_RESPONSE | EAP_METHOD_REQUEST
  | EAP_PROPOSE_METHOD | EAP_SELECT_ACTION | EAP_SEND_REQUEST
  | EAP_DISCARD | EAP_NAK | EAP_RETRANSMIT | EAP_SUCCESS | EAP_FAILURE
  | EAP_TIMEOUT_FAILURE | EAP_PICK_UP_METHOD
  | EAP_INITIALIZE_PASSTHROUGH | EAP_IDLE2 | EAP_RETRANSMIT2
  | EAP_RECEIVED2 | EAP_DISCARD2 | EAP_SEND_REQUEST2
  | EAP_AAA_REQUEST | EAP_AAA_RESPONSE | EAP_AAA_IDLE
  | EAP_TIMEOUT_FAILURE2 | EAP_FAILURE2 | EAP_SUCCESS2.

Inductive methodState_t := METHOD_PROPOSED | METHOD_CONTINUE | METHOD_END.
Inductive decision_t :=
  | DECISION_SUCCESS | DECISION_FAILURE | DECISION_CONTINUE | DECISION_PASSTHROUGH.
Inductive method_pending_t :=
  | METHOD_PENDING_NONE | METHOD_PENDING_WAIT | METHOD_PENDING_CONT.

#[global] Instance EAP_state_eq_dec : EqDecision EAP_state_t.
Proof. solve_decision. Defined.
#[global] Instance methodState_eq_dec : EqDecision methodState_t.
Proof. solve_decision. Defined.
#[global] Instance decision_eq_dec : EqDecision decision_t.
Proof. solve_decision. Defined.
#[global] Instance method_pending_eq_dec : EqDecision method_pending_t.
Proof. solve_decision. Defined.

(** The fields of [struct eap_sm] in four groups: what the parser of a response
    fills in ([rx]), what methods work on ([mv]), what [eap_server_sm_init] sets
    once ([cf]), and the variables of the machine itself.  [ssl_ctx], [msg_ctx],
    [eap_sim_db_priv] and [wps] are addresses that this code only hands on. *)
#[projections(primitive)]
Record eap_sm_rx := {
  rxResp : bool;
  respId : Z;
  respMethod : Z;
  respVendor : Z;
  respVendorMethod : Z;
}.

#[projections(primitive)]
Record eap_sm_method_vars := {
  identity : option (list Z);
  identity_len : Z;
  require_identity_match : Z;
  user : option eap_user;
  user_eap_method_index : Z;
  init_phase2 : Z;
  update_user : bool;
  method_pending : method_pending_t;
  auth_challenge : option (list Z);
  peer_challenge : option (list Z);
}.

#[projections(primitive)]
Record eap_sm_conf := {
  MaxRetrans : Z;
  msg_ctx : Z;
  eapol_cb : option eapol_callbacks;
  ssl_ctx : Z;
  eap_sim_db_priv : Z;
  backend_auth : bool;
  eap_server : Z;
  pac_opaque_encr_key : option (list Z);
  eap_fast_a_id : option (list Z);
  eap_fast_a_id_len : Z;
  eap_fast_a_id_info : option (list Z);
  eap_fast_prov : Z;
  pac_key_lifetime : Z;
  pac_key_refresh_time : Z;
  eap_sim_aka_result_ind : Z;
  tnc : Z;
  pwd_group : Z;
  wps : Z;
  assoc_wps_ie : option wpabuf;
  assoc_p2p_ie : option wpabuf;
  peer_addr : list Z;
  fragment_size : Z;
}.

#[projections(primitive)]
Record eap_sm {P : Type} := {
  EAP_state : EAP_state_t;
  eap_if : eap_eapol_interface;
  currentMethod : Z;
  currentId : Z;
  methodState : methodState_t;
  retransCount : Z;
  lastReqData : option wpabuf;
  methodTimeout : Z;
  rx : eap_sm_rx;
  ignore : bool;
  decision : decision_t;
  m : option (Z * Z);
  changed : bool;
  eap_method_priv : option P;
  mv : eap_sm_method_vars;
  lastId : Z;
  num_rounds : Z;
  start_reauth : bool;
  cf : eap_sm_conf;
}.
Arguments eap_sm : clear implicits.

(** ** The EAP method interface *)

(** The operations of [struct eap_method].  An operation that may be absent
    ([NULL] pointer, tested by the caller) is an option.  The operations get the
    state machine and the private data and return what they leave in them. *)
Record eap_method {P : Type} := {
  vendor : Z;
  method : Z;
  name : option (list Z);
  version : Z;
  init : env -> eap_sm P -> res (eap_sm P * option P);
  initPickUp : option (env -> eap_sm P -> res (eap_sm P * option P));
  reset : eap_sm P -> P -> res (eap_sm P);
  buildReq : env -> eap_sm P -> P -> Z -> res (eap_sm P * P * option wpabuf);
  getTimeout : option (eap_sm P -> P -> Z);
  check : option (eap_sm P -> P -> option wpabuf -> res bool);
  process : env -> eap_sm P -> P -> option wpabuf -> res (eap_sm P * P);
  isDone : eap_sm P -> P -> bool;
  getKey : option (env -> eap_sm P -> P -> option (list Z) * Z);
  isSuccess : eap_sm P -> P -> bool;
}.
Arguments eap_method : clear implicits.

Definition EAP_SERVER_METHOD_INTERFACE_VERSION : Z := 1.

Section registry.
Context {P : Type}.

(** [static struct eap_method *eap_methods]: the linked list, oldest first. *)
Definition registry := list (eap_method P).

Definition has_type (v t : Z) (x : eap_method P) : bool :=
  (vendor x =? v) && (method x =? t).

Fixpoint eap_server_get_eap_method (eap_methods : registry) (v t : Z)
    : option (eap_method P) :=
  match eap_methods with
  | [] => None
  | x :: r => if has_type v t x then Some x else eap_server_get_eap_method r v t
  end.

(** The vendor and type of a method name. *)
Fixpoint eap_server_get_type (eap_methods : registry) (nm : list Z) : Z * Z :=
  match eap_methods with
  | [] => (EAP_VENDOR_IETF, EAP_TYPE_NONE)
  | x :: r => if bool_decide (name x = Some nm) then (vendor x, method x)
              else eap_server_get_type r nm
  end.

Fixpoint eap_server_get_name (eap_methods : registry) (v t : Z) : option (list Z) :=
  match eap_methods with
  | [] => None
  | x :: r => if has_type v t x then name x else eap_server_get_name r v t
  end.

(** The loop of [eap_server_method_register]: whether an entry clashes. *)
Fixpoint method_clash (eap_methods : registry) (x : eap_method P) : bool :=
  match eap_methods with
  | [] => false
  | y :: r => has_type (vendor x) (method x) y || bool_decide (name y = name x)
              || method_clash r x
  end.

Definition eap_server_method_register (eap_methods : registry)
    (x : option (eap_method P)) : Z * registry :=
  match x with
  | None => (-1, eap_methods)
  | Some x =>
      match name x with
      | None => (-1, eap_methods)
      | Some _ =>
          if negb (version x =? EAP_SERVER_METHOD_INTERFACE_VERSION) then (-1, eap_methods)
          else if method_clash eap_methods x then (-2, eap_methods)
          else (0, eap_methods ++ [x])
      end
  end.

Definition eap_server_unregister_methods (eap_methods : registry) : registry := [].

(** A registry built by registrations: types and names are unique. *)
Inductive registered : registry -> Prop :=
  | registered_nil : registered []
  | registered_add r x r' :
      registered r -> eap_server_method_register r (Some x) = (0, r') -> registered r'.

Lemma get_method_app r x v t :
  eap_server_get_eap_method (r ++ [x]) v t =
  match eap_server_get_eap_method r v t with
  | Some y => Some y
  | None => if has_type v t x then Some x else None
  end.
Proof. induction r as [|y r IH]; cbn; [done|]. by destruct (has_type v t y). Qed.

Lemma no_clash r x v t :
  method_clash r x = false -> has_type v t x = true -> eap_server_get_eap_method r v t = None.
Proof.
  unfold has_type. induction r as [|y r IH]; cbn; [done|]. intros Hc Hx.
  apply orb_false_iff in Hc as [[Hc _]%orb_false_iff Hr]. unfold has_type in *.
  apply andb_true_iff in Hx as Hx'. destruct Hx' as [<-%Z.eqb_eq <-%Z.eqb_eq].
  rewrite Hc. by apply IH.
Qed.

Lemma register_inv r x r' : eap_server_method_register r (Some x) = (0, r') ->
  method_clash r x = false /\ r' = r ++ [x].
Proof.
  unfold eap_server_method_register. destruct (name x); [|intros [=]].
  case_match; [intros [=]|]. case_match; [intros [=]|]. by intros [= <-].
Qed.
End registry.
Arguments registry : clear implicits.

(** ([eap_server_method_register] / [eap_server_get_eap_method]): in a
    registry built by registrations, every registered method is the one that a
    lookup of its vendor and type finds, so [sm->m] and the pair that names it
    determine each other. *)
Theorem registry_lookup_unique {P : Type} (r : registry P) :
  registered r -> forall x, x ∈ r ->
    eap_server_get_eap_method r (vendor x) (method x) = Some x.
Proof.
  induction 1 as [|r y r' Hr IH [Hc ->]%register_inv]; intros x Hx.
  - by apply elem_of_nil in Hx.
  - rewrite get_method_app. apply elem_of_app in Hx as [Hx | Hx%list_elem_of_singleton].
    + by rewrite (IH x Hx).
    + subst x. assert (has_type (vendor y) (method y) y = true) as Ht
        by (unfold has_type; by rewrite !Z.eqb_refl).
      by rewrite (no_clash _ _ _ _ Hc Ht), Ht.
Qed.

(** ** What the state machine and a method promise each other *)

Definition opt {A} (Q : A -> Prop) (o : option A) : Prop :=
  match o with Some a => Q a | None => True end.

(** Eight method entries; the stored password is as long as [password_len] says. *)
Definition wf_user (u : eap_user) : Prop :=
  length (methods u) = 8%nat /\
  opt (fun d => bytes d /\ 0 <= password_len u <= zlen d) (password u).

Definition wf_callbacks (cb : eapol_callbacks) : Prop :=
  (forall get id ph u, get_eap_user cb = Some get -> get id ph = Some u -> wf_user u) /\
  (forall d n, get_eap_req_id_text cb = Some (d, n) ->
     0 <= n < 65536 /\ opt (fun d => bytes d /\ n <= zlen d) d).

Definition wf_env (e : env) : Prop :=
  forall n d, random_get_bytes e n = Some d -> bytes d /\ zlen d = n.

Section method_laws.
Context {P : Type}.
Implicit Types (s : eap_sm P) (x : eap_method P).

(** The part of the state that methods read and may change. *)
Definition wf_vars (v : eap_sm_method_vars) : Prop :=
  opt wf_user (user v) /\
  opt (fun d => bytes d /\ 0 <= identity_len v <= zlen d) (identity v) /\
  0 <= user_eap_method_index v <= EAP_MAX_METHODS.

Definition wf_conf (c : eap_sm_conf) : Prop :=
  exists cb, eapol_cb c = Some cb /\ wf_callbacks cb.

Definition wf_method_view s : Prop := wf_vars (mv s) /\ wf_conf (cf s).

(** A method changes nothing but identity, user and its own bookkeeping. *)
Definition method_frame s s' : Prop := s' = s <| mv := mv s' |> /\ wf_vars (mv s').

(** Only [process] may go pending. *)
Definition quiet_frame s s' : Prop :=
  method_frame s s' /\ method_pending (mv s') = method_pending (mv s).

(** The contract of [struct eap_method].  [accepts p resp] says that [process]
    can be trusted with [resp]: because [check] let it pass, because the method
    was picked up in the middle of an exchange, or because it asked to see a
    message again by going pending. *)
Class MethodLaws x (accepts : P -> wpabuf -> Prop) : Prop := {
  init_law e s : wf_env e -> wf_method_view s ->
    exists s' p, init x e s = Ok (s', p) /\ quiet_frame s s';
  initPickUp_law f e s : initPickUp x = Some f -> wf_env e -> wf_method_view s ->
    exists s' p, f e s = Ok (s', p) /\ quiet_frame s s' /\
      opt (fun p => forall resp, wf resp -> accepts p resp) p;
  reset_law s p : wf_method_view s -> exists s', reset x s p = Ok s' /\ quiet_frame s s';
  buildReq_law e s p id : wf_env e -> wf_method_view s ->
    exists s' p' d, buildReq x e s p id = Ok (s', p', d) /\ quiet_frame s s' /\ opt wf d;
  check_law f s p resp : check x = Some f -> wf_method_view s -> wf resp ->
    exists b, f s p (Some resp) = Ok b /\ (b = false -> accepts p resp);
  no_check_law p resp : check x = None -> wf resp -> accepts p resp;
  process_law e s p resp : wf_env e -> wf_method_view s -> wf resp -> accepts p resp ->
    exists s' p', process x e s p (Some resp) = Ok (s', p') /\ method_frame s s' /\
      (method_pending (mv s) = METHOD_PENDING_NONE ->
         method_pending (mv s') = METHOD_PENDING_NONE \/
         method_pending (mv s') = METHOD_PENDING_WAIT /\ isDone x s' p' = false /\
         forall resp, wf resp -> accepts p' resp);
  isSuccess_law s s' p : isSuccess x s p = isSuccess x s' p;
  isDone_law s s' p : isDone x s p = isDone x s' p;
}.
End method_laws.
