(* ===== verification/EapServer.v ===== *)
(** * eap_server/eap_server.c: the EAP server state machine

    One definition per function of the source: the [SM_STATE] entry actions, the
    transition function [SM_STEP(EAP)], the policy functions, the parser and the
    driver loop [eap_server_sm_step].  A NULL dereference, a read outside a
    buffer and the abort of [wpabuf_put] are faults of the result monad.  The
    registry of methods is an argument, and every call of the step function gets
    its own [env], so that allocations can fail at any point of a run.  Debug
    output and [wpa_msg] events have no effect on the state and are left out. *)

From S2P Require Import Prelude WpaBuf EapCommon EapI.

Definition EAP_MAX_AUTH_ROUNDS : Z := 50.

(** [eap_copy_buf(&dst, src)]: the return value and the new [dst]. *)
Definition eap_copy_buf (e : env) (dst src : option wpabuf) : res (Z * option wpabuf) :=
  match src with
  | None => mret (-1, dst)
  | Some src =>
      dst ← wpabuf_dup (malloc_ok e) src;
      mret (match dst with Some _ => 0 | None => -1 end, dst)
  end.

(** [eap_copy_data(&dst, &dst_len, src, src_len)]: return value, [dst] and [dst_len]. *)
Definition eap_copy_data (e : env) (dst : option (list Z)) (dst_len : Z)
    (src : option (list Z)) (src_len : Z) : res (Z * option (list Z) * Z) :=
  match src with
  | None => mret (-1, dst, dst_len)
  | Some src =>
      if malloc_ok e src_len then
        d ← rd_n src 0 src_len; mret (0, Some d, src_len)
      else mret (-1, None, 0)
  end.

(** [user->methods[i]]. *)
Definition user_method (u : eap_user) (i : Z) : res (Z * Z) :=
  if (0 <=? i) && (i <? EAP_MAX_METHODS) then
    match methods u !! Z.to_nat i with Some x => Ok x | None => Fault OutOfBounds end
  else Fault OutOfBounds.

(** [methods[i].vendor != EAP_VENDOR_IETF || methods[i].method != EAP_TYPE_NONE]. *)
Definition configured (x : Z * Z) : bool :=
  negb (x.1 =? EAP_VENDOR_IETF) || negb (x.2 =? EAP_TYPE_NONE).

Fixpoint calculateTimeout_loop (fuel : nat) (i retransCount rto : Z) : res Z :=
  match fuel with
  | O => Fault OutOfFuel
  | S fuel =>
      if i <? retransCount then
        let rto := rto * 2 in
        if 20 <=? rto then mret 20
        else calculateTimeout_loop fuel (i + 1) retransCount rto
      else mret rto
  end.

(** The loop leaves after at most three rounds. *)
Definition eap_sm_calculateTimeout (retransCount eapSRTT eapRTTVAR methodTimeout : Z) : res Z :=
  if negb (methodTimeout =? 0) then mret methodTimeout
  else calculateTimeout_loop 4 0 retransCount 3.

Definition eap_sm_getId (data : option wpabuf) : res Z :=
  match data with
  | None => mret (-1)
  | Some data =>
      if wpabuf_len data <? sizeof_eap_hdr then mret (-1) else eap_hdr_identifier data
  end.

Definition eap_sm_buildSuccess (e : env) (id : Z) : res (option wpabuf) :=
  match wpabuf_alloc (malloc_ok e) sizeof_eap_hdr with
  | None => mret None
  | Some msg =>
      msg ← wpabuf_put_bytes msg (eap_hdr_bytes EAP_CODE_SUCCESS id sizeof_eap_hdr);
      mret (Some msg)
  end.

Definition eap_sm_buildFailure (e : env) (id : Z) : res (option wpabuf) :=
  match wpabuf_alloc (malloc_ok e) sizeof_eap_hdr with
  | None => mret None
  | Some msg =>
      msg ← wpabuf_put_bytes msg (eap_hdr_bytes EAP_CODE_FAILURE id sizeof_eap_hdr);
      mret (Some msg)
  end.

(** [for (j = 0; j < len; j++) if (nak_list[j] == method) break;]: whether the
    loop left early.  The list is consumed from the pointer [nak_list]; [len] may
    be larger than what is left of the message. *)
Fixpoint nak_scan (nak_list : list Z) (len method : Z) : res bool :=
  if len <=? 0 then mret false else
  match nak_list with
  | [] => Fault OutOfBounds
  | b :: nak_list => if b =? method then mret true else nak_scan nak_list (len - 1) method
  end.

(** [os_memmove] over entry [i] and the reset of the last entry. *)
Definition remove_method (ms : list (Z * Z)) (i : Z) : list (Z * Z) :=
  let i := Z.to_nat i in
  <[Z.to_nat (EAP_MAX_METHODS - 1) := (EAP_VENDOR_IETF, EAP_TYPE_NONE)]>
    (take i ms ++ drop (S i) ms ++ drop (Z.to_nat (EAP_MAX_METHODS - 1)) ms).

Fixpoint process_nak_loop (fuel : nat) (u : eap_user) (i : Z) (nak_list : list Z) (len : Z)
    : res eap_user :=
  match fuel with
  | O => Fault OutOfFuel
  | S fuel =>
      if i <? EAP_MAX_METHODS then
        x ← user_method u i;
        if configured x then
          found ← (if negb (x.1 =? EAP_VENDOR_IETF) then mret false
                   else nak_scan nak_list len x.2);
          if found : bool then process_nak_loop fuel u (i + 1) nak_list len
          else process_nak_loop fuel (u <| methods := remove_method (methods u) i |>) i
                 nak_list len
        else mret u
      else mret u
  end.

Section server.
Context {P : Type} (eap_methods : registry P).
Implicit Type sm : eap_sm P.

(** ** Access to the selected method *)

(** The method behind [sm->m]. *)
Definition deref_m sm : res (eap_method P) :=
  match m sm with
  | None => Fault NullDeref
  | Some (v, t) =>
      match eap_server_get_eap_method eap_methods v t with
      | Some x => Ok x
      | None => Fault OutOfBounds
      end
  end.

Definition deref_priv sm : res P :=
  match eap_method_priv sm with Some p => Ok p | None => Fault NullDeref end.

(** [if (sm->m && sm->eap_method_priv) { reset(...); eap_method_priv = NULL; }] *)
Definition reset_method sm : res (eap_sm P) :=
  match m sm, eap_method_priv sm with
  | Some _, Some p =>
      x ← deref_m sm; sm ← reset x sm p; mret (sm <| eap_method_priv := None |>)
  | _, _ => mret sm
  end.

(** [sm->m = eap_server_get_eap_method(vendor, type)]. *)
Definition lookup_m (v t : Z) : option (Z * Z) :=
  match eap_server_get_eap_method eap_methods v t with Some _ => Some (v, t) | None => None end.

(** ** Users and policy *)

Definition eap_user_get (e : env) sm (ident : option (list Z)) (ident_len phase2 : Z)
    : res (Z * eap_sm P) :=
  match eapol_cb (cf sm) with
  | None => mret (-1, sm)
  | Some cb =>
      match get_eap_user cb with
      | None => mret (-1, sm)
      | Some get_eap_user =>
          let sm := sm <| mv ; user := None |> in
          if negb (malloc_ok e sizeof_eap_user) then mret (-1, sm) else
          id ← match ident with
               | Some d => rd_n d 0 ident_len
               | None => if ident_len =? 0 then mret [] else Fault NullDeref
               end;
          match get_eap_user id phase2 with
          | None => mret (-1, sm)
          | Some u =>
              let sm := sm <| mv ; user := Some u |> in
              let sm := sm <| mv ; user_eap_method_index := 0 |> in
              mret (0, sm)
          end
      end
  end.

Definition eap_sm_parseEapResp sm (resp : option wpabuf) : res (eap_sm P) :=
  let sm := sm <| rx ; rxResp := false |> in
  let sm := sm <| rx ; respId := -1 |> in
  let sm := sm <| rx ; respMethod := EAP_TYPE_NONE |> in
  let sm := sm <| rx ; respVendor := EAP_VENDOR_IETF |> in
  let sm := sm <| rx ; respVendorMethod := EAP_TYPE_NONE |> in
  match resp with
  | None => mret sm
  | Some resp =>
      if wpabuf_len resp <? sizeof_eap_hdr then mret sm else
      plen ← eap_hdr_length resp;
      if wpabuf_len resp <? plen then mret sm else
      id ← eap_hdr_identifier resp;
      let sm := sm <| rx ; respId := id |> in
      code ← eap_hdr_code resp;
      let sm := if code =? EAP_CODE_RESPONSE then sm <| rx ; rxResp := true |> else sm in
      if sizeof_eap_hdr <? plen then
        let pos := sizeof_eap_hdr in
        t ← rd (wpabuf_head resp) pos;
        let pos := pos + 1 in
        let sm := sm <| rx ; respMethod := t |> in
        if respMethod (rx sm) =? EAP_TYPE_EXPANDED then
          if plen <? sizeof_eap_hdr + 8 then mret sm else
          v ← WPA_GET_BE24 (wpabuf_head resp) pos;
          let sm := sm <| rx ; respVendor := v |> in
          let pos := pos + 3 in
          w ← WPA_GET_BE32 (wpabuf_head resp) pos;
          mret (sm <| rx ; respVendorMethod := w |>)
        else mret sm
      else mret sm
  end.

Definition eap_sm_nextId (e : env) sm (id : Z) : Z :=
  if id <? 0 then
    let id := Z.land (rand e) 255 in
    if negb (id =? lastId sm) then id else Z.land (id + 1) 255
  else Z.land (id + 1) 255.

Definition eap_sm_process_nak sm (nak_list : list Z) (len : Z) : res (eap_sm P) :=
  match user (mv sm) with
  | None => mret sm
  | Some u =>
      u ← process_nak_loop 9 u (user_eap_method_index (mv sm)) nak_list len;
      mret (sm <| mv ; user := Some u |>)
  end.

Definition eap_sm_Policy_update sm (nak_list : option (list Z)) (len : Z) : res (eap_sm P) :=
  match nak_list, user (mv sm) with
  | Some nak_list, Some u =>
      if negb (phase2 u =? 0) then mret (sm <| decision := DECISION_FAILURE |>)
      else eap_sm_process_nak sm nak_list len
  | _, _ => mret sm
  end.

(** [sm->user && idx < EAP_MAX_METHODS && methods[idx] is configured]. *)
Definition method_available sm (idx : Z) : res bool :=
  match user (mv sm) with
  | Some u => if idx <? EAP_MAX_METHODS then x ← user_method u idx; mret (configured x)
              else mret false
  | None => mret false
  end.

(** [sm->identity == NULL || sm->currentId == -1]. *)
Definition no_identity sm : bool :=
  match identity (mv sm) with None => true | Some _ => currentId sm =? -1 end.

Definition is_some {A} (o : option A) : bool :=
  match o with Some _ => true | None => false end.

(** The new state, [*vendor] and the returned type. *)
Definition eap_sm_Policy_getNextMethod sm : res (eap_sm P * Z * Z) :=
  let idx := user_eap_method_index (mv sm) in
  if no_identity sm then
    mret (sm <| mv ; update_user := true |>, EAP_VENDOR_IETF, EAP_TYPE_IDENTITY)
  else
    avail ← method_available sm idx;
    if avail : bool then
      match user (mv sm) with
      | Some u =>
          x ← user_method u idx;
          mret (sm <| mv ; user_eap_method_index := user_eap_method_index (mv sm) + 1 |>, x.1, x.2)
      | None => Fault NullDeref
      end
    else mret (sm, EAP_VENDOR_IETF, EAP_TYPE_NONE).

(** [sm->m && cond(sm->m, sm->eap_method_priv)]. *)
Definition if_m sm (cond : eap_method P -> P -> bool) : res bool :=
  match m sm with
  | None => mret false
  | Some _ => x ← deref_m sm; p ← deref_priv sm; mret (cond x p)
  end.

(** [sm->user && methods[0] is the IETF Identity method]. *)
Definition first_is_identity sm : res bool :=
  match user (mv sm) with
  | None => mret false
  | Some u => x ← user_method u 0;
              mret ((x.1 =? EAP_VENDOR_IETF) && (x.2 =? EAP_TYPE_IDENTITY))
  end.

(** The block that fetches the user: [Some d] when it returns [d]. *)
Definition getDecision_user (e : env) sm : res (option decision_t * eap_sm P) :=
  first ← first_is_identity sm;
  let id_req := (currentMethod sm =? EAP_TYPE_IDENTITY) && first in
  '(r, sm) ← eap_user_get e sm (identity (mv sm)) (identity_len (mv sm)) 0;
  if negb (r =? 0) then mret (Some DECISION_FAILURE, sm) else
  first ← first_is_identity sm;
  if id_req && first then mret (Some DECISION_FAILURE, sm <| mv ; update_user := true |>)
  else mret (None, sm <| mv ; update_user := false |>).

Definition eap_sm_Policy_getDecision (e : env) sm : res (decision_t * eap_sm P) :=
  if (eap_server (cf sm) =? 0) && is_some (identity (mv sm)) && negb (start_reauth sm)
  then mret (DECISION_PASSTHROUGH, sm) else
  success ← if_m sm (fun x p => negb (currentMethod sm =? EAP_TYPE_IDENTITY) &&
                                isSuccess x sm p);
  if success : bool then mret (DECISION_SUCCESS, sm <| mv ; update_user := true |>) else
  failed ← if_m sm (fun x p => isDone x sm p && negb (isSuccess x sm p));
  if failed : bool then mret (DECISION_FAILURE, sm <| mv ; update_user := true |>) else
  '(d, sm) ← (if (negb (is_some (user (mv sm))) || update_user (mv sm)) && is_some (identity (mv sm)) &&
                 negb (start_reauth sm)
              then getDecision_user e sm else mret (None, sm));
  match d with
  | Some d => mret (d, sm)
  | None =>
      let sm := sm <| start_reauth := false |> in
      avail ← method_available sm (user_eap_method_index (mv sm));
      if avail : bool then mret (DECISION_CONTINUE, sm) else
      if no_identity sm then mret (DECISION_CONTINUE, sm) else
      mret (DECISION_FAILURE, sm)
  end.

Definition eap_sm_Policy_doPickUp (method : Z) : bool := method =? EAP_TYPE_IDENTITY.

(** ** State entry actions *)

Definition SM_ENTRY (st : EAP_state_t) (global : bool) sm : eap_sm P :=
  let sm := if negb global || negb (bool_decide (EAP_state sm = st))
            then sm <| changed := true |> else sm in
  sm <| EAP_state := st |>.

Definition sm_EAP_DISABLED_Enter sm (global : bool) : res (eap_sm P) :=
  let sm := SM_ENTRY EAP_DISABLED global sm in
  mret (sm <| num_rounds := 0 |>).

Definition sm_EAP_INITIALIZE_Enter sm (global : bool) : res (eap_sm P) :=
  let sm := SM_ENTRY EAP_INITIALIZE global sm in
  let sm := sm <| currentId := -1 |> in
  let sm := sm <| eap_if ; eapSuccess := false |> in
  let sm := sm <| eap_if ; eapFail := false |> in
  let sm := sm <| eap_if ; eapTimeout := false |> in
  let sm := sm <| eap_if ; eapKeyData := None |> in
  let sm := sm <| eap_if ; eapKeyDataLen := 0 |> in
  let sm := sm <| eap_if ; eapKeyAvailable := false |> in
  let sm := sm <| eap_if ; eapRestart := false |> in
  sm ← reset_method sm;
  let sm := sm <| m := None |> in
  let sm := sm <| mv ; user_eap_method_index := 0 |> in
  sm ← (if backend_auth (cf sm) then
          let sm := sm <| currentMethod := EAP_TYPE_NONE |> in
          sm ← eap_sm_parseEapResp sm (eapRespData (eap_if sm));
          mret (if rxResp (rx sm) then sm <| currentId := respId (rx sm) |> else sm)
        else mret sm);
  let sm := sm <| num_rounds := 0 |> in
  mret (sm <| mv ; method_pending := METHOD_PENDING_NONE |>).

Definition sm_EAP_PICK_UP_METHOD_Enter (e : env) sm : res (eap_sm P) :=
  let sm := SM_ENTRY EAP_PICK_UP_METHOD false sm in
  if eap_sm_Policy_doPickUp (respMethod (rx sm)) then
    let sm := sm <| currentMethod := respMethod (rx sm) |> in
    sm ← reset_method sm;
    let sm := sm <| m := lookup_m EAP_VENDOR_IETF (currentMethod sm) |> in
    let none sm := sm <| m := None |> <| currentMethod := EAP_TYPE_NONE |> in
    match m sm with
    | Some _ =>
        x ← deref_m sm;
        match initPickUp x with
        | Some initPickUp =>
            '(sm, p) ← initPickUp e sm;
            let sm := sm <| eap_method_priv := p |> in
            mret (match p with Some _ => sm | None => none sm end)
        | None => mret (none sm)
        end
    | None => mret (none sm)
    end
  else mret sm.

Definition sm_EAP_IDLE_Enter sm : res (eap_sm P) :=
  let sm := SM_ENTRY EAP_IDLE false sm in
  t ← eap_sm_calculateTimeout (retransCount sm) (eapSRTT (eap_if sm))
        (eapRTTVAR (eap_if sm)) (methodTimeout sm);
  mret (sm <| eap_if ; retransWhile := t |>).

Definition sm_EAP_RETRANSMIT_Enter (e : env) sm : res (eap_sm P) :=
  let sm := SM_ENTRY EAP_RETRANSMIT false sm in
  let sm := sm <| retransCount := retransCount sm + 1 |> in
  if (retransCount sm <=? MaxRetrans (cf sm)) && is_some (lastReqData sm) then
    '(r, d) ← eap_copy_buf e (eapReqData (eap_if sm)) (lastReqData sm);
    let sm := sm <| eap_if ; eapReqData := d |> in
    mret (if r =? 0 then sm <| eap_if ; eapReq := true |> else sm)
  else mret sm.

Definition sm_EAP_RECEIVED_Enter sm : res (eap_sm P) :=
  let sm := SM_ENTRY EAP_RECEIVED false sm in
  sm ← eap_sm_parseEapResp sm (eapRespData (eap_if sm));
  mret (sm <| num_rounds := num_rounds sm + 1 |>).

Definition sm_EAP_DISCARD_Enter sm : res (eap_sm P) :=
  let sm := SM_ENTRY EAP_DISCARD false sm in
  let sm := sm <| eap_if ; eapResp := false |> in
  mret (sm <| eap_if ; eapNoReq := true |>).

(** The body that SEND_REQUEST and SEND_REQUEST2 have in common. *)
Definition send_request (e : env) sm : res (eap_sm P) :=
  let sm := sm <| retransCount := 0 |> in
  match eapReqData (eap_if sm) with
  | Some _ =>
      '(r, d) ← eap_copy_buf e (lastReqData sm) (eapReqData (eap_if sm));
      let sm := sm <| lastReqData := d |> in
      if r =? 0 then
        let sm := sm <| eap_if ; eapResp := false |> in
        mret (sm <| eap_if ; eapReq := true |>)
      else
        let sm := sm <| eap_if ; eapResp := false |> in
        mret (sm <| eap_if ; eapReq := false |>)
  | None =>
      let sm := sm <| eap_if ; eapResp := false |> in
      let sm := sm <| eap_if ; eapReq := false |> in
      mret (sm <| eap_if ; eapNoReq := true |>)
  end.

Definition sm_EAP_SEND_REQUEST_Enter (e : env) sm : res (eap_sm P) :=
  send_request e (SM_ENTRY EAP_SEND_REQUEST false sm).

Definition sm_EAP_INTEGRITY_CHECK_Enter sm : res (eap_sm P) :=
  let sm := SM_ENTRY EAP_INTEGRITY_CHECK false sm in
  x ← deref_m sm;
  match check x with
  | Some check =>
      p ← deref_priv sm;
      b ← check sm p (eapRespData (eap_if sm));
      mret (sm <| ignore := b |>)
  | None => mret sm
  end.

Definition sm_EAP_METHOD_REQUEST_Enter (e : env) sm : res (eap_sm P) :=
  let sm := SM_ENTRY EAP_METHOD_REQUEST false sm in
  match m sm with
  | None => mret sm
  | Some _ =>
      let sm := sm <| currentId := eap_sm_nextId e sm (currentId sm) |> in
      let sm := sm <| lastId := currentId sm |> in
      x ← deref_m sm;
      p ← deref_priv sm;
      '(sm, p, d) ← buildReq x e sm p (currentId sm);
      let sm := sm <| eap_method_priv := Some p |> in
      let sm := sm <| eap_if ; eapReqData := d |> in
      match getTimeout x with
      | Some getTimeout => mret (sm <| methodTimeout := getTimeout sm p |>)
      | None => mret (sm <| methodTimeout := 0 |>)
      end
  end.

Definition sm_EAP_METHOD_RESPONSE_Enter (e : env) sm : res (eap_sm P) :=
  let sm := SM_ENTRY EAP_METHOD_RESPONSE false sm in
  x ← deref_m sm;
  p ← deref_priv sm;
  '(sm, p) ← process x e sm p (eapRespData (eap_if sm));
  let sm := sm <| eap_method_priv := Some p |> in
  if isDone x sm p then
    sm ← eap_sm_Policy_update sm None 0;
    let sm := match getKey x with
              | Some getKey =>
                  let k := getKey e sm p in
                  let sm := sm <| eap_if ; eapKeyData := k.1 |> in
                  sm <| eap_if ; eapKeyDataLen := k.2 |>
              | None =>
                  let sm := sm <| eap_if ; eapKeyData := None |> in
                  sm <| eap_if ; eapKeyDataLen := 0 |>
              end in
    mret (sm <| methodState := METHOD_END |>)
  else mret (sm <| methodState := METHOD_CONTINUE |>).

Definition sm_EAP_PROPOSE_METHOD_Enter (e : env) sm : res (eap_sm P) :=
  let sm := SM_ENTRY EAP_PROPOSE_METHOD false sm in
  '(sm, vendor, type) ← eap_sm_Policy_getNextMethod sm;
  let sm := if vendor =? EAP_VENDOR_IETF then sm <| currentMethod := type |>
            else sm <| currentMethod := EAP_TYPE_EXPANDED |> in
  sm ← reset_method sm;
  let sm := sm <| m := lookup_m vendor type |> in
  sm ← match m sm with
       | Some _ =>
           x ← deref_m sm;
           '(sm, p) ← init x e sm;
           let sm := sm <| eap_method_priv := p |> in
           mret (match p with
                 | Some _ => sm
                 | None => sm <| m := None |> <| currentMethod := EAP_TYPE_NONE |>
                 end)
       | None => mret sm
       end;
  if (currentMethod sm =? EAP_TYPE_IDENTITY) || (currentMethod sm =? EAP_TYPE_NOTIFICATION)
  then mret (sm <| methodState := METHOD_CONTINUE |>)
  else mret (sm <| methodState := METHOD_PROPOSED |>).

(** The Nak list in the response and its length. *)
Definition nak_parse (resp : option wpabuf) : res (option (list Z) * Z) :=
  match resp with
  | None => Fault NullDeref
  | Some resp =>
      if sizeof_eap_hdr <? wpabuf_len resp then
        len ← eap_hdr_length resp;
        let len := if wpabuf_len resp <? len then wpabuf_len resp else len in
        let pos := sizeof_eap_hdr in
        let len := size_t (len - sizeof_eap_hdr) in
        t ← rd (wpabuf_head resp) pos;
        if t =? EAP_TYPE_NAK
        then mret (Some (drop (Z.to_nat (pos + 1)) (wpabuf_head resp)), size_t (len - 1))
        else mret (None, len)
      else mret (None, 0)
  end.

Definition sm_EAP_NAK_Enter sm : res (eap_sm P) :=
  let sm := SM_ENTRY EAP_NAK false sm in
  sm ← match eap_method_priv sm with
       | Some p => x ← deref_m sm; sm ← reset x sm p; mret (sm <| eap_method_priv := None |>)
       | None => mret sm
       end;
  let sm := sm <| m := None |> in
  '(nak_list, len) ← nak_parse (eapRespData (eap_if sm));
  eap_sm_Policy_update sm nak_list len.

Definition sm_EAP_SELECT_ACTION_Enter (e : env) sm : res (eap_sm P) :=
  let sm := SM_ENTRY EAP_SELECT_ACTION false sm in
  '(d, sm) ← eap_sm_Policy_getDecision e sm;
  mret (sm <| decision := d |>).

Definition sm_EAP_TIMEOUT_FAILURE_Enter sm : res (eap_sm P) :=
  let sm := SM_ENTRY EAP_TIMEOUT_FAILURE false sm in
  mret (sm <| eap_if ; eapTimeout := true |>).

Definition sm_EAP_FAILURE_Enter (e : env) sm (global : bool) : res (eap_sm P) :=
  let sm := SM_ENTRY EAP_FAILURE global sm in
  d ← eap_sm_buildFailure e (u8 (currentId sm));
  let sm := sm <| eap_if ; eapReqData := d |> in
  let sm := sm <| lastReqData := None |> in
  mret (sm <| eap_if ; eapFail := true |>).

Definition sm_EAP_SUCCESS_Enter (e : env) sm : res (eap_sm P) :=
  let sm := SM_ENTRY EAP_SUCCESS false sm in
  d ← eap_sm_buildSuccess e (u8 (currentId sm));
  let sm := sm <| eap_if ; eapReqData := d |> in
  let sm := sm <| lastReqData := None |> in
  let sm := if is_some (eapKeyData (eap_if sm)) then sm <| eap_if ; eapKeyAvailable := true |>
            else sm in
  mret (sm <| eap_if ; eapSuccess := true |>).

Definition sm_EAP_INITIALIZE_PASSTHROUGH_Enter sm : res (eap_sm P) :=
  let sm := SM_ENTRY EAP_INITIALIZE_PASSTHROUGH false sm in
  mret (sm <| eap_if ; aaaEapRespData := None |>).

Definition sm_EAP_IDLE2_Enter sm : res (eap_sm P) :=
  let sm := SM_ENTRY EAP_IDLE2 false sm in
  t ← eap_sm_calculateTimeout (retransCount sm) (eapSRTT (eap_if sm))
        (eapRTTVAR (eap_if sm)) (methodTimeout sm);
  mret (sm <| eap_if ; retransWhile := t |>).

Definition sm_EAP_RETRANSMIT2_Enter (e : env) sm : res (eap_sm P) :=
  let sm := SM_ENTRY EAP_RETRANSMIT2 false sm in
  let sm := sm <| retransCount := retransCount sm + 1 |> in
  if (retransCount sm <=? MaxRetrans (cf sm)) && is_some (lastReqData sm) then
    '(r, d) ← eap_copy_buf e (eapReqData (eap_if sm)) (lastReqData sm);
    let sm := sm <| eap_if ; eapReqData := d |> in
    mret (if r =? 0 then sm <| eap_if ; eapReq := true |> else sm)
  else mret sm.

Definition sm_EAP_RECEIVED2_Enter sm : res (eap_sm P) :=
  let sm := SM_ENTRY EAP_RECEIVED2 false sm in
  eap_sm_parseEapResp sm (eapRespData (eap_if sm)).

Definition sm_EAP_DISCARD2_Enter sm : res (eap_sm P) :=
  let sm := SM_ENTRY EAP_DISCARD2 false sm in
  let sm := sm <| eap_if ; eapResp := false |> in
  mret (sm <| eap_if ; eapNoReq := true |>).

Definition sm_EAP_SEND_REQUEST2_Enter (e : env) sm : res (eap_sm P) :=
  send_request e (SM_ENTRY EAP_SEND_REQUEST2 false sm).

Definition sm_EAP_AAA_REQUEST_Enter (e : env) sm : res (eap_sm P) :=
  let sm := SM_ENTRY EAP_AAA_REQUEST false sm in
  match eapRespData (eap_if sm) with
  | None => mret sm
  | Some _ =>
      '(_, d) ← eap_copy_buf e (aaaEapRespData (eap_if sm)) (eapRespData (eap_if sm));
      mret (sm <| eap_if ; aaaEapRespData := d |>)
  end.

Definition sm_EAP_AAA_RESPONSE_Enter (e : env) sm : res (eap_sm P) :=
  let sm := SM_ENTRY EAP_AAA_RESPONSE false sm in
  '(_, d) ← eap_copy_buf e (eapReqData (eap_if sm)) (aaaEapReqData (eap_if sm));
  let sm := sm <| eap_if ; eapReqData := d |> in
  id ← eap_sm_getId (eapReqData (eap_if sm));
  let sm := sm <| currentId := id |> in
  mret (sm <| methodTimeout := aaaMethodTimeout (eap_if sm) |>).

Definition sm_EAP_AAA_IDLE_Enter sm : res (eap_sm P) :=
  let sm := SM_ENTRY EAP_AAA_IDLE false sm in
  let sm := sm <| eap_if ; aaaFail := false |> in
  let sm := sm <| eap_if ; aaaSuccess := false |> in
  let sm := sm <| eap_if ; aaaEapReq := false |> in
  let sm := sm <| eap_if ; aaaEapNoReq := false |> in
  mret (sm <| eap_if ; aaaEapResp := true |>).

Definition sm_EAP_TIMEOUT_FAILURE2_Enter sm : res (eap_sm P) :=
  let sm := SM_ENTRY EAP_TIMEOUT_FAILURE2 false sm in
  mret (sm <| eap_if ; eapTimeout := true |>).

Definition sm_EAP_FAILURE2_Enter (e : env) sm : res (eap_sm P) :=
  let sm := SM_ENTRY EAP_FAILURE2 false sm in
  '(_, d) ← eap_copy_buf e (eapReqData (eap_if sm)) (aaaEapReqData (eap_if sm));
  let sm := sm <| eap_if ; eapReqData := d |> in
  mret (sm <| eap_if ; eapFail := true |>).

Definition sm_EAP_SUCCESS2_Enter (e : env) sm : res (eap_sm P) :=
  let sm := SM_ENTRY EAP_SUCCESS2 false sm in
  '(_, d) ← eap_copy_buf e (eapReqData (eap_if sm)) (aaaEapReqData (eap_if sm));
  let sm := sm <| eap_if ; eapReqData := d |> in
  let sm := sm <| eap_if ; eapKeyAvailable := aaaEapKeyAvailable (eap_if sm) |> in
  sm ← (if aaaEapKeyAvailable (eap_if sm) then
          '(_, k, n) ← eap_copy_data e (eapKeyData (eap_if sm)) (eapKeyDataLen (eap_if sm))
                         (aaaEapKeyData (eap_if sm)) (aaaEapKeyDataLen (eap_if sm));
          let sm := sm <| eap_if ; eapKeyData := k |> in
          mret (sm <| eap_if ; eapKeyDataLen := n |>)
        else
          let sm := sm <| eap_if ; eapKeyData := None |> in
          mret (sm <| eap_if ; eapKeyDataLen := 0 |>));
  let sm := sm <| eap_if ; eapSuccess := true |> in
  mret (sm <| start_reauth := true |>).

(** ** Transitions *)

(** [respMethod] is a (legacy or expanded) [t] of the IETF. *)
Definition resp_is sm (t : Z) : bool :=
  (respMethod (rx sm) =? t) ||
  ((respMethod (rx sm) =? EAP_TYPE_EXPANDED) && (respVendor (rx sm) =? EAP_VENDOR_IETF) &&
   (respVendorMethod (rx sm) =? t)).

Definition sm_EAP_Step (e : env) sm : res (eap_sm P) :=
  if eapRestart (eap_if sm) && portEnabled (eap_if sm) then sm_EAP_INITIALIZE_Enter sm true
  else if negb (portEnabled (eap_if sm)) then sm_EAP_DISABLED_Enter sm true
  else if EAP_MAX_AUTH_ROUNDS <? num_rounds sm then
    if num_rounds sm =? EAP_MAX_AUTH_ROUNDS + 1 then
      let sm := sm <| num_rounds := num_rounds sm + 1 |> in
      sm_EAP_FAILURE_Enter e sm true
    else mret sm
  else match EAP_state sm with
  | EAP_INITIALIZE =>
      if backend_auth (cf sm) then
        if negb (rxResp (rx sm)) then sm_EAP_SELECT_ACTION_Enter e sm
        else if rxResp (rx sm) && resp_is sm EAP_TYPE_NAK then sm_EAP_NAK_Enter sm
        else sm_EAP_PICK_UP_METHOD_Enter e sm
      else sm_EAP_SELECT_ACTION_Enter e sm
  | EAP_PICK_UP_METHOD =>
      if currentMethod sm =? EAP_TYPE_NONE then sm_EAP_SELECT_ACTION_Enter e sm
      else sm_EAP_METHOD_RESPONSE_Enter e sm
  | EAP_DISABLED =>
      if portEnabled (eap_if sm) then sm_EAP_INITIALIZE_Enter sm false else mret sm
  | EAP_IDLE =>
      if retransWhile (eap_if sm) =? 0 then sm_EAP_RETRANSMIT_Enter e sm
      else if eapResp (eap_if sm) then sm_EAP_RECEIVED_Enter sm
      else mret sm
  | EAP_RETRANSMIT =>
      if MaxRetrans (cf sm) <? retransCount sm then sm_EAP_TIMEOUT_FAILURE_Enter sm
      else sm_EAP_IDLE_Enter sm
  | EAP_RECEIVED =>
      if rxResp (rx sm) && (respId (rx sm) =? currentId sm) && resp_is sm EAP_TYPE_NAK &&
         bool_decide (methodState sm = METHOD_PROPOSED)
      then sm_EAP_NAK_Enter sm
      else if rxResp (rx sm) && (respId (rx sm) =? currentId sm) && resp_is sm (currentMethod sm)
      then sm_EAP_INTEGRITY_CHECK_Enter sm
      else sm_EAP_DISCARD_Enter sm
  | EAP_DISCARD => sm_EAP_IDLE_Enter sm
  | EAP_SEND_REQUEST => sm_EAP_IDLE_Enter sm
  | EAP_INTEGRITY_CHECK =>
      if ignore sm then sm_EAP_DISCARD_Enter sm else sm_EAP_METHOD_RESPONSE_Enter e sm
  | EAP_METHOD_REQUEST => sm_EAP_SEND_REQUEST_Enter e sm
  | EAP_METHOD_RESPONSE =>
      if bool_decide (methodState sm = METHOD_END) then sm_EAP_SELECT_ACTION_Enter e sm
      else match method_pending (mv sm) with
      | METHOD_PENDING_WAIT => mret sm
      | METHOD_PENDING_CONT =>
          let sm := sm <| mv ; method_pending := METHOD_PENDING_NONE |> in
          sm_EAP_METHOD_RESPONSE_Enter e sm
      | METHOD_PENDING_NONE => sm_EAP_METHOD_REQUEST_Enter e sm
      end
  | EAP_PROPOSE_METHOD =>
      match method_pending (mv sm) with
      | METHOD_PENDING_WAIT =>
          mret (if 0 <? user_eap_method_index (mv sm)
                then sm <| mv ; user_eap_method_index := user_eap_method_index (mv sm) - 1 |> else sm)
      | METHOD_PENDING_CONT =>
          let sm := sm <| mv ; method_pending := METHOD_PENDING_NONE |> in
          sm_EAP_PROPOSE_METHOD_Enter e sm
      | METHOD_PENDING_NONE => sm_EAP_METHOD_REQUEST_Enter e sm
      end
  | EAP_NAK => sm_EAP_SELECT_ACTION_Enter e sm
  | EAP_SELECT_ACTION =>
      match decision sm with
      | DECISION_FAILURE => sm_EAP_FAILURE_Enter e sm false
      | DECISION_SUCCESS => sm_EAP_SUCCESS_Enter e sm
      | DECISION_PASSTHROUGH => sm_EAP_INITIALIZE_PASSTHROUGH_Enter sm
      | DECISION_CONTINUE => sm_EAP_PROPOSE_METHOD_Enter e sm
      end
  | EAP_TIMEOUT_FAILURE | EAP_FAILURE | EAP_SUCCESS => mret sm
  | EAP_INITIALIZE_PASSTHROUGH =>
      if currentId sm =? -1 then sm_EAP_AAA_IDLE_Enter sm else sm_EAP_AAA_REQUEST_Enter e sm
  | EAP_IDLE2 =>
      if eapResp (eap_if sm) then sm_EAP_RECEIVED2_Enter sm
      else if retransWhile (eap_if sm) =? 0 then sm_EAP_RETRANSMIT2_Enter e sm
      else mret sm
  | EAP_RETRANSMIT2 =>
      if MaxRetrans (cf sm) <? retransCount sm then sm_EAP_TIMEOUT_FAILURE2_Enter sm
      else sm_EAP_IDLE2_Enter sm
  | EAP_RECEIVED2 =>
      if rxResp (rx sm) && (respId (rx sm) =? currentId sm) then sm_EAP_AAA_REQUEST_Enter e sm
      else sm_EAP_DISCARD2_Enter sm
  | EAP_DISCARD2 => sm_EAP_IDLE2_Enter sm
  | EAP_SEND_REQUEST2 => sm_EAP_IDLE2_Enter sm
  | EAP_AAA_REQUEST => sm_EAP_AAA_IDLE_Enter sm
  | EAP_AAA_RESPONSE => sm_EAP_SEND_REQUEST2_Enter e sm
  | EAP_AAA_IDLE =>
      if aaaFail (eap_if sm) then sm_EAP_FAILURE2_Enter e sm
      else if aaaSuccess (eap_if sm) then sm_EAP_SUCCESS2_Enter e sm
      else if aaaEapReq (eap_if sm) then sm_EAP_AAA_RESPONSE_Enter e sm
      else if aaaTimeout (eap_if sm) then sm_EAP_TIMEOUT_FAILURE2_Enter sm
      else mret sm
  | EAP_TIMEOUT_FAILURE2 | EAP_FAILURE2 | EAP_SUCCESS2 => mret sm
  end.

(** The [do ... while (sm->changed)] loop with [res]; round [n] of the loop
    draws from [es n]. *)
Fixpoint sm_step_loop (fuel : nat) (es : nat -> env) sm (r : Z) : res (eap_sm P * Z) :=
  match fuel with
  | O => Fault OutOfFuel
  | S fuel =>
      let sm := sm <| changed := false |> in
      sm ← sm_EAP_Step (es fuel) sm;
      let r := if changed sm then 1 else r in
      if changed sm then sm_step_loop fuel es sm r else mret (sm, r)
  end.

(** Sixty-four rounds are enough for any start. *)
Definition eap_server_sm_step (es : nat -> env) sm : res (eap_sm P * Z) :=
  sm_step_loop 64 es sm 0.

(** ** Allocation and the functions for the layers above *)

Definition sizeof_eap_sm : Z := 500.

(** [os_malloc(n)] and [os_memcpy] of a configuration value. *)
Definition copy_conf (e : env) (src : option (list Z)) (n : Z) : res (option (list Z)) :=
  match src with
  | None => mret None
  | Some d => if malloc_ok e n then d ← rd_n d 0 n; mret (Some d) else mret None
  end.

Definition dup_conf (e : env) (src : option wpabuf) : res (option wpabuf) :=
  match src with None => mret None | Some b => wpabuf_dup (malloc_ok e) b end.

Definition eap_server_sm_init (e : env) (cb : option eapol_callbacks) (conf : eap_config)
    : res (option (eap_sm P)) :=
  if negb (malloc_ok e sizeof_eap_sm) then mret None else
  key ← copy_conf e (conf_pac_opaque_encr_key conf) 16;
  a_id ← copy_conf e (conf_eap_fast_a_id conf) (conf_eap_fast_a_id_len conf);
  let info := match conf_eap_fast_a_id_info conf with
              | Some s => if malloc_ok e (zlen s + 1) then Some s else None
              | None => None
              end in
  wps_ie ← dup_conf e (conf_assoc_wps_ie conf);
  p2p_ie ← dup_conf e (conf_assoc_p2p_ie conf);
  addr ← match conf_peer_addr conf with
         | Some a => rd_n a 0 6
         | None => mret (replicate 6 0)
         end;
  mret (Some {|
    EAP_state := EAP_DISABLED; eap_if := eap_if_zero; currentMethod := 0; currentId := 0;
    methodState := METHOD_PROPOSED; retransCount := 0; lastReqData := None;
    methodTimeout := 0;
    rx := {| rxResp := false; respId := 0; respMethod := 0; respVendor := 0;
             respVendorMethod := 0 |};
    ignore := false; decision := DECISION_SUCCESS; m := None; changed := false;
    eap_method_priv := None;
    mv := {| identity := None; identity_len := 0; require_identity_match := 0;
             user := None; user_eap_method_index := 0; init_phase2 := 0;
             update_user := false; method_pending := METHOD_PENDING_NONE;
             auth_challenge := None; peer_challenge := None |};
    lastId := 0; num_rounds := 0; start_reauth := false;
    cf := {| MaxRetrans := 5; msg_ctx := conf_msg_ctx conf; eapol_cb := cb;
             ssl_ctx := conf_ssl_ctx conf; eap_sim_db_priv := conf_eap_sim_db_priv conf;
             backend_auth := conf_backend_auth conf; eap_server := conf_eap_server conf;
             pac_opaque_encr_key := key; eap_fast_a_id := a_id;
             eap_fast_a_id_len := (if is_some a_id then conf_eap_fast_a_id_len conf else 0);
             eap_fast_a_id_info := info; eap_fast_prov := conf_eap_fast_prov conf;
             pac_key_lifetime := conf_pac_key_lifetime conf;
             pac_key_refresh_time := conf_pac_key_refresh_time conf;
             eap_sim_aka_result_ind := conf_eap_sim_aka_result_ind conf;
             tnc := conf_tnc conf; pwd_group := conf_pwd_group conf;
             wps := conf_wps conf; assoc_wps_ie := wps_ie; assoc_p2p_ie := p2p_ie;
             peer_addr := addr; fragment_size := conf_fragment_size conf |} |}).

(** What [eap_server_sm_deinit] does besides freeing memory: the method's
    [reset]. *)
Definition eap_server_sm_deinit (sm : option (eap_sm P)) : res unit :=
  match sm with
  | None => mret tt
  | Some sm => _ ← reset_method sm; mret tt
  end.

Definition eap_sm_notify_cached sm : eap_sm P := sm <| EAP_state := EAP_SUCCESS |>.

Definition eap_sm_pending_cb sm : eap_sm P :=
  match method_pending (mv sm) with
  | METHOD_PENDING_WAIT => sm <| mv ; method_pending := METHOD_PENDING_CONT |>
  | _ => sm
  end.

Definition eap_sm_method_pending sm : Z :=
  if bool_decide (method_pending (mv sm) = METHOD_PENDING_WAIT) then 1 else 0.

Definition eap_get_identity sm : option (list Z) * Z := (identity (mv sm), identity_len (mv sm)).

Definition eap_get_interface sm : eap_eapol_interface := eap_if sm.

Definition eap_server_clear_identity sm : eap_sm P := sm <| mv ; identity := None |>.
End server.
