(* ===== verification/EapServerInv.v ===== *)
(** * The invariant of the EAP server state machine

    What holds of [struct eap_sm] between and during calls, the rank that bounds
    the driver loop, and one lemma per state entry action, proved against the
    method interface [MethodLaws] of [EapI].  [step_result] puts them together:
    every step from an invariant state is a good one or the one NULL dereference
    of the program. *)

From S2P Require Import Prelude WpaBuf EapCommon EapI EapServer.

(** ** Functions without the state machine *)

Lemma calculateTimeout_rto n :
  calculateTimeout_loop 4 0 n 3 = Ok (Z.min 20 (3 * 2 ^ Z.max 0 n)).
Proof.
  destruct (Z.le_gt_cases n 0) as [Hn|Hn].
  { rewrite Z.max_l by lia. cbn [calculateTimeout_loop].
    by rewrite (proj2 (Z.ltb_ge 0 n)) by lia. }
  rewrite Z.max_r by lia.
  destruct (Z.le_gt_cases 3 n) as [H3|H3].
  - rewrite Z.min_l.
    2: { assert (2 ^ 3 <= 2 ^ n) by (apply Z.pow_le_mono_r; lia). change (2 ^ 3) with 8 in *. lia. }
    cbn [calculateTimeout_loop].
    by rewrite !(proj2 (Z.ltb_lt _ n)) by lia.
  - assert (n = 1 \/ n = 2) as [-> | ->] by lia; reflexivity.
Qed.

Lemma calculateTimeout_spec n a b t :
  eap_sm_calculateTimeout n a b t =
  Ok (if t =? 0 then Z.min 20 (3 * 2 ^ Z.max 0 n) else t).
Proof.
  unfold eap_sm_calculateTimeout. destruct (t =? 0); [|done]. apply calculateTimeout_rto.
Qed.

Lemma calculateTimeout_nonzero n a b t :
  exists r, eap_sm_calculateTimeout n a b t = Ok r /\ r <> 0.
Proof.
  eexists. split; [apply calculateTimeout_spec|].
  destruct (Z.eqb_spec t 0); [|done].
  assert (0 < 2 ^ Z.max 0 n) by (apply Z.pow_pos_nonneg; lia). lia.
Qed.

Lemma copy_buf_ok e dst src : opt wf dst -> opt wf src ->
  exists r d, eap_copy_buf e dst src = Ok (r, d) /\ opt wf d /\
    (r = 0 <-> is_some src = true /\ is_some d = true) /\
    (src = None -> d = dst).
Proof.
  intros Hd Hs. unfold eap_copy_buf. destruct src as [b|]; cbn in Hs.
  - destruct (wpabuf_dup_repr (malloc_ok e) b (contents b) (size b)) as [-> | (b' & -> & Hb')].
    { by split_and!. }
    + exists (-1), None. by split_and!; try done; split; [|intros [_ [=]]].
    + exists 0, (Some b'). destruct Hb'. by split_and!.
  - exists (-1), dst. by split_and!; try done; split; [|intros [[=] _]].
Qed.

Lemma build_hdr_ok e code id :
  exists d, match wpabuf_alloc (malloc_ok e) sizeof_eap_hdr with
            | None => mret None
            | Some msg => msg ← wpabuf_put_bytes msg (eap_hdr_bytes code id sizeof_eap_hdr);
                          mret (Some msg)
            end = Ok d /\ opt (fun b => repr b (eap_hdr_bytes code id 4) 4) d.
Proof.
  destruct (wpabuf_alloc _ _) as [b|] eqn:E; [|by exists None].
  apply wpabuf_alloc_repr in E; [|unfold max_wpabuf, sizeof_wpabuf, sizeof_eap_hdr; lia].
  destruct (wpabuf_put_bytes_fits _ _ _ (eap_hdr_bytes code id sizeof_eap_hdr) E)
    as (b' & -> & Hb'); [apply eap_hdr_bytes_bytes | done |].
  by exists (Some b').
Qed.

Lemma buildFailure_ok e id : exists d, eap_sm_buildFailure e id = Ok d /\
  opt (fun b => repr b [4; u8 id; 0; 4] 4) d.
Proof. exact (build_hdr_ok e EAP_CODE_FAILURE id). Qed.

Lemma buildSuccess_ok e id : exists d, eap_sm_buildSuccess e id = Ok d /\
  opt (fun b => repr b [3; u8 id; 0; 4] 4) d.
Proof. exact (build_hdr_ok e EAP_CODE_SUCCESS id). Qed.

Lemma opt_impl {A} (Q R : A -> Prop) o : (forall a, Q a -> R a) -> opt Q o -> opt R o.
Proof. destruct o; cbn; auto. Qed.

Lemma opt_repr_wf l cap d : opt (fun b => repr b l cap) d -> opt wf d.
Proof. apply opt_impl. by intros ? [? _]. Qed.

Lemma user_method_ok u i : wf_user u -> 0 <= i < 8 ->
  exists x, user_method u i = Ok x /\ methods u !! Z.to_nat i = Some x.
Proof.
  intros [Hl _] Hi. unfold user_method, EAP_MAX_METHODS.
  rewrite (proj2 (Z.leb_le 0 i)), (proj2 (Z.ltb_lt i 8)) by lia. cbn [andb].
  destruct (lookup_lt_is_Some_2 (methods u) (Z.to_nat i)) as [x ->]; [lia|]. by exists x.
Qed.

(** ** Nak processing *)

Section nak.
Context (nak_list : list Z) (len : Z) (Hlen : 0 <= len <= zlen nak_list).

(** The peer's Nak names the method (IETF methods only). *)
Definition wanted (x : Z * Z) : bool :=
  (x.1 =? EAP_VENDOR_IETF) && bool_decide (x.2 ∈ take (Z.to_nat len) nak_list).

Lemma nak_scan_spec t :
  nak_scan nak_list len t = Ok (bool_decide (t ∈ take (Z.to_nat len) nak_list)).
Proof using Hlen.
  revert len Hlen. induction nak_list as [|b l IH]; intros n Hn.
  - change (zlen []) with 0 in Hn. assert (n = 0) as -> by lia. done.
  - cbn [nak_scan]. rewrite zlen_cons in Hn.
    destruct (Z.leb_spec n 0).
    { assert (n = 0) as -> by lia. rewrite bool_decide_eq_false_2; [done|]. apply not_elem_of_nil. }
    replace (Z.to_nat n) with (S (Z.to_nat (n - 1))) by lia. cbn [take].
    destruct (Z.eqb_spec b t) as [->|Hne].
    + rewrite bool_decide_eq_true_2; [done|]. apply elem_of_cons. by left.
    + rewrite IH by lia. f_equal. apply bool_decide_ext. rewrite elem_of_cons.
      split; [by right|]. by intros [Ht|Ht]; [symmetry in Ht|].
Qed.

(** What is left of the entries from the index on: up to the first free entry
    only the wanted ones, the rest moves down and free entries fill up. *)
Fixpoint nak_filter (l : list (Z * Z)) : list (Z * Z) :=
  match l with
  | [] => []
  | x :: r => if configured x
              then if wanted x then x :: nak_filter r
                   else nak_filter r ++ [(EAP_VENDOR_IETF, EAP_TYPE_NONE)]
              else l
  end.

Lemma nak_filter_length l : length (nak_filter l) = length l.
Proof.
  induction l as [|x l IH]; cbn; [done|]. repeat case_match; cbn; rewrite ?length_app; cbn; lia.
Qed.

Lemma nak_filter_free l n :
  nak_filter (l ++ replicate n (EAP_VENDOR_IETF, EAP_TYPE_NONE)) =
  nak_filter l ++ replicate n (EAP_VENDOR_IETF, EAP_TYPE_NONE).
Proof.
  induction l as [|x l IH]; cbn.
  - by destruct n.
  - repeat case_match; cbn; rewrite ?IH; [done | | done].
    rewrite <- !app_assoc. f_equal. by rewrite <- replicate_cons_app.
Qed.

Lemma remove_method_split p x r : length (p ++ x :: r) = 8%nat ->
  remove_method (p ++ x :: r) (zlen p) = p ++ r ++ [(EAP_VENDOR_IETF, EAP_TYPE_NONE)].
Proof.
  intros Hl. unfold remove_method, EAP_MAX_METHODS.
  change (Z.to_nat (8 - 1)) with 7%nat. unfold zlen. rewrite Nat2Z.id.
  assert (drop (S (length p)) (p ++ x :: r) = r) as ->.
  { rewrite (cons_middle x p r), app_assoc. apply drop_app_length'.
    rewrite length_app. cbn. lia. }
  rewrite take_app_length. rewrite length_app in Hl. cbn in Hl.
  destruct (drop 7 (p ++ x :: r)) as [|y [|]] eqn:E;
    apply (f_equal length) in E; rewrite length_drop, length_app in E; cbn in E; try lia.
  rewrite !app_assoc, insert_app_r_alt by (rewrite length_app; lia).
  by replace (7 - length (p ++ r))%nat with 0%nat by (rewrite length_app; lia).
Qed.

(** The entries before the first free one: what the loop counts down. *)
Fixpoint conf_prefix (l : list (Z * Z)) : nat :=
  match l with
  | [] => O
  | x :: r => if configured x then S (conf_prefix r) else O
  end.

Lemma conf_prefix_free l : conf_prefix (l ++ [(EAP_VENDOR_IETF, EAP_TYPE_NONE)]) = conf_prefix l.
Proof. induction l as [|x l IH]; cbn; [done|]. by rewrite IH. Qed.

Lemma conf_prefix_length l : (conf_prefix l <= length l)%nat.
Proof. induction l as [|x l IH]; cbn; [lia|]. case_match; lia. Qed.

Lemma replicate_app_one (n : nat) (z : Z * Z) : replicate n z ++ [z] = z :: replicate n z.
Proof. by rewrite <- replicate_cons_app. Qed.

(** [nak_filter] in terms of list filters. *)
Lemma nak_filter_spec l :
  nak_filter l =
  filter (fun x => wanted x = true) (take (conf_prefix l) l) ++ drop (conf_prefix l) l ++
  replicate (length (filter (fun x => wanted x = false) (take (conf_prefix l) l)))
    (EAP_VENDOR_IETF, EAP_TYPE_NONE).
Proof using Type.
  induction l as [|x l IH]; [done|]. cbn [nak_filter conf_prefix].
  destruct (configured x); cbn [take drop].
  2: { cbn. by rewrite app_nil_r. }
  destruct (wanted x) eqn:E; rewrite IH.
  - rewrite (filter_cons_True (fun x => wanted x = true) x) by done.
    by rewrite (filter_cons_False (fun x => wanted x = false) x) by congruence.
  - rewrite (filter_cons_True (fun x => wanted x = false) x) by done.
    rewrite (filter_cons_False (fun x => wanted x = true) x) by congruence.
    rewrite <- !app_assoc. do 2 f_equal. apply replicate_app_one.
Qed.

Lemma process_nak_loop_spec fuel u p r :
  methods u = p ++ r -> length (p ++ r) = 8%nat -> (conf_prefix r < fuel)%nat ->
  process_nak_loop fuel u (zlen p) nak_list len =
  Ok (u <| methods := p ++ nak_filter r |>).
Proof using Hlen.
  revert u p r. induction fuel as [|fuel IH]; intros u p r Hu Hl Hf; [lia|].
  cbn [process_nak_loop]. unfold EAP_MAX_METHODS.
  destruct r as [|x r].
  { rewrite (proj2 (Z.ltb_ge _ _)) by (unfold zlen; rewrite app_nil_r in Hl; lia).
    cbn [nak_filter]. by rewrite <- Hu. }
  rewrite (proj2 (Z.ltb_lt _ _)) by (unfold zlen; rewrite length_app in Hl; cbn in Hl; lia).
  unfold user_method, EAP_MAX_METHODS.
  rewrite (proj2 (Z.leb_le _ _)) by apply zlen_nonneg.
  rewrite (proj2 (Z.ltb_lt _ _)) by (unfold zlen; rewrite length_app in Hl; cbn in Hl; lia).
  cbn [andb]. replace (Z.to_nat (zlen p)) with (length p) by (unfold zlen; lia).
  rewrite Hu, list_lookup_middle by done.
  cbn [mbind res_bind]. cbn [nak_filter]. cbn [conf_prefix] in Hf.
  destruct (configured x) eqn:Ec; [|by rewrite <- Hu].
  assert ((if negb (x.1 =? EAP_VENDOR_IETF) then mret false else nak_scan nak_list len x.2)
    = Ok (wanted x)) as ->.
  { unfold wanted. rewrite nak_scan_spec. by destruct (x.1 =? EAP_VENDOR_IETF). }
  cbn [mbind res_bind]. destruct (wanted x).
  - replace (zlen p + 1) with (zlen (p ++ [x])) by (rewrite zlen_app; done).
    rewrite (IH u (p ++ [x]) r); rewrite <- ?app_assoc; [done..|]. lia.
  - rewrite remove_method_split by done.
    rewrite (IH _ p (r ++ [(EAP_VENDOR_IETF, EAP_TYPE_NONE)])).
    + pose proof (nak_filter_free r 1) as Hn. cbn [replicate] in Hn. by rewrite Hn.
    + done.
    + rewrite !length_app in *. cbn in *. lia.
    + rewrite conf_prefix_free. lia.
Qed.
End nak.

(** ** The invariant *)

Section server.
Context {P : Type} (eap_methods : registry P).
Context (accepts : eap_method P -> P -> wpabuf -> Prop).
Context (laws : forall v t x, eap_server_get_eap_method eap_methods v t = Some x ->
                  MethodLaws x (accepts x)).
Implicit Type sm : eap_sm P.
#[local] Abbreviation deref_m := (deref_m eap_methods).

(** Buffers, user data and the selected method are always usable: [sm->m] is
    registered and has private data exactly when it is set. *)
Definition core sm : Prop :=
  opt wf (eapRespData (eap_if sm)) /\ opt wf (eapReqData (eap_if sm)) /\
  opt wf (lastReqData sm) /\ opt wf (aaaEapReqData (eap_if sm)) /\
  opt wf (aaaEapRespData (eap_if sm)) /\
  opt (fun k => 0 <= aaaEapKeyDataLen (eap_if sm) <= zlen k) (aaaEapKeyData (eap_if sm)) /\
  wf_method_view sm /\
  (forall v t, m sm = Some (v, t) -> is_Some (eap_server_get_eap_method eap_methods v t)) /\
  is_some (m sm) = is_some (eap_method_priv sm).

Lemma frame_ex (s s' : eap_sm P) : method_frame s s' ->
  exists v, s' = s <| mv := v |> /\ wf_vars v.
Proof using Type. intros [H Hv]. by exists (mv s'). Qed.

Lemma quiet_ex (s s' : eap_sm P) : quiet_frame s s' ->
  exists v, s' = s <| mv := v |> /\ wf_vars v /\ method_pending v = method_pending (mv s).
Proof using Type. intros [[H Hv] Hp]. by exists (mv s'). Qed.

Lemma core_deref sm : core sm -> m sm <> None ->
  exists x p, deref_m sm = Ok x /\ deref_priv sm = Ok p /\ eap_method_priv sm = Some p /\
    MethodLaws x (accepts x).
Proof using laws.
  intros (_ & _ & _ & _ & _ & _ & _ & Hm & Hp) Hn. unfold EapServer.deref_m, deref_priv.
  destruct (m sm) as [[v t]|] eqn:E; [|done]. destruct (Hm v t eq_refl) as [x Hx].
  destruct (eap_method_priv sm) as [p|]; [|done]. rewrite Hx. exists x, p. eauto.
Qed.

Lemma core_view sm : core sm -> wf_method_view sm.
Proof using Type. by intros (_ & _ & _ & _ & _ & _ & H & _). Qed.

Lemma core_priv_none sm : core sm -> eap_method_priv sm = None -> m sm = None.
Proof using Type. intros (_ & _ & _ & _ & _ & _ & _ & _ & H) E. rewrite E in H. by destruct (m sm). Qed.

Lemma lookup_m_ok v t : lookup_m eap_methods v t = None \/
  (lookup_m eap_methods v t = Some (v, t) /\ is_Some (eap_server_get_eap_method eap_methods v t)).
Proof using Type. unfold lookup_m. case_match; [right | left]; eauto. Qed.

(** After [reset_method] the private data is gone. *)
Lemma reset_method_ok sm : core sm ->
  exists v, reset_method eap_methods sm = Ok (sm <| mv := v |> <| eap_method_priv := None |>) /\
    wf_vars v /\ method_pending v = method_pending (mv sm).
Proof using laws.
  intros H. unfold reset_method. destruct (m sm) as [[v t]|] eqn:E.
  - destruct (core_deref sm H) as (x & p & -> & _ & Hp & L); [by rewrite E|]. rewrite Hp.
    destruct (reset_law sm p (core_view _ H)) as (s' & Hr & F).
    cbn [mbind res_bind]. rewrite Hr. cbn [mbind res_bind].
    apply quiet_ex in F as (w & -> & Hw & Hpend). by exists w.
  - assert (eap_method_priv sm = None) as Hp.
    { destruct H as (_ & _ & _ & _ & _ & _ & _ & _ & H). rewrite E in H.
      by destruct (eap_method_priv sm). }
    exists (mv sm). rewrite <- Hp. split; [done|]. split; [apply (core_view _ H) | done].
Qed.

(** ** Parsing the response *)

(** What the parse results say about the stored response. *)
Definition parsed (r : eap_sm_rx) (resp : option wpabuf) : Prop :=
  rxResp r = true -> exists b len,
    resp = Some b /\ eap_hdr_length b = Ok len /\ len <= used b /\
    (respMethod r <> EAP_TYPE_NONE ->
       4 < len /\ rd (wpabuf_head b) 4 = Ok (respMethod r)).

Lemma parse_ok sm resp : opt wf resp ->
  exists r, eap_sm_parseEapResp sm resp = Ok (sm <| rx := r |>) /\ parsed r resp.
Proof using Type.
  intros Hw. unfold eap_sm_parseEapResp, parsed. destruct resp as [b|]; cbn in Hw.
  2: { eexists. split; [reflexivity|]. done. }
  cbn zeta. unfold wpabuf_len, sizeof_eap_hdr.
  destruct (Z.ltb_spec (used b) 4) as [|Hu].
  { eexists. split; [reflexivity|]. done. }
  destruct (wf_hdr_length b Hw Hu) as (len & Hlen & _). rewrite Hlen. cbn [mbind res_bind].
  destruct (Z.ltb_spec (used b) len) as [|Hl].
  { eexists. split; [reflexivity|]. done. }
  unfold eap_hdr_identifier, eap_hdr_code.
  destruct (wf_rd b Hw 1) as (id & -> & _); [lia|]. cbn [mbind res_bind].
  destruct (wf_rd b Hw 0) as (code & -> & _); [lia|]. cbn [mbind res_bind].
  set (s0 := if code =? EAP_CODE_RESPONSE then _ else _).
  assert (s0 = sm <| rx := {| rxResp := code =? EAP_CODE_RESPONSE; respId := id;
    respMethod := EAP_TYPE_NONE; respVendor := EAP_VENDOR_IETF;
    respVendorMethod := EAP_TYPE_NONE |} |>) as ->.
  { unfold s0. by destruct (code =? EAP_CODE_RESPONSE). }
  destruct (Z.ltb_spec 4 len) as [H4|].
  2: { eexists. split; [reflexivity|]. cbn. intros _. by exists b, len. }
  destruct (wf_rd b Hw 4) as (t & Ht & _); [lia|]. rewrite Ht. cbn [mbind res_bind].
  cbn [put rx respMethod]. destruct (t =? EAP_TYPE_EXPANDED).
  - destruct (Z.ltb_spec len (4 + 8)).
    { eexists. split; [reflexivity|]. cbn. by exists b, len. }
    destruct (wf_be24 b Hw (4 + 1)) as (v & -> & _); [lia..|]. cbn [mbind res_bind].
    destruct (wf_be32 b Hw (4 + 1 + 3)) as (w & -> & _); [lia..|]. cbn [mbind res_bind].
    eexists. split; [reflexivity|]. cbn. by exists b, len.
  - eexists. split; [reflexivity|]. cbn. by exists b, len.
Qed.

(** ** Users and policy *)

(** What every policy function leaves of the method variables. *)
Definition same_pending (v w : eap_sm_method_vars) : Prop :=
  wf_vars w /\ method_pending w = method_pending v.

Lemma user_get_ok e sm d n ph : wf_method_view sm -> 0 <= n <= zlen d ->
  exists r v, eap_user_get e sm (Some d) n ph = Ok (r, sm <| mv := v |>) /\
    same_pending (mv sm) v.
Proof using Type.
  intros [(Hu & Hi & Hx) (cb & Hcb & Hget & _)] Hn. unfold eap_user_get, same_pending, wf_vars.
  rewrite Hcb. destruct (get_eap_user cb) as [get|] eqn:Eg.
  2: { exists (-1), (mv sm). done. }
  destruct (malloc_ok e sizeof_eap_user); cbn [negb].
  2: { eexists (-1), _. split; [reflexivity|]. done. }
  rewrite rd_n_ok by lia. cbn [mbind res_bind].
  destruct (get _ ph) as [u|] eqn:Eu; cbn zeta.
  - eexists 0, _. split; [reflexivity|]. cbn. split_and!; [by eapply Hget | done | lia.. | done].
  - eexists (-1), _. split; [reflexivity|]. done.
Qed.

Lemma available_ok sm : wf_method_view sm ->
  exists b, method_available sm (user_eap_method_index (mv sm)) = Ok b /\
    (b = true -> user_eap_method_index (mv sm) < 8 /\ exists u, user (mv sm) = Some u).
Proof using Type.
  intros [(Hu & _ & Hx) _]. unfold method_available. destruct (user (mv sm)) as [u|].
  2: { by exists false. }
  unfold EAP_MAX_METHODS in *. destruct (Z.ltb_spec (user_eap_method_index (mv sm)) 8) as [Hlt|].
  2: { by exists false. }
  destruct (user_method_ok u _ Hu (conj (proj1 Hx) Hlt)) as (x & -> & _). cbn [mbind res_bind].
  exists (configured x). eauto.
Qed.

Lemma next_method_ok sm : wf_method_view sm ->
  exists v vendor t, eap_sm_Policy_getNextMethod sm = Ok (sm <| mv := v |>, vendor, t) /\
    same_pending (mv sm) v.
Proof using Type.
  intros H. unfold eap_sm_Policy_getNextMethod, same_pending.
  destruct (no_identity sm).
  { do 3 eexists. split; [reflexivity|]. split; [apply H | done]. }
  destruct (available_ok sm H) as (b & Ha & Hb). cbn zeta. rewrite Ha. cbn [mbind res_bind].
  destruct b.
  2: { exists (mv sm). do 2 eexists. split; [reflexivity|]. split; [apply H | done]. }
  destruct (Hb eq_refl) as (Hi & u & Hu). rewrite Hu.
  destruct H as [(Hwu & Hid & Hx) _]. pose proof Hwu as Hwu'. rewrite Hu in Hwu'.
  destruct (user_method_ok u _ Hwu' (conj (proj1 Hx) Hi)) as (x & -> & _). cbn [mbind res_bind].
  do 3 eexists. split; [reflexivity|]. cbn. unfold wf_vars, EAP_MAX_METHODS in *. cbn.
  split_and!; [done.. | lia | lia | done].
Qed.

Lemma first_is_identity_ok sm : wf_method_view sm -> exists b, first_is_identity sm = Ok b.
Proof using Type.
  intros [(Hu & _) _]. unfold first_is_identity. destruct (user (mv sm)) as [u|]; [|by eexists].
  destruct (user_method_ok u 0 Hu) as (x & -> & _); [lia|]. by eexists.
Qed.

Lemma decision_user_ok e sm : wf_method_view sm -> is_some (identity (mv sm)) = true ->
  exists d v, getDecision_user e sm = Ok (d, sm <| mv := v |>) /\ same_pending (mv sm) v /\
    d <> Some DECISION_SUCCESS.
Proof using Type.
  intros H Hid. unfold getDecision_user. destruct (first_is_identity_ok sm H) as (b & ->).
  cbn [mbind res_bind]. destruct (identity (mv sm)) as [d|] eqn:E; [|done].
  destruct (user_get_ok e sm d (identity_len (mv sm)) 0 H) as (r & v & -> & Hv & Hp).
  { destruct H as [(_ & H & _) _]. rewrite E in H. apply H. }
  cbn [mbind res_bind]. destruct (negb (r =? 0)).
  { by eexists _, _. }
  destruct (first_is_identity_ok (sm <| mv := v |>)) as (b' & ->); [by destruct H|].
  cbn [mbind res_bind]. case_match; (do 2 eexists; split; [reflexivity|]); done.
Qed.

(** The selected method, which is not Identity, reports success. *)
Definition method_success sm : Prop :=
  exists x p, deref_m sm = Ok x /\ eap_method_priv sm = Some p /\
    currentMethod sm <> EAP_TYPE_IDENTITY /\ isSuccess x sm p = true.

(** It does not depend on the rest of the state. *)
Lemma method_success_ext sm sm' : core sm -> m sm' = m sm ->
  eap_method_priv sm' = eap_method_priv sm -> currentMethod sm' = currentMethod sm ->
  method_success sm -> method_success sm'.
Proof using laws.
  intros H E1 E2 E3 (x & p & Hx & Hpr & Hn & Hs).
  assert (MethodLaws x (accepts x)) as L.
  { destruct (core_deref sm H) as (x' & p' & Hx' & _ & _ & L);
      [by unfold EapServer.deref_m in Hx; destruct (m sm)|].
    rewrite Hx in Hx'. by simplify_eq. }
  exists x, p. unfold EapServer.deref_m in *. rewrite E1, E2, E3. split_and!; [done..|].
  by erewrite isSuccess_law.
Qed.

Lemma if_m_ok sm cond : core sm -> exists b, if_m eap_methods sm cond = Ok b /\
  (b = true -> exists x p, deref_m sm = Ok x /\ eap_method_priv sm = Some p /\ cond x p = true).
Proof using laws.
  intros H. unfold if_m. destruct (m sm) as [vt|] eqn:E; [|by exists false].
  destruct (core_deref sm H) as (x & p & Hx & Hp & Hp' & _); [by rewrite E|].
  rewrite Hx, Hp. exists (cond x p). split; [done|]. intros. by exists x, p.
Qed.

Lemma decision_ok e sm : core sm ->
  exists d v b,
    eap_sm_Policy_getDecision eap_methods e sm =
      Ok (d, sm <| mv := v |> <| start_reauth := b |>) /\
    same_pending (mv sm) v /\ (d = DECISION_SUCCESS -> method_success sm).
Proof using laws.
  intros H. pose proof (core_view _ H) as Hv. unfold eap_sm_Policy_getDecision.
  assert (same_pending (mv sm) (mv sm)) as Hsame by (split; [apply Hv | done]).
  case_match. { exists DECISION_PASSTHROUGH, (mv sm), (start_reauth sm). done. }
  destruct (if_m_ok sm (fun x p => negb (currentMethod sm =? EAP_TYPE_IDENTITY) &&
    isSuccess x sm p) H) as (s & -> & Hs). cbn [mbind res_bind]. destruct s.
  { exists DECISION_SUCCESS, ((mv sm) <| update_user := true |>), (start_reauth sm).
    split; [reflexivity|]. split; [apply Hsame|].
    intros _. destruct (Hs eq_refl) as (x & p & Hx & Hp & [Hn Ht]%andb_true_iff).
    exists x, p. split_and!; [done..| | done]. apply negb_true_iff, Z.eqb_neq in Hn. done. }
  destruct (if_m_ok sm (fun x p => isDone x sm p && negb (isSuccess x sm p)) H)
    as (f & -> & _). cbn [mbind res_bind]. destruct f.
  { exists DECISION_FAILURE, ((mv sm) <| update_user := true |>), (start_reauth sm).
    split; [reflexivity|]. split; [apply Hsame|done]. }
  assert (exists d v, (if (negb (is_some (user (mv sm))) || update_user (mv sm)) &&
      is_some (identity (mv sm)) && negb (start_reauth sm)
    then getDecision_user e sm else mret (None, sm)) = Ok (d, sm <| mv := v |>) /\
    same_pending (mv sm) v /\ d <> Some DECISION_SUCCESS) as (d & v & -> & Hpv & Hd).
  { destruct (negb (is_some (user (mv sm))) || update_user (mv sm)); cbn [andb].
    2: { by exists None, (mv sm). }
    destruct (is_some (identity (mv sm))) eqn:Ei; cbn [andb].
    2: { by exists None, (mv sm). }
    destruct (start_reauth sm); cbn [negb]; [by exists None, (mv sm)|].
    by apply decision_user_ok. }
  cbn [mbind res_bind]. destruct d as [d|].
  { exists d, v, (start_reauth sm). split; [done|]. split; [done|]. intros ->. done. }
  cbn zeta.
  destruct (available_ok (sm <| mv := v |> <| start_reauth := false |>)) as (b & Ha & _).
  { split; [apply Hpv | apply Hv]. }
  change (user_eap_method_index (mv (sm <| mv := v |> <| start_reauth := false |>)))
    with (user_eap_method_index v) in *. rewrite Ha. cbn [mbind res_bind].
  destruct b; [|case_match]; (do 2 eexists; exists false; split; [reflexivity|done]).
Qed.

Lemma process_nak_ok sm l n : wf_method_view sm -> 0 <= n <= zlen l ->
  exists v, eap_sm_process_nak sm l n = Ok (sm <| mv := v |>) /\ same_pending (mv sm) v.
Proof using Type.
  intros [(Hu & Hid & Hx) _] Hn. unfold eap_sm_process_nak, same_pending, wf_vars.
  destruct (user (mv sm)) as [u|] eqn:E.
  2: { exists (mv sm). split; [done|]. by rewrite E. }
  set (i := user_eap_method_index (mv sm)) in *. unfold EAP_MAX_METHODS in Hx.
  destruct Hu as [Hlen Hpw].
  pose proof (process_nak_loop_spec l n Hn 9 u (take (Z.to_nat i) (methods u))
    (drop (Z.to_nat i) (methods u))) as Hnak.
  replace (zlen (take (Z.to_nat i) (methods u))) with i in Hnak
    by (unfold zlen; rewrite length_take; lia).
  rewrite take_drop in Hnak.
  rewrite Hnak; [|done..|].
  2: { pose proof (conf_prefix_length (drop (Z.to_nat i) (methods u))).
       rewrite length_drop in *. lia. }
  cbn [mbind res_bind]. eexists. split; [reflexivity|]. cbn. unfold EAP_MAX_METHODS.
  split_and!; try done; [|lia..].
  unfold wf_user. cbn. split; [|done].
  rewrite length_app, nak_filter_length, length_take, length_drop. lia.
Qed.

Lemma policy_update_ok sm l n : wf_method_view sm ->
  opt (fun l => 0 <= n <= zlen l) l ->
  exists v d, eap_sm_Policy_update sm l n = Ok (sm <| mv := v |> <| decision := d |>) /\
    same_pending (mv sm) v.
Proof using Type.
  intros H Hl. unfold eap_sm_Policy_update.
  assert (same_pending (mv sm) (mv sm)) as Hsame by (split; [apply H | done]).
  destruct l as [l|]; [|by exists (mv sm), (decision sm)].
  destruct (user (mv sm)); [|by exists (mv sm), (decision sm)].
  case_match; [by exists (mv sm), DECISION_FAILURE|].
  destruct (process_nak_ok sm l n H Hl) as (v & -> & Hv). by exists v, (decision sm).
Qed.

(** ** Invariant of the states and rank of the driver loop *)

Definition accepts_m sm (b : wpabuf) : Prop :=
  exists x p, deref_m sm = Ok x /\ eap_method_priv sm = Some p /\ accepts x p b.

Definition accepts_all sm : Prop :=
  (exists b, eapRespData (eap_if sm) = Some b) /\ forall b, wf b -> accepts_m sm b.

Definition pending_none sm : Prop := method_pending (mv sm) = METHOD_PENDING_NONE.

Definition state_inv sm : Prop :=
  match EAP_state sm with
  | EAP_INITIALIZE =>
      eapRestart (eap_if sm) = false /\
      (backend_auth (cf sm) = true ->
       parsed (rx sm) (eapRespData (eap_if sm)) /\ currentMethod sm = EAP_TYPE_NONE)
  | EAP_PICK_UP_METHOD =>
      currentMethod sm <> EAP_TYPE_NONE -> m sm <> None /\ accepts_all sm
  | EAP_RECEIVED => parsed (rx sm) (eapRespData (eap_if sm))
  | EAP_INTEGRITY_CHECK =>
      m sm <> None /\ exists b, eapRespData (eap_if sm) = Some b /\
        (ignore sm = false -> accepts_m sm b)
  | EAP_METHOD_RESPONSE =>
      m sm <> None /\ (methodState sm = METHOD_END -> pending_none sm) /\
      (~ pending_none sm -> accepts_all sm)
  | EAP_SELECT_ACTION => decision sm = DECISION_SUCCESS -> method_success sm
  | _ => True
  end.

(** States that nothing but a restart or the port leaves. *)
Definition terminal (st : EAP_state_t) : bool :=
  match st with
  | EAP_TIMEOUT_FAILURE | EAP_FAILURE | EAP_SUCCESS
  | EAP_TIMEOUT_FAILURE2 | EAP_FAILURE2 | EAP_SUCCESS2 => true
  | _ => false
  end.

Definition pending_inv sm : Prop :=
  terminal (EAP_state sm) = true \/ EAP_state sm = EAP_DISABLED \/
  EAP_state sm = EAP_METHOD_RESPONSE \/ pending_none sm.

Definition rounds_inv sm : Prop :=
  0 <= num_rounds sm <= 52 /\ (num_rounds sm = 51 -> EAP_state sm = EAP_RECEIVED) /\
  (num_rounds sm = 52 -> terminal (EAP_state sm) = true).

Definition inv sm : Prop := core sm /\ state_inv sm /\ pending_inv sm /\ rounds_inv sm.

Definition rank_state sm : nat :=
  let resp (a b : nat) := if eapResp (eap_if sm) then a else b in
  let late (a b : nat) := if retransWhile (eap_if sm) =? 0 then a else b in
  match EAP_state sm with
  | EAP_DISABLED => 30 | EAP_INITIALIZE => 29 | EAP_PICK_UP_METHOD => 20
  | EAP_IDLE => late (resp 18 3) (resp 15 0)
  | EAP_RETRANSMIT => resp 17 2
  | EAP_RECEIVED => 13 | EAP_NAK => 12 | EAP_INTEGRITY_CHECK => 12
  | EAP_METHOD_RESPONSE =>
      if bool_decide (method_pending (mv sm) = METHOD_PENDING_CONT) then 11 else 10
  | EAP_SELECT_ACTION => 9
  | EAP_PROPOSE_METHOD => 7 | EAP_METHOD_REQUEST => 6
  | EAP_SEND_REQUEST | EAP_DISCARD => resp 16 1
  | EAP_INITIALIZE_PASSTHROUGH => 8 | EAP_AAA_REQUEST => 7
  | EAP_AAA_IDLE =>
      if aaaFail (eap_if sm) || aaaSuccess (eap_if sm) then 1
      else if aaaEapReq (eap_if sm) then 5 else if aaaTimeout (eap_if sm) then 1 else 0
  | EAP_AAA_RESPONSE => 4
  | EAP_IDLE2 => resp 12 (late 3 0)
  | EAP_RETRANSMIT2 => resp 13 2
  | EAP_RECEIVED2 => 11
  | EAP_SEND_REQUEST2 | EAP_DISCARD2 => resp 13 1
  | EAP_TIMEOUT_FAILURE | EAP_FAILURE | EAP_SUCCESS
  | EAP_TIMEOUT_FAILURE2 | EAP_FAILURE2 | EAP_SUCCESS2 => 0
  end%nat.

(** How many more rounds the loop can make; it strictly decreases. *)
Definition rank sm : nat :=
  if negb (portEnabled (eap_if sm)) then
    if bool_decide (EAP_state sm = EAP_DISABLED) then 0 else 1
  else if eapRestart (eap_if sm) then 40
  else if EAP_MAX_AUTH_ROUNDS <? num_rounds sm then
    if num_rounds sm =? EAP_MAX_AUTH_ROUNDS + 1 then 1 else 0
  else rank_state sm.

Lemma rank_bound sm : (rank sm <= 40)%nat.
Proof using Type.
  unfold rank, rank_state. repeat case_match; lia.
Qed.

(** A proven success: what [eapSuccess] has to be justified by. *)
Definition evidence sm : Prop :=
  EAP_state sm = EAP_SUCCESS /\ method_success sm \/
  EAP_state sm = EAP_SUCCESS2 /\ aaaSuccess (eap_if sm) = true /\ aaaFail (eap_if sm) = false.

(** What every entry action achieves; [r] bounds the rank afterwards. *)
Record entered (st : EAP_state_t) (r : nat) sm sm' : Prop := {
  en_state : EAP_state sm' = st;
  en_core : core sm';
  en_inv : state_inv sm';
  en_pending : pending_inv sm';
  en_rounds : num_rounds sm' = num_rounds sm + match st with EAP_RECEIVED => 1 | _ => 0 end;
  en_port : portEnabled (eap_if sm') = portEnabled (eap_if sm);
  en_restart : eapRestart (eap_if sm') = eapRestart (eap_if sm);
  en_rank : (rank_state sm' <= r)%nat;
  en_success : eapSuccess (eap_if sm') = eapSuccess (eap_if sm) \/ evidence sm';
  en_conf : cf sm' = cf sm;
  en_changed : changed sm' = true \/ terminal st = true;
}.

(** The rank of IDLE: zero unless a response is waiting. *)
Definition idle_rank sm : nat := if eapResp (eap_if sm) then 15 else 0.

(** [core], [pending_inv] of an updated state, from the hypotheses. *)
#[local] Ltac core_tac H :=
  let Hv := fresh in
  pose proof (core_view _ H) as Hv; destruct H as (? & ? & ? & ? & ? & ? & ? & ? & ?);
  unfold core, wf_method_view, same_pending in *; destruct_and?;
  split_and!; try done; try assumption.
(** The fields of [entered] that hold by computation. *)
#[local] Ltac enter_tac H :=
  eexists; split; [reflexivity|]; constructor; cbn;
  [ reflexivity | core_tac H | try done | try (by left); try (by right; left); try (by right; right; left); try (by right; right; right)
  | try lia; try reflexivity | try reflexivity | try reflexivity | cbn; try lia
  | try (by left) | try reflexivity | try (by left); try (by right) ].

Lemma enter_IDLE sm : core sm -> pending_none sm ->
  exists sm', sm_EAP_IDLE_Enter sm = Ok sm' /\ entered EAP_IDLE (idle_rank sm) sm sm'.
Proof using Type.
  intros H Hp. unfold sm_EAP_IDLE_Enter. cbn zeta.
  edestruct calculateTimeout_nonzero as (t & -> & Ht). cbn [mbind res_bind].
  enter_tac H. unfold idle_rank.
  by rewrite (proj2 (Z.eqb_neq t 0)).
Qed.

Lemma enter_IDLE2 sm : core sm -> pending_none sm ->
  exists sm', sm_EAP_IDLE2_Enter sm = Ok sm' /\
    entered EAP_IDLE2 (if eapResp (eap_if sm) then 12 else 0) sm sm'.
Proof using Type.
  intros H Hp. unfold sm_EAP_IDLE2_Enter. cbn zeta.
  edestruct calculateTimeout_nonzero as (t & -> & Ht). cbn [mbind res_bind].
  enter_tac H. by rewrite (proj2 (Z.eqb_neq t 0)).
Qed.

Lemma enter_retransmit e sm st (Enter : env -> eap_sm P -> res (eap_sm P)) :
  (forall sm, Enter e sm =
    (let sm := SM_ENTRY st false sm in
     let sm := sm <| retransCount := retransCount sm + 1 |> in
     if (retransCount sm <=? MaxRetrans (cf sm)) && is_some (lastReqData sm) then
       '(r, d) ← eap_copy_buf e (eapReqData (eap_if sm)) (lastReqData sm);
       let sm := sm <| eap_if; eapReqData := d |> in
       mret (if r =? 0 then sm <| eap_if; eapReq := true |> else sm)
     else mret sm)) ->
  st = EAP_RETRANSMIT \/ st = EAP_RETRANSMIT2 ->
  core sm -> pending_none sm ->
  exists sm', Enter e sm = Ok sm' /\
    entered st (if eapResp (eap_if sm) then 17 else 2) sm sm'.
Proof using Type.
  intros -> Hst H Hp. cbn zeta. destruct (_ && _).
  - pose proof H as (_ & Hq & Hl & _).
    destruct (copy_buf_ok e (eapReqData (eap_if sm)) (lastReqData sm) Hq Hl)
      as (r & d & Hc & Hd & _).
    change (eap_copy_buf e (eapReqData (eap_if sm)) (lastReqData sm) = Ok (r, d)) in Hc.
    cbn [SM_ENTRY negb orb put eap_if eapReqData lastReqData]. rewrite Hc. cbn [mbind res_bind].
    destruct (r =? 0), Hst as [-> | ->]; enter_tac H; unfold rank_state; cbn; case_match; lia.
  - destruct Hst as [-> | ->]; enter_tac H; unfold rank_state; cbn; case_match; lia.
Qed.

Lemma enter_RECEIVED sm : core sm -> pending_none sm ->
  exists sm', sm_EAP_RECEIVED_Enter sm = Ok sm' /\ entered EAP_RECEIVED 13 sm sm'.
Proof using Type.
  intros H Hp. unfold sm_EAP_RECEIVED_Enter. cbn zeta.
  destruct (parse_ok (SM_ENTRY EAP_RECEIVED false sm) (eapRespData (eap_if sm)))
    as (r & Hr & Hpr); [apply H|].
  change (eapRespData (eap_if (SM_ENTRY _ _ sm))) with (eapRespData (eap_if sm)).
  rewrite Hr. cbn [mbind res_bind]. enter_tac H.
Qed.

Lemma enter_RECEIVED2 sm : core sm -> pending_none sm ->
  exists sm', sm_EAP_RECEIVED2_Enter sm = Ok sm' /\ entered EAP_RECEIVED2 11 sm sm'.
Proof using Type.
  intros H Hp. unfold sm_EAP_RECEIVED2_Enter. cbn zeta.
  destruct (parse_ok (SM_ENTRY EAP_RECEIVED2 false sm) (eapRespData (eap_if sm)))
    as (r & Hr & Hpr); [apply H|].
  change (eapRespData (eap_if (SM_ENTRY _ _ sm))) with (eapRespData (eap_if sm)).
  rewrite Hr. enter_tac H.
Qed.

Lemma enter_DISCARD sm : core sm -> pending_none sm ->
  exists sm', sm_EAP_DISCARD_Enter sm = Ok sm' /\ entered EAP_DISCARD 1 sm sm'.
Proof using Type. intros H Hp. enter_tac H. Qed.

Lemma enter_DISCARD2 sm : core sm -> pending_none sm ->
  exists sm', sm_EAP_DISCARD2_Enter sm = Ok sm' /\ entered EAP_DISCARD2 1 sm sm'.
Proof using Type. intros H Hp. enter_tac H. Qed.

Lemma enter_send e sm st : st = EAP_SEND_REQUEST \/ st = EAP_SEND_REQUEST2 ->
  core sm -> pending_none sm ->
  exists sm', send_request e (SM_ENTRY st false sm) = Ok sm' /\ entered st 1 sm sm'.
Proof using Type.
  intros Hst H Hp. unfold send_request. cbn zeta. pose proof H as (_ & Hq & Hl & _).
  destruct (eapReqData (eap_if sm)) as [b|] eqn:E.
  - destruct (copy_buf_ok e (lastReqData sm) (Some b) Hl Hq) as (r & d & Hc & Hd & _).
    cbn [SM_ENTRY negb orb put eap_if eapReqData lastReqData]. rewrite E, Hc.
    cbn [mbind res_bind]. rewrite <- E in Hq.
    destruct (r =? 0), Hst as [-> | ->]; enter_tac H.
  - cbn [SM_ENTRY negb orb put eap_if eapReqData lastReqData]. rewrite E.
    destruct Hst as [-> | ->]; enter_tac H.
Qed.

Lemma entry_core st sm : core sm -> core (SM_ENTRY st false sm).
Proof using Type. exact id. Qed.

Lemma enter_INTEGRITY_CHECK sm b : core sm -> pending_none sm -> m sm <> None ->
  eapRespData (eap_if sm) = Some b ->
  exists sm', sm_EAP_INTEGRITY_CHECK_Enter eap_methods sm = Ok sm' /\
    entered EAP_INTEGRITY_CHECK 12 sm sm'.
Proof using laws.
  intros H Hp Hm Hb. unfold sm_EAP_INTEGRITY_CHECK_Enter. cbn zeta.
  pose proof (entry_core EAP_INTEGRITY_CHECK sm H) as H'.
  destruct (core_deref _ H' Hm) as (x & p & Hx & Hpr & Hp' & L).
  assert (wf b) as Hw by (destruct H as [H _]; by rewrite Hb in H).
  rewrite Hx. cbn [mbind res_bind]. destruct (check x) as [f|] eqn:Ef.
  - rewrite Hpr. cbn [mbind res_bind].
    change (eapRespData (eap_if (SM_ENTRY _ _ sm))) with (eapRespData (eap_if sm)). rewrite Hb.
    destruct (check_law f _ p b Ef (core_view _ H') Hw) as (r & -> & Hr).
    cbn [mbind res_bind]. enter_tac H. unfold state_inv; cbn. split; [done|].
    exists b. split; [done|]. intros. exists x, p. split_and!; [done|done|by apply Hr].
  - enter_tac H. unfold state_inv; cbn. split; [done|]. exists b. split; [done|]. intros _.
    exists x, p. split_and!; [done|done|by apply (no_check_law p b Ef)].
Qed.

Lemma enter_METHOD_REQUEST e sm : wf_env e -> core sm -> pending_none sm ->
  exists sm', sm_EAP_METHOD_REQUEST_Enter eap_methods e sm = Ok sm' /\
    entered EAP_METHOD_REQUEST 6 sm sm'.
Proof using laws.
  intros He H Hp. unfold sm_EAP_METHOD_REQUEST_Enter. cbn zeta.
  destruct (m sm) as [vt|] eqn:Em.
  2: { change (m (SM_ENTRY EAP_METHOD_REQUEST false sm)) with (m sm). rewrite Em. enter_tac H. }
  change (m (SM_ENTRY EAP_METHOD_REQUEST false sm)) with (m sm). rewrite Em.
  set (s1 := _ <| lastId := _ |>).
  assert (core s1) as H1 by exact H.
  destruct (core_deref s1 H1) as (x & p & -> & -> & Hp' & L).
  { change (m sm <> None). by rewrite Em. }
  cbn [mbind res_bind].
  destruct (buildReq_law e s1 p (currentId s1) He (core_view _ H1)) as (s' & p' & d & -> & F & Hd).
  cbn [mbind res_bind]. apply quiet_ex in F as (v & -> & Hv & Hpv).
  change (mv s1) with (mv sm) in Hpv. unfold pending_none in Hp. rewrite Hp in Hpv.
  change (m s1) with (m sm) in *. clear H1.
  destruct (getTimeout x); enter_tac H; cbn; by rewrite ?Em.
Qed.

Lemma enter_METHOD_RESPONSE e sm b : wf_env e -> core sm -> pending_none sm -> m sm <> None ->
  eapRespData (eap_if sm) = Some b -> accepts_m sm b ->
  exists sm', sm_EAP_METHOD_RESPONSE_Enter eap_methods e sm = Ok sm' /\
    entered EAP_METHOD_RESPONSE 10 sm sm'.
Proof using laws.
  intros He H Hp Hm Hb (x & p & Hx & Hpr & Ha). unfold sm_EAP_METHOD_RESPONSE_Enter. cbn zeta.
  set (s1 := SM_ENTRY _ _ _). assert (core s1) as H1 by exact H.
  destruct (core_deref s1 H1 Hm) as (x' & p' & Hx' & -> & Hp' & L). rewrite Hx'.
  assert (x' = x) as -> by (change (deref_m s1) with (deref_m sm) in Hx'; congruence).
  assert (p' = p) as ->
    by (change (eap_method_priv s1) with (eap_method_priv sm) in Hp'; congruence).
  assert (wf b) as Hw by (destruct H as [H _]; by rewrite Hb in H).
  cbn [mbind res_bind]. change (eapRespData (eap_if s1)) with (eapRespData (eap_if sm)).
  rewrite Hb.
  destruct (process_law e s1 p b He (core_view _ H1) Hw Ha) as (s' & p2 & -> & F & Hpend).
  cbn [mbind res_bind]. apply frame_ex in F as (v & -> & Hv).
  specialize (Hpend Hp). change (mv (s1 <| mv := v |>)) with v in Hpend.
  assert (is_some (m sm) = true) as Hsm by (by destruct (m sm)).
  assert (forall k, accepts x p2 k -> forall s2 : eap_sm P, m s2 = m sm ->
    eap_method_priv s2 = Some p2 -> accepts_m s2 k) as Hacc.
  { intros k Hk s2 E1 E2. exists x, p2. split_and!; [|done|done].
    change (deref_m s1) with (deref_m sm) in Hx'. unfold EapServer.deref_m in *. by rewrite E1. }
  rewrite (isDone_law _ (s1 <| mv := v |>)).
  destruct (isDone x (s1 <| mv := v |>) p2) eqn:Ed.
  - destruct Hpend as [Hpn | (_ & Hd & _)]; [|congruence].
    cbn [eap_sm_Policy_update]. cbn [mbind res_bind mret res_ret]. unfold eap_sm_Policy_update.
    destruct (getKey x) as [f|]; enter_tac H; cbn; rewrite ?Hpn, ?Hsm; done.
  - destruct Hpend as [Hpn | (Hwait & _ & Hall)].
    + enter_tac H; cbn; rewrite ?Hpn, ?Hsm; done.
    + enter_tac H; cbn; rewrite ?Hwait, ?Hsm; try done.
      unfold state_inv, pending_none; cbn. split_and!; [done|done|]. intros _.
      split; [by exists b|]. intros k Hk. by apply Hacc; [apply Hall| |].
Qed.

Lemma enter_PROPOSE_METHOD e sm : wf_env e -> core sm -> pending_none sm ->
  exists sm', sm_EAP_PROPOSE_METHOD_Enter eap_methods e sm = Ok sm' /\
    entered EAP_PROPOSE_METHOD 7 sm sm'.
Proof using laws.
  intros He H Hp. unfold sm_EAP_PROPOSE_METHOD_Enter. cbn zeta.
  set (s1 := SM_ENTRY _ _ _). assert (core s1) as H1 by exact H.
  destruct (next_method_ok s1 (core_view _ H1)) as (v & vendor & t & -> & Hv & Hpv).
  cbn [mbind res_bind].
  set (s2 := if vendor =? EAP_VENDOR_IETF then _ else _).
  assert (exists c, s2 = s1 <| mv := v |> <| currentMethod := c |>) as (c & E2).
  { unfold s2. case_match; by eexists. }
  rewrite E2. clear s2 E2. set (s2 := _ <| currentMethod := c |>).
  assert (core s2) as H2 by core_tac H1.
  destruct (reset_method_ok s2 H2) as (v2 & -> & Hv2 & Hpv2). cbn [mbind res_bind].
  change (mv s2) with v in Hpv2. change (mv s1) with (mv sm) in Hpv.
  unfold pending_none in Hp. rewrite Hpv, Hp in Hpv2.
  change (m (_ <| m := lookup_m eap_methods vendor t |>)) with (lookup_m eap_methods vendor t).
  destruct (lookup_m_ok vendor t) as [E | [E [x Hx]]]; rewrite E; cbn [mbind res_bind].
  { cbn [mret res_ret mbind res_bind]. case_match; enter_tac H. }
  set (s3 := _ <| m := Some (vendor, t) |>).
  assert (deref_m s3 = Ok x) as -> by (unfold EapServer.deref_m; cbn; by rewrite Hx).
  cbn [mbind res_bind].
  assert (wf_method_view s3) as Hw3 by (split; [exact Hv2 | apply (core_view _ H)]).
  pose proof (laws _ _ _ Hx) as L.
  destruct (init_law e s3 He Hw3) as (s' & p & -> & F). cbn [mbind res_bind].
  apply quiet_ex in F as (v3 & -> & Hv3 & Hpv3). change (mv s3) with v2 in Hpv3.
  rewrite Hpv2 in Hpv3.
  assert (forall v' t', Some (vendor, t) = Some (v', t') ->
    is_Some (eap_server_get_eap_method eap_methods v' t')) as Hreg
    by (intros ?? [= <- <-]; by rewrite Hx).
  destruct p; cbn [mret res_ret mbind res_bind]; case_match; enter_tac H.
Qed.

Lemma nak_parse_ok r resp : opt wf resp -> parsed r resp -> rxResp r = true ->
  respMethod r <> EAP_TYPE_NONE ->
  exists l n, nak_parse resp = Ok (l, n) /\ opt (fun l => 0 <= n <= zlen l) l.
Proof using Type.
  intros Hw Hpar Hr Hm. destruct (Hpar Hr) as (b & len & -> & Hlen & Hle & Ht).
  destruct (Ht Hm) as [H4 Hrd]. cbn in Hw. pose proof (wf_head_len b Hw) as Hh.
  unfold nak_parse, sizeof_eap_hdr, wpabuf_len.
  rewrite (proj2 (Z.ltb_lt 4 (used b))), Hlen by lia. cbn [mbind res_bind].
  rewrite (proj2 (Z.ltb_ge (used b) len)), Hrd by lia. cbn [mbind res_bind]. cbn zeta.
  assert (0 <= len < 65536) as Hl.
  { destruct (wf_hdr_length b Hw) as (x & Hx & ?); [lia|]. congruence. }
  rewrite (size_t_id (len - 4)) by lia.
  case_match; [|by eexists None, _].
  rewrite size_t_id by lia. do 2 eexists. split; [reflexivity|]. cbn.
  unfold zlen in *. rewrite length_drop. lia.
Qed.

Lemma resp_is_NAK sm : resp_is sm EAP_TYPE_NAK = true -> respMethod (rx sm) <> EAP_TYPE_NONE.
Proof using Type.
  unfold resp_is. intros H Hn. rewrite Hn in H. done.
Qed.

Lemma enter_NAK sm : core sm -> pending_none sm -> rxResp (rx sm) = true ->
  parsed (rx sm) (eapRespData (eap_if sm)) -> resp_is sm EAP_TYPE_NAK = true ->
  exists sm', sm_EAP_NAK_Enter eap_methods sm = Ok sm' /\ entered EAP_NAK 12 sm sm'.
Proof using laws.
  intros H Hp Hrx Hpar Hnak%resp_is_NAK. unfold sm_EAP_NAK_Enter. cbn zeta.
  set (s1 := SM_ENTRY _ _ _). assert (core s1) as H1 by exact H.
  assert (exists v, match eap_method_priv s1 with
    | Some p => x ← EapServer.deref_m eap_methods s1; sm ← reset x s1 p;
                mret (sm <| eap_method_priv := None |>)
    | None => mret s1 end = Ok (s1 <| mv := v |> <| eap_method_priv := None |>) /\
    wf_vars v /\ method_pending v = METHOD_PENDING_NONE) as (v & -> & Hv & Hpv).
  { destruct (reset_method_ok s1 H1) as (v & Hr & Hv & Hpv).
    change (mv s1) with (mv sm) in Hpv. unfold pending_none in Hp. rewrite Hp in Hpv.
    exists v. split_and!; [|done|done]. rewrite <- Hr. unfold reset_method.
    destruct (eap_method_priv s1) as [p|] eqn:Ep.
    - assert (m s1 <> None) as Hm.
      { intros E. destruct H1 as (_ & _ & _ & _ & _ & _ & _ & _ & H1).
        rewrite E, Ep in H1. done. }
      by destruct (m s1).
    - by rewrite (core_priv_none _ H1 Ep). }
  cbn [mbind res_bind].
  change (eapRespData (eap_if (_ <| m := None |>))) with (eapRespData (eap_if sm)).
  destruct (nak_parse_ok _ _ (proj1 H) Hpar Hrx Hnak) as (l & n & -> & Hl).
  cbn [mbind res_bind].
  destruct (policy_update_ok (s1 <| mv := v |> <| eap_method_priv := None |> <| m := None |>) l n)
    as (v2 & d & -> & Hv2 & Hpv2); [split; [done | apply (core_view _ H)] | done |].
  change (mv (_ <| m := None |>)) with v in Hpv2. rewrite Hpv in Hpv2.
  enter_tac H.
Qed.

Lemma enter_SELECT_ACTION e sm : core sm -> pending_none sm ->
  exists sm', sm_EAP_SELECT_ACTION_Enter eap_methods e sm = Ok sm' /\
    entered EAP_SELECT_ACTION 9 sm sm'.
Proof using laws.
  intros H Hp. unfold sm_EAP_SELECT_ACTION_Enter. cbn zeta.
  set (s1 := SM_ENTRY _ _ _). assert (core s1) as H1 by exact H.
  destruct (decision_ok e s1 H1) as (d & v & b & -> & [Hv Hpv] & Hd). cbn [mbind res_bind].
  change (mv s1) with (mv sm) in Hpv. unfold pending_none in Hp. rewrite Hp in Hpv.
  enter_tac H. unfold state_inv; cbn. intros ->.
  by apply (method_success_ext s1), Hd.
Qed.

Lemma enter_PICK_UP_METHOD e sm : wf_env e -> core sm -> pending_none sm ->
  currentMethod sm = EAP_TYPE_NONE -> parsed (rx sm) (eapRespData (eap_if sm)) ->
  rxResp (rx sm) = true ->
  exists sm', sm_EAP_PICK_UP_METHOD_Enter eap_methods e sm = Ok sm' /\
    entered EAP_PICK_UP_METHOD 20 sm sm'.
Proof using laws.
  intros He H Hp Hc Hpar Hrx. unfold sm_EAP_PICK_UP_METHOD_Enter. cbn zeta.
  set (s1 := SM_ENTRY _ _ _). case_match; [|enter_tac H; by unfold state_inv; cbn].
  set (s2 := _ <| currentMethod := _ |>). assert (core s2) as H2 by exact H.
  destruct (reset_method_ok s2 H2) as (v & -> & Hv & Hpv). cbn [mbind res_bind].
  change (mv s2) with (mv sm) in Hpv. unfold pending_none in Hp. rewrite Hp in Hpv.
  set (t := currentMethod _). clearbody t.
  change (m (_ <| m := ?x |>)) with x.
  destruct (lookup_m_ok EAP_VENDOR_IETF t) as [E | [E [x Hx]]]; rewrite E.
  { enter_tac H; by unfold state_inv; cbn. }
  set (s3 := _ <| m := Some _ |>).
  assert (deref_m s3 = Ok x) as -> by (unfold EapServer.deref_m; cbn; by rewrite Hx).
  cbn [mbind res_bind].
  assert (wf_method_view s3) as Hw3 by (split; [exact Hv | apply (core_view _ H)]).
  pose proof (laws _ _ _ Hx) as L.
  destruct (initPickUp x) as [f|] eqn:Ef.
  2: { enter_tac H; by unfold state_inv; cbn. }
  destruct (initPickUp_law f e s3 Ef He Hw3) as (s' & p & -> & F & Hacc). cbn [mbind res_bind].
  apply quiet_ex in F as (v3 & -> & Hv3 & Hpv3). change (mv s3) with v in Hpv3.
  rewrite Hpv in Hpv3.
  assert (forall v' t', Some (EAP_VENDOR_IETF, t) = Some (v', t') ->
    is_Some (eap_server_get_eap_method eap_methods v' t')) as Hreg
    by (intros ?? [= <- <-]; by rewrite Hx).
  destruct p as [p|]; cbn [mret res_ret]; enter_tac H.
  unfold state_inv; cbn. intros _. split; [done|].
  destruct (Hpar Hrx) as (b & _ & Hb & _). split; [by exists b|].
  intros k Hk. exists x, p. split_and!; [|done|by apply Hacc].
  unfold EapServer.deref_m; cbn; by rewrite Hx.
Qed.

Lemma entry_ex st g sm :
  exists c, SM_ENTRY st g sm = sm <| changed := c |> <| EAP_state := st |>.
Proof using Type. unfold SM_ENTRY. case_match; by eexists. Qed.

Lemma enter_TIMEOUT sm st : core sm ->
  st = EAP_TIMEOUT_FAILURE \/ st = EAP_TIMEOUT_FAILURE2 ->
  exists sm', mret ((SM_ENTRY st false sm) <| eap_if; eapTimeout := true |>) = Ok sm' /\
    entered st 0 sm sm'.
Proof using Type.
  intros H Hst. destruct Hst as [-> | ->]; enter_tac H.
Qed.

Lemma enter_FAILURE e g sm : core sm ->
  exists sm', sm_EAP_FAILURE_Enter e sm g = Ok sm' /\ entered EAP_FAILURE 0 sm sm' /\
    eapFail (eap_if sm') = true.
Proof using Type.
  intros H. unfold sm_EAP_FAILURE_Enter. cbn zeta. destruct (entry_ex EAP_FAILURE g sm) as [c ->].
  edestruct buildFailure_ok as (d & -> & Hd%opt_repr_wf). cbn [mbind res_bind].
  eexists. split; [reflexivity|]. split; [|done].
  constructor; try done; [core_tac H | by left | cbn; lia | by left | by right].
Qed.

Lemma enter_SUCCESS e sm : core sm -> pending_none sm -> method_success sm ->
  exists sm', sm_EAP_SUCCESS_Enter e sm = Ok sm' /\ entered EAP_SUCCESS 0 sm sm'.
Proof using laws.
  intros H Hp Hs. unfold sm_EAP_SUCCESS_Enter. cbn zeta.
  edestruct buildSuccess_ok as (d & -> & Hd%opt_repr_wf). cbn [mbind res_bind].
  eexists. split; [reflexivity|]. case_match; (constructor; try done; [core_tac H | by left | cbn; lia |
    right; left; split; [done | by apply (method_success_ext sm)] | by left]).
Qed.

Lemma enter_PASSTHROUGH sm : core sm -> pending_none sm ->
  exists sm', sm_EAP_INITIALIZE_PASSTHROUGH_Enter sm = Ok sm' /\
    entered EAP_INITIALIZE_PASSTHROUGH 8 sm sm'.
Proof using Type. intros H Hp. enter_tac H. Qed.

Lemma enter_AAA_REQUEST e sm : core sm -> pending_none sm ->
  exists sm', sm_EAP_AAA_REQUEST_Enter e sm = Ok sm' /\ entered EAP_AAA_REQUEST 7 sm sm'.
Proof using Type.
  intros H Hp. unfold sm_EAP_AAA_REQUEST_Enter. cbn zeta.
  change (eapRespData (eap_if (SM_ENTRY _ _ sm))) with (eapRespData (eap_if sm)).
  pose proof H as (Hq & _ & _ & _ & Ha & _).
  destruct (eapRespData (eap_if sm)) as [b|] eqn:E; [|rewrite <- E in Hq; enter_tac H].
  change (aaaEapRespData (eap_if (SM_ENTRY _ _ sm))) with (aaaEapRespData (eap_if sm)).
  destruct (copy_buf_ok e _ _ Ha Hq) as (r & d & -> & Hd & _). cbn [mbind res_bind].
  rewrite <- E in Hq. enter_tac H.
Qed.

Lemma enter_AAA_RESPONSE e sm : core sm -> pending_none sm ->
  exists sm', sm_EAP_AAA_RESPONSE_Enter e sm = Ok sm' /\ entered EAP_AAA_RESPONSE 4 sm sm'.
Proof using Type.
  intros H Hp. unfold sm_EAP_AAA_RESPONSE_Enter. cbn zeta.
  pose proof H as (_ & Hq & _ & Ha & _).
  destruct (copy_buf_ok e _ _ Hq Ha) as (r & d & Hc & Hd & _).
  change (eapReqData (eap_if (SM_ENTRY _ _ sm))) with (eapReqData (eap_if sm)).
  change (aaaEapReqData (eap_if (SM_ENTRY _ _ sm))) with (aaaEapReqData (eap_if sm)).
  rewrite Hc. cbn [mbind res_bind]. cbn [put eap_if eapReqData].
  assert (exists i, eap_sm_getId d = Ok i) as [i ->].
  { unfold eap_sm_getId, sizeof_eap_hdr, eap_hdr_identifier, wpabuf_len.
    destruct d as [d|]; [|by eexists]. cbn in Hd.
    destruct (Z.ltb_spec (used d) 4); [by eexists|].
    destruct (wf_rd d Hd 1) as (x & Hx & _); [lia|]. by eexists. }
  cbn [mbind res_bind]. enter_tac H.
Qed.

Lemma enter_AAA_IDLE sm : core sm -> pending_none sm ->
  exists sm', sm_EAP_AAA_IDLE_Enter sm = Ok sm' /\ entered EAP_AAA_IDLE 1 sm sm'.
Proof using Type.
  intros H Hp. enter_tac H. unfold rank_state. cbn. case_match; lia.
Qed.

Lemma enter_FAILURE2 e sm : core sm ->
  exists sm', sm_EAP_FAILURE2_Enter e sm = Ok sm' /\ entered EAP_FAILURE2 0 sm sm'.
Proof using Type.
  intros H. unfold sm_EAP_FAILURE2_Enter. cbn zeta. pose proof H as (_ & Hq & _ & Ha & _).
  destruct (copy_buf_ok e _ _ Hq Ha) as (r & d & Hc & Hd & _).
  change (eapReqData (eap_if (SM_ENTRY _ _ sm))) with (eapReqData (eap_if sm)).
  change (aaaEapReqData (eap_if (SM_ENTRY _ _ sm))) with (aaaEapReqData (eap_if sm)).
  rewrite Hc. cbn [mbind res_bind]. enter_tac H.
Qed.

Lemma enter_SUCCESS2 e sm : core sm ->
  aaaFail (eap_if sm) = false -> aaaSuccess (eap_if sm) = true ->
  exists sm', sm_EAP_SUCCESS2_Enter e sm = Ok sm' /\ entered EAP_SUCCESS2 0 sm sm'.
Proof using Type.
  intros H Hf Hs. unfold sm_EAP_SUCCESS2_Enter. cbn zeta.
  pose proof H as (_ & Hq & _ & Ha & _ & Hk & _).
  destruct (copy_buf_ok e _ _ Hq Ha) as (r & d & Hc & Hd & _).
  change (eapReqData (eap_if (SM_ENTRY _ _ sm))) with (eapReqData (eap_if sm)).
  change (aaaEapReqData (eap_if (SM_ENTRY _ _ sm))) with (aaaEapReqData (eap_if sm)).
  rewrite Hc. cbn [mbind res_bind].
  set (s2 := _ <| eap_if; eapKeyAvailable := _ |>).
  assert (forall (s3 : eap_sm P) k n,
    s3 = s2 <| eap_if; eapKeyData := k |> <| eap_if; eapKeyDataLen := n |> ->
    entered EAP_SUCCESS2 0 sm (s3 <| eap_if; eapSuccess := true |> <| start_reauth := true |>)) as Hend.
  { intros s3 k n ->. constructor; try done; [core_tac H | by left | cbn; lia | by right; right | by left]. }
  change (aaaEapKeyAvailable (eap_if s2)) with (aaaEapKeyAvailable (eap_if sm)).
  destruct (aaaEapKeyAvailable (eap_if sm)).
  - unfold eap_copy_data. change (aaaEapKeyData (eap_if s2)) with (aaaEapKeyData (eap_if sm)).
    change (aaaEapKeyDataLen (eap_if s2)) with (aaaEapKeyDataLen (eap_if sm)).
    destruct (aaaEapKeyData (eap_if sm)) as [k|]; cbn in Hk.
    + destruct (malloc_ok e _).
      * rewrite rd_n_ok by lia. cbn [mbind res_bind mret res_ret].
        eexists. split; [reflexivity|]. by eapply Hend.
      * cbn [mbind res_bind mret res_ret]. eexists. split; [reflexivity|]. by eapply Hend.
    + cbn [mbind res_bind mret res_ret]. eexists. split; [reflexivity|]. by eapply Hend.
  - cbn [mbind res_bind mret res_ret]. eexists. split; [reflexivity|]. by eapply Hend.
Qed.

(** What INITIALIZE and DISABLED achieve, whatever state they start from. *)
Lemma enter_INITIALIZE g sm : core sm ->
  exists sm', sm_EAP_INITIALIZE_Enter eap_methods sm g = Ok sm' /\ inv sm' /\
    EAP_state sm' = EAP_INITIALIZE /\ num_rounds sm' = 0 /\
    portEnabled (eap_if sm') = portEnabled (eap_if sm) /\ eapRestart (eap_if sm') = false /\
    eapSuccess (eap_if sm') = false /\ cf sm' = cf sm /\
    (g = false \/ EAP_state sm <> EAP_INITIALIZE -> changed sm' = true).
Proof using laws.
  intros H. unfold sm_EAP_INITIALIZE_Enter. cbn zeta.
  assert (exists c, SM_ENTRY EAP_INITIALIZE g sm = sm <| changed := c |>
    <| EAP_state := EAP_INITIALIZE |> /\
    (g = false \/ EAP_state sm <> EAP_INITIALIZE -> c = true)) as (c & -> & Hch).
  { unfold SM_ENTRY. destruct g; cbn [negb orb]; [|by eexists].
    destruct (bool_decide_reflect (EAP_state sm = EAP_INITIALIZE)); [|by eexists].
    exists (changed sm). split; [done|]. by intros [|]. }
  set (s1 := _ <| eap_if; eapRestart := false |>).
  assert (core s1) as H1 by exact H.
  destruct (reset_method_ok s1 H1) as (v & -> & Hv & _). cbn [mbind res_bind].
  set (s2 := _ <| mv; user_eap_method_index := 0 |>).
  assert (core s2) as H2.
  { core_tac H; cbn; destruct Hv as (? & ? & ?); try done; unfold EAP_MAX_METHODS; lia. }
  change (backend_auth (cf s2)) with (backend_auth (cf sm)).
  destruct (backend_auth (cf sm)) eqn:Eb.
  - set (s3 := s2 <| currentMethod := _ |>).
    destruct (parse_ok s3 (eapRespData (eap_if s3))) as (r & -> & Hpar); [apply H2|].
    cbn [mbind res_bind mret res_ret].
    assert (forall i : Z, let s4 := s3 <| rx := r |> <| currentId := i |> <| num_rounds := 0 |>
      <| mv; method_pending := METHOD_PENDING_NONE |> in inv s4) as Hinv.
    { intros i s4. unfold inv. split_and!.
      - core_tac H2.
      - unfold state_inv; cbn. done.
      - by right; right; right.
      - unfold rounds_inv; cbn. split_and!; [lia|lia|done|done]. }
    eexists. split; [reflexivity|].
    destruct (rxResp _); (split; [apply Hinv | done]).
  - cbn [mbind res_bind mret res_ret]. eexists. split; [reflexivity|]. split; [|done].
    unfold inv. split_and!.
    + core_tac H2.
    + unfold state_inv; cbn. by rewrite Eb.
    + by right; right; right.
    + unfold rounds_inv; cbn. split_and!; [lia|lia|done|done].
Qed.

Lemma enter_DISABLED g sm : core sm ->
  exists sm', sm_EAP_DISABLED_Enter sm g = Ok sm' /\ inv sm' /\
    EAP_state sm' = EAP_DISABLED /\ eap_if sm' = eap_if sm /\ cf sm' = cf sm.
Proof using Type.
  intros H. unfold sm_EAP_DISABLED_Enter. cbn zeta. destruct (entry_ex EAP_DISABLED g sm) as [c ->].
  eexists. split; [reflexivity|]. split; [|done]. unfold inv. split_and!.
  - core_tac H.
  - done.
  - by right; left.
  - unfold rounds_inv; cbn. split_and!; [lia|lia|done|done].
Qed.

(** ** One step *)

(** No method is selected and the response claims to be for it. *)
Definition stuck sm : Prop :=
  portEnabled (eap_if sm) = true /\ eapRestart (eap_if sm) = false /\
  num_rounds sm <= EAP_MAX_AUTH_ROUNDS /\ EAP_state sm = EAP_RECEIVED /\ m sm = None /\
  rxResp (rx sm) = true /\ respId (rx sm) = currentId sm /\
  resp_is sm (currentMethod sm) = true /\
  (resp_is sm EAP_TYPE_NAK && bool_decide (methodState sm = METHOD_PROPOSED)) = false.

(** Where the driver loop stops: waiting for a timer, a response, the AAA
    server or a pending method, disabled, or at an end of the exchange. *)
Definition resting sm : Prop :=
  match EAP_state sm with
  | EAP_DISABLED => portEnabled (eap_if sm) = false
  | EAP_IDLE => retransWhile (eap_if sm) <> 0 /\ eapResp (eap_if sm) = false
  | EAP_METHOD_RESPONSE => method_pending (mv sm) = METHOD_PENDING_WAIT
  | EAP_IDLE2 => retransWhile (eap_if sm) <> 0 /\ eapResp (eap_if sm) = false
  | EAP_AAA_IDLE =>
      aaaFail (eap_if sm) = false /\ aaaSuccess (eap_if sm) = false /\
      aaaEapReq (eap_if sm) = false /\ aaaTimeout (eap_if sm) = false
  | st => terminal st = true
  end.

Definition success_ok sm : Prop :=
  eapSuccess (eap_if sm) = true -> evidence sm /\ portEnabled (eap_if sm) = true.

Record step_ok sm sm' : Prop := {
  so_inv : inv sm';
  so_rank : changed sm' = true -> (rank sm' < rank sm)%nat;
  so_success : success_ok sm -> success_ok sm';
  so_conf : cf sm' = cf sm;
  so_rest : changed sm' = false -> resting sm';
}.

Definition step_result (r : res (eap_sm P)) sm : Prop :=
  (exists sm', r = Ok sm' /\ step_ok sm sm') \/ (r = Fault NullDeref /\ stuck sm).

Lemma evidence_terminal sm : evidence sm -> terminal (EAP_state sm) = true.
Proof using Type. by intros [[-> _] | [-> _]]. Qed.

Lemma no_success sm : success_ok sm -> terminal (EAP_state sm) = false ->
  eapSuccess (eap_if sm) = false.
Proof using Type.
  intros H Ht. destruct (eapSuccess (eap_if sm)) eqn:E; [|done].
  destruct (H E) as [He%evidence_terminal _]. congruence.
Qed.

(** The conditions under which [SM_STEP] reaches its [switch]. *)
Definition live sm : Prop :=
  portEnabled (eap_if sm) = true /\ eapRestart (eap_if sm) = false /\
  num_rounds sm <= EAP_MAX_AUTH_ROUNDS.

Lemma live_rank sm : live sm -> rank sm = rank_state sm.
Proof using Type.
  intros (Hp & Hr & Hn). unfold rank. rewrite Hp, Hr. cbn [negb].
  by rewrite (proj2 (Z.ltb_ge _ _)).
Qed.

(** An entry whose rank is below the current one is a good step. *)
Lemma finish (E : res (eap_sm P)) st r sm :
  (exists sm', E = Ok sm' /\ entered st r sm sm') ->
  live sm -> inv sm -> terminal (EAP_state sm) = false -> (r < rank_state sm)%nat ->
  (st = EAP_RECEIVED -> 1 <= r)%nat -> step_result E sm.
Proof using Type.
  intros (sm' & -> & En) Hlive (_ & _ & _ & (Hn & _)) Ht Hr Hst. left. exists sm'. split; [done|].
  pose proof (live_rank _ Hlive) as Hrk. destruct Hlive as (Hp & Hre & Hlim).
  unfold EAP_MAX_AUTH_ROUNDS in *. destruct En. constructor.
  - split; [done|]. split; [done|]. split; [done|].
    unfold rounds_inv. rewrite en_rounds0, en_state0. destruct st; split_and!; lia || done.
  - intros _. rewrite Hrk. unfold rank. rewrite en_port0, en_restart0, Hp, Hre. cbn [negb].
    unfold EAP_MAX_AUTH_ROUNDS. destruct (Z.ltb_spec 50 (num_rounds sm')); [|lia].
    assert (st = EAP_RECEIVED) as Hrx by (destruct st; lia || done).
    specialize (Hst Hrx). destruct (num_rounds sm' =? 50 + 1); lia.
  - intros Hs Ht'. split; [|congruence].
    destruct en_success0 as [Heq|]; [|done]. rewrite Heq, (no_success _ Hs Ht) in Ht'. done.
  - done.
  - destruct en_changed0 as [?|Hterm]; [congruence|]. unfold resting. rewrite en_state0.
    by destruct st.
Qed.

(** Staying put is a good step. *)
Lemma stay sm : inv sm -> changed sm = false -> resting sm -> step_result (Ok sm) sm.
Proof using Type.
  intros H Hc. left. exists sm. split; [done|]. constructor; [done | congruence | done..].
Qed.

Lemma pending_none_of sm : inv sm -> terminal (EAP_state sm) = false ->
  EAP_state sm <> EAP_DISABLED -> EAP_state sm <> EAP_METHOD_RESPONSE -> pending_none sm.
Proof using Type. intros (_ & _ & [H|[H|[H|H]]] & _); congruence. Qed.

#[local] Ltac rank_tac Es := unfold rank_state; rewrite Es; repeat case_match; lia.
#[local] Ltac by_entry L := eapply finish; [eapply L; eauto | eauto | eauto | eauto | | done || lia].

Lemma step_RECEIVED e sm : inv sm -> live sm -> EAP_state sm = EAP_RECEIVED ->
  step_result (sm_EAP_Step eap_methods e sm) sm.
Proof using laws.
  intros H Hl Es. pose proof Hl as (Hp & Hr & Hn). pose proof H as (Hc & Hi & _).
  unfold sm_EAP_Step. rewrite Hp, Hr, Es. cbn [negb andb].
  rewrite (proj2 (Z.ltb_ge _ _)) by done. unfold state_inv in Hi. rewrite Es in Hi.
  assert (terminal (EAP_state sm) = false) as Ht by (by rewrite Es).
  assert (pending_none sm) as Hpn by (by apply pending_none_of; rewrite ?Es).
  destruct (rxResp (rx sm)) eqn:Erx; cbn [andb].
  2: { by_entry enter_DISCARD. rank_tac Es. }
  destruct (Z.eqb_spec (respId (rx sm)) (currentId sm)) as [Hid|]; cbn [andb].
  2: { by_entry enter_DISCARD. rank_tac Es. }
  destruct (resp_is sm EAP_TYPE_NAK && bool_decide (methodState sm = METHOD_PROPOSED)) eqn:Enak.
  { apply andb_true_iff in Enak as Enak'. destruct Enak' as [Hnak _].
    by_entry enter_NAK. rank_tac Es. }
  destruct (resp_is sm (currentMethod sm)) eqn:Eresp.
  2: { by_entry enter_DISCARD. rank_tac Es. }
  destruct (m sm) as [vt|] eqn:Em.
  - destruct (Hi Erx) as (b & len & Hb & _).
    eapply finish; [eapply (enter_INTEGRITY_CHECK sm b); [done|done|by rewrite Em|done] | done..| |done].
    rank_tac Es.
  - right. split; [|by unfold stuck]. unfold sm_EAP_INTEGRITY_CHECK_Enter, EapServer.deref_m.
    cbn zeta. change (m (SM_ENTRY EAP_INTEGRITY_CHECK false sm)) with (m sm). by rewrite Em.
Qed.

(** The [switch] of [SM_STEP]: the states that the method exchange visits. *)
Lemma step_switch_method e sm : wf_env e -> inv sm -> live sm -> changed sm = false ->
  match EAP_state sm with
  | EAP_INITIALIZE | EAP_PICK_UP_METHOD | EAP_INTEGRITY_CHECK | EAP_METHOD_RESPONSE
  | EAP_METHOD_REQUEST | EAP_PROPOSE_METHOD | EAP_NAK | EAP_SELECT_ACTION | EAP_DISABLED => True
  | _ => False
  end ->
  step_result (sm_EAP_Step eap_methods e sm) sm.
Proof using laws.
  intros He H Hl Hch Hcase. pose proof Hl as (Hp & Hr & Hn). pose proof H as (Hc & Hi & _).
  pose proof (pending_none_of sm H) as Hpn.
  unfold sm_EAP_Step. rewrite Hp, Hr. cbn [negb andb].
  rewrite (proj2 (Z.ltb_ge _ _)) by done. unfold state_inv in Hi.
  destruct (EAP_state sm) eqn:Es; try contradiction; try specialize (Hpn eq_refl ltac:(done) ltac:(done)).
  - left. destruct (enter_INITIALIZE false sm Hc) 
      as (sm' & -> & Hinv & Hst & Hnum & Hpt & Hre & Hsu & Hcf & Hcg).
     
    exists sm'. split; [done|].
    constructor; [done | | by intros _; congruence | done |].
    2: { rewrite Hcg by (by left). congruence. }
    intros _. rewrite (live_rank sm Hl), live_rank.
    { unfold rank_state. rewrite Hst, Es. lia. }
    unfold live, EAP_MAX_AUTH_ROUNDS. rewrite Hpt, Hnum. done.
  - destruct (backend_auth (cf sm)).
    2: { by_entry enter_SELECT_ACTION; [by rewrite Es | rank_tac Es]. }
    destruct (proj2 Hi eq_refl) as [Hpar Hcm].
    destruct (rxResp (rx sm)) eqn:Erx; cbn [negb andb].
    2: { by_entry enter_SELECT_ACTION; [by rewrite Es | rank_tac Es]. }
    destruct (resp_is sm EAP_TYPE_NAK) eqn:Enak.
    { by_entry enter_NAK; [by rewrite Es | rank_tac Es]. }
    by_entry enter_PICK_UP_METHOD; [by rewrite Es | rank_tac Es].
  - destruct Hi as (Hm & b & Hb & Ha). destruct (ignore sm).
    { by_entry enter_DISCARD; [by rewrite Es | rank_tac Es]. }
    by_entry enter_METHOD_RESPONSE; [by rewrite Es | rank_tac Es].
  - destruct Hi as (Hm & Hend & Hall).
    destruct (bool_decide_reflect (methodState sm = METHOD_END)) as [E|E].
    { specialize (Hend E). by_entry enter_SELECT_ACTION; [by rewrite Es | rank_tac Es]. }
    unfold pending_none in Hall. destruct (method_pending (mv sm)) eqn:Ep.
    + by_entry enter_METHOD_REQUEST; [by rewrite Es | rank_tac Es].
    + apply stay; [done..|]. unfold resting. by rewrite Es.
    + destruct (Hall ltac:(done)) as [[b Hb] Hacc].
      assert (wf b) as Hw by (destruct Hc as [Hc _]; by rewrite Hb in Hc).
      set (s1 := sm <| mv; method_pending := METHOD_PENDING_NONE |>).
      assert (core s1) as Hc1 by (core_tac Hc).
      destruct (enter_METHOD_RESPONSE e s1 b He Hc1 eq_refl Hm Hb (Hacc b Hw)) as (sm' & Hs & En).
      eapply (finish _ EAP_METHOD_RESPONSE 10); [|done|done|by rewrite Es| |done].
      * exists sm'. split; [exact Hs|]. destruct En; constructor; assumption.
      * unfold rank_state. rewrite Es. rewrite bool_decide_eq_true_2 by done. lia.
  - by_entry enter_send; [by rewrite Es | rank_tac Es].
  - unfold pending_none in Hpn. rewrite Hpn.
    by_entry enter_METHOD_REQUEST; [by rewrite Es | rank_tac Es].
  - destruct (decision sm) eqn:Ed.
    + specialize (Hi eq_refl). by_entry enter_SUCCESS; [by rewrite Es | rank_tac Es].
    + destruct (enter_FAILURE e false sm Hc) as (sm' & Hs & En & _).
      eapply finish; [by eexists | done.. | by rewrite Es | rank_tac Es | done].
    + by_entry enter_PROPOSE_METHOD; [by rewrite Es | rank_tac Es].
    + by_entry enter_PASSTHROUGH; [by rewrite Es | rank_tac Es].
  - by_entry enter_SELECT_ACTION; [by rewrite Es | rank_tac Es].
  - destruct (Z.eqb_spec (currentMethod sm) EAP_TYPE_NONE) as [|Hcm].
    { by_entry enter_SELECT_ACTION; [by rewrite Es | rank_tac Es]. }
    destruct (Hi Hcm) as (Hm & [b Hb] & Hall).
    assert (wf b) as Hw by (destruct Hc as [Hc _]; by rewrite Hb in Hc).
    by_entry enter_METHOD_RESPONSE; [by rewrite Es | rank_tac Es].
Qed.

(** The other states: waiting, sending, the AAA exchange and the ends. *)
Lemma step_switch_wait e sm : wf_env e -> inv sm -> live sm -> changed sm = false ->
  match EAP_state sm with
  | EAP_INITIALIZE | EAP_PICK_UP_METHOD | EAP_INTEGRITY_CHECK | EAP_METHOD_RESPONSE
  | EAP_METHOD_REQUEST | EAP_PROPOSE_METHOD | EAP_NAK | EAP_SELECT_ACTION | EAP_DISABLED
  | EAP_RECEIVED => False
  | _ => True
  end ->
  step_result (sm_EAP_Step eap_methods e sm) sm.
Proof using laws.
  intros He H Hl Hch Hcase. pose proof Hl as (Hp & Hr & Hn). pose proof H as (Hc & Hi & _).
  pose proof (pending_none_of sm H) as Hpn.
  unfold sm_EAP_Step. rewrite Hp, Hr. cbn [negb andb].
  rewrite (proj2 (Z.ltb_ge _ _)) by done. clear Hi.
  destruct (EAP_state sm) eqn:Es; try contradiction;
    try specialize (Hpn eq_refl ltac:(done) ltac:(done));
    try (by apply stay; [..|unfold resting; rewrite Es]).
  - destruct (Z.eqb_spec (retransWhile (eap_if sm)) 0) as [Hrw|].
    { eapply finish; [by apply enter_retransmit; [|left| |] | done.. | by rewrite Es | | done].
      unfold rank_state. rewrite Es, Hrw. cbn. case_match; lia. }
    destruct (eapResp (eap_if sm)) eqn:Er; [|by apply stay; [..|unfold resting; rewrite Es]].
    eapply finish; [by apply enter_RECEIVED | done.. | by rewrite Es | | lia].
    unfold rank_state. rewrite Es, Er. case_match; lia.
  - eapply finish; [by apply enter_IDLE | done.. | by rewrite Es | | done].
    unfold rank_state, idle_rank. rewrite Es. case_match; lia.
  - eapply finish; [by apply enter_IDLE | done.. | by rewrite Es | | done].
    unfold rank_state, idle_rank. rewrite Es. case_match; lia.
  - destruct (_ <? _).
    { eapply finish; [by apply enter_TIMEOUT; [|left] | done.. | by rewrite Es | | done].
      unfold rank_state. rewrite Es. case_match; lia. }
    eapply finish; [by apply enter_IDLE | done.. | by rewrite Es | | done].
    unfold rank_state, idle_rank. rewrite Es. case_match; lia.
  - destruct (currentId sm =? -1).
    { by_entry enter_AAA_IDLE; [by rewrite Es | rank_tac Es]. }
    by_entry enter_AAA_REQUEST; [by rewrite Es | rank_tac Es].
  - destruct (eapResp (eap_if sm)) eqn:Er.
    { by_entry enter_RECEIVED2; [by rewrite Es|]. unfold rank_state. rewrite Es, Er. lia. }
    destruct (Z.eqb_spec (retransWhile (eap_if sm)) 0) as [Hrw|]; [|by apply stay; [..|unfold resting; rewrite Es]].
    eapply finish; [by apply enter_retransmit; [|right| |] | done.. | by rewrite Es | | done].
    unfold rank_state. rewrite Es, Hrw, Er. cbn. lia.
  - destruct (_ <? _).
    { eapply finish; [by apply enter_TIMEOUT; [|right] | done.. | by rewrite Es | | done].
      unfold rank_state. rewrite Es. case_match; lia. }
    by_entry enter_IDLE2; [by rewrite Es|]. unfold rank_state. rewrite Es. case_match; lia.
  - destruct (_ && _).
    { by_entry enter_AAA_REQUEST; [by rewrite Es | rank_tac Es]. }
    by_entry enter_DISCARD2; [by rewrite Es | rank_tac Es].
  - by_entry enter_IDLE2; [by rewrite Es|]. unfold rank_state. rewrite Es. case_match; lia.
  - by_entry enter_IDLE2; [by rewrite Es|]. unfold rank_state. rewrite Es. case_match; lia.
  - by_entry enter_AAA_IDLE; [by rewrite Es | rank_tac Es].
  - by_entry enter_send; [by rewrite Es | rank_tac Es].
  - assert ((if aaaFail (eap_if sm) || aaaSuccess (eap_if sm) then 1 else
      if aaaEapReq (eap_if sm) then 5 else if aaaTimeout (eap_if sm) then 1 else 0) =
      rank_state sm)%nat as Hrk by (unfold rank_state; by rewrite Es).
    destruct (aaaFail (eap_if sm)) eqn:Ef; cbn [orb] in Hrk.
    { by_entry enter_FAILURE2; [by rewrite Es | lia]. }
    destruct (aaaSuccess (eap_if sm)) eqn:Esu.
    { by_entry enter_SUCCESS2; [by rewrite Es | lia]. }
    destruct (aaaEapReq (eap_if sm)) eqn:Eq.
    { by_entry enter_AAA_RESPONSE; [by rewrite Es | lia]. }
    destruct (aaaTimeout (eap_if sm)) eqn:Et.
    2: { apply stay; [done..|]. unfold resting. by rewrite Es, Ef, Esu, Eq, Et. }
    eapply finish; [by apply enter_TIMEOUT; [|right] | done.. | by rewrite Es | lia | done].
Qed.

(** Clearing [changed] at the top of the loop. *)
Lemma inv_changed sm c : inv sm -> inv (sm <| changed := c |>).
Proof using laws.
  intros (Hc & Hi & Hp & Hr). split; [exact Hc|]. split; [|by split].
  unfold state_inv in *; cbn. destruct (EAP_state sm); try exact Hi.
  intros Hd. by apply (method_success_ext sm), Hi.
Qed.

Lemma success_ok_changed sm c : inv sm -> success_ok sm -> success_ok (sm <| changed := c |>).
Proof using laws.
  intros [Hc _] H Ht. destruct (H Ht) as [[[Es Hm] | He] Hp]; (split; [|done]); [left | by right].
  split; [done|]. by apply (method_success_ext sm).
Qed.
End server.
