(* ===== verification/EapMethods.v ===== *)
(** * eap_server/eap_server_identity.c, eap_server/eap_server_md5.c

    Two methods of the EAP server and the proof that they keep the promises of
    [MethodLaws].  The private structures of the two methods ([struct
    eap_identity_data], [struct eap_md5_data]) share the record [method_data];
    each method only uses its own fields.  [eap_common/chap.c] calls the MD5
    implementation of the crypto library, here the argument [md5_vector]. *)

From S2P Require Import Prelude WpaBuf EapCommon EapI EapServer.

Inductive method_state_t := CONTINUE | SUCCESS | FAILURE.

#[global] Instance method_state_eq_dec : EqDecision method_state_t.
Proof. solve_decision. Defined.

#[projections(primitive)]
Record method_data := {
  state : method_state_t;
  pick_up : Z;
  challenge : list Z;
}.

Definition CHALLENGE_LEN : Z := 16.
Definition CHAP_MD5_LEN : Z := 16.
Definition sizeof_eap_identity_data : Z := 8.
Definition sizeof_eap_md5_data : Z := 20.

Definition zalloc_data : method_data :=
  {| state := CONTINUE; pick_up := 0; challenge := replicate 16 0 |}.

(** ** EAP-Identity *)
Module Identity.
Definition eap_identity_init (e : env) (sm : eap_sm method_data)
    : res (eap_sm method_data * option method_data) :=
  if malloc_ok e sizeof_eap_identity_data
  then mret (sm, Some (zalloc_data <| state := CONTINUE |>))
  else mret (sm, None).

Definition eap_identity_initPickUp (e : env) (sm : eap_sm method_data)
    : res (eap_sm method_data * option method_data) :=
  '(sm, data) ← eap_identity_init e sm;
  mret (sm, match data with Some d => Some (d <| pick_up := 1 |>) | None => None end).

Definition eap_identity_reset (sm : eap_sm method_data) (priv : method_data)
    : res (eap_sm method_data) := mret sm.

Definition eap_identity_buildReq (e : env) (sm : eap_sm method_data) (data : method_data)
    (id : Z) : res (eap_sm method_data * method_data * option wpabuf) :=
  match eapol_cb (cf sm) with
  | None => Fault NullDeref
  | Some cb =>
      let '(req_data, req_data_len) :=
        match get_eap_req_id_text cb with Some x => x | None => (None, 0) end in
      req ← eap_msg_alloc (malloc_ok e) EAP_VENDOR_IETF EAP_TYPE_IDENTITY req_data_len
              EAP_CODE_REQUEST id;
      match req with
      | None => mret (sm, data <| state := FAILURE |>, None)
      | Some req =>
          req ← wpabuf_put_data req req_data req_data_len;
          mret (sm, data, Some req)
      end
  end.

(** [TRUE] means that the response is to be ignored. *)
Definition eap_identity_check (sm : eap_sm method_data) (data : method_data)
    (respData : option wpabuf) : res bool :=
  match respData with
  | None => Fault NullDeref
  | Some b =>
      pos ← eap_hdr_validate EAP_VENDOR_IETF EAP_TYPE_IDENTITY b;
      mret (match pos with None => true | Some _ => false end)
  end.

Definition eap_identity_process (e : env) (sm : eap_sm method_data) (data : method_data)
    (respData : option wpabuf) : res (eap_sm method_data * method_data) :=
  bad ← (if negb (pick_up data =? 0) then eap_identity_check sm data respData
         else mret false);
  if bad : bool then mret (sm, data <| state := FAILURE |>) else
  let data := if negb (pick_up data =? 0) then data <| pick_up := 0 |> else data in
  match respData with
  | None => Fault NullDeref
  | Some b =>
      pos ← eap_hdr_validate EAP_VENDOR_IETF EAP_TYPE_IDENTITY b;
      match pos with
      | None => mret (sm, data)
      | Some (pos, len) =>
          let sm := if is_some (identity (mv sm)) then sm <| mv; update_user := true |>
                    else sm in
          if malloc_ok e (if len =? 0 then 1 else len) then
            d ← rd_n (wpabuf_head b) pos len;
            let sm := sm <| mv; identity := Some d |> in
            let sm := sm <| mv; identity_len := len |> in
            mret (sm, data <| state := SUCCESS |>)
          else
            let sm := sm <| mv; identity := None |> in
            mret (sm, data <| state := FAILURE |>)
      end
  end.

Definition eap_identity_isDone (sm : eap_sm method_data) (data : method_data) : bool :=
  negb (bool_decide (state data = CONTINUE)).

Definition eap_identity_isSuccess (sm : eap_sm method_data) (data : method_data) : bool :=
  bool_decide (state data = SUCCESS).

(** [eap_server_identity_register]: the method it registers ("Identity"). *)
Definition eap_identity : eap_method method_data := {|
  vendor := EAP_VENDOR_IETF; method := EAP_TYPE_IDENTITY;
  name := Some [73; 100; 101; 110; 116; 105; 116; 121];
  version := EAP_SERVER_METHOD_INTERFACE_VERSION;
  init := eap_identity_init; initPickUp := Some eap_identity_initPickUp;
  reset := eap_identity_reset; buildReq := eap_identity_buildReq; getTimeout := None;
  check := Some eap_identity_check; process := eap_identity_process;
  isDone := eap_identity_isDone; getKey := None; isSuccess := eap_identity_isSuccess |}.

(** Identity can process any message. *)
Definition accepts (p : method_data) (b : wpabuf) : Prop := True.

Lemma same_quiet (sm : eap_sm method_data) : wf_method_view sm -> quiet_frame sm sm.
Proof. intros [H _]. by repeat split; try apply H. Qed.

Lemma identity_buildReq_total e sm p id : wf_method_view sm ->
  exists s' p' d, eap_identity_buildReq e sm p id = Ok (s', p', d) /\ quiet_frame sm s' /\
    opt wf d.
Proof.
  intros H. unfold eap_identity_buildReq. pose proof H as [_ (cb & -> & _ & Hcb)].
  destruct (match get_eap_req_id_text cb with Some x => x | None => (None, 0) end)
    as [d n] eqn:E.
  assert (0 <= n < 65536 /\ opt (fun d => bytes d /\ n <= zlen d) d) as [Hn Hd].
  { destruct (get_eap_req_id_text cb) as [[d' n']|] eqn:Ec; simplify_eq; [by apply Hcb|].
    split; [lia|done]. }
  destruct (eap_msg_alloc_repr (malloc_ok e) EAP_VENDOR_IETF EAP_TYPE_IDENTITY n
    EAP_CODE_REQUEST id) as [-> | (b & -> & Hb)]; [lia | |]; cbn [mbind res_bind].
  { do 3 eexists. split; [reflexivity|]. by split; [apply same_quiet|]. }
  destruct d as [d|].
  - destruct Hd as [Hbd Hnd]. unfold wpabuf_put_data. rewrite rd_n_ok by lia.
    cbn [mbind res_bind]. set (t := take _ _).
    assert (zlen t = n) as Ht by (unfold t, zlen in *; rewrite length_take, length_drop; lia).
    destruct (wpabuf_put_bytes_fits _ _ _ t Hb) as (b' & -> & Hb').
    { by apply Forall_take, Forall_drop. }
    { rewrite zlen_app, type_bytes_len, Ht. change (zlen (eap_hdr_bytes _ _ _)) with 4. lia. }
    do 3 eexists. split; [reflexivity|]. split; [by apply same_quiet|]. apply Hb'.
  - do 3 eexists. split; [reflexivity|]. split; [by apply same_quiet|]. apply Hb.
Qed.

Lemma identity_process_total e sm p b : wf_method_view sm -> wf b ->
  exists s' p', eap_identity_process e sm p (Some b) = Ok (s', p') /\ method_frame sm s' /\
    method_pending (mv s') = method_pending (mv sm).
Proof.
  intros H Hw. unfold eap_identity_process, eap_identity_check.
  destruct (eap_hdr_validate_total b Hw EAP_VENDOR_IETF EAP_TYPE_IDENTITY) as (r & Hr & Hin).
  rewrite !Hr. pose proof (same_quiet sm H) as [Hq _].
  assert (exists x, (if negb (pick_up p =? 0) then
    pos ← Ok r; mret match pos with Some _ => false | None => true end
    else mret false) = Ok x) as [x ->] by (case_match; by eexists).
  cbn [mbind res_bind]. destruct x; [by do 2 eexists|]. cbn zeta.
  destruct r as [[pos len]|]; [|by do 2 eexists].
  destruct (Hin pos len eq_refl) as [[Hl [Hpos Hu]] _].
  pose proof (wf_head_len b Hw). destruct H as [(Hus & _ & Hi) Hc].
  set (s1 := if is_some _ then _ else _).
  assert (exists c, s1 = sm <| mv; update_user := c |>) as (c & ->).
  { unfold s1. case_match; [by eexists|]. by exists (update_user (mv sm)). }
  destruct (malloc_ok e _).
  - rewrite rd_n_ok by lia. do 2 eexists. split; [reflexivity|]. split; [|done].
    split; [done|]. split; [done|]. split; [|done]. cbn. split.
    + by apply Forall_take, Forall_drop, wf_head_bytes.
    + unfold zlen in *. rewrite length_take, length_drop. lia.
  - do 2 eexists. split; [reflexivity|]. split; [|done]. by split.
Qed.

#[export] Instance identity_laws : MethodLaws eap_identity accepts.
Proof.
  constructor; cbn.
  - intros e s _ H. unfold eap_identity_init.
    destruct (malloc_ok e _); (do 2 eexists; split; [reflexivity | by apply same_quiet]).
  - intros f e s [= <-] _ H. unfold eap_identity_initPickUp, eap_identity_init.
    destruct (malloc_ok e _); (do 2 eexists; split; [reflexivity|]);
      (split; [by apply same_quiet | done]).
  - intros s p H. eexists. split; [reflexivity | by apply same_quiet].
  - intros e s p id _ H. by apply identity_buildReq_total.
  - intros f s p resp [= <-] _ Hw. unfold eap_identity_check.
    destruct (eap_hdr_validate_total resp Hw EAP_VENDOR_IETF EAP_TYPE_IDENTITY) as (r & -> & _).
    by eexists.
  - done.
  - intros e s p resp _ H Hw _. destruct (identity_process_total e s p resp H Hw)
      as (s' & p' & Hp & F & Hpend).
    exists s', p'. split_and!; [done..|]. rewrite Hpend. by left.
  - done.
  - done.
Qed.
End Identity.

(** ** EAP-MD5 *)
Module MD5.
Section md5.
(** The crypto library's MD5 of the concatenation of its arguments. *)
Context (md5_vector : list (list Z) -> list Z).

(** [eap_common/chap.c]. *)
Definition chap_md5 (id : Z) (secret challenge : list Z) : list Z :=
  md5_vector [[id]; secret; challenge].

Definition eap_md5_init (e : env) (sm : eap_sm method_data)
    : res (eap_sm method_data * option method_data) :=
  if malloc_ok e sizeof_eap_md5_data
  then mret (sm, Some (zalloc_data <| state := CONTINUE |>))
  else mret (sm, None).

Definition eap_md5_reset (sm : eap_sm method_data) (priv : method_data)
    : res (eap_sm method_data) := mret sm.

Definition eap_md5_buildReq (e : env) (sm : eap_sm method_data) (data : method_data)
    (id : Z) : res (eap_sm method_data * method_data * option wpabuf) :=
  match random_get_bytes e CHALLENGE_LEN with
  | None => mret (sm, data <| state := FAILURE |>, None)
  | Some c =>
      let data := data <| challenge := c |> in
      req ← eap_msg_alloc (malloc_ok e) EAP_VENDOR_IETF EAP_TYPE_MD5 (1 + CHALLENGE_LEN)
              EAP_CODE_REQUEST id;
      match req with
      | None => mret (sm, data <| state := FAILURE |>, None)
      | Some req =>
          req ← wpabuf_put_u8 req CHALLENGE_LEN;
          req ← wpabuf_put_data req (Some (challenge data)) CHALLENGE_LEN;
          mret (sm, data <| state := CONTINUE |>, Some req)
      end
  end.

Definition eap_md5_check (sm : eap_sm method_data) (data : method_data)
    (respData : option wpabuf) : res bool :=
  match respData with
  | None => Fault NullDeref
  | Some b =>
      pos ← eap_hdr_validate EAP_VENDOR_IETF EAP_TYPE_MD5 b;
      match pos with
      | None => mret true
      | Some (pos, len) =>
          if len <? 1 then mret true else
          n ← rd (wpabuf_head b) pos;
          mret (negb (n =? CHAP_MD5_LEN) || (len <? 1 + CHAP_MD5_LEN))
      end
  end.

(** [sm->user == NULL || sm->user->password == NULL || sm->user->password_hash]. *)
Definition plaintext_password (sm : eap_sm method_data) : option (list Z * Z) :=
  match user (mv sm) with
  | None => None
  | Some u =>
      match password u with
      | None => None
      | Some d => if negb (password_hash u =? 0) then None else Some (d, password_len u)
      end
  end.

Definition eap_md5_process (e : env) (sm : eap_sm method_data) (data : method_data)
    (respData : option wpabuf) : res (eap_sm method_data * method_data) :=
  match plaintext_password sm with
  | None => mret (sm, data <| state := FAILURE |>)
  | Some (secret, secret_len) =>
      match respData with
      | None => Fault NullDeref
      | Some b =>
          v ← eap_hdr_validate EAP_VENDOR_IETF EAP_TYPE_MD5 b;
          match v with
          | None => mret (sm, data)
          | Some (pos, plen) =>
              n ← rd (wpabuf_head b) pos;
              if negb (n =? CHAP_MD5_LEN) || (plen <? 1 + CHAP_MD5_LEN) then mret (sm, data) else
              let pos := pos + 1 in
              id ← eap_get_id b;
              secret ← rd_n secret 0 secret_len;
              let hash := chap_md5 id secret (challenge data) in
              resp ← rd_n (wpabuf_head b) pos CHAP_MD5_LEN;
              if bool_decide (hash = resp) then mret (sm, data <| state := SUCCESS |>)
              else mret (sm, data <| state := FAILURE |>)
          end
      end
  end.

Definition eap_md5_isDone (sm : eap_sm method_data) (data : method_data) : bool :=
  negb (bool_decide (state data = CONTINUE)).

Definition eap_md5_isSuccess (sm : eap_sm method_data) (data : method_data) : bool :=
  bool_decide (state data = SUCCESS).

(** [eap_server_md5_register]: the method it registers ("MD5"). *)
Definition eap_md5 : eap_method method_data := {|
  vendor := EAP_VENDOR_IETF; method := EAP_TYPE_MD5; name := Some [77; 68; 53];
  version := EAP_SERVER_METHOD_INTERFACE_VERSION;
  init := eap_md5_init; initPickUp := None; reset := eap_md5_reset;
  buildReq := eap_md5_buildReq; getTimeout := None; check := Some eap_md5_check;
  process := eap_md5_process; isDone := eap_md5_isDone; getKey := None;
  isSuccess := eap_md5_isSuccess |}.

(** What [eap_md5_check] establishes: a payload with all of the response in it.
    [eap_md5_process] reads its first byte before it tests the length. *)
Definition accepts (p : method_data) (b : wpabuf) : Prop :=
  forall pos plen, eap_hdr_validate EAP_VENDOR_IETF EAP_TYPE_MD5 b = Ok (Some (pos, plen)) ->
    1 + CHAP_MD5_LEN <= plen.

Lemma check_total sm p b : wf b ->
  exists r, eap_md5_check sm p (Some b) = Ok r /\ (r = false -> accepts p b).
Proof using Type.
  intros Hw. unfold eap_md5_check, accepts.
  destruct (eap_hdr_validate_total b Hw EAP_VENDOR_IETF EAP_TYPE_MD5) as (r & Hr & Hin).
  rewrite Hr. cbn [mbind res_bind]. destruct r as [[pos len]|].
  2: { by exists true. }
  destruct (Hin pos len eq_refl) as [[Hl [Hpos Hu]] _]. unfold CHAP_MD5_LEN.
  destruct (Z.ltb_spec len 1); [by exists true|].
  destruct (wf_rd b Hw pos) as (n & -> & _); [lia|]. cbn [mbind res_bind].
  eexists. split; [reflexivity|]. intros [_ Hlt]%orb_false_iff. apply Z.ltb_ge in Hlt.
  intros ?? [=]. lia.
Qed.

Lemma md5_process_total e sm p b : wf_method_view sm -> wf b -> accepts p b ->
  exists p', eap_md5_process e sm p (Some b) = Ok (sm, p').
Proof using Type.
  intros [(Hus & _) _] Hw Ha. unfold eap_md5_process, accepts in *.
  destruct (plaintext_password sm) as [[secret n]|] eqn:E; [|by eexists].
  assert (0 <= n <= zlen secret) as Hn.
  { unfold plaintext_password in E. destruct (user (mv sm)) as [u|]; [|done].
    destruct Hus as [_ Hp]. destruct (password u); [|done]. case_match; simplify_eq. apply Hp. }
  destruct (eap_hdr_validate_total b Hw EAP_VENDOR_IETF EAP_TYPE_MD5) as (r & Hr & Hin).
  rewrite Hr in *. cbn [mbind res_bind]. destruct r as [[pos len]|]; [|by eexists].
  destruct (Hin pos len eq_refl) as [[Hl [Hpos Hu]] _]. specialize (Ha pos len eq_refl).
  pose proof (wf_head_len b Hw). unfold CHAP_MD5_LEN in *.
  destruct (wf_rd b Hw pos) as (k & -> & _); [lia|]. cbn [mbind res_bind].
  destruct (_ || _); [by eexists|]. cbn zeta.
  destruct (eap_get_id_total b Hw) as (id & -> & _). cbn [mbind res_bind].
  rewrite !rd_n_ok by lia. cbn [mbind res_bind]. case_match; by eexists.
Qed.

Lemma md5_buildReq_total e sm p id : wf_env e -> wf_method_view sm ->
  exists p' d, eap_md5_buildReq e sm p id = Ok (sm, p', d) /\ opt wf d.
Proof using Type.
  intros He H. unfold eap_md5_buildReq, CHALLENGE_LEN.
  destruct (random_get_bytes e 16) as [c|] eqn:E; [|by do 2 eexists].
  destruct (He 16 c E) as [Hc Hl]. cbn zeta.
  destruct (eap_msg_alloc_repr (malloc_ok e) EAP_VENDOR_IETF EAP_TYPE_MD5 (1 + 16)
    EAP_CODE_REQUEST id) as [-> | (b & -> & Hb)]; [lia | by do 2 eexists |].
  cbn [mbind res_bind]. unfold wpabuf_put_u8.
  destruct (wpabuf_put_bytes_fits _ _ _ [u8 16] Hb) as (b1 & -> & H1).
  { constructor; [apply u8_byte | constructor]. }
  { rewrite zlen_app, type_bytes_len. change (zlen (eap_hdr_bytes _ _ _)) with 4. zlen_lia. }
  cbn [mbind res_bind]. change (challenge (p <| challenge := c |>)) with c.
  assert (wpabuf_put_data b1 (Some c) 16 = wpabuf_put_bytes b1 c) as ->
    by (rewrite <- (wpabuf_put_data_all b1 c); by rewrite Hl).
  destruct (wpabuf_put_bytes_fits _ _ _ c H1 Hc) as (b2 & -> & H2).
  { rewrite !zlen_app, type_bytes_len, Hl. change (zlen (eap_hdr_bytes _ _ _)) with 4. zlen_lia. }
  do 2 eexists. split; [reflexivity|]. apply H2.
Qed.

#[export] Instance md5_laws : MethodLaws eap_md5 accepts.
Proof using Type.
  constructor; cbn.
  - intros e s _ H. unfold eap_md5_init.
    destruct (malloc_ok e _); (do 2 eexists; split; [reflexivity | by apply Identity.same_quiet]).
  - done.
  - intros s p H. eexists. split; [reflexivity | by apply Identity.same_quiet].
  - intros e s p id He H. destruct (md5_buildReq_total e s p id He H) as (p' & d & -> & Hd).
    do 3 eexists. split; [reflexivity|]. by split; [apply Identity.same_quiet|].
  - intros f s p resp [= <-] _ Hw. by apply check_total.
  - done.
  - intros e s p resp _ H Hw Ha. destruct (md5_process_total e s p resp H Hw Ha) as (p' & Hp).
    exists s, p'. split; [done|]. split; [by apply Identity.same_quiet|]. by left.
  - done.
  - done.
Qed.
End md5.
End MD5.

(** ** The registry with both methods *)
Section registry.
Context (md5_vector : list (list Z) -> list Z).

Definition server_methods : registry method_data :=
  [Identity.eap_identity; MD5.eap_md5 md5_vector].

Definition server_accepts (x : eap_method method_data) : method_data -> wpabuf -> Prop :=
  if method x =? EAP_TYPE_MD5 then MD5.accepts else Identity.accepts.

Lemma server_methods_registered : registered server_methods.
Proof using Type.
  eapply (registered_add [Identity.eap_identity] (MD5.eap_md5 md5_vector)); [|done].
  by eapply (registered_add [] Identity.eap_identity); [apply registered_nil|].
Qed.

Lemma server_methods_laws v t x :
  eap_server_get_eap_method server_methods v t = Some x -> MethodLaws x (server_accepts x).
Proof using Type.
  cbn. repeat case_match; intros [= <-].
  - apply Identity.identity_laws.
  - apply MD5.md5_laws.
Qed.
End registry.

Lemma registry_lookup_unique_witness :
  eap_server_get_eap_method (server_methods (fun _ => [])) EAP_VENDOR_IETF EAP_TYPE_MD5 =
  Some (MD5.eap_md5 (fun _ => [])).
Proof.
  apply (registry_lookup_unique (server_methods (fun _ => []))
    (server_methods_registered (fun _ => [])) (MD5.eap_md5 (fun _ => []))).
  right. left.
Defined.

(** ** Properties *)

(** ([eap_md5_process]): a response that [eap_md5_check] lets pass ends the
    method, with success exactly when the sixteen octets after the size octet
    are the MD5 of identifier, stored password and challenge; without a plaintext
    password the method fails.  Nothing else of the state machine changes. *)
Theorem eap_md5_process_correct (md5_vector : list (list Z) -> list Z) (e : env)
    (sm : eap_sm method_data) (p : method_data) (b : wpabuf) (pos plen : Z) (u : eap_user)
    (d : list Z) :
  wf_method_view sm -> wf b -> MD5.eap_md5_check sm p (Some b) = Ok false ->
  eap_hdr_validate EAP_VENDOR_IETF EAP_TYPE_MD5 b = Ok (Some (pos, plen)) ->
  user (mv sm) = Some u -> password u = Some d ->
  exists id secret resp,
    eap_get_id b = Ok id /\ rd_n d 0 (password_len u) = Ok secret /\
    rd_n (wpabuf_head b) (pos + 1) CHAP_MD5_LEN = Ok resp /\
    MD5.eap_md5_process md5_vector e sm p (Some b) =
      Ok (sm, p <| state :=
        if bool_decide (password_hash u = 0 /\
             MD5.chap_md5 md5_vector id secret (challenge p) = resp)
        then SUCCESS else FAILURE |>).
Proof.
  intros [(Hus & _) _] Hw Hch Hv Hu Hp. rewrite Hu in Hus. destruct Hus as [_ Hpw].
  rewrite Hp in Hpw. destruct Hpw as [_ Hpl].
  destruct (eap_hdr_validate_total b Hw EAP_VENDOR_IETF EAP_TYPE_MD5) as (r & Hr & Hin).
  rewrite Hv in Hr. simplify_eq. destruct (Hin pos plen eq_refl) as [[Hl [Hpos Hub]] _].
  pose proof (wf_head_len b Hw) as Hh.
  unfold MD5.eap_md5_check in Hch. rewrite Hv in Hch. cbn [mbind res_bind] in Hch.
  destruct (Z.ltb_spec plen 1); [done|].
  destruct (wf_rd b Hw pos) as (n & Hn & _); [lia|]. rewrite Hn in Hch. cbn in Hch.
  destruct (negb (n =? CHAP_MD5_LEN)) eqn:En; [done|]. cbn [orb] in Hch.
  destruct (plen <? 1 + CHAP_MD5_LEN) eqn:Elt; [done|]. clear Hch.
  apply Z.ltb_ge in Elt. unfold CHAP_MD5_LEN in *.
  destruct (eap_get_id_total b Hw) as (id & Hid & _).
  eexists id, _, _. split; [done|]. split; [apply rd_n_ok; lia|]. split; [apply rd_n_ok; lia|].
  unfold MD5.eap_md5_process, MD5.plaintext_password, CHAP_MD5_LEN. rewrite Hu, Hp.
  destruct (Z.eqb_spec (password_hash u) 0) as [Hz|Hz]; cbn [negb].
  2: { by rewrite bool_decide_eq_false_2 by (by intros [? _]). }
  rewrite Hv. cbn [mbind res_bind]. rewrite Hn. cbn [mbind res_bind]. rewrite En. cbn [orb].
  rewrite (proj2 (Z.ltb_ge _ _)) by lia. cbn zeta. rewrite Hid. cbn [mbind res_bind].
  rewrite !rd_n_ok by lia. cbn [mbind res_bind].
  case_bool_decide as E; [rewrite bool_decide_eq_true_2 by done
                         | rewrite bool_decide_eq_false_2 by (by intros [_ ?])]; done.
Qed.

(** ([eap_identity_process]): a valid Identity response stores exactly its
    payload as the identity, asks for the user to be looked up again when an
    identity was known, and ends the method with success; when the copy cannot be
    allocated the identity is dropped and the method fails. *)
Theorem eap_identity_process_correct (e : env) (sm : eap_sm method_data) (p : method_data)
    (b : wpabuf) (pos len : Z) :
  wf b -> eap_hdr_validate EAP_VENDOR_IETF EAP_TYPE_IDENTITY b = Ok (Some (pos, len)) ->
  exists id, rd_n (wpabuf_head b) pos len = Ok id /\
    Identity.eap_identity_process e sm p (Some b) =
      Ok (let known := is_some (identity (mv sm)) in
          let p := p <| pick_up := 0 |> in
          if malloc_ok e (if len =? 0 then 1 else len)
          then (sm <| mv; update_user := known || update_user (mv sm) |>
                   <| mv; identity := Some id |> <| mv; identity_len := len |>,
                p <| state := SUCCESS |>)
          else (sm <| mv; update_user := known || update_user (mv sm) |>
                   <| mv; identity := None |>, p <| state := FAILURE |>)).
Proof.
  intros Hw Hv.
  destruct (eap_hdr_validate_total b Hw EAP_VENDOR_IETF EAP_TYPE_IDENTITY) as (r & Hr & Hin).
  rewrite Hv in Hr. simplify_eq. destruct (Hin pos len eq_refl) as [[Hl [Hpos Hub]] _].
  pose proof (wf_head_len b Hw) as Hh. eexists. split; [apply rd_n_ok; lia|].
  unfold Identity.eap_identity_process, Identity.eap_identity_check. rewrite !Hv. cbn zeta.
  destruct (Z.eqb_spec (pick_up p) 0) as [Hz|]; cbn [negb mbind res_bind mret res_ret];
    rewrite rd_n_ok by lia; cbn [mbind res_bind];
    destruct (identity (mv sm)), (malloc_ok e _); cbn; rewrite <- ?Hz; done.
Qed.
