(* ===== verification/EapServerProps.v ===== *)
(** * Properties of the EAP server state machine

    The theorems about [sm_EAP_Step], the driver loop [eap_server_sm_step], the
    calls of the layer above and the policy functions.  The methods are known
    only through [MethodLaws]; the witnesses use the registry of [EapMethods]. *)

From S2P Require Import Prelude WpaBuf EapCommon EapI EapServer EapServerInv EapMethods.

Section server.
Context {P : Type} (eap_methods : registry P).
Context (accepts : eap_method P -> P -> wpabuf -> Prop).
Context (laws : forall v t x, eap_server_get_eap_method eap_methods v t = Some x ->
                  MethodLaws x (accepts x)).
Implicit Type sm : eap_sm P.
#[local] Abbreviation inv := (inv eap_methods accepts).
#[local] Abbreviation success_ok := (success_ok eap_methods).
#[local] Abbreviation step_ok := (step_ok eap_methods accepts).

Lemma inv_core sm : inv sm -> core eap_methods sm.
Proof using Type. by intros [H _]. Qed.

(** Every step from an invariant state, global rules included. *)
Lemma step_total e sm : wf_env e -> inv sm -> changed sm = false ->
  step_result eap_methods accepts (sm_EAP_Step eap_methods e sm) sm.
Proof using laws.
  intros He H Hch. pose proof (inv_core _ H) as Hc.
  destruct (portEnabled (eap_if sm)) eqn:Hp.
  2: { unfold sm_EAP_Step. rewrite Hp, andb_false_r. cbn [negb]. left.
       destruct (bool_decide_reflect (EAP_state sm = EAP_DISABLED)) as [Es|Es].
       - exists (sm <| num_rounds := 0 |>). split.
         { unfold sm_EAP_DISABLED_Enter, SM_ENTRY. cbn zeta.
           rewrite bool_decide_eq_true_2 by done. cbn [negb orb]. by rewrite <- Es. }
         destruct H as (_ & Hi & Hpd & _). constructor; [|cbn; congruence| |done|].
         + split; [exact Hc|]. split; [|split].
           * unfold state_inv; cbn. by rewrite Es.
           * by right; left.
           * unfold rounds_inv; cbn. split_and!; [lia|lia|done|done].
         + intros Hs Ht. destruct (Hs Ht). congruence.
         + intros _. unfold resting; cbn. by rewrite Es.
       - destruct (enter_DISABLED eap_methods accepts true sm Hc) as (sm' & -> & Hinv & Hst & Hif & Hcf).
         exists sm'. split; [done|]. constructor; [done| | |done|].
         + intros _. unfold rank. rewrite Hif, Hp, Hst. cbn [negb].
           rewrite (bool_decide_eq_true_2 (EAP_DISABLED = _)) by done.
           rewrite bool_decide_eq_false_2 by done. lia.
         + unfold EapServerInv.success_ok. rewrite Hif. intros Hs Ht. destruct (Hs Ht). congruence.
         + intros _. unfold resting. by rewrite Hst, Hif. }
  destruct (eapRestart (eap_if sm)) eqn:Hr.
  { unfold sm_EAP_Step. rewrite Hp, Hr. cbn [negb andb]. left.
    destruct (enter_INITIALIZE eap_methods accepts laws true sm Hc)
      as (sm' & -> & Hinv & Hst & Hnum & Hpt & Hre & Hsu & Hcf & Hcg).
    exists sm'. split; [done|]. constructor; [done| |by intros _ ?; congruence|done|].
    - intros _. rewrite (live_rank sm').
      2: { unfold live, EAP_MAX_AUTH_ROUNDS. rewrite Hpt, Hnum. done. }
      unfold rank, rank_state. rewrite Hst, Hp, Hr. cbn [negb]. lia.
    - rewrite Hcg; [congruence|]. right. intros Es. destruct H as (_ & Hi & _).
      unfold state_inv in Hi. rewrite Es in Hi. destruct Hi. congruence. }
  destruct (Z.ltb_spec EAP_MAX_AUTH_ROUNDS (num_rounds sm)) as [Hn|Hn].
  { unfold sm_EAP_Step. rewrite Hp, Hr. cbn [negb andb].
    rewrite (proj2 (Z.ltb_lt _ _)) by done.
    pose proof H as (_ & _ & _ & Hb & H51 & H52). unfold EAP_MAX_AUTH_ROUNDS in *.
    destruct (Z.eqb_spec (num_rounds sm) (50 + 1)) as [E|E].
    - left. set (s1 := sm <| num_rounds := _ |>). assert (core eap_methods s1) as Hc1 by exact Hc.
      destruct (enter_FAILURE eap_methods accepts e true s1 Hc1) as (sm' & Hs & En & _).
      exists sm'. split; [done|]. destruct En.
      assert (num_rounds sm' = 52) as En52 by (rewrite en_rounds; cbn; lia). constructor.
      + split; [done|]. split; [done|]. split; [done|]. unfold rounds_inv.
        rewrite En52, en_state. split_and!; done || lia.
      + intros _. unfold rank. unfold EAP_MAX_AUTH_ROUNDS. rewrite en_port, en_restart, En52.
        change (eap_if s1) with (eap_if sm). rewrite Hp, Hr, E.
        change (50 <? 52) with true. change (52 =? 50 + 1) with false.
        change (50 <? 50 + 1) with true. change (50 + 1 =? 50 + 1) with true. cbn. lia.
      + intros Hs1 Ht. split; [|rewrite en_port; exact Hp].
        destruct en_success as [Heq|]; [|done]. rewrite Heq in Ht. destruct (Hs1 Ht) as [Hev _].
        apply evidence_terminal in Hev. by rewrite H51 in Hev.
      + done.
      + intros _. unfold resting. by rewrite en_state.
    - apply stay; [done..|]. specialize (H52 ltac:(lia)). unfold resting.
      by destruct (EAP_state sm). }
  assert (live sm) as Hl by done.
  destruct (EAP_state sm) eqn:Es;
    first [ by apply step_RECEIVED
          | apply step_switch_method; [done..|]; by rewrite Es
          | apply step_switch_wait; [done..|]; by rewrite Es ].
Qed.

(** One round of the driver loop. *)
Definition round sm sm' : Prop :=
  exists e, wf_env e /\ sm_EAP_Step eap_methods e (sm <| changed := false |>) = Ok sm'.

(** The driver loop from any invariant state. *)
Lemma loop_total es fuel sm r : (forall n, wf_env (es n)) -> inv sm -> (rank sm < fuel)%nat ->
  (exists sm' r', sm_step_loop eap_methods fuel es sm r = Ok (sm', r') /\
     inv sm' /\ resting sm' /\ (success_ok sm -> success_ok sm') /\ cf sm' = cf sm) \/
  (sm_step_loop eap_methods fuel es sm r = Fault NullDeref /\ exists s, rtc round sm s /\ stuck s).
Proof using laws.
  intros He. revert sm r. induction fuel as [|fuel IH]; intros sm r H Hf; [lia|].
  cbn [sm_step_loop]. set (s0 := sm <| changed := false |>).
  assert (inv s0) as H0 by (by apply inv_changed).
  destruct (step_total (es fuel) s0 (He fuel) H0 eq_refl) as [(sm' & Hstep & Hok) | [-> Hst]].
  2: { right. split; [done|]. exists sm. split; [apply rtc_refl|]. exact Hst. }
  rewrite Hstep.
  cbn [mbind res_bind]. destruct Hok.
  change (cf s0) with (cf sm) in so_conf. destruct (changed sm') eqn:Ec.
  - destruct (IH sm' 1 so_inv) as [(s2 & r2 & -> & Hi2 & Hr2 & Hs2 & Hc2) | (-> & s2 & Hrtc & Hst)].
    + specialize (so_rank eq_refl). change (rank s0) with (rank sm) in so_rank. lia.
    + left. exists s2, r2. split_and!; [done..| |congruence]. intros Hs. apply Hs2, so_success.
      by apply (success_ok_changed eap_methods accepts laws).
    + right. split; [done|]. exists s2. split; [|done].
      eapply rtc_l; [|exact Hrtc]. by exists (es fuel).
  - left. exists sm', r. split_and!; [done|done|by apply so_rest| |done].
    intros Hs. apply so_success. by apply (success_ok_changed eap_methods accepts laws).
Qed.

(** The whole call: it terminates, and if it returns, it returns at rest. *)
Lemma sm_step_total es sm : (forall n, wf_env (es n)) -> inv sm ->
  (exists sm' r, eap_server_sm_step eap_methods es sm = Ok (sm', r) /\
     inv sm' /\ resting sm' /\ (success_ok sm -> success_ok sm') /\ cf sm' = cf sm) \/
  (eap_server_sm_step eap_methods es sm = Fault NullDeref /\ exists s, rtc round sm s /\ stuck s).
Proof using laws.
  intros He H. apply loop_total; [done..|]. pose proof (rank_bound sm). lia.
Qed.

(** ** Initialisation and the calls of the layer above *)

Lemma init_inv e cb conf : wf_callbacks cb ->
  opt wf (conf_assoc_wps_ie conf) -> opt wf (conf_assoc_p2p_ie conf) ->
  opt (fun k => 16 <= zlen k) (conf_pac_opaque_encr_key conf) ->
  opt (fun k => 0 <= conf_eap_fast_a_id_len conf <= zlen k) (conf_eap_fast_a_id conf) ->
  opt (fun a => 6 <= zlen a) (conf_peer_addr conf) ->
  eap_server_sm_init (P := P) e (Some cb) conf = Ok None \/
  exists sm, eap_server_sm_init e (Some cb) conf = Ok (Some sm) /\ inv sm /\
    EAP_state sm = EAP_DISABLED /\ eap_if sm = eap_if_zero.
Proof using Type.
  intros Hcb H1 H2 Hk Ha Hp. unfold eap_server_sm_init.
  destruct (malloc_ok e sizeof_eap_sm); cbn [negb]; [right | by left].
  assert (forall o n, opt (fun k => 0 <= n <= zlen k) o -> exists r, copy_conf e o n = Ok r) as Hcopy.
  { intros [d|] n Ho; cbn in *; [|by eexists]. destruct (malloc_ok e n); [|by eexists].
    rewrite rd_n_ok by lia. by eexists. }
  assert (forall o, opt wf o -> exists r, dup_conf e o = Ok r) as Hdup.
  { intros [b|] Hb; [|by eexists]. cbn in *.
    destruct (wpabuf_dup_repr (malloc_ok e) b (contents b) (size b)) as [-> | (b' & -> & _)];
      [by split_and!|by eexists..]. }
  destruct (Hcopy (conf_pac_opaque_encr_key conf) 16) as [r1 ->].
  { destruct (conf_pac_opaque_encr_key conf); cbn in *; lia. }
  destruct (Hcopy _ _ Ha) as [r2 ->]. cbn [mbind res_bind].
  destruct (Hdup _ H1) as [r3 ->], (Hdup _ H2) as [r4 ->]. cbn [mbind res_bind].
  assert (exists a, match conf_peer_addr conf with
    | Some a => rd_n a 0 6 | None => mret (replicate 6 0) end = Ok a) as [a ->].
  { destruct (conf_peer_addr conf); cbn in *; [rewrite rd_n_ok by lia|]; by eexists. }
  cbn [mbind res_bind]. eexists. split; [reflexivity|]. split; [|done].
  unfold EapServerInv.inv. split_and!; [|done|by right; left|].
  - unfold core, wf_method_view, wf_vars, EAP_MAX_METHODS. cbn.
    split_and!; try done. by exists cb.
  - unfold rounds_inv; cbn. split_and!; done || lia.
Qed.

Lemma notify_cached_inv sm : inv sm -> resting sm -> inv (eap_sm_notify_cached sm).
Proof using Type.
  intros (Hc & Hi & Hp & Hn & H51 & H52) Hr. split; [exact Hc|]. split; [done|].
  split; [by left|]. split; [done|]. split; [|done]. cbn. intros E. specialize (H51 E).
  unfold resting in Hr. by rewrite H51 in Hr.
Qed.

(** The layer below may write its variables whenever the machine rests; a
    pending method still needs a response to look at. *)
Lemma lower_layer_inv sm i : inv sm -> resting sm ->
  opt wf (eapRespData i) -> opt wf (eapReqData i) -> opt wf (aaaEapReqData i) ->
  opt wf (aaaEapRespData i) ->
  opt (fun k => 0 <= aaaEapKeyDataLen i <= zlen k) (aaaEapKeyData i) ->
  (EAP_state sm = EAP_METHOD_RESPONSE -> eapRespData i <> None) ->
  inv (sm <| eap_if := i |>).
Proof using Type.
  intros (Hc & Hi & Hp & Hn) Hr H1 H2 H3 H4 H5 H6.
  destruct Hc as (_ & _ & Hl & _ & _ & _ & Hv & Hm & Hpr).
  split; [by unfold core; split_and!|]. split; [|by split].
  unfold state_inv in *; cbn. unfold resting in Hr. destruct (EAP_state sm) eqn:Es; try done.
  destruct Hi as (Hm' & Hend & Hall). split_and!; [done|done|]. intros Hpe.
  destruct (Hall Hpe) as [_ Ha]. split; [|done]. specialize (H6 eq_refl). cbn.
  destruct (eapRespData i); [by eexists|done].
Qed.

(** ** Single transitions of the waiting states *)

#[local] Ltac live_step Hl Es :=
  let Hp := fresh in let Hr := fresh in let Hn := fresh in
  destruct Hl as (Hp & Hr & Hn); unfold sm_EAP_Step; rewrite Hp, Hr; cbn [negb andb];
  rewrite (proj2 (Z.ltb_ge _ _)) by done; rewrite Es.

Lemma step_IDLE e sm : live sm -> EAP_state sm = EAP_IDLE ->
  sm_EAP_Step eap_methods e sm =
  if retransWhile (eap_if sm) =? 0 then sm_EAP_RETRANSMIT_Enter e sm
  else if eapResp (eap_if sm) then sm_EAP_RECEIVED_Enter sm else Ok sm.
Proof using Type. intros Hl Es. by live_step Hl Es. Qed.

Lemma step_RETRANSMIT e sm : live sm -> EAP_state sm = EAP_RETRANSMIT ->
  sm_EAP_Step eap_methods e sm =
  if MaxRetrans (cf sm) <? retransCount sm then sm_EAP_TIMEOUT_FAILURE_Enter sm
  else sm_EAP_IDLE_Enter sm.
Proof using Type. intros Hl Es. by live_step Hl Es. Qed.

Lemma step_DISCARD e sm : live sm -> EAP_state sm = EAP_DISCARD ->
  sm_EAP_Step eap_methods e sm = sm_EAP_IDLE_Enter sm.
Proof using Type. intros Hl Es. by live_step Hl Es. Qed.

Lemma step_NAK e sm : live sm -> EAP_state sm = EAP_NAK ->
  sm_EAP_Step eap_methods e sm = sm_EAP_SELECT_ACTION_Enter eap_methods e sm.
Proof using Type. intros Hl Es. by live_step Hl Es. Qed.

(** Without a method, SELECT_ACTION does not depend on the last decision. *)
Lemma user_get_decision e sm d i n ph :
  eap_user_get e (sm <| decision := d |>) i n ph =
  ('(r, s) ← eap_user_get e sm i n ph; Ok (r, s <| decision := d |>)).
Proof using Type.
  unfold eap_user_get. cbn [put cf mv].
  destruct (eapol_cb (cf sm)) as [cb|]; [|done]. destruct (get_eap_user cb) as [get|]; [|done].
  destruct (negb _); [done|].
  destruct (match i with Some d0 => rd_n d0 0 n | None => _ end) as [l|]; [|done].
  cbn [mbind res_bind]. by destruct (get l ph).
Qed.

Lemma decision_user_decision e sm d :
  getDecision_user e (sm <| decision := d |>) =
  ('(r, s) ← getDecision_user e sm; Ok (r, s <| decision := d |>)).
Proof using Type.
  unfold getDecision_user. change (first_is_identity (sm <| decision := d |>)) with (first_is_identity sm).
  destruct (first_is_identity sm) as [b|]; [|done]. cbn [mbind res_bind].
  rewrite user_get_decision. cbn [put mv currentMethod].
  destruct (eap_user_get e sm (identity (mv sm)) (identity_len (mv sm)) 0) as [[r s]|]; [|done].
  cbn [mbind res_bind]. destruct (negb (r =? 0)); [done|].
  change (first_is_identity (s <| decision := d |>)) with (first_is_identity s).
  destruct (first_is_identity s) as [b'|]; [|done]. cbn [mbind res_bind].
  by destruct (_ && b').
Qed.

Lemma select_ignores_decision e sm d : m sm = None ->
  sm_EAP_SELECT_ACTION_Enter eap_methods e (sm <| decision := d |>) =
  sm_EAP_SELECT_ACTION_Enter eap_methods e sm.
Proof using Type.
  intros Hm. unfold sm_EAP_SELECT_ACTION_Enter. cbn zeta.
  change (SM_ENTRY EAP_SELECT_ACTION false (sm <| decision := d |>))
    with ((SM_ENTRY EAP_SELECT_ACTION false sm) <| decision := d |>).
  set (s := SM_ENTRY _ _ _). assert (m s = None) as Hs by exact Hm. clearbody s.
  unfold eap_sm_Policy_getDecision, if_m. cbn [put m cf mv start_reauth]. rewrite !Hs.
  destruct (_ && _ && _); [done|]. cbn [mbind res_bind mret res_ret].
  assert (forall o s1, (match o with
    | Some d0 => mret (d0, s1 <| decision := d |>)
    | None => let sm0 := s1 <| decision := d |> <| start_reauth := false |> in
        avail ← method_available sm0 (user_eap_method_index (mv sm0));
        (if avail : bool then mret (DECISION_CONTINUE, sm0) else
         if no_identity sm0 then mret (DECISION_CONTINUE, sm0) else mret (DECISION_FAILURE, sm0))
    end ≫= fun '(d0, s2) => mret (s2 <| decision := d0 |>)) =
    (match o with
    | Some d0 => mret (d0, s1)
    | None => let sm0 := s1 <| start_reauth := false |> in
        avail ← method_available sm0 (user_eap_method_index (mv sm0));
        (if avail : bool then mret (DECISION_CONTINUE, sm0) else
         if no_identity sm0 then mret (DECISION_CONTINUE, sm0) else mret (DECISION_FAILURE, sm0))
    end ≫= fun '(d0, s2) => mret (s2 <| decision := d0 |>) : res (eap_sm P))) as Hend.
  { intros [d0|] s1; [done|]. cbn zeta.
    change (method_available (s1 <| decision := d |> <| start_reauth := false |>))
      with (method_available (s1 <| start_reauth := false |>)).
    cbn [put mv]. destruct (method_available _ _) as [[]|]; cbn [mbind res_bind]; [done| |done].
    change (no_identity (s1 <| decision := d |> <| start_reauth := false |>))
      with (no_identity (s1 <| start_reauth := false |>)).
    by destruct (no_identity _). }
  destruct (_ && _ && _).
  - rewrite decision_user_decision. destruct (getDecision_user e s) as [[o s1]|]; [|done].
    cbn [mbind res_bind]. apply Hend.
  - apply (Hend None s).
Qed.

Lemma step_terminal e sm : live sm -> terminal (EAP_state sm) = true ->
  sm_EAP_Step eap_methods e sm = Ok sm.
Proof using Type.
  intros Hl Ht. destruct (EAP_state sm) eqn:Es; try done; by live_step Hl Es.
Qed.

Lemma step_exhausted e sm : portEnabled (eap_if sm) = true -> eapRestart (eap_if sm) = false ->
  num_rounds sm = EAP_MAX_AUTH_ROUNDS + 2 -> sm_EAP_Step eap_methods e sm = Ok sm.
Proof using Type. intros Hp Hr Hn. unfold sm_EAP_Step. by rewrite Hp, Hr, Hn. Qed.

Lemma step_RECEIVED_eq e sm : live sm -> EAP_state sm = EAP_RECEIVED ->
  sm_EAP_Step eap_methods e sm =
  if rxResp (rx sm) && (respId (rx sm) =? currentId sm) && resp_is sm EAP_TYPE_NAK &&
     bool_decide (methodState sm = METHOD_PROPOSED)
  then sm_EAP_NAK_Enter eap_methods sm
  else if rxResp (rx sm) && (respId (rx sm) =? currentId sm) && resp_is sm (currentMethod sm)
  then sm_EAP_INTEGRITY_CHECK_Enter eap_methods sm
  else sm_EAP_DISCARD_Enter sm.
Proof using Type. intros Hl Es. by live_step Hl Es. Qed.

#[local] Ltac by_rx id t v w :=
  right; first [ by exists {| rxResp := false; respId := id; respMethod := t; respVendor := v;
                              respVendorMethod := w |}
               | by exists {| rxResp := true; respId := id; respMethod := t; respVendor := v;
                              respVendorMethod := w |} ].

(** Parsing writes only [rx], and reads only the response. *)
Lemma parse_uniform resp :
  (exists f, forall sm, eap_sm_parseEapResp sm resp = Fault f) \/
  (exists r, forall sm, eap_sm_parseEapResp sm resp = Ok (sm <| rx := r |>)).
Proof using Type.
  unfold eap_sm_parseEapResp. cbn zeta. destruct resp as [b|]; [|by_rx (-1) 0 0 0].
  destruct (_ <? _); [by_rx (-1) 0 0 0|].
  destruct (eap_hdr_length b) as [len|]; cbn [mbind res_bind]; [|left; by eexists].
  destruct (_ <? _); [by_rx (-1) 0 0 0|].
  destruct (eap_hdr_identifier b) as [id|]; cbn [mbind res_bind]; [|left; by eexists].
  destruct (eap_hdr_code b) as [code|]; cbn [mbind res_bind]; [|left; by eexists].
  destruct (_ <? len), (code =? EAP_CODE_RESPONSE); try (by_rx id 0 0 0).
  all: destruct (rd _ _) as [t|]; cbn [mbind res_bind]; [|left; by eexists].
  all: cbn [put rx respMethod]; destruct (t =? _); [|by_rx id t 0 0].
  all: destruct (_ <? _); [by_rx id t 0 0|].
  all: destruct (WPA_GET_BE24 _ _) as [v|]; cbn [mbind res_bind]; [|left; by eexists].
  all: destruct (WPA_GET_BE32 _ _) as [w|]; cbn [mbind res_bind];
    [by_rx id t v w | left; by eexists].
Qed.

Lemma parse_frame sm (s : eap_sm P) r resp : eap_sm_parseEapResp sm resp = Ok (sm <| rx := r |>) ->
  eap_sm_parseEapResp s resp = Ok (s <| rx := r |>).
Proof using Type.
  destruct (parse_uniform resp) as [[f Hf] | [r' Hr']].
  - by rewrite Hf.
  - rewrite !Hr'. intros [= E]. by subst.
Qed.

Lemma received_rx sm r :
  eap_sm_parseEapResp sm (eapRespData (eap_if sm)) = Ok (sm <| rx := r |>) ->
  sm_EAP_RECEIVED_Enter (sm <| changed := false |>) =
  Ok (sm <| changed := true |> <| EAP_state := EAP_RECEIVED |> <| rx := r |>
         <| num_rounds := num_rounds sm + 1 |>).
Proof using Type.
  intros H. unfold sm_EAP_RECEIVED_Enter. cbn zeta.
  change (eapRespData (eap_if (SM_ENTRY _ _ _))) with (eapRespData (eap_if sm)).
  by rewrite (parse_frame _ _ _ _ H).
Qed.

Lemma idle_timeout sm t :
  eap_sm_calculateTimeout (retransCount sm) (eapSRTT (eap_if sm)) (eapRTTVAR (eap_if sm))
    (methodTimeout sm) = Ok t ->
  sm_EAP_IDLE_Enter sm =
  Ok (sm <| changed := true |> <| EAP_state := EAP_IDLE |> <| eap_if; retransWhile := t |>).
Proof using Type.
  intros H. unfold sm_EAP_IDLE_Enter. cbn zeta.
  match goal with |- context [eap_sm_calculateTimeout ?a ?b ?c ?d] =>
    change (eap_sm_calculateTimeout a b c d) with (eap_sm_calculateTimeout (retransCount sm)
      (eapSRTT (eap_if sm)) (eapRTTVAR (eap_if sm)) (methodTimeout sm)) end.
  by rewrite H.
Qed.

(** Rounds of the loop, one by one. *)
Lemma loop_more fuel es sm r sm' :
  sm_EAP_Step eap_methods (es fuel) (sm <| changed := false |>) = Ok sm' -> changed sm' = true ->
  sm_step_loop eap_methods (S fuel) es sm r = sm_step_loop eap_methods fuel es sm' 1.
Proof using Type. intros H Hc. cbn [sm_step_loop]. rewrite H. cbn. by rewrite Hc. Qed.

Lemma loop_end fuel es sm r :
  sm_EAP_Step eap_methods (es fuel) (sm <| changed := false |>) =
    Ok (sm <| changed := false |>) ->
  sm_step_loop eap_methods (S fuel) es sm r = Ok (sm <| changed := false |>, r).
Proof using Type. intros H. cbn [sm_step_loop]. rewrite H. by cbn. Qed.
End server.

(** ** A concrete server

    Identity and MD5 are registered; the user database knows one user, with MD5
    and the password [123]; allocations succeed unless their size is 20, the
    size of the MD5 method's data, in the environments [es_nomd5]. *)
Module Sample.
Definition md5 (l : list (list Z)) : list Z := take 16 (concat l ++ replicate 16 0).
Definition reg := server_methods md5.

Definition user_md5 : eap_user :=
  {| methods := (EAP_VENDOR_IETF, EAP_TYPE_MD5) :: replicate 7 (EAP_VENDOR_IETF, EAP_TYPE_NONE);
     password := Some [49; 50; 51]; password_len := 3; password_hash := 0; phase2 := 0;
     force_version := 0; ttls_auth := 0 |}.

Definition cb : eapol_callbacks :=
  {| get_eap_user := Some (fun _ _ => Some user_md5); get_eap_req_id_text := None |}.

Definition es (n : nat) : env :=
  {| malloc_ok := fun _ => true; rand := 6;
     random_get_bytes := fun n => if 0 <=? n then Some (replicate (Z.to_nat n) 7) else None |}.
Definition es_nomd5 (n : nat) : env :=
  {| malloc_ok := fun n => negb (n =? sizeof_eap_md5_data); rand := 6;
     random_get_bytes := fun n => if 0 <=? n then Some (replicate (Z.to_nat n) 7) else None |}.

Definition conf : eap_config :=
  {| conf_ssl_ctx := 0; conf_msg_ctx := 0; conf_eap_sim_db_priv := 0;
     conf_backend_auth := false; conf_eap_server := 1; conf_pwd_group := 0;
     conf_pac_opaque_encr_key := None; conf_eap_fast_a_id := None;
     conf_eap_fast_a_id_len := 0; conf_eap_fast_a_id_info := None;
     conf_eap_fast_prov := 0; conf_pac_key_lifetime := 0; conf_pac_key_refresh_time := 0;
     conf_eap_sim_aka_result_ind := 0; conf_tnc := 0; conf_wps := 0;
     conf_assoc_wps_ie := None; conf_assoc_p2p_ie := None; conf_peer_addr := None;
     conf_fragment_size := 0 |}.

Definition get {A} (d : A) (r : res (A * Z)) : A :=
  match r with Ok (a, _) => a | Fault _ => d end.

(** A fresh state machine. *)
Definition sm0 : eap_sm method_data :=
         {| EAP_state := EAP_DISABLED; eap_if := eap_if_zero; currentMethod := 0;
            currentId := 0; methodState := METHOD_PROPOSED; retransCount := 0;
            lastReqData := None; methodTimeout := 0;
            rx := {| rxResp := false; respId := 0; respMethod := 0; respVendor := 0;
                     respVendorMethod := 0 |};
            ignore := false; decision := DECISION_SUCCESS; m := None; changed := false;
            eap_method_priv := None;
            mv := {| identity := None; identity_len := 0; require_identity_match := 0;
                     user := None; user_eap_method_index := 0; init_phase2 := 0;
                     update_user := false; method_pending := METHOD_PENDING_NONE;
                     auth_challenge := None; peer_challenge := None |};
            lastId := 0; num_rounds := 0; start_reauth := false;
            cf := {| MaxRetrans := 5; msg_ctx := 0; eapol_cb := Some cb; ssl_ctx := 0;
                     eap_sim_db_priv := 0; backend_auth := false; eap_server := 1;
                     pac_opaque_encr_key := None; eap_fast_a_id := None;
                     eap_fast_a_id_len := 0; eap_fast_a_id_info := None;
                     eap_fast_prov := 0; pac_key_lifetime := 0; pac_key_refresh_time := 0;
                     eap_sim_aka_result_ind := 0; tnc := 0; pwd_group := 0; wps := 0;
                     assoc_wps_ie := None; assoc_p2p_ie := None;
                     peer_addr := replicate 6 0; fragment_size := 0 |} |}.

Example sm0_init : eap_server_sm_init (es 0) (Some cb) conf = Ok (Some sm0).
Proof. reflexivity. Qed.

(** The port comes up and the machine is told to start. *)
Definition started : eap_sm method_data :=
  sm0 <| eap_if; portEnabled := true |> <| eap_if; eapRestart := true |>.

Definition msg (l : list Z) : wpabuf :=
  {| size := zlen l; used := zlen l; ext_data := None; inline := l |}.

(** A response arrives. *)
Definition respond (l : list Z) (sm : eap_sm method_data) : eap_sm method_data :=
  sm <| eap_if := (eap_if sm) <| eapRespData := Some (msg l) |> <| eapResp := true |> |>.

Definition run es sm := get sm (eap_server_sm_step reg es sm).

(** The Identity request is out ([currentId] is 6). *)
Definition asked : eap_sm method_data := run es started.
(** The peer answers [ab]; the MD5 challenge is out ([currentId] is 7). *)
Definition identified : eap_sm method_data := respond [2; 6; 0; 7; 1; 97; 98] asked.
Definition challenged : eap_sm method_data := run es identified.
(** The peer answers the challenge. *)
Definition answered : eap_sm method_data :=
  respond ([2; 7; 0; 22; 4; 16] ++ md5 [[7]; [49; 50; 51]; replicate 16 7]) challenged.

Example accepted : EAP_state (run es answered) = EAP_SUCCESS /\
  eapSuccess (eap_if (run es answered)) = true /\
  eapReqData (eap_if (run es answered)) =
    Some {| size := 4; used := 4; ext_data := None; inline := [3; 7; 0; 4] |}.
Proof. by vm_compute. Qed.

(** The sample states satisfy the invariant. *)
Lemma es_wf n : wf_env (es n).
Proof.
  intros k d. cbn. destruct (Z.leb_spec 0 k); [|done]. intros [= <-]. split.
  - apply Forall_replicate. unfold is_byte. lia.
  - unfold zlen. rewrite length_replicate. lia.
Qed.

Lemma es_nomd5_wf n : wf_env (es_nomd5 n).
Proof. exact (es_wf n). Qed.

Definition inv := inv reg server_accepts.
Definition laws := server_methods_laws md5.

Lemma sm0_inv : inv sm0.
Proof.
  destruct (init_inv (P := method_data) reg server_accepts (es 0) cb conf) as [H | (sm & H & Hi & _)]; try done.
  - split; [|done]. intros get id ph u [= <-] [= <-]. split; [done|]. cbn. split; [|done].
    repeat constructor; unfold is_byte; lia.
  - rewrite sm0_init in H. by simplify_eq.
Qed.

Lemma msg_wf l : bytes l -> zlen l < 65536 -> wf (msg l).
Proof.
  intros Hl Hn. unfold wf, msg, wpabuf_head, max_wpabuf, sizeof_wpabuf. cbn.
  pose proof (zlen_nonneg l). split_and!; done || lia.
Qed.

Lemma started_inv : inv started.
Proof. apply (lower_layer_inv _ _ sm0); [exact sm0_inv | done..]. Qed.

Lemma run_inv envs sm : (forall n, wf_env (envs n)) -> inv sm ->
  (exists r, eap_server_sm_step reg envs sm = Ok (run envs sm, r)) ->
  inv (run envs sm) /\ resting (run envs sm).
Proof.
  intros He Hi [r Hr]. destruct (sm_step_total reg server_accepts laws envs sm He Hi)
    as [(sm' & r' & H & ? & ? & _) | [H _]]; rewrite H in Hr; by simplify_eq.
Qed.

Lemma asked_inv : inv asked /\ resting asked.
Proof. apply run_inv; [exact es_wf | exact started_inv | by eexists; vm_compute]. Qed.

Lemma respond_inv l sm : inv sm -> resting sm -> bytes l -> zlen l < 65536 ->
  inv (respond l sm).
Proof.
  intros H Hr Hl Hn. pose proof (inv_core _ _ _ H) as (_ & H2 & _ & H3 & H4 & H5 & _).
  apply (lower_layer_inv _ _ sm); try done. by apply msg_wf.
Qed.

Lemma identified_inv : inv identified.
Proof.
  destruct asked_inv. apply respond_inv; [assumption..| |by vm_compute].
  apply (bool_decide_unpack _). by vm_compute.
Qed.

Lemma challenged_inv : inv challenged /\ resting challenged.
Proof. apply run_inv; [exact es_wf | exact identified_inv | by eexists; vm_compute]. Qed.

Lemma answered_inv : inv answered.
Proof.
  destruct challenged_inv. apply respond_inv; [assumption..| |by vm_compute].
  apply (bool_decide_unpack _). by vm_compute.
Qed.

(** The same arrival after fifty rounds. *)
Definition late : eap_sm method_data := identified <| num_rounds := 50 |>.

Lemma late_inv : inv late.
Proof.
  destruct identified_inv as (Hc & Hi & Hp & _). split; [exact Hc|].
  assert (EAP_state identified = EAP_IDLE) as Es by (by vm_compute).
  split; [|split; [exact Hp|]].
  - unfold state_inv. change (EAP_state late) with (EAP_state identified). by rewrite Es.
  - unfold rounds_inv. change (num_rounds late) with 50. split; [lia|]. split; lia.
Qed.

(** The retransmission timer of the Identity request has run out. *)
Definition expired : eap_sm method_data :=
  asked <| eap_if := (eap_if asked) <| retransWhile := 0 |> <| eapReq := false |> |>.

Lemma expired_of sm : inv sm -> resting sm -> EAP_state sm = EAP_IDLE ->
  inv (sm <| eap_if := (eap_if sm) <| retransWhile := 0 |> <| eapReq := false |> |>).
Proof.
  intros H Hr Es. pose proof (inv_core _ _ _ H) as (H1 & H2 & _ & H3 & H4 & H5 & _).
  apply (lower_layer_inv _ _ sm); try done. by rewrite Es.
Qed.

Lemma expired_inv : inv expired.
Proof. destruct asked_inv. apply expired_of; [assumption..|by vm_compute]. Qed.

(** A response with a stale identifier arrives. *)
Definition stale : eap_sm method_data := respond [2; 5; 0; 5; 1] asked.

Lemma stale_inv : inv stale.
Proof.
  destruct asked_inv. apply respond_inv; [assumption..| |by vm_compute].
  apply (bool_decide_unpack _). by vm_compute.
Qed.

Definition stale_rx : eap_sm_rx :=
  {| rxResp := true; respId := 5; respMethod := 1; respVendor := 0; respVendorMethod := 0 |}.

Definition identity_request : wpabuf :=
  {| size := 5; used := 5; ext_data := None; inline := [1; 6; 0; 5; 1] |}.
End Sample.

(** ** Properties *)

(** C33 ([eap_server_sm_step]): from every invariant state, with methods that keep
    their contract, and whatever allocations fail, the do-while loop terminates
    and leaves the machine at rest (waiting for a timer, the peer, the AAA server
    or a pending method, or at an end) with the invariant restored.  The single
    way to fault is the NULL dereference of [sm->m] in a state, reached in this
    call, where no method is selected and a response claims to be for it. *)
Theorem eap_server_sm_step_total {P : Type} (eap_methods : registry P)
    (accepts : eap_method P -> P -> wpabuf -> Prop) (es : nat -> env) (sm : eap_sm P) :
  (forall v t x, eap_server_get_eap_method eap_methods v t = Some x ->
     MethodLaws x (accepts x)) ->
  (forall n, wf_env (es n)) -> inv eap_methods accepts sm ->
  (exists sm' r, eap_server_sm_step eap_methods es sm = Ok (sm', r) /\
     inv eap_methods accepts sm' /\ resting sm') \/
  (eap_server_sm_step eap_methods es sm = Fault NullDeref /\
     exists s, rtc (round eap_methods) sm s /\ stuck s).
Proof.
  intros laws He H.
  destruct (sm_step_total eap_methods accepts laws es sm He H) as [(s & r & ? & ? & ? & _)|];
    [left | by right].
  by exists s, r.
Qed.

Lemma eap_server_sm_step_total_witness :
  (exists sm' r, eap_server_sm_step Sample.reg Sample.es Sample.answered = Ok (sm', r) /\
     inv Sample.reg server_accepts sm' /\ resting sm') \/
  (eap_server_sm_step Sample.reg Sample.es Sample.answered = Fault NullDeref /\
     exists s, rtc (round Sample.reg) Sample.answered s /\ stuck s).
Proof.
  apply (eap_server_sm_step_total Sample.reg server_accepts Sample.es Sample.answered).
  - exact Sample.laws.
  - exact Sample.es_wf.
  - exact Sample.answered_inv.
Defined.

(** C34 ([SM_STEP(EAP)]): one step of the state machine faults exactly in the
    states [stuck] describes, and every other step keeps the invariant and
    either changes nothing that the loop would act on or strictly lowers the
    rank. *)
Theorem eap_step_faults_iff_stuck {P : Type} (eap_methods : registry P)
    (accepts : eap_method P -> P -> wpabuf -> Prop) (e : env) (sm : eap_sm P) :
  (forall v t x, eap_server_get_eap_method eap_methods v t = Some x ->
     MethodLaws x (accepts x)) ->
  wf_env e -> inv eap_methods accepts sm -> changed sm = false ->
  (stuck sm -> sm_EAP_Step eap_methods e sm = Fault NullDeref) /\
  (~ stuck sm -> exists sm', sm_EAP_Step eap_methods e sm = Ok sm' /\
     inv eap_methods accepts sm' /\ (changed sm' = true -> (rank sm' < rank sm)%nat)).
Proof.
  intros laws He H Hc. split.
  - intros (Hp & Hr & Hn & Es & Hm & Hrx & Hid & Hre & Hnak). unfold sm_EAP_Step.
    rewrite Hp, Hr, Es. cbn [negb andb]. rewrite (proj2 (Z.ltb_ge _ _)) by done.
    rewrite Hrx, (proj2 (Z.eqb_eq _ _) Hid), Hre. cbn [andb]. rewrite Hnak.
    unfold sm_EAP_INTEGRITY_CHECK_Enter, deref_m. cbn zeta.
    change (m (SM_ENTRY _ _ sm)) with (m sm). by rewrite Hm.
  - intros Hs. destruct (step_total eap_methods accepts laws e sm He H Hc)
      as [(sm' & Hstep & [? ? _ _ _]) | [_ ?]]; [by exists sm' | done].
Qed.

Lemma eap_step_faults_iff_stuck_witness :
  let sm := Sample.identified <| changed := false |> in
  (stuck sm -> sm_EAP_Step Sample.reg (Sample.es 0) sm = Fault NullDeref) /\
  (~ stuck sm -> exists sm', sm_EAP_Step Sample.reg (Sample.es 0) sm = Ok sm' /\
     inv Sample.reg server_accepts sm' /\ (changed sm' = true -> (rank sm' < rank sm)%nat)).
Proof.
  apply (eap_step_faults_iff_stuck Sample.reg server_accepts (Sample.es 0)).
  - exact Sample.laws.
  - exact (Sample.es_wf 0).
  - apply inv_changed; [exact Sample.laws | exact Sample.identified_inv].
  - reflexivity.
Defined.

(** C32 ([eapSuccess]): a call of [eap_server_sm_step] that raises [eapSuccess]
    ends in SUCCESS with a selected method that is not Identity and whose
    [isSuccess] holds, or in SUCCESS2 with the AAA server's [aaaSuccess] and
    without [aaaFail]; no response, retransmission, Nak or time-out gets there
    otherwise. *)
Theorem eap_success_justified {P : Type} (eap_methods : registry P)
    (accepts : eap_method P -> P -> wpabuf -> Prop) (es : nat -> env) (sm sm' : eap_sm P) (r : Z) :
  (forall v t x, eap_server_get_eap_method eap_methods v t = Some x ->
     MethodLaws x (accepts x)) ->
  (forall n, wf_env (es n)) -> inv eap_methods accepts sm ->
  eapSuccess (eap_if sm) = false ->
  eap_server_sm_step eap_methods es sm = Ok (sm', r) -> eapSuccess (eap_if sm') = true ->
  (EAP_state sm' = EAP_SUCCESS /\ exists x p, deref_m eap_methods sm' = Ok x /\
     eap_method_priv sm' = Some p /\ currentMethod sm' <> EAP_TYPE_IDENTITY /\
     isSuccess x sm' p = true) \/
  (EAP_state sm' = EAP_SUCCESS2 /\ aaaSuccess (eap_if sm') = true /\
     aaaFail (eap_if sm') = false).
Proof.
  intros laws He H Hs Hstep Ht.
  destruct (sm_step_total eap_methods accepts laws es sm He H)
    as [(s & r' & Hr & _ & _ & Hok & _) | [Hr _]]; rewrite Hr in Hstep; simplify_eq.
  destruct (Hok ltac:(intros ?; congruence) Ht) as [He' _]. exact He'.
Qed.

Lemma eap_success_justified_witness :
  let sm' := Sample.run Sample.es Sample.answered in
  (EAP_state sm' = EAP_SUCCESS /\ exists x p, deref_m Sample.reg sm' = Ok x /\
     eap_method_priv sm' = Some p /\ currentMethod sm' <> EAP_TYPE_IDENTITY /\
     isSuccess x sm' p = true) \/
  (EAP_state sm' = EAP_SUCCESS2 /\ aaaSuccess (eap_if sm') = true /\
     aaaFail (eap_if sm') = false).
Proof.
  apply (eap_success_justified Sample.reg server_accepts Sample.es Sample.answered _ 1).
  - exact Sample.laws.
  - exact Sample.es_wf.
  - exact Sample.answered_inv.
  - vm_compute. reflexivity.
  - vm_compute. reflexivity.
  - vm_compute. reflexivity.
Defined.

(** ([SM_STATE(EAP, PROPOSE_METHOD)] / [SM_STATE(EAP, INTEGRITY_CHECK)]): when
    the initialisation of the proposed method fails (here: its allocation), the
    machine waits in IDLE with no method and [currentMethod] NONE.  A response of
    the peer with the current identifier and type octet 0 then reaches
    INTEGRITY_CHECK, which reads [sm->m->check] through the NULL pointer. *)
Theorem eap_missing_method_null_deref :
  let waiting := Sample.run Sample.es_nomd5 Sample.identified in
  eap_server_sm_step Sample.reg Sample.es_nomd5 Sample.identified = Ok (waiting, 1) /\
  EAP_state waiting = EAP_IDLE /\ m waiting = None /\ currentMethod waiting = EAP_TYPE_NONE /\
  eap_server_sm_step Sample.reg Sample.es (Sample.respond [2; 6; 0; 5; 0] waiting) =
    Fault NullDeref.
Proof. vm_compute. auto. Qed.

(** (EAP_MAX_AUTH_ROUNDS): when fifty responses have been processed, the next
    one in IDLE is not shown to the method: the call ends in FAILURE with
    [eapFail], an EAP-Failure for the current identifier (or no packet if the
    allocation fails), and the method, its data and the user unchanged. *)
Theorem eap_round_limit {P : Type} (eap_methods : registry P)
    (accepts : eap_method P -> P -> wpabuf -> Prop) (es : nat -> env) (sm : eap_sm P) :
  inv eap_methods accepts sm ->
  portEnabled (eap_if sm) = true -> eapRestart (eap_if sm) = false ->
  EAP_state sm = EAP_IDLE -> retransWhile (eap_if sm) <> 0 -> eapResp (eap_if sm) = true ->
  num_rounds sm = EAP_MAX_AUTH_ROUNDS ->
  exists sm', eap_server_sm_step eap_methods es sm = Ok (sm', 1) /\
    EAP_state sm' = EAP_FAILURE /\ eapFail (eap_if sm') = true /\
    eapSuccess (eap_if sm') = eapSuccess (eap_if sm) /\
    opt (fun b => contents b = [EAP_CODE_FAILURE; u8 (currentId sm); 0; 4])
      (eapReqData (eap_if sm')) /\
    m sm' = m sm /\ eap_method_priv sm' = eap_method_priv sm /\ mv sm' = mv sm.
Proof.
  intros H Hp Hre Es Hrw Hr Hn. pose proof (inv_core _ _ _ H) as Hc.
  unfold eap_server_sm_step.
  assert (live (sm <| changed := false |>)) as Hl by (split_and!; [done|done|cbn; lia]).
  pose proof (step_IDLE eap_methods (es 63%nat) _ Hl Es) as H1. cbn [put eap_if] in H1.
  rewrite (proj2 (Z.eqb_neq _ _) Hrw), Hr in H1. unfold sm_EAP_RECEIVED_Enter in H1.
  cbn zeta in H1.
  destruct (parse_ok (SM_ENTRY EAP_RECEIVED false (sm <| changed := false |>))
    (eapRespData (eap_if sm)) (proj1 Hc)) as (rx' & Hparse & _).
  change (eapRespData (eap_if (SM_ENTRY _ _ _))) with (eapRespData (eap_if sm)) in H1.
  rewrite Hparse in H1. cbn [mbind res_bind mret res_ret] in H1.
  rewrite (loop_more eap_methods 63 es sm 0 _ H1) by done. clear H1 Hparse.
  set (s1 := _ <| num_rounds := _ |>).
  destruct (buildFailure_ok (es 62%nat) (u8 (currentId sm))) as (d & Hd & Hrep).
  assert (exists s2, sm_EAP_Step eap_methods (es 62%nat) (s1 <| changed := false |>) = Ok s2 /\
    s2 = s1 <| num_rounds := 52 |> <| changed := true |> <| EAP_state := EAP_FAILURE |>
         <| eap_if; eapReqData := d |> <| lastReqData := None |> <| eap_if; eapFail := true |>)
    as (s2 & H2 & ->).
  { eexists. split; [|reflexivity]. unfold sm_EAP_Step.
    change (eap_if (s1 <| changed := false |>)) with (eap_if sm). rewrite Hp, Hre. cbn [negb andb].
    change (num_rounds (s1 <| changed := false |>)) with (num_rounds sm + 1). rewrite Hn.
    change (EAP_MAX_AUTH_ROUNDS <? EAP_MAX_AUTH_ROUNDS + 1) with true. rewrite Z.eqb_refl.
    unfold sm_EAP_FAILURE_Enter, SM_ENTRY. cbn zeta. rewrite bool_decide_eq_false_2 by done.
    cbn [negb orb].
    match goal with |- context [currentId ?s] => change (currentId s) with (currentId sm) end. rewrite Hd. done. }
  rewrite (loop_more eap_methods 62 es s1 1 _ H2) by done. rewrite loop_end.
  2: { by apply step_exhausted. }
  eexists. split; [reflexivity|]. cbn. split_and!; try done.
  destruct d as [b|]; [|done]. cbn in *. destruct Hrep as (_ & -> & _).
  by rewrite (u8_id (u8 _)) by apply u8_byte.
Qed.

Lemma eap_round_limit_witness :
  let sm := Sample.late in
  exists sm', eap_server_sm_step Sample.reg Sample.es sm = Ok (sm', 1) /\
    EAP_state sm' = EAP_FAILURE /\ eapFail (eap_if sm') = true /\
    eapSuccess (eap_if sm') = eapSuccess (eap_if sm) /\
    opt (fun b => contents b = [EAP_CODE_FAILURE; u8 (currentId sm); 0; 4])
      (eapReqData (eap_if sm')) /\
    m sm' = m sm /\ eap_method_priv sm' = eap_method_priv sm /\ mv sm' = mv sm.
Proof.
  apply (eap_round_limit Sample.reg server_accepts Sample.es Sample.late).
  - exact Sample.late_inv.
  - vm_compute. reflexivity.
  - vm_compute. reflexivity.
  - vm_compute. reflexivity.
  - vm_compute. discriminate.
  - vm_compute. reflexivity.
  - vm_compute. reflexivity.
Defined.

(** ([SM_STATE(EAP, RETRANSMIT)] / [SM_STATE(EAP, IDLE)]): when the timer of IDLE
    runs out without a response, the last request is sent again, byte for byte,
    and the timer set anew, at most [MaxRetrans] times; after that the call ends
    in TIMEOUT_FAILURE with [eapTimeout] and no request.  If the copy of the
    request cannot be allocated nothing is sent, but the timer runs on. *)
Theorem eap_retransmission {P : Type} (eap_methods : registry P)
    (accepts : eap_method P -> P -> wpabuf -> Prop) (es : nat -> env) (sm : eap_sm P) (b : wpabuf) :
  inv eap_methods accepts sm ->
  portEnabled (eap_if sm) = true -> eapRestart (eap_if sm) = false ->
  num_rounds sm <= EAP_MAX_AUTH_ROUNDS ->
  EAP_state sm = EAP_IDLE -> retransWhile (eap_if sm) = 0 -> eapResp (eap_if sm) = false ->
  lastReqData sm = Some b -> eapReq (eap_if sm) = false ->
  exists sm', eap_server_sm_step eap_methods es sm = Ok (sm', 1) /\
    retransCount sm' = retransCount sm + 1 /\ lastReqData sm' = Some b /\
    (MaxRetrans (cf sm) <= retransCount sm ->
       EAP_state sm' = EAP_TIMEOUT_FAILURE /\ eapTimeout (eap_if sm') = true /\
       eapReq (eap_if sm') = false) /\
    (retransCount sm < MaxRetrans (cf sm) ->
       EAP_state sm' = EAP_IDLE /\
       eap_sm_calculateTimeout (retransCount sm + 1) (eapSRTT (eap_if sm))
         (eapRTTVAR (eap_if sm)) (methodTimeout sm) = Ok (retransWhile (eap_if sm')) /\
       match eapReqData (eap_if sm') with
       | Some d => contents d = contents b /\ eapReq (eap_if sm') = true
       | None => eapReq (eap_if sm') = false
       end).
Proof.
  intros H Hp Hre Hn Es Hrw Hr Hb Hq. pose proof (inv_core _ _ _ H) as Hc.
  assert (wf b) as Hw by (destruct Hc as (_ & _ & Hc & _); by rewrite Hb in Hc).
  unfold eap_server_sm_step.
  assert (live (sm <| changed := false |>)) as Hl by done.
  pose proof (step_IDLE eap_methods (es 63%nat) _ Hl Es) as H1. cbn [put eap_if] in H1.
  rewrite Hrw in H1. cbn [Z.eqb] in H1.
  unfold sm_EAP_RETRANSMIT_Enter in H1. cbn zeta in H1.
  change (lastReqData (_ <| retransCount := _ |>)) with (lastReqData sm) in H1.
  change (retransCount (?s <| retransCount := ?x |>)) with x in H1.
  change (retransCount (SM_ENTRY _ _ _)) with (retransCount sm) in H1.
  change (MaxRetrans (cf (_ <| retransCount := _ |>))) with (MaxRetrans (cf sm)) in H1.
  rewrite Hb in H1. cbn [is_some] in H1. rewrite andb_true_r in H1.
  destruct (Z.leb_spec (retransCount sm + 1) (MaxRetrans (cf sm))) as [Hle|Hgt].
  - assert (exists r d, eap_copy_buf (es 63%nat) (eapReqData (eap_if sm)) (Some b) = Ok (r, d) /\
      match d with Some d => r = 0 /\ contents d = contents b | None => r = -1 end)
      as (r & d & Hd & Hcd).
    { unfold eap_copy_buf.
      destruct (wpabuf_dup_repr (malloc_ok (es 63%nat)) b (contents b) (size b))
        as [-> | (d & -> & Hd)]; [by split_and!| |].
      - by exists (-1), None.
      - exists 0, (Some d). split; [done|]. split; [done|]. by destruct Hd as (_ & ? & _). }
    change (eapReqData (eap_if (_ <| retransCount := _ |>))) with (eapReqData (eap_if sm)) in H1.
    rewrite Hd in H1. cbn [mbind res_bind mret res_ret] in H1.
    set (q := match d with Some _ => true | None => eapReq (eap_if sm) end).
    assert (sm_EAP_Step eap_methods (es 63%nat) (sm <| changed := false |>) =
      Ok (sm <| changed := true |> <| EAP_state := EAP_RETRANSMIT |>
             <| retransCount := retransCount sm + 1 |> <| eap_if; eapReqData := d |>
             <| eap_if; eapReq := q |>)) as H1'.
    { rewrite H1. unfold q. destruct d as [d|]; [destruct Hcd as [-> _]; done|].
      by rewrite Hcd. }
    clear H1. rewrite (loop_more eap_methods 63 es sm 0 _ H1') by done. set (s1 := _ <| eap_if; eapReq := q |>).
    assert (EAP_state (s1 <| changed := false |>) = EAP_RETRANSMIT) as E1 by done.
    assert (live (s1 <| changed := false |>)) as Hl1 by (split_and!; done).
    pose proof (step_RETRANSMIT eap_methods (es 62%nat) (s1 <| changed := false |>) Hl1 E1) as H2.
    change (MaxRetrans (cf _)) with (MaxRetrans (cf sm)) in H2.
    change (retransCount (s1 <| changed := false |>)) with (retransCount sm + 1) in H2.
    rewrite (proj2 (Z.ltb_ge _ _)) in H2 by lia. unfold sm_EAP_IDLE_Enter in H2. cbn zeta in H2.
    destruct (calculateTimeout_nonzero (retransCount sm + 1) (eapSRTT (eap_if sm))
      (eapRTTVAR (eap_if sm)) (methodTimeout sm)) as (t & Ht & Hnz).
    match type of H2 with context [eap_sm_calculateTimeout ?a ?b ?c ?d] =>
      change (eap_sm_calculateTimeout a b c d) with (eap_sm_calculateTimeout (retransCount sm + 1)
        (eapSRTT (eap_if sm)) (eapRTTVAR (eap_if sm)) (methodTimeout sm)) in H2 end.
    rewrite Ht in H2. cbn [mbind res_bind mret res_ret] in H2.
    rewrite (loop_more eap_methods 62 es s1 1 _ H2) by done. rewrite loop_end.
    2: { rewrite step_IDLE by done. cbn. rewrite (proj2 (Z.eqb_neq _ _) Hnz), Hr. done. }
    eexists. split; [reflexivity|]. cbn. split_and!; try done; [lia|].
    intros _. split_and!; [done..|]. unfold q. destruct d; [by destruct Hcd|done].
  - cbn [mret res_ret] in H1. rewrite (loop_more eap_methods 63 es sm 0 _ H1) by done.
    set (s1 := _ <| retransCount := _ |>).
    assert (EAP_state (s1 <| changed := false |>) = EAP_RETRANSMIT) as E1 by done.
    assert (live (s1 <| changed := false |>)) as Hl1 by (split_and!; done).
    pose proof (step_RETRANSMIT eap_methods (es 62%nat) (s1 <| changed := false |>) Hl1 E1) as H2.
    change (MaxRetrans (cf _)) with (MaxRetrans (cf sm)) in H2.
    change (retransCount (s1 <| changed := false |>)) with (retransCount sm + 1) in H2.
    rewrite (proj2 (Z.ltb_lt _ _)) in H2 by lia.
    rewrite (loop_more eap_methods 62 es s1 1 _ H2) by done.
    rewrite loop_end by (by apply step_terminal).
    eexists. split; [reflexivity|]. cbn. split_and!; try done; lia.
Qed.

Lemma eap_retransmission_witness :
  let sm := Sample.expired in
  let b := Sample.identity_request in
  exists sm', eap_server_sm_step Sample.reg Sample.es sm = Ok (sm', 1) /\
    retransCount sm' = retransCount sm + 1 /\ lastReqData sm' = Some b /\
    (MaxRetrans (cf sm) <= retransCount sm ->
       EAP_state sm' = EAP_TIMEOUT_FAILURE /\ eapTimeout (eap_if sm') = true /\
       eapReq (eap_if sm') = false) /\
    (retransCount sm < MaxRetrans (cf sm) ->
       EAP_state sm' = EAP_IDLE /\
       eap_sm_calculateTimeout (retransCount sm + 1) (eapSRTT (eap_if sm))
         (eapRTTVAR (eap_if sm)) (methodTimeout sm) = Ok (retransWhile (eap_if sm')) /\
       match eapReqData (eap_if sm') with
       | Some d => contents d = contents b /\ eapReq (eap_if sm') = true
       | None => eapReq (eap_if sm') = false
       end).
Proof.
  apply (eap_retransmission Sample.reg server_accepts Sample.es Sample.expired
           Sample.identity_request).
  - exact Sample.expired_inv.
  - vm_compute. reflexivity.
  - vm_compute. reflexivity.
  - vm_compute. discriminate.
  - vm_compute. reflexivity.
  - vm_compute. reflexivity.
  - vm_compute. reflexivity.
  - vm_compute. reflexivity.
  - vm_compute. reflexivity.
Defined.

(** ([SM_STEP(EAP)], RECEIVED and DISCARD): a packet in IDLE that is not a
    response or does not carry the current identifier is discarded: the call
    ends in IDLE again with [eapNoReq] for the layer below, and neither the
    method, its data, the user, the identifier, the decision nor the request
    kept for retransmission has changed. *)
Theorem eap_stale_response_discarded {P : Type} (eap_methods : registry P)
    (accepts : eap_method P -> P -> wpabuf -> Prop) (es : nat -> env) (sm : eap_sm P)
    (rx' : eap_sm_rx) :
  inv eap_methods accepts sm ->
  portEnabled (eap_if sm) = true -> eapRestart (eap_if sm) = false ->
  num_rounds sm < EAP_MAX_AUTH_ROUNDS ->
  EAP_state sm = EAP_IDLE -> retransWhile (eap_if sm) <> 0 -> eapResp (eap_if sm) = true ->
  eap_sm_parseEapResp sm (eapRespData (eap_if sm)) = Ok (sm <| rx := rx' |>) ->
  rxResp rx' = false \/ respId rx' <> currentId sm ->
  exists t, eap_server_sm_step eap_methods es sm =
    Ok (sm <| rx := rx' |> <| num_rounds := num_rounds sm + 1 |>
           <| eap_if := (eap_if sm) <| eapResp := false |> <| eapNoReq := true |>
                                    <| retransWhile := t |> |>
           <| changed := false |>, 1) /\
    eap_sm_calculateTimeout (retransCount sm) (eapSRTT (eap_if sm)) (eapRTTVAR (eap_if sm))
      (methodTimeout sm) = Ok t.
Proof.
  intros H Hp Hre Hn Es Hrw Hr Hpar Hbad. unfold eap_server_sm_step, EAP_MAX_AUTH_ROUNDS in *.
  destruct (calculateTimeout_nonzero (retransCount sm) (eapSRTT (eap_if sm))
    (eapRTTVAR (eap_if sm)) (methodTimeout sm)) as (t & Ht & Hnz).
  exists t. split; [|done].
  set (s1 := sm <| changed := true |> <| EAP_state := EAP_RECEIVED |> <| rx := rx' |>
                <| num_rounds := num_rounds sm + 1 |>).
  assert (sm_EAP_Step eap_methods (es 63%nat) (sm <| changed := false |>) = Ok s1) as H1.
  { rewrite step_IDLE by (done || (split_and!; [done|done|cbn; unfold EAP_MAX_AUTH_ROUNDS; lia])).
    cbn [put eap_if]. rewrite (proj2 (Z.eqb_neq _ _) Hrw), Hr. by apply received_rx. }
  rewrite (loop_more eap_methods 63 es sm 0 _ H1) by done.
  assert (forall s c, live s -> EAP_state s = EAP_RECEIVED -> rx s = rx' -> currentId s = currentId sm ->
    sm_EAP_Step eap_methods c s = sm_EAP_DISCARD_Enter s) as Hdisc.
  { intros s c Hl E1 E2 E3. rewrite step_RECEIVED_eq by done. rewrite E2, E3.
    destruct Hbad as [-> | Hid]; [done|].
    rewrite (proj2 (Z.eqb_neq _ _) Hid), andb_false_r. done. }
  assert (live (s1 <| changed := false |>)) as Hl1
    by (split_and!; [done|done|cbn; unfold EAP_MAX_AUTH_ROUNDS; lia]).
  assert (sm_EAP_Step eap_methods (es 62%nat) (s1 <| changed := false |>) =
    Ok (s1 <| EAP_state := EAP_DISCARD |>
           <| eap_if := (eap_if sm) <| eapResp := false |> <| eapNoReq := true |> |>)) as H2
    by (by rewrite Hdisc).
  rewrite (loop_more eap_methods 62 es s1 1 _ H2) by done. set (s2 := _ <| eap_if := _ |>).
  assert (sm_EAP_Step eap_methods (es 61%nat) (s2 <| changed := false |>) =
    Ok (s2 <| EAP_state := EAP_IDLE |> <| eap_if; retransWhile := t |>)) as H3.
  { rewrite step_DISCARD by (done || (split_and!; [done|done|cbn; unfold EAP_MAX_AUTH_ROUNDS; lia])).
    by apply idle_timeout. }
  rewrite (loop_more eap_methods 61 es s2 1 _ H3) by done. rewrite loop_end.
  - do 2 f_equal. unfold s2, s1. by rewrite <- Es.
  - rewrite step_IDLE by (done || (split_and!; [done|done|cbn; unfold EAP_MAX_AUTH_ROUNDS; lia])).
    cbn [put eap_if retransWhile eapResp]. by rewrite (proj2 (Z.eqb_neq _ _) Hnz).
Qed.

Lemma eap_stale_response_discarded_witness :
  let sm := Sample.stale in
  exists t, eap_server_sm_step Sample.reg Sample.es sm =
    Ok (sm <| rx := Sample.stale_rx |> <| num_rounds := num_rounds sm + 1 |>
           <| eap_if := (eap_if sm) <| eapResp := false |> <| eapNoReq := true |>
                                    <| retransWhile := t |> |>
           <| changed := false |>, 1) /\
    eap_sm_calculateTimeout (retransCount sm) (eapSRTT (eap_if sm)) (eapRTTVAR (eap_if sm))
      (methodTimeout sm) = Ok t.
Proof.
  apply (eap_stale_response_discarded Sample.reg server_accepts Sample.es Sample.stale
           Sample.stale_rx).
  - exact Sample.stale_inv.
  - vm_compute. reflexivity.
  - vm_compute. reflexivity.
  - vm_compute. reflexivity.
  - vm_compute. reflexivity.
  - vm_compute. discriminate.
  - vm_compute. reflexivity.
  - vm_compute. reflexivity.
  - right. vm_compute. discriminate.
Defined.

(** ([eap_sm_process_nak]): whatever the peer lists in its Nak, the configured
    methods before the current index are untouched; from the index up to the
    first free entry exactly the IETF methods that the peer lists survive, in
    their order, the removed ones are replaced by free entries at the end, and
    the loop terminates without leaving the array or the list. *)
Theorem eap_process_nak_spec {P : Type} (sm : eap_sm P) (u : eap_user) (nak_list : list Z)
    (len : Z) :
  user (mv sm) = Some u -> wf_user u -> 0 <= user_eap_method_index (mv sm) <= EAP_MAX_METHODS ->
  0 <= len <= zlen nak_list ->
  let i := Z.to_nat (user_eap_method_index (mv sm)) in
  let kept := conf_prefix (drop i (methods u)) in
  exists u', eap_sm_process_nak sm nak_list len = Ok (sm <| mv; user := Some u' |>) /\
    u' = u <| methods :=
      take i (methods u) ++
      filter (fun x => wanted nak_list len x = true) (take kept (drop i (methods u))) ++
      drop kept (drop i (methods u)) ++
      replicate (length (filter (fun x => wanted nak_list len x = false)
                          (take kept (drop i (methods u)))))
        (EAP_VENDOR_IETF, EAP_TYPE_NONE) |>.
Proof.
  intros Hu [Hl _] Hi Hn i kept. unfold eap_sm_process_nak. rewrite Hu.
  unfold EAP_MAX_METHODS in Hi.
  assert (zlen (take i (methods u)) = user_eap_method_index (mv sm)) as <-
    by (unfold zlen, i; rewrite length_take; lia).
  rewrite (process_nak_loop_spec nak_list len Hn 9 u (take i (methods u)) (drop i (methods u)));
    [| by rewrite take_drop | by rewrite take_drop |].
  2: { pose proof (conf_prefix_length (drop i (methods u))). rewrite length_drop in *. lia. }
  cbn [mbind res_bind]. eexists. split; [reflexivity|].
  by rewrite nak_filter_spec.
Qed.

Lemma eap_process_nak_spec_witness :
  let sm := Sample.challenged in
  let u := Sample.user_md5 in
  let i := Z.to_nat (user_eap_method_index (mv sm)) in
  let kept := conf_prefix (drop i (methods u)) in
  exists u', eap_sm_process_nak sm [13; 4] 2 = Ok (sm <| mv; user := Some u' |>) /\
    u' = u <| methods :=
      take i (methods u) ++
      filter (fun x => wanted [13; 4] 2 x = true) (take kept (drop i (methods u))) ++
      drop kept (drop i (methods u)) ++
      replicate (length (filter (fun x => wanted [13; 4] 2 x = false)
                          (take kept (drop i (methods u)))))
        (EAP_VENDOR_IETF, EAP_TYPE_NONE) |>.
Proof.
  apply (eap_process_nak_spec Sample.challenged Sample.user_md5 [13; 4] 2).
  - vm_compute. reflexivity.
  - split; [reflexivity|]. cbn. split; [|done]. apply (bool_decide_unpack _). by vm_compute.
  - vm_compute. split; discriminate.
  - vm_compute. split; discriminate.
Defined.

(** [eap_sm_calculateTimeout]: without a hint of the method the
    retransmission timer doubles from three seconds and stops at twenty; with a
    hint it is the hint; the loop ends after three rounds whatever the count. *)
Theorem eap_timeout_backoff (retransCount eapSRTT eapRTTVAR methodTimeout : Z) :
  exists t, eap_sm_calculateTimeout retransCount eapSRTT eapRTTVAR methodTimeout = Ok t /\
    (methodTimeout <> 0 -> t = methodTimeout) /\
    (methodTimeout = 0 -> t = Z.min 20 (3 * 2 ^ Z.max 0 retransCount) /\ 3 <= t <= 20).
Proof.
  eexists. split; [apply calculateTimeout_spec|]. destruct (Z.eqb_spec methodTimeout 0).
  - split; [done|]. intros _. split; [done|].
    assert (0 < 2 ^ Z.max 0 retransCount) by (apply Z.pow_pos_nonneg; lia). lia.
  - by split; [|intros].
Qed.

(** [eap_sm_nextId]: the next identifier is an octet; it differs from the
    current one, and when a new exchange starts at random it differs from the
    last one used, so a late answer to the old request cannot be taken for an
    answer to the new one. *)
Theorem eap_nextId_fresh {P : Type} (e : env) (sm : eap_sm P) (id : Z) :
  0 <= eap_sm_nextId e sm id < 256 /\
  (is_byte id -> eap_sm_nextId e sm id <> id) /\
  (id < 0 -> eap_sm_nextId e sm id <> lastId sm).
Proof.
  unfold eap_sm_nextId. rewrite !land_255.
  assert (0 <= (id + 1) mod 256 < 256) by (apply Z.mod_pos_bound; lia).
  assert (0 <= rand e mod 256 < 256) by (apply Z.mod_pos_bound; lia).
  assert (0 <= (rand e mod 256 + 1) mod 256 < 256) by (apply Z.mod_pos_bound; lia).
  unfold is_byte. destruct (Z.ltb_spec id 0).
  - destruct (Z.eqb_spec (rand e mod 256) (lastId sm)) as [E|]; cbn [negb].
    + split_and!; try lia. intros _. rewrite <- E. zlia.
    + split_and!; try lia.
  - split_and!; try lia. intros. zlia.
Qed.

(** ([eap_sm_Policy_update] / [SM_STATE(EAP, SELECT_ACTION)]): a Nak that comes
    after the phase 2 user was selected sets [decision] to DECISION_FAILURE
    ("reject"), but the next step is SELECT_ACTION, which computes the decision
    anew without looking at it: the step from the rejecting state is the same as
    if the Nak had decided anything else. *)
Theorem eap_nak_reject_overwritten {P : Type} (eap_methods : registry P) (e : env) (sm : eap_sm P)
    (u : eap_user) (nak_list : list Z) (len : Z) :
  portEnabled (eap_if sm) = true -> eapRestart (eap_if sm) = false ->
  num_rounds sm <= EAP_MAX_AUTH_ROUNDS -> EAP_state sm = EAP_NAK ->
  m sm = None -> user (mv sm) = Some u -> phase2 u <> 0 ->
  eap_sm_Policy_update sm (Some nak_list) len = Ok (sm <| decision := DECISION_FAILURE |>) /\
  sm_EAP_Step eap_methods e (sm <| decision := DECISION_FAILURE |>) =
  sm_EAP_Step eap_methods e sm.
Proof.
  intros Hp Hr Hn Es Hm Hu Hph. split.
  - unfold eap_sm_Policy_update. rewrite Hu. by rewrite (proj2 (Z.eqb_neq _ _) Hph).
  - rewrite !step_NAK by done. by apply select_ignores_decision.
Qed.

Lemma eap_nak_reject_overwritten_witness :
  let u := Sample.user_md5 <| phase2 := 1 |> in
  let sm := Sample.started <| eap_if; eapRestart := false |> <| EAP_state := EAP_NAK |>
              <| mv; user := Some u |> in
  eap_sm_Policy_update sm (Some [13]) 1 = Ok (sm <| decision := DECISION_FAILURE |>) /\
  sm_EAP_Step Sample.reg (Sample.es 0) (sm <| decision := DECISION_FAILURE |>) =
  sm_EAP_Step Sample.reg (Sample.es 0) sm.
Proof.
  apply (eap_nak_reject_overwritten Sample.reg (Sample.es 0)
    (Sample.started <| eap_if; eapRestart := false |> <| EAP_state := EAP_NAK |>
       <| mv; user := Some (Sample.user_md5 <| phase2 := 1 |>) |>)
    (Sample.user_md5 <| phase2 := 1 |>) [13] 1).
  - reflexivity.
  - reflexivity.
  - vm_compute. discriminate.
  - reflexivity.
  - reflexivity.
  - reflexivity.
  - vm_compute. discriminate.
Defined.

(** ** Witnesses for the methods, at the sample states *)

Lemma eap_md5_process_correct_witness :
  let b := Sample.msg ([2; 7; 0; 22; 4; 16] ++ replicate 16 0) in
  let sm := Sample.challenged in
  exists id secret resp,
    eap_get_id b = Ok id /\ rd_n [49; 50; 51] 0 3 = Ok secret /\
    rd_n (wpabuf_head b) 6 CHAP_MD5_LEN = Ok resp /\
    MD5.eap_md5_process Sample.md5 (Sample.es 0) sm zalloc_data (Some b) =
      Ok (sm, zalloc_data <| state :=
        if bool_decide (0 = 0 /\ MD5.chap_md5 Sample.md5 id secret (replicate 16 0) = resp)
        then SUCCESS else FAILURE |>).
Proof.
  apply (eap_md5_process_correct Sample.md5 (Sample.es 0) Sample.challenged zalloc_data
    (Sample.msg ([2; 7; 0; 22; 4; 16] ++ replicate 16 0)) 5 17 Sample.user_md5 [49; 50; 51]).
  - exact (core_view _ _ (inv_core _ _ _ (proj1 Sample.challenged_inv))).
  - apply Sample.msg_wf; [apply (bool_decide_unpack _)|]; by vm_compute.
  - vm_compute. reflexivity.
  - vm_compute. reflexivity.
  - vm_compute. reflexivity.
  - reflexivity.
Defined.

Lemma eap_identity_process_correct_witness :
  let sm := Sample.asked in
  exists id, rd_n [2; 7; 0; 7; 1; 97; 98] 5 2 = Ok id /\
    Identity.eap_identity_process (Sample.es 0) sm zalloc_data (Some id_resp) =
      Ok (let known := is_some (identity (mv sm)) in
          let p := zalloc_data <| pick_up := 0 |> in
          if malloc_ok (Sample.es 0) (if 2 =? 0 then 1 else 2)
          then (sm <| mv; update_user := known || update_user (mv sm) |>
                   <| mv; identity := Some id |> <| mv; identity_len := 2 |>,
                p <| state := SUCCESS |>)
          else (sm <| mv; update_user := known || update_user (mv sm) |>
                   <| mv; identity := None |>, p <| state := FAILURE |>)).
Proof.
  apply (eap_identity_process_correct (Sample.es 0) Sample.asked zalloc_data id_resp 5 2).
  - exact id_resp_wf.
  - reflexivity.
Defined.
