(* ===== verification/EapServerI.v ===== *)
(** * The EAP server as the layers around it see it

    The interface between eap_server/eap_server.c and its clients
    eapol_auth/eapol_auth_sm.c and ap/ieee802_1x.c: the functions of eap.h and
    the shared variables [struct eap_eapol_interface], which the clients read
    and write through the pointer that [eap_get_interface] returns.  The class
    [EapServerOps] names the operations, [EapServerLaws] states what the server
    promises; the clients are proved against these, [EapServerInst] discharges
    them for the state machine of [EapServer]. *)

From S2P Require Import Prelude WpaBuf EapCommon EapI.

Class EapServerOps (E : Type) := {
  (** the variables behind [eap_get_interface(sm)], read and written *)
  if_get : E -> eap_eapol_interface;
  if_set : eap_eapol_interface -> E -> E;
  server_init : env -> eapol_callbacks -> eap_config -> res (option E);
  server_deinit : E -> res unit;
  server_step : (nat -> env) -> E -> res (E * Z);
  server_pending_cb : E -> E;
  server_notify_cached : E -> E;
  server_clear_identity : E -> E;
  server_get_identity : E -> option (list Z) * Z;
}.

(** The buffers in the shared variables are well formed, and the key length that
    goes with the AAA server's key is right. *)
Definition wf_if (i : eap_eapol_interface) : Prop :=
  opt wf (eapRespData i) /\ opt wf (eapReqData i) /\ opt wf (aaaEapReqData i) /\
  opt wf (aaaEapRespData i) /\
  opt (fun k => 0 <= aaaEapKeyDataLen i <= zlen k) (aaaEapKeyData i).

(** What an [eap_config] has to offer for [eap_server_sm_init] to copy. *)
Definition wf_eap_config (c : eap_config) : Prop :=
  opt wf (conf_assoc_wps_ie c) /\ opt wf (conf_assoc_p2p_ie c) /\
  opt (fun k => 16 <= zlen k) (conf_pac_opaque_encr_key c) /\
  opt (fun k => 0 <= conf_eap_fast_a_id_len c <= zlen k) (conf_eap_fast_a_id c) /\
  opt (fun a => 6 <= zlen a) (conf_peer_addr c).

(** The server's promises.  [server_inv] holds between calls; [authenticated] is
    the server's own evidence for an EAP-Success, [crashes] describes the calls
    that dereference a NULL method.  A client may write any well-formed value to
    the shared variables, but must not take the response away. *)
Class EapServerLaws (E : Type) {ops : EapServerOps E} := {
  server_inv : E -> Prop;
  authenticated : E -> Prop;
  if_get_set i e : if_get (if_set i e) = i;
  if_set_set i j e : if_set i (if_set j e) = if_set i e;
  if_wf_law e : server_inv e -> wf_if (if_get e);
  if_set_law i e : server_inv e -> wf_if i ->
    (eapRespData (if_get e) <> None -> eapRespData i <> None) -> server_inv (if_set i e);
  server_init_law en cb c : wf_callbacks cb -> wf_eap_config c ->
    server_init en cb c = Ok None \/
    exists e, server_init en cb c = Ok (Some e) /\ server_inv e /\ if_get e = eap_if_zero;
  server_deinit_law e : server_inv e -> server_deinit e = Ok tt;
  server_step_law es e : (forall n, wf_env (es n)) -> server_inv e ->
    server_step es e = Fault NullDeref \/
    exists e' r, server_step es e = Ok (e', r) /\ server_inv e' /\
      (eapSuccess (if_get e) = false -> eapSuccess (if_get e') = true -> authenticated e');
  pending_cb_law e : server_inv e ->
    server_inv (server_pending_cb e) /\ if_get (server_pending_cb e) = if_get e;
  notify_cached_law e : server_inv e ->
    server_inv (server_notify_cached e) /\ if_get (server_notify_cached e) = if_get e;
  clear_identity_law e : server_inv e ->
    server_inv (server_clear_identity e) /\ if_get (server_clear_identity e) = if_get e;
}.
