(* ===== verification/EapServerInst.v ===== *)
(** * The EAP server implements the interface of [EapServerI]

    The operations are those of [EapServer]; between calls the machine is in one
    of the states in which the driver loop stops ([parked]), where the layers
    around it may write the shared variables. *)

From S2P Require Import Prelude WpaBuf EapCommon EapI EapServerI.
From S2P Require Import EapServer EapServerInv EapMethods EapServerProps.

Section server.
Context {P : Type} (eap_methods : registry P).
Context (accepts : eap_method P -> P -> wpabuf -> Prop).
Context (laws : forall v t x, eap_server_get_eap_method eap_methods v t = Some x ->
                  MethodLaws x (accepts x)).
Implicit Type sm : eap_sm P.
#[local] Abbreviation inv := (inv eap_methods accepts).

Definition eap_server_ops : EapServerOps (eap_sm P) := {|
  if_get sm := eap_get_interface sm;
  if_set i sm := sm <| eap_if := i |>;
  server_init e cb c := eap_server_sm_init e (Some cb) c;
  server_deinit sm := eap_server_sm_deinit eap_methods (Some sm);
  server_step es sm := eap_server_sm_step eap_methods es sm;
  server_pending_cb := eap_sm_pending_cb;
  server_notify_cached := eap_sm_notify_cached;
  server_clear_identity := eap_server_clear_identity;
  server_get_identity := eap_get_identity;
|}.

(** The states in which [eap_server_sm_step] returns, as far as the layers
    around the server cannot change them. *)
Definition parked sm : Prop :=
  match EAP_state sm with
  | EAP_DISABLED | EAP_IDLE | EAP_IDLE2 | EAP_AAA_IDLE => True
  | EAP_METHOD_RESPONSE => method_pending (mv sm) <> METHOD_PENDING_NONE
  | st => terminal st = true
  end.

Definition server_ok sm : Prop := inv sm /\ parked sm.

Lemma resting_parked sm : resting sm -> parked sm.
Proof using Type. unfold resting, parked. destruct (EAP_state sm); try done. by intros ->. Qed.

Lemma set_if_ok i sm : server_ok sm -> wf_if i ->
  (eapRespData (eap_if sm) <> None -> eapRespData i <> None) ->
  server_ok (sm <| eap_if := i |>).
Proof using Type.
  intros [(Hc & Hi & Hp & Hn) Hr] (H1 & H2 & H3 & H4 & H5) H6.
  split; [|exact Hr]. destruct Hc as (_ & _ & Hl & _ & _ & _ & Hv & Hm & Hpr).
  split; [by unfold core; split_and!|]. split; [|by split].
  unfold state_inv in *; cbn. unfold parked in Hr. destruct (EAP_state sm) eqn:Es; try done.
  destruct Hi as (Hm' & Hend & Hall). split_and!; [done|done|]. intros Hpe.
  destruct (Hall Hpe) as [[b Hb] Ha]. split; [|done]. cbn.
  destruct (eapRespData i); [by eexists|]. by destruct H6; [rewrite Hb|].
Qed.

(** A change of what methods look at, within their contract, keeps the invariant
    when it does not touch [method_pending]. *)
Lemma set_mv_ok v sm : server_ok sm -> wf_vars v ->
  method_pending v = method_pending (mv sm) \/
    method_pending (mv sm) = METHOD_PENDING_WAIT /\ method_pending v = METHOD_PENDING_CONT ->
  server_ok (sm <| mv := v |>).
Proof using Type.
  intros [(Hc & Hi & Hp & Hn) Hr] Hv Hpe.
  assert (method_pending v = METHOD_PENDING_NONE <-> method_pending (mv sm) = METHOD_PENDING_NONE)
    as Hiff by (destruct Hpe as [->|[-> ->]]; done).
  split; [|unfold parked in *; cbn; destruct (EAP_state sm); try done; by rewrite Hiff].
  destruct Hc as (Hc1 & Hc2 & Hl & Hc3 & Hc4 & Hc5 & [_ Hcf] & Hm & Hpr).
  split; [by unfold core; split_and!|]. split; [|split; [|exact Hn]].
  - unfold state_inv, parked in *; cbn. destruct (EAP_state sm) eqn:Es; try done.
    destruct Hi as (Hm' & Hend & Hall). unfold pending_none in *. cbn.
    split_and!; [done|by rewrite Hiff|]. rewrite Hiff. exact Hall.
  - unfold pending_inv, pending_none in *; cbn. by rewrite Hiff.
Qed.

Lemma pending_cb_ok sm : server_ok sm ->
  server_ok (eap_sm_pending_cb sm) /\ eap_if (eap_sm_pending_cb sm) = eap_if sm.
Proof using Type.
  intros H. unfold eap_sm_pending_cb. destruct (method_pending (mv sm)) eqn:E; [done| |done].
  split; [|done]. pose proof (set_mv_ok ((mv sm) <| method_pending := METHOD_PENDING_CONT |>) sm H)
    as Hset. unfold put in *. apply Hset; clear Hset.
  - destruct H as [((_ & _ & _ & _ & _ & _ & [Hv _] & _) & _) _]. exact Hv.
  - by right.
Qed.

Lemma clear_identity_ok sm : server_ok sm ->
  server_ok (eap_server_clear_identity sm) /\
  eap_if (eap_server_clear_identity sm) = eap_if sm.
Proof using Type.
  intros H. split; [|done].
  pose proof (set_mv_ok ((mv sm) <| identity := None |>) sm H) as Hset.
  unfold eap_server_clear_identity, put in *. apply Hset; clear Hset; [|by left].
  destruct H as [((_ & _ & _ & _ & _ & _ & [(Hu & _ & Hi) _] & _) & _) _].
  split; [exact Hu|]. by split.
Qed.

Lemma notify_cached_ok sm : server_ok sm ->
  server_ok (eap_sm_notify_cached sm) /\ eap_if (eap_sm_notify_cached sm) = eap_if sm.
Proof using Type.
  intros [(Hc & Hi & Hp & Hn & H51 & H52) Hr]. split; [|done]. split; [|done].
  split; [exact Hc|]. split; [done|]. split; [by left|]. split; [done|]. split; [|done].
  cbn. intros E. specialize (H51 E). unfold parked in Hr. by rewrite H51 in Hr.
Qed.

#[refine] Definition eap_server_laws : EapServerLaws (eap_sm P) (ops := eap_server_ops) := {|
  server_inv := server_ok;
  authenticated := evidence eap_methods;
|}.
Proof using laws.
  - done.
  - done.
  - intros sm [(Hc & _) _]. destruct Hc as (H1 & H2 & _ & H3 & H4 & H5 & _). by unfold wf_if.
  - intros i sm. apply set_if_ok.
  - intros en cb c Hcb (H1 & H2 & H3 & H4 & H5). cbn.
    destruct (init_inv eap_methods accepts en cb c Hcb H1 H2 H3 H4 H5)
      as [->|(sm & -> & Hi & Hs & Hif)]; [by left|right].
    exists sm. split; [done|]. split; [|exact Hif]. split; [done|]. unfold parked. by rewrite Hs.
  - intros sm [[Hc _] _]. cbn. unfold eap_server_sm_deinit.
    by destruct (reset_method_ok eap_methods accepts laws sm Hc) as (v & -> & _).
  - intros es sm He [Hi Hp]. unfold server_step, eap_server_ops.
    destruct (sm_step_total eap_methods accepts laws es sm He Hi)
      as [(sm' & r & -> & Hi' & Hr & Hs & _) | [-> _]]; [right|by left].
    exists sm', r. split; [done|]. split; [split; [done|by apply resting_parked]|].
    intros Hf Ht. apply Hs; [|done]. unfold success_ok.
    change (eapSuccess (eap_if sm) = false) in Hf. rewrite Hf. done.
  - intros sm. apply pending_cb_ok.
  - intros sm. apply notify_cached_ok.
  - intros sm. apply clear_identity_ok.
Defined.
End server.

(** The server with the Identity and MD5 methods. *)
Definition md5_server_ops (md5 : list (list Z) -> list Z) :
  EapServerOps (eap_sm method_data) := eap_server_ops (server_methods md5).
Definition md5_server_laws (md5 : list (list Z) -> list Z) :
  EapServerLaws (eap_sm method_data) (ops := md5_server_ops md5) :=
  eap_server_laws (server_methods md5) server_accepts (server_methods_laws md5).
