(* ===== verification/EapolAuth.v ===== *)
(** * eapol_auth/eapol_auth_sm.c, eapol_auth_sm.h, eapol_auth_sm_i.h

    The IEEE 802.1X-2004 authenticator: [struct eapol_state_machine] with its six
    cooperating machines (AUTH_PAE, BE_AUTH, REAUTH_TIMER, AUTH_KEY_TX, KEY_RX,
    CTRL_DIR), the driver [eapol_sm_step_run], the one second tick, allocation
    and the configuration.

    The EAP server behind [sm->eap] is known through [EapServerOps].  A call of
    one of the owner's callbacks ([struct eapol_auth_cb]) is a value of
    [auth_call]; [do_call] notes it in [calls] (newest first) and hands the state
    to the owner, who may change it: [sta] is the part of the owner's data that
    [sm->sta] and [conf.ctx] lead to.  The event loop's timers for this machine
    are the counts in [eloop]. *)

From S2P Require Import Prelude WpaBuf EapCommon EapI EapServerI.

(** ** Constants and data *)
Definition ForceUnauthorized : Z := 1.
Definition ForceAuthorized : Z := 3.
Definition Auto : Z := 2.
Definition Unauthorized : Z := 2.
Definition Authorized : Z := 1.
Definition Both : Z := 0.
Definition In : Z := 1.

Definition EAPOL_SM_PREAUTH : Z := 1.
Definition EAPOL_SM_WAIT_START : Z := 2.
Definition EAPOL_SM_USES_WPA : Z := 4.
Definition EAPOL_SM_FROM_PMKSA_CACHE : Z := 8.

Definition AUTH_PAE_DEFAULT_quietPeriod : Z := 60.
Definition AUTH_PAE_DEFAULT_reAuthMax : Z := 2.
Definition BE_AUTH_DEFAULT_serverTimeout : Z := 30.

Definition IEEE802_1X_TYPE_EAP_PACKET : Z := 0.
Definition IEEE802_1X_TYPE_EAPOL_START : Z := 1.
Definition IEEE802_1X_TYPE_EAPOL_LOGOFF : Z := 2.
Definition IEEE802_1X_TYPE_EAPOL_KEY : Z := 3.
Definition IEEE802_1X_TYPE_EAPOL_ENCAPSULATED_ASF_ALERT : Z := 4.

(** Conversion to [int]. *)
Definition s32 (z : Z) : Z := (z + 2147483648) mod 4294967296 - 2147483648.

(** [word & bit], as a condition. *)
Definition has_flag (word bit : Z) : bool := negb (Z.land word bit =? 0).

Inductive auth_pae_state_t :=
  | AUTH_PAE_INITIALIZE | AUTH_PAE_DISCONNECTED | AUTH_PAE_CONNECTING
  | AUTH_PAE_AUTHENTICATING | AUTH_PAE_AUTHENTICATED | AUTH_PAE_ABORTING
  | AUTH_PAE_HELD | AUTH_PAE_FORCE_AUTH | AUTH_PAE_FORCE_UNAUTH | AUTH_PAE_RESTART.
Inductive be_auth_state_t :=
  | BE_AUTH_REQUEST | BE_AUTH_RESPONSE | BE_AUTH_SUCCESS | BE_AUTH_FAIL
  | BE_AUTH_TIMEOUT | BE_AUTH_IDLE | BE_AUTH_INITIALIZE | BE_AUTH_IGNORE.
Inductive reauth_timer_state_t := REAUTH_TIMER_INITIALIZE | REAUTH_TIMER_REAUTHENTICATE.
Inductive auth_key_tx_state_t := AUTH_KEY_TX_NO_KEY_TRANSMIT | AUTH_KEY_TX_KEY_TRANSMIT.
Inductive key_rx_state_t := KEY_RX_NO_KEY_RECEIVE | KEY_RX_KEY_RECEIVE.
Inductive ctrl_dir_state_t := CTRL_DIR_FORCE_BOTH | CTRL_DIR_IN_OR_BOTH.

#[global] Instance auth_pae_eq_dec : EqDecision auth_pae_state_t.
Proof. solve_decision. Defined.
#[global] Instance be_auth_eq_dec : EqDecision be_auth_state_t.
Proof. solve_decision. Defined.
#[global] Instance reauth_timer_eq_dec : EqDecision reauth_timer_state_t.
Proof. solve_decision. Defined.
#[global] Instance auth_key_tx_eq_dec : EqDecision auth_key_tx_state_t.
Proof. solve_decision. Defined.
#[global] Instance key_rx_eq_dec : EqDecision key_rx_state_t.
Proof. solve_decision. Defined.
#[global] Instance ctrl_dir_eq_dec : EqDecision ctrl_dir_state_t.
Proof. solve_decision. Defined.

#[projections(primitive)]
Record eapol_timers := { aWhile : Z; quietWhile : Z; reAuthWhen : Z }.

#[projections(primitive)]
Record eapol_globals := {
  authAbort : bool;
  authFail : bool;
  authPortStatus : Z;
  authStart : bool;
  authTimeout : bool;
  authSuccess : bool;
  eapolEap : bool;
  initialize : bool;
  keyDone : bool;
  keyRun : bool;
  keyTxEnabled : bool;
  portControl : Z;
  portValid : bool;
  reAuthenticate : bool;
}.

(** The state and the variables of each machine. *)
#[projections(primitive)]
Record eapol_machines := {
  auth_pae_state : auth_pae_state_t;
  eapolLogoff : bool;
  eapolStart : bool;
  portMode : Z;
  reAuthCount : Z;
  be_auth_state : be_auth_state_t;
  reauth_timer_state : reauth_timer_state_t;
  auth_key_tx_state : auth_key_tx_state_t;
  key_rx_state : key_rx_state_t;
  rxKey : bool;
  ctrl_dir_state : ctrl_dir_state_t;
  adminControlledDirections : Z;
  operControlledDirections : Z;
  operEdge : bool;
}.

(** The constants, of all machines. *)
#[projections(primitive)]
Record eapol_constants := {
  quietPeriod : Z;
  reAuthMax : Z;
  serverTimeout : Z;
  reAuthPeriod : Z;
  reAuthEnabled : bool;
}.

(** [Counter]: unsigned int. *)
#[projections(primitive)]
Record eapol_counters := {
  authEntersConnecting : Z;
  authEapLogoffsWhileConnecting : Z;
  authEntersAuthenticating : Z;
  authAuthSuccessesWhileAuthenticating : Z;
  authAuthTimeoutsWhileAuthenticating : Z;
  authAuthFailWhileAuthenticating : Z;
  authAuthEapStartsWhileAuthenticating : Z;
  authAuthEapLogoffWhileAuthenticating : Z;
  authAuthReauthsWhileAuthenticated : Z;
  authAuthEapStartsWhileAuthenticated : Z;
  authAuthEapLogoffWhileAuthenticated : Z;
  backendResponses : Z;
  backendAccessChallenges : Z;
  backendOtherRequestsToSupplicant : Z;
  backendAuthSuccesses : Z;
  backendAuthFails : Z;
  dot1xAuthEapolFramesRx : Z;
  dot1xAuthEapolFramesTx : Z;
  dot1xAuthEapolStartFramesRx : Z;
  dot1xAuthEapolLogoffFramesRx : Z;
  dot1xAuthEapolRespIdFramesRx : Z;
  dot1xAuthEapolRespFramesRx : Z;
  dot1xAuthEapolReqIdFramesTx : Z;
  dot1xAuthEapolReqFramesTx : Z;
  dot1xAuthInvalidEapolFramesRx : Z;
  dot1xAuthEapLengthErrorFramesRx : Z;
  dot1xAuthLastEapolFrameVersion : Z;
}.

Definition counters_zero : eapol_counters :=
  Build_eapol_counters 0 0 0 0 0 0 0 0 0 0 0 0 0 0 0 0 0 0 0 0 0 0 0 0 0 0 0.

(** The other variables; [last_recv_radius] and [sm_identity] belong to the
    owner, who keeps them here. *)
#[projections(primitive)]
Record eapol_ids := {
  addr : list Z;
  flags : Z;
  radius_identifier : Z;
  last_recv_radius : option (list Z);
  last_eap_id : Z;
  sm_identity : option (list Z);
  sm_identity_len : Z;
  eap_type_authsrv : Z;
  eap_type_supp : Z;
}.

(** Registered timeouts: [eapol_port_timers_tick(NULL, sm)] and
    [eapol_sm_step_cb(sm, NULL)]. *)
#[projections(primitive)]
Record eapol_timeouts := { to_tick : Z; to_step : Z }.

Inductive eapol_event_t := EAPOL_AUTH_SM_CHANGE | EAPOL_AUTH_REAUTHENTICATE.

(** The calls of [struct eapol_auth_cb] that have an effect ([logger] prints,
    [sta_entry_alive] and [get_eap_user] only answer). *)
Inductive auth_call :=
  | eapol_send (type : Z) (data : list Z)
  | aaa_send (data : list Z)
  | finished (success : bool) (preauth : Z)
  | set_port_authorized (authorized : bool)
  | abort_auth
  | tx_key
  | eapol_event (type : eapol_event_t).

#[projections(primitive)]
Record eapol_sm {E W : Type} := {
  timers : eapol_timers;
  globals : eapol_globals;
  machines : eapol_machines;
  consts : eapol_constants;
  counters : eapol_counters;
  ids : eapol_ids;
  eap : E;
  initializing : bool;
  changed : bool;
  sta : W;
  eloop : eapol_timeouts;
  calls : list auth_call;
}.
Arguments eapol_sm : clear implicits.

(** The owner: what the callbacks do, and the answer of [sta_entry_alive]. *)
Class EapolAuthCb (E W : Type) := {
  cb_call : auth_call -> eapol_sm E W -> eapol_sm E W;
  sta_entry_alive : W -> list Z -> bool;
}.

(** [sm->counter++;] *)
Notation "r <| f ++ |>" := (put (f := counters) (put (f := f) (fun n => u32 (n + 1))) r)
  (at level 1, f constr at level 10, left associativity, format "r <|  f  ++  |>") : Z_scope.

Section machine.
Context {E W : Type} {server : EapServerOps E} {cb : EapolAuthCb E W}.
Implicit Type sm : eapol_sm E W.

(** [sm->eap_if]. *)
Definition eap_if sm : eap_eapol_interface := if_get (eap sm).
Definition upd_if (f : eap_eapol_interface -> eap_eapol_interface) sm : eapol_sm E W :=
  sm <| eap := if_set (f (eap_if sm)) (eap sm) |>.

Definition do_call (c : auth_call) sm : eapol_sm E W := cb_call c (sm <| calls := c :: calls sm |>).

Definition setPortAuthorized sm := do_call (set_port_authorized true) sm.
Definition setPortUnauthorized sm := do_call (set_port_authorized false) sm.
Definition abortAuth sm := do_call abort_auth sm.
Definition txKey sm := do_call tx_key sm.
Definition preauth_flag sm : Z := Z.land (flags (ids sm)) EAPOL_SM_PREAUTH.

Definition eapol_auth_tx_canned_eap (success : bool) sm : eapol_sm E W :=
  let sm := sm <| ids; last_eap_id := u8 (last_eap_id (ids sm) + 1) |> in
  let eap := eap_hdr_bytes (if success then EAP_CODE_SUCCESS else EAP_CODE_FAILURE)
               (last_eap_id (ids sm)) sizeof_eap_hdr in
  let sm := do_call (eapol_send IEEE802_1X_TYPE_EAP_PACKET eap) sm in
  sm <| dot1xAuthEapolFramesTx ++ |>.
Definition txCannedFail sm := eapol_auth_tx_canned_eap false sm.
Definition txCannedSuccess sm := eapol_auth_tx_canned_eap true sm.

Definition eapol_auth_tx_req sm : res (eapol_sm E W) :=
  match eapReqData (eap_if sm) with
  | None => mret sm
  | Some req =>
      if wpabuf_len req <? sizeof_eap_hdr then mret sm else
      if has_flag (flags (ids sm)) EAPOL_SM_WAIT_START then mret sm else
      id ← eap_get_id req;
      let sm := sm <| ids; last_eap_id := id |> in
      data ← rd_n (wpabuf_head req) 0 (wpabuf_len req);
      let sm := do_call (eapol_send IEEE802_1X_TYPE_EAP_PACKET data) sm in
      let sm := sm <| dot1xAuthEapolFramesTx ++ |> in
      ty ← match eapReqData (eap_if sm) with
           | Some req => eap_get_type req
           | None => Fault NullDeref
           end;
      mret (if ty =? EAP_TYPE_IDENTITY then sm <| dot1xAuthEapolReqIdFramesTx ++ |>
            else sm <| dot1xAuthEapolReqFramesTx ++ |>)
  end.
Definition txReq sm := eapol_auth_tx_req sm.

(** *** AUTH_PAE *)

(** [SM_ENTRY_MA] for each machine: note a change, then set the state. *)
Definition SM_ENTRY_PAE (state : auth_pae_state_t) (global : bool) sm : eapol_sm E W :=
  let sm := if negb global || negb (bool_decide (auth_pae_state (machines sm) = state))
            then sm <| changed := true |> else sm in
  sm <| machines; auth_pae_state := state |>.

Definition sm_AUTH_PAE_INITIALIZE_Enter (global : bool) sm : eapol_sm E W :=
  let sm := SM_ENTRY_PAE AUTH_PAE_INITIALIZE global sm in
  sm <| machines; portMode := Auto |>.

Definition sm_AUTH_PAE_DISCONNECTED_Enter sm : eapol_sm E W :=
  let from_initialize := bool_decide (auth_pae_state (machines sm) = AUTH_PAE_INITIALIZE) in
  let sm :=
    if eapolLogoff (machines sm) then
      match auth_pae_state (machines sm) with
      | AUTH_PAE_CONNECTING => sm <| authEapLogoffsWhileConnecting ++ |>
      | AUTH_PAE_AUTHENTICATED => sm <| authAuthEapLogoffWhileAuthenticated ++ |>
      | _ => sm
      end
    else sm in
  let sm := SM_ENTRY_PAE AUTH_PAE_DISCONNECTED false sm in
  let sm := sm <| globals; authPortStatus := Unauthorized |> in
  let sm := setPortUnauthorized sm in
  let sm := sm <| machines; reAuthCount := 0 |> in
  let sm := sm <| machines; eapolLogoff := false |> in
  if negb from_initialize then do_call (finished false (preauth_flag sm)) sm else sm.

Definition sm_AUTH_PAE_RESTART_Enter sm : eapol_sm E W :=
  let sm :=
    match auth_pae_state (machines sm) with
    | AUTH_PAE_AUTHENTICATED =>
        let sm := if reAuthenticate (globals sm)
                  then sm <| authAuthReauthsWhileAuthenticated ++ |> else sm in
        let sm := if eapolStart (machines sm)
                  then sm <| authAuthEapStartsWhileAuthenticated ++ |> else sm in
        if eapolLogoff (machines sm)
        then sm <| authAuthEapLogoffWhileAuthenticated ++ |> else sm
    | _ => sm
    end in
  let sm := SM_ENTRY_PAE AUTH_PAE_RESTART false sm in
  upd_if (fun i => i <| eapRestart := true |>) sm.

Definition sm_AUTH_PAE_CONNECTING_Enter sm : eapol_sm E W :=
  let sm := if negb (bool_decide (auth_pae_state (machines sm) = AUTH_PAE_CONNECTING))
            then sm <| authEntersConnecting ++ |> else sm in
  let sm := SM_ENTRY_PAE AUTH_PAE_CONNECTING false sm in
  let sm := sm <| globals; reAuthenticate := false |> in
  sm <| machines; reAuthCount := u32 (reAuthCount (machines sm) + 1) |>.

Definition sm_AUTH_PAE_HELD_Enter sm : eapol_sm E W :=
  let sm := if bool_decide (auth_pae_state (machines sm) = AUTH_PAE_AUTHENTICATING) &&
               authFail (globals sm)
            then sm <| authAuthFailWhileAuthenticating ++ |> else sm in
  let sm := SM_ENTRY_PAE AUTH_PAE_HELD false sm in
  let sm := sm <| globals; authPortStatus := Unauthorized |> in
  let sm := setPortUnauthorized sm in
  let sm := sm <| timers; quietWhile := s32 (quietPeriod (consts sm)) |> in
  let sm := sm <| machines; eapolLogoff := false |> in
  do_call (finished false (preauth_flag sm)) sm.

Definition sm_AUTH_PAE_AUTHENTICATED_Enter sm : eapol_sm E W :=
  let sm := if bool_decide (auth_pae_state (machines sm) = AUTH_PAE_AUTHENTICATING) &&
               authSuccess (globals sm)
            then sm <| authAuthSuccessesWhileAuthenticating ++ |> else sm in
  let sm := SM_ENTRY_PAE AUTH_PAE_AUTHENTICATED false sm in
  let sm := sm <| globals; authPortStatus := Authorized |> in
  let sm := setPortAuthorized sm in
  let sm := sm <| machines; reAuthCount := 0 |> in
  do_call (finished true (preauth_flag sm)) sm.

Definition sm_AUTH_PAE_AUTHENTICATING_Enter sm : eapol_sm E W :=
  let sm := SM_ENTRY_PAE AUTH_PAE_AUTHENTICATING false sm in
  let sm := sm <| machines; eapolStart := false |> in
  let sm := sm <| globals; authSuccess := false |> in
  let sm := sm <| globals; authFail := false |> in
  let sm := sm <| globals; authTimeout := false |> in
  let sm := sm <| globals; authStart := true |> in
  let sm := sm <| globals; keyRun := false |> in
  sm <| globals; keyDone := false |>.

Definition sm_AUTH_PAE_ABORTING_Enter sm : eapol_sm E W :=
  let sm :=
    match auth_pae_state (machines sm) with
    | AUTH_PAE_AUTHENTICATING =>
        let sm := if authTimeout (globals sm)
                  then sm <| authAuthTimeoutsWhileAuthenticating ++ |> else sm in
        let sm := if eapolStart (machines sm)
                  then sm <| authAuthEapStartsWhileAuthenticating ++ |> else sm in
        if eapolLogoff (machines sm)
        then sm <| authAuthEapLogoffWhileAuthenticating ++ |> else sm
    | _ => sm
    end in
  let sm := SM_ENTRY_PAE AUTH_PAE_ABORTING false sm in
  let sm := sm <| globals; authAbort := true |> in
  let sm := sm <| globals; keyRun := false |> in
  sm <| globals; keyDone := false |>.

Definition sm_AUTH_PAE_FORCE_AUTH_Enter (global : bool) sm : eapol_sm E W :=
  let sm := SM_ENTRY_PAE AUTH_PAE_FORCE_AUTH global sm in
  let sm := sm <| globals; authPortStatus := Authorized |> in
  let sm := setPortAuthorized sm in
  let sm := sm <| machines; portMode := ForceAuthorized |> in
  let sm := sm <| machines; eapolStart := false |> in
  txCannedSuccess sm.

Definition sm_AUTH_PAE_FORCE_UNAUTH_Enter (global : bool) sm : eapol_sm E W :=
  let sm := SM_ENTRY_PAE AUTH_PAE_FORCE_UNAUTH global sm in
  let sm := sm <| globals; authPortStatus := Unauthorized |> in
  let sm := setPortUnauthorized sm in
  let sm := sm <| machines; portMode := ForceUnauthorized |> in
  let sm := sm <| machines; eapolStart := false |> in
  txCannedFail sm.

Definition sm_AUTH_PAE_Step sm : eapol_sm E W :=
  let g := globals sm in
  let ms := machines sm in
  if ((portControl g =? Auto) && negb (portMode ms =? portControl g)) ||
     initialize g || negb (portEnabled (eap_if sm))
  then sm_AUTH_PAE_INITIALIZE_Enter true sm
  else if (portControl g =? ForceAuthorized) && negb (portMode ms =? portControl g) &&
          negb (initialize g || negb (portEnabled (eap_if sm)))
  then sm_AUTH_PAE_FORCE_AUTH_Enter true sm
  else if (portControl g =? ForceUnauthorized) && negb (portMode ms =? portControl g) &&
          negb (initialize g || negb (portEnabled (eap_if sm)))
  then sm_AUTH_PAE_FORCE_UNAUTH_Enter true sm
  else
    match auth_pae_state ms with
    | AUTH_PAE_INITIALIZE => sm_AUTH_PAE_DISCONNECTED_Enter sm
    | AUTH_PAE_DISCONNECTED => sm_AUTH_PAE_RESTART_Enter sm
    | AUTH_PAE_RESTART =>
        if negb (eapRestart (eap_if sm)) then sm_AUTH_PAE_CONNECTING_Enter sm else sm
    | AUTH_PAE_HELD =>
        if quietWhile (timers sm) =? 0 then sm_AUTH_PAE_RESTART_Enter sm else sm
    | AUTH_PAE_CONNECTING =>
        if eapolLogoff ms || (reAuthMax (consts sm) <? reAuthCount ms)
        then sm_AUTH_PAE_DISCONNECTED_Enter sm
        else if (eapReq (eap_if sm) && (reAuthCount ms <=? reAuthMax (consts sm))) ||
                eapSuccess (eap_if sm) || eapFail (eap_if sm)
        then sm_AUTH_PAE_AUTHENTICATING_Enter sm
        else sm
    | AUTH_PAE_AUTHENTICATED =>
        if eapolStart ms || reAuthenticate g then sm_AUTH_PAE_RESTART_Enter sm
        else if eapolLogoff ms || negb (portValid g) then sm_AUTH_PAE_DISCONNECTED_Enter sm
        else sm
    | AUTH_PAE_AUTHENTICATING =>
        if authSuccess g && portValid g then sm_AUTH_PAE_AUTHENTICATED_Enter sm
        else if authFail g || (keyDone g && negb (portValid g)) then sm_AUTH_PAE_HELD_Enter sm
        else if eapolStart ms || eapolLogoff ms || authTimeout g
        then sm_AUTH_PAE_ABORTING_Enter sm
        else sm
    | AUTH_PAE_ABORTING =>
        if eapolLogoff ms && negb (authAbort g) then sm_AUTH_PAE_DISCONNECTED_Enter sm
        else if negb (eapolLogoff ms) && negb (authAbort g) then sm_AUTH_PAE_RESTART_Enter sm
        else sm
    | AUTH_PAE_FORCE_AUTH =>
        if eapolStart ms then sm_AUTH_PAE_FORCE_AUTH_Enter false sm else sm
    | AUTH_PAE_FORCE_UNAUTH =>
        if eapolStart ms then sm_AUTH_PAE_FORCE_UNAUTH_Enter false sm else sm
    end.

(** *** BE_AUTH *)
Definition SM_ENTRY_BE (state : be_auth_state_t) (global : bool) sm : eapol_sm E W :=
  let sm := if negb global || negb (bool_decide (be_auth_state (machines sm) = state))
            then sm <| changed := true |> else sm in
  sm <| machines; be_auth_state := state |>.

Definition sm_BE_AUTH_INITIALIZE_Enter (global : bool) sm : eapol_sm E W :=
  let sm := SM_ENTRY_BE BE_AUTH_INITIALIZE global sm in
  let sm := abortAuth sm in
  let sm := upd_if (fun i => i <| eapNoReq := false |>) sm in
  sm <| globals; authAbort := false |>.

Definition sm_BE_AUTH_REQUEST_Enter sm : res (eapol_sm E W) :=
  let sm := SM_ENTRY_BE BE_AUTH_REQUEST false sm in
  sm ← txReq sm;
  let sm := upd_if (fun i => i <| eapReq := false |>) sm in
  let sm := sm <| backendOtherRequestsToSupplicant ++ |> in
  mret (sm <| globals; eapolEap := false |>).

Definition sm_BE_AUTH_RESPONSE_Enter sm : eapol_sm E W :=
  let sm := SM_ENTRY_BE BE_AUTH_RESPONSE false sm in
  let sm := sm <| globals; authTimeout := false |> in
  let sm := sm <| globals; eapolEap := false |> in
  let sm := upd_if (fun i => i <| eapNoReq := false |>) sm in
  let sm := sm <| timers; aWhile := s32 (serverTimeout (consts sm)) |> in
  let sm := upd_if (fun i => i <| eapResp := true |>) sm in
  sm <| backendResponses ++ |>.

Definition sm_BE_AUTH_SUCCESS_Enter sm : res (eapol_sm E W) :=
  let sm := SM_ENTRY_BE BE_AUTH_SUCCESS false sm in
  sm ← txReq sm;
  let sm := sm <| globals; authSuccess := true |> in
  mret (sm <| globals; keyRun := true |>).

Definition sm_BE_AUTH_FAIL_Enter sm : res (eapol_sm E W) :=
  let sm := SM_ENTRY_BE BE_AUTH_FAIL false sm in
  sm ← txReq sm;
  mret (sm <| globals; authFail := true |>).

Definition sm_BE_AUTH_TIMEOUT_Enter sm : eapol_sm E W :=
  let sm := SM_ENTRY_BE BE_AUTH_TIMEOUT false sm in
  sm <| globals; authTimeout := true |>.

Definition sm_BE_AUTH_IDLE_Enter sm : eapol_sm E W :=
  let sm := SM_ENTRY_BE BE_AUTH_IDLE false sm in
  sm <| globals; authStart := false |>.

Definition sm_BE_AUTH_IGNORE_Enter sm : eapol_sm E W :=
  let sm := SM_ENTRY_BE BE_AUTH_IGNORE false sm in
  upd_if (fun i => i <| eapNoReq := false |>) sm.

Definition sm_BE_AUTH_Step sm : res (eapol_sm E W) :=
  let g := globals sm in
  if negb (portControl g =? Auto) || initialize g || authAbort g
  then mret (sm_BE_AUTH_INITIALIZE_Enter true sm)
  else
    match be_auth_state (machines sm) with
    | BE_AUTH_INITIALIZE => mret (sm_BE_AUTH_IDLE_Enter sm)
    | BE_AUTH_REQUEST =>
        if eapolEap g then mret (sm_BE_AUTH_RESPONSE_Enter sm)
        else if eapReq (eap_if sm) then sm_BE_AUTH_REQUEST_Enter sm
        else if eapTimeout (eap_if sm) then mret (sm_BE_AUTH_TIMEOUT_Enter sm)
        else mret sm
    | BE_AUTH_RESPONSE =>
        let sm := if eapNoReq (eap_if sm) then sm_BE_AUTH_IGNORE_Enter sm else sm in
        if eapReq (eap_if sm) then
          sm_BE_AUTH_REQUEST_Enter (sm <| backendAccessChallenges ++ |>)
        else if aWhile (timers sm) =? 0 then mret (sm_BE_AUTH_TIMEOUT_Enter sm)
        else if eapFail (eap_if sm) then
          sm_BE_AUTH_FAIL_Enter (sm <| backendAuthFails ++ |>)
        else if eapSuccess (eap_if sm) then
          sm_BE_AUTH_SUCCESS_Enter (sm <| backendAuthSuccesses ++ |>)
        else mret sm
    | BE_AUTH_SUCCESS => mret (sm_BE_AUTH_IDLE_Enter sm)
    | BE_AUTH_FAIL => mret (sm_BE_AUTH_IDLE_Enter sm)
    | BE_AUTH_TIMEOUT => mret (sm_BE_AUTH_IDLE_Enter sm)
    | BE_AUTH_IDLE =>
        if eapFail (eap_if sm) && authStart g then sm_BE_AUTH_FAIL_Enter sm
        else if eapReq (eap_if sm) && authStart g then sm_BE_AUTH_REQUEST_Enter sm
        else if eapSuccess (eap_if sm) && authStart g then sm_BE_AUTH_SUCCESS_Enter sm
        else mret sm
    | BE_AUTH_IGNORE =>
        if eapolEap g then mret (sm_BE_AUTH_RESPONSE_Enter sm)
        else if eapReq (eap_if sm) then sm_BE_AUTH_REQUEST_Enter sm
        else if eapTimeout (eap_if sm) then mret (sm_BE_AUTH_TIMEOUT_Enter sm)
        else mret sm
    end.

(** *** REAUTH_TIMER *)
Definition SM_ENTRY_RT (state : reauth_timer_state_t) (global : bool) sm : eapol_sm E W :=
  let sm := if negb global || negb (bool_decide (reauth_timer_state (machines sm) = state))
            then sm <| changed := true |> else sm in
  sm <| machines; reauth_timer_state := state |>.

Definition sm_REAUTH_TIMER_INITIALIZE_Enter (global : bool) sm : eapol_sm E W :=
  let sm := SM_ENTRY_RT REAUTH_TIMER_INITIALIZE global sm in
  sm <| timers; reAuthWhen := s32 (reAuthPeriod (consts sm)) |>.

Definition sm_REAUTH_TIMER_REAUTHENTICATE_Enter sm : eapol_sm E W :=
  let sm := SM_ENTRY_RT REAUTH_TIMER_REAUTHENTICATE false sm in
  let sm := sm <| globals; reAuthenticate := true |> in
  do_call (eapol_event EAPOL_AUTH_REAUTHENTICATE) sm.

Definition sm_REAUTH_TIMER_Step sm : eapol_sm E W :=
  let g := globals sm in
  if negb (portControl g =? Auto) || initialize g || (authPortStatus g =? Unauthorized) ||
     negb (reAuthEnabled (consts sm))
  then sm_REAUTH_TIMER_INITIALIZE_Enter true sm
  else
    match reauth_timer_state (machines sm) with
    | REAUTH_TIMER_INITIALIZE =>
        if reAuthWhen (timers sm) =? 0 then sm_REAUTH_TIMER_REAUTHENTICATE_Enter sm else sm
    | REAUTH_TIMER_REAUTHENTICATE => sm_REAUTH_TIMER_INITIALIZE_Enter false sm
    end.

(** *** AUTH_KEY_TX *)
Definition SM_ENTRY_TX (state : auth_key_tx_state_t) (global : bool) sm : eapol_sm E W :=
  let sm := if negb global || negb (bool_decide (auth_key_tx_state (machines sm) = state))
            then sm <| changed := true |> else sm in
  sm <| machines; auth_key_tx_state := state |>.

Definition sm_AUTH_KEY_TX_NO_KEY_TRANSMIT_Enter (global : bool) sm : eapol_sm E W :=
  SM_ENTRY_TX AUTH_KEY_TX_NO_KEY_TRANSMIT global sm.

Definition sm_AUTH_KEY_TX_KEY_TRANSMIT_Enter sm : eapol_sm E W :=
  let sm := SM_ENTRY_TX AUTH_KEY_TX_KEY_TRANSMIT false sm in
  let sm := txKey sm in
  let sm := upd_if (fun i => i <| eapKeyAvailable := false |>) sm in
  sm <| globals; keyDone := true |>.

Definition sm_AUTH_KEY_TX_Step sm : eapol_sm E W :=
  let g := globals sm in
  if initialize g || negb (portControl g =? Auto)
  then sm_AUTH_KEY_TX_NO_KEY_TRANSMIT_Enter true sm
  else
    match auth_key_tx_state (machines sm) with
    | AUTH_KEY_TX_NO_KEY_TRANSMIT =>
        if keyTxEnabled g && eapKeyAvailable (eap_if sm) && keyRun g &&
           negb (has_flag (flags (ids sm)) EAPOL_SM_USES_WPA)
        then sm_AUTH_KEY_TX_KEY_TRANSMIT_Enter sm else sm
    | AUTH_KEY_TX_KEY_TRANSMIT =>
        if negb (keyTxEnabled g) || negb (keyRun g)
        then sm_AUTH_KEY_TX_NO_KEY_TRANSMIT_Enter false sm
        else if eapKeyAvailable (eap_if sm) then sm_AUTH_KEY_TX_KEY_TRANSMIT_Enter sm
        else sm
    end.

(** *** KEY_RX *)
Definition SM_ENTRY_RX (state : key_rx_state_t) (global : bool) sm : eapol_sm E W :=
  let sm := if negb global || negb (bool_decide (key_rx_state (machines sm) = state))
            then sm <| changed := true |> else sm in
  sm <| machines; key_rx_state := state |>.

Definition sm_KEY_RX_NO_KEY_RECEIVE_Enter (global : bool) sm : eapol_sm E W :=
  SM_ENTRY_RX KEY_RX_NO_KEY_RECEIVE global sm.

Definition sm_KEY_RX_KEY_RECEIVE_Enter sm : eapol_sm E W :=
  let sm := SM_ENTRY_RX KEY_RX_KEY_RECEIVE false sm in
  sm <| machines; rxKey := false |>.

Definition sm_KEY_RX_Step sm : eapol_sm E W :=
  if initialize (globals sm) || negb (portEnabled (eap_if sm))
  then sm_KEY_RX_NO_KEY_RECEIVE_Enter true sm
  else
    match key_rx_state (machines sm) with
    | KEY_RX_NO_KEY_RECEIVE =>
        if rxKey (machines sm) then sm_KEY_RX_KEY_RECEIVE_Enter sm else sm
    | KEY_RX_KEY_RECEIVE =>
        if rxKey (machines sm) then sm_KEY_RX_KEY_RECEIVE_Enter sm else sm
    end.

(** *** CTRL_DIR *)
Definition SM_ENTRY_CD (state : ctrl_dir_state_t) (global : bool) sm : eapol_sm E W :=
  let sm := if negb global || negb (bool_decide (ctrl_dir_state (machines sm) = state))
            then sm <| changed := true |> else sm in
  sm <| machines; ctrl_dir_state := state |>.

Definition sm_CTRL_DIR_FORCE_BOTH_Enter (global : bool) sm : eapol_sm E W :=
  let sm := SM_ENTRY_CD CTRL_DIR_FORCE_BOTH global sm in
  sm <| machines; operControlledDirections := Both |>.

Definition sm_CTRL_DIR_IN_OR_BOTH_Enter (global : bool) sm : eapol_sm E W :=
  let sm := SM_ENTRY_CD CTRL_DIR_IN_OR_BOTH global sm in
  sm <| machines; operControlledDirections := adminControlledDirections (machines sm) |>.

Definition sm_CTRL_DIR_Step sm : eapol_sm E W :=
  if initialize (globals sm) then sm_CTRL_DIR_IN_OR_BOTH_Enter true sm
  else
    match ctrl_dir_state (machines sm) with
    | CTRL_DIR_FORCE_BOTH =>
        if portEnabled (eap_if sm) && operEdge (machines sm)
        then sm_CTRL_DIR_IN_OR_BOTH_Enter false sm else sm
    | CTRL_DIR_IN_OR_BOTH =>
        let sm := if negb (operControlledDirections (machines sm) =?
                           adminControlledDirections (machines sm))
                  then sm_CTRL_DIR_IN_OR_BOTH_Enter false sm else sm in
        if negb (portEnabled (eap_if sm)) || negb (operEdge (machines sm))
        then sm_CTRL_DIR_FORCE_BOTH_Enter false sm else sm
    end.

(** ** The driver *)

(** [eapol_auth_step]: [eloop_register_timeout(0, 0, eapol_sm_step_cb, sm, NULL)]. *)
Definition eapol_auth_step sm : eapol_sm E W :=
  sm <| eloop; to_step := to_step (eloop sm) + 1 |>.

Definition eapol_sm_sta_entry_alive (a : list Z) sm : bool := sta_entry_alive (sta sm) a.

(** [if (sm->initializing || eapol_sm_sta_entry_alive(eapol, addr)) SM_STEP_RUN(...)] *)
Definition if_alive (a : list Z) (step : eapol_sm E W -> eapol_sm E W) sm : eapol_sm E W :=
  if initializing sm || eapol_sm_sta_entry_alive a sm then step sm else sm.

Definition step_machines (a : list Z) sm : res (eapol_sm E W) :=
  let sm := sm_AUTH_PAE_Step sm in
  sm ← (if initializing sm || eapol_sm_sta_entry_alive a sm
        then sm_BE_AUTH_Step sm else mret sm);
  let sm := if_alive a sm_REAUTH_TIMER_Step sm in
  let sm := if_alive a sm_AUTH_KEY_TX_Step sm in
  let sm := if_alive a sm_KEY_RX_Step sm in
  mret (if_alive a sm_CTRL_DIR_Step sm).

(** No machine has moved: [prev_auth_pae == sm->auth_pae_state && ...]. *)
Definition states_same (ms ms' : eapol_machines) : bool :=
  bool_decide (auth_pae_state ms = auth_pae_state ms') &&
  bool_decide (be_auth_state ms = be_auth_state ms') &&
  bool_decide (reauth_timer_state ms = reauth_timer_state ms') &&
  bool_decide (auth_key_tx_state ms = auth_key_tx_state ms') &&
  bool_decide (key_rx_state ms = key_rx_state ms') &&
  bool_decide (ctrl_dir_state ms = ctrl_dir_state ms').

Definition sm_change_event (a : list Z) sm : eapol_sm E W :=
  if eapol_sm_sta_entry_alive a sm then do_call (eapol_event EAPOL_AUTH_SM_CHANGE) sm else sm.

(** [aaaEapResp]: hand the EAP server's response to the AAA client; the callers
    returns at once when there is none. *)
Definition send_aaa (a : list Z) sm : res (eapol_sm E W) :=
  if aaaEapResp (eap_if sm) then
    let sm := upd_if (fun i => i <| aaaEapResp := false |>) sm in
    match aaaEapRespData (eap_if sm) with
    | None => mret sm
    | Some d =>
        data ← rd_n (wpabuf_head d) 0 (wpabuf_len d);
        mret (sm_change_event a (do_call (aaa_send data) sm))
    end
  else mret (sm_change_event a sm).

(** The body of [eapol_sm_step_run] from the label [restart], with [max_steps]
    rounds left; [goto restart] is the recursive call, and with no round left
    the rest is left to the event loop. *)
Fixpoint eapol_sm_step_loop (max_steps : nat) (es : nat -> nat -> env) (a : list Z) sm
    : res (eapol_sm E W) :=
  match max_steps with
  | O => mret (eapol_auth_step sm)
  | S max_steps =>
      let prev := machines sm in
      sm ← step_machines a sm;
      if negb (states_same prev (machines sm)) then eapol_sm_step_loop max_steps es a sm
      else if eapol_sm_sta_entry_alive a sm then
        '(e, r) ← server_step (es max_steps) (eap sm);
        let sm := sm <| eap := e |> in
        if negb (r =? 0) then eapol_sm_step_loop max_steps es a sm
        else send_aaa a sm
      else mret (sm_change_event a sm)
  end.

Definition eapol_sm_step_run (es : nat -> nat -> env) sm : res (eapol_sm E W) :=
  eapol_sm_step_loop 100 es (addr (ids sm)) sm.

Definition eapol_sm_step_cb (es : nat -> nat -> env) sm : res (eapol_sm E W) :=
  eapol_sm_step_run es sm.

(** [if (v > 0) v--;] *)
Definition tick_down (v : Z) : Z := if 0 <? v then v - 1 else v.

Definition eapol_port_timers_tick (es : nat -> nat -> env) sm : res (eapol_sm E W) :=
  let sm := sm <| timers; aWhile := tick_down (aWhile (timers sm)) |> in
  let sm := sm <| timers; quietWhile := tick_down (quietWhile (timers sm)) |> in
  let sm := sm <| timers; reAuthWhen := tick_down (reAuthWhen (timers sm)) |> in
  let sm := upd_if (fun i => i <| retransWhile := tick_down (retransWhile i) |>) sm in
  sm ← eapol_sm_step_run es sm;
  mret (sm <| eloop; to_tick := to_tick (eloop sm) + 1 |>).

Definition eapol_auth_initialize (es es' : nat -> nat -> env) sm : res (eapol_sm E W) :=
  let sm := sm <| initializing := true |> in
  let sm := sm <| globals; initialize := true |> in
  sm ← eapol_sm_step_run es sm;
  let sm := sm <| globals; initialize := false |> in
  sm ← eapol_sm_step_run es' sm;
  let sm := sm <| initializing := false |> in
  let sm := sm <| eloop; to_tick := 0 |> in
  mret (sm <| eloop; to_tick := to_tick (eloop sm) + 1 |>).

(** [eapol_auth_eap_pending_cb], for a call with [ctx == sm->eap]; the other
    calls return [-1] and change nothing. *)
Definition eapol_auth_eap_pending_cb (sm : option (eapol_sm E W)) (ctx_is_eap : bool)
    : Z * option (eapol_sm E W) :=
  match sm with
  | None => (-1, None)
  | Some s =>
      if negb ctx_is_eap then (-1, Some s) else
      let s := s <| eap := server_pending_cb (eap s) |> in
      (0, Some (eapol_auth_step s))
  end.
End machine.

(** ** Configuration, allocation and release *)

(** [struct eapol_auth_config]; [ssl_ctx], [msg_ctx], [eap_sim_db_priv] and [wps]
    are addresses that are only handed on, [ctx] is the owner. *)
#[projections(primitive)]
Record eapol_auth_config := {
  eap_reauth_period : Z;
  wpa : Z;
  individual_wep_key_len : Z;
  eap_server : Z;
  ssl_ctx : Z;
  msg_ctx : Z;
  eap_sim_db_priv : Z;
  eap_req_id_text : option (list Z);
  eap_req_id_text_len : Z;
  pac_opaque_encr_key : option (list Z);
  eap_fast_a_id : option (list Z);
  eap_fast_a_id_len : Z;
  eap_fast_a_id_info : option (list Z);
  eap_fast_prov : Z;
  pac_key_lifetime : Z;
  pac_key_refresh_time : Z;
  eap_sim_aka_result_ind : Z;
  tnc : Z;
  wps : Z;
  fragment_size : Z;
  pwd_group : Z;
}.

Definition eapol_auth_config_zero : eapol_auth_config :=
  Build_eapol_auth_config 0 0 0 0 0 0 0 None 0 None None 0 None 0 0 0 0 0 0 0 0.

(** [struct eapol_authenticator]; of [cb], the one callback that answers the EAP
    server. *)
#[projections(primitive)]
Record eapol_authenticator := {
  conf : eapol_auth_config;
  cb_get_eap_user : list Z -> Z -> option eap_user;
  default_wep_key : option (list Z);
  default_wep_key_idx : Z;
}.

(** [os_malloc(n)] and [os_memcpy] of a configuration value that is tested. *)
Definition clone_bytes (e : env) (src : list Z) (n : Z) : res (option (list Z)) :=
  if malloc_ok e n then d ← rd_n src 0 n; mret (Some d) else mret None.

(** The four allocations of [eapol_auth_conf_clone], in order; the copy of
    [pac_opaque_encr_key] goes through the result of [os_malloc] untested. *)
Definition clone_req_id_text (e : env) (dst src : eapol_auth_config)
    : res (option eapol_auth_config) :=
  match eap_req_id_text src with
  | Some d =>
      r ← clone_bytes e d (eap_req_id_text_len src);
      mret (match r with
            | None => None
            | Some _ => Some (dst <| eap_req_id_text := r |>
                                  <| eap_req_id_text_len := eap_req_id_text_len src |>)
            end)
  | None => mret (Some (dst <| eap_req_id_text := None |> <| eap_req_id_text_len := 0 |>))
  end.

Definition clone_pac_key (e : env) (dst src : eapol_auth_config) : res eapol_auth_config :=
  match pac_opaque_encr_key src with
  | Some k =>
      if malloc_ok e 16 then
        k ← rd_n k 0 16; mret (dst <| pac_opaque_encr_key := Some k |>)
      else Fault NullDeref
  | None => mret (dst <| pac_opaque_encr_key := None |>)
  end.

Definition clone_fast_a_id (e : env) (dst src : eapol_auth_config)
    : res (option eapol_auth_config) :=
  match eap_fast_a_id src with
  | Some d =>
      r ← clone_bytes e d (eap_fast_a_id_len src);
      mret (match r with
            | None => None
            | Some _ => Some (dst <| eap_fast_a_id := r |>
                                  <| eap_fast_a_id_len := eap_fast_a_id_len src |>)
            end)
  | None => mret (Some (dst <| eap_fast_a_id := None |>))
  end.

Definition clone_fast_a_id_info (e : env) (dst src : eapol_auth_config)
    : option eapol_auth_config :=
  match eap_fast_a_id_info src with
  | Some s => if malloc_ok e (zlen s + 1) then Some (dst <| eap_fast_a_id_info := Some s |>)
              else None
  | None => Some (dst <| eap_fast_a_id_info := None |>)
  end.

(** [None] is the return of [-1]; the caller then drops [dst]. *)
Definition eapol_auth_conf_clone (e : env) (dst src : eapol_auth_config)
    : res (option eapol_auth_config) :=
  let dst := dst <| eap_reauth_period := eap_reauth_period src |> in
  let dst := dst <| wpa := wpa src |> in
  let dst := dst <| individual_wep_key_len := individual_wep_key_len src |> in
  let dst := dst <| eap_server := eap_server src |> in
  let dst := dst <| ssl_ctx := ssl_ctx src |> in
  let dst := dst <| msg_ctx := msg_ctx src |> in
  let dst := dst <| eap_sim_db_priv := eap_sim_db_priv src |> in
  let dst := dst <| pwd_group := pwd_group src |> in
  r ← clone_req_id_text e dst src;
  match r with None => mret None | Some dst =>
  dst ← clone_pac_key e dst src;
  r ← clone_fast_a_id e dst src;
  match r with None => mret None | Some dst =>
  match clone_fast_a_id_info e dst src with None => mret None | Some dst =>
  let dst := dst <| eap_fast_prov := eap_fast_prov src |> in
  let dst := dst <| pac_key_lifetime := pac_key_lifetime src |> in
  let dst := dst <| pac_key_refresh_time := pac_key_refresh_time src |> in
  let dst := dst <| eap_sim_aka_result_ind := eap_sim_aka_result_ind src |> in
  let dst := dst <| tnc := tnc src |> in
  let dst := dst <| wps := wps src |> in
  mret (Some (dst <| fragment_size := fragment_size src |>))
  end end end.

Definition eapol_auth_conf_free (c : eapol_auth_config) : eapol_auth_config :=
  c <| eap_req_id_text := None |> <| pac_opaque_encr_key := None |>
    <| eap_fast_a_id := None |> <| eap_fast_a_id_info := None |>.

Definition sizeof_eapol_authenticator : Z := 160.
Definition sizeof_eapol_state_machine : Z := 380.

Definition eapol_auth_init (e : env) (c : eapol_auth_config)
    (get_user : list Z -> Z -> option eap_user) : res (option eapol_authenticator) :=
  if negb (malloc_ok e sizeof_eapol_authenticator) then mret None else
  r ← eapol_auth_conf_clone e eapol_auth_config_zero c;
  match r with
  | None => mret None
  | Some c' =>
      mret (Some {| conf := c'; cb_get_eap_user := get_user; default_wep_key := None;
                    default_wep_key_idx := if 0 <? individual_wep_key_len c then 1 else 0 |})
  end.

(** [eapol_sm_get_eap_user] and [eapol_sm_get_eap_req_id_text], as the
    [eapol_callbacks] that [eapol_auth_alloc] registers. *)
Definition eapol_sm_get_eap_user (eapol : eapol_authenticator) (id : list Z) (ph : Z)
    : option eap_user := cb_get_eap_user eapol id ph.
Definition eapol_sm_get_eap_req_id_text (eapol : eapol_authenticator) : option (list Z) * Z :=
  (eap_req_id_text (conf eapol), eap_req_id_text_len (conf eapol)).
Definition eapol_cb (eapol : eapol_authenticator) : eapol_callbacks :=
  {| get_eap_user := Some (eapol_sm_get_eap_user eapol);
     get_eap_req_id_text := Some (eapol_sm_get_eap_req_id_text eapol) |}.

(** The [struct eap_config] that [eapol_auth_alloc] fills in. *)
Definition alloc_eap_conf (c : eapol_auth_config) (a : list Z)
    (assoc_wps_ie assoc_p2p_ie : option wpabuf) : eap_config :=
  {| conf_ssl_ctx := ssl_ctx c; conf_msg_ctx := msg_ctx c;
     conf_eap_sim_db_priv := eap_sim_db_priv c; conf_backend_auth := false;
     conf_eap_server := eap_server c; conf_pwd_group := pwd_group c;
     conf_pac_opaque_encr_key := pac_opaque_encr_key c;
     conf_eap_fast_a_id := eap_fast_a_id c; conf_eap_fast_a_id_len := eap_fast_a_id_len c;
     conf_eap_fast_a_id_info := eap_fast_a_id_info c; conf_eap_fast_prov := eap_fast_prov c;
     conf_pac_key_lifetime := pac_key_lifetime c;
     conf_pac_key_refresh_time := pac_key_refresh_time c;
     conf_eap_sim_aka_result_ind := eap_sim_aka_result_ind c; conf_tnc := tnc c;
     conf_wps := wps c; conf_assoc_wps_ie := assoc_wps_ie;
     conf_assoc_p2p_ie := assoc_p2p_ie; conf_peer_addr := Some a;
     conf_fragment_size := fragment_size c |}.

Section alloc.
Context {E W : Type} {server : EapServerOps E} {cb : EapolAuthCb E W}.
Implicit Type sm : eapol_sm E W.

(** The fields as [os_zalloc] and the assignments before [eap_server_sm_init]
    leave them. *)
Definition alloc_sm (eapol : eapol_authenticator) (a : list Z) (fl : Z) (e : E) (w : W)
    : eapol_sm E W :=
  let c := conf eapol in
  {| timers := {| aWhile := 0; quietWhile := 0; reAuthWhen := 0 |};
     globals :=
       {| authAbort := false; authFail := false; authPortStatus := 0; authStart := false;
          authTimeout := false; authSuccess := false; eapolEap := false; initialize := false;
          keyDone := false; keyRun := false;
          keyTxEnabled := (wpa c =? 0) &&
            ((match default_wep_key eapol with Some _ => true | None => false end) ||
             (0 <? individual_wep_key_len c));
          portControl := Auto; portValid := wpa c =? 0; reAuthenticate := false |};
     machines :=
       {| auth_pae_state := AUTH_PAE_INITIALIZE; eapolLogoff := false; eapolStart := false;
          portMode := 0; reAuthCount := 0; be_auth_state := BE_AUTH_INITIALIZE;
          reauth_timer_state := REAUTH_TIMER_INITIALIZE;
          auth_key_tx_state := AUTH_KEY_TX_NO_KEY_TRANSMIT;
          key_rx_state := KEY_RX_NO_KEY_RECEIVE; rxKey := false;
          ctrl_dir_state := CTRL_DIR_IN_OR_BOTH; adminControlledDirections := Both;
          operControlledDirections := Both; operEdge := false |};
     consts :=
       {| quietPeriod := AUTH_PAE_DEFAULT_quietPeriod; reAuthMax := AUTH_PAE_DEFAULT_reAuthMax;
          serverTimeout := BE_AUTH_DEFAULT_serverTimeout;
          reAuthPeriod := u32 (eap_reauth_period c);
          reAuthEnabled := 0 <? eap_reauth_period c |};
     counters := counters_zero;
     ids :=
       {| addr := a; flags := fl; radius_identifier := -1; last_recv_radius := None;
          last_eap_id := 0; sm_identity := None; sm_identity_len := 0;
          eap_type_authsrv := 0; eap_type_supp := 0 |};
     eap := e; initializing := false; changed := false; sta := w;
     eloop := {| to_tick := 0; to_step := 0 |}; calls := [] |}.

(** [es], [es'] are the environments of the two runs of [eapol_auth_initialize].
    When the EAP server cannot be allocated, [eapol_auth_free] only frees. *)
Definition eapol_auth_alloc (e : env) (es es' : nat -> nat -> env)
    (eapol : option eapol_authenticator) (address : list Z) (fl : Z)
    (assoc_wps_ie assoc_p2p_ie : option wpabuf) (sta_ctx : W) : res (option (eapol_sm E W)) :=
  match eapol with
  | None => mret None
  | Some eapol =>
      if negb (malloc_ok e sizeof_eapol_state_machine) then mret None else
      a ← rd_n address 0 6;
      r ← server_init e (eapol_cb eapol)
            (alloc_eap_conf (conf eapol) address assoc_wps_ie assoc_p2p_ie);
      match r with
      | None => mret None
      | Some ep =>
          sm ← eapol_auth_initialize es es' (alloc_sm eapol a fl ep sta_ctx);
          mret (Some sm)
      end
  end.

(** What [eapol_auth_free] does before it frees the structure: both timeouts are
    cancelled and the EAP server released. *)
Definition eapol_auth_free (sm : option (eapol_sm E W)) : res (option eapol_timeouts) :=
  match sm with
  | None => mret None
  | Some sm =>
      let sm := sm <| eloop; to_tick := 0 |> in
      let sm := sm <| eloop; to_step := 0 |> in
      _ ← server_deinit (eap sm);
      mret (Some (eloop sm))
  end.
End alloc.
