(* ===== verification/EapolAuthInv.v ===== *)
(** * Invariants of the EAPOL authenticator

    What the owner's callbacks may do, the invariant that ties the state of
    AUTH_PAE to the port, what each of the six machines keeps and changes, and
    the steps a port can take ([port_step]).  The properties are in
    [EapolAuthProps]. *)

From S2P Require Import Prelude WpaBuf EapCommon EapI EapServerI EapolAuth.

Section inv.
Context {E W : Type} {server : EapServerOps E} {server_laws : EapServerLaws E}.
Context {cb : EapolAuthCb E W}.
Implicit Type sm : eapol_sm E W.

(** ** The owner's side *)

(** What a callback may change: [keyDone], [keyRun], [portControl] (to [Auto]),
    [portValid], [portEnabled] and [eapKeyAvailable], the counters, the kept
    RADIUS message, its own data, and it may ask for another step. *)
Record owner_frame sm sm' : Prop := {
  of_timers : timers sm' = timers sm;
  of_machines : machines sm' = machines sm;
  of_consts : consts sm' = consts sm;
  of_calls : calls sm' = calls sm;
  of_initializing : initializing sm' = initializing sm;
  of_globals : exists kd kr pc pv,
    globals sm' = (globals sm) <| keyDone := kd |> <| keyRun := kr |>
                    <| portControl := pc |> <| portValid := pv |> /\
    (pc = portControl (globals sm) \/ pc = Auto);
  of_ids : exists r, ids sm' = (ids sm) <| last_recv_radius := r |>;
  of_if : exists pe ka,
    eap sm' = if_set ((eap_if sm) <| portEnabled := pe |> <| eapKeyAvailable := ka |>) (eap sm);
  of_tick : to_tick (eloop sm') = to_tick (eloop sm);
  of_step : to_step (eloop sm) <= to_step (eloop sm');
}.
End inv.

Class EapolAuthCbLaws (E W : Type) {server : EapServerOps E} {cb : EapolAuthCb E W} := {
  cb_law c (sm : eapol_sm E W) : owner_frame sm (cb_call c sm);
}.

Section inv.
Context {E W : Type} {server : EapServerOps E} {server_laws : EapServerLaws E}.
Context {cb : EapolAuthCb E W} {cb_laws : EapolAuthCbLaws E W}.
Implicit Type sm : eapol_sm E W.

Lemma do_call_frame c sm : owner_frame (sm <| calls := c :: calls sm |>) (do_call c sm).
Proof using cb_laws. apply cb_law. Qed.

(** Projections of the state after a callback. *)
Lemma do_call_timers c sm : timers (do_call c sm) = timers sm.
Proof using cb_laws. apply (of_timers _ _ (do_call_frame c sm)). Qed.
Lemma do_call_machines c sm : machines (do_call c sm) = machines sm.
Proof using cb_laws. apply (of_machines _ _ (do_call_frame c sm)). Qed.
Lemma do_call_consts c sm : consts (do_call c sm) = consts sm.
Proof using cb_laws. apply (of_consts _ _ (do_call_frame c sm)). Qed.
Lemma do_call_calls c sm : calls (do_call c sm) = c :: calls sm.
Proof using cb_laws. apply (of_calls _ _ (do_call_frame c sm)). Qed.
Lemma do_call_tick c sm : to_tick (eloop (do_call c sm)) = to_tick (eloop sm).
Proof using cb_laws. apply (of_tick _ _ (do_call_frame c sm)). Qed.
Lemma do_call_control c sm :
  portControl (globals (do_call c sm)) = portControl (globals sm) \/
  portControl (globals (do_call c sm)) = Auto.
Proof using cb_laws.
  by destruct (of_globals _ _ (do_call_frame c sm)) as (kd & kr & pc & pv & -> & [-> | ->]);
    [left|right].
Qed.
Lemma do_call_initializing c sm : initializing (do_call c sm) = initializing sm.
Proof using cb_laws. apply (of_initializing _ _ (do_call_frame c sm)). Qed.

(** Variables that no callback writes. *)
Definition own {A} (f : eapol_globals -> A) : Prop :=
  forall g kd kr pc pv, f (g <| keyDone := kd |> <| keyRun := kr |>
    <| portControl := pc |> <| portValid := pv |>) = f g.
Definition own_if {A} (f : eap_eapol_interface -> A) : Prop :=
  forall i pe ka, f (i <| portEnabled := pe |> <| eapKeyAvailable := ka |>) = f i.

Lemma do_call_own {A} (f : eapol_globals -> A) c sm :
  own f -> f (globals (do_call c sm)) = f (globals sm).
Proof using cb_laws.
  intros Hf. destruct (of_globals _ _ (do_call_frame c sm)) as (kd & kr & pc & pv & -> & _).
  apply Hf.
Qed.

Lemma do_call_if {A} (f : eap_eapol_interface -> A) c sm :
  own_if f -> f (eap_if (do_call c sm)) = f (eap_if sm).
Proof using cb_laws server_laws.
  intros Hf. unfold eap_if at 1. destruct (of_if _ _ (do_call_frame c sm)) as (pe & ka & ->).
  rewrite if_get_set. apply Hf.
Qed.

Lemma do_call_flags c sm : flags (ids (do_call c sm)) = flags (ids sm).
Proof using cb_laws. by destruct (of_ids _ _ (do_call_frame c sm)) as [r ->]. Qed.
Lemma do_call_addr c sm : addr (ids (do_call c sm)) = addr (ids sm).
Proof using cb_laws. by destruct (of_ids _ _ (do_call_frame c sm)) as [r ->]. Qed.

(** Writes of the shared variables that keep the buffers. *)
Definition keeps_buffers (f : eap_eapol_interface -> eap_eapol_interface) : Prop :=
  forall i, eapRespData (f i) = eapRespData i /\ eapReqData (f i) = eapReqData i /\
    aaaEapReqData (f i) = aaaEapReqData i /\ aaaEapRespData (f i) = aaaEapRespData i /\
    aaaEapKeyData (f i) = aaaEapKeyData i /\ aaaEapKeyDataLen (f i) = aaaEapKeyDataLen i.

Lemma if_set_buffers f e : keeps_buffers f -> server_inv e ->
  server_inv (if_set (f (if_get e)) e).
Proof using Type.
  intros Hf H. destruct (Hf (if_get e)) as (H1 & H2 & H3 & H4 & H5 & H6).
  apply if_set_law; [done| |by rewrite H1].
  destruct (if_wf_law _ H) as (W1 & W2 & W3 & W4 & W5). unfold wf_if.
  by rewrite H1, H2, H3, H4, H5, H6.
Qed.

Lemma if_set_fields i e : server_inv e ->
  eapRespData i = eapRespData (if_get e) -> eapReqData i = eapReqData (if_get e) ->
  aaaEapReqData i = aaaEapReqData (if_get e) -> aaaEapRespData i = aaaEapRespData (if_get e) ->
  aaaEapKeyData i = aaaEapKeyData (if_get e) ->
  aaaEapKeyDataLen i = aaaEapKeyDataLen (if_get e) -> server_inv (if_set i e).
Proof using Type.
  intros H H1 H2 H3 H4 H5 H6. apply if_set_law; [done| |by rewrite H1].
  destruct (if_wf_law _ H) as (W1 & W2 & W3 & W4 & W5). unfold wf_if.
  by rewrite H1, H2, H3, H4, H5, H6.
Qed.

Lemma do_call_server c sm : server_inv (eap sm) -> server_inv (eap (do_call c sm)).
Proof using cb_laws.
  intros H. destruct (of_if _ _ (do_call_frame c sm)) as (pe & ka & ->).
  by apply (if_set_buffers (fun i => i <| portEnabled := pe |> <| eapKeyAvailable := ka |>)).
Qed.

Lemma upd_if_server f sm : keeps_buffers f -> server_inv (eap sm) ->
  server_inv (eap (upd_if f sm)).
Proof using Type. apply if_set_buffers. Qed.

Lemma upd_if_get f sm : if_get (eap (upd_if f sm)) = f (if_get (eap sm)).
Proof using server_laws. unfold upd_if, eap_if. cbn. apply if_get_set. Qed.

Lemma do_call_authAbort c sm : authAbort (globals (do_call c sm)) = authAbort (globals sm).
Proof using cb_laws. by apply (do_call_own authAbort). Qed.
Lemma do_call_authFail c sm : authFail (globals (do_call c sm)) = authFail (globals sm).
Proof using cb_laws. by apply (do_call_own authFail). Qed.
Lemma do_call_authPortStatus c sm : authPortStatus (globals (do_call c sm)) = authPortStatus (globals sm).
Proof using cb_laws. by apply (do_call_own authPortStatus). Qed.
Lemma do_call_authStart c sm : authStart (globals (do_call c sm)) = authStart (globals sm).
Proof using cb_laws. by apply (do_call_own authStart). Qed.
Lemma do_call_authTimeout c sm : authTimeout (globals (do_call c sm)) = authTimeout (globals sm).
Proof using cb_laws. by apply (do_call_own authTimeout). Qed.
Lemma do_call_authSuccess c sm : authSuccess (globals (do_call c sm)) = authSuccess (globals sm).
Proof using cb_laws. by apply (do_call_own authSuccess). Qed.
Lemma do_call_eapolEap c sm : eapolEap (globals (do_call c sm)) = eapolEap (globals sm).
Proof using cb_laws. by apply (do_call_own eapolEap). Qed.
Lemma do_call_initialize c sm : initialize (globals (do_call c sm)) = initialize (globals sm).
Proof using cb_laws. by apply (do_call_own initialize). Qed.
Lemma do_call_reAuthenticate c sm : reAuthenticate (globals (do_call c sm)) = reAuthenticate (globals sm).
Proof using cb_laws. by apply (do_call_own reAuthenticate). Qed.
Lemma do_call_keyTxEnabled c sm : keyTxEnabled (globals (do_call c sm)) = keyTxEnabled (globals sm).
Proof using cb_laws. by apply (do_call_own keyTxEnabled). Qed.
Lemma do_call_eapSuccess c sm : eapSuccess (if_get (eap (do_call c sm))) = eapSuccess (if_get (eap sm)).
Proof using cb_laws server_laws. by apply (do_call_if eapSuccess). Qed.
Lemma do_call_eapFail c sm : eapFail (if_get (eap (do_call c sm))) = eapFail (if_get (eap sm)).
Proof using cb_laws server_laws. by apply (do_call_if eapFail). Qed.
Lemma do_call_eapReq c sm : eapReq (if_get (eap (do_call c sm))) = eapReq (if_get (eap sm)).
Proof using cb_laws server_laws. by apply (do_call_if eapReq). Qed.
Lemma do_call_eapRestart c sm : eapRestart (if_get (eap (do_call c sm))) = eapRestart (if_get (eap sm)).
Proof using cb_laws server_laws. by apply (do_call_if eapRestart). Qed.
Lemma do_call_eapNoReq c sm : eapNoReq (if_get (eap (do_call c sm))) = eapNoReq (if_get (eap sm)).
Proof using cb_laws server_laws. by apply (do_call_if eapNoReq). Qed.
Lemma do_call_eapResp c sm : eapResp (if_get (eap (do_call c sm))) = eapResp (if_get (eap sm)).
Proof using cb_laws server_laws. by apply (do_call_if eapResp). Qed.
Lemma do_call_eapTimeout c sm : eapTimeout (if_get (eap (do_call c sm))) = eapTimeout (if_get (eap sm)).
Proof using cb_laws server_laws. by apply (do_call_if eapTimeout). Qed.
Lemma do_call_retransWhile c sm : retransWhile (if_get (eap (do_call c sm))) = retransWhile (if_get (eap sm)).
Proof using cb_laws server_laws. by apply (do_call_if retransWhile). Qed.
Lemma do_call_eapReqData c sm : eapReqData (if_get (eap (do_call c sm))) = eapReqData (if_get (eap sm)).
Proof using cb_laws server_laws. by apply (do_call_if eapReqData). Qed.
Lemma do_call_eapRespData c sm : eapRespData (if_get (eap (do_call c sm))) = eapRespData (if_get (eap sm)).
Proof using cb_laws server_laws. by apply (do_call_if eapRespData). Qed.
Lemma do_call_aaaEapResp c sm : aaaEapResp (if_get (eap (do_call c sm))) = aaaEapResp (if_get (eap sm)).
Proof using cb_laws server_laws. by apply (do_call_if aaaEapResp). Qed.
Lemma do_call_aaaEapRespData c sm : aaaEapRespData (if_get (eap (do_call c sm))) = aaaEapRespData (if_get (eap sm)).
Proof using cb_laws server_laws. by apply (do_call_if aaaEapRespData). Qed.
End inv.

(** Computes projections of updated states, through callbacks. *)
Ltac eapol_simpl :=
  unfold eap_if, setPortAuthorized, setPortUnauthorized, abortAuth, txKey, txReq, txCannedFail,
    txCannedSuccess, eapol_auth_tx_canned_eap, SM_ENTRY_PAE, SM_ENTRY_BE, SM_ENTRY_RT,
    SM_ENTRY_TX, SM_ENTRY_RX, SM_ENTRY_CD; cbn zeta;
  repeat (first [ progress cbn | progress unfold eap_if | progress (rewrite ?if_get_set, ?do_call_timers, ?do_call_machines, ?do_call_consts, ?do_call_calls,
    ?do_call_initializing, ?do_call_tick, ?do_call_flags, ?do_call_addr, ?upd_if_get, ?do_call_authAbort,
    ?do_call_authFail, ?do_call_authPortStatus, ?do_call_authStart, ?do_call_authTimeout,
    ?do_call_authSuccess, ?do_call_eapolEap, ?do_call_initialize, ?do_call_reAuthenticate,
    ?do_call_keyTxEnabled, ?do_call_eapSuccess, ?do_call_eapFail, ?do_call_eapReq,
    ?do_call_eapRestart, ?do_call_eapNoReq, ?do_call_eapResp, ?do_call_eapTimeout,
    ?do_call_retransWhile, ?do_call_eapReqData, ?do_call_eapRespData, ?do_call_aaaEapResp,
    ?do_call_aaaEapRespData) ]).

(** [server_inv] through updates and callbacks. *)
Ltac server_tac :=
  intros ?; repeat (first
    [ assumption
    | apply do_call_server
    | apply upd_if_server; [by intros ?; split_and!|]
    | apply if_set_fields; [| solve [eapol_simpl; reflexivity] ..]
    | progress cbn
    | case_match ]).

(** Boolean conditions as propositions. *)
Ltac bool_props :=
  rewrite ?orb_true_iff, ?andb_true_iff, ?orb_true_iff, ?negb_true_iff, ?Z.ltb_lt;
  repeat match goal with
  | H : _ |- _ =>
      progress (rewrite ?orb_false_iff, ?andb_true_iff, ?orb_true_iff, ?negb_true_iff,
        ?negb_false_iff, ?Z.eqb_eq, ?Z.eqb_neq, ?Z.ltb_lt, ?Z.ltb_ge, ?Z.leb_le in H)
  end.

Section inv.
Context {E W : Type} {server : EapServerOps E} {server_laws : EapServerLaws E}.
Context {cb : EapolAuthCb E W} {cb_laws : EapolAuthCbLaws E W}.
Implicit Type sm : eapol_sm E W.


(** ** Entries of AUTH_PAE *)

(** The last word of the machine to the driver about the port. *)
Fixpoint last_port (l : list auth_call) : option bool :=
  match l with
  | [] => None
  | set_port_authorized b :: _ => Some b
  | _ :: l => last_port l
  end.

Definition port_of sm : Z * option bool := (authPortStatus (globals sm), last_port (calls sm)).
Definition port_set (b : bool) : Z * option bool :=
  (if b then Authorized else Unauthorized, Some b).

(** What entering a state does to the port. *)
Definition pae_port (st : auth_pae_state_t) : option bool :=
  match st with
  | AUTH_PAE_DISCONNECTED | AUTH_PAE_HELD | AUTH_PAE_FORCE_UNAUTH => Some false
  | AUTH_PAE_AUTHENTICATED | AUTH_PAE_FORCE_AUTH => Some true
  | _ => None
  end.

Definition pae_count (st : auth_pae_state_t) (n : Z) : Z :=
  match st with
  | AUTH_PAE_DISCONNECTED | AUTH_PAE_AUTHENTICATED => 0
  | AUTH_PAE_CONNECTING => u32 (n + 1)
  | _ => n
  end.

(** What no machine but the owner and the layers below change, and what only
    the named machine changes. *)
Record kept sm sm' : Prop := {
  kp_server : server_inv (eap sm) -> server_inv (eap sm');
  kp_success : eapSuccess (eap_if sm') = eapSuccess (eap_if sm);
  kp_consts : consts sm' = consts sm;
  kp_initializing : initializing sm' = initializing sm;
  kp_initialize : initialize (globals sm') = initialize (globals sm);
  kp_addr : addr (ids sm') = addr (ids sm);
  kp_tick : to_tick (eloop sm') = to_tick (eloop sm);
}.

Record pae_entered (st : auth_pae_state_t) sm sm' : Prop := {
  pe_kept : kept sm sm';
  pe_state : auth_pae_state (machines sm') = st;
  pe_be : be_auth_state (machines sm') = be_auth_state (machines sm);
  pe_auth : authSuccess (globals sm') = true -> authSuccess (globals sm) = true;
  pe_port : port_of sm' = match pae_port st with Some b => port_set b | None => port_of sm end;
  pe_count : reAuthCount (machines sm') = pae_count st (reAuthCount (machines sm));
  pe_quiet : quietWhile (timers sm') =
    if bool_decide (st = AUTH_PAE_HELD) then s32 (quietPeriod (consts sm))
    else quietWhile (timers sm);
}.

Ltac enter_tac :=
  constructor; [constructor; [unfold setPortAuthorized, setPortUnauthorized, abortAuth, txKey,
      txCannedFail, txCannedSuccess, eapol_auth_tx_canned_eap, SM_ENTRY_PAE; cbn zeta;
      server_tac | ..] | ..];
  unfold port_of, preauth_flag; eapol_simpl; repeat (case_match; eapol_simpl); try done.

Lemma enter_PAE_INITIALIZE g sm :
  pae_entered AUTH_PAE_INITIALIZE sm (sm_AUTH_PAE_INITIALIZE_Enter g sm).
Proof using cb_laws. unfold sm_AUTH_PAE_INITIALIZE_Enter. enter_tac. Qed.
Lemma enter_PAE_DISCONNECTED sm :
  pae_entered AUTH_PAE_DISCONNECTED sm (sm_AUTH_PAE_DISCONNECTED_Enter sm).
Proof using cb_laws. unfold sm_AUTH_PAE_DISCONNECTED_Enter. enter_tac. Qed.
Lemma enter_PAE_RESTART sm :
  pae_entered AUTH_PAE_RESTART sm (sm_AUTH_PAE_RESTART_Enter sm).
Proof using cb_laws. unfold sm_AUTH_PAE_RESTART_Enter. enter_tac. Qed.
Lemma enter_PAE_CONNECTING sm :
  pae_entered AUTH_PAE_CONNECTING sm (sm_AUTH_PAE_CONNECTING_Enter sm).
Proof using cb_laws. unfold sm_AUTH_PAE_CONNECTING_Enter. enter_tac. Qed.
Lemma enter_PAE_HELD sm :
  pae_entered AUTH_PAE_HELD sm (sm_AUTH_PAE_HELD_Enter sm).
Proof using cb_laws. unfold sm_AUTH_PAE_HELD_Enter. enter_tac. Qed.
Lemma enter_PAE_AUTHENTICATED sm :
  pae_entered AUTH_PAE_AUTHENTICATED sm (sm_AUTH_PAE_AUTHENTICATED_Enter sm).
Proof using cb_laws. unfold sm_AUTH_PAE_AUTHENTICATED_Enter. enter_tac. Qed.
Lemma enter_PAE_AUTHENTICATING sm :
  pae_entered AUTH_PAE_AUTHENTICATING sm (sm_AUTH_PAE_AUTHENTICATING_Enter sm).
Proof using cb_laws. unfold sm_AUTH_PAE_AUTHENTICATING_Enter. enter_tac. Qed.
Lemma enter_PAE_ABORTING sm :
  pae_entered AUTH_PAE_ABORTING sm (sm_AUTH_PAE_ABORTING_Enter sm).
Proof using cb_laws. unfold sm_AUTH_PAE_ABORTING_Enter. enter_tac. Qed.
Lemma enter_PAE_FORCE_AUTH g sm :
  pae_entered AUTH_PAE_FORCE_AUTH sm (sm_AUTH_PAE_FORCE_AUTH_Enter g sm).
Proof using cb_laws. unfold sm_AUTH_PAE_FORCE_AUTH_Enter. enter_tac. Qed.
Lemma enter_PAE_FORCE_UNAUTH g sm :
  pae_entered AUTH_PAE_FORCE_UNAUTH sm (sm_AUTH_PAE_FORCE_UNAUTH_Enter g sm).
Proof using cb_laws. unfold sm_AUTH_PAE_FORCE_UNAUTH_Enter. enter_tac. Qed.

(** ** The transitions of AUTH_PAE

    [pae_guard st sm]: the state diagram of IEEE Std 802.1X-2004, 8.2.4, as the
    conditions under which the machine in [sm] enters [st]. *)
Definition pae_global sm : bool :=
  (portControl (globals sm) =? Auto) && negb (portMode (machines sm) =? portControl (globals sm)) ||
  initialize (globals sm) || negb (portEnabled (eap_if sm)).

Definition pae_guard (st : auth_pae_state_t) sm : Prop :=
  let g := globals sm in let ms := machines sm in let i := eap_if sm in
  let from s := auth_pae_state ms = s in
  match st with
  | AUTH_PAE_INITIALIZE => pae_global sm = true
  | AUTH_PAE_FORCE_AUTH =>
      portControl g = ForceAuthorized \/ from AUTH_PAE_FORCE_AUTH /\ eapolStart ms = true
  | AUTH_PAE_FORCE_UNAUTH =>
      portControl g = ForceUnauthorized \/ from AUTH_PAE_FORCE_UNAUTH /\ eapolStart ms = true
  | AUTH_PAE_DISCONNECTED =>
      from AUTH_PAE_INITIALIZE \/
      from AUTH_PAE_CONNECTING /\ eapolLogoff ms || (reAuthMax (consts sm) <? reAuthCount ms) = true \/
      from AUTH_PAE_AUTHENTICATED /\ eapolLogoff ms || negb (portValid g) = true \/
      from AUTH_PAE_ABORTING /\ eapolLogoff ms = true
  | AUTH_PAE_RESTART =>
      from AUTH_PAE_DISCONNECTED \/
      from AUTH_PAE_HELD /\ quietWhile (timers sm) = 0 \/
      from AUTH_PAE_AUTHENTICATED /\ eapolStart ms || reAuthenticate g = true \/
      from AUTH_PAE_ABORTING /\ eapolLogoff ms = false
  | AUTH_PAE_CONNECTING => from AUTH_PAE_RESTART /\ eapRestart i = false
  | AUTH_PAE_AUTHENTICATING =>
      from AUTH_PAE_CONNECTING /\ reAuthCount ms <= reAuthMax (consts sm) /\
      eapReq i || eapSuccess i || eapFail i = true
  | AUTH_PAE_AUTHENTICATED =>
      from AUTH_PAE_AUTHENTICATING /\ authSuccess g = true /\ portValid g = true
  | AUTH_PAE_HELD =>
      from AUTH_PAE_AUTHENTICATING /\ authFail g || (keyDone g && negb (portValid g)) = true
  | AUTH_PAE_ABORTING =>
      from AUTH_PAE_AUTHENTICATING /\ eapolStart ms || eapolLogoff ms || authTimeout g = true
  end.

Lemma pae_step_refines sm :
  sm_AUTH_PAE_Step sm = sm \/
  exists st, pae_guard st sm /\ pae_entered st sm (sm_AUTH_PAE_Step sm).
Proof using cb_laws.
  unfold sm_AUTH_PAE_Step. cbn zeta.
  destruct (_ || negb (portEnabled (eap_if sm))) eqn:Hg.
  { right. exists AUTH_PAE_INITIALIZE. split; [exact Hg | apply enter_PAE_INITIALIZE]. }
  destruct (_ && _ && negb (initialize (globals sm) || _)) eqn:Hfa.
  { right. exists AUTH_PAE_FORCE_AUTH. split; [left; lia | apply enter_PAE_FORCE_AUTH]. }
  destruct (_ && _ && negb (initialize (globals sm) || _)) eqn:Hfu in |- *.
  { right. exists AUTH_PAE_FORCE_UNAUTH. split; [left; lia | apply enter_PAE_FORCE_UNAUTH]. }
  clear Hg Hfa Hfu.
  destruct (auth_pae_state (machines sm)) eqn:Es; repeat case_match; try (by left); right.
  all: eexists; (split; [| first [ apply enter_PAE_DISCONNECTED | apply enter_PAE_RESTART
    | apply enter_PAE_CONNECTING | apply enter_PAE_HELD | apply enter_PAE_AUTHENTICATED
    | apply enter_PAE_AUTHENTICATING | apply enter_PAE_ABORTING | apply enter_PAE_FORCE_AUTH
    | apply enter_PAE_FORCE_UNAUTH ] ]).
  all: unfold pae_guard; cbn zeta; rewrite Es.
  all: bool_props; intuition (congruence || lia).
Qed.
End inv.
