(* ===== verification/EapolAuthRun.v ===== *)
(** * The EAPOL machines other than AUTH_PAE, and their driver

    What BE_AUTH, REAUTH_TIMER, AUTH_KEY_TX, KEY_RX and CTRL_DIR leave alone
    ([side_step]), the steps a port can take ([port_step]), and the lemmas on
    [eapol_sm_step_run] that the properties rest on. *)

From S2P Require Import Prelude WpaBuf EapCommon EapI EapServerI EapolAuth EapolAuthInv.

Section run.
Context {E W : Type} {server : EapServerOps E} {server_laws : EapServerLaws E}.
Context {cb : EapolAuthCb E W} {cb_laws : EapolAuthCbLaws E W}.
Implicit Type sm : eapol_sm E W.

(** A step that leaves AUTH_PAE and the port alone; [authSuccess] is only raised
    when the EAP server reports success. *)
Record side_step sm sm' : Prop := {
  ss_kept : kept sm sm';
  ss_pae : auth_pae_state (machines sm') = auth_pae_state (machines sm);
  ss_mode : portMode (machines sm') = portMode (machines sm);
  ss_control : portControl (globals sm') = portControl (globals sm) \/
    portControl (globals sm') = Auto;
  ss_count : reAuthCount (machines sm') = reAuthCount (machines sm);
  ss_port : port_of sm' = port_of sm;
  ss_quiet : quietWhile (timers sm') = quietWhile (timers sm);
  ss_auth : authSuccess (globals sm') = true ->
    authSuccess (globals sm) = true \/ eapSuccess (eap_if sm) = true;
}.

Lemma kept_refl sm : kept sm sm.
Proof using Type. by constructor. Qed.
Lemma kept_trans (s1 s2 s3 : eapol_sm E W) : kept s1 s2 -> kept s2 s3 -> kept s1 s3.
Proof using Type.
  intros [] []. constructor; [by auto|..]; by etrans.
Qed.
Lemma side_refl sm : side_step sm sm.
Proof using Type. constructor; first [apply kept_refl | by left | done]. Qed.
Lemma side_trans (s1 s2 s3 : eapol_sm E W) : side_step s1 s2 -> side_step s2 s3 -> side_step s1 s3.
Proof using Type.
  intros [K1 ? ? C1 ? ? ? A1] [K2 ? ? C2 ? ? ? A2].
  constructor; [by eapply kept_trans|by etrans|by etrans| |by etrans..|].
  { destruct C2 as [->|]; [done|by right]. }
  intros H. destruct (A2 H) as [H'|H']; [by apply A1|]. right.
  by rewrite (kp_success _ _ K1) in H'.
Qed.

(** Updates that no clause of [side_step] looks at. *)
Ltac control_tac :=
  first [ by left
        | match goal with |- context [portControl (globals (do_call ?c ?s))] =>
            destruct (do_call_control c s) as [-> | ->]; [by left | by right] end ].

Ltac side_tac :=
  constructor; [constructor; [|unfold port_of; eapol_simpl; repeat (case_match; eapol_simpl); try done..] |
    unfold port_of; eapol_simpl; repeat (case_match; eapol_simpl); try control_tac; auto..];
  unfold setPortAuthorized, setPortUnauthorized, abortAuth, txKey, SM_ENTRY_BE, SM_ENTRY_RT,
    SM_ENTRY_TX, SM_ENTRY_RX, SM_ENTRY_CD; cbn zeta;
  try server_tac.

(** The request that [txReq] sends, if any. *)
Definition sendable sm : option wpabuf :=
  match eapReqData (eap_if sm) with
  | Some d => if (wpabuf_len d <? sizeof_eap_hdr) || has_flag (flags (ids sm)) EAPOL_SM_WAIT_START
              then None else Some d
  | None => None
  end.

Definition sent sm : list auth_call :=
  match sendable sm with
  | Some d => [eapol_send IEEE802_1X_TYPE_EAP_PACKET (contents d)]
  | None => []
  end.

Lemma send_side d n sm :
  side_step sm (do_call (eapol_send IEEE802_1X_TYPE_EAP_PACKET d) (sm <| ids; last_eap_id := n |>)).
Proof using cb_laws. side_tac. Qed.

Lemma eap_wf sm : server_inv (eap sm) -> opt wf (eapReqData (eap_if sm)).
Proof using Type. intros H. by destruct (if_wf_law _ H) as (_ & ? & _). Qed.

Lemma txReq_ok sm : server_inv (eap sm) ->
  exists sm', txReq sm = Ok sm' /\ side_step sm sm' /\ calls sm' = sent sm ++ calls sm.
Proof using cb_laws.
  intros H. pose proof (eap_wf sm H) as Hwf. unfold txReq, eapol_auth_tx_req, sent, sendable.
  destruct (eapReqData (eap_if sm)) as [d|] eqn:Ed; [|by exists sm; auto using side_refl].
  destruct (wpabuf_len d <? sizeof_eap_hdr); [by exists sm; auto using side_refl|].
  destruct (has_flag _ _); [by exists sm; auto using side_refl|]. cbn in Hwf.
  destruct (eap_get_id_total d Hwf) as (id & -> & _), (eap_get_type_total d Hwf) as (ty & Hty).
  rewrite (rd_n_contents d Hwf). cbn [mbind res_bind orb].
  match goal with |- context [match ?x with Some _ => _ | None => _ end] =>
    replace x with (Some d) end.
  2: { unfold eap_if in *. eapol_simpl. by rewrite Ed. }
  rewrite Hty. cbn [mbind res_bind]. eexists. split; [reflexivity|]. split.
  - eapply side_trans; [apply (send_side (contents d) id)|]. case_match; side_tac.
  - case_match; by eapol_simpl.
Qed.

(** Updates of this machine's own state and of variables [side_step] does not
    look at, one by one. *)
Lemma entry_BE_side st g sm : side_step sm (SM_ENTRY_BE st g sm).
Proof using cb_laws. side_tac. Qed.

Lemma server_kept sm sm' : kept sm sm' -> server_inv (eap sm) -> server_inv (eap sm').
Proof using Type. by intros []. Qed.

Lemma enter_BE_INITIALIZE g sm : side_step sm (sm_BE_AUTH_INITIALIZE_Enter g sm).
Proof using cb_laws. unfold sm_BE_AUTH_INITIALIZE_Enter. side_tac. Qed.

Lemma enter_BE_REQUEST sm : server_inv (eap sm) ->
  exists sm', sm_BE_AUTH_REQUEST_Enter sm = Ok sm' /\ side_step sm sm'.
Proof using cb_laws.
  intros H. unfold sm_BE_AUTH_REQUEST_Enter.
  destruct (txReq_ok (SM_ENTRY_BE BE_AUTH_REQUEST false sm) H) as (s & -> & Hs & _).
  eexists. split; [reflexivity|]. eapply side_trans; [apply entry_BE_side|].
  eapply side_trans; [exact Hs|]. side_tac.
Qed.

Lemma enter_BE_RESPONSE sm : side_step sm (sm_BE_AUTH_RESPONSE_Enter sm).
Proof using cb_laws. unfold sm_BE_AUTH_RESPONSE_Enter. side_tac. Qed.

Lemma enter_BE_SUCCESS sm : server_inv (eap sm) -> eapSuccess (eap_if sm) = true ->
  exists sm', sm_BE_AUTH_SUCCESS_Enter sm = Ok sm' /\ side_step sm sm'.
Proof using cb_laws.
  intros H Hsu. unfold sm_BE_AUTH_SUCCESS_Enter.
  destruct (txReq_ok (SM_ENTRY_BE BE_AUTH_SUCCESS false sm) H) as (s & -> & Hs & _).
  eexists. split; [reflexivity|].
  eapply side_trans; [apply entry_BE_side|]. eapply side_trans; [exact Hs|].
  assert (eapSuccess (eap_if s) = true) by (by rewrite (kp_success _ _ (ss_kept _ _ Hs))).
  side_tac.
Qed.

Lemma enter_BE_FAIL sm : server_inv (eap sm) ->
  exists sm', sm_BE_AUTH_FAIL_Enter sm = Ok sm' /\ side_step sm sm'.
Proof using cb_laws.
  intros H. unfold sm_BE_AUTH_FAIL_Enter.
  destruct (txReq_ok (SM_ENTRY_BE BE_AUTH_FAIL false sm) H) as (s & -> & Hs & _).
  eexists. split; [reflexivity|].
  eapply side_trans; [apply entry_BE_side|]. eapply side_trans; [exact Hs|]. side_tac.
Qed.

Lemma enter_BE_TIMEOUT sm : side_step sm (sm_BE_AUTH_TIMEOUT_Enter sm).
Proof using cb_laws. unfold sm_BE_AUTH_TIMEOUT_Enter. side_tac. Qed.
Lemma enter_BE_IDLE sm : side_step sm (sm_BE_AUTH_IDLE_Enter sm).
Proof using cb_laws. unfold sm_BE_AUTH_IDLE_Enter. side_tac. Qed.
Lemma enter_BE_IGNORE sm : side_step sm (sm_BE_AUTH_IGNORE_Enter sm).
Proof using cb_laws. unfold sm_BE_AUTH_IGNORE_Enter. side_tac. Qed.

(** A counter increment before an entry. *)
Lemma count_side f sm : side_step sm (put (f := counters) f sm).
Proof using cb_laws. side_tac. Qed.

Lemma after_count f (enter : eapol_sm E W -> res (eapol_sm E W)) (Q : eapol_sm E W -> Prop) sm :
  (forall s, server_inv (eap s) -> Q s -> exists s', enter s = Ok s' /\ side_step s s') ->
  Q (put (f := counters) f sm) -> server_inv (eap sm) ->
  exists s', enter (put (f := counters) f sm) = Ok s' /\ side_step sm s'.
Proof using cb_laws.
  intros He Hq H. destruct (He (put (f := counters) f sm)) as (s' & -> & Hs); [exact H|done|].
  exists s'. split; [done|]. eapply side_trans; [apply count_side | exact Hs].
Qed.

#[local] Ltac be_tac H :=
  repeat case_match; bool_props; repeat match goal with Hx : _ /\ _ |- _ => destruct Hx end;
  try first
    [ by apply enter_BE_REQUEST | by apply enter_BE_SUCCESS | by apply enter_BE_FAIL
    | eexists; split; [reflexivity|]; first
        [ apply enter_BE_INITIALIZE | apply enter_BE_RESPONSE | apply enter_BE_TIMEOUT
        | apply enter_BE_IDLE | apply side_refl ] ].

Lemma BE_response_ok sm : server_inv (eap sm) ->
  exists sm', (if eapReq (eap_if sm) then
          sm_BE_AUTH_REQUEST_Enter (sm <| backendAccessChallenges ++ |>)
        else if aWhile (timers sm) =? 0 then mret (sm_BE_AUTH_TIMEOUT_Enter sm)
        else if eapFail (eap_if sm) then
          sm_BE_AUTH_FAIL_Enter (sm <| backendAuthFails ++ |>)
        else if eapSuccess (eap_if sm) then
          sm_BE_AUTH_SUCCESS_Enter (sm <| backendAuthSuccesses ++ |>)
        else mret sm) = Ok sm' /\ side_step sm sm'.
Proof using cb_laws.
  intros H. be_tac H.
  - apply (after_count _ _ (fun _ => True)); [|done..]. intros. by apply enter_BE_REQUEST.
  - apply (after_count _ _ (fun _ => True)); [|done..]. intros. by apply enter_BE_FAIL.
  - apply (after_count _ _ (fun s => eapSuccess (eap_if s) = true)); [|done..].
    intros. by apply enter_BE_SUCCESS.
Qed.

Lemma BE_AUTH_ok sm : server_inv (eap sm) ->
  exists sm', sm_BE_AUTH_Step sm = Ok sm' /\ side_step sm sm'.
Proof using cb_laws.
  intros H. unfold sm_BE_AUTH_Step. cbn zeta. case_match.
  { eexists. split; [reflexivity|]. apply enter_BE_INITIALIZE. }
  destruct (be_auth_state (machines sm)) eqn:Es.
  2: { destruct (eapNoReq (eap_if sm)); [|by apply BE_response_ok].
       destruct (BE_response_ok (sm_BE_AUTH_IGNORE_Enter sm)) as (s & Hs & Hside).
       { by apply (server_kept sm); [apply enter_BE_IGNORE|]. }
       exists s. split; [exact Hs|]. eapply side_trans; [apply enter_BE_IGNORE | done]. }
  all: be_tac H.
Qed.

Lemma REAUTH_TIMER_side sm : side_step sm (sm_REAUTH_TIMER_Step sm).
Proof using cb_laws.
  unfold sm_REAUTH_TIMER_Step, sm_REAUTH_TIMER_INITIALIZE_Enter,
    sm_REAUTH_TIMER_REAUTHENTICATE_Enter.
  repeat case_match; try apply side_refl; side_tac.
Qed.

Lemma AUTH_KEY_TX_side sm : side_step sm (sm_AUTH_KEY_TX_Step sm).
Proof using cb_laws.
  unfold sm_AUTH_KEY_TX_Step, sm_AUTH_KEY_TX_NO_KEY_TRANSMIT_Enter,
    sm_AUTH_KEY_TX_KEY_TRANSMIT_Enter.
  repeat case_match; try apply side_refl; side_tac.
Qed.

Lemma KEY_RX_side sm : side_step sm (sm_KEY_RX_Step sm).
Proof using cb_laws.
  unfold sm_KEY_RX_Step, sm_KEY_RX_NO_KEY_RECEIVE_Enter, sm_KEY_RX_KEY_RECEIVE_Enter.
  repeat case_match; try apply side_refl; side_tac.
Qed.

Lemma CTRL_DIR_side sm : side_step sm (sm_CTRL_DIR_Step sm).
Proof using cb_laws.
  unfold sm_CTRL_DIR_Step, sm_CTRL_DIR_FORCE_BOTH_Enter, sm_CTRL_DIR_IN_OR_BOTH_Enter.
  repeat case_match; try apply side_refl; side_tac.
Qed.

(** ** The steps of a port

    What can happen to a port: one of the machines or the EAP server takes a
    step or a callback is called ([run_step], what [eapol_sm_step_run] is made
    of), the layers around it write their variables ([lower]: frames received,
    timer ticks, notifications), or the owner installs a cached key
    ([cached]). *)

Record lower sm sm' : Prop := {
  lw_server : server_inv (eap sm) -> server_inv (eap sm');
  lw_success : eapSuccess (eap_if sm') = eapSuccess (eap_if sm);
  lw_consts : consts sm' = consts sm;
  lw_pae : auth_pae_state (machines sm') = auth_pae_state (machines sm);
  lw_count : reAuthCount (machines sm') = reAuthCount (machines sm);
  lw_port : port_of sm' = port_of sm;
  lw_auth : authSuccess (globals sm') = true -> authSuccess (globals sm) = true;
}.

Record cached sm sm' : Prop := {
  ca_server : server_inv (eap sm) -> server_inv (eap sm');
  ca_success : eapSuccess (eap_if sm') = eapSuccess (eap_if sm);
  ca_pae : auth_pae_state (machines sm') = AUTH_PAE_AUTHENTICATING;
  ca_port : port_of sm' = port_of sm;
}.

Inductive eap_step sm : eapol_sm E W -> Prop :=
  | eap_step_run es e r : (forall n, wf_env (es n)) -> server_step es (eap sm) = Ok (e, r) ->
      eap_step sm (sm <| eap := e |>).

Inductive run_step sm : eapol_sm E W -> Prop :=
  | rs_pae : run_step sm (sm_AUTH_PAE_Step sm)
  | rs_be sm' : sm_BE_AUTH_Step sm = Ok sm' -> run_step sm sm'
  | rs_reauth : run_step sm (sm_REAUTH_TIMER_Step sm)
  | rs_key_tx : run_step sm (sm_AUTH_KEY_TX_Step sm)
  | rs_key_rx : run_step sm (sm_KEY_RX_Step sm)
  | rs_ctrl_dir : run_step sm (sm_CTRL_DIR_Step sm)
  | rs_eap sm' : eap_step sm sm' -> run_step sm sm'
  | rs_side sm' : side_step sm sm' -> run_step sm sm'.

Inductive port_step sm : eapol_sm E W -> Prop :=
  | ps_run sm' : run_step sm sm' -> port_step sm sm'
  | ps_lower sm' : lower sm sm' -> port_step sm sm'
  | ps_cached sm' : cached sm sm' -> port_step sm sm'.

(** What AUTH_PAE holds the port to be, it is; and [authPortStatus] is what the
    driver was told last. *)
Definition port_ok sm : Prop :=
  (port_of sm = (0, None) \/ exists b, port_of sm = port_set b) /\
  match pae_port (auth_pae_state (machines sm)) with
  | Some b => port_of sm = port_set b
  | None => True
  end.

Definition port_inv sm : Prop := server_inv (eap sm) /\ port_ok sm.

Lemma entered_inv st sm sm' : pae_entered st sm sm' -> port_inv sm -> port_inv sm'.
Proof using Type.
  intros [K Hst _ _ Hp _ _] [Hs [Ho Hm]]. split; [by apply K|]. split.
  - rewrite Hp. destruct (pae_port st); [right; by eexists|done].
  - rewrite Hst, Hp. by destruct (pae_port st).
Qed.

Lemma same_inv sm sm' : (server_inv (eap sm) -> server_inv (eap sm')) ->
  port_of sm' = port_of sm ->
  auth_pae_state (machines sm') = auth_pae_state (machines sm) \/
    pae_port (auth_pae_state (machines sm')) = None ->
  port_inv sm -> port_inv sm'.
Proof using Type.
  intros Hsv Hp Hst [Hs [Ho Hm]]. split; [by auto|]. unfold port_ok. rewrite Hp. split; [done|].
  destruct Hst as [->| ->]; done.
Qed.

Lemma side_inv sm sm' : side_step sm sm' -> port_inv sm -> port_inv sm'.
Proof using Type.
  intros []. apply same_inv; [by apply kp_server|done|by left].
Qed.

Lemma run_step_cases sm sm' : server_inv (eap sm) -> run_step sm sm' ->
  (exists st, pae_guard st sm /\ pae_entered st sm sm') \/ side_step sm sm' \/ eap_step sm sm'.
Proof using cb_laws.
  intros Hs []; auto using REAUTH_TIMER_side, AUTH_KEY_TX_side, KEY_RX_side, CTRL_DIR_side.
  - destruct (pae_step_refines sm) as [->|?]; [right; left; apply side_refl | by left].
  - destruct (BE_AUTH_ok sm Hs) as (s & Heq & Hside). right; left. congruence.
Qed.

Lemma eap_step_server sm sm' : eap_step sm sm' -> server_inv (eap sm) ->
  server_inv (eap sm') /\
  (eapSuccess (eap_if sm) = false -> eapSuccess (eap_if sm') = true -> authenticated (eap sm')).
Proof using Type.
  intros [es e r He Hr] H.
  destruct (server_step_law es (eap sm) He H) as [Hf|(e' & r' & Heq & Hi & Ha)];
    rewrite Hr in *; by simplify_eq.
Qed.

Lemma eap_step_frame sm sm' : eap_step sm sm' ->
  port_of sm' = port_of sm /\ machines sm' = machines sm /\ globals sm' = globals sm /\
  timers sm' = timers sm /\ consts sm' = consts sm /\ eloop sm' = eloop sm.
Proof using Type. by intros []. Qed.

Lemma run_step_inv sm sm' : run_step sm sm' -> port_inv sm -> port_inv sm'.
Proof using cb_laws.
  intros H Hi. destruct (run_step_cases sm sm') as [(st & _ & ?)|[?|He]]; [apply Hi|done|..].
  - by eapply entered_inv.
  - by eapply side_inv.
  - destruct (eap_step_frame _ _ He) as (Hp & Hm & _).
    apply (same_inv sm); [intros; by apply (eap_step_server sm)|done|left; by rewrite Hm|done].
Qed.

Lemma port_step_inv sm sm' : port_step sm sm' -> port_inv sm -> port_inv sm'.
Proof using cb_laws.
  intros [s H|s []|s []]; [by apply run_step_inv|apply (same_inv sm); auto..].
  right. by rewrite ca_pae0.
Qed.

Lemma run_steps_inv sm sm' : rtc run_step sm sm' -> port_inv sm -> port_inv sm'.
Proof using cb_laws. induction 1; eauto using run_step_inv. Qed.

Lemma port_steps_inv sm sm' : rtc port_step sm sm' -> port_inv sm -> port_inv sm'.
Proof using cb_laws. induction 1; eauto using port_step_inv. Qed.

Lemma run_port_steps sm sm' : rtc run_step sm sm' -> rtc port_step sm sm'.
Proof using Type. apply rtc_subrel. intros ??. apply ps_run. Qed.

(** ** The driver *)

Lemma if_alive_steps a step sm : (forall s, run_step s (step s)) ->
  rtc run_step sm (if_alive a step sm).
Proof using Type. intros H. unfold if_alive. case_match; [by apply rtc_once | apply rtc_refl]. Qed.

Lemma step_machines_ok a sm : port_inv sm ->
  exists sm', step_machines a sm = Ok sm' /\ rtc run_step (sm_AUTH_PAE_Step sm) sm'.
Proof using cb_laws.
  intros H. unfold step_machines. cbn zeta.
  set (s1 := sm_AUTH_PAE_Step sm). assert (run_step sm s1) as Hs1 by apply rs_pae.
  assert (exists s2, (if initializing s1 || eapol_sm_sta_entry_alive a s1
            then sm_BE_AUTH_Step s1 else mret s1) = Ok s2 /\ rtc run_step s1 s2)
    as (s2 & -> & Hs2).
  { case_match; [|exists s1; by auto using rtc_refl].
    destruct (BE_AUTH_ok s1) as (s2 & Hs & _); [by apply (run_step_inv sm s1)|].
    exists s2. split; [done|]. apply rtc_once. by apply rs_be. }
  cbn [mbind res_bind]. eexists. split; [reflexivity|].
  etrans; [exact Hs2|].
  repeat (etrans; [|by apply if_alive_steps; constructor]). apply rtc_refl.
Qed.

Lemma call_side c sm : last_port (c :: calls sm) = last_port (calls sm) ->
  side_step sm (do_call c sm).
Proof using cb_laws.
  intros Hc. side_tac. cbn in Hc. by rewrite Hc.
Qed.

Lemma sm_change_event_side a sm : side_step sm (sm_change_event a sm).
Proof using cb_laws.
  unfold sm_change_event. case_match; [by apply call_side | apply side_refl].
Qed.

Lemma send_aaa_ok a sm : port_inv sm ->
  exists sm', send_aaa a sm = Ok sm' /\ side_step sm sm'.
Proof using cb_laws.
  intros H. unfold send_aaa.
  case_match; [|eexists; split; [reflexivity|apply sm_change_event_side]].
  set (s1 := upd_if _ sm). assert (side_step sm s1) as Hl by side_tac.
  assert (server_inv (eap s1)) as Hs by (by apply (server_kept _ _ (ss_kept _ _ Hl)), H).
  destruct (if_wf_law _ Hs) as (_ & _ & _ & Hd & _). cbn zeta. unfold eap_if in *.
  destruct (aaaEapRespData _) as [d|] eqn:Ed; cbn in Hd; [|by exists s1].
  rewrite (rd_n_contents d Hd). cbn [mbind res_bind]. eexists. split; [reflexivity|].
  eapply side_trans; [exact Hl|]. eapply side_trans; [|apply sm_change_event_side].
  by apply call_side.
Qed.

Lemma eapol_auth_step_side sm : side_step sm (eapol_auth_step sm).
Proof using Type. unfold eapol_auth_step. side_tac. Qed.

(** What follows the machines in a round. *)
Definition round_rest (n : nat) (es : nat -> nat -> env) (a : list Z) (prev : eapol_machines) sm
    : res (eapol_sm E W) :=
  if negb (states_same prev (machines sm)) then eapol_sm_step_loop n es a sm
  else if eapol_sm_sta_entry_alive a sm then
    '(e, r) ← server_step (es n) (eap sm);
    let sm := sm <| eap := e |> in
    if negb (r =? 0) then eapol_sm_step_loop n es a sm else send_aaa a sm
  else mret (sm_change_event a sm).

Lemma step_loop_S n es a sm : eapol_sm_step_loop (S n) es a sm =
  (s ← step_machines a sm; round_rest n es a (machines sm) s).
Proof using Type. done. Qed.

(** The outcome of a computation from [sm]: a state that steps lead to, or the
    EAP server's fault in such a state. *)
Definition outcome (es : nat -> nat -> env) sm (r : res (eapol_sm E W)) : Prop :=
  (exists sm', r = Ok sm' /\ rtc run_step sm sm') \/
  (r = Fault NullDeref /\
   exists s k, rtc run_step sm s /\ server_step (es k) (eap s) = Fault NullDeref).

Lemma outcome_after es (s s' : eapol_sm E W) r : rtc run_step s s' -> outcome es s' r -> outcome es s r.
Proof using Type.
  intros H [(t & -> & Ht)|(-> & t & k & Ht & Hf)]; [left|right].
  - exists t. split; [done|]. by etrans.
  - split; [done|]. exists t, k. split; [by etrans|done].
Qed.

Lemma round_rest_ok n es a prev sm : (forall k i, wf_env (es k i)) -> port_inv sm ->
  (forall s, port_inv s -> outcome es s (eapol_sm_step_loop n es a s)) ->
  outcome es sm (round_rest n es a prev sm).
Proof using cb_laws.
  intros He H IH. unfold round_rest. case_match; [by apply IH|]. case_match.
  - destruct (server_step_law (es n) (eap sm) (He n) (proj1 H)) as [Hf|(e & r & Hr & _)].
    { right. rewrite Hf. split; [done|]. by exists sm, n. }
    rewrite Hr. cbn [mbind res_bind].
    assert (run_step sm (sm <| eap := e |>)) as Hp by (by eapply rs_eap, eap_step_run).
    pose proof (run_step_inv _ _ Hp H) as Hi.
    apply (outcome_after _ _ (sm <| eap := e |>)); [by apply rtc_once|].
    case_match; [by apply IH|].
    destruct (send_aaa_ok a (sm <| eap := e |>) Hi) as (s & -> & Hs). left.
    exists s. split; [done|]. by apply rtc_once, rs_side.
  - left. eexists. split; [reflexivity|]. apply rtc_once, rs_side, sm_change_event_side.
Qed.

(** A round starts with the step of AUTH_PAE. *)
Lemma step_loop_first n es a sm : (forall k i, wf_env (es k i)) -> port_inv sm ->
  (forall s, port_inv s -> outcome es s (eapol_sm_step_loop n es a s)) ->
  outcome es (sm_AUTH_PAE_Step sm) (eapol_sm_step_loop (S n) es a sm).
Proof using cb_laws.
  intros He H IH. rewrite step_loop_S. destruct (step_machines_ok a sm H) as (s & -> & Hs).
  cbn [mbind res_bind]. apply (outcome_after _ _ s); [done|]. apply round_rest_ok; [done| |done].
  apply (run_steps_inv (sm_AUTH_PAE_Step sm)); [done|]. by apply (run_step_inv sm); [apply rs_pae|].
Qed.

Lemma step_loop_ok n es a sm : (forall k i, wf_env (es k i)) -> port_inv sm ->
  outcome es sm (eapol_sm_step_loop n es a sm).
Proof using cb_laws.
  intros He. revert sm. induction n as [|n IH]; intros sm H.
  - left. eexists. split; [reflexivity|]. apply rtc_once, rs_side, eapol_auth_step_side.
  - apply (outcome_after _ _ (sm_AUTH_PAE_Step sm)); [apply rtc_once, rs_pae|].
    by apply step_loop_first.
Qed.

Lemma step_run_first es sm : (forall k i, wf_env (es k i)) -> port_inv sm ->
  outcome es (sm_AUTH_PAE_Step sm) (eapol_sm_step_run es sm).
Proof using cb_laws.
  intros He H. unfold eapol_sm_step_run. apply (step_loop_first 99); [done..|].
  intros s. by apply step_loop_ok.
Qed.
End run.
