(* ===== verification/EapolAuthProps.v ===== *)
(** * Properties of the EAPOL authenticator

    The driver ends, the port is what AUTH_PAE says and what the driver was
    told, and it is only opened after the EAP server reported a success; the
    quiet period, the retry limit, the transmission of requests, allocation,
    timeouts and the configuration.  The witnesses run the machine with the EAP
    server of [EapServer] and its MD5 method. *)

From S2P Require Import Prelude WpaBuf EapCommon EapI EapServerI EapolAuth EapolAuthInv EapolAuthRun.

Section props.
Context {E W : Type} {server : EapServerOps E} {server_laws : EapServerLaws E}.
Context {cb : EapolAuthCb E W} {cb_laws : EapolAuthCbLaws E W}.
Implicit Type sm : eapol_sm E W.

(** ** How a port gets open *)

(** [R] relates two neighbouring states on the way from [s0] to [s]. *)
Definition via (R : eapol_sm E W -> eapol_sm E W -> Prop) (s0 s : eapol_sm E W) : Prop :=
  exists s1 s2, rtc port_step s0 s1 /\ R s1 s2 /\ rtc port_step s2 s.

(** The EAP server reports a success it has evidence for. *)
Definition eap_accepts (s1 s2 : eapol_sm E W) : Prop :=
  eap_step s1 s2 /\ eapSuccess (eap_if s1) = false /\ eapSuccess (eap_if s2) = true /\
  authenticated (eap s2).

(** Management forces the port open. *)
Definition forced (s1 s2 : eapol_sm E W) : Prop :=
  s2 = sm_AUTH_PAE_Step s1 /\ portControl (globals s1) = ForceAuthorized.

Lemma via_step R (s0 s s' : eapol_sm E W) : via R s0 s -> port_step s s' -> via R s0 s'.
Proof using Type.
  intros (s1 & s2 & H1 & HR & H2) Hs. exists s1, s2. split_and!; [done..|]. by eapply rtc_r.
Qed.

Lemma via_here (R : eapol_sm E W -> eapol_sm E W -> Prop) (s0 s s' : eapol_sm E W) :
  rtc port_step s0 s -> R s s' -> via R s0 s'.
Proof using Type. intros H HR. exists s, s'. split_and!; [done..|apply rtc_refl]. Qed.

(** What the history must contain for what the state shows. *)
Record history (s0 s : eapol_sm E W) : Prop := {
  hi_success : eapSuccess (eap_if s) = true -> via eap_accepts s0 s;
  hi_auth : authSuccess (globals s) = true -> via eap_accepts s0 s \/ via cached s0 s;
  hi_port : authPortStatus (globals s) = Authorized ->
    via eap_accepts s0 s \/ via cached s0 s \/ via forced s0 s;
}.

Lemma port_of_status sm sm' : port_of sm' = port_of sm ->
  authPortStatus (globals sm') = authPortStatus (globals sm).
Proof using Type. by intros [=]. Qed.

(** A step that raises none of the three flags. *)
Lemma history_keep (s0 s s' : eapol_sm E W) : history s0 s -> port_step s s' ->
  (eapSuccess (eap_if s') = true -> eapSuccess (eap_if s) = true) ->
  (authSuccess (globals s') = true ->
     authSuccess (globals s) = true \/ eapSuccess (eap_if s) = true) ->
  (authPortStatus (globals s') = Authorized -> authPortStatus (globals s) = Authorized) ->
  history s0 s'.
Proof using Type.
  intros [H1 H2 H3] Hs K1 K2 K3. constructor.
  - intros H. apply (via_step _ _ s); auto.
  - intros H. destruct (K2 H) as [Ha|He].
    + destruct (H2 Ha); [left|right]; by apply (via_step _ _ s).
    + left. apply (via_step _ _ s); auto.
  - intros H. destruct (H3 (K3 H)) as [|[|]]; [left|right; left|right; right];
      by apply (via_step _ _ s).
Qed.

Lemma history_side (s0 s s' : eapol_sm E W) : history s0 s -> port_step s s' ->
  side_step s s' -> history s0 s'.
Proof using Type.
  intros Hh Hs Hside.
  apply (history_keep _ s); [done..|by rewrite (kp_success _ _ (ss_kept _ _ Hside))|apply Hside|].
  by rewrite (port_of_status _ _ (ss_port _ _ Hside)).
Qed.

Lemma history_entered (s0 s : eapol_sm E W) st : rtc port_step s0 s -> port_inv s -> history s0 s ->
  pae_guard st s -> pae_entered st s (sm_AUTH_PAE_Step s) -> history s0 (sm_AUTH_PAE_Step s).
Proof using Type.
  intros Hr Hi Hh Hg He. assert (port_step s (sm_AUTH_PAE_Step s)) as Hs by apply ps_run, rs_pae.
  assert (authPortStatus (globals (sm_AUTH_PAE_Step s)) = Authorized ->
    authPortStatus (globals s) = Authorized \/ authSuccess (globals s) = true \/
    forced s (sm_AUTH_PAE_Step s)) as Hport.
  { intros H. pose proof (pe_port _ _ _ He) as Hp. destruct (pae_port st) eqn:Ep.
    2: { left. by rewrite <- (port_of_status _ _ Hp). }
    destruct st; cbn in Ep; simplify_eq; unfold port_of, port_set in Hp;
      injection Hp as Hp _; try (unfold Authorized, Unauthorized in *; lia).
    - right; left. by destruct Hg as (_ & ? & _).
    - destruct Hg as [Hg|[Hg _]]; [by right; right|left].
      destruct Hi as [_ [_ Hm]]. rewrite Hg in Hm. unfold port_of in Hm. by simplify_eq Hm. }
  constructor.
  - rewrite (kp_success _ _ (pe_kept _ _ _ He)). intros H. by apply (via_step _ _ s), Hs; apply Hh.
  - intros H. destruct (hi_auth _ _ Hh (pe_auth _ _ _ He H)); [left|right]; by apply (via_step _ _ s).
  - intros H. destruct (Hport H) as [H'|[H'|H']].
    + destruct (hi_port _ _ Hh H') as [|[|]]; [left|right; left|right; right];
        by apply (via_step _ _ s).
    + destruct (hi_auth _ _ Hh H'); [left|right; left]; by apply (via_step _ _ s).
    + right; right. by apply (via_here _ _ s).
Qed.

Lemma history_cached (s0 s s' : eapol_sm E W) : rtc port_step s0 s -> history s0 s ->
  cached s s' -> history s0 s'.
Proof using Type.
  intros Hr Hh Hc. assert (via cached s0 s') as Hv by (by apply (via_here _ _ s)).
  constructor; [|by right|].
  - rewrite (ca_success _ _ Hc). intros H. apply (via_step _ _ s); [by apply Hh|by apply ps_cached].
  - by right; left.
Qed.

Lemma history_steps (s0 s : eapol_sm E W) : port_inv s0 -> history s0 s0 -> rtc port_step s0 s ->
  port_inv s /\ history s0 s.
Proof using cb_laws.
  intros Hi Hh Hall.
  refine (rtc_ind_r (fun s => port_inv s /\ history s0 s) s0 (conj Hi Hh) _ s Hall).
  clear s Hall. intros s s' Hr Hs [IHi IHh].
  split; [by eapply port_step_inv|]. destruct Hs as [s' Hs|s' Hl|s' Hc]; [| |by eapply history_cached].
  2: { apply (history_keep _ s); [done|by apply ps_lower|by rewrite (lw_success _ _ Hl)
         |left; by apply (lw_auth _ _ Hl)|by rewrite (port_of_status _ _ (lw_port _ _ Hl))]. }
  assert (port_step s s') as Hs' by (by apply ps_run).
  destruct Hs as [|s' Hbe| | | | |s' He|s' Hside].
  - destruct (pae_step_refines s) as [Heq|(st & Hg & He)]; [by rewrite Heq|].
    by eapply history_entered.
  - destruct (BE_AUTH_ok s (proj1 IHi)) as (t & Ht & Hside). assert (t = s') as -> by congruence.
    by apply (history_side _ s).
  - by apply (history_side _ s), REAUTH_TIMER_side.
  - by apply (history_side _ s), AUTH_KEY_TX_side.
  - by apply (history_side _ s), KEY_RX_side.
  - by apply (history_side _ s), CTRL_DIR_side.
  - destruct (eap_step_frame _ _ He) as (Hp & Hm & Hg & _).
    destruct (eap_step_server _ _ He (proj1 IHi)) as [_ Ha].
    destruct (eapSuccess (eap_if s)) eqn:E1.
    { apply (history_keep _ s); [done..|by rewrite E1| |]; rewrite Hg; auto. }
    assert (eapSuccess (eap_if s') = true -> via eap_accepts s0 s') as Hv.
    { intros Ht. apply (via_here _ _ s); [done|]. unfold eap_accepts. by auto. }
    constructor; [done| |]; rewrite Hg; intros H.
    + destruct (hi_auth _ _ IHh H); [left|right]; by apply (via_step _ _ s).
    + destruct (hi_port _ _ IHh H) as [|[|]]; [left|right; left|right; right];
        by apply (via_step _ _ s).
  - by apply (history_side _ s).
Qed.

(** ** The retry counter *)

Definition retry_slack (st : auth_pae_state_t) : Z :=
  match st with
  | AUTH_PAE_CONNECTING | AUTH_PAE_INITIALIZE | AUTH_PAE_FORCE_AUTH | AUTH_PAE_FORCE_UNAUTH => 1
  | _ => 0
  end.

Lemma retry_slack_bound st : 0 <= retry_slack st <= 1.
Proof using Type. destruct st; cbn; lia. Qed.

Definition retry_ok sm : Prop :=
  0 <= reAuthMax (consts sm) < 4294967295 /\
  0 <= reAuthCount (machines sm) <=
    reAuthMax (consts sm) + retry_slack (auth_pae_state (machines sm)).

Lemma retry_entered st sm sm' : pae_guard st sm -> pae_entered st sm sm' -> retry_ok sm ->
  retry_ok sm'.
Proof using Type.
  intros Hg He [Hm Hc]. unfold retry_ok.
  rewrite (kp_consts _ _ (pe_kept _ _ _ He)), (pe_state _ _ _ He), (pe_count _ _ _ He).
  pose proof (retry_slack_bound (auth_pae_state (machines sm))) as Hb.
  split; [done|]. destruct st; cbn in *; try lia;
    clear Hb; destruct_or?; destruct_and?;
    match goal with
    | Hf : auth_pae_state (machines sm) = _, Hc : context [retry_slack _] |- _ =>
        rewrite Hf in Hc; cbn in Hc
    end; try lia; rewrite u32_id by lia; lia.
Qed.

Lemma retry_same sm sm' : consts sm' = consts sm ->
  reAuthCount (machines sm') = reAuthCount (machines sm) ->
  auth_pae_state (machines sm') = auth_pae_state (machines sm) -> retry_ok sm -> retry_ok sm'.
Proof using Type. unfold retry_ok. by intros -> -> ->. Qed.

(** A run, and what the layers around the machine do between runs. *)
Definition run_or_lower (s s' : eapol_sm E W) : Prop := run_step s s' \/ lower s s'.

Lemma retry_step (s s' : eapol_sm E W) : run_or_lower s s' -> port_inv s -> retry_ok s -> retry_ok s'.
Proof using cb_laws.
  intros [H|[]] Hi Hr; [|by apply (retry_same s)].
  destruct (run_step_cases s s' (proj1 Hi) H) as [(st & Hg & He)|[[[] ? ? ? ? ? ? ?]|He]].
  - by eapply retry_entered.
  - by apply (retry_same s).
  - destruct (eap_step_frame _ _ He) as (_ & Hm & _ & _ & Hc & _).
    by apply (retry_same s); rewrite ?Hm.
Qed.

Lemma retry_steps (s s' : eapol_sm E W) : rtc run_or_lower s s' -> port_inv s -> retry_ok s ->
  retry_ok s'.
Proof using cb_laws.
  induction 1 as [|s1 s2 s3 H _ IH]; [done|]. intros Hi Hr. apply IH; [|by eapply retry_step].
  destruct H; (apply (port_step_inv s1); [|done]); [by apply ps_run|by apply ps_lower].
Qed.

(** ** The quiet period *)

(** In HELD with [q] seconds to wait, under automatic control. *)
Record held (q : Z) sm : Prop := {
  he_state : auth_pae_state (machines sm) = AUTH_PAE_HELD;
  he_quiet : quietWhile (timers sm) = q;
  he_control : portControl (globals sm) = Auto;
  he_mode : portMode (machines sm) = Auto;
  he_initialize : initialize (globals sm) = false;
}.

Lemma held_pae q sm : held q sm -> q <> 0 -> portEnabled (eap_if sm) = true ->
  sm_AUTH_PAE_Step sm = sm.
Proof using Type.
  intros [Hs Hq Hc Hm Hi] Hn Hp. unfold sm_AUTH_PAE_Step. cbn zeta.
  rewrite Hs, Hq, Hc, Hm, Hi, Hp. cbn. by rewrite (proj2 (Z.eqb_neq _ _)).
Qed.

Lemma held_side q sm sm' : held q sm -> side_step sm sm' -> held q sm'.
Proof using Type.
  intros [Hs Hq Hc Hm Hi] Hside. pose proof (ss_kept _ _ Hside) as Hk.
  constructor.
  - by rewrite (ss_pae _ _ Hside).
  - by rewrite (ss_quiet _ _ Hside).
  - by destruct (ss_control _ _ Hside) as [->|].
  - by rewrite (ss_mode _ _ Hside).
  - by rewrite (kp_initialize _ _ Hk).
Qed.

(** Either still held, or the port was disabled on the way. *)
Definition held_or_disabled q (s0 s : eapol_sm E W) : Prop :=
  held q s \/ exists t, rtc run_step s0 t /\ portEnabled (eap_if t) = false.

Lemma held_steps q (s0 s : eapol_sm E W) : port_inv s0 -> held q s0 -> q <> 0 ->
  rtc run_step s0 s -> held_or_disabled q s0 s.
Proof using cb_laws.
  intros Hi0 Hh Hq Hall.
  refine (rtc_ind_r (fun s => held_or_disabled q s0 s) s0 (or_introl Hh) _ s Hall).
  clear s Hall. intros s s' Hr Hs [IH|]; [|by right].
  destruct (portEnabled (eap_if s)) eqn:Ep; [|right; by exists s]. left.
  pose proof (run_steps_inv _ _ Hr Hi0) as Hi.
  destruct Hs as [|s' Hbe| | | | |s' He|s' Hside].
  - by rewrite (held_pae q s).
  - destruct (BE_AUTH_ok s (proj1 Hi)) as (t & Ht & Hside). assert (t = s') as -> by congruence.
    by apply (held_side q s).
  - by apply (held_side q s), REAUTH_TIMER_side.
  - by apply (held_side q s), AUTH_KEY_TX_side.
  - by apply (held_side q s), KEY_RX_side.
  - by apply (held_side q s), CTRL_DIR_side.
  - destruct (eap_step_frame _ _ He) as (_ & Hm & Hg & Ht & _). destruct IH.
    constructor; by rewrite ?Hm, ?Hg, ?Ht.
  - by apply (held_side q s).
Qed.

(** ** Timeouts *)

Lemma run_tick (s s' : eapol_sm E W) : rtc run_step s s' -> port_inv s ->
  to_tick (eloop s') = to_tick (eloop s) /\ initialize (globals s') = initialize (globals s) /\
  consts s' = consts s.
Proof using cb_laws.
  induction 1 as [|s1 s2 s3 H _ IH]; [done|]. intros Hi.
  destruct IH as (-> & -> & ->); [by eapply run_step_inv|].
  destruct (run_step_cases s1 s2 (proj1 Hi) H) as [(st & _ & [K _ _ _ _ _ _])|[[K _ _ _ _ _ _ _]|He]].
  - by destruct K.
  - by destruct K.
  - by destruct He.
Qed.

(** A run of the driver. *)
Lemma step_run_ok es sm : (forall k i, wf_env (es k i)) -> port_inv sm ->
  (exists sm', eapol_sm_step_run es sm = Ok sm' /\ rtc run_step sm sm' /\ port_inv sm') \/
  (eapol_sm_step_run es sm = Fault NullDeref /\
   exists s k, rtc run_step sm s /\ server_step (es k) (eap s) = Fault NullDeref).
Proof using cb_laws.
  intros He Hi. destruct (step_loop_ok 100 es (addr (ids sm)) sm He Hi) as [(s & Hs & Hr)|Hf].
  - left. exists s. split_and!; [exact Hs|done|by eapply run_steps_inv].
  - by right.
Qed.

(** The timers of the tick. *)
Definition ticked sm : eapol_sm E W :=
  let sm := sm <| timers; aWhile := tick_down (aWhile (timers sm)) |> in
  let sm := sm <| timers; quietWhile := tick_down (quietWhile (timers sm)) |> in
  let sm := sm <| timers; reAuthWhen := tick_down (reAuthWhen (timers sm)) |> in
  upd_if (fun i => i <| retransWhile := tick_down (retransWhile i) |>) sm.

Lemma tick_eq es sm : eapol_port_timers_tick es sm =
  (sm ← eapol_sm_step_run es (ticked sm);
   mret (sm <| eloop; to_tick := to_tick (eloop sm) + 1 |>)).
Proof using Type. done. Qed.

Lemma ticked_lower sm : lower sm (ticked sm).
Proof using server_laws.
  unfold ticked. constructor; [cbn zeta; server_tac|unfold port_of; eapol_simpl; done..].
Qed.

Lemma ticked_held q sm : held q sm -> 0 < q -> held (q - 1) (ticked sm).
Proof using Type.
  intros [Hs Hq Hc Hm Hi] Hp. constructor; try done.
  change (tick_down (quietWhile (timers sm)) = q - 1).
  unfold tick_down. rewrite Hq. by rewrite (proj2 (Z.ltb_lt _ _)).
Qed.

Lemma lower_inv sm sm' : lower sm sm' -> port_inv sm -> port_inv sm'.
Proof using cb_laws. intros H. by apply port_step_inv, ps_lower. Qed.

(** ** Allocation *)

Definition wf_auth_conf (c : eapol_auth_config) : Prop :=
  opt (fun d => bytes d /\ 0 <= eap_req_id_text_len c <= zlen d) (eap_req_id_text c) /\
  0 <= eap_req_id_text_len c < 65536 /\
  opt (fun k => 16 <= zlen k) (pac_opaque_encr_key c) /\
  opt (fun d => 0 <= eap_fast_a_id_len c <= zlen d) (eap_fast_a_id c).

Definition wf_auth (eapol : eapol_authenticator) : Prop :=
  wf_auth_conf (conf eapol) /\
  forall id ph u, cb_get_eap_user eapol id ph = Some u -> wf_user u.

Lemma wf_eapol_cb eapol : wf_auth eapol -> wf_callbacks (eapol_cb eapol).
Proof using Type.
  intros [(Ht & Hl & _) Hu]. split.
  - intros get id ph u [= <-] H. by eapply Hu.
  - intros d n [= <- <-]. split; [lia|]. destruct (eap_req_id_text _); [|done]. cbn in *.
    split; [apply Ht|lia].
Qed.

Lemma wf_alloc_eap_conf eapol a w p : wf_auth eapol -> 6 <= zlen a -> opt wf w -> opt wf p ->
  wf_eap_config (alloc_eap_conf (conf eapol) a w p).
Proof using Type. intros [(_ & _ & Hk & Ha) _] H Hw Hp. by unfold wf_eap_config. Qed.

Lemma alloc_sm_inv eapol a fl (e : E) (w : W) : server_inv e -> if_get e = eap_if_zero ->
  port_inv (alloc_sm eapol a fl e w) /\ history (alloc_sm eapol a fl e w) (alloc_sm eapol a fl e w).
Proof using Type.
  intros He Hif. split; [split; [done|]; split; [by left|done]|].
  constructor; cbn; unfold eap_if, alloc_sm; cbn; rewrite ?Hif; done.
Qed.

(** [eapol_auth_initialize]: two runs. *)
Definition assert_initialize sm : eapol_sm E W :=
  sm <| initializing := true |> <| globals; initialize := true |>.
Definition deassert_initialize sm : eapol_sm E W := sm <| globals; initialize := false |>.
Definition start_tick sm : eapol_sm E W :=
  sm <| initializing := false |> <| eloop; to_tick := 1 |>.

Lemma initialize_eq es es' sm : eapol_auth_initialize es es' sm =
  (s ← eapol_sm_step_run es (assert_initialize sm);
   s ← eapol_sm_step_run es' (deassert_initialize s);
   mret (start_tick s)).
Proof using Type. done. Qed.

Lemma assert_lower sm : lower sm (assert_initialize sm).
Proof using Type. by constructor. Qed.
Lemma deassert_lower sm : lower sm (deassert_initialize sm).
Proof using Type. by constructor. Qed.
Lemma start_tick_lower sm : lower sm (start_tick sm).
Proof using Type. by constructor. Qed.

Lemma initialize_ok es es' sm : (forall k i, wf_env (es k i)) -> (forall k i, wf_env (es' k i)) ->
  port_inv sm ->
  (exists sm', eapol_auth_initialize es es' sm = Ok sm' /\ rtc port_step sm sm' /\
     to_tick (eloop sm') = 1 /\ initialize (globals sm') = false /\ initializing sm' = false) \/
  eapol_auth_initialize es es' sm = Fault NullDeref.
Proof using cb_laws.
  intros He He' Hi. rewrite initialize_eq.
  pose proof (lower_inv _ _ (assert_lower sm) Hi) as Hi1.
  destruct (step_run_ok es _ He Hi1) as [(s2 & H & H2 & Hi2)|[H _]].
  2: { right. by rewrite (bind_fault _ _ _ H). }
  rewrite (bind_eq _ _ _ H). clear H.
  pose proof (lower_inv _ _ (deassert_lower s2) Hi2) as Hi3.
  destruct (step_run_ok es' _ He' Hi3) as [(s4 & H & H4 & Hi4)|[H _]].
  2: { right. by rewrite (bind_fault _ _ _ H). }
  rewrite (bind_eq _ _ _ H). clear H.
  left. exists (start_tick s4). split; [done|].
  destruct (run_tick _ _ H4 Hi3) as (_ & Hin & _).
  split; [|split; [done|split; [exact Hin|done]]].
  eapply rtc_l; [apply ps_lower, assert_lower|]. etrans; [by apply run_port_steps|].
  eapply rtc_l; [apply ps_lower, deassert_lower|]. etrans; [by apply run_port_steps|].
  apply rtc_once, ps_lower, start_tick_lower.
Qed.

(** ** The transmission of requests *)

Lemma sent_ext (s s' : eapol_sm E W) : eapReqData (eap_if s') = eapReqData (eap_if s) ->
  flags (ids s') = flags (ids s) -> sent s' = sent s.
Proof using Type. unfold sent, sendable. by intros -> ->. Qed.

Lemma enter_BE_REQUEST_sends sm : server_inv (eap sm) ->
  exists sm', sm_BE_AUTH_REQUEST_Enter sm = Ok sm' /\ calls sm' = sent sm ++ calls sm /\
    eapReq (eap_if sm') = false /\ eapolEap (globals sm') = false.
Proof using cb_laws.
  intros H. unfold sm_BE_AUTH_REQUEST_Enter.
  destruct (txReq_ok (SM_ENTRY_BE BE_AUTH_REQUEST false sm) H) as (s & -> & _ & Hc).
  eexists. split; [reflexivity|]. eapol_simpl. split; [exact Hc|done].
Qed.

(** The states of BE_AUTH in which a new request of the EAP server is taken. *)
Definition takes_request sm : Prop :=
  match be_auth_state (machines sm) with
  | BE_AUTH_REQUEST | BE_AUTH_IGNORE => eapolEap (globals sm) = false
  | BE_AUTH_RESPONSE => True
  | BE_AUTH_IDLE => authStart (globals sm) = true /\ eapFail (eap_if sm) = false
  | _ => False
  end.
End props.

(** ** Properties *)


(** ([authPortStatus]): a port that starts closed, with no success on record,
    is open at the end of a history of steps only if on the way the EAP server
    reported a success for which it had evidence, the owner installed a cached
    key, or management forced the port open; frames, timers, notifications and
    callbacks cannot open it. *)
Theorem eapol_port_opened_only_by_eap {E W : Type} {server : EapServerOps E}
    {server_laws : EapServerLaws E} {cb : EapolAuthCb E W} {cb_laws : EapolAuthCbLaws E W}
    (s0 s : eapol_sm E W) :
  port_inv s0 -> authPortStatus (globals s0) <> Authorized -> authSuccess (globals s0) = false ->
  eapSuccess (eap_if s0) = false -> rtc port_step s0 s ->
  authPortStatus (globals s) = Authorized ->
  via eap_accepts s0 s \/ via cached s0 s \/ via forced s0 s.
Proof.
  intros Hi Hp Ha Hs Hr H. apply (hi_port s0 s); [|done].
  apply history_steps; [done| |done]. constructor; [by rewrite Hs|by rewrite Ha|done].
Qed.

(** ([authPortStatus] / [set_port_authorized]): along every history the driver
    was last told what [authPortStatus] says, DISCONNECTED, HELD and FORCE_UNAUTH
    keep the port closed, AUTHENTICATED and FORCE_AUTH open. *)
Theorem eapol_port_mirrors_driver {E W : Type} {server : EapServerOps E}
    {server_laws : EapServerLaws E} {cb : EapolAuthCb E W} {cb_laws : EapolAuthCbLaws E W}
    (s0 s : eapol_sm E W) :
  port_inv s0 -> rtc port_step s0 s ->
  authPortStatus (globals s) = match last_port (calls s) with
                               | Some true => Authorized | Some false => Unauthorized | None => 0
                               end /\
  (pae_port (auth_pae_state (machines s)) = Some false -> last_port (calls s) = Some false) /\
  (pae_port (auth_pae_state (machines s)) = Some true -> last_port (calls s) = Some true).
Proof.
  intros Hi Hr. destruct (port_steps_inv _ _ Hr Hi) as [_ [Ho Hm]]. unfold port_of, port_set in *.
  split_and!.
  - by destruct Ho as [[= -> ->]|[[] [= -> ->]]].
  - intros Hp. rewrite Hp in Hm. by injection Hm.
  - intros Hp. rewrite Hp in Hm. by injection Hm.
Qed.

(** (AUTH_PAE HELD): while the quiet period runs, a tick of the clock only
    counts it down: AUTH_PAE stays in HELD with one second less to wait and the
    port closed, whatever frames arrived and whatever the EAP server reports,
    unless the port itself was disabled on the way. *)
Theorem eapol_held_quiet_period {E W : Type} {server : EapServerOps E}
    {server_laws : EapServerLaws E} {cb : EapolAuthCb E W} {cb_laws : EapolAuthCbLaws E W}
    (es : nat -> nat -> env) (sm sm' : eapol_sm E W) (q : Z) :
  (forall k i, wf_env (es k i)) -> port_inv sm -> held q sm -> 1 < q ->
  eapol_port_timers_tick es sm = Ok sm' ->
  (held (q - 1) sm' /\ authPortStatus (globals sm') = Unauthorized) \/
  exists s, rtc run_step (ticked sm) s /\ portEnabled (eap_if s) = false.
Proof.
  intros He Hi Hh Hq Ht. rewrite tick_eq in Ht.
  pose proof (lower_inv _ _ (ticked_lower sm) Hi) as Hi1.
  destruct (step_run_ok es _ He Hi1) as [(s & H & Hr & Hi2)|[H _]].
  2: { by rewrite (bind_fault _ _ _ H) in Ht. }
  rewrite (bind_eq _ _ _ H) in Ht. injection Ht as <-.
  destruct (held_steps (q - 1) (ticked sm) s) as [Hs|?]; [done|apply ticked_held; [done|lia]|lia|done| |by right].
  left. split; [by destruct Hs|]. destruct Hi2 as [_ [_ Hm]]. rewrite (he_state _ _ Hs) in Hm.
  by injection Hm.
Qed.

(** ([reAuthCount] / [reAuthMax]): the retry counter exceeds [reAuthMax] by at
    most one, and in CONNECTING only (or where management holds the machine):
    there the next step closes the port and starts over, so an unresponsive
    supplicant cannot keep a port connecting; the counter never wraps. *)
Theorem eapol_retry_bound {E W : Type} {server : EapServerOps E}
    {server_laws : EapServerLaws E} {cb : EapolAuthCb E W} {cb_laws : EapolAuthCbLaws E W}
    (s0 s : eapol_sm E W) :
  port_inv s0 -> retry_ok s0 -> rtc run_or_lower s0 s ->
  retry_ok s /\
  (auth_pae_state (machines s) = AUTH_PAE_CONNECTING ->
   reAuthMax (consts s) < reAuthCount (machines s) ->
   portControl (globals s) = Auto -> pae_global s = false ->
   auth_pae_state (machines (sm_AUTH_PAE_Step s)) = AUTH_PAE_DISCONNECTED /\
   reAuthCount (machines (sm_AUTH_PAE_Step s)) = 0 /\
   port_of (sm_AUTH_PAE_Step s) = port_set false).
Proof.
  intros Hi Hr Hs. split; [by eapply retry_steps|]. intros Est Hc Hpc Hg.
  assert (sm_AUTH_PAE_Step s = sm_AUTH_PAE_DISCONNECTED_Enter s) as ->.
  { unfold sm_AUTH_PAE_Step. cbn zeta. unfold pae_global in Hg. rewrite Hg, Hpc, Est. cbn.
    by rewrite (proj2 (Z.ltb_lt _ _) Hc), orb_true_r. }
  pose proof (enter_PAE_DISCONNECTED s) as He. split_and!.
  - exact (pe_state _ _ _ He).
  - exact (pe_count _ _ _ He).
  - exact (pe_port _ _ _ He).
Qed.

(** (EAPOL-Logoff): when a logoff is pending on an authenticated port, the
    very first step of the next run closes it and tells the driver; everything
    else the run does comes after. *)
Theorem eapol_logoff_closes_port {E W : Type} {server : EapServerOps E}
    {server_laws : EapServerLaws E} {cb : EapolAuthCb E W} {cb_laws : EapolAuthCbLaws E W}
    (es : nat -> nat -> env) (sm sm' : eapol_sm E W) :
  (forall k i, wf_env (es k i)) -> port_inv sm ->
  auth_pae_state (machines sm) = AUTH_PAE_AUTHENTICATED ->
  eapolLogoff (machines sm) = true -> eapolStart (machines sm) = false ->
  reAuthenticate (globals sm) = false -> portControl (globals sm) = Auto ->
  pae_global sm = false -> eapol_sm_step_run es sm = Ok sm' ->
  exists s, auth_pae_state (machines s) = AUTH_PAE_DISCONNECTED /\ port_of s = port_set false /\
    calls s = [finished false (Z.land (flags (ids sm)) EAPOL_SM_PREAUTH);
               set_port_authorized false] ++ calls sm /\
    rtc run_step s sm'.
Proof.
  intros He Hi Hst Hlo Hs Hre Hpc Hg Hrun.
  assert (sm_AUTH_PAE_Step sm = sm_AUTH_PAE_DISCONNECTED_Enter sm) as Hpae.
  { unfold sm_AUTH_PAE_Step. cbn zeta. unfold pae_global in Hg. by rewrite Hg, Hpc, Hst, Hs, Hre, Hlo. }
  exists (sm_AUTH_PAE_DISCONNECTED_Enter sm).
  pose proof (enter_PAE_DISCONNECTED sm) as Hent. split_and!.
  - exact (pe_state _ _ _ Hent).
  - exact (pe_port _ _ _ Hent).
  - unfold sm_AUTH_PAE_DISCONNECTED_Enter. rewrite Hst, Hlo. cbn zeta.
    rewrite bool_decide_eq_false_2 by done. unfold preauth_flag. by eapol_simpl.
  - rewrite <- Hpae.
    destruct (step_run_first es sm He Hi) as [(s & H & Hr)|[H _]]; [|congruence].
    by replace sm' with s by congruence.
Qed.

(** (BE_AUTH REQUEST / [txReq]): a request of the EAP server that BE_AUTH takes
    is sent to the supplicant byte for byte, once ([eapReq] is cleared), and a
    response to the previous request that has not been processed is forgotten;
    nothing is sent when the request is no EAP packet or EAPOL-Start is awaited. *)
Theorem eapol_request_sent_once {E W : Type} {server : EapServerOps E}
    {server_laws : EapServerLaws E} {cb : EapolAuthCb E W} {cb_laws : EapolAuthCbLaws E W}
    (sm : eapol_sm E W) :
  port_inv sm -> portControl (globals sm) = Auto -> initialize (globals sm) = false ->
  authAbort (globals sm) = false -> takes_request sm -> eapReq (eap_if sm) = true ->
  exists sm', sm_BE_AUTH_Step sm = Ok sm' /\ eapReq (eap_if sm') = false /\
    eapolEap (globals sm') = false /\
    calls sm' = match eapReqData (eap_if sm) with
                | Some d => if (wpabuf_len d <? sizeof_eap_hdr) ||
                               has_flag (flags (ids sm)) EAPOL_SM_WAIT_START
                            then [] else [eapol_send IEEE802_1X_TYPE_EAP_PACKET (contents d)]
                | None => []
                end ++ calls sm.
Proof.
  intros [Hi _] Hpc Hin Hab Ht Hreq.
  assert (forall s, server_inv (eap s) -> calls s = calls sm -> sent s = sent sm ->
    exists sm', sm_BE_AUTH_REQUEST_Enter s = Ok sm' /\ eapReq (eap_if sm') = false /\
      eapolEap (globals sm') = false /\ calls sm' = sent sm ++ calls sm) as Hsend.
  { intros s Hs Hc Hsent. destruct (enter_BE_REQUEST_sends s Hs) as (sm' & H & Hcalls & Hr & He).
    exists sm'. split_and!; [done..|]. by rewrite Hcalls, Hc, Hsent. }
  assert (exists sm', sm_BE_AUTH_Step sm = Ok sm' /\ eapReq (eap_if sm') = false /\
    eapolEap (globals sm') = false /\ calls sm' = sent sm ++ calls sm) as (sm' & H1 & H2 & H3 & H4).
  { unfold sm_BE_AUTH_Step. cbn zeta. rewrite Hpc, Hin, Hab. cbn. unfold takes_request in Ht.
    destruct (be_auth_state (machines sm)) eqn:Es; try done.
    - rewrite Ht, Hreq. by apply Hsend.
    - set (s := if eapNoReq (eap_if sm) then _ else sm).
      assert (side_step sm s) as Hside
        by (subst s; case_match; [apply enter_BE_IGNORE | apply side_refl]).
      unfold sm_BE_AUTH_IGNORE_Enter in s.
      assert (eapReq (eap_if s) = true) as -> by (subst s; case_match; by eapol_simpl).
      apply Hsend; [by apply (server_kept sm s (ss_kept _ _ Hside))|subst s; by case_match|].
      apply sent_ext; subst s; case_match; by eapol_simpl.
    - destruct Ht as [Ha Hf]. rewrite Hf, Hreq, Ha. by apply Hsend.
    - rewrite Ht, Hreq. by apply Hsend. }
  exists sm'. split_and!; [done..|]. rewrite H4. unfold sent, sendable.
  destruct (eapReqData (eap_if sm)); [|done]. by destruct (_ || _).
Qed.

(** ([eapol_auth_alloc] / [eapol_auth_free]): allocation returns [NULL], faults
    only if the EAP server's step does, or gives a machine out of initialisation
    with exactly one tick registered, whose port is closed unless the EAP server
    has already accepted; releasing it leaves no timeout that could fire on the
    freed structure. *)
Theorem eapol_alloc_and_free {E W : Type} {server : EapServerOps E}
    {server_laws : EapServerLaws E} {cb : EapolAuthCb E W} {cb_laws : EapolAuthCbLaws E W}
    (e : env) (es es' : nat -> nat -> env) (eapol : eapol_authenticator) (a : list Z) (fl : Z)
    (w p : option wpabuf) (owner : W) :
  (forall k i, wf_env (es k i)) -> (forall k i, wf_env (es' k i)) ->
  wf_auth eapol -> 6 <= zlen a -> opt wf w -> opt wf p ->
  let r := eapol_auth_alloc e es es' (Some eapol) a fl w p owner in
  r = Ok None \/ r = Fault NullDeref \/
  exists s0 sm, r = Ok (Some sm) /\ rtc port_step s0 sm /\ port_of s0 = (0, None) /\
    port_inv sm /\ to_tick (eloop sm) = 1 /\ initialize (globals sm) = false /\
    initializing sm = false /\
    (authPortStatus (globals sm) = Authorized ->
       via eap_accepts s0 sm \/ via cached s0 sm \/ via forced s0 sm) /\
    eapol_auth_free (Some sm) = Ok (Some {| to_tick := 0; to_step := 0 |}).
Proof.
  intros He He' Ha Hl Hw Hp. cbn zeta. unfold eapol_auth_alloc.
  destruct (malloc_ok e sizeof_eapol_state_machine); cbn [negb]; [|by left].
  rewrite rd_n_ok by lia. rewrite (bind_eq (Ok _) _ _ eq_refl).
  destruct (server_init_law e (eapol_cb eapol) (alloc_eap_conf (conf eapol) a w p)
    (wf_eapol_cb _ Ha) (wf_alloc_eap_conf _ _ _ _ Ha Hl Hw Hp)) as [H|(ep & H & Hi & Hz)];
    rewrite (bind_eq _ _ _ H); [by left|]. clear H.
  match goal with |- context [alloc_sm eapol ?x fl ep owner] => set (addr := x) end.
  destruct (alloc_sm_inv eapol addr fl ep owner Hi Hz) as [Hinv Hh].
  destruct (initialize_ok es es' _ He He' Hinv) as [(sm & H & Hr & H1 & H2 & H3)|H].
  2: { right; left. by rewrite (bind_fault _ _ _ H). }
  rewrite (bind_eq _ _ _ H). right; right. exists (alloc_sm eapol addr fl ep owner), sm.
  destruct (history_steps _ _ Hinv Hh Hr) as [Hsm Hhist]. split_and!; try done.
  - apply Hhist.
  - unfold eapol_auth_free. cbn zeta. by rewrite (bind_eq _ _ _ (server_deinit_law _ (proj1 Hsm))).
Qed.

(** The copy that [eapol_auth_conf_clone] means to make. *)
Definition cloned (c : eapol_auth_config) : eapol_auth_config :=
  c <| eap_req_id_text := take (Z.to_nat (eap_req_id_text_len c)) <$> eap_req_id_text c |>
    <| eap_req_id_text_len := match eap_req_id_text c with
                              | Some _ => eap_req_id_text_len c | None => 0 end |>
    <| pac_opaque_encr_key := take 16 <$> pac_opaque_encr_key c |>
    <| eap_fast_a_id := take (Z.to_nat (eap_fast_a_id_len c)) <$> eap_fast_a_id c |>
    <| eap_fast_a_id_len := match eap_fast_a_id c with
                            | Some _ => eap_fast_a_id_len c | None => 0 end |>.

(** The allocation for an optional value of [n] bytes. *)
Definition mem {A} (e : env) (o : option A) (n : Z) : bool :=
  match o with Some _ => malloc_ok e n | None => true end.

Definition mem_info (e : env) (c : eapol_auth_config) : bool :=
  match eap_fast_a_id_info c with Some s => malloc_ok e (zlen s + 1) | None => true end.

Lemma clone_req_id_text_eq e dst src : wf_auth_conf src ->
  clone_req_id_text e dst src =
  Ok (if mem e (eap_req_id_text src) (eap_req_id_text_len src)
      then Some (dst <| eap_req_id_text :=
                        take (Z.to_nat (eap_req_id_text_len src)) <$> eap_req_id_text src |>
                     <| eap_req_id_text_len := match eap_req_id_text src with
                          | Some _ => eap_req_id_text_len src | None => 0 end |>)
      else None).
Proof.
  intros (Ht & _). unfold clone_req_id_text, clone_bytes, mem.
  destruct (eap_req_id_text src) as [t|]; [|done]. cbn in Ht.
  destruct (malloc_ok e _); [|done]. by rewrite rd_n_ok by lia.
Qed.

Lemma clone_pac_key_eq e dst src : wf_auth_conf src ->
  clone_pac_key e dst src =
  if mem e (pac_opaque_encr_key src) 16
  then Ok (dst <| pac_opaque_encr_key := take 16 <$> pac_opaque_encr_key src |>)
  else Fault NullDeref.
Proof.
  intros (_ & _ & Hk & _). unfold clone_pac_key, mem.
  destruct (pac_opaque_encr_key src) as [k|]; [|done]. cbn in Hk.
  destruct (malloc_ok e _); [|done]. by rewrite rd_n_ok by lia.
Qed.

Lemma clone_fast_a_id_eq e dst src : wf_auth_conf src -> eap_fast_a_id_len dst = 0 ->
  clone_fast_a_id e dst src =
  Ok (if mem e (eap_fast_a_id src) (eap_fast_a_id_len src)
      then Some (dst <| eap_fast_a_id :=
                        take (Z.to_nat (eap_fast_a_id_len src)) <$> eap_fast_a_id src |>
                     <| eap_fast_a_id_len := match eap_fast_a_id src with
                          | Some _ => eap_fast_a_id_len src | None => 0 end |>)
      else None).
Proof.
  intros (_ & _ & _ & Ha) Hz. unfold clone_fast_a_id, clone_bytes, mem.
  destruct (eap_fast_a_id src) as [d|]; [|by unfold put; rewrite <- Hz]. cbn in Ha.
  destruct (malloc_ok e _); [|done]. by rewrite rd_n_ok by lia.
Qed.

Lemma clone_fast_a_id_info_eq e dst src :
  clone_fast_a_id_info e dst src =
  if mem_info e src then Some (dst <| eap_fast_a_id_info := eap_fast_a_id_info src |>) else None.
Proof. unfold clone_fast_a_id_info, mem_info. by destruct (eap_fast_a_id_info src). Qed.

Lemma conf_clone_eq (e : env) (c : eapol_auth_config) : wf_auth_conf c ->
  eapol_auth_conf_clone e eapol_auth_config_zero c =
  if negb (mem e (eap_req_id_text c) (eap_req_id_text_len c)) then Ok None
  else if negb (mem e (pac_opaque_encr_key c) 16) then Fault NullDeref
  else if negb (mem e (eap_fast_a_id c) (eap_fast_a_id_len c)) then Ok None
  else if negb (mem_info e c) then Ok None
  else Ok (Some (cloned c)).
Proof.
  intros Hwf. unfold eapol_auth_conf_clone. cbn zeta.
  rewrite (clone_req_id_text_eq _ _ _ Hwf). cbn [mbind res_bind].
  destruct (mem e (eap_req_id_text c) _); cbn [negb]; [|done].
  rewrite (clone_pac_key_eq _ _ _ Hwf).
  destruct (mem e (pac_opaque_encr_key c) 16); cbn [negb mbind res_bind]; [|done].
  rewrite (clone_fast_a_id_eq _ _ _ Hwf) by reflexivity. cbn [mbind res_bind].
  destruct (mem e (eap_fast_a_id c) _); cbn [negb]; [|done].
  rewrite clone_fast_a_id_info_eq. destruct (mem_info e c); cbn [negb]; [|done].
  reflexivity.
Qed.

(** ([eapol_auth_conf_clone]): the clone into a zeroed configuration either
    runs out of memory or is a copy of every field; except that the allocation
    for [pac_opaque_encr_key] is not tested: when that one fails, the copy goes
    through a NULL pointer. *)
Theorem eapol_conf_clone_spec (e : env) (c : eapol_auth_config) :
  wf_auth_conf c ->
  ((forall n, malloc_ok e n = true) ->
     eapol_auth_conf_clone e eapol_auth_config_zero c = Ok (Some (cloned c))) /\
  (pac_opaque_encr_key c = None \/ malloc_ok e 16 = true ->
     eapol_auth_conf_clone e eapol_auth_config_zero c = Ok None \/
     eapol_auth_conf_clone e eapol_auth_config_zero c = Ok (Some (cloned c))) /\
  (pac_opaque_encr_key c <> None -> malloc_ok e 16 = false ->
   (eap_req_id_text c = None \/ malloc_ok e (eap_req_id_text_len c) = true) ->
     eapol_auth_conf_clone e eapol_auth_config_zero c = Fault NullDeref).
Proof.
  intros Hwf. rewrite (conf_clone_eq e c Hwf). unfold mem, mem_info. split; [|split].
  - intros Hall. rewrite ?Hall. destruct (eap_req_id_text c), (pac_opaque_encr_key c),
      (eap_fast_a_id c), (eap_fast_a_id_info c); rewrite ?Hall; done.
  - intros Hor. assert (match pac_opaque_encr_key c with
      | Some _ => malloc_ok e 16 | None => true end = true) as ->.
    { destruct Hor as [->| ->]; [done|]. by destruct (pac_opaque_encr_key c). }
    cbn [negb]. repeat case_match; auto.
  - intros Hne Hf Hor. assert (match eap_req_id_text c with
      | Some _ => malloc_ok e (eap_req_id_text_len c) | None => true end = true) as ->.
    { destruct Hor as [->| ->]; [done|]. by destruct (eap_req_id_text c). }
    destruct (pac_opaque_encr_key c); [|done]. by rewrite Hf.
Qed.
