(* ===== verification/EapolStack.v ===== *)
(** * The EAPOL authenticator over the EAP server

    What the two layers promise together, and a port at work: the authenticator
    of [EapolAuth] over [EapServer] with the Identity and MD5 methods, a concrete
    owner, a run from allocation to the authorised port, and the witnesses of
    the theorems of [EapolAuthProps]. *)

From S2P Require Import Prelude WpaBuf EapCommon EapI EapServerI EapServer EapServerInv.
From S2P Require Import EapMethods EapServerProps EapServerInst.
From S2P Require Import EapolAuth EapolAuthInv EapolAuthRun EapolAuthProps.

(** ** Both layers *)


(** An owner with one station that stays: it disables the port when an
    authentication is aborted after a time-out, as [ieee802_1x_abort_auth] does. *)
#[local] Instance server : EapServerOps (eap_sm method_data) := md5_server_ops Sample.md5.
#[local] Instance server_laws : EapServerLaws (eap_sm method_data) := md5_server_laws Sample.md5.
#[local] Abbreviation port := (eapol_sm (eap_sm method_data) unit).

#[local] Instance owner : EapolAuthCb (eap_sm method_data) unit := {|
  cb_call c s :=
    match c with
    | abort_auth =>
        if eapTimeout (eap_if s) then upd_if (fun i => i <| portEnabled := false |>) s else s
    | _ => s
    end;
  sta_entry_alive _ _ := true;
|}.

Lemma owner_frame_refl (s : port) : owner_frame s s.
Proof.
  constructor; try done; [|by exists (last_recv_radius (ids s))|].
  - exists (keyDone (globals s)), (keyRun (globals s)), (portControl (globals s)),
      (portValid (globals s)). by split; [|left].
  - by exists (portEnabled (eap_if s)), (eapKeyAvailable (eap_if s)).
Qed.

#[local] Instance owner_laws : EapolAuthCbLaws (eap_sm method_data) unit.
Proof.
  constructor. intros c s. destruct c; try exact (owner_frame_refl s).
  cbn [cb_call owner]. destruct (eapTimeout (eap_if s)); [|exact (owner_frame_refl s)].
  constructor; try done; [|by exists (last_recv_radius (ids s))|].
  - exists (keyDone (globals s)), (keyRun (globals s)), (portControl (globals s)),
      (portValid (globals s)). by split; [|left].
  - by exists false, (eapKeyAvailable (eap_if s)).
Qed.

Definition env1 (k i : nat) : env := Sample.es i.

Definition authenticator : eapol_authenticator :=
  {| conf := eapol_auth_config_zero <| EapolAuth.eap_server := 1 |>;
     cb_get_eap_user := fun _ _ => Some Sample.user_md5; default_wep_key := None;
     default_wep_key_idx := 0 |}.

Definition mac : list Z := [2; 0; 0; 0; 0; 1].

Definition is_ok {A} (r : res A) : bool := match r with Ok _ => true | Fault _ => false end.
Definition ok {A} (d : A) (r : res A) : A := match r with Ok a => a | Fault _ => d end.

(** The fields before initialisation, over a fresh EAP server. *)
Definition raw : port :=
  alloc_sm authenticator mac 0 (ok Sample.sm0 (r ← server_init (Sample.es 0) (eapol_cb authenticator)
    (alloc_eap_conf (conf authenticator) mac None None); mret (default Sample.sm0 r))) tt.

Definition run (s : port) : port := ok s (eapol_sm_step_run env1 s).

Definition allocated : port := ok raw (eapol_auth_initialize env1 env1 raw).
Definition enabled : port := upd_if (fun i => i <| portEnabled := true |>) allocated.
Definition asked : port := run enabled.
Definition respond (l : list Z) (s : port) : port :=
  upd_if (fun i => i <| eapRespData := Some (Sample.msg l) |>) s <| globals; eapolEap := true |>.
Definition resp_id : list Z := [2; 6; 0; 7; 1; 97; 98].
Definition challenged : port := run (respond resp_id asked).
Definition resp_md5 : list Z :=
  [2; 7; 0; 22; 4; 16] ++ Sample.md5 [[7]; [49; 50; 51]; replicate 16 7].
Definition open : port := run (respond resp_md5 challenged).


(** The supplicant logs off. *)
Definition leaving : port := open <| machines; eapolLogoff := true |>.
(** The supplicant fails: a wrong answer to the challenge. *)
Definition resp_bad : list Z := [2; 7; 0; 22; 4; 16] ++ replicate 16 0.
Definition failed : port := run (respond resp_bad challenged).

(** ** The sample states satisfy the invariants *)

Lemma env1_wf k i : wf_env (env1 k i).
Proof. apply Sample.es_wf. Qed.

Lemma run_ok (s : port) : port_inv s -> is_ok (eapol_sm_step_run env1 s) = true ->
  eapol_sm_step_run env1 s = Ok (run s) /\ rtc port_step s (run s) /\ port_inv (run s).
Proof.
  intros Hi Hok. unfold run. destruct (step_run_ok env1 s env1_wf Hi) as [(s' & H & Hr & Hi')|[H _]];
    rewrite H in *; [|done]. cbn. split_and!; [done|by apply run_port_steps|done].
Qed.

Lemma initialize_ok1 (s : port) : port_inv s ->
  is_ok (eapol_auth_initialize env1 env1 s) = true ->
  let s' := ok s (eapol_auth_initialize env1 env1 s) in rtc port_step s s' /\ port_inv s'.
Proof.
  intros Hi Hok. cbn zeta. destruct (initialize_ok env1 env1 s env1_wf env1_wf Hi)
    as [(s' & H & Hr & _)|H]; rewrite H in *; [|done]. cbn. split; [done|].
  by eapply port_steps_inv.
Qed.

Lemma enable_lower (s : port) : lower s (upd_if (fun i => i <| portEnabled := true |>) s).
Proof. constructor; [server_tac|unfold port_of; eapol_simpl; done..]. Qed.

Lemma respond_lower l (s : port) : bytes l -> zlen l < 65536 -> lower s (respond l s).
Proof.
  intros Hl Hn. constructor; [|unfold port_of, respond; eapol_simpl; done..].
  intros Hs. unfold respond. apply if_set_law; [done| |done].
  destruct (if_wf_law _ Hs) as (_ & H). split; [|exact H]. by apply Sample.msg_wf.
Qed.

Lemma wf_authenticator : wf_auth authenticator.
Proof.
  split; [done|]. intros id ph u [= <-]. split; [done|]. cbn. split; [|done].
  repeat constructor; unfold is_byte; lia.
Qed.

Lemma raw_ok : port_inv raw /\ history raw raw.
Proof.
  assert (exists e, server_init (Sample.es 0) (eapol_cb authenticator)
      (alloc_eap_conf (conf authenticator) mac None None) = Ok (Some e) /\ server_inv e /\
      if_get e = eap_if_zero) as (e & H & Hi & Hz).
  { destruct (server_init_law (Sample.es 0) (eapol_cb authenticator)
      (alloc_eap_conf (conf authenticator) mac None None)) as [H|H];
      [by apply wf_eapol_cb, wf_authenticator| | |done].
    { apply wf_alloc_eap_conf; [apply wf_authenticator|by vm_compute|done..]. }
    by vm_compute in H. }
  unfold raw. rewrite H. cbn [ok mbind res_bind mret res_ret default]. by apply alloc_sm_inv.
Qed.

Lemma allocated_ok : rtc port_step raw allocated /\ port_inv allocated.
Proof. apply initialize_ok1; [apply raw_ok|by vm_compute]. Qed.

Lemma enabled_ok : rtc port_step allocated enabled /\ port_inv enabled.
Proof.
  split; [apply rtc_once, ps_lower, enable_lower|].
  apply (lower_inv allocated), allocated_ok. apply enable_lower.
Qed.

Lemma asked_ok : rtc port_step enabled asked /\ port_inv asked.
Proof. apply run_ok; [apply enabled_ok|by vm_compute]. Qed.

Lemma respond_ok l (s : port) : port_inv s -> bytes l -> zlen l < 65536 ->
  is_ok (eapol_sm_step_run env1 (respond l s)) = true ->
  rtc port_step s (run (respond l s)) /\ port_inv (run (respond l s)).
Proof.
  intros Hi Hl Hn Hok. pose proof (respond_lower l s Hl Hn) as Hlow.
  destruct (run_ok (respond l s)) as (_ & Hr & Hi'); [by apply (lower_inv s)|done|].
  split; [|done]. eapply rtc_l; [by apply ps_lower|done].
Qed.

Lemma challenged_ok : rtc port_step asked challenged /\ port_inv challenged.
Proof.
  apply (respond_ok resp_id asked); [apply asked_ok| | |]; [|by vm_compute..].
  apply (bool_decide_unpack _). by vm_compute.
Qed.

Lemma open_ok : rtc port_step challenged open /\ port_inv open.
Proof.
  apply (respond_ok resp_md5 challenged); [apply challenged_ok| | |]; [|by vm_compute..].
  apply (bool_decide_unpack _). by vm_compute.
Qed.

Lemma failed_ok : rtc port_step challenged failed /\ port_inv failed.
Proof.
  apply (respond_ok resp_bad challenged); [apply challenged_ok| | |]; [|by vm_compute..].
  apply (bool_decide_unpack _). by vm_compute.
Qed.

Lemma to_open : rtc port_step raw open.
Proof.
  transitivity allocated; [exact (proj1 allocated_ok)|].
  transitivity enabled; [exact (proj1 enabled_ok)|].
  transitivity asked; [exact (proj1 asked_ok)|].
  transitivity challenged; [exact (proj1 challenged_ok)|exact (proj1 open_ok)].
Qed.

Lemma leaving_inv : port_inv leaving.
Proof. apply (lower_inv open), open_ok. by constructor. Qed.

(** The whole exchange: what the owner sees, newest first. *)
Example open_calls : take 4 (calls open) =
  [eapol_event EAPOL_AUTH_SM_CHANGE; finished true 0; set_port_authorized true;
   eapol_send IEEE802_1X_TYPE_EAP_PACKET [3; 7; 0; 4]] /\
  authPortStatus (globals open) = Authorized.
Proof. by vm_compute. Qed.

(** ** Witnesses *)


Lemma eapol_port_opened_only_by_eap_witness :
  authPortStatus (globals open) = Authorized /\
  (via eap_accepts raw open \/ via cached raw open \/ via forced raw open).
Proof.
  split; [by vm_compute|].
  apply (eapol_port_opened_only_by_eap raw open);
    [exact (proj1 raw_ok)|by vm_compute|by vm_compute|by vm_compute|exact to_open|by vm_compute].
Defined.


Lemma eapol_port_mirrors_driver_witness :
  last_port (calls open) = Some true /\
  authPortStatus (globals open) = match last_port (calls open) with
                               | Some true => Authorized | Some false => Unauthorized | None => 0
                               end /\
  (pae_port (auth_pae_state (machines open)) = Some false -> last_port (calls open) = Some false) /\
  (pae_port (auth_pae_state (machines open)) = Some true -> last_port (calls open) = Some true).
Proof.
  split; [by vm_compute|].
  exact (eapol_port_mirrors_driver raw open (proj1 raw_ok) to_open).
Defined.

(** The tick after the failure. *)
Definition waiting : port := ok failed (eapol_port_timers_tick env1 failed).

Lemma failed_held : held 60 failed.
Proof. constructor; by vm_compute. Qed.

Lemma waiting_tick : eapol_port_timers_tick env1 failed = Ok waiting.
Proof.
  unfold waiting. assert (is_ok (eapol_port_timers_tick env1 failed) = true) as H by (by vm_compute).
  by destruct (eapol_port_timers_tick env1 failed).
Qed.

Lemma eapol_held_quiet_period_witness :
  quietWhile (timers waiting) = 59 /\
  ((held (60 - 1) waiting /\ authPortStatus (globals waiting) = Unauthorized) \/
   exists s, rtc run_step (ticked failed) s /\ portEnabled (eap_if s) = false).
Proof.
  split; [by vm_compute|].
  apply (eapol_held_quiet_period env1 failed waiting 60);
    [exact env1_wf|exact (proj2 failed_ok)|exact failed_held|lia|exact waiting_tick].
Defined.

Lemma challenged_retry : retry_ok challenged.
Proof. apply (bool_decide_unpack _). by vm_compute. Qed.

Lemma eapol_retry_bound_witness :
  retry_ok challenged /\
  (auth_pae_state (machines challenged) = AUTH_PAE_CONNECTING ->
   reAuthMax (consts challenged) < reAuthCount (machines challenged) ->
   portControl (globals challenged) = Auto -> pae_global challenged = false ->
   auth_pae_state (machines (sm_AUTH_PAE_Step challenged)) = AUTH_PAE_DISCONNECTED /\
   reAuthCount (machines (sm_AUTH_PAE_Step challenged)) = 0 /\
   port_of (sm_AUTH_PAE_Step challenged) = port_set false).
Proof.
  apply (eapol_retry_bound challenged challenged);
    [exact (proj2 challenged_ok)|exact challenged_retry|exact (rtc_refl _ _)].
Defined.

Lemma leaving_run : eapol_sm_step_run env1 leaving = Ok (run leaving).
Proof. apply run_ok; [exact leaving_inv|by vm_compute]. Qed.

Lemma eapol_logoff_closes_port_witness :
  port_of leaving = port_set true /\
  exists s, auth_pae_state (machines s) = AUTH_PAE_DISCONNECTED /\ port_of s = port_set false /\
    calls s = [finished false (Z.land (flags (ids leaving)) EAPOL_SM_PREAUTH);
               set_port_authorized false] ++ calls leaving /\
    rtc run_step s (run leaving).
Proof.
  split; [by vm_compute|].
  apply (eapol_logoff_closes_port env1 leaving (run leaving));
    [exact env1_wf|exact leaving_inv|by vm_compute..|exact leaving_run].
Defined.

(** The EAP server has another request. *)
Definition pending : port := upd_if (fun i => i <| eapReq := true |>) challenged.

Lemma pending_inv : port_inv pending.
Proof.
  apply (lower_inv challenged), challenged_ok.
  constructor; [unfold pending; server_tac|unfold port_of, pending; eapol_simpl; done..].
Qed.

Lemma eapol_request_sent_once_witness :
  exists sm', sm_BE_AUTH_Step pending = Ok sm' /\ eapReq (eap_if sm') = false /\
    eapolEap (globals sm') = false /\
    calls sm' = match eapReqData (eap_if pending) with
                | Some d => if (wpabuf_len d <? sizeof_eap_hdr) ||
                               has_flag (flags (ids pending)) EAPOL_SM_WAIT_START
                            then [] else [eapol_send IEEE802_1X_TYPE_EAP_PACKET (contents d)]
                | None => []
                end ++ calls pending.
Proof. apply (eapol_request_sent_once pending); [exact pending_inv|by vm_compute..]. Defined.

Lemma eapol_alloc_and_free_witness :
  let r := eapol_auth_alloc (Sample.es 0) env1 env1 (Some authenticator) mac 0 None None tt in
  is_ok r = true /\
  (r = Ok None \/ r = Fault NullDeref \/
   exists s0 sm, r = Ok (Some sm) /\ rtc port_step s0 sm /\ port_of s0 = (0, None) /\
    port_inv sm /\ to_tick (eloop sm) = 1 /\ initialize (globals sm) = false /\
    initializing sm = false /\
    (authPortStatus (globals sm) = Authorized ->
       via eap_accepts s0 sm \/ via cached s0 sm \/ via forced s0 sm) /\
    eapol_auth_free (Some sm) = Ok (Some {| to_tick := 0; to_step := 0 |})).
Proof.
  split; [by vm_compute|].
  apply (eapol_alloc_and_free (Sample.es 0) env1 env1 authenticator mac 0 None None tt);
    [exact env1_wf|exact env1_wf|exact wf_authenticator|by vm_compute|exact I|exact I].
Defined.

Lemma eapol_conf_clone_spec_witness :
  let c := eapol_auth_config_zero <| EapolAuth.pac_opaque_encr_key := Some (replicate 16 1) |> in
  let e16 := {| malloc_ok := fun n => negb (n =? 16); rand := 0; random_get_bytes := fun _ => None |} in
  wf_auth_conf c /\
  ((forall n, malloc_ok e16 n = true) ->
     eapol_auth_conf_clone e16 eapol_auth_config_zero c = Ok (Some (cloned c))) /\
  (EapolAuth.pac_opaque_encr_key c = None \/ malloc_ok e16 16 = true ->
     eapol_auth_conf_clone e16 eapol_auth_config_zero c = Ok None \/
     eapol_auth_conf_clone e16 eapol_auth_config_zero c = Ok (Some (cloned c))) /\
  (EapolAuth.pac_opaque_encr_key c <> None -> malloc_ok e16 16 = false ->
   (eap_req_id_text c = None \/ malloc_ok e16 (eap_req_id_text_len c) = true) ->
     eapol_auth_conf_clone e16 eapol_auth_config_zero c = Fault NullDeref).
Proof.
  cbv zeta. match goal with |- ?P /\ _ => assert P as Hwf by (split_and!; by vm_compute) end.
  split; [exact Hwf|]. exact (eapol_conf_clone_spec _ _ Hwf).
Defined.
