(* ===== verification/WpaCommon.v ===== *)
(** * common/wpa_common.c, wpa_common.h, defs.h: WPA and RSN

    The constants of WPA/RSN, the parsers of the two information elements, the
    EAPOL-Key MIC, the pairwise key derivation and the PMKID, for a build with
    [CONFIG_IEEE80211W] and without [CONFIG_IEEE80211R], [CONFIG_PEERKEY] and
    [CONFIG_RSN_TESTING].  The hash functions, of which crypto/ has several
    implementations to choose from, are the operations of the class [Crypto].  A
    pointer into an element is its offset. *)

From S2P Require Import Prelude.

Definition BIT (x : Z) : Z := Z.shiftl 1 x.
(** [v & b] as a condition. *)
Definition has_bits (v b : Z) : bool := negb (Z.land v b =? 0).

(** ** defs.h *)
Definition WPA_CIPHER_NONE : Z := 1.
Definition WPA_CIPHER_WEP40 : Z := 2.
Definition WPA_CIPHER_WEP104 : Z := 4.
Definition WPA_CIPHER_TKIP : Z := 8.
Definition WPA_CIPHER_CCMP : Z := 16.
Definition WPA_CIPHER_AES_128_CMAC : Z := 32.

Definition WPA_KEY_MGMT_IEEE8021X : Z := 1.
Definition WPA_KEY_MGMT_PSK : Z := 2.
Definition WPA_KEY_MGMT_WPA_NONE : Z := 16.
Definition WPA_KEY_MGMT_FT_IEEE8021X : Z := 32.
Definition WPA_KEY_MGMT_FT_PSK : Z := 64.
Definition WPA_KEY_MGMT_IEEE8021X_SHA256 : Z := 128.
Definition WPA_KEY_MGMT_PSK_SHA256 : Z := 256.

Definition WPA_PROTO_WPA : Z := 1.
Definition WPA_PROTO_RSN : Z := 2.

Definition wpa_key_mgmt_wpa_ieee8021x (akm : Z) : bool :=
  (akm =? WPA_KEY_MGMT_IEEE8021X) || (akm =? WPA_KEY_MGMT_FT_IEEE8021X) ||
  (akm =? WPA_KEY_MGMT_IEEE8021X_SHA256).
Definition wpa_key_mgmt_wpa_psk (akm : Z) : bool :=
  (akm =? WPA_KEY_MGMT_PSK) || (akm =? WPA_KEY_MGMT_FT_PSK) ||
  (akm =? WPA_KEY_MGMT_PSK_SHA256).
Definition wpa_key_mgmt_sha256 (akm : Z) : bool :=
  (akm =? WPA_KEY_MGMT_PSK_SHA256) || (akm =? WPA_KEY_MGMT_IEEE8021X_SHA256).

Definition NO_MGMT_FRAME_PROTECTION : Z := 0.
Definition MGMT_FRAME_PROTECTION_OPTIONAL : Z := 1.
Definition MGMT_FRAME_PROTECTION_REQUIRED : Z := 2.

Inductive wpa_alg :=
  | WPA_ALG_NONE
  | WPA_ALG_WEP
  | WPA_ALG_TKIP
  | WPA_ALG_CCMP
  | WPA_ALG_IGTK
  | WPA_ALG_PMK.
#[global] Instance wpa_alg_eq : EqDecision wpa_alg.
Proof. solve_decision. Defined.

(** ** wpa_common.h *)
Definition PMKID_LEN : Z := 16.
Definition PMK_LEN : Z := 32.
Definition WPA_REPLAY_COUNTER_LEN : Z := 8.
Definition WPA_NONCE_LEN : Z := 32.
Definition WPA_KEY_RSC_LEN : Z := 8.
Definition WPA_GMK_LEN : Z := 32.
Definition WPA_GTK_MAX_LEN : Z := 32.
Definition WPA_IGTK_LEN : Z := 16.
Definition WPA_SELECTOR_LEN : Z := 4.
Definition RSN_SELECTOR_LEN : Z := 4.
Definition WPA_VERSION : Z := 1.
Definition RSN_VERSION : Z := 1.

Definition RSN_SELECTOR (a b c d : Z) : Z :=
  Z.lor (Z.lor (Z.lor (Z.shiftl a 24) (Z.shiftl b 16)) (Z.shiftl c 8)) d.

Definition WPA_AUTH_KEY_MGMT_NONE := RSN_SELECTOR 0 80 242 0.
Definition WPA_AUTH_KEY_MGMT_UNSPEC_802_1X := RSN_SELECTOR 0 80 242 1.
Definition WPA_AUTH_KEY_MGMT_PSK_OVER_802_1X := RSN_SELECTOR 0 80 242 2.
Definition WPA_CIPHER_SUITE_NONE := RSN_SELECTOR 0 80 242 0.
Definition WPA_CIPHER_SUITE_WEP40 := RSN_SELECTOR 0 80 242 1.
Definition WPA_CIPHER_SUITE_TKIP := RSN_SELECTOR 0 80 242 2.
Definition WPA_CIPHER_SUITE_CCMP := RSN_SELECTOR 0 80 242 4.
Definition WPA_CIPHER_SUITE_WEP104 := RSN_SELECTOR 0 80 242 5.
Definition RSN_AUTH_KEY_MGMT_UNSPEC_802_1X := RSN_SELECTOR 0 15 172 1.
Definition RSN_AUTH_KEY_MGMT_PSK_OVER_802_1X := RSN_SELECTOR 0 15 172 2.
Definition RSN_AUTH_KEY_MGMT_802_1X_SHA256 := RSN_SELECTOR 0 15 172 5.
Definition RSN_AUTH_KEY_MGMT_PSK_SHA256 := RSN_SELECTOR 0 15 172 6.
Definition RSN_CIPHER_SUITE_NONE := RSN_SELECTOR 0 15 172 0.
Definition RSN_CIPHER_SUITE_WEP40 := RSN_SELECTOR 0 15 172 1.
Definition RSN_CIPHER_SUITE_TKIP := RSN_SELECTOR 0 15 172 2.
Definition RSN_CIPHER_SUITE_CCMP := RSN_SELECTOR 0 15 172 4.
Definition RSN_CIPHER_SUITE_WEP104 := RSN_SELECTOR 0 15 172 5.
Definition RSN_CIPHER_SUITE_AES_128_CMAC := RSN_SELECTOR 0 15 172 6.
Definition RSN_KEY_DATA_GROUPKEY := RSN_SELECTOR 0 15 172 1.
Definition RSN_KEY_DATA_MAC_ADDR := RSN_SELECTOR 0 15 172 3.
Definition RSN_KEY_DATA_PMKID := RSN_SELECTOR 0 15 172 4.
Definition RSN_KEY_DATA_IGTK := RSN_SELECTOR 0 15 172 9.
Definition WPA_OUI_TYPE := RSN_SELECTOR 0 80 242 1.

Definition RSN_SELECTOR_PUT (val : Z) : list Z := WPA_PUT_BE32 val.
Definition RSN_SELECTOR_GET (a : list Z) (o : Z) : res Z := WPA_GET_BE32 a o.

Definition RSN_NUM_REPLAY_COUNTERS_16 : Z := 3.
Definition WPA_CAPABILITY_PREAUTH : Z := BIT 0.
Definition WPA_CAPABILITY_MFPR : Z := BIT 6.
Definition WPA_CAPABILITY_MFPC : Z := BIT 7.
Definition WPA_CAPABILITY_PEERKEY_ENABLED : Z := BIT 9.

Definition WPA_KEY_INFO_TYPE_MASK : Z := 7.
Definition WPA_KEY_INFO_TYPE_HMAC_MD5_RC4 : Z := 1.
Definition WPA_KEY_INFO_TYPE_HMAC_SHA1_AES : Z := 2.
Definition WPA_KEY_INFO_TYPE_AES_128_CMAC : Z := 3.
Definition WPA_KEY_INFO_KEY_TYPE : Z := BIT 3.
Definition WPA_KEY_INFO_KEY_INDEX_SHIFT : Z := 4.
Definition WPA_KEY_INFO_INSTALL : Z := BIT 6.
Definition WPA_KEY_INFO_ACK : Z := BIT 7.
Definition WPA_KEY_INFO_MIC : Z := BIT 8.
Definition WPA_KEY_INFO_SECURE : Z := BIT 9.
Definition WPA_KEY_INFO_ERROR : Z := BIT 10.
Definition WPA_KEY_INFO_REQUEST : Z := BIT 11.
Definition WPA_KEY_INFO_ENCR_KEY_DATA : Z := BIT 12.
Definition WPA_KEY_INFO_SMK_MESSAGE : Z := BIT 13.

Definition WLAN_EID_RSN : Z := 48.
Definition WLAN_EID_VENDOR_SPECIFIC : Z := 221.

(** ** The cryptographic library *)

(** What crypto/ computes for this code: [None] is a return value other than
    0.  [sha1_prf] and [sha256_prf] take the key, the label, the data and the
    length of the output. *)
Class Crypto := {
  hmac_md5 : list Z -> list Z -> option (list Z);
  hmac_sha1 : list Z -> list Z -> option (list Z);
  omac1_aes_128 : list Z -> list Z -> option (list Z);
  sha1_prf : list Z -> string -> list Z -> Z -> option (list Z);
  sha256_prf : list Z -> string -> list Z -> Z -> list Z;
  hmac_sha1_vector : list Z -> list (list Z) -> list Z;
  hmac_sha256_vector : list Z -> list (list Z) -> list Z;
  aes_wrap : list Z -> list Z -> option (list Z);
  rc4_skip : list Z -> Z -> list Z -> list Z;
}.

(** The sizes of the outputs. *)
Class CryptoLaws (c : Crypto) := {
  hmac_md5_len k m h : hmac_md5 k m = Some h -> zlen h = 16;
  hmac_sha1_len k m h : hmac_sha1 k m = Some h -> zlen h = 20;
  omac1_len k m h : omac1_aes_128 k m = Some h -> zlen h = 16;
  sha1_prf_len k l d n h : 0 <= n -> sha1_prf k l d n = Some h -> zlen h = n;
  sha256_prf_len k l d n : 0 <= n -> zlen (sha256_prf k l d n) = n;
  hmac_sha1_vector_len k m : zlen (hmac_sha1_vector k m) = 20;
  hmac_sha256_vector_len k m : zlen (hmac_sha256_vector k m) = 32;
  aes_wrap_len k p h : aes_wrap k p = Some h -> zlen h = zlen p + 8;
  rc4_skip_len k s d : zlen (rc4_skip k s d) = zlen d;
}.

(** The other direction, which only the supplicant needs: [aes_unwrap] takes the
    key and the wrapped data, and gives [None] when the integrity check fails. *)
Class KeyUnwrap := { aes_unwrap : list Z -> list Z -> option (list Z) }.
Class KeyUnwrapLaws (c : Crypto) (u : KeyUnwrap) := {
  aes_unwrap_len k d p : 8 <= zlen d -> aes_unwrap k d = Some p -> zlen p = zlen d - 8;
  aes_unwrap_bytes k d p : bytes d -> aes_unwrap k d = Some p -> bytes p;
  aes_unwrap_wrap k p d : aes_wrap k p = Some d -> aes_unwrap k d = Some p;
  rc4_skip_bytes k s d : bytes d -> bytes (rc4_skip k s d);
  rc4_skip_twice k s d : rc4_skip k s (rc4_skip k s d) = d;
}.

(** [os_memcmp] of two areas of the same length: the sign of the first
    difference. *)
Fixpoint os_memcmp (a b : list Z) : Z :=
  match a, b with
  | x :: a, y :: b => if x =? y then os_memcmp a b else x - y
  | _, _ => 0
  end.

(** ** EAPOL-Key frames: eapol_common.h, wpa_common.h *)
Definition EAPOL_KEY_TYPE_RSN : Z := 2.
Definition EAPOL_KEY_TYPE_WPA : Z := 254.
Definition IEEE802_1X_TYPE_EAPOL_KEY : Z := 3.
Definition broadcast_ether_addr : list Z := replicate 6 255.

(** [struct ieee802_1x_hdr] and [struct wpa_eapol_key] of a frame, as offsets. *)
Definition sizeof_ieee802_1x_hdr : Z := 4.
Definition sizeof_wpa_eapol_key : Z := 95.
Definition o_type : Z := 4.
Definition o_key_info : Z := 5.
Definition o_key_length : Z := 7.
Definition o_replay_counter : Z := 9.
Definition o_key_nonce : Z := 17.
Definition o_key_iv : Z := 49.
Definition o_key_rsc : Z := 65.
Definition o_key_mic : Z := 81.
Definition o_key_data_length : Z := 97.
Definition o_key_data : Z := 99.

(** [struct wpa_ptk] *)
Definition kck (PTK : list Z) : list Z := take 16 PTK.
Definition kek (PTK : list Z) : list Z := take 16 (drop 16 PTK).
Definition tk1 (PTK : list Z) (len : Z) : list Z := take (Z.to_nat len) (drop 32 PTK).
Definition sizeof_wpa_ptk : Z := 64.

(** [os_memcpy(dst, src, n)] onto the front of a buffer. *)
Definition copy_front (dst src : list Z) : list Z := src ++ drop (length src) dst.

Lemma zlen_copy_front dst src : zlen src <= zlen dst -> zlen (copy_front dst src) = zlen dst.
Proof. intros. unfold copy_front, zlen in *. rewrite length_app, length_drop. lia. Qed.

(** ** wpa_common.c *)

(** What [memcpy(mic, hash, MD5_MAC_LEN)] writes; [None] is [-1]. *)
Definition wpa_eapol_key_mic `{Crypto} (key : list Z) (ver : Z) (buf : list Z)
    : option (list Z) :=
  if ver =? WPA_KEY_INFO_TYPE_HMAC_MD5_RC4 then hmac_md5 key buf
  else if ver =? WPA_KEY_INFO_TYPE_HMAC_SHA1_AES then
    match hmac_sha1 key buf with Some hash => Some (take 16 hash) | None => None end
  else if ver =? WPA_KEY_INFO_TYPE_AES_128_CMAC then omac1_aes_128 key buf
  else None.

Lemma mic_len {cr : Crypto} {c_laws : CryptoLaws cr} key ver buf h : wpa_eapol_key_mic key ver buf = Some h -> zlen h = 16.
Proof.
  unfold wpa_eapol_key_mic. intros H.
  repeat case_match; try done; [by apply hmac_md5_len in H| |by apply omac1_len in H].
  match goal with E : hmac_sha1 _ _ = Some _ |- _ => apply hmac_sha1_len in E end.
  apply (inj Some) in H. subst h. unfold zlen in *. rewrite length_take. lia.
Qed.

(** The [data] of the derivation: both addresses and both nonces, each pair in
    increasing order. *)
Definition ptk_data (addr1 addr2 nonce1 nonce2 : list Z) : list Z :=
  (if os_memcmp addr1 addr2 <? 0 then addr1 ++ addr2 else addr2 ++ addr1) ++
  (if os_memcmp nonce1 nonce2 <? 0 then nonce1 ++ nonce2 else nonce2 ++ nonce1).

(** [None]: [sha1_prf] failed, and the output buffer is left with contents the
    caller does not know. *)
Definition wpa_pmk_to_ptk `{Crypto} (pmk : list Z) (label : string)
    (addr1 addr2 nonce1 nonce2 : list Z) (ptk_len : Z) (use_sha256 : bool)
    : option (list Z) :=
  let data := ptk_data addr1 addr2 nonce1 nonce2 in
  if use_sha256 then Some (sha256_prf pmk label data ptk_len)
  else sha1_prf pmk label data ptk_len.

(** "PMK Name" *)
Definition pmk_name : list Z := [80; 77; 75; 32; 78; 97; 109; 101].

Definition rsn_pmkid `{Crypto} (pmk aa spa : list Z) (use_sha256 : bool) : list Z :=
  let addr := [pmk_name; aa; spa] in
  take 16 (if use_sha256 then hmac_sha256_vector pmk addr else hmac_sha1_vector pmk addr).

Lemma rsn_pmkid_len {cr : Crypto} {c_laws : CryptoLaws cr} pmk aa spa b :
  zlen (rsn_pmkid pmk aa spa b) = PMKID_LEN.
Proof.
  unfold rsn_pmkid, zlen. rewrite length_take.
  pose proof (hmac_sha1_vector_len pmk [pmk_name; aa; spa]).
  pose proof (hmac_sha256_vector_len pmk [pmk_name; aa; spa]).
  unfold zlen, PMKID_LEN in *. destruct b; lia.
Qed.

Lemma pmk_to_ptk_len {cr : Crypto} {c_laws : CryptoLaws cr} pmk label a b c d n sha k : 0 <= n ->
  wpa_pmk_to_ptk pmk label a b c d n sha = Some k -> zlen k = n.
Proof.
  intros Hn. unfold wpa_pmk_to_ptk. destruct sha.
  - intros [= <-]. by apply sha256_prf_len.
  - by apply sha1_prf_len.
Qed.

Definition wpa_compare_rsn_ie (ie1 ie2 : option (list Z)) : Z :=
  match ie1, ie2 with
  | Some ie1, Some ie2 =>
      if (zlen ie1 =? zlen ie2) && (os_memcmp ie1 ie2 =? 0) then 0 else -1
  | _, _ => -1
  end.

(** [pos[1] > limit && RSN_SELECTOR_GET(pos + 2) == sel], left to right: the test of
    the parsers of key data in wpa_auth_ie.c and wpa_ie.c. *)
Definition is_kde (buf : list Z) (pos limit sel : Z) : res bool :=
  l ← rd buf (pos + 1);
  if limit <? l then v ← RSN_SELECTOR_GET buf (pos + 2); mret (v =? sel) else mret false.

(** *** The element parsers *)

#[projections(primitive)]
Record wpa_ie_data := {
  proto : Z;
  pairwise_cipher : Z;
  group_cipher : Z;
  key_mgmt : Z;
  capabilities : Z;
  num_pmkid : Z;
  pmkid : option Z;
  mgmt_group_cipher : Z;
}.

(** The tests of the four functions on the selector they read. *)
Definition rsn_cipher_bits (v : Z) : Z :=
  if v =? RSN_CIPHER_SUITE_NONE then WPA_CIPHER_NONE
  else if v =? RSN_CIPHER_SUITE_WEP40 then WPA_CIPHER_WEP40
  else if v =? RSN_CIPHER_SUITE_TKIP then WPA_CIPHER_TKIP
  else if v =? RSN_CIPHER_SUITE_CCMP then WPA_CIPHER_CCMP
  else if v =? RSN_CIPHER_SUITE_WEP104 then WPA_CIPHER_WEP104
  else if v =? RSN_CIPHER_SUITE_AES_128_CMAC then WPA_CIPHER_AES_128_CMAC
  else 0.
Definition rsn_selector_to_bitfield (a : list Z) (s : Z) : res Z :=
  v ← RSN_SELECTOR_GET a s; mret (rsn_cipher_bits v).

Definition rsn_key_mgmt_bits (v : Z) : Z :=
  if v =? RSN_AUTH_KEY_MGMT_UNSPEC_802_1X then WPA_KEY_MGMT_IEEE8021X
  else if v =? RSN_AUTH_KEY_MGMT_PSK_OVER_802_1X then WPA_KEY_MGMT_PSK
  else if v =? RSN_AUTH_KEY_MGMT_802_1X_SHA256 then WPA_KEY_MGMT_IEEE8021X_SHA256
  else if v =? RSN_AUTH_KEY_MGMT_PSK_SHA256 then WPA_KEY_MGMT_PSK_SHA256
  else 0.
Definition rsn_key_mgmt_to_bitfield (a : list Z) (s : Z) : res Z :=
  v ← RSN_SELECTOR_GET a s; mret (rsn_key_mgmt_bits v).

Definition wpa_cipher_bits (v : Z) : Z :=
  if v =? WPA_CIPHER_SUITE_NONE then WPA_CIPHER_NONE
  else if v =? WPA_CIPHER_SUITE_WEP40 then WPA_CIPHER_WEP40
  else if v =? WPA_CIPHER_SUITE_TKIP then WPA_CIPHER_TKIP
  else if v =? WPA_CIPHER_SUITE_CCMP then WPA_CIPHER_CCMP
  else if v =? WPA_CIPHER_SUITE_WEP104 then WPA_CIPHER_WEP104
  else 0.
Definition wpa_selector_to_bitfield (a : list Z) (s : Z) : res Z :=
  v ← RSN_SELECTOR_GET a s; mret (wpa_cipher_bits v).

Definition wpa_key_mgmt_bits (v : Z) : Z :=
  if v =? WPA_AUTH_KEY_MGMT_UNSPEC_802_1X then WPA_KEY_MGMT_IEEE8021X
  else if v =? WPA_AUTH_KEY_MGMT_PSK_OVER_802_1X then WPA_KEY_MGMT_PSK
  else if v =? WPA_AUTH_KEY_MGMT_NONE then WPA_KEY_MGMT_WPA_NONE
  else 0.
Definition wpa_key_mgmt_to_bitfield (a : list Z) (s : Z) : res Z :=
  v ← RSN_SELECTOR_GET a s; mret (wpa_key_mgmt_bits v).

(** A stage of a parser returns from the function with a value and what it has
    filled in so far, or goes on with [pos] and [left]. *)
Inductive stage :=
  | Return (r : Z) (data : wpa_ie_data)
  | Next (data : wpa_ie_data) (pos left : Z).

Definition and_then (m : res stage) (k : wpa_ie_data -> Z -> Z -> res stage) : res stage :=
  x ← m;
  match x with
  | Return r data => mret (Return r data)
  | Next data pos room => k data pos room
  end.

(** [for (i = 0; i < count; i++) { acc |= f(pos); pos += 4; left -= 4; }] *)
Fixpoint suites_loop (f : list Z -> Z -> res Z) (ie : list Z) (count : nat) (pos acc : Z)
    : res Z :=
  match count with
  | O => mret acc
  | S count =>
      v ← f ie pos;
      suites_loop f ie count (pos + RSN_SELECTOR_LEN) (Z.lor acc v)
  end.

(** A list of suites with its count; [err] is the code for a bad count, [short]
    the one for a single trailing octet.  [set] assigns the field. *)
Definition parse_suites (f : list Z -> Z -> res Z) (set : Z -> wpa_ie_data -> wpa_ie_data)
    (err short : Z) (ie : list Z) (data : wpa_ie_data) (pos left : Z) : res stage :=
  if 2 <=? left then
    count ← WPA_GET_LE16 ie pos;
    let pos := pos + 2 in
    let left := left - 2 in
    if (count =? 0) || (left <? count * RSN_SELECTOR_LEN) then mret (Return err (set 0 data))
    else
      v ← suites_loop f ie (Z.to_nat count) pos 0;
      mret (Next (set v data) (pos + count * RSN_SELECTOR_LEN)
                 (left - count * RSN_SELECTOR_LEN))
  else if left =? 1 then mret (Return short data)
  else mret (Next data pos left).

Definition set_pairwise (v : Z) (d : wpa_ie_data) := d <| pairwise_cipher := v |>.
Definition set_key_mgmt (v : Z) (d : wpa_ie_data) := d <| key_mgmt := v |>.

Definition rsn_group_stage (ie : list Z) (data : wpa_ie_data) (pos left : Z) : res stage :=
  if RSN_SELECTOR_LEN <=? left then
    v ← rsn_selector_to_bitfield ie pos;
    let data := data <| group_cipher := v |> in
    if v =? WPA_CIPHER_AES_128_CMAC then mret (Return (-1) data)
    else mret (Next data (pos + RSN_SELECTOR_LEN) (left - RSN_SELECTOR_LEN))
  else if 0 <? left then mret (Return (-3) data)
  else mret (Next data pos left).

Definition rsn_pairwise_stage (ie : list Z) (data : wpa_ie_data) (pos left : Z) : res stage :=
  and_then (parse_suites rsn_selector_to_bitfield set_pairwise (-4) (-5) ie data pos left)
    (fun data pos' left' =>
       if (2 <=? left) && has_bits (pairwise_cipher data) WPA_CIPHER_AES_128_CMAC
       then mret (Return (-1) data) else mret (Next data pos' left')).

Definition capabilities_stage (ie : list Z) (data : wpa_ie_data) (pos left : Z) : res stage :=
  if 2 <=? left then
    v ← WPA_GET_LE16 ie pos;
    mret (Next (data <| capabilities := v |>) (pos + 2) (left - 2))
  else mret (Next data pos left).

Definition pmkid_stage (ie : list Z) (data : wpa_ie_data) (pos left : Z) : res stage :=
  if 2 <=? left then
    n ← WPA_GET_LE16 ie pos;
    let pos := pos + 2 in
    let left := left - 2 in
    if left <? n * PMKID_LEN then mret (Return (-9) (data <| num_pmkid := 0 |>))
    else mret (Next (data <| num_pmkid := n |> <| pmkid := Some pos |>)
                    (pos + n * PMKID_LEN) (left - n * PMKID_LEN))
  else mret (Next data pos left).

Definition mgmt_cipher_stage (ie : list Z) (data : wpa_ie_data) (pos left : Z) : res stage :=
  if 4 <=? left then
    v ← rsn_selector_to_bitfield ie pos;
    let data := data <| mgmt_group_cipher := v |> in
    if negb (v =? WPA_CIPHER_AES_128_CMAC) then mret (Return (-10) data)
    else mret (Next data (pos + RSN_SELECTOR_LEN) (left - RSN_SELECTOR_LEN))
  else mret (Next data pos left).

(** What the function returns and leaves in [*data]. *)
Definition finish (m : res stage) : res (Z * wpa_ie_data) :=
  x ← m;
  mret (match x with Return r data => (r, data) | Next data _ _ => (0, data) end).

Definition rsn_ie_default : wpa_ie_data := {|
  proto := WPA_PROTO_RSN; pairwise_cipher := WPA_CIPHER_CCMP;
  group_cipher := WPA_CIPHER_CCMP; key_mgmt := WPA_KEY_MGMT_IEEE8021X;
  capabilities := 0; num_pmkid := 0; pmkid := None;
  mgmt_group_cipher := WPA_CIPHER_AES_128_CMAC |}.

Definition sizeof_rsn_ie_hdr : Z := 4.
Definition sizeof_wpa_ie_hdr : Z := 8.

Definition wpa_parse_wpa_ie_rsn (rsn_ie : list Z) (rsn_ie_len : Z) : res (Z * wpa_ie_data) :=
  let data := rsn_ie_default in
  if rsn_ie_len =? 0 then mret (-1, data)
  else if rsn_ie_len <? sizeof_rsn_ie_hdr then mret (-1, data)
  else
    elem_id ← rd rsn_ie 0;
    len ← rd rsn_ie 1;
    version ← WPA_GET_LE16 rsn_ie 2;
    if negb (elem_id =? WLAN_EID_RSN) || negb (len =? rsn_ie_len - 2) ||
       negb (version =? RSN_VERSION)
    then mret (-2, data)
    else finish
      (and_then (and_then (and_then (and_then (and_then
         (rsn_group_stage rsn_ie data sizeof_rsn_ie_hdr (rsn_ie_len - sizeof_rsn_ie_hdr))
         (rsn_pairwise_stage rsn_ie))
         (parse_suites rsn_key_mgmt_to_bitfield set_key_mgmt (-6) (-7) rsn_ie))
         (capabilities_stage rsn_ie))
         (pmkid_stage rsn_ie))
         (mgmt_cipher_stage rsn_ie)).

Definition wpa_group_stage (ie : list Z) (data : wpa_ie_data) (pos left : Z) : res stage :=
  if WPA_SELECTOR_LEN <=? left then
    v ← wpa_selector_to_bitfield ie pos;
    mret (Next (data <| group_cipher := v |>) (pos + WPA_SELECTOR_LEN)
               (left - WPA_SELECTOR_LEN))
  else if 0 <? left then mret (Return (-3) data)
  else mret (Next data pos left).

Definition wpa_ie_default : wpa_ie_data := {|
  proto := WPA_PROTO_WPA; pairwise_cipher := WPA_CIPHER_TKIP;
  group_cipher := WPA_CIPHER_TKIP; key_mgmt := WPA_KEY_MGMT_IEEE8021X;
  capabilities := 0; num_pmkid := 0; pmkid := None; mgmt_group_cipher := 0 |}.

Definition wpa_parse_wpa_ie_wpa (wpa_ie : list Z) (wpa_ie_len : Z) : res (Z * wpa_ie_data) :=
  let data := wpa_ie_default in
  if wpa_ie_len =? 0 then mret (-1, data)
  else if wpa_ie_len <? sizeof_wpa_ie_hdr then mret (-1, data)
  else
    elem_id ← rd wpa_ie 0;
    len ← rd wpa_ie 1;
    oui ← RSN_SELECTOR_GET wpa_ie 2;
    version ← WPA_GET_LE16 wpa_ie 6;
    if negb (elem_id =? WLAN_EID_VENDOR_SPECIFIC) || negb (len =? wpa_ie_len - 2) ||
       negb (oui =? WPA_OUI_TYPE) || negb (version =? WPA_VERSION)
    then mret (-2, data)
    else finish
      (and_then (and_then (and_then
         (wpa_group_stage wpa_ie data sizeof_wpa_ie_hdr (wpa_ie_len - sizeof_wpa_ie_hdr))
         (parse_suites wpa_selector_to_bitfield set_pairwise (-4) (-5) wpa_ie))
         (parse_suites wpa_key_mgmt_to_bitfield set_key_mgmt (-6) (-7) wpa_ie))
         (capabilities_stage wpa_ie)).


(** ** A stand-in for the cryptographic library

    Outputs of the right length that depend on the inputs, to run the
    definitions on. *)
Module Toy.
Definition mix (l : list Z) : Z := fold_left (fun a b => Z.land (a * 31 + b) 255) l 7.
Definition digest (n : Z) (l : list Z) : list Z := replicate (Z.to_nat n) (mix l).
#[export] Instance crypto : Crypto := {|
  hmac_md5 k m := Some (digest 16 (k ++ m));
  hmac_sha1 k m := Some (digest 20 (k ++ m));
  omac1_aes_128 k m := Some (digest 16 (k ++ m));
  sha1_prf k _ d n := Some (digest n (k ++ d));
  sha256_prf k _ d n := digest n (k ++ d);
  hmac_sha1_vector k m := digest 20 (k ++ concat m);
  hmac_sha256_vector k m := digest 32 (k ++ concat m);
  aes_wrap k p := Some (p ++ digest 8 (k ++ p));
  rc4_skip _ _ d := d;
|}.
Lemma digest_len n l : 0 <= n -> zlen (digest n l) = n.
Proof. intros Hn. unfold zlen, digest. rewrite length_replicate. lia. Qed.
#[export] Instance laws : CryptoLaws crypto.
Proof.
  split; cbn; intros; simplify_eq; rewrite ?zlen_app, ?digest_len; lia.
Qed.
#[export] Instance unwrap : KeyUnwrap := {|
  aes_unwrap k d :=
    let p := take (length d - 8) d in
    if decide (drop (length d - 8) d = digest 8 (k ++ p)) then Some p else None;
|}.
#[export] Instance unwrap_laws : KeyUnwrapLaws crypto unwrap.
Proof.
  split; cbn; intros; repeat case_decide; simplify_eq; try done.
  - unfold zlen in *. rewrite length_take. lia.
  - by apply Forall_take.
  - rewrite length_app. change (length (digest 8 (k ++ p))) with 8%nat.
    by rewrite Nat.add_sub, take_app_length.
  - exfalso. match goal with H : ~ _ |- _ => apply H end.
    rewrite length_app. change (length (digest 8 (k ++ p))) with 8%nat.
    by rewrite Nat.add_sub, take_app_length, drop_app_length.
Qed.
End Toy.
