(* ===== verification/Pmksa.v ===== *)
(** * ap/pmksa_cache_auth.c: the PMKSA cache of the authenticator

    The cache is a graph in the heap: every entry is in the list from [pmksa],
    which is linked by [next] and ordered by expiration, and in the list of its
    hash bucket, linked by [hnext].  [heap] maps addresses to entries; an access
    to an address that is not allocated is a fault.  Walks along a list have the
    number of allocated entries plus one as fuel.  Times are [os_time_t] seconds. *)

From stdpp Require Import gmap sorting.
From S2P Require Import Prelude EapI WpaCommon.

#[projections(primitive)]
Record rsn_pmksa_cache_entry := {
  next : option nat;
  hnext : option nat;
  e_pmkid : list Z;
  e_pmk : list Z;
  e_pmk_len : Z;
  expiration : Z;
  akmp : Z;
  spa : list Z;
  e_identity : option (list Z);
  e_identity_len : Z;
  radius_class : option (list (list Z));
  eap_type_authsrv : Z;
  vlan_id : Z;
  opportunistic : Z;
}.

(** The cache and the heap its entries live in.  [next_loc] is the next address
    [os_zalloc] gives; [freed] are the entries [free_cb] was called for, newest
    first; [expire_timeout] the seconds the timeout of [pmksa_cache_expire] was
    registered with, if it is registered. *)
#[projections(primitive)]
Record rsn_pmksa_cache := {
  pmkid_tab : list (option nat);
  pmksa : option nat;
  pmksa_count : Z;
  heap : gmap nat rsn_pmksa_cache_entry;
  next_loc : nat;
  freed : list nat;
  expire_timeout : option Z;
}.

Definition pmksa_cache_max_entries : Z := 1024.
Definition dot11RSNAConfigPMKLifetime : Z := 43200.
Definition PMKID_HASH_SIZE : nat := 128.
Definition sizeof_rsn_pmksa_cache : Z := 528.
Definition sizeof_rsn_pmksa_cache_entry : Z := 112.
Definition sizeof_radius_attr_data : Z := 8.

(** What the cache copies from [struct eapol_state_machine] and its station. *)
#[projections(primitive)]
Record eapol_data := {
  d_identity : option (list Z);
  d_identity_len : Z;
  d_radius_class : option (list (list Z));
  d_eap_type_authsrv : Z;
  d_vlan_id : Z;
}.

Definition deref (c : rsn_pmksa_cache) (p : nat) : res rsn_pmksa_cache_entry :=
  match heap c !! p with Some e => Ok e | None => Fault OutOfBounds end.

Definition PMKID_HASH (pmkid : list Z) : res Z :=
  b ← rd pmkid 0; mret (Z.land b 127).

(** [pmksa->pmkid[h]] *)
Definition bucket (c : rsn_pmksa_cache) (h : Z) : res (option nat) :=
  match pmkid_tab c !! Z.to_nat h with Some b => Ok b | None => Fault OutOfBounds end.
Definition set_bucket (h : Z) (v : option nat) (c : rsn_pmksa_cache) : rsn_pmksa_cache :=
  c <| pmkid_tab := <[Z.to_nat h := v]> (pmkid_tab c) |>.
(** [p->hnext = v;] and [p->next = v;] *)
Definition set_hnext (p : nat) (v : option nat) (c : rsn_pmksa_cache) : rsn_pmksa_cache :=
  c <| heap := alter (fun e => e <| hnext := v |>) p (heap c) |>.
Definition set_next (p : nat) (v : option nat) (c : rsn_pmksa_cache) : rsn_pmksa_cache :=
  c <| heap := alter (fun e => e <| next := v |>) p (heap c) |>.

(** The walks: follow [link] from [pos] until [stop] holds; gives the last entry
    before ([prev]) and the one that stopped the walk, [None] at the end. *)
Fixpoint walk (fuel : nat) (link : rsn_pmksa_cache_entry -> option nat)
    (stop : nat -> rsn_pmksa_cache_entry -> bool) (c : rsn_pmksa_cache)
    (prev pos : option nat) : res (option nat * option nat) :=
  match fuel with
  | O => Fault OutOfFuel
  | S fuel =>
      match pos with
      | None => mret (prev, None)
      | Some p =>
          e ← deref c p;
          if stop p e then mret (prev, Some p) else walk fuel link stop c (Some p) (link e)
      end
  end.

Definition walk_fuel (c : rsn_pmksa_cache) : nat := S (size (heap c)).

(** *** Entries *)

(** [radius_copy_class]: what [dst->attr] is afterwards; the copy stops at the
    first attribute there is no memory for. *)
Fixpoint copy_attrs (e : env) (src : list (list Z)) : list (list Z) :=
  match src with
  | [] => []
  | a :: src => if malloc_ok e (zlen a) then a :: copy_attrs e src else []
  end.
Definition radius_copy_class (e : env) (dst src : option (list (list Z)))
    : option (list (list Z)) :=
  match src with
  | None => dst
  | Some src =>
      if malloc_ok e (zlen src * sizeof_radius_attr_data) then Some (copy_attrs e src) else None
  end.

(** [os_malloc(len)] and [os_memcpy] of an identity; what [*identity] and
    [*identity_len] are afterwards. *)
Definition copy_identity (e : env) (src : list Z) (len old_len : Z)
    : res (option (list Z) * Z) :=
  if malloc_ok e len then i ← rd_n src 0 len; mret (Some i, len) else mret (None, old_len).

Definition pmksa_cache_from_eapol_data (e : env) (entry : rsn_pmksa_cache_entry)
    (eapol : option eapol_data) : res rsn_pmksa_cache_entry :=
  match eapol with
  | None => mret entry
  | Some eapol =>
      entry ← match d_identity eapol with
              | Some i =>
                  '(i, n) ← copy_identity e i (d_identity_len eapol) (e_identity_len entry);
                  mret (entry <| e_identity := i |> <| e_identity_len := n |>)
              | None => mret entry
              end;
      let entry := entry <| radius_class :=
        radius_copy_class e (radius_class entry) (d_radius_class eapol) |> in
      let entry := entry <| eap_type_authsrv := d_eap_type_authsrv eapol |> in
      mret (entry <| vlan_id := d_vlan_id eapol |>)
  end.

Definition pmksa_cache_to_eapol_data (e : env) (entry : option rsn_pmksa_cache_entry)
    (eapol : option eapol_data) : res (option eapol_data) :=
  match entry, eapol with
  | Some entry, Some eapol =>
      eapol ← match e_identity entry with
              | Some i =>
                  '(i, n) ← copy_identity e i (e_identity_len entry) (d_identity_len eapol);
                  mret (eapol <| d_identity := i |> <| d_identity_len := n |>)
              | None => mret eapol
              end;
      let eapol := eapol <| d_radius_class :=
        radius_copy_class e None (radius_class entry) |> in
      let eapol := eapol <| d_eap_type_authsrv := eap_type_authsrv entry |> in
      mret (Some (eapol <| d_vlan_id := vlan_id entry |>))
  | _, _ => mret eapol
  end.

(** *** The cache *)

Definition same_loc (entry : nat) (p : nat) (_ : rsn_pmksa_cache_entry) : bool :=
  bool_decide (p = entry).

(** [os_free(entry)]; what hangs off the entry goes with it. *)
Definition pmksa_free (entry : nat) (c : rsn_pmksa_cache) : rsn_pmksa_cache :=
  c <| heap := delete entry (heap c) |>.

Definition pmksa_cache_free_entry (c : rsn_pmksa_cache) (entry : nat) : res rsn_pmksa_cache :=
  let c := c <| pmksa_count := pmksa_count c - 1 |> in
  let c := c <| freed := entry :: freed c |> in
  e ← deref c entry;
  h ← PMKID_HASH (e_pmkid e);
  b ← bucket c h;
  '(prev, pos) ← walk (walk_fuel c) hnext (same_loc entry) c None b;
  c ← match pos with
      | None => mret c
      | Some p =>
          e ← deref c p;
          mret (match prev with
                | Some q => set_hnext q (hnext e) c
                | None => set_bucket h (hnext e) c
                end)
      end;
  '(prev, pos) ← walk (walk_fuel c) next (same_loc entry) c None (pmksa c);
  c ← match pos with
      | None => mret c
      | Some p =>
          e ← deref c p;
          mret (match prev with
                | Some q => set_next q (next e) c
                | None => c <| pmksa := next e |>
                end)
      end;
  mret (pmksa_free entry c).

Definition pmksa_cache_set_expiration (now_sec : Z) (c : rsn_pmksa_cache)
    : res rsn_pmksa_cache :=
  let c := c <| expire_timeout := None |> in
  match pmksa c with
  | None => mret c
  | Some p =>
      e ← deref c p;
      let sec := expiration e - now_sec in
      let sec := if sec <? 0 then 0 else sec in
      mret (c <| expire_timeout := Some (sec + 1) |>)
  end.

(** [while (pmksa->pmksa && pmksa->pmksa->expiration <= now.sec)] *)
Fixpoint expire_loop (fuel : nat) (now_sec : Z) (c : rsn_pmksa_cache) : res rsn_pmksa_cache :=
  match fuel with
  | O => Fault OutOfFuel
  | S fuel =>
      match pmksa c with
      | None => mret c
      | Some entry =>
          e ← deref c entry;
          if expiration e <=? now_sec then
            let c := c <| pmksa := next e |> in
            c ← pmksa_cache_free_entry c entry;
            expire_loop fuel now_sec c
          else mret c
      end
  end.

(** [pmksa_cache_expire]; the timeout that called it is no longer registered. *)
Definition pmksa_cache_expire (now_sec : Z) (c : rsn_pmksa_cache) : res rsn_pmksa_cache :=
  let c := c <| expire_timeout := None |> in
  c ← expire_loop (walk_fuel c) now_sec c;
  pmksa_cache_set_expiration now_sec c.

Definition later (entry : rsn_pmksa_cache_entry) (_ : nat) (pos : rsn_pmksa_cache_entry)
    : bool := expiration entry <? expiration pos.

(** [entry] is an address; the fields of the entry are set. *)
Definition pmksa_cache_link_entry (c : rsn_pmksa_cache) (entry : nat) : res rsn_pmksa_cache :=
  e ← deref c entry;
  '(prev, _) ← walk (walk_fuel c) next (later e) c None (pmksa c);
  c ← match prev with
      | None =>
          let c := set_next entry (pmksa c) c in
          mret (c <| pmksa := Some entry |>)
      | Some q =>
          eq ← deref c q;
          let c := set_next entry (next eq) c in
          mret (set_next q (Some entry) c)
      end;
  h ← PMKID_HASH (e_pmkid e);
  b ← bucket c h;
  let c := set_hnext entry b c in
  let c := set_bucket h (Some entry) c in
  mret (c <| pmksa_count := pmksa_count c + 1 |>).

Definition opt_match (key : option (list Z)) (v : list Z) : bool :=
  match key with None => true | Some k => bool_decide (v = k) end.
Definition get_stop (spa_ pmkid_ : option (list Z)) (_ : nat) (e : rsn_pmksa_cache_entry)
    : bool := opt_match spa_ (spa e) && opt_match pmkid_ (e_pmkid e).

Definition pmksa_cache_auth_get (c : rsn_pmksa_cache) (spa_ pmkid_ : option (list Z))
    : res (option nat) :=
  entry ← match pmkid_ with
          | Some k => h ← PMKID_HASH k; bucket c h
          | None => mret (pmksa c)
          end;
  '(_, r) ← walk (walk_fuel c) (match pmkid_ with Some _ => hnext | None => next end)
              (get_stop spa_ pmkid_) c None entry;
  mret r.

(** The body of [while (entry)] goes on with [entry = entry->next] only for the
    entries of the station; for the others it continues with the same entry. *)
Fixpoint pmksa_cache_get_okc `{Crypto} (fuel : nat) (c : rsn_pmksa_cache)
    (aa spa_ pmkid_ : list Z) (entry : option nat) : res (option nat) :=
  match fuel with
  | O => Fault OutOfFuel
  | S fuel =>
      match entry with
      | None => mret None
      | Some p =>
          e ← deref c p;
          if negb (bool_decide (spa e = spa_)) then
            pmksa_cache_get_okc fuel c aa spa_ pmkid_ (Some p)
          else
            let new_pmkid := rsn_pmkid (take (Z.to_nat (e_pmk_len e)) (e_pmk e)) aa spa_
                               (wpa_key_mgmt_sha256 (akmp e)) in
            if bool_decide (new_pmkid = pmkid_) then mret (Some p)
            else pmksa_cache_get_okc fuel c aa spa_ pmkid_ (next e)
      end
  end.

(** A zeroed entry, and its allocation. *)
Definition entry_zero : rsn_pmksa_cache_entry := {|
  next := None; hnext := None; e_pmkid := replicate 16 0; e_pmk := replicate 32 0;
  e_pmk_len := 0; expiration := 0; akmp := 0; spa := replicate 6 0; e_identity := None;
  e_identity_len := 0; radius_class := None; eap_type_authsrv := 0; vlan_id := 0;
  opportunistic := 0 |}.

Definition store (entry : rsn_pmksa_cache_entry) (c : rsn_pmksa_cache)
    : nat * rsn_pmksa_cache :=
  let p := next_loc c in
  (p, c <| heap := <[p := entry]> (heap c) |> <| next_loc := S p |>).

(** [os_memcpy(entry->pmk, pmk, pmk_len)] *)
Definition copy_pmk (dst pmk : list Z) (pmk_len : Z) : res (list Z) :=
  k ← rd_n pmk 0 pmk_len; wr_n dst 0 k.

(** The entry is filled in before it is linked; only then other code can see
    it, so the model stores it when it is complete. *)
Definition pmksa_cache_auth_add `{Crypto} (e : env) (now_sec : Z) (c : rsn_pmksa_cache)
    (pmk : list Z) (pmk_len : Z) (aa spa_ : list Z) (session_timeout : Z)
    (eapol : option eapol_data) (akmp_ : Z) : res (option nat * rsn_pmksa_cache) :=
  if PMK_LEN <? pmk_len then mret (None, c)
  else if negb (malloc_ok e sizeof_rsn_pmksa_cache_entry) then mret (None, c)
  else
    k ← copy_pmk (e_pmk entry_zero) pmk pmk_len;
    let entry := entry_zero <| e_pmk := k |> <| e_pmk_len := pmk_len |> in
    pmk ← rd_n pmk 0 pmk_len;
    let entry := entry <| e_pmkid := rsn_pmkid pmk aa spa_ (wpa_key_mgmt_sha256 akmp_) |> in
    let entry := entry <| expiration := now_sec +
      (if 0 <? session_timeout then session_timeout else dot11RSNAConfigPMKLifetime) |> in
    let entry := entry <| akmp := akmp_ |> in
    let entry := entry <| spa := spa_ |> in
    entry ← pmksa_cache_from_eapol_data e entry eapol;
    let '(p, c) := store entry c in
    pos ← pmksa_cache_auth_get c (Some spa_) None;
    c ← match pos with
        | Some pos => pmksa_cache_free_entry c pos
        | None => mret c
        end;
    c ← match pmksa c with
        | Some oldest =>
            if pmksa_cache_max_entries <=? pmksa_count c
            then pmksa_cache_free_entry c oldest else mret c
        | None => mret c
        end;
    c ← pmksa_cache_link_entry c p;
    mret (Some p, c).

Definition pmksa_cache_add_okc (e : env) (c : rsn_pmksa_cache)
    (old_entry : rsn_pmksa_cache_entry) (pmkid_ : list Z)
    : res (option nat * rsn_pmksa_cache) :=
  if negb (malloc_ok e sizeof_rsn_pmksa_cache_entry) then mret (None, c)
  else
    let entry := entry_zero <| e_pmkid := pmkid_ |> in
    k ← copy_pmk (e_pmk entry) (e_pmk old_entry) (e_pmk_len old_entry);
    let entry := entry <| e_pmk := k |> <| e_pmk_len := e_pmk_len old_entry |> in
    let entry := entry <| expiration := expiration old_entry |> in
    let entry := entry <| akmp := akmp old_entry |> <| spa := spa old_entry |> in
    let entry := entry <| opportunistic := 1 |> in
    entry ← match e_identity old_entry with
            | Some i =>
                '(i, n) ← copy_identity e i (e_identity_len old_entry) (e_identity_len entry);
                mret (entry <| e_identity := i |> <| e_identity_len := n |>)
            | None => mret entry
            end;
    let entry := entry <| radius_class :=
      radius_copy_class e (radius_class entry) (radius_class old_entry) |> in
    let entry := entry <| eap_type_authsrv := eap_type_authsrv old_entry |>
                       <| vlan_id := vlan_id old_entry |> in
    let '(p, c) := store entry c in
    c ← pmksa_cache_link_entry c p;
    mret (Some p, c).

Definition pmksa_cache_auth_init (e : env) : option rsn_pmksa_cache :=
  if malloc_ok e sizeof_rsn_pmksa_cache then
    Some {| pmkid_tab := replicate PMKID_HASH_SIZE None; pmksa := None; pmksa_count := 0;
            heap := ∅; next_loc := 0; freed := []; expire_timeout := None |}
  else None.

(** [entry = entry->next; free(prev)] along the list: what is left of the heap. *)
Fixpoint deinit_loop (fuel : nat) (entry : option nat) (c : rsn_pmksa_cache)
    : res rsn_pmksa_cache :=
  match fuel with
  | O => Fault OutOfFuel
  | S fuel =>
      match entry with
      | None => mret c
      | Some p => e ← deref c p; deinit_loop fuel (next e) (pmksa_free p c)
      end
  end.

Definition pmksa_cache_auth_deinit (c : option rsn_pmksa_cache)
    : res (option rsn_pmksa_cache) :=
  match c with
  | None => mret None
  | Some c =>
      c ← deinit_loop (walk_fuel c) (pmksa c) c;
      let c := c <| expire_timeout := None |> in
      mret (Some (c <| pmkid_tab := replicate PMKID_HASH_SIZE None |>))
  end.

(** ** Lists in the heap *)

(** The entries [l] are linked by [link] from [hd]; the last one points to
    [tl]. *)
Fixpoint lseg (link : rsn_pmksa_cache_entry -> option nat)
    (h : gmap nat rsn_pmksa_cache_entry) (hd : option nat) (l : list nat) (tl : option nat)
    : Prop :=
  match l with
  | [] => hd = tl
  | p :: l => hd = Some p /\ exists e, h !! p = Some e /\ lseg link h (link e) l tl
  end.

Section lists.
Context (link : rsn_pmksa_cache_entry -> option nat).
Context (upd : option nat -> rsn_pmksa_cache_entry -> rsn_pmksa_cache_entry).
Context (link_upd : forall v e, link (upd v e) = v).
Implicit Type h : gmap nat rsn_pmksa_cache_entry.

Lemma lseg_alloc h hd l tl p : lseg link h hd l tl -> p ∈ l -> is_Some (h !! p).
Proof using.
  revert hd. induction l as [|q l IH]; intros hd Hc Hp; [by apply not_elem_of_nil in Hp|].
  destruct Hc as (-> & e & He & Hc). apply elem_of_cons in Hp as [-> | Hp]; eauto.
Qed.

(** Only the links of the entries of the list matter. *)
Lemma lseg_ext h h' hd l tl :
  (forall p e, p ∈ l -> h !! p = Some e -> exists e', h' !! p = Some e' /\ link e' = link e) ->
  lseg link h hd l tl -> lseg link h' hd l tl.
Proof using.
  revert hd. induction l as [|q l IH]; intros hd Hx Hc; [done|].
  destruct Hc as (-> & e & He & Hc). split; [done|].
  destruct (Hx q e) as (e' & He' & Hl); [left|done|]. exists e'. split; [done|].
  rewrite Hl. apply IH; [|done]. intros p e0 Hp. apply Hx. by right.
Qed.

Lemma lseg_app h hd l1 l2 tl :
  lseg link h hd (l1 ++ l2) tl <->
  exists mid, lseg link h hd l1 mid /\ lseg link h mid l2 tl.
Proof using.
  revert hd. induction l1 as [|q l1 IH]; intros hd; cbn.
  - split; [by exists hd|]. by intros (? & -> & ?).
  - split.
    + intros (-> & e & He & (mid & ? & ?)%IH). exists mid. eauto.
    + intros (mid & (-> & e & He & ?) & ?). split; [done|]. exists e. split; [done|].
      apply IH. eauto.
Qed.

(** Two lists from the same head are the same. *)
Lemma lseg_inj h hd l1 l2 : lseg link h hd l1 None -> lseg link h hd l2 None -> l1 = l2.
Proof using.
  revert hd l2. induction l1 as [|q l1 IH]; intros hd [|q' l2]; cbn; [done| | |].
  - intros -> (? & ?). done.
  - intros (-> & _) ?. done.
  - intros (-> & e & He & H1) ([= ->] & e' & He' & H2). f_equal.
    simplify_eq. eauto.
Qed.

(** Redirecting the last link. *)
Lemma lseg_redirect h hd l q tl v : NoDup (l ++ [q]) -> lseg link h hd (l ++ [q]) tl ->
  lseg link (alter (upd v) q h) hd (l ++ [q]) v.
Proof using link_upd.
  intros Hnd (mid & Hl & Hq)%lseg_app. apply lseg_app. exists mid. split.
  - eapply lseg_ext; [|exact Hl]. intros p e Hp He. exists e. split; [|done].
    rewrite lookup_alter_ne; [done|]. intros ->.
    apply NoDup_app in Hnd as (_ & Hnd & _). apply (Hnd _ Hp). by left.
  - destruct Hq as (-> & e & He & Htl). split; [done|]. exists (upd v e).
    rewrite lookup_alter_eq, He. split; [done|]. cbn. by rewrite link_upd.
Qed.

Lemma lseg_alter_ne h hd l tl q f : q ∉ l -> lseg link h hd l tl ->
  lseg link (alter f q h) hd l tl.
Proof using.
  intros Hq. apply lseg_ext. intros p e Hp He. exists e. split; [|done].
  rewrite lookup_alter_ne; [done|]. by intros ->.
Qed.

(** What becomes of the head when the link to the rest is redirected to [v]:
    [prev->link = v;] or [head = v;]. *)
Definition relink (prev hd v : option nat) : option nat :=
  match prev with Some _ => hd | None => v end.
Definition relink_heap (prev v : option nat) h : gmap nat rsn_pmksa_cache_entry :=
  match prev with Some q => alter (upd v) q h | None => h end.

Lemma lseg_relink h hd l1 tl v : NoDup l1 -> lseg link h hd l1 tl ->
  lseg link (relink_heap (last l1) v h) (relink (last l1) hd v) l1 v.
Proof using link_upd.
  intros Hnd Hl. destruct (last l1) as [q|] eqn:Hq.
  - apply last_Some in Hq as [l0 ->]. by apply lseg_redirect with tl.
  - by apply last_None in Hq as ->.
Qed.

Lemma lseg_relink_rest prev h hd l tl v : (forall q, prev = Some q -> q ∉ l) ->
  lseg link h hd l tl -> lseg link (relink_heap prev v h) hd l tl.
Proof using.
  intros Hq Hl. destruct prev as [q|]; [|done]. apply lseg_alter_ne; [by apply Hq|done].
Qed.

(** Taking [p] out. *)
Lemma lseg_unlink h hd l1 p l2 e : NoDup (l1 ++ p :: l2) ->
  lseg link h hd (l1 ++ p :: l2) None -> h !! p = Some e ->
  lseg link (relink_heap (last l1) (link e) h) (relink (last l1) hd (link e)) (l1 ++ l2) None.
Proof using link_upd.
  intros Hnd (mid & H1 & -> & e' & He' & H2)%lseg_app Hp.
  assert (e' = e) as -> by congruence.
  apply NoDup_app in Hnd as (Hnd1 & Hdis & Hnd2). apply lseg_app. exists (link e).
  split; [by eapply lseg_relink|]. apply lseg_relink_rest; [|done].
  intros q Hq Hin. apply last_Some_elem_of in Hq. apply (Hdis q Hq). by right.
Qed.

(** Putting in [p], which points to the rest. *)
Lemma lseg_link h hd l1 mid p l2 e : NoDup l1 -> (forall q, q ∈ l1 -> q <> p /\ q ∉ l2) ->
  lseg link h hd l1 mid -> lseg link h mid l2 None -> h !! p = Some e -> link e = mid ->
  lseg link (relink_heap (last l1) (Some p) h) (relink (last l1) hd (Some p))
    (l1 ++ p :: l2) None.
Proof using link_upd.
  intros Hnd Hdis H1 H2 Hp Hm. apply lseg_app. exists (Some p).
  split; [by eapply lseg_relink|]. apply lseg_relink_rest.
  - intros q Hq. apply last_Some_elem_of in Hq. destruct (Hdis q Hq).
    apply not_elem_of_cons. done.
  - split; [done|]. exists e. split; [done|]. by rewrite Hm.
Qed.

(** [walk] stops at the first entry that satisfies [stop]. *)
Lemma walk_split fuel stop c prev hd l1 l2 :
  lseg link (heap c) hd (l1 ++ l2) None -> (length l1 < fuel)%nat ->
  (forall p e, p ∈ l1 -> heap c !! p = Some e -> stop p e = false) ->
  (forall p e, head l2 = Some p -> heap c !! p = Some e -> stop p e = true) ->
  walk fuel link stop c prev hd =
  Ok (match last l1 with Some q => Some q | None => prev end, head l2).
Proof using.
  revert fuel prev hd. induction l1 as [|q l1 IH]; intros [|fuel] prev hd Hl Hf H1 H2;
    cbn [length] in Hf; try lia; cbn [walk].
  - destruct l2 as [|p l2]; cbn in Hl; [by subst|]. destruct Hl as (-> & e & He & Hl).
    unfold deref. rewrite He. cbn. by rewrite (H2 p e).
  - destruct Hl as (-> & e & He & Hl). unfold deref. rewrite He. cbn [mbind res_bind].
    rewrite (H1 q e) by (done || left). rewrite (IH fuel (Some q) (link e)).
    + rewrite last_cons. by destruct (last l1).
    + done.
    + lia.
    + intros p e0 Hp. apply H1. by right.
    + done.
Qed.

(** Every list splits where [stop] first holds. *)
Lemma stop_split (stop : nat -> rsn_pmksa_cache_entry -> bool) h l :
  (forall p, p ∈ l -> is_Some (h !! p)) ->
  exists l1 l2, l = l1 ++ l2 /\
    (forall p e, p ∈ l1 -> h !! p = Some e -> stop p e = false) /\
    (forall p e, head l2 = Some p -> h !! p = Some e -> stop p e = true).
Proof using.
  induction l as [|p l IH]; intros Hall.
  - exists [], []. split_and!; [done|by intros ?? ?%not_elem_of_nil|done].
  - destruct (Hall p) as [e He]; [left|]. destruct (stop p e) eqn:Hs.
    + exists [], (p :: l). split_and!; [done|by intros ?? ?%not_elem_of_nil|].
      intros ?? [= <-] ?. by simplify_eq.
    + destruct IH as (l1 & l2 & -> & H1 & H2); [intros q Hq; apply Hall; by right|].
      exists (p :: l1), l2. split_and!; [done| |done].
      intros q e' [-> | Hq]%elem_of_cons ?; [by simplify_eq|eauto].
Qed.
End lists.
