(* ===== verification/PmksaProps.v ===== *)
(** * Properties of the PMKSA cache

    [repr c x l]: the heap of [c] holds exactly the entries [l], in the order of
    the list from [pmksa], and the entries [x] that are not linked yet; the hash
    buckets partition [l].  Every operation keeps it, gives the result the list
    says, and never touches memory that is not allocated.  The lookup for
    opportunistic key caching does not terminate, and nothing starts the timer
    that removes expired entries. *)

From stdpp Require Import gmap sorting.
From S2P Require Import Prelude EapI WpaCommon Pmksa.

Definition hash (e : rsn_pmksa_cache_entry) : Z := Z.land (nth 0 (e_pmkid e) 0) 127.

(** An entry without its links. *)
Definition data (e : rsn_pmksa_cache_entry) : rsn_pmksa_cache_entry :=
  e <| next := None |> <| hnext := None |>.
Definition view (c : rsn_pmksa_cache) (p : nat) : option rsn_pmksa_cache_entry :=
  data <$> heap c !! p.
Definition exp_of (c : rsn_pmksa_cache) (p : nat) : Z :=
  match view c p with Some e => expiration e | None => 0 end.

Record wf_entry (e : rsn_pmksa_cache_entry) : Prop := {
  wfe_pmkid : zlen (e_pmkid e) = 16;
  wfe_pmk : zlen (e_pmk e) = 32;
  wfe_pmk_len : 0 <= e_pmk_len e <= 32;
  wfe_identity : forall i, e_identity e = Some i -> zlen i = e_identity_len e;
}.

Record repr (c : rsn_pmksa_cache) (x l : list nat) : Prop := {
  r_next : lseg next (heap c) (pmksa c) l None;
  r_nodup : NoDup (x ++ l);
  r_dom : forall p, is_Some (heap c !! p) <-> p ∈ x ++ l;
  r_tab : length (pmkid_tab c) = PMKID_HASH_SIZE;
  r_buckets : forall h, 0 <= h < 128 -> exists b lh,
    pmkid_tab c !! Z.to_nat h = Some b /\ lseg hnext (heap c) b lh None /\ NoDup lh /\
    forall p, p ∈ lh <-> p ∈ l /\ exists e, heap c !! p = Some e /\ hash e = h;
  r_wf : forall p e, heap c !! p = Some e -> wf_entry e;
  r_fresh : forall p, p ∈ x ++ l -> (p < next_loc c)%nat;
  r_count : pmksa_count c = zlen l;
  r_sorted : StronglySorted (fun p q => exp_of c p <= exp_of c q) l;
}.

Lemma hash_range e : 0 <= hash e < 128.
Proof.
  unfold hash. replace 127 with (Z.ones 7) by reflexivity. rewrite Z.land_ones by lia.
  apply Z.mod_pos_bound. lia.
Qed.

Lemma PMKID_HASH_eq e : wf_entry e -> PMKID_HASH (e_pmkid e) = Ok (hash e).
Proof. intros Hw. unfold PMKID_HASH. rewrite rd_ok by (rewrite (wfe_pmkid e Hw); lia). done. Qed.

Lemma hash_data e : hash (data e) = hash e.
Proof. done. Qed.
Lemma wf_data e e' : data e = data e' -> wf_entry e -> wf_entry e'.
Proof.
  destruct e, e'. unfold data. cbn. intros [= <- <- <- <- <- <- <- <- <- <- <- <-] [].
  by constructor.
Qed.

(** [l] has at most as many entries as the heap. *)
Lemma repr_fuel c x l : repr c x l -> (length l < walk_fuel c)%nat.
Proof.
  intros Hr. unfold walk_fuel.
  assert (length (x ++ l) <= size (heap c))%nat; [|rewrite length_app in *; lia].
  rewrite <- (size_dom (D := gset nat)).
  rewrite <- (size_list_to_set (C := gset nat)) by apply (r_nodup _ _ _ Hr).
  apply subseteq_size. intros p Hp%elem_of_list_to_set.
  apply elem_of_dom. by apply (r_dom _ _ _ Hr).
Qed.

Lemma bucket_fuel c x l lh : repr c x l -> NoDup lh -> (forall p, p ∈ lh -> p ∈ l) ->
  (length lh < walk_fuel c)%nat.
Proof.
  intros Hr Hnd Hsub. pose proof (repr_fuel c x l Hr).
  assert (length lh <= length l)%nat; [|lia].
  apply submseteq_length, NoDup_submseteq; [done|]. intros p. apply Hsub.
Qed.

(** Functions that change links only. *)
Definition keeps_data (h h' : gmap nat rsn_pmksa_cache_entry) : Prop :=
  forall p, data <$> h' !! p = data <$> h !! p.

Lemma keeps_data_refl h : keeps_data h h.
Proof. done. Qed.
Lemma keeps_data_trans h h' h'' : keeps_data h h' -> keeps_data h' h'' -> keeps_data h h''.
Proof. intros H H' p. by rewrite H', H. Qed.
Lemma keeps_data_alter f q h : (forall e, data (f e) = data e) -> keeps_data h (alter f q h).
Proof.
  intros Hf p. destruct (decide (p = q)) as [-> |].
  - rewrite lookup_alter_eq. destruct (h !! q); cbn; [by rewrite Hf|done].
  - by rewrite lookup_alter_ne.
Qed.

Lemma keeps_data_some h h' p e : keeps_data h h' -> h' !! p = Some e ->
  exists e0, h !! p = Some e0 /\ data e = data e0.
Proof.
  intros Hk He. specialize (Hk p). rewrite He in Hk. destruct (h !! p) as [e0|]; [|done].
  exists e0. split; [done|]. cbn in Hk. congruence.
Qed.

Lemma keeps_data_dom h h' p : keeps_data h h' -> is_Some (h' !! p) <-> is_Some (h !! p).
Proof.
  intros Hk. specialize (Hk p). destruct (h' !! p), (h !! p); split; intros []; by try eexists.
Qed.

(** The list and the buckets do not share links. *)
Lemma lseg_next_hnext h hd l tl q v : lseg next h hd l tl ->
  lseg next (alter (fun e => e <| hnext := v |>) q h) hd l tl.
Proof.
  apply lseg_ext. intros p e Hp He. destruct (decide (p = q)) as [-> |].
  - rewrite lookup_alter_eq, He. cbn. eauto.
  - rewrite lookup_alter_ne by done. eauto.
Qed.
Lemma lseg_hnext_next h hd l tl q v : lseg hnext h hd l tl ->
  lseg hnext (alter (fun e => e <| next := v |>) q h) hd l tl.
Proof.
  apply lseg_ext. intros p e Hp He. destruct (decide (p = q)) as [-> |].
  - rewrite lookup_alter_eq, He. cbn. eauto.
  - rewrite lookup_alter_ne by done. eauto.
Qed.

Lemma lseg_delete link h hd l tl q : q ∉ l -> lseg link h hd l tl ->
  lseg link (delete q h) hd l tl.
Proof.
  intros Hq. apply lseg_ext. intros p e Hp He. exists e. split; [|done].
  rewrite lookup_delete_ne; [done|]. by intros ->.
Qed.
Lemma lseg_insert link h hd l tl q e0 : q ∉ l -> lseg link h hd l tl ->
  lseg link (<[q := e0]> h) hd l tl.
Proof.
  intros Hq. apply lseg_ext. intros p e Hp He. exists e. split; [|done].
  rewrite lookup_insert_ne; [done|]. by intros ->.
Qed.

(** ** Unlinking *)

(** The state of [pmksa_cache_free_entry] after its two walks. *)
Lemma unlink_hash c x l p e : repr c x l -> p ∈ l -> heap c !! p = Some e ->
  exists b lh1 lh2, pmkid_tab c !! Z.to_nat (hash e) = Some b /\
    lseg hnext (heap c) b (lh1 ++ p :: lh2) None /\ NoDup (lh1 ++ p :: lh2) /\
    (forall q, q ∈ lh1 ++ p :: lh2 <-> q ∈ l /\ exists e', heap c !! q = Some e' /\ hash e' = hash e) /\
    walk (walk_fuel c) hnext (same_loc p) c None b = Ok (last lh1, Some p).
Proof.
  intros Hr Hp He. destruct (r_buckets _ _ _ Hr (hash e) (hash_range e))
    as (b & lh & Hb & Hs & Hnd & Hin).
  assert (p ∈ lh) as Hplh by (apply Hin; eauto).
  apply list_elem_of_split in Hplh as (lh1 & lh2 & ->).
  exists b, lh1, lh2. split_and!; [done..|].
  rewrite (walk_split hnext (walk_fuel c) (same_loc p) c None b lh1 (p :: lh2)); [|done| | |].
  - by destruct (last lh1).
  - pose proof (bucket_fuel _ _ _ _ Hr Hnd (fun q Hq => proj1 (proj1 (Hin q) Hq))) as Hf.
    rewrite length_app in Hf. lia.
  - intros q e' Hq _. apply bool_decide_eq_false. intros ->.
    apply NoDup_app in Hnd as (_ & Hd & _). apply (Hd _ Hq). by left.
  - intros q e' [= ->] _. by apply bool_decide_eq_true.
Qed.

Lemma walk_next c x l1 l2 stop : repr c x (l1 ++ l2) ->
  (forall p e, p ∈ l1 -> heap c !! p = Some e -> stop p e = false) ->
  (forall p e, head l2 = Some p -> heap c !! p = Some e -> stop p e = true) ->
  walk (walk_fuel c) next stop c None (pmksa c) = Ok (last l1, head l2).
Proof.
  intros Hr H1 H2. pose proof (repr_fuel _ _ _ Hr) as Hf. rewrite length_app in Hf.
  rewrite (walk_split next _ stop c None (pmksa c) l1 l2); [|apply Hr|lia|done..].
  by destruct (last l1).
Qed.

Definition upd_hnext (v : option nat) (e : rsn_pmksa_cache_entry) := e <| hnext := v |>.
Definition upd_next (v : option nat) (e : rsn_pmksa_cache_entry) := e <| next := v |>.

(** The heap and the table without [p], which follows [q] in the list and [hq]
    in its bucket. *)
Definition unlinked (c : rsn_pmksa_cache) (p : nat) (e : rsn_pmksa_cache_entry)
    (hq q : option nat) : rsn_pmksa_cache :=
  c <| pmksa_count := pmksa_count c - 1 |> <| freed := p :: freed c |>
    <| pmkid_tab := match hq with
         | Some _ => pmkid_tab c | None => <[Z.to_nat (hash e) := hnext e]> (pmkid_tab c) end |>
    <| pmksa := relink q (pmksa c) (next e) |>
    <| heap := delete p (relink_heap upd_next q (next e)
                 (relink_heap upd_hnext hq (hnext e) (heap c))) |>.

Lemma keeps_relink_hnext q v h : keeps_data h (relink_heap upd_hnext q v h).
Proof. destruct q; [|done]. by apply keeps_data_alter. Qed.
Lemma keeps_relink_next q v h : keeps_data h (relink_heap upd_next q v h).
Proof. destruct q; [|done]. by apply keeps_data_alter. Qed.

Lemma relink_hnext_next q v h p e :
  h !! p = Some e -> exists e', relink_heap upd_hnext q v h !! p = Some e' /\ next e' = next e.
Proof.
  intros He. destruct q as [q|]; cbn; [|eauto]. destruct (decide (p = q)) as [-> |].
  - rewrite lookup_alter_eq, He. cbn. eauto.
  - rewrite lookup_alter_ne by done. eauto.
Qed.

Lemma lseg_next_relink h hd l tl q v : lseg next h hd l tl ->
  lseg next (relink_heap upd_hnext q v h) hd l tl.
Proof. destruct q; [|done]. apply lseg_next_hnext. Qed.
Lemma lseg_hnext_relink h hd l tl q v : lseg hnext h hd l tl ->
  lseg hnext (relink_heap upd_next q v h) hd l tl.
Proof. destruct q; [|done]. apply lseg_hnext_next. Qed.

Lemma walk_heap fuel link stop c c' prev pos : heap c = heap c' ->
  walk fuel link stop c prev pos = walk fuel link stop c' prev pos.
Proof.
  intros Hh. revert prev pos. induction fuel as [|fuel IH]; intros prev pos; [done|].
  cbn [walk]. destruct pos as [p|]; [|done]. unfold deref. rewrite Hh.
  destruct (heap c' !! p); [|done]. cbn [mbind res_bind]. by destruct (stop p _).
Qed.

Lemma walk_same c c' link stop prev pos : heap c = heap c' ->
  walk (walk_fuel c) link stop c prev pos = walk (walk_fuel c') link stop c' prev pos.
Proof.
  intros Hh. assert (walk_fuel c = walk_fuel c') as -> by (unfold walk_fuel; by rewrite Hh).
  by apply walk_heap.
Qed.

#[local] Arguments walk : simpl never.
#[local] Arguments walk_fuel : simpl never.

Lemma size_relink u q v h : size (relink_heap u q v h) = size h.
Proof.
  destruct q as [q|]; [|done]. cbn.
  rewrite <- !(size_dom (D := gset nat)). by rewrite dom_alter_L.
Qed.

Lemma pmksa_cache_free_entry_eq c x l1 p l2 e : repr c x (l1 ++ p :: l2) ->
  heap c !! p = Some e ->
  exists b lh1 lh2, pmkid_tab c !! Z.to_nat (hash e) = Some b /\
    lseg hnext (heap c) b (lh1 ++ p :: lh2) None /\ NoDup (lh1 ++ p :: lh2) /\
    (forall q, q ∈ lh1 ++ p :: lh2 <->
       q ∈ l1 ++ p :: l2 /\ exists e', heap c !! q = Some e' /\ hash e' = hash e) /\
    pmksa_cache_free_entry c p = Ok (unlinked c p e (last lh1) (last l1)).
Proof.
  intros Hr He. assert (p ∈ l1 ++ p :: l2) as Hp by set_solver.
  destruct (unlink_hash c x _ p e Hr Hp He) as (b & lh1 & lh2 & Hb & Hs & Hnd & Hin & Hw).
  exists b, lh1, lh2. split_and!; [done..|].
  assert (p ∈ l1 -> False) as Hne.
  { intros Hq. pose proof (r_nodup _ _ _ Hr) as Hn. apply NoDup_app in Hn as (_ & _ & Hn).
    apply NoDup_app in Hn as (_ & Hn & _). apply (Hn _ Hq). by left. }
  pose proof (r_wf _ _ _ Hr p e He) as Hwf.
  unfold pmksa_cache_free_entry, deref. cbn [heap put]. cbn. rewrite He. cbn.
  rewrite (PMKID_HASH_eq e Hwf). cbn. unfold bucket. cbn. rewrite Hb. cbn.
  rewrite (walk_same _ c) by done. rewrite Hw. cbn. rewrite He. cbn.
  assert (forall c', pmksa c' = pmksa c ->
    heap c' = relink_heap upd_hnext (last lh1) (hnext e) (heap c) ->
    walk (walk_fuel c') next (same_loc p) c' None (pmksa c') = Ok (last l1, Some p) /\
    exists e', deref c' p = Ok e' /\ next e' = next e) as Hc'.
  { intros c' Hpm Hh. split.
    - rewrite (walk_split next _ _ c' None (pmksa c') l1 (p :: l2)).
      + by destruct (last l1).
      + rewrite Hpm, Hh. apply lseg_next_relink, Hr.
      + unfold walk_fuel. rewrite Hh, size_relink. pose proof (repr_fuel _ _ _ Hr) as Hf.
        rewrite length_app in Hf. unfold walk_fuel in Hf. lia.
      + intros q e' Hq _. apply bool_decide_eq_false. intros ->. by apply (Hne Hq).
      + intros q e' [= ->] _. by apply bool_decide_eq_true.
    - unfold deref. rewrite Hh.
      destruct (relink_hnext_next (last lh1) (hnext e) (heap c) p e He) as (e' & -> & Hn).
      eauto. }
  unfold unlinked.
  destruct (last lh1) as [hq|]; cbn [relink_heap] in *.
  - destruct (Hc' (set_hnext hq (hnext e) (c <| pmksa_count := pmksa_count c - 1 |>
        <| freed := p :: freed c |>))) as [Hw' (e' & He' & Hn)]; [done|done|].
    rewrite (bind_eq _ _ _ Hw'). cbn [mbind res_bind].
    rewrite (bind_eq (deref _ _) _ _ He'). cbn [mbind res_bind]. rewrite Hn.
    by destruct (last l1).
  - destruct (Hc' (set_bucket (hash e) (hnext e) (c <| pmksa_count := pmksa_count c - 1 |>
        <| freed := p :: freed c |>))) as [Hw' (e' & He' & Hn)]; [done|done|].
    rewrite (bind_eq _ _ _ Hw'). cbn [mbind res_bind].
    rewrite (bind_eq (deref _ _) _ _ He'). cbn [mbind res_bind]. rewrite Hn.
    by destruct (last l1).
Qed.

Lemma StronglySorted_ext {A} (R R' : A -> A -> Prop) l :
  (forall x y, x ∈ l -> y ∈ l -> R x y -> R' x y) -> StronglySorted R l -> StronglySorted R' l.
Proof.
  induction l as [|a l IH]; intros Hx Hs; [constructor|].
  apply StronglySorted_inv in Hs as [Hs Ha]. constructor.
  - apply IH; [|done]. intros. apply Hx; [by right..|done].
  - rewrite Forall_forall in *. intros y Hy. apply Hx; [left|by right|by apply Ha].
Qed.

Lemma StronglySorted_remove {A} (R : A -> A -> Prop) l1 p l2 :
  StronglySorted R (l1 ++ p :: l2) -> StronglySorted R (l1 ++ l2).
Proof.
  induction l1 as [|a l1 IH]; cbn; intros Hs; apply StronglySorted_inv in Hs as [Hs Ha]; [done|].
  constructor; [by apply IH|]. rewrite Forall_app, Forall_cons in *. tauto.
Qed.

Lemma data_hash e1 e2 : data e1 = data e2 -> hash e1 = hash e2.
Proof. intros H. by rewrite <- (hash_data e1), H. Qed.

Section unlinking.
Context (c : rsn_pmksa_cache) (x l1 l2 : list nat) (p : nat) (e : rsn_pmksa_cache_entry).
Context (Hr : repr c x (l1 ++ p :: l2)) (He : heap c !! p = Some e).
Context (b : option nat) (lh1 lh2 : list nat).
Context (Hb : pmkid_tab c !! Z.to_nat (hash e) = Some b).
Context (Hs : lseg hnext (heap c) b (lh1 ++ p :: lh2) None).
Context (Hnd : NoDup (lh1 ++ p :: lh2)).
Context (Hin : forall q, q ∈ lh1 ++ p :: lh2 <->
  q ∈ l1 ++ p :: l2 /\ exists e', heap c !! q = Some e' /\ hash e' = hash e).
#[local] Abbreviation c' := (unlinked c p e (last lh1) (last l1)) (only parsing).
#[local] Abbreviation h1 := (relink_heap upd_hnext (last lh1) (hnext e) (heap c)) (only parsing).
#[local] Abbreviation h2 := (relink_heap upd_next (last l1) (next e) h1) (only parsing).

Lemma unlinked_keeps : keeps_data (heap c) h2.
Proof using. eapply keeps_data_trans; [apply keeps_relink_hnext|apply keeps_relink_next]. Qed.

Lemma unlinked_view q : q <> p -> view c' q = view c q.
Proof using.
  intros Hq. unfold view. cbn. rewrite lookup_delete_ne by done. apply unlinked_keeps.
Qed.

Lemma unlinked_nodup : NoDup (l1 ++ p :: l2).
Proof using All. pose proof (r_nodup _ _ _ Hr) as Hn. by apply NoDup_app in Hn as (_ & _ & Hn). Qed.

Lemma unlinked_notin : p ∉ x ++ l1 ++ l2 /\ NoDup (x ++ l1 ++ l2).
Proof using All.
  assert (x ++ l1 ++ p :: l2 ≡ₚ p :: x ++ l1 ++ l2) as Hp.
  { rewrite <- Permutation_middle. by rewrite <- Permutation_middle. }
  pose proof (r_nodup _ _ _ Hr) as Hn. rewrite Hp in Hn. by apply NoDup_cons in Hn.
Qed.

Lemma unlinked_lseg : lseg next (heap c') (pmksa c') (l1 ++ l2) None.
Proof using All.
  destruct unlinked_notin as [Hni _]. cbn. apply lseg_delete; [set_solver|].
  destruct (relink_hnext_next (last lh1) (hnext e) (heap c) p e He) as (e1 & He1 & <-).
  apply (lseg_unlink next upd_next) with (p := p); [done|apply unlinked_nodup| |done].
  apply lseg_next_relink, Hr.
Qed.

Lemma unlinked_lookup q e' : heap c' !! q = Some e' ->
  q <> p /\ exists e0, heap c !! q = Some e0 /\ data e' = data e0.
Proof using.
  cbn. intros [Hq He']%lookup_delete_Some. split; [done|].
  by apply (keeps_data_some _ _ q e' unlinked_keeps).
Qed.

Lemma unlinked_lookup_r q e0 : q <> p -> heap c !! q = Some e0 ->
  exists e', heap c' !! q = Some e' /\ data e' = data e0.
Proof using.
  intros Hq He0. pose proof (unlinked_view q Hq) as Hv. unfold view in Hv. rewrite He0 in Hv.
  destruct (heap c' !! q) as [e'|]; [|done]. exists e'. split; [done|]. cbn in Hv. congruence.
Qed.

(** The bucket of [p], and the others. *)
Lemma unlinked_bucket h : 0 <= h < 128 -> exists b' lh,
  pmkid_tab c' !! Z.to_nat h = Some b' /\ lseg hnext (heap c') b' lh None /\ NoDup lh /\
  forall q, q ∈ lh <-> q ∈ l1 ++ l2 /\ exists e', heap c' !! q = Some e' /\ hash e' = h.
Proof using All.
  intros Hh. destruct unlinked_notin as [Hni _]. destruct (decide (h = hash e)) as [-> | Hne].
  - exists (relink (last lh1) b (hnext e)), (lh1 ++ lh2).
    assert (lh1 ++ p :: lh2 ≡ₚ p :: lh1 ++ lh2) as Hperm by (by rewrite <- Permutation_middle).
    assert (p ∉ lh1 ++ lh2 /\ NoDup (lh1 ++ lh2)) as [Hpl Hnd2].
    { pose proof Hnd as Hn. rewrite Hperm in Hn. by apply NoDup_cons in Hn. }
    split_and!; [| |done|].
    + cbn. destruct (last lh1); [done|]. cbn. rewrite list_lookup_insert_eq; [done|].
      rewrite (r_tab _ _ _ Hr). pose proof (hash_range e). unfold PMKID_HASH_SIZE. lia.
    + cbn. apply lseg_delete; [done|]. apply lseg_hnext_relink.
      by apply (lseg_unlink hnext upd_hnext) with (p := p).
    + intros q. assert (q ∈ lh1 ++ lh2 <-> q <> p /\ q ∈ lh1 ++ p :: lh2) as -> by set_solver.
      rewrite Hin. split.
      * intros (Hq & Hql & e0 & He0 & Hhash). split; [set_solver|].
        destruct (unlinked_lookup_r q e0 Hq He0) as (e' & He' & Hd). exists e'. split; [done|].
        by rewrite (data_hash _ _ Hd).
      * intros (Hql & e' & He' & Hhash). apply unlinked_lookup in He' as (Hq & e0 & He0 & Hd).
        split_and!; [done|set_solver|]. exists e0. split; [done|].
        by rewrite <- (data_hash _ _ Hd).
  - destruct (r_buckets _ _ _ Hr h Hh) as (b' & lh & Hb' & Hs' & Hnd' & Hin').
    assert (forall q, q ∈ lh1 ++ p :: lh2 -> q ∉ lh) as Hdis.
    { intros q (_ & e1 & He1 & Hh1)%Hin (_ & e2 & He2 & Hh2)%Hin'. congruence. }
    exists b', lh. split_and!; [| |done|].
    + cbn. destruct (last lh1); [done|]. cbn. rewrite list_lookup_insert_ne; [done|].
      pose proof (hash_range e). lia.
    + cbn. apply lseg_delete; [apply Hdis; set_solver|]. apply lseg_hnext_relink.
      apply lseg_relink_rest; [|done]. intros q Hq. apply Hdis.
      apply last_Some_elem_of in Hq. set_solver.
    + intros q. rewrite Hin'. split.
      * intros (Hql & e0 & He0 & Hhash).
        assert (q <> p) as Hq by (intros ->; simplify_eq).
        split; [set_solver|]. destruct (unlinked_lookup_r q e0 Hq He0) as (e' & He' & Hd).
        exists e'. split; [done|]. by rewrite (data_hash _ _ Hd).
      * intros (Hql & e' & He' & Hhash). apply unlinked_lookup in He' as (Hq & e0 & He0 & Hd).
        split; [set_solver|]. exists e0. split; [done|]. by rewrite <- (data_hash _ _ Hd).
Qed.

Lemma unlinked_repr : repr c' x (l1 ++ l2).
Proof using All.
  destruct unlinked_notin as [Hni Hnd2]. constructor.
  - exact unlinked_lseg.
  - exact Hnd2.
  - intros q. split.
    + intros [e' He']. apply unlinked_lookup in He' as (Hq & e0 & He0 & _).
      assert (q ∈ x ++ l1 ++ p :: l2) by (apply (r_dom _ _ _ Hr); eauto). set_solver.
    + intros Hq. assert (q <> p) as Hqp by (intros ->; done).
      assert (is_Some (heap c !! q)) as [e0 He0] by (apply (r_dom _ _ _ Hr); set_solver).
      destruct (unlinked_lookup_r q e0 Hqp He0) as (e' & -> & _). eauto.
  - cbn. destruct (last lh1); [apply Hr|]. rewrite length_insert. apply Hr.
  - exact unlinked_bucket.
  - intros q e' He'. apply unlinked_lookup in He' as (Hq & e0 & He0 & Hd).
    eapply wf_data; [symmetry; exact Hd|]. by apply (r_wf _ _ _ Hr q).
  - intros q Hq. apply (r_fresh _ _ _ Hr). set_solver.
  - cbn. rewrite (r_count _ _ _ Hr). zlen_lia.
  - apply (StronglySorted_ext (fun p q => exp_of c p <= exp_of c q));
      [|eapply StronglySorted_remove, Hr].
    intros q q' Hq Hq'. unfold exp_of. rewrite !unlinked_view; [done|set_solver..].
Qed.
End unlinking.

(** ** The operations *)

Lemma free_entry_ok c x l1 p l2 : repr c x (l1 ++ p :: l2) ->
  exists c', pmksa_cache_free_entry c p = Ok c' /\ repr c' x (l1 ++ l2) /\
    (forall q, q <> p -> view c' q = view c q) /\ freed c' = p :: freed c /\
    next_loc c' = next_loc c /\ expire_timeout c' = expire_timeout c.
Proof.
  intros Hr. assert (is_Some (heap c !! p)) as [e He] by (apply (r_dom _ _ _ Hr); set_solver).
  destruct (pmksa_cache_free_entry_eq c x l1 p l2 e Hr He)
    as (b & lh1 & lh2 & Hb & Hs & Hnd & Hin & Heq).
  eexists. split; [exact Heq|]. split; [by eapply unlinked_repr|].
  split; [intros q Hq; by apply unlinked_view|done].
Qed.

(** ** Linking *)

Definition linked (c : rsn_pmksa_cache) (p : nat) (e : rsn_pmksa_cache_entry)
    (q mid b : option nat) : rsn_pmksa_cache :=
  c <| pmksa_count := pmksa_count c + 1 |>
    <| pmkid_tab := <[Z.to_nat (hash e) := Some p]> (pmkid_tab c) |>
    <| pmksa := relink q (pmksa c) (Some p) |>
    <| heap := alter (upd_hnext b) p
         (relink_heap upd_next q (Some p) (alter (upd_next mid) p (heap c))) |>.

Lemma lseg_next_last h hd l mid q : lseg next h hd l mid -> last l = Some q ->
  exists e, h !! q = Some e /\ next e = mid.
Proof.
  intros Hl Hq. apply last_Some in Hq as [l0 ->]. apply lseg_app in Hl as (m & _ & Hq).
  destruct Hq as (_ & e & He & Hm). eauto.
Qed.

Lemma pmksa_cache_link_entry_eq c x p l1 l2 e : repr c (p :: x) (l1 ++ l2) ->
  heap c !! p = Some e ->
  (forall q e', q ∈ l1 -> heap c !! q = Some e' -> later e q e' = false) ->
  (forall q e', head l2 = Some q -> heap c !! q = Some e' -> later e q e' = true) ->
  exists mid b lh, lseg next (heap c) (pmksa c) l1 mid /\ lseg next (heap c) mid l2 None /\
    pmkid_tab c !! Z.to_nat (hash e) = Some b /\ lseg hnext (heap c) b lh None /\ NoDup lh /\
    (forall q, q ∈ lh <-> q ∈ l1 ++ l2 /\ exists e', heap c !! q = Some e' /\ hash e' = hash e) /\
    pmksa_cache_link_entry c p = Ok (linked c p e (last l1) mid b).
Proof.
  intros Hr He H1 H2. destruct (proj1 (lseg_app _ _ _ _ _ _) (r_next _ _ _ Hr)) as (mid & Hl1 & Hl2).
  destruct (r_buckets _ _ _ Hr (hash e) (hash_range e)) as (b & lh & Hb & Hs & Hnd & Hin).
  exists mid, b, lh. split_and!; [done..|].
  pose proof (r_nodup _ _ _ Hr) as Hn. cbn in Hn. apply NoDup_cons in Hn as [Hni _].
  assert (deref c p = Ok e) as Hd by (unfold deref; by rewrite He).
  unfold pmksa_cache_link_entry. rewrite (bind_eq _ _ _ Hd).
  rewrite (bind_eq _ _ _ (walk_next c (p :: x) l1 l2 _ Hr H1 H2)). cbn beta iota.
  assert (forall c', pmkid_tab c' = pmkid_tab c ->
    (h ← PMKID_HASH (e_pmkid e); b ← bucket c' h;
     mret ((set_bucket h (Some p) (set_hnext p b c')) <| pmksa_count :=
             pmksa_count (set_bucket h (Some p) (set_hnext p b c')) + 1 |>)) =
    Ok ((set_bucket (hash e) (Some p) (set_hnext p b c')) <| pmksa_count :=
             pmksa_count (set_bucket (hash e) (Some p) (set_hnext p b c')) + 1 |>)) as Htail.
  { intros c' Ht. rewrite (bind_eq _ _ _ (PMKID_HASH_eq e (r_wf _ _ _ Hr p e He))).
    unfold bucket. by rewrite Ht, Hb. }
  destruct (last l1) as [q|] eqn:Hq.
  - destruct (lseg_next_last _ _ _ _ _ Hl1 Hq) as (eq & Heq & Hnq).
    assert (deref c q = Ok eq) as Hdq by (unfold deref; by rewrite Heq).
    rewrite (bind_eq _ _ (set_next q (Some p) (set_next p (next eq) c)))
      by (by rewrite (bind_eq _ _ _ Hdq)).
    refine (eq_trans (Htail (set_next q (Some p) (set_next p (next eq) c)) eq_refl) _).
    by rewrite Hnq.
  - apply last_None in Hq as ->. cbn in Hl1.
    rewrite (bind_eq _ _ ((set_next p (pmksa c) c) <| pmksa := Some p |>)) by done.
    refine (eq_trans (Htail ((set_next p (pmksa c) c) <| pmksa := Some p |>) _) _); [reflexivity|].
    by rewrite Hl1.
Qed.

Section linking.
Context (c : rsn_pmksa_cache) (x l1 l2 : list nat) (p : nat) (e : rsn_pmksa_cache_entry).
Context (Hr : repr c (p :: x) (l1 ++ l2)) (He : heap c !! p = Some e).
Context (mid b : option nat) (lh : list nat).
Context (Hl1 : lseg next (heap c) (pmksa c) l1 mid) (Hl2 : lseg next (heap c) mid l2 None).
Context (Hb : pmkid_tab c !! Z.to_nat (hash e) = Some b).
Context (Hs : lseg hnext (heap c) b lh None) (Hnd : NoDup lh).
Context (Hin : forall q, q ∈ lh <->
  q ∈ l1 ++ l2 /\ exists e', heap c !! q = Some e' /\ hash e' = hash e).
#[local] Abbreviation c' := (linked c p e (last l1) mid b) (only parsing).
#[local] Abbreviation h1 := (alter (upd_next mid) p (heap c)) (only parsing).
#[local] Abbreviation h2 := (relink_heap upd_next (last l1) (Some p) h1) (only parsing).

Lemma linked_keeps : keeps_data (heap c) (heap c').
Proof using.
  eapply keeps_data_trans; [by apply (keeps_data_alter (upd_next mid) p)|].
  eapply keeps_data_trans; [apply keeps_relink_next|]. by apply keeps_data_alter.
Qed.

Lemma linked_notin : p ∉ l1 ++ l2.
Proof using All. pose proof (r_nodup _ _ _ Hr) as Hn. cbn in Hn. apply NoDup_cons in Hn. set_solver. Qed.

Lemma linked_lseg : lseg next (heap c') (pmksa c') (l1 ++ p :: l2) None.
Proof using All.
  pose proof linked_notin as Hni. cbn. apply lseg_next_hnext.
  apply (lseg_link next upd_next) with (mid := mid) (e := upd_next mid e);
    [done| | | | | |done].
  - pose proof (r_nodup _ _ _ Hr) as Hn. apply NoDup_app in Hn as (_ & _ & Hn).
    by apply NoDup_app in Hn as (Hn & _).
  - pose proof (r_nodup _ _ _ Hr) as Hn. apply NoDup_app in Hn as (_ & _ & Hn).
    apply NoDup_app in Hn as (_ & Hd & _). intros q Hq. split; [|by apply Hd].
    intros ->. apply Hni, elem_of_app. by left.
  - apply lseg_alter_ne; [|done]. intros Hp. apply Hni, elem_of_app. by left.
  - apply lseg_alter_ne; [|done]. intros Hp. apply Hni, elem_of_app. by right.
  - by rewrite lookup_alter_eq, He.
Qed.

Lemma linked_lookup q e' : heap c' !! q = Some e' ->
  exists e0, heap c !! q = Some e0 /\ data e' = data e0.
Proof using. apply keeps_data_some, linked_keeps. Qed.
Lemma linked_lookup_r q e0 : heap c !! q = Some e0 ->
  exists e', heap c' !! q = Some e' /\ data e' = data e0.
Proof using.
  intros He0. pose proof (linked_keeps q) as Hv. rewrite He0 in Hv.
  destruct (heap c' !! q) as [e'|]; [|done]. exists e'. split; [done|]. cbn in Hv. congruence.
Qed.

Lemma linked_hnext q e0 : q <> p -> heap c !! q = Some e0 ->
  exists e', heap c' !! q = Some e' /\ hnext e' = hnext e0.
Proof using.
  intros Hq He0. cbn. rewrite lookup_alter_ne by done.
  destruct (last l1) as [q'|]; cbn; [destruct (decide (q = q')) as [-> |]|].
  - rewrite lookup_alter_eq, lookup_alter_ne, He0 by done. cbn. eauto.
  - rewrite !lookup_alter_ne, He0 by done. eauto.
  - rewrite lookup_alter_ne, He0 by done. eauto.
Qed.

Lemma linked_bucket h : 0 <= h < 128 -> exists b' lh',
  pmkid_tab c' !! Z.to_nat h = Some b' /\ lseg hnext (heap c') b' lh' None /\ NoDup lh' /\
  forall q, q ∈ lh' <->
    q ∈ l1 ++ p :: l2 /\ exists e', heap c' !! q = Some e' /\ hash e' = h.
Proof using All.
  pose proof linked_notin as Hni. intros Hh.
  assert (forall q, q ∈ l1 ++ p :: l2 <-> q = p \/ q ∈ l1 ++ l2) as Hmem.
  { intros q. rewrite !elem_of_app, elem_of_cons. tauto. }
  assert (forall q h', (exists e', heap c' !! q = Some e' /\ hash e' = h') <->
    exists e0, heap c !! q = Some e0 /\ hash e0 = h') as Hhash.
  { intros q h'. split; intros (e1 & He1 & <-).
    - apply linked_lookup in He1 as (e0 & He0 & Hd). exists e0. split; [done|].
      symmetry. by apply data_hash.
    - destruct (linked_lookup_r q e1 He1) as (e' & He' & Hd). exists e'. split; [done|].
      by apply data_hash. }
  destruct (decide (h = hash e)) as [-> | Hne].
  - exists (Some p), (p :: lh). split_and!.
    + cbn. apply list_lookup_insert_eq. rewrite (r_tab _ _ _ Hr).
      pose proof (hash_range e). unfold PMKID_HASH_SIZE. lia.
    + split; [done|]. destruct (linked_lookup_r p e He) as (e' & He' & _). exists e'.
      split; [done|]. assert (hnext e' = b) as Hb'.
      { cbn in He'. rewrite lookup_alter_eq in He'.
        destruct (relink_heap upd_next (last l1) (Some p) h1 !! p); [|done]. by injection He' as <-. }
      change (lseg hnext (heap c') (hnext e') lh None). rewrite Hb'.
      eapply lseg_ext; [|exact Hs]. intros q e0 Hq He0.
      apply linked_hnext; [|done]. intros ->. by apply Hin in Hq as [? _].
    + apply NoDup_cons. split; [|done]. by intros [? _]%Hin.
    + intros q. rewrite elem_of_cons, Hmem, Hin, Hhash. split.
      * intros [-> | [? ?]]; [split; [by left|eauto]|split; [by right|done]].
      * intros [[-> | ?] ?]; [by left|by right].
  - destruct (r_buckets _ _ _ Hr h Hh) as (b' & lh' & Hb' & Hs' & Hnd' & Hin').
    exists b', lh'. split_and!; [| |done|].
    + cbn. rewrite list_lookup_insert_ne; [done|]. pose proof (hash_range e). lia.
    + eapply lseg_ext; [|exact Hs']. intros q e0 Hq He0.
      apply linked_hnext; [|done]. intros ->. by apply Hin' in Hq as [? _].
    + intros q. rewrite Hin', Hmem, Hhash. split; [intros [? ?]; by split; [right|]|].
      intros [[-> | ?] Hx]; [|done]. destruct Hx as (e0 & He0 & <-). simplify_eq.
Qed.

Lemma linked_repr :
  StronglySorted (fun p q => exp_of c p <= exp_of c q) (l1 ++ p :: l2) ->
  repr c' x (l1 ++ p :: l2).
Proof using All.
  intros Hsort. pose proof linked_notin as Hni.
  assert (x ++ l1 ++ p :: l2 ≡ₚ (p :: x) ++ l1 ++ l2) as Hperm.
  { cbn. rewrite <- Permutation_middle. by rewrite <- Permutation_middle. }
  constructor.
  - exact linked_lseg.
  - rewrite Hperm. apply Hr.
  - intros q. rewrite Hperm, <- (r_dom _ _ _ Hr). apply keeps_data_dom, linked_keeps.
  - cbn. rewrite length_insert. apply Hr.
  - exact linked_bucket.
  - intros q e' He'. apply linked_lookup in He' as (e0 & He0 & Hd).
    eapply wf_data; [symmetry; exact Hd|]. by apply (r_wf _ _ _ Hr q).
  - intros q Hq. rewrite Hperm in Hq. by apply (r_fresh _ _ _ Hr).
  - cbn. rewrite (r_count _ _ _ Hr). zlen_lia.
  - eapply StronglySorted_ext; [|exact Hsort].
    intros q q' _ _. unfold exp_of, view. by rewrite !(linked_keeps _).
Qed.
End linking.

Lemma StronglySorted_app_l {A} (R : A -> A -> Prop) l1 l2 :
  StronglySorted R (l1 ++ l2) -> StronglySorted R l2.
Proof. induction l1 as [|a l1 IH]; cbn; [done|]. intros [? _]%StronglySorted_inv. by apply IH. Qed.

(** Inserting between what is not greater and what is greater keeps the order. *)
Lemma StronglySorted_insert {A} (f : A -> Z) l1 p l2 :
  StronglySorted (fun x y => f x <= f y) (l1 ++ l2) ->
  (forall q, q ∈ l1 -> f q <= f p) -> (forall q, head l2 = Some q -> f p < f q) ->
  StronglySorted (fun x y => f x <= f y) (l1 ++ p :: l2) /\ (forall q, q ∈ l2 -> f p < f q).
Proof.
  intros Hs H1 H2.
  assert (forall q, q ∈ l2 -> f p < f q) as H2'.
  { apply StronglySorted_app_l in Hs. destruct l2 as [|r l2]; [by intros ? ?%not_elem_of_nil|].
    apply StronglySorted_inv in Hs as [_ Hr]. rewrite Forall_forall in Hr.
    intros q [-> | Hq]%elem_of_cons; [by apply H2|]. pose proof (H2 r eq_refl).
    specialize (Hr q Hq). lia. }
  split; [|done]. clear H2. induction l1 as [|a l1 IH]; cbn in *.
  - constructor; [done|]. rewrite Forall_forall. intros q Hq. specialize (H2' q Hq). lia.
  - apply StronglySorted_inv in Hs as [Hs Ha]. constructor.
    + apply IH; [done|]. intros q Hq. apply H1. by right.
    + rewrite Forall_app, Forall_cons in *. split_and!; [apply Ha| |apply Ha].
      apply H1. by left.
Qed.

Lemma exp_of_lookup c p e : heap c !! p = Some e -> exp_of c p = expiration e.
Proof. intros He. unfold exp_of, view. by rewrite He. Qed.

Lemma link_entry_ok c x p l : repr c (p :: x) l ->
  exists c' l1 l2, pmksa_cache_link_entry c p = Ok c' /\ l = l1 ++ l2 /\
    repr c' x (l1 ++ p :: l2) /\ (forall q, view c' q = view c q) /\
    (forall q, q ∈ l1 -> exp_of c q <= exp_of c p) /\
    (forall q, q ∈ l2 -> exp_of c p < exp_of c q) /\
    freed c' = freed c /\ next_loc c' = next_loc c /\ expire_timeout c' = expire_timeout c.
Proof.
  intros Hr. assert (is_Some (heap c !! p)) as [e He] by (apply (r_dom _ _ _ Hr); by left).
  destruct (stop_split (later e) (heap c) l) as (l1 & l2 & -> & H1 & H2).
  { intros q Hq. apply (r_dom _ _ _ Hr). apply elem_of_app. by right. }
  destruct (pmksa_cache_link_entry_eq c x p l1 l2 e Hr He H1 H2)
    as (mid & b & lh & Hl1 & Hl2 & Hb & Hs & Hnd & Hin & Heq).
  assert (forall q, q ∈ l1 ++ l2 -> is_Some (heap c !! q)) as Hall.
  { intros q Hq. apply (r_dom _ _ _ Hr). apply elem_of_app. by right. }
  destruct (StronglySorted_insert (exp_of c) l1 p l2 (r_sorted _ _ _ Hr)) as [Hsort Hgt].
  { intros q Hq. destruct (Hall q) as [e' He']; [apply elem_of_app; by left|].
    rewrite (exp_of_lookup c q e' He'), (exp_of_lookup c p e He).
    specialize (H1 q e' Hq He'). unfold later in H1. lia. }
  { intros q Hq. destruct (Hall q) as [e' He'].
    { destruct l2; [done|]. injection Hq as ->. apply elem_of_app. right. left. }
    rewrite (exp_of_lookup c q e' He'), (exp_of_lookup c p e He).
    specialize (H2 q e' Hq He'). unfold later in H2. lia. }
  exists (linked c p e (last l1) mid b), l1, l2. split_and!; [done|done| | | |done|done..].
  - by apply linked_repr with lh.
  - intros q. unfold view. by rewrite (linked_keeps c l1 p e mid b q).
  - intros q Hq. destruct (Hall q) as [e' He']; [apply elem_of_app; by left|].
    rewrite (exp_of_lookup c q e' He'), (exp_of_lookup c p e He).
    specialize (H1 q e' Hq He'). unfold later in H1. lia.
Qed.

(** ** Lookup *)

Definition matches (spa_ pmkid_ : option (list Z)) (e : rsn_pmksa_cache_entry) : bool :=
  opt_match spa_ (spa e) && opt_match pmkid_ (e_pmkid e).

Lemma get_ok c x l spa_ pmkid_ : repr c x l ->
  (forall k, pmkid_ = Some k -> 0 < zlen k) ->
  exists r, pmksa_cache_auth_get c spa_ pmkid_ = Ok r /\
    match r with
    | Some p => exists e, heap c !! p = Some e /\ p ∈ l /\ matches spa_ pmkid_ e = true
    | None => forall p e, p ∈ l -> heap c !! p = Some e -> matches spa_ pmkid_ e = false
    end.
Proof.
  intros Hr Hk. unfold pmksa_cache_auth_get.
  assert (forall link hd lh, lseg link (heap c) hd lh None -> NoDup lh ->
    (forall p, p ∈ lh -> p ∈ l) ->
    exists r, ('(_, r) ← walk (walk_fuel c) link (get_stop spa_ pmkid_) c None hd; mret r) = Ok r /\
      match r with
      | Some p => exists e, heap c !! p = Some e /\ p ∈ l /\ matches spa_ pmkid_ e = true
      | None => forall p e, p ∈ lh -> heap c !! p = Some e -> matches spa_ pmkid_ e = false
      end) as Hwalk.
  { intros link hd lh Hs Hnd Hsub.
    assert (forall p, p ∈ lh -> is_Some (heap c !! p)) as Hall
      by (intros p Hp; by eapply lseg_alloc).
    destruct (stop_split (get_stop spa_ pmkid_) (heap c) lh Hall) as (l1 & l2 & -> & H1 & H2).
    pose proof (bucket_fuel _ _ _ _ Hr Hnd Hsub) as Hf. rewrite length_app in Hf.
    rewrite (bind_eq _ _ _ (walk_split link (walk_fuel c) _ c None hd l1 l2 Hs ltac:(lia) H1 H2)).
    eexists. split; [done|]. destruct l2 as [|p l2]; cbn [head].
    - intros p e Hp. rewrite app_nil_r in Hp. by apply H1.
    - destruct (Hall p) as [e He]; [apply elem_of_app; right; left|]. exists e. split; [done|].
      split; [apply Hsub, elem_of_app; right; left|]. by apply (H2 p e). }
  destruct pmkid_ as [k|].
  - specialize (Hk k eq_refl). set (h := Z.land (nth 0 k 0) 127).
    assert (PMKID_HASH k = Ok h) as Hh by (unfold PMKID_HASH; by rewrite rd_ok by lia).
    rewrite (bind_eq (h ← PMKID_HASH k; bucket c h) _ (default None (pmkid_tab c !! Z.to_nat h))).
    + assert (0 <= h < 128) as Hrange.
      { unfold h. change 127 with (Z.ones 7). rewrite Z.land_ones by lia.
        apply Z.mod_pos_bound. lia. }
      destruct (r_buckets _ _ _ Hr h Hrange) as (b & lh & -> & Hs & Hnd & Hin). cbn [default].
      destruct (Hwalk hnext b lh Hs Hnd) as (r & Heq & Hspec).
      { intros p Hp. by apply Hin. }
      exists r. split; [exact Heq|]. destruct r; [done|]. intros p e Hp He.
      destruct (matches spa_ (Some k) e) eqn:Hm; [|done].
      rewrite <- (Hspec p e), Hm; [done| |done]. apply Hin. split; [done|]. exists e.
      split; [done|]. unfold matches in Hm. apply andb_true_iff in Hm as [_ Hm].
      apply bool_decide_eq_true in Hm. unfold hash, h. by rewrite Hm.
    + rewrite (bind_eq _ _ _ Hh). unfold bucket.
      assert (0 <= h < 128) as Hrange.
      { unfold h. change 127 with (Z.ones 7). rewrite Z.land_ones by lia.
        apply Z.mod_pos_bound. lia. }
      by destruct (r_buckets _ _ _ Hr h Hrange) as (b & lh & -> & _).
  - rewrite (bind_eq _ _ (pmksa c)) by done.
    pose proof (r_nodup _ _ _ Hr) as Hn. apply NoDup_app in Hn as (_ & _ & Hn).
    apply (Hwalk next (pmksa c) l (r_next _ _ _ Hr) Hn). done.
Qed.

(** ** Adding *)

Lemma store_repr c x l entry : repr c x l -> wf_entry entry ->
  let '(p, c') := store entry c in
  p ∉ x ++ l /\ repr c' (p :: x) l /\ heap c' !! p = Some entry /\
  (forall q, q <> p -> view c' q = view c q) /\ freed c' = freed c /\
  expire_timeout c' = expire_timeout c.
Proof.
  intros Hr Hw. cbn. set (p := next_loc c). set (c' := _ <| next_loc := _ |>).
  assert (p ∉ x ++ l) as Hp.
  { intros Hp. pose proof (r_fresh _ _ _ Hr p Hp). unfold p in *. lia. }
  assert (p ∉ l) as Hpl by (intros ?; apply Hp, elem_of_app; by right).
  assert (heap c' !! p = Some entry) as Hentry by (cbn; by rewrite lookup_insert_eq).
  assert (forall q, q <> p -> heap c' !! q = heap c !! q) as Hother
    by (intros q Hq; cbn; by rewrite lookup_insert_ne).
  split_and!; [done| |done| |done..].
  - constructor.
    + cbn. apply lseg_insert; [done|apply Hr].
    + cbn. apply NoDup_cons. split; [done|apply Hr].
    + intros q. cbn [app]. rewrite elem_of_cons. destruct (decide (q = p)) as [-> | Hq].
      * rewrite Hentry. split; [by left|eauto].
      * rewrite Hother, (r_dom _ _ _ Hr) by done. split; [by right|]. by intros [?|?].
    + apply Hr.
    + intros h Hh. destruct (r_buckets _ _ _ Hr h Hh) as (b & lh & Hb & Hs & Hnd & Hin).
      exists b, lh. split_and!; [done| |done|].
      * cbn. apply lseg_insert; [|done]. intros Hq. by apply Hin in Hq as [? _].
      * intros q. rewrite Hin. split; intros [Hq (e & He & Hhash)]; split; try done;
          exists e; (split; [|done]); [rewrite Hother|rewrite <- Hother]; try done;
          by intros ->.
    + intros q e He. destruct (decide (q = p)) as [-> | Hq]; [by simplify_eq|].
      rewrite Hother in He by done. by apply (r_wf _ _ _ Hr q).
    + intros q. cbn [app]. intros [-> | Hq]%elem_of_cons; cbn; [unfold p; lia|].
      pose proof (r_fresh _ _ _ Hr q Hq). lia.
    + apply Hr.
    + eapply StronglySorted_ext; [|apply Hr]. intros q q' Hq Hq'. unfold exp_of, view.
      rewrite !Hother; [done|by intros ->..].
  - intros q Hq. unfold view. by rewrite Hother.
Qed.

Definition wf_eapol (d : eapol_data) : Prop :=
  forall i, d_identity d = Some i -> zlen i = d_identity_len d.

Lemma from_eapol_ok e entry eapol : wf_entry entry -> opt wf_eapol eapol ->
  e_identity entry = None ->
  exists entry', pmksa_cache_from_eapol_data e entry eapol = Ok entry' /\ wf_entry entry' /\
    e_pmkid entry' = e_pmkid entry /\ e_pmk entry' = e_pmk entry /\
    e_pmk_len entry' = e_pmk_len entry /\ expiration entry' = expiration entry /\
    akmp entry' = akmp entry /\ spa entry' = spa entry.
Proof.
  intros [Hw1 Hw2 Hw3 Hw4] Hd Hn. unfold pmksa_cache_from_eapol_data.
  destruct eapol as [d|]; [|eexists; by split_and!].
  destruct (d_identity d) as [i|] eqn:Hi.
  - unfold copy_identity. specialize (Hd i Hi). destruct (malloc_ok e _); cbn.
    + rewrite <- Hd, rd_n_all. cbn. eexists. split_and!; [done| |done..].
      constructor; [done..|]. cbn. by intros ? [= <-].
    + eexists. split_and!; [done| |done..]. by constructor.
  - cbn. eexists. split_and!; [done| |done..]. constructor; [done..|]. cbn. by rewrite Hn.
Qed.

(** The cache between calls: bounded, and one entry per station. *)
Definition cache_inv (c : rsn_pmksa_cache) : Prop := exists l, repr c [] l /\
  zlen l <= pmksa_cache_max_entries /\
  forall p q e e', heap c !! p = Some e -> heap c !! q = Some e' -> spa e = spa e' -> p = q.

Definition replace_old (c : rsn_pmksa_cache) (pos : option nat) : res rsn_pmksa_cache :=
  match pos with Some pos => pmksa_cache_free_entry c pos | None => mret c end.
Definition make_room (c : rsn_pmksa_cache) : res rsn_pmksa_cache :=
  match pmksa c with
  | Some oldest => if pmksa_cache_max_entries <=? pmksa_count c
                   then pmksa_cache_free_entry c oldest else mret c
  | None => mret c
  end.

Lemma view_some c q e : heap c !! q = Some e -> view c q = Some (data e).
Proof. intros He. unfold view. by rewrite He. Qed.
Lemma view_inv c q d : view c q = Some d -> exists e, heap c !! q = Some e /\ data e = d.
Proof.
  unfold view. destruct (heap c !! q) as [e|]; [|done]. intros [= <-]. by exists e.
Qed.
Lemma data_spa e e' : data e = data e' -> spa e = spa e'.
Proof. intros H. change (spa (data e) = spa (data e')). by rewrite H. Qed.

(** A step that takes entries out: what is left is as before. *)
Record removes (c c' : rsn_pmksa_cache) (x l l' : list nat) (gone : nat -> Prop) : Prop := {
  rm_repr : repr c' x l';
  rm_in : forall q, q ∈ l' <-> q ∈ l /\ ~ gone q;
  rm_view : forall q, q ∈ x \/ q ∈ l' -> view c' q = view c q;
  rm_timer : expire_timeout c' = expire_timeout c;
  rm_len : zlen l' <= zlen l;
  rm_dec : forall q, gone q \/ ~ gone q;
}.

Lemma removes_refl c x l : repr c x l -> removes c c x l l (fun _ => False).
Proof. intros Hr. constructor; [done|tauto|done|done|lia|tauto]. Qed.

Lemma removes_one c x l p : repr c x l -> p ∈ l ->
  exists c' l', pmksa_cache_free_entry c p = Ok c' /\ removes c c' x l l' (fun q => q = p) /\
    zlen l' = zlen l - 1.
Proof.
  intros Hr Hp. destruct (list_elem_of_split _ _ Hp) as (l1 & l2 & ->).
  destruct (free_entry_ok c x l1 p l2 Hr) as (c' & Heq & Hr' & Hv & _ & _ & Ht).
  pose proof (r_nodup _ _ _ Hr) as Hn.
  assert (x ++ l1 ++ p :: l2 ≡ₚ p :: x ++ l1 ++ l2) as Hperm
    by (rewrite <- Permutation_middle; by rewrite <- Permutation_middle).
  rewrite Hperm in Hn. apply NoDup_cons in Hn as [Hn _].
  exists c', (l1 ++ l2). split_and!; [done| |zlen_lia]. constructor; [done| | |done|zlen_lia|intros q; destruct (decide (q = p)); tauto].
  - intros q. rewrite !elem_of_app, elem_of_cons. split; [|tauto].
    intros Hq. split; [tauto|]. intros ->. apply Hn. rewrite !elem_of_app. tauto.
  - intros q Hq. apply Hv. intros ->. apply Hn. rewrite !elem_of_app in *. tauto.
Qed.

Lemma replace_old_ok c x l pos : repr c x l -> (forall p, pos = Some p -> p ∈ l) ->
  exists c' l', replace_old c pos = Ok c' /\ removes c c' x l l' (fun q => pos = Some q) /\
    zlen l' = zlen l - (if pos then 1 else 0).
Proof.
  intros Hr Hp. destruct pos as [p|].
  - destruct (removes_one c x l p Hr (Hp p eq_refl)) as (c' & l' & Heq & [] & Hl).
    exists c', l'. split_and!; [done| |done]. constructor; [done| |done|done|done|intros q; destruct (decide (Some p = Some q)); tauto].
    intros q. rewrite rm_in0. assert (q = p <-> Some p = Some q) as <-; [|done].
    split; [by intros ->|by intros [= ->]].
  - exists c, l. split_and!; [done| |lia]. constructor; [done| |done|done|lia|by right].
    intros q. split; [|tauto]. by split.
Qed.

Lemma make_room_ok c x l : repr c x l ->
  exists c' l' gone, make_room c = Ok c' /\ removes c c' x l l' gone /\
    (zlen l <= pmksa_cache_max_entries -> zlen l' < pmksa_cache_max_entries) /\
    (forall q, gone q -> pmksa_cache_max_entries <= zlen l /\
       forall q', q' ∈ l -> exp_of c q <= exp_of c q').
Proof.
  intros Hr. unfold make_room. pose proof (r_next _ _ _ Hr) as Hn.
  rewrite (r_count _ _ _ Hr). unfold pmksa_cache_max_entries in *.
  destruct l as [|p l].
  - cbn in Hn. rewrite Hn. exists c, [], (fun _ => False).
    split_and!; [done|by apply removes_refl| |done]. unfold zlen. cbn. lia.
  - destruct Hn as (-> & _). destruct (Z.leb_spec 1024 (zlen (p :: l))).
    + destruct (removes_one c x (p :: l) p Hr) as (c' & l' & Heq & Hrm & Hl); [left|].
      exists c', l', (fun q => q = p). split_and!; [done|done|lia|].
      intros q ->. split; [done|]. pose proof (r_sorted _ _ _ Hr) as Hs.
      apply StronglySorted_inv in Hs as [_ Hs]. rewrite Forall_forall in Hs.
      intros q' [-> | Hq']%elem_of_cons; [lia|by apply Hs].
    + exists c, (p :: l), (fun _ => False). split_and!; [done|by apply removes_refl|lia|done].
Qed.

Section crypto.
Context {cr : Crypto} {c_laws : CryptoLaws cr}.

(** The entry [pmksa_cache_auth_add] makes. *)
Record new_entry (now_sec : Z) (pmk : list Z) (pmk_len : Z) (aa spa_ : list Z)
    (session_timeout akmp_ : Z) (e : rsn_pmksa_cache_entry) : Prop := {
  ne_pmkid : e_pmkid e = rsn_pmkid (take (Z.to_nat pmk_len) pmk) aa spa_
                           (wpa_key_mgmt_sha256 akmp_);
  ne_pmk : take (Z.to_nat pmk_len) (e_pmk e) = take (Z.to_nat pmk_len) pmk;
  ne_pmk_len : e_pmk_len e = pmk_len;
  ne_expiration : expiration e = now_sec +
    (if 0 <? session_timeout then session_timeout else dot11RSNAConfigPMKLifetime);
  ne_akmp : akmp e = akmp_;
  ne_spa : spa e = spa_;
}.

Lemma copy_pmk_ok pmk pmk_len : 0 <= pmk_len <= 32 -> pmk_len <= zlen pmk ->
  copy_pmk (replicate 32 0) pmk pmk_len =
  Ok (take (Z.to_nat pmk_len) pmk ++ drop (Z.to_nat pmk_len) (replicate 32 0)).
Proof using.
  intros H1 H2. unfold copy_pmk.
  rewrite (bind_eq _ _ _ (rd_n_ok pmk 0 pmk_len ltac:(lia) ltac:(lia) ltac:(lia))).
  change (drop (Z.to_nat 0) pmk) with pmk. assert (length (take (Z.to_nat pmk_len) pmk) = Z.to_nat pmk_len) as Hl
    by (rewrite length_take; unfold zlen in *; lia).
  rewrite wr_n_ok.
  - cbn [Z.to_nat take app Nat.add]. by rewrite Hl.
  - lia.
  - unfold zlen. rewrite Hl, length_replicate. lia.
Qed.

(** *** The new entry is filled in *)
Lemma make_entry_ok e now_sec pmk pmk_len aa spa_ session_timeout eapol akmp_ :
  0 <= pmk_len <= 32 -> pmk_len <= zlen pmk -> opt wf_eapol eapol ->
  exists entry,
    (k ← copy_pmk (e_pmk entry_zero) pmk pmk_len;
     let entry := entry_zero <| e_pmk := k |> <| e_pmk_len := pmk_len |> in
     pmk ← rd_n pmk 0 pmk_len;
     let entry := entry <| e_pmkid := rsn_pmkid pmk aa spa_ (wpa_key_mgmt_sha256 akmp_) |> in
     let entry := entry <| expiration := now_sec +
       (if 0 <? session_timeout then session_timeout else dot11RSNAConfigPMKLifetime) |> in
     let entry := entry <| akmp := akmp_ |> in
     let entry := entry <| spa := spa_ |> in
     pmksa_cache_from_eapol_data e entry eapol) = Ok entry /\ wf_entry entry /\
    new_entry now_sec pmk pmk_len aa spa_ session_timeout akmp_ entry.
Proof using c_laws.
  intros H1 H2 Hd. rewrite (bind_eq _ _ _ (copy_pmk_ok pmk pmk_len H1 H2)). cbn zeta.
  rewrite (bind_eq _ _ _ (rd_n_ok pmk 0 pmk_len ltac:(lia) ltac:(lia) ltac:(lia))).
  change (drop (Z.to_nat 0) pmk) with pmk. set (k := take (Z.to_nat pmk_len) pmk).
  assert (length k = Z.to_nat pmk_len) as Hk
    by (unfold k; rewrite length_take; unfold zlen in *; lia).
  match goal with |- context [pmksa_cache_from_eapol_data e ?en eapol] => set (en0 := en) end.
  destruct (from_eapol_ok e en0 eapol) as (en & Heq & Hw & Hid & Hp & Hpl & Hx & Ha & Hs);
    [|done|done|].
  { constructor; cbn; [apply rsn_pmkid_len| |done|done].
    unfold zlen. rewrite length_app, Hk, length_drop. cbn [length]. lia. }
  exists en. split_and!; [exact Heq|done|]. constructor; [by rewrite Hid| |done|done|done|done].
  rewrite Hp. cbn. rewrite take_app_length'; [done|]. by rewrite Hk.
Qed.
End crypto.

Section add.
Context {cr : Crypto} {c_laws : CryptoLaws cr}.

Lemma add_eq e now_sec c pmk pmk_len aa spa_ session_timeout eapol akmp_ entry :
  (PMK_LEN <? pmk_len) = false -> malloc_ok e sizeof_rsn_pmksa_cache_entry = true ->
  (k ← copy_pmk (e_pmk entry_zero) pmk pmk_len;
   let entry := entry_zero <| e_pmk := k |> <| e_pmk_len := pmk_len |> in
   pmk ← rd_n pmk 0 pmk_len;
   let entry := entry <| e_pmkid := rsn_pmkid pmk aa spa_ (wpa_key_mgmt_sha256 akmp_) |> in
   let entry := entry <| expiration := now_sec +
     (if 0 <? session_timeout then session_timeout else dot11RSNAConfigPMKLifetime) |> in
   let entry := entry <| akmp := akmp_ |> in
   let entry := entry <| spa := spa_ |> in
   pmksa_cache_from_eapol_data e entry eapol) = Ok entry ->
  pmksa_cache_auth_add e now_sec c pmk pmk_len aa spa_ session_timeout eapol akmp_ =
  (let '(p, c) := store entry c in
   pos ← pmksa_cache_auth_get c (Some spa_) None;
   c ← replace_old c pos;
   c ← make_room c;
   c ← pmksa_cache_link_entry c p;
   mret (Some p, c)).
Proof using.
  intros H1 H2 H3. unfold pmksa_cache_auth_add. rewrite H1, H2. cbn [negb].
  destruct (copy_pmk (e_pmk entry_zero) pmk pmk_len) as [k|]; [|done].
  cbn [mbind res_bind] in H3 |- *. destruct (rd_n pmk 0 pmk_len) as [pm|]; [|done].
  cbn [mbind res_bind] in H3 |- *. by rewrite (bind_eq _ _ _ H3).
Qed.

Lemma repr_ext_view c c' q e : view c' q = view c q -> heap c !! q = Some e ->
  exists e', heap c' !! q = Some e' /\ data e' = data e.
Proof using.
  intros Hv He. rewrite (view_some c q e He) in Hv. by apply view_inv in Hv.
Qed.

Lemma new_entry_data now_sec pmk pmk_len aa spa_ st ak e e' : data e' = data e ->
  new_entry now_sec pmk pmk_len aa spa_ st ak e -> new_entry now_sec pmk pmk_len aa spa_ st ak e'.
Proof using.
  intros Hd []. constructor.
  - change (e_pmkid e') with (e_pmkid (data e')). by rewrite Hd.
  - change (e_pmk e') with (e_pmk (data e')). by rewrite Hd.
  - change (e_pmk_len e') with (e_pmk_len (data e')). by rewrite Hd.
  - change (expiration e') with (expiration (data e')). by rewrite Hd.
  - change (akmp e') with (akmp (data e')). by rewrite Hd.
  - change (spa e') with (spa (data e')). by rewrite Hd.
Qed.

Lemma add_ok e now_sec c pmk pmk_len aa spa_ session_timeout eapol akmp_ :
  cache_inv c -> 0 <= pmk_len <= 32 -> pmk_len <= zlen pmk -> opt wf_eapol eapol ->
  malloc_ok e sizeof_rsn_pmksa_cache_entry = true ->
  exists p c' en,
    pmksa_cache_auth_add e now_sec c pmk pmk_len aa spa_ session_timeout eapol akmp_ =
      Ok (Some p, c') /\
    cache_inv c' /\ heap c !! p = None /\ heap c' !! p = Some en /\
    new_entry now_sec pmk pmk_len aa spa_ session_timeout akmp_ en /\
    expire_timeout c' = expire_timeout c /\
    (forall q eq, heap c !! q = Some eq -> view c' q = view c q \/
       (spa eq = spa_ \/ pmksa_cache_max_entries <= pmksa_count c /\
         forall q' eq', heap c !! q' = Some eq' -> spa eq' = spa_ \/
           expiration eq <= expiration eq')) /\
    (forall q d, view c' q = Some d -> q = p \/ view c q = Some d /\ spa d <> spa_).
Proof using c_laws.
  intros (l & Hr & Hmax & Huniq) H1 H2 Hd Hm.
  destruct (make_entry_ok e now_sec pmk pmk_len aa spa_ session_timeout eapol akmp_ H1 H2 Hd)
    as (en & Hen & Hw & Hnew).
  rewrite (add_eq e now_sec c pmk pmk_len aa spa_ session_timeout eapol akmp_ en);
    [|unfold PMK_LEN; lia|done|exact Hen].
  pose proof (store_repr c [] l en Hr Hw) as Hst. destruct (store en c) as [p c0] eqn:Hstore.
  destruct Hst as (Hp & Hr0 & Hp0 & Hv0 & _ & Ht0).
  assert (pmksa_count c0 = pmksa_count c) as Hcount by (by injection Hstore as <- <-).
  destruct (get_ok c0 [p] l (Some spa_) None Hr0) as (pos & Hget & Hpos); [done|].
  rewrite (bind_eq _ _ _ Hget).
  destruct (replace_old_ok c0 [p] l pos Hr0) as (c1 & l1 & Heq1 & Hrm1 & Hlen1).
  { intros q ->. by destruct Hpos as (? & _ & ? & _). }
  rewrite (bind_eq _ _ _ Heq1).
  destruct (make_room_ok c1 [p] l1 (rm_repr _ _ _ _ _ _ Hrm1))
    as (c2 & l2 & gone & Heq2 & Hrm2 & Hroom & Hgone).
  rewrite (bind_eq _ _ _ Heq2).
  destruct (link_entry_ok c2 [] p l2 (rm_repr _ _ _ _ _ _ Hrm2))
    as (c3 & la & lb & Heq3 & -> & Hr3 & Hv3 & _ & _ & _ & _ & Ht3).
  rewrite (bind_eq _ _ _ Heq3).
  assert (view c3 p = Some (data en)) as Hvp.
  { rewrite Hv3, (rm_view _ _ _ _ _ _ Hrm2), (rm_view _ _ _ _ _ _ Hrm1) by (left; left).
    by apply view_some. }
  assert (forall q, q ∈ la ++ lb -> view c3 q = view c q) as Hold.
  { intros q Hq. pose proof Hq as Hq1. apply (rm_in _ _ _ _ _ _ Hrm2) in Hq1 as [Hq1 _].
    rewrite Hv3, (rm_view _ _ _ _ _ _ Hrm2), (rm_view _ _ _ _ _ _ Hrm1) by (by right).
    apply Hv0. intros ->. apply (rm_in _ _ _ _ _ _ Hrm1) in Hq1 as [Hq1 _]. by apply Hp. }
  assert (forall q eq, q ∈ la ++ lb -> heap c !! q = Some eq -> spa eq <> spa_) as Hspa.
  { intros q eq Hq Heq Hs. apply (rm_in _ _ _ _ _ _ Hrm2) in Hq as [Hq _].
    apply (rm_in _ _ _ _ _ _ Hrm1) in Hq as [Hq Hnp].
    assert (heap c0 !! q = Some eq) as Heq0.
    { assert (q <> p) as Hqp by (intros ->; by apply Hp).
      injection Hstore as <- <-. cbn. by rewrite lookup_insert_ne. }
    destruct pos as [p'|].
    - destruct Hpos as (e' & He' & Hp' & Hmatch). apply Hnp. f_equal.
      assert (p' <> p) as Hqp by (intros ->; by apply Hp).
      assert (heap c !! p' = Some e') as He'c.
      { injection Hstore as <- <-. cbn in He'. by rewrite lookup_insert_ne in He'. }
      apply (Huniq p' q e' eq He'c Heq). unfold matches, opt_match in Hmatch.
      rewrite andb_true_r in Hmatch. apply bool_decide_eq_true in Hmatch. congruence.
    - specialize (Hpos q eq Hq Heq0). unfold matches, opt_match in Hpos.
      rewrite andb_true_r in Hpos. by apply bool_decide_eq_false in Hpos. }
  destruct (view_inv _ _ _ Hvp) as (en' & Hen' & Hden).
  assert (forall q eq, heap c3 !! q = Some eq -> q = p \/
    q ∈ la ++ lb /\ exists eq0, heap c !! q = Some eq0 /\ data eq = data eq0) as Hinv3.
  { intros q eq Heq. assert (q ∈ [] ++ la ++ p :: lb) as Hq by (apply (r_dom _ _ _ Hr3); eauto).
    cbn [app] in Hq. rewrite elem_of_app, elem_of_cons in Hq.
    destruct (decide (q = p)) as [? | Hqp]; [by left|]. right.
    assert (q ∈ la ++ lb) as Hq' by (rewrite elem_of_app; tauto). split; [done|].
    pose proof (Hold q Hq') as Hv. rewrite (view_some _ _ _ Heq) in Hv.
    symmetry in Hv. apply view_inv in Hv as (eq0 & ? & ?). eauto. }
  exists p, c3, en'. split_and!.
  - done.
  - exists (la ++ p :: lb). split_and!; [done| |].
    + assert (zlen l1 <= pmksa_cache_max_entries) as Hl1
        by (pose proof (rm_len _ _ _ _ _ _ Hrm1); lia).
      specialize (Hroom Hl1). rewrite zlen_app, zlen_cons in *. lia.
    + intros q q' eq eq' Heq Heq' Hs.
      destruct (Hinv3 q eq Heq) as [-> | (Hq & eq0 & Heq0 & Hd0)],
        (Hinv3 q' eq' Heq') as [-> | (Hq' & eq0' & Heq0' & Hd0')].
      * done.
      * exfalso. apply (Hspa q' eq0' Hq' Heq0'). rewrite <- (data_spa _ _ Hd0'), <- Hs.
        assert (eq = en') as -> by congruence. rewrite (data_spa _ _ Hden). apply Hnew.
      * exfalso. apply (Hspa q eq0 Hq Heq0). rewrite <- (data_spa _ _ Hd0), Hs.
        assert (eq' = en') as -> by congruence. rewrite (data_spa _ _ Hden). apply Hnew.
      * apply (Huniq q q' eq0 eq0' Heq0 Heq0').
        by rewrite <- (data_spa _ _ Hd0), <- (data_spa _ _ Hd0').
  - destruct (heap c !! p) as [e0|] eqn:Hc; [|done]. exfalso. apply Hp.
    apply (r_dom _ _ _ Hr). eauto.
  - done.
  - by apply (new_entry_data _ _ _ _ _ _ _ en).
  - by rewrite Ht3, (rm_timer _ _ _ _ _ _ Hrm2), (rm_timer _ _ _ _ _ _ Hrm1).
  - intros q eq Heq. destruct (decide (q ∈ la ++ lb)) as [Hq | Hq]; [left; by apply Hold|].
    right. assert (forall r er, heap c !! r = Some er -> r ∈ l1 \/ spa er = spa_) as Hor.
    { intros r er Her. assert (r ∈ l) as Hrl by (apply (r_dom _ _ _ Hr); eauto).
      destruct (decide (pos = Some r)) as [-> | Hnp].
      - right. destruct Hpos as (e' & He' & _ & Hmatch). unfold matches, opt_match in Hmatch.
        rewrite andb_true_r in Hmatch. apply bool_decide_eq_true in Hmatch.
        assert (r <> p) as Hrp by (intros ->; by apply Hp).
        injection Hstore as <- <-. cbn in He'. rewrite lookup_insert_ne in He' by done. congruence.
      - left. by apply (rm_in _ _ _ _ _ _ Hrm1). }
    destruct (Hor q eq Heq) as [Hq1 | ?]; [|by left]. right.
    assert (gone q) as Hg.
    { destruct (rm_dec _ _ _ _ _ _ Hrm2 q) as [? | Hng]; [done|].
      exfalso. apply Hq. by apply (rm_in _ _ _ _ _ _ Hrm2). }
    destruct (Hgone q Hg) as [Hfull Hmin]. pose proof (rm_len _ _ _ _ _ _ Hrm1) as Hl1.
    rewrite (r_count _ _ _ Hr). split; [lia|].
    intros r er Her. destruct (Hor r er Her) as [Hr1 | ?]; [right|by left].
    specialize (Hmin r Hr1). assert (forall s es, s ∈ l1 -> heap c !! s = Some es ->
      exp_of c1 s = expiration es) as Hexp.
    { intros s es Hs Hes. unfold exp_of. rewrite (rm_view _ _ _ _ _ _ Hrm1) by (by right).
      assert (s <> p) as Hsp by (intros ->; apply Hp; by apply (rm_in _ _ _ _ _ _ Hrm1) in Hs as [Hs _]).
      rewrite Hv0 by done. by rewrite (view_some _ _ _ Hes). }
    by rewrite (Hexp q eq), (Hexp r er) in Hmin.
  - intros q d Hvd. destruct (view_inv _ _ _ Hvd) as (eq & Heq & Hd0).
    destruct (Hinv3 q eq Heq) as [? | (Hq & eq0 & Heq0 & Hd1)]; [by left|right].
    rewrite <- (Hold q Hq). split; [done|]. rewrite <- Hd0.
    change (spa (data eq)) with (spa eq). rewrite (data_spa _ _ Hd1). by apply (Hspa q eq0).
Qed.
End add.

(** ** Expiry *)

(** Taking the head off the list before freeing it makes no difference. *)
Lemma free_head_eq c x p l e : repr c x (p :: l) -> heap c !! p = Some e ->
  pmksa_cache_free_entry (c <| pmksa := next e |>) p = pmksa_cache_free_entry c p.
Proof.
  intros Hr He. destruct (pmksa_cache_free_entry_eq c x [] p l e Hr He)
    as (b & lh1 & lh2 & Hb & Hs & Hnd & Hin & ->).
  destruct (unlink_hash c x (p :: l) p e Hr ltac:(left) He)
    as (b' & lh1' & lh2' & Hb' & Hs' & _ & _ & Hw).
  assert (b' = b) as -> by congruence.
  assert (last lh1' = last lh1) as Hlast.
  { rewrite (walk_split hnext (walk_fuel c) (same_loc p) c None b lh1 (p :: lh2) Hs) in Hw.
    - destruct (last lh1); congruence.
    - pose proof (bucket_fuel _ _ _ _ Hr Hnd (fun q Hq => proj1 (proj1 (Hin q) Hq))) as Hf.
      rewrite length_app in Hf. lia.
    - intros q e' Hq _. apply bool_decide_eq_false. intros ->.
      apply NoDup_app in Hnd as (_ & Hd & _). apply (Hd _ Hq). by left.
    - intros q e' [= ->] _. by apply bool_decide_eq_true. }
  rewrite Hlast in Hw.
  pose proof (r_next _ _ _ Hr) as (Hpm & e0 & He0 & Hl). assert (e0 = e) as -> by congruence.
  pose proof (r_nodup _ _ _ Hr) as Hn. apply NoDup_app in Hn as (_ & _ & Hn).
  apply NoDup_cons in Hn as [Hni Hn].
  pose proof (r_wf _ _ _ Hr p e He) as Hwf.
  unfold pmksa_cache_free_entry, deref. cbn [heap put]. cbn. rewrite He. cbn.
  rewrite (PMKID_HASH_eq e Hwf). cbn. unfold bucket. cbn. rewrite Hb. cbn.
  rewrite (walk_same _ c) by done. rewrite Hw. cbn. rewrite He. cbn.
  assert (forall c', pmksa c' = next e ->
    heap c' = relink_heap upd_hnext (last lh1) (hnext e) (heap c) ->
    walk (walk_fuel c') next (same_loc p) c' None (pmksa c') = Ok (last l, None)) as Hc'.
  { intros c' Hpm' Hh.
    rewrite (walk_split next _ _ c' None (pmksa c') l []).
    - by destruct (last l).
    - rewrite Hpm', Hh, app_nil_r. by apply lseg_next_relink.
    - unfold walk_fuel. rewrite Hh, size_relink. pose proof (repr_fuel _ _ _ Hr) as Hf.
      cbn [length] in Hf. unfold walk_fuel in Hf. lia.
    - intros q e' Hq _. apply bool_decide_eq_false. by intros ->.
    - done. }
  unfold unlinked. cbn [last relink relink_heap].
  destruct (last lh1) as [hq|]; cbn [relink_heap] in *.
  - rewrite (bind_eq _ _ (last l, None)); [done|]. by apply Hc'.
  - rewrite (bind_eq _ _ (last l, None)); [done|]. by apply Hc'.
Qed.

Lemma expire_loop_ok fuel now_sec c l : repr c [] l -> (length l < fuel)%nat ->
  exists c' l1 l2, expire_loop fuel now_sec c = Ok c' /\ l = l1 ++ l2 /\ repr c' [] l2 /\
    (forall q, q ∈ l2 -> view c' q = view c q) /\
    (forall q, q ∈ l1 -> exp_of c q <= now_sec) /\
    (forall q, q ∈ l2 -> now_sec < exp_of c q) /\
    freed c' = rev l1 ++ freed c /\ expire_timeout c' = expire_timeout c.
Proof.
  revert c l. induction fuel as [|fuel IH]; intros c l Hr Hf; [lia|]. cbn [expire_loop].
  pose proof (r_next _ _ _ Hr) as Hn. destruct l as [|p l].
  - cbn in Hn. rewrite Hn. exists c, [], [].
    split_and!; try done; by intros ? ?%not_elem_of_nil.
  - destruct Hn as (-> & e & He & Hl). unfold deref at 1. rewrite He. cbn [mbind res_bind].
    destruct (Z.leb_spec (expiration e) now_sec).
    + rewrite (free_head_eq c [] p l e Hr He).
      destruct (free_entry_ok c [] [] p l Hr) as (c1 & Heq & Hr1 & Hv1 & Hfr & _ & Ht1).
      rewrite (bind_eq _ _ _ Heq). cbn [length] in Hf.
      destruct (IH c1 l Hr1 ltac:(lia)) as (c' & l1 & l2 & Heq' & -> & Hr' & Hv & Ha & Hb & Hfr' & Ht).
      pose proof (r_nodup _ _ _ Hr) as Hnd. cbn in Hnd. apply NoDup_cons in Hnd as [Hni _].
      assert (forall q, q ∈ l1 ++ l2 -> view c1 q = view c q /\ exp_of c1 q = exp_of c q) as Hsame.
      { intros q Hq. assert (q <> p) as Hqp by (by intros ->). unfold exp_of.
        by rewrite (Hv1 q Hqp). }
      exists c', (p :: l1), l2. split_and!; [done|done|done| | | | |congruence].
      * intros q Hq. rewrite (Hv q Hq). apply Hsame, elem_of_app. by right.
      * intros q [-> | Hq]%elem_of_cons; [by rewrite (exp_of_lookup c p e He)|].
        rewrite <- (proj2 (Hsame q ltac:(apply elem_of_app; by left))). by apply Ha.
      * intros q Hq. rewrite <- (proj2 (Hsame q ltac:(apply elem_of_app; by right))). by apply Hb.
      * cbn [rev]. rewrite Hfr', Hfr, <- app_assoc. done.
    + exists c, [], (p :: l). split_and!; try done; [by intros ? ?%not_elem_of_nil|].
      pose proof (r_sorted _ _ _ Hr) as Hs. apply StronglySorted_inv in Hs as [_ Hs].
      rewrite Forall_forall in Hs. intros q [-> | Hq]%elem_of_cons.
      * by rewrite (exp_of_lookup c p e He).
      * specialize (Hs q Hq). rewrite (exp_of_lookup c p e He) in Hs. lia.
Qed.

Lemma set_expiration_ok now_sec c l : repr c [] l ->
  exists t, pmksa_cache_set_expiration now_sec c = Ok (c <| expire_timeout := t |>) /\
    match l with
    | [] => t = None
    | p :: _ => t = Some (Z.max 0 (exp_of c p - now_sec) + 1)
    end.
Proof.
  intros Hr. unfold pmksa_cache_set_expiration. cbn. pose proof (r_next _ _ _ Hr) as Hn.
  destruct l as [|p l].
  - cbn in Hn. rewrite Hn. eauto.
  - destruct Hn as (-> & e & He & _). unfold deref. cbn. rewrite He. cbn.
    eexists. split; [done|]. rewrite (exp_of_lookup c p e He). repeat f_equal.
    destruct (Z.ltb_spec (expiration e - now_sec) 0); lia.
Qed.

Lemma repr_timer c x l t : repr c x l -> repr (c <| expire_timeout := t |>) x l.
Proof. intros []. by constructor. Qed.

Lemma deinit_loop_ok fuel hd c l : lseg next (heap c) hd l None -> NoDup l ->
  (length l < fuel)%nat ->
  exists c', deinit_loop fuel hd c = Ok c' /\
    forall q, heap c' !! q = if decide (q ∈ l) then None else heap c !! q.
Proof.
  revert hd c l. induction fuel as [|fuel IH]; intros hd c l Hl Hnd Hf; [lia|].
  cbn [deinit_loop]. destruct l as [|p l].
  - cbn in Hl. subst. exists c. split; [done|]. intros q.
    by rewrite decide_False by apply not_elem_of_nil.
  - destruct Hl as (-> & e & He & Hl). apply NoDup_cons in Hnd as [Hni Hnd]. cbn [length] in Hf.
    unfold deref. rewrite He. cbn [mbind res_bind].
    destruct (IH (next e) (pmksa_free p c) l) as (c' & Heq & Hc'); [|done|lia|].
    { cbn. by apply lseg_delete. }
    exists c'. split; [done|]. intros q. rewrite Hc'. cbn.
    destruct (decide (q = p)) as [-> | Hq].
    + rewrite lookup_delete_eq, (decide_True (P := p ∈ p :: l)) by left. by destruct (decide _).
    + rewrite lookup_delete_ne by done. assert (q ∈ p :: l <-> q ∈ l) as Hiff.
      { rewrite elem_of_cons. split; [by intros [?|?]|by right]. }
      by rewrite (decide_ext _ _ _ _ Hiff).
Qed.

(** *** The operations from [pmksa_cache_auth_init] on *)

Section reach.
Context {cr : Crypto} {c_laws : CryptoLaws cr}.

Lemma add_repr e now_sec c l pmk pmk_len aa spa_ session_timeout eapol akmp_ :
  repr c [] l -> 0 <= pmk_len -> pmk_len <= zlen pmk -> opt wf_eapol eapol ->
  exists r c' l',
    pmksa_cache_auth_add e now_sec c pmk pmk_len aa spa_ session_timeout eapol akmp_ =
      Ok (r, c') /\
    repr c' [] l' /\ expire_timeout c' = expire_timeout c.
Proof using c_laws.
  intros Hr H0 H2 Hd.
  destruct (PMK_LEN <? pmk_len) eqn:H1.
  { unfold pmksa_cache_auth_add. rewrite H1. by exists None, c, l. }
  destruct (malloc_ok e sizeof_rsn_pmksa_cache_entry) eqn:Hm.
  2: { unfold pmksa_cache_auth_add. rewrite H1, Hm. by exists None, c, l. }
  assert (0 <= pmk_len <= 32) as H1' by (unfold PMK_LEN in H1; lia).
  destruct (make_entry_ok e now_sec pmk pmk_len aa spa_ session_timeout eapol akmp_ H1' H2 Hd)
    as (en & Hen & Hw & _).
  rewrite (add_eq e now_sec c pmk pmk_len aa spa_ session_timeout eapol akmp_ en H1 Hm Hen).
  pose proof (store_repr c [] l en Hr Hw) as Hst. destruct (store en c) as [p c0].
  destruct Hst as (_ & Hr0 & _ & _ & _ & Ht0).
  destruct (get_ok c0 [p] l (Some spa_) None Hr0) as (pos & Hget & Hpos); [done|].
  rewrite (bind_eq _ _ _ Hget).
  destruct (replace_old_ok c0 [p] l pos Hr0) as (c1 & l1 & Heq1 & Hrm1 & _).
  { intros q ->. by destruct Hpos as (? & _ & ? & _). }
  rewrite (bind_eq _ _ _ Heq1).
  destruct (make_room_ok c1 [p] l1 (rm_repr _ _ _ _ _ _ Hrm1))
    as (c2 & l2 & gone & Heq2 & Hrm2 & _).
  rewrite (bind_eq _ _ _ Heq2).
  destruct (link_entry_ok c2 [] p l2 (rm_repr _ _ _ _ _ _ Hrm2))
    as (c3 & la & lb & Heq3 & -> & Hr3 & _ & _ & _ & _ & _ & Ht3).
  rewrite (bind_eq _ _ _ Heq3). exists (Some p), c3, (la ++ p :: lb). split_and!; [done|done|].
  by rewrite Ht3, (rm_timer _ _ _ _ _ _ Hrm2), (rm_timer _ _ _ _ _ _ Hrm1).
Qed.

Lemma okc_entry_ok e old pmkid_ : wf_entry old -> zlen pmkid_ = 16 ->
  exists entry, wf_entry entry /\ forall c,
    pmksa_cache_add_okc e c old pmkid_ =
    if malloc_ok e sizeof_rsn_pmksa_cache_entry then
      let '(p, c) := store entry c in c ← pmksa_cache_link_entry c p; mret (Some p, c)
    else mret (None, c).
Proof using.
  intros [Hw1 Hw2 Hw3 Hw4] Hp. unfold pmksa_cache_add_okc.
  pose proof (copy_pmk_ok (e_pmk old) (e_pmk_len old) Hw3 ltac:(lia)) as Hcopy.
  set (k := take _ (e_pmk old) ++ _) in Hcopy.
  assert (zlen k = 32) as Hk.
  { unfold k, zlen. rewrite length_app, length_take, length_drop, length_replicate.
    unfold zlen in *. lia. }
  destruct (e_identity old) as [i|] eqn:Hi.
  - specialize (Hw4 i eq_refl).
    assert (exists i' n, (forall j, i' = Some j -> zlen j = n) /\
      copy_identity e i (e_identity_len old) 0 = Ok (i', n)) as (i' & n & Hi' & Hcp).
    { unfold copy_identity. destruct (malloc_ok e (e_identity_len old)).
      - exists (Some i), (e_identity_len old). split; [by intros ? [= <-]|].
        by rewrite <- Hw4, rd_n_all.
      - by exists None, 0. }
    eexists. split; [|intros c; destruct (malloc_ok e _); [|done];
      change (e_pmk (entry_zero <| e_pmkid := pmkid_ |>)) with (replicate 32 0);
      cbn [negb]; rewrite (bind_eq _ _ _ Hcopy); cbn zeta;
      rewrite (bind_eq (copy_identity e i _ _) _ (i', n)) by exact Hcp;
      cbn [mbind res_bind]; reflexivity].
    constructor; cbn; [done|done|done|done].
  - eexists. split; [|intros c; destruct (malloc_ok e _); [|done];
      change (e_pmk (entry_zero <| e_pmkid := pmkid_ |>)) with (replicate 32 0);
      cbn [negb]; rewrite (bind_eq _ _ _ Hcopy); cbn zeta; cbn [mbind res_bind]; reflexivity].
    constructor; cbn; [done|done|done|done].
Qed.

Lemma add_okc_repr e c l old pmkid_ : repr c [] l -> wf_entry old -> zlen pmkid_ = 16 ->
  exists r c' l', pmksa_cache_add_okc e c old pmkid_ = Ok (r, c') /\ repr c' [] l' /\
    expire_timeout c' = expire_timeout c.
Proof using.
  intros Hr Hw Hp. destruct (okc_entry_ok e old pmkid_ Hw Hp) as (en & Hwen & Heq).
  rewrite Heq. destruct (malloc_ok e _); [|by exists None, c, l].
  pose proof (store_repr c [] l en Hr Hwen) as Hst. destruct (store en c) as [p c0].
  destruct Hst as (_ & Hr0 & _ & _ & _ & Ht0).
  destruct (link_entry_ok c0 [] p l Hr0) as (c3 & la & lb & Heq3 & -> & Hr3 & _ & _ & _ & _ & _ & Ht3).
  rewrite (bind_eq _ _ _ Heq3). exists (Some p), c3, (la ++ p :: lb).
  split_and!; [done|done|congruence].
Qed.

(** What the callers of the cache do with it. *)
Inductive reach : rsn_pmksa_cache -> Prop :=
  | reach_init e c : pmksa_cache_auth_init e = Some c -> reach c
  | reach_add e now_sec c pmk pmk_len aa spa_ session_timeout eapol akmp_ r c' :
      reach c -> 0 <= pmk_len <= zlen pmk -> opt wf_eapol eapol ->
      pmksa_cache_auth_add e now_sec c pmk pmk_len aa spa_ session_timeout eapol akmp_ =
        Ok (r, c') -> reach c'
  | reach_okc e c p old pmkid_ r c' :
      reach c -> heap c !! p = Some old -> zlen pmkid_ = 16 ->
      pmksa_cache_add_okc e c old pmkid_ = Ok (r, c') -> reach c'.

Lemma init_ok e c : pmksa_cache_auth_init e = Some c -> cache_inv c /\ repr c [] [] /\
  expire_timeout c = None /\ heap c = ∅.
Proof using.
  unfold pmksa_cache_auth_init. destruct (malloc_ok e _); [|done]. intros [= <-].
  assert (repr {| pmkid_tab := replicate PMKID_HASH_SIZE None; pmksa := None; pmksa_count := 0;
            heap := ∅; next_loc := 0; freed := []; expire_timeout := None |} [] []) as Hr.
  { constructor; cbn [heap pmksa pmksa_count pmkid_tab app]; try done.
    - apply NoDup_nil_2.
    - intros p. rewrite lookup_empty. split; [by intros []|by intros ?%not_elem_of_nil].
    - intros h Hh. exists None, []. split_and!; [|done|apply NoDup_nil_2|].
      + apply lookup_replicate. split; [done|]. unfold PMKID_HASH_SIZE. lia.
      + intros p. split; [by intros ?%not_elem_of_nil|]. by intros [?%not_elem_of_nil _].
    - intros p. by intros ?%not_elem_of_nil.
    - constructor. }
  split_and!; [|done|done|done]. exists []. by split_and!.
Qed.

Lemma reach_repr c : reach c -> exists l, repr c [] l /\ expire_timeout c = None.
Proof using c_laws.
  induction 1 as [e c Hi|e now_sec c pmk pmk_len aa spa_ st eapol akmp_ r c' _ [l [Hr Ht]] Hl Hd Heq
    |e c p old pmkid_ r c' _ [l [Hr Ht]] Hp Hl Heq].
  - apply init_ok in Hi as (_ & ? & ? & _). eauto.
  - destruct (add_repr e now_sec c l pmk pmk_len aa spa_ st eapol akmp_ Hr ltac:(lia) ltac:(lia) Hd)
      as (r' & c1 & l' & Heq' & Hr' & Ht'). rewrite Heq' in Heq. simplify_eq. exists l'.
    split; [done|congruence].
  - destruct (add_okc_repr e c l old pmkid_ Hr (r_wf _ _ _ Hr p old Hp) Hl)
      as (r' & c1 & l' & Heq' & Hr' & Ht'). rewrite Heq' in Heq. simplify_eq. exists l'.
    split; [done|congruence].
Qed.
End reach.
