(* ===== verification/PmksaSpec.v ===== *)
(** * What the PMKSA cache promises

    The theorems about ap/pmksa_cache_auth.c: what [pmksa_cache_auth_add] does
    to a cache between calls, and what [pmksa_cache_expire] would do to it, were
    its timer ever started; and the loop of [pmksa_cache_get_okc] that does not
    end. *)

From stdpp Require Import gmap sorting.
From S2P Require Import Prelude EapI WpaCommon Pmksa PmksaProps.

Section spec.
Context {cr : Crypto} {c_laws : CryptoLaws cr}.

Lemma get_unique c p en spa_ pmkid_ : cache_inv c -> heap c !! p = Some en ->
  spa en = spa_ -> opt_match pmkid_ (e_pmkid en) = true ->
  (forall k, pmkid_ = Some k -> 0 < zlen k) ->
  pmksa_cache_auth_get c (Some spa_) pmkid_ = Ok (Some p).
Proof using.
  intros (l & Hr & _ & Hu) Hp Hs Hm Hk. destruct (get_ok c [] l (Some spa_) pmkid_ Hr Hk) as (r & -> & H).
  f_equal. destruct r as [q|].
  - destruct H as (e & He & _ & Hq). f_equal. apply (Hu q p e en He Hp).
    unfold matches in Hq. apply andb_true_iff in Hq as [Hq _].
    apply bool_decide_eq_true in Hq. congruence.
  - exfalso. assert (p ∈ l) as Hpl by (apply (r_dom _ _ _ Hr); eauto).
    specialize (H p en Hpl Hp). unfold matches in H. rewrite Hm, andb_true_r in H.
    by apply bool_decide_eq_false in H.
Qed.


(** (pmksa_cache_expire): it removes exactly the entries whose time has come,
    keeps the cache consistent, and starts the timer again for the entry that
    expires next, one second after that; with no entry left there is no timer. *)
Theorem pmksa_cache_expire_spec now_sec c : cache_inv c ->
  exists c', pmksa_cache_expire now_sec c = Ok c' /\ cache_inv c' /\
    (forall q d, view c' q = Some d <-> view c q = Some d /\ now_sec < expiration d) /\
    match expire_timeout c' with
    | None => heap c' = ∅
    | Some t => exists q d, view c' q = Some d /\ t = expiration d - now_sec + 1 /\
        forall q' d', view c' q' = Some d' -> expiration d <= expiration d'
    end.
Proof using.
  intros (l & Hr & Hmax & Hu). unfold pmksa_cache_expire.
  pose proof (repr_timer c [] l None Hr) as Hr0.
  destruct (expire_loop_ok (walk_fuel c) now_sec _ l Hr0 (repr_fuel _ _ _ Hr))
    as (c1 & l1 & l2 & Heq & -> & Hr1 & Hv & Hexp & Hkeep & _ & _).
  change (walk_fuel (c <| expire_timeout := None |>)) with (walk_fuel c).
  rewrite (bind_eq _ _ _ Heq).
  destruct (set_expiration_ok now_sec c1 l2 Hr1) as (t & -> & Ht).
  set (c2 := c1 <| expire_timeout := t |>). pose proof (repr_timer c1 [] l2 t Hr1) as Hr2.
  assert (forall q d, view c2 q = Some d <-> view c q = Some d /\ now_sec < expiration d) as Hiff.
  { intros q d. change (view c2 q) with (view c1 q). split.
    - intros Hd. pose proof (view_inv _ _ _ Hd) as (e & He & _).
      assert (q ∈ l2) as Hq by (apply (r_dom _ _ _ Hr1); eauto).
      rewrite (Hv q Hq) in Hd. specialize (Hkeep q Hq). unfold exp_of in Hkeep.
      change (view (c <| expire_timeout := None |>) q) with (view c q) in *.
      rewrite Hd in Hkeep. done.
    - intros [Hd Hx]. pose proof (view_inv _ _ _ Hd) as (e & He & _).
      assert (q ∈ l1 ++ l2) as Hq by (apply (r_dom _ _ _ Hr); eauto).
      apply elem_of_app in Hq as [Hq | Hq]; [|by rewrite (Hv q Hq)].
      specialize (Hexp q Hq). unfold exp_of in Hexp.
      change (view (c <| expire_timeout := None |>) q) with (view c q) in *.
      rewrite Hd in Hexp. lia. }
  exists c2. split_and!; [done| |exact Hiff|].
  - exists l2. split_and!; [done|revert Hmax; rewrite zlen_app; pose proof (zlen_nonneg l1); lia|].
    intros p q e e' He He' Hs.
    assert (forall r f, heap c2 !! r = Some f -> exists f0, heap c !! r = Some f0 /\ spa f0 = spa f)
      as Hback.
    { intros r f Hf. destruct (proj1 (Hiff r (data f)) (view_some c2 r f Hf)) as [Hd _].
      apply view_inv in Hd as (f0 & Hf0 & Hd). exists f0. split; [done|].
      by apply data_spa. }
    destruct (Hback p e He) as (f & Hf & Hsf), (Hback q e' He') as (f' & Hf' & Hsf').
    apply (Hu p q f f' Hf Hf'). congruence.
  - cbn [expire_timeout put]. change (expire_timeout c2) with t. destruct l2 as [|p l2].
    + subst t. apply map_empty. intros q. destruct (heap c2 !! q) as [e|] eqn:He; [|done].
      assert (q ∈ []) as Hq by (apply (r_dom _ _ _ Hr1); eauto). by apply not_elem_of_nil in Hq.
    + subst t. destruct (proj2 (r_dom _ _ _ Hr2 p)) as [e He]; [left|].
      change (heap c2 !! p = Some e) in He.
      exists p, (data e). split_and!; [by apply view_some| |].
      * rewrite (exp_of_lookup c1 p e He). change (expiration (data e)) with (expiration e).
        pose proof (proj1 (Hiff p (data e)) (view_some c2 p e He)) as [_ Hx].
        change (expiration (data e)) with (expiration e) in Hx. lia.
      * intros q' d' Hd'. pose proof (view_inv _ _ _ Hd') as (e' & He' & <-).
        change (heap c2 !! q' = Some e') in He'.
        assert (q' ∈ p :: l2) as Hq' by (apply (r_dom _ _ _ Hr2); eauto).
        pose proof (r_sorted _ _ _ Hr2) as Hs. apply StronglySorted_inv in Hs as [_ Hs].
        rewrite Forall_forall in Hs. change (expiration e <= expiration e').
        apply elem_of_cons in Hq' as [-> | Hq']; [assert (e' = e) as -> by congruence; lia|].
        specialize (Hs q' Hq'). change (exp_of c2 p <= exp_of c2 q') in Hs.
        by rewrite (exp_of_lookup c2 p e He), (exp_of_lookup c2 q' e' He') in Hs.
Qed.

(** (pmksa_cache_set_expiration): only [pmksa_cache_expire] starts the timer
    that calls [pmksa_cache_expire].  However a cache is filled from
    [pmksa_cache_auth_init] on, the timer is never registered, and a lookup of
    the station still returns an entry, however long ago its time came. *)
Theorem pmksa_cache_never_expires now_sec c p en :
  reach c -> heap c !! p = Some en -> expiration en <= now_sec ->
  expire_timeout c = None /\
  exists q, pmksa_cache_auth_get c (Some (spa en)) None = Ok (Some q).
Proof using c_laws.
  intros Hc Hp _. destruct (reach_repr c Hc) as (l & Hr & Ht). split; [done|].
  destruct (get_ok c [] l (Some (spa en)) None Hr) as (r & -> & H); [done|].
  destruct r as [q|]; [by exists q|]. exfalso.
  assert (p ∈ l) as Hpl by (apply (r_dom _ _ _ Hr); eauto).
  specialize (H p en Hpl Hp). unfold matches in H. rewrite andb_true_r in H.
  by apply bool_decide_eq_false in H.
Qed.

(** (pmksa_cache_get_okc): when the entry that expires first is another
    station's, the search never ends: no number of iterations is enough, since
    the [continue] does not advance [entry]. *)
Theorem pmksa_cache_get_okc_diverges c aa spa_ pmkid_ p en fuel :
  pmksa c = Some p -> heap c !! p = Some en -> spa en <> spa_ ->
  pmksa_cache_get_okc fuel c aa spa_ pmkid_ (pmksa c) = Fault OutOfFuel.
Proof using.
  intros -> Hp Hs. induction fuel as [|fuel IH]; [done|]. cbn [pmksa_cache_get_okc].
  unfold deref. rewrite Hp. cbn [mbind res_bind]. by rewrite bool_decide_eq_false_2.
Qed.
End spec.

(** ** Concrete caches *)
Import Toy.
Module Ex.
Definition sta1 : list Z := [2; 0; 0; 0; 0; 1].
Definition sta2 : list Z := [2; 0; 0; 0; 0; 2].
Definition ap : list Z := [2; 0; 0; 0; 0; 0].
Definition pmk : list Z := replicate 32 5.
Definition d1 : eapol_data := {| d_identity := Some [97; 98]; d_identity_len := 2;
  d_radius_class := Some [[1]]; d_eap_type_authsrv := 4; d_vlan_id := 0 |}.
Definition plenty : env := {| malloc_ok := fun _ => true; rand := 6; random_get_bytes := fun _ => None |}.
Definition empty_cache : rsn_pmksa_cache := default
  {| pmkid_tab := []; pmksa := None; pmksa_count := 0; heap := ∅; next_loc := 0; freed := [];
     expire_timeout := None |} (pmksa_cache_auth_init plenty).
Definition add now c sta timeout :=
  pmksa_cache_auth_add plenty now c pmk 32 ap sta timeout (Some d1) WPA_KEY_MGMT_IEEE8021X.
Definition after (m : res (option nat * rsn_pmksa_cache)) : rsn_pmksa_cache :=
  match m with Ok (_, c) => c | _ => empty_cache end.
(** [sta1] for a minute from 0 on, then [sta2] for the default lifetime. *)
Definition cache1 := after (add 0 empty_cache sta1 60).
Definition cache2 := after (add 10 cache1 sta2 0).

Lemma add_inv now c sta timeout : cache_inv c -> zlen sta = 6 ->
  cache_inv (after (add now c sta timeout)).
Proof.
  intros Hc _. destruct (add_ok plenty now c pmk 32 ap sta timeout (Some d1)
    WPA_KEY_MGMT_IEEE8021X Hc) as (p & c' & en & Heq & Hc' & _); [lia|done|by intros ? [= <-]|done|].
  unfold add. by rewrite Heq.
Qed.
Lemma empty_inv : cache_inv empty_cache.
Proof. by apply (init_ok plenty). Qed.
Lemma cache2_inv : cache_inv cache2.
Proof. apply add_inv; [apply add_inv; [apply empty_inv|done]|done]. Qed.
Lemma cache2_reach : reach cache2.
Proof.
  eapply (reach_add plenty 10 cache1 pmk 32 ap sta2 0 (Some d1) WPA_KEY_MGMT_IEEE8021X (Some 1%nat));
    [|done|by intros ? [= <-]|by vm_compute].
  eapply (reach_add plenty 0 empty_cache pmk 32 ap sta1 60 (Some d1) WPA_KEY_MGMT_IEEE8021X (Some 0%nat));
    [|done|by intros ? [= <-]|by vm_compute].
  by apply (reach_init plenty).
Qed.
End Ex.


(** An hour later the entry of [sta1] goes, the other stays. *)
Lemma pmksa_cache_expire_spec_witness : exists c',
  pmksa_cache_expire 3600 Ex.cache2 = Ok c' /\ cache_inv c' /\
  pmksa_count c' = 1 /\ expire_timeout c' = Some (43210 - 3600 + 1).
Proof.
  destruct (pmksa_cache_expire_spec 3600 Ex.cache2 Ex.cache2_inv) as (c' & Heq & Hc & _).
  exists c'. split; [exact Heq|]. split; [exact Hc|].
  vm_compute in Heq. by injection Heq as <-.
Defined.

(** ... but nobody asks for it. *)
Lemma pmksa_cache_never_expires_witness : exists en, heap Ex.cache2 !! 0%nat = Some en /\
  expire_timeout Ex.cache2 = None /\
  exists q, pmksa_cache_auth_get Ex.cache2 (Some (spa en)) None = Ok (Some q).
Proof.
  eexists. split; [by vm_compute|].
  eapply (pmksa_cache_never_expires 3600 Ex.cache2 0%nat); [apply Ex.cache2_reach|by vm_compute|].
  by vm_compute.
Defined.

Lemma pmksa_cache_get_okc_diverges_witness :
  pmksa_cache_get_okc 5000 Ex.cache2 Ex.ap Ex.sta2 (replicate 16 0) (pmksa Ex.cache2) =
  Fault OutOfFuel.
Proof.
  eapply (pmksa_cache_get_okc_diverges Ex.cache2 Ex.ap Ex.sta2 (replicate 16 0) 0%nat);
    [by vm_compute|by vm_compute|]. by vm_compute.
Defined.
