(* ===== verification/WpaAuthI.v ===== *)
(** * ap/wpa_auth.h, ap/wpa_auth_i.h: the data of the WPA authenticator

    One record per structure, each in a module of its own since the structures
    share field names.  The build has [CONFIG_IEEE80211W] and neither
    [CONFIG_IEEE80211R] nor [CONFIG_PEERKEY].  A pointer to a PMKSA cache entry, a
    group or a station's state machine is its address. *)

From stdpp Require Import gmap.
From S2P Require Import Prelude EapI WpaCommon Pmksa.

Definition RSNA_MAX_EAPOL_RETRIES : nat := 4.

(** ** wpa_auth.h *)

Module Conf.
#[projections(primitive)]
Record wpa_auth_config := {
  wpa : Z;
  wpa_key_mgmt : Z;
  wpa_pairwise : Z;
  wpa_group : Z;
  wpa_group_rekey : Z;
  wpa_strict_rekey : Z;
  wpa_gmk_rekey : Z;
  wpa_ptk_rekey : Z;
  rsn_pairwise : Z;
  rsn_preauth : Z;
  eapol_version : Z;
  peerkey : Z;
  wmm_enabled : Z;
  wmm_uapsd : Z;
  okc : Z;
  ieee80211w : Z;
}.
End Conf.

(** [wpa_eapol_variable] *)
Inductive wpa_eapol_variable :=
  | WPA_EAPOL_portEnabled
  | WPA_EAPOL_portValid
  | WPA_EAPOL_authorized
  | WPA_EAPOL_portControl_Auto
  | WPA_EAPOL_keyRun
  | WPA_EAPOL_keyAvailable
  | WPA_EAPOL_keyDone
  | WPA_EAPOL_inc_EapolFramesTx.

(** The return values of [wpa_validate_wpa_ie]. *)
Inductive validate_result :=
  | WPA_IE_OK
  | WPA_INVALID_IE
  | WPA_INVALID_GROUP
  | WPA_INVALID_PAIRWISE
  | WPA_INVALID_AKMP
  | WPA_NOT_ENABLED
  | WPA_ALLOC_FAIL
  | WPA_MGMT_FRAME_PROTECTION_VIOLATION
  | WPA_INVALID_MGMT_GROUP_CIPHER
  | WPA_INVALID_MDIE
  | WPA_INVALID_PROTO.

Inductive wpa_event :=
  | WPA_AUTH
  | WPA_ASSOC
  | WPA_DISASSOC
  | WPA_DEAUTH
  | WPA_REAUTH
  | WPA_REAUTH_EAPOL
  | WPA_ASSOC_FT.

#[global] Instance wpa_eapol_variable_eq : EqDecision wpa_eapol_variable.
Proof. solve_decision. Defined.
#[global] Instance validate_result_eq : EqDecision validate_result.
Proof. solve_decision. Defined.
#[global] Instance wpa_event_eq : EqDecision wpa_event.
Proof. solve_decision. Defined.

(** ** wpa_auth_i.h *)

Inductive ptk_state :=
  | WPA_PTK_INITIALIZE
  | WPA_PTK_DISCONNECT
  | WPA_PTK_DISCONNECTED
  | WPA_PTK_AUTHENTICATION
  | WPA_PTK_AUTHENTICATION2
  | WPA_PTK_INITPMK
  | WPA_PTK_INITPSK
  | WPA_PTK_PTKSTART
  | WPA_PTK_PTKCALCNEGOTIATING
  | WPA_PTK_PTKCALCNEGOTIATING2
  | WPA_PTK_PTKINITNEGOTIATING
  | WPA_PTK_PTKINITDONE.

Inductive ptk_group_state :=
  | WPA_PTK_GROUP_IDLE
  | WPA_PTK_GROUP_REKEYNEGOTIATING
  | WPA_PTK_GROUP_REKEYESTABLISHED
  | WPA_PTK_GROUP_KEYERROR.

Inductive wpa_version :=
  | WPA_VERSION_NO_WPA
  | WPA_VERSION_WPA
  | WPA_VERSION_WPA2.

Inductive group_state :=
  | WPA_GROUP_GTK_INIT
  | WPA_GROUP_SETKEYS
  | WPA_GROUP_SETKEYSDONE.

#[global] Instance ptk_state_eq : EqDecision ptk_state.
Proof. solve_decision. Defined.
#[global] Instance ptk_group_state_eq : EqDecision ptk_group_state.
Proof. solve_decision. Defined.
#[global] Instance wpa_version_eq : EqDecision wpa_version.
Proof. solve_decision. Defined.
#[global] Instance group_state_eq : EqDecision group_state.
Proof. solve_decision. Defined.

(** One element of [key_replay]. *)
#[projections(primitive)]
Record replay := { counter : list Z; valid : bool }.

(** [PTK] is the 64 octets of [struct wpa_ptk]. *)
Module Sm.
#[projections(primitive)]
Record wpa_state_machine := {
  group : nat;
  addr : list Z;
  wpa_ptk_state : ptk_state;
  wpa_ptk_group_state : ptk_group_state;
  Init : bool;
  DeauthenticationRequest : bool;
  AuthenticationRequest : bool;
  ReAuthenticationRequest : bool;
  Disconnect : bool;
  TimeoutCtr : Z;
  GTimeoutCtr : Z;
  TimeoutEvt : bool;
  EAPOLKeyReceived : bool;
  EAPOLKeyPairwise : bool;
  EAPOLKeyRequest : bool;
  MICVerified : bool;
  GUpdateStationKeys : bool;
  ANonce : list Z;
  SNonce : list Z;
  PMK : list Z;
  PTK : list Z;
  PTK_valid : bool;
  pairwise_set : bool;
  keycount : Z;
  Pair : bool;
  key_replay : list replay;
  PInitAKeys : bool;
  PTKRequest : bool;
  has_GTK : bool;
  PtkGroupInit : bool;
  last_rx_eapol_key : option (list Z);
  last_rx_eapol_key_len : Z;
  changed : bool;
  in_step_loop : bool;
  pending_deinit : bool;
  started : bool;
  mgmt_frame_prot : bool;
  req_replay_counter : list Z;
  req_replay_counter_used : bool;
  wpa_ie : option (list Z);
  wpa_ie_len : Z;
  wpa : wpa_version;
  pairwise : Z;
  wpa_key_mgmt : Z;
  pmksa : option nat;
  dot11RSNAStatsTKIPLocalMICFailures : Z;
  dot11RSNAStatsTKIPRemoteMICFailures : Z;
}.
End Sm.

(** [GTK] and [IGTK] hold the two keys. *)
Module Group.
#[projections(primitive)]
Record wpa_group := {
  next : option nat;
  vlan_id : Z;
  GInit : bool;
  GKeyDoneStations : Z;
  GTKReKey : bool;
  GTK_len : Z;
  GN : Z;
  GM : Z;
  GTKAuthenticator : bool;
  Counter : list Z;
  wpa_group_state : group_state;
  GMK : list Z;
  GTK : list (list Z);
  GNonce : list Z;
  changed : bool;
  first_sta_seen : bool;
  reject_4way_hs_for_entropy : bool;
  IGTK : list (list Z);
  GN_igtk : Z;
  GM_igtk : Z;
}.
End Group.

Module Auth.
#[projections(primitive)]
Record wpa_authenticator := {
  group : option nat;
  dot11RSNAStatsTKIPRemoteMICFailures : Z;
  dot11RSNAAuthenticationSuiteSelected : Z;
  dot11RSNAPairwiseCipherSelected : Z;
  dot11RSNAGroupCipherSelected : Z;
  dot11RSNAPMKIDUsed : list Z;
  dot11RSNATKIPCounterMeasuresInvoked : Z;
  dot11RSNA4WayHandshakeFailures : Z;
  conf : Conf.wpa_auth_config;
  wpa_ie : option (list Z);
  wpa_ie_len : Z;
  addr : list Z;
  pmksa : rsn_pmksa_cache;
}.
End Auth.
