(* ===== verification/WpaAuthIe.v ===== *)
(** * ap/wpa_auth_ie.c: WPA/RSN elements and KDEs of the authenticator

    The writers put an element at offset [b] of a buffer, of which [len] octets
    from there on may be used; every write is checked against the buffer.  The
    parsers read a buffer; pointers into it are offsets. *)

From stdpp Require Import gmap.
From S2P Require Import Prelude EapI WpaCommon Pmksa WpaAuthI.

(** ** Writing the elements *)

(** A series of [if (mask & bit) { RSN_SELECTOR_PUT(pos, selector); pos += 4;
    num_suites++; }]: the buffer, [pos] and [num_suites] afterwards. *)
Fixpoint put_suites (suites : list (Z * Z)) (mask : Z) (buf : list Z) (pos num_suites : Z)
    : res (list Z * Z * Z) :=
  match suites with
  | [] => mret (buf, pos, num_suites)
  | (bit, selector) :: suites =>
      if has_bits mask bit then
        buf ← wr_n buf pos (RSN_SELECTOR_PUT selector);
        put_suites suites mask buf (pos + RSN_SELECTOR_LEN) (num_suites + 1)
      else put_suites suites mask buf pos num_suites
  end.

(** The suites and their count in front of them; [None] when there are none. *)
Definition put_suite_list (suites : list (Z * Z)) (mask : Z) (buf : list Z) (pos : Z)
    : res (option Z * list Z) :=
  let count := pos in
  let pos := pos + 2 in
  '(buf, pos, num_suites) ← put_suites suites mask buf pos 0;
  if num_suites =? 0 then mret (None, buf)
  else buf ← wr_n buf count (WPA_PUT_LE16 num_suites); mret (Some pos, buf).

Definition wpa_group_suite (wpa_group : Z) : option Z :=
  if wpa_group =? WPA_CIPHER_CCMP then Some WPA_CIPHER_SUITE_CCMP
  else if wpa_group =? WPA_CIPHER_TKIP then Some WPA_CIPHER_SUITE_TKIP
  else if wpa_group =? WPA_CIPHER_WEP104 then Some WPA_CIPHER_SUITE_WEP104
  else if wpa_group =? WPA_CIPHER_WEP40 then Some WPA_CIPHER_SUITE_WEP40
  else None.
Definition wpa_pairwise_suites : list (Z * Z) :=
  [(WPA_CIPHER_CCMP, WPA_CIPHER_SUITE_CCMP); (WPA_CIPHER_TKIP, WPA_CIPHER_SUITE_TKIP);
   (WPA_CIPHER_NONE, WPA_CIPHER_SUITE_NONE)].
Definition wpa_akm_suites : list (Z * Z) :=
  [(WPA_KEY_MGMT_IEEE8021X, WPA_AUTH_KEY_MGMT_UNSPEC_802_1X);
   (WPA_KEY_MGMT_PSK, WPA_AUTH_KEY_MGMT_PSK_OVER_802_1X)].

Definition wpa_write_wpa_ie (conf : Conf.wpa_auth_config) (buf : list Z) (b : Z)
    : res (Z * list Z) :=
  buf ← wr buf b WLAN_EID_VENDOR_SPECIFIC;
  buf ← wr_n buf (b + 2) (RSN_SELECTOR_PUT WPA_OUI_TYPE);
  buf ← wr_n buf (b + 6) (WPA_PUT_LE16 WPA_VERSION);
  let pos := b + sizeof_wpa_ie_hdr in
  match wpa_group_suite (Conf.wpa_group conf) with
  | None => mret (-1, buf)
  | Some selector =>
      buf ← wr_n buf pos (RSN_SELECTOR_PUT selector);
      let pos := pos + WPA_SELECTOR_LEN in
      '(r, buf) ← put_suite_list wpa_pairwise_suites (Conf.wpa_pairwise conf) buf pos;
      match r with
      | None => mret (-1, buf)
      | Some pos =>
          '(r, buf) ← put_suite_list wpa_akm_suites (Conf.wpa_key_mgmt conf) buf pos;
          match r with
          | None => mret (-1, buf)
          | Some pos => buf ← wr buf (b + 1) (u8 (pos - b - 2)); mret (pos - b, buf)
          end
      end
  end.

Definition rsn_group_suite (wpa_group : Z) : option Z :=
  if wpa_group =? WPA_CIPHER_CCMP then Some RSN_CIPHER_SUITE_CCMP
  else if wpa_group =? WPA_CIPHER_TKIP then Some RSN_CIPHER_SUITE_TKIP
  else if wpa_group =? WPA_CIPHER_WEP104 then Some RSN_CIPHER_SUITE_WEP104
  else if wpa_group =? WPA_CIPHER_WEP40 then Some RSN_CIPHER_SUITE_WEP40
  else None.
Definition rsn_pairwise_suites : list (Z * Z) :=
  [(WPA_CIPHER_CCMP, RSN_CIPHER_SUITE_CCMP); (WPA_CIPHER_TKIP, RSN_CIPHER_SUITE_TKIP);
   (WPA_CIPHER_NONE, RSN_CIPHER_SUITE_NONE)].
Definition rsn_akm_suites : list (Z * Z) :=
  [(WPA_KEY_MGMT_IEEE8021X, RSN_AUTH_KEY_MGMT_UNSPEC_802_1X);
   (WPA_KEY_MGMT_PSK, RSN_AUTH_KEY_MGMT_PSK_OVER_802_1X);
   (WPA_KEY_MGMT_IEEE8021X_SHA256, RSN_AUTH_KEY_MGMT_802_1X_SHA256);
   (WPA_KEY_MGMT_PSK_SHA256, RSN_AUTH_KEY_MGMT_PSK_SHA256)].

Definition rsn_capab (conf : Conf.wpa_auth_config) : Z :=
  let capab := 0 in
  let capab := if negb (Conf.rsn_preauth conf =? 0)
               then Z.lor capab WPA_CAPABILITY_PREAUTH else capab in
  let capab := if negb (Conf.peerkey conf =? 0)
               then Z.lor capab WPA_CAPABILITY_PEERKEY_ENABLED else capab in
  let capab := if negb (Conf.wmm_enabled conf =? 0)
               then Z.lor capab (Z.shiftl RSN_NUM_REPLAY_COUNTERS_16 2) else capab in
  if negb (Conf.ieee80211w conf =? NO_MGMT_FRAME_PROTECTION) then
    let capab := Z.lor capab WPA_CAPABILITY_MFPC in
    if Conf.ieee80211w conf =? MGMT_FRAME_PROTECTION_REQUIRED
    then Z.lor capab WPA_CAPABILITY_MFPR else capab
  else capab.

(** The PMKID list, and what follows it with management frame protection. *)
Definition rsn_put_pmkid (pmkid : option (list Z)) (buf : list Z) (b len pos : Z)
    : res (option Z * list Z) :=
  match pmkid with
  | Some pmkid =>
      if b + len <? pos + 2 + PMKID_LEN then mret (None, buf)
      else
        buf ← wr_n buf pos (WPA_PUT_LE16 1);
        let pos := pos + 2 in
        d ← rd_n pmkid 0 PMKID_LEN;
        buf ← wr_n buf pos d;
        mret (Some (pos + PMKID_LEN), buf)
  | None => mret (Some pos, buf)
  end.
Definition rsn_put_mgmt (conf : Conf.wpa_auth_config) (pmkid : option (list Z))
    (buf : list Z) (b len pos : Z) : res (option Z * list Z) :=
  if negb (Conf.ieee80211w conf =? NO_MGMT_FRAME_PROTECTION) then
    if b + len <? pos + 2 + 4 then mret (None, buf)
    else
      '(buf, pos) ← match pmkid with
                    | None => buf ← wr_n buf pos (WPA_PUT_LE16 0); mret (buf, pos + 2)
                    | Some _ => mret (buf, pos)
                    end;
      buf ← wr_n buf pos (RSN_SELECTOR_PUT RSN_CIPHER_SUITE_AES_128_CMAC);
      mret (Some (pos + RSN_SELECTOR_LEN), buf)
  else mret (Some pos, buf).

Definition wpa_write_rsn_ie (conf : Conf.wpa_auth_config) (buf : list Z) (b len : Z)
    (pmkid : option (list Z)) : res (Z * list Z) :=
  buf ← wr buf b WLAN_EID_RSN;
  buf ← wr_n buf (b + 2) (WPA_PUT_LE16 RSN_VERSION);
  let pos := b + sizeof_rsn_ie_hdr in
  match rsn_group_suite (Conf.wpa_group conf) with
  | None => mret (-1, buf)
  | Some selector =>
      buf ← wr_n buf pos (RSN_SELECTOR_PUT selector);
      let pos := pos + RSN_SELECTOR_LEN in
      '(r, buf) ← put_suite_list rsn_pairwise_suites (Conf.rsn_pairwise conf) buf pos;
      match r with
      | None => mret (-1, buf)
      | Some pos =>
          '(r, buf) ← put_suite_list rsn_akm_suites (Conf.wpa_key_mgmt conf) buf pos;
          match r with
          | None => mret (-1, buf)
          | Some pos =>
              buf ← wr_n buf pos (WPA_PUT_LE16 (rsn_capab conf));
              let pos := pos + 2 in
              '(r, buf) ← rsn_put_pmkid pmkid buf b len pos;
              match r with
              | None => mret (-1, buf)
              | Some pos =>
                  '(r, buf) ← rsn_put_mgmt conf pmkid buf b len pos;
                  match r with
                  | None => mret (-1, buf)
                  | Some pos => buf ← wr buf (b + 1) (u8 (pos - b - 2)); mret (pos - b, buf)
                  end
              end
          end
      end
  end.

(** [u8 buf[128]] is not initialised: [stack] is what it holds. *)
Definition wpa_auth_gen_wpa_ie (e : env) (stack : list Z) (wpa_auth : Auth.wpa_authenticator)
    : res (Z * Auth.wpa_authenticator) :=
  let conf := Auth.conf wpa_auth in
  let buf := stack in
  '(r, buf) ← if has_bits (Conf.wpa conf) WPA_PROTO_RSN
              then wpa_write_rsn_ie conf buf 0 128 None else mret (0, buf);
  if r <? 0 then mret (r, wpa_auth)
  else
    let pos := r in
    '(r, buf) ← if has_bits (Conf.wpa conf) WPA_PROTO_WPA
                then wpa_write_wpa_ie conf buf pos else mret (0, buf);
    if r <? 0 then mret (r, wpa_auth)
    else
      let pos := pos + r in
      let wpa_auth := wpa_auth <| Auth.wpa_ie := None |> in
      if malloc_ok e pos then
        ie ← rd_n buf 0 pos;
        let wpa_auth := wpa_auth <| Auth.wpa_ie := Some ie |> in
        mret (0, wpa_auth <| Auth.wpa_ie_len := pos |>)
      else mret (-1, wpa_auth).

(** Writes at [pos]; gives the buffer and [pos] behind the KDE. *)
Definition wpa_add_kde (buf : list Z) (pos kde : Z) (data : list Z) (data2 : option (list Z))
    : res (list Z * Z) :=
  let data2_len := match data2 with Some d => zlen d | None => 0 end in
  buf ← wr buf pos WLAN_EID_VENDOR_SPECIFIC;
  let pos := pos + 1 in
  buf ← wr buf pos (u8 (RSN_SELECTOR_LEN + zlen data + data2_len));
  let pos := pos + 1 in
  buf ← wr_n buf pos (RSN_SELECTOR_PUT kde);
  let pos := pos + RSN_SELECTOR_LEN in
  buf ← wr_n buf pos data;
  let pos := pos + zlen data in
  match data2 with
  | Some d => buf ← wr_n buf pos d; mret (buf, pos + zlen d)
  | None => mret (buf, pos)
  end.

(** ** The parser of EAPOL-Key key data *)

(** [struct wpa_eapol_ie_parse]; pointers are offsets into the key data. *)
#[projections(primitive)]
Record wpa_eapol_ie_parse := {
  wpa_ie : option Z;
  wpa_ie_len : Z;
  rsn_ie : option Z;
  rsn_ie_len : Z;
  kde_pmkid : option Z;
  gtk : option Z;
  gtk_len : Z;
  mac_addr : option Z;
  mac_addr_len : Z;
  igtk : option Z;
  igtk_len : Z;
}.

Definition ie_parse_zero : wpa_eapol_ie_parse := {|
  wpa_ie := None; wpa_ie_len := 0; rsn_ie := None; rsn_ie_len := 0; kde_pmkid := None;
  gtk := None; gtk_len := 0; mac_addr := None; mac_addr_len := 0; igtk := None; igtk_len := 0 |}.

Definition wpa_parse_generic (buf : list Z) (pos end_ : Z) (ie : wpa_eapol_ie_parse)
    : res (Z * wpa_eapol_ie_parse) :=
  l ← rd buf (pos + 1);
  if l =? 0 then mret (1, ie)
  else
    is_wpa ← if 6 <=? l then
               v ← RSN_SELECTOR_GET buf (pos + 2);
               if v =? WPA_OUI_TYPE then
                 v0 ← rd buf (pos + 2 + WPA_SELECTOR_LEN);
                 if v0 =? 1 then v1 ← rd buf (pos + 2 + WPA_SELECTOR_LEN + 1); mret (v1 =? 0)
                 else mret false
               else mret false
             else mret false;
    if is_wpa : bool then mret (0, ie <| wpa_ie := Some pos |> <| wpa_ie_len := l + 2 |>)
    else
      is_pmkid ← if pos + 1 + RSN_SELECTOR_LEN <? end_
                 then is_kde buf pos (RSN_SELECTOR_LEN + PMKID_LEN - 1) RSN_KEY_DATA_PMKID
                 else mret false;
      let body := pos + 2 + RSN_SELECTOR_LEN in
      if is_pmkid : bool then mret (0, ie <| kde_pmkid := Some body |>)
      else
        is_gtk ← is_kde buf pos (RSN_SELECTOR_LEN + 2) RSN_KEY_DATA_GROUPKEY;
        if is_gtk : bool
        then mret (0, ie <| gtk := Some body |> <| gtk_len := l - RSN_SELECTOR_LEN |>)
        else
          is_mac ← is_kde buf pos (RSN_SELECTOR_LEN + 2) RSN_KEY_DATA_MAC_ADDR;
          if is_mac : bool
          then mret (0, ie <| mac_addr := Some body |> <| mac_addr_len := l - RSN_SELECTOR_LEN |>)
          else
            is_igtk ← is_kde buf pos (RSN_SELECTOR_LEN + 2) RSN_KEY_DATA_IGTK;
            if is_igtk : bool
            then mret (0, ie <| igtk := Some body |> <| igtk_len := l - RSN_SELECTOR_LEN |>)
            else mret (0, ie).

(** The [for] loop; [len] octets of fuel are enough, since [pos] grows by 2 at
    least. *)
Fixpoint parse_kde_loop (fuel : nat) (buf : list Z) (len pos : Z) (ie : wpa_eapol_ie_parse)
    : res (Z * wpa_eapol_ie_parse) :=
  match fuel with
  | O => Fault OutOfFuel
  | S fuel =>
      if pos + 1 <? len then
        id ← rd buf pos;
        l ← rd buf (pos + 1);
        if (id =? 221) && ((pos =? len - 1) || (l =? 0)) then mret (0, ie)
        else if len <? pos + 2 + l then mret (-1, ie)
        else if id =? WLAN_EID_RSN then
          parse_kde_loop fuel buf len (pos + (2 + l))
            (ie <| rsn_ie := Some pos |> <| rsn_ie_len := l + 2 |>)
        else if id =? WLAN_EID_VENDOR_SPECIFIC then
          '(ret, ie) ← wpa_parse_generic buf pos len ie;
          if ret <? 0 then mret (ret, ie)
          else if 0 <? ret then mret (0, ie)
          else parse_kde_loop fuel buf len (pos + (2 + l)) ie
        else parse_kde_loop fuel buf len (pos + (2 + l)) ie
      else mret (0, ie)
  end.

Definition wpa_parse_kde_ies (buf : list Z) (len : Z) : res (Z * wpa_eapol_ie_parse) :=
  parse_kde_loop (S (Z.to_nat len)) buf len 0 ie_parse_zero.

(** ** Validating the element of an association request *)

(** [if (bits & b1) selector = s1; else if (bits & b2) ...] *)
Fixpoint select_suite (suites : list (Z * Z)) (bits selector : Z) : Z :=
  match suites with
  | [] => selector
  | (b, s) :: suites => if has_bits bits b then s else select_suite suites bits selector
  end.

Definition rsn_akm_selected : list (Z * Z) :=
  [(WPA_KEY_MGMT_IEEE8021X_SHA256, RSN_AUTH_KEY_MGMT_802_1X_SHA256);
   (WPA_KEY_MGMT_PSK_SHA256, RSN_AUTH_KEY_MGMT_PSK_SHA256);
   (WPA_KEY_MGMT_IEEE8021X, RSN_AUTH_KEY_MGMT_UNSPEC_802_1X);
   (WPA_KEY_MGMT_PSK, RSN_AUTH_KEY_MGMT_PSK_OVER_802_1X)].
Definition rsn_cipher_selected : list (Z * Z) :=
  [(WPA_CIPHER_CCMP, RSN_CIPHER_SUITE_CCMP); (WPA_CIPHER_TKIP, RSN_CIPHER_SUITE_TKIP);
   (WPA_CIPHER_WEP104, RSN_CIPHER_SUITE_WEP104); (WPA_CIPHER_WEP40, RSN_CIPHER_SUITE_WEP40);
   (WPA_CIPHER_NONE, RSN_CIPHER_SUITE_NONE)].
Definition wpa_akm_selected : list (Z * Z) :=
  [(WPA_KEY_MGMT_IEEE8021X, WPA_AUTH_KEY_MGMT_UNSPEC_802_1X);
   (WPA_KEY_MGMT_PSK, WPA_AUTH_KEY_MGMT_PSK_OVER_802_1X)].
Definition wpa_cipher_selected : list (Z * Z) :=
  [(WPA_CIPHER_CCMP, WPA_CIPHER_SUITE_CCMP); (WPA_CIPHER_TKIP, WPA_CIPHER_SUITE_TKIP);
   (WPA_CIPHER_WEP104, WPA_CIPHER_SUITE_WEP104); (WPA_CIPHER_WEP40, WPA_CIPHER_SUITE_WEP40);
   (WPA_CIPHER_NONE, WPA_CIPHER_SUITE_NONE)].

Definition set_selected (akm pairwise group : Z) (a : Auth.wpa_authenticator)
    : Auth.wpa_authenticator :=
  a <| Auth.dot11RSNAAuthenticationSuiteSelected := akm |>
    <| Auth.dot11RSNAPairwiseCipherSelected := pairwise |>
    <| Auth.dot11RSNAGroupCipherSelected := group |>.

(** [sm->wpa_key_mgmt] from the methods both sides have. *)
Definition choose_key_mgmt (key_mgmt : Z) : Z :=
  if has_bits key_mgmt WPA_KEY_MGMT_IEEE8021X_SHA256 then WPA_KEY_MGMT_IEEE8021X_SHA256
  else if has_bits key_mgmt WPA_KEY_MGMT_PSK_SHA256 then WPA_KEY_MGMT_PSK_SHA256
  else if has_bits key_mgmt WPA_KEY_MGMT_IEEE8021X then WPA_KEY_MGMT_IEEE8021X
  else WPA_KEY_MGMT_PSK.

(** [&data.pmkid[i * PMKID_LEN]] *)
Definition pmkid_at (ie : list Z) (data : wpa_ie_data) (i : nat) : res (list Z) :=
  match pmkid data with
  | None => Fault NullDeref
  | Some p => rd_n ie (p + Z.of_nat i * PMKID_LEN) PMKID_LEN
  end.

(** The first loop over the PMKIDs, from [i] on for [n] of them: the entry and
    its PMKID. *)
Fixpoint find_pmksa (n i : nat) (ie : list Z) (data : wpa_ie_data) (c : rsn_pmksa_cache)
    (addr : list Z) : res (option (nat * list Z)) :=
  match n with
  | O => mret None
  | S n =>
      k ← pmkid_at ie data i;
      r ← pmksa_cache_auth_get c (Some addr) (Some k);
      match r with
      | Some p => e ← deref c p; mret (Some (p, e_pmkid e))
      | None => find_pmksa n (S i) ie data c addr
      end
  end.

(** [wpa_auth_for_each_auth] with [wpa_auth_okc_iter]: the caches in the order of
    the authenticators; the search ends at the first match. *)
Fixpoint wpa_auth_okc_iter `{Crypto} (caches : list rsn_pmksa_cache) (aa spa_ k : list Z)
    : res (option rsn_pmksa_cache_entry) :=
  match caches with
  | [] => mret None
  | c :: caches =>
      r ← pmksa_cache_get_okc (walk_fuel c) c aa spa_ k (Pmksa.pmksa c);
      match r with
      | Some p => e ← deref c p; mret (Some e)
      | None => wpa_auth_okc_iter caches aa spa_ k
      end
  end.

(** The second loop: [Some k] when it ended with a match for [k]. *)
Fixpoint find_okc `{Crypto} (n i : nat) (ie : list Z) (data : wpa_ie_data)
    (caches : list rsn_pmksa_cache) (aa spa_ : list Z)
    : res (option (rsn_pmksa_cache_entry * list Z)) :=
  match n with
  | O => mret None
  | S n =>
      k ← pmkid_at ie data i;
      r ← wpa_auth_okc_iter caches aa spa_ k;
      match r with
      | Some e => mret (Some (e, k))
      | None => find_okc n (S i) ie data caches aa spa_
      end
  end.

(** The checks between the parser and the PMKSA cache: the error they return, if
    any, and [*sm]. *)
Definition validate_policy (conf : Conf.wpa_auth_config) (is_rsn : bool) (data : wpa_ie_data)
    (sm : Sm.wpa_state_machine) : option validate_result * Sm.wpa_state_machine :=
  if negb (group_cipher data =? Conf.wpa_group conf) then (Some WPA_INVALID_GROUP, sm)
  else
    let akm := Z.land (key_mgmt data) (Conf.wpa_key_mgmt conf) in
    if akm =? 0 then (Some WPA_INVALID_AKMP, sm)
    else
      let sm := sm <| Sm.wpa_key_mgmt := choose_key_mgmt akm |> in
      let ciphers := Z.land (pairwise_cipher data)
        (if is_rsn : bool then Conf.rsn_pairwise conf else Conf.wpa_pairwise conf) in
      if ciphers =? 0 then (Some WPA_INVALID_PAIRWISE, sm)
      else if (Conf.ieee80211w conf =? MGMT_FRAME_PROTECTION_REQUIRED) &&
              negb (has_bits (capabilities data) WPA_CAPABILITY_MFPC)
      then (Some WPA_MGMT_FRAME_PROTECTION_VIOLATION, sm)
      else if (Conf.ieee80211w conf =? MGMT_FRAME_PROTECTION_REQUIRED) &&
              has_bits ciphers WPA_CIPHER_TKIP
      then (Some WPA_MGMT_FRAME_PROTECTION_VIOLATION, sm)
      else if (Conf.ieee80211w conf =? MGMT_FRAME_PROTECTION_REQUIRED) &&
              negb (mgmt_group_cipher data =? WPA_CIPHER_AES_128_CMAC)
      then (Some WPA_INVALID_MGMT_GROUP_CIPHER, sm)
      else
        let sm := sm <| Sm.mgmt_frame_prot :=
          negb ((Conf.ieee80211w conf =? NO_MGMT_FRAME_PROTECTION) ||
                negb (has_bits (capabilities data) WPA_CAPABILITY_MFPC)) |> in
        let sm := sm <| Sm.pairwise :=
          if has_bits ciphers WPA_CIPHER_CCMP then WPA_CIPHER_CCMP else WPA_CIPHER_TKIP |> in
        (None, sm <| Sm.wpa := if is_rsn then WPA_VERSION_WPA2 else WPA_VERSION_WPA |>).

(** The two loops over the PMKIDs and [dot11RSNAPMKIDUsed]. *)
Definition validate_pmksa `{Crypto} (e : env)
    (for_each_auth : rsn_pmksa_cache -> list rsn_pmksa_cache) (ie : list Z) (data : wpa_ie_data)
    (a : Auth.wpa_authenticator) (sm : Sm.wpa_state_machine)
    : res (Auth.wpa_authenticator * Sm.wpa_state_machine) :=
  let sm := sm <| Sm.pmksa := None |> in
  let n := Z.to_nat (num_pmkid data) in
  r ← find_pmksa n 0 ie data (Auth.pmksa a) (Sm.addr sm);
  match r with
  | Some (p, k) =>
      mret (a <| Auth.dot11RSNAPMKIDUsed := k |>, sm <| Sm.pmksa := Some p |>)
  | None =>
      if Conf.okc (Auth.conf a) =? 0 then mret (a, sm)
      else
        r ← find_okc n 0 ie data (for_each_auth (Auth.pmksa a)) (Auth.addr a) (Sm.addr sm);
        match r with
        | Some (old_entry, k) =>
            '(p, c) ← pmksa_cache_add_okc e (Auth.pmksa a) old_entry k;
            let a := a <| Auth.pmksa := c |> in
            let sm := sm <| Sm.pmksa := p |> in
            mret (match p with
                  | Some _ => a <| Auth.dot11RSNAPMKIDUsed := k |>
                  | None => a
                  end, sm)
        | None => mret (a, sm)
        end
  end.

(** The copy in [sm->wpa_ie], which may be longer than [sm->wpa_ie_len]. *)
Definition save_wpa_ie (e : env) (ie : list Z) (len : Z) (sm : Sm.wpa_state_machine)
    : res (validate_result * Sm.wpa_state_machine) :=
  let copy buf :=
    d ← rd_n ie 0 len;
    buf ← wr_n buf 0 d;
    let sm := sm <| Sm.wpa_ie := Some buf |> in
    mret (WPA_IE_OK, sm <| Sm.wpa_ie_len := len |>) in
  match Sm.wpa_ie sm with
  | Some buf =>
      if Sm.wpa_ie_len sm <? len then
        if malloc_ok e len then copy (replicate (Z.to_nat len) 0)
        else mret (WPA_ALLOC_FAIL, sm <| Sm.wpa_ie := None |>)
      else copy buf
  | None =>
      if malloc_ok e len then copy (replicate (Z.to_nat len) 0)
      else mret (WPA_ALLOC_FAIL, sm <| Sm.wpa_ie := None |>)
  end.

Definition wpa_validate_wpa_ie `{Crypto} (e : env)
    (for_each_auth : rsn_pmksa_cache -> list rsn_pmksa_cache)
    (wpa_auth : option Auth.wpa_authenticator) (sm : option Sm.wpa_state_machine)
    (wpa_ie : option (list Z)) (wpa_ie_len : Z)
    : res (validate_result * option Auth.wpa_authenticator * option Sm.wpa_state_machine) :=
  match wpa_auth, sm with
  | Some a, Some m =>
      match wpa_ie with
      | None => mret (WPA_INVALID_IE, wpa_auth, sm)
      | Some ie =>
          if wpa_ie_len <? 1 then mret (WPA_INVALID_IE, wpa_auth, sm)
          else
            id ← rd ie 0;
            let is_rsn := id =? WLAN_EID_RSN in
            let version := if is_rsn then WPA_PROTO_RSN else WPA_PROTO_WPA in
            if negb (has_bits (Conf.wpa (Auth.conf a)) version)
            then mret (WPA_INVALID_PROTO, wpa_auth, sm)
            else
              '(parsed, data) ← if is_rsn then wpa_parse_wpa_ie_rsn ie wpa_ie_len
                                else wpa_parse_wpa_ie_wpa ie wpa_ie_len;
              let a := if is_rsn then set_selected
                  (select_suite rsn_akm_selected (key_mgmt data) RSN_AUTH_KEY_MGMT_UNSPEC_802_1X)
                  (select_suite rsn_cipher_selected (pairwise_cipher data) RSN_CIPHER_SUITE_CCMP)
                  (select_suite rsn_cipher_selected (group_cipher data) RSN_CIPHER_SUITE_CCMP) a
                else set_selected
                  (select_suite wpa_akm_selected (key_mgmt data) WPA_AUTH_KEY_MGMT_UNSPEC_802_1X)
                  (select_suite wpa_cipher_selected (pairwise_cipher data) WPA_CIPHER_SUITE_TKIP)
                  (select_suite wpa_cipher_selected (group_cipher data) WPA_CIPHER_SUITE_TKIP) a in
              if negb (parsed =? 0) then mret (WPA_INVALID_IE, Some a, sm)
              else
                match validate_policy (Auth.conf a) is_rsn data m with
                | (Some err, m) => mret (err, Some a, Some m)
                | (None, m) =>
                    '(a, m) ← validate_pmksa e for_each_auth ie data a m;
                    '(r, m) ← save_wpa_ie e ie wpa_ie_len m;
                    mret (r, Some a, Some m)
                end
      end
  | _, _ => mret (WPA_NOT_ENABLED, wpa_auth, sm)
  end.

Definition wpa_auth_uses_mfp (sm : option Sm.wpa_state_machine) : bool :=
  match sm with Some sm => Sm.mgmt_frame_prot sm | None => false end.
