(* ===== verification/WpaIeProps.v ===== *)
(** * Properties of the WPA and RSN elements

    The parsers of common/wpa_common.c read only the element they are given; the
    writers of ap/wpa_auth_ie.c write exactly the element the standard describes,
    stay inside the buffer, and the parsers read back the configuration. *)

From stdpp Require Import gmap.
From S2P Require Import Prelude EapI WpaCommon Pmksa WpaAuthI WpaAuthIe.

(** ** Fields and suites read back *)

Lemma le16_value a b : is_byte a -> is_byte b ->
  u16 (Z.lor (Z.shiftl b 8) a) = b * 256 + a.
Proof. intros. by apply be16_value. Qed.

Lemma WPA_GET_LE16_total l o : bytes l -> 0 <= o -> o + 2 <= zlen l ->
  exists v, WPA_GET_LE16 l o = Ok v /\ 0 <= v < 65536.
Proof.
  intros Hl ??. unfold WPA_GET_LE16.
  destruct (rd_total l o) as (a & -> & Ha); [lia | done |].
  destruct (rd_total l (o + 1)) as (b & -> & Hb); [lia | done |].
  cbn. rewrite le16_value by done. eexists; split; [done|]. unfold is_byte in *. lia.
Qed.

Lemma WPA_GET_PUT_LE16 l v r :
  WPA_GET_LE16 (l ++ WPA_PUT_LE16 v ++ r) (zlen l) = Ok (u16 v).
Proof.
  unfold WPA_GET_LE16, WPA_PUT_LE16. pose proof (zlen_nonneg r).
  rewrite rd_shift0, rd_shift by zlen_lia.
  erewrite !rd_lookup by (lia || reflexivity). cbn.
  rewrite land_255, Z.shiftr_div_pow2 by lia. change (2 ^ 8) with 256.
  rewrite le16_value by (apply u8_byte || apply (u8_byte (u16 v))).
  f_equal. unfold u8, u16. zlia.
Qed.

Lemma zlen_LE16 v : zlen (WPA_PUT_LE16 v) = 2.
Proof. done. Qed.
Lemma zlen_PUT v : zlen (RSN_SELECTOR_PUT v) = 4.
Proof. done. Qed.
#[local] Arguments WPA_PUT_LE16 : simpl never.
#[local] Arguments RSN_SELECTOR_PUT : simpl never.
#[local] Arguments RSN_SELECTOR_GET : simpl never.
#[local] Arguments WPA_GET_LE16 : simpl never.

Lemma RSN_SELECTOR_GET_PUT l v r :
  RSN_SELECTOR_GET (l ++ RSN_SELECTOR_PUT v ++ r) (zlen l) = Ok (u32 v).
Proof. apply WPA_GET_PUT_BE32. Qed.

(** A reader of one suite. *)
Definition reads (f : list Z -> Z -> res Z) (g : Z -> Z) : Prop :=
  forall a s, f a s = (v ← RSN_SELECTOR_GET a s; mret (g v)).

Lemma reads_put f g l v r : reads f g -> u32 v = v ->
  f (l ++ RSN_SELECTOR_PUT v ++ r) (zlen l) = Ok (g v).
Proof. intros Hf Hv. by rewrite Hf, RSN_SELECTOR_GET_PUT, Hv. Qed.

(** The suites of a list that are switched on, and what they look like. *)
Definition enabled (suites : list (Z * Z)) (mask : Z) : list Z :=
  map snd (filter (fun s => has_bits mask (fst s) = true) suites).
Definition put_all (sels : list Z) : list Z := concat (map RSN_SELECTOR_PUT sels).

Lemma zlen_put_all sels : zlen (put_all sels) = 4 * zlen sels.
Proof.
  induction sels as [|s sels IH]; [done|].
  unfold put_all in *. cbn [map concat]. rewrite zlen_app, zlen_PUT, IH, zlen_cons. lia.
Qed.

Lemma suites_loop_put f g sels : reads f g -> Forall (fun v => u32 v = v) sels ->
  forall l r acc, suites_loop f (l ++ put_all sels ++ r) (length sels) (zlen l) acc =
    Ok (fold_left (fun a v => Z.lor a (g v)) sels acc).
Proof.
  intros Hf. induction sels as [|s sels IH]; intros Hv l r acc; [done|].
  apply Forall_cons in Hv as [Hs Hv]. unfold put_all. cbn [map concat length suites_loop].
  rewrite <- app_assoc, (reads_put f g) by done. cbn [mbind res_bind fold_left].
  rewrite app_assoc.
  replace (zlen l + RSN_SELECTOR_LEN) with (zlen (l ++ RSN_SELECTOR_PUT s)) by (by rewrite zlen_app).
  by apply IH.
Qed.

Lemma parse_suites_put f g set err short sels l r data :
  reads f g -> Forall (fun v => u32 v = v) sels -> sels <> [] -> zlen sels < 65536 ->
  parse_suites f set err short (l ++ (WPA_PUT_LE16 (zlen sels) ++ put_all sels) ++ r) data
    (zlen l) (2 + 4 * zlen sels + zlen r) =
  Ok (Next (set (fold_left (fun a v => Z.lor a (g v)) sels 0) data)
    (zlen (l ++ WPA_PUT_LE16 (zlen sels) ++ put_all sels)) (zlen r)).
Proof.
  intros Hf Hv Hn Hmax. unfold parse_suites. pose proof (zlen_nonneg sels). pose proof (zlen_nonneg r).
  assert (0 < zlen sels) by (destruct sels; [done|zlen_lia]).
  rewrite (proj2 (Z.leb_le _ _)) by lia. rewrite <- app_assoc, WPA_GET_PUT_LE16.
  cbn [mbind res_bind]. rewrite u16_id by lia. unfold RSN_SELECTOR_LEN.
  rewrite (proj2 (Z.eqb_neq _ _)), (proj2 (Z.ltb_ge _ _)) by lia. cbn [orb].
  rewrite app_assoc. replace (zlen l + 2) with (zlen (l ++ WPA_PUT_LE16 (zlen sels)))
    by (by rewrite zlen_app, zlen_LE16).
  replace (Z.to_nat (zlen sels)) with (length sels) by (unfold zlen; lia).
  rewrite (suites_loop_put f g) by done. cbn [mbind res_bind].
  f_equal. f_equal; rewrite ?zlen_app, ?zlen_LE16, ?zlen_put_all; lia.
Qed.

(** ** Sets of bits *)

Lemma land_bit m k : 0 <= k -> Z.land m (2 ^ k) = if Z.testbit m k then 2 ^ k else 0.
Proof.
  intros Hk. apply Z.bits_inj'. intros i Hi. rewrite Z.land_spec, Z.pow2_bits_eqb by done.
  destruct (Z.eqb_spec k i) as [-> | Hne].
  - rewrite andb_true_r. destruct (Z.testbit m i) eqn:Hm; [by rewrite Z.pow2_bits_true|].
    by rewrite Z.bits_0.
  - rewrite andb_false_r. destruct (Z.testbit m k); [by rewrite Z.pow2_bits_false by done|].
    by rewrite Z.bits_0.
Qed.

Lemma has_bits_pow2 m k : 0 <= k -> has_bits m (2 ^ k) = Z.testbit m k.
Proof.
  intros Hk. unfold has_bits. rewrite land_bit by done.
  pose proof (Z.pow_pos_nonneg 2 k ltac:(lia) Hk).
  destruct (Z.testbit m k); [|done]. by rewrite (proj2 (Z.eqb_neq _ _)) by lia.
Qed.

(** Turns the tests of bit [k], whose value is [n], into [Z.testbit]. *)
Ltac bit_test m k n :=
  let H := fresh in
  pose proof (has_bits_pow2 m k ltac:(lia)) as H; change (2 ^ k) with n in H;
  rewrite ?H; clear H;
  pose proof (land_bit m k ltac:(lia)) as H; change (2 ^ k) with n in H;
  rewrite ?H; clear H; destruct (Z.testbit m k).

(** Reading the suites of a configured set gives the set back. *)
Lemma rsn_pairwise_bits mask :
  fold_left (fun a v => Z.lor a (rsn_cipher_bits v)) (enabled rsn_pairwise_suites mask) 0 =
  Z.land mask (Z.lor (Z.lor WPA_CIPHER_CCMP WPA_CIPHER_TKIP) WPA_CIPHER_NONE).
Proof.
  unfold enabled, rsn_pairwise_suites. rewrite !Z.land_lor_distr_r, !filter_cons. cbn [fst].
  unfold WPA_CIPHER_CCMP, WPA_CIPHER_TKIP, WPA_CIPHER_NONE.
  bit_test mask 4 16; bit_test mask 3 8; bit_test mask 0 1; reflexivity.
Qed.

Definition rsn_akm_all : Z := Z.lor (Z.lor (Z.lor WPA_KEY_MGMT_IEEE8021X WPA_KEY_MGMT_PSK)
  WPA_KEY_MGMT_IEEE8021X_SHA256) WPA_KEY_MGMT_PSK_SHA256.

Lemma rsn_akm_bits mask :
  fold_left (fun a v => Z.lor a (rsn_key_mgmt_bits v)) (enabled rsn_akm_suites mask) 0 =
  Z.land mask rsn_akm_all.
Proof.
  unfold enabled, rsn_akm_suites, rsn_akm_all. rewrite !Z.land_lor_distr_r, !filter_cons.
  cbn [fst]. unfold WPA_KEY_MGMT_IEEE8021X, WPA_KEY_MGMT_PSK, WPA_KEY_MGMT_IEEE8021X_SHA256,
    WPA_KEY_MGMT_PSK_SHA256.
  bit_test mask 8 256; bit_test mask 7 128; bit_test mask 1 2; bit_test mask 0 1; reflexivity.
Qed.

Lemma enabled_u32 suites mask : Forall (fun s => u32 (snd s) = snd s) suites ->
  Forall (fun v => u32 v = v) (enabled suites mask).
Proof.
  intros Hs. apply Forall_map.
  rewrite Forall_forall in *. intros s Hin. apply list_elem_of_filter in Hin as [_ Hin].
  by apply Hs.
Qed.

Lemma enabled_length suites mask : zlen (enabled suites mask) <= zlen suites.
Proof.
  unfold enabled, zlen. rewrite length_map. pose proof (length_filter (fun s => has_bits mask (fst s) = true) suites). lia.
Qed.

(** ** The elements as the standard lays them out *)

Definition suite_list_bytes (suites : list (Z * Z)) (mask : Z) : list Z :=
  WPA_PUT_LE16 (zlen (enabled suites mask)) ++ put_all (enabled suites mask).

Definition uses_mfp (conf : Conf.wpa_auth_config) : bool :=
  negb (Conf.ieee80211w conf =? NO_MGMT_FRAME_PROTECTION).
Definition pmkid_bytes (conf : Conf.wpa_auth_config) (pmkid : option (list Z)) : list Z :=
  match pmkid with
  | Some k => WPA_PUT_LE16 1 ++ k
  | None => if uses_mfp conf then WPA_PUT_LE16 0 else []
  end.
Definition mgmt_bytes (conf : Conf.wpa_auth_config) : list Z :=
  if uses_mfp conf then RSN_SELECTOR_PUT RSN_CIPHER_SUITE_AES_128_CMAC else [].

(** The RSN element without its header; [None] when the configuration has no
    group cipher, no pairwise cipher or no key management to advertise. *)
Definition rsn_ie_body (conf : Conf.wpa_auth_config) (pmkid : option (list Z))
    : option (list Z) :=
  match rsn_group_suite (Conf.wpa_group conf),
        enabled rsn_pairwise_suites (Conf.rsn_pairwise conf),
        enabled rsn_akm_suites (Conf.wpa_key_mgmt conf) with
  | Some gs, _ :: _, _ :: _ =>
      Some (WPA_PUT_LE16 RSN_VERSION ++ RSN_SELECTOR_PUT gs ++
            suite_list_bytes rsn_pairwise_suites (Conf.rsn_pairwise conf) ++
            suite_list_bytes rsn_akm_suites (Conf.wpa_key_mgmt conf) ++
            WPA_PUT_LE16 (rsn_capab conf) ++ pmkid_bytes conf pmkid ++ mgmt_bytes conf)
  | _, _, _ => None
  end.
Definition wpa_ie_body (conf : Conf.wpa_auth_config) : option (list Z) :=
  match wpa_group_suite (Conf.wpa_group conf),
        enabled wpa_pairwise_suites (Conf.wpa_pairwise conf),
        enabled wpa_akm_suites (Conf.wpa_key_mgmt conf) with
  | Some gs, _ :: _, _ :: _ =>
      Some (RSN_SELECTOR_PUT WPA_OUI_TYPE ++ WPA_PUT_LE16 WPA_VERSION ++ RSN_SELECTOR_PUT gs ++
            suite_list_bytes wpa_pairwise_suites (Conf.wpa_pairwise conf) ++
            suite_list_bytes wpa_akm_suites (Conf.wpa_key_mgmt conf))
  | _, _, _ => None
  end.
Definition element (id : Z) (body : list Z) : list Z := [id; u8 (zlen body)] ++ body.

Definition wf_pmkid (pmkid : option (list Z)) : Prop :=
  match pmkid with Some k => zlen k = PMKID_LEN | None => True end.

Lemma zlen_suite_list suites mask :
  zlen (suite_list_bytes suites mask) = 2 + 4 * zlen (enabled suites mask).
Proof. unfold suite_list_bytes. by rewrite zlen_app, zlen_LE16, zlen_put_all. Qed.

Lemma zlen_pmkid_mgmt conf pmkid : wf_pmkid pmkid ->
  zlen (pmkid_bytes conf pmkid) <= 18 /\ zlen (mgmt_bytes conf) <= 4.
Proof.
  intros Hk. unfold pmkid_bytes, mgmt_bytes. destruct pmkid; cbn in Hk; destruct (uses_mfp conf);
    rewrite ?zlen_app, ?zlen_LE16, ?zlen_PUT; unfold PMKID_LEN in *; change (zlen (@nil Z)) with 0; lia.
Qed.

Lemma rsn_ie_body_len conf pmkid body : rsn_ie_body conf pmkid = Some body ->
  wf_pmkid pmkid -> zlen body <= 62.
Proof.
  unfold rsn_ie_body. intros H Hk. pose proof (zlen_pmkid_mgmt conf pmkid Hk) as [H1 H2].
  pose proof (enabled_length rsn_pairwise_suites (Conf.rsn_pairwise conf)) as Hp.
  pose proof (enabled_length rsn_akm_suites (Conf.wpa_key_mgmt conf)) as Ha.
  change (zlen rsn_pairwise_suites) with 3 in Hp. change (zlen rsn_akm_suites) with 4 in Ha.
  destruct (rsn_group_suite _); [|done].
  repeat case_match; try done. apply (inj Some) in H. subst body.
  rewrite !zlen_app, !zlen_suite_list, !zlen_LE16, zlen_PUT.
  repeat match goal with H : enabled _ _ = _ |- _ => rewrite H; clear H end. lia.
Qed.

(** ** Reading an element back *)

Lemma and_then_eq m k d pos room : m = Ok (Next d pos room) -> and_then m k = k d pos room.
Proof. by intros ->. Qed.

Lemma rsn_group_stage_put l gs r data :
  u32 gs = gs -> rsn_cipher_bits gs <> WPA_CIPHER_AES_128_CMAC ->
  rsn_group_stage (l ++ RSN_SELECTOR_PUT gs ++ r) data (zlen l) (4 + zlen r) =
  Ok (Next (data <| group_cipher := rsn_cipher_bits gs |>) (zlen (l ++ RSN_SELECTOR_PUT gs))
        (zlen r)).
Proof.
  intros Hu Hg. unfold rsn_group_stage. pose proof (zlen_nonneg r).
  unfold RSN_SELECTOR_LEN. rewrite (proj2 (Z.leb_le _ _)) by lia.
  rewrite (reads_put rsn_selector_to_bitfield rsn_cipher_bits) by done.
  cbn [mbind res_bind]. rewrite (proj2 (Z.eqb_neq _ _)) by done.
  rewrite zlen_app, zlen_PUT. do 2 f_equal. lia.
Qed.

Lemma capabilities_stage_put l v r data : 0 <= v < 65536 ->
  capabilities_stage (l ++ WPA_PUT_LE16 v ++ r) data (zlen l) (2 + zlen r) =
  Ok (Next (data <| capabilities := v |>) (zlen (l ++ WPA_PUT_LE16 v)) (zlen r)).
Proof.
  intros Hv. unfold capabilities_stage. pose proof (zlen_nonneg r).
  rewrite (proj2 (Z.leb_le _ _)) by lia. rewrite WPA_GET_PUT_LE16. cbn [mbind res_bind].
  rewrite u16_id by done. rewrite zlen_app, zlen_LE16. do 2 f_equal. lia.
Qed.

Lemma pmkid_stage_put l (ks r : list Z) n data : 0 <= n < 65536 -> zlen ks = n * PMKID_LEN ->
  pmkid_stage (l ++ (WPA_PUT_LE16 n ++ ks) ++ r) data (zlen l) (2 + zlen ks + zlen r) =
  Ok (Next (data <| num_pmkid := n |> <| pmkid := Some (zlen l + 2) |>)
        (zlen (l ++ WPA_PUT_LE16 n ++ ks)) (zlen r)).
Proof.
  intros Hn Hk. unfold pmkid_stage. pose proof (zlen_nonneg r). pose proof (zlen_nonneg ks).
  rewrite (proj2 (Z.leb_le _ _)) by lia. rewrite <- app_assoc, WPA_GET_PUT_LE16.
  cbn [mbind res_bind]. rewrite u16_id by done.
  rewrite (proj2 (Z.ltb_ge _ _)) by lia. rewrite !zlen_app, zlen_LE16. do 2 f_equal; lia.
Qed.

Lemma mgmt_cipher_stage_put l r data :
  mgmt_cipher_stage (l ++ RSN_SELECTOR_PUT RSN_CIPHER_SUITE_AES_128_CMAC ++ r) data
    (zlen l) (4 + zlen r) =
  Ok (Next (data <| mgmt_group_cipher := WPA_CIPHER_AES_128_CMAC |>)
        (zlen (l ++ RSN_SELECTOR_PUT RSN_CIPHER_SUITE_AES_128_CMAC)) (zlen r)).
Proof.
  unfold mgmt_cipher_stage. pose proof (zlen_nonneg r).
  rewrite (proj2 (Z.leb_le _ _)) by lia.
  rewrite (reads_put rsn_selector_to_bitfield rsn_cipher_bits) by done.
  cbn [mbind res_bind]. change (rsn_cipher_bits RSN_CIPHER_SUITE_AES_128_CMAC) with 32.
  cbn [negb Z.eqb Pos.eqb]. unfold WPA_CIPHER_AES_128_CMAC. cbn [negb Z.eqb Pos.eqb].
  unfold RSN_SELECTOR_LEN. rewrite zlen_app, zlen_PUT. do 2 f_equal. lia.
Qed.

Definition has_list (conf : Conf.wpa_auth_config) (pmkid : option (list Z)) : bool :=
  match pmkid with Some _ => true | None => uses_mfp conf end.

(** What the parser makes of the element of [conf]; [off] is the offset of the
    PMKID list. *)
Definition rsn_ie_read (conf : Conf.wpa_auth_config) (pmkid_ : option (list Z)) (off : Z)
    : wpa_ie_data := {|
  proto := WPA_PROTO_RSN;
  pairwise_cipher := Z.land (Conf.rsn_pairwise conf)
    (Z.lor (Z.lor WPA_CIPHER_CCMP WPA_CIPHER_TKIP) WPA_CIPHER_NONE);
  group_cipher := Conf.wpa_group conf;
  key_mgmt := Z.land (Conf.wpa_key_mgmt conf) rsn_akm_all;
  capabilities := rsn_capab conf;
  num_pmkid := if pmkid_ then 1 else 0;
  pmkid := if has_list conf pmkid_ then Some off else None;
  mgmt_group_cipher := WPA_CIPHER_AES_128_CMAC |}.

Lemma rsn_group_suite_bits g gs : rsn_group_suite g = Some gs ->
  u32 gs = gs /\ rsn_cipher_bits gs = g /\ g <> WPA_CIPHER_AES_128_CMAC.
Proof.
  unfold rsn_group_suite. intros H. repeat case_match; simplify_eq; rewrite ?Z.eqb_eq in *; subst;
    done.
Qed.

Lemma rsn_capab_range conf : 0 <= rsn_capab conf < 65536.
Proof.
  unfold rsn_capab. repeat case_match; vm_compute; split; congruence.
Qed.

Lemma reads_rsn_cipher : reads rsn_selector_to_bitfield rsn_cipher_bits.
Proof. done. Qed.
Lemma reads_rsn_akm : reads rsn_key_mgmt_to_bitfield rsn_key_mgmt_bits.
Proof. done. Qed.

Lemma rsn_suites_u32 mask : Forall (fun v => u32 v = v) (enabled rsn_pairwise_suites mask) /\
  Forall (fun v => u32 v = v) (enabled rsn_akm_suites mask).
Proof. split; apply enabled_u32; repeat constructor. Qed.

Lemma nonempty_enabled suites mask z l : enabled suites mask = z :: l ->
  enabled suites mask <> [] .
Proof. by intros ->. Qed.

Lemma rsn_pairwise_stage_put l mask r data :
  enabled rsn_pairwise_suites mask <> [] ->
  rsn_pairwise_stage (l ++ suite_list_bytes rsn_pairwise_suites mask ++ r) data (zlen l)
    (zlen (suite_list_bytes rsn_pairwise_suites mask) + zlen r) =
  Ok (Next (data <| pairwise_cipher := Z.land mask
        (Z.lor (Z.lor WPA_CIPHER_CCMP WPA_CIPHER_TKIP) WPA_CIPHER_NONE) |>)
      (zlen (l ++ suite_list_bytes rsn_pairwise_suites mask)) (zlen r)).
Proof.
  intros Hn. unfold rsn_pairwise_stage. rewrite zlen_suite_list.
  pose proof (enabled_length rsn_pairwise_suites mask) as Hlen.
  change (zlen rsn_pairwise_suites) with 3 in Hlen.
  rewrite (and_then_eq _ _ _ _ _ (parse_suites_put rsn_selector_to_bitfield rsn_cipher_bits
    set_pairwise (-4) (-5) (enabled rsn_pairwise_suites mask) l r data reads_rsn_cipher
    (proj1 (rsn_suites_u32 mask)) Hn ltac:(lia))).
  rewrite rsn_pairwise_bits. unfold has_bits at 1. cbn [pairwise_cipher set_pairwise put].
  change (pairwise_cipher (set_pairwise ?v data)) with v.
  assert (Z.land (Z.land mask (Z.lor (Z.lor WPA_CIPHER_CCMP WPA_CIPHER_TKIP) WPA_CIPHER_NONE))
    WPA_CIPHER_AES_128_CMAC = 0) as H0.
  { rewrite <- Z.land_assoc. change (Z.land (Z.lor (Z.lor WPA_CIPHER_CCMP WPA_CIPHER_TKIP) WPA_CIPHER_NONE)
      WPA_CIPHER_AES_128_CMAC) with 0. apply Z.land_0_r. }
  rewrite H0. cbn [Z.eqb negb]. by rewrite andb_false_r.
Qed.

Lemma rsn_akm_stage_put l mask r data :
  enabled rsn_akm_suites mask <> [] ->
  parse_suites rsn_key_mgmt_to_bitfield set_key_mgmt (-6) (-7)
    (l ++ suite_list_bytes rsn_akm_suites mask ++ r) data (zlen l)
    (zlen (suite_list_bytes rsn_akm_suites mask) + zlen r) =
  Ok (Next (data <| key_mgmt := Z.land mask rsn_akm_all |>)
      (zlen (l ++ suite_list_bytes rsn_akm_suites mask)) (zlen r)).
Proof.
  intros Hn. rewrite zlen_suite_list. pose proof (enabled_length rsn_akm_suites mask) as Hlen.
  change (zlen rsn_akm_suites) with 4 in Hlen. unfold suite_list_bytes.
  rewrite (parse_suites_put rsn_key_mgmt_to_bitfield rsn_key_mgmt_bits set_key_mgmt (-6) (-7)
    (enabled rsn_akm_suites mask) l r data reads_rsn_akm (proj2 (rsn_suites_u32 mask)) Hn ltac:(lia)).
  by rewrite rsn_akm_bits.
Qed.

(** The PMKID list and the management cipher. *)
Lemma rsn_tail_put conf pmkid_ l data : wf_pmkid pmkid_ ->
  num_pmkid data = 0 -> pmkid data = None -> mgmt_group_cipher data = WPA_CIPHER_AES_128_CMAC ->
  exists pos, and_then
    (pmkid_stage (l ++ pmkid_bytes conf pmkid_ ++ mgmt_bytes conf) data (zlen l)
       (zlen (pmkid_bytes conf pmkid_ ++ mgmt_bytes conf)))
    (mgmt_cipher_stage (l ++ pmkid_bytes conf pmkid_ ++ mgmt_bytes conf)) =
  Ok (Next (data <| num_pmkid := if pmkid_ then 1 else 0 |>
                 <| pmkid := if has_list conf pmkid_ then Some (zlen l + 2) else None |>) pos 0).
Proof.
  intros Hk H1 H2 H3. set (m := mgmt_bytes conf).
  assert (forall d p l', mgmt_group_cipher d = WPA_CIPHER_AES_128_CMAC ->
    p = zlen l' -> exists pos, mgmt_cipher_stage (l' ++ m) d p (zlen m) = Ok (Next d pos 0)) as Hm.
  { intros d p l' Hd ->. unfold m, mgmt_bytes. destruct (uses_mfp conf); [|by eexists].
    pose proof (mgmt_cipher_stage_put l' [] d) as Hput. rewrite app_nil_r in Hput.
    change (4 + zlen []) with 4 in Hput. rewrite zlen_PUT. rewrite Hput. eexists. do 2 f_equal.
    destruct d. unfold WPA_CIPHER_AES_128_CMAC in *. cbn in Hd |- *. by subst. }
  assert (forall ks n, 0 <= n < 65536 -> zlen ks = n * PMKID_LEN -> exists pos, and_then
    (pmkid_stage (l ++ (WPA_PUT_LE16 n ++ ks) ++ m) data (zlen l)
       (zlen ((WPA_PUT_LE16 n ++ ks) ++ m)))
    (mgmt_cipher_stage (l ++ (WPA_PUT_LE16 n ++ ks) ++ m)) =
    Ok (Next (data <| num_pmkid := n |> <| pmkid := Some (zlen l + 2) |>) pos 0)) as Hp.
  { intros ks n Hn Hks.
    replace (zlen ((WPA_PUT_LE16 n ++ ks) ++ m)) with (2 + zlen ks + zlen m)
      by (rewrite !zlen_app, zlen_LE16; lia).
    rewrite (and_then_eq _ _ _ _ _ (pmkid_stage_put l ks m n data Hn Hks)).
    rewrite (app_assoc l). apply Hm; [done|]. by rewrite !zlen_app. }
  unfold pmkid_bytes, has_list. destruct pmkid_ as [k|].
  - by apply Hp.
  - destruct (uses_mfp conf) eqn:Hu.
    + destruct (Hp [] 0) as (pos & Hpos); [lia|done|]. rewrite app_nil_r in Hpos. exists pos.
      exact Hpos.
    + unfold m, mgmt_bytes. rewrite Hu. cbn [app]. eexists. cbn. do 2 f_equal.
      destruct data. cbn in *. by subst.
Qed.

(** The stages of the parser one after the other. *)
Lemma rsn_stages_read conf pmkid_ hdr gs tail : zlen hdr = 4 ->
  rsn_group_suite (Conf.wpa_group conf) = Some gs ->
  enabled rsn_pairwise_suites (Conf.rsn_pairwise conf) <> [] ->
  enabled rsn_akm_suites (Conf.wpa_key_mgmt conf) <> [] -> wf_pmkid pmkid_ ->
  tail = pmkid_bytes conf pmkid_ ++ mgmt_bytes conf ->
  let S1 := suite_list_bytes rsn_pairwise_suites (Conf.rsn_pairwise conf) in
  let S2 := suite_list_bytes rsn_akm_suites (Conf.wpa_key_mgmt conf) in
  let cap := WPA_PUT_LE16 (rsn_capab conf) in
  let ie := hdr ++ RSN_SELECTOR_PUT gs ++ S1 ++ S2 ++ cap ++ tail in
  exists pos, and_then (and_then (and_then (and_then (and_then
       (rsn_group_stage ie rsn_ie_default 4 (zlen ie - 4))
       (rsn_pairwise_stage ie))
       (parse_suites rsn_key_mgmt_to_bitfield set_key_mgmt (-6) (-7) ie))
       (capabilities_stage ie))
       (pmkid_stage ie))
       (mgmt_cipher_stage ie) =
  Ok (Next (rsn_ie_read conf pmkid_ (zlen (hdr ++ RSN_SELECTOR_PUT gs ++ S1 ++ S2 ++ cap) + 2))
        pos 0).
Proof.
  intros Hh Hgs Hp Ha Hk Htail S1 S2 cap ie.
  destruct (rsn_group_suite_bits _ _ Hgs) as (Hu & Hbits & Hcmac).
  pose proof (rsn_group_stage_put hdr gs (S1 ++ S2 ++ cap ++ tail) rsn_ie_default Hu
    ltac:(by rewrite Hbits)) as E1.
  fold ie in E1. rewrite Hh in E1.
  replace (4 + zlen (S1 ++ S2 ++ cap ++ tail)) with (zlen ie - 4) in E1
    by (unfold ie; rewrite !zlen_app, zlen_PUT, Hh; lia).
  rewrite (and_then_eq _ _ _ _ _ E1). clear E1.
  match goal with |- context [rsn_pairwise_stage ie ?d _ _] =>
    pose proof (rsn_pairwise_stage_put (hdr ++ RSN_SELECTOR_PUT gs) _ (S2 ++ cap ++ tail) d Hp) as E2 end.
  fold S1 in E2. rewrite <- zlen_app in E2. rewrite <- !app_assoc in E2. fold ie in E2.
  rewrite (and_then_eq _ _ _ _ _ E2). clear E2.
  match goal with |- context [parse_suites _ _ _ _ ie ?d _ _] =>
    pose proof (rsn_akm_stage_put (hdr ++ RSN_SELECTOR_PUT gs ++ S1) _ (cap ++ tail) d Ha) as E3 end.
  fold S2 in E3. rewrite <- zlen_app in E3. rewrite <- !app_assoc in E3. fold ie in E3.
  rewrite (and_then_eq _ _ _ _ _ E3). clear E3.
  match goal with |- context [capabilities_stage ie ?d _ _] =>
    pose proof (capabilities_stage_put (hdr ++ RSN_SELECTOR_PUT gs ++ S1 ++ S2) _ tail d
      (rsn_capab_range conf)) as E4 end.
  fold cap in E4. replace (2 + zlen tail) with (zlen (cap ++ tail)) in E4 by (by rewrite zlen_app).
  rewrite <- !app_assoc in E4. fold ie in E4. rewrite (and_then_eq _ _ _ _ _ E4). clear E4.
  match goal with |- context [pmkid_stage ie ?d _ _] =>
    destruct (rsn_tail_put conf pmkid_ (hdr ++ RSN_SELECTOR_PUT gs ++ S1 ++ S2 ++ cap) d Hk)
      as (pos & E5); [done..|] end.
  rewrite <- Htail in E5. rewrite <- !app_assoc in E5. fold ie in E5. exists pos. rewrite E5.
  unfold rsn_ie_read. by rewrite Hbits.
Qed.

(** The element as laid out is read back. *)
Lemma rsn_ie_reads conf pmkid_ body : rsn_ie_body conf pmkid_ = Some body ->
  wf_pmkid pmkid_ ->
  let ie := element WLAN_EID_RSN body in
  exists off, wpa_parse_wpa_ie_rsn ie (zlen ie) = Ok (0, rsn_ie_read conf pmkid_ off) /\
    match pmkid_ with Some k => rd_n ie off PMKID_LEN = Ok k | None => True end.
Proof.
  intros Hb Hk ie. pose proof (rsn_ie_body_len _ _ _ Hb Hk) as Hlen.
  unfold rsn_ie_body in Hb. destruct (rsn_group_suite _) as [gs|] eqn:Hgs; [|done].
  destruct (enabled rsn_pairwise_suites _) eqn:Hp; [done|].
  destruct (enabled rsn_akm_suites _) eqn:Ha; [done|]. apply (inj Some) in Hb.
  apply nonempty_enabled in Hp, Ha.
  set (hdr := [WLAN_EID_RSN; u8 (zlen body)] ++ WPA_PUT_LE16 RSN_VERSION).
  destruct (rsn_stages_read conf pmkid_ hdr gs _ eq_refl Hgs Hp Ha Hk eq_refl) as (pos & Hpos).
  set (S1 := suite_list_bytes rsn_pairwise_suites _) in *.
  set (S2 := suite_list_bytes rsn_akm_suites _) in *.
  set (cap := WPA_PUT_LE16 (rsn_capab conf)) in *.
  assert (hdr ++ RSN_SELECTOR_PUT gs ++ S1 ++ S2 ++ cap ++ pmkid_bytes conf pmkid_ ++
    mgmt_bytes conf = ie) as Hie.
  { unfold ie, element, hdr. by rewrite <- Hb, <- app_assoc. }
  rewrite Hie in Hpos. pose proof (zlen_nonneg body) as Hb0.
  assert (zlen ie = 2 + zlen body) as Hil by (unfold ie, element; by rewrite zlen_app).
  assert (4 <= zlen ie) as Hmin.
  { rewrite <- Hie, zlen_app. pose proof (zlen_nonneg (RSN_SELECTOR_PUT gs ++ S1 ++ S2 ++ cap ++
      pmkid_bytes conf pmkid_ ++ mgmt_bytes conf)). change (zlen hdr) with 4. lia. }
  unfold wpa_parse_wpa_ie_rsn. unfold sizeof_rsn_ie_hdr.
  rewrite (proj2 (Z.eqb_neq _ _)), (proj2 (Z.ltb_ge _ _)) by lia.
  assert (rd ie 0 = Ok WLAN_EID_RSN) as -> by (unfold ie; apply rd_lookup; done).
  assert (rd ie 1 = Ok (u8 (zlen body))) as -> by (unfold ie; apply rd_lookup; done).
  assert (WPA_GET_LE16 ie 2 = Ok RSN_VERSION) as ->.
  { rewrite <- Hie. unfold hdr. rewrite <- app_assoc. apply (WPA_GET_PUT_LE16 [_; _]). }
  cbn [mbind res_bind]. rewrite u8_id by (unfold is_byte; lia). rewrite !Z.eqb_refl.
  rewrite (proj2 (Z.eqb_eq _ _)) by lia. cbn [negb orb].
  rewrite Hpos. cbn [finish mbind res_bind]. eexists. split; [reflexivity|].
  destruct pmkid_ as [k|]; [|done]. cbn in Hk.
  replace ie with ((hdr ++ RSN_SELECTOR_PUT gs ++ S1 ++ S2 ++ cap ++ WPA_PUT_LE16 1) ++ k ++
    mgmt_bytes conf) by (rewrite <- Hie; unfold pmkid_bytes; by rewrite <- !app_assoc).
  replace (zlen (hdr ++ RSN_SELECTOR_PUT gs ++ S1 ++ S2 ++ cap) + 2) with
    (zlen (hdr ++ RSN_SELECTOR_PUT gs ++ S1 ++ S2 ++ cap ++ WPA_PUT_LE16 1))
    by (rewrite !zlen_app, zlen_LE16; lia).
  rewrite <- Hk. apply rd_n_app_mid.
Qed.

(** ([wpa_write_rsn_ie], [wpa_parse_wpa_ie_rsn]): the parser reads the RSN
    element of a configuration back: the ciphers, the key management methods, the
    capabilities, the PMKID and the management group cipher. *)
Theorem rsn_ie_roundtrip conf pmkid_ body : rsn_ie_body conf pmkid_ = Some body ->
  wf_pmkid pmkid_ ->
  let ie := element WLAN_EID_RSN body in
  exists off, wpa_parse_wpa_ie_rsn ie (zlen ie) = Ok (0, rsn_ie_read conf pmkid_ off) /\
    match pmkid_ with Some k => rd_n ie off PMKID_LEN = Ok k | None => True end.
Proof. apply rsn_ie_reads. Qed.

(** ** The writers *)

(** [buf] is [buf0] with [d] at offset [b]. *)
Definition wrote (buf0 : list Z) (b : Z) (d buf : list Z) : Prop :=
  0 <= b /\ b + zlen d <= zlen buf0 /\
  buf = take (Z.to_nat b) buf0 ++ d ++ drop (Z.to_nat b + length d) buf0.

Lemma wrote_nil buf b : 0 <= b <= zlen buf -> wrote buf b [] buf.
Proof.
  intros Hb. unfold wrote. split; [lia|]. split; [change (zlen []) with 0; lia|].
  cbn [app length]. by rewrite Nat.add_0_r, take_drop.
Qed.

(** What is behind the written part may be taken as written. *)
Lemma wrote_extend buf0 b d buf n : wrote buf0 b d buf -> 0 <= n ->
  b + zlen d + n <= zlen buf0 -> exists old, zlen old = n /\ wrote buf0 b (d ++ old) buf.
Proof.
  intros (Hb & Hl & ->) Hn Hle.
  exists (take (Z.to_nat n) (drop (Z.to_nat b + length d) buf0)).
  assert (zlen (take (Z.to_nat n) (drop (Z.to_nat b + length d) buf0)) = n) as Hlen.
  { unfold zlen in *. rewrite length_take, length_drop. lia. }
  split; [done|]. split; [done|]. split; [rewrite zlen_app; lia|]. f_equal.
  rewrite <- app_assoc. f_equal.
  rewrite <- (take_drop (Z.to_nat n) (drop (Z.to_nat b + length d) buf0)) at 1. f_equal.
  rewrite drop_drop. f_equal. rewrite length_app. unfold zlen in Hlen. lia.
Qed.

(** Overwriting a part of what is written. *)
Lemma wrote_over buf0 b d1 d2 d2' d3 buf : wrote buf0 b (d1 ++ d2 ++ d3) buf ->
  zlen d2 = zlen d2' ->
  exists buf', wr_n buf (b + zlen d1) d2' = Ok buf' /\ wrote buf0 b (d1 ++ d2' ++ d3) buf'.
Proof.
  intros (Hb & Hl & ->) Hd. unfold zlen in *.
  assert (length d2 = length d2') as Hd' by lia. rewrite !length_app in *.
  set (p := take (Z.to_nat b) buf0). set (r := drop _ buf0).
  assert (b + Z.of_nat (length d1) = zlen (p ++ d1)) as ->.
  { unfold zlen, p. rewrite length_app, length_take. lia. }
  replace (p ++ (d1 ++ d2 ++ d3) ++ r) with ((p ++ d1) ++ d2 ++ d3 ++ r)
    by (by rewrite <- !app_assoc).
  rewrite wr_n_app by done. eexists. split; [done|]. split; [done|].
  unfold zlen. rewrite !length_app. split; [lia|]. unfold p, r. rewrite <- !app_assoc.
  do 5 f_equal. lia.
Qed.

Lemma wrote_append buf0 b d d' buf : wrote buf0 b d buf -> b + zlen d + zlen d' <= zlen buf0 ->
  exists buf', wr_n buf (b + zlen d) d' = Ok buf' /\ wrote buf0 b (d ++ d') buf'.
Proof.
  intros Hw Hle. destruct (wrote_extend _ _ _ _ (zlen d') Hw (zlen_nonneg _) Hle)
    as (old & Hold & Hw').
  destruct (wrote_over buf0 b d old d' [] buf) as (buf' & ? & Hw'');
    [by rewrite app_nil_r|done|]. exists buf'. rewrite app_nil_r in Hw''. done.
Qed.

Lemma wr_wr_n l i v l' : wr_n l i [v] = Ok l' -> wr l i v = Ok l'.
Proof.
  intros (H1 & H2 & ->)%wr_n_inv. change (zlen [v]) with 1 in H2. rewrite wr_ok by lia.
  f_equal. cbn [length app]. rewrite (insert_take_drop l (Z.to_nat i) v) by (unfold zlen in *; lia).
  rewrite Nat.add_1_r. done.
Qed.

Lemma put_suites_wrote suites mask buf0 b d buf n :
  wrote buf0 b d buf -> b + zlen d + 4 * zlen suites <= zlen buf0 ->
  exists buf', put_suites suites mask buf (b + zlen d) n =
      Ok (buf', b + zlen (d ++ put_all (enabled suites mask)), n + zlen (enabled suites mask)) /\
    wrote buf0 b (d ++ put_all (enabled suites mask)) buf'.
Proof.
  revert d buf n. induction suites as [|[bit sel] suites IH]; intros d buf n Hw Hle.
  - exists buf. unfold put_all. cbn. rewrite app_nil_r. split; [|done].
    change (zlen []) with 0. by rewrite Z.add_0_r.
  - rewrite zlen_cons in Hle. cbn [put_suites]. unfold enabled. rewrite filter_cons. cbn [fst].
    pose proof (zlen_nonneg suites). destruct (has_bits mask bit) eqn:Hb.
    + rewrite decide_True by done. cbn [map snd].
      destruct (wrote_append _ _ _ (RSN_SELECTOR_PUT sel) _ Hw) as (buf1 & Heq & Hw1);
        [rewrite zlen_PUT; lia|]. rewrite (bind_eq _ _ _ Heq).
      destruct (IH (d ++ RSN_SELECTOR_PUT sel) buf1 (n + 1) Hw1) as (buf' & Heq' & Hw');
        [rewrite zlen_app, zlen_PUT; lia|].
      exists buf'. unfold RSN_SELECTOR_LEN.
      replace (b + zlen d + 4) with (b + zlen (d ++ RSN_SELECTOR_PUT sel))
        by (rewrite zlen_app, zlen_PUT; lia).
      rewrite Heq'. fold (enabled suites mask). unfold put_all in *. cbn [map concat].
      rewrite !app_assoc. rewrite zlen_cons. split; [|done]. do 2 f_equal. lia.
    + rewrite decide_False by congruence. fold (enabled suites mask). apply IH; [done|lia].
Qed.

Lemma put_suite_list_wrote suites mask buf0 b d buf :
  wrote buf0 b d buf -> b + zlen d + 2 + 4 * zlen suites <= zlen buf0 ->
  exists buf', match enabled suites mask with
    | [] => put_suite_list suites mask buf (b + zlen d) = Ok (None, buf')
    | _ :: _ =>
        put_suite_list suites mask buf (b + zlen d) =
          Ok (Some (b + zlen (d ++ suite_list_bytes suites mask)), buf') /\
        wrote buf0 b (d ++ suite_list_bytes suites mask) buf'
    end.
Proof.
  intros Hw Hle. unfold put_suite_list. pose proof (zlen_nonneg suites).
  destruct (wrote_extend _ _ _ _ 2 Hw) as (old & Hold & Hw1); [lia..|].
  replace (b + zlen d + 2) with (b + zlen (d ++ old)) by (rewrite zlen_app; lia).
  destruct (put_suites_wrote suites mask buf0 b (d ++ old) buf 0 Hw1) as (buf1 & Heq & Hw2);
    [rewrite zlen_app; lia|].
  rewrite (bind_eq _ _ _ Heq). cbn beta iota. rewrite Z.add_0_l.
  destruct (enabled suites mask) as [|s l] eqn:He; [by exists buf1|].
  rewrite <- He in *. assert (0 < zlen (enabled suites mask)) by (rewrite He; zlen_lia).
  rewrite (proj2 (Z.eqb_neq _ _)) by lia. rewrite <- app_assoc in Hw2.
  destruct (wrote_over buf0 b d old (WPA_PUT_LE16 (zlen (enabled suites mask)))
    (put_all (enabled suites mask)) buf1 Hw2) as (buf' & Heq' & Hw'); [done|].
  exists buf'. rewrite (bind_eq _ _ _ Heq'). unfold suite_list_bytes. split; [|done].
  do 4 f_equal. rewrite !zlen_app, zlen_LE16. lia.
Qed.

(** The header: the identifier now, the length when the rest is there. *)
Lemma wrote_id buf0 b id : 0 <= b -> b + 2 <= zlen buf0 ->
  exists buf x, wr buf0 b id = Ok buf /\ wrote buf0 b [id; x] buf.
Proof.
  intros Hb Hl. destruct (wrote_append buf0 b [] [id] buf0) as (buf & Heq & Hw);
    [apply wrote_nil; lia|change (zlen (@nil Z)) with 0; change (zlen [id]) with 1; lia|].
  change (zlen (@nil Z)) with 0 in Heq. rewrite Z.add_0_r in Heq. apply wr_wr_n in Heq.
  cbn [app] in Hw. destruct (wrote_extend _ _ _ _ 1 Hw) as (old & Hold & Hw'); [lia|change (zlen [id]) with 1; lia|].
  assert (exists x, old = [x]) as [x ->].
  { destruct old as [|x [|y l]]; [done|by exists x|]. rewrite !zlen_cons in Hold.
    pose proof (zlen_nonneg l). lia. }
  by exists buf, x.
Qed.

Lemma wrote_len buf0 b id x body buf : wrote buf0 b ([id; x] ++ body) buf ->
  exists buf', wr buf (b + 1) (u8 (zlen body)) = Ok buf' /\
    wrote buf0 b (element id body) buf'.
Proof.
  intros Hw. destruct (wrote_over buf0 b [id] [x] [u8 (zlen body)] body buf Hw)
    as (buf' & Heq & Hw'); [done|].
  exists buf'. split; [by apply wr_wr_n|done].
Qed.

Lemma rsn_put_pmkid_wrote pmkid_ buf0 b len d buf : wf_pmkid pmkid_ ->
  wrote buf0 b d buf -> zlen d + 18 <= len -> b + len <= zlen buf0 ->
  let d' := match pmkid_ with Some k => WPA_PUT_LE16 1 ++ k | None => [] end in
  exists buf', rsn_put_pmkid pmkid_ buf b len (b + zlen d) = Ok (Some (b + zlen (d ++ d')), buf') /\
    wrote buf0 b (d ++ d') buf'.
Proof.
  intros Hk Hw Hl Hb d'. unfold rsn_put_pmkid. destruct pmkid_ as [k|]; subst d'.
  - cbn in Hk. unfold PMKID_LEN in *. rewrite (proj2 (Z.ltb_ge _ _)) by lia.
    destruct (wrote_append _ _ _ (WPA_PUT_LE16 1) _ Hw) as (buf1 & Heq1 & Hw1);
      [rewrite zlen_LE16; lia|].
    rewrite (bind_eq _ _ _ Heq1). rewrite <- Hk, rd_n_all. cbn [mbind res_bind].
    destruct (wrote_append _ _ _ k _ Hw1) as (buf2 & Heq2 & Hw2);
      [rewrite zlen_app, zlen_LE16; lia|].
    replace (b + zlen d + 2) with (b + zlen (d ++ WPA_PUT_LE16 1))
      by (rewrite zlen_app, zlen_LE16; lia).
    rewrite (bind_eq _ _ _ Heq2). exists buf2. rewrite <- app_assoc in Hw2. split; [|done].
    do 3 f_equal. rewrite !zlen_app, zlen_LE16. lia.
  - exists buf. rewrite app_nil_r. done.
Qed.

Lemma rsn_put_mgmt_wrote conf pmkid_ buf0 b len d buf :
  wrote buf0 b d buf -> zlen d + 6 <= len -> b + len <= zlen buf0 ->
  let d' := match pmkid_ with Some _ => [] | None => pmkid_bytes conf None end ++ mgmt_bytes conf in
  exists buf', rsn_put_mgmt conf pmkid_ buf b len (b + zlen d) =
      Ok (Some (b + zlen (d ++ d')), buf') /\
    wrote buf0 b (d ++ d') buf'.
Proof.
  intros Hw Hl Hb d'. unfold rsn_put_mgmt. subst d'. unfold mgmt_bytes, pmkid_bytes, uses_mfp.
  destruct (negb _).
  2: { exists buf. replace (match pmkid_ with Some _ => [] | None => [] end ++ [] : list Z)
    with (@nil Z) by (by destruct pmkid_). by rewrite app_nil_r. }
  rewrite (proj2 (Z.ltb_ge _ _)) by lia.
  set (c := match pmkid_ with Some _ => [] | None => WPA_PUT_LE16 0 end).
  assert (exists buf1, match pmkid_ with
      | Some _ => mret (buf, b + zlen d)
      | None => buf' ← wr_n buf (b + zlen d) (WPA_PUT_LE16 0); mret (buf', b + zlen d + 2)
      end = Ok (buf1, b + zlen (d ++ c)) /\ wrote buf0 b (d ++ c) buf1) as (buf1 & Heq1 & Hw1).
  { subst c. destruct pmkid_.
    - exists buf. by rewrite app_nil_r.
    - destruct (wrote_append _ _ _ (WPA_PUT_LE16 0) _ Hw) as (buf1 & Heq1 & Hw1);
        [rewrite zlen_LE16; lia|].
      exists buf1. rewrite (bind_eq _ _ _ Heq1). split; [|done]. do 2 f_equal.
      rewrite zlen_app, zlen_LE16. lia. }
  rewrite (bind_eq _ _ _ Heq1). cbn beta iota.
  assert (zlen c <= 2) by (subst c; destruct pmkid_; done).
  destruct (wrote_append _ _ _ (RSN_SELECTOR_PUT RSN_CIPHER_SUITE_AES_128_CMAC) _ Hw1)
    as (buf2 & Heq2 & Hw2); [rewrite zlen_app, zlen_PUT; lia|].
  rewrite (bind_eq _ _ _ Heq2). exists buf2. rewrite <- app_assoc in Hw2. split; [|done].
  unfold RSN_SELECTOR_LEN. do 3 f_equal. rewrite !zlen_app, zlen_PUT. lia.
Qed.

(** What a writer of an element gives: the length and the buffer, or -1. *)
Definition writes (buf0 : list Z) (b : Z) (id : Z) (body : option (list Z))
    (m : res (Z * list Z)) : Prop :=
  match body with
  | Some body => exists buf, m = Ok (zlen (element id body), buf) /\
      wrote buf0 b (element id body) buf
  | None => exists buf, m = Ok (-1, buf)
  end.

Lemma writes_done buf0 b id x body buf pos : wrote buf0 b ([id; x] ++ body) buf ->
  pos = b + zlen ([id; x] ++ body) ->
  writes buf0 b id (Some body)
    (buf ← wr buf (b + 1) (u8 (pos - b - 2)); mret (pos - b, buf)).
Proof.
  intros Hw ->. destruct (wrote_len _ _ _ _ _ _ Hw) as (buf' & Heq & Hw').
  replace (b + zlen ([id; x] ++ body) - b - 2) with (zlen body) by (rewrite zlen_app; change (zlen [id; x]) with 2; lia).
  rewrite (bind_eq _ _ _ Heq). exists buf'. split; [|done]. unfold element.
  do 2 f_equal. rewrite !zlen_app. change (zlen [id; x]) with 2.
  change (zlen [id; u8 (zlen body)]) with 2. lia.
Qed.

Lemma wpa_write_rsn_ie_ok conf buf0 b len pmkid_ : wf_pmkid pmkid_ ->
  0 <= b -> 66 <= len -> b + len <= zlen buf0 ->
  writes buf0 b WLAN_EID_RSN (rsn_ie_body conf pmkid_) (wpa_write_rsn_ie conf buf0 b len pmkid_).
Proof.
  intros Hk Hb Hlen Hle. unfold wpa_write_rsn_ie, sizeof_rsn_ie_hdr, RSN_SELECTOR_LEN.
  destruct (wrote_id buf0 b WLAN_EID_RSN) as (buf1 & x & Heq1 & Hw1); [lia..|].
  rewrite (bind_eq _ _ _ Heq1).
  destruct (wrote_append _ _ _ (WPA_PUT_LE16 RSN_VERSION) _ Hw1) as (buf2 & Heq2 & Hw2);
    [change (zlen [WLAN_EID_RSN; x]) with 2; rewrite zlen_LE16; lia|].
  rewrite (bind_eq (wr_n buf1 _ _) _ _ Heq2).
  unfold rsn_ie_body. destruct (rsn_group_suite _) as [gs|]; [|by eexists].
  destruct (wrote_append _ _ _ (RSN_SELECTOR_PUT gs) _ Hw2) as (buf3 & Heq3 & Hw3);
    [change (zlen ([WLAN_EID_RSN; x] ++ _)) with 4; rewrite zlen_PUT; lia|].
  rewrite (bind_eq (wr_n buf2 _ _) _ _ Heq3).
  set (d3 := ([WLAN_EID_RSN; x] ++ WPA_PUT_LE16 RSN_VERSION) ++ RSN_SELECTOR_PUT gs) in *.
  assert (zlen d3 = 8) as Hd3 by done.
  replace (b + 4 + 4) with (b + zlen d3) by (rewrite Hd3; lia).
  pose proof (enabled_length rsn_pairwise_suites (Conf.rsn_pairwise conf)) as Hp.
  pose proof (enabled_length rsn_akm_suites (Conf.wpa_key_mgmt conf)) as Ha.
  change (zlen rsn_pairwise_suites) with 3 in Hp. change (zlen rsn_akm_suites) with 4 in Ha.
  destruct (put_suite_list_wrote rsn_pairwise_suites (Conf.rsn_pairwise conf) _ _ _ _ Hw3)
    as (buf4 & H4); [change (zlen rsn_pairwise_suites) with 3; lia|].
  pose proof (zlen_suite_list rsn_pairwise_suites (Conf.rsn_pairwise conf)) as HS1.
  set (S1 := suite_list_bytes rsn_pairwise_suites _) in *.
  destruct (enabled rsn_pairwise_suites _);
    [rewrite (bind_eq _ _ _ H4); by eexists|destruct H4 as [H4 Hw4]].
  rewrite (bind_eq _ _ _ H4). cbn beta iota.
  destruct (put_suite_list_wrote rsn_akm_suites (Conf.wpa_key_mgmt conf) _ _ _ _ Hw4)
    as (buf5 & H5); [rewrite zlen_app; change (zlen rsn_akm_suites) with 4; lia|].
  pose proof (zlen_suite_list rsn_akm_suites (Conf.wpa_key_mgmt conf)) as HS2.
  set (S2 := suite_list_bytes rsn_akm_suites _) in *.
  destruct (enabled rsn_akm_suites _);
    [rewrite (bind_eq _ _ _ H5); by eexists|destruct H5 as [H5 Hw5]].
  rewrite (bind_eq _ _ _ H5). cbn beta iota.
  set (cap := WPA_PUT_LE16 (rsn_capab conf)). assert (zlen cap = 2) as Hcap by done.
  destruct (wrote_append _ _ _ cap _ Hw5) as (buf6 & Heq6 & Hw6); [rewrite !zlen_app; lia|].
  rewrite (bind_eq _ _ _ Heq6).
  set (d6 := ((d3 ++ S1) ++ S2) ++ cap) in *. assert (zlen d6 <= 42) as Hd6
    by (subst d6; rewrite !zlen_app; lia).
  replace (b + zlen ((d3 ++ S1) ++ S2) + 2) with (b + zlen d6) by (subst d6; rewrite zlen_app; lia).
  destruct (rsn_put_pmkid_wrote pmkid_ _ _ len _ _ Hk Hw6) as (buf7 & H7 & Hw7); [lia..|].
  rewrite (bind_eq _ _ _ H7). cbn beta iota.
  destruct (rsn_put_mgmt_wrote conf pmkid_ _ _ len _ _ Hw7) as (buf8 & H8 & Hw8);
    [rewrite zlen_app; destruct pmkid_ as [k|]; cbn in Hk; cbv iota;
     rewrite ?zlen_app, ?zlen_LE16;
     unfold PMKID_LEN in *; change (zlen (@nil Z)) with 0; lia|lia|].
  rewrite (bind_eq _ _ _ H8). cbn beta iota.
  set (d8 := (d6 ++ _) ++ _) in H8, Hw8 |- *.
  assert (d8 = [WLAN_EID_RSN; x] ++ WPA_PUT_LE16 RSN_VERSION ++ RSN_SELECTOR_PUT gs ++
    S1 ++ S2 ++ cap ++ pmkid_bytes conf pmkid_ ++ mgmt_bytes conf) as Hd8.
  { subst d8 d6 d3. unfold pmkid_bytes. destruct pmkid_; by rewrite <- ?app_assoc. }
  rewrite Hd8 in *. by apply (writes_done _ _ _ x _ buf8).
Qed.

Lemma wpa_write_wpa_ie_ok conf buf0 b : 0 <= b -> b + 38 <= zlen buf0 ->
  writes buf0 b WLAN_EID_VENDOR_SPECIFIC (wpa_ie_body conf) (wpa_write_wpa_ie conf buf0 b).
Proof.
  intros Hb Hle. unfold wpa_write_wpa_ie, sizeof_wpa_ie_hdr, WPA_SELECTOR_LEN.
  destruct (wrote_id buf0 b WLAN_EID_VENDOR_SPECIFIC) as (buf1 & x & Heq1 & Hw1); [lia..|].
  rewrite (bind_eq _ _ _ Heq1).
  destruct (wrote_append _ _ _ (RSN_SELECTOR_PUT WPA_OUI_TYPE) _ Hw1) as (buf2 & Heq2 & Hw2);
    [change (zlen [WLAN_EID_VENDOR_SPECIFIC; x]) with 2; rewrite zlen_PUT; lia|].
  rewrite (bind_eq (wr_n buf1 _ _) _ _ Heq2).
  destruct (wrote_append _ _ _ (WPA_PUT_LE16 WPA_VERSION) _ Hw2) as (buf3 & Heq3 & Hw3);
    [change (zlen ([WLAN_EID_VENDOR_SPECIFIC; x] ++ _)) with 6; rewrite zlen_LE16; lia|].
  rewrite (bind_eq (wr_n buf2 _ _) _ _ Heq3).
  unfold wpa_ie_body. destruct (wpa_group_suite _) as [gs|]; [|by eexists].
  destruct (wrote_append _ _ _ (RSN_SELECTOR_PUT gs) _ Hw3) as (buf4 & Heq4 & Hw4);
    [change (zlen (([WLAN_EID_VENDOR_SPECIFIC; x] ++ _) ++ _)) with 8; rewrite zlen_PUT; lia|].
  rewrite (bind_eq (wr_n buf3 _ _) _ _ Heq4).
  set (d4 := (_ ++ WPA_PUT_LE16 WPA_VERSION) ++ RSN_SELECTOR_PUT gs) in *.
  assert (zlen d4 = 12) as Hd4 by done.
  replace (b + 8 + 4) with (b + zlen d4) by (rewrite Hd4; lia).
  pose proof (enabled_length wpa_pairwise_suites (Conf.wpa_pairwise conf)) as Hp.
  pose proof (enabled_length wpa_akm_suites (Conf.wpa_key_mgmt conf)) as Ha.
  change (zlen wpa_pairwise_suites) with 3 in Hp. change (zlen wpa_akm_suites) with 2 in Ha.
  destruct (put_suite_list_wrote wpa_pairwise_suites (Conf.wpa_pairwise conf) _ _ _ _ Hw4)
    as (buf5 & H5); [change (zlen wpa_pairwise_suites) with 3; lia|].
  pose proof (zlen_suite_list wpa_pairwise_suites (Conf.wpa_pairwise conf)) as HS1.
  set (S1 := suite_list_bytes wpa_pairwise_suites _) in *.
  destruct (enabled wpa_pairwise_suites _);
    [rewrite (bind_eq _ _ _ H5); by eexists|destruct H5 as [H5 Hw5]].
  rewrite (bind_eq _ _ _ H5). cbn beta iota.
  destruct (put_suite_list_wrote wpa_akm_suites (Conf.wpa_key_mgmt conf) _ _ _ _ Hw5)
    as (buf6 & H6); [rewrite zlen_app; change (zlen wpa_akm_suites) with 2; lia|].
  set (S2 := suite_list_bytes wpa_akm_suites _) in *.
  destruct (enabled wpa_akm_suites _);
    [rewrite (bind_eq _ _ _ H6); by eexists|destruct H6 as [H6 Hw6]].
  rewrite (bind_eq _ _ _ H6). cbn beta iota.
  set (d6 := (d4 ++ S1) ++ S2) in H6, Hw6 |- *.
  assert (d6 = [WLAN_EID_VENDOR_SPECIFIC; x] ++ RSN_SELECTOR_PUT WPA_OUI_TYPE ++
    WPA_PUT_LE16 WPA_VERSION ++ RSN_SELECTOR_PUT gs ++ S1 ++ S2) as Hd6
    by (subst d6 d4; by rewrite <- !app_assoc).
  rewrite Hd6 in *. by apply (writes_done _ _ _ x _ buf6).
Qed.

(** The elements the access point advertises. *)
Definition advertised_ie (conf : Conf.wpa_auth_config) : option (list Z) :=
  rsn ← (if has_bits (Conf.wpa conf) WPA_PROTO_RSN
         then element WLAN_EID_RSN <$> rsn_ie_body conf None else Some []);
  wpa ← (if has_bits (Conf.wpa conf) WPA_PROTO_WPA
         then element WLAN_EID_VENDOR_SPECIFIC <$> wpa_ie_body conf else Some []);
  Some (rsn ++ wpa).

Lemma wrote_read buf0 b d buf : wrote buf0 b d buf -> rd_n buf b (zlen d) = Ok d.
Proof.
  intros (Hb & Hl & ->). pose proof (zlen_nonneg d).
  assert (b = zlen (take (Z.to_nat b) buf0)) as Hz by (unfold zlen in *; rewrite length_take; lia).
  pose proof (rd_n_app_mid (take (Z.to_nat b) buf0) d (drop (Z.to_nat b + length d) buf0)) as Hr.
  by rewrite <- Hz in Hr.
Qed.

Lemma wrote_zlen buf0 b d buf : wrote buf0 b d buf -> zlen buf = zlen buf0.
Proof.
  intros (Hb & Hl & ->). unfold zlen in *. rewrite !length_app, length_take, length_drop. lia.
Qed.

(** Two consecutive elements. *)
Lemma wrote_trans buf0 b d1 buf1 d2 buf2 :
  wrote buf0 b d1 buf1 -> wrote buf1 (b + zlen d1) d2 buf2 -> wrote buf0 b (d1 ++ d2) buf2.
Proof.
  intros (Hb & Hl & ->) (Hb' & Hl' & ->). split; [done|]. unfold zlen in *.
  set (p := take (Z.to_nat b) buf0). set (r := drop (Z.to_nat b + length d1) buf0).
  assert (length p = Z.to_nat b) as Hp by (unfold p; rewrite length_take; lia).
  assert (length r = length buf0 - (Z.to_nat b + length d1))%nat as Hr
    by (unfold r; by rewrite length_drop).
  rewrite !length_app in *. fold p r in Hl'. split; [lia|].
  assert (Z.to_nat (b + Z.of_nat (length d1)) = length (p ++ d1)) as ->
    by (rewrite length_app; lia).
  rewrite (app_assoc p d1 r), take_app_length.
  rewrite drop_app_ge by lia. rewrite <- !app_assoc. do 3 f_equal.
  unfold r. rewrite drop_drop. f_equal. rewrite !length_app, Hp. lia.
Qed.

Lemma wpa_ie_body_len conf body : wpa_ie_body conf = Some body -> zlen body <= 36.
Proof.
  unfold wpa_ie_body. intros H.
  pose proof (enabled_length wpa_pairwise_suites (Conf.wpa_pairwise conf)) as Hp.
  pose proof (enabled_length wpa_akm_suites (Conf.wpa_key_mgmt conf)) as Ha.
  change (zlen wpa_pairwise_suites) with 3 in Hp. change (zlen wpa_akm_suites) with 2 in Ha.
  destruct (wpa_group_suite _); [|done].
  repeat case_match; try done. apply (inj Some) in H. subst body.
  rewrite !zlen_app, !zlen_suite_list, !zlen_LE16, !zlen_PUT.
  repeat match goal with H : enabled _ _ = _ |- _ => rewrite H; clear H end. lia.
Qed.

Lemma zlen_element id body : zlen (element id body) = 2 + zlen body.
Proof. unfold element. by rewrite zlen_app. Qed.

(** [wpa_auth_gen_wpa_ie] as an equation. *)
Lemma gen_wpa_ie_eq e stack a : zlen stack = 128 ->
  wpa_auth_gen_wpa_ie e stack a =
  match advertised_ie (Auth.conf a) with
  | Some ie =>
      if malloc_ok e (zlen ie)
      then Ok (0, a <| Auth.wpa_ie := Some ie |> <| Auth.wpa_ie_len := zlen ie |>)
      else Ok (-1, a <| Auth.wpa_ie := None |>)
  | None => Ok (-1, a)
  end.
Proof.
  intros Hs. unfold wpa_auth_gen_wpa_ie, advertised_ie. set (conf := Auth.conf a).
  assert (match (if has_bits (Conf.wpa conf) WPA_PROTO_RSN
                 then element WLAN_EID_RSN <$> rsn_ie_body conf None else Some []) with
    | Some ie => zlen ie <= 64 /\ exists buf, (if has_bits (Conf.wpa conf) WPA_PROTO_RSN
        then wpa_write_rsn_ie conf stack 0 128 None else mret (0, stack)) = Ok (zlen ie, buf) /\
        wrote stack 0 ie buf
    | None => exists buf, (if has_bits (Conf.wpa conf) WPA_PROTO_RSN
        then wpa_write_rsn_ie conf stack 0 128 None else mret (0, stack)) = Ok (-1, buf)
    end) as H1.
  { destruct (has_bits _ _); [|split; [done|exists stack; split; [done|apply wrote_nil; lia]]].
    pose proof (wpa_write_rsn_ie_ok conf stack 0 128 None I ltac:(lia) ltac:(lia) ltac:(lia)) as Hw.
    pose proof (rsn_ie_body_len conf None) as Hl.
    destruct (rsn_ie_body conf None) as [body|]; [|exact Hw]. specialize (Hl body eq_refl I).
    split; [rewrite zlen_element; lia|exact Hw]. }
  destruct (if has_bits (Conf.wpa conf) WPA_PROTO_RSN then _ else Some []) as [ie1|];
    [destruct H1 as (Hl1 & buf1 & Heq1 & Hw1)|destruct H1 as (buf1 & Heq1)];
    rewrite (bind_eq _ _ _ Heq1); cbn beta iota; [|done].
  pose proof (zlen_nonneg ie1). rewrite (proj2 (Z.ltb_ge _ _)) by lia. cbn [mbind option_bind].
  pose proof (wrote_zlen _ _ _ _ Hw1) as Hb1.
  assert (match (if has_bits (Conf.wpa conf) WPA_PROTO_WPA
                 then element WLAN_EID_VENDOR_SPECIFIC <$> wpa_ie_body conf else Some []) with
    | Some ie => exists buf, (if has_bits (Conf.wpa conf) WPA_PROTO_WPA
        then wpa_write_wpa_ie conf buf1 (zlen ie1) else mret (0, buf1)) = Ok (zlen ie, buf) /\
        wrote buf1 (zlen ie1) ie buf
    | None => exists buf, (if has_bits (Conf.wpa conf) WPA_PROTO_WPA
        then wpa_write_wpa_ie conf buf1 (zlen ie1) else mret (0, buf1)) = Ok (-1, buf)
    end) as H2.
  { destruct (has_bits (Conf.wpa conf) WPA_PROTO_WPA);
      [|exists buf1; split; [done|apply wrote_nil; lia]].
    pose proof (wpa_write_wpa_ie_ok conf buf1 (zlen ie1) ltac:(lia) ltac:(lia)) as Hw.
    by destruct (wpa_ie_body conf). }
  destruct (if has_bits (Conf.wpa conf) WPA_PROTO_WPA then _ else Some []) as [ie2|];
    [destruct H2 as (buf2 & Heq2 & Hw2)|destruct H2 as (buf2 & Heq2)];
    rewrite (bind_eq _ _ _ Heq2); cbn beta iota; [|done].
  pose proof (zlen_nonneg ie2). rewrite (proj2 (Z.ltb_ge _ _)) by lia. cbn [mbind option_bind].
  rewrite <- zlen_app. destruct (malloc_ok e _); [|done].
  by rewrite (bind_eq _ _ _ (wrote_read _ _ _ _ (wrote_trans stack 0 ie1 buf1 ie2 buf2 Hw1 Hw2))).
Qed.

(** C38 ([wpa_auth_gen_wpa_ie]): in the 128 octets on the stack the two writers
    leave exactly the elements the standard describes for the configuration, RSN
    before WPA, and never write outside.  They become the element to advertise.
    Without a cipher or key management to advertise nothing changes; without
    memory the element is gone but the length of the old one stays. *)
Theorem wpa_auth_gen_wpa_ie_spec e stack a : zlen stack = 128 ->
  wpa_auth_gen_wpa_ie e stack a =
  match advertised_ie (Auth.conf a) with
  | Some ie =>
      if malloc_ok e (zlen ie)
      then Ok (0, a <| Auth.wpa_ie := Some ie |> <| Auth.wpa_ie_len := zlen ie |>)
      else Ok (-1, a <| Auth.wpa_ie := None |>)
  | None => Ok (-1, a)
  end.
Proof. apply gen_wpa_ie_eq. Qed.

(** ** The parsers stay inside the element *)

Section parsers.
Context (ie : list Z) (len : Z).
Context (Hie : bytes ie) (Hlen : 0 <= len <= zlen ie).

(** The PMKIDs announced are there. *)
Definition pmkids_inside (data : wpa_ie_data) : Prop :=
  0 <= num_pmkid data /\
  match pmkid data with
  | Some p => 0 <= p /\ p + num_pmkid data * PMKID_LEN <= len
  | None => num_pmkid data = 0
  end.

Definition stage_ok (s : stage) : Prop :=
  match s with
  | Return r data => r <> 0
  | Next data pos room => 0 <= pos /\ 0 <= room /\ pos + room = len /\ pmkids_inside data
  end.
Definition stage_runs (m : res stage) : Prop := exists s, m = Ok s /\ stage_ok s.

Lemma and_then_runs m k : stage_runs m ->
  (forall data pos room, stage_ok (Next data pos room) -> stage_runs (k data pos room)) ->
  stage_runs (and_then m k).
Proof using.
  intros (s & -> & Hs) Hk. destruct s as [r data|data pos room]; [|by apply Hk].
  by exists (Return r data).
Qed.

Lemma runs_return r data : r <> 0 -> stage_runs (mret (Return r data)).
Proof using. intros. by eexists. Qed.
Lemma runs_next data pos room : stage_ok (Next data pos room) ->
  stage_runs (mret (Next data pos room)).
Proof using. intros. by eexists. Qed.

(** A reader of a suite inside the element. *)
Definition reads_inside (f : list Z -> Z -> res Z) : Prop :=
  forall pos, 0 <= pos -> pos + 4 <= zlen ie -> no_fault (f ie pos).

Lemma reads_inside_ok f g : reads f g -> reads_inside f.
Proof using Hie.
  intros Hf pos H0 H1. rewrite Hf. destruct (WPA_GET_BE32_total ie pos Hie H0 H1) as (v & Hv & _).
  unfold RSN_SELECTOR_GET. rewrite Hv. by eexists.
Qed.

Lemma suites_loop_runs f n pos acc : reads_inside f -> 0 <= pos ->
  pos + 4 * Z.of_nat n <= zlen ie -> no_fault (suites_loop f ie n pos acc).
Proof using.
  intros Hf. revert pos acc. induction n as [|n IH]; intros pos acc H0 H1; [by eexists|].
  cbn [suites_loop]. apply no_fault_bind; [apply Hf; lia|]. intros v _.
  unfold RSN_SELECTOR_LEN. apply IH; lia.
Qed.

Lemma parse_suites_runs f set err short data pos room : reads_inside f ->
  (forall v d, pmkids_inside d -> pmkids_inside (set v d)) -> err <> 0 -> short <> 0 ->
  stage_ok (Next data pos room) -> stage_runs (parse_suites f set err short ie data pos room).
Proof using Hie Hlen.
  intros Hf Hset He Hsh (Hp & Hl & Hpl & Hd). unfold parse_suites.
  destruct (Z.leb_spec 2 room).
  - destruct (WPA_GET_LE16_total ie pos Hie) as (v & -> & Hv); [lia..|]. cbn [mbind res_bind].
    unfold RSN_SELECTOR_LEN. destruct (Z.eqb_spec v 0); [by apply runs_return|]. cbn [orb].
    destruct (Z.ltb_spec (room - 2) (v * 4)); [by apply runs_return|].
    destruct (suites_loop_runs f (Z.to_nat v) (pos + 2) 0 Hf) as (acc & ->); [lia..|].
    apply runs_next. cbn. split_and!; [lia..|]. by apply Hset.
  - destruct (room =? 1); [by apply runs_return|]. by apply runs_next.
Qed.

Lemma rsn_group_stage_runs data pos room : stage_ok (Next data pos room) ->
  stage_runs (rsn_group_stage ie data pos room).
Proof using Hie Hlen.
  intros (Hp & Hl & Hpl & Hd). unfold rsn_group_stage, RSN_SELECTOR_LEN.
  destruct (Z.leb_spec 4 room).
  - destruct (reads_inside_ok _ _ reads_rsn_cipher pos) as (v & ->); [lia..|].
    cbn [mbind res_bind]. destruct (v =? _); [by apply runs_return|].
    apply runs_next. cbn. split_and!; [lia..|done].
  - destruct (0 <? room); [by apply runs_return|]. by apply runs_next.
Qed.

Lemma rsn_pairwise_stage_runs data pos room : stage_ok (Next data pos room) ->
  stage_runs (rsn_pairwise_stage ie data pos room).
Proof using Hie Hlen.
  intros Hs. unfold rsn_pairwise_stage. apply and_then_runs.
  - apply parse_suites_runs; [by apply (reads_inside_ok _ _ reads_rsn_cipher)|done..].
  - intros data' pos' room' Hs'. destruct (_ && _); [by apply runs_return|by apply runs_next].
Qed.

Lemma capabilities_stage_runs data pos room : stage_ok (Next data pos room) ->
  stage_runs (capabilities_stage ie data pos room).
Proof using Hie Hlen.
  intros (Hp & Hl & Hpl & Hd). unfold capabilities_stage. destruct (Z.leb_spec 2 room).
  - destruct (WPA_GET_LE16_total ie pos Hie) as (v & -> & Hv); [lia..|].
    apply runs_next. cbn. split_and!; [lia..|done].
  - by apply runs_next.
Qed.

Lemma pmkid_stage_runs data pos room : stage_ok (Next data pos room) ->
  stage_runs (pmkid_stage ie data pos room).
Proof using Hie Hlen.
  intros (Hp & Hl & Hpl & Hd). unfold pmkid_stage, PMKID_LEN. destruct (Z.leb_spec 2 room).
  - destruct (WPA_GET_LE16_total ie pos Hie) as (v & -> & Hv); [lia..|]. cbn [mbind res_bind].
    destruct (Z.ltb_spec (room - 2) (v * 16)); [by apply runs_return|].
    apply runs_next. cbn. unfold pmkids_inside, PMKID_LEN. cbn. split_and!; lia.
  - by apply runs_next.
Qed.

Lemma mgmt_cipher_stage_runs data pos room : stage_ok (Next data pos room) ->
  stage_runs (mgmt_cipher_stage ie data pos room).
Proof using Hie Hlen.
  intros (Hp & Hl & Hpl & Hd). unfold mgmt_cipher_stage, RSN_SELECTOR_LEN.
  destruct (Z.leb_spec 4 room).
  - destruct (reads_inside_ok _ _ reads_rsn_cipher pos) as (v & ->); [lia..|].
    cbn [mbind res_bind]. destruct (negb _); [by apply runs_return|].
    apply runs_next. cbn. split_and!; [lia..|done].
  - by apply runs_next.
Qed.

Lemma wpa_group_stage_runs data pos room : stage_ok (Next data pos room) ->
  stage_runs (wpa_group_stage ie data pos room).
Proof using Hie Hlen.
  intros (Hp & Hl & Hpl & Hd). unfold wpa_group_stage, WPA_SELECTOR_LEN.
  destruct (Z.leb_spec 4 room).
  - destruct (reads_inside_ok wpa_selector_to_bitfield wpa_cipher_bits ltac:(done) pos)
      as (v & ->); [lia..|].
    apply runs_next. cbn. split_and!; [lia..|done].
  - destruct (0 <? room); [by apply runs_return|]. by apply runs_next.
Qed.

Lemma finish_runs m : stage_runs m ->
  exists r data, finish m = Ok (r, data) /\ (r = 0 -> pmkids_inside data).
Proof using.
  intros (s & -> & Hs). destruct s as [r data|data pos room]; cbn; eexists _, _.
  - split; [done|]. by intros ->.
  - split; [done|]. intros _. apply Hs.
Qed.

Lemma parse_rsn_runs : exists r data, wpa_parse_wpa_ie_rsn ie len = Ok (r, data) /\
  (r = 0 -> pmkids_inside data).
Proof using Hie Hlen.
  unfold wpa_parse_wpa_ie_rsn, sizeof_rsn_ie_hdr.
  destruct (Z.eqb_spec len 0); [by eexists _, _|].
  destruct (Z.ltb_spec len 4); [by eexists _, _|].
  rewrite !rd_ok by lia. cbn [mbind res_bind].
  destruct (WPA_GET_LE16_total ie 2 Hie) as (v & -> & _); [lia..|]. cbn [mbind res_bind].
  destruct (_ || _); [by eexists _, _|]. apply finish_runs.
  repeat apply and_then_runs; intros.
  - apply rsn_group_stage_runs. cbn. unfold pmkids_inside. cbn. lia.
  - by apply rsn_pairwise_stage_runs.
  - apply parse_suites_runs; [by apply (reads_inside_ok _ _ reads_rsn_akm)|done..].
  - by apply capabilities_stage_runs.
  - by apply pmkid_stage_runs.
  - by apply mgmt_cipher_stage_runs.
Qed.

Lemma parse_wpa_runs : exists r data, wpa_parse_wpa_ie_wpa ie len = Ok (r, data) /\
  (r = 0 -> pmkids_inside data).
Proof using Hie Hlen.
  unfold wpa_parse_wpa_ie_wpa, sizeof_wpa_ie_hdr.
  destruct (Z.eqb_spec len 0); [by eexists _, _|].
  destruct (Z.ltb_spec len 8); [by eexists _, _|].
  rewrite !rd_ok by lia. cbn [mbind res_bind].
  destruct (WPA_GET_BE32_total ie 2 Hie) as (w & Hw & _); [lia..|].
  unfold RSN_SELECTOR_GET. rewrite Hw. cbn [mbind res_bind].
  destruct (WPA_GET_LE16_total ie 6 Hie) as (v & -> & _); [lia..|]. cbn [mbind res_bind].
  destruct (_ || _); [by eexists _, _|]. apply finish_runs.
  repeat apply and_then_runs; intros.
  - apply wpa_group_stage_runs. cbn. unfold pmkids_inside. cbn. lia.
  - apply parse_suites_runs;
      [by apply (reads_inside_ok wpa_selector_to_bitfield wpa_cipher_bits)|done..].
  - apply parse_suites_runs;
      [by apply (reads_inside_ok wpa_key_mgmt_to_bitfield wpa_key_mgmt_bits)|done..].
  - by apply capabilities_stage_runs.
Qed.

(** *** The key data parser *)

(** What a pointer and its length cover is inside the first [len] octets. *)
Definition area_inside (p : option Z) (n : Z) : Prop :=
  match p with Some p => 0 <= p /\ 0 <= n /\ p + n <= len | None => True end.
Definition kde_inside (d : wpa_eapol_ie_parse) : Prop :=
  area_inside (wpa_ie d) (wpa_ie_len d) /\ area_inside (rsn_ie d) (rsn_ie_len d) /\
  area_inside (kde_pmkid d) PMKID_LEN /\ area_inside (gtk d) (gtk_len d) /\
  area_inside (mac_addr d) (mac_addr_len d) /\ area_inside (igtk d) (igtk_len d).

Lemma is_kde_runs pos limit sel l : 0 <= pos -> rd ie (pos + 1) = Ok l ->
  pos + 2 + l <= len -> 3 <= limit ->
  exists b, is_kde ie pos limit sel = Ok b /\ (b = true -> limit < l).
Proof using Hie Hlen.
  intros Hp Hl Hle Hlim. unfold is_kde. rewrite Hl. cbn [mbind res_bind].
  destruct (Z.ltb_spec limit l); [|by exists false].
  destruct (WPA_GET_BE32_total ie (pos + 2) Hie) as (v & Hv & _); [lia..|].
  unfold RSN_SELECTOR_GET. rewrite Hv. by eexists.
Qed.

Lemma parse_generic_runs pos l d : 0 <= pos -> rd ie (pos + 1) = Ok l -> 0 <= l ->
  pos + 2 + l <= len -> kde_inside d ->
  exists r d', wpa_parse_generic ie pos len d = Ok (r, d') /\ kde_inside d' /\ 0 <= r.
Proof using Hie Hlen.
  intros Hp Hl Hl0 Hle (H1 & H2 & H3 & H4 & H5 & H6). unfold wpa_parse_generic. rewrite Hl.
  cbn [mbind res_bind]. destruct (Z.eqb_spec l 0); [by eexists _, _|].
  assert (exists b, (if 6 <=? l then
               v ← RSN_SELECTOR_GET ie (pos + 2);
               if v =? WPA_OUI_TYPE then
                 v0 ← rd ie (pos + 2 + WPA_SELECTOR_LEN);
                 if v0 =? 1 then v1 ← rd ie (pos + 2 + WPA_SELECTOR_LEN + 1); mret (v1 =? 0)
                 else mret false
               else mret false
             else mret false) = Ok b) as (b & ->).
  { destruct (Z.leb_spec 6 l); [|by eexists].
    destruct (WPA_GET_BE32_total ie (pos + 2) Hie) as (v & Hv & _); [lia..|].
    unfold RSN_SELECTOR_GET. rewrite Hv. cbn [mbind res_bind].
    destruct (v =? _); [|by eexists]. unfold WPA_SELECTOR_LEN.
    rewrite !rd_ok by lia. cbn [mbind res_bind]. by destruct (_ =? 1); eexists. }
  cbn [mbind res_bind]. unfold RSN_SELECTOR_LEN, PMKID_LEN.
  destruct b; [eexists _, _; split; [done|]; unfold kde_inside, area_inside in *; cbn; split_and!; (done || lia)|].
  assert (exists b, (if pos + 1 + 4 <? len then is_kde ie pos (4 + 16 - 1) RSN_KEY_DATA_PMKID
                     else mret false) = Ok b /\ (b = true -> 19 < l)) as (b & -> & Hb).
  { destruct (_ <? len); [|by exists false]. by apply (is_kde_runs pos _ _ l). }
  cbn [mbind res_bind]. destruct b;
    [specialize (Hb eq_refl); eexists _, _; split; [done|]; unfold kde_inside, area_inside, PMKID_LEN in *; cbn; split_and!; (done || lia)|clear Hb].
  repeat (match goal with |- context [is_kde ie pos (4 + 2) ?s] =>
    destruct (is_kde_runs pos (4 + 2) s l Hp Hl Hle ltac:(lia)) as (b & -> & Hb);
    cbn [mbind res_bind]; destruct b;
    [specialize (Hb eq_refl); eexists _, _; split; [done|]; unfold kde_inside, area_inside in *;
     cbn; split_and!; (done || lia)|clear Hb] end).
  eexists _, _. split; [done|]. done.
Qed.

Lemma parse_kde_loop_runs fuel pos d : 0 <= pos -> (Z.to_nat (len - pos) < fuel)%nat ->
  kde_inside d -> exists r d', parse_kde_loop fuel ie len pos d = Ok (r, d') /\ kde_inside d'.
Proof using Hie Hlen.
  revert pos d. induction fuel as [|fuel IH]; intros pos d Hp Hf Hd; [lia|].
  cbn [parse_kde_loop]. destruct (Z.ltb_spec (pos + 1) len); [|by eexists _, _].
  destruct (rd_total ie pos) as (id & -> & Hid); [lia|done|]. cbn [mbind res_bind].
  destruct (rd_total ie (pos + 1)) as (l & Hl & Hlb); [lia|done|]. rewrite Hl. cbn [mbind res_bind].
  unfold is_byte in *. destruct (_ && _); [by eexists _, _|].
  destruct (Z.ltb_spec len (pos + 2 + l)); [by eexists _, _|].
  destruct (id =? WLAN_EID_RSN).
  - apply IH; [lia..|]. unfold kde_inside, area_inside in *. cbn. destruct Hd. split_and!; (done || lia || tauto).
  - destruct (id =? WLAN_EID_VENDOR_SPECIFIC); [|apply IH; [lia..|done]].
    destruct (parse_generic_runs pos l d Hp Hl) as (r & d' & -> & Hd' & Hr); [lia..|done|].
    cbn [mbind res_bind]. destruct (Z.ltb_spec r 0); [lia|].
    destruct (0 <? r); [by eexists _, _|]. apply IH; [lia..|done].
Qed.

Lemma parse_kde_runs : exists r d, wpa_parse_kde_ies ie len = Ok (r, d) /\ kde_inside d.
Proof using Hie Hlen. apply parse_kde_loop_runs; [lia..|]. done. Qed.
End parsers.

(** ([wpa_parse_wpa_ie_rsn], [wpa_parse_wpa_ie_wpa], [wpa_parse_kde_ies]): on
    any octets, well-formed or not, the parsers read only what they are given and
    return; the PMKIDs an accepted element announces are inside it, and so is all
    that the pointers and lengths of a parsed key data field cover. *)
Theorem wpa_parsers_in_bounds ie len : bytes ie -> 0 <= len <= zlen ie ->
  (exists r data, wpa_parse_wpa_ie_rsn ie len = Ok (r, data) /\ (r = 0 -> pmkids_inside len data)) /\
  (exists r data, wpa_parse_wpa_ie_wpa ie len = Ok (r, data) /\ (r = 0 -> pmkids_inside len data)) /\
  (exists r kde, wpa_parse_kde_ies ie len = Ok (r, kde) /\ kde_inside len kde).
Proof.
  intros Hb Hl. split_and!; [by apply parse_rsn_runs|by apply parse_wpa_runs|by apply parse_kde_runs].
Qed.

(** ** Key data written and read *)

Definition kde_bytes (sel : Z) (data : list Z) : list Z :=
  element WLAN_EID_VENDOR_SPECIFIC (RSN_SELECTOR_PUT sel ++ data).

Lemma wpa_add_kde_wrote buf0 b d buf sel data data2 :
  let data' := data ++ default [] data2 in
  wrote buf0 b d buf -> b + zlen d + 6 + zlen data' <= zlen buf0 ->
  exists buf', wpa_add_kde buf (b + zlen d) sel data data2 =
      Ok (buf', b + zlen (d ++ kde_bytes sel data')) /\
    wrote buf0 b (d ++ kde_bytes sel data') buf'.
Proof.
  intros data' Hw Hle. unfold wpa_add_kde.
  assert (zlen data + match data2 with Some x => zlen x | None => 0 end = zlen data') as Hd
    by (subst data'; rewrite zlen_app; by destruct data2).
  pose proof (zlen_nonneg data). pose proof (zlen_nonneg (default [] data2)).
  subst data'. rewrite zlen_app in Hle.
  destruct (wrote_append _ _ _ [WLAN_EID_VENDOR_SPECIFIC] _ Hw) as (buf1 & Heq1 & Hw1);
    [change (zlen [WLAN_EID_VENDOR_SPECIFIC]) with 1; lia|].
  apply wr_wr_n in Heq1. rewrite (bind_eq _ _ _ Heq1).
  set (n := u8 (RSN_SELECTOR_LEN + zlen data + _)).
  destruct (wrote_append _ _ _ [n] _ Hw1) as (buf2 & Heq2 & Hw2);
    [rewrite zlen_app; change (zlen [n]) with 1; change (zlen [WLAN_EID_VENDOR_SPECIFIC]) with 1; lia|].
  apply wr_wr_n in Heq2. rewrite zlen_app in Heq2.
  change (zlen [WLAN_EID_VENDOR_SPECIFIC]) with 1 in Heq2. rewrite Z.add_assoc in Heq2.
  rewrite (bind_eq (wr buf1 _ _) _ _ Heq2).
  rewrite <- app_assoc in Hw2. set (d2 := d ++ [WLAN_EID_VENDOR_SPECIFIC] ++ [n]) in *.
  assert (zlen d2 = zlen d + 2) as Hd2 by (subst d2; by rewrite zlen_app).
  replace (b + zlen d + 1 + 1) with (b + zlen d2) by lia.
  destruct (wrote_append _ _ _ (RSN_SELECTOR_PUT sel) _ Hw2) as (buf3 & Heq3 & Hw3);
    [rewrite zlen_PUT; lia|].
  rewrite (bind_eq _ _ _ Heq3). unfold RSN_SELECTOR_LEN.
  replace (b + zlen d2 + 4) with (b + zlen (d2 ++ RSN_SELECTOR_PUT sel))
    by (rewrite zlen_app, zlen_PUT; lia).
  destruct (wrote_append _ _ _ data _ Hw3) as (buf4 & Heq4 & Hw4);
    [rewrite zlen_app, zlen_PUT; lia|].
  rewrite (bind_eq _ _ _ Heq4).
  assert (d ++ kde_bytes sel (data ++ default [] data2) =
    ((d2 ++ RSN_SELECTOR_PUT sel) ++ data) ++ default [] data2) as Hres.
  { assert (u8 (zlen (RSN_SELECTOR_PUT sel ++ data ++ default [] data2)) = n) as Hn.
    { subst n. f_equal. unfold RSN_SELECTOR_LEN. rewrite zlen_app, zlen_PUT, zlen_app.
      rewrite zlen_app in Hd. lia. }
    subst d2. unfold kde_bytes, element. rewrite Hn. by rewrite <- !app_assoc. }
  rewrite Hres.
  replace (b + zlen (d2 ++ RSN_SELECTOR_PUT sel) + zlen data)
    with (b + zlen ((d2 ++ RSN_SELECTOR_PUT sel) ++ data)) by (rewrite (zlen_app _ data); lia).
  destruct data2 as [x|].
  - change (default [] (Some x)) with x in *. destruct (wrote_append _ _ _ x _ Hw4) as (buf5 & Heq5 & Hw5);
      [rewrite !zlen_app, zlen_PUT; lia|].
    rewrite (bind_eq _ _ _ Heq5). exists buf5. split; [|done]. cbn [mret res_ret]. do 2 f_equal.
    rewrite (zlen_app _ x). lia.
  - change (default [] None) with (@nil Z) in *. exists buf4. by rewrite app_nil_r.
Qed.

(** One round of the loop: [l] has been read, [r] is not read yet. *)
Lemma kde_loop_element fuel id body l r len d : zlen body < 256 ->
  len = zlen (l ++ element id body) + zlen r \/ zlen (l ++ element id body) <= len ->
  0 < zlen body -> id <> WLAN_EID_VENDOR_SPECIFIC ->
  parse_kde_loop (S fuel) (l ++ element id body ++ r) len (zlen l) d =
  parse_kde_loop fuel (l ++ element id body ++ r) len (zlen (l ++ element id body))
    (if id =? WLAN_EID_RSN
     then d <| rsn_ie := Some (zlen l) |> <| rsn_ie_len := zlen (element id body) |> else d).
Proof.
  intros Hb Hlen H0 Hid. pose proof (zlen_nonneg l). pose proof (zlen_nonneg r).
  pose proof (zlen_app l (element id body)) as Hz. rewrite zlen_element in Hz.
  cbn [parse_kde_loop]. rewrite (proj2 (Z.ltb_lt _ _)) by lia.
  assert (0 < zlen (element id body ++ r)) by (rewrite zlen_app, zlen_element; lia).
  rewrite rd_shift0 by done. rewrite rd_shift by (rewrite zlen_app, zlen_element; lia).
  change (rd (element id body ++ r) 0) with (Ok id : res Z).
  assert (rd (element id body ++ r) 1 = Ok (zlen body)) as ->.
  { rewrite <- (u8_id (zlen body)) at 1 by (unfold is_byte; lia). by apply rd_lookup. }
  cbn [mbind res_bind]. unfold WLAN_EID_VENDOR_SPECIFIC in Hid.
  rewrite (proj2 (Z.eqb_neq id 221)) by done. cbn [andb].
  rewrite (proj2 (Z.ltb_ge _ _)) by lia.
  replace (zlen l + (2 + zlen body)) with (zlen (l ++ element id body)) by lia.
  unfold WLAN_EID_VENDOR_SPECIFIC. rewrite (proj2 (Z.eqb_neq id 221)) by done.
  replace (zlen body + 2) with (zlen (element id body)) by (rewrite zlen_element; lia).
  by destruct (id =? WLAN_EID_RSN).
Qed.


Section kde.
Context (l : list Z) (sel : Z) (data r : list Z).
Context (Hsel : u32 sel = sel) (Hdata : 2 < zlen data < 252).
#[local] Abbreviation buf := (l ++ kde_bytes sel data ++ r) (only parsing).

Lemma kde_len_octet : rd buf (zlen l + 1) = Ok (4 + zlen data).
Proof using Hdata.
  assert (2 <= zlen (kde_bytes sel data ++ r)).
  { unfold kde_bytes. rewrite zlen_app, zlen_element. pose proof (zlen_nonneg r).
    pose proof (zlen_nonneg (RSN_SELECTOR_PUT sel ++ data)). lia. }
  rewrite rd_shift by lia. rewrite <- (u8_id (4 + zlen data)) by (unfold is_byte; lia).
  unfold kde_bytes, element. rewrite zlen_app, zlen_PUT. by apply rd_lookup.
Qed.

Lemma kde_selector : RSN_SELECTOR_GET buf (zlen l + 2) = Ok sel.
Proof using Hsel.
  set (h := [WLAN_EID_VENDOR_SPECIFIC; u8 (zlen (RSN_SELECTOR_PUT sel ++ data))]).
  assert (buf = (l ++ h) ++ RSN_SELECTOR_PUT sel ++ data ++ r) as ->
    by (unfold kde_bytes, element; rewrite <- !app_assoc; done).
  replace (zlen l + 2) with (zlen (l ++ h)) by (by rewrite zlen_app).
  by rewrite RSN_SELECTOR_GET_PUT, Hsel.
Qed.

Lemma is_kde_eq limit s :
  is_kde buf (zlen l) limit s = Ok ((limit <? 4 + zlen data) && (sel =? s)).
Proof using Hdata Hsel.
  unfold is_kde. rewrite kde_len_octet. cbn [mbind res_bind].
  destruct (limit <? _); [|done]. by rewrite kde_selector.
Qed.

Lemma parse_generic_kde len d : sel <> WPA_OUI_TYPE -> sel <> RSN_KEY_DATA_PMKID ->
  wpa_parse_generic buf (zlen l) len d =
  Ok (0, if sel =? RSN_KEY_DATA_GROUPKEY
         then d <| gtk := Some (zlen l + 6) |> <| gtk_len := zlen data |>
         else if sel =? RSN_KEY_DATA_MAC_ADDR
         then d <| mac_addr := Some (zlen l + 6) |> <| mac_addr_len := zlen data |>
         else if sel =? RSN_KEY_DATA_IGTK
         then d <| igtk := Some (zlen l + 6) |> <| igtk_len := zlen data |> else d).
Proof using Hdata Hsel.
  intros H1 H2. unfold wpa_parse_generic. rewrite kde_len_octet. cbn [mbind res_bind].
  rewrite (proj2 (Z.eqb_neq (4 + zlen data) 0)), (proj2 (Z.leb_le _ _)) by lia.
  rewrite kde_selector. cbn [mbind res_bind]. rewrite (proj2 (Z.eqb_neq _ _)) by done.
  cbn [mret res_ret mbind res_bind]. rewrite !is_kde_eq. unfold RSN_SELECTOR_LEN.
  rewrite (proj2 (Z.eqb_neq sel RSN_KEY_DATA_PMKID)) by done. rewrite andb_false_r.
  assert ((if zlen l + 1 + 4 <? len then Ok false else mret false : res bool) = Ok false) as ->
    by (by destruct (_ <? len)).
  cbn [mbind res_bind]. rewrite (proj2 (Z.ltb_lt _ _)) by lia. cbn [andb].
  replace (4 + zlen data - 4) with (zlen data) by lia.
  replace (zlen l + 2 + 4) with (zlen l + 6) by lia.
  by destruct (sel =? RSN_KEY_DATA_GROUPKEY), (sel =? RSN_KEY_DATA_MAC_ADDR),
    (sel =? RSN_KEY_DATA_IGTK).
Qed.

Lemma kde_loop_kde fuel len d : sel <> WPA_OUI_TYPE -> sel <> RSN_KEY_DATA_PMKID ->
  zlen (l ++ kde_bytes sel data) <= len ->
  parse_kde_loop (S fuel) buf len (zlen l) d =
  ('(_, d) ← wpa_parse_generic buf (zlen l) len d;
   parse_kde_loop fuel buf len (zlen (l ++ kde_bytes sel data)) d).
Proof using Hdata Hsel.
  intros H1 H2 Hlen. pose proof (zlen_nonneg l).
  assert (zlen (kde_bytes sel data) = 6 + zlen data) as Hz.
  { unfold kde_bytes. rewrite zlen_element, zlen_app, zlen_PUT. lia. }
  rewrite zlen_app in Hlen. cbn [parse_kde_loop]. rewrite (proj2 (Z.ltb_lt _ _)) by lia.
  rewrite rd_shift0 by (pose proof (zlen_nonneg r); rewrite zlen_app; lia).
  change (rd (kde_bytes sel data ++ r) 0) with (Ok 221 : res Z). rewrite kde_len_octet.
  cbn [mbind res_bind]. change (221 =? 221) with true. cbn [andb].
  rewrite (proj2 (Z.eqb_neq _ _)), (proj2 (Z.eqb_neq _ _)) by lia. cbn [orb].
  rewrite (proj2 (Z.ltb_ge _ _)) by lia. change (221 =? WLAN_EID_RSN) with false.
  change (221 =? WLAN_EID_VENDOR_SPECIFIC) with true. cbv iota.
  rewrite parse_generic_kde by done. cbn [mbind res_bind]. change (0 <? 0) with false. cbv iota.
  replace (zlen l + (2 + (4 + zlen data))) with (zlen (l ++ kde_bytes sel data))
    by (rewrite zlen_app; lia).
  done.
Qed.
End kde.

Lemma kde_loop_end fuel buf len d : 0 <= len ->
  parse_kde_loop (S fuel) buf len len d = Ok (0, d).
Proof. intros H. cbn [parse_kde_loop]. by rewrite (proj2 (Z.ltb_ge _ _)) by lia. Qed.

(** Padding: an octet 0xdd, then zeros. *)
Lemma kde_loop_padding fuel l n len d : 0 < n -> len = zlen l + n ->
  parse_kde_loop (S fuel) (l ++ 221 :: replicate (Z.to_nat (n - 1)) 0) len (zlen l) d = Ok (0, d).
Proof.
  intros Hn ->. pose proof (zlen_nonneg l). cbn [parse_kde_loop].
  destruct (Z.ltb_spec (zlen l + 1) (zlen l + n)); [|done].
  assert (zlen (221 :: replicate (Z.to_nat (n - 1)) 0) = n)
    by (rewrite zlen_cons, zlen_replicate; lia).
  rewrite rd_shift0, rd_shift by lia.
  change (rd (221 :: replicate (Z.to_nat (n - 1)) 0) 0) with (Ok 221 : res Z).
  assert (rd (221 :: replicate (Z.to_nat (n - 1)) 0) 1 = Ok 0) as ->.
  { apply rd_lookup; [done|]. change (Z.to_nat 1) with 1%nat. cbn [lookup list_lookup].
    apply lookup_replicate. split; [done|lia]. }
  cbn [mbind res_bind]. change (221 =? 221) with true. cbn [andb]. by rewrite orb_true_r.
Qed.

(** The key data of message 3/4, and where its parts are. *)
Definition key_data (body g ig : list Z) (n : Z) : list Z :=
  ((element WLAN_EID_RSN body ++ kde_bytes RSN_KEY_DATA_GROUPKEY g) ++
   kde_bytes RSN_KEY_DATA_IGTK ig) ++
  (if n =? 0 then [] else 221 :: replicate (Z.to_nat (n - 1)) 0).
Definition key_data_read (body g ig : list Z) : wpa_eapol_ie_parse :=
  let ie := element WLAN_EID_RSN body in
  ie_parse_zero <| rsn_ie := Some 0 |> <| rsn_ie_len := zlen ie |>
    <| gtk := Some (zlen ie + 6) |> <| gtk_len := zlen g |>
    <| igtk := Some (zlen (ie ++ kde_bytes RSN_KEY_DATA_GROUPKEY g) + 6) |> <| igtk_len := zlen ig |>.

Lemma zlen_kde sel data : zlen (kde_bytes sel data) = 6 + zlen data.
Proof. unfold kde_bytes. rewrite zlen_element, zlen_app, zlen_PUT. lia. Qed.

Lemma parse_key_data body g ig n : 0 < zlen body < 256 -> 2 < zlen g < 252 ->
  2 < zlen ig < 252 -> 0 <= n ->
  wpa_parse_kde_ies (key_data body g ig n)
    (zlen ((element WLAN_EID_RSN body ++ kde_bytes RSN_KEY_DATA_GROUPKEY g) ++
           kde_bytes RSN_KEY_DATA_IGTK ig) + n) = Ok (0, key_data_read body g ig).
Proof.
  intros Hbody Hg Hig Hn. unfold key_data. set (pad := if n =? 0 then _ else _).
  set (ie := element WLAN_EID_RSN body). set (k1 := kde_bytes RSN_KEY_DATA_GROUPKEY g).
  set (k2 := kde_bytes RSN_KEY_DATA_IGTK ig).
  assert (zlen ie = 2 + zlen body) as Hie by apply zlen_element.
  pose proof (zlen_kde RSN_KEY_DATA_GROUPKEY g : zlen k1 = _) as Hk1.
  pose proof (zlen_kde RSN_KEY_DATA_IGTK ig : zlen k2 = _) as Hk2.
  assert (zlen ((ie ++ k1) ++ k2) = zlen ie + zlen k1 + zlen k2) as Hlen
    by (rewrite !zlen_app; lia).
  set (len := zlen ((ie ++ k1) ++ k2)) in *.
  unfold wpa_parse_kde_ies. destruct (Z.to_nat (len + n)) as [|[|[|f]]] eqn:Hf; [lia..|].
  rewrite <- !app_assoc. change ie with (element WLAN_EID_RSN body).
  rewrite (kde_loop_element _ WLAN_EID_RSN body [] (k1 ++ k2 ++ pad) _ ie_parse_zero)
    by (done || lia || (right; cbn [app]; fold ie; lia)). fold ie. cbn [app].
  change (WLAN_EID_RSN =? WLAN_EID_RSN) with true. cbv iota.
  unfold k1. rewrite (kde_loop_kde ie RSN_KEY_DATA_GROUPKEY g (k2 ++ pad))
    by (done || (fold k1; rewrite zlen_app; lia)).
  rewrite parse_generic_kde by done. cbn [mbind res_bind]. fold k1.
  change (RSN_KEY_DATA_GROUPKEY =? RSN_KEY_DATA_GROUPKEY) with true. cbv iota.
  rewrite (app_assoc ie k1). unfold k2.
  rewrite (kde_loop_kde (ie ++ k1) RSN_KEY_DATA_IGTK ig pad)
    by (done || (fold k2; rewrite !zlen_app; lia)).
  rewrite parse_generic_kde by done. cbn [mbind res_bind]. fold k2.
  change (RSN_KEY_DATA_IGTK =? RSN_KEY_DATA_GROUPKEY) with false.
  change (RSN_KEY_DATA_IGTK =? RSN_KEY_DATA_MAC_ADDR) with false.
  change (RSN_KEY_DATA_IGTK =? RSN_KEY_DATA_IGTK) with true. cbv iota.
  rewrite (app_assoc _ k2). fold len. unfold pad. destruct (Z.eqb_spec n 0) as [-> | Hn0].
  - rewrite Z.add_0_r. apply kde_loop_end. lia.
  - apply kde_loop_padding; [lia|done].
Qed.

Lemma rd_n_kde l sel data r :
  rd_n (l ++ kde_bytes sel data ++ r) (zlen l + 6) (zlen data) = Ok data.
Proof.
  set (h := [WLAN_EID_VENDOR_SPECIFIC; u8 (zlen (RSN_SELECTOR_PUT sel ++ data))] ++
    RSN_SELECTOR_PUT sel).
  replace (l ++ kde_bytes sel data ++ r) with ((l ++ h) ++ data ++ r)
    by (unfold kde_bytes, element, h; by rewrite <- !app_assoc).
  replace (zlen l + 6) with (zlen (l ++ h)) by (by rewrite zlen_app).
  apply rd_n_app_mid.
Qed.

(** C39 ([wpa_add_kde], [wpa_parse_kde_ies]): the key data of message 3/4, an
    element, the group key and the management group key, is read back by the
    parser when the field is unpadded or padded with 0xdd and zeros: the pointers
    lead to what was written, whatever the buffer held. *)
Theorem wpa_key_data_roundtrip buf0 body g ig n :
  let ie := element WLAN_EID_RSN body in
  let len := zlen ie + (6 + zlen g) + (6 + zlen ig) in
  0 < zlen body < 256 -> 2 < zlen g < 252 -> 2 < zlen ig < 252 -> 0 <= n ->
  len <= zlen buf0 ->
  exists buf1 buf2 buf3 p2 d,
    wr_n buf0 0 ie = Ok buf1 /\
    wpa_add_kde buf1 (zlen ie) RSN_KEY_DATA_GROUPKEY (take 2 g) (Some (drop 2 g)) = Ok (buf2, p2) /\
    wpa_add_kde buf2 p2 RSN_KEY_DATA_IGTK ig None = Ok (buf3, len) /\
    let field := take (Z.to_nat len) buf3 ++
      (if n =? 0 then [] else 221 :: replicate (Z.to_nat (n - 1)) 0) in
    wpa_parse_kde_ies field (len + n) = Ok (0, d) /\
    rd_n field (default (-1) (rsn_ie d)) (rsn_ie_len d) = Ok ie /\
    rd_n field (default (-1) (gtk d)) (gtk_len d) = Ok g /\
    rd_n field (default (-1) (igtk d)) (igtk_len d) = Ok ig.
Proof.
  intros ie len Hbody Hg Hig Hn Hle. pose proof (zlen_nonneg body).
  assert (zlen ie = 2 + zlen body) as Hie by apply zlen_element.
  set (k1 := kde_bytes RSN_KEY_DATA_GROUPKEY g). set (k2 := kde_bytes RSN_KEY_DATA_IGTK ig).
  pose proof (zlen_kde RSN_KEY_DATA_GROUPKEY g : zlen k1 = _) as Hk1.
  pose proof (zlen_kde RSN_KEY_DATA_IGTK ig : zlen k2 = _) as Hk2.
  destruct (wrote_append buf0 0 [] ie buf0) as (buf1 & Heq1 & Hw1);
    [apply wrote_nil; lia|change (zlen []) with 0; lia|]. cbn [app] in Hw1.
  assert (take 2 g ++ default [] (Some (drop 2 g)) = g) as Hgg by apply take_drop.
  destruct (wpa_add_kde_wrote buf0 0 ie buf1 RSN_KEY_DATA_GROUPKEY (take 2 g) (Some (drop 2 g)) Hw1)
    as (buf2 & Heq2 & Hw2); [rewrite Hgg; lia|]. rewrite Hgg in Heq2, Hw2. fold k1 in Heq2, Hw2.
  destruct (wpa_add_kde_wrote buf0 0 (ie ++ k1) buf2 RSN_KEY_DATA_IGTK ig None Hw2)
    as (buf3 & Heq3 & Hw3).
  { change (default [] None) with (@nil Z). rewrite app_nil_r, zlen_app. lia. }
  change (default [] None) with (@nil Z) in *. rewrite app_nil_r in Heq3, Hw3.
  fold k2 in Heq3, Hw3.
  assert (zlen ((ie ++ k1) ++ k2) = len) as Hlen by (rewrite !zlen_app; unfold len; lia).
  assert (take (Z.to_nat len) buf3 = (ie ++ k1) ++ k2) as Htake.
  { destruct Hw3 as (_ & _ & Hb3). rewrite Hb3.
    change (take (Z.to_nat 0) buf0) with (@nil Z). cbn [app]. apply take_app_length'.
    unfold zlen in Hlen. lia. }
  exists buf1, buf2, buf3, (0 + zlen (ie ++ k1)), (key_data_read body g ig).
  split; [exact Heq1|]. split; [exact Heq2|].
  split; [by rewrite <- Hlen|]. rewrite Htake. split_and!.
  - rewrite <- Hlen. by apply parse_key_data.
  - rewrite <- !app_assoc. apply (rd_n_app_mid []).
  - rewrite <- !app_assoc. apply rd_n_kde.
  - rewrite <- (app_assoc (ie ++ k1)). apply rd_n_kde.
Qed.
