(* ===== verification/WpaIeSpec.v ===== *)
(** * What an accepted association request promises

    [wpa_validate_wpa_ie] of ap/wpa_auth_ie.c accepts an element only when both
    sides have the ciphers and the key management it selects, and the policy on
    management frame protection holds; and it finds the PMKSA cache entry of the
    station. *)

From stdpp Require Import gmap.
From S2P Require Import Prelude EapI WpaCommon Pmksa PmksaProps WpaAuthI WpaAuthIe WpaIeProps.

Definition saved_ie (m : Sm.wpa_state_machine) : Prop :=
  forall buf, Sm.wpa_ie m = Some buf -> 0 <= Sm.wpa_ie_len m <= zlen buf.

(** Only what [choose_key_mgmt] and the choice of [sm->pairwise] know. *)
Definition known_akm (conf : Conf.wpa_auth_config) : Prop :=
  Z.land (Conf.wpa_key_mgmt conf) rsn_akm_all = Conf.wpa_key_mgmt conf.
Definition known_ciphers (c : Z) : Prop := Z.land c (Z.lor WPA_CIPHER_CCMP WPA_CIPHER_TKIP) = c.

Lemma land_sub a b c : Z.land b c = b -> Z.land (Z.land a b) c = Z.land a b.
Proof. intros H. by rewrite <- Z.land_assoc, H. Qed.

Lemma has_bits_land a b k : has_bits (Z.land a b) (2 ^ k) = true -> 0 <= k ->
  has_bits a (2 ^ k) = true /\ has_bits b (2 ^ k) = true.
Proof.
  intros H Hk. rewrite !has_bits_pow2 in * by done. rewrite Z.land_spec in H.
  by apply andb_true_iff in H.
Qed.

Ltac known_bit m k n :=
  let H := fresh in
  pose proof (has_bits_pow2 m k ltac:(lia)) as H; change (2 ^ k) with n in H; rewrite H in *; clear H.

Lemma choose_key_mgmt_known akm : akm <> 0 -> Z.land akm rsn_akm_all = akm ->
  exists k, 0 <= k /\ choose_key_mgmt akm = 2 ^ k /\ has_bits akm (2 ^ k) = true.
Proof.
  intros H0 Hall. unfold choose_key_mgmt, WPA_KEY_MGMT_IEEE8021X_SHA256, WPA_KEY_MGMT_PSK_SHA256,
    WPA_KEY_MGMT_IEEE8021X, WPA_KEY_MGMT_PSK.
  destruct (has_bits akm 128) eqn:H7; [by exists 7|].
  destruct (has_bits akm 256) eqn:H8; [by exists 8|].
  destruct (has_bits akm 1) eqn:H1; [by exists 0|]. exists 1. split_and!; [done|done|].
  change (has_bits akm (2 ^ 1)) with (has_bits akm 2).
  destruct (has_bits akm 2) eqn:H2; [done|]. exfalso. apply H0. rewrite <- Hall.
  unfold rsn_akm_all, WPA_KEY_MGMT_IEEE8021X_SHA256, WPA_KEY_MGMT_PSK_SHA256,
    WPA_KEY_MGMT_IEEE8021X, WPA_KEY_MGMT_PSK. rewrite !Z.land_lor_distr_r.
  unfold has_bits in *. rewrite !negb_false_iff, !Z.eqb_eq in *. by rewrite H1, H2, H7, H8.
Qed.

Lemma choose_cipher_known c : c <> 0 -> known_ciphers c ->
  has_bits c (if has_bits c WPA_CIPHER_CCMP then WPA_CIPHER_CCMP else WPA_CIPHER_TKIP) = true.
Proof.
  intros H0 Hk. destruct (has_bits c WPA_CIPHER_CCMP) eqn:H4; [done|].
  destruct (has_bits c WPA_CIPHER_TKIP) eqn:H3; [done|]. exfalso. apply H0. rewrite <- Hk.
  rewrite Z.land_lor_distr_r. unfold has_bits in *. rewrite !negb_false_iff, !Z.eqb_eq in *.
  by rewrite H3, H4.
Qed.

(** The policy an accepted element satisfies. *)
Record accepted (conf : Conf.wpa_auth_config) (is_rsn : bool) (data : wpa_ie_data)
    (m : Sm.wpa_state_machine) : Prop := {
  acc_group : group_cipher data = Conf.wpa_group conf;
  acc_akm : has_bits (key_mgmt data) (Sm.wpa_key_mgmt m) = true /\
            has_bits (Conf.wpa_key_mgmt conf) (Sm.wpa_key_mgmt m) = true;
  acc_pairwise : has_bits (pairwise_cipher data) (Sm.pairwise m) = true /\
    has_bits (if is_rsn then Conf.rsn_pairwise conf else Conf.wpa_pairwise conf)
      (Sm.pairwise m) = true;
  acc_version : Sm.wpa m = if is_rsn then WPA_VERSION_WPA2 else WPA_VERSION_WPA;
  acc_mfp : Sm.mgmt_frame_prot m = true <->
    Conf.ieee80211w conf <> NO_MGMT_FRAME_PROTECTION /\
    has_bits (capabilities data) WPA_CAPABILITY_MFPC = true;
  acc_required : Conf.ieee80211w conf = MGMT_FRAME_PROTECTION_REQUIRED ->
    Sm.mgmt_frame_prot m = true /\ Sm.pairwise m = WPA_CIPHER_CCMP /\
    mgmt_group_cipher data = WPA_CIPHER_AES_128_CMAC;
}.

Lemma validate_policy_accepted conf (is_rsn : bool) data m m' : known_akm conf ->
  known_ciphers (if is_rsn then Conf.rsn_pairwise conf else Conf.wpa_pairwise conf) ->
  validate_policy conf is_rsn data m = (None, m') ->
  accepted conf is_rsn data m' /\ Sm.addr m' = Sm.addr m /\
  Sm.wpa_ie m' = Sm.wpa_ie m /\ Sm.wpa_ie_len m' = Sm.wpa_ie_len m.
Proof.
  intros Hakm Hpw. unfold validate_policy.
  set (pw := if is_rsn then Conf.rsn_pairwise conf else Conf.wpa_pairwise conf) in *.
  set (akm := Z.land _ (Conf.wpa_key_mgmt conf)).
  set (ciphers := Z.land _ pw). cbv zeta.
  destruct (Z.eqb_spec (group_cipher data) (Conf.wpa_group conf)) as [Hg|]; [|done].
  cbn [negb]. destruct (Z.eqb_spec akm 0) as [|Ha]; [done|].
  destruct (Z.eqb_spec ciphers 0) as [|Hc]; [done|].
  destruct (_ && negb (has_bits (capabilities data) _)) eqn:H1; [done|].
  destruct (_ && has_bits ciphers _) eqn:H2; [done|].
  destruct (_ && negb (mgmt_group_cipher data =? _)) eqn:H3; [done|].
  intros [= <-]. split; [|done].
  destruct (choose_key_mgmt_known akm Ha (land_sub _ _ _ Hakm)) as (k & Hk & Hch & Hbit).
  pose proof (choose_cipher_known ciphers Hc (land_sub _ _ _ Hpw)) as Hci.
  constructor; cbn.
  - done.
  - rewrite Hch. by apply has_bits_land.
  - destruct (has_bits ciphers WPA_CIPHER_CCMP); [apply (has_bits_land _ _ 4)|apply (has_bits_land _ _ 3)];
      by try lia.
  - done.
  - rewrite negb_true_iff, orb_false_iff, negb_false_iff, Z.eqb_neq. done.
  - intros Hreq. rewrite Hreq in *. rewrite Z.eqb_refl in *. cbn [andb] in *.
    rewrite negb_false_iff in H1, H3. rewrite H1. apply Z.eqb_eq in H3. cbn [negb orb].
    split_and!; [done| |done].
    destruct (has_bits ciphers WPA_CIPHER_CCMP) eqn:H4; [done|]. congruence.
Qed.

(** ** The PMKSA cache *)

Lemma pmkid_at_ok ie len data i : 0 <= len <= zlen ie -> pmkids_inside len data ->
  (Z.of_nat i < num_pmkid data) -> exists k, pmkid_at ie data i = Ok k /\ zlen k = 16.
Proof.
  intros Hl (H0 & Hp) Hi. unfold pmkid_at, PMKID_LEN in *.
  destruct (pmkid data) as [p|]; [|lia].
  eexists. split; [apply rd_n_ok; lia|]. unfold zlen in *. rewrite length_take, length_drop. lia.
Qed.

Lemma find_pmksa_ok ie len data c l addr : 0 <= len <= zlen ie -> pmkids_inside len data ->
  repr c [] l -> forall n i, Z.of_nat (n + i) <= num_pmkid data ->
  exists r, find_pmksa n i ie data c addr = Ok r /\
    match r with
    | Some (p, k) => exists e j, heap c !! p = Some e /\ spa e = addr /\ e_pmkid e = k /\
        (i <= j < n + i)%nat /\ pmkid_at ie data j = Ok k
    | None => forall j k p e, (i <= j < n + i)%nat -> pmkid_at ie data j = Ok k ->
        heap c !! p = Some e -> ~ (spa e = addr /\ e_pmkid e = k)
    end.
Proof.
  intros Hl Hin Hr n. induction n as [|n IH]; intros i Hn.
  - exists None. split; [done|]. intros. lia.
  - cbn [find_pmksa]. destruct (pmkid_at_ok ie len data i Hl Hin) as (k & Hk & Hk16); [lia|].
    rewrite (bind_eq _ _ _ Hk).
    destruct (get_ok c [] l (Some addr) (Some k) Hr) as (r & Hget & Hspec); [intros ? [= <-]; lia|].
    rewrite (bind_eq _ _ _ Hget). destruct r as [p|].
    + destruct Hspec as (e & He & Hpl & Hm). unfold deref. rewrite He. cbn [mbind res_bind].
      exists (Some (p, e_pmkid e)). split; [done|]. exists e, i. unfold matches, opt_match in Hm.
      rewrite andb_true_iff, !bool_decide_eq_true in Hm. destruct Hm as [Hs Hp].
      split_and!; [done|done|done|lia|lia|congruence].
    + destruct (IH (S i) ltac:(lia)) as (r & Heq & Hr'). exists r. split; [done|].
      destruct r as [[p k']|].
      * destruct Hr' as (e & j & ? & ? & ? & ? & ?). exists e, j. split_and!; [done..|lia|lia|done].
      * intros j k' p e Hj Hk' He [Hs Hp]. destruct (decide (j = i)) as [-> |].
        -- assert (k' = k) as -> by congruence.
           specialize (Hspec p e). unfold matches, opt_match in Hspec.
           rewrite (bool_decide_eq_true_2 _ Hs), (bool_decide_eq_true_2 _ Hp) in Hspec.
           assert (p ∈ l) by (apply (r_dom _ _ _ Hr); eauto). by discriminate Hspec.
        -- apply (Hr' j k' p e); [lia|done..].
Qed.

Lemma save_wpa_ie_ok e ie len m : 0 <= len <= zlen ie -> saved_ie m ->
  exists r m', save_wpa_ie e ie len m = Ok (r, m') /\ saved_ie m' /\
    (r = WPA_IE_OK ->
      (exists buf, Sm.wpa_ie m' = Some buf /\ Sm.wpa_ie_len m' = len /\
         take (Z.to_nat len) buf = take (Z.to_nat len) ie) /\
      m' = m <| Sm.wpa_ie := Sm.wpa_ie m' |> <| Sm.wpa_ie_len := Sm.wpa_ie_len m' |>).
Proof.
  intros Hl Hs. unfold save_wpa_ie.
  assert (forall buf, len <= zlen buf -> exists r m',
    (d ← rd_n ie 0 len; buf ← wr_n buf 0 d;
     let sm := m <| Sm.wpa_ie := Some buf |> in mret (WPA_IE_OK, sm <| Sm.wpa_ie_len := len |>)) =
      Ok (r, m') /\ saved_ie m' /\
    (r = WPA_IE_OK ->
      (exists buf, Sm.wpa_ie m' = Some buf /\ Sm.wpa_ie_len m' = len /\
         take (Z.to_nat len) buf = take (Z.to_nat len) ie) /\
      m' = m <| Sm.wpa_ie := Sm.wpa_ie m' |> <| Sm.wpa_ie_len := Sm.wpa_ie_len m' |>)) as Hcopy.
  { intros buf Hb. rewrite (bind_eq _ _ _ (rd_n_ok ie 0 len ltac:(lia) ltac:(lia) ltac:(lia))).
    change (drop (Z.to_nat 0) ie) with ie. set (d := take (Z.to_nat len) ie).
    assert (zlen d = len) as Hd by (unfold d, zlen in *; rewrite length_take; lia).
    rewrite (bind_eq _ _ _ (wr_n_ok buf 0 d ltac:(lia) ltac:(lia))). eexists _, _.
    split; [reflexivity|]. change (take (Z.to_nat 0) buf) with (@nil Z). cbn [app].
    split; [|intros _; split; [|done]].
    - intros b. cbn. intros [= <-]. rewrite zlen_app. pose proof (zlen_nonneg (drop (0 + length d) buf)).
      cbn [Nat.add] in *. lia.
    - eexists. split; [done|]. split; [done|]. apply take_app_length'. unfold zlen in Hd. lia. }
  assert (forall m', Sm.wpa_ie m' = None -> saved_ie m') as Hnone by (by intros m' H ?; rewrite H).
  assert (len <= zlen (replicate (Z.to_nat len) 0)) as Hrep by (rewrite zlen_replicate; lia).
  destruct (Sm.wpa_ie m) as [buf|] eqn:Hb.
  - specialize (Hs buf Hb). destruct (Z.ltb_spec (Sm.wpa_ie_len m) len); [|apply Hcopy; lia].
    destruct (malloc_ok e len); [by apply Hcopy|]. eexists _, _. split; [done|].
    split; [by apply Hnone|done].
  - destruct (malloc_ok e len); [by apply Hcopy|]. eexists _, _. split; [done|].
    split; [by apply Hnone|done].
Qed.

Section validate.
Context {cr : Crypto}.

Lemma validate_pmksa_ok e fe ie len data a m l : 0 <= len <= zlen ie -> pmkids_inside len data ->
  repr (Auth.pmksa a) [] l -> Conf.okc (Auth.conf a) = 0 ->
  exists u, validate_pmksa e fe ie data a m =
      Ok (a <| Auth.dot11RSNAPMKIDUsed := default (Auth.dot11RSNAPMKIDUsed a) (snd <$> u) |>,
          m <| Sm.pmksa := fst <$> u |>) /\
    match u with
    | Some (p, k) => exists en j, heap (Auth.pmksa a) !! p = Some en /\ spa en = Sm.addr m /\
        e_pmkid en = k /\ pmkid_at ie data j = Ok k
    | None => forall j k p en, Z.of_nat j < num_pmkid data -> pmkid_at ie data j = Ok k ->
        heap (Auth.pmksa a) !! p = Some en -> ~ (spa en = Sm.addr m /\ e_pmkid en = k)
    end.
Proof using.
  intros Hl Hin Hr Hokc. unfold validate_pmksa. pose proof Hin as [Hn0 _].
  destruct (find_pmksa_ok ie len data (Auth.pmksa a) l (Sm.addr m) Hl Hin Hr
    (Z.to_nat (num_pmkid data)) 0 ltac:(lia)) as (r & Heq & Hspec).
  change (Sm.addr (m <| Sm.pmksa := None |>)) with (Sm.addr m).
  rewrite (bind_eq _ _ _ Heq). destruct r as [[p k]|].
  - destruct Hspec as (en & j & ? & ? & ? & ? & ?). exists (Some (p, k)). split; [done|].
    exists en, j. done.
  - rewrite Hokc. exists None. split; [done|]. intros j k p en Hj. apply Hspec. lia.
Qed.

(** C37 ([wpa_validate_wpa_ie]): without opportunistic key caching, the element of
    any association request is handled without a memory error, and when the
    request is accepted: the element parsed, its group cipher is the access
    point's, the key management and the pairwise cipher selected for the station
    are among those of both sides, management frames are protected exactly when
    both sides can, with CCMP and AES-CMAC when they must be; the PMKSA entry
    selected, if any, belongs to the station and to one of the PMKIDs of the
    element, and there is none only if the cache has none; and the element is
    saved for the comparison with message 2/4. *)
Theorem wpa_validate_policy e fe a m ie len l :
  bytes ie -> 1 <= len <= zlen ie -> repr (Auth.pmksa a) [] l -> saved_ie m ->
  let conf := Auth.conf a in
  Conf.okc conf = 0 -> known_akm conf -> known_ciphers (Conf.rsn_pairwise conf) ->
  known_ciphers (Conf.wpa_pairwise conf) ->
  exists r a' m', wpa_validate_wpa_ie e fe (Some a) (Some m) (Some ie) len =
      Ok (r, Some a', Some m') /\
    saved_ie m' /\ Auth.pmksa a' = Auth.pmksa a /\ Auth.conf a' = conf /\
    (r = WPA_IE_OK -> exists is_rsn data,
       is_rsn = (nth 0 ie 0 =? WLAN_EID_RSN) /\
       (if is_rsn then wpa_parse_wpa_ie_rsn ie len else wpa_parse_wpa_ie_wpa ie len) = Ok (0, data) /\
       has_bits (Conf.wpa conf) (if is_rsn then WPA_PROTO_RSN else WPA_PROTO_WPA) = true /\
       accepted conf is_rsn data m' /\
       match Sm.pmksa m' with
       | Some p => exists en j, heap (Auth.pmksa a) !! p = Some en /\ spa en = Sm.addr m' /\
           pmkid_at ie data j = Ok (e_pmkid en)
       | None => forall j k p en, Z.of_nat j < num_pmkid data -> pmkid_at ie data j = Ok k ->
           heap (Auth.pmksa a) !! p = Some en -> ~ (spa en = Sm.addr m' /\ e_pmkid en = k)
       end /\
       exists buf, Sm.wpa_ie m' = Some buf /\ Sm.wpa_ie_len m' = len /\
         take (Z.to_nat len) buf = take (Z.to_nat len) ie).
Proof using.
  intros Hbytes Hl Hr Hsaved conf Hokc Hakm Hrsn Hwpa. unfold wpa_validate_wpa_ie.
  rewrite (proj2 (Z.ltb_ge _ _)) by lia. rewrite rd_ok by lia. cbn [mbind res_bind].
  change (Z.to_nat 0) with 0%nat. set (is_rsn := nth 0 ie 0 =? WLAN_EID_RSN). fold conf.
  destruct (has_bits (Conf.wpa conf) _) eqn:Hproto; cbn [negb].
  2: { eexists _, _, _. by split_and!. }
  assert (exists r data, (if is_rsn then wpa_parse_wpa_ie_rsn ie len else wpa_parse_wpa_ie_wpa ie len)
    = Ok (r, data) /\ (r = 0 -> pmkids_inside len data)) as (parsed & data & Hparse & Hin).
  { destruct is_rsn; [apply parse_rsn_runs|apply parse_wpa_runs]; by try lia. }
  rewrite (bind_eq _ _ _ Hparse). cbn beta iota.
  match goal with |- context [negb (parsed =? 0)] => idtac end.
  set (a1 := if is_rsn then set_selected _ _ _ a else _).
  assert (Auth.pmksa a1 = Auth.pmksa a /\ Auth.conf a1 = conf) as [Hp1 Hc1]
    by (unfold a1; by destruct is_rsn).
  destruct (Z.eqb_spec parsed 0) as [-> |]; cbn [negb].
  2: { eexists _, _, _. by split_and!. }
  rewrite Hc1. destruct (validate_policy conf is_rsn data m) as [err m1] eqn:Hpol.
  destruct err as [err|].
  { eexists _, _, _. split; [done|]. unfold validate_policy in Hpol.
    repeat case_match; simplify_eq; done. }
  apply validate_policy_accepted in Hpol as (Hacc & Haddr & Hie & Hien);
    [|done|by destruct is_rsn].
  destruct (validate_pmksa_ok e fe ie len data a1 m1 l) as (u & Hpm & Hu);
    [lia|by apply Hin|by rewrite Hp1|by rewrite Hc1|].
  rewrite (bind_eq _ _ _ Hpm). cbn beta iota.
  set (m2 := m1 <| Sm.pmksa := _ |>).
  destruct (save_wpa_ie_ok e ie len m2) as (r & m3 & Hsave & Hs3 & Hok); [lia| |].
  { intros buf. change (Sm.wpa_ie m2) with (Sm.wpa_ie m1).
    change (Sm.wpa_ie_len m2) with (Sm.wpa_ie_len m1). rewrite Hie, Hien. apply Hsaved. }
  rewrite (bind_eq _ _ _ Hsave). eexists _, _, _. split; [done|].
  split_and!; [done|done|done|]. intros ->. destruct (Hok eq_refl) as [Hbuf Hm3].
  exists is_rsn, data. split_and!; [done|done|done| | |done].
  - rewrite Hm3. destruct Hacc. by constructor.
  - replace (Sm.pmksa m3) with (fst <$> u) by (rewrite Hm3; done).
    replace (Sm.addr m3) with (Sm.addr m1) by (rewrite Hm3; done). rewrite <- Hp1.
    destruct u as [[p k]|]; cbn; [|exact Hu].
    destruct Hu as (en & j & ? & ? & <- & ?). exists en, j. done.
Qed.
End validate.

(** ** A concrete access point *)
Import Toy.
Module Ap.
Definition plenty : env := {| malloc_ok := fun _ => true; rand := 6; random_get_bytes := fun _ => None |}.
(** WPA and WPA2 with CCMP for PSK and SHA-256, management frame protection
    required; the group key uses CCMP. *)
Definition conf : Conf.wpa_auth_config := {|
  Conf.wpa := 3; Conf.wpa_key_mgmt := 258; Conf.wpa_pairwise := 24; Conf.wpa_group := 16;
  Conf.wpa_group_rekey := 600; Conf.wpa_strict_rekey := 0; Conf.wpa_gmk_rekey := 86400;
  Conf.wpa_ptk_rekey := 0; Conf.rsn_pairwise := 16; Conf.rsn_preauth := 0;
  Conf.eapol_version := 2; Conf.peerkey := 0; Conf.wmm_enabled := 1; Conf.wmm_uapsd := 0;
  Conf.okc := 0; Conf.ieee80211w := 2 |}.
Definition cache : rsn_pmksa_cache := default
  {| pmkid_tab := []; Pmksa.pmksa := None; pmksa_count := 0; heap := ∅; next_loc := 0;
     freed := []; expire_timeout := None |} (pmksa_cache_auth_init plenty).
Definition auth : Auth.wpa_authenticator := {|
  Auth.group := Some 0%nat; Auth.dot11RSNAStatsTKIPRemoteMICFailures := 0;
  Auth.dot11RSNAAuthenticationSuiteSelected := 0; Auth.dot11RSNAPairwiseCipherSelected := 0;
  Auth.dot11RSNAGroupCipherSelected := 0; Auth.dot11RSNAPMKIDUsed := replicate 16 0;
  Auth.dot11RSNATKIPCounterMeasuresInvoked := 0; Auth.dot11RSNA4WayHandshakeFailures := 0;
  Auth.conf := conf; Auth.wpa_ie := None; Auth.wpa_ie_len := 0;
  Auth.addr := [2; 0; 0; 0; 0; 0]; Auth.pmksa := cache |}.
Definition station : Sm.wpa_state_machine := {|
  Sm.group := 0; Sm.addr := [2; 0; 0; 0; 0; 1]; Sm.wpa_ptk_state := WPA_PTK_INITIALIZE;
  Sm.wpa_ptk_group_state := WPA_PTK_GROUP_IDLE; Sm.Init := false;
  Sm.DeauthenticationRequest := false; Sm.AuthenticationRequest := false;
  Sm.ReAuthenticationRequest := false; Sm.Disconnect := false; Sm.TimeoutCtr := 0;
  Sm.GTimeoutCtr := 0; Sm.TimeoutEvt := false; Sm.EAPOLKeyReceived := false;
  Sm.EAPOLKeyPairwise := false; Sm.EAPOLKeyRequest := false; Sm.MICVerified := false;
  Sm.GUpdateStationKeys := false; Sm.ANonce := replicate 32 0; Sm.SNonce := replicate 32 0;
  Sm.PMK := replicate 32 0; Sm.PTK := replicate 64 0; Sm.PTK_valid := false;
  Sm.pairwise_set := false; Sm.keycount := 0; Sm.Pair := false;
  Sm.key_replay := replicate 4 {| counter := replicate 8 0; valid := false |};
  Sm.PInitAKeys := false; Sm.PTKRequest := false; Sm.has_GTK := false; Sm.PtkGroupInit := false;
  Sm.last_rx_eapol_key := None; Sm.last_rx_eapol_key_len := 0; Sm.changed := false;
  Sm.in_step_loop := false; Sm.pending_deinit := false; Sm.started := false;
  Sm.mgmt_frame_prot := false; Sm.req_replay_counter := replicate 8 0;
  Sm.req_replay_counter_used := false; Sm.wpa_ie := None; Sm.wpa_ie_len := 0;
  Sm.wpa := WPA_VERSION_NO_WPA; Sm.pairwise := 0; Sm.wpa_key_mgmt := 0; Sm.pmksa := None;
  Sm.dot11RSNAStatsTKIPLocalMICFailures := 0; Sm.dot11RSNAStatsTKIPRemoteMICFailures := 0 |}.
(** The station answers with the element of the access point. *)
Definition body : list Z := default [] (rsn_ie_body conf None).
Definition ie : list Z := element WLAN_EID_RSN body.
End Ap.

Lemma rsn_ie_roundtrip_witness : exists off,
  wpa_parse_wpa_ie_rsn Ap.ie (zlen Ap.ie) = Ok (0, rsn_ie_read Ap.conf None off).
Proof.
  destruct (rsn_ie_roundtrip Ap.conf None Ap.body) as (off & Heq & _); [reflexivity|done|].
  exists off. exact Heq.
Defined.

Lemma wpa_auth_gen_wpa_ie_spec_witness : exists a,
  wpa_auth_gen_wpa_ie Ap.plenty (replicate 128 99) Ap.auth = Ok (0, a) /\
  Auth.wpa_ie_len a = 60 /\ option_map (take 4) (Auth.wpa_ie a) = Some [48; 30; 1; 0].
Proof.
  rewrite (wpa_auth_gen_wpa_ie_spec Ap.plenty (replicate 128 99) Ap.auth); [|reflexivity].
  eexists. split; [vm_compute; reflexivity|]. split; reflexivity.
Defined.

(** An element that claims more PMKIDs than it has is refused. *)
Lemma wpa_parsers_in_bounds_witness :
  let ie := [48; 4; 1; 0; 255; 255] in
  exists r data, wpa_parse_wpa_ie_rsn ie 6 = Ok (r, data) /\ r <> 0.
Proof.
  cbv zeta. destruct (wpa_parsers_in_bounds [48; 4; 1; 0; 255; 255] 6) as ((r & data & Heq & _) & _);
    [repeat constructor; done|done|].
  exists r, data. split; [exact Heq|]. vm_compute in Heq. by injection Heq as <- <-.
Defined.

Lemma wpa_key_data_roundtrip_witness : exists buf1 buf2 p2 field d,
  wpa_add_kde buf1 (zlen Ap.ie) RSN_KEY_DATA_GROUPKEY [1; 0] (Some (replicate 16 7)) = Ok (buf2, p2) /\
  wpa_parse_kde_ies field (zlen field) = Ok (0, d) /\
  rd_n field (default (-1) (gtk d)) (gtk_len d) = Ok ([1; 0] ++ replicate 16 7).
Proof.
  destruct (wpa_key_data_roundtrip (replicate 100 0) Ap.body ([1; 0] ++ replicate 16 7)
    (replicate 24 9) 6) as (b1 & b2 & b3 & p2 & d & H1 & H2 & H3 & Hp & _ & Hg & _);
    [by vm_compute..|].
  exists b1, b2, p2, (take 86 b3 ++ 221 :: replicate 5 0), d. split; [exact H2|].
  assert (zlen (take 86 b3 ++ 221 :: replicate 5 0) = 92) as ->.
  { vm_compute in H1. injection H1 as <-. vm_compute in H2. injection H2 as <- <-.
    vm_compute in H3. by injection H3 as <-. }
  split; [exact Hp|exact Hg].
Defined.

Lemma wpa_validate_policy_witness : exists a' m',
  wpa_validate_wpa_ie Ap.plenty (fun c => [c]) (Some Ap.auth) (Some Ap.station) (Some Ap.ie)
    (zlen Ap.ie) = Ok (WPA_IE_OK, Some a', Some m') /\
  Sm.wpa_key_mgmt m' = WPA_KEY_MGMT_PSK_SHA256 /\ Sm.mgmt_frame_prot m' = true.
Proof.
  destruct (wpa_validate_policy Ap.plenty (fun c => [c]) Ap.auth Ap.station Ap.ie (zlen Ap.ie) [])
    as (r & a' & m' & Heq & _);
    [by repeat constructor|by vm_compute|by apply (init_ok Ap.plenty)|done|done|done|done|done|].
  exists a', m'. vm_compute in Heq. injection Heq as <- <- <-. by vm_compute.
Defined.
