(* ===== verification/WpaAuthSm.v ===== *)
(** * The state machines of one station (ap/wpa_auth.c)

    The group key functions, the EAPOL-Key frames and the machines WPA_PTK and
    WPA_PTK_GROUP of one station.  They work on a local state: the station, the
    group its [group] points to, the authenticator, and the log of everything
    exchanged with the owner of the machines, newest first.  What happens to the
    other stations and groups is in WpaAuth.v.

    The owner (ap/wpa_auth_glue.c), the event loop, the random pool and the
    allocator are the class [Owner]: an answer is any function of the log so far,
    so it may depend on everything that happened, and no callback re-enters the
    machines: those of the glue set fields, register timeouts or call the
    driver. *)

From S2P Require Import Prelude CommonUtils EapI WpaCommon Pmksa WpaAuthI WpaAuthIe.

(** ** The log *)

(** The timeouts of the event loop. *)
Inductive timeout :=
  | wpa_send_eapol_timeout_ (addr : list Z)
  | wpa_sm_call_step_ (addr : list Z)
  | wpa_rekey_ptk_ (addr : list Z)
  | wpa_rekey_gmk_
  | wpa_rekey_gtk_.

Inductive call :=
  | CRx (addr data : list Z)                             (** an EAPOL-Key frame comes in *)
  | CFire (t : timeout)                                  (** a timeout is due *)
  | CSetEapol (addr : list Z) (var : wpa_eapol_variable) (value : bool)
  | CGetEapol (addr : list Z) (var : wpa_eapol_variable)
  | CGetPsk (addr : list Z) (prev : option nat)
  | CGetMsk (addr : list Z)
  | CSetKey (vlan : Z) (alg : wpa_alg) (addr : list Z) (idx : Z) (key : list Z)
  | CGetSeqnum (idx : Z)
  | CSendEapol (addr data : list Z) (encrypt : bool)
  | CDisconnect (addr : list Z)
  | CMicFailure (addr : list Z)
  | CRandom (n : Z)
  | CPoolReady
  | CPoolMark
  | CAddRandom (d : list Z)
  | CMalloc (n : Z)
  | CTime
  | CRegister (sec usec : Z) (t : timeout)
  | CCancel (t : timeout).

#[global] Instance timeout_eq : EqDecision timeout.
Proof. solve_decision. Defined.
#[global] Instance call_eq : EqDecision call.
Proof. solve_decision. Defined.

Abbreviation log := (list call).

(** The answers, as functions of the log whose head is the question.  [get_psk]
    gives the address of a key, and the key; [get_msk] what the buffer of
    64 octets holds afterwards; [get_seqnum] and [random_bytes] the value
    returned and what the buffer of the given length holds; [junk] what memory
    that nobody wrote holds; [group_ptr] the octets of the address of a group; the
    sizes are those of the structures on the platform. *)
Class Owner := {
  get_eapol : log -> Z;
  get_psk : log -> option (nat * list Z);
  psk_count : nat;
  get_msk : log -> option (list Z);
  set_key : log -> Z;
  get_seqnum : log -> Z -> Z * list Z;
  random_bytes : log -> Z -> Z * list Z;
  pool_ready : log -> Z;
  malloc : log -> bool;
  time : log -> Z * Z;
  mic_failure_starts_countermeasures : log -> bool;
  junk : log -> Z -> list Z;
  group_ptr : list Z;
  sizeof_wpa_state_machine : Z;
  sizeof_wpa_group : Z;
  sizeof_wpa_authenticator : Z;
}.

(** What is relied on: buffers keep their lengths, the keys of a station are at
    different addresses, in the order of the list, and there are [psk_count]. *)
Class OwnerLaws (o : Owner) := {
  get_psk_next l a prev p k : get_psk (CGetPsk a prev :: l) = Some (p, k) ->
    zlen k = PMK_LEN /\ (p < psk_count)%nat /\
    match prev with Some q => (q < p)%nat | None => True end;
  get_msk_len l k : get_msk l = Some k -> zlen k = 2 * PMK_LEN;
  get_seqnum_len l n r d : 0 <= n -> get_seqnum l n = (r, d) -> zlen d = n;
  random_bytes_len l n r d : 0 <= n -> random_bytes l n = (r, d) -> zlen d = n;
  random_bytes_bytes l n r d : random_bytes l n = (r, d) -> bytes d;
  junk_len l n : 0 <= n -> zlen (junk l n) = n;
  junk_bytes l n : bytes (junk l n);
}.

(** ** Constants *)
Definition dot11RSNAConfigGroupUpdateCount : Z := 4.
Definition dot11RSNAConfigPairwiseUpdateCount : Z := 4.
Definition eapol_key_timeout_first : Z := 100.
Definition eapol_key_timeout_subseq : Z := 1000.

Section machines.
Context {cr : Crypto} {o : Owner}.

(** ** Group keys *)

(** [inc_byte_array] of a counter of [WPA_NONCE_LEN] octets. *)
Definition inc_counter (c : list Z) : res (list Z) := inc_byte_array c (Z.to_nat WPA_NONCE_LEN).

Definition wpa_group_set_key_len (group : Group.wpa_group) (cipher : Z) : Group.wpa_group :=
  if cipher =? WPA_CIPHER_CCMP then group <| Group.GTK_len := 16 |>
  else if cipher =? WPA_CIPHER_TKIP then group <| Group.GTK_len := 32 |>
  else if cipher =? WPA_CIPHER_WEP104 then group <| Group.GTK_len := 13 |>
  else if cipher =? WPA_CIPHER_WEP40 then group <| Group.GTK_len := 5 |>
  else group.

Definition ntp_timestamp (l : log) : list Z :=
  let '(sec, usec) := time l in wpa_get_ntp_timestamp sec usec.

Definition wpa_group_init_gmk_and_counter (a : Auth.wpa_authenticator) (group : Group.wpa_group)
    (l : log) : Z * Group.wpa_group * log :=
  let l := CRandom WPA_GMK_LEN :: l in
  let '(r, d) := random_bytes l WPA_GMK_LEN in
  let group := group <| Group.GMK := d |> in
  if r <? 0 then (-1, group, l)
  else
    let l := CTime :: l in
    let buf := Auth.addr a ++ ntp_timestamp l ++ group_ptr in
    let l := CRandom 32 :: l in
    let '(r, rkey) := random_bytes l 32 in
    if r <? 0 then (-1, group, l)
    else
      match sha1_prf rkey "Init Counter" buf WPA_NONCE_LEN with
      | Some c => (0, group <| Group.Counter := c |>, l)
      | None => (-1, group <| Group.Counter := junk l WPA_NONCE_LEN |>, l)
      end.

(** The key derived, and the return value. *)
Definition wpa_gmk_to_gtk (gmk : list Z) (label : string) (addr gnonce : list Z) (gtk_len : Z)
    (l : log) : Z * list Z * log :=
  let l := CTime :: l in
  let data := addr ++ gnonce ++ ntp_timestamp l in
  let l := CRandom 16 :: l in
  let '(r, d) := random_bytes l 16 in
  let ret := if r <? 0 then -1 else 0 in
  (ret, sha256_prf gmk label (data ++ d) gtk_len, l).

(** [keys[i]] of the two group keys, and the assignment of its first octets. *)
Definition key_at (keys : list (list Z)) (i : Z) : res (list Z) :=
  if i <? 0 then Fault OutOfBounds
  else match keys !! Z.to_nat i with Some k => Ok k | None => Fault OutOfBounds end.
Definition set_key_at (keys : list (list Z)) (i : Z) (k : list Z) : res (list (list Z)) :=
  old ← key_at keys i;
  if zlen old <? zlen k then Fault OutOfBounds
  else mret (<[Z.to_nat i := copy_front old k]> keys).

(** The first [n] octets of [keys[i]]. *)
Definition key_prefix (keys : list (list Z)) (i n : Z) : res (list Z) :=
  k ← key_at keys i; rd_n k 0 n.

(** [GNonce] takes the counter, which advances. *)
Definition next_gnonce (group : Group.wpa_group) : res Group.wpa_group :=
  let group := group <| Group.GNonce := Group.Counter group |> in
  c ← inc_counter (Group.Counter group);
  mret (group <| Group.Counter := c |>).

Definition wpa_gtk_update (a : Auth.wpa_authenticator) (group : Group.wpa_group) (l : log)
    : res (Z * Group.wpa_group * log) :=
  group ← next_gnonce group;
  let '(r1, k, l) := wpa_gmk_to_gtk (Group.GMK group) "Group key expansion" (Auth.addr a)
    (Group.GNonce group) (Group.GTK_len group) l in
  keys ← set_key_at (Group.GTK group) (Group.GN group - 1) k;
  let group := group <| Group.GTK := keys |> in
  if negb (Conf.ieee80211w (Auth.conf a) =? NO_MGMT_FRAME_PROTECTION) then
    group ← next_gnonce group;
    let '(r2, k, l) := wpa_gmk_to_gtk (Group.GMK group) "IGTK key expansion" (Auth.addr a)
      (Group.GNonce group) WPA_IGTK_LEN l in
    keys ← set_key_at (Group.IGTK group) (Group.GN_igtk group - 4) k;
    mret (if (r1 <? 0) || (r2 <? 0) then -1 else 0, group <| Group.IGTK := keys |>, l)
  else mret (r1, group, l).

Definition wpa_alg_enum (alg : Z) : wpa_alg :=
  if alg =? WPA_CIPHER_CCMP then WPA_ALG_CCMP
  else if alg =? WPA_CIPHER_TKIP then WPA_ALG_TKIP
  else if (alg =? WPA_CIPHER_WEP104) || (alg =? WPA_CIPHER_WEP40) then WPA_ALG_WEP
  else WPA_ALG_NONE.

Definition wpa_auth_set_key (vlan : Z) (alg : wpa_alg) (addr : list Z) (idx : Z) (key : list Z)
    (l : log) : Z * log :=
  let l := CSetKey vlan alg addr idx key :: l in (set_key l, l).

Definition wpa_group_config_group_keys (a : Auth.wpa_authenticator) (group : Group.wpa_group)
    (l : log) : res (Z * log) :=
  k ← key_prefix (Group.GTK group) (Group.GN group - 1) (Group.GTK_len group);
  let '(r, l) := wpa_auth_set_key (Group.vlan_id group)
    (wpa_alg_enum (Conf.wpa_group (Auth.conf a))) broadcast_ether_addr (Group.GN group) k l in
  let ret := if r <? 0 then -1 else 0 in
  if negb (Conf.ieee80211w (Auth.conf a) =? NO_MGMT_FRAME_PROTECTION) then
    k ← key_prefix (Group.IGTK group) (Group.GN_igtk group - 4) WPA_IGTK_LEN;
    let '(r, l) := wpa_auth_set_key (Group.vlan_id group) WPA_ALG_IGTK broadcast_ether_addr
      (Group.GN_igtk group) k l in
    mret (if r <? 0 then -1 else ret, l)
  else mret (ret, l).

Definition wpa_group_gtk_init (a : Auth.wpa_authenticator) (group : Group.wpa_group) (l : log)
    : res (Group.wpa_group * log) :=
  let group := group <| Group.changed := false |> in
  let group := group <| Group.wpa_group_state := WPA_GROUP_GTK_INIT |> in
  let group := group <| Group.GTK := replicate 2 (replicate (Z.to_nat WPA_GTK_MAX_LEN) 0) |> in
  let group := group <| Group.GN := 1 |> in
  let group := group <| Group.GM := 2 |> in
  let group := group <| Group.GN_igtk := 4 |> in
  let group := group <| Group.GM_igtk := 5 |> in
  '(_, group, l) ← wpa_gtk_update a group l;
  mret (group, l).

(** [GM] and [GN], [GM_igtk] and [GN_igtk] change places. *)
Definition swap_keys (group : Group.wpa_group) : Group.wpa_group :=
  let tmp := Group.GM group in
  let group := group <| Group.GM := Group.GN group |> in
  let group := group <| Group.GN := tmp |> in
  let tmp := Group.GM_igtk group in
  let group := group <| Group.GM_igtk := Group.GN_igtk group |> in
  group <| Group.GN_igtk := tmp |>.

Definition wpa_group_setkeysdone (a : Auth.wpa_authenticator) (group : Group.wpa_group) (l : log)
    : res (Z * Group.wpa_group * log) :=
  let group := group <| Group.changed := true |> in
  let group := group <| Group.wpa_group_state := WPA_GROUP_SETKEYSDONE |> in
  '(r, l) ← wpa_group_config_group_keys a group l;
  mret (if r <? 0 then -1 else 0, group, l).

(** ** One station *)
#[projections(primitive)]
Record st := {
  sm : Sm.wpa_state_machine;
  gr : Group.wpa_group;
  au : Auth.wpa_authenticator;
  lg : log;
}.

Definition emit (c : call) (s : st) : st := s <| lg := c :: lg s |>.
Definition my_addr (s : st) : list Z := Sm.addr (sm s).

Definition wpa_auth_set_eapol (var : wpa_eapol_variable) (value : bool) (s : st) : st :=
  emit (CSetEapol (my_addr s) var value) s.
Definition wpa_auth_get_eapol (var : wpa_eapol_variable) (s : st) : Z * st :=
  let s := emit (CGetEapol (my_addr s) var) s in (get_eapol (lg s), s).
Definition wpa_auth_get_psk (prev : option nat) (s : st) : option (nat * list Z) * st :=
  let s := emit (CGetPsk (my_addr s) prev) s in (get_psk (lg s), s).
Definition wpa_auth_get_msk (s : st) : option (list Z) * st :=
  let s := emit (CGetMsk (my_addr s)) s in (get_msk (lg s), s).
Definition wpa_auth_get_seqnum (idx n : Z) (s : st) : Z * list Z * st :=
  let s := emit (CGetSeqnum idx) s in (get_seqnum (lg s) n, s).
Definition os_malloc (n : Z) (s : st) : bool * st :=
  let s := emit (CMalloc n) s in (malloc (lg s), s).
Definition wpa_sta_disconnect (s : st) : st := emit (CDisconnect (my_addr s)) s.

Definition wpa_use_aes_cmac (m : Sm.wpa_state_machine) : bool :=
  wpa_key_mgmt_sha256 (Sm.wpa_key_mgmt m).

Definition wpa_remove_ptk (s : st) : st :=
  let s := s <| sm; Sm.PTK_valid := false |> in
  let s := s <| sm; Sm.PTK := replicate (Z.to_nat sizeof_wpa_ptk) 0 |> in
  let s := emit (CSetKey 0 WPA_ALG_NONE (my_addr s) 0 []) s in
  let s := s <| sm; Sm.pairwise_set := false |> in
  emit (CCancel (wpa_rekey_ptk_ (my_addr s))) s.

Definition wpa_request_new_ptk (s : st) : st :=
  let s := s <| sm; Sm.PTKRequest := true |> in
  s <| sm; Sm.PTK_valid := false |>.

(** *** EAPOL-Key frames *)

Definition wpa_verify_key_mic (PTK data : list Z) (data_len : Z) : res Z :=
  if data_len <? sizeof_ieee802_1x_hdr + sizeof_wpa_eapol_key then mret (-1)
  else
    key_info ← WPA_GET_BE16 data o_key_info;
    mic ← rd_n data o_key_mic 16;
    data ← wr_n data o_key_mic (replicate 16 0);
    data ← rd_n data 0 data_len;
    mret match wpa_eapol_key_mic (kck PTK) (Z.land key_info WPA_KEY_INFO_TYPE_MASK) data with
         | None => -1
         | Some h => if os_memcmp mic h =? 0 then 0 else -1
         end.

(** [key_replay] moves one place on, and the first counter is incremented. *)
Definition next_replay (k : list replay) : res (list replay) :=
  match k with
  | r0 :: r =>
      c ← inc_byte_array (counter r0) (Z.to_nat WPA_REPLAY_COUNTER_LEN);
      mret ({| counter := c; valid := true |} :: take (length r) k)
  | [] => Fault OutOfBounds
  end.

Definition key_length_of (alg : Z) : option Z :=
  if alg =? WPA_CIPHER_CCMP then Some 16
  else if alg =? WPA_CIPHER_TKIP then Some 32
  else if alg =? WPA_CIPHER_WEP40 then Some 5
  else if alg =? WPA_CIPHER_WEP104 then Some 13
  else None.

(** [None]: out of memory, or the key wrap failed. *)
Definition put_key_data (buf : list Z) (version key_data_len pad_len : Z) (kde : option (list Z))
    (encr : bool) (s : st) : res (option (list Z) * st) :=
  match kde with
  | None => mret (Some buf, s)
  | Some kde =>
      if negb encr then
        buf ← wr_n buf o_key_data kde;
        buf ← wr_n buf o_key_data_length (WPA_PUT_BE16 (zlen kde));
        mret (Some buf, s)
      else
        let '(ok, s) := os_malloc key_data_len s in
        if negb ok then mret (None, s)
        else
          let plain := replicate (Z.to_nat key_data_len) 0 in
          plain ← wr_n plain 0 kde;
          plain ← if negb (pad_len =? 0) then wr plain (zlen kde) 221 else mret plain;
          if (version =? WPA_KEY_INFO_TYPE_HMAC_SHA1_AES) ||
             (version =? WPA_KEY_INFO_TYPE_AES_128_CMAC) then
            p ← rd_n plain 0 (8 * ((key_data_len - 8) / 8));
            match aes_wrap (kek (Sm.PTK (sm s))) p with
            | None => mret (None, s)
            | Some c =>
                buf ← wr_n buf o_key_data c;
                buf ← wr_n buf o_key_data_length (WPA_PUT_BE16 key_data_len);
                mret (Some buf, s)
            end
          else
            iv ← rd_n (Group.Counter (gr s)) (WPA_NONCE_LEN - 16) 16;
            buf ← wr_n buf o_key_iv iv;
            c ← inc_counter (Group.Counter (gr s));
            let s := s <| gr; Group.Counter := c |> in
            let ek := iv ++ kek (Sm.PTK (sm s)) in
            buf ← wr_n buf o_key_data (rc4_skip ek 256 plain);
            buf ← wr_n buf o_key_data_length (WPA_PUT_BE16 key_data_len);
            mret (Some buf, s)
  end.

Definition eapol_version_of (m : Sm.wpa_state_machine) (force_version : Z) : Z :=
  if negb (force_version =? 0) then force_version
  else if wpa_use_aes_cmac m then WPA_KEY_INFO_TYPE_AES_128_CMAC
  else if Sm.pairwise m =? WPA_CIPHER_CCMP then WPA_KEY_INFO_TYPE_HMAC_SHA1_AES
  else WPA_KEY_INFO_TYPE_HMAC_MD5_RC4.

(** [pad_len] and [key_data_len] *)
Definition padded_len (version kde_len : Z) (encr : bool) : Z * Z :=
  if ((version =? WPA_KEY_INFO_TYPE_HMAC_SHA1_AES) ||
      (version =? WPA_KEY_INFO_TYPE_AES_128_CMAC)) && encr then
    let pad_len := kde_len mod 8 in
    let pad_len := if negb (pad_len =? 0) then 8 - pad_len else pad_len in
    (pad_len, kde_len + pad_len + 8)
  else (0, kde_len).

(** The key information field of the frame. *)
Definition final_key_info (m : Sm.wpa_state_machine) (key_info version keyidx : Z) (encr : bool)
    : Z :=
  let key_info := Z.lor key_info version in
  if decide (Sm.wpa m = WPA_VERSION_WPA2) then
    if encr : bool then Z.lor key_info WPA_KEY_INFO_ENCR_KEY_DATA else key_info
  else Z.lor key_info (Z.shiftl keyidx WPA_KEY_INFO_KEY_INDEX_SHIFT).

(** The header and the fields before the key data. *)
Definition put_key_header (s : st) (key_info len : Z) (key_rsc nonce : option (list Z))
    : res (list Z) :=
  let hdr := replicate (Z.to_nat len) 0 in
  hdr ← wr_n hdr 0 [u8 (Conf.eapol_version (Auth.conf (au s))); IEEE802_1X_TYPE_EAPOL_KEY];
  hdr ← wr_n hdr 2 (WPA_PUT_BE16 (len - sizeof_ieee802_1x_hdr));
  hdr ← wr hdr o_type (if decide (Sm.wpa (sm s) = WPA_VERSION_WPA2) then EAPOL_KEY_TYPE_RSN
                       else EAPOL_KEY_TYPE_WPA);
  hdr ← wr_n hdr o_key_info (WPA_PUT_BE16 key_info);
  let alg := if has_bits key_info WPA_KEY_INFO_KEY_TYPE then Sm.pairwise (sm s)
             else Conf.wpa_group (Auth.conf (au s)) in
  hdr ← match key_length_of alg with
        | Some n => wr_n hdr o_key_length (WPA_PUT_BE16 n)
        | None => mret hdr
        end;
  hdr ← if has_bits key_info WPA_KEY_INFO_SMK_MESSAGE then wr_n hdr o_key_length (WPA_PUT_BE16 0)
        else mret hdr;
  hdr ← match Sm.key_replay (sm s) with
        | r0 :: _ => wr_n hdr o_replay_counter (counter r0)
        | [] => Fault OutOfBounds
        end;
  hdr ← match nonce with Some n => wr_n hdr o_key_nonce n | None => mret hdr end;
  match key_rsc with Some r => wr_n hdr o_key_rsc r | None => mret hdr end.

(** The MIC over a frame whose MIC field is zero; nothing is written when it can
    not be computed. *)
Definition put_mic (PTK : list Z) (version : Z) (hdr : list Z) : res (list Z) :=
  match wpa_eapol_key_mic (kck PTK) version hdr with
  | Some h => wr_n hdr o_key_mic h
  | None => mret hdr
  end.

Definition wpa_send_eapol_ (s : st) (key_info : Z) (key_rsc nonce kde : option (list Z))
    (keyidx : Z) (encr : bool) (force_version : Z) : res st :=
  let kde_len := match kde with Some k => zlen k | None => 0 end in
  let version := eapol_version_of (sm s) force_version in
  let '(pad_len, key_data_len) := padded_len version kde_len encr in
  let len := sizeof_ieee802_1x_hdr + sizeof_wpa_eapol_key + key_data_len in
  let '(ok, s) := os_malloc len s in
  if negb ok then mret s
  else
    let key_info := final_key_info (sm s) key_info version keyidx encr in
    k ← next_replay (Sm.key_replay (sm s));
    let s := s <| sm; Sm.key_replay := k |> in
    hdr ← put_key_header s key_info len key_rsc nonce;
    '(hdr, s) ← put_key_data hdr version key_data_len pad_len kde encr s;
    match hdr with
    | None => mret s
    | Some hdr =>
        if has_bits key_info WPA_KEY_INFO_MIC && negb (Sm.PTK_valid (sm s)) then mret s
        else
          hdr ← if has_bits key_info WPA_KEY_INFO_MIC then put_mic (Sm.PTK (sm s)) version hdr
                else mret hdr;
          let s := wpa_auth_set_eapol WPA_EAPOL_inc_EapolFramesTx true s in
          mret (emit (CSendEapol (my_addr s) hdr (Sm.pairwise_set (sm s))) s)
    end.

Definition wpa_send_eapol (s : st) (key_info : Z) (key_rsc nonce kde : option (list Z))
    (keyidx : Z) (encr : bool) : res st :=
  s ← wpa_send_eapol_ s key_info key_rsc nonce kde keyidx encr 0;
  let ctr := if has_bits key_info WPA_KEY_INFO_KEY_TYPE then Sm.TimeoutCtr (sm s)
             else Sm.GTimeoutCtr (sm s) in
  let timeout_ms := if ctr =? 1 then eapol_key_timeout_first else eapol_key_timeout_subseq in
  mret (emit (CRegister (timeout_ms / 1000) ((timeout_ms mod 1000) * 1000)
    (wpa_send_eapol_timeout_ (my_addr s))) s).

(** ** WPA_PTK *)

(** [SM_ENTRY_MA]: every entry is by [SM_ENTER], whose [global] is 0, and counts
    as a change. *)
Definition SM_ENTRY_PTK (state : ptk_state) (s : st) : st :=
  let s := s <| sm; Sm.changed := true |> in
  s <| sm; Sm.wpa_ptk_state := state |>.

(** [if (sm->GUpdateStationKeys) sm->group->GKeyDoneStations--;] and the flag. *)
Definition cancel_group_update (s : st) : st :=
  let s := if Sm.GUpdateStationKeys (sm s)
           then s <| gr; Group.GKeyDoneStations := Group.GKeyDoneStations (gr s) - 1 |> else s in
  s <| sm; Sm.GUpdateStationKeys := false |>.

Definition sm_WPA_PTK_INITIALIZE_Enter (s : st) : st :=
  let s := SM_ENTRY_PTK WPA_PTK_INITIALIZE s in
  let s := if Sm.Init (sm s) then s <| sm; Sm.changed := false |> else s in
  let s := s <| sm; Sm.keycount := 0 |> in
  let s := cancel_group_update s in
  let s := if decide (Sm.wpa (sm s) = WPA_VERSION_WPA)
           then s <| sm; Sm.PInitAKeys := false |> else s in
  let s := s <| sm; Sm.Pair := true |> in
  let s := wpa_auth_set_eapol WPA_EAPOL_portEnabled false s in
  let s := wpa_remove_ptk s in
  let s := wpa_auth_set_eapol WPA_EAPOL_portValid false s in
  let s := s <| sm; Sm.TimeoutCtr := 0 |> in
  if wpa_key_mgmt_wpa_psk (Sm.wpa_key_mgmt (sm s))
  then wpa_auth_set_eapol WPA_EAPOL_authorized false s else s.

Definition sm_WPA_PTK_DISCONNECT_Enter (s : st) : st :=
  let s := SM_ENTRY_PTK WPA_PTK_DISCONNECT s in
  let s := s <| sm; Sm.Disconnect := false |> in
  wpa_sta_disconnect s.

Definition sm_WPA_PTK_DISCONNECTED_Enter (s : st) : st :=
  let s := SM_ENTRY_PTK WPA_PTK_DISCONNECTED s in
  s <| sm; Sm.DeauthenticationRequest := false |>.

Definition sm_WPA_PTK_AUTHENTICATION_Enter (s : st) : st :=
  let s := SM_ENTRY_PTK WPA_PTK_AUTHENTICATION s in
  let s := s <| sm; Sm.PTK := replicate (Z.to_nat sizeof_wpa_ptk) 0 |> in
  let s := s <| sm; Sm.PTK_valid := false |> in
  let s := wpa_auth_set_eapol WPA_EAPOL_portControl_Auto true s in
  let s := wpa_auth_set_eapol WPA_EAPOL_portEnabled true s in
  s <| sm; Sm.AuthenticationRequest := false |>.

Definition wpa_group_first_station (a : Auth.wpa_authenticator) (group : Group.wpa_group) (l : log)
    : res (Group.wpa_group * log) :=
  let l := CPoolReady :: l in
  let group := if negb (pool_ready l =? 1)
               then group <| Group.reject_4way_hs_for_entropy := true |> else group in
  let '(_, group, l) := wpa_group_init_gmk_and_counter a group l in
  '(_, group, l) ← wpa_gtk_update a group l;
  '(_, l) ← wpa_group_config_group_keys a group l;
  mret (group, l).

Definition sm_WPA_PTK_AUTHENTICATION2_Enter (s : st) : res st :=
  let s := SM_ENTRY_PTK WPA_PTK_AUTHENTICATION2 s in
  s ← if negb (Group.first_sta_seen (gr s)) then
        '(g, l) ← wpa_group_first_station (au s) (gr s) (lg s);
        let s := s <| gr := g |> <| lg := l |> in
        mret (s <| gr; Group.first_sta_seen := true |>)
      else mret s;
  let s := s <| sm; Sm.ANonce := Group.Counter (gr s) |> in
  c ← inc_counter (Group.Counter (gr s));
  let s := s <| gr; Group.Counter := c |> in
  let s := s <| sm; Sm.ReAuthenticationRequest := false |> in
  mret (s <| sm; Sm.TimeoutCtr := 0 |>).

(** [sm->pmksa], which must point to an entry. *)
Definition my_pmksa (s : st) : res (option rsn_pmksa_cache_entry) :=
  match Sm.pmksa (sm s) with
  | Some p => en ← deref (Auth.pmksa (au s)) p; mret (Some en)
  | None => mret None
  end.

Definition sm_WPA_PTK_INITPMK_Enter (s : st) : res st :=
  let s := SM_ENTRY_PTK WPA_PTK_INITPMK s in
  en ← my_pmksa s;
  s ← match en with
      | Some en => k ← rd_n (e_pmk en) 0 PMK_LEN; mret (s <| sm; Sm.PMK := k |>)
      | None =>
          let '(msk, s) := wpa_auth_get_msk s in
          match msk with
          | Some msk => k ← rd_n msk 0 PMK_LEN; mret (s <| sm; Sm.PMK := k |>)
          | None => mret s
          end
      end;
  let s := s <| sm; Sm.req_replay_counter_used := false |> in
  mret (wpa_auth_set_eapol WPA_EAPOL_keyRun false s).

Definition sm_WPA_PTK_INITPSK_Enter (s : st) : res st :=
  let s := SM_ENTRY_PTK WPA_PTK_INITPSK s in
  let '(psk, s) := wpa_auth_get_psk None s in
  s ← match psk with
      | Some (_, k) => k ← rd_n k 0 PMK_LEN; mret (s <| sm; Sm.PMK := k |>)
      | None => mret s
      end;
  mret (s <| sm; Sm.req_replay_counter_used := false |>).

(** The PMKID of message 1/4. *)
Definition msg1_pmkid (s : st) : res (option (list Z)) :=
  if decide (Sm.wpa (sm s) = WPA_VERSION_WPA2) then
    if wpa_key_mgmt_wpa_ieee8021x (Sm.wpa_key_mgmt (sm s)) then
      let hdr := [WLAN_EID_VENDOR_SPECIFIC; RSN_SELECTOR_LEN + PMKID_LEN] ++
        RSN_SELECTOR_PUT RSN_KEY_DATA_PMKID in
      en ← my_pmksa s;
      match en with
      | Some en => k ← rd_n (e_pmkid en) 0 PMKID_LEN; mret (Some (hdr ++ k))
      | None =>
          mret (Some (hdr ++ rsn_pmkid (Sm.PMK (sm s)) (Auth.addr (au s)) (my_addr s)
            (wpa_key_mgmt_sha256 (Sm.wpa_key_mgmt (sm s)))))
      end
    else mret None
  else mret None.

Definition sm_WPA_PTK_PTKSTART_Enter (s : st) : res st :=
  let s := SM_ENTRY_PTK WPA_PTK_PTKSTART s in
  let s := s <| sm; Sm.PTKRequest := false |> in
  let s := s <| sm; Sm.TimeoutEvt := false |> in
  let s := s <| sm; Sm.TimeoutCtr := Sm.TimeoutCtr (sm s) + 1 |> in
  if dot11RSNAConfigPairwiseUpdateCount <? Sm.TimeoutCtr (sm s) then mret s
  else
    pmkid ← msg1_pmkid s;
    wpa_send_eapol s (Z.lor WPA_KEY_INFO_ACK WPA_KEY_INFO_KEY_TYPE) None
      (Some (Sm.ANonce (sm s))) pmkid 0 false.

Definition wpa_derive_ptk (s : st) (pmk : list Z) (ptk : list Z) : list Z :=
  let ptk_len := if Sm.pairwise (sm s) =? WPA_CIPHER_CCMP then 48 else 64 in
  match wpa_pmk_to_ptk pmk "Pairwise key expansion" (Auth.addr (au s)) (my_addr s)
          (Sm.ANonce (sm s)) (Sm.SNonce (sm s)) ptk_len
          (wpa_key_mgmt_sha256 (Sm.wpa_key_mgmt (sm s))) with
  | Some k => copy_front ptk k
  | None => junk (lg s) sizeof_wpa_ptk
  end.

(** [wpa_verify_key_mic(&PTK, sm->last_rx_eapol_key, sm->last_rx_eapol_key_len)]:
    [sizeof] first, so that a NULL frame of some length is dereferenced. *)
Definition verify_last_rx (s : st) (PTK : list Z) : res Z :=
  match Sm.last_rx_eapol_key (sm s) with
  | Some data => wpa_verify_key_mic PTK data (Sm.last_rx_eapol_key_len (sm s))
  | None =>
      if Sm.last_rx_eapol_key_len (sm s) <? sizeof_ieee802_1x_hdr + sizeof_wpa_eapol_key
      then mret (-1) else Fault NullDeref
  end.

(** The loop over the keys: [Some (pmk, PTK)] if one of them explains the MIC.
    The keys of a station come one after the other, [psk_count + 1] rounds see
    them all. *)
Fixpoint find_ptk (fuel : nat) (prev : option nat) (s : st) (PTK : list Z)
    : res (option (list Z * list Z) * st) :=
  match fuel with
  | O => Fault OutOfFuel
  | S fuel =>
      if wpa_key_mgmt_wpa_psk (Sm.wpa_key_mgmt (sm s)) then
        let '(psk, s) := wpa_auth_get_psk prev s in
        match psk with
        | None => mret (None, s)
        | Some (p, pmk) =>
            let PTK := wpa_derive_ptk s pmk PTK in
            r ← verify_last_rx s PTK;
            if r =? 0 then mret (Some (pmk, PTK), s) else find_ptk fuel (Some p) s PTK
        end
      else
        let PTK := wpa_derive_ptk s (Sm.PMK (sm s)) PTK in
        r ← verify_last_rx s PTK;
        mret (if r =? 0 then Some (Sm.PMK (sm s), PTK) else None, s)
  end.

Definition sm_WPA_PTK_PTKCALCNEGOTIATING_Enter (s : st) : res st :=
  let s := SM_ENTRY_PTK WPA_PTK_PTKCALCNEGOTIATING s in
  let s := s <| sm; Sm.EAPOLKeyReceived := false |> in
  '(found, s) ← find_ptk (S (S psk_count)) None s (junk (lg s) sizeof_wpa_ptk);
  match found with
  | None => mret s
  | Some (pmk, PTK) =>
      let s := emit (CCancel (wpa_send_eapol_timeout_ (my_addr s))) s in
      s ← if wpa_key_mgmt_wpa_psk (Sm.wpa_key_mgmt (sm s))
          then k ← rd_n pmk 0 PMK_LEN; mret (s <| sm; Sm.PMK := k |>) else mret s;
      let s := s <| sm; Sm.MICVerified := true |> in
      let s := s <| sm; Sm.PTK := PTK |> in
      mret (s <| sm; Sm.PTK_valid := true |>)
  end.

Definition sm_WPA_PTK_PTKCALCNEGOTIATING2_Enter (s : st) : st :=
  let s := SM_ENTRY_PTK WPA_PTK_PTKCALCNEGOTIATING2 s in
  s <| sm; Sm.TimeoutCtr := 0 |>.

Definition ieee80211w_kde_len (m : Sm.wpa_state_machine) : Z :=
  if Sm.mgmt_frame_prot m then 2 + RSN_SELECTOR_LEN + 24 else 0.

Definition ieee80211w_kde_add (s : st) (kde : list Z) (pos : Z) : res (list Z * Z * st) :=
  if negb (Sm.mgmt_frame_prot (sm s)) then mret (kde, pos, s)
  else
    let gsm := gr s in
    let '(pn, s) := if decide (Group.wpa_group_state gsm = WPA_GROUP_SETKEYSDONE) then
                      let '(r, d, s) := wpa_auth_get_seqnum (Group.GN_igtk gsm) 6 s in
                      (if r <? 0 then replicate 6 0 else d, s)
                    else (replicate 6 0, s) in
    k ← key_prefix (Group.IGTK gsm) (Group.GN_igtk gsm - 4) WPA_IGTK_LEN;
    '(kde, pos) ← wpa_add_kde kde pos RSN_KEY_DATA_IGTK
      ([u8 (Group.GN_igtk gsm); 0] ++ pn ++ k) None;
    mret (kde, pos, s).

(** [wpa_ie[i]] of the authenticator. *)
Definition auth_ie_octet (s : st) (i : Z) : res Z :=
  match Auth.wpa_ie (au s) with Some ie => rd ie i | None => Fault NullDeref end.

(** The element for message 3/4, offset and length: for a WPA station without
    the RSN element in front. *)
Definition msg3_ie (s : st) : res (Z * Z) :=
  let len := Auth.wpa_ie_len (au s) in
  if bool_decide (Sm.wpa (sm s) = WPA_VERSION_WPA) &&
     has_bits (Conf.wpa (Auth.conf (au s))) WPA_PROTO_RSN
  then
    l ← auth_ie_octet s 1;
    if l + 2 <? len then
      id ← auth_ie_octet s 0;
      if id =? WLAN_EID_RSN then l2 ← auth_ie_octet s (l + 2 + 1); mret (l + 2, l2 + 2)
      else mret (0, len)
    else mret (0, len)
  else mret (0, len).

(** [os_memcpy(pos, wpa_ie, wpa_ie_len)], the octets read. *)
Definition read_auth_ie (s : st) (off len : Z) : res (list Z) :=
  match Auth.wpa_ie (au s) with
  | Some ie => rd_n ie off len
  | None => if len =? 0 then mret [] else Fault NullDeref
  end.

(** The GTK KDE, at [pos]. *)
Definition gtk_kde_add (s : st) (kde : list Z) (pos : Z) : res (list Z * Z) :=
  k ← key_prefix (Group.GTK (gr s)) (Group.GN (gr s) - 1) (Group.GTK_len (gr s));
  wpa_add_kde kde pos RSN_KEY_DATA_GROUPKEY [Z.land (Group.GN (gr s)) 3; 0] (Some k).

Definition sm_WPA_PTK_PTKINITNEGOTIATING_Enter (s : st) : res st :=
  let s := SM_ENTRY_PTK WPA_PTK_PTKINITNEGOTIATING s in
  let s := s <| sm; Sm.TimeoutEvt := false |> in
  let s := s <| sm; Sm.TimeoutCtr := Sm.TimeoutCtr (sm s) + 1 |> in
  if dot11RSNAConfigPairwiseUpdateCount <? Sm.TimeoutCtr (sm s) then mret s
  else
    let '(_, rsc, s) := wpa_auth_get_seqnum (Group.GN (gr s)) WPA_KEY_RSC_LEN s in
    '(ie_off, ie_len) ← msg3_ie s;
    let rsn := bool_decide (Sm.wpa (sm s) = WPA_VERSION_WPA2) in
    let kde_len := ie_len + ieee80211w_kde_len (sm s) in
    let kde_len := if rsn then kde_len + (2 + RSN_SELECTOR_LEN + 2 + Group.GTK_len (gr s))
                   else kde_len in
    let '(ok, s) := os_malloc kde_len s in
    if negb ok then mret s
    else
      let kde := junk (lg s) kde_len in
      wpa_ie ← read_auth_ie s ie_off ie_len;
      kde ← wr_n kde 0 wpa_ie;
      let pos := ie_len in
      '(kde, pos) ← if rsn then gtk_kde_add s kde pos else mret (kde, pos);
      '(kde, pos, s) ← ieee80211w_kde_add s kde pos;
      d ← rd_n kde 0 pos;
      let flags := Z.lor WPA_KEY_INFO_MIC (Z.lor WPA_KEY_INFO_ACK
        (Z.lor WPA_KEY_INFO_INSTALL WPA_KEY_INFO_KEY_TYPE)) in
      wpa_send_eapol s (if rsn then Z.lor WPA_KEY_INFO_SECURE flags else flags)
        (if rsn then Some rsc else None) (Some (Sm.ANonce (sm s))) (Some d)
        (if rsn then Group.GN (gr s) else 0) rsn.

Definition sm_WPA_PTK_PTKINITDONE_Enter (s : st) : res st :=
  let s := SM_ENTRY_PTK WPA_PTK_PTKINITDONE s in
  let s := s <| sm; Sm.EAPOLKeyReceived := false |> in
  '(failed, s) ← if Sm.Pair (sm s) then
      let '(alg, klen) := if Sm.pairwise (sm s) =? WPA_CIPHER_TKIP then (WPA_ALG_TKIP, 32)
                          else (WPA_ALG_CCMP, 16) in
      k ← rd_n (Sm.PTK (sm s)) 32 klen;
      let '(r, l) := wpa_auth_set_key 0 alg (my_addr s) 0 k (lg s) in
      let s := s <| lg := l |> in
      if negb (r =? 0) then mret (true, wpa_sta_disconnect s)
      else
        let s := s <| sm; Sm.pairwise_set := true |> in
        let rekey := Conf.wpa_ptk_rekey (Auth.conf (au s)) in
        let s := if negb (rekey =? 0) then
                   let s := emit (CCancel (wpa_rekey_ptk_ (my_addr s))) s in
                   emit (CRegister rekey 0 (wpa_rekey_ptk_ (my_addr s))) s
                 else s in
        let s := if wpa_key_mgmt_wpa_psk (Sm.wpa_key_mgmt (sm s))
                 then wpa_auth_set_eapol WPA_EAPOL_authorized true s else s in
        mret (false, s)
    else mret (false, s);
  if failed : bool then mret s
  else
    let s := wpa_auth_set_eapol WPA_EAPOL_portValid true s in
    let s := wpa_auth_set_eapol WPA_EAPOL_keyAvailable false s in
    let s := wpa_auth_set_eapol WPA_EAPOL_keyDone true s in
    if decide (Sm.wpa (sm s) = WPA_VERSION_WPA) then mret (s <| sm; Sm.PInitAKeys := true |>)
    else mret (s <| sm; Sm.has_GTK := true |>).

(** [EAPOLKeyReceived && !EAPOLKeyRequest && EAPOLKeyPairwise == pairwise] *)
Definition key_received (m : Sm.wpa_state_machine) (pairwise : bool) : bool :=
  Sm.EAPOLKeyReceived m && negb (Sm.EAPOLKeyRequest m) &&
  eqb (Sm.EAPOLKeyPairwise m) pairwise.

Definition count_handshake_failure (s : st) : st :=
  s <| au; Auth.dot11RSNA4WayHandshakeFailures :=
    u32 (Auth.dot11RSNA4WayHandshakeFailures (au s) + 1) |>.

Definition sm_WPA_PTK_Step (s : st) : res st :=
  let m := sm s in
  if Sm.Init m then mret (sm_WPA_PTK_INITIALIZE_Enter s)
  else if Sm.Disconnect m then mret (sm_WPA_PTK_DISCONNECT_Enter s)
  else if Sm.DeauthenticationRequest m then mret (sm_WPA_PTK_DISCONNECTED_Enter s)
  else if Sm.AuthenticationRequest m then mret (sm_WPA_PTK_AUTHENTICATION_Enter s)
  else if Sm.ReAuthenticationRequest m then sm_WPA_PTK_AUTHENTICATION2_Enter s
  else if Sm.PTKRequest m then sm_WPA_PTK_PTKSTART_Enter s
  else
    match Sm.wpa_ptk_state m with
    | WPA_PTK_INITIALIZE => mret s
    | WPA_PTK_DISCONNECT => mret (sm_WPA_PTK_DISCONNECTED_Enter s)
    | WPA_PTK_DISCONNECTED => mret (sm_WPA_PTK_INITIALIZE_Enter s)
    | WPA_PTK_AUTHENTICATION => sm_WPA_PTK_AUTHENTICATION2_Enter s
    | WPA_PTK_AUTHENTICATION2 =>
        let akm := Sm.wpa_key_mgmt m in
        let '(run, s) := if wpa_key_mgmt_wpa_ieee8021x akm
                         then let '(v, s) := wpa_auth_get_eapol WPA_EAPOL_keyRun s in (0 <? v, s)
                         else (false, s) in
        if run : bool then sm_WPA_PTK_INITPMK_Enter s
        else if wpa_key_mgmt_wpa_psk akm then sm_WPA_PTK_INITPSK_Enter s
        else mret s
    | WPA_PTK_INITPMK =>
        let '(v, s) := wpa_auth_get_eapol WPA_EAPOL_keyAvailable s in
        if 0 <? v then sm_WPA_PTK_PTKSTART_Enter s
        else mret (sm_WPA_PTK_DISCONNECT_Enter (count_handshake_failure s))
    | WPA_PTK_INITPSK =>
        let '(psk, s) := wpa_auth_get_psk None s in
        match psk with
        | Some _ => sm_WPA_PTK_PTKSTART_Enter s
        | None => mret (sm_WPA_PTK_DISCONNECT_Enter (count_handshake_failure s))
        end
    | WPA_PTK_PTKSTART =>
        if key_received m true then sm_WPA_PTK_PTKCALCNEGOTIATING_Enter s
        else if dot11RSNAConfigPairwiseUpdateCount <? Sm.TimeoutCtr m
        then mret (sm_WPA_PTK_DISCONNECT_Enter (count_handshake_failure s))
        else if Sm.TimeoutEvt m then sm_WPA_PTK_PTKSTART_Enter s
        else mret s
    | WPA_PTK_PTKCALCNEGOTIATING =>
        if Sm.MICVerified m then mret (sm_WPA_PTK_PTKCALCNEGOTIATING2_Enter s)
        else if key_received m true then sm_WPA_PTK_PTKCALCNEGOTIATING_Enter s
        else if Sm.TimeoutEvt m then sm_WPA_PTK_PTKSTART_Enter s
        else mret s
    | WPA_PTK_PTKCALCNEGOTIATING2 => sm_WPA_PTK_PTKINITNEGOTIATING_Enter s
    | WPA_PTK_PTKINITNEGOTIATING =>
        if key_received m true && Sm.MICVerified m then sm_WPA_PTK_PTKINITDONE_Enter s
        else if dot11RSNAConfigPairwiseUpdateCount <? Sm.TimeoutCtr m
        then mret (sm_WPA_PTK_DISCONNECT_Enter (count_handshake_failure s))
        else if Sm.TimeoutEvt m then sm_WPA_PTK_PTKINITNEGOTIATING_Enter s
        else mret s
    | WPA_PTK_PTKINITDONE => mret s
    end.

(** ** WPA_PTK_GROUP *)

Definition SM_ENTRY_PTK_GROUP (state : ptk_group_state) (s : st) : st :=
  let s := s <| sm; Sm.changed := true |> in
  s <| sm; Sm.wpa_ptk_group_state := state |>.

Definition sm_WPA_PTK_GROUP_IDLE_Enter (s : st) : st :=
  let s := SM_ENTRY_PTK_GROUP WPA_PTK_GROUP_IDLE s in
  let s := if Sm.Init (sm s) then s <| sm; Sm.changed := false |> else s in
  s <| sm; Sm.GTimeoutCtr := 0 |>.

Definition sm_WPA_PTK_GROUP_REKEYNEGOTIATING_Enter (s : st) : res st :=
  let s := SM_ENTRY_PTK_GROUP WPA_PTK_GROUP_REKEYNEGOTIATING s in
  let s := s <| sm; Sm.GTimeoutCtr := Sm.GTimeoutCtr (sm s) + 1 |> in
  if dot11RSNAConfigGroupUpdateCount <? Sm.GTimeoutCtr (sm s) then mret s
  else
    let s := if decide (Sm.wpa (sm s) = WPA_VERSION_WPA)
             then s <| sm; Sm.PInitAKeys := false |> else s in
    let s := s <| sm; Sm.TimeoutEvt := false |> in
    let '(rsc, s) := if decide (Group.wpa_group_state (gr s) = WPA_GROUP_SETKEYSDONE) then
                       let '(_, d, s) := wpa_auth_get_seqnum (Group.GN (gr s)) WPA_KEY_RSC_LEN s in
                       (d, s)
                     else (replicate (Z.to_nat WPA_KEY_RSC_LEN) 0, s) in
    '(kde, s) ← if decide (Sm.wpa (sm s) = WPA_VERSION_WPA2) then
        let kde_len := 2 + RSN_SELECTOR_LEN + 2 + Group.GTK_len (gr s) +
          ieee80211w_kde_len (sm s) in
        let '(ok, s) := os_malloc kde_len s in
        if negb ok then mret (None, s)
        else
          '(kde, pos) ← gtk_kde_add s (junk (lg s) kde_len) 0;
          '(kde, pos, s) ← ieee80211w_kde_add s kde pos;
          d ← rd_n kde 0 pos;
          mret (Some d, s)
      else
        k ← key_prefix (Group.GTK (gr s)) (Group.GN (gr s) - 1) (Group.GTK_len (gr s));
        mret (Some k, s);
    match kde with
    | None => mret s
    | Some kde =>
        let flags := Z.lor WPA_KEY_INFO_SECURE (Z.lor WPA_KEY_INFO_MIC WPA_KEY_INFO_ACK) in
        wpa_send_eapol s (if Sm.Pair (sm s) then flags else Z.lor flags WPA_KEY_INFO_INSTALL)
          (Some rsc) (Some (Group.GNonce (gr s))) (Some kde) (Group.GN (gr s)) true
    end.

Definition sm_WPA_PTK_GROUP_REKEYESTABLISHED_Enter (s : st) : st :=
  let s := SM_ENTRY_PTK_GROUP WPA_PTK_GROUP_REKEYESTABLISHED s in
  let s := s <| sm; Sm.EAPOLKeyReceived := false |> in
  let s := cancel_group_update s in
  let s := s <| sm; Sm.GTimeoutCtr := 0 |> in
  s <| sm; Sm.has_GTK := true |>.

Definition sm_WPA_PTK_GROUP_KEYERROR_Enter (s : st) : st :=
  let s := SM_ENTRY_PTK_GROUP WPA_PTK_GROUP_KEYERROR s in
  let s := cancel_group_update s in
  s <| sm; Sm.Disconnect := true |>.

Definition sm_WPA_PTK_GROUP_Step (s : st) : res st :=
  let m := sm s in
  if Sm.Init m || Sm.PtkGroupInit m then
    let s := sm_WPA_PTK_GROUP_IDLE_Enter s in
    mret (s <| sm; Sm.PtkGroupInit := false |>)
  else
    match Sm.wpa_ptk_group_state m with
    | WPA_PTK_GROUP_IDLE =>
        if Sm.GUpdateStationKeys m ||
           (bool_decide (Sm.wpa m = WPA_VERSION_WPA) && Sm.PInitAKeys m)
        then sm_WPA_PTK_GROUP_REKEYNEGOTIATING_Enter s
        else mret s
    | WPA_PTK_GROUP_REKEYNEGOTIATING =>
        if key_received m false && Sm.MICVerified m
        then mret (sm_WPA_PTK_GROUP_REKEYESTABLISHED_Enter s)
        else if dot11RSNAConfigGroupUpdateCount <? Sm.GTimeoutCtr m
        then mret (sm_WPA_PTK_GROUP_KEYERROR_Enter s)
        else if Sm.TimeoutEvt m then sm_WPA_PTK_GROUP_REKEYNEGOTIATING_Enter s
        else mret s
    | WPA_PTK_GROUP_KEYERROR => mret (sm_WPA_PTK_GROUP_IDLE_Enter s)
    | WPA_PTK_GROUP_REKEYESTABLISHED => mret (sm_WPA_PTK_GROUP_IDLE_Enter s)
    end.
End machines.
