(* ===== verification/WpaAuth.v ===== *)
(** * The WPA authenticator (ap/wpa_auth.c)

    The authenticator with all its groups and stations: the group key machine,
    which steps every station when the group key changes, the loop of
    [wpa_sm_step], the reception of EAPOL-Key frames, and the interface to
    hostapd.  Groups and stations live in finite maps from addresses; a station
    points to its group.  What one station does by itself is in WpaAuthSm.v. *)

From stdpp Require Import gmap.
From S2P Require Import Prelude CommonUtils EapI WpaCommon Pmksa WpaAuthI WpaAuthIe.
From S2P Require Import WpaAuthSm.

(** [sta_list] are the stations [for_each_sta] visits, in this order; [fresh_loc]
    the next address [os_zalloc] gives. *)
#[projections(primitive)]
Record world := {
  auth : Auth.wpa_authenticator;
  groups : gmap nat Group.wpa_group;
  stas : gmap nat Sm.wpa_state_machine;
  sta_list : list nat;
  fresh_loc : nat;
  wlog : log;
}.

Definition the_group (w : world) (g : nat) : res Group.wpa_group :=
  match groups w !! g with Some gr => Ok gr | None => Fault NullDeref end.
Definition the_sta (w : world) (i : nat) : res Sm.wpa_state_machine :=
  match stas w !! i with Some m => Ok m | None => Fault NullDeref end.
Definition put_group (g : nat) (gr : Group.wpa_group) (w : world) : world :=
  w <| groups := <[g := gr]> (groups w) |>.
Definition put_sta (i : nat) (m : Sm.wpa_state_machine) (w : world) : world :=
  w <| stas := <[i := m]> (stas w) |>.
Definition emit_w (c : call) (w : world) : world := w <| wlog := c :: wlog w |>.

(** The head of the list of groups. *)
Definition head_group (w : world) : res nat :=
  match Auth.group (auth w) with Some g => Ok g | None => Fault NullDeref end.

(** A function on one station, its group, the authenticator and the log. *)
Definition load (w : world) (i : nat) : res st :=
  m ← the_sta w i;
  g ← the_group w (Sm.group m);
  mret {| sm := m; gr := g; au := auth w; lg := wlog w |}.
Definition save (i g : nat) (s : st) (w : world) : world :=
  let w := put_sta i (sm s) w in
  let w := put_group g (gr s) w in
  let w := w <| auth := au s |> in
  w <| wlog := lg s |>.
Definition on_sta (i : nat) (f : st -> res st) (w : world) : res world :=
  s ← load w i;
  s' ← f s;
  mret (save i (Sm.group (sm s)) s' w).
(** ... that returns something. *)
Definition ask_sta {A} (i : nat) (f : st -> res (A * st)) (w : world) : res (A * world) :=
  s ← load w i;
  '(a, s') ← f s;
  mret (a, save i (Sm.group (sm s)) s' w).

(** A function on one group and the log. *)
Definition on_group (g : nat)
    (f : Auth.wpa_authenticator -> Group.wpa_group -> log -> res (Group.wpa_group * log))
    (w : world) : res world :=
  gr ← the_group w g;
  '(gr, l) ← f (auth w) gr (wlog w);
  mret (put_group g gr w <| wlog := l |>).

Definition upd_sta (i : nat) (f : Sm.wpa_state_machine -> Sm.wpa_state_machine) (w : world)
    : res world := m ← the_sta w i; mret (put_sta i (f m) w).
Definition upd_group (g : nat) (f : Group.wpa_group -> Group.wpa_group) (w : world) : res world :=
  gr ← the_group w g; mret (put_group g (f gr) w).

Section authenticator.
Context {cr : Crypto} {o : Owner}.

(** ** The group key state machine *)

(** [for_each_sta] with a callback that returns 0. *)
Fixpoint for_each_sta (f : nat -> world -> res world) (l : list nat) (w : world) : res world :=
  match l with
  | [] => mret w
  | i :: l => w ← f i w; for_each_sta f l w
  end.

Section nested.
(** [wpa_sm_step] *)
Variable step : nat -> world -> res (Z * world).

Definition wpa_group_update_sta (i : nat) (w : world) : res world :=
  m ← the_sta w i;
  if negb (bool_decide (Sm.wpa_ptk_state m = WPA_PTK_PTKINITDONE))
  then mret (put_sta i (m <| Sm.GUpdateStationKeys := false |>) w)
  else
    w ← upd_group (Sm.group m)
      (fun g => g <| Group.GKeyDoneStations := Group.GKeyDoneStations g + 1 |>) w;
    let w := put_sta i (m <| Sm.GUpdateStationKeys := true |>) w in
    '(_, w) ← step i w;
    mret w.

Definition wpa_group_setkeys (g : nat) (w : world) : res world :=
  w ← upd_group g (fun g =>
        let g := g <| Group.changed := true |> in
        let g := g <| Group.wpa_group_state := WPA_GROUP_SETKEYS |> in
        let g := g <| Group.GTKReKey := false |> in
        swap_keys g) w;
  w ← on_group g (fun a g l => '(_, g, l) ← wpa_gtk_update a g l; mret (g, l)) w;
  w ← upd_group g (fun g =>
        if negb (Group.GKeyDoneStations g =? 0) then g <| Group.GKeyDoneStations := 0 |> else g) w;
  for_each_sta wpa_group_update_sta (sta_list w) w.

Definition group_setkeysdone (g : nat) (w : world) : res world :=
  on_group g (fun a g l => '(_, g, l) ← wpa_group_setkeysdone a g l; mret (g, l)) w.

Definition wpa_group_sm_step (g : nat) (w : world) : res world :=
  gr ← the_group w g;
  if Group.GInit gr then on_group g wpa_group_gtk_init w
  else if bool_decide (Group.wpa_group_state gr = WPA_GROUP_GTK_INIT) && Group.GTKAuthenticator gr
  then group_setkeysdone g w
  else if bool_decide (Group.wpa_group_state gr = WPA_GROUP_SETKEYSDONE) && Group.GTKReKey gr
  then wpa_group_setkeys g w
  else if bool_decide (Group.wpa_group_state gr = WPA_GROUP_SETKEYS) then
    if Group.GKeyDoneStations gr =? 0 then group_setkeysdone g w
    else if Group.GTKReKey gr then wpa_group_setkeys g w
    else mret w
  else mret w.

(** ** The steps of a station *)

(** One round of the loop: [true] if there is another one. *)
Definition step_round (i : nat) (w : world) : res (bool * world) :=
  m ← the_sta w i;
  if Sm.pending_deinit m then mret (false, w)
  else
    w ← upd_sta i (fun m => m <| Sm.changed := false |>) w;
    h ← head_group w;
    w ← upd_group h (fun g => g <| Group.changed := false |>) w;
    w ← on_sta i sm_WPA_PTK_Step w;
    m ← the_sta w i;
    if Sm.pending_deinit m then mret (false, w)
    else
      w ← on_sta i sm_WPA_PTK_GROUP_Step w;
      m ← the_sta w i;
      if Sm.pending_deinit m then mret (false, w)
      else
        w ← wpa_group_sm_step (Sm.group m) w;
        m ← the_sta w i;
        h ← head_group w;
        gr ← the_group w h;
        mret (Sm.changed m || Group.changed gr, w).

Fixpoint step_loop (rounds : nat) (i : nat) (w : world) : res world :=
  match rounds with
  | O => Fault OutOfFuel
  | S rounds =>
      '(more, w) ← step_round i w;
      if more : bool then step_loop rounds i w else mret w
  end.
End nested.

(** [wpa_free_sta_sm]: the memory of the station is gone. *)
Definition wpa_free_sta_sm (i : nat) (w : world) : res world :=
  w ← on_sta i (fun s => mret (if Sm.GUpdateStationKeys (sm s) then cancel_group_update s else s)) w;
  mret (w <| stas := delete i (stas w) |>).

(** The rounds and the nesting allowed; WpaAuthWorld.v shows that they are
    enough. *)
Definition step_rounds : nat := 160.

Fixpoint sm_step (depth : nat) (i : nat) (w : world) : res (Z * world) :=
  match depth with
  | O => Fault OutOfFuel
  | S depth =>
      m ← the_sta w i;
      if Sm.in_step_loop m then mret (0, w)
      else
        w ← upd_sta i (fun m => m <| Sm.in_step_loop := true |>) w;
        w ← step_loop (sm_step depth) step_rounds i w;
        w ← upd_sta i (fun m => m <| Sm.in_step_loop := false |>) w;
        m ← the_sta w i;
        if Sm.pending_deinit m then w ← wpa_free_sta_sm i w; mret (1, w)
        else mret (0, w)
  end.

(** Each level of nesting is the group key machine of another group. *)
Definition step_depth (w : world) : nat := S (S (size (groups w))).
Definition wpa_sm_step (i : nat) (w : world) : res (Z * world) := sm_step (step_depth w) i w.

(** [wpa_group_sm_step] called from outside the loop of a station. *)
Definition group_sm_step (g : nat) (w : world) : res world :=
  wpa_group_sm_step (sm_step (step_depth w)) g w.

(** ** Timeouts of the groups *)

(** [random_get_bytes] writes into [group->GMK] also when it fails. *)
Definition wpa_rekey_gmk (w : world) : res world :=
  g ← head_group w;
  w ← on_group g (fun _ gr l =>
        let l := CRandom WPA_GMK_LEN :: l in
        let '(_, d) := random_bytes l WPA_GMK_LEN in
        mret (gr <| Group.GMK := d |>, l)) w;
  let period := Conf.wpa_gmk_rekey (Auth.conf (auth w)) in
  mret (if negb (period =? 0) then emit_w (CRegister period 0 wpa_rekey_gmk_) w else w).

(** [do ... while (group->changed)] *)
Fixpoint group_step_while_changed (fuel : nat) (g : nat) (w : world) : res world :=
  match fuel with
  | O => Fault OutOfFuel
  | S fuel =>
      w ← upd_group g (fun g => g <| Group.changed := false |>) w;
      w ← group_sm_step g w;
      gr ← the_group w g;
      if Group.changed gr then group_step_while_changed fuel g w else mret w
  end.

(** Over the list of groups. *)
Fixpoint rekey_groups (fuel : nat) (g : option nat) (w : world) : res world :=
  match g with
  | None => mret w
  | Some g =>
      match fuel with
      | O => Fault OutOfFuel
      | S fuel =>
          w ← upd_group g (fun g => g <| Group.GTKReKey := true |>) w;
          w ← group_step_while_changed 4 g w;
          gr ← the_group w g;
          rekey_groups fuel (Group.next gr) w
      end
  end.

Definition wpa_rekey_gtk (w : world) : res world :=
  w ← rekey_groups (S (size (groups w))) (Auth.group (auth w)) w;
  let period := Conf.wpa_group_rekey (Auth.conf (auth w)) in
  mret (if negb (period =? 0) then emit_w (CRegister period 0 wpa_rekey_gtk_) w else w).

(** Called for TKIP countermeasures. *)
Definition wpa_gtk_rekey (w : world) : res world :=
  g ← head_group w;
  let once := fun w =>
    on_group g (fun a gr l => '(_, gr, l) ← wpa_gtk_update a (swap_keys gr) l; mret (gr, l)) w in
  w ← once w; once w.

(** ** Timeouts of a station *)

Definition wpa_send_eapol_timeout (i : nat) (w : world) : res world :=
  w ← upd_sta i (fun m => m <| Sm.TimeoutEvt := true |>) w;
  '(_, w) ← wpa_sm_step i w;
  mret w.

Definition wpa_rekey_ptk (i : nat) (w : world) : res world :=
  w ← on_sta i (fun s => mret (wpa_request_new_ptk s)) w;
  '(_, w) ← wpa_sm_step i w;
  mret w.

Definition wpa_sm_call_step (i : nat) (w : world) : res world :=
  '(_, w) ← wpa_sm_step i w; mret w.

Definition wpa_auth_sm_notify (i : nat) (w : world) : res world :=
  m ← the_sta w i;
  mret (emit_w (CRegister 0 0 (wpa_sm_call_step_ (Sm.addr m))) w).

(** ** Reception of EAPOL-Key frames *)

Inductive eapol_msg := PAIRWISE_2 | PAIRWISE_4 | GROUP_2 | REQUEST | SMK_M1 | SMK_M3 | SMK_ERROR.

Definition classify_msg (key_info key_data_length : Z) : eapol_msg :=
  if has_bits key_info WPA_KEY_INFO_SMK_MESSAGE && has_bits key_info WPA_KEY_INFO_REQUEST then
    if has_bits key_info WPA_KEY_INFO_ERROR then SMK_ERROR else SMK_M1
  else if has_bits key_info WPA_KEY_INFO_SMK_MESSAGE then SMK_M3
  else if has_bits key_info WPA_KEY_INFO_REQUEST then REQUEST
  else if negb (has_bits key_info WPA_KEY_INFO_KEY_TYPE) then GROUP_2
  else if key_data_length =? 0 then PAIRWISE_4
  else PAIRWISE_2.

(** The descriptor version a station that uses CCMP must use. *)
Definition version_accepted (m : Sm.wpa_state_machine) (msg : eapol_msg) (key_info : Z) : bool :=
  match msg with
  | REQUEST | PAIRWISE_2 | PAIRWISE_4 | GROUP_2 =>
      let ver := Z.land key_info WPA_KEY_INFO_TYPE_MASK in
      if Sm.pairwise m =? WPA_CIPHER_CCMP then
        ver =? (if wpa_use_aes_cmac m then WPA_KEY_INFO_TYPE_AES_128_CMAC
                else WPA_KEY_INFO_TYPE_HMAC_SHA1_AES)
      else true
  | _ => true
  end.

(** Up to the first counter that is not outstanding. *)
Fixpoint replay_counter_valid (replay_counter : list Z) (k : list replay) : bool :=
  match k with
  | r :: k =>
      if negb (valid r) then false
      else if os_memcmp replay_counter (counter r) =? 0 then true
      else replay_counter_valid replay_counter k
  | [] => false
  end.
Definition wpa_replay_counter_valid (m : Sm.wpa_state_machine) (replay_counter : list Z) : bool :=
  replay_counter_valid replay_counter (take RSNA_MAX_EAPOL_RETRIES (Sm.key_replay m)).

(** The element of the association request and the one of message 2/4. *)
Definition same_ie (m : Sm.wpa_state_machine) (kdata : list Z) (kde : wpa_eapol_ie_parse)
    : res bool :=
  match Sm.wpa_ie m with
  | None => mret false
  | Some ie =>
      ie ← rd_n ie 0 (Sm.wpa_ie_len m);
      match rsn_ie kde, wpa_ie kde with
      | Some p, _ => d ← rd_n kdata p (rsn_ie_len kde);
                     mret (wpa_compare_rsn_ie (Some ie) (Some d) =? 0)
      | None, Some p => d ← rd_n kdata p (wpa_ie_len kde);
                        mret (wpa_compare_rsn_ie (Some ie) (Some d) =? 0)
      | None, None => mret false
      end
  end.

(** The [switch (msg)]: [true] to go on. *)
Definition check_msg (msg : eapol_msg) (data : list Z) (key_data_length : Z) (s : st)
    : res (bool * st) :=
  let m := sm s in
  match msg with
  | PAIRWISE_2 =>
      if negb (bool_decide (Sm.wpa_ptk_state m = WPA_PTK_PTKSTART)) &&
         negb (bool_decide (Sm.wpa_ptk_state m = WPA_PTK_PTKCALCNEGOTIATING))
      then mret (false, s)
      else
        nonce ← rd_n data o_key_nonce WPA_NONCE_LEN;
        let s := emit (CAddRandom nonce) s in
        if Group.reject_4way_hs_for_entropy (gr s) then
          let s := s <| gr; Group.reject_4way_hs_for_entropy := false |> in
          let s := emit CPoolMark s in
          let s := s <| gr; Group.first_sta_seen := false |> in
          mret (false, wpa_sta_disconnect s)
        else
          let kdata := drop (Z.to_nat o_key_data) data in
          '(r, kde) ← wpa_parse_kde_ies kdata key_data_length;
          if r <? 0 then mret (false, s)
          else
            same ← same_ie m kdata kde;
            if negb same then mret (false, wpa_sta_disconnect s) else mret (true, s)
  | PAIRWISE_4 =>
      mret (bool_decide (Sm.wpa_ptk_state m = WPA_PTK_PTKINITNEGOTIATING) && Sm.PTK_valid m, s)
  | GROUP_2 =>
      mret (bool_decide (Sm.wpa_ptk_group_state m = WPA_PTK_GROUP_REKEYNEGOTIATING) &&
            Sm.PTK_valid m, s)
  | SMK_M1 | SMK_M3 | SMK_ERROR => mret (false, s)
  | REQUEST => mret (true, s)
  end.

(** [MICVerified], and [true] to go on. *)
Definition check_mic (data : list Z) (data_len : Z) (s : st) : res (bool * st) :=
  let s := s <| sm; Sm.MICVerified := false |> in
  if Sm.PTK_valid (sm s) then
    r ← wpa_verify_key_mic (Sm.PTK (sm s)) data data_len;
    if negb (r =? 0) then mret (false, s)
    else
      let s := s <| sm; Sm.MICVerified := true |> in
      mret (true, emit (CCancel (wpa_send_eapol_timeout_ (my_addr s))) s)
  else mret (true, s).

(** Everything before the request is served: the key information field and the
    length of the key data of a frame that is not dropped. *)
Definition receive_checks (data : list Z) (data_len : Z) (s : st)
    : res (option (Z * Z) * st) :=
  let m := sm s in
  if Conf.wpa (Auth.conf (au s)) =? 0 then mret (None, s)
  else if data_len <? sizeof_ieee802_1x_hdr + sizeof_wpa_eapol_key then mret (None, s)
  else
    key_info ← WPA_GET_BE16 data o_key_info;
    key_data_length ← WPA_GET_BE16 data o_key_data_length;
    if data_len - sizeof_ieee802_1x_hdr - sizeof_wpa_eapol_key <? key_data_length
    then mret (None, s)
    else
      type ← rd data o_type;
      if negb (type =? if decide (Sm.wpa m = WPA_VERSION_WPA2) then EAPOL_KEY_TYPE_RSN
                       else EAPOL_KEY_TYPE_WPA) then mret (None, s)
      else
        let msg := classify_msg key_info key_data_length in
        if negb (version_accepted m msg key_info) then mret (None, s)
        else
          let request := has_bits key_info WPA_KEY_INFO_REQUEST in
          replay_counter ← rd_n data o_replay_counter WPA_REPLAY_COUNTER_LEN;
          if request && Sm.req_replay_counter_used m &&
             (os_memcmp replay_counter (Sm.req_replay_counter m) <=? 0) then mret (None, s)
          else if negb request && negb (wpa_replay_counter_valid m replay_counter)
          then mret (None, s)
          else
            '(go, s) ← check_msg msg data key_data_length s;
            if negb go then mret (None, s)
            else if has_bits key_info WPA_KEY_INFO_ACK then mret (None, s)
            else if negb (has_bits key_info WPA_KEY_INFO_MIC) then mret (None, s)
            else
              '(go, s) ← check_mic data data_len s;
              mret (if go : bool then Some (key_info, key_data_length) else None, s).

(** [wpa_auth_mic_failure_report]: the owner may start countermeasures. *)
Definition wpa_auth_mic_failure_report (i : nat) (w : world) : res world :=
  m ← the_sta w i;
  let w := emit_w (CMicFailure (Sm.addr m)) w in
  if mic_failure_starts_countermeasures (wlog w) then
    let w := w <| auth; Auth.dot11RSNATKIPCounterMeasuresInvoked :=
      u32 (Auth.dot11RSNATKIPCounterMeasuresInvoked (auth w) + 1) |> in
    wpa_gtk_rekey w
  else mret w.

(** An EAPOL-Key request whose MIC is right. *)
Definition serve_request (i : nat) (data : list Z) (key_info key_data_length : Z) (w : world)
    : res world :=
  if has_bits key_info WPA_KEY_INFO_ERROR then
    w ← wpa_auth_mic_failure_report i w;
    w ← on_sta i (fun s =>
          let s := s <| sm; Sm.dot11RSNAStatsTKIPRemoteMICFailures :=
            u32 (Sm.dot11RSNAStatsTKIPRemoteMICFailures (sm s) + 1) |> in
          mret (s <| au; Auth.dot11RSNAStatsTKIPRemoteMICFailures :=
            u32 (Auth.dot11RSNAStatsTKIPRemoteMICFailures (au s) + 1) |>)) w;
    on_sta i (fun s => mret (wpa_request_new_ptk s)) w
  else if has_bits key_info WPA_KEY_INFO_KEY_TYPE then
    on_sta i (fun s => mret (wpa_request_new_ptk s)) w
  else
    has_mac ← if 0 <? key_data_length then
                '(r, kde) ← wpa_parse_kde_ies (drop (Z.to_nat o_key_data) data) key_data_length;
                mret ((r =? 0) && match mac_addr kde with Some _ => true | None => false end)
              else mret false;
    if has_mac : bool then mret w
    else wpa_rekey_gtk (emit_w (CCancel wpa_rekey_gtk_) w).

(** The frame is kept for the machine: [true] if there is memory. *)
Definition store_frame (data : list Z) (data_len key_info : Z) (s : st) : res (bool * st) :=
  let '(ok, s) := os_malloc data_len s in
  if negb ok then mret (false, s <| sm; Sm.last_rx_eapol_key := None |>)
  else
    d ← rd_n data 0 data_len;
    let s := s <| sm; Sm.last_rx_eapol_key := Some d |> in
    let s := s <| sm; Sm.last_rx_eapol_key_len := data_len |> in
    let s := s <| sm; Sm.EAPOLKeyReceived := true |> in
    let s := s <| sm; Sm.EAPOLKeyPairwise := has_bits key_info WPA_KEY_INFO_KEY_TYPE |> in
    let s := s <| sm; Sm.EAPOLKeyRequest := has_bits key_info WPA_KEY_INFO_REQUEST |> in
    nonce ← rd_n data o_key_nonce WPA_NONCE_LEN;
    mret (true, s <| sm; Sm.SNonce := nonce |>).

(** [sm->key_replay[0].valid = FALSE;] *)
Definition invalidate_replay (m : Sm.wpa_state_machine) : Sm.wpa_state_machine :=
  match Sm.key_replay m with
  | r :: k => m <| Sm.key_replay := {| counter := counter r; valid := false |} :: k |>
  | [] => m
  end.

Definition wpa_receive (i : nat) (data : list Z) (data_len : Z) (w : world) : res world :=
  m ← the_sta w i;
  let w := emit_w (CRx (Sm.addr m) (take (Z.to_nat data_len) data)) w in
  '(accepted, w) ← ask_sta i (receive_checks data data_len) w;
  match accepted with
  | None => mret w
  | Some (key_info, key_data_length) =>
      m ← the_sta w i;
      let request := has_bits key_info WPA_KEY_INFO_REQUEST in
      if request && negb (Sm.MICVerified m) then mret w
      else
        w ← if request then
              replay_counter ← rd_n data o_replay_counter WPA_REPLAY_COUNTER_LEN;
              w ← upd_sta i (fun m => m <| Sm.req_replay_counter_used := true |>
                                        <| Sm.req_replay_counter := replay_counter |>) w;
              serve_request i data key_info key_data_length w
            else upd_sta i invalidate_replay w;
        '(stored, w) ← ask_sta i (store_frame data data_len key_info) w;
        if stored : bool then '(_, w) ← wpa_sm_step i w; mret w else mret w
  end.

(** ** Events of a station *)

(** The station is started: [AuthenticationRequest] follows a step with [Init]. *)
Definition start_station (i : nat) (w : world) : res (Z * world) :=
  w ← upd_sta i (fun m => m <| Sm.started := true |> <| Sm.Init := true |>) w;
  '(r, w) ← wpa_sm_step i w;
  if r =? 1 then mret (r, w)
  else
    w ← upd_sta i (fun m => m <| Sm.Init := false |> <| Sm.AuthenticationRequest := true |>) w;
    mret (r, w).

(** [PTK_valid], [PTK], and unless EAPOL asked for it the key of the driver. *)
Definition event_remove_ptk (event : wpa_event) (s : st) : st :=
  if Sm.mgmt_frame_prot (sm s) && bool_decide (event = WPA_AUTH) then s
  else
    let s := s <| sm; Sm.PTK_valid := false |> in
    let s := s <| sm; Sm.PTK := replicate (Z.to_nat sizeof_wpa_ptk) 0 |> in
    if bool_decide (event = WPA_REAUTH_EAPOL) then s else wpa_remove_ptk s.

Definition reauth_request (s : st) : st :=
  let s := if Sm.GUpdateStationKeys (sm s)
           then (cancel_group_update s) <| sm; Sm.PtkGroupInit := true |> else s in
  s <| sm; Sm.ReAuthenticationRequest := true |>.

Definition wpa_auth_sm_event (i : nat) (event : wpa_event) (w : world) : res (Z * world) :=
  m ← the_sta w i;
  '(r, w) ←
    match event with
    | WPA_AUTH | WPA_ASSOC | WPA_ASSOC_FT => mret (0, w)
    | WPA_DEAUTH | WPA_DISASSOC =>
        w ← upd_sta i (fun m => m <| Sm.DeauthenticationRequest := true |>) w; mret (0, w)
    | WPA_REAUTH | WPA_REAUTH_EAPOL =>
        if negb (Sm.started m) then start_station i w
        else w ← on_sta i (fun s => mret (reauth_request s)) w; mret (0, w)
    end;
  if r =? 1 then mret (1, w)
  else
    w ← on_sta i (fun s => mret (event_remove_ptk event s)) w;
    wpa_sm_step i w.

Definition wpa_auth_sta_associated (i : nat) (w : world) : res (Z * world) :=
  if Conf.wpa (Auth.conf (auth w)) =? 0 then mret (-1, w)
  else
    m ← the_sta w i;
    if Sm.started m then
      w ← upd_sta i (fun m =>
            m <| Sm.key_replay := replicate RSNA_MAX_EAPOL_RETRIES
                   {| counter := replicate (Z.to_nat WPA_REPLAY_COUNTER_LEN) 0; valid := false |} |>
              <| Sm.ReAuthenticationRequest := true |>) w;
      wpa_sm_step i w
    else
      '(r, w) ← start_station i w;
      if r =? 1 then mret (1, w) else wpa_sm_step i w.

Definition sta_zero (g : nat) (addr : list Z) : Sm.wpa_state_machine := {|
  Sm.group := g; Sm.addr := addr; Sm.wpa_ptk_state := WPA_PTK_INITIALIZE;
  Sm.wpa_ptk_group_state := WPA_PTK_GROUP_IDLE; Sm.Init := false;
  Sm.DeauthenticationRequest := false; Sm.AuthenticationRequest := false;
  Sm.ReAuthenticationRequest := false; Sm.Disconnect := false; Sm.TimeoutCtr := 0;
  Sm.GTimeoutCtr := 0; Sm.TimeoutEvt := false; Sm.EAPOLKeyReceived := false;
  Sm.EAPOLKeyPairwise := false; Sm.EAPOLKeyRequest := false; Sm.MICVerified := false;
  Sm.GUpdateStationKeys := false; Sm.ANonce := replicate 32 0; Sm.SNonce := replicate 32 0;
  Sm.PMK := replicate 32 0; Sm.PTK := replicate 64 0; Sm.PTK_valid := false;
  Sm.pairwise_set := false; Sm.keycount := 0; Sm.Pair := false;
  Sm.key_replay := replicate RSNA_MAX_EAPOL_RETRIES {| counter := replicate 8 0; valid := false |};
  Sm.PInitAKeys := false; Sm.PTKRequest := false; Sm.has_GTK := false; Sm.PtkGroupInit := false;
  Sm.last_rx_eapol_key := None; Sm.last_rx_eapol_key_len := 0; Sm.changed := false;
  Sm.in_step_loop := false; Sm.pending_deinit := false; Sm.started := false;
  Sm.mgmt_frame_prot := false; Sm.req_replay_counter := replicate 8 0;
  Sm.req_replay_counter_used := false; Sm.wpa_ie := None; Sm.wpa_ie_len := 0;
  Sm.wpa := WPA_VERSION_NO_WPA; Sm.pairwise := 0; Sm.wpa_key_mgmt := 0; Sm.pmksa := None;
  Sm.dot11RSNAStatsTKIPLocalMICFailures := 0; Sm.dot11RSNAStatsTKIPRemoteMICFailures := 0 |}.

(** The owner puts the new station at the head of its list. *)
Definition wpa_auth_sta_init (addr : list Z) (w : world) : res (option nat * world) :=
  let w := emit_w (CMalloc sizeof_wpa_state_machine) w in
  if negb (malloc (wlog w)) then mret (None, w)
  else
    g ← head_group w;
    let i := fresh_loc w in
    let w := put_sta i (sta_zero g addr) w in
    let w := w <| fresh_loc := S i |> in
    mret (Some i, w <| sta_list := i :: sta_list w |>).

Definition wpa_auth_sta_no_wpa (i : nat) (w : world) : res world :=
  upd_sta i (fun m => m <| Sm.wpa_key_mgmt := 0 |>) w.

(** The owner takes the station out of its list. *)
Definition wpa_auth_sta_deinit (i : nat) (w : world) : res world :=
  m ← the_sta w i;
  let w := if negb (Conf.wpa_strict_rekey (Auth.conf (auth w)) =? 0) && Sm.has_GTK m then
             let w := emit_w (CCancel wpa_rekey_gtk_) w in
             emit_w (CRegister 0 500000 wpa_rekey_gtk_) w
           else w in
  let w := emit_w (CCancel (wpa_send_eapol_timeout_ (Sm.addr m))) w in
  let w := emit_w (CCancel (wpa_sm_call_step_ (Sm.addr m))) w in
  let w := emit_w (CCancel (wpa_rekey_ptk_ (Sm.addr m))) w in
  let w := w <| sta_list := filter (fun j => j <> i) (sta_list w) |> in
  if Sm.in_step_loop m then upd_sta i (fun m => m <| Sm.pending_deinit := true |>) w
  else wpa_free_sta_sm i w.

(** ** The authenticator as a whole *)

Definition group_zero : Group.wpa_group := {|
  Group.next := None; Group.vlan_id := 0; Group.GInit := false; Group.GKeyDoneStations := 0;
  Group.GTKReKey := false; Group.GTK_len := 0; Group.GN := 0; Group.GM := 0;
  Group.GTKAuthenticator := false; Group.Counter := replicate 32 0;
  Group.wpa_group_state := WPA_GROUP_GTK_INIT; Group.GMK := replicate 32 0;
  Group.GTK := replicate 2 (replicate 32 0); Group.GNonce := replicate 32 0;
  Group.changed := false; Group.first_sta_seen := false;
  Group.reject_4way_hs_for_entropy := false; Group.IGTK := replicate 2 (replicate 16 0);
  Group.GN_igtk := 0; Group.GM_igtk := 0 |}.

(** [GInit] is set for one step and cleared for the next. *)
Definition ginit_steps (g : nat) (w : world) : res world :=
  w ← upd_group g (fun gr => gr <| Group.GInit := true |>) w;
  w ← group_sm_step g w;
  w ← upd_group g (fun gr => gr <| Group.GInit := false |>) w;
  group_sm_step g w.

(** The new group is not in the list of groups yet. *)
Definition wpa_group_init (vlan_id : Z) (w : world) : res (option nat * world) :=
  let w := emit_w (CMalloc sizeof_wpa_group) w in
  if negb (malloc (wlog w)) then mret (None, w)
  else
    let gr := group_zero <| Group.GTKAuthenticator := true |> in
    let gr := gr <| Group.vlan_id := vlan_id |> in
    let gr := wpa_group_set_key_len gr (Conf.wpa_group (Auth.conf (auth w))) in
    let w := emit_w CPoolReady w in
    let '(r, gr, l) := wpa_group_init_gmk_and_counter (auth w) gr (wlog w) in
    let w := w <| wlog := l |> in
    if r <? 0 then mret (None, w)
    else
      let g := fresh_loc w in
      let w := put_group g gr w in
      let w := w <| fresh_loc := S g |> in
      w ← ginit_steps g w;
      mret (Some g, w).

(** What [malloc_ok] is for the functions of the other files. *)
Definition env_of (l : log) : env := {|
  malloc_ok := fun n => malloc (CMalloc n :: l); rand := 0; random_get_bytes := fun _ => None |}.

Definition auth_zero (addr : list Z) (conf : Conf.wpa_auth_config) (c : rsn_pmksa_cache)
    : Auth.wpa_authenticator := {|
  Auth.group := None; Auth.dot11RSNAStatsTKIPRemoteMICFailures := 0;
  Auth.dot11RSNAAuthenticationSuiteSelected := 0; Auth.dot11RSNAPairwiseCipherSelected := 0;
  Auth.dot11RSNAGroupCipherSelected := 0; Auth.dot11RSNAPMKIDUsed := replicate 16 0;
  Auth.dot11RSNATKIPCounterMeasuresInvoked := 0; Auth.dot11RSNA4WayHandshakeFailures := 0;
  Auth.conf := conf; Auth.wpa_ie := None; Auth.wpa_ie_len := 0; Auth.addr := addr;
  Auth.pmksa := c |}.

(** The PMKSA cache of an authenticator that has none yet. *)
Definition no_pmksa : rsn_pmksa_cache := {|
  pmkid_tab := replicate PMKID_HASH_SIZE None; pmksa := None; pmksa_count := 0; heap := ∅;
  next_loc := 0; freed := []; expire_timeout := None |}.

Definition wpa_init (addr : list Z) (conf : Conf.wpa_auth_config) (l : log)
    : res (option world) :=
  if negb (malloc (CMalloc sizeof_wpa_authenticator :: l)) then mret None
  else
    let l := CMalloc sizeof_wpa_authenticator :: l in
    '(r, a) ← wpa_auth_gen_wpa_ie (env_of l) (junk l 128) (auth_zero addr conf no_pmksa);
    if negb (r =? 0) then mret None
    else
      let w := {| auth := a; groups := ∅; stas := ∅; sta_list := []; fresh_loc := 0; wlog := l |} in
      '(g, w) ← wpa_group_init 0 w;
      match g with
      | None => mret None
      | Some g =>
          let w := w <| auth; Auth.group := Some g |> in
          match pmksa_cache_auth_init (env_of (wlog w)) with
          | None => mret None
          | Some c =>
              let w := w <| auth; Auth.pmksa := c |> in
              let gmk := Conf.wpa_gmk_rekey conf in
              let w := if negb (gmk =? 0) then emit_w (CRegister gmk 0 wpa_rekey_gmk_) w else w in
              let gtk := Conf.wpa_group_rekey conf in
              mret (Some (if negb (gtk =? 0) then emit_w (CRegister gtk 0 wpa_rekey_gtk_) w else w))
          end
      end.

(** The groups of the list are freed one after the other. *)
Fixpoint free_groups (fuel : nat) (g : option nat) (w : world) : res world :=
  match g with
  | None => mret w
  | Some g =>
      match fuel with
      | O => Fault OutOfFuel
      | S fuel =>
          gr ← the_group w g;
          free_groups fuel (Group.next gr) (w <| groups := delete g (groups w) |>)
      end
  end.

(** What is left: the log, and the stations the owner still has. *)
Definition wpa_deinit (w : world) : res world :=
  let w := emit_w (CCancel wpa_rekey_gmk_) w in
  let w := emit_w (CCancel wpa_rekey_gtk_) w in
  _ ← pmksa_cache_auth_deinit (Some (Auth.pmksa (auth w)));
  free_groups (S (size (groups w))) (Auth.group (auth w)) w.

Definition wpa_reconfig (conf : Conf.wpa_auth_config) (w : world) : res (Z * world) :=
  let w := w <| auth; Auth.conf := conf |> in
  '(r, a) ← wpa_auth_gen_wpa_ie (env_of (wlog w)) (junk (wlog w) 128) (auth w);
  let w := w <| auth := a |> in
  if negb (r =? 0) then mret (-1, w)
  else
    g ← head_group w;
    w ← upd_group g (fun gr => wpa_group_set_key_len gr (Conf.wpa_group conf)) w;
    w ← ginit_steps g w;
    mret (0, w).

Definition wpa_auth_add_group (vlan_id : Z) (w : world) : res (option nat * world) :=
  match Auth.group (auth w) with
  | None => mret (None, w)
  | Some h =>
      '(g, w) ← wpa_group_init vlan_id w;
      match g with
      | None => mret (None, w)
      | Some g =>
          hd ← the_group w h;
          w ← upd_group g (fun gr => gr <| Group.next := Group.next hd |>) w;
          w ← upd_group h (fun gr => gr <| Group.next := Some g |>) w;
          mret (Some g, w)
      end
  end.

(** The group of the list with this VLAN. *)
Fixpoint find_group (fuel : nat) (vlan_id : Z) (g : option nat) (w : world) : res (option nat) :=
  match g with
  | None => mret None
  | Some g =>
      match fuel with
      | O => Fault OutOfFuel
      | S fuel =>
          gr ← the_group w g;
          if Group.vlan_id gr =? vlan_id then mret (Some g)
          else find_group fuel vlan_id (Group.next gr) w
      end
  end.

Definition wpa_auth_sta_set_vlan (i : nat) (vlan_id : Z) (w : world) : res (Z * world) :=
  g ← find_group (S (size (groups w))) vlan_id (Auth.group (auth w)) w;
  '(g, w) ← match g with
            | Some g => mret (Some g, w)
            | None => wpa_auth_add_group vlan_id w
            end;
  match g with
  | None => mret (-1, w)
  | Some g => w ← upd_sta i (fun m => m <| Sm.group := g |>) w; mret (0, w)
  end.

(** ** The PMKSA cache *)

(** [free_cb] of the entries freed, newest first, by an operation of the cache:
    no station keeps a pointer to them. *)
Definition wpa_auth_pmksa_clear_cb (entry : option nat) (m : Sm.wpa_state_machine)
    : Sm.wpa_state_machine :=
  if bool_decide (Sm.pmksa m = entry) then m <| Sm.pmksa := None |> else m.
Definition wpa_auth_pmksa_free_cb (entry : nat) (w : world) : res world :=
  for_each_sta (fun i => upd_sta i (wpa_auth_pmksa_clear_cb (Some entry))) (sta_list w) w.
Definition pmksa_op (now_sec : Z) (pmk : list Z) (pmk_len : Z) (spa : list Z)
    (session_timeout : Z) (eapol : option eapol_data) (akmp : Z) (w : world) : res (Z * world) :=
  let c := Auth.pmksa (auth w) in
  '(r, c') ← pmksa_cache_auth_add (env_of (wlog w)) now_sec c pmk pmk_len (Auth.addr (auth w))
    spa session_timeout eapol akmp;
  let w := w <| auth; Auth.pmksa := c' |> in
  w ← for_each_sta wpa_auth_pmksa_free_cb
    (take (length (freed c') - length (freed c)) (freed c')) w;
  mret (match r with Some _ => 0 | None => -1 end, w).

Definition wpa_auth_pmksa_add (now_sec : Z) (i : nat) (pmk : list Z) (session_timeout : Z)
    (eapol : option eapol_data) (w : world) : res (Z * world) :=
  m ← the_sta w i;
  if negb (bool_decide (Sm.wpa m = WPA_VERSION_WPA2)) then mret (-1, w)
  else pmksa_op now_sec pmk PMK_LEN (Sm.addr m) session_timeout eapol (Sm.wpa_key_mgmt m) w.

Definition wpa_auth_pmksa_add_preauth (now_sec : Z) (pmk : list Z) (len : Z) (sta_addr : list Z)
    (session_timeout : Z) (eapol : option eapol_data) (w : world) : res (Z * world) :=
  pmksa_op now_sec pmk len sta_addr session_timeout eapol WPA_KEY_MGMT_IEEE8021X w.

(** ** Small accessors *)
Definition wpa_auth_pairwise_set (m : option Sm.wpa_state_machine) : bool :=
  match m with Some m => Sm.pairwise_set m | None => false end.
Definition wpa_auth_sta_key_mgmt (m : option Sm.wpa_state_machine) : Z :=
  match m with Some m => Sm.wpa_key_mgmt m | None => -1 end.
Definition wpa_auth_sta_wpa_version (m : option Sm.wpa_state_machine) : wpa_version :=
  match m with Some m => Sm.wpa m | None => WPA_VERSION_NO_WPA end.
Definition wpa_auth_sta_get_pmksa (m : option Sm.wpa_state_machine) : option nat :=
  match m with Some m => Sm.pmksa m | None => None end.
Definition wpa_auth_sta_clear_pmksa (m : Sm.wpa_state_machine) (entry : option nat)
    : Z * Sm.wpa_state_machine :=
  if bool_decide (Sm.pmksa m = entry) then (0, m <| Sm.pmksa := None |>) else (-1, m).
Definition wpa_auth_sta_local_mic_failure_report (m : Sm.wpa_state_machine)
    : Sm.wpa_state_machine :=
  m <| Sm.dot11RSNAStatsTKIPLocalMICFailures :=
    u32 (Sm.dot11RSNAStatsTKIPLocalMICFailures m + 1) |>.

Definition wpa_auth_get_pairwise (m : option Sm.wpa_state_machine) : res Z :=
  match m with Some m => mret (Sm.pairwise m) | None => Fault NullDeref end.
Definition wpa_auth_countermeasures_start (a : option Auth.wpa_authenticator)
    : option Auth.wpa_authenticator :=
  match a with
  | Some a => Some (a <| Auth.dot11RSNATKIPCounterMeasuresInvoked :=
                      u32 (Auth.dot11RSNATKIPCounterMeasuresInvoked a + 1) |>)
  | None => None
  end.
(** The element and what is stored in [*len]. *)
Definition wpa_auth_get_wpa_ie (a : option Auth.wpa_authenticator)
    : option (option (list Z) * Z) :=
  match a with Some a => Some (Auth.wpa_ie a, Auth.wpa_ie_len a) | None => None end.

(** [wpa_validate_wpa_ie] on a station of the authenticator. *)
Definition sta_validate_wpa_ie (i : nat)
    (for_each_auth : rsn_pmksa_cache -> list rsn_pmksa_cache) (ie : option (list Z)) (len : Z)
    (w : world) : res (validate_result * world) :=
  m ← the_sta w i;
  '(r, a, m') ← wpa_validate_wpa_ie (env_of (wlog w)) for_each_auth (Some (auth w)) (Some m) ie len;
  mret (r, put_sta i (default m m') (w <| auth := default (auth w) a |>)).
End authenticator.
