(* ===== verification/WpaAuthWf.v ===== *)
(** * The type invariant of the WPA authenticator

    What the fields of a station, of a group and of the authenticator always
    are ([wf_sm], [wf_gr], [wf_au]): the sizes of the arrays, the key indices,
    where pointers lead.  Every entry of a state of WPA_PTK and WPA_PTK_GROUP
    keeps it, without touching memory it must not, and what else it changes is
    stated as an equation. *)

From stdpp Require Import gmap.
From S2P Require Import Prelude CommonUtils EapI WpaCommon Pmksa PmksaProps WpaAuthI.
From S2P Require Import WpaAuthIe WpaIeProps WpaAuthSm.

(** ** Buffers *)

Lemma inc_counter_runs c : zlen c = WPA_NONCE_LEN ->
  exists c', inc_counter c = Ok c' /\ zlen c' = WPA_NONCE_LEN.
Proof.
  intros Hc. destruct (inc_byte_array_loop_runs (Z.to_nat WPA_NONCE_LEN) c) as (c' & Heq & Hl).
  - unfold zlen, WPA_NONCE_LEN in *. lia.
  - exists c'. split; [exact Heq|congruence].
Qed.

(** ** Groups *)

Record wf_gr (g : Group.wpa_group) : Prop := {
  g_counter : zlen (Group.Counter g) = WPA_NONCE_LEN;
  g_gnonce : zlen (Group.GNonce g) = WPA_NONCE_LEN;
  g_gtk_len : 0 <= Group.GTK_len g <= WPA_GTK_MAX_LEN;
  g_gn : Group.GN g = 1 /\ Group.GM g = 2 \/ Group.GN g = 2 /\ Group.GM g = 1;
  g_gn_igtk : Group.GN_igtk g = 4 /\ Group.GM_igtk g = 5 \/ Group.GN_igtk g = 5 /\ Group.GM_igtk g = 4;
  g_gtk : length (Group.GTK g) = 2%nat /\ Forall (fun k => zlen k = WPA_GTK_MAX_LEN) (Group.GTK g);
  g_igtk : length (Group.IGTK g) = 2%nat /\ Forall (fun k => zlen k = WPA_IGTK_LEN) (Group.IGTK g);
}.

Lemma key_at_runs keys i n : length keys = 2%nat -> Forall (fun k => zlen k = n) keys ->
  i = 0 \/ i = 1 -> exists k, key_at keys i = Ok k /\ zlen k = n.
Proof.
  intros Hl Hk Hi. destruct keys as [|a [|b [|? ?]]]; try discriminate.
  apply Forall_cons in Hk as [Ha Hk]. apply Forall_cons in Hk as [Hb _].
  destruct Hi as [-> | ->]; eexists; split; reflexivity || done.
Qed.

Lemma set_key_at_runs keys i n k : length keys = 2%nat -> Forall (fun k => zlen k = n) keys ->
  i = 0 \/ i = 1 -> zlen k <= n ->
  exists keys', set_key_at keys i k = Ok keys' /\ length keys' = 2%nat /\
    Forall (fun k => zlen k = n) keys'.
Proof.
  intros Hl Hk Hi Hn. destruct (key_at_runs keys i n Hl Hk Hi) as (old & Hold & Hlen).
  unfold set_key_at. rewrite (bind_eq _ _ _ Hold). rewrite (proj2 (Z.ltb_ge _ _)) by lia.
  eexists. split; [reflexivity|]. split; [by rewrite length_insert|].
  apply Forall_insert; [done|]. rewrite zlen_copy_front; lia.
Qed.

Lemma key_prefix_runs keys i n m : length keys = 2%nat -> Forall (fun k => zlen k = n) keys ->
  i = 0 \/ i = 1 -> 0 <= m <= n -> exists k, key_prefix keys i m = Ok k /\ zlen k = m.
Proof.
  intros Hl Hk Hi Hm. destruct (key_at_runs keys i n Hl Hk Hi) as (k & Hold & Hlen).
  unfold key_prefix. rewrite (bind_eq _ _ _ Hold). apply rd_n_runs; lia.
Qed.

Section wf.
Context {cr : Crypto} {c_laws : CryptoLaws cr} {o : Owner} {o_laws : OwnerLaws o}.

(** What the functions that make keys change of a group: [Counter], [GNonce],
    [GMK] and the keys themselves. *)
Record same_group (g g' : Group.wpa_group) : Prop := {
  sg_next : Group.next g' = Group.next g;
  sg_vlan : Group.vlan_id g' = Group.vlan_id g;
  sg_ginit : Group.GInit g' = Group.GInit g;
  sg_done : Group.GKeyDoneStations g' = Group.GKeyDoneStations g;
  sg_rekey : Group.GTKReKey g' = Group.GTKReKey g;
  sg_gtkauth : Group.GTKAuthenticator g' = Group.GTKAuthenticator g;
  sg_state : Group.wpa_group_state g' = Group.wpa_group_state g;
  sg_changed : Group.changed g' = Group.changed g;
}.

Lemma same_group_refl g : same_group g g.
Proof. by split. Qed.
Lemma same_group_trans g1 g2 g3 : same_group g1 g2 -> same_group g2 g3 -> same_group g1 g3.
Proof. intros [] []. split; congruence. Qed.

(** Only questions, no frame and no call that says something about a station. *)
Definition quiet (c : call) : Prop :=
  match c with
  | CGetEapol _ _ | CGetPsk _ _ | CGetMsk _ | CGetSeqnum _ | CRandom _ | CPoolReady | CMalloc _
  | CTime => True
  | _ => False
  end.
(** ... or a group key given to the driver. *)
Definition quiet_group (c : call) : Prop :=
  quiet c \/ exists v alg idx k, c = CSetKey v alg broadcast_ether_addr idx k.

Lemma next_gnonce_runs g : wf_gr g -> exists g', next_gnonce g = Ok g' /\ wf_gr g' /\ same_group g g' /\
  Group.GTK_len g' = Group.GTK_len g /\ Group.GN g' = Group.GN g /\ Group.GN_igtk g' = Group.GN_igtk g.
Proof.
  intros [Hc Hn Hl Hgn Hgi Hk Hi]. unfold next_gnonce.
  destruct (inc_counter_runs (Group.Counter g) Hc) as (c & Heq & Hlen).
  cbn zeta. rewrite (bind_eq _ _ _ Heq). eexists. split; [reflexivity|].
  split; [by split|]. split; [by split|done].
Qed.

Lemma gmk_to_gtk_runs gmk label addr gnonce n l : 0 <= n ->
  exists r k l', wpa_gmk_to_gtk gmk label addr gnonce n l = (r, k, l') /\ zlen k = n /\
    log_ext quiet l l'.
Proof.
  intros Hn. unfold wpa_gmk_to_gtk. destruct (random_bytes _ 16) as [r d].
  eexists _, _, _. split; [reflexivity|]. split; [by apply sha256_prf_len|].
  exists [CRandom 16; CTime]. split; [done|by repeat constructor].
Qed.

Lemma gtk_update_runs a g l : wf_gr g ->
  exists r g' l', wpa_gtk_update a g l = Ok (r, g', l') /\ wf_gr g' /\ same_group g g' /\
    log_ext quiet l l'.
Proof.
  intros Hg. unfold wpa_gtk_update.
  destruct (next_gnonce_runs g Hg) as (g1 & -> & Hg1 & Hs1 & Hn1 & _). cbn [mbind res_bind].
  destruct (gmk_to_gtk_runs (Group.GMK g1) "Group key expansion" (Auth.addr a) (Group.GNonce g1)
    (Group.GTK_len g1) l) as (r1 & k1 & l1 & -> & Hk1 & Hl1); [apply (g_gtk_len g1 Hg1)|].
  destruct (set_key_at_runs (Group.GTK g1) (Group.GN g1 - 1) WPA_GTK_MAX_LEN k1)
    as (keys & -> & Hkl & Hkf);
    [apply (g_gtk g1 Hg1)|apply (g_gtk g1 Hg1)|pose proof (g_gn g1 Hg1); lia
    |pose proof (g_gtk_len g1 Hg1); lia|].
  cbn [mbind res_bind]. set (g2 := g1 <| Group.GTK := keys |>).
  assert (wf_gr g2) as Hg2 by (destruct Hg1; by split).
  assert (same_group g g2) as Hs2 by (eapply same_group_trans; [exact Hs1|by split]).
  destruct (negb _).
  2: { eexists _, _, _. split; [reflexivity|]. by split_and!. }
  destruct (next_gnonce_runs g2 Hg2) as (g3 & -> & Hg3 & Hs3 & _). cbn [mbind res_bind].
  destruct (gmk_to_gtk_runs (Group.GMK g3) "IGTK key expansion" (Auth.addr a) (Group.GNonce g3)
    WPA_IGTK_LEN l1) as (r2 & k2 & l2 & -> & Hk2 & Hl2); [done|].
  destruct (set_key_at_runs (Group.IGTK g3) (Group.GN_igtk g3 - 4) WPA_IGTK_LEN k2)
    as (keys2 & -> & Hkl2 & Hkf2);
    [apply (g_igtk g3 Hg3)|apply (g_igtk g3 Hg3)|pose proof (g_gn_igtk g3 Hg3); lia|lia|].
  cbn [mbind res_bind]. eexists _, _, _. split; [reflexivity|].
  split; [destruct Hg3; by split|]. split.
  - eapply same_group_trans; [exact Hs2|]. eapply same_group_trans; [exact Hs3|by split].
  - by eapply log_ext_trans.
Qed.

Lemma config_group_keys_runs a g l : wf_gr g ->
  exists r l', wpa_group_config_group_keys a g l = Ok (r, l') /\ log_ext quiet_group l l'.
Proof.
  intros Hg. unfold wpa_group_config_group_keys.
  destruct (key_prefix_runs (Group.GTK g) (Group.GN g - 1) WPA_GTK_MAX_LEN (Group.GTK_len g))
    as (k & -> & _);
    [apply (g_gtk g Hg)|apply (g_gtk g Hg)|pose proof (g_gn g Hg); lia|apply (g_gtk_len g Hg)|].
  cbn [mbind res_bind]. unfold wpa_auth_set_key at 1. cbn beta iota zeta.
  set (c1 := CSetKey _ _ _ _ k).
  assert (log_ext quiet_group l (c1 :: l)) as H1 by (apply log_ext_cons; right; by repeat eexists).
  destruct (negb _); [|eexists _, _; by split].
  destruct (key_prefix_runs (Group.IGTK g) (Group.GN_igtk g - 4) WPA_IGTK_LEN WPA_IGTK_LEN)
    as (k2 & -> & _);
    [apply (g_igtk g Hg)|apply (g_igtk g Hg)|pose proof (g_gn_igtk g Hg); lia|done|].
  cbn [mbind res_bind]. unfold wpa_auth_set_key. cbn beta iota zeta. eexists _, _.
  split; [reflexivity|]. eapply log_ext_trans; [exact H1|].
  apply log_ext_cons. right. by repeat eexists.
Qed.

Lemma init_gmk_and_counter_runs a g l : wf_gr g ->
  exists r g' l', wpa_group_init_gmk_and_counter a g l = (r, g', l') /\ wf_gr g' /\
    same_group g g' /\ log_ext quiet l l'.
Proof.
  intros [Hc Hn Hl Hgn Hgi Hk Hi]. unfold wpa_group_init_gmk_and_counter.
  destruct (random_bytes _ WPA_GMK_LEN) as [r d].
  assert (log_ext quiet l (CRandom WPA_GMK_LEN :: l)) as H1 by by apply log_ext_cons.
  destruct (r <? 0); [eexists _, _, _; by split_and!|].
  destruct (random_bytes _ 32) as [r2 d2].
  set (l2 := CRandom 32 :: _).
  assert (log_ext quiet l l2) as H2 
    by (exists [CRandom 32; CTime; CRandom WPA_GMK_LEN]; split; [done|by repeat constructor]).
  destruct (r2 <? 0); [eexists _, _, _; by split_and!|].
  destruct (sha1_prf _ _ _ _) as [c|] eqn:Hp.
  - eexists _, _, _. split; [reflexivity|]. split_and!; [|by split|done].
    split; try done. by apply sha1_prf_len in Hp.
  - eexists _, _, _. split; [reflexivity|]. split_and!; [|by split|done].
    split; try done. by apply junk_len.
Qed.

Lemma first_station_runs a g l : wf_gr g ->
  exists g' l', wpa_group_first_station a g l = Ok (g', l') /\ wf_gr g' /\
    same_group g g' /\ log_ext quiet_group l l'.
Proof.
  intros Hg. unfold wpa_group_first_station. cbn zeta.
  set (g0 := if negb _ then _ else g).
  assert (wf_gr g0 /\ same_group g g0) as [Hg0 Hs0].
  { subst g0. destruct Hg. by case_match; split; split. }
  destruct (init_gmk_and_counter_runs a g0 (CPoolReady :: l) Hg0)
    as (r1 & g1 & l1 & -> & Hg1 & Hs1 & Hl1).
  destruct (gtk_update_runs a g1 l1 Hg1) as (r2 & g2 & l2 & -> & Hg2 & Hs2 & Hl2).
  cbn [mbind res_bind].
  destruct (config_group_keys_runs a g2 l2 Hg2) as (r3 & l3 & -> & Hl3). cbn [mbind res_bind].
  eexists _, _. split; [reflexivity|]. split_and!; [done| |].
  - by repeat (eapply same_group_trans; [eassumption|]); apply same_group_refl.
  - assert (forall c, quiet c -> quiet_group c) as Hq by (intros; by left).
    eapply log_ext_trans; [apply (log_ext_cons _ CPoolReady); by left|].
    eapply log_ext_trans; [by eapply log_ext_weaken|].
    eapply log_ext_trans; [by eapply log_ext_weaken|]. done.
Qed.

(** ** EAPOL-Key frames *)

Definition wf_replay (k : list replay) : Prop :=
  length k = RSNA_MAX_EAPOL_RETRIES /\ Forall (fun r => zlen (counter r) = WPA_REPLAY_COUNTER_LEN) k.

Lemma next_replay_runs k : wf_replay k -> runs (next_replay k) wf_replay.
Proof.
  intros [Hl Hf]. destruct k as [|r0 r]; [done|]. cbn [next_replay].
  apply Forall_cons in Hf as [H0 Hf].
  destruct (inc_byte_array_loop_runs (Z.to_nat WPA_REPLAY_COUNTER_LEN) (counter r0))
    as (c & Heq & Hc); [unfold zlen, WPA_REPLAY_COUNTER_LEN in *; lia|].
  unfold inc_byte_array. rewrite (bind_eq _ _ _ Heq). apply runs_ret. split.
  - cbn [length] in *. rewrite length_take. cbn [length]. lia.
  - apply Forall_cons. split; [cbn; congruence|]. apply Forall_take. by apply Forall_cons.
Qed.

Lemma wr_n_ok_runs buf i d : 0 <= i -> i + zlen d <= zlen buf ->
  runs (wr_n buf i d) (fun b => zlen b = zlen buf).
Proof. apply wr_n_runs. Qed.
Lemma wr_ok_runs buf i v : 0 <= i < zlen buf -> runs (wr buf i v) (fun b => zlen b = zlen buf).
Proof. intros. exists (<[Z.to_nat i := v]> buf). split; [by apply wr_ok|apply zlen_insert]. Qed.

Definition key_header_len : Z := sizeof_ieee802_1x_hdr + sizeof_wpa_eapol_key.

Definition opt_len (n : Z) (x : option (list Z)) : Prop := forall d, x = Some d -> zlen d = n.

Lemma put_key_header_runs s key_info len key_rsc nonce :
  key_header_len <= len -> wf_replay (Sm.key_replay (sm s)) ->
  opt_len WPA_KEY_RSC_LEN key_rsc -> opt_len WPA_NONCE_LEN nonce ->
  runs (put_key_header s key_info len key_rsc nonce) (fun h => zlen h = len).
Proof.
  unfold key_header_len, sizeof_ieee802_1x_hdr, sizeof_wpa_eapol_key.
  intros Hlen [Hrl Hrf] Hrsc Hnonce. unfold put_key_header. cbn zeta.
  assert (zlen (replicate (Z.to_nat len) 0) = len) as H0 by (rewrite zlen_replicate; lia).
  rstep (apply wr_n_ok_runs; [done|rewrite H0; change (zlen [_; _]) with 2; lia]) as b1 H1.
  rstep (apply wr_n_ok_runs; rewrite ?zlen_BE16; lia) as b2 H2.
  rstep (apply wr_ok_runs; unfold o_type; lia) as b3 H3.
  rstep (apply wr_n_ok_runs; rewrite ?zlen_BE16; unfold o_key_info; lia) as b4 H4.
  eapply (runs_bind _ _ (fun b => zlen b = len)).
  { destruct (key_length_of _); [|apply runs_ret; lia].
    eapply runs_weaken; [apply wr_n_ok_runs; rewrite ?zlen_BE16; unfold o_key_length; lia|].
    cbn beta. intros. lia. }
  intros b5 H5. eapply (runs_bind _ _ (fun b => zlen b = len)).
  { destruct (has_bits _ _); [|apply runs_ret; lia].
    eapply runs_weaken; [apply wr_n_ok_runs; rewrite ?zlen_BE16; unfold o_key_length; lia|].
    cbn beta. intros. lia. }
  intros b6 H6. eapply (runs_bind _ _ (fun b => zlen b = len)).
  { destruct (Sm.key_replay (sm s)) as [|r0 r]; [done|]. apply Forall_cons in Hrf as [Hr _].
    eapply runs_weaken; [apply wr_n_ok_runs|cbn beta; intros; lia];
      unfold o_replay_counter, WPA_REPLAY_COUNTER_LEN in *; lia. }
  intros b7 H7. eapply (runs_bind _ _ (fun b => zlen b = len)).
  { destruct nonce as [n|]; [|by apply runs_ret]. specialize (Hnonce n eq_refl).
    eapply runs_weaken; [apply wr_n_ok_runs|cbn beta; intros; lia];
      unfold o_key_nonce, WPA_NONCE_LEN in *; lia. }
  intros b8 H8. destruct key_rsc as [r|]; [|by apply runs_ret]. specialize (Hrsc r eq_refl).
  eapply runs_weaken; [apply wr_n_ok_runs|cbn beta; intros; lia]; unfold o_key_rsc, WPA_KEY_RSC_LEN in *; lia.
Qed.

(** The call of [os_malloc] for the plain text, and the group counter that RC4
    uses up. *)
Definition counter_step (s s' : st) : Prop :=
  exists c l, s' = s <| gr; Group.Counter := c |> <| lg := l |> /\ zlen c = WPA_NONCE_LEN /\
    log_ext quiet (lg s) l.

Lemma counter_step_refl s : zlen (Group.Counter (gr s)) = WPA_NONCE_LEN -> counter_step s s.
Proof. intros. exists (Group.Counter (gr s)), (lg s). split; [done|]. split; [done|apply log_ext_refl]. Qed.

Lemma zlen_kek PTK : zlen PTK = sizeof_wpa_ptk -> zlen (kek PTK) = 16.
Proof. unfold kek, zlen, sizeof_wpa_ptk. rewrite length_take, length_drop. lia. Qed.

Definition padded (version kde_len pad_len key_data_len : Z) (encr : bool) : Prop :=
  padded_len version kde_len encr = (pad_len, key_data_len).

Lemma padded_cases version kde_len pad_len key_data_len encr : 0 <= kde_len ->
  padded version kde_len pad_len key_data_len encr ->
  (((version =? WPA_KEY_INFO_TYPE_HMAC_SHA1_AES) ||
    (version =? WPA_KEY_INFO_TYPE_AES_128_CMAC)) && encr = true /\ 0 <= pad_len < 8 /\
    key_data_len = kde_len + pad_len + 8 /\ (key_data_len - 8) mod 8 = 0) \/
  (((version =? WPA_KEY_INFO_TYPE_HMAC_SHA1_AES) ||
    (version =? WPA_KEY_INFO_TYPE_AES_128_CMAC)) && encr = false /\ pad_len = 0 /\
    key_data_len = kde_len).
Proof.
  unfold padded, padded_len. intros H0. destruct (_ && encr).
  - intros [= <- <-]. left. split; [done|]. destruct (Z.eqb_spec (kde_len mod 8) 0); cbn [negb]; zlia.
  - intros [= <- <-]. by right.
Qed.

Lemma put_key_data_runs buf version key_data_len pad_len kde encr s :
  padded version (match kde with Some k => zlen k | None => 0 end) pad_len key_data_len encr ->
  zlen buf = key_header_len + key_data_len -> wf_gr (gr s) ->
  runs (put_key_data buf version key_data_len pad_len kde encr s)
    (fun '(b, s') => counter_step s s' /\ forall h, b = Some h -> zlen h = zlen buf).
Proof.
  unfold key_header_len, sizeof_ieee802_1x_hdr, sizeof_wpa_eapol_key. intros Hpad Hbuf Hg.
  pose proof (counter_step_refl s (g_counter _ Hg)) as Hrefl.
  destruct kde as [kde|]; cbn [put_key_data].
  2: { apply runs_ret. split; [done|]. by intros ? [= <-]. }
  pose proof (zlen_nonneg kde) as Hk0.
  apply padded_cases in Hpad; [|done].
  destruct encr; cbn [negb].
  2: { rewrite !andb_false_r in Hpad. destruct Hpad as [[? _]|(_ & -> & ->)]; [done|].
       rstep (apply wr_n_ok_runs; unfold o_key_data; lia) as b1 H1.
       rstep (apply wr_n_ok_runs; rewrite ?zlen_BE16; unfold o_key_data_length; lia) as b2 H2. apply runs_ret. split; [done|]. intros ? [= <-]. lia. }
  rewrite !andb_true_r in Hpad. unfold os_malloc. cbn beta iota zeta.
  set (s1 := emit (CMalloc key_data_len) s).
  assert (counter_step s s1) as Hs1.
  { exists (Group.Counter (gr s)), (lg s1). split; [done|]. split; [apply Hg|by apply log_ext_cons]. }
  destruct (malloc (lg s1)); cbn [negb]; [|apply runs_ret; by split].
  assert (0 <= key_data_len /\ zlen kde + (if pad_len =? 0 then 0 else 1) <= key_data_len) as [Hd0 Hd1].
  { destruct Hpad as [(_ & ? & ? & _)|(_ & -> & ->)]; [destruct (pad_len =? 0)|cbn]; lia. }
  rstep (apply wr_n_ok_runs; rewrite ?zlen_replicate; destruct (pad_len =? 0); lia) as p1 Hp1. rewrite zlen_replicate, Z2Nat.id in Hp1 by lia.
  eapply (runs_bind _ _ (fun p => zlen p = key_data_len)).
  { destruct (pad_len =? 0); cbn [negb]; [by apply runs_ret|].
    eapply runs_weaken; [apply wr_ok_runs; lia|cbn beta; intros; lia]. }
  intros p2 Hp2. destruct Hpad as [(Hv & ? & ? & Hmod)|(Hv & -> & ->)]; rewrite Hv.
  - rstep (apply rd_n_runs; zlia) as p3 Hp3.
    destruct (aes_wrap _ _) as [c|] eqn:Hc; [|apply runs_ret; by split].
    apply aes_wrap_len in Hc. assert (zlen c = key_data_len) as Hcl by zlia.
    rstep (apply wr_n_ok_runs; unfold o_key_data; lia) as b1 H1.
    rstep (apply wr_n_ok_runs; rewrite ?zlen_BE16; unfold o_key_data_length; lia) as b2 H2. apply runs_ret. split; [done|]. intros ? [= <-]. lia.
  - destruct (rd_n_runs (Group.Counter (gr s1)) (WPA_NONCE_LEN - 16) 16) as (iv & -> & Hiv);
      [done|done|change (gr s1) with (gr s); rewrite (g_counter _ Hg); done|].
    cbn [mbind res_bind].
    rstep (apply wr_n_ok_runs; unfold o_key_iv; lia) as b1 H1.
    destruct (inc_counter_runs (Group.Counter (gr s1)) (g_counter _ Hg)) as (c & -> & Hc).
    cbn [mbind res_bind].
    rstep (apply wr_n_ok_runs; rewrite ?rc4_skip_len; unfold o_key_data; lia) as b2 H2.
    rstep (apply wr_n_ok_runs; rewrite ?zlen_BE16; unfold o_key_data_length; lia) as b3 H3. apply runs_ret. split; [|intros ? [= <-]; lia].
    exists c, (lg s1). split; [done|]. split; [done|by apply log_ext_cons].
Qed.

(** What sending a frame to [a] may log. *)
Definition sending (a : list Z) (c : call) : Prop :=
  quiet c \/ c = CSetEapol a WPA_EAPOL_inc_EapolFramesTx true \/
  (exists d b, c = CSendEapol a d b) \/ exists t u, c = CRegister t u (wpa_send_eapol_timeout_ a).

(** Sending a frame changes the replay counters, the group counter and the log. *)
Definition sent (s s' : st) : Prop :=
  exists k c l, s' = s <| sm; Sm.key_replay := k |> <| gr; Group.Counter := c |> <| lg := l |> /\
    wf_replay k /\ zlen c = WPA_NONCE_LEN /\ log_ext (sending (my_addr s)) (lg s) l.

Lemma quiet_sending a l l' : log_ext quiet l l' -> log_ext (sending a) l l'.
Proof. apply log_ext_weaken. by left. Qed.

Lemma sent_refl s : wf_replay (Sm.key_replay (sm s)) -> wf_gr (gr s) -> sent s s.
Proof.
  intros Hk Hg. exists (Sm.key_replay (sm s)), (Group.Counter (gr s)), (lg s).
  split_and!; [done|done|apply Hg|apply log_ext_refl].
Qed.

Lemma put_mic_runs PTK version hdr : key_header_len <= zlen hdr ->
  runs (put_mic PTK version hdr) (fun h => zlen h = zlen hdr).
Proof.
  unfold key_header_len, sizeof_ieee802_1x_hdr, sizeof_wpa_eapol_key, put_mic. intros Hl.
  destruct (wpa_eapol_key_mic _ _ _) as [m|] eqn:Hm; [|by apply runs_ret].
  apply mic_len in Hm. apply wr_n_ok_runs; unfold o_key_mic; lia.
Qed.

Lemma wf_gr_counter g c : wf_gr g -> zlen c = WPA_NONCE_LEN -> wf_gr (g <| Group.Counter := c |>).
Proof. intros [] Hc. by split. Qed.

Lemma send_eapol__runs s key_info key_rsc nonce kde keyidx encr force_version :
  wf_replay (Sm.key_replay (sm s)) -> wf_gr (gr s) ->
  opt_len WPA_KEY_RSC_LEN key_rsc -> opt_len WPA_NONCE_LEN nonce ->
  runs (wpa_send_eapol_ s key_info key_rsc nonce kde keyidx encr force_version) (sent s).
Proof.
  intros Hk Hg Hrsc Hnonce. unfold wpa_send_eapol_. cbn zeta.
  set (version := eapol_version_of _ _). set (kde_len := match kde with Some k => zlen k | None => 0 end).
  assert (0 <= kde_len) as Hk0 by (unfold kde_len; destruct kde; [apply zlen_nonneg|done]).
  destruct (padded_len version kde_len encr) as [pad_len key_data_len] eqn:Hpad.
  assert (0 <= key_data_len) as Hd0.
  { apply padded_cases in Hpad as [(_ & ? & ? & _)|(_ & ? & ?)]; lia. }
  unfold os_malloc. cbn beta iota. set (len := sizeof_ieee802_1x_hdr + _ + key_data_len).
  set (s1 := emit (CMalloc len) s).
  assert (log_ext (sending (my_addr s)) (lg s) (lg s1)) as Hl1 by (apply log_ext_cons; by left).
  destruct (malloc (lg s1)); cbn [negb].
  2: { apply runs_ret. exists (Sm.key_replay (sm s)), (Group.Counter (gr s)), (lg s1).
       split_and!; [done|done|apply Hg|done]. }
  rstep (by apply next_replay_runs) as k Hk'.
  set (s2 := s1 <| sm; Sm.key_replay := k |>).
  rstep (apply put_key_header_runs; [unfold key_header_len, len; lia|done..]) as hdr Hh.
  rstep (apply put_key_data_runs; [exact Hpad|rewrite Hh; unfold len, key_header_len; lia|done])
    as [b s3] Hs3. destruct Hs3 as [(c & l & -> & Hc & Hl) Hb].
  assert (sent s (s2 <| gr; Group.Counter := c |> <| lg := l |>)) as Hs3.
  { exists k, c, l. split_and!; [done|done|done|]. eapply log_ext_trans; [exact Hl1|].
    by apply quiet_sending. }
  destruct b as [hdr2|]; [|by apply runs_ret]. specialize (Hb hdr2 eq_refl).
  destruct (_ && negb _); [by apply runs_ret|].
  eapply (runs_bind _ _ (fun _ => True)).
  { destruct (has_bits _ _); [|by apply runs_ret].
    eapply runs_weaken; [apply put_mic_runs|done]. rewrite Hb, Hh. unfold len, key_header_len. lia. }
  intros hdr3 _. apply runs_ret. destruct Hs3 as (k' & c' & l' & -> & ? & ? & Hl').
  eexists k', c', _. split; [reflexivity|]. split_and!; [done|done|].
  eapply log_ext_trans; [exact Hl'|].
  eexists [_; _]. split; [reflexivity|]. constructor; [|constructor; [|done]].
  - right. right. left. by eexists _, _.
  - right. by left.
Qed.

Lemma send_eapol_runs s key_info key_rsc nonce kde keyidx encr :
  wf_replay (Sm.key_replay (sm s)) -> wf_gr (gr s) ->
  opt_len WPA_KEY_RSC_LEN key_rsc -> opt_len WPA_NONCE_LEN nonce ->
  runs (wpa_send_eapol s key_info key_rsc nonce kde keyidx encr) (sent s).
Proof.
  intros Hk Hg Hrsc Hnonce. unfold wpa_send_eapol.
  rstep (by apply send_eapol__runs) as s1 Hs1. apply runs_ret.
  destruct Hs1 as (k & c & l & -> & ? & ? & Hl). eexists k, c, _. split; [reflexivity|].
  split_and!; [done|done|]. eapply log_ext_trans; [exact Hl|]. apply log_ext_cons.
  right. right. right. by eexists _, _.
Qed.

(** ** Stations and the authenticator *)

Record wf_au (a : Auth.wpa_authenticator) : Prop := {
  a_ie : exists els, Auth.wpa_ie a = Some (concat (map (fun e => element (fst e) (snd e)) els)) /\
    els <> [] /\ Forall (fun e => zlen (snd e) < 256) els;
  a_ie_len : forall ie, Auth.wpa_ie a = Some ie -> Auth.wpa_ie_len a = zlen ie;
}.

Record wf_sm (a : Auth.wpa_authenticator) (m : Sm.wpa_state_machine) : Prop := {
  m_replay : wf_replay (Sm.key_replay m);
  m_PTK : zlen (Sm.PTK m) = sizeof_wpa_ptk;
  m_ANonce : zlen (Sm.ANonce m) = WPA_NONCE_LEN;
  m_SNonce : zlen (Sm.SNonce m) = WPA_NONCE_LEN;
  m_PMK : zlen (Sm.PMK m) = PMK_LEN;
  m_ctr : 0 <= Sm.TimeoutCtr m;
  m_gctr : 0 <= Sm.GTimeoutCtr m;
  m_rx : forall d, Sm.last_rx_eapol_key m = Some d -> Sm.last_rx_eapol_key_len m = zlen d;
  m_pending : key_received m true = true -> Sm.last_rx_eapol_key m <> None;
  m_pmksa : forall p, Sm.pmksa m = Some p -> exists en, heap (Auth.pmksa a) !! p = Some en /\
    wf_entry en;
  m_ie : forall ie, Sm.wpa_ie m = Some ie -> 0 <= Sm.wpa_ie_len m <= zlen ie;
}.

Record wf_st (s : st) : Prop := {
  s_sm : wf_sm (au s) (sm s);
  s_gr : wf_gr (gr s);
  s_au : wf_au (au s);
}.

(** No step changes more of the authenticator than its counters. *)
Record same_auth (a a' : Auth.wpa_authenticator) : Prop := {
  sa_group : Auth.group a' = Auth.group a;
  sa_conf : Auth.conf a' = Auth.conf a;
  sa_ie : Auth.wpa_ie a' = Auth.wpa_ie a;
  sa_ie_len : Auth.wpa_ie_len a' = Auth.wpa_ie_len a;
  sa_addr : Auth.addr a' = Auth.addr a;
  sa_pmksa : Auth.pmksa a' = Auth.pmksa a;
}.

Lemma same_auth_refl a : same_auth a a.
Proof. by split. Qed.
Lemma same_auth_trans a b c : same_auth a b -> same_auth b c -> same_auth a c.
Proof. intros [] []. split; congruence. Qed.

Lemma wf_au_same a a' : same_auth a a' -> wf_au a -> wf_au a'.
Proof. intros [_ _ H1 H2 _ _] [H3 H4]. split; rewrite ?H1, ?H2; auto. Qed.
Lemma wf_sm_same a a' m : same_auth a a' -> wf_sm a m -> wf_sm a' m.
Proof. intros [_ _ _ _ _ H] []. split; rewrite ?H; auto. Qed.

(** [wf_sm] from what an assignment leaves alone. *)
Lemma wf_sm_update a m m' : wf_sm a m ->
  Sm.key_replay m' = Sm.key_replay m -> zlen (Sm.PTK m') = zlen (Sm.PTK m) ->
  zlen (Sm.ANonce m') = zlen (Sm.ANonce m) -> Sm.SNonce m' = Sm.SNonce m ->
  zlen (Sm.PMK m') = zlen (Sm.PMK m) -> 0 <= Sm.TimeoutCtr m' -> 0 <= Sm.GTimeoutCtr m' ->
  Sm.last_rx_eapol_key m' = Sm.last_rx_eapol_key m ->
  Sm.last_rx_eapol_key_len m' = Sm.last_rx_eapol_key_len m ->
  (key_received m' true = true -> key_received m true = true) ->
  Sm.pmksa m' = Sm.pmksa m -> Sm.wpa_ie m' = Sm.wpa_ie m ->
  Sm.wpa_ie_len m' = Sm.wpa_ie_len m -> wf_sm a m'.
Proof.
  intros [] E1 E2 E3 E4 E5 E6 E7 E8 E9 E10 E11 E12 E13.
  split; rewrite ?E1, ?E2, ?E3, ?E4, ?E5, ?E8, ?E9, ?E11, ?E12, ?E13; auto.
Qed.
End wf.
