(* ===== verification/WpaAuthCtl.v ===== *)
(** * The control part of the machines of a station

    An abstract specification of WPA_PTK and WPA_PTK_GROUP: the states, flags and
    counters of a station ([ctl]), with what the owner answers and whether a key
    explains a MIC as inputs.  It is the state machine of IEEE 802.11i without
    keys and frames.  Its steps terminate: a rank decreases with every change. *)

From S2P Require Import Prelude WpaCommon WpaAuthI WpaAuthIe WpaAuthSm.

#[projections(primitive)]
Record ctl := {
  state : ptk_state;
  gstate : ptk_group_state;
  is_wpa : bool;     (** [wpa == WPA_VERSION_WPA] *)
  init : bool;
  disc : bool;
  deauth : bool;
  auth : bool;
  reauth : bool;
  ptkreq : bool;
  tevt : bool;
  ctr : Z;
  gctr : Z;
  rcvd : bool;       (** [EAPOLKeyReceived] *)
  for_ptk : bool;    (** [!EAPOLKeyRequest && EAPOLKeyPairwise] *)
  for_group : bool;  (** [!EAPOLKeyRequest && !EAPOLKeyPairwise] *)
  mic : bool;
  ptk_ok : bool;     (** [PTK_valid] *)
  gupd : bool;
  pinit : bool;
  ginit : bool;      (** [PtkGroupInit] *)
  pair : bool;
  changed : bool;
}.

Definition ctl_of (m : Sm.wpa_state_machine) : ctl := {|
  state := Sm.wpa_ptk_state m; gstate := Sm.wpa_ptk_group_state m; is_wpa := bool_decide (Sm.wpa m = WPA_VERSION_WPA);
  init := Sm.Init m; disc := Sm.Disconnect m; deauth := Sm.DeauthenticationRequest m;
  auth := Sm.AuthenticationRequest m; reauth := Sm.ReAuthenticationRequest m;
  ptkreq := Sm.PTKRequest m; tevt := Sm.TimeoutEvt m; ctr := Sm.TimeoutCtr m;
  gctr := Sm.GTimeoutCtr m; rcvd := Sm.EAPOLKeyReceived m;
  for_ptk := negb (Sm.EAPOLKeyRequest m) && Sm.EAPOLKeyPairwise m;
  for_group := negb (Sm.EAPOLKeyRequest m) && negb (Sm.EAPOLKeyPairwise m);
  mic := Sm.MICVerified m; ptk_ok := Sm.PTK_valid m; gupd := Sm.GUpdateStationKeys m;
  pinit := Sm.PInitAKeys m; ginit := Sm.PtkGroupInit m; pair := Sm.Pair m;
  changed := Sm.changed m |}.

(** The inputs of a step: [keyRun], [keyAvailable] or a PSK, a key that explains
    the MIC of message 2/4, the driver takes the key. *)
Record inputs := { key_run : bool; key_there : bool; key_found : bool; key_set : bool }.

Definition enter (st : ptk_state) (c : ctl) : ctl := c <| state := st |> <| changed := true |>.

Definition a_initialize (c : ctl) : ctl :=
  (enter WPA_PTK_INITIALIZE c) <| changed := negb (init c) |> <| gupd := false |>
    <| pinit := if is_wpa c then false else pinit c |>
    <| pair := true |> <| ptk_ok := false |> <| ctr := 0 |>.
Definition a_disconnect (c : ctl) : ctl := (enter WPA_PTK_DISCONNECT c) <| disc := false |>.
Definition a_disconnected (c : ctl) : ctl := (enter WPA_PTK_DISCONNECTED c) <| deauth := false |>.
Definition a_authentication (c : ctl) : ctl :=
  (enter WPA_PTK_AUTHENTICATION c) <| ptk_ok := false |> <| auth := false |>.
Definition a_authentication2 (c : ctl) : ctl :=
  (enter WPA_PTK_AUTHENTICATION2 c) <| reauth := false |> <| ctr := 0 |>.
Definition a_ptkstart (c : ctl) : ctl :=
  (enter WPA_PTK_PTKSTART c) <| ptkreq := false |> <| tevt := false |> <| ctr := ctr c + 1 |>.
Definition a_ptkcalc (i : inputs) (c : ctl) : ctl :=
  let c := (enter WPA_PTK_PTKCALCNEGOTIATING c) <| rcvd := false |> in
  if key_found i then c <| mic := true |> <| ptk_ok := true |> else c.
Definition a_ptkinitnegotiating (c : ctl) : ctl :=
  (enter WPA_PTK_PTKINITNEGOTIATING c) <| tevt := false |> <| ctr := ctr c + 1 |>.
Definition a_ptkinitdone (i : inputs) (c : ctl) : ctl :=
  let c := (enter WPA_PTK_PTKINITDONE c) <| rcvd := false |> in
  if pair c && negb (key_set i) then c
  else if is_wpa c then c <| pinit := true |> else c.

Definition a_ptk_step (i : inputs) (c : ctl) : ctl :=
  if init c then a_initialize c
  else if disc c then a_disconnect c
  else if deauth c then a_disconnected c
  else if auth c then a_authentication c
  else if reauth c then a_authentication2 c
  else if ptkreq c then a_ptkstart c
  else
    match state c with
    | WPA_PTK_INITIALIZE | WPA_PTK_PTKINITDONE => c
    | WPA_PTK_DISCONNECT => a_disconnected c
    | WPA_PTK_DISCONNECTED => a_initialize c
    | WPA_PTK_AUTHENTICATION => a_authentication2 c
    | WPA_PTK_AUTHENTICATION2 =>
        if key_run i then enter WPA_PTK_INITPMK c
        else if key_there i then enter WPA_PTK_INITPSK c else c
    | WPA_PTK_INITPMK | WPA_PTK_INITPSK => if key_there i then a_ptkstart c else a_disconnect c
    | WPA_PTK_PTKSTART =>
        if rcvd c && for_ptk c then a_ptkcalc i c
        else if dot11RSNAConfigPairwiseUpdateCount <? ctr c then a_disconnect c
        else if tevt c then a_ptkstart c else c
    | WPA_PTK_PTKCALCNEGOTIATING =>
        if mic c then (enter WPA_PTK_PTKCALCNEGOTIATING2 c) <| ctr := 0 |>
        else if rcvd c && for_ptk c then a_ptkcalc i c
        else if tevt c then a_ptkstart c else c
    | WPA_PTK_PTKCALCNEGOTIATING2 => a_ptkinitnegotiating c
    | WPA_PTK_PTKINITNEGOTIATING =>
        if rcvd c && for_ptk c && mic c then a_ptkinitdone i c
        else if dot11RSNAConfigPairwiseUpdateCount <? ctr c then a_disconnect c
        else if tevt c then a_ptkinitnegotiating c else c
    end.

Definition genter (st : ptk_group_state) (c : ctl) : ctl := c <| gstate := st |> <| changed := true |>.

Definition a_group_idle (c : ctl) : ctl :=
  (genter WPA_PTK_GROUP_IDLE c) <| changed := negb (init c) |> <| gctr := 0 |>.
Definition a_rekeynegotiating (c : ctl) : ctl :=
  let c := (genter WPA_PTK_GROUP_REKEYNEGOTIATING c) <| gctr := gctr c + 1 |> in
  if dot11RSNAConfigGroupUpdateCount <? gctr c then c
  else
    let c := if is_wpa c then c <| pinit := false |> else c in
    c <| tevt := false |>.
Definition a_rekeyestablished (c : ctl) : ctl :=
  (genter WPA_PTK_GROUP_REKEYESTABLISHED c) <| rcvd := false |> <| gupd := false |> <| gctr := 0 |>.
Definition a_keyerror (c : ctl) : ctl :=
  (genter WPA_PTK_GROUP_KEYERROR c) <| gupd := false |> <| disc := true |>.

Definition a_group_step (c : ctl) : ctl :=
  if init c || ginit c then (a_group_idle c) <| ginit := false |>
  else
    match gstate c with
    | WPA_PTK_GROUP_IDLE =>
        if gupd c || (is_wpa c && pinit c)
        then a_rekeynegotiating c else c
    | WPA_PTK_GROUP_REKEYNEGOTIATING =>
        if rcvd c && for_group c && mic c then a_rekeyestablished c
        else if dot11RSNAConfigGroupUpdateCount <? gctr c then a_keyerror c
        else if tevt c then a_rekeynegotiating c else c
    | WPA_PTK_GROUP_KEYERROR | WPA_PTK_GROUP_REKEYESTABLISHED => a_group_idle c
    end.

(** ** The steps end *)

Definition ptk_rank (s : ptk_state) : Z :=
  match s with
  | WPA_PTK_INITIALIZE | WPA_PTK_PTKINITDONE => 0
  | WPA_PTK_DISCONNECTED => 1
  | WPA_PTK_DISCONNECT => 2
  | WPA_PTK_PTKSTART | WPA_PTK_PTKINITNEGOTIATING => 3
  | WPA_PTK_PTKCALCNEGOTIATING2 => 4
  | WPA_PTK_PTKCALCNEGOTIATING => 5
  | WPA_PTK_INITPMK | WPA_PTK_INITPSK => 6
  | WPA_PTK_AUTHENTICATION2 => 7
  | WPA_PTK_AUTHENTICATION => 8
  end.

Definition group_rank (c : ctl) : Z :=
  match gstate c with
  | WPA_PTK_GROUP_IDLE => if gupd c then 16 else 0
  | WPA_PTK_GROUP_REKEYNEGOTIATING => 14 + (if gctr c <=? 4 then 1 else 0)
  | WPA_PTK_GROUP_REKEYESTABLISHED | WPA_PTK_GROUP_KEYERROR => 1
  end.

(** [PInitAKeys] only counts when the group machine looks at it. *)
Definition rank (c : ctl) : Z :=
  ptk_rank (state c) + group_rank c +
  9 * (Z.b2z (deauth c) + Z.b2z (auth c) + Z.b2z (reauth c) + Z.b2z (ptkreq c) + Z.b2z (tevt c)) +
  11 * Z.b2z (disc c) + 25 * Z.b2z (rcvd c) + 3 * Z.b2z (ginit c) +
  (if is_wpa c then 17 * Z.b2z (pinit c) else 0).

(** Reachable control states: the group counter is only used while the station
    is asked, and a group key that is due in REKEYESTABLISHED or KEYERROR is not
    forgotten. *)
Record ctl_inv (c : ctl) : Prop := {
  ci_idle : gstate c = WPA_PTK_GROUP_IDLE -> gctr c = 0;
  ci_gctr : 0 <= gctr c;
  ci_ctr : 0 <= ctr c;
  ci_leaving : gstate c = WPA_PTK_GROUP_REKEYESTABLISHED \/ gstate c = WPA_PTK_GROUP_KEYERROR ->
    gupd c = false;
}.

Lemma b2z_range b : 0 <= Z.b2z b <= 1.
Proof. destruct b; cbn; lia. Qed.

Lemma ptk_rank_range s : 0 <= ptk_rank s <= 8.
Proof. destruct s; cbn; lia. Qed.

Lemma rank_range c : 0 <= rank c <= 125.
Proof.
  unfold rank, group_rank. pose proof (ptk_rank_range (state c)).
  repeat match goal with |- context [Z.b2z ?b] =>
    lazymatch goal with H : 0 <= Z.b2z b <= 1 |- _ => fail | _ => pose proof (b2z_range b) end end.
  repeat case_match; lia.
Qed.

(** The outcome of a step from a state in which nothing has changed yet. *)
Record ptk_outcome (c c' : ctl) : Prop := {
  po_inv : ctl_inv c';
  po_init : init c' = init c;
  po_rank : if init c then rank c' <= rank c /\ gupd c' = false /\ changed c' = false
            else c' = c \/ rank c' < rank c /\ changed c' = true;
}.

Ltac ctl_cases :=
  repeat match goal with
  | H : ?a && ?b = true |- _ => apply andb_prop in H; destruct H
  | H : ?b = true |- context [Z.b2z ?b] => rewrite H
  | H : ?b = false |- context [Z.b2z ?b] => rewrite H
  | H : state ?c = _ |- context [ptk_rank (state ?c)] => rewrite H
  end; cbn [Z.b2z andb orb negb] in *.
(** Everything about the fields of a record update. *)
Ltac ctl_fields :=
  cbn [put state gstate is_wpa init disc deauth auth reauth ptkreq tevt ctr gctr rcvd for_ptk
       for_group mic ptk_ok gupd pinit ginit pair changed ptk_rank] in *.
Ltac ctl_crush :=
  unfold rank, group_rank; ctl_fields; ctl_cases;
  repeat match goal with
  | |- context [Z.b2z ?b] =>
      lazymatch goal with H : 0 <= Z.b2z b <= 1 |- _ => fail | _ => pose proof (b2z_range b) end
  end;
  try match goal with |- context [ptk_rank (state ?c)] => pose proof (ptk_rank_range (state c)) end;
  repeat case_match; ctl_fields; cbn [Z.b2z] in *; try lia; try congruence; try (exfalso; naive_solver).

(** Unfolds the entries. *)
Ltac ctl_unfold :=
  unfold a_initialize, a_disconnect, a_disconnected, a_authentication, a_authentication2,
    a_ptkstart, a_ptkcalc, a_ptkinitnegotiating, a_ptkinitdone, enter in *.

(** The entry of a state: [H] reduces the outcome to the change of the rank. *)
Ltac by_rank H :=
  apply H; [done|split; cbn; auto; lia|right; split; [ctl_crush|done]].

Lemma a_ptk_step_outcome i c : ctl_inv c -> changed c = false -> ptk_outcome c (a_ptk_step i c).
Proof.
  intros [H1 H2 H3 H4] Hch. unfold a_ptk_step.
  destruct (init c) eqn:Hinit.
  { ctl_unfold. split; [split; cbn; auto; lia|done|rewrite Hinit].
    split_and!; [|done|cbn; by rewrite ?Hinit]. ctl_crush. }
  assert (forall c', init c' = false -> ctl_inv c' -> c' = c \/ rank c' < rank c /\ changed c' = true ->
    ptk_outcome c c') as Hout.
  { intros c' E1 E2 E3. split; [done|congruence|by rewrite Hinit]. }
  ctl_unfold.
  destruct (disc c) eqn:Hd; [by_rank Hout|].
  destruct (deauth c) eqn:Hde; [by_rank Hout|].
  destruct (auth c) eqn:Ha; [by_rank Hout|].
  destruct (reauth c) eqn:Hr; [by_rank Hout|].
  destruct (ptkreq c) eqn:Hp; [by_rank Hout|].
  destruct (state c) eqn:Hs.
  all: repeat case_match; try (by apply Hout; [done|split|left]).
  all: apply Hout; [done|split; cbn; auto; lia|right; split; [|cbn; by rewrite ?Hinit]].
  all: ctl_crush.
Qed.

(** The group machine, whatever happened before in the round. *)
Lemma a_group_step_outcome c : ctl_inv c ->
  let c' := a_group_step c in
  ctl_inv c' /\ init c' = init c /\ ptkreq c' = ptkreq c /\
  (if init c then gupd c = false -> rank c' <= rank c /\ changed c' = false
   else c' = c \/ rank c' < rank c /\ changed c' = true).
Proof.
  intros [H1 H2 H3 H4]. cbn zeta. unfold a_group_step.
  unfold a_group_idle, a_rekeynegotiating, a_rekeyestablished, a_keyerror, genter.
  destruct (init c) eqn:Hinit; cbn [orb].
  { split; [split; cbn; auto; try lia; naive_solver|]. split; [done|]. split; [done|].
    intros Hg. split; [|done]. ctl_crush. }
  destruct (ginit c) eqn:Hgi.
  { split; [split; cbn; auto; try lia; naive_solver|]. split; [done|]. split; [done|]. right.
    split; [ctl_crush|done]. }
  unfold dot11RSNAConfigGroupUpdateCount.
  destruct (gstate c) eqn:Hs; try specialize (H1 eq_refl).
  all: repeat case_match; ctl_fields; try (by split_and!; [split; rewrite ?Hs|..|left]).
  all: split; [split; cbn; auto; try lia; naive_solver|].
  all: split; [done|]; split; [done|]; right; split; [|done].
  all: ctl_crush.
  destruct (pinit c); cbn [Z.b2z andb orb] in *; lia || congruence.
Qed.

(** One round of the loop of [wpa_sm_step], without the group's own machine. *)
Definition a_round (i : inputs) (c : ctl) : ctl :=
  a_group_step (a_ptk_step i (c <| changed := false |>)).

Lemma a_round_rank i c : ctl_inv c ->
  let c' := a_round i c in
  ctl_inv c' /\ init c' = init c /\ rank c' <= rank c /\ (changed c' = true -> rank c' < rank c).
Proof.
  intros Hc. cbn zeta. unfold a_round. set (c0 := c <| changed := false |>).
  assert (ctl_inv c0) as Hc0 by (destruct Hc; by split).
  destruct (a_ptk_step_outcome i c0 Hc0 eq_refl) as [Hc1 Hi1 Hr1].
  set (c1 := a_ptk_step i c0) in *. change (rank c) with (rank c0). change (init c) with (init c0).
  destruct (a_group_step_outcome c1 Hc1) as (Hc2 & Hi2 & _ & Hr2). set (c2 := a_group_step c1) in *.
  split; [done|]. split; [congruence|]. rewrite Hi1 in Hr2. destruct (init c0).
  - destruct Hr1 as (Hr1 & Hg1 & _), (Hr2 Hg1) as [Hr2' Hch]. split; [lia|]. by rewrite Hch.
  - destruct Hr1 as [Hr1|[Hr1 Hch1]], Hr2 as [Hr2|[Hr2 Hch2]]; rewrite ?Hr1, ?Hr2 in *; try lia.
    split; [lia|]. done.
Qed.
