(* ===== verification/WpaAuthRest.v ===== *)
(** * Stations at rest

    Between the calls of hostapd a station waits: what its control part is then
    ([rest]), what it may be when its machines are about to run ([ready]), and
    that the loop of [wpa_sm_step] leads from the one to the other.  An
    unanswered station does not wait for ever ([waiting]). *)

From S2P Require Import Prelude WpaCommon WpaAuthI WpaAuthIe WpaAuthSm WpaAuthCtl.

(** The states before a pairwise key is there. *)
Definition early (s : ptk_state) : bool :=
  match s with
  | WPA_PTK_AUTHENTICATION | WPA_PTK_AUTHENTICATION2 | WPA_PTK_INITPMK | WPA_PTK_INITPSK
  | WPA_PTK_PTKSTART => true
  | _ => false
  end.

(** Nothing takes precedence over the state. *)
Definition calm (c : ctl) : bool :=
  negb (init c || disc c || deauth c || auth c || reauth c || ptkreq c).

(** The machine WPA_PTK reads the next pairwise frame. *)
Definition awaits (c : ctl) : bool :=
  calm c &&
  match state c with
  | WPA_PTK_PTKSTART => true
  | WPA_PTK_PTKCALCNEGOTIATING => negb (mic c)
  | WPA_PTK_PTKINITNEGOTIATING => mic c
  | _ => false
  end.
(** ... and WPA_PTK_GROUP the next group frame. *)
Definition gawaits (c : ctl) : bool :=
  negb (init c) && negb (ginit c) && mic c &&
  match gstate c with WPA_PTK_GROUP_REKEYNEGOTIATING => true | _ => false end.

(** No frame waits to be read. *)
Definition nothing_read (c : ctl) : bool := negb (rcvd c && for_ptk c) && negb (rcvd c && for_group c).

(** A key is valid only where a handshake with it can be. *)
Definition keyed (c : ctl) : bool :=
  negb (ptk_ok c) ||
  negb (early (state c)) && negb (reauth c) && negb (ptkreq c) &&
  match state c with WPA_PTK_PTKCALCNEGOTIATING => mic c | _ => true end.

(** The station can be stepped: a frame that was stored is one the machines wait
    for. *)
Definition readable (c : ctl) : bool :=
  keyed c && implb (rcvd c && for_ptk c) (awaits c) && implb (rcvd c && for_group c) (gawaits c).
Definition ready (c : ctl) : Prop := ctl_inv c /\ readable c = true.

(** The states in which the machine WPA_PTK waits for something. *)
Definition stable (s : ptk_state) : bool :=
  match s with
  | WPA_PTK_INITIALIZE | WPA_PTK_AUTHENTICATION2 | WPA_PTK_PTKSTART | WPA_PTK_PTKCALCNEGOTIATING
  | WPA_PTK_PTKINITNEGOTIATING | WPA_PTK_PTKINITDONE => true
  | _ => false
  end.
Definition gstable (s : ptk_group_state) : bool :=
  match s with WPA_PTK_GROUP_IDLE | WPA_PTK_GROUP_REKEYNEGOTIATING => true | _ => false end.

(** A station at rest waits, and only a request for a new key may be pending,
    outside the first half of a handshake. *)
Definition resting (c : ctl) : bool :=
  keyed c && nothing_read c && negb (init c || disc c || deauth c || auth c || reauth c) &&
  stable (state c) && gstable (gstate c) && negb (ginit c) &&
  match state c with
  | WPA_PTK_PTKSTART => negb (ptkreq c)
  | WPA_PTK_PTKCALCNEGOTIATING => negb (ptkreq c) && negb (mic c)
  | _ => true
  end.
Definition rest (c : ctl) : Prop := ctl_inv c /\ resting c = true.

Ltac ctl_simpl :=
  cbn [put state gstate is_wpa init disc deauth auth reauth ptkreq tevt ctr gctr rcvd for_ptk
       for_group mic ptk_ok gupd pinit ginit pair changed early stable gstable andb orb negb implb].
Ltac ctl_open :=
  unfold readable, resting, keyed, awaits, gawaits, calm, nothing_read; ctl_unfold; unfold enter.
(** All the values of the flags [keyed] looks at. *)
Ltac ctl_flags c :=
  ctl_simpl; try done;
  match goal with
  | |- context [ptk_ok c] => destruct (ptk_ok c); ctl_flags c
  | |- context [reauth c] => destruct (reauth c); ctl_flags c
  | |- context [ptkreq c] => destruct (ptkreq c); ctl_flags c
  | |- context [mic c] => destruct (mic c); ctl_flags c
  | |- context [state c] => destruct (state c); ctl_flags c
  end.

Lemma a_ptk_step_keyed i c : keyed c = true -> keyed (a_ptk_step i c) = true.
Proof.
  unfold a_ptk_step, keyed. ctl_unfold. unfold enter.
  destruct (init c); [ctl_flags c|]. destruct (disc c); [ctl_flags c|].
  destruct (deauth c); [ctl_flags c|]. destruct (auth c); [ctl_flags c|].
  destruct (reauth c) eqn:E1; [ctl_flags c|]. destruct (ptkreq c) eqn:E2; [ctl_flags c|].
  destruct (state c) eqn:E3; repeat case_match; ctl_simpl; rewrite ?E1, ?E2, ?E3; ctl_flags c.
Qed.

(** What a step of WPA_PTK leaves alone. *)
Record ptk_kept (c c' : ctl) : Prop := {
  pk_rcvd : rcvd c' = true -> rcvd c = true;
  pk_for_ptk : for_ptk c' = for_ptk c;
  pk_for_group : for_group c' = for_group c;
  pk_init : init c' = init c;
  pk_ginit : ginit c' = ginit c;
  pk_gstate : gstate c' = gstate c;
  pk_mic : mic c = true -> mic c' = true;
}.
Lemma a_ptk_step_kept i c : ptk_kept c (a_ptk_step i c).
Proof.
  unfold a_ptk_step. ctl_unfold. unfold enter. repeat case_match; split; ctl_simpl; auto; congruence.
Qed.

(** An awaited frame is read. *)
Lemma a_ptk_step_reads i c : rcvd c && for_ptk c = true -> awaits c = true ->
  rcvd (a_ptk_step i c) = false.
Proof.
  intros Hr. unfold awaits, calm, a_ptk_step. rewrite Hr. ctl_unfold. unfold enter.
  destruct (init c), (disc c), (deauth c), (auth c), (reauth c), (ptkreq c); try done.
  destruct (state c); ctl_simpl; try done; destruct (mic c); ctl_simpl; try done; by repeat case_match.
Qed.

(** A step of WPA_PTK keeps a station ready, and reads a pairwise frame. *)
Lemma a_ptk_step_readable i c : readable c = true ->
  readable (a_ptk_step i c) = true /\ rcvd (a_ptk_step i c) && for_ptk (a_ptk_step i c) = false.
Proof.
  unfold readable. rewrite !andb_true_iff. intros [[Hk Hp] Hg].
  pose proof (a_ptk_step_kept i c) as [K1 K2 K3 K4 K5 K6 K7]. set (c' := a_ptk_step i c) in *.
  assert (rcvd c' && for_ptk c' = false) as Hr.
  { rewrite K2. destruct (rcvd c && for_ptk c) eqn:E.
    - cbn [implb] in Hp. unfold c'. by rewrite (a_ptk_step_reads i c E Hp).
    - destruct (rcvd c'); [|done]. by rewrite (K1 eq_refl) in E. }
  split; [|done]. rewrite Hr, K3. split_and!; [by apply a_ptk_step_keyed|done|].
  destruct (rcvd c'); [|done]. rewrite (K1 eq_refl) in Hg. destruct (for_group c); [|done].
  revert Hg. cbn [andb implb]. unfold gawaits. rewrite K4, K5, K6.
  destruct (mic c); [|by rewrite andb_false_r]. by rewrite (K7 eq_refl).
Qed.

Lemma a_group_step_keyed c : keyed c = true -> keyed (a_group_step c) = true.
Proof.
  unfold a_group_step, a_group_idle, a_rekeynegotiating, a_rekeyestablished, a_keyerror, genter.
  repeat case_match; done.
Qed.

(** ... and a step of WPA_PTK_GROUP reads a group frame. *)
Lemma a_group_step_readable c : readable c = true -> rcvd c && for_ptk c = false ->
  readable (a_group_step c) = true /\ nothing_read (a_group_step c) = true.
Proof.
  unfold readable. rewrite !andb_true_iff. intros [[Hk _] Hg] Hp.
  pose proof (a_group_step_keyed c Hk) as Hk'. set (c' := a_group_step c) in *.
  enough (rcvd c' && for_ptk c' = false /\ rcvd c' && for_group c' = false) as [E1 E2].
  { unfold nothing_read. by rewrite E1, E2. }
  revert Hg Hp. unfold c', gawaits, a_group_step.
  unfold a_group_idle, a_rekeynegotiating, a_rekeyestablished, a_keyerror, genter.
  destruct (rcvd c) eqn:Er.
  2: { repeat case_match; ctl_simpl; by rewrite ?Er. }
  cbn [andb]. intros Hg Hp. destruct (for_group c) eqn:Eg.
  - cbn [implb] in Hg. rewrite !andb_true_iff, !negb_true_iff in Hg. destruct Hg as [[[-> ->] ->] Hs].
    by destruct (gstate c).
  - repeat case_match; ctl_simpl; by rewrite ?Hp, ?Eg, ?andb_false_r.
Qed.

(** One round keeps a station ready, and reads what was received. *)
Lemma a_round_ready i c : ready c -> ready (a_round i c) /\ nothing_read (a_round i c) = true.
Proof.
  intros [Hc Hr]. destruct (a_round_rank i c Hc) as [Hc' _]. unfold a_round.
  set (c0 := c <| changed := false |>).
  destruct (a_ptk_step_readable i c0 Hr) as [Hr1 Hp1].
  destruct (a_group_step_readable _ Hr1 Hp1) as [Hr2 Hn]. split; [split; [exact Hc'|exact Hr2]|exact Hn].
Qed.

(** ** The end of the loop *)

Lemma a_ptk_step_stays i c : changed c = false -> init c = false -> a_ptk_step i c = c ->
  calm c = true /\ stable (state c) = true /\ (state c = WPA_PTK_PTKCALCNEGOTIATING -> mic c = false).
Proof.
  intros Hch Hi E. assert (changed (a_ptk_step i c) = false) as Hc by by rewrite E.
  revert Hc. unfold a_ptk_step, calm. ctl_unfold. unfold enter. rewrite Hi.
  destruct (disc c); [done|]. destruct (deauth c); [done|]. destruct (auth c); [done|].
  destruct (reauth c); [done|]. destruct (ptkreq c); [done|].
  destruct (state c); try done; intros; repeat case_match; try done; by split_and!.
Qed.

Lemma a_group_step_stays c : changed c = false -> init c = false -> a_group_step c = c ->
  gstable (gstate c) = true /\ ginit c = false.
Proof.
  intros Hch Hi E. assert (changed (a_group_step c) = false) as Hc by by rewrite E.
  revert Hc. unfold a_group_step, a_group_idle, genter. rewrite Hi. cbn [orb].
  destruct (ginit c); [done|]. destruct (gstate c); done.
Qed.

(** The round after which the loop ends found nothing to do. *)
Lemma a_round_last i c : ctl_inv c -> init c = false -> changed (a_round i c) = false ->
  a_round i c = c <| changed := false |> /\ a_ptk_step i (c <| changed := false |>) = c <| changed := false |> /\
  a_group_step (c <| changed := false |>) = c <| changed := false |>.
Proof.
  intros Hc Hi. unfold a_round. set (c0 := c <| changed := false |>).
  assert (ctl_inv c0) as Hc0 by (destruct Hc; by split).
  destruct (a_ptk_step_outcome i c0 Hc0 eq_refl) as [Hc1 Hi1 Hr1].
  change (init c0) with (init c) in *. rewrite Hi in *.
  destruct (a_group_step_outcome (a_ptk_step i c0) Hc1) as (_ & _ & _ & Hr2). rewrite Hi1 in Hr2.
  intros Hch. destruct Hr2 as [Hr2|[_ Hr2]]; [|congruence].
  rewrite Hr2 in Hch. destruct Hr1 as [Hr1|[_ Hr1]]; [|congruence]. by rewrite !Hr1 in *.
Qed.

Lemma a_round_rest i c : ready c -> init c = false -> changed (a_round i c) = false ->
  rest (a_round i c).
Proof.
  intros Hr Hi Hch. destruct (a_round_ready i c Hr) as [[Hc' Hr'] Hn].
  destruct (a_round_last i c (proj1 Hr) Hi Hch) as (E & E1 & E2). rewrite E in *.
  set (c0 := c <| changed := false |>) in *.
  destruct (a_ptk_step_stays i c0 eq_refl Hi E1) as (H1 & H2 & H3).
  destruct (a_group_step_stays c0 eq_refl Hi E2) as [H4 H5]. split; [done|].
  unfold readable in Hr'. rewrite !andb_true_iff in Hr'. destruct Hr' as [[Hk _] _].
  unfold resting. rewrite Hk, Hn, H2, H4, H5. unfold calm in H1.
  destruct (ptkreq c0) eqn:Hp; [by rewrite orb_true_r in H1|]. rewrite orb_false_r in H1.
  rewrite H1. cbn [andb]. destruct (state c0) eqn:Hs; try done. by rewrite H3.
Qed.

Lemma rest_ready c : rest c -> ready c.
Proof.
  unfold rest, ready, resting, readable, nothing_read. intros [Hc H].
  rewrite !andb_true_iff in H. destruct H as [[[[[[Hk [H1 H2]] _] _] _] _] _].
  apply negb_true_iff in H1, H2. by rewrite Hk, H1, H2.
Qed.

(** What a station at rest is, one by one. *)
Record rest_facts (c : ctl) : Prop := {
  rf_inv : ctl_inv c;
  rf_keyed : keyed c = true;
  rf_read : nothing_read c = true;
  rf_init : init c = false;
  rf_disc : disc c = false;
  rf_deauth : deauth c = false;
  rf_auth : auth c = false;
  rf_reauth : reauth c = false;
  rf_stable : stable (state c) = true;
  rf_gstable : gstable (gstate c) = true;
  rf_ginit : ginit c = false;
  rf_start : state c = WPA_PTK_PTKSTART -> ptkreq c = false;
  rf_calc : state c = WPA_PTK_PTKCALCNEGOTIATING -> ptkreq c = false /\ mic c = false;
}.

Lemma rest_iff c : rest c <-> rest_facts c.
Proof.
  unfold rest, resting. rewrite !andb_true_iff, !negb_true_iff, !orb_false_iff. split.
  - intros [Hc [[[[[[H1 H2] [[[[H3 H4] H5] H6] H7]] H8] H9] H10] H11]]. split; try done; intros E; rewrite E in H11.
    + by apply negb_true_iff.
    + apply andb_prop in H11 as [? ?]. by rewrite <- !negb_true_iff.
  - intros []. split_and!; try done. destruct (state c); try done.
    + by rewrite rf_start0. + by destruct rf_calc0 as [-> ->].
Qed.

(** A station with nothing to read can be stepped whatever else is asked of it. *)
Lemma ready_intro c : ctl_inv c -> nothing_read c = true -> keyed c = true -> ready c.
Proof.
  unfold ready, readable, nothing_read. intros Hc [H1 H2]%andb_prop Hk.
  apply negb_true_iff in H1, H2. by rewrite Hk, H1, H2.
Qed.

(** What the loop of [wpa_sm_step] makes of a control part, for some inputs. *)
Inductive loops : ctl -> ctl -> Prop :=
  | loops_end i c : changed (a_round i c) = false -> loops c (a_round i c)
  | loops_more i c c' : loops (a_round i c) c' -> loops c c'.

Lemma loops_init c c' : ctl_inv c -> loops c c' -> init c' = init c.
Proof.
  intros Hc H. induction H as [i c|i c c' H IH].
  - by destruct (a_round_rank i c Hc) as (_ & ? & _).
  - destruct (a_round_rank i c Hc) as (Hc' & Hi & _). rewrite (IH Hc'). done.
Qed.

Lemma loops_ready c c' : ready c -> loops c c' -> ready c' /\ nothing_read c' = true.
Proof.
  intros Hr H. induction H as [i c|i c c' H IH]; [by apply a_round_ready|].
  apply IH. by apply a_round_ready.
Qed.

(** The loop brings a station to rest. *)
Lemma loops_rest c c' : ready c -> init c = false -> loops c c' -> rest c'.
Proof.
  intros Hr Hi H. revert Hr Hi. induction H as [i c Hch|i c c' H IH]; intros Hr Hi.
  - by apply a_round_rest.
  - destruct (a_round_ready i c Hr) as [Hr' _].
    destruct (a_round_rank i c (proj1 Hr)) as (_ & Hi' & _). apply IH; [done|congruence].
Qed.
