(* ===== verification/WpaAuthRef.v ===== *)
(** * The machines of a station follow their control part

    Every entry of a state of WPA_PTK and WPA_PTK_GROUP runs without a fault,
    keeps the type invariant, leaves alone what is not its business ([frame]),
    and does to the control part what the abstract machine of WpaAuthCtl.v
    does. *)

From stdpp Require Import gmap.
From S2P Require Import Prelude CommonUtils EapI WpaCommon Pmksa PmksaProps WpaAuthI.
From S2P Require Import WpaAuthIe WpaIeProps WpaAuthSm WpaAuthWf WpaAuthCtl.

(** A call that lets nobody in: neither is the port opened, nor a pairwise key
    given to the driver. *)
Definition plain (c : call) : Prop :=
  match c with
  | CSetEapol _ WPA_EAPOL_portValid true | CSetEapol _ WPA_EAPOL_authorized true => False
  | CSetKey _ alg a _ _ => alg = WPA_ALG_NONE \/ a = broadcast_ether_addr
  | _ => True
  end.
(** The algorithm and the length of the pairwise key, and the calls that let the
    station in with its key. *)
Definition pairwise_alg (m : Sm.wpa_state_machine) : wpa_alg * Z :=
  if Sm.pairwise m =? WPA_CIPHER_TKIP then (WPA_ALG_TKIP, 32) else (WPA_ALG_CCMP, 16).
Definition lets_in (m : Sm.wpa_state_machine) (c : call) : Prop :=
  plain c \/ c = CSetEapol (Sm.addr m) WPA_EAPOL_portValid true \/
  c = CSetEapol (Sm.addr m) WPA_EAPOL_authorized true \/
  c = CSetKey 0 (fst (pairwise_alg m)) (Sm.addr m) 0 (tk1 (Sm.PTK m) (snd (pairwise_alg m))).

(** What no step of a station changes, and the calls it makes. *)
Record frame (P : call -> Prop) (s s' : st) : Prop := {
  f_addr : Sm.addr (sm s') = Sm.addr (sm s);
  f_group : Sm.group (sm s') = Sm.group (sm s);
  f_request : Sm.EAPOLKeyRequest (sm s') = Sm.EAPOLKeyRequest (sm s);
  f_pairwise : Sm.EAPOLKeyPairwise (sm s') = Sm.EAPOLKeyPairwise (sm s);
  f_snonce : Sm.SNonce (sm s') = Sm.SNonce (sm s);
  f_rx : Sm.last_rx_eapol_key (sm s') = Sm.last_rx_eapol_key (sm s);
  f_rx_len : Sm.last_rx_eapol_key_len (sm s') = Sm.last_rx_eapol_key_len (sm s);
  f_in_step : Sm.in_step_loop (sm s') = Sm.in_step_loop (sm s);
  f_pending : Sm.pending_deinit (sm s') = Sm.pending_deinit (sm s);
  f_started : Sm.started (sm s') = Sm.started (sm s);
  f_mfp : Sm.mgmt_frame_prot (sm s') = Sm.mgmt_frame_prot (sm s);
  f_wpa_ie : Sm.wpa_ie (sm s') = Sm.wpa_ie (sm s);
  f_wpa_ie_len : Sm.wpa_ie_len (sm s') = Sm.wpa_ie_len (sm s);
  f_wpa : Sm.wpa (sm s') = Sm.wpa (sm s);
  f_cipher : Sm.pairwise (sm s') = Sm.pairwise (sm s);
  f_akm : Sm.wpa_key_mgmt (sm s') = Sm.wpa_key_mgmt (sm s);
  f_pmksa : Sm.pmksa (sm s') = Sm.pmksa (sm s);
  f_auth : same_auth (au s) (au s');
  f_gnext : Group.next (gr s') = Group.next (gr s);
  f_gvlan : Group.vlan_id (gr s') = Group.vlan_id (gr s);
  f_ginit : Group.GInit (gr s') = Group.GInit (gr s);
  f_grekey : Group.GTKReKey (gr s') = Group.GTKReKey (gr s);
  f_gauth : Group.GTKAuthenticator (gr s') = Group.GTKAuthenticator (gr s);
  f_gstate : Group.wpa_group_state (gr s') = Group.wpa_group_state (gr s);
  f_gchanged : Group.changed (gr s') = Group.changed (gr s);
  f_done : Group.GKeyDoneStations (gr s') - Z.b2z (Sm.GUpdateStationKeys (sm s')) =
    Group.GKeyDoneStations (gr s) - Z.b2z (Sm.GUpdateStationKeys (sm s));
  f_log : log_ext P (lg s) (lg s');
}.

Lemma frame_refl P s : frame P s s.
Proof. split; try done. apply log_ext_refl. Qed.
Lemma frame_trans P s1 s2 s3 : frame P s1 s2 -> frame P s2 s3 -> frame P s1 s3.
Proof.
  intros [] []. split; try congruence; [by eapply same_auth_trans|by eapply log_ext_trans].
Qed.
Lemma frame_lets m s s' : frame plain s s' -> frame (lets_in m) s s'.
Proof. intros []. split; try done. eapply log_ext_weaken; [|done]. by left. Qed.

Lemma frame_same_group P s g l : same_group (gr s) g -> log_ext P (lg s) l ->
  frame P s (s <| gr := g |> <| lg := l |>).
Proof. intros [] Hl. split; try done. cbn. by rewrite sg_done. Qed.

Lemma quiet_plain c : quiet c -> plain c.
Proof. by destruct c. Qed.
Lemma quiet_group_plain c : quiet_group c -> plain c.
Proof. intros [H|(v & alg & i & k & ->)]; [by apply quiet_plain|by right]. Qed.
Lemma sending_plain a c : sending a c -> plain c.
Proof. intros [H|[->|[(d & b & ->)|(t & u & ->)]]]; [by apply quiet_plain|done..]. Qed.

(** A step as it should be: [f] is what it does to the control part. *)
Record good_ (P : call -> Prop) (f : ctl -> ctl) (s s' : st) : Prop := {
  gd_wf : wf_st s';
  gd_frame : frame P s s';
  gd_ctl : ctl_of (sm s') = f (ctl_of (sm s));
}.

Abbreviation good := (good_ plain).

Lemma good_lets m f s s' : good f s s' -> good_ (lets_in m) f s s'.
Proof. intros [? ? ?]. split; [done|by eapply frame_lets|done]. Qed.

Lemma good_trans P f g s1 s2 s3 : good_ P f s1 s2 -> good_ P g s2 s3 ->
  good_ P (fun c => g (f c)) s1 s3.
Proof. intros [_ F1 E1] [W F2 E2]. split; [done|by eapply frame_trans|by rewrite E2, E1]. Qed.

(** Goals about an assignment to the station that is none of the invariant's. *)
Ltac solve_wf Hm := eapply wf_sm_update; [exact Hm|try done..]; try apply Hm.
Ltac solve_frame := split; try done; try apply log_ext_refl; try (by apply log_ext_cons);
  try (by eexists [_; _]; split; [done|repeat constructor; by left]).

(** Assignments with an effect on the control part only. *)
Ltac solve_good Hm Hg Ha := split; [split; [solve_wf Hm|done|done]|solve_frame|done].

(** The value of a flag of the control part, known from the station. *)
Tactic Notation "know" constr(f) "by" constr(H) :=
  cbv beta;
  match type of H with _ = ?b => replace (f (ctl_of _)) with b by (symmetry; exact H) end.

Section ref.
Context {cr : Crypto} {c_laws : CryptoLaws cr} {o : Owner} {o_laws : OwnerLaws o}.

Lemma sent_good s s' : wf_st s -> sent s s' -> good id s s'.
Proof.
  intros [Hm Hg Ha] (k & c & l & -> & Hk & Hc & Hl). split; [|split; try done|done].
  - split; [|by apply wf_gr_counter|done]. destruct Hm. by split.
  - eapply log_ext_weaken; [|exact Hl]. apply sending_plain.
Qed.

(** The log and the counters of the authenticator. *)
Lemma wf_log s l : wf_st s -> wf_st (s <| lg := l |>).
Proof. intros [H1 H2 H3]. by split. Qed.

Lemma zeros_PTK a m : wf_sm a m ->
  zlen (replicate (Z.to_nat sizeof_wpa_ptk) 0) = zlen (Sm.PTK m).
Proof. intros Hm. by rewrite (m_PTK _ _ Hm). Qed.

Lemma remove_ptk_good s : wf_st s ->
  good (fun c => c <| ptk_ok := false |>) s (wpa_remove_ptk s).
Proof.
  intros [Hm Hg Ha]. split; [split; [|done|done]|solve_frame|done].
  solve_wf Hm. by eapply zeros_PTK.
Qed.

Lemma cancel_group_update_good s : wf_st s ->
  good (fun c => c <| gupd := false |>) s (cancel_group_update s).
Proof.
  intros [Hm Hg Ha]. unfold cancel_group_update.
  destruct (Sm.GUpdateStationKeys (sm s)) eqn:Hu.
  - split; [split; [solve_wf Hm|by destruct Hg|done]|solve_frame|done].
    cbn. rewrite Hu. cbn. lia.
  - split; [split; [solve_wf Hm|done|done]|solve_frame|done]. cbn. by rewrite Hu.
Qed.

Lemma good_eq P f g s s' : good_ P f s s' -> (forall c, f c = g c) -> good_ P g s s'.
Proof. intros [H1 H2 H3] E. split; [done|done|by rewrite H3]. Qed.

Lemma good_id P s : wf_st s -> good_ P id s s.
Proof. intros. split; [done|apply frame_refl|done]. Qed.

(** A call to the owner, without an effect on the machine. *)
Lemma emit_good_ (P : call -> Prop) c s : P c -> wf_st s -> good_ P id s (emit c s).
Proof. intros Hc [Hm Hg Ha]. split; [by split|solve_frame|done]. Qed.
Lemma emit_good c s : wf_st s -> plain c -> good id s (emit c s).
Proof. intros. by apply emit_good_. Qed.

Lemma entry_good st s : wf_st s -> good (enter st) s (SM_ENTRY_PTK st s).
Proof. intros [Hm Hg Ha]. solve_good Hm Hg Ha. Qed.
Lemma gentry_good st s : wf_st s -> good (genter st) s (SM_ENTRY_PTK_GROUP st s).
Proof. intros [Hm Hg Ha]. solve_good Hm Hg Ha. Qed.

Lemma init_unchanged_good s : wf_st s ->
  good (fun c => c <| changed := if init c then false else changed c |>) s
    (if Sm.Init (sm s) then s <| sm; Sm.changed := false |> else s).
Proof.
  intros [Hm Hg Ha]. destruct (Sm.Init (sm s)) eqn:Hi.
  - split; [split; [solve_wf Hm|done|done]|solve_frame|]. by know init by Hi.
  - split; [by split|apply frame_refl|]. by know init by Hi.
Qed.

Lemma is_wpa_true m : Sm.wpa m = WPA_VERSION_WPA -> is_wpa (ctl_of m) = true.
Proof. intros. by apply bool_decide_eq_true. Qed.
Lemma is_wpa_false m : Sm.wpa m <> WPA_VERSION_WPA -> is_wpa (ctl_of m) = false.
Proof. intros. by apply bool_decide_eq_false. Qed.

Lemma no_pinit_good s : wf_st s ->
  good (fun c => c <| pinit := if is_wpa c then false else pinit c |>) s
    (if decide (Sm.wpa (sm s) = WPA_VERSION_WPA) then s <| sm; Sm.PInitAKeys := false |> else s).
Proof.
  intros [Hm Hg Ha]. destruct (decide _) as [Hw|Hw].
  - apply is_wpa_true in Hw. split; [split; [solve_wf Hm|done|done]|solve_frame|]. by rewrite Hw.
  - apply is_wpa_false in Hw. split; [by split|apply frame_refl|]. by rewrite Hw.
Qed.

Lemma set_Disconnect_good b s : wf_st s ->
  good (fun c => c <| disc := b |>) s (s <| sm; Sm.Disconnect := b |>).
Proof. intros [Hm Hg Ha]. solve_good Hm Hg Ha. Qed.
Lemma set_DeauthenticationRequest_good b s : wf_st s ->
  good (fun c => c <| deauth := b |>) s (s <| sm; Sm.DeauthenticationRequest := b |>).
Proof. intros [Hm Hg Ha]. solve_good Hm Hg Ha. Qed.
Lemma set_AuthenticationRequest_good b s : wf_st s ->
  good (fun c => c <| auth := b |>) s (s <| sm; Sm.AuthenticationRequest := b |>).
Proof. intros [Hm Hg Ha]. solve_good Hm Hg Ha. Qed.
Lemma set_ReAuthenticationRequest_good b s : wf_st s ->
  good (fun c => c <| reauth := b |>) s (s <| sm; Sm.ReAuthenticationRequest := b |>).
Proof. intros [Hm Hg Ha]. solve_good Hm Hg Ha. Qed.
Lemma set_PTKRequest_good b s : wf_st s ->
  good (fun c => c <| ptkreq := b |>) s (s <| sm; Sm.PTKRequest := b |>).
Proof. intros [Hm Hg Ha]. solve_good Hm Hg Ha. Qed.
Lemma set_TimeoutEvt_good b s : wf_st s ->
  good (fun c => c <| tevt := b |>) s (s <| sm; Sm.TimeoutEvt := b |>).
Proof. intros [Hm Hg Ha]. solve_good Hm Hg Ha. Qed.
Lemma set_Pair_good b s : wf_st s ->
  good (fun c => c <| pair := b |>) s (s <| sm; Sm.Pair := b |>).
Proof. intros [Hm Hg Ha]. solve_good Hm Hg Ha. Qed.
Lemma set_PInitAKeys_good b s : wf_st s ->
  good (fun c => c <| pinit := b |>) s (s <| sm; Sm.PInitAKeys := b |>).
Proof. intros [Hm Hg Ha]. solve_good Hm Hg Ha. Qed.
Lemma set_PtkGroupInit_good b s : wf_st s ->
  good (fun c => c <| ginit := b |>) s (s <| sm; Sm.PtkGroupInit := b |>).
Proof. intros [Hm Hg Ha]. solve_good Hm Hg Ha. Qed.
Lemma set_TimeoutCtr_good n s : wf_st s -> 0 <= n ->
  good (fun c => c <| ctr := n |>) s (s <| sm; Sm.TimeoutCtr := n |>).
Proof. intros [Hm Hg Ha] Hn. solve_good Hm Hg Ha. Qed.
Lemma set_GTimeoutCtr_good n s : wf_st s -> 0 <= n ->
  good (fun c => c <| gctr := n |>) s (s <| sm; Sm.GTimeoutCtr := n |>).
Proof. intros [Hm Hg Ha] Hn. solve_good Hm Hg Ha. Qed.
Lemma inc_TimeoutCtr_good s : wf_st s ->
  good (fun c => c <| ctr := ctr c + 1 |>) s (s <| sm; Sm.TimeoutCtr := Sm.TimeoutCtr (sm s) + 1 |>).
Proof. intros [Hm Hg Ha]. pose proof (m_ctr _ _ Hm). solve_good Hm Hg Ha. cbn. lia. Qed.
Lemma inc_GTimeoutCtr_good s : wf_st s ->
  good (fun c => c <| gctr := gctr c + 1 |>) s
    (s <| sm; Sm.GTimeoutCtr := Sm.GTimeoutCtr (sm s) + 1 |>).
Proof. intros [Hm Hg Ha]. pose proof (m_gctr _ _ Hm). solve_good Hm Hg Ha. cbn. lia. Qed.
Lemma set_keycount_good n s : wf_st s -> good id s (s <| sm; Sm.keycount := n |>).
Proof. intros [Hm Hg Ha]. solve_good Hm Hg Ha. Qed.
Lemma set_has_GTK_good b s : wf_st s -> good id s (s <| sm; Sm.has_GTK := b |>).
Proof. intros [Hm Hg Ha]. solve_good Hm Hg Ha. Qed.
Lemma set_pairwise_set_good b s : wf_st s -> good id s (s <| sm; Sm.pairwise_set := b |>).
Proof. intros [Hm Hg Ha]. solve_good Hm Hg Ha. Qed.
Lemma set_req_used_good b s : wf_st s -> good id s (s <| sm; Sm.req_replay_counter_used := b |>).
Proof. intros [Hm Hg Ha]. solve_good Hm Hg Ha. Qed.
Lemma set_PMK_good k s : wf_st s -> zlen k = PMK_LEN -> good id s (s <| sm; Sm.PMK := k |>).
Proof. intros [Hm Hg Ha] Hk. solve_good Hm Hg Ha. cbn. by rewrite Hk, (m_PMK _ _ Hm). Qed.
Lemma set_ANonce_good k s : wf_st s -> zlen k = WPA_NONCE_LEN ->
  good id s (s <| sm; Sm.ANonce := k |>).
Proof. intros [Hm Hg Ha] Hk. solve_good Hm Hg Ha. cbn. by rewrite Hk, (m_ANonce _ _ Hm). Qed.
Lemma not_received_good s : wf_st s ->
  good (fun c => c <| rcvd := false |>) s (s <| sm; Sm.EAPOLKeyReceived := false |>).
Proof. intros [Hm Hg Ha]. solve_good Hm Hg Ha. Qed.
Lemma zero_PTK_good s : wf_st s ->
  good id s (s <| sm; Sm.PTK := replicate (Z.to_nat sizeof_wpa_ptk) 0 |>).
Proof. intros [Hm Hg Ha]. solve_good Hm Hg Ha. by eapply zeros_PTK. Qed.
Lemma no_PTK_good s : wf_st s ->
  good (fun c => c <| ptk_ok := false |>) s (s <| sm; Sm.PTK_valid := false |>).
Proof. intros [Hm Hg Ha]. solve_good Hm Hg Ha. Qed.
Lemma failure_good s : wf_st s -> good id s (count_handshake_failure s).
Proof.
  intros [Hm Hg Ha]. split; [split; [|done|]|solve_frame|done].
  - by eapply wf_sm_same; [|exact Hm].
  - by eapply wf_au_same; [|exact Ha].
Qed.
Lemma if_emit_good_ (P : call -> Prop) (b : bool) c s : P c -> wf_st s ->
  good_ P id s (if b then emit c s else s).
Proof. intros. destruct b; [by apply emit_good_|by apply good_id]. Qed.
Lemma if_emit_good (b : bool) c s : wf_st s -> plain c -> good id s (if b then emit c s else s).
Proof. intros. by apply if_emit_good_. Qed.

(** The statements of an entry, one after the other. *)
Lemma good_let P f F s0 e (k : st -> st) : good_ P f s0 e ->
  (forall s1, good_ P f s0 s1 -> good_ P F s0 (k s1)) -> good_ P F s0 (k e).
Proof. intros H Hk. by apply Hk. Qed.
Lemma runs_let P f s0 e (k : st -> res st) Q : good_ P f s0 e ->
  (forall s1, good_ P f s0 s1 -> runs (k s1) Q) -> runs (k e) Q.
Proof. intros H Hk. by apply Hk. Qed.

Lemma good_runs P f g s0 s1 (m : res st) : good_ P f s0 s1 -> runs m (good_ P g s1) ->
  runs m (good_ P (fun c => g (f c)) s0).
Proof. intros H Hm. eapply runs_weaken; [exact Hm|]. intros s2 H2. by eapply good_trans. Qed.

End ref.

(** A let-bound statement [e] that continues the good state [H]. *)
Tactic Notation "gopen" reference(F) := lazy beta delta [F].
Ltac glet_ H L tac :=
  lazymatch goal with
  | |- good_ _ _ _ (let x := ?e in @?k x) =>
      eapply (good_let _ _ _ _ e k); [eapply good_trans; [exact H|first [apply L | eapply good_lets, L]; solve [apply H | done | by left]]|]
  | |- runs (let x := ?e in @?k x) _ =>
      eapply (runs_let _ _ _ e k); [eapply good_trans; [exact H|first [apply L | eapply good_lets, L]; solve [apply H | done | by left]]|]
  end; tac ().
Tactic Notation "glet" constr(H) "by" constr(L) "as" ident(s1) ident(H1) :=
  glet_ H L ltac:(fun _ => intros s1 H1; lazy beta; cbv beta in H1).

(** A statement that may fail, and continues the good state [H]. *)
Ltac grun_ H L tac :=
  eapply runs_bind; [eapply good_runs; [exact H|apply L; solve [apply H|done]]|]; tac ().
Tactic Notation "grun" constr(H) "by" constr(L) "as" ident(s1) ident(H1) :=
  grun_ H L ltac:(fun _ => intros s1 H1; lazy beta; cbv beta in H1).

Section entries.
Context {cr : Crypto} {c_laws : CryptoLaws cr} {o : Owner} {o_laws : OwnerLaws o}.

Lemma initialize_good s : wf_st s -> good a_initialize s (sm_WPA_PTK_INITIALIZE_Enter s).
Proof.
  intros Hs. gopen sm_WPA_PTK_INITIALIZE_Enter.
  pose proof (good_id plain s Hs) as H.
  glet H by entry_good as s1 H1. glet H1 by init_unchanged_good as s2 H2.
  glet H2 by set_keycount_good as s3 H3. glet H3 by cancel_group_update_good as s4 H4.
  glet H4 by no_pinit_good as s5 H5. glet H5 by set_Pair_good as s6 H6.
  glet H6 by emit_good as s7 H7. glet H7 by remove_ptk_good as s8 H8.
  glet H8 by emit_good as s9 H9. glet H9 by set_TimeoutCtr_good as s10 H10.
  eapply good_eq; [eapply good_trans; [exact H10|apply if_emit_good; [apply H10|done]]|].
  intros c. unfold a_initialize, enter. cbn. by destruct (init c).
Qed.

Lemma disconnect_good s : wf_st s -> good a_disconnect s (sm_WPA_PTK_DISCONNECT_Enter s).
Proof.
  intros Hs. gopen sm_WPA_PTK_DISCONNECT_Enter. pose proof (good_id plain s Hs) as H.
  glet H by entry_good as s1 H1. glet H1 by set_Disconnect_good as s2 H2.
  eapply good_eq; [eapply good_trans; [exact H2|apply emit_good; [apply H2|done]]|done].
Qed.

Lemma disconnected_good s : wf_st s -> good a_disconnected s (sm_WPA_PTK_DISCONNECTED_Enter s).
Proof.
  intros Hs. gopen sm_WPA_PTK_DISCONNECTED_Enter. pose proof (good_id plain s Hs) as H.
  glet H by entry_good as s1 H1.
  eapply good_eq; [eapply good_trans; [exact H1|apply set_DeauthenticationRequest_good, H1]|done].
Qed.

Lemma authentication_good s : wf_st s -> good a_authentication s (sm_WPA_PTK_AUTHENTICATION_Enter s).
Proof.
  intros Hs. gopen sm_WPA_PTK_AUTHENTICATION_Enter.
  pose proof (good_id plain s Hs) as H.
  glet H by entry_good as s1 H1. glet H1 by zero_PTK_good as s2 H2. glet H2 by no_PTK_good as s3 H3.
  glet H3 by emit_good as s4 H4. glet H4 by emit_good as s5 H5.
  eapply good_eq; [eapply good_trans; [exact H5|apply set_AuthenticationRequest_good, H5]|done].
Qed.

(** *** Statements that may fail *)

(** The last statement [e] of a block, after the good state [H]. *)
Lemma runs_good_ret P f F s0 s1 : good_ P f s0 s1 -> (forall c, f c = F c) ->
  runs (mret s1) (good_ P F s0).
Proof. intros H E. apply runs_ret. by eapply good_eq. Qed.

Lemma group_good s g l : wf_st s -> wf_gr g -> same_group (gr s) g -> log_ext plain (lg s) l ->
  good id s (s <| gr := g |> <| lg := l |>).
Proof.
  intros [Hm Hg Ha] Hg' Hsg Hl. split; [by split|by apply frame_same_group|done].
Qed.

Lemma set_Counter_good c s : wf_st s -> zlen c = WPA_NONCE_LEN ->
  good id s (s <| gr; Group.Counter := c |>).
Proof.
  intros [Hm Hg Ha] Hc. split; [split; [done|by apply wf_gr_counter|done]|solve_frame|done].
Qed.

Lemma first_sta_good s : wf_st s ->
  runs (if negb (Group.first_sta_seen (gr s)) then
          '(g, l) ← wpa_group_first_station (au s) (gr s) (lg s);
          let s := s <| gr := g |> <| lg := l |> in
          mret (s <| gr; Group.first_sta_seen := true |>)
        else mret s) (good id s).
Proof.
  intros Hs. destruct (negb _); [|by apply runs_ret, good_id].
  destruct (first_station_runs (au s) (gr s) (lg s)) as (g & l & -> & Hg & Hsg & Hl); [apply Hs|].
  cbn [mbind res_bind]. apply runs_ret.
  destruct (group_good s (g <| Group.first_sta_seen := true |>) l) as [H1 H2 H3];
    [done|by destruct Hg; split|by destruct Hsg; split|by eapply log_ext_weaken; [apply quiet_group_plain|]|].
  split; [exact H1|exact H2|exact H3].
Qed.

Lemma authentication2_good s : wf_st s ->
  runs (sm_WPA_PTK_AUTHENTICATION2_Enter s) (good a_authentication2 s).
Proof.
  intros Hs. gopen sm_WPA_PTK_AUTHENTICATION2_Enter. pose proof (good_id plain s Hs) as H.
  glet H by entry_good as s1 H1. grun H1 by first_sta_good as s2 H2.
  assert (wf_gr (gr s2)) as Hg2 by apply H2.
  pose proof (good_trans _ _ _ _ _ _ H2 (set_ANonce_good (Group.Counter (gr s2)) s2
    (gd_wf _ _ _ _ H2) (g_counter _ Hg2))) as H3. cbv beta in H3. cbv zeta.
  set (s3 := s2 <| sm; Sm.ANonce := _ |>) in *.
  destruct (inc_counter_runs (Group.Counter (gr s3)) (g_counter _ Hg2)) as (c & Heq & Hc).
  rewrite (bind_eq _ _ _ Heq).
  pose proof (good_trans _ _ _ _ _ _ H3 (set_Counter_good c s3 (gd_wf _ _ _ _ H3) Hc)) as H4.
  pose proof (good_trans _ _ _ _ _ _ H4 (set_ReAuthenticationRequest_good false _ (gd_wf _ _ _ _ H4)))
    as H5.
  eapply runs_good_ret; [eapply good_trans; [exact H5|apply set_TimeoutCtr_good; [apply H5|done]]|].
  done.
Qed.

Lemma my_pmksa_runs s : wf_st s ->
  runs (my_pmksa s) (fun en => forall e, en = Some e -> wf_entry e).
Proof.
  intros [Hm _ _]. unfold my_pmksa. destruct (Sm.pmksa (sm s)) as [p|] eqn:Hp; [|by apply runs_ret].
  destruct (m_pmksa _ _ Hm p Hp) as (en & Hen & Hw). unfold deref. rewrite Hen.
  cbn [mbind res_bind]. apply runs_ret. by intros ? [= <-].
Qed.

(** [os_memcpy(sm->PMK, k, PMK_LEN)] *)
Lemma copy_PMK_good k s : wf_st s -> PMK_LEN <= zlen k ->
  runs (k ← rd_n k 0 PMK_LEN; mret (s <| sm; Sm.PMK := k |>)) (good id s).
Proof.
  intros Hs Hk. rstep (apply rd_n_runs; [done|done|lia]) as k' Hk'. apply runs_ret.
  by apply set_PMK_good.
Qed.

Lemma initpmk_good s : wf_st s -> runs (sm_WPA_PTK_INITPMK_Enter s) (good (enter WPA_PTK_INITPMK) s).
Proof.
  intros Hs. gopen sm_WPA_PTK_INITPMK_Enter. pose proof (good_id plain s Hs) as H.
  glet H by entry_good as s1 H1. assert (wf_st s1) as Hs1 by apply H1.
  rstep (by apply my_pmksa_runs) as en Hen.
  eapply (runs_bind _ _ (good (enter WPA_PTK_INITPMK) s)).
  - eapply (good_runs _ _ id _ _ _ H1). destruct en as [en|].
    + apply copy_PMK_good; [done|]. by rewrite (wfe_pmk en (Hen en eq_refl)).
    + unfold wpa_auth_get_msk. cbv beta iota zeta. destruct (get_msk _) as [msk|] eqn:Hmsk.
      * eapply (good_runs _ id id); [by apply (emit_good (CGetMsk (my_addr s1)))|].
        apply copy_PMK_good; [by apply emit_good|]. by rewrite (get_msk_len _ _ Hmsk).
      * by apply runs_ret, emit_good.
  - intros s2 H2. glet H2 by set_req_used_good as s3 H3.
    eapply runs_good_ret; [eapply good_trans; [exact H3|apply emit_good; [apply H3|done]]|done].
Qed.

Lemma initpsk_good s : wf_st s -> runs (sm_WPA_PTK_INITPSK_Enter s) (good (enter WPA_PTK_INITPSK) s).
Proof.
  intros Hs. gopen sm_WPA_PTK_INITPSK_Enter. pose proof (good_id plain s Hs) as H.
  glet H by entry_good as s1 H1. assert (wf_st s1) as Hs1 by apply H1.
  unfold wpa_auth_get_psk. cbv beta iota zeta. destruct (get_psk _) as [[p k]|] eqn:Hk.
  - pose proof (good_trans _ _ _ _ _ _ H1 (emit_good (CGetPsk (my_addr s1) None) s1 Hs1 I)) as H2.
    eapply runs_bind; [eapply (good_runs _ _ id _ _ _ H2), copy_PMK_good; [apply H2|]|].
    + by rewrite (proj1 (get_psk_next _ _ _ _ _ Hk)).
    + intros s3 H3. eapply runs_good_ret; [eapply good_trans; [exact H3|apply set_req_used_good, H3]|].
      done.
  - pose proof (good_trans _ _ _ _ _ _ H1 (emit_good (CGetPsk (my_addr s1) None) s1 Hs1 I)) as H2.
    cbn [mbind res_bind mret res_ret].
    eapply runs_good_ret; [eapply good_trans; [exact H2|apply set_req_used_good, H2]|done].
Qed.

Lemma msg1_pmkid_runs s : wf_st s -> runs (msg1_pmkid s) (fun _ => True).
Proof.
  intros Hs. unfold msg1_pmkid. destruct (decide _); [|by apply runs_ret].
  destruct (wpa_key_mgmt_wpa_ieee8021x _); [|by apply runs_ret].
  rstep (by apply my_pmksa_runs) as en Hen. destruct en as [en|]; [|by apply runs_ret].
  pose proof (wfe_pmkid en (Hen en eq_refl)).
  rstep (apply rd_n_runs; [done|done|unfold PMKID_LEN; lia]) as k Hk. by apply runs_ret.
Qed.

Lemma send_good s key_info key_rsc nonce kde keyidx encr : wf_st s ->
  opt_len WPA_KEY_RSC_LEN key_rsc -> opt_len WPA_NONCE_LEN nonce ->
  runs (wpa_send_eapol s key_info key_rsc nonce kde keyidx encr) (good id s).
Proof.
  intros Hs Hr Hn. eapply runs_weaken; [apply send_eapol_runs; try done; apply Hs|].
  intros s' H. by apply sent_good.
Qed.

Lemma opt_len_ANonce s : wf_st s -> opt_len WPA_NONCE_LEN (Some (Sm.ANonce (sm s))).
Proof. intros [Hm _ _] d [= <-]. apply Hm. Qed.

Lemma ptkstart_good s : wf_st s -> runs (sm_WPA_PTK_PTKSTART_Enter s) (good a_ptkstart s).
Proof.
  intros Hs. gopen sm_WPA_PTK_PTKSTART_Enter. pose proof (good_id plain s Hs) as H.
  glet H by entry_good as s1 H1. glet H1 by set_PTKRequest_good as s2 H2.
  glet H2 by set_TimeoutEvt_good as s3 H3. glet H3 by inc_TimeoutCtr_good as s4 H4.
  destruct (_ <? _); [by eapply runs_good_ret|]. assert (wf_st s4) as Hs4 by apply H4.
  rstep (by apply msg1_pmkid_runs) as k Hk. eapply runs_weaken.
  - eapply (good_runs _ _ id _ _ _ H4), send_good; [done|done|by apply opt_len_ANonce].
  - intros s5 H5. by eapply good_eq.
Qed.

Lemma verify_mic_runs PTK data : runs (wpa_verify_key_mic PTK data (zlen data)) (fun r => r = 0 \/ r = -1).
Proof.
  unfold wpa_verify_key_mic. destruct (zlen data <? _) eqn:Hl; [apply runs_ret; by right|].
  apply Z.ltb_ge in Hl. unfold sizeof_ieee802_1x_hdr, sizeof_wpa_eapol_key in Hl.
  unfold WPA_GET_BE16. unfold o_key_info, o_key_mic.
  rewrite !rd_ok by lia. cbn [mbind res_bind]. cbn [mret res_ret mbind res_bind].
  rstep (apply rd_n_runs; lia) as mic Hmic.
  rstep (apply wr_n_ok_runs; [done|change (zlen (replicate 16 0)) with 16; lia]) as d Hd.
  rstep (apply rd_n_runs; lia) as d' Hd'. apply runs_ret.
  repeat case_match; by auto.
Qed.

Lemma verify_last_rx_runs s PTK : wf_st s -> Sm.last_rx_eapol_key (sm s) <> None ->
  runs (verify_last_rx s PTK) (fun r => r = 0 \/ r = -1).
Proof.
  intros [Hm _ _] Hd. unfold verify_last_rx. destruct (Sm.last_rx_eapol_key (sm s)) as [d|] eqn:E; [|done].
  rewrite (m_rx _ _ Hm d E). apply verify_mic_runs.
Qed.

Lemma derive_ptk_len s pmk ptk : zlen ptk = sizeof_wpa_ptk ->
  zlen (wpa_derive_ptk s pmk ptk) = sizeof_wpa_ptk.
Proof.
  unfold wpa_derive_ptk. intros Hp. destruct (wpa_pmk_to_ptk _ _ _ _ _ _ _ _) as [k|] eqn:Hk.
  - apply pmk_to_ptk_len in Hk; [|by case_match]. rewrite zlen_copy_front; [done|].
    rewrite Hp, Hk. unfold sizeof_wpa_ptk. case_match; lia.
  - by apply junk_len.
Qed.
End entries.
