(* ===== verification/WpaAuthRun.v ===== *)
(** * The steps of a station refine the abstract machine

    The entries that look for a key, build messages 3/4 and 1/2 of the group
    handshake, and the two theorems on [SM_STEP]: a step of WPA_PTK or
    WPA_PTK_GROUP returns, keeps the type invariant, and is a step of the
    abstract machine of WpaAuthCtl.v. *)

From stdpp Require Import gmap.
From S2P Require Import Prelude CommonUtils EapI WpaCommon Pmksa PmksaProps WpaAuthI.
From S2P Require Import WpaAuthIe WpaIeProps WpaAuthSm WpaAuthWf WpaAuthCtl WpaAuthRef.

Section run.
Context {cr : Crypto} {c_laws : CryptoLaws cr} {o : Owner} {o_laws : OwnerLaws o}.

(** ** The search for the key of message 2/4 *)

(** The keys the owner still has to offer. *)
Definition keys_left (prev : option nat) : nat :=
  match prev with Some p => psk_count - p | None => S psk_count end.

(** Where the PMK of a handshake comes from: the owner's pre-shared keys, or what
    INITPMK stored. *)
Definition offered (s : st) (pmk : list Z) : Prop :=
  if wpa_key_mgmt_wpa_psk (Sm.wpa_key_mgmt (sm s))
  then exists l prev p, get_psk (CGetPsk (my_addr s) prev :: l) = Some (p, pmk)
  else pmk = Sm.PMK (sm s).

(** A key that was found explains the MIC of the frame received, and is derived
    from the PMK returned and the nonces of the handshake. *)
Definition explains (s : st) (pmk PTK : list Z) : Prop :=
  zlen pmk = PMK_LEN /\ zlen PTK = sizeof_wpa_ptk /\ verify_last_rx s PTK = Ok 0 /\ offered s pmk /\
  exists s0 old, zlen old = sizeof_wpa_ptk /\ sm s0 = sm s /\ au s0 = au s /\
    PTK = wpa_derive_ptk s0 pmk old.

Lemma find_ptk_runs fuel prev s PTK : wf_st s -> Sm.last_rx_eapol_key (sm s) <> None ->
  zlen PTK = sizeof_wpa_ptk -> (keys_left prev < fuel)%nat ->
  runs (find_ptk fuel prev s PTK) (fun '(found, s') =>
    (exists d, s' = s <| lg := d ++ lg s |> /\ Forall quiet d) /\
    forall pmk PTK, found = Some (pmk, PTK) -> explains s pmk PTK).
Proof.
  revert prev s PTK. induction fuel as [|fuel IH]; intros prev s PTK Hs Hrx HPTK Hf; [lia|].
  cbn [find_ptk]. destruct (wpa_key_mgmt_wpa_psk _) eqn:Hpsk.
  - unfold wpa_auth_get_psk. cbv beta iota zeta. set (s1 := emit _ s).
    assert (wf_st s1) as Hs1 by by apply emit_good.
    destruct (get_psk (lg s1)) as [[p pmk]|] eqn:Hk.
    2: { apply runs_ret. split; [|done].
         exists [CGetPsk (my_addr s) prev]. split; [done|by repeat constructor]. }
    destruct (get_psk_next _ _ _ _ _ Hk) as (Hlen & Hp & Hnext).
    set (PTK1 := wpa_derive_ptk s1 pmk PTK).
    assert (zlen PTK1 = sizeof_wpa_ptk) as HPTK1 by by apply derive_ptk_len.
    destruct (verify_last_rx_runs s1 PTK1 Hs1 Hrx) as (r & Hr & _). rewrite (bind_eq _ _ _ Hr).
    destruct (Z.eqb_spec r 0) as [->|_].
    + apply runs_ret. split; [exists [CGetPsk (my_addr s) prev]; split; [done|by repeat constructor]|]. intros ? ? [= <- <-].
      split; [done|]. split; [done|]. split; [done|]. split; [|by exists s1, PTK].
      unfold offered. rewrite Hpsk. by exists (lg s), prev, p.
    + eapply runs_weaken; [apply (IH (Some p)); [done|done|done|]|].
      * destruct prev as [q|]; cbn [keys_left] in *; lia.
      * intros [found s2] [(d & -> & Hd) Hfound]. split; [|intros k1 k2 E; apply (Hfound k1 k2 E)].
        exists (d ++ [CGetPsk (my_addr s) prev]). split; [by rewrite <- app_assoc|].
        apply Forall_app. split; [done|by repeat constructor].
  - set (PTK1 := wpa_derive_ptk s (Sm.PMK (sm s)) PTK).
    assert (zlen PTK1 = sizeof_wpa_ptk) as HPTK1 by by apply derive_ptk_len.
    destruct (verify_last_rx_runs s PTK1 Hs Hrx) as (r & Hr & _). rewrite (bind_eq _ _ _ Hr).
    apply runs_ret. split; [exists []; split; [done|constructor]|]. destruct (Z.eqb_spec r 0) as [->|_]; [|done].
    intros ? ? [= <- <-]. split; [apply Hs|]. split; [done|]. split; [done|].
    split; [|by exists s, PTK]. unfold offered. by rewrite Hpsk.
Qed.

(** What the machines ask does not change them. *)
Lemma log_good s d : wf_st s -> Forall quiet d -> good id s (s <| lg := d ++ lg s |>).
Proof.
  intros [Hm Hg Ha] Hd. split; [by split|split; try done|done]. exists d. split; [done|].
  eapply Forall_impl; [exact Hd|apply quiet_plain].
Qed.

(** An outcome of a step: some step of the abstract machine. *)
Definition steps (P : call -> Prop) (f : inputs -> ctl -> ctl) (s s' : st) : Prop :=
  exists i, good_ P (f i) s s'.

Lemma set_valid_good PTK s : wf_st s -> zlen PTK = sizeof_wpa_ptk ->
  good (fun c => c <| mic := true |> <| ptk_ok := true |>) s
    (s <| sm; Sm.MICVerified := true |> <| sm; Sm.PTK := PTK |> <| sm; Sm.PTK_valid := true |>).
Proof.
  intros [Hm Hg Ha] Hk. split; [split; [|done|done]|solve_frame|done].
  eapply wf_sm_update; [exact Hm|try done..]; try apply Hm. cbn. by rewrite Hk, (m_PTK _ _ Hm).
Qed.

Lemma ptkcalc_good s : wf_st s -> Sm.last_rx_eapol_key (sm s) <> None ->
  runs (sm_WPA_PTK_PTKCALCNEGOTIATING_Enter s) (steps plain a_ptkcalc s).
Proof.
  intros Hs Hrx. gopen sm_WPA_PTK_PTKCALCNEGOTIATING_Enter. pose proof (good_id plain s Hs) as H.
  glet H by entry_good as s1 H1. glet H1 by not_received_good as s2 H2.
  assert (wf_st s2) as Hs2 by apply H2.
  rstep (apply find_ptk_runs; [done| |by apply junk_len|cbn; lia]) as [found s3] Hf.
  { rewrite (f_rx _ _ _ (gd_frame _ _ _ _ H2)). done. }
  destruct Hf as [(d & -> & Hd) Hf].
  pose proof (good_trans _ _ _ _ _ _ H2 (log_good s2 d Hs2 Hd)) as H3. cbv beta in H3.
  set (s3 := s2 <| lg := _ |>) in *. destruct found as [[pmk PTK]|].
  2: { apply runs_ret. exists {| key_run := false; key_there := false; key_found := false; key_set := false |}.
       by eapply good_eq. }
  destruct (Hf pmk PTK eq_refl) as (Hpmk & HPTK & _).
  set (s4 := emit _ s3).
  assert (good (fun c => (enter WPA_PTK_PTKCALCNEGOTIATING c) <| rcvd := false |>) s s4) as H4.
  { eapply good_eq; [eapply good_trans; [exact H3|apply emit_good; [apply H3|done]]|done]. }
  eapply (runs_bind _ _ (good (fun c => (enter WPA_PTK_PTKCALCNEGOTIATING c) <| rcvd := false |>) s)).
  - destruct (wpa_key_mgmt_wpa_psk _); [|by apply runs_ret].
    eapply (good_runs _ _ id); [exact H4|]. apply copy_PMK_good; [apply H4|lia].
  - intros s5 H5. cbv beta in H5. apply runs_ret.
    exists {| key_run := false; key_there := false; key_found := true; key_set := false |}.
    eapply good_eq; [eapply good_trans; [exact H5|apply (set_valid_good PTK); [apply H5|done]]|done].
Qed.

Lemma ptkcalc2_good s : wf_st s ->
  good (fun c => (enter WPA_PTK_PTKCALCNEGOTIATING2 c) <| ctr := 0 |>) s
    (sm_WPA_PTK_PTKCALCNEGOTIATING2_Enter s).
Proof.
  intros Hs. gopen sm_WPA_PTK_PTKCALCNEGOTIATING2_Enter. pose proof (good_id plain s Hs) as H.
  glet H by entry_good as s1 H1.
  eapply good_eq; [eapply good_trans; [exact H1|apply set_TimeoutCtr_good; [apply H1|done]]|done].
Qed.

(** ** Message 3/4 *)

Lemma wpa_add_kde_runs buf pos sel data data2 :
  let n := 6 + zlen data + match data2 with Some d => zlen d | None => 0 end in
  0 <= pos -> pos + n <= zlen buf ->
  runs (wpa_add_kde buf pos sel data data2)
    (fun '(buf', pos') => zlen buf' = zlen buf /\ pos' = pos + n).
Proof.
  intros n Hp Hn. subst n. pose proof (zlen_nonneg data). unfold wpa_add_kde.
  assert (0 <= match data2 with Some d => zlen d | None => 0 end)
    by (destruct data2; [apply zlen_nonneg|done]).
  rstep (apply wr_ok_runs; lia) as b1 H1. cbv zeta.
  rstep (apply wr_ok_runs; lia) as b2 H2.
  assert (zlen (RSN_SELECTOR_PUT sel) = 4) as Hsel by done. change RSN_SELECTOR_LEN with 4.
  rstep (apply wr_n_ok_runs; lia) as b3 H3.
  rstep (apply wr_n_ok_runs; lia) as b4 H4.
  destruct data2 as [d2|]; [|apply runs_ret; split; lia].
  rstep (apply wr_n_ok_runs; lia) as b5 H5. apply runs_ret. split; lia.
Qed.

Lemma gtk_kde_add_runs s kde pos : wf_gr (gr s) -> 0 <= pos ->
  pos + 8 + Group.GTK_len (gr s) <= zlen kde ->
  runs (gtk_kde_add s kde pos)
    (fun '(kde', pos') => zlen kde' = zlen kde /\ pos' = pos + 8 + Group.GTK_len (gr s)).
Proof.
  intros Hg Hp Hn. unfold gtk_kde_add. pose proof (g_gtk_len _ Hg). pose proof (g_gn _ Hg).
  rstep (eapply key_prefix_runs; [apply (g_gtk _ Hg)|apply (g_gtk _ Hg)|lia|lia]) as k Hk.
  eapply runs_weaken; [apply wpa_add_kde_runs; [lia|]|]; change (zlen [_; 0]) with 2.
  - lia.
  - cbn beta. intros [b p] [H1 H2]. split; lia.
Qed.

Lemma ieee80211w_kde_add_runs s kde pos : wf_st s -> 0 <= pos ->
  pos + ieee80211w_kde_len (sm s) <= zlen kde ->
  runs (ieee80211w_kde_add s kde pos) (fun '(kde', pos', s') =>
    zlen kde' = zlen kde /\ pos' = pos + ieee80211w_kde_len (sm s) /\ exists d, s' = s <| lg := d ++ lg s |> /\ Forall quiet d).
Proof.
  intros Hs Hp. unfold ieee80211w_kde_add, ieee80211w_kde_len.
  destruct (Sm.mgmt_frame_prot (sm s)); cbn [negb]; intros Hn.
  2: { apply runs_ret. split; [done|]. split; [lia|]. exists []. split; [done|constructor]. }
  cbv zeta.
  assert (exists pn d, (if decide (Group.wpa_group_state (gr s) = WPA_GROUP_SETKEYSDONE) then
     let '(r, d, s) := wpa_auth_get_seqnum (Group.GN_igtk (gr s)) 6 s in
     (if r <? 0 then replicate 6 0 else d, s) else (replicate 6 0, s)) = (pn, s <| lg := d ++ lg s |>) /\
     zlen pn = 6 /\ Forall quiet d) as (pn & d & -> & Hpn & Hd).
  { destruct (decide _); [|by exists (replicate 6 0), []; split_and!; [..|constructor]]. cbv zeta.
    unfold wpa_auth_get_seqnum. cbv zeta. destruct (get_seqnum (lg (emit (CGetSeqnum (Group.GN_igtk (gr s))) s)) 6) as [r x] eqn:E. apply get_seqnum_len in E; [|done].
    eexists _, [CGetSeqnum (Group.GN_igtk (gr s))]. split; [reflexivity|].
    split; [by destruct (r <? 0)|by repeat constructor]. }
  destruct Hs as [Hm Hg Ha]. pose proof (g_gn_igtk _ Hg).
  rstep (eapply key_prefix_runs; [apply (g_igtk _ Hg)|apply (g_igtk _ Hg)|lia|done]) as k Hk.
  assert (zlen ([u8 (Group.GN_igtk (gr s)); 0] ++ pn ++ k) = 24) as Hz.
  { rewrite !zlen_app, Hpn, Hk. done. }
  eapply runs_bind; [apply wpa_add_kde_runs; [lia|]; rewrite Hz; change RSN_SELECTOR_LEN with 4 in Hn; lia|].
  cbn beta. rewrite Hz. intros [b p] [H1 H2]. apply runs_ret. split; [done|].
  split; [change RSN_SELECTOR_LEN with 4; lia|by exists d].
Qed.

Lemma zlen_concat_elements (els : list (Z * list Z)) :
  0 <= zlen (concat (map (fun e => element (fst e) (snd e)) els)).
Proof. apply zlen_nonneg. Qed.

Lemma nth_app_r (a b : list Z) n d : length a = n -> nth n (a ++ b) d = nth 0 b d.
Proof. intros <-. rewrite app_nth2 by lia. by rewrite Nat.sub_diag. Qed.

(** The element for message 3/4 is inside the elements of the authenticator. *)
Lemma msg3_ie_runs s : wf_au (au s) ->
  runs (msg3_ie s) (fun '(off, len) => 0 <= off /\ 0 <= len /\ off + len <= Auth.wpa_ie_len (au s)).
Proof.
  intros [(els & Hie & Hne & Hf) Hlen]. specialize (Hlen _ Hie).
  set (ie := concat _) in *.
  pose proof (zlen_nonneg ie). unfold msg3_ie, auth_ie_octet. rewrite Hie. cbv zeta.
  destruct (_ && _); [|apply runs_ret; lia].
  destruct els as [|e els]; [done|]. apply Forall_cons in Hf as [He Hf]. cbv beta in He.
  pose proof (zlen_nonneg (snd e)) as He0.
  assert (ie = [fst e; zlen (snd e)] ++ snd e ++ concat (map (fun e => element (fst e) (snd e)) els))
    as Eie.
  { subst ie. cbn [map concat]. unfold element at 1. rewrite <- app_assoc. by rewrite u8_id by (unfold is_byte; lia). }
  clearbody ie. set (rest := concat _) in Eie.
  assert (zlen ie = 2 + zlen (snd e) + zlen rest) as Hl1
    by (rewrite Eie, !zlen_app; change (zlen [_; _]) with 2; lia).
  pose proof (zlen_nonneg rest).
  rewrite (rd_ok ie 1) by lia. cbn [mbind res_bind].
  assert (nth (Z.to_nat 1) ie 0 = zlen (snd e)) as -> by (rewrite Eie; done).
  destruct (Z.ltb_spec (zlen (snd e) + 2) (Auth.wpa_ie_len (au s))) as [Hlt|]; [|apply runs_ret; lia].
  rewrite (rd_ok ie 0) by lia. cbn [mbind res_bind]. destruct (_ =? WLAN_EID_RSN); [|apply runs_ret; lia].
  destruct els as [|e2 els]; [change (zlen rest) with 0 in *; lia|].
  apply Forall_cons in Hf as [He2 _]. cbv beta in He2. pose proof (zlen_nonneg (snd e2)).
  assert (rest = [fst e2; zlen (snd e2)] ++ snd e2 ++
    concat (map (fun e => element (fst e) (snd e)) els)) as Erest.
  { subst rest. cbn [map concat]. unfold element at 1. rewrite <- app_assoc. by rewrite u8_id by (unfold is_byte; lia). }
  pose proof (zlen_concat_elements els).
  assert (2 + zlen (snd e2) <= zlen rest) as Hl2
    by (rewrite Erest, !zlen_app; change (zlen [_; _]) with 2; lia).
  rewrite (rd_ok ie (zlen (snd e) + 2 + 1)) by lia. cbn [mbind res_bind].
  assert (nth (Z.to_nat (zlen (snd e) + 2 + 1)) ie 0 = zlen (snd e2)) as ->.
  { replace (Z.to_nat (zlen (snd e) + 2 + 1)) with (2 + length (snd e) + 1)%nat
      by (unfold zlen; lia).
    rewrite Eie, Erest, app_assoc, app_nth2 by (rewrite length_app; cbn; lia).
    replace (_ - _)%nat with 1%nat by (rewrite length_app; cbn [length]; lia). done. }
  apply runs_ret. lia.
Qed.

Lemma ieee80211w_kde_len_nonneg m : 0 <= ieee80211w_kde_len m.
Proof. unfold ieee80211w_kde_len. case_match; [done|lia]. Qed.

Lemma opt_len_if (b : bool) n d : zlen d = n -> opt_len n (if b then Some d else None).
Proof. intros H x E. destruct b; [by injection E as <-|done]. Qed.

Lemma ptkinitnegotiating_good s : wf_st s ->
  runs (sm_WPA_PTK_PTKINITNEGOTIATING_Enter s) (good a_ptkinitnegotiating s).
Proof.
  intros Hs. gopen sm_WPA_PTK_PTKINITNEGOTIATING_Enter. pose proof (good_id plain s Hs) as H.
  glet H by entry_good as s1 H1. glet H1 by set_TimeoutEvt_good as s2 H2.
  glet H2 by inc_TimeoutCtr_good as s3 H3. destruct (_ <? _); [by eapply runs_good_ret|].
  unfold wpa_auth_get_seqnum. cbv zeta.
  pose proof (good_trans _ _ _ _ _ _ H3 (emit_good (CGetSeqnum (Group.GN (gr s3))) s3 (gd_wf _ _ _ _ H3) I))
    as H4. set (s4 := emit _ s3) in *. clearbody s4. clear H H1 H2 H3 s1 s2. cbv beta in H4.
  destruct (get_seqnum (lg s4) WPA_KEY_RSC_LEN) as [r rsc] eqn:Ersc.
  apply get_seqnum_len in Ersc; [|done].
  assert (wf_st s4) as Hs4 by apply H4. pose proof (s_au _ Hs4) as Ha4.
  pose proof (s_gr _ Hs4) as Hg4. pose proof (g_gtk_len _ Hg4).
  rstep (by apply msg3_ie_runs) as [off len] Hie. destruct Hie as (Hoff & Hlen & Hsum).
  set (rsn := bool_decide _). set (kde_len := if rsn then _ else _).
  pose proof (ieee80211w_kde_len_nonneg (sm s4)).
  assert (kde_len = len + ieee80211w_kde_len (sm s4) + if rsn then 8 + Group.GTK_len (gr s4) else 0)
    as Hkl by (subst kde_len; change RSN_SELECTOR_LEN with 4; destruct rsn; lia).
  clearbody kde_len. unfold os_malloc. cbv zeta.
  pose proof (good_trans _ _ _ _ _ _ H4 (emit_good (CMalloc kde_len) s4 Hs4 I)) as H5.
  set (s5 := emit _ s4) in *. assert (wf_st s5) as Hs5 by apply H5.
  clearbody rsn. change (sm s4) with (sm s5) in *. change (gr s4) with (gr s5) in *.
  change (au s4) with (au s5) in *. clearbody s5. clear H4. cbv beta in H5.
  destruct (malloc (lg s5)); cbn [negb]; [|by eapply runs_good_ret].
  assert (0 <= kde_len) as Hk0 by (destruct rsn; lia).
  eapply (runs_bind _ _ (fun d => zlen d = len)).
  { unfold read_auth_ie. destruct (a_ie _ Ha4) as (els & Hels & _). rewrite Hels.
    apply rd_n_runs; [lia..|]. by rewrite <- (a_ie_len _ Ha4 _ Hels). }
  intros ie Eie.
  assert (zlen (junk (lg s5) kde_len) = kde_len) as Hj by by apply junk_len.
  rstep (apply wr_n_ok_runs; destruct rsn; lia) as kde Hkde.
  eapply (runs_bind _ _ (fun '(k, p) => zlen k = kde_len /\
    p = kde_len - ieee80211w_kde_len (sm s5))).
  { destruct rsn; [|apply runs_ret; split; lia].
    eapply runs_weaken; [apply gtk_kde_add_runs; [done|lia|lia]|].
    intros [k p] [? ?]. split; lia. }
  intros [kde2 pos2] [Hkde2 ->].
  rstep (apply ieee80211w_kde_add_runs; [done|destruct rsn; lia|lia]) as [[kde3 pos3] s6] H6.
  destruct H6 as (Hk3 & -> & d & -> & Hd).
  rstep (apply rd_n_runs; destruct rsn; lia) as dat Hdat.
  pose proof (good_trans _ _ _ _ _ _ H5 (log_good s5 d Hs5 Hd)) as H6.
  set (s6 := s5 <| lg := _ |>) in *. assert (wf_st s6) as Hs6 by apply H6.
  eapply runs_weaken.
  - eapply (good_runs _ _ id _ _ _ H6), send_good; [done|by apply opt_len_if|by apply opt_len_ANonce].
  - intros s7 H7. by eapply good_eq.
Qed.

(** The end of PTKINITDONE: the WPA group handshake comes next, or the group
    key is there. *)
Lemma ptkinitdone_end_good s : wf_st s ->
  good (fun c => if is_wpa c then c <| pinit := true |> else c) s
    (if decide (Sm.wpa (sm s) = WPA_VERSION_WPA) then s <| sm; Sm.PInitAKeys := true |>
     else s <| sm; Sm.has_GTK := true |>).
Proof.
  intros Hs. destruct (decide _) as [Hw|Hw].
  - apply is_wpa_true in Hw. destruct (set_PInitAKeys_good true s Hs) as [? ? E].
    split; [done|done|]. rewrite E. by rewrite Hw.
  - apply is_wpa_false in Hw. destruct (set_has_GTK_good true s Hs) as [? ? E].
    split; [done|done|]. rewrite E. by rewrite Hw.
Qed.

Lemma good_at P f g s s' : good_ P f s s' -> f (ctl_of (sm s)) = g (ctl_of (sm s)) -> good_ P g s s'.
Proof. intros [H1 H2 H3] E. split; [done|done|by rewrite H3]. Qed.

Definition no_inputs : inputs :=
  {| key_run := false; key_there := false; key_found := false; key_set := false |}.

(** The pairwise key goes to the driver; the result of the block of PTKINITDONE
    that does it. *)
Lemma install_good s : wf_st s ->
  let m := sm s in
  runs ('(alg, klen) ← mret (pairwise_alg m);
      k ← rd_n (Sm.PTK m) 32 klen;
      let '(r, l) := wpa_auth_set_key 0 alg (my_addr s) 0 k (lg s) in
      let s := s <| lg := l |> in
      if negb (r =? 0) then mret (true, wpa_sta_disconnect s)
      else
        let s := s <| sm; Sm.pairwise_set := true |> in
        let rekey := Conf.wpa_ptk_rekey (Auth.conf (au s)) in
        let s := if negb (rekey =? 0) then
                   let s := emit (CCancel (wpa_rekey_ptk_ (my_addr s))) s in
                   emit (CRegister rekey 0 (wpa_rekey_ptk_ (my_addr s))) s
                 else s in
        let s := if wpa_key_mgmt_wpa_psk (Sm.wpa_key_mgmt (sm s))
                 then wpa_auth_set_eapol WPA_EAPOL_authorized true s else s in
        mret (false, s)) (fun '(_, s') => good_ (lets_in m) id s s').
Proof.
  intros Hs m. cbn [mbind res_bind mret res_ret]. destruct (pairwise_alg m) as [alg klen] eqn:Ealg.
  assert (0 <= klen <= 32) as Hkl
    by (unfold pairwise_alg in Ealg; destruct (_ =? _) in Ealg; simplify_eq; lia).
  assert (rd_n (Sm.PTK m) 32 klen = Ok (tk1 (Sm.PTK m) klen)) as Hrd
    by (apply rd_n_ok; [done|lia|pose proof (m_PTK _ _ (s_sm _ Hs) : zlen (Sm.PTK m) = _) as HP;
      rewrite HP; unfold sizeof_wpa_ptk; lia]).
  rewrite (bind_eq _ _ _ Hrd). unfold wpa_auth_set_key. cbv zeta.
  assert (good_ (lets_in m) id s (emit (CSetKey 0 alg (my_addr s) 0 (tk1 (Sm.PTK m) klen)) s)) as H1.
  { apply emit_good_; [|done]. right. right. right. by rewrite Ealg. }
  change (s <| lg := ?c :: lg s |>) with (emit c s). set (s1 := emit _ s) in *.
  assert (Sm.addr (sm s1) = Sm.addr m) as Haddr by done. clearbody s1.
  assert (wf_st s1) as Hs1 by apply H1. destruct (negb _).
  { apply runs_ret. eapply (good_trans _ id id); [exact H1|]. apply good_lets. by apply emit_good. }
  pose proof (good_trans _ _ _ _ _ _ H1 (good_lets m _ _ _ (set_pairwise_set_good true _ Hs1))) as H2.
  set (s2 := s1 <| sm; Sm.pairwise_set := true |>) in *.
  assert (Sm.addr (sm s2) = Sm.addr m) as Haddr2 by done. clearbody s2.
  assert (wf_st s2) as Hs2 by apply H2. cbn zeta beta.
  set (s3 := if negb _ then _ else s2).
  assert (good_ (lets_in m) id s s3 /\ Sm.addr (sm s3) = Sm.addr m) as [H3 Haddr3].
  { subst s3. destruct (negb _); [|done]. split; [|done]. eapply (good_trans _ id id); [exact H2|].
    apply good_lets. apply (good_trans _ id id _ (emit (CCancel (wpa_rekey_ptk_ (my_addr s2))) s2)).
    - by apply emit_good. - apply emit_good; [|done]. by apply emit_good. }
  clearbody s3. assert (wf_st s3) as Hs3 by apply H3. apply runs_ret. eapply (good_trans _ id id); [exact H3|].
  apply if_emit_good_; [|done]. right. right. left. unfold my_addr. by rewrite Haddr3.
Qed.

Lemma ptkinitdone_good s : wf_st s ->
  runs (sm_WPA_PTK_PTKINITDONE_Enter s) (steps (lets_in (sm s)) a_ptkinitdone s).
Proof.
  intros Hs. set (m := sm s). set (f0 := fun c => (enter WPA_PTK_PTKINITDONE c) <| rcvd := false |>).
  set (s2 := (SM_ENTRY_PTK WPA_PTK_PTKINITDONE s) <| sm; Sm.EAPOLKeyReceived := false |>).
  assert (good_ (lets_in m) f0 s s2) as H2.
  { apply good_lets. eapply good_eq; [eapply good_trans; [by apply entry_good|]|done].
    apply not_received_good. by apply (entry_good WPA_PTK_PTKINITDONE s Hs). }
  assert (wf_st s2) as Hs2 by apply H2.
  lazy beta delta [sm_WPA_PTK_PTKINITDONE_Enter]. cbv zeta. fold s2.
  eapply (runs_bind _ _ (fun '(failed, s3) => good_ (lets_in m) f0 s s3 /\
    (failed = true -> pair (ctl_of (sm s)) = true))).
  { destruct (Sm.Pair (sm s2)) eqn:Hp; [|by apply runs_ret].
    destruct (install_good s2 Hs2) as ([failed s3] & Hrun & H3). exists (failed, s3).
    split; [|split; [eapply (good_trans _ f0 id); [exact H2|exact H3]|done]].
    rewrite <- Hrun. unfold pairwise_alg. change (Sm.pairwise (sm s2)) with (Sm.pairwise m).
    by destruct (Sm.pairwise m =? WPA_CIPHER_TKIP). }
  intros [failed s3] [H3 Hfailed].
  set (i := {| key_run := false; key_there := false; key_found := false; key_set := negb failed |}).
  assert (Sm.addr (sm s3) = Sm.addr m) as Haddr by apply H3.
  destruct failed.
  { apply runs_ret. exists i. eapply good_at; [exact H3|]. unfold a_ptkinitdone.
    cbn [pair enter put]. by rewrite (Hfailed eq_refl). }
  clear Hfailed. clearbody s2. unfold wpa_auth_set_eapol, my_addr. set (s4 := emit _ s3).
  assert (good_ (lets_in m) f0 s s4) as H4.
  { eapply (good_trans _ f0 id); [exact H3|]. apply emit_good_; [|apply H3].
    right. left. by rewrite Haddr. }
  clearbody s4. set (s5 := emit _ s4).
  assert (good_ (lets_in m) f0 s s5) as H5.
  { eapply (good_trans _ f0 id); [exact H4|]. apply good_lets, emit_good; [apply H4|done]. }
  clearbody s5. set (s6 := emit _ s5).
  assert (good_ (lets_in m) f0 s s6) as H6.
  { eapply (good_trans _ f0 id); [exact H5|]. apply good_lets, emit_good; [apply H5|done]. }
  clearbody s6. assert (wf_st s6) as Hs6 by apply H6.
  pose proof (good_trans _ _ _ _ _ _ H6 (good_lets m _ _ _ (ptkinitdone_end_good s6 Hs6))) as H7.
  destruct (decide _); apply runs_ret; exists i; (eapply good_eq; [exact H7|]);
    intros c; unfold a_ptkinitdone, f0; cbn; by rewrite andb_false_r.
Qed.

(** ** WPA_PTK_GROUP *)

Lemma group_idle_good s : wf_st s -> good a_group_idle s (sm_WPA_PTK_GROUP_IDLE_Enter s).
Proof.
  intros Hs. gopen sm_WPA_PTK_GROUP_IDLE_Enter. pose proof (good_id plain s Hs) as H.
  glet H by gentry_good as s1 H1. glet H1 by init_unchanged_good as s2 H2.
  eapply good_eq; [eapply good_trans; [exact H2|apply set_GTimeoutCtr_good; [apply H2|done]]|].
  intros c. unfold a_group_idle, genter. cbn. by destruct (init c).
Qed.

Lemma rekeyestablished_good s : wf_st s ->
  good a_rekeyestablished s (sm_WPA_PTK_GROUP_REKEYESTABLISHED_Enter s).
Proof.
  intros Hs. gopen sm_WPA_PTK_GROUP_REKEYESTABLISHED_Enter. pose proof (good_id plain s Hs) as H.
  glet H by gentry_good as s1 H1. glet H1 by not_received_good as s2 H2.
  glet H2 by cancel_group_update_good as s3 H3. glet H3 by set_GTimeoutCtr_good as s4 H4.
  eapply good_eq; [eapply good_trans; [exact H4|apply set_has_GTK_good, H4]|done].
Qed.

Lemma keyerror_good s : wf_st s -> good a_keyerror s (sm_WPA_PTK_GROUP_KEYERROR_Enter s).
Proof.
  intros Hs. gopen sm_WPA_PTK_GROUP_KEYERROR_Enter. pose proof (good_id plain s Hs) as H.
  glet H by gentry_good as s1 H1. glet H1 by cancel_group_update_good as s2 H2.
  eapply good_eq; [eapply good_trans; [exact H2|apply set_Disconnect_good, H2]|done].
Qed.

(** The key RSC of a group message, asked of the driver once the keys are set. *)
Lemma group_rsc s : wf_st s -> exists rsc d,
  (if decide (Group.wpa_group_state (gr s) = WPA_GROUP_SETKEYSDONE) then
     let '(_, d, s) := wpa_auth_get_seqnum (Group.GN (gr s)) WPA_KEY_RSC_LEN s in (d, s)
   else (replicate (Z.to_nat WPA_KEY_RSC_LEN) 0, s)) = (rsc, s <| lg := d ++ lg s |>) /\
  zlen rsc = WPA_KEY_RSC_LEN /\ Forall quiet d.
Proof.
  intros Hs. destruct (decide _); [|by eexists _, []; split_and!; [..|constructor]]. unfold wpa_auth_get_seqnum. cbv zeta.
  destruct (get_seqnum (lg (emit (CGetSeqnum (Group.GN (gr s))) s)) WPA_KEY_RSC_LEN) as [r x] eqn:E.
  apply get_seqnum_len in E; [|done]. eexists _, [CGetSeqnum (Group.GN (gr s))].
  split_and!; [done|done|by repeat constructor].
Qed.

(** The key data of a group message: with the management group key for an RSN
    station, the bare key for a WPA station. *)
Lemma group_kde_good s : wf_st s ->
  runs (if decide (Sm.wpa (sm s) = WPA_VERSION_WPA2) then
        let kde_len := 2 + RSN_SELECTOR_LEN + 2 + Group.GTK_len (gr s) + ieee80211w_kde_len (sm s) in
        let '(ok, s) := os_malloc kde_len s in
        if negb ok then mret (None, s)
        else
          '(kde, pos) ← gtk_kde_add s (junk (lg s) kde_len) 0;
          '(kde, pos, s) ← ieee80211w_kde_add s kde pos;
          d ← rd_n kde 0 pos;
          mret (Some d, s)
      else
        k ← key_prefix (Group.GTK (gr s)) (Group.GN (gr s) - 1) (Group.GTK_len (gr s));
        mret (Some k, s)) (fun '(_, s') => good id s s' /\ gr s' = gr s /\ sm s' = sm s).
Proof.
  intros Hs. pose proof (s_gr _ Hs) as Hg. pose proof (g_gtk_len _ Hg). destruct (decide _).
  2: { pose proof (g_gn _ Hg).
       rstep (eapply key_prefix_runs; [apply (g_gtk _ Hg)|apply (g_gtk _ Hg)|lia|lia]) as k Hk.
       apply runs_ret. by split; [apply good_id|]. }
  cbv zeta. set (kde_len := _ + ieee80211w_kde_len _). unfold os_malloc. cbv zeta.
  pose proof (emit_good (CMalloc kde_len) s Hs I) as H1. set (s1 := emit _ s) in *.
  pose proof (ieee80211w_kde_len_nonneg (sm s)). change RSN_SELECTOR_LEN with 4 in *.
  destruct (malloc _); cbn [negb]; [|by apply runs_ret].
  assert (zlen (junk (lg s1) kde_len) = kde_len) as Hj by (apply junk_len; lia).
  rstep (apply gtk_kde_add_runs; [done|done|rewrite Hj; unfold kde_len; change (gr s1) with (gr s); lia])
    as [k2 p2] H2. destruct H2 as [H2 ->].
  rstep (apply ieee80211w_kde_add_runs; [apply H1| |]) as [[k3 p3] s3] H3.
  { change (gr s1) with (gr s). lia. }
  { rewrite H2, Hj. unfold kde_len. change (gr s1) with (gr s). change (sm s1) with (sm s). lia. }
  destruct H3 as (H3 & -> & d & -> & Hd).
  rstep (apply rd_n_runs; [done| |]) as dat Hdat.
  { change (gr s1) with (gr s). change (sm s1) with (sm s). lia. }
  { rewrite H3, H2, Hj. unfold kde_len. change (gr s1) with (gr s). change (sm s1) with (sm s). lia. }
  apply runs_ret. split; [|done].
  apply (good_trans _ id id _ s1); [done|apply log_good; [apply H1|done]].
Qed.

Lemma rekeynegotiating_good s : wf_st s ->
  runs (sm_WPA_PTK_GROUP_REKEYNEGOTIATING_Enter s) (good a_rekeynegotiating s).
Proof.
  intros Hs. gopen sm_WPA_PTK_GROUP_REKEYNEGOTIATING_Enter. pose proof (good_id plain s Hs) as H.
  glet H by gentry_good as s1 H1. glet H1 by inc_GTimeoutCtr_good as s2 H2.
  assert (Sm.GTimeoutCtr (sm s2) = gctr (ctl_of (sm s)) + 1) as Hctr.
  { change (gctr (ctl_of (sm s2)) = gctr (ctl_of (sm s)) + 1). by rewrite (gd_ctl _ _ _ _ H2). }
  rewrite Hctr. destruct (_ <? _) eqn:Hlt.
  { apply runs_ret. eapply good_at; [exact H2|]. unfold a_rekeynegotiating. cbn [gctr put genter].
    by rewrite Hlt. }
  glet H2 by no_pinit_good as s3 H3. glet H3 by set_TimeoutEvt_good as s4 H4.
  assert (good a_rekeynegotiating s s4) as H5.
  { eapply good_at; [exact H4|]. unfold a_rekeynegotiating. cbn [gctr put genter id].
    rewrite Hlt. generalize (ctl_of (sm s)). intros c. cbn. by destruct (is_wpa c). }
  clear H H1 H2 H3 H4 Hctr Hlt s1 s2 s3. assert (wf_st s4) as Hs4 by apply H5.
  destruct (group_rsc s4 Hs4) as (rsc & d & -> & Hrsc & Hd).
  pose proof (good_trans _ _ _ _ _ _ H5 (log_good s4 d Hs4 Hd)) as H6. change (good a_rekeynegotiating s
    (s4 <| lg := d ++ lg s4 |>)) in H6.
  set (s6 := s4 <| lg := _ |>) in *. clearbody s6. assert (wf_st s6) as Hs6 by apply H6.
  rstep (by apply group_kde_good) as [kde s7] H7. destruct H7 as (H7 & Hgr & Hsm).
  pose proof (good_trans _ _ _ _ _ _ H6 H7) as H8. change (good a_rekeynegotiating s s7) in H8.
  assert (wf_st s7) as Hs7 by apply H8.
  destruct kde as [kde|]; [|by apply runs_ret]. cbv zeta.
  eapply (good_runs _ _ id _ _ _ H8), send_good; [done|by intros ? [= <-]|].
  intros x [= <-]. apply (g_gnonce _ (s_gr _ Hs7)).
Qed.

(** ** The steps *)

Lemma key_received_ptk m : key_received m true = rcvd (ctl_of m) && for_ptk (ctl_of m).
Proof. unfold key_received. cbn. destruct (Sm.EAPOLKeyPairwise m), (Sm.EAPOLKeyReceived m); cbn; by rewrite ?andb_false_r, ?andb_true_r. Qed.
Lemma key_received_group m : key_received m false = rcvd (ctl_of m) && for_group (ctl_of m).
Proof. unfold key_received. cbn. destruct (Sm.EAPOLKeyPairwise m), (Sm.EAPOLKeyReceived m); cbn; by rewrite ?andb_false_r, ?andb_true_r. Qed.

(** One branch of the abstract step. *)
Definition branch (P : call -> Prop) (m : res st) (c' : inputs -> ctl) (s : st) : Prop :=
  runs m (fun s' => exists i, wf_st s' /\ frame P s s' /\ ctl_of (sm s') = c' i).

Lemma branch_good P m f c' i s : runs m (good_ P f s) -> f (ctl_of (sm s)) = c' i ->
  branch P m c' s.
Proof.
  intros Hm E. eapply runs_weaken; [exact Hm|]. intros s' [H1 H2 H3]. exists i.
  by rewrite <- E.
Qed.
Lemma branch_steps P m f c' s : runs m (steps P f s) -> (forall i, f i (ctl_of (sm s)) = c' i) ->
  branch P m c' s.
Proof.
  intros Hm E. eapply runs_weaken; [exact Hm|]. intros s' (i & [H1 H2 H3]). exists i.
  by rewrite <- E.
Qed.
Lemma branch_ret P f c' i s s' : good_ P f s s' -> f (ctl_of (sm s)) = c' i ->
  branch P (mret s') c' s.
Proof. intros H. apply branch_good, runs_ret, H. Qed.

Lemma failure_disconnect_good s : wf_st s ->
  good a_disconnect s (sm_WPA_PTK_DISCONNECT_Enter (count_handshake_failure s)).
Proof.
  intros Hs. pose proof (failure_good s Hs) as H.
  eapply good_eq; [eapply good_trans; [exact H|apply disconnect_good, H]|done].
Qed.

(** An entry after a question. *)
Lemma after_emit f c s m : wf_st s -> plain c -> (forall s, wf_st s -> runs (m s) (good f s)) ->
  runs (m (emit c s)) (good f s).
Proof.
  intros Hs Hc Hm. eapply (good_runs _ id f); [by apply emit_good|]. apply Hm. by apply emit_good.
Qed.

Lemma authentication2_step s : wf_st s ->
  branch plain (let akm := Sm.wpa_key_mgmt (sm s) in
    let '(run, s) := if wpa_key_mgmt_wpa_ieee8021x akm
                     then let '(v, s) := wpa_auth_get_eapol WPA_EAPOL_keyRun s in (0 <? v, s)
                     else (false, s) in
    if run : bool then sm_WPA_PTK_INITPMK_Enter s
    else if wpa_key_mgmt_wpa_psk akm then sm_WPA_PTK_INITPSK_Enter s
    else mret s)
    (fun i => let c := ctl_of (sm s) in
      if key_run i then enter WPA_PTK_INITPMK c
      else if key_there i then enter WPA_PTK_INITPSK c else c) s.
Proof.
  intros Hs. cbv zeta. unfold wpa_auth_get_eapol. cbv zeta.
  set (i r t := {| key_run := r; key_there := t; key_found := false; key_set := false |}).
  assert (exists run s1, (if wpa_key_mgmt_wpa_ieee8021x (Sm.wpa_key_mgmt (sm s))
    then (0 <? get_eapol (lg (emit (CGetEapol (my_addr s) WPA_EAPOL_keyRun) s)),
          emit (CGetEapol (my_addr s) WPA_EAPOL_keyRun) s) else (false, s)) = (run, s1) /\
    good id s s1) as (run & s1 & -> & H1).
  { destruct (wpa_key_mgmt_wpa_ieee8021x _); eexists _, _; (split; [reflexivity|]).
    - by apply emit_good. - by apply good_id. }
  assert (wf_st s1) as Hs1 by apply H1. destruct run.
  { apply (branch_good _ _ (enter WPA_PTK_INITPMK) _ (i true false)); [|done].
    by eapply (good_runs _ _ _ _ _ _ H1), initpmk_good. }
  destruct (wpa_key_mgmt_wpa_psk _).
  - apply (branch_good _ _ (enter WPA_PTK_INITPSK) _ (i false true)); [|done].
    by eapply (good_runs _ _ _ _ _ _ H1), initpsk_good.
  - by apply (branch_ret _ id _ (i false false)).
Qed.

(** The station answered message 3/4, and nothing else is asked of the machine. *)
Definition undisturbed (m : Sm.wpa_state_machine) : bool :=
  negb (Sm.Init m || Sm.Disconnect m || Sm.DeauthenticationRequest m ||
        Sm.AuthenticationRequest m || Sm.ReAuthenticationRequest m || Sm.PTKRequest m).
Definition completes (m : Sm.wpa_state_machine) : bool :=
  undisturbed m && bool_decide (Sm.wpa_ptk_state m = WPA_PTK_PTKINITNEGOTIATING) &&
  key_received m true && Sm.MICVerified m.

Lemma branch_plain (b : bool) m c' s : branch plain m c' s ->
  branch (if b then lets_in (sm s) else plain) m c' s.
Proof.
  destruct b; [|done]. intros H. eapply runs_weaken; [exact H|]. intros s' (i & ? & ? & ?).
  exists i. by split_and!; [|eapply frame_lets|].
Qed.

Lemma ptk_step_branch s : wf_st s ->
  branch (if completes (sm s) then lets_in (sm s) else plain) (sm_WPA_PTK_Step s) (fun i => a_ptk_step i (ctl_of (sm s))) s.
Proof.
  intros Hs. unfold sm_WPA_PTK_Step, a_ptk_step, completes, undisturbed. cbv zeta.
  rewrite <- !key_received_ptk.
  cbn [init disc deauth auth reauth ptkreq state mic tevt ctr ctl_of].
  pose proof no_inputs as i0.
  destruct (Sm.Init (sm s)); [by eapply branch_plain, (branch_ret _ _ _ i0); [apply initialize_good|]|].
  destruct (Sm.Disconnect (sm s)); [by eapply branch_plain, (branch_ret _ _ _ i0); [apply disconnect_good|]|].
  destruct (Sm.DeauthenticationRequest (sm s)); [by eapply branch_plain, (branch_ret _ _ _ i0); [apply disconnected_good|]|].
  destruct (Sm.AuthenticationRequest (sm s)); [by eapply branch_plain, (branch_ret _ _ _ i0); [apply authentication_good|]|].
  destruct (Sm.ReAuthenticationRequest (sm s)); [by eapply branch_plain, (branch_good _ _ _ _ i0); [apply authentication2_good|]|].
  destruct (Sm.PTKRequest (sm s)); [by eapply branch_plain, (branch_good _ _ _ _ i0); [apply ptkstart_good|]|].
  assert (Sm.wpa_ptk_state (sm s) = state (ctl_of (sm s))) as Est by done.
  destruct (Sm.wpa_ptk_state (sm s)) eqn:E.
  - by apply branch_plain, (branch_ret _ _ _ i0 _ _ (good_id _ s Hs)).
  - by eapply branch_plain, (branch_ret _ _ _ i0); [apply disconnected_good|].
  - by eapply branch_plain, (branch_ret _ _ _ i0); [apply initialize_good|].
  - by eapply branch_plain, (branch_good _ _ _ _ i0); [apply authentication2_good|].
  - by apply branch_plain, authentication2_step.
  - set (i t := {| key_run := false; key_there := t; key_found := false; key_set := false |}).
    unfold wpa_auth_get_eapol. cbv beta iota zeta. destruct (0 <? _).
    + eapply branch_plain, (branch_good _ _ _ _ (i true)); [apply after_emit; [done|done|apply ptkstart_good]|done].
    + eapply branch_plain, (branch_good _ _ a_disconnect _ (i false)); [|done].
      apply (after_emit _ _ _ (fun s => mret (sm_WPA_PTK_DISCONNECT_Enter (count_handshake_failure s))));
        [done|done|]. intros s1 Hs1. by apply runs_ret, failure_disconnect_good.
  - set (i t := {| key_run := false; key_there := t; key_found := false; key_set := false |}).
    unfold wpa_auth_get_psk. cbv beta iota zeta. destruct (get_psk _).
    + eapply branch_plain, (branch_good _ _ _ _ (i true)); [apply after_emit; [done|done|apply ptkstart_good]|done].
    + eapply branch_plain, (branch_good _ _ a_disconnect _ (i false)); [|done].
      apply (after_emit _ _ _ (fun s => mret (sm_WPA_PTK_DISCONNECT_Enter (count_handshake_failure s))));
        [done|done|]. intros s1 Hs1. by apply runs_ret, failure_disconnect_good.
  - destruct (key_received (sm s) true) eqn:Hk.
    { eapply branch_plain, branch_steps; [apply ptkcalc_good; [done|by apply (m_pending _ _ (s_sm _ Hs))]|done]. }
    destruct (_ <? _); [by eapply branch_plain, (branch_ret _ _ _ i0); [apply failure_disconnect_good|]|].
    destruct (Sm.TimeoutEvt (sm s)); [by eapply branch_plain, (branch_good _ _ _ _ i0); [apply ptkstart_good|]|].
    by apply branch_plain, (branch_ret _ _ _ i0 _ _ (good_id _ s Hs)).
  - destruct (Sm.MICVerified (sm s)); [by eapply branch_plain, (branch_ret _ _ _ i0); [apply ptkcalc2_good|]|].
    destruct (key_received (sm s) true) eqn:Hk.
    { eapply branch_plain, branch_steps; [apply ptkcalc_good; [done|by apply (m_pending _ _ (s_sm _ Hs))]|done]. }
    destruct (Sm.TimeoutEvt (sm s)); [by eapply branch_plain, (branch_good _ _ _ _ i0); [apply ptkstart_good|]|].
    by apply branch_plain, (branch_ret _ _ _ i0 _ _ (good_id _ s Hs)).
  - by eapply branch_plain, (branch_good _ _ _ _ i0); [apply ptkinitnegotiating_good|].
  - rewrite bool_decide_true by done. cbn [negb orb andb].
    destruct (_ && _); [by eapply branch_steps; [apply ptkinitdone_good|]|].
    destruct (_ <? _); [by eapply (branch_ret _ _ _ i0); [apply failure_disconnect_good|]|].
    destruct (Sm.TimeoutEvt (sm s)); [by eapply (branch_good _ _ _ _ i0); [apply ptkinitnegotiating_good|]|].
    by apply (branch_ret _ _ _ i0 _ _ (good_id _ s Hs)).
  - by apply branch_plain, (branch_ret _ _ _ i0 _ _ (good_id _ s Hs)).
Qed.

Lemma group_step_branch s : wf_st s ->
  branch plain (sm_WPA_PTK_GROUP_Step s) (fun _ => a_group_step (ctl_of (sm s))) s.
Proof.
  intros Hs. unfold sm_WPA_PTK_GROUP_Step, a_group_step. cbv zeta.
  rewrite <- !key_received_group.
  cbn [init ginit gupd pinit is_wpa gstate mic tevt gctr ctl_of].
  pose proof no_inputs as i0.
  destruct (Sm.Init (sm s) || Sm.PtkGroupInit (sm s)).
  { pose proof (group_idle_good s Hs) as H.
    apply (branch_ret _ _ _ i0 _ _ (good_trans _ _ _ _ _ _ H
      (set_PtkGroupInit_good false _ (gd_wf _ _ _ _ H)))). done. }
  destruct (Sm.wpa_ptk_group_state (sm s)) eqn:E.
  - destruct (_ || _); [by eapply (branch_good _ _ _ _ i0); [apply rekeynegotiating_good|]|].
    by apply (branch_ret _ _ _ i0 _ _ (good_id _ s Hs)).
  - destruct (_ && _); [by eapply (branch_ret _ _ _ i0); [apply rekeyestablished_good|]|].
    destruct (_ <? _); [by eapply (branch_ret _ _ _ i0); [apply keyerror_good|]|].
    destruct (Sm.TimeoutEvt (sm s)); [by eapply (branch_good _ _ _ _ i0); [apply rekeynegotiating_good|]|].
    by apply (branch_ret _ _ _ i0 _ _ (good_id _ s Hs)).
  - by eapply (branch_ret _ _ _ i0); [apply group_idle_good|].
  - by eapply (branch_ret _ _ _ i0); [apply group_idle_good|].
Qed.


End run.
