(* ===== verification/WpaAuthWorld.v ===== *)
(** * The loop of [wpa_sm_step]

    The type invariant of the authenticator with its groups and stations
    ([wf_world]), and what a call of [wpa_sm_step] does to it: the loop ends
    within the rounds allowed, no memory is touched that must not be, no other
    station changes, and the station is brought to rest. *)

From stdpp Require Import gmap.
From S2P Require Import Prelude CommonUtils EapI WpaCommon Pmksa PmksaProps WpaAuthI.
From S2P Require Import WpaAuthIe WpaIeProps WpaAuthSm WpaAuthWf WpaAuthCtl WpaAuthRest.
From S2P Require Import WpaAuthRef WpaAuthRun WpaAuth.

(** A group between two calls of its machine: it has its first key, and no new
    one is asked for. *)
Record idle_group (g : Group.wpa_group) : Prop := {
  ig_wf : wf_gr g;
  ig_init : Group.GInit g = false;
  ig_rekey : Group.GTKReKey g = false;
  ig_state : Group.wpa_group_state g <> WPA_GROUP_GTK_INIT;
}.

(** A station whatever its control part: [P] is about that. *)
Record wf_sta (w : world) (P : Sm.wpa_state_machine -> Prop) (m : Sm.wpa_state_machine) : Prop := {
  ws_wf : wf_sm (auth w) m;
  ws_group : is_Some (groups w !! Sm.group m);
  ws_pending : Sm.pending_deinit m = false;
  ws_P : P m;
}.

(** The list of groups [l], from its head. *)
Fixpoint chain (gs : gmap nat Group.wpa_group) (start : option nat) (l : list nat) : Prop :=
  match l with
  | [] => start = None
  | g :: l => start = Some g /\ exists gr, gs !! g = Some gr /\ chain gs (Group.next gr) l
  end.

Lemma chain_insert gs start l g gr gr' : chain gs start l -> gs !! g = Some gr ->
  Group.next gr' = Group.next gr -> chain (<[g := gr']> gs) start l.
Proof.
  revert start. induction l as [|x l IH]; intros start; [done|]. cbn [chain].
  intros (-> & gx & Hx & Hc) Hg Hn. split; [done|]. destruct (decide (x = g)) as [->|Hne].
  - exists gr'. rewrite lookup_insert_eq. split; [done|]. apply IH; [|done|done].
    rewrite Hn. by simplify_eq.
  - exists gx. rewrite lookup_insert_ne by done. split; [done|]. by apply IH.
Qed.

Lemma chain_in gs start l : chain gs start l -> Forall (fun g => g ∈ dom gs) l.
Proof.
  revert start. induction l as [|x l IH]; intros start; [constructor|].
  intros (-> & gx & Hx & Hc). constructor; [by apply elem_of_dom|by eapply IH].
Qed.

(** [P i] is what is known of the control part of station [i]. *)
Record wf_world_ (P : nat -> Sm.wpa_state_machine -> Prop) (w : world) : Prop := {
  w_auth : wf_au (auth w);
  w_head : exists h, Auth.group (auth w) = Some h /\ is_Some (groups w !! h);
  w_chain : exists l, chain (groups w) (Auth.group (auth w)) l /\ NoDup l;
  w_groups : map_Forall (fun _ g => idle_group g) (groups w);
  w_stas : map_Forall (fun i m => wf_sta w (P i) m) (stas w);
  w_list : Forall (fun i => is_Some (stas w !! i)) (sta_list w);
}.

(** Between the calls of hostapd every station is at rest. *)
Definition at_rest (m : Sm.wpa_state_machine) : Prop := rest (ctl_of m) /\ Sm.in_step_loop m = false.
Definition wf_world (w : world) : Prop := wf_world_ (fun _ => at_rest) w.
(** ... except [i], about which [Q] is known. *)
Definition but (i : nat) (Q : Sm.wpa_state_machine -> Prop) (j : nat) : Sm.wpa_state_machine -> Prop :=
  if decide (j = i) then Q else at_rest.

(** The stations of group [g] that still wait for a new group key: as the group
    counts them, and whether [i] is one. *)
Definition done_count (w : world) (g : nat) : Z :=
  match groups w !! g with Some gr => Group.GKeyDoneStations gr | None => 0 end.
Definition waits_in (w : world) (i g : nat) : Z :=
  match stas w !! i with
  | Some m => Z.b2z (bool_decide (Sm.group m = g) && Sm.GUpdateStationKeys m)
  | None => 0
  end.

(** What a call for station [i] of group [g] changes of the world: no other
    station, and of the groups only what [frame] leaves open. *)
Record touches (i : nat) (P : call -> Prop) (w w' : world) : Prop := {
  t_auth : same_auth (auth w) (auth w');
  t_stas : forall j, j <> i -> stas w' !! j = stas w !! j;
  t_dom : dom (groups w') = dom (groups w);
  t_next : forall g gr gr', groups w !! g = Some gr -> groups w' !! g = Some gr' ->
    Group.next gr' = Group.next gr /\ Group.vlan_id gr' = Group.vlan_id gr;
  t_done : forall g, done_count w' g - waits_in w' i g = done_count w g - waits_in w i g;
  t_list : sta_list w' = sta_list w;
  t_fresh : fresh_loc w' = fresh_loc w;
  t_log : log_ext P (wlog w) (wlog w');
}.

Lemma touches_refl i P w : touches i P w w.
Proof. split; try done; [intros; split; congruence|apply log_ext_refl]. Qed.
Lemma touches_trans i P w1 w2 w3 : touches i P w1 w2 -> touches i P w2 w3 -> touches i P w1 w3.
Proof.
  intros [A1 S1 D1 N1 K1 L1 F1 G1] [A2 S2 D2 N2 K2 L2 F2 G2].
  split; [by eapply same_auth_trans| |congruence| | |congruence..|by eapply log_ext_trans].
  - intros j Hj. by rewrite S2, S1.
  - intros g gr gr' H H'. destruct (groups w2 !! g) as [gr2|] eqn:E.
    + destruct (N1 _ _ _ H E), (N2 _ _ _ E H'). split; congruence.
    + exfalso. apply not_elem_of_dom in E. apply E. rewrite D1. by apply elem_of_dom.
  - intros g. rewrite K2. apply K1.
Qed.
Lemma touches_weaken i (P Q : call -> Prop) w w' : (forall c, P c -> Q c) ->
  touches i P w w' -> touches i Q w w'.
Proof. intros HPQ []. split; try done. by eapply log_ext_weaken. Qed.

(** The fields of a station that no step of its machines changes. *)
Record same_sta (m m' : Sm.wpa_state_machine) : Prop := {
  ss_addr : Sm.addr m' = Sm.addr m;
  ss_group : Sm.group m' = Sm.group m;
  ss_request : Sm.EAPOLKeyRequest m' = Sm.EAPOLKeyRequest m;
  ss_pairwise : Sm.EAPOLKeyPairwise m' = Sm.EAPOLKeyPairwise m;
  ss_snonce : Sm.SNonce m' = Sm.SNonce m;
  ss_rx : Sm.last_rx_eapol_key m' = Sm.last_rx_eapol_key m;
  ss_rx_len : Sm.last_rx_eapol_key_len m' = Sm.last_rx_eapol_key_len m;
  ss_in_step : Sm.in_step_loop m' = Sm.in_step_loop m;
  ss_pending : Sm.pending_deinit m' = Sm.pending_deinit m;
  ss_started : Sm.started m' = Sm.started m;
  ss_mfp : Sm.mgmt_frame_prot m' = Sm.mgmt_frame_prot m;
  ss_wpa : Sm.wpa m' = Sm.wpa m;
  ss_cipher : Sm.pairwise m' = Sm.pairwise m;
  ss_akm : Sm.wpa_key_mgmt m' = Sm.wpa_key_mgmt m;
}.
Lemma same_sta_refl m : same_sta m m.
Proof. by split. Qed.
Lemma same_sta_trans a b c : same_sta a b -> same_sta b c -> same_sta a c.
Proof. intros [] []. split; congruence. Qed.
Lemma frame_sta P s s' : frame P s s' -> same_sta (sm s) (sm s').
Proof. intros []. by split. Qed.

(** What putting a local state back needs to know of it. *)
Record moved (P : call -> Prop) (s s' : st) : Prop := {
  mv_group : Sm.group (sm s') = Sm.group (sm s);
  mv_pending : Sm.pending_deinit (sm s') = Sm.pending_deinit (sm s);
  mv_auth : same_auth (au s) (au s');
  mv_gnext : Group.next (gr s') = Group.next (gr s);
  mv_gvlan : Group.vlan_id (gr s') = Group.vlan_id (gr s);
  mv_ginit : Group.GInit (gr s') = Group.GInit (gr s);
  mv_grekey : Group.GTKReKey (gr s') = Group.GTKReKey (gr s);
  mv_gstate : Group.wpa_group_state (gr s') = Group.wpa_group_state (gr s);
  mv_done : Group.GKeyDoneStations (gr s') - Z.b2z (Sm.GUpdateStationKeys (sm s')) =
    Group.GKeyDoneStations (gr s) - Z.b2z (Sm.GUpdateStationKeys (sm s));
  mv_log : log_ext P (lg s) (lg s');
}.
Lemma frame_moved P s s' : frame P s s' -> moved P s s'.
Proof. by intros []. Qed.

Section world.
Context {cr : Crypto} {c_laws : CryptoLaws cr} {o : Owner} {o_laws : OwnerLaws o}.

Lemma wf_sta_weaken w (P Q : Sm.wpa_state_machine -> Prop) m :
  (P m -> Q m) -> wf_sta w P m -> wf_sta w Q m.
Proof. intros H []. split; auto. Qed.

Lemma wf_world_weaken (P Q : nat -> Sm.wpa_state_machine -> Prop) w :
  (forall i m, stas w !! i = Some m -> P i m -> Q i m) -> wf_world_ P w -> wf_world_ Q w.
Proof.
  intros H []. split; try done. intros i m Hi. eapply wf_sta_weaken; [by apply H|by apply w_stas0].
Qed.

Lemma wf_world_log P w l : wf_world_ P w -> wf_world_ P (w <| wlog := l |>).
Proof.
  intros [Ha Hh Hc Hgs Hst Hl]. split; try done. intros i m Hi. destruct (Hst i m Hi). by split.
Qed.

(** ** One station of the world *)

Lemma the_sta_ok w i m : stas w !! i = Some m -> the_sta w i = Ok m.
Proof. intros H. unfold the_sta. by rewrite H. Qed.
Lemma the_group_ok w i g : groups w !! i = Some g -> the_group w i = Ok g.
Proof. intros H. unfold the_group. by rewrite H. Qed.

Lemma head_group_ok w h : Auth.group (auth w) = Some h -> head_group w = Ok h.
Proof. intros H. unfold head_group. by rewrite H. Qed.

(** The local state of station [i]. *)
Lemma load_ok P w i m : wf_world_ P w -> stas w !! i = Some m ->
  exists g, groups w !! Sm.group m = Some g /\ idle_group g /\
    load w i = Ok {| sm := m; gr := g; au := auth w; lg := wlog w |} /\
    wf_st {| sm := m; gr := g; au := auth w; lg := wlog w |}.
Proof.
  intros [] Hi. destruct (w_stas0 i m Hi) as [Hwf [g Hg] _ _].
  pose proof (w_groups0 _ _ Hg) as Hig. exists g. split; [done|]. split; [done|].
  unfold load. rewrite (the_sta_ok _ _ _ Hi). cbn [mbind res_bind].
  rewrite (the_group_ok _ _ _ Hg). split; [done|]. split; [done|apply Hig|done].
Qed.

Lemma dom_insert_same {A} (m : gmap nat A) i x : is_Some (m !! i) -> dom (<[i := x]> m) = dom m.
Proof. intros Hi. rewrite dom_insert_L. apply elem_of_dom in Hi. set_solver. Qed.

Lemma same_dom {A B} (m : gmap nat A) (m' : gmap nat B) i : dom m = dom m' -> is_Some (m !! i) -> is_Some (m' !! i).
Proof. intros E H. apply elem_of_dom. rewrite <- E. by apply elem_of_dom. Qed.

(** The local state goes back to the world. *)
Lemma save_wf (P Q : nat -> Sm.wpa_state_machine -> Prop) C w i m g s' :
  wf_world_ P w -> stas w !! i = Some m -> groups w !! Sm.group m = Some g ->
  let s := {| sm := m; gr := g; au := auth w; lg := wlog w |} in
  wf_st s' -> moved C s s' -> Q i (sm s') ->
  (forall j m, j <> i -> P j m -> Q j m) ->
  wf_world_ Q (save i (Sm.group m) s' w) /\ touches i C w (save i (Sm.group m) s' w).
Proof.
  intros Hw Hi Hg s Hs' Hf HQ HPQ. destruct Hw as [Ha [h [Hh Hhs]] [lc [Hc Hnd]] Hgs Hst Hl].
  pose proof (mv_auth _ _ _ Hf) as Hsa. cbn [au] in Hsa. destruct Hs' as [Hsm' Hgr' Hau'].
  assert (dom (<[Sm.group m := gr s']> (groups w)) = dom (groups w)) as Hdom
    by by apply dom_insert_same.
  split.
  - split; cbn [save auth groups stas sta_list put put_sta put_group].
    + done.
    + exists h. rewrite (sa_group _ _ Hsa). split; [done|]. by eapply same_dom.
    + exists lc. rewrite (sa_group _ _ Hsa). split; [|done].
      eapply chain_insert; [exact Hc|exact Hg|apply Hf].
    + apply map_Forall_insert_2; [|done]. destruct (Hgs _ _ Hg) as [_ H1 H2 H3].
      split; [done|by rewrite (mv_ginit _ _ _ Hf)|by rewrite (mv_grekey _ _ _ Hf)
             |by rewrite (mv_gstate _ _ _ Hf)].
    + intros j m' Hj. destruct (decide (j = i)) as [->|Hne].
      * rewrite lookup_insert_eq in Hj. injection Hj as <-.
        split; [done| |by rewrite (mv_pending _ _ _ Hf); apply (Hst i m Hi)|done].
        rewrite (mv_group _ _ _ Hf). cbn. by rewrite lookup_insert_eq.
      * rewrite lookup_insert_ne in Hj by done. destruct (Hst j m' Hj) as [H1 H2 H3 H4].
        split; [by eapply wf_sm_same|by eapply same_dom|done|by apply HPQ].
    + eapply Forall_impl; [exact Hl|]. cbn beta. intros j Hj.
      eapply same_dom; [|exact Hj]. symmetry. by apply dom_insert_same.
  - split; cbn [save auth groups stas sta_list put put_sta put_group]; try done.
    + intros j Hj. by rewrite lookup_insert_ne.
    + intros j gj gj' Hj Hj'. destruct (decide (j = Sm.group m)) as [->|Hne].
      * rewrite lookup_insert_eq in Hj'. simplify_eq. split; apply Hf.
      * rewrite lookup_insert_ne in Hj' by done. by simplify_eq.
    + intros j. unfold done_count, waits_in.
      cbn [save auth groups stas sta_list put put_sta put_group]. rewrite lookup_insert_eq, Hi.
      rewrite (mv_group _ _ _ Hf). cbn [sm s].
      pose proof (mv_done _ _ _ Hf) as Hd. cbn [sm gr s] in Hd.
      destruct (decide (j = Sm.group m)) as [->|Hne].
      * rewrite lookup_insert_eq, Hg, bool_decide_true by done. cbn [andb]. lia.
      * rewrite lookup_insert_ne by done. rewrite bool_decide_false by done. cbn [andb Z.b2z]. lia.
    + apply Hf.
Qed.

(** The steps of a station leave the state of the group machines alone. *)
Definition steady (w w' : world) : Prop := forall j g g',
  groups w !! j = Some g -> groups w' !! j = Some g' ->
  Group.wpa_group_state g' = Group.wpa_group_state g /\ Group.changed g' = Group.changed g.

(** A step of a machine of station [i]. *)
Lemma on_sta_runs (P Q : nat -> Sm.wpa_state_machine -> Prop) C R f w i m :
  wf_world_ P w -> stas w !! i = Some m ->
  (forall s, wf_st s -> sm s = m -> runs (f s) (fun s' => wf_st s' /\ frame C s s' /\ R (sm s'))) ->
  (forall m', R m' -> same_sta m m' -> Q i m') -> (forall j m, j <> i -> P j m -> Q j m) ->
  runs (on_sta i f w) (fun w' => wf_world_ Q w' /\ touches i C w w' /\
    exists m', stas w' !! i = Some m' /\ same_sta m m' /\ R m' /\ steady w w').
Proof.
  intros Hw Hi Hf HR HPQ. destruct (load_ok P w i m Hw Hi) as (g & Hg & Hig & Hl & Hs).
  unfold on_sta. rewrite (bind_eq _ _ _ Hl). rstep (by apply Hf) as s' Hs'. apply runs_ret.
  destruct Hs' as (Hs' & Hfr & HRs). pose proof (frame_sta _ _ _ Hfr) as Hsame. cbn [sm] in Hsame.
  destruct (save_wf P Q C w i m g s' Hw Hi Hg Hs' (frame_moved _ _ _ Hfr)) as [Hw' Ht]; [by apply HR|done|].
  split; [done|]. split; [done|]. exists (sm s').
  cbn [save auth groups stas sta_list put put_sta put_group sm]. rewrite lookup_insert_eq.
  split; [done|]. split; [done|]. split; [done|]. intros j g1 g2 H1 H2.
  cbn [save auth groups stas sta_list put put_sta put_group] in H2.
  destruct (decide (j = Sm.group m)) as [->|Hne].
  - rewrite lookup_insert_eq in H2. simplify_eq. split; apply Hfr.
  - rewrite lookup_insert_ne in H2 by done. by simplify_eq.
Qed.

(** A question to station [i] that is no step of a machine. *)
Lemma ask_sta_runs {A} (P Q : nat -> Sm.wpa_state_machine -> Prop) C R (f : st -> res (A * st)) w i m :
  wf_world_ P w -> stas w !! i = Some m ->
  (forall s, wf_st s -> sm s = m -> au s = auth w -> runs (f s) (fun '(a, s') =>
    wf_st s' /\ moved C s s' /\ R a (sm s') /\ Q i (sm s'))) ->
  (forall j m, j <> i -> P j m -> Q j m) ->
  runs (ask_sta i f w) (fun '(a, w') => wf_world_ Q w' /\ touches i C w w' /\
    exists m', stas w' !! i = Some m' /\ R a m').
Proof.
  intros Hw Hi Hf HPQ. destruct (load_ok P w i m Hw Hi) as (g & Hg & Hig & Hl & Hs).
  unfold ask_sta. rewrite (bind_eq _ _ _ Hl). rstep (by apply Hf) as [a s'] Hs'. apply runs_ret.
  destruct Hs' as (Hs' & Hmv & HR & HQ).
  destruct (save_wf P Q C w i m g s' Hw Hi Hg Hs' Hmv) as [Hw' Ht]; [done|done|].
  split; [done|]. split; [done|]. exists (sm s').
  cbn [save auth groups stas sta_list put put_sta put_group sm]. by rewrite lookup_insert_eq.
Qed.

(** An assignment to station [i] alone. *)
Lemma upd_sta_runs (P Q : nat -> Sm.wpa_state_machine -> Prop) f w i m :
  wf_world_ P w -> stas w !! i = Some m -> wf_sm (auth w) (f m) ->
  Sm.group (f m) = Sm.group m -> Sm.pending_deinit (f m) = Sm.pending_deinit m ->
  Q i (f m) -> (forall j m, j <> i -> P j m -> Q j m) ->
  upd_sta i f w = Ok (put_sta i (f m) w) /\ wf_world_ Q (put_sta i (f m) w).
Proof.
  intros [Ha Hh Hc Hgs Hst Hl] Hi Hwf Hgr Hpd HQ HPQ. split.
  { unfold upd_sta. by rewrite (the_sta_ok _ _ _ Hi). }
  split; cbn [auth groups stas sta_list put put_sta]; try done.
  - intros j m' Hj. destruct (decide (j = i)) as [->|Hne].
    + rewrite lookup_insert_eq in Hj. injection Hj as <-. destruct (Hst i m Hi).
      split; [done|by rewrite Hgr|by rewrite Hpd|done].
    + rewrite lookup_insert_ne in Hj by done. destruct (Hst j m' Hj). split; auto.
  - eapply Forall_impl; [exact Hl|]. cbn beta. intros j Hj.
    eapply same_dom; [|exact Hj]. symmetry. by apply dom_insert_same.
Qed.

Lemma put_sta_touches C i m' w :
  (forall m, stas w !! i = Some m -> Sm.group m' = Sm.group m /\
    Sm.GUpdateStationKeys m' = Sm.GUpdateStationKeys m) -> is_Some (stas w !! i) ->
  touches i C w (put_sta i m' w).
Proof.
  intros H [m Hm]. destruct (H m Hm) as [H1 H2].
  split; cbn [auth groups stas sta_list put put_sta fresh_loc wlog]; try done; [|intros; split; congruence| |apply log_ext_refl].
  - intros j Hj. by rewrite lookup_insert_ne.
  - intros g. unfold waits_in. cbn [stas put put_sta]. by rewrite lookup_insert_eq, Hm, H1, H2.
Qed.

(** An assignment to a group that keeps it idle. *)
Lemma put_group_wf P w g gr gr' : wf_world_ P w -> groups w !! g = Some gr ->
  idle_group gr' -> Group.next gr' = Group.next gr -> wf_world_ P (put_group g gr' w).
Proof.
  intros [Ha [h [Hh Hhs]] [lc [Hc Hnd]] Hgs Hst Hl] Hg Hi Hn.
  assert (dom (<[g := gr']> (groups w)) = dom (groups w)) as Hdom by by apply dom_insert_same.
  split; cbn [auth groups stas sta_list put put_group]; try done.
  - exists h. split; [done|]. by eapply same_dom.
  - exists lc. split; [|done]. by eapply chain_insert.
  - by apply map_Forall_insert_2.
  - intros j m Hj. destruct (Hst j m Hj). split; try done. by eapply same_dom.
Qed.

Lemma put_group_touches C i w g gr gr' : groups w !! g = Some gr ->
  Group.next gr' = Group.next gr -> Group.vlan_id gr' = Group.vlan_id gr ->
  Group.GKeyDoneStations gr' = Group.GKeyDoneStations gr -> touches i C w (put_group g gr' w).
Proof.
  intros Hg Hn Hv Hd. split; cbn [auth groups stas sta_list put put_group fresh_loc wlog]; try done;
    [by apply dom_insert_same| | |apply log_ext_refl].
  - intros j gj gj' Hj Hj'. destruct (decide (j = g)) as [->|Hne].
    + rewrite lookup_insert_eq in Hj'. by simplify_eq.
    + rewrite lookup_insert_ne in Hj' by done. by simplify_eq.
  - intros j. unfold done_count, waits_in. cbn [groups stas put put_group].
    destruct (decide (j = g)) as [->|Hne].
    + rewrite lookup_insert_eq, Hg. lia.
    + by rewrite lookup_insert_ne.
Qed.

Lemma upd_group_runs P C i f w g gr : wf_world_ P w -> groups w !! g = Some gr ->
  idle_group (f gr) -> Group.next (f gr) = Group.next gr -> Group.vlan_id (f gr) = Group.vlan_id gr ->
  Group.GKeyDoneStations (f gr) = Group.GKeyDoneStations gr ->
  upd_group g f w = Ok (put_group g (f gr) w) /\ wf_world_ P (put_group g (f gr) w) /\
  touches i C w (put_group g (f gr) w).
Proof.
  intros Hw Hg Hi Hn Hv Hd. split; [unfold upd_group; by rewrite (the_group_ok _ _ _ Hg)|].
  split; [by eapply put_group_wf|by eapply put_group_touches].
Qed.

(** ** The group key machine of an idle group *)

(** The machine of a group that is not told anything gets to SETKEYSDONE. *)
Definition pending_keys (g : Group.wpa_group) : nat :=
  if decide (Group.wpa_group_state g = WPA_GROUP_SETKEYSDONE) then 0 else 1.

Lemma setkeysdone_runs P i w g gr : wf_world_ P w -> groups w !! g = Some gr ->
  runs (group_setkeysdone g w) (fun w' => wf_world_ P w' /\ touches i plain w w' /\
    stas w' = stas w /\ exists gr', groups w' !! g = Some gr' /\ pending_keys gr' = 0%nat /\
    forall j, j <> g -> groups w' !! j = groups w !! j).
Proof.
  intros Hw Hg. unfold group_setkeysdone, on_group. rewrite (bind_eq _ _ _ (the_group_ok _ _ _ Hg)).
  unfold wpa_group_setkeysdone. cbv zeta. set (gr1 := (gr <| Group.changed := true |>) <| Group.wpa_group_state := _ |>).
  pose proof (w_groups _ _ Hw _ _ Hg) as [Hwf Hi1 Hi2 Hi3].
  assert (wf_gr gr1) as Hwf1 by (destruct Hwf; by split).
  destruct (config_group_keys_runs (auth w) gr1 (wlog w) Hwf1) as (r & l & Heq & Hlog).
  rewrite (bind_eq _ _ _ Heq). cbn [mbind res_bind mret res_ret]. apply runs_ret.
  destruct (upd_group_runs P plain i (fun _ => gr1) w g gr Hw Hg) as (_ & Hw1 & Ht1); try done.
  split; [exact (wf_world_log _ _ l Hw1)|]. split.
  { destruct Ht1. split; try done. eapply log_ext_weaken; [apply quiet_group_plain|done]. }
  split; [done|]. exists gr1. cbn [groups put put_group]. rewrite lookup_insert_eq.
  split; [done|]. split; [done|]. intros j Hj. by rewrite lookup_insert_ne.
Qed.

(** What a step of the group machine made of group [g]. *)
Record group_stepped (g : nat) (w w' : world) : Prop := {
  gs_stas : stas w' = stas w;
  gs_others : forall j, j <> g -> groups w' !! j = groups w !! j;
  gs_moves : forall gr gr', groups w !! g = Some gr -> groups w' !! g = Some gr' ->
    gr' = gr \/ (pending_keys gr' < pending_keys gr)%nat;
}.

Lemma group_sm_step_runs P i step w g gr : wf_world_ P w -> groups w !! g = Some gr ->
  runs (wpa_group_sm_step step g w) (fun w' => wf_world_ P w' /\ touches i plain w w' /\
    group_stepped g w w').
Proof.
  intros Hw Hg. unfold wpa_group_sm_step. rewrite (bind_eq _ _ _ (the_group_ok _ _ _ Hg)).
  pose proof (w_groups _ _ Hw _ _ Hg) as [Hwf Hi1 Hi2 Hi3]. rewrite Hi1, Hi2, !andb_false_r.
  assert (Group.wpa_group_state gr <> WPA_GROUP_SETKEYSDONE ->
    runs (group_setkeysdone g w) (fun w' => wf_world_ P w' /\ touches i plain w w' /\
    group_stepped g w w')) as Hstep.
  { intros Hne. eapply runs_weaken; [by apply (setkeysdone_runs P i w g gr)|].
    intros w' (H1 & H2 & H3 & gr' & Hg' & Hp & H4). split; [exact H1|]. split; [exact H2|].
    split; [exact H3|exact H4|]. clear H1 H2. intros g1 g2 H1 H2. simplify_eq. right. rewrite Hp.
    unfold pending_keys. rewrite decide_False by done. lia. }
  assert (runs (mret w) (fun w' => wf_world_ P w' /\ touches i plain w w' /\ group_stepped g w w'))
    as Hstay.
  { apply runs_ret. split; [done|]. split; [apply touches_refl|]. split; [done|done|].
    intros g1 g2 H1 H2. simplify_eq. by left. }
  destruct (Group.wpa_group_state gr) eqn:Hst; cbn [bool_decide decide andb].
  - done.
  - cbn. destruct (_ =? 0); [by apply Hstep|done].
  - done.
Qed.

(** ** A round of the loop *)

(** Station [i] in its loop: ready, and marked. *)
Definition looping (m : Sm.wpa_state_machine) : Prop := ready (ctl_of m) /\ Sm.in_step_loop m = true.

(** The calls a station may make: to let it in it must have answered. *)
Definition admits (m : Sm.wpa_state_machine) : call -> Prop :=
  if completes m then lets_in m else plain.

Lemma but_self i (Q : Sm.wpa_state_machine -> Prop) m : Q m -> but i Q i m.
Proof. unfold but. by rewrite decide_True. Qed.
Lemma but_inv i (Q : Sm.wpa_state_machine -> Prop) m : but i Q i m -> Q m.
Proof. unfold but. by rewrite decide_True. Qed.
Lemma but_other i (Q Q' : Sm.wpa_state_machine -> Prop) j m : j <> i -> but i Q j m -> but i Q' j m.
Proof. unfold but. intros. by rewrite decide_False in * by done. Qed.

Lemma wf_world_sta P w i m : wf_world_ P w -> stas w !! i = Some m -> wf_sta w (P i) m.
Proof. intros Hw. by apply (w_stas _ _ Hw). Qed.

(** The group of a station. *)
Definition group_of (w : world) (m : Sm.wpa_state_machine) (g : Group.wpa_group) : Prop :=
  groups w !! Sm.group m = Some g.

Lemma group_step_ready c : ready c -> rcvd c && for_ptk c = false -> ready (a_group_step c).
Proof.
  intros [Hc Hr] Hp. split; [by apply (a_group_step_outcome c Hc)|by apply a_group_step_readable].
Qed.

(** The step of WPA_PTK of a round, after [changed] was reset. *)
Lemma ptk_half w i m : wf_world_ (but i looping) w -> stas w !! i = Some m -> Sm.changed m = false ->
  runs (on_sta i sm_WPA_PTK_Step w) (fun w' => wf_world_ (but i looping) w' /\
    touches i (admits m) w w' /\ exists m' inp, stas w' !! i = Some m' /\ same_sta m m' /\
    ctl_of m' = a_ptk_step inp (ctl_of m) /\ steady w w').
Proof.
  intros Hw Hi Hch. destruct (wf_world_sta _ _ _ _ Hw Hi) as [_ _ _ [[Hc Hr] Hin]%but_inv].
  eapply runs_weaken; [eapply (on_sta_runs _ (but i looping) (admits m)
    (fun m1 => exists inp, ctl_of m1 = a_ptk_step inp (ctl_of m)) _ w i m Hw Hi)|].
  - intros s Hs Hsm. eapply runs_weaken; [by apply ptk_step_branch|]. rewrite Hsm.
    intros s' (inp & H1 & H2 & H3). split_and!; [done|exact H2|by exists inp].
  - intros m' [inp E] Hsame. apply but_self. split; [|by rewrite (ss_in_step _ _ Hsame)].
    rewrite E. split; [by apply a_ptk_step_outcome|by apply a_ptk_step_readable].
  - intros. by eapply but_other.
  - intros w1 (H1 & H2 & m1 & H3 & H4 & [inp H5] & H6). split; [done|]. split; [done|].
    by exists m1, inp.
Qed.

(** ... and the step of WPA_PTK_GROUP. *)
Lemma group_half w i m : wf_world_ (but i looping) w -> stas w !! i = Some m ->
  rcvd (ctl_of m) && for_ptk (ctl_of m) = false ->
  runs (on_sta i sm_WPA_PTK_GROUP_Step w) (fun w' => wf_world_ (but i looping) w' /\
    touches i plain w w' /\ exists m', stas w' !! i = Some m' /\ same_sta m m' /\
    ctl_of m' = a_group_step (ctl_of m) /\ steady w w').
Proof.
  intros Hw Hi Hread. destruct (wf_world_sta _ _ _ _ Hw Hi) as [_ _ _ [Hr Hin]%but_inv].
  eapply runs_weaken; [eapply (on_sta_runs _ (but i looping) plain
      (fun m2 => ctl_of m2 = a_group_step (ctl_of m)) _ w i m Hw Hi)|].
  - intros s Hs Hsm. eapply runs_weaken; [by apply group_step_branch|]. rewrite Hsm.
    intros s' (_ & H2 & H3 & H4). split_and!; [done|exact H3|done].
  - intros m' E Hsame. apply but_self. split; [rewrite E; by apply group_step_ready|].
    by rewrite (ss_in_step _ _ Hsame).
  - intros. by eapply but_other.
  - intros w1 (H1 & H2 & m1 & H3 & H4 & H5 & H6). split; [done|]. split; [done|].
    by exists m1.
Qed.

(** The outcome of a round: the abstract round of the control part, and another
    round only after progress. *)
Record rounded (i : nat) (w : world) (m : Sm.wpa_state_machine) (more : bool) (w' : world)
    (m' : Sm.wpa_state_machine) : Prop := {
  ro_wf : wf_world_ (but i looping) w';
  ro_touches : touches i (admits m) w w';
  ro_sta : stas w' !! i = Some m';
  ro_same : same_sta m m';
  ro_ctl : exists inp, ctl_of m' = a_round inp (ctl_of m);
  ro_keys : forall g g', group_of w m g -> group_of w' m g' ->
    (pending_keys g' <= pending_keys g)%nat /\
    (more = true -> changed (ctl_of m') = true \/ (pending_keys g' < pending_keys g)%nat);
  ro_end : more = false -> changed (ctl_of m') = false;
}.

(** [sm->changed = FALSE;] and [group->changed = FALSE;] *)
Definition unchanged (m : Sm.wpa_state_machine) : Sm.wpa_state_machine := m <| Sm.changed := false |>.
Definition gunchanged (g : Group.wpa_group) : Group.wpa_group := g <| Group.changed := false |>.

Lemma step_round_runs step w i m : wf_world_ (but i looping) w -> stas w !! i = Some m ->
  runs (step_round step i w) (fun '(more, w') => exists m', rounded i w m more w' m').
Proof.
  intros Hw Hi. destruct (wf_world_sta _ _ _ _ Hw Hi) as [Hwf [g Hg] Hpd Hp].
  apply but_inv in Hp as Hp'. destruct Hp' as [Hready Hin].
  unfold step_round. rewrite (bind_eq _ _ _ (the_sta_ok _ _ _ Hi)), Hpd.
  destruct (upd_sta_runs (but i looping) (but i looping) unchanged w i m Hw Hi) as [Hu Hw0]; try done.
  { eapply wf_sm_update; [exact Hwf|try done..]; apply Hwf. }
  { apply but_self. split; [|done]. destruct Hready as [[] Hr]. by split; [split|]. }
  rewrite (bind_eq _ _ _ Hu). set (m0 := unchanged m) in *. set (w0 := put_sta i m0 w) in *.
  assert (stas w0 !! i = Some m0) as Hi0 by apply lookup_insert_eq.
  assert (touches i (admits m) w w0) as Ht0.
  { apply put_sta_touches; [|done]. intros m1 Hm1. by simplify_eq. }
  destruct (w_head _ _ Hw0) as (h & Hh & [gh Hgh]). rewrite (bind_eq _ _ _ (head_group_ok _ _ Hh)).
  destruct (upd_group_runs _ (admits m) i gunchanged w0 h gh Hw0 Hgh)
    as (Hug & Hw1 & Ht1); try done.
  { destruct (w_groups _ _ Hw0 _ _ Hgh) as [[] ? ? ?]. by split; [split|..]. }
  rewrite (bind_eq _ _ _ Hug). set (w1 := put_group h (gunchanged gh) w0) in *.
  assert (stas w1 !! i = Some m0) as Hi1 by exact Hi0.
  assert (groups w1 !! h = Some (gunchanged gh)) as Hgh1 by apply lookup_insert_eq.
  assert (exists g1, groups w1 !! Sm.group m = Some g1 /\ pending_keys g1 = pending_keys g)
    as (g1 & Hg1 & Hp1).
  { cbn [groups put put_group w1]. destruct (decide (h = Sm.group m)) as [->|Hne].
    - rewrite lookup_insert_eq. change (groups w !! Sm.group m = Some gh) in Hgh.
      assert (gh = g) as -> by congruence. by exists (gunchanged g).
    - rewrite lookup_insert_ne by done. by exists g. }
  rstep (by apply (ptk_half w1 i m0 Hw1 Hi1)) as w2 H2.
  destruct H2 as (Hw2 & Ht2 & m2 & inp & Hi2 & Hs2 & E2 & Hst2).
  rewrite (bind_eq _ _ _ (the_sta_ok _ _ _ Hi2)), (ss_pending _ _ Hs2).
  change (Sm.pending_deinit m0) with (Sm.pending_deinit m). rewrite Hpd.
  assert (changed (ctl_of m0) = false) as Hch0 by done.
  assert (rcvd (ctl_of m2) && for_ptk (ctl_of m2) = false) as Hread.
  { rewrite E2. apply (a_ptk_step_readable inp (ctl_of m0)). apply Hready. }
  rstep (by apply (group_half w2 i m2 Hw2 Hi2)) as w3 H3.
  destruct H3 as (Hw3 & Ht3 & m3 & Hi3 & Hs3 & E3 & Hst3).
  rewrite (bind_eq _ _ _ (the_sta_ok _ _ _ Hi3)), (ss_pending _ _ Hs3), (ss_pending _ _ Hs2).
  change (Sm.pending_deinit m0) with (Sm.pending_deinit m). rewrite Hpd.
  assert (Sm.group m3 = Sm.group m) as Hgm3 by (by rewrite (ss_group _ _ Hs3), (ss_group _ _ Hs2)).
  assert (forall j x, groups w1 !! j = Some x -> exists y, groups w3 !! j = Some y /\
    Group.wpa_group_state y = Group.wpa_group_state x /\ Group.changed y = Group.changed x) as Hst.
  { intros j x Hx. destruct (groups w2 !! j) as [y|] eqn:Hy.
    2: { exfalso. apply not_elem_of_dom in Hy. apply Hy. rewrite (t_dom _ _ _ _ Ht2). by apply elem_of_dom. }
    destruct (groups w3 !! j) as [z|] eqn:Hz.
    2: { exfalso. apply not_elem_of_dom in Hz. apply Hz. rewrite (t_dom _ _ _ _ Ht3). by apply elem_of_dom. }
    exists z. destruct (Hst2 j x y Hx Hy), (Hst3 j y z Hy Hz). split; [done|]. split; congruence. }
  destruct (Hst _ _ Hg1) as (g3 & Hg3 & Hgs3 & _). destruct (Hst _ _ Hgh1) as (gh3 & Hgh3 & _ & Hghc3).
  rewrite Hgm3. rstep (by apply (group_sm_step_runs (but i looping) i step w3 (Sm.group m) g3)) as w4 H4.
  destruct H4 as (Hw4 & Ht4 & [Hstas4 Hoth4 Hmov4]).
  assert (stas w4 !! i = Some m3) as Hi4 by (by rewrite Hstas4).
  rewrite (bind_eq _ _ _ (the_sta_ok _ _ _ Hi4)).
  assert (Auth.group (auth w4) = Some h) as Hh4.
  { rewrite (sa_group _ _ (t_auth _ _ _ _ Ht4)), (sa_group _ _ (t_auth _ _ _ _ Ht3)).
    rewrite (sa_group _ _ (t_auth _ _ _ _ Ht2)). exact Hh. }
  rewrite (bind_eq _ _ _ (head_group_ok _ _ Hh4)).
  destruct (same_dom (groups w3) (groups w4) h) as [gh4 Hgh4]; [by rewrite (t_dom _ _ _ _ Ht4)|done|].
  rewrite (bind_eq _ _ _ (the_group_ok _ _ _ Hgh4)). apply runs_ret. exists m3.
  assert (forall c, plain c -> admits m c) as Hplain.
  { unfold admits. intros c Hc. destruct (completes m); [by left|done]. }
  split; [done| |done| | | |].
  - do 2 (eapply touches_trans; [eassumption|]). eapply touches_trans; [exact Ht2|].
    eapply touches_trans; eapply touches_weaken; eassumption.
  - eapply same_sta_trans; [|exact Hs3]. eapply same_sta_trans; [|exact Hs2]. by split.
  - exists inp. rewrite E3, E2. done.
  - unfold group_of. intros ga gb Ha Hb. assert (ga = g) as -> by congruence.
    assert (pending_keys g3 = pending_keys g) as Hp3
      by (rewrite <- Hp1; unfold pending_keys; by rewrite Hgs3).
    rewrite <- Hp3. destruct (Hmov4 g3 gb Hg3 Hb) as [->|Hlt]; [|split; [lia|by right]].
    split; [lia|]. intros [Hc|Hc]%orb_prop; [by left|]. exfalso.
    assert (Group.changed gh3 = true); [|by rewrite Hghc3 in *].
    destruct (decide (h = Sm.group m)) as [->|Hne].
    + rewrite Hg3 in Hgh3. congruence.
    + rewrite (Hoth4 h Hne) in Hgh4. congruence.
  - intros [Hc _]%orb_false_elim. exact Hc.
Qed.

(** ** The loop *)

Lemma nothing_read_admits m : nothing_read (ctl_of m) = true -> admits m = plain.
Proof.
  unfold nothing_read, admits, completes. rewrite key_received_ptk. intros H.
  apply andb_prop in H as [H _]. apply negb_true_iff in H. rewrite H.
  by rewrite andb_false_r.
Qed.

Lemma plain_admits m c : plain c -> admits m c.
Proof. unfold admits. intros Hc. destruct (completes m); [by left|done]. Qed.

(** The rounds a station may still need. *)
Definition rounds_left (c : ctl) (g : Group.wpa_group) : nat :=
  Z.to_nat (rank c) + pending_keys g.

(** The outcome of the loop. *)
Record looped (i : nat) (w : world) (m : Sm.wpa_state_machine) (w' : world)
    (m' : Sm.wpa_state_machine) : Prop := {
  lp_wf : wf_world_ (but i looping) w';
  lp_touches : touches i (admits m) w w';
  lp_sta : stas w' !! i = Some m';
  lp_same : same_sta m m';
  lp_ctl : loops (ctl_of m) (ctl_of m');
}.

Lemma step_loop_runs step rounds w i m g : wf_world_ (but i looping) w -> stas w !! i = Some m ->
  group_of w m g -> (rounds_left (ctl_of m) g < rounds)%nat ->
  runs (step_loop step rounds i w) (fun w' => exists m', looped i w m w' m').
Proof.
  revert w m g. induction rounds as [|rounds IH]; intros w m g Hw Hi Hg Hn; [lia|].
  cbn [step_loop]. rstep (by apply step_round_runs) as [more w1] H1.
  destruct H1 as (m1 & [Hw1 Ht1 Hi1 Hs1 [inp Ec] Hk1 He1]).
  destruct (wf_world_sta _ _ _ _ Hw Hi) as [_ _ _ [Hready _]%but_inv].
  destruct (wf_world_sta _ _ _ _ Hw1 Hi1) as [_ [g1 Hg1] _ _]. rewrite (ss_group _ _ Hs1) in Hg1.
  destruct more.
  - destruct (Hk1 g g1 Hg Hg1) as [Hle Hmore]. destruct (a_round_ready inp _ Hready) as [_ Hnr].
    rewrite <- Ec in Hnr. destruct (a_round_rank inp _ (proj1 Hready)) as (_ & _ & Hr1 & Hr2).
    rewrite <- Ec in Hr1, Hr2. pose proof (rank_range (ctl_of m1)). pose proof (rank_range (ctl_of m)).
    eapply runs_weaken; [eapply (IH w1 m1 g1 Hw1 Hi1)|].
    + unfold group_of. by rewrite (ss_group _ _ Hs1).
    + unfold rounds_left in *. destruct (Hmore eq_refl) as [Hc|Hlt]; [specialize (Hr2 Hc)|]; lia.
    + intros w' (m' & [Hw' Ht' Hi' Hs' Hl']). exists m'. split; [done| |done| |].
      * eapply touches_trans; [exact Ht1|]. eapply touches_weaken; [|exact Ht'].
        rewrite (nothing_read_admits m1 Hnr). apply plain_admits.
      * by eapply same_sta_trans.
      * eapply (loops_more inp). by rewrite <- Ec.
  - apply runs_ret. exists m1. split; try done. rewrite Ec. apply loops_end. rewrite <- Ec. by apply He1.
Qed.

(** ** [wpa_sm_step] *)

(** The station to step, any flag of it set. *)
Definition to_step (m : Sm.wpa_state_machine) : Prop :=
  ready (ctl_of m) /\ Sm.in_step_loop m = false.
(** ... and a station that was stepped: at rest, unless it was initialised. *)
Definition stepped_from (c : ctl) (m : Sm.wpa_state_machine) : Prop :=
  loops c (ctl_of m) /\ ready (ctl_of m) /\ nothing_read (ctl_of m) = true /\
  init (ctl_of m) = init c /\ (init c = false -> at_rest m) /\ Sm.in_step_loop m = false.

(** The outcome of [wpa_sm_step] for station [i]. *)
Record sm_stepped (i : nat) (w : world) (m : Sm.wpa_state_machine) (w' : world)
    (m' : Sm.wpa_state_machine) : Prop := {
  sd_wf : wf_world_ (but i (stepped_from (ctl_of m))) w';
  sd_touches : touches i (admits m) w w';
  sd_sta : stas w' !! i = Some m';
  sd_same : same_sta m m';
  sd_from : stepped_from (ctl_of m) m';
}.

Definition mark (b : bool) (m : Sm.wpa_state_machine) : Sm.wpa_state_machine :=
  m <| Sm.in_step_loop := b |>.

Lemma wf_sm_mark a b m : wf_sm a m -> wf_sm a (mark b m).
Proof. intros H. eapply wf_sm_update; [exact H|try done..]; apply H. Qed.

Lemma mark_touches i b m w : stas w !! i = Some m -> touches i (admits m) w (put_sta i (mark b m) w).
Proof. intros Hi. apply put_sta_touches; [|done]. intros m1 Hm1. by simplify_eq. Qed.

Lemma rounds_enough c g : (rounds_left c g < step_rounds)%nat.
Proof.
  unfold rounds_left, step_rounds, pending_keys. pose proof (rank_range c). case_decide; lia.
Qed.

Lemma sm_step_runs depth w i m : wf_world_ (but i to_step) w -> stas w !! i = Some m ->
  runs (sm_step (S depth) i w) (fun '(r, w') => r = 0 /\ exists m', sm_stepped i w m w' m').
Proof.
  intros Hw Hi. destruct (wf_world_sta _ _ _ _ Hw Hi) as [Hwf [g Hg] Hpd [Hready Hin]%but_inv].
  cbn [sm_step]. rewrite (bind_eq _ _ _ (the_sta_ok _ _ _ Hi)), Hin.
  destruct (upd_sta_runs (but i to_step) (but i looping) (mark true) w i m Hw Hi) as [Hu Hw0]; try done.
  { by apply wf_sm_mark. } { by apply but_self. } { intros. by eapply but_other. }
  rewrite (bind_eq _ _ _ Hu). set (w0 := put_sta i (mark true m) w) in *.
  assert (stas w0 !! i = Some (mark true m)) as Hi0 by apply lookup_insert_eq.
  pose proof (mark_touches i true m w Hi : touches i (admits m) w w0) as Ht0.
  rstep (apply (step_loop_runs _ _ w0 i (mark true m) g Hw0 Hi0); [done|apply rounds_enough]) as w1 H1.
  destruct H1 as (m1 & [Hw1 Ht1 Hi1 Hs1 Hl1]). change (ctl_of (mark true m)) with (ctl_of m) in Hl1.
  destruct (wf_world_sta _ _ _ _ Hw1 Hi1) as [Hwf1 [g1 Hg1] Hpd1 _].
  destruct (loops_ready _ _ Hready Hl1) as [Hr1 Hn1].
  assert (stepped_from (ctl_of m) (mark false m1)) as Hfrom.
  { split; [done|]. split; [done|]. split; [done|]. split; [apply (loops_init _ _ (proj1 Hready) Hl1)|].
    split; [|done]. intros Hinit. split; [|done]. apply (loops_rest (ctl_of m)); [done|exact Hinit|exact Hl1]. }
  destruct (upd_sta_runs (but i looping) (but i (stepped_from (ctl_of m))) (mark false) w1 i m1 Hw1 Hi1)
    as [Hu1 Hw2]; try done.
  { by apply wf_sm_mark. } { by apply but_self. } { intros. by eapply but_other. }
  rewrite (bind_eq _ _ _ Hu1). set (w2 := put_sta i (mark false m1) w1) in *.
  assert (stas w2 !! i = Some (mark false m1)) as Hi2 by apply lookup_insert_eq.
  rewrite (bind_eq _ _ _ (the_sta_ok _ _ _ Hi2)). change (Sm.pending_deinit (mark false m1)) with (Sm.pending_deinit m1).
  rewrite Hpd1. apply runs_ret. split; [done|]. exists (mark false m1).
  split; [done| |done| |done].
  - eapply touches_trans; [exact Ht0|]. eapply touches_trans; [exact Ht1|].
    apply put_sta_touches; [|done]. intros m3 Hm3. by simplify_eq.
  - destruct Hs1. by split.
Qed.

(** Outside the loop of another station, [wpa_sm_step] brings a station to rest. *)
Lemma wpa_sm_step_runs w i m : wf_world_ (but i to_step) w -> stas w !! i = Some m ->
  runs (wpa_sm_step i w) (fun '(r, w') => r = 0 /\ exists m', sm_stepped i w m w' m').
Proof. apply sm_step_runs. Qed.

Lemma stepped_wf_world i w m w' m' : sm_stepped i w m w' m' -> init (ctl_of m) = false -> wf_world w'.
Proof.
  intros [Hw Ht Hi Hs Hf] Hinit. eapply wf_world_weaken; [|exact Hw]. intros j mj Hj.
  unfold but. case_decide as E; [|done]. subst j. intros (_ & _ & _ & _ & H & _). auto.
Qed.
End world.
