(* ===== verification/WpaAuthRx.v ===== *)
(** * The reception of an EAPOL-Key frame

    What [wpa_receive] checks before it believes a frame, what is known of a
    frame that is accepted, and what it leaves for the machines to read. *)

From stdpp Require Import gmap.
From S2P Require Import Prelude CommonUtils EapI WpaCommon Pmksa PmksaProps WpaAuthI.
From S2P Require Import WpaAuthIe WpaIeProps WpaAuthSm WpaAuthWf WpaAuthCtl WpaAuthRest.
From S2P Require Import WpaAuthRef WpaAuthRun WpaAuth WpaAuthWorld.

(** A frame that passed the checks of station [m]. *)
Record accepted `{Crypto} (m : Sm.wpa_state_machine) (data : list Z) (key_info key_data_length : Z) : Prop := {
  ac_info : WPA_GET_BE16 data o_key_info = Ok key_info;
  ac_n : WPA_GET_BE16 data o_key_data_length = Ok key_data_length;
  ac_len : 0 <= key_data_length <= zlen data - key_header_len;
  ac_replay : has_bits key_info WPA_KEY_INFO_REQUEST = false ->
    exists rc, rd_n data o_replay_counter WPA_REPLAY_COUNTER_LEN = Ok rc /\
      wpa_replay_counter_valid m rc = true;
  ac_msg :
    match classify_msg key_info key_data_length with
    | PAIRWISE_2 => Sm.wpa_ptk_state m = WPA_PTK_PTKSTART \/
        Sm.wpa_ptk_state m = WPA_PTK_PTKCALCNEGOTIATING
    | PAIRWISE_4 => Sm.wpa_ptk_state m = WPA_PTK_PTKINITNEGOTIATING /\ Sm.PTK_valid m = true
    | GROUP_2 => Sm.wpa_ptk_group_state m = WPA_PTK_GROUP_REKEYNEGOTIATING /\ Sm.PTK_valid m = true
    | REQUEST => True
    | _ => False
    end;
  ac_mic : Sm.PTK_valid m = true -> wpa_verify_key_mic (Sm.PTK m) data (zlen data) = Ok 0;
}.

Section receive.
Context {cr : Crypto} {c_laws : CryptoLaws cr} {o : Owner} {o_laws : OwnerLaws o}.

(** What the checks change of the local state: [MICVerified], two flags of the
    group, and the log. *)
Record checked (b : bool) (s s' : st) : Prop := {
  ck_sm : sm s' = (sm s) <| Sm.MICVerified := b |>;
  ck_au : au s' = au s;
  ck_gr : wf_gr (gr s) -> wf_gr (gr s') /\ same_group (gr s) (gr s');
  ck_log : log_ext plain (lg s) (lg s');
}.

Lemma same_mic (m : Sm.wpa_state_machine) : m = m <| Sm.MICVerified := Sm.MICVerified m |>.
Proof. done. Qed.

Lemma checked_refl s : checked (Sm.MICVerified (sm s)) s s.
Proof. split; try done. apply log_ext_refl. Qed.
Lemma checked_trans b1 b2 s1 s2 s3 : checked b1 s1 s2 -> checked b2 s2 s3 -> checked b2 s1 s3.
Proof.
  intros [A1 B1 C1 D1] [A2 B2 C2 D2]. split; [by rewrite A2, A1|congruence| |by eapply log_ext_trans].
  intros H. destruct (C1 H) as [H1 H2], (C2 H1) as [H3 H4]. split; [done|by eapply same_group_trans].
Qed.
Lemma checked_emit c s : plain c -> checked (Sm.MICVerified (sm s)) s (emit c s).
Proof. intros. split; try done. by apply log_ext_cons. Qed.

(** The element saved at association, compared with the one in the frame. *)
Lemma same_ie_runs m kdata len kde : (forall ie, Sm.wpa_ie m = Some ie -> 0 <= Sm.wpa_ie_len m <= zlen ie) ->
  len <= zlen kdata -> kde_inside len kde -> runs (same_ie m kdata kde) (fun _ => True).
Proof.
  intros Hie Hl Hk. unfold same_ie. destruct (Sm.wpa_ie m) as [ie|]; [|by apply runs_ret].
  destruct (Hie ie eq_refl). rstep (apply rd_n_runs; lia) as d Hd.
  destruct Hk as (H1 & H2 & _). unfold area_inside in *.
  destruct (rsn_ie kde), (wpa_ie kde); try (by apply runs_ret);
    (rstep (apply rd_n_runs; lia) as d2 Hd2); by apply runs_ret.
Qed.

Lemma bytes_drop n l : bytes l -> bytes (drop n l).
Proof. apply Forall_drop. Qed.

(** The switch over the kind of message. *)
Lemma check_msg_runs msg data n s : wf_st s -> bytes data -> 0 <= n <= zlen data - key_header_len ->
  runs (check_msg msg data n s) (fun '(go, s') => checked (Sm.MICVerified (sm s)) s s' /\
    (go = true -> match msg with
    | PAIRWISE_2 => Sm.wpa_ptk_state (sm s) = WPA_PTK_PTKSTART \/
        Sm.wpa_ptk_state (sm s) = WPA_PTK_PTKCALCNEGOTIATING
    | PAIRWISE_4 => Sm.wpa_ptk_state (sm s) = WPA_PTK_PTKINITNEGOTIATING /\ Sm.PTK_valid (sm s) = true
    | GROUP_2 => Sm.wpa_ptk_group_state (sm s) = WPA_PTK_GROUP_REKEYNEGOTIATING /\
        Sm.PTK_valid (sm s) = true
    | REQUEST => True
    | _ => False
    end)).
Proof.
  unfold key_header_len, sizeof_ieee802_1x_hdr, sizeof_wpa_eapol_key. intros Hs Hb Hn.
  pose proof (checked_refl s) as Hrefl. unfold check_msg. cbv zeta.
  destruct msg; try (by apply runs_ret).
  - destruct (negb _ && negb _) eqn:Hst; [by apply runs_ret|].
    rstep (apply rd_n_runs; unfold o_key_nonce, WPA_NONCE_LEN; lia) as nonce Hnonce.
    pose proof (checked_emit (CAddRandom nonce) s I) as H1. set (s1 := emit _ s) in *.
    assert (wf_gr (gr s1)) as Hg1 by apply Hs.
    destruct (Group.reject_4way_hs_for_entropy (gr s1)).
    + apply runs_ret. split; [|done]. split; [done|done| |].
      * intros _. destruct Hg1. by split; split.
      * by eexists [_; _; _]; split; [done|repeat constructor].
    + destruct (parse_kde_runs (drop (Z.to_nat o_key_data) data) n) as (r & kde & -> & Hkde);
        [by apply bytes_drop|unfold zlen, o_key_data in *; rewrite length_drop; lia|].
      cbn [mbind res_bind]. destruct (r <? 0); [by apply runs_ret|].
      rstep (eapply same_ie_runs; [apply Hs| |exact Hkde]) as same Hsame.
      { unfold zlen, o_key_data in *. rewrite length_drop. lia. }
      destruct same; cbn [negb]; apply runs_ret.
      * split; [done|]. intros _. apply andb_false_iff in Hst as [Hst|Hst];
          apply negb_false_iff, bool_decide_eq_true in Hst; auto.
      * split; [|done]. exact (checked_trans _ _ _ _ _ H1 (checked_emit (CDisconnect (my_addr s1)) s1 I)).
  - apply runs_ret. split; [done|]. intros [Hst Hv]%andb_prop. by apply bool_decide_eq_true in Hst.
  - apply runs_ret. split; [done|]. intros [Hst Hv]%andb_prop. by apply bool_decide_eq_true in Hst.
Qed.

(** The MIC of the frame, if there is a key. *)
Lemma check_mic_runs data s : wf_st s ->
  runs (check_mic data (zlen data) s) (fun '(go, s') => exists b, checked b s s' /\
    (b = true -> Sm.PTK_valid (sm s) = true) /\
    (go = true -> b = Sm.PTK_valid (sm s) /\
      (Sm.PTK_valid (sm s) = true -> wpa_verify_key_mic (Sm.PTK (sm s)) data (zlen data) = Ok 0))).
Proof.
  intros Hs. unfold check_mic. cbv zeta. set (s1 := s <| sm; Sm.MICVerified := false |>).
  assert (checked false s s1) as H1 by (split; try done; apply log_ext_refl).
  change (Sm.PTK_valid (sm s1)) with (Sm.PTK_valid (sm s)). change (Sm.PTK (sm s1)) with (Sm.PTK (sm s)).
  destruct (Sm.PTK_valid (sm s)) eqn:Hv; [|apply runs_ret; by exists false].
  destruct (verify_mic_runs (Sm.PTK (sm s)) data) as (r & Hr & _). rewrite (bind_eq _ _ _ Hr).
  destruct (Z.eqb_spec r 0) as [->|_]; cbn [negb]; apply runs_ret.
  - exists true. split; [|done]. split; [done|done|done|]. by apply log_ext_cons.
  - by exists false.
Qed.

Lemma BE16_runs data i : bytes data -> 0 <= i -> i + 1 < zlen data ->
  exists v, WPA_GET_BE16 data i = Ok v /\ 0 <= v < 65536.
Proof.
  intros Hb Hi Hl. unfold WPA_GET_BE16. rewrite !rd_ok by lia. cbn [mbind res_bind].
  eexists. split; [reflexivity|]. unfold u16. apply Z.mod_pos_bound. lia.
Qed.

(** The outcome of the checks. *)
Definition checks_outcome (data : list Z) (s : st) (acc : option (Z * Z)) (s' : st) : Prop :=
  exists b, checked b s s' /\
    (b = true -> Sm.PTK_valid (sm s) = true \/ Sm.MICVerified (sm s) = true) /\
    forall ki n, acc = Some (ki, n) -> b = Sm.PTK_valid (sm s) /\ accepted (sm s) data ki n.

Lemma dropped data s s' : checked (Sm.MICVerified (sm s)) s s' -> checks_outcome data s None s'.
Proof. intros H. exists (Sm.MICVerified (sm s)). split; [done|]. split; [by right|done]. Qed.

Lemma receive_checks_runs data s : wf_st s -> bytes data ->
  runs (receive_checks data (zlen data) s) (fun '(acc, s') => checks_outcome data s acc s').
Proof.
  intros Hs Hb. pose proof (checked_refl s) as Hrefl. unfold receive_checks. cbv zeta.
  destruct (_ =? 0); [by apply runs_ret, dropped|].
  destruct (Z.ltb_spec (zlen data) (sizeof_ieee802_1x_hdr + sizeof_wpa_eapol_key)) as [|Hlen];
    [by apply runs_ret, dropped|].
  unfold sizeof_ieee802_1x_hdr, sizeof_wpa_eapol_key in Hlen.
  destruct (BE16_runs data o_key_info) as (ki & Hki & Hkib); [done|done|unfold o_key_info; lia|].
  rewrite (bind_eq _ _ _ Hki).
  destruct (BE16_runs data o_key_data_length) as (n & Hn & Hnb); [done|done|unfold o_key_data_length; lia|].
  rewrite (bind_eq _ _ _ Hn).
  destruct (Z.ltb_spec (zlen data - sizeof_ieee802_1x_hdr - sizeof_wpa_eapol_key) n) as [|Hle];
    [by apply runs_ret, dropped|].
  assert (0 <= n <= zlen data - key_header_len) as Hrange
    by (unfold key_header_len, sizeof_ieee802_1x_hdr, sizeof_wpa_eapol_key in *; lia).
  rewrite rd_ok by (unfold o_type; lia). cbn [mbind res_bind].
  destruct (negb (_ =? _)); [by apply runs_ret, dropped|].
  destruct (negb (version_accepted _ _ _)); [by apply runs_ret, dropped|].
  destruct (rd_n_runs data o_replay_counter WPA_REPLAY_COUNTER_LEN) as (rc & Hrc & Hrcl);
    [done|done|unfold o_replay_counter, WPA_REPLAY_COUNTER_LEN; lia|]. rewrite (bind_eq _ _ _ Hrc).
  destruct (_ && (os_memcmp _ _ <=? 0)); [by apply runs_ret, dropped|].
  destruct (negb _ && negb (wpa_replay_counter_valid _ _)) eqn:Hrv; [by apply runs_ret, dropped|].
  rstep (by apply check_msg_runs) as [go s1] H1. destruct H1 as [H1 Hgo].
  destruct go; cbn [negb]; [|by apply runs_ret, dropped].
  destruct (has_bits ki WPA_KEY_INFO_ACK); [by apply runs_ret, dropped|].
  destruct (negb (has_bits ki WPA_KEY_INFO_MIC)); [by apply runs_ret, dropped|].
  assert (wf_st s1) as Hs1.
  { destruct Hs as [Hm Hg Ha], H1 as [E1 E2 Hg1 _]. split; [|by apply Hg1|by rewrite E2].
    rewrite E1, E2. eapply wf_sm_update; [exact Hm|try done..]; apply Hm. }
  rstep (by apply check_mic_runs) as [go s2] H2. apply runs_ret.
  destruct H2 as (b & H2 & Hb2 & Hgo2).
  assert (Sm.PTK_valid (sm s1) = Sm.PTK_valid (sm s)) as Ev by by rewrite (ck_sm _ _ _ H1).
  assert (Sm.PTK (sm s1) = Sm.PTK (sm s)) as Ep by by rewrite (ck_sm _ _ _ H1).
  rewrite Ev, Ep in *. exists b. split; [by eapply checked_trans|]. split; [auto|].
  intros ki' n' E. destruct go; [|done]. injection E as <- <-. destruct (Hgo2 eq_refl) as [-> Hmic].
  split; [done|]. split; [done|done|done| |by apply Hgo|done].
  intros Hreq. exists rc. split; [done|]. rewrite Hreq in Hrv. cbn [negb andb] in Hrv.
  by apply negb_false_iff in Hrv.
Qed.
End receive.
