(* ===== verification/WpaAuthEvents.v ===== *)
(** * What hostapd may call

    The timeouts, the events of a station, the rekeying of the groups and the
    reception of frames: each returns, within the fuel given, and leaves every
    station at rest and every group idle ([wf_world]). *)

From stdpp Require Import gmap.
From S2P Require Import Prelude CommonUtils EapI WpaCommon Pmksa PmksaProps WpaAuthI.
From S2P Require Import WpaAuthIe WpaIeProps WpaAuthSm WpaAuthWf WpaAuthCtl WpaAuthRest.
From S2P Require Import WpaAuthRef WpaAuthRun WpaAuth WpaAuthWorld WpaAuthRx.

(** What no call changes, but those that add or remove a station or a group. *)
Record keeps (P : call -> Prop) (w w' : world) : Prop := {
  k_auth : same_auth (auth w) (auth w');
  k_stas : forall i m, stas w !! i = Some m -> exists m', stas w' !! i = Some m' /\
    Sm.addr m' = Sm.addr m /\ Sm.group m' = Sm.group m;
  k_sdom : dom (stas w') = dom (stas w);
  k_dom : dom (groups w') = dom (groups w);
  k_next : forall g gr gr', groups w !! g = Some gr -> groups w' !! g = Some gr' ->
    Group.next gr' = Group.next gr /\ Group.vlan_id gr' = Group.vlan_id gr;
  k_list : sta_list w' = sta_list w;
  k_fresh : fresh_loc w' = fresh_loc w;
  k_log : log_ext P (wlog w) (wlog w');
}.

Lemma keeps_refl P w : keeps P w w.
Proof.
  split; try done; [by intros i m Hi; exists m|intros; split; congruence|apply log_ext_refl].
Qed.
Lemma log_keeps P w l : log_ext P (wlog w) l -> keeps P w (w <| wlog := l |>).
Proof.
  split; try done; [by intros i m Hi; exists m|intros g gr gr' H1 H2].
  change (groups w !! g = Some gr') in H2. split; congruence.
Qed.
Lemma keeps_trans P w1 w2 w3 : keeps P w1 w2 -> keeps P w2 w3 -> keeps P w1 w3.
Proof.
  intros [A1 S1 E1 D1 N1 L1 F1 G1] [A2 S2 E2 D2 N2 L2 F2 G2].
  split; [by eapply same_auth_trans| |congruence..| |congruence|congruence|by eapply log_ext_trans].
  - intros i m Hi. destruct (S1 i m Hi) as (m' & Hi' & ? & ?).
    destruct (S2 i m' Hi') as (m'' & Hi'' & ? & ?). exists m''. split; [done|]. split; congruence.
  - intros g gr gr' H H'. destruct (same_dom (groups w1) (groups w2) g) as [gr2 E]; [done|done|].
    destruct (N1 _ _ _ H E), (N2 _ _ _ E H'). split; congruence.
Qed.
Lemma keeps_weaken (P Q : call -> Prop) w w' : (forall c, P c -> Q c) -> keeps P w w' -> keeps Q w w'.
Proof. intros HPQ []. split; try done. by eapply log_ext_weaken. Qed.

Section events.
Context {cr : Crypto} {c_laws : CryptoLaws cr} {o : Owner} {o_laws : OwnerLaws o}.

Lemma touches_keeps P i w w' m m' : touches i P w w' -> stas w !! i = Some m -> stas w' !! i = Some m' ->
  Sm.addr m' = Sm.addr m -> Sm.group m' = Sm.group m -> keeps P w w'.
Proof.
  intros [] Hi Hi' Ha Hg. split; try done.
  - intros j mj Hj. destruct (decide (j = i)) as [->|Hne]; [|exists mj; by rewrite t_stas].
    simplify_eq. by exists m'.
  - apply set_eq. intros j. rewrite !elem_of_dom. destruct (decide (j = i)) as [->|Hne].
    + by rewrite Hi, Hi'. + by rewrite t_stas.
Qed.

Lemma sm_stepped_keeps i w m w' m' : sm_stepped i w m w' m' -> stas w !! i = Some m ->
  keeps (admits m) w w'.
Proof. intros [Hw Ht Hi' Hs Hf] Hi. eapply touches_keeps; [exact Ht|exact Hi|exact Hi'|apply Hs..]. Qed.

(** ** A station that is told something and stepped *)

Lemma rest_but i (Q : Sm.wpa_state_machine -> Prop) j m : j <> i -> at_rest m -> but i Q j m.
Proof. unfold but. intros. by rewrite decide_False by done. Qed.

(** [f] tells station [i] something: it can be stepped. *)
Lemma upd_to_step f w i m : wf_world w -> stas w !! i = Some m ->
  wf_sm (auth w) (f m) -> Sm.group (f m) = Sm.group m -> Sm.pending_deinit (f m) = Sm.pending_deinit m ->
  to_step (f m) -> upd_sta i f w = Ok (put_sta i (f m) w) /\ wf_world_ (but i to_step) (put_sta i (f m) w).
Proof.
  intros Hw Hi Hwf Hg Hp Hr. eapply upd_sta_runs; try done.
  - by apply but_self. - intros. by apply rest_but.
Qed.

(** The step that follows brings the world to rest. *)
Lemma step_rests w i m : wf_world_ (but i to_step) w -> stas w !! i = Some m ->
  init (ctl_of m) = false ->
  runs (wpa_sm_step i w) (fun '(r, w') => r = 0 /\ wf_world w' /\ keeps (admits m) w w').
Proof.
  intros Hw Hi Hinit. eapply runs_weaken; [by eapply wpa_sm_step_runs|]. intros [r w'] [-> (m' & Hd)].
  split; [done|]. split; [by eapply stepped_wf_world|by eapply sm_stepped_keeps].
Qed.

Lemma put_sta_keeps P i m m' w : stas w !! i = Some m -> Sm.addr m' = Sm.addr m ->
  Sm.group m' = Sm.group m -> keeps P w (put_sta i m' w).
Proof.
  intros Hi Ha Hg. split; cbn [auth groups stas sta_list put put_sta fresh_loc wlog]; try done;
    [| |intros; split; congruence|apply log_ext_refl].
  - intros j mj Hj. destruct (decide (j = i)) as [->|Hne].
    + rewrite lookup_insert_eq. simplify_eq. by exists m'.
    + rewrite lookup_insert_ne by done. by exists mj.
  - by apply dom_insert_same.
Qed.

(** [upd_sta] and [wpa_sm_step], as the timeouts do. *)
Lemma told_and_stepped f w i m : wf_world w -> stas w !! i = Some m ->
  wf_sm (auth w) (f m) -> Sm.group (f m) = Sm.group m -> Sm.addr (f m) = Sm.addr m ->
  Sm.pending_deinit (f m) = Sm.pending_deinit m -> to_step (f m) -> init (ctl_of (f m)) = false ->
  runs (w ← upd_sta i f w; wpa_sm_step i w)
    (fun '(r, w') => r = 0 /\ wf_world w' /\ keeps (admits (f m)) w w').
Proof.
  intros Hw Hi Hwf Hg Ha Hp Hr Hinit. destruct (upd_to_step f w i m Hw Hi Hwf Hg Hp Hr) as [-> Hw1].
  cbn [mbind res_bind]. eapply runs_weaken; [eapply step_rests; [exact Hw1|apply lookup_insert_eq|done]|].
  intros [r w'] (-> & Hw' & Hk). split; [done|]. split; [done|].
  eapply keeps_trans; [|exact Hk]. by eapply put_sta_keeps.
Qed.

Lemma wf_at_rest w i m : wf_world w -> stas w !! i = Some m -> wf_sta w at_rest m.
Proof. intros Hw. by apply (w_stas _ _ Hw). Qed.

(** A station at rest lets nobody in. *)
Lemma rest_admits m : nothing_read (ctl_of m) = true -> forall c, admits m c -> plain c.
Proof. intros H c. by rewrite nothing_read_admits. Qed.

(** The timeout of the retransmissions. *)
Definition timed_out (m : Sm.wpa_state_machine) : Sm.wpa_state_machine := m <| Sm.TimeoutEvt := true |>.

Lemma rest_told m m' : at_rest m -> ctl_inv (ctl_of m') -> nothing_read (ctl_of m') = nothing_read (ctl_of m) ->
  keyed (ctl_of m') = true -> Sm.in_step_loop m' = Sm.in_step_loop m -> to_step m'.
Proof.
  intros [Hr Hin] Hc Hn Hk E. apply rest_iff in Hr as []. split; [|by rewrite E].
  apply ready_intro; [done|by rewrite Hn|done].
Qed.

Lemma timed_out_to_step m : at_rest m -> to_step (timed_out m).
Proof.
  intros H. apply (rest_told m); [done| |done| |done]; destruct H as [[]%rest_iff _]; [|done].
  by destruct rf_inv.
Qed.

Lemma wpa_send_eapol_timeout_runs w i m : wf_world w -> stas w !! i = Some m ->
  runs (wpa_send_eapol_timeout i w) (fun w' => wf_world w' /\ keeps plain w w').
Proof.
  intros Hw Hi. destruct (wf_at_rest w i m Hw Hi) as [Hwf _ _ Hrest].
  destruct (upd_to_step timed_out w i m Hw Hi) as [Hu Hw1]; try done.
  { eapply wf_sm_update; [exact Hwf|try done..]; apply Hwf. } { by apply timed_out_to_step. }
  unfold wpa_send_eapol_timeout. change (upd_sta i (fun m => _)) with (upd_sta i timed_out).
  rewrite (bind_eq _ _ _ Hu). destruct Hrest as [Hr Hin]. apply rest_iff in Hr as [].
  rstep (eapply step_rests; [exact Hw1|apply lookup_insert_eq|exact rf_init]) as [r w2] H2.
  apply runs_ret. destruct H2 as (_ & Hw2 & Hk). split; [done|].
  eapply keeps_trans; [by apply (put_sta_keeps _ i m (timed_out m))|].
  eapply keeps_weaken; [|exact Hk]. by apply rest_admits.
Qed.

(** ** A function on the local state of a station *)

(** A control part from which a station is brought to rest without being let in. *)
Definition askable (c : ctl) : Prop := ready c /\ nothing_read c = true /\ init c = false.

Lemma rest_askable c : rest c -> askable c.
Proof.
  intros H. pose proof (rest_ready c H). apply rest_iff in H as []. by split.
Qed.

(** [f] changes the control part of station [m] as [g] says, and makes no call
    that lets it in. *)
Definition tells (m : Sm.wpa_state_machine) (f : st -> st) (g : ctl -> ctl) : Prop :=
  forall s, wf_st s -> sm s = m -> good g s (f s).

Lemma tell_runs (Q Q' : Sm.wpa_state_machine -> Prop) f g w i m :
  wf_world_ (but i Q) w -> stas w !! i = Some m -> tells m f g ->
  (forall m', ctl_of m' = g (ctl_of m) -> same_sta m m' -> Q' m') ->
  runs (on_sta i (fun s => mret (f s)) w) (fun w' => wf_world_ (but i Q') w' /\ keeps plain w w' /\
    exists m', stas w' !! i = Some m' /\ same_sta m m' /\ ctl_of m' = g (ctl_of m)).
Proof.
  intros Hw Hi Hf HQ.
  eapply runs_weaken; [eapply (on_sta_runs _ (but i Q') plain
    (fun m' => ctl_of m' = g (ctl_of m)) _ w i m Hw Hi)|].
  - intros s Hs Hsm. apply runs_ret. destruct (Hf s Hs Hsm) as [H1 H2 H3]. rewrite <- Hsm.
    by split_and!.
  - intros m' E Hs. apply but_self. by apply HQ.
  - intros. by eapply but_other.
  - intros w1 (H1 & H2 & m1 & H3 & H4 & H5 & _). split; [done|].
    split; [eapply touches_keeps; [exact H2|exact Hi|exact H3|apply H4..]|by exists m1].
Qed.

Lemma rest_but_self i : (forall j m, at_rest m -> but i at_rest j m).
Proof. intros j m H. unfold but. by case_decide. Qed.

Lemma told_runs f g w i m : wf_world w -> stas w !! i = Some m -> tells m f g ->
  ready (g (ctl_of m)) ->
  runs (on_sta i (fun s => mret (f s)) w) (fun w' => wf_world_ (but i to_step) w' /\ keeps plain w w' /\
    exists m', stas w' !! i = Some m' /\ same_sta m m' /\ ctl_of m' = g (ctl_of m)).
Proof.
  intros Hw Hi Hf Hg. destruct (wf_at_rest w i m Hw Hi) as [_ _ _ [_ Hin]].
  apply (tell_runs at_rest); [|done|done|].
  - eapply wf_world_weaken; [|exact Hw]. intros j mj _. apply rest_but_self.
  - intros m' E Hs. split; [by rewrite E|by rewrite (ss_in_step _ _ Hs)].
Qed.

Lemma step_askable w i m : wf_world_ (but i to_step) w -> stas w !! i = Some m -> askable (ctl_of m) ->
  runs (wpa_sm_step i w) (fun '(r, w') => r = 0 /\ wf_world w' /\ keeps plain w w').
Proof.
  intros Hw Hi (_ & Hn & Hinit). eapply runs_weaken; [by eapply step_rests|].
  intros [r w'] (H1 & H2 & H3). split; [done|]. split; [done|]. eapply keeps_weaken; [|exact H3].
  by apply rest_admits.
Qed.

Definition key_asked (c : ctl) : ctl := c <| ptkreq := true |> <| ptk_ok := false |>.
Lemma request_new_ptk_tells m : tells m wpa_request_new_ptk key_asked.
Proof. intros s [Hm Hg Ha] _. split; [split; [solve_wf Hm|done|done]|solve_frame|done]. Qed.

Lemma request_new_ptk_askable c : rest c -> askable (key_asked c).
Proof. intros []%rest_iff. split; [|done]. apply ready_intro; [by destruct rf_inv|done|done]. Qed.

(** The timeout of the pairwise key. *)
Lemma wpa_rekey_ptk_runs w i m : wf_world w -> stas w !! i = Some m ->
  runs (wpa_rekey_ptk i w) (fun w' => wf_world w' /\ keeps plain w w').
Proof.
  intros Hw Hi. destruct (wf_at_rest w i m Hw Hi) as [_ _ _ [Hr _]].
  unfold wpa_rekey_ptk. pose proof (request_new_ptk_askable _ Hr) as Ha.
  rstep (by apply (told_runs _ _ w i m Hw Hi (request_new_ptk_tells m)), Ha) as w1 H1.
  destruct H1 as (Hw1 & Hk1 & m1 & Hi1 & _ & E).
  rstep (by eapply step_askable; [exact Hw1|exact Hi1|rewrite E]) as [r w2] H2. apply runs_ret.
  destruct H2 as (_ & Hw2 & Hk2). split; [done|]. by eapply keeps_trans.
Qed.

Lemma rest_to_step w i m : wf_world w -> stas w !! i = Some m -> wf_world_ (but i to_step) w.
Proof.
  intros Hw Hi. eapply wf_world_weaken; [|exact Hw]. intros j mj _ [Hr Hin]. unfold but.
  case_decide; [|done]. split; [by apply rest_ready|done].
Qed.

Lemma wpa_sm_call_step_runs w i m : wf_world w -> stas w !! i = Some m ->
  runs (wpa_sm_call_step i w) (fun w' => wf_world w' /\ keeps plain w w').
Proof.
  intros Hw Hi. destruct (wf_at_rest w i m Hw Hi) as [_ _ _ [Hr _]]. unfold wpa_sm_call_step.
  rstep (by eapply step_askable; [by eapply rest_to_step|exact Hi|apply rest_askable]) as [r w2] H2.
  apply runs_ret. apply H2.
Qed.

Lemma wpa_auth_sm_notify_runs w i m : wf_world w -> stas w !! i = Some m ->
  runs (wpa_auth_sm_notify i w) (fun w' => wf_world w' /\ keeps plain w w').
Proof.
  intros Hw Hi. unfold wpa_auth_sm_notify. rewrite (bind_eq _ _ _ (the_sta_ok _ _ _ Hi)). apply runs_ret.
  split; [by apply wf_world_log|]. apply log_keeps. by apply log_ext_cons.
Qed.

(** ** Events of a station *)

(** A station with nothing to read, though its key may not fit what is asked. *)
Definition loose (m : Sm.wpa_state_machine) : Prop :=
  ctl_inv (ctl_of m) /\ nothing_read (ctl_of m) = true /\ init (ctl_of m) = false /\
  Sm.in_step_loop m = false.

Lemma rest_loose m : at_rest m -> loose m.
Proof. intros [[]%rest_iff Hin]. by split_and!. Qed.

Lemma loose_askable m : loose m -> keyed (ctl_of m) = true -> askable (ctl_of m).
Proof. intros (Hc & Hn & Hi & _) Hk. split; [by apply ready_intro|done]. Qed.

(** What [event_remove_ptk] does to the control part, and to the memory. *)
Definition no_key (c : ctl) : ctl := c <| ptk_ok := false |>.
Definition key_after (event : wpa_event) (m : Sm.wpa_state_machine) (c : ctl) : ctl :=
  if Sm.mgmt_frame_prot m && bool_decide (event = WPA_AUTH) then c else no_key c.
Definition key_zeroed (s : st) : st :=
  let s := s <| sm; Sm.PTK_valid := false |> in
  s <| sm; Sm.PTK := replicate (Z.to_nat sizeof_wpa_ptk) 0 |>.

Lemma key_zeroed_good s : wf_st s -> good no_key s (key_zeroed s).
Proof.
  intros Hs. pose proof (no_PTK_good s Hs) as H1. pose proof (zero_PTK_good _ (gd_wf _ _ _ _ H1)) as H2.
  eapply good_eq; [eapply good_trans; [exact H1|exact H2]|done].
Qed.

Lemma event_remove_ptk_tells event m : tells m (event_remove_ptk event) (key_after event m).
Proof.
  intros s Hs <-. unfold event_remove_ptk, key_after. destruct (_ && _); [by apply good_id|].
  pose proof (key_zeroed_good s Hs) as H1. change (let s := _ in _) with
    (let s := key_zeroed s in if bool_decide (event = WPA_REAUTH_EAPOL) then s else wpa_remove_ptk s).
  cbv zeta. destruct (bool_decide (event = WPA_REAUTH_EAPOL)); [done|].
  pose proof (remove_ptk_good _ (gd_wf _ _ _ _ H1)) as H2.
  eapply good_eq; [eapply good_trans; [exact H1|exact H2]|done].
Qed.

(** What follows every event: the key goes, and the station is stepped. *)
Lemma event_end_runs event w i m : wf_world_ (but i loose) w -> stas w !! i = Some m ->
  (event = WPA_AUTH -> keyed (ctl_of m) = true) ->
  runs (w ← on_sta i (fun s => mret (event_remove_ptk event s)) w; wpa_sm_step i w)
    (fun '(r, w') => r = 0 /\ wf_world w' /\ keeps plain w w').
Proof.
  intros Hw Hi Hk. destruct (wf_world_sta _ _ _ _ Hw Hi) as [_ _ _ Hl%but_inv].
  set (g := key_after event m).
  assert (askable (g (ctl_of m))) as Ha.
  { unfold g, key_after. destruct (_ && _) eqn:E.
    - apply andb_prop in E as [_ E%bool_decide_eq_true]. apply loose_askable; auto.
    - destruct Hl as ([] & Hn & Hinit & _). split; [|done]. by apply ready_intro. }
  rstep (apply (tell_runs loose to_step _ g w i m Hw Hi (event_remove_ptk_tells event m))) as w1 H1.
  { intros m' E Hs. split; [rewrite E; apply Ha|rewrite (ss_in_step _ _ Hs); apply Hl]. }
  destruct H1 as (Hw1 & Hk1 & m1 & Hi1 & _ & E).
  eapply runs_weaken; [eapply (step_askable w1 i m1 Hw1 Hi1); by rewrite E|].
  intros [r w2] (H1 & H2 & H3). split; [done|]. split; [done|]. by eapply keeps_trans.
Qed.
(** *** Starting a station *)

Definition started_init (m : Sm.wpa_state_machine) : Sm.wpa_state_machine :=
  m <| Sm.started := true |> <| Sm.Init := true |>.
Definition init_done (m : Sm.wpa_state_machine) : Sm.wpa_state_machine :=
  m <| Sm.Init := false |> <| Sm.AuthenticationRequest := true |>.
Definition deauthenticated (m : Sm.wpa_state_machine) : Sm.wpa_state_machine :=
  m <| Sm.DeauthenticationRequest := true |>.
Definition no_replay (m : Sm.wpa_state_machine) : Sm.wpa_state_machine :=
  m <| Sm.key_replay := replicate RSNA_MAX_EAPOL_RETRIES
         {| counter := replicate (Z.to_nat WPA_REPLAY_COUNTER_LEN) 0; valid := false |} |>
    <| Sm.ReAuthenticationRequest := true |>.

Ltac same_wf Hwf := eapply wf_sm_update; [exact Hwf|try done..]; apply Hwf.

Lemma start_station_runs w i m : wf_world w -> stas w !! i = Some m ->
  runs (start_station i w) (fun '(r, w') => r = 0 /\ wf_world_ (but i to_step) w' /\
    keeps plain w w' /\ exists m', stas w' !! i = Some m' /\ askable (ctl_of m') /\ loose m').
Proof.
  intros Hw Hi. destruct (wf_at_rest w i m Hw Hi) as [Hwf _ _ Hrest].
  unfold start_station. change (fun m => m <| Sm.started := true |> <| Sm.Init := true |>) with started_init.
  pose proof (rest_loose m Hrest) as ([] & Hn & Hinit & Hin).
  destruct (upd_to_step started_init w i m Hw Hi) as [Hu Hw1]; try done.
  { same_wf Hwf. }
  { split; [|done]. apply ready_intro; [done|done|]. by destruct Hrest as [[]%rest_iff _]. }
  rewrite (bind_eq _ _ _ Hu). set (w1 := put_sta i _ w) in *.
  assert (stas w1 !! i = Some (started_init m)) as Hi1 by apply lookup_insert_eq.
  rstep (by apply (wpa_sm_step_runs w1 i (started_init m) Hw1 Hi1)) as [r w2] H2.
  destruct H2 as (-> & m2 & Hd). cbn [Z.eqb].
  pose proof (sm_stepped_keeps _ _ _ _ _ Hd Hi1) as Hk2.
  destruct Hd as [Hw2 Ht2 Hi2 Hs2 (_ & Hr2 & Hn2 & Hinit2 & _ & Hin2)].
  change (fun m => m <| Sm.Init := false |> <| Sm.AuthenticationRequest := true |>) with init_done.
  destruct (wf_world_sta _ _ _ _ Hw2 Hi2) as [Hwf2 _ _ _].
  assert (askable (ctl_of (init_done m2))) as Ha.
  { destruct Hr2 as [[] Hr2]. split; [split; [done|]|done]. apply ready_intro; [done|done|].
    unfold readable in Hr2. by rewrite !andb_true_iff in Hr2; destruct Hr2 as [[? _] _]. }
  destruct (upd_sta_runs (but i (stepped_from (ctl_of (started_init m)))) (but i to_step) init_done w2 i m2 Hw2 Hi2)
    as [Hu2 Hw3]; try done.
  { same_wf Hwf2. } { apply but_self. split; [apply Ha|done]. } { intros. by eapply but_other. }
  rewrite (bind_eq _ _ _ Hu2). apply runs_ret. split; [done|]. split; [done|]. split.
  - eapply keeps_trans; [by apply (put_sta_keeps _ i m (started_init m))|].
    eapply keeps_trans; [|by apply (put_sta_keeps _ i m2 (init_done m2))].
    eapply keeps_weaken; [|exact Hk2]. by apply rest_admits.
  - exists (init_done m2). split; [apply lookup_insert_eq|]. split; [exact Ha|].
    destruct Ha as ([] & ? & ?). by split_and!.
Qed.

Definition reauth_asked (m : Sm.wpa_state_machine) (c : ctl) : ctl :=
  (if Sm.GUpdateStationKeys m then c <| gupd := false |> <| ginit := true |> else c)
    <| reauth := true |>.

Lemma reauth_request_tells m : tells m reauth_request (reauth_asked m).
Proof.
  intros s Hs <-. unfold reauth_request, reauth_asked. cbv zeta.
  destruct (Sm.GUpdateStationKeys (sm s)).
  - pose proof (cancel_group_update_good s Hs) as H1.
    pose proof (set_PtkGroupInit_good true _ (gd_wf _ _ _ _ H1)) as H2.
    pose proof (set_ReAuthenticationRequest_good true _ (gd_wf _ _ _ _ H2)) as H3.
    eapply good_eq; [eapply good_trans; [exact H1|eapply good_trans; [exact H2|exact H3]]|done].
  - by apply set_ReAuthenticationRequest_good.
Qed.

Lemma rest_loose_world w i : wf_world w -> wf_world_ (but i loose) w.
Proof.
  intros Hw. eapply wf_world_weaken; [|exact Hw]. intros j mj _ H. unfold but.
  case_decide; [by apply rest_loose|done].
Qed.

Lemma to_step_loose_world w i m : wf_world_ (but i to_step) w -> stas w !! i = Some m -> loose m ->
  wf_world_ (but i loose) w.
Proof.
  intros Hw Hi Hl. eapply wf_world_weaken; [|exact Hw]. intros j mj Hj. unfold but.
  case_decide; [|done]. subst. by simplify_eq.
Qed.

(** What the first half of an event leaves for the second. *)
Definition announced (i : nat) (event : wpa_event) (w : world) : Z * world -> Prop :=
  fun '(r, w1) => r = 0 /\ keeps plain w w1 /\ exists m1, stas w1 !! i = Some m1 /\
    wf_world_ (but i loose) w1 /\ (event = WPA_AUTH -> keyed (ctl_of m1) = true).

(** Whatever event hostapd announces, the station comes to rest, and it is not let
    in by it. *)
Lemma wpa_auth_sm_event_runs i event w m : wf_world w -> stas w !! i = Some m ->
  runs (wpa_auth_sm_event i event w) (fun '(r, w') => r = 0 /\ wf_world w' /\ keeps plain w w').
Proof.
  intros Hw Hi. destruct (wf_at_rest w i m Hw Hi) as [Hwf _ _ Hrest].
  pose proof (rest_loose m Hrest) as (Hc & Hn & Hinit & Hin).
  assert (keyed (ctl_of m) = true) as Hkeyed by by destruct Hrest as [[]%rest_iff _].
  unfold wpa_auth_sm_event. rewrite (bind_eq _ _ _ (the_sta_ok _ _ _ Hi)).
  eapply (runs_bind _ _ (announced i event w)).
  - assert (runs (mret (0, w)) (announced i event w)) as Hnone.
    { apply runs_ret. split; [done|]. split; [apply keeps_refl|]. exists m.
      split; [done|]. split; [by apply rest_loose_world|done]. }
    assert (event = WPA_DEAUTH \/ event = WPA_DISASSOC ->
      runs (w ← upd_sta i deauthenticated w; mret (0, w)) (announced i event w)) as Hde.
    { intros He. destruct (upd_sta_runs _ (but i loose) deauthenticated w i m Hw Hi) as [Hu Hw1]; try done.
      { same_wf Hwf. } { apply but_self. destruct Hc. by split_and!. } { intros. by apply rest_but. }
      rewrite (bind_eq _ _ _ Hu). apply runs_ret. split; [done|]. split; [by apply (put_sta_keeps _ i m)|].
      exists (deauthenticated m). split; [apply lookup_insert_eq|]. split; [done|]. by destruct He as [-> | ->]. }
    assert (event = WPA_REAUTH \/ event = WPA_REAUTH_EAPOL ->
      runs (if negb (Sm.started m) then start_station i w
            else w ← on_sta i (fun s => mret (reauth_request s)) w; mret (0, w))
        (announced i event w)) as Hre.
    { intros He. assert (event <> WPA_AUTH) as Hna by by destruct He as [-> | ->]. destruct (Sm.started m); cbn [negb].
      - rstep (apply (tell_runs at_rest loose _ (reauth_asked m) w i m); [|done|apply reauth_request_tells|]) as w1 H1.
        { eapply wf_world_weaken; [|exact Hw]. intros j mj _. apply rest_but_self. }
        { intros m' E Hs. unfold loose. rewrite E, (ss_in_step _ _ Hs). unfold reauth_asked.
          destruct Hc. split_and!; by destruct (Sm.GUpdateStationKeys m). }
        apply runs_ret. destruct H1 as (Hw1 & Hk1 & m1 & Hi1 & _). split; [done|]. split; [done|].
        by exists m1.
      - eapply runs_weaken; [by apply (start_station_runs w i m)|].
        intros [r w1] (H1 & Hw1 & Hk1 & m1 & Hi1 & _ & Hl). split; [done|]. split; [done|].
        exists m1. split; [done|]. split; [by eapply to_step_loose_world|done]. }
    destruct event; auto.
  - intros [r w1] (-> & Hk1 & m1 & Hi1 & Hw1 & Hka). cbn [Z.eqb].
    eapply runs_weaken; [by eapply (event_end_runs event w1 i m1)|].
    intros [r w2] (H1 & H2 & H3). split; [done|]. split; [done|]. by eapply keeps_trans.
Qed.

(** hostapd reports the event [WPA_ASSOC] or [WPA_REAUTH] first, so a station that
    was started has no key any more. *)
Lemma wpa_auth_sta_associated_runs i w m : wf_world w -> stas w !! i = Some m ->
  (Sm.started m = true -> Sm.PTK_valid m = false) ->
  runs (wpa_auth_sta_associated i w) (fun '(r, w') => r <= 0 /\ wf_world w' /\ keeps plain w w').
Proof.
  intros Hw Hi Hkey. destruct (wf_at_rest w i m Hw Hi) as [Hwf _ _ Hrest].
  pose proof (rest_loose m Hrest) as (Hc & Hn & Hinit & Hin).
  unfold wpa_auth_sta_associated.
  destruct (_ =? 0); [apply runs_ret; split; [lia|split; [done|apply keeps_refl]]|].
  rewrite (bind_eq _ _ _ (the_sta_ok _ _ _ Hi)). destruct (Sm.started m).
  - assert (askable (ctl_of (no_replay m))) as Ha.
    { split; [|done]. destruct Hc. apply ready_intro; [done|done|]. unfold keyed.
      change (ptk_ok (ctl_of (no_replay m))) with (Sm.PTK_valid m). by rewrite Hkey. }
    destruct (upd_to_step no_replay w i m Hw Hi) as [Hu Hw1]; try done.
    { destruct Hwf. split; try done. split; [done|]. by repeat constructor. }
    { split; [apply Ha|done]. }
    change (upd_sta i (fun m => _)) with (upd_sta i no_replay). rewrite (bind_eq _ _ _ Hu).
    eapply runs_weaken; [eapply (step_askable _ i _ Hw1); [apply lookup_insert_eq|done]|].
    intros [r w'] (-> & Hw' & Hk). split; [done|]. split; [done|]. eapply keeps_trans; [|exact Hk].
    by apply (put_sta_keeps _ i m).
  - rstep (by apply (start_station_runs w i m)) as [r w1] H1.
    destruct H1 as (-> & Hw1 & Hk1 & m1 & Hi1 & Ha1 & _). cbn [Z.eqb].
    eapply runs_weaken; [by apply (step_askable w1 i m1)|].
    intros [r w'] (-> & Hw' & Hk). split; [done|]. split; [done|]. by eapply keeps_trans.
Qed.
End events.
