(* ===== verification/WpaAuthRekey.v ===== *)
(** * New group keys

    The group key machine when a new key is asked for, which asks every station to
    take it and steps them, and the timeouts of the group keys.  They end within
    the rounds allowed, whatever the list of groups, and leave every station at
    rest and every group idle. *)

From stdpp Require Import gmap.
From S2P Require Import Prelude CommonUtils EapI WpaCommon Pmksa PmksaProps WpaAuthI.
From S2P Require Import WpaAuthIe WpaIeProps WpaAuthSm WpaAuthWf WpaAuthCtl WpaAuthRest.
From S2P Require Import WpaAuthRef WpaAuthRun WpaAuth WpaAuthWorld WpaAuthRx WpaAuthEvents.

Section rekey.
Context {cr : Crypto} {c_laws : CryptoLaws cr} {o : Owner} {o_laws : OwnerLaws o}.

Lemma put_group_keeps P w g gr gr' : groups w !! g = Some gr ->
  Group.next gr' = Group.next gr -> Group.vlan_id gr' = Group.vlan_id gr -> keeps P w (put_group g gr' w).
Proof.
  intros Hg Hn Hv. split; cbn [auth groups stas sta_list put put_group fresh_loc wlog]; try done;
    [by intros i m Hi; exists m|by apply dom_insert_same| |apply log_ext_refl].
  intros j gj gj' Hj Hj'. destruct (decide (j = g)) as [->|Hne].
  - rewrite lookup_insert_eq in Hj'. by simplify_eq.
  - rewrite lookup_insert_ne in Hj' by done. by simplify_eq.
Qed.

(** ** Asking the stations *)

Definition waiting (b : bool) (m : Sm.wpa_state_machine) : Sm.wpa_state_machine :=
  m <| Sm.GUpdateStationKeys := b |>.
Definition one_more (g : Group.wpa_group) : Group.wpa_group :=
  g <| Group.GKeyDoneStations := Group.GKeyDoneStations g + 1 |>.

Lemma waiting_wf a b m : wf_sm a m -> wf_sm a (waiting b m).
Proof. intros H. eapply wf_sm_update; [exact H|try done..]; apply H. Qed.

Lemma waiting_at_rest b m : at_rest m -> at_rest (waiting b m).
Proof.
  intros [[]%rest_iff Hin]. split; [|done]. apply rest_iff. destruct rf_inv.
  split; try done. split; try done. intros [E|E]; cbn in E, rf_gstable; by rewrite E in rf_gstable.
Qed.

(** Told to wait or not, and stepped if so: station [i] ends at rest. *)
Lemma update_sta_runs step i w m depth : wf_world w -> stas w !! i = Some m -> step = sm_step (S depth) ->
  runs (wpa_group_update_sta step i w) (fun w' => wf_world w' /\ keeps plain w w').
Proof.
  intros Hw Hi ->. destruct (wf_at_rest w i m Hw Hi) as [Hwf [g Hg] _ Hrest].
  unfold wpa_group_update_sta. rewrite (bind_eq _ _ _ (the_sta_ok _ _ _ Hi)).
  destruct (negb _).
  - apply runs_ret. split; [|by apply (put_sta_keeps _ i m)].
    apply (upd_sta_runs (fun _ => at_rest) (fun _ => at_rest) (waiting false) w i m Hw Hi); try done.
    + by apply waiting_wf. + by apply waiting_at_rest.
  - assert (upd_group (Sm.group m) one_more w = Ok (put_group (Sm.group m) (one_more g) w)) as Hu
      by (unfold upd_group; by rewrite (the_group_ok _ _ _ Hg)).
    change (upd_group _ (fun g => _)) with (upd_group (Sm.group m) one_more). rewrite (bind_eq _ _ _ Hu).
    assert (wf_world (put_group (Sm.group m) (one_more g) w)) as Hw1.
    { eapply put_group_wf; [done|exact Hg| |done].
      destruct (w_groups _ _ Hw _ _ Hg) as [[] ? ? ?]. by split. }
    set (w1 := put_group _ _ w) in *. assert (stas w1 !! i = Some m) as Hi1 by exact Hi.
    destruct (upd_to_step (waiting true) w1 i m Hw1 Hi1) as [_ Hw2]; try done.
    { by apply waiting_wf. }
    { destruct (waiting_at_rest true m Hrest) as [? ?]. split; [by apply rest_ready|done]. }
    destruct (waiting_at_rest true m Hrest) as [Hr _].
    rstep (by eapply (sm_step_runs depth); [exact Hw2|apply lookup_insert_eq]) as [r w3] H3.
    apply runs_ret. destruct H3 as (_ & m3 & Hd).
    split; [by eapply stepped_wf_world; [exact Hd|]; apply rest_iff in Hr as []|].
    eapply keeps_trans; [by apply (put_group_keeps _ w (Sm.group m) g (one_more g))|].
    eapply keeps_trans; [by apply (put_sta_keeps _ i m (waiting true m))|].
    eapply keeps_weaken; [|eapply sm_stepped_keeps; [exact Hd|apply lookup_insert_eq]].
    apply rest_admits. by apply rest_iff in Hr as [].
Qed.

Lemma for_each_runs step depth l w : wf_world w -> step = sm_step (S depth) ->
  Forall (fun i => is_Some (stas w !! i)) l ->
  runs (for_each_sta (wpa_group_update_sta step) l w) (fun w' => wf_world w' /\ keeps plain w w').
Proof.
  intros Hw Hs Hl. revert w Hw Hl. induction l as [|i l IH]; intros w Hw Hl; cbn [for_each_sta].
  - apply runs_ret. split; [done|apply keeps_refl].
  - apply Forall_cons in Hl as [[m Hi] Hl].
    rstep (by eapply update_sta_runs) as w1 H1. destruct H1 as [Hw1 Hk1].
    eapply runs_weaken; [apply (IH w1 Hw1)|].
    + eapply Forall_impl; [exact Hl|]. cbn beta. intros j Hj. eapply same_dom; [|exact Hj].
      symmetry. apply (k_sdom _ _ _ Hk1).
    + intros w' [H1 H2]. split; [done|]. by eapply keeps_trans.
Qed.

(** ** The group key machine *)

(** A group [gr'] in the place of the idle group [gr]. *)
Record in_place (gr gr' : Group.wpa_group) : Prop := {
  ip_wf : wf_gr gr';
  ip_init : Group.GInit gr' = false;
  ip_state : Group.wpa_group_state gr' <> WPA_GROUP_GTK_INIT;
  ip_next : Group.next gr' = Group.next gr;
  ip_vlan : Group.vlan_id gr' = Group.vlan_id gr;
}.

Definition new_keys (g : Group.wpa_group) : Group.wpa_group :=
  let g := g <| Group.changed := true |> in
  let g := g <| Group.wpa_group_state := WPA_GROUP_SETKEYS |> in
  let g := g <| Group.GTKReKey := false |> in
  swap_keys g.
Definition none_done (g : Group.wpa_group) : Group.wpa_group :=
  if negb (Group.GKeyDoneStations g =? 0) then g <| Group.GKeyDoneStations := 0 |> else g.

Lemma none_done_same g : wf_gr g -> wf_gr (none_done g) /\ Group.next (none_done g) = Group.next g /\
  Group.vlan_id (none_done g) = Group.vlan_id g /\ Group.GInit (none_done g) = Group.GInit g /\
  Group.GTKReKey (none_done g) = Group.GTKReKey g /\
  Group.wpa_group_state (none_done g) = Group.wpa_group_state g.
Proof. unfold none_done. intros []. case_match; by split_and!; [split|..]. Qed.

Lemma upd_put_group f g gr w : upd_group g f (put_group g gr w) = Ok (put_group g (f gr) w).
Proof.
  unfold upd_group, the_group. cbn [groups put put_group]. rewrite lookup_insert_eq.
  cbn [mbind res_bind mret res_ret]. unfold put_group. cbn [put groups]. by rewrite insert_insert_eq.
Qed.
Lemma on_put_group f g gr w : on_group g f (put_group g gr w) =
  '(gr', l) ← f (auth w) gr (wlog w); mret (put_group g gr' (w <| wlog := l |>)).
Proof.
  unfold on_group, the_group. cbn [groups put put_group]. rewrite lookup_insert_eq.
  cbn [mbind res_bind auth wlog put put_group]. destruct (f (auth w) gr (wlog w)) as [[gr' l]|]; [|done].
  cbn [mbind res_bind mret res_ret]. unfold put_group. cbn [put groups]. by rewrite insert_insert_eq.
Qed.

(** The keys change places, a new one is made and every station asked to take it. *)
Lemma setkeys_runs depth w g gr gr' : wf_world w -> groups w !! g = Some gr -> in_place gr gr' ->
  runs (wpa_group_setkeys (sm_step (S depth)) g (put_group g gr' w))
    (fun w' => wf_world w' /\ keeps plain w w').
Proof.
  intros Hw Hg [Hwf Hi Hs Hn Hv]. unfold wpa_group_setkeys.
  rewrite upd_put_group. cbn [mbind res_bind].
  assert (wf_gr (new_keys gr')) as Hwf1.
  { destruct Hwf as [? ? ? [[??]|[??]] [[??]|[??]] ? ?]; split; cbn; auto. }
  rewrite on_put_group. cbv beta. change (swap_keys _) with (new_keys gr').
  destruct (gtk_update_runs (auth w) (new_keys gr') (wlog w) Hwf1) as (r & gr2 & l & -> & Hwf2 & Hs2 & Hl).
  cbn [mbind res_bind mret res_ret]. set (w1 := w <| wlog := l |>).
  rewrite upd_put_group. cbn [mbind res_bind]. change (if negb _ then _ else gr2) with (none_done gr2).
  destruct (none_done_same gr2 Hwf2) as (H1 & H2 & H3 & H4 & H5 & H6). destruct Hs2. cbn in *.
  assert (wf_world w1) as Hw1 by by apply wf_world_log.
  assert (wf_world (put_group g (none_done gr2) w1)) as Hw2.
  { eapply put_group_wf; [done|exact Hg| |congruence]. split; [done|congruence..|].
    rewrite H6, sg_state. done. }
  assert (keeps plain w (put_group g (none_done gr2) w1)) as Hk.
  { eapply keeps_trans; [apply log_keeps; eapply log_ext_weaken; [apply quiet_plain|exact Hl]|].
    eapply put_group_keeps; [exact Hg|congruence..]. }
  eapply runs_weaken; [eapply (for_each_runs _ depth); [done|done|apply Hw2]|].
  intros w' [H7 H8]. split; [done|]. by eapply keeps_trans.
Qed.

(** A step of the machine of an idle group. *)
Lemma idle_step_runs w g gr : wf_world w -> groups w !! g = Some gr ->
  runs (group_sm_step g w) (fun w' => wf_world w' /\ keeps plain w w' /\ group_stepped g w w').
Proof.
  intros Hw Hg. unfold group_sm_step. generalize (sm_step (step_depth w)). intros step.
  eapply runs_weaken; [eapply (group_sm_step_runs _ 0 step w g gr); [exact Hw|exact Hg]|].
  intros w' (Hw' & Ht & Hs). split; [exact Hw'|]. split; [|exact Hs].
  pose proof (gs_stas _ _ _ Hs) as E. destruct Ht. split; try done; [|by rewrite E].
  intros i m Hi. exists m. by rewrite E.
Qed.

(** ... until it does not change any more: at most two rounds for an idle group. *)
Lemma idle_rounds fuel w g gr : wf_world w -> groups w !! g = Some gr -> (pending_keys gr < fuel)%nat ->
  runs (group_step_while_changed fuel g w) (fun w' => wf_world w' /\ keeps plain w w').
Proof.
  revert w gr. induction fuel as [|fuel IH]; intros w gr Hw Hg Hf; [lia|].
  cbn [group_step_while_changed].
  destruct (upd_group_runs (fun _ => at_rest) plain 0 gunchanged w g gr Hw Hg) as (Hu & Hw1 & Ht1); try done.
  { destruct (w_groups _ _ Hw _ _ Hg) as [[] ? ? ?]. by split. }
  change (upd_group g (fun g => _)) with (upd_group g gunchanged). rewrite (bind_eq _ _ _ Hu).
  set (w1 := put_group _ _ w) in *. assert (groups w1 !! g = Some (gunchanged gr)) as Hg1 by apply lookup_insert_eq.
  assert (keeps plain w w1) as Hk1 by by eapply put_group_keeps.
  rstep (by apply (idle_step_runs w1 g (gunchanged gr))) as w2 H2.
  destruct H2 as (Hw2 & Hk2 & [_ _ Hmov]).
  destruct (same_dom (groups w1) (groups w2) g) as [gr2 Hg2]; [symmetry; apply Hk2|done|].
  rewrite (bind_eq _ _ _ (the_group_ok _ _ _ Hg2)).
  destruct (Hmov _ _ Hg1 Hg2) as [->|Hlt].
  - apply runs_ret. split; [done|]. by eapply keeps_trans.
  - change (pending_keys (gunchanged gr)) with (pending_keys gr) in Hlt.
    destruct (Group.changed gr2).
    + eapply runs_weaken; [apply (IH w2 gr2 Hw2 Hg2); lia|]. intros w' [H1 H2]. split; [done|].
      do 2 (eapply keeps_trans; [eassumption|]). done.
    + apply runs_ret. split; [done|]. by eapply keeps_trans.
Qed.

(** Whether a group that is asked for a new key makes it at once. *)
Definition at_once (g : Group.wpa_group) : Prop :=
  Group.wpa_group_state g = WPA_GROUP_SETKEYSDONE \/ Group.GKeyDoneStations g <> 0.

Lemma group_sm_step_at_once w g gr' : Group.GInit gr' = false -> Group.GTKReKey gr' = true ->
  Group.wpa_group_state gr' <> WPA_GROUP_GTK_INIT -> at_once gr' ->
  group_sm_step g (put_group g gr' w) =
  wpa_group_setkeys (sm_step (step_depth (put_group g gr' w))) g (put_group g gr' w).
Proof.
  intros Hi Hr Hs Ho. unfold group_sm_step. generalize (sm_step (step_depth (put_group g gr' w))).
  intros step. unfold wpa_group_sm_step.
  rewrite (bind_eq _ _ _ (the_group_ok (put_group g gr' w) g gr' (lookup_insert_eq _ _ _))), Hi, Hr.
  destruct (Group.wpa_group_state gr') eqn:E; try done; cbn [bool_decide decide andb].
  destruct Ho as [Ho|Ho]; [congruence|]. by apply Z.eqb_neq in Ho as ->.
Qed.

Lemma gunchanged_in_place gr gr' : in_place gr gr' -> in_place gr (gunchanged gr').
Proof. intros [[] ? ? ? ?]. by split; [split|..]. Qed.

Lemma at_once_rounds fuel w g gr gr' : wf_world w -> groups w !! g = Some gr -> in_place gr gr' ->
  Group.GTKReKey gr' = true -> at_once gr' ->
  runs (group_step_while_changed (3 + fuel) g (put_group g gr' w))
    (fun w' => wf_world w' /\ keeps plain w w').
Proof.
  intros Hw Hg Hp Hr Ho. cbn [group_step_while_changed Nat.add]. rewrite upd_put_group.
  cbn [mbind res_bind]. change (gr' <| Group.changed := false |>) with (gunchanged gr').
  pose proof (gunchanged_in_place _ _ Hp) as Hp1.
  rewrite (group_sm_step_at_once w g (gunchanged gr')); [|apply Hp1|exact Hr|apply Hp1|exact Ho].
  rstep (by eapply setkeys_runs) as w1 H1. destruct H1 as [Hw1 Hk1].
  destruct (same_dom (groups w) (groups w1) g) as [gr1 Hg1]; [symmetry; apply Hk1|done|].
  rewrite (bind_eq _ _ _ (the_group_ok _ _ _ Hg1)). destruct (Group.changed gr1).
  - change (runs (group_step_while_changed (S (S fuel)) g w1) (fun w' => wf_world w' /\ keeps plain w w')).
    eapply runs_weaken; [apply (idle_rounds _ w1 g gr1 Hw1 Hg1)|].
    + unfold pending_keys. case_decide; lia.
    + intros w' [H1 H2]. split; [done|]. by eapply keeps_trans.
  - by apply runs_ret.
Qed.

(** SETKEYSDONE first, when all stations have the key. *)
Definition keys_done (g : Group.wpa_group) : Group.wpa_group :=
  g <| Group.changed := true |> <| Group.wpa_group_state := WPA_GROUP_SETKEYSDONE |>.

Lemma asked_rounds w g gr gr' : wf_world w -> groups w !! g = Some gr -> in_place gr gr' ->
  Group.GTKReKey gr' = true ->
  runs (group_step_while_changed 4 g (put_group g gr' w)) (fun w' => wf_world w' /\ keeps plain w w').
Proof.
  intros Hw Hg Hp Hr. destruct (decide (Group.wpa_group_state gr' = WPA_GROUP_SETKEYSDONE)) as [Hs|Hs];
    [by apply (at_once_rounds 1 w g gr); [..|left]|].
  destruct (decide (Group.GKeyDoneStations gr' = 0)) as [H0|H0];
    [|by apply (at_once_rounds 1 w g gr); [..|right]].
  change 4%nat with (S (3 + 0)). cbn [group_step_while_changed]. rewrite upd_put_group.
  cbn [mbind res_bind]. change (gr' <| Group.changed := false |>) with (gunchanged gr').
  pose proof (gunchanged_in_place _ _ Hp) as Hp1. unfold group_sm_step.
  generalize (sm_step (step_depth (put_group g (gunchanged gr') w))). intros step.
  unfold wpa_group_sm_step.
  rewrite (bind_eq _ _ _ (the_group_ok (put_group g (gunchanged gr') w) g _ (lookup_insert_eq _ _ _))).
  rewrite (ip_init _ _ Hp1). change (Group.wpa_group_state (gunchanged gr')) with (Group.wpa_group_state gr').
  change (Group.GKeyDoneStations (gunchanged gr')) with (Group.GKeyDoneStations gr'). rewrite H0.
  destruct (Group.wpa_group_state gr') eqn:E; [by destruct (ip_state _ _ Hp)| |done].
  cbn [bool_decide decide andb Z.eqb]. unfold group_setkeysdone. rewrite on_put_group. cbv beta.
  unfold wpa_group_setkeysdone. cbv zeta. change (_ <| Group.wpa_group_state := _ |>) with (keys_done (gunchanged gr')).
  assert (in_place gr (keys_done (gunchanged gr'))) as Hp2 by (destruct Hp1 as [[] ? ? ? ?]; by split; [split|..]).
  destruct (config_group_keys_runs (auth w) _ (wlog w) (ip_wf _ _ Hp2)) as (r & l & Heq & Hl).
  rewrite (bind_eq _ _ _ Heq). cbn [mbind res_bind mret res_ret]. set (w1 := w <| wlog := l |>).
  rewrite !(bool_decide_false (WPA_GROUP_SETKEYS = _)), bool_decide_true by done.
  cbn [andb mbind res_bind mret res_ret].
  rewrite (bind_eq _ _ _ (the_group_ok (put_group g _ w1) g _ (lookup_insert_eq _ _ _))).
  eapply runs_weaken; [apply (at_once_rounds 0 w1 g gr); [by apply wf_world_log|exact Hg|exact Hp2|exact Hr|by left]|].
  intros w' [H1 H2]. split; [done|]. eapply keeps_trans; [|exact H2]. apply log_keeps.
  eapply log_ext_weaken; [apply quiet_group_plain|exact Hl].
Qed.

(** ** Over the list of groups *)

Definition ask_rekey (g : Group.wpa_group) : Group.wpa_group := g <| Group.GTKReKey := true |>.

Lemma rekey_groups_runs fuel l start w : wf_world w -> chain (groups w) start l -> (length l < fuel)%nat ->
  runs (rekey_groups fuel start w) (fun w' => wf_world w' /\ keeps plain w w').
Proof.
  revert start w l. induction fuel as [|fuel IH]; intros start w l Hw Hc Hf; [lia|].
  destruct l as [|g l]; cbn [chain] in Hc.
  - subst start. apply runs_ret. split; [done|apply keeps_refl].
  - destruct Hc as (-> & gr & Hg & Hc). cbn [rekey_groups].
    change (upd_group g (fun g => _)) with (upd_group g ask_rekey).
    assert (upd_group g ask_rekey w = Ok (put_group g (ask_rekey gr) w)) as Hu
      by (unfold upd_group; by rewrite (the_group_ok _ _ _ Hg)).
    rewrite (bind_eq _ _ _ Hu).
    rstep (apply (asked_rounds w g gr (ask_rekey gr) Hw Hg); [|done]) as w1 H1.
    { destruct (w_groups _ _ Hw _ _ Hg) as [[] ? ? ?]. by split; [split|..]. }
    destruct H1 as [Hw1 Hk1].
    destruct (same_dom (groups w) (groups w1) g) as [gr1 Hg1]; [symmetry; apply Hk1|done|].
    rewrite (bind_eq _ _ _ (the_group_ok _ _ _ Hg1)).
    destruct (k_next _ _ _ Hk1 g gr gr1 Hg Hg1) as [-> _].
    eapply runs_weaken; [apply (IH _ w1 l Hw1)|].
    + clear IH Hf Hg1 Hg. revert Hc. generalize (Group.next gr). induction l as [|x l IHl]; intros start; [done|].
      cbn [chain]. intros (-> & gx & Hx & Hc). split; [done|].
      destruct (same_dom (groups w) (groups w1) x) as [gx1 Hx1]; [symmetry; apply Hk1|done|].
      exists gx1. split; [done|]. destruct (k_next _ _ _ Hk1 x gx gx1 Hx Hx1) as [-> _]. by apply IHl.
    + cbn [length] in Hf. lia.
    + intros w' [H1 H2]. split; [done|]. by eapply keeps_trans.
Qed.

Lemma chain_size gs start l : chain gs start l -> NoDup l -> (length l <= size gs)%nat.
Proof.
  intros Hc Hn. rewrite <- size_dom. rewrite <- (size_list_to_set (C := gset nat) l Hn).
  apply subseteq_size. intros x Hx%elem_of_list_to_set. pose proof (chain_in _ _ _ Hc) as H.
  rewrite Forall_forall in H. by apply H.
Qed.

(** The timeout of the group keys. *)
Lemma wpa_rekey_gtk_runs w : wf_world w ->
  runs (wpa_rekey_gtk w) (fun w' => wf_world w' /\ keeps plain w w').
Proof.
  intros Hw. destruct (w_chain _ _ Hw) as (l & Hc & Hn). unfold wpa_rekey_gtk.
  rstep (eapply (rekey_groups_runs _ l); [done|done|]) as w1 H1.
  { pose proof (chain_size _ _ _ Hc Hn). lia. }
  destruct H1 as [Hw1 Hk1]. apply runs_ret. destruct (negb _); [|done].
  split; [by apply wf_world_log|]. eapply keeps_trans; [exact Hk1|]. apply log_keeps. by apply log_ext_cons.
Qed.
End rekey.
