(* ===== verification/WpaAuthRecv.v ===== *)
(** * [wpa_receive]

    Any frame at all, from any station, is received without a fault: the
    authenticator comes to rest again, and the station is let in only by a message
    4/4 whose MIC and replay counter are right. *)

From stdpp Require Import gmap.
From S2P Require Import Prelude CommonUtils EapI WpaCommon Pmksa PmksaProps WpaAuthI.
From S2P Require Import WpaAuthIe WpaIeProps WpaAuthSm WpaAuthWf WpaAuthCtl WpaAuthRest.
From S2P Require Import WpaAuthRef WpaAuthRun WpaAuth WpaAuthWorld WpaAuthRx WpaAuthEvents.
From S2P Require Import WpaAuthRekey.

Section recv.
Context {cr : Crypto} {c_laws : CryptoLaws cr} {o : Owner} {o_laws : OwnerLaws o}.

(** ** The checks *)

Definition verified (b : bool) (m : Sm.wpa_state_machine) : Sm.wpa_state_machine :=
  m <| Sm.MICVerified := b |>.

Lemma checked_moved b s s' : wf_gr (gr s) -> checked b s s' -> moved plain s s'.
Proof.
  intros Hg [E1 E2 H3 H4]. destruct (H3 Hg) as [_ []]. split; rewrite ?E1, ?E2; try done.
  by rewrite sg_done.
Qed.

Lemma checked_wf b s s' : wf_st s -> checked b s s' -> wf_st s'.
Proof.
  intros [Hm Hg Ha] [E1 E2 H3 _]. split; [|by apply H3|by rewrite E2]. rewrite E1, E2.
  eapply wf_sm_update; [exact Hm|try done..]; apply Hm.
Qed.

(** At rest a key is only there where its MIC was verified. *)
Lemma verified_at_rest b m : at_rest m ->
  (b = true -> Sm.PTK_valid m = true \/ Sm.MICVerified m = true) -> at_rest (verified b m).
Proof.
  intros [[]%rest_iff Hin] Hb. split; [|done]. apply rest_iff. destruct rf_inv.
  assert (state (ctl_of m) = WPA_PTK_PTKCALCNEGOTIATING -> ptk_ok (ctl_of m) = false) as Hcalc.
  { intros E. destruct (rf_calc E) as [_ Hm]. unfold keyed in rf_keyed. rewrite E, Hm in rf_keyed.
    destruct (ptk_ok (ctl_of m)); [|done]. by rewrite andb_false_r in rf_keyed. }
  split; try done.
  - unfold keyed in rf_keyed |- *.
    change (ptk_ok (ctl_of (verified b m))) with (ptk_ok (ctl_of m)).
    destruct (ptk_ok (ctl_of m)) eqn:E; [|done]. cbn [negb orb] in *.
    change (state (ctl_of (verified b m))) with (state (ctl_of m)).
    destruct (state (ctl_of m)) eqn:Es; try done. by specialize (Hcalc eq_refl).
  - intros E. destruct (rf_calc E) as [? Hm]. split; [done|]. cbn. destruct b; [|done].
    specialize (Hcalc E). change (Sm.PTK_valid m = false) in Hcalc.
    change (Sm.MICVerified m = false) in Hm. destruct (Hb eq_refl); congruence.
Qed.

Lemma checks_runs w i m data : wf_world w -> stas w !! i = Some m -> bytes data ->
  runs (ask_sta i (receive_checks data (zlen data)) w) (fun '(acc, w') => wf_world w' /\ keeps plain w w' /\
    exists b, stas w' !! i = Some (verified b m) /\
      forall ki n, acc = Some (ki, n) -> b = Sm.PTK_valid m /\ accepted m data ki n).
Proof.
  intros Hw Hi Hb.
  eapply runs_weaken; [eapply (ask_sta_runs _ (fun _ => at_rest) plain (fun acc m' => exists b, m' = verified b m /\
    forall ki n, acc = Some (ki, n) -> b = Sm.PTK_valid m /\ accepted m data ki n) _ w i m Hw Hi)|].
  - intros s Hs Hsm Hau. eapply runs_weaken; [by apply receive_checks_runs|].
    intros [acc s'] (b & Hck & Hb' & Hacc). rewrite Hsm in *.
    split; [by eapply checked_wf|]. split; [by eapply checked_moved; [apply Hs|]|].
    rewrite (ck_sm _ _ _ Hck), Hsm. split; [by exists b|]. apply verified_at_rest; [|done].
    apply (wf_at_rest w i m Hw Hi).
  - done.
  - intros [acc w'] (Hw' & Ht & m' & Hi' & b & -> & Hacc). split; [done|].
    split; [by eapply touches_keeps|by exists b].
Qed.

(** ** Requests *)

(** The two keys of the group are replaced, as countermeasures. *)
Lemma swap_update_runs w g gr : wf_world w -> groups w !! g = Some gr ->
  runs (on_group g (fun a gr l => '(_, gr, l) ← wpa_gtk_update a (swap_keys gr) l; mret (gr, l)) w)
    (fun w' => wf_world w' /\ keeps plain w w' /\ stas w' = stas w).
Proof.
  intros Hw Hg. unfold on_group. rewrite (bind_eq _ _ _ (the_group_ok _ _ _ Hg)). cbv beta.
  destruct (w_groups _ _ Hw _ _ Hg) as [Hwf Hi Hr Hs].
  assert (wf_gr (swap_keys gr)) as Hwf1 by (destruct Hwf as [? ? ? [[??]|[??]] [[??]|[??]] ? ?]; split; cbn; auto).
  destruct (gtk_update_runs (auth w) (swap_keys gr) (wlog w) Hwf1) as (r & gr2 & l & -> & Hwf2 & [] & Hl).
  cbn [mbind res_bind mret res_ret]. apply runs_ret. cbn in *.
  split; [|split; [|done]].
  - apply (put_group_wf _ _ g gr); [by apply wf_world_log|done| |congruence]. split; congruence.
  - eapply keeps_trans; [apply log_keeps; eapply log_ext_weaken; [apply quiet_plain|exact Hl]|].
    apply (put_group_keeps _ _ g gr); [done|congruence..].
Qed.

Lemma wpa_gtk_rekey_runs w : wf_world w ->
  runs (wpa_gtk_rekey w) (fun w' => wf_world w' /\ keeps plain w w' /\ stas w' = stas w).
Proof.
  intros Hw. destruct (w_head _ _ Hw) as (h & Hh & [gr Hg]). unfold wpa_gtk_rekey.
  rewrite (bind_eq _ _ _ (head_group_ok _ _ Hh)). cbv zeta.
  rstep (by apply (swap_update_runs w h gr)) as w1 H1. destruct H1 as (Hw1 & Hk1 & E1).
  destruct (same_dom (groups w) (groups w1) h) as [gr1 Hg1]; [symmetry; apply Hk1|done|].
  eapply runs_weaken; [by apply (swap_update_runs w1 h gr1)|]. intros w2 (Hw2 & Hk2 & E2).
  split; [done|]. split; [by eapply keeps_trans|congruence].
Qed.

Lemma emit_w_rests P c w : wf_world w -> P c -> wf_world (emit_w c w) /\ keeps P w (emit_w c w).
Proof. intros Hw Hc. split; [by apply wf_world_log|]. apply log_keeps. by apply log_ext_cons. Qed.

Lemma put_auth_rests P w a : wf_world w -> same_auth (auth w) a ->
  wf_world (w <| auth := a |>) /\ keeps P w (w <| auth := a |>).
Proof.
  intros [Ha [h [Hh Hhs]] [lc [Hc Hnd]] Hgs Hst Hl] Hs. split.
  - split; cbn [auth groups stas sta_list put]; [by eapply wf_au_same| | |done| |done].
    + exists h. by rewrite (sa_group _ _ Hs).
    + exists lc. by rewrite (sa_group _ _ Hs).
    + intros j m Hj. destruct (Hst j m Hj). split; try done. by eapply wf_sm_same.
  - split; try done; [by intros j m Hj; exists m| |apply log_ext_refl].
    intros g gr gr' H1 H2. change (groups w !! g = Some gr') in H2. split; congruence.
Qed.


Lemma mic_failure_runs w i m : wf_world w -> stas w !! i = Some m ->
  runs (wpa_auth_mic_failure_report i w) (fun w' => wf_world w' /\ keeps plain w w' /\ stas w' = stas w).
Proof.
  intros Hw Hi. unfold wpa_auth_mic_failure_report. rewrite (bind_eq _ _ _ (the_sta_ok _ _ _ Hi)). cbv zeta.
  destruct (emit_w_rests plain (CMicFailure (Sm.addr m)) w Hw I) as [Hw1 Hk1].
  set (w1 := emit_w _ w) in *. destruct (mic_failure_starts_countermeasures _).
  - destruct (put_auth_rests plain w1 ((auth w1) <| Auth.dot11RSNATKIPCounterMeasuresInvoked :=
      u32 (Auth.dot11RSNATKIPCounterMeasuresInvoked (auth w1) + 1) |>) Hw1) as [Hw2 Hk2]; [done|].
    eapply runs_weaken; [apply (wpa_gtk_rekey_runs _ Hw2)|]. intros w' (H1 & H2 & H3).
    split; [done|]. split; [|done]. do 2 (eapply keeps_trans; [eassumption|]). done.
  - by apply runs_ret.
Qed.

(** A station that asks for a new key and has one. *)
Lemma request_new_ptk_runs w i m : wf_world w -> stas w !! i = Some m -> Sm.PTK_valid m = true ->
  runs (on_sta i (fun s => mret (wpa_request_new_ptk s)) w) (fun w' => wf_world w' /\ keeps plain w w').
Proof.
  intros Hw Hi Hv. destruct (wf_at_rest w i m Hw Hi) as [_ _ _ [Hr Hin]]. apply rest_iff in Hr as [].
  assert (forall s, negb (early s) = true -> s <> WPA_PTK_PTKSTART) as Hearly by by intros [].
  unfold keyed in rf_keyed. change (ptk_ok (ctl_of m)) with (Sm.PTK_valid m) in rf_keyed.
  rewrite Hv in rf_keyed. cbn [negb orb] in rf_keyed. rewrite !andb_true_iff in rf_keyed.
  destruct rf_keyed as [[[Hearl _] _] Hcalc].
  eapply runs_weaken; [apply (tell_runs at_rest at_rest _ key_asked w i m); [|done|apply request_new_ptk_tells|]|].
  - eapply wf_world_weaken; [|exact Hw]. intros j mj _. apply rest_but_self.
  - intros m' E Hs. split; [|by rewrite (ss_in_step _ _ Hs)]. rewrite E. apply rest_iff.
    destruct rf_inv. split; try done.
    + intros Es. by destruct (Hearly _ Hearl).
    + intros Es. destruct (rf_calc Es) as [_ Hm]. change (state (ctl_of m) = WPA_PTK_PTKCALCNEGOTIATING) in Es.
      rewrite Es, Hm in Hcalc. done.
  - intros w' (Hw' & Hk & _). split; [|done]. eapply wf_world_weaken; [|exact Hw'].
    intros j mj _. unfold but. by case_decide.
Qed.

Definition remote_failure (m : Sm.wpa_state_machine) : Sm.wpa_state_machine :=
  m <| Sm.dot11RSNAStatsTKIPRemoteMICFailures := u32 (Sm.dot11RSNAStatsTKIPRemoteMICFailures m + 1) |>.

Lemma serve_request_runs w i m data ki n : wf_world w -> stas w !! i = Some m -> Sm.PTK_valid m = true ->
  bytes data -> 0 <= n <= zlen data - key_header_len ->
  runs (serve_request i data ki n w) (fun w' => wf_world w' /\ keeps plain w w').
Proof.
  intros Hw Hi Hv Hb Hn. unfold serve_request. destruct (has_bits ki WPA_KEY_INFO_ERROR).
  { rstep (by apply (mic_failure_runs w i m)) as w1 H1. destruct H1 as (Hw1 & Hk1 & E1).
    assert (stas w1 !! i = Some m) as Hi1 by by rewrite E1.
    rstep (eapply (on_sta_runs _ (fun _ => at_rest) plain (fun m' => m' = remote_failure m) _ w1 i m Hw1 Hi1)) as w2 H2.
    { intros s [Hm Hg Ha] <-. apply runs_ret. split; [split; [|done|]|split; [solve_frame|done]].
      - eapply wf_sm_same; [|eapply wf_sm_update; [exact Hm|try done..]; apply Hm]. done.
      - by eapply wf_au_same; [|exact Ha]. }
    { intros m' -> _. by apply (wf_at_rest w1 i m). } { done. }
    destruct H2 as (Hw2 & Ht2 & m2 & Hi2 & Hs2 & -> & _).
    eapply runs_weaken; [by apply (request_new_ptk_runs w2 i (remote_failure m))|].
    intros w3 [Hw3 Hk3]. split; [done|]. eapply keeps_trans; [exact Hk1|].
    eapply keeps_trans; [by eapply touches_keeps|done]. }
  destruct (has_bits ki WPA_KEY_INFO_KEY_TYPE); [by eapply request_new_ptk_runs|].
  eapply (runs_bind _ _ (fun _ => True)).
  { destruct (0 <? n); [|by apply runs_ret].
    destruct (parse_kde_runs (drop (Z.to_nat o_key_data) data) n) as (r & kde & -> & _);
      [by apply bytes_drop| |by apply runs_ret].
    unfold zlen, o_key_data, key_header_len, sizeof_ieee802_1x_hdr, sizeof_wpa_eapol_key in *.
    rewrite length_drop; lia. }
  intros [] _; [apply runs_ret; split; [done|apply keeps_refl]|].
  destruct (emit_w_rests plain (CCancel wpa_rekey_gtk_) w Hw I) as [Hw1 Hk1].
  eapply runs_weaken; [apply (wpa_rekey_gtk_runs _ Hw1)|]. intros w2 [Hw2 Hk2].
  split; [done|]. by eapply keeps_trans.
Qed.

(** ** Storing the frame *)

Definition stored (data nonce : list Z) (ki : Z) (m : Sm.wpa_state_machine) : Sm.wpa_state_machine :=
  m <| Sm.last_rx_eapol_key := Some data |> <| Sm.last_rx_eapol_key_len := zlen data |>
    <| Sm.EAPOLKeyReceived := true |> <| Sm.EAPOLKeyPairwise := has_bits ki WPA_KEY_INFO_KEY_TYPE |>
    <| Sm.EAPOLKeyRequest := has_bits ki WPA_KEY_INFO_REQUEST |> <| Sm.SNonce := nonce |>.
Definition not_stored (m : Sm.wpa_state_machine) : Sm.wpa_state_machine :=
  m <| Sm.last_rx_eapol_key := None |>.

(** One of the machines reads the frame. *)
Definition fits (ki : Z) (c : ctl) : Prop :=
  has_bits ki WPA_KEY_INFO_REQUEST = false ->
  if has_bits ki WPA_KEY_INFO_KEY_TYPE then awaits c = true else gawaits c = true.

Lemma stored_to_step data nonce ki m : at_rest m -> fits ki (ctl_of m) -> to_step (stored data nonce ki m).
Proof.
  intros [[]%rest_iff Hin] Hf. split; [|done]. split; [by destruct rf_inv|].
  unfold readable. change (keyed (ctl_of (stored data nonce ki m))) with (keyed (ctl_of m)).
  change (awaits (ctl_of (stored data nonce ki m))) with (awaits (ctl_of m)).
  change (gawaits (ctl_of (stored data nonce ki m))) with (gawaits (ctl_of m)). rewrite rf_keyed.
  unfold fits in Hf. cbn. destruct (has_bits ki WPA_KEY_INFO_REQUEST); [done|]. specialize (Hf eq_refl).
  by destruct (has_bits ki WPA_KEY_INFO_KEY_TYPE); rewrite Hf.
Qed.

(** What [store_frame] leaves. *)
Definition kept (data : list Z) (ki : Z) (m : Sm.wpa_state_machine) (ok : bool)
    (m' : Sm.wpa_state_machine) : Prop :=
  if ok then exists nonce, m' = stored data nonce ki m else m' = not_stored m.

Lemma not_stored_at_rest m : at_rest m -> at_rest (not_stored m).
Proof. done. Qed.

Lemma rest_key_received m : at_rest m -> key_received m true = false.
Proof.
  intros [[]%rest_iff _]. rewrite key_received_ptk. unfold nothing_read in rf_read.
  by apply andb_prop in rf_read as [H%negb_true_iff _].
Qed.

Lemma store_runs w i m data ki : wf_world w -> stas w !! i = Some m -> key_header_len <= zlen data ->
  fits ki (ctl_of m) ->
  runs (ask_sta i (store_frame data (zlen data) ki) w) (fun '(ok, w') => wf_world_ (but i to_step) w' /\
    keeps plain w w' /\ exists m', stas w' !! i = Some m' /\ kept data ki m ok m').
Proof.
  unfold key_header_len, sizeof_ieee802_1x_hdr, sizeof_wpa_eapol_key. intros Hw Hi Hl Hf.
  destruct (wf_at_rest w i m Hw Hi) as [Hwf _ _ Hrest].
  eapply runs_weaken; [eapply (ask_sta_runs _ (but i to_step) plain (kept data ki m) _ w i m Hw Hi)|].
  - intros s Hs Hsm Hau. unfold store_frame, os_malloc. cbv beta iota zeta. set (s1 := emit _ s).
    assert (log_ext plain (lg s) (lg s1)) as Hlog by by apply log_ext_cons.
    destruct (malloc (lg s1)); cbn [negb].
    + rewrite rd_n_all. cbn [mbind res_bind].
      destruct (rd_n_runs data o_key_nonce WPA_NONCE_LEN) as (nonce & -> & Hn);
        [done|done|unfold o_key_nonce, WPA_NONCE_LEN; lia|]. cbn [mbind res_bind]. apply runs_ret.
      destruct Hs as [Hm Hg Ha]. split; [split; [|done|done]|].
      * destruct Hm. split; try done. intros d Hd. cbn in Hd. by simplify_eq.
      * split; [by split|]. split.
        -- exists nonce. by rewrite <- Hsm.
        -- apply but_self. change (to_step (stored data nonce ki (sm s))). rewrite Hsm.
           by apply stored_to_step.
    + apply runs_ret. destruct Hs as [Hm Hg Ha]. split; [split; [|done|done]|].
      * destruct Hm. split; try done. intros Hr. change (key_received (sm s) true = true) in Hr.
        by rewrite Hsm, (rest_key_received m Hrest) in Hr.
      * split; [by split|]. split; [by rewrite <- Hsm|]. apply but_self.
        change (to_step (not_stored (sm s))). rewrite Hsm. destruct Hrest as [Hr Hin].
        split; [by apply rest_ready|done].
  - intros. by apply rest_but.
  - intros [ok w'] (Hw' & Ht & m' & Hi' & Hk). split; [done|]. split; [|by exists m'].
    unfold kept in Hk. destruct ok; [destruct Hk as [nonce ->]|subst m'];
      by eapply touches_keeps; [exact Ht|exact Hi|exact Hi'|..].
Qed.

(** ** The whole of it *)

(** The calls a frame may cause: it lets the station in if it is a message 4/4
    that was accepted. *)
Definition receives (m : Sm.wpa_state_machine) (data : list Z) (c : call) : Prop :=
  plain c \/ lets_in m c /\ exists ki n, accepted m data ki n /\ classify_msg ki n = PAIRWISE_4.

(** An accepted frame is one the machines of the station wait for. *)
Lemma accepted_fits m data ki n b : at_rest m -> accepted m data ki n ->
  b = Sm.PTK_valid m -> fits ki (ctl_of (verified b m)).
Proof.
  intros [[]%rest_iff Hin] [_ _ _ _ Hmsg _] ->. unfold fits. intros Hreq. unfold classify_msg in Hmsg.
  rewrite Hreq, andb_false_r in Hmsg.
  destruct (has_bits ki WPA_KEY_INFO_SMK_MESSAGE); [done|].
  unfold keyed in rf_keyed. change (ptk_ok (ctl_of m)) with (Sm.PTK_valid m) in rf_keyed.
  destruct (has_bits ki WPA_KEY_INFO_KEY_TYPE); cbn [negb] in Hmsg.
  - unfold awaits, calm. cbn. change (Sm.Init m) with (init (ctl_of m)).
    change (Sm.Disconnect m) with (disc (ctl_of m)).
    change (Sm.DeauthenticationRequest m) with (deauth (ctl_of m)).
    change (Sm.AuthenticationRequest m) with (WpaAuthCtl.auth (ctl_of m)).
    change (Sm.ReAuthenticationRequest m) with (reauth (ctl_of m)).
    change (Sm.PTKRequest m) with (ptkreq (ctl_of m)).
    rewrite rf_init, rf_disc, rf_deauth, rf_auth, rf_reauth. cbn [orb].
    destruct (n =? 0).
    + destruct Hmsg as [Hs Hv]. change (state (ctl_of m) = WPA_PTK_PTKINITNEGOTIATING) in Hs.
      change (Sm.wpa_ptk_state m) with (state (ctl_of m)). rewrite Hs, Hv in *. cbn [negb orb] in rf_keyed.
      rewrite !andb_true_iff, !negb_true_iff in rf_keyed. destruct rf_keyed as [[[_ _] ->] _]. done.
    + destruct Hmsg as [Hs|Hs].
      * change (state (ctl_of m) = WPA_PTK_PTKSTART) in Hs.
        change (Sm.wpa_ptk_state m) with (state (ctl_of m)). by rewrite (rf_start Hs), Hs.
      * change (state (ctl_of m) = WPA_PTK_PTKCALCNEGOTIATING) in Hs.
        change (Sm.wpa_ptk_state m) with (state (ctl_of m)). destruct (rf_calc Hs) as [Hp Hm].
        rewrite Hp, Hs. cbn. rewrite Hs, Hm, andb_false_r, orb_false_r in rf_keyed.
        by apply negb_true_iff in rf_keyed as ->.
  - destruct Hmsg as [Hs Hv]. unfold gawaits. cbn. change (Sm.Init m) with (init (ctl_of m)).
    change (Sm.PtkGroupInit m) with (ginit (ctl_of m)). by rewrite rf_init, rf_ginit, Hv, Hs.
Qed.

(** What the machines do with it. *)
Lemma stored_admits m m1 data nonce ki n c : accepted m data ki n -> Sm.addr m1 = Sm.addr m ->
  (has_bits ki WPA_KEY_INFO_REQUEST = false -> Sm.wpa_ptk_state m1 = Sm.wpa_ptk_state m /\
    Sm.pairwise m1 = Sm.pairwise m /\ Sm.PTK m1 = Sm.PTK m) ->
  admits (stored data nonce ki m1) c -> receives m data c.
Proof.
  intros Hacc Ha Hsame. unfold admits. destruct (completes _) eqn:Hc; [|by left].
  unfold completes in Hc. rewrite !andb_true_iff in Hc. destruct Hc as [[[_ Hst] Hr] _].
  apply bool_decide_eq_true in Hst. cbn in Hst. unfold key_received in Hr. cbn in Hr.
  apply andb_prop in Hr as [Hreq%negb_true_iff Hkey%eqb_prop]. rewrite Hreq in *.
  destruct (Hsame eq_refl) as (Hs & Hp & Hk).
  unfold lets_in, pairwise_alg. change (Sm.PTK (stored data nonce ki m1)) with (Sm.PTK m1).
  change (Sm.addr (stored data nonce ki m1)) with (Sm.addr m1).
  change (Sm.pairwise (stored data nonce ki m1)) with (Sm.pairwise m1). rewrite Ha, Hp, Hk. intros Hc.
  right. split; [exact Hc|]. exists ki, n. split; [done|]. destruct Hacc as [_ _ _ _ Hmsg _].
  unfold classify_msg in *. rewrite Hreq, Hkey, andb_false_r in *. cbn [negb] in *.
  destruct (has_bits ki WPA_KEY_INFO_SMK_MESSAGE); [done|]. destruct (n =? 0); [done|].
  destruct Hmsg; congruence.
Qed.

Lemma invalidate_replay_wf a m : wf_sm a m -> wf_sm a (invalidate_replay m).
Proof.
  intros H. unfold invalidate_replay. destruct (Sm.key_replay m) as [|r k] eqn:E; [done|].
  destruct H. rewrite E in m_replay. destruct m_replay as [Hl [Hr Hf]%Forall_cons].
  split; try done. split; [exact Hl|]. by apply Forall_cons.
Qed.

Lemma invalidate_replay_ctl m : ctl_of (invalidate_replay m) = ctl_of m.
Proof. unfold invalidate_replay. by destruct (Sm.key_replay m). Qed.
Lemma invalidate_replay_same m : same_sta m (invalidate_replay m) /\ Sm.PTK (invalidate_replay m) = Sm.PTK m.
Proof. unfold invalidate_replay. by destruct (Sm.key_replay m). Qed.

Definition replay_used (rc : list Z) (m : Sm.wpa_state_machine) : Sm.wpa_state_machine :=
  m <| Sm.req_replay_counter_used := true |> <| Sm.req_replay_counter := rc |>.

(** An assignment after which the station is still at rest. *)
Lemma upd_rests f w i m : wf_world w -> stas w !! i = Some m -> wf_sm (auth w) (f m) ->
  same_sta m (f m) -> at_rest (f m) ->
  upd_sta i f w = Ok (put_sta i (f m) w) /\ wf_world (put_sta i (f m) w) /\ keeps plain w (put_sta i (f m) w).
Proof.
  intros Hw Hi Hwf [] Hr.
  destruct (upd_sta_runs (fun _ => at_rest) (fun _ => at_rest) f w i m Hw Hi) as [Hu Hw']; try done.
  split; [done|]. split; [done|]. by apply (put_sta_keeps _ i m).
Qed.

(** What the station is when the frame is stored. *)
Definition served (m : Sm.wpa_state_machine) (data : list Z) (ki n : Z) (m' : Sm.wpa_state_machine) : Prop :=
  Sm.addr m' = Sm.addr m /\ fits ki (ctl_of m') /\
  (has_bits ki WPA_KEY_INFO_REQUEST = false -> Sm.wpa_ptk_state m' = Sm.wpa_ptk_state m /\
    Sm.pairwise m' = Sm.pairwise m /\ Sm.PTK m' = Sm.PTK m).

(** The request is served, or the replay counter used up. *)
Lemma serve_runs w i m data ki n : wf_world w -> stas w !! i = Some (verified (Sm.PTK_valid m) m) ->
  at_rest m -> bytes data -> key_header_len <= zlen data -> accepted m data ki n ->
  has_bits ki WPA_KEY_INFO_REQUEST && negb (Sm.PTK_valid m) = false ->
  runs (if has_bits ki WPA_KEY_INFO_REQUEST then
          replay_counter ← rd_n data o_replay_counter WPA_REPLAY_COUNTER_LEN;
          w ← upd_sta i (replay_used replay_counter) w;
          serve_request i data ki n w
        else upd_sta i invalidate_replay w)
    (fun w' => wf_world w' /\ keeps plain w w' /\ exists m', stas w' !! i = Some m' /\ served m data ki n m').
Proof.
  intros Hw Hi Hrest Hb Hl Hacc Hv. set (m1 := verified _ m) in *.
  destruct (wf_at_rest w i m1 Hw Hi) as [Hwf1 _ _ Hrest1].
  destruct (has_bits ki WPA_KEY_INFO_REQUEST) eqn:Hreq.
  - cbn [andb] in Hv. apply negb_false_iff in Hv.
    destruct (rd_n_runs data o_replay_counter WPA_REPLAY_COUNTER_LEN) as (rc & -> & _);
      [done|done|unfold key_header_len, sizeof_ieee802_1x_hdr, sizeof_wpa_eapol_key, o_replay_counter, WPA_REPLAY_COUNTER_LEN in *; lia|].
    cbn [mbind res_bind].
    destruct (upd_rests (replay_used rc) w i m1 Hw Hi) as (Hu & Hw1 & Hk1); try done.
    { eapply wf_sm_update; [exact Hwf1|try done..]; apply Hwf1. }
    rewrite (bind_eq _ _ _ Hu).
    eapply runs_weaken; [apply (serve_request_runs _ i (replay_used rc m1) data ki n Hw1); [apply lookup_insert_eq|done|done|apply Hacc]|].
    intros w2 [Hw2 Hk2]. split; [done|]. split; [by eapply keeps_trans|].
    destruct (k_stas _ _ _ Hk2 i _ (lookup_insert_eq _ _ _)) as (m2 & Hi2 & Ha2 & _). exists m2.
    split; [done|]. split; [done|]. split; [|by rewrite Hreq]. unfold fits. by rewrite Hreq.
  - destruct (upd_rests invalidate_replay w i m1 Hw Hi) as (Hu & Hw1 & Hk1).
    { by apply invalidate_replay_wf. } { apply invalidate_replay_same. }
    { destruct Hrest1 as [Hr Hin]. split; [by rewrite invalidate_replay_ctl|].
      by rewrite (ss_in_step _ _ (proj1 (invalidate_replay_same m1))). }
    rewrite Hu. exists (put_sta i (invalidate_replay m1) w). split; [done|]. split; [done|]. split; [done|].
    exists (invalidate_replay m1). split; [apply lookup_insert_eq|].
    destruct (invalidate_replay_same m1) as [[] E]. split; [by rewrite ss_addr|]. split.
    + rewrite invalidate_replay_ctl. by eapply accepted_fits.
    + intros _. split; [|by rewrite ss_cipher, E].
      change (Sm.wpa_ptk_state (invalidate_replay m1)) with (state (ctl_of (invalidate_replay m1))).
      by rewrite invalidate_replay_ctl.
Qed.

Lemma plain_receives m data c : plain c -> receives m data c.
Proof. by left. Qed.

Lemma receive_rests w i m data : wf_world w -> stas w !! i = Some m -> bytes data ->
  runs (wpa_receive i data (zlen data) w) (fun w' => wf_world w' /\
    keeps (receives m data) (emit_w (CRx (Sm.addr m) data) w) w').
Proof.
  intros Hw Hi Hb. unfold wpa_receive. rewrite (bind_eq _ _ _ (the_sta_ok _ _ _ Hi)). cbv zeta.
  assert (take (Z.to_nat (zlen data)) data = data) as ->
    by (unfold zlen; rewrite Nat2Z.id; by apply take_ge).
  destruct (emit_w_rests plain (CRx (Sm.addr m) data) w Hw I) as [Hw0 _].
  set (w0 := emit_w _ w) in *. assert (stas w0 !! i = Some m) as Hi0 by exact Hi.
  destruct (wf_at_rest w i m Hw Hi) as [_ _ _ Hrest].
  rstep (by apply (checks_runs w0 i m data Hw0 Hi0)) as [acc w1] H1.
  destruct H1 as (Hw1 & Hk1 & b & Hi1 & Hacc).
  assert (forall w', wf_world w' -> keeps plain w1 w' ->
    wf_world w' /\ keeps (receives m data) w0 w') as Hplain.
  { intros w' H1 H2. split; [done|]. eapply keeps_weaken; [apply plain_receives|]. by eapply keeps_trans. }
  destruct acc as [[ki n]|]; [|apply runs_ret, Hplain; [done|apply keeps_refl]].
  destruct (Hacc ki n eq_refl) as [-> Ha]. rewrite (bind_eq _ _ _ (the_sta_ok _ _ _ Hi1)).
  change (Sm.MICVerified (verified (Sm.PTK_valid m) m)) with (Sm.PTK_valid m).
  destruct (_ && negb _) eqn:Hv; [apply runs_ret, Hplain; [done|apply keeps_refl]|].
  assert (key_header_len <= zlen data) as Hlen by (destruct (ac_len _ _ _ _ Ha); lia).
  rstep (by apply (serve_runs w1 i m data ki n)) as w2 H2.
  destruct H2 as (Hw2 & Hk2 & m2 & Hi2 & Haddr & Hfits & Hsame).
  rstep (by apply (store_runs w2 i m2 data ki)) as [ok w3] H3.
  destruct H3 as (Hw3 & Hk3 & m3 & Hi3 & Hkept).
  destruct ok.
  - destruct Hkept as [nonce ->]. destruct (wf_at_rest w2 i m2 Hw2 Hi2) as [_ _ _ [[]%rest_iff _]].
    rstep (by eapply (step_rests w3 i _ Hw3 Hi3)) as [r w4] H4. apply runs_ret.
    destruct H4 as (_ & Hw4 & Hk4). split; [done|].
    eapply keeps_trans; [eapply keeps_weaken; [apply plain_receives|];
      eapply keeps_trans; [exact Hk1|]; eapply keeps_trans; [exact Hk2|exact Hk3]|].
    eapply keeps_weaken; [|exact Hk4]. intros c. by apply (stored_admits m m2 data nonce ki n c).
  - unfold kept in Hkept. subst m3. apply runs_ret, Hplain.
    + eapply wf_world_weaken; [|exact Hw3]. intros j mj Hj. unfold but. case_decide; [|done].
      subst j. simplify_eq. intros _. apply not_stored_at_rest. by apply (wf_at_rest w2 i m2).
    + by eapply keeps_trans.
Qed.
End recv.
