(* ===== verification/WpaAuthReach.v ===== *)
(** * Everything hostapd may call, in any order

    The interface of the authenticator as one function ([handle]) of what happens,
    and the worlds reached by it: they are all well-formed, no call fails, and a
    station is only ever let in by a message 4/4 with the right MIC. *)

From stdpp Require Import gmap.
From S2P Require Import Prelude CommonUtils EapI WpaCommon Pmksa PmksaProps WpaAuthI.
From S2P Require Import WpaAuthIe WpaIeProps WpaIeSpec WpaAuthSm WpaAuthWf WpaAuthCtl.
From S2P Require Import WpaAuthRest WpaAuthRef WpaAuthRun WpaAuth WpaAuthWorld WpaAuthRx.
From S2P Require Import WpaAuthEvents WpaAuthRekey WpaAuthRecv.

Inductive input :=
  | In_frame (i : nat) (data : list Z)
  | In_eapol_timeout (i : nat)
  | In_rekey_ptk (i : nat)
  | In_call_step (i : nat)
  | In_notify (i : nat)
  | In_event (i : nat) (event : wpa_event)
  | In_associated (i : nat)
  | In_rekey_gmk
  | In_rekey_gtk
  | In_join (addr : list Z)
  | In_no_wpa (i : nat)
  | In_leave (i : nat)
  | In_validate (i : nat) (ie : list Z) (len : Z).

Section reach.
Context {cr : Crypto} {c_laws : CryptoLaws cr} {o : Owner} {o_laws : OwnerLaws o}.

(** What happens, handled. *)
Definition handle (inp : input) (w : world) : res world :=
  match inp with
  | In_frame i data => wpa_receive i data (zlen data) w
  | In_eapol_timeout i => wpa_send_eapol_timeout i w
  | In_rekey_ptk i => wpa_rekey_ptk i w
  | In_call_step i => wpa_sm_call_step i w
  | In_notify i => wpa_auth_sm_notify i w
  | In_event i event => '(_, w) ← wpa_auth_sm_event i event w; mret w
  | In_associated i => '(_, w) ← wpa_auth_sta_associated i w; mret w
  | In_rekey_gmk => wpa_rekey_gmk w
  | In_rekey_gtk => wpa_rekey_gtk w
  | In_join addr => '(_, w) ← wpa_auth_sta_init addr w; mret w
  | In_no_wpa i => wpa_auth_sta_no_wpa i w
  | In_leave i => wpa_auth_sta_deinit i w
  | In_validate i ie len => '(_, w) ← sta_validate_wpa_ie i (fun _ => []) (Some ie) len w; mret w
  end.

(** What hostapd takes care of: the station is one of the authenticator's, frames
    and elements are octets, and a station that is associated again was
    reported first, so that its key is gone. *)
Definition allowed (inp : input) (w : world) : Prop :=
  match inp with
  | In_frame i data => is_Some (stas w !! i) /\ bytes data
  | In_eapol_timeout i | In_rekey_ptk i | In_call_step i | In_notify i | In_event i _
  | In_no_wpa i | In_leave i => is_Some (stas w !! i)
  | In_associated i => exists m, stas w !! i = Some m /\ (Sm.started m = true -> Sm.PTK_valid m = false)
  | In_rekey_gmk | In_rekey_gtk | In_join _ => True
  | In_validate i ie len => is_Some (stas w !! i) /\ bytes ie /\ 1 <= len <= zlen ie /\
      Conf.okc (Auth.conf (auth w)) = 0 /\ exists l, repr (Auth.pmksa (auth w)) [] l
  end.

(** The calls that handling it adds to the log. *)
Definition heard (inp : input) (w w' : world) : Prop :=
  match inp with
  | In_frame i data => exists m, stas w !! i = Some m /\
      log_ext (receives m data) (CRx (Sm.addr m) data :: wlog w) (wlog w')
  | _ => log_ext plain (wlog w) (wlog w')
  end.

(** ** The calls not treated yet *)

Lemma wpa_rekey_gmk_runs w : wf_world w ->
  runs (wpa_rekey_gmk w) (fun w' => wf_world w' /\ keeps plain w w').
Proof.
  intros Hw. destruct (w_head _ _ Hw) as (h & Hh & [gr Hg]). unfold wpa_rekey_gmk.
  rewrite (bind_eq _ _ _ (head_group_ok _ _ Hh)). unfold on_group.
  rewrite (bind_eq _ _ _ (the_group_ok _ _ _ Hg)). cbv beta zeta.
  destruct (random_bytes _ WPA_GMK_LEN) as [r d]. cbn [mbind res_bind mret res_ret].
  set (l := CRandom WPA_GMK_LEN :: wlog w). set (gr' := gr <| Group.GMK := d |>).
  change (put_group h gr' (w <| wlog := l |>)) with (put_group h gr' w <| wlog := l |>).
  assert (wf_world (put_group h gr' (w <| wlog := l |>)) /\ keeps plain w (put_group h gr' (w <| wlog := l |>)))
    as [Hw1 Hk1].
  { split.
    - apply (put_group_wf _ _ h gr); [by apply wf_world_log|done| |done].
      destruct (w_groups _ _ Hw _ _ Hg) as [[] ? ? ?]. by split.
    - eapply keeps_trans; [apply (log_keeps _ w l); by apply log_ext_cons|].
      by apply (put_group_keeps _ _ h gr). }
  apply runs_ret. destruct (negb _); [|done].
  match goal with |- wf_world (emit_w ?c ?w1) /\ _ => destruct (emit_w_rests plain c w1 Hw1 I) as [Hw2 Hk2] end.
  split; [exact Hw2|]. by eapply keeps_trans.
Qed.

Lemma no_wpa_runs w i m : wf_world w -> stas w !! i = Some m ->
  runs (wpa_auth_sta_no_wpa i w) (fun w' => wf_world w' /\ keeps plain w w').
Proof.
  intros Hw Hi. destruct (wf_at_rest w i m Hw Hi) as [Hwf _ _ Hrest].
  destruct (upd_sta_runs (fun _ => at_rest) (fun _ => at_rest) (fun m => m <| Sm.wpa_key_mgmt := 0 |>) w i m Hw Hi)
    as [Hu Hw']; try done.
  { eapply wf_sm_update; [exact Hwf|try done..]; apply Hwf. }
  unfold wpa_auth_sta_no_wpa. eexists. split; [exact Hu|]. split; [exact Hw'|]. by apply (put_sta_keeps _ i m).
Qed.

(** *** Stations come and go *)

Lemma sta_zero_wf a g addr : wf_sm a (sta_zero g addr).
Proof. split; try done. split; [done|]. by repeat constructor. Qed.
Lemma sta_zero_at_rest g addr : at_rest (sta_zero g addr).
Proof. split; [|done]. split; [|done]. by split; [..|intros [?|?]]. Qed.

Lemma join_runs addr w : wf_world w -> runs (wpa_auth_sta_init addr w) (fun '(r, w') =>
  wf_world w' /\ log_ext plain (wlog w) (wlog w') /\
  forall i, r = Some i -> stas w' !! i = Some (sta_zero (default 0%nat (Auth.group (auth w))) addr)).
Proof.
  intros Hw. unfold wpa_auth_sta_init.
  destruct (emit_w_rests plain (CMalloc sizeof_wpa_state_machine) w Hw I) as [Hw1 _].
  set (w1 := emit_w _ w) in *. assert (log_ext plain (wlog w) (wlog w1)) as Hl by by apply log_ext_cons.
  cbv zeta. destruct (malloc (wlog w1)); cbn [negb]; [|by apply runs_ret].
  destruct (w_head _ _ Hw1) as (h & Hh & Hg). rewrite (bind_eq _ _ _ (head_group_ok _ _ Hh)). apply runs_ret.
  destruct Hw1 as [Ha Hhd Hc Hgs Hst Hli]. split; [|split; [done|]].
  - split; cbn [auth groups stas sta_list put put_sta]; try done.
    + intros j m Hj. destruct (decide (j = fresh_loc w1)) as [->|Hne].
      * rewrite lookup_insert_eq in Hj. injection Hj as <-.
        split; [apply sta_zero_wf|done|done|apply sta_zero_at_rest].
      * rewrite lookup_insert_ne in Hj by done. by destruct (Hst j m Hj).
    + apply Forall_cons. split; [by rewrite lookup_insert_eq|].
      eapply Forall_impl; [exact Hli|]. cbn beta. intros j Hj.
      destruct (decide (j = fresh_loc w1)) as [->|Hne]; [by rewrite lookup_insert_eq|].
      by rewrite lookup_insert_ne.
  - intros i [= <-]. cbn [stas put put_sta]. rewrite lookup_insert_eq.
    change (Auth.group (auth w1)) with (Auth.group (auth w)) in Hh. by rewrite Hh.
Qed.

(** Taking a station out of the list, its timeouts with it. *)
Lemma unlist_wf P w i : wf_world_ P w -> wf_world_ P (w <| sta_list := filter (fun j => j <> i) (sta_list w) |>).
Proof.
  intros [Ha Hhd Hc Hgs Hst Hli]. split; try done.
  - intros j m Hj. by destruct (Hst j m Hj).
  - cbn [sta_list stas put]. rewrite Forall_forall in Hli |- *. intros j Hj%list_elem_of_filter. by apply Hli, Hj.
Qed.

Definition free_end (s : st) : st := if Sm.GUpdateStationKeys (sm s) then cancel_group_update s else s.

Definition no_gupd (c : ctl) : ctl := c <| gupd := false |>.
Lemma rest_no_gupd c : rest c -> rest (no_gupd c).
Proof.
  intros []%rest_iff. apply rest_iff. destruct rf_inv. split; try done.
Qed.

Lemma free_end_good s : wf_st s -> good no_gupd s (free_end s).
Proof.
  intros Hs. unfold free_end. destruct (Sm.GUpdateStationKeys (sm s)) eqn:E.
  - by apply cancel_group_update_good.
  - destruct (good_id plain s Hs) as [H1 H2 H3]. split; [done|done|]. unfold no_gupd.
    change (gupd (ctl_of (sm s)) = false) in E. by rewrite <- E.
Qed.

Lemma free_sta_runs w i m : wf_world w -> stas w !! i = Some m -> i ∉ sta_list w ->
  runs (wpa_free_sta_sm i w) (fun w' => wf_world w' /\ log_ext plain (wlog w) (wlog w')).
Proof.
  intros Hw Hi Hni. unfold wpa_free_sta_sm.
  rstep (eapply (on_sta_runs _ (fun _ => at_rest) plain (fun m' => ctl_of m' = no_gupd (ctl_of m)) _ w i m Hw Hi)) as w1 H1.
  - intros s Hs <-. apply runs_ret. by destruct (free_end_good s Hs).
  - intros m' E Hs. destruct (wf_at_rest w i m Hw Hi) as [_ _ _ [Hr Hin]].
    split; [rewrite E; by apply rest_no_gupd|by rewrite (ss_in_step _ _ Hs)].
  - done.
  - apply runs_ret. destruct H1 as (Hw1 & Ht1 & _). split; [|apply Ht1].
    destruct Hw1 as [Ha Hhd Hc Hgs Hst Hli]. split; try done.
    + intros j mj Hj. cbn [stas put] in Hj. apply lookup_delete_Some in Hj as [_ Hj]. by destruct (Hst j mj Hj).
    + cbn [sta_list stas put]. eapply Forall_impl; [apply Forall_and; split; [exact Hli|]|].
      * rewrite (t_list _ _ _ _ Ht1). apply (Forall_forall (fun j => j <> i)). intros j Hj ->. done.
      * intros j [Hj Hne]. by rewrite lookup_delete_ne.
Qed.

(** Calls of the event loop. *)
Lemma emit_after P w0 w c : wf_world w /\ keeps P w0 w -> P c -> wf_world (emit_w c w) /\ keeps P w0 (emit_w c w).
Proof.
  intros [Hw Hk] Hc. destruct (emit_w_rests P c w Hw Hc) as [Hw1 Hk1]. split; [done|]. by eapply keeps_trans.
Qed.

Lemma leave_runs w i m : wf_world w -> stas w !! i = Some m ->
  runs (wpa_auth_sta_deinit i w) (fun w' => wf_world w' /\ log_ext plain (wlog w) (wlog w')).
Proof.
  intros Hw Hi. unfold wpa_auth_sta_deinit. rewrite (bind_eq _ _ _ (the_sta_ok _ _ _ Hi)). cbv zeta.
  set (strict := negb (_ =? 0) && Sm.has_GTK m). set (w0 := if strict then _ else w).
  assert (wf_world w0 /\ keeps plain w w0) as H0.
  { assert (wf_world w /\ keeps plain w w) as H by by split; [|apply keeps_refl].
    unfold w0. destruct strict; [|done]. by do 2 (apply emit_after; [|done]). }
  match goal with |- context [sta_list ?x] => set (w1 := x) end.
  assert (wf_world w1 /\ keeps plain w w1) as [Hw1 Hk1] by by do 3 (apply emit_after; [|done]).
  assert (stas w1 !! i = Some m) as Hi1.
  { unfold w1, w0. by destruct strict. }
  destruct (wf_at_rest w i m Hw Hi) as [_ _ _ [_ ->]].
  eapply runs_weaken; [apply (free_sta_runs _ i m (unlist_wf _ _ i Hw1) Hi1)|].
  - cbn [sta_list put]. intros Hin%list_elem_of_filter. by destruct Hin.
  - intros w2 [H1 H2]. split; [done|]. eapply log_ext_trans; [apply (k_log _ _ _ Hk1)|exact H2].
Qed.

(** *** A station's element *)

(** What the check of an element changes of a station. *)
Definition revalidated (m m' : Sm.wpa_state_machine) : Prop :=
  m' = m <| Sm.wpa_key_mgmt := Sm.wpa_key_mgmt m' |> <| Sm.mgmt_frame_prot := Sm.mgmt_frame_prot m' |>
         <| Sm.pairwise := Sm.pairwise m' |> <| Sm.wpa := Sm.wpa m' |> <| Sm.pmksa := Sm.pmksa m' |>
         <| Sm.wpa_ie := Sm.wpa_ie m' |> <| Sm.wpa_ie_len := Sm.wpa_ie_len m' |>.

Lemma revalidated_refl m : revalidated m m.
Proof. done. Qed.
Lemma revalidated_trans a b c : revalidated a b -> revalidated b c -> revalidated a c.
Proof. unfold revalidated. intros E1 E2. rewrite E2, E1. done. Qed.

Lemma validate_policy_same conf is_rsn data m : revalidated m (snd (validate_policy conf is_rsn data m)).
Proof.
  unfold validate_policy. cbv zeta. repeat match goal with |- context [if ?b then _ else _] =>
    lazymatch type of b with bool => lazymatch b with is_rsn => fail | has_bits _ WPA_CIPHER_CCMP => fail | _ => destruct b end end end; done.
Qed.
Lemma validate_policy_pmksa conf is_rsn data m : let m' := snd (validate_policy conf is_rsn data m) in
  Sm.pmksa m' = Sm.pmksa m /\ Sm.wpa_ie m' = Sm.wpa_ie m /\ Sm.wpa_ie_len m' = Sm.wpa_ie_len m.
Proof. unfold validate_policy. cbv zeta. repeat case_match; done. Qed.

Lemma save_wpa_ie_same e ie len m r m' : save_wpa_ie e ie len m = Ok (r, m') ->
  revalidated m m' /\ Sm.pmksa m' = Sm.pmksa m.
Proof.
  unfold save_wpa_ie.
  assert (forall buf, (d ← rd_n ie 0 len; buf ← wr_n buf 0 d;
     let sm := m <| Sm.wpa_ie := Some buf |> in mret (WPA_IE_OK, sm <| Sm.wpa_ie_len := len |>)) = Ok (r, m') ->
    revalidated m m' /\ Sm.pmksa m' = Sm.pmksa m) as Hcopy.
  { intros buf H. destruct (rd_n ie 0 len) as [d|]; [|done]. cbn [mbind res_bind] in H.
    destruct (wr_n buf 0 d) as [b|]; [|done]. injection H as <- <-. split; reflexivity. }
  repeat case_match; try apply Hcopy; intros H'; injection H' as <- <-; split; reflexivity.
Qed.

Lemma revalidated_ctl m m' : revalidated m m' -> at_rest m -> at_rest m'.
Proof.
  intros ->. intros [[]%rest_iff Hin]. split; [|done]. apply rest_iff. destruct rf_inv. by split.
Qed.

Lemma revalidated_wf a a' m m' : wf_sm a m -> Auth.pmksa a' = Auth.pmksa a -> revalidated m m' ->
  (forall p, Sm.pmksa m' = Some p -> exists en, heap (Auth.pmksa a) !! p = Some en /\ wf_entry en) ->
  saved_ie m' -> wf_sm a' m'.
Proof.
  intros [] E Hr Hp Hs. unfold revalidated in Hr. rewrite <- E in Hp.
  split; try exact Hp; try exact Hs; rewrite Hr; done.
Qed.

Lemma set_selected_same a1 a2 a3 a : same_auth a (set_selected a1 a2 a3 a).
Proof. done. Qed.

Lemma validate_runs e fe ie len a m l : wf_sm a m -> bytes ie -> 1 <= len <= zlen ie ->
  Conf.okc (Auth.conf a) = 0 -> repr (Auth.pmksa a) [] l ->
  exists r a' m', wpa_validate_wpa_ie e fe (Some a) (Some m) (Some ie) len = Ok (r, Some a', Some m') /\
    same_auth a a' /\ wf_sm a' m' /\ revalidated m m'.
Proof.
  intros Hwf Hbytes Hl Hokc Hr. unfold wpa_validate_wpa_ie.
  rewrite (proj2 (Z.ltb_ge _ _)) by lia. rewrite rd_ok by lia. cbn [mbind res_bind].
  change (Z.to_nat 0) with 0%nat. set (is_rsn := nth 0 ie 0 =? WLAN_EID_RSN).
  destruct (negb (has_bits (Conf.wpa (Auth.conf a)) _)); [by eexists _, _, _|].
  assert (exists r data, (if is_rsn then wpa_parse_wpa_ie_rsn ie len else wpa_parse_wpa_ie_wpa ie len)
    = Ok (r, data) /\ (r = 0 -> pmkids_inside len data)) as (parsed & data & Hparse & Hin).
  { destruct is_rsn; [apply parse_rsn_runs|apply parse_wpa_runs]; by try lia. }
  rewrite (bind_eq _ _ _ Hparse). cbn beta iota.
  set (a1 := if is_rsn then set_selected _ _ _ a else _).
  assert (same_auth a a1) as Ha1 by (unfold a1; by destruct is_rsn).
  destruct (Z.eqb_spec parsed 0) as [-> |]; cbn [negb].
  2: { exists WPA_INVALID_IE, a1, m. split; [done|]. split; [done|]. split; [|done]. by eapply wf_sm_same. }
  pose proof (validate_policy_same (Auth.conf a1) is_rsn data m) as Hsame.
  pose proof (validate_policy_pmksa (Auth.conf a1) is_rsn data m) as (E1 & E2 & E3).
  destruct (validate_policy (Auth.conf a1) is_rsn data m) as [err m1]. cbn [snd] in *.
  assert (saved_ie m1) as Hs1 by (intros buf; rewrite E2, E3; apply (m_ie _ _ Hwf)).
  destruct err as [err|].
  { exists err, a1, m1. split; [done|]. split; [done|]. split; [|done].
    eapply revalidated_wf; [exact Hwf|apply Ha1|done| |done]. rewrite E1. apply Hwf. }
  destruct (validate_pmksa_ok e fe ie len data a1 m1 l) as (u & Hpm & Hu);
    [lia|by apply Hin|by rewrite (sa_pmksa _ _ Ha1)|by rewrite (sa_conf _ _ Ha1)|].
  rewrite (bind_eq _ _ _ Hpm). cbn beta iota. set (m2 := m1 <| Sm.pmksa := _ |>).
  destruct (save_wpa_ie_ok e ie len m2) as (r & m3 & Hsave & Hs3 & _); [lia|exact Hs1|].
  destruct (save_wpa_ie_same _ _ _ _ _ _ Hsave) as [Hsame3 Hp3].
  rewrite (bind_eq _ _ _ Hsave). eexists r, _, m3. split; [done|].
  assert (revalidated m m3) as Hall
    by (eapply revalidated_trans; [exact Hsame|]; eapply revalidated_trans; [|exact Hsame3]; done).
  split; [by destruct Ha1|]. split; [|done].
  eapply (revalidated_wf a); [exact Hwf|apply Ha1|exact Hall| |exact Hs3].
  rewrite Hp3. intros p Hp. cbn in Hp. destruct u as [[q k]|]; [|done]. injection Hp as <-.
  destruct Hu as (en & j & Hen & _). rewrite (sa_pmksa _ _ Ha1) in Hen. exists en. split; [done|].
  by eapply (r_wf _ _ _ Hr).
Qed.

Lemma sta_validate_runs i ie len w m l : wf_world w -> stas w !! i = Some m -> bytes ie ->
  1 <= len <= zlen ie -> Conf.okc (Auth.conf (auth w)) = 0 -> repr (Auth.pmksa (auth w)) [] l ->
  runs (sta_validate_wpa_ie i (fun _ => []) (Some ie) len w) (fun '(_, w') =>
    wf_world w' /\ keeps plain w w').
Proof.
  intros Hw Hi Hb Hl Hokc Hr. destruct (wf_at_rest w i m Hw Hi) as [Hwf Hg Hpd Hrest].
  unfold sta_validate_wpa_ie. rewrite (bind_eq _ _ _ (the_sta_ok _ _ _ Hi)).
  destruct (validate_runs (env_of (wlog w)) (fun _ => []) ie len (auth w) m l Hwf Hb Hl Hokc Hr)
    as (r & a' & m' & Heq & Ha & Hwf' & Hre).
  rewrite (bind_eq _ _ _ Heq). apply runs_ret. cbn [default].
  destruct (put_auth_rests plain w a' Hw Ha) as [Hw1 Hk1]. set (w1 := w <| auth := a' |>) in *.
  assert (Sm.group m' = Sm.group m /\ Sm.addr m' = Sm.addr m /\ Sm.pending_deinit m' = Sm.pending_deinit m)
    as (E1 & E2 & E3) by (unfold revalidated in Hre; by rewrite Hre).
  destruct (upd_sta_runs (fun _ => at_rest) (fun _ => at_rest) (fun _ => m') w1 i m Hw1 Hi) as [_ Hw2]; try done.
  { by eapply revalidated_ctl. }
  split; [exact Hw2|]. eapply keeps_trans; [exact Hk1|]. by apply (put_sta_keeps _ i m).
Qed.

(** ** One thing after the other *)

Lemma runs_drop {A} (f : res (A * world)) P : runs f (fun '(_, w') => P w') ->
  runs ('(_, w) ← f; mret w) P.
Proof. intros ([a w'] & -> & H). by exists w'. Qed.

Lemma keeps_heard w w' : wf_world w' /\ keeps plain w w' -> wf_world w' /\ log_ext plain (wlog w) (wlog w').
Proof. intros [H1 H2]. split; [done|apply H2]. Qed.

Lemma handle_rests inp w : wf_world w -> allowed inp w ->
  runs (handle inp w) (fun w' => wf_world w' /\ heard inp w w').
Proof.
  intros Hw Ha. destruct inp; cbn [handle allowed heard] in *.
  - destruct Ha as [[m Hi] Hb]. eapply runs_weaken; [by apply receive_rests|].
    intros w' [H1 H2]. split; [done|]. exists m. split; [done|]. apply (k_log _ _ _ H2).
  - destruct Ha as [m Hi]. eapply runs_weaken; [by eapply wpa_send_eapol_timeout_runs|apply keeps_heard].
  - destruct Ha as [m Hi]. eapply runs_weaken; [by eapply wpa_rekey_ptk_runs|apply keeps_heard].
  - destruct Ha as [m Hi]. eapply runs_weaken; [by eapply wpa_sm_call_step_runs|apply keeps_heard].
  - destruct Ha as [m Hi]. eapply runs_weaken; [by eapply wpa_auth_sm_notify_runs|apply keeps_heard].
  - destruct Ha as [m Hi]. apply runs_drop.
    eapply runs_weaken; [by eapply (wpa_auth_sm_event_runs i event w m)|].
    intros [r w'] (_ & H). by apply keeps_heard.
  - destruct Ha as (m & Hi & Hk). apply runs_drop.
    eapply runs_weaken; [by eapply (wpa_auth_sta_associated_runs i w m)|].
    intros [r w'] (_ & H). by apply keeps_heard.
  - eapply runs_weaken; [by apply wpa_rekey_gmk_runs|apply keeps_heard].
  - eapply runs_weaken; [by apply wpa_rekey_gtk_runs|apply keeps_heard].
  - apply runs_drop. eapply runs_weaken; [by apply join_runs|]. intros [r w'] (H1 & H2 & _). done.
  - destruct Ha as [m Hi]. eapply runs_weaken; [by eapply no_wpa_runs|apply keeps_heard].
  - destruct Ha as [m Hi]. by eapply leave_runs.
  - destruct Ha as ([m Hi] & Hb & Hl & Hokc & l & Hr). apply runs_drop.
    eapply runs_weaken; [by eapply (sta_validate_runs i ie len w m l)|]. intros [r w'] H. by apply keeps_heard.
Qed.

(** The worlds reached from [w]. *)
Inductive reaches (w : world) : world -> Prop :=
  | reaches_refl : reaches w w
  | reaches_step inp w1 w2 : reaches w w1 -> allowed inp w1 -> handle inp w1 = Ok w2 -> reaches w w2.

(** [c] is made because of the frame [data] that came in at [w1] from station [i]:
    a message 4/4, with the replay counter and the MIC of the key of the station. *)
Record opened_by (w1 : world) (i : nat) (data : list Z) (c : call) : Prop := {
  ob_sta : exists m, stas w1 !! i = Some m /\ lets_in m c /\ Sm.PTK_valid m = true /\
    wpa_verify_key_mic (Sm.PTK m) data (zlen data) = Ok 0 /\
    exists rc, rd_n data o_replay_counter WPA_REPLAY_COUNTER_LEN = Ok rc /\
      wpa_replay_counter_valid m rc = true;
  ob_msg : exists ki, WPA_GET_BE16 data o_key_info = Ok ki /\
    WPA_GET_BE16 data o_key_data_length = Ok 0 /\ classify_msg ki 0 = PAIRWISE_4;
}.

Lemma receives_opened w i m data c : stas w !! i = Some m -> receives m data c -> ~ plain c ->
  opened_by w i data c.
Proof.
  intros Hi [H|(Hl & ki & n & Hacc & Hmsg)] Hc; [done|]. destruct Hacc as [H1 H2 _ Hrc Hst Hmic].
  rewrite Hmsg in Hst. destruct Hst as [_ Hv].
  assert (n = 0 /\ has_bits ki WPA_KEY_INFO_REQUEST = false) as [-> Hreq].
  { unfold classify_msg in Hmsg.
    destruct (has_bits ki WPA_KEY_INFO_SMK_MESSAGE), (has_bits ki WPA_KEY_INFO_REQUEST); cbn [andb] in Hmsg;
      try (by repeat case_match). destruct (negb _); [done|]. destruct (Z.eqb_spec n 0); [done|done]. }
  split; [|by exists ki]. exists m. split_and!; auto.
Qed.

(** Every call of the log [d] that lets a station in was caused so. *)
Definition explained (w0 : world) (d : log) : Prop :=
  forall d1 c d2, d = d1 ++ c :: d2 -> ~ plain c ->
  exists w1 i m data, reaches w0 w1 /\ stas w1 !! i = Some m /\ opened_by w1 i data c /\
    exists d3, d2 ++ wlog w0 = d3 ++ CRx (Sm.addr m) data :: wlog w1.

Lemma reaches_explained w0 w : wf_world w0 -> reaches w0 w ->
  wf_world w /\ exists d, wlog w = d ++ wlog w0 /\ explained w0 d.
Proof.
  intros H0 H. induction H as [|inp w1 w2 H IH Ha Hs].
  { split; [done|]. exists []. split; [done|]. intros d1 c d2 Hd. by destruct d1. }
  destruct IH as (Hw1 & d & Hd & Hexp).
  destruct (runs_inv _ _ _ (handle_rests inp w1 Hw1 Ha) Hs) as [Hw2 Hheard]. split; [done|].
  assert (exists e, wlog w2 = e ++ wlog w1 /\ forall e1 c e2, e = e1 ++ c :: e2 -> ~ plain c ->
    exists i m data e3, stas w1 !! i = Some m /\ opened_by w1 i data c /\ e2 = e3 ++ [CRx (Sm.addr m) data])
    as (e & He & Hnew).
  { assert (log_ext plain (wlog w1) (wlog w2) -> exists e, wlog w2 = e ++ wlog w1 /\
      forall e1 c e2, e = e1 ++ c :: e2 -> ~ plain c -> exists i m data e3, stas w1 !! i = Some m /\
        opened_by w1 i data c /\ e2 = e3 ++ [CRx (Sm.addr m) data]) as Hplain.
    { intros (e & He & Hall). exists e. split; [done|]. intros e1 c e2 -> Hc. exfalso. apply Hc.
      apply Forall_app in Hall as [_ Hall]. by apply Forall_cons in Hall as [? _]. }
    destruct inp; try (by apply Hplain). cbn [heard] in Hheard.
    destruct Hheard as (m & Hi & e & He & Hall). exists (e ++ [CRx (Sm.addr m) data]). split.
    { rewrite He. by rewrite <- app_assoc. }
    intros e1 c e2 Heq Hc. destruct e2 as [|x e2 _] using rev_ind.
    - apply app_inj_tail in Heq as [_ <-]. by destruct Hc.
    - rewrite app_comm_cons, app_assoc in Heq. apply app_inj_tail in Heq as [-> <-].
      apply Forall_app in Hall as [_ Hall]. apply Forall_cons in Hall as [Hcall _].
      exists i, m, data, e2. split; [done|]. split; [by eapply receives_opened|done]. }
  exists (e ++ d). split; [by rewrite He, Hd, app_assoc|]. intros d1 c d2 Heq Hc.
  destruct (app_eq_inv _ _ _ _ Heq) as [(k & E1 & E2)|(k & E1 & E2)].
  - destruct k as [|x k].
    + cbn [app] in E2. apply (Hexp [] c d2); [by symmetry|done].
    + cbn [app] in E2. injection E2 as <- ->. destruct (Hnew d1 c k E1 Hc) as (i & m & data & e3 & Hi & Ho & ->).
      exists w1, i, m, data. split_and!; [done..|]. exists e3. rewrite Hd.
      by rewrite <- !app_assoc.
  - apply (Hexp k c d2); [by symmetry|done].
Qed.
End reach.
