(* ===== verification/WpaAuthInit.v ===== *)
(** * A new authenticator

    [wpa_init] runs, and what it returns is well-formed: an element to advertise, one
    group with its first keys, no station yet. *)

From stdpp Require Import gmap.
From S2P Require Import Prelude CommonUtils EapI WpaCommon Pmksa PmksaProps WpaAuthI.
From S2P Require Import WpaAuthIe WpaIeProps WpaIeSpec WpaAuthSm WpaAuthWf WpaAuthCtl.
From S2P Require Import WpaAuthRest WpaAuthRef WpaAuthRun WpaAuth WpaAuthWorld WpaAuthRx.
From S2P Require Import WpaAuthEvents WpaAuthRekey WpaAuthRecv WpaAuthReach.

(** A group that has no keys yet, nor the indices of them. *)
Record raw_gr (g : Group.wpa_group) : Prop := {
  rg_counter : zlen (Group.Counter g) = WPA_NONCE_LEN;
  rg_gnonce : zlen (Group.GNonce g) = WPA_NONCE_LEN;
  rg_gtk_len : 0 <= Group.GTK_len g <= WPA_GTK_MAX_LEN;
  rg_igtk : length (Group.IGTK g) = 2%nat /\ Forall (fun k => zlen k = WPA_IGTK_LEN) (Group.IGTK g);
  rg_rekey : Group.GTKReKey g = false;
  rg_auth : Group.GTKAuthenticator g = true;
}.

Section init.
Context {cr : Crypto} {c_laws : CryptoLaws cr} {o : Owner} {o_laws : OwnerLaws o}.

Definition ginit (b : bool) (g : Group.wpa_group) : Group.wpa_group := g <| Group.GInit := b |>.

Lemma gtk_init_runs a g l : raw_gr g ->
  exists g' l', wpa_group_gtk_init a g l = Ok (g', l') /\ wf_gr g' /\
    Group.GTKReKey g' = false /\ Group.GTKAuthenticator g' = true /\
    Group.wpa_group_state g' = WPA_GROUP_GTK_INIT /\ Group.next g' = Group.next g /\
    Group.vlan_id g' = Group.vlan_id g /\ log_ext plain l l'.
Proof.
  intros [Hc Hn Hl Hi Hr Ha]. unfold wpa_group_gtk_init. cbv zeta.
  match goal with |- context [wpa_gtk_update a ?x l] => set (g1 := x) end.
  assert (wf_gr g1) as Hwf by (split; try done; [by left|by left|by split; [|repeat constructor]]).
  destruct (gtk_update_runs a g1 l Hwf) as (r & g2 & l2 & -> & Hwf2 & [] & Hl2).
  cbn [mbind res_bind]. eexists _, _. split; [reflexivity|]. cbn in *.
  split; [done|]. split_and!; try congruence. eapply log_ext_weaken; [apply quiet_plain|exact Hl2].
Qed.

(** The two steps of the machine of a new group. *)
Lemma gtk_init_step g gr w : Group.GInit gr = true -> group_sm_step g (put_group g gr w) =
  '(gr', l) ← wpa_group_gtk_init (auth w) gr (wlog w); mret (put_group g gr' (w <| wlog := l |>)).
Proof.
  intros Hi. unfold group_sm_step. generalize (sm_step (step_depth (put_group g gr w))). intros step.
  unfold wpa_group_sm_step.
  rewrite (bind_eq _ _ _ (the_group_ok (put_group g gr w) g gr (lookup_insert_eq _ _ _))), Hi.
  apply on_put_group.
Qed.
Lemma first_keys_step g gr w : Group.GInit gr = false -> Group.GTKAuthenticator gr = true ->
  Group.wpa_group_state gr = WPA_GROUP_GTK_INIT ->
  group_sm_step g (put_group g gr w) =
  '(_, gr', l) ← wpa_group_setkeysdone (auth w) gr (wlog w); mret (put_group g gr' (w <| wlog := l |>)).
Proof.
  intros Hi Ha Hs. unfold group_sm_step. generalize (sm_step (step_depth (put_group g gr w))). intros step.
  unfold wpa_group_sm_step.
  rewrite (bind_eq _ _ _ (the_group_ok (put_group g gr w) g gr (lookup_insert_eq _ _ _))), Hi, Ha, Hs.
  rewrite bool_decide_true by done. cbn [andb]. unfold group_setkeysdone. rewrite on_put_group. cbv beta.
  by destruct (wpa_group_setkeysdone (auth w) gr (wlog w)) as [[[??]?]|].
Qed.

Lemma setkeysdone_idle a g l : wf_gr g -> Group.GInit g = false -> Group.GTKReKey g = false ->
  exists r g' l', wpa_group_setkeysdone a g l = Ok (r, g', l') /\ idle_group g' /\
    Group.next g' = Group.next g /\ Group.vlan_id g' = Group.vlan_id g /\ log_ext plain l l'.
Proof.
  intros Hwf Hi Hr. unfold wpa_group_setkeysdone. cbv zeta.
  match goal with |- context [wpa_group_config_group_keys _ ?x _] => set (g3 := x) end.
  assert (wf_gr g3) as Hwf3 by (destruct Hwf; by split).
  destruct (config_group_keys_runs a g3 l Hwf3) as (r & l' & Heq & Hl).
  rewrite (bind_eq _ _ _ Heq). eexists _, g3, l'. split; [reflexivity|]. split; [by split|].
  split; [done|]. split; [done|]. eapply log_ext_weaken; [apply quiet_group_plain|exact Hl].
Qed.

Lemma ginit_steps_runs g gr w : raw_gr gr ->
  runs (ginit_steps g (put_group g gr w)) (fun w' => exists gr' l, w' = put_group g gr' (w <| wlog := l |>) /\
    idle_group gr' /\ Group.next gr' = Group.next gr /\ Group.vlan_id gr' = Group.vlan_id gr /\
    log_ext plain (wlog w) l).
Proof.
  intros Hraw. unfold ginit_steps.
  change (upd_group g (fun gr => gr <| Group.GInit := true |>)) with (upd_group g (ginit true)).
  rewrite upd_put_group. cbn [mbind res_bind]. rewrite (gtk_init_step g (ginit true gr) w) by done.
  destruct (gtk_init_runs (auth w) (ginit true gr) (wlog w))
    as (g1 & l1 & -> & Hwf1 & Hr1 & Ha1 & Hs1 & Hn1 & Hv1 & Hl1); [by destruct Hraw|].
  cbn [mbind res_bind mret res_ret]. set (w1 := w <| wlog := l1 |>).
  change (upd_group g (fun gr => gr <| Group.GInit := false |>)) with (upd_group g (ginit false)).
  rewrite upd_put_group. cbn [mbind res_bind]. rewrite (first_keys_step g (ginit false g1) w1) by done.
  destruct (setkeysdone_idle (auth w1) (ginit false g1) (wlog w1)) as (r & g2 & l2 & -> & Hidle & Hn2 & Hv2 & Hl2);
    [by destruct Hwf1|done|done|].
  apply runs_ret. exists g2, l2. split; [done|]. split; [done|]. split; [exact (eq_trans Hn2 Hn1)|].
  split; [exact (eq_trans Hv2 Hv1)|]. by eapply log_ext_trans.
Qed.

Lemma set_key_len_raw g cipher : raw_gr g -> raw_gr (wpa_group_set_key_len g cipher).
Proof. intros []. unfold wpa_group_set_key_len. repeat case_match; by split. Qed.

Lemma init_gmk_raw a g l : raw_gr g -> exists r g' l', wpa_group_init_gmk_and_counter a g l = (r, g', l') /\
  raw_gr g' /\ Group.next g' = Group.next g /\ Group.vlan_id g' = Group.vlan_id g /\ log_ext plain l l'.
Proof.
  intros []. unfold wpa_group_init_gmk_and_counter.
  destruct (random_bytes _ WPA_GMK_LEN) as [r d].
  assert (log_ext plain l (CRandom WPA_GMK_LEN :: l)) as H1 by by apply log_ext_cons.
  destruct (r <? 0); [eexists _, _, _; by split_and!|].
  destruct (random_bytes _ 32) as [r2 d2]. set (l2 := CRandom 32 :: _).
  assert (log_ext plain l l2) as H2
    by (exists [CRandom 32; CTime; CRandom WPA_GMK_LEN]; split; [done|by repeat constructor]).
  destruct (r2 <? 0); [eexists _, _, _; by split_and!|].
  destruct (sha1_prf _ _ _ _) as [c|] eqn:Hp.
  - eexists _, _, _. split; [reflexivity|]. split_and!; [|done..]. split; try done. by apply sha1_prf_len in Hp.
  - eexists _, _, _. split; [reflexivity|]. split_and!; [|done..]. split; try done. by apply junk_len.
Qed.

(** A new group, at the next address. *)
Lemma group_init_runs vlan w : runs (wpa_group_init vlan w) (fun '(r, w') => exists l,
  log_ext plain (wlog w) l /\
  match r with
  | Some g => g = fresh_loc w /\ exists gr, idle_group gr /\ Group.next gr = None /\
      w' = put_group g gr (w <| fresh_loc := S g |> <| wlog := l |>)
  | None => w' = w <| wlog := l |>
  end).
Proof.
  unfold wpa_group_init. cbv zeta. set (w1 := emit_w _ w).
  assert (log_ext plain (wlog w) (wlog w1)) as H1 by by apply log_ext_cons.
  destruct (malloc (wlog w1)); cbn [negb]; [|apply runs_ret; exists (wlog w1); split; [exact H1|reflexivity]].
  match goal with |- context [wpa_group_init_gmk_and_counter _ ?x _] => set (g1 := x) end.
  assert (raw_gr g1) as Hraw by (apply set_key_len_raw; split; try done; split; [done|by repeat constructor]).
  assert (Group.next g1 = None) as Hnext by (unfold g1, wpa_group_set_key_len; by repeat case_match).
  destruct (init_gmk_raw (auth (emit_w CPoolReady w1)) g1 (wlog (emit_w CPoolReady w1)) Hraw)
    as (r & g2 & l2 & -> & Hraw2 & Hn2 & Hv2 & Hl2).
  assert (log_ext plain (wlog w) l2) as H2.
  { eapply log_ext_trans; [exact H1|]. eapply log_ext_trans; [by apply (log_ext_cons _ CPoolReady)|exact Hl2]. }
  destruct (r <? 0); [apply runs_ret; exists l2; split; [exact H2|reflexivity]|].
  set (w2 := (emit_w CPoolReady w1) <| fresh_loc := S (fresh_loc w) |> <| wlog := l2 |>).
  rstep (exact (ginit_steps_runs (fresh_loc w) g2 w2 Hraw2)) as w3 H3. destruct H3 as (gr & l & -> & Hidle & Hn & Hv & Hl). apply runs_ret.
  exists l. split; [by eapply log_ext_trans|]. split; [done|]. exists gr. split; [done|].
  split; [congruence|done].
Qed.

(** ** [wpa_init] *)

(** The access point advertises WPA or WPA2. *)
Definition advertises (conf : Conf.wpa_auth_config) : Prop :=
  has_bits (Conf.wpa conf) WPA_PROTO_RSN = true \/ has_bits (Conf.wpa conf) WPA_PROTO_WPA = true.

Lemma advertised_elements conf ie : advertises conf -> advertised_ie conf = Some ie ->
  exists els, ie = concat (map (fun e => element (fst e) (snd e)) els) /\ els <> [] /\
    Forall (fun e => zlen (snd e) < 256) els.
Proof.
  intros Hadv. unfold advertised_ie.
  assert (forall body, rsn_ie_body conf None = Some body -> zlen body < 256) as Hrsn
    by (intros body Hb; pose proof (rsn_ie_body_len conf None body Hb I); lia).
  assert (forall body, wpa_ie_body conf = Some body -> zlen body < 256) as Hwpa
    by (intros body Hb; pose proof (wpa_ie_body_len conf body Hb); lia).
  destruct (has_bits _ WPA_PROTO_RSN) eqn:H1, (has_bits _ WPA_PROTO_WPA) eqn:H2.
  - destruct (rsn_ie_body conf None) as [b1|]; [|done]. destruct (wpa_ie_body conf) as [b2|]; [|done].
    cbn. intros [= <-]. exists [(WLAN_EID_RSN, b1); (WLAN_EID_VENDOR_SPECIFIC, b2)].
    split; [cbn; by rewrite app_nil_r|]. split; [done|]. repeat constructor; cbn; auto.
  - destruct (rsn_ie_body conf None) as [b1|]; [|done]. cbn. intros [= <-].
    exists [(WLAN_EID_RSN, b1)]. split; [done|]. split; [done|]. repeat constructor; cbn; auto.
  - destruct (wpa_ie_body conf) as [b2|]; [|done]. cbn. intros [= <-].
    exists [(WLAN_EID_VENDOR_SPECIFIC, b2)]. split; [cbn; by rewrite app_nil_r|]. split; [done|].
    repeat constructor; cbn; auto.
  - destruct Hadv; congruence.
Qed.

Lemma init_runs addr conf l : advertises conf ->
  runs (wpa_init addr conf l) (fun r => forall w, r = Some w ->
    wf_world w /\ stas w = ∅ /\ sta_list w = [] /\ Auth.conf (auth w) = conf /\
    repr (Auth.pmksa (auth w)) [] [] /\ log_ext plain l (wlog w)).
Proof.
  intros Hadv. unfold wpa_init. destruct (malloc _); cbn [negb]; [|by apply runs_ret].
  set (l1 := CMalloc sizeof_wpa_authenticator :: l).
  rewrite (gen_wpa_ie_eq (env_of l1) (junk l1 128) (auth_zero addr conf no_pmksa)) by by apply junk_len.
  change (Auth.conf (auth_zero addr conf no_pmksa)) with conf.
  destruct (advertised_ie conf) as [ie|] eqn:Hie; [|by apply runs_ret].
  destruct (malloc_ok _ _); [|by apply runs_ret]. cbn [mbind res_bind negb Z.eqb].
  match goal with |- context [wpa_group_init 0 ?x] => set (w1 := x) end.
  rstep (apply (group_init_runs 0 w1)) as [g w2] H2. destruct H2 as (l2 & Hl2 & Hg).
  destruct g as [g|]; [|by apply runs_ret]. destruct Hg as (_ & gr & Hidle & Hn & ->).
  match goal with |- context [pmksa_cache_auth_init ?e] => destruct (pmksa_cache_auth_init e) as [c|] eqn:Hc end;
    [|by apply runs_ret].
  apply init_ok in Hc as (_ & Hr & _). destruct (advertised_elements conf ie Hadv Hie) as (els & -> & Hne & Hels).
  set (l3 := concat _) in *. match goal with |- context [emit_w (CRegister (Conf.wpa_gmk_rekey conf) _ _) ?x] => set (w3 := x) end.
  assert (wf_world w3 /\ keeps plain w3 w3) as H3.
  { split; [|apply keeps_refl]. split; cbn [w3 auth groups stas sta_list put put_group].
    - split; [by exists els|]. cbn. by intros ? [= <-].
    - exists g. split; [done|]. by rewrite lookup_insert_eq.
    - exists [g]. split; [|apply NoDup_singleton]. split; [done|]. exists gr. rewrite lookup_insert_eq.
      split; [done|]. exact Hn.
    - intros j gj [[_ <-]|[_ Hj]]%lookup_insert_Some; [done|].
      change ((∅ : gmap nat Group.wpa_group) !! j = Some gj) in Hj. by rewrite lookup_empty in Hj.
    - intros j m Hj. change ((∅ : gmap nat Sm.wpa_state_machine) !! j = Some m) in Hj.
      by rewrite lookup_empty in Hj.
    - constructor. }
  assert (forall b c w, wf_world w /\ keeps plain w3 w -> plain c ->
    wf_world (if b : bool then emit_w c w else w) /\ keeps plain w3 (if b then emit_w c w else w)) as Hemit.
  { intros [] c' w H Hc'; [by apply emit_after|done]. }
  match goal with |- context [CRegister (Conf.wpa_gmk_rekey conf) ?u ?t] =>
    pose proof (Hemit (negb (Conf.wpa_gmk_rekey conf =? 0)) (CRegister (Conf.wpa_gmk_rekey conf) u t) w3 H3 I) as H4 end.
  match goal with |- context [CRegister (Conf.wpa_group_rekey conf) ?u ?t] =>
    pose proof (Hemit (negb (Conf.wpa_group_rekey conf =? 0)) (CRegister (Conf.wpa_group_rekey conf) u t) _ H4 I) as H5 end.
  apply runs_ret. intros w [= <-]. cbv zeta in H4, H5. destruct H5 as [Hw Hk].
  split; [exact Hw|]. split; [by repeat case_match|]. split; [by repeat case_match|].
  split; [by repeat case_match|]. split; [by repeat case_match|].
  eapply log_ext_trans; [|apply (k_log _ _ _ Hk)]. eapply log_ext_trans; [|exact Hl2].
  by apply log_ext_cons.
Qed.
End init.
