(* ===== verification/WpaAuthLive.v ===== *)
(** * An unanswered station

    A station that does not answer message 1/4 or 3/4 does not wait for ever: every
    timeout sends the message again or ends the handshake, and after at most five
    of them the pairwise machine is back in INITIALIZE. *)

From stdpp Require Import gmap.
From S2P Require Import Prelude CommonUtils EapI WpaCommon Pmksa PmksaProps WpaAuthI.
From S2P Require Import WpaAuthIe WpaIeProps WpaAuthSm WpaAuthWf WpaAuthCtl WpaAuthRest.
From S2P Require Import WpaAuthRef WpaAuthRun WpaAuth WpaAuthWorld WpaAuthRx WpaAuthEvents.

(** ** The control part *)

(** Nothing is asked of the station and no pairwise frame is to be read. *)
Definition left_alone (c : ctl) : bool :=
  negb (init c || deauth c || WpaAuthCtl.auth c || reauth c || ptkreq c) && negb (rcvd c && for_ptk c).
(** It waits for an answer. *)
Definition expects (s : ptk_state) : bool :=
  match s with WPA_PTK_PTKSTART | WPA_PTK_PTKINITNEGOTIATING => true | _ => false end.
(** It was sent away. *)
Definition leaving (s : ptk_state) : bool :=
  match s with WPA_PTK_DISCONNECT | WPA_PTK_DISCONNECTED | WPA_PTK_INITIALIZE => true | _ => false end.

(** The counter went up, or the station is leaving. *)
Definition moved_on (s : ptk_state) (n : Z) (c : ctl) : Prop :=
  left_alone c = true /\ (leaving (state c) = true \/ state c = s /\ ctr c = n + 1 /\ tevt c = false).

Ltac alone H :=
  unfold left_alone in H; rewrite andb_true_iff, !negb_true_iff, !orb_false_iff in H;
  destruct H as [[[[[? ?] ?] ?] ?] ?].

Lemma ptk_step_moved i s n c : expects s = true -> moved_on s n c -> moved_on s n (a_ptk_step i c).
Proof.
  intros Hs [Ha Hm]. unfold moved_on. alone Ha. unfold a_ptk_step. ctl_unfold. unfold enter, left_alone.
  repeat match goal with H : _ c = false |- _ => rewrite H end.
  destruct (disc c).
  { cbn. repeat match goal with H : _ c = false |- _ => rewrite H end.
    match goal with H : rcvd c && _ = false |- _ => rewrite H end. split; [done|by left]. }
  match goal with H : rcvd c && _ = false |- _ => rename H into Hrx; rewrite Hrx end.
  destruct Hm as [Hm|(<- & Hn & Ht)].
  - destruct (state c) eqn:E; try done; cbn; rewrite ?E;
      repeat match goal with H : _ c = false |- _ => rewrite H end; rewrite Hrx; split; try done; by left.
  - destruct (state c) eqn:E; try done; rewrite ?andb_false_l, Ht;
      case_match; cbn; rewrite ?E; repeat match goal with H : _ c = false |- _ => rewrite H end;
      rewrite Hrx; split; try done; first [by left|by right].
Qed.

Lemma group_step_moved s n c : moved_on s n c -> moved_on s n (a_group_step c).
Proof.
  unfold moved_on, left_alone, a_group_step, a_group_idle, a_rekeynegotiating, a_rekeyestablished, a_keyerror, genter.
  intros [Ha Hm]. repeat case_match; cbn in *; split; try done.
  all: first [by apply andb_prop in Ha as [-> _]|destruct Hm as [Hm|(? & ? & ?)]; try congruence; auto].
Qed.

(** A timeout. *)
Lemma timed_out_step i c : left_alone c = true -> expects (state c) = true -> disc c = false -> tevt c = true ->
  moved_on (state c) (ctr c) (a_ptk_step i c).
Proof.
  intros Ha Hs Hd Ht. unfold moved_on. alone Ha. unfold a_ptk_step. ctl_unfold. unfold enter, left_alone.
  repeat match goal with H : _ c = false |- _ => rewrite H end.
  match goal with H : rcvd c && _ = false |- _ => rename H into Hrx; rewrite Hrx end.
  destruct (state c) eqn:E; try done; rewrite ?andb_false_l, Ht; case_match; cbn;
    repeat match goal with H : _ c = false |- _ => rewrite H end; rewrite Hrx; split; try done; first [by left|by right].
Qed.

Lemma loops_moved s n c c' : expects s = true -> moved_on s n c -> loops c c' -> moved_on s n c'.
Proof.
  intros Hs Hm H. assert (forall i c, moved_on s n c -> moved_on s n (a_round i c)) as Hround.
  { intros i c1 H1. unfold a_round. by apply group_step_moved, ptk_step_moved. }
  revert Hm. induction H as [i c Hch|i c c' H IH]; intros Hm; [by apply Hround|]. by apply IH, Hround.
Qed.

(** At rest, a message may be sent again. *)
Lemma ptk_step_counted i c : changed c = false -> a_ptk_step i c = c -> expects (state c) = true -> ctr c <= 4.
Proof.
  intros Hch E Hs. assert (changed (a_ptk_step i c) = false) as Hc by by rewrite E.
  destruct (decide (ctr c <= 4)) as [|Hgt]; [done|exfalso]. revert Hc E.
  assert ((dot11RSNAConfigPairwiseUpdateCount <? ctr c) = true) as Hlt
    by (apply Z.ltb_lt; unfold dot11RSNAConfigPairwiseUpdateCount; lia).
  unfold a_ptk_step. rewrite Hlt. ctl_unfold. unfold enter.
  destruct (init c); [intros _ E; by rewrite <- E in Hs|].
  destruct (disc c); [done|]. destruct (deauth c); [done|]. destruct (WpaAuthCtl.auth c); [done|].
  destruct (reauth c); [done|]. destruct (ptkreq c); [done|].
  destruct (state c); try done; repeat case_match; done.
Qed.

Lemma loops_counted c c' : ready c -> init c = false -> loops c c' -> expects (state c') = true -> ctr c' <= 4.
Proof.
  intros Hr Hi H. revert Hr Hi. induction H as [i c Hch|i c c' H IH]; intros Hr Hi.
  - destruct (a_round_last i c (proj1 Hr) Hi Hch) as (-> & E & _). by apply (ptk_step_counted i).
  - destruct (a_round_ready i c Hr) as [Hr' _].
    destruct (a_round_rank i c (proj1 Hr)) as (_ & Hi' & _). apply IH; [done|congruence].
Qed.

(** A station that waits, and is told that the time is over. *)
Definition waits (c : ctl) : Prop := rest c /\ expects (state c) = true /\ ptkreq c = false.
Definition expired (c : ctl) : ctl := c <| tevt := true |>.

Lemma waits_once c c' : waits c -> loops (expired c) c' -> rest c' /\
  (state c' = WPA_PTK_INITIALIZE \/ waits c' /\ state c' = state c /\ ctr c' = ctr c + 1 /\ ctr c < 4).
Proof.
  intros (Hr & Hs & Hp) H. pose proof Hr as Hr0. apply rest_iff in Hr0 as [].
  assert (ready (expired c)) as Hready by (apply ready_intro; [by destruct rf_inv|done|done]).
  assert (init (expired c) = false) as Hinit by exact rf_init.
  pose proof (loops_rest _ _ Hready Hinit H) as Hr'. split; [done|].
  assert (left_alone (expired c) = true) as Ha.
  { unfold left_alone. cbn. rewrite rf_init, rf_deauth, rf_auth, rf_reauth, Hp. cbn.
    unfold nothing_read in rf_read. by apply andb_prop in rf_read as [-> _]. }
  assert (moved_on (state c) (ctr c) c') as [Ha' Hm].
  { assert (forall i, moved_on (state c) (ctr c) (a_round i (expired c))) as Hfirst.
    { intros i. unfold a_round. apply group_step_moved.
      match goal with |- context [a_ptk_step i ?x] => by apply (timed_out_step i x) end. }
    inversion H as [i c1 Hch E1 E2|i c1 c2 Hloops E1 E2]; subst; [apply Hfirst|].
    by eapply loops_moved; [exact Hs|apply Hfirst|]. }
  pose proof Hr' as Hr1. apply rest_iff in Hr1 as [].
  destruct Hm as [Hm|(Hst & Hn & Ht)]; [left; by destruct (state c')|]. right.
  pose proof (loops_counted _ _ Hready Hinit H) as Hcnt. rewrite Hst in Hcnt. specialize (Hcnt Hs).
  split; [split; [done|]|split; [done|split; [done|lia]]]. rewrite Hst. split; [done|].
  alone Ha'. done.
Qed.

(** ** The station *)

(** The time of the event loop passes [n] times, and nothing else happens. *)
Fixpoint timeouts `{Crypto} `{Owner} (n : nat) (i : nat) (w : world) : res world :=
  match n with
  | O => mret w
  | S n => w ← wpa_send_eapol_timeout i w; timeouts n i w
  end.

(** Station [m] waits for message 2/4 or 4/4. *)
Definition unanswered (m : Sm.wpa_state_machine) : Prop :=
  (Sm.wpa_ptk_state m = WPA_PTK_PTKSTART \/ Sm.wpa_ptk_state m = WPA_PTK_PTKINITNEGOTIATING) /\
  Sm.PTKRequest m = false.

Section live.
Context {cr : Crypto} {c_laws : CryptoLaws cr} {o : Owner} {o_laws : OwnerLaws o}.

Lemma timeout_once w i m : wf_world w -> stas w !! i = Some m ->
  runs (wpa_send_eapol_timeout i w) (fun w' => wf_world w' /\ keeps plain w w' /\
    exists m', stas w' !! i = Some m' /\ loops (expired (ctl_of m)) (ctl_of m')).
Proof.
  intros Hw Hi. destruct (wf_at_rest w i m Hw Hi) as [Hwf _ _ Hrest].
  destruct (upd_to_step timed_out w i m Hw Hi) as [Hu Hw1]; try done.
  { eapply wf_sm_update; [exact Hwf|try done..]; apply Hwf. } { by apply timed_out_to_step. }
  unfold wpa_send_eapol_timeout. change (upd_sta i (fun m => _)) with (upd_sta i timed_out).
  rewrite (bind_eq _ _ _ Hu). destruct Hrest as [Hr Hin]. apply rest_iff in Hr as [].
  rstep (eapply wpa_sm_step_runs; [exact Hw1|apply lookup_insert_eq]) as [r w2] H2.
  apply runs_ret. destruct H2 as (_ & m' & Hd). split; [by eapply stepped_wf_world|].
  split.
  - eapply keeps_trans; [by apply (put_sta_keeps _ i m (timed_out m))|].
    eapply keeps_weaken; [|eapply sm_stepped_keeps; [exact Hd|apply lookup_insert_eq]]. by apply rest_admits.
  - exists m'. split; [apply Hd|]. apply Hd.
Qed.

Lemma unanswered_waits m : at_rest m -> unanswered m -> waits (ctl_of m).
Proof.
  intros [Hr _] [Hs Hp]. split; [done|]. split; [|exact Hp].
  change (state (ctl_of m)) with (Sm.wpa_ptk_state m). by destruct Hs as [-> | ->].
Qed.

Lemma timeouts_leave n w i m : wf_world w -> stas w !! i = Some m -> unanswered m ->
  4 - Sm.TimeoutCtr m <= Z.of_nat n ->
  exists k w' m', (1 <= k <= S n)%nat /\ timeouts k i w = Ok w' /\ wf_world w' /\ keeps plain w w' /\
    stas w' !! i = Some m' /\ Sm.wpa_ptk_state m' = WPA_PTK_INITIALIZE.
Proof.
  revert w m. induction n as [|n IH]; intros w m Hw Hi Hu Hn.
  all: destruct (wf_at_rest w i m Hw Hi) as [_ _ _ Hrest].
  all: destruct (timeout_once w i m Hw Hi) as (w1 & Heq & Hw1 & Hk1 & m1 & Hi1 & Hl).
  all: destruct (waits_once _ _ (unanswered_waits m Hrest Hu) Hl) as [_ [Hs|(Hwt & Hs & Hc & Hlt)]].
  all: try (exists 1%nat, w1, m1; cbn [timeouts]; rewrite Heq; split_and!; [lia|lia|done..]).
  - change (Sm.TimeoutCtr m < 4) in Hlt. lia.
  - change (Sm.TimeoutCtr m1 = Sm.TimeoutCtr m + 1) in Hc.
    change (Sm.wpa_ptk_state m1 = Sm.wpa_ptk_state m) in Hs.
    destruct (IH w1 m1 Hw1 Hi1) as (k & w' & m' & Hk & Heq' & Hw' & Hk' & Hi' & Hs').
    { destruct Hu as [Hst _]. split; [by rewrite Hs|apply Hwt]. } { lia. }
    exists (S k), w', m'. cbn [timeouts]. rewrite Heq. split_and!; try done; [lia..|].
    by eapply keeps_trans.
Qed.
End live.
