(* ===== verification/WpaAuthEx.v ===== *)
(** * An access point at work

    A concrete owner and a concrete station: the whole of the 4-way handshake, run
    by evaluation. *)

From stdpp Require Import gmap.
From S2P Require Import Prelude CommonUtils EapI WpaCommon Pmksa PmksaProps WpaAuthI.
From S2P Require Import WpaAuthIe WpaIeProps WpaIeSpec WpaAuthSm WpaAuthWf WpaAuthCtl.
From S2P Require Import WpaAuthRest WpaAuthRef WpaAuthRun WpaAuth WpaAuthWorld WpaAuthRx.
From S2P Require Import WpaAuthEvents WpaAuthRekey WpaAuthRecv WpaAuthReach WpaAuthInit.
Import Toy.

Module Net.
(** One pre-shared key for everybody, and memory for everything. *)
Definition psk : list Z := replicate 32 7.
#[export] Instance owner : Owner := {|
  get_eapol _ := 0;
  get_psk l := match l with CGetPsk _ None :: _ => Some (0%nat, psk) | _ => None end;
  psk_count := 1;
  get_msk _ := None;
  set_key _ := 0;
  get_seqnum _ n := (0, replicate (Z.to_nat n) 0);
  random_bytes l n := (0, replicate (Z.to_nat n) (zlen l mod 256));
  pool_ready _ := 1;
  malloc _ := true;
  time _ := (1300000000, 0);
  mic_failure_starts_countermeasures _ := false;
  junk _ n := replicate (Z.to_nat n) 0;
  group_ptr := [0; 0; 0; 0];
  sizeof_wpa_state_machine := 700;
  sizeof_wpa_group := 300;
  sizeof_wpa_authenticator := 200;
|}.
#[export] Instance owner_laws : OwnerLaws owner.
Proof.
  assert (forall n x, 0 <= n -> zlen (replicate (Z.to_nat n) x : list Z) = n) as Hrep
    by (intros n x Hn; rewrite zlen_replicate; lia).
  split; cbn.
  - intros l a prev p k. destruct prev; [done|]. intros [= <- <-]. split_and!; [done|lia|done].
  - done.
  - intros l n r d Hn [= <- <-]. by apply Hrep.
  - intros l n r d Hn [= <- <-]. by apply Hrep.
  - intros l n r d [= <- <-]. apply Forall_replicate. unfold is_byte. pose proof (Z.mod_pos_bound (zlen l) 256). lia.
  - intros l n Hn. by apply Hrep.
  - intros l n. apply Forall_replicate. unfold is_byte. lia.
Qed.

Definition ap : list Z := [2; 0; 0; 0; 0; 0].
Definition sta_addr : list Z := [2; 0; 0; 0; 0; 1].

(** One thing after the other. *)
Fixpoint run (l : list input) (w : world) : res world :=
  match l with
  | [] => mret w
  | inp :: l => w ← handle inp w; run l w
  end.
Definition get (r : res world) (d : world) : world := match r with Ok w => w | Fault _ => d end.

Definition none : world := {| auth := auth_zero ap Ap.conf no_pmksa; groups := ∅; stas := ∅; sta_list := [];
  fresh_loc := 0; wlog := [] |}.
Definition w0 : world := match wpa_init ap Ap.conf [] with Ok (Some w) => w | _ => none end.

(** A station comes, its element is checked and it is associated. *)
Definition coming : list input :=
  [In_join sta_addr; In_validate 1 Ap.ie (zlen Ap.ie); In_event 1 WPA_ASSOC; In_associated 1].
Definition w1 : world := get (run coming w0) none.

(** What the station knows. *)
Definition sta (w : world) : Sm.wpa_state_machine := default (sta_zero 0 []) (stas w !! 1%nat).
Definition snonce : list Z := replicate 32 5.
Definition ptk (w : world) : list Z :=
  default [] (wpa_pmk_to_ptk psk "Pairwise key expansion" ap sta_addr (Sm.ANonce (sta w)) snonce 48 true).
Definition last_counter (w : world) : list Z :=
  match Sm.key_replay (sta w) with r :: _ => counter r | [] => [] end.

(** A frame from the station, and its MIC. *)
Definition frame_without (w : world) (key_info : Z) (mic data : list Z) : list Z :=
  [2; 3; 0; 95 + zlen data] ++ [EAPOL_KEY_TYPE_RSN] ++ WPA_PUT_BE16 key_info ++ [0; 0] ++ last_counter w ++
  snonce ++ replicate 32 0 ++ mic ++ WPA_PUT_BE16 (zlen data) ++ data.
Definition signed (w : world) (key_info : Z) (data : list Z) : list Z :=
  frame_without w key_info (default [] (wpa_eapol_key_mic (kck (ptk w)) 3 (frame_without w key_info (replicate 16 0) data))) data.
(** Messages 2/4 and 4/4. *)
Definition msg2 : list Z := signed w1 267 Ap.ie.
Definition w2 : world := get (run [In_frame 1 msg2] w1) none.
Definition msg4 : list Z := signed w2 779 [].
Definition w3 : world := get (run [In_frame 1 msg4] w2) none.

(** The station may do all of that. *)
Fixpoint all_allowed (l : list input) (w : world) : Prop :=
  match l with
  | [] => True
  | inp :: l => allowed inp w /\ match handle inp w with Ok w => all_allowed l w | Fault _ => False end
  end.

Lemma run_reaches l wa wb : reaches wa wb -> all_allowed l wb -> reaches wa (get (run l wb) none).
Proof.
  revert wb. induction l as [|inp l IH]; intros wb Hr; [done|]. cbn [all_allowed run]. intros [Ha Hl].
  destruct (handle inp wb) as [w|] eqn:E; [|done]. cbn [mbind res_bind]. apply IH; [|done].
  by eapply reaches_step.
Qed.

Lemma cache_repr : repr Ap.cache [] [].
Proof. by apply (init_ok Ap.plenty). Qed.

(** The world before the element is checked, and when the station is associated. *)
Definition joined : world := get (run [In_join sta_addr] w0) none.
Lemma joined_cache : Auth.pmksa (auth joined) = Ap.cache.
Proof. vm_compute. reflexivity. Qed.

Lemma w1_reached : reaches w0 w1.
Proof.
  assert (reaches w0 joined) as Hj by (apply run_reaches; [constructor|by split; [|vm_compute]]).
  set (wa := get (run [In_validate 1 Ap.ie (zlen Ap.ie)] joined) none).
  assert (reaches w0 wa) as Ha.
  { apply run_reaches; [done|]. split; [|by vm_compute]. split; [by vm_compute; eexists|].
    split; [by vm_compute; repeat constructor|]. split; [by vm_compute|]. split; [done|].
    exists []. rewrite joined_cache. apply cache_repr. }
  assert (w1 = get (run [In_event 1 WPA_ASSOC; In_associated 1] wa) none) as -> by (vm_compute; reflexivity).
  apply run_reaches; [done|]. split; [by vm_compute; eexists|].
  destruct (handle (In_event 1 WPA_ASSOC) wa) as [wb|] eqn:E; [|by vm_compute in E].
  split; [|by vm_compute in E; injection E as <-; vm_compute].
  vm_compute in E. injection E as <-. vm_compute. by eexists.
Qed.

(** The messages get there too. *)
Lemma w2_reached : reaches w0 w2.
Proof.
  apply (run_reaches [In_frame 1 msg2] w0 w1); [apply w1_reached|]. split; [|by vm_compute].
  split; [by vm_compute; eexists|]. apply (bool_decide_unpack _). by vm_compute.
Qed.
Lemma w3_reached : reaches w0 w3.
Proof.
  apply (run_reaches [In_frame 1 msg4] w0 w2); [apply w2_reached|]. split; [|by vm_compute].
  split; [by vm_compute; eexists|]. apply (bool_decide_unpack _). by vm_compute.
Qed.

(** What was logged since [w0], and the key the driver was given. *)
Definition heard_since (w : world) : log := take (length (wlog w) - length (wlog w0)) (wlog w).
Definition key_given : call := CSetKey 0 WPA_ALG_CCMP sta_addr 0 (take 16 (drop 32 (ptk w2))).
Lemma w3_log : wlog w3 = heard_since w3 ++ wlog w0.
Proof. vm_compute. reflexivity. Qed.
Lemma w3_key : heard_since w3 = take 4 (heard_since w3) ++ key_given :: drop 5 (heard_since w3).
Proof. vm_compute. reflexivity. Qed.

Lemma w0_made : wpa_init ap Ap.conf [] = Ok (Some w0).
Proof. vm_compute. reflexivity. Qed.
Lemma w0_wf : wf_world w0.
Proof. by apply (runs_inv _ _ _ (init_runs ap Ap.conf [] ltac:(by left)) w0_made w0 eq_refl). Qed.
Lemma w2_wf : wf_world w2.
Proof. by apply (reaches_explained w0 w2 w0_wf w2_reached). Qed.
Lemma w3_group : exists g, groups w3 !! Sm.group (sta w3) = Some g.
Proof. vm_compute. by eexists. Qed.

(** The local state of the station, as it waits for message 2/4, and with it. *)
Lemma w1_wf : wf_world w1.
Proof. by apply (reaches_explained w0 w1 w0_wf w1_reached). Qed.
Lemma w1_sta : stas w1 !! 1%nat = Some (sta w1).
Proof. vm_compute. reflexivity. Qed.
Definition local (w : world) : st := {|
  sm := sta w; gr := default group_zero (groups w !! Sm.group (sta w)); au := auth w; lg := wlog w |}.
Lemma local_wf w : wf_world w -> stas w !! 1%nat = Some (sta w) -> wf_st (local w).
Proof.
  intros Hw Hi. destruct (load_ok _ w 1 (sta w) Hw Hi) as (g & Hg & _ & _ & Hs). unfold local. by rewrite Hg.
Qed.
Definition answered : st := (local w1) <| sm := stored msg2 snonce 267 (sta w1) |>.
Lemma answered_wf : wf_st answered.
Proof.
  destruct (local_wf w1 w1_wf w1_sta) as [[] Hg Ha]. split; [|exact Hg|exact Ha].
  split; try assumption; try reflexivity; [|done]. intros d Hd. injection Hd as <-. reflexivity.
Qed.
End Net.
