(* ===== verification/WpaAuthSpec.v ===== *)
(** * What the WPA authenticator promises

    The properties of the authenticator as a whole, from [wpa_init] on, and of the
    handshake, with the run of WpaAuthEx.v as their example. *)

From stdpp Require Import gmap.
From S2P Require Import Prelude CommonUtils EapI WpaCommon Pmksa PmksaProps WpaAuthI.
From S2P Require Import WpaAuthIe WpaIeProps WpaIeSpec WpaAuthSm WpaAuthWf WpaAuthCtl.
From S2P Require Import WpaAuthRest WpaAuthRef WpaAuthRun WpaAuth WpaAuthWorld WpaAuthRx.
From S2P Require Import WpaAuthEvents WpaAuthRekey WpaAuthRecv WpaAuthReach WpaAuthInit.
From S2P Require Import WpaAuthLive WpaAuthEx.

Section spec.
Context {cr : Crypto} {c_laws : CryptoLaws cr} {o : Owner} {o_laws : OwnerLaws o}.


(** C1 ([wpa_receive], [SM_STATE(WPA_PTK, PTKINITDONE)]): hostapd is never told that a
    station is authorized, or that its port is valid, and the driver is never given
    a pairwise key, but because of a frame of that station: a message 4/4 that came
    in when the station had a valid PTK, whose replay counter was outstanding and
    whose MIC is that of the PTK; and the key given to the driver is the temporal
    key of the same PTK. *)
Theorem wpa_port_opened_by_msg4 addr conf l w0 w : advertises conf ->
  wpa_init addr conf l = Ok (Some w0) -> reaches w0 w ->
  exists d, wlog w = d ++ wlog w0 /\ forall d1 c d2, d = d1 ++ c :: d2 -> ~ plain c ->
    exists w1 i m data ki, reaches w0 w1 /\ stas w1 !! i = Some m /\
      (exists d3, d2 ++ wlog w0 = d3 ++ CRx (Sm.addr m) data :: wlog w1) /\
      lets_in m c /\ Sm.PTK_valid m = true /\
      wpa_verify_key_mic (Sm.PTK m) data (zlen data) = Ok 0 /\
      (exists rc, rd_n data o_replay_counter WPA_REPLAY_COUNTER_LEN = Ok rc /\
        wpa_replay_counter_valid m rc = true) /\
      WPA_GET_BE16 data o_key_info = Ok ki /\ classify_msg ki 0 = PAIRWISE_4.
Proof.
  intros Hadv Hinit Hr. destruct (runs_inv _ _ _ (init_runs addr conf l Hadv) Hinit w0 eq_refl) as [Hw0 _].
  destruct (reaches_explained w0 w Hw0 Hr) as (_ & d & Hd & Hexp). exists d. split; [done|].
  intros d1 c d2 E Hc. destruct (Hexp d1 c d2 E Hc) as (w1 & i & m & data & Hr1 & Hi & [Hm Hmsg] & Hd3).
  destruct Hm as (m' & Hi' & Hl & Hv & Hmic & Hrc). destruct Hmsg as (ki & Hki & _ & Hcl).
  simplify_eq. exists w1, i, m, data, ki. by split_and!.
Qed.

(** The PTK is derived from [pmk], the addresses and the nonces of the handshake. *)
Definition derived (s : st) (pmk PTK : list Z) : Prop :=
  exists s0 old, zlen old = sizeof_wpa_ptk /\ Sm.addr (sm s0) = Sm.addr (sm s) /\
    Sm.ANonce (sm s0) = Sm.ANonce (sm s) /\ Sm.SNonce (sm s0) = Sm.SNonce (sm s) /\
    Sm.pairwise (sm s0) = Sm.pairwise (sm s) /\ Sm.wpa_key_mgmt (sm s0) = Sm.wpa_key_mgmt (sm s) /\
    au s0 = au s /\ PTK = wpa_derive_ptk s0 pmk old.

(** C36 ([SM_STATE(WPA_PTK, PTKCALCNEGOTIATING)]): after message 2/4 the station has a
    PTK only if it was derived from a PMK the owner offers - one of its pre-shared
    keys, or the PMK of the station - the addresses and the nonces of this
    handshake, and explains the MIC of the frame; otherwise nothing is changed of
    its keys. *)
Theorem ptk_derived_from_offered_pmk s d : wf_st s -> Sm.last_rx_eapol_key (sm s) = Some d ->
  runs (sm_WPA_PTK_PTKCALCNEGOTIATING_Enter s) (fun s' =>
    Sm.PTK_valid (sm s') = true /\ Sm.MICVerified (sm s') = true /\
      wpa_verify_key_mic (Sm.PTK (sm s')) d (zlen d) = Ok 0 /\
      (exists pmk, offered s pmk /\ derived s pmk (Sm.PTK (sm s')) /\ Sm.PMK (sm s') = pmk) \/
    Sm.PTK_valid (sm s') = Sm.PTK_valid (sm s) /\ Sm.MICVerified (sm s') = Sm.MICVerified (sm s) /\
      Sm.PTK (sm s') = Sm.PTK (sm s) /\ Sm.PMK (sm s') = Sm.PMK (sm s)).
Proof.
  intros Hs Hrx. unfold sm_WPA_PTK_PTKCALCNEGOTIATING_Enter. cbv zeta.
  match goal with |- context [find_ptk _ _ ?x _] => set (s2 := x) end.
  assert (wf_st s2) as Hs2 by (by apply (not_received_good (SM_ENTRY_PTK WPA_PTK_PTKCALCNEGOTIATING s)), entry_good).
  rstep (apply find_ptk_runs; [exact Hs2|change (Sm.last_rx_eapol_key (sm s) <> None); by rewrite Hrx|by apply junk_len|cbn; lia]) as [found s3] Hf.
  destruct Hf as [(q & -> & _) Hf]. destruct found as [[pmk PTK]|]; [|by apply runs_ret; right].
  destruct (Hf pmk PTK eq_refl) as (Hpmk & HPTK & Hv & Hoff & s0 & old & Hold & E1 & E2 & ->).
  assert (offered s pmk) as Hoff' by exact Hoff.
  assert (derived s pmk (wpa_derive_ptk s0 pmk old)) as Hder
    by (exists s0, old; rewrite E1, E2; by split_and!).
  assert (wpa_verify_key_mic (wpa_derive_ptk s0 pmk old) d (zlen d) = Ok 0) as Hmic.
  { unfold verify_last_rx in Hv. change (Sm.last_rx_eapol_key (sm s2)) with (Sm.last_rx_eapol_key (sm s)) in Hv.
    change (Sm.last_rx_eapol_key_len (sm s2)) with (Sm.last_rx_eapol_key_len (sm s)) in Hv.
    rewrite Hrx, (m_rx _ _ (s_sm _ Hs) d Hrx) in Hv. exact Hv. }
  change (Sm.wpa_key_mgmt (sm (emit _ _))) with (Sm.wpa_key_mgmt (sm s)).
  unfold offered in Hoff'. destruct (wpa_key_mgmt_wpa_psk (Sm.wpa_key_mgmt (sm s))) eqn:Hpsk.
  - rewrite <- Hpmk, rd_n_all. cbn [mbind res_bind mret res_ret]. apply runs_ret. left.
    split; [done|]. split; [done|]. split; [exact Hmic|]. exists pmk. split; [|by split].
    unfold offered. by rewrite Hpsk.
  - cbn [mbind res_bind mret res_ret]. apply runs_ret. left.
    split; [done|]. split; [done|]. split; [exact Hmic|]. exists pmk. split; [|by split].
    unfold offered. by rewrite Hpsk.
Qed.

(** C35 ([wpa_send_eapol_timeout]): a station that does not answer message 1/4 or 3/4
    is not waited for for ever: whatever state its group handshake is in and
    whatever the owner answers, after at most five timeouts its pairwise machine
    is back in INITIALIZE, and it was not let in meanwhile. *)
Theorem unanswered_station_dropped w i m : wf_world w -> stas w !! i = Some m -> unanswered m ->
  exists k w' m', (1 <= k <= 5)%nat /\ timeouts k i w = Ok w' /\ wf_world w' /\
    stas w' !! i = Some m' /\ Sm.wpa_ptk_state m' = WPA_PTK_INITIALIZE /\
    log_ext plain (wlog w) (wlog w').
Proof.
  intros Hw Hi Hu. destruct (wf_at_rest w i m Hw Hi) as [Hwf _ _ _].
  destruct (timeouts_leave 4 w i m Hw Hi Hu) as (k & w' & m' & Hk & Heq & Hw' & Hkeep & Hi' & Hs).
  { pose proof (m_ctr _ _ Hwf). lia. }
  exists k, w', m'. split_and!; try done; [lia..|apply Hkeep].
Qed.

Lemma put_sta_id i m w : stas w !! i = Some m -> put_sta i m w = w.
Proof. intros H. unfold put_sta. by rewrite insert_id. Qed.
Lemma put_group_id g gr w : groups w !! g = Some gr -> put_group g gr w = w.
Proof. intros H. unfold put_group. by rewrite insert_id. Qed.

(** ([wpa_replay_counter_valid], [wpa_receive]): once the newest replay counter is
    used up - a frame that was accepted uses it up, the next frame sent brings a
    new one - no frame that is not a request has any effect: it is dropped before
    anything is read from it but its header, and only its reception is logged. *)
Theorem replayed_frame_dropped i data ki r k w m g : stas w !! i = Some m ->
  groups w !! Sm.group m = Some g -> bytes data -> WPA_GET_BE16 data o_key_info = Ok ki ->
  has_bits ki WPA_KEY_INFO_REQUEST = false -> Sm.key_replay m = r :: k -> valid r = false ->
  wpa_receive i data (zlen data) w = Ok (emit_w (CRx (Sm.addr m) data) w).
Proof.
  intros Hi Hg Hb Hki Hreq Hk Hr. unfold wpa_receive. rewrite (bind_eq _ _ _ (the_sta_ok _ _ _ Hi)). cbv zeta.
  assert (take (Z.to_nat (zlen data)) data = data) as ->
    by (unfold zlen; rewrite Nat2Z.id; by apply take_ge).
  set (w1 := emit_w _ w). assert (stas w1 !! i = Some m) as Hi1 by exact Hi.
  assert (groups w1 !! Sm.group m = Some g) as Hg1 by exact Hg. unfold ask_sta, load.
  rewrite (bind_eq _ _ _ (the_sta_ok _ _ _ Hi1)), (bind_eq _ _ _ (the_group_ok _ _ _ Hg1)).
  cbn [mbind res_bind mret res_ret]. set (s := {| sm := m; gr := g; au := auth w1; lg := wlog w1 |}).
  assert (receive_checks data (zlen data) s = Ok (None, s)) as ->.
  { unfold receive_checks. cbv zeta. destruct (_ =? 0); [done|].
    destruct (Z.ltb_spec (zlen data) (sizeof_ieee802_1x_hdr + sizeof_wpa_eapol_key)) as [|Hlen]; [done|].
    unfold sizeof_ieee802_1x_hdr, sizeof_wpa_eapol_key in Hlen. rewrite (bind_eq _ _ _ Hki).
    destruct (BE16_runs data o_key_data_length) as (n & Hn & _); [done|done|unfold o_key_data_length; lia|].
    rewrite (bind_eq _ _ _ Hn). destruct (_ <? n); [done|].
    rewrite rd_ok by (unfold o_type; lia). cbn [mbind res_bind].
    destruct (negb (_ =? _)); [done|]. destruct (negb (version_accepted _ _ _)); [done|].
    destruct (rd_n_runs data o_replay_counter WPA_REPLAY_COUNTER_LEN) as (rc & Hrc & _);
      [done|done|unfold o_replay_counter, WPA_REPLAY_COUNTER_LEN; lia|]. rewrite (bind_eq _ _ _ Hrc), Hreq.
    cbn [andb negb]. unfold wpa_replay_counter_valid. change (sm s) with m. rewrite Hk.
    cbn [take RSNA_MAX_EAPOL_RETRIES replay_counter_valid]. by rewrite Hr. }
  cbn [mbind res_bind mret res_ret]. unfold save. cbn [sm gr au lg s]. rewrite (put_sta_id i m w1 Hi1).
  by rewrite (put_group_id (Sm.group m) g w1 Hg1).
Qed.
End spec.

(** ** The example *)
Import Toy Net.


Lemma wpa_port_opened_by_msg4_witness : exists w i m data ki, reaches w0 w /\ stas w !! i = Some m /\
  In (CRx (Sm.addr m) data) (wlog w3) /\ lets_in m key_given /\
  wpa_verify_key_mic (Sm.PTK m) data (zlen data) = Ok 0 /\ classify_msg ki 0 = PAIRWISE_4.
Proof.
  destruct (wpa_port_opened_by_msg4 ap Ap.conf [] w0 w3) as (d & Hd & Hexp).
  - by left.
  - apply w0_made.
  - apply w3_reached.
  - rewrite w3_log in Hd. apply app_inv_tail in Hd. subst d.
    destruct (Hexp _ _ _ w3_key) as (w & i & m & data & ki & Hr & Hi & (d3 & Hd3) & Hl & _ & Hmic & _ & _ & Hcl).
    + intros [H|H]; discriminate H.
    + exists w, i, m, data, ki. split; [exact Hr|]. split; [exact Hi|].
      split; [|split; [exact Hl|split; [exact Hmic|exact Hcl]]].
      rewrite w3_log, w3_key, <- app_assoc. apply in_or_app. right. right. rewrite Hd3.
      apply in_or_app. right. by left.
Defined.

(** The station does not answer message 3/4. *)
Lemma unanswered_station_dropped_witness : exists k w' m', timeouts k 1 w2 = Ok w' /\
  stas w' !! 1%nat = Some m' /\ Sm.wpa_ptk_state m' = WPA_PTK_INITIALIZE.
Proof.
  destruct (unanswered_station_dropped w2 1 (sta w2)) as (k & w' & m' & _ & Heq & _ & Hi & Hs & _).
  - apply w2_wf.
  - by vm_compute.
  - split; [right|]; vm_compute; reflexivity.
  - by exists k, w', m'.
Defined.

(** Message 4/4 once more. *)
Lemma replayed_frame_dropped_witness :
  wpa_receive 1 msg4 (zlen msg4) w3 = Ok (emit_w (CRx (Sm.addr (sta w3)) msg4) w3).
Proof.
  destruct w3_group as [g Hg].
  apply (replayed_frame_dropped 1 msg4 779 {| counter := [0; 0; 0; 0; 0; 0; 0; 2]; valid := false |}
    (tail (Sm.key_replay (sta w3))) w3 (sta w3) g).
  - vm_compute. reflexivity.
  - exact Hg.
  - apply (bool_decide_unpack _). vm_compute. reflexivity.
  - vm_compute. reflexivity.
  - vm_compute. reflexivity.
  - vm_compute. reflexivity.
  - reflexivity.
Defined.


Lemma ptk_derived_from_offered_pmk_witness : exists s',
  sm_WPA_PTK_PTKCALCNEGOTIATING_Enter answered = Ok s' /\ Sm.PTK_valid (sm s') = true /\
  offered answered (Sm.PMK (sm s')) /\ derived answered (Sm.PMK (sm s')) (Sm.PTK (sm s')).
Proof.
  destruct (ptk_derived_from_offered_pmk answered msg2 answered_wf eq_refl)
    as (s' & Heq & [(Hv & _ & _ & pmk & Ho & Hd & <-)|(Hv & _)]).
  { exact (ex_intro _ s' (conj Heq (conj Hv (conj Ho Hd)))). }
  exfalso. vm_compute in Heq. injection Heq as <-. vm_compute in Hv. discriminate Hv.
Defined.
