(* ===== verification/WpaSuppI.v ===== *)
(** * rsn_supp/wpa.h, wpa_i.h, pmksa_cache.h: the data of the WPA supplicant

    The state machine data of the supplicant, its PMKSA cache entries, and the log
    of everything exchanged with the owner of the machine, newest first.

    The owner (wpa_supplicant with wpas_glue.c, the EAPOL machine, the driver, the
    event loop, the allocator) is the class [Host]: an answer is any function of
    the log so far.  The only callbacks that come back to the machine are
    [deauthenticate] and [disassociate], which end in [wpa_sm_set_config] with
    NULL, and [get_beacon_ie], which sets the elements of the access point; they
    are part of the model.  As for the authenticator, the build has
    [CONFIG_IEEE80211W] and [IEEE8021X_EAPOL], and neither [CONFIG_IEEE80211R],
    [CONFIG_PEERKEY] nor [CONFIG_TDLS].

    A PMKSA cache is the linked list of its entries, each with its address; an
    entry is allocated as long as it is in the list, and an address is never used
    again, so that a pointer that dangles is found out. *)

From S2P Require Import Prelude WpaCommon.

(** [os_time_t], a [long] of 32 bits. *)
Definition os_time_t (z : Z) : Z := (z + 2147483648) mod 4294967296 - 2147483648.

(** ** defs.h *)
Inductive wpa_states :=
  | WPA_DISCONNECTED
  | WPA_INTERFACE_DISABLED
  | WPA_INACTIVE
  | WPA_SCANNING
  | WPA_AUTHENTICATING
  | WPA_ASSOCIATING
  | WPA_ASSOCIATED
  | WPA_4WAY_HANDSHAKE
  | WPA_GROUP_HANDSHAKE
  | WPA_COMPLETED.

Definition MLME_SETPROTECTION_PROTECT_TYPE_RX : Z := 1.
Definition MLME_SETPROTECTION_PROTECT_TYPE_RX_TX : Z := 3.
Definition MLME_SETPROTECTION_KEY_TYPE_PAIRWISE : Z := 1.
Definition WLAN_REASON_UNSPECIFIED : Z := 1.
Definition WLAN_REASON_IE_IN_4WAY_DIFFERS : Z := 17.

(** ** wpa.h *)
Inductive wpa_sm_conf_params :=
  | RSNA_PMK_LIFETIME
  | RSNA_PMK_REAUTH_THRESHOLD
  | RSNA_SA_TIMEOUT
  | WPA_PARAM_PROTO
  | WPA_PARAM_PAIRWISE
  | WPA_PARAM_GROUP
  | WPA_PARAM_KEY_MGMT
  | WPA_PARAM_MGMT_GROUP
  | WPA_PARAM_RSN_ENABLED
  | WPA_PARAM_MFP.

Module Config.
Record rsn_supp_config := {
  network_ctx : option nat;
  peerkey_enabled : Z;
  allowed_pairwise_cipher : Z;
  proactive_key_caching : Z;
  eap_workaround : Z;
  eap_conf_ctx : option nat;
  ssid : option (list Z);
  ssid_len : Z;
  wpa_ptk_rekey : Z;
}.
End Config.

(** ** pmksa_cache.h *)

(** The order of the list is [next]. *)
Module Entry.
#[projections(primitive)]
Record rsn_pmksa_cache_entry := {
  pmkid : list Z;
  pmk : list Z;
  pmk_len : Z;
  expiration : Z;
  akmp : Z;
  aa : list Z;
  reauth_time : Z;
  network_ctx : option nat;
  opportunistic : Z;
}.
End Entry.

(** [pmksa] of [struct rsn_pmksa_cache]: the list, and its count. *)
Module Cache.
#[projections(primitive)]
Record rsn_pmksa_cache := {
  pmksa : list (nat * Entry.rsn_pmksa_cache_entry);
  pmksa_count : Z;
  fresh : nat;
}.
End Cache.

(** ** wpa_i.h *)

(** [struct wpa_sm]; what belongs to preauth.c alone is left out. *)
Module Sup.
#[projections(primitive)]
Record wpa_sm := {
  pmk : list Z;
  pmk_len : Z;
  ptk : list Z;
  tptk : list Z;
  ptk_set : bool;
  tptk_set : bool;
  snonce : list Z;
  anonce : list Z;
  renew_snonce : bool;
  rx_replay_counter : list Z;
  rx_replay_counter_set : bool;
  request_counter : list Z;
  eapol : option nat;
  pmksa : Cache.rsn_pmksa_cache;
  cur_pmksa : option nat;
  preauth_bssid : list Z;
  preauth_eapol : option nat;
  scard_ctx : option nat;
  fast_reauth : Z;
  network_ctx : option nat;
  peerkey_enabled : Z;
  allowed_pairwise_cipher : Z;
  proactive_key_caching : Z;
  eap_workaround : Z;
  eap_conf_ctx : option nat;
  ssid : list Z;
  ssid_len : Z;
  wpa_ptk_rekey : Z;
  own_addr : list Z;
  ifname : option nat;
  bridge_ifname : option nat;
  bssid : list Z;
  dot11RSNAConfigPMKLifetime : Z;
  dot11RSNAConfigPMKReauthThreshold : Z;
  dot11RSNAConfigSATimeout : Z;
  dot11RSNA4WayHandshakeFailures : Z;
  proto : Z;
  pairwise_cipher : Z;
  group_cipher : Z;
  key_mgmt : Z;
  mgmt_group_cipher : Z;
  rsn_enabled : Z;
  mfp : Z;
  assoc_wpa_ie : option (list Z);
  assoc_wpa_ie_len : Z;
  ap_wpa_ie : option (list Z);
  ap_wpa_ie_len : Z;
  ap_rsn_ie : option (list Z);
  ap_rsn_ie_len : Z;
}.
End Sup.

(** ** The owner *)

(** The timeouts of the event loop. *)
Inductive sup_timeout :=
  | pmksa_cache_expire_
  | pmksa_cache_reauth_
  | wpa_sm_start_preauth_
  | wpa_sm_rekey_ptk_
  | rsn_preauth_timeout_.

Inductive sup_call :=
  | SRx (src data : list Z)                        (** a frame comes in *)
  | SFire (t : sup_timeout)                        (** a timeout is due *)
  | SSetState (s : wpa_states)
  | SGetState
  | SDeauthenticate (reason : Z)
  | SDisassociate (reason : Z)
  | SSetKey (alg : wpa_alg) (addr : option (list Z)) (key_idx set_tx : Z) (seq key : list Z)
  | SGetNetworkCtx
  | SGetBssid
  | SEtherSend (dest : list Z) (proto : Z) (data : list Z)
  | SScanResults                                   (** the current BSS is looked up *)
  | SUpdateScan
  | SCancelAuthTimeout
  | SAddPmkid (bssid pmkid : list Z)
  | SRemovePmkid (bssid pmkid : list Z)
  | SSetProtection (addr : list Z) (protect_type key_type : Z)
  | SNotifyCached
  | SPortValid (valid : bool)
  | SEapSuccess (success : bool)
  | SNotifyTx
  | SLowerLayerSuccess (in_eapol_sm : bool)
  | SRequestReauth
  | SGetKey (len : Z)
  | SPreauthDeinit
  | SPreauthCandidates
  | SRandom (n : Z)
  | SMalloc (n : Z)
  | STime
  | SRegister (sec : Z) (t : sup_timeout)
  | SCancel (t : sup_timeout).

#[global] Instance wpa_states_eq : EqDecision wpa_states.
Proof. solve_decision. Defined.
#[global] Instance wpa_sm_conf_params_eq : EqDecision wpa_sm_conf_params.
Proof. solve_decision. Defined.
#[global] Instance sup_timeout_eq : EqDecision sup_timeout.
Proof. solve_decision. Defined.
#[global] Instance sup_call_eq : EqDecision sup_call.
Proof. solve_decision. Defined.

Abbreviation sup_log := (list sup_call).

(** The answers, as functions of the log whose head is the question.
    [get_bssid] and [random_get_bytes] give the value returned and what the
    buffer holds; [eapol_sm_get_key] the value returned and, when it is 0, the
    key; [scan_results] the elements of the access point, [None] when it is not
    among the scan results; [uninit] what memory nobody wrote holds;
    [sizeof_wpa_sm] the size of the structure on the platform. *)
Class Host := {
  get_state : sup_log -> wpa_states;
  set_key : sup_log -> Z;
  get_network_ctx : sup_log -> option nat;
  get_bssid : sup_log -> Z * list Z;
  scan_results : sup_log -> option (option (list Z) * option (list Z));
  update_scan_results : sup_log -> Z;
  eapol_sm_get_key : sup_log -> Z -> Z * list Z;
  random_get_bytes : sup_log -> Z -> Z * list Z;
  malloc : sup_log -> bool;
  time : sup_log -> Z;
  uninit : sup_log -> Z -> list Z;
  eapol_version : Z;
  sizeof_wpa_sm : Z;
}.

(** What is relied on: buffers keep their lengths, and hold octets; an element of
    the scan results has the length its second octet says. *)
Class HostLaws (h : Host) := {
  get_bssid_len l r d : get_bssid l = (r, d) -> zlen d = 6;
  get_key_len l n r d : 0 <= n -> eapol_sm_get_key l n = (r, d) -> zlen d = n;
  random_len l n r d : 0 <= n -> random_get_bytes l n = (r, d) -> zlen d = n;
  uninit_len l n : 0 <= n -> zlen (uninit l n) = n;
  scan_ie_len l w r : scan_results l = Some (w, r) -> forall ie, w = Some ie \/ r = Some ie ->
    rd ie 1 = Ok (zlen ie - 2);
}.
