(* ===== verification/WpaSuppPmksa.v ===== *)
(** * rsn_supp/pmksa_cache.c: the PMKSA cache of the supplicant

    The cache and what of rsn_supp/wpa.c it works with: the configuration, which
    loses the cache's network contexts, and the callback for entries that are
    freed, which may deauthenticate.  The functions work on the machine and the
    log. *)

From S2P Require Import Prelude WpaCommon WpaSuppI.

(** The machine and the log. *)
#[projections(primitive)]
Record sst := { su : Sup.wpa_sm; slg : sup_log }.

Definition say (c : sup_call) (s : sst) : sst := s <| slg := c :: slg s |>.

(** The list of the cache, and its assignment. *)
Definition entries (s : sst) : list (nat * Entry.rsn_pmksa_cache_entry) :=
  Cache.pmksa (Sup.pmksa (su s)).
Definition on_cache (f : Cache.rsn_pmksa_cache -> Cache.rsn_pmksa_cache) (s : sst) : sst :=
  s <| su; Sup.pmksa := f (Sup.pmksa (su s)) |>.
Definition set_entries (l : list (nat * Entry.rsn_pmksa_cache_entry)) : sst -> sst :=
  on_cache (fun c => c <| Cache.pmksa := l |>).
Definition add_count (n : Z) : sst -> sst :=
  on_cache (fun c => c <| Cache.pmksa_count := Cache.pmksa_count c + n |>).
Definition set_cur (p : option nat) (s : sst) : sst := s <| su; Sup.cur_pmksa := p |>.

(** The entry at an address; a fault when it was freed. *)
Fixpoint entry_at (p : nat) (l : list (nat * Entry.rsn_pmksa_cache_entry))
    : res Entry.rsn_pmksa_cache_entry :=
  match l with
  | [] => Fault OutOfBounds
  | (q, e) :: l => if decide (q = p) then Ok e else entry_at p l
  end.
(** An assignment to the entry at an address. *)
Definition update_entry (p : nat)
    (f : Entry.rsn_pmksa_cache_entry -> Entry.rsn_pmksa_cache_entry)
    (l : list (nat * Entry.rsn_pmksa_cache_entry)) : list (nat * Entry.rsn_pmksa_cache_entry) :=
  map (fun '(q, e) => (q, if decide (q = p) then f e else e)) l.

Definition forget_network (e : Entry.rsn_pmksa_cache_entry) : Entry.rsn_pmksa_cache_entry :=
  e <| Entry.network_ctx := None |>.
Definition pmksa_cache_notify_reconfig (s : sst) : sst :=
  set_entries (map (fun '(p, e) => (p, forget_network e)) (entries s)) s.

(** ** The configuration (wpa.c) *)

Definition config_null (m : Sup.wpa_sm) : Sup.wpa_sm :=
  let m := m <| Sup.network_ctx := None |> in
  let m := m <| Sup.peerkey_enabled := 0 |> in
  let m := m <| Sup.allowed_pairwise_cipher := 0 |> in
  let m := m <| Sup.proactive_key_caching := 0 |> in
  let m := m <| Sup.eap_workaround := 0 |> in
  let m := m <| Sup.eap_conf_ctx := None |> in
  let m := m <| Sup.ssid_len := 0 |> in
  m <| Sup.wpa_ptk_rekey := 0 |>.

Definition config_from (config : Config.rsn_supp_config) (m : Sup.wpa_sm) : res Sup.wpa_sm :=
  let m := m <| Sup.network_ctx := Config.network_ctx config |> in
  let m := m <| Sup.peerkey_enabled := Config.peerkey_enabled config |> in
  let m := m <| Sup.allowed_pairwise_cipher := Config.allowed_pairwise_cipher config |> in
  let m := m <| Sup.proactive_key_caching := Config.proactive_key_caching config |> in
  let m := m <| Sup.eap_workaround := Config.eap_workaround config |> in
  let m := m <| Sup.eap_conf_ctx := Config.eap_conf_ctx config |> in
  m ← match Config.ssid config with
      | Some d =>
          d ← rd_n d 0 (Config.ssid_len config);
          new ← wr_n (Sup.ssid m) 0 d;
          let m := m <| Sup.ssid := new |> in
          mret (m <| Sup.ssid_len := Config.ssid_len config |>)
      | None => mret (m <| Sup.ssid_len := 0 |>)
      end;
  mret (m <| Sup.wpa_ptk_rekey := Config.wpa_ptk_rekey config |>).

Definition wpa_sm_set_config (config : option Config.rsn_supp_config) (s : sst) : res sst :=
  m ← match config with
      | Some config => config_from config (su s)
      | None => mret (config_null (su s))
      end;
  let s := s <| su := m |> in
  mret (match config with
        | None => pmksa_cache_notify_reconfig s
        | Some config =>
            if negb (bool_decide (Config.network_ctx config = Sup.network_ctx (su s)))
            then pmksa_cache_notify_reconfig s else s
        end).

(** Both callbacks end in [wpa_supplicant_clear_connection]. *)
Definition wpa_supplicant_clear_connection (s : sst) : res sst := wpa_sm_set_config None s.
Definition wpa_sm_deauthenticate (reason_code : Z) (s : sst) : res sst :=
  wpa_supplicant_clear_connection (say (SDeauthenticate reason_code) s).
Definition wpa_sm_disassociate (reason_code : Z) (s : sst) : res sst :=
  wpa_supplicant_clear_connection (say (SDisassociate reason_code) s).

Section cache.
Context {cr : Crypto} {h : Host}.

Definition os_malloc (n : Z) (s : sst) : bool * sst :=
  let s := say (SMalloc n) s in (malloc (slg s), s).
Definition os_get_time (s : sst) : Z * sst :=
  let s := say STime s in (time (slg s), s).

(** ** Freeing an entry *)

(** An entry that is out of the list already; [replace] is 1 or 0. *)
Definition wpa_sm_pmksa_free_cb (p : nat) (entry : Entry.rsn_pmksa_cache_entry) (replace : bool)
    (s : sst) : res sst :=
  hit ← if bool_decide (Sup.cur_pmksa (su s) = Some p) then mret true
        else if Sup.pmk_len (su s) =? Entry.pmk_len entry then
          a ← rd_n (Sup.pmk (su s)) 0 (Sup.pmk_len (su s));
          b ← rd_n (Entry.pmk entry) 0 (Sup.pmk_len (su s));
          mret (os_memcmp a b =? 0)
        else mret false;
  if hit : bool then
    let s := set_cur None s in
    if replace then mret s
    else
      let s := s <| su; Sup.pmk := replicate (Z.to_nat PMK_LEN) 0 |> in
      wpa_sm_deauthenticate WLAN_REASON_UNSPECIFIED s
  else mret s.

Definition pmksa_cache_free_entry (p : nat) (entry : Entry.rsn_pmksa_cache_entry) (replace : bool)
    (s : sst) : res sst :=
  wpa_sm_pmksa_free_cb p entry replace (add_count (-1) s).

(** ** Looking up *)

Definition entry_matches (aa pmkid : option (list Z)) (e : Entry.rsn_pmksa_cache_entry) : bool :=
  (match aa with None => true | Some aa => os_memcmp (Entry.aa e) aa =? 0 end) &&
  (match pmkid with None => true | Some pmkid => os_memcmp (Entry.pmkid e) pmkid =? 0 end).

Fixpoint find_entry (test : Entry.rsn_pmksa_cache_entry -> bool)
    (l : list (nat * Entry.rsn_pmksa_cache_entry)) : option nat :=
  match l with
  | [] => None
  | (p, e) :: l => if test e then Some p else find_entry test l
  end.

Definition pmksa_cache_get (aa pmkid : option (list Z)) (s : sst) : option nat :=
  find_entry (entry_matches aa pmkid) (entries s).

(** ** The timeouts *)

Definition not_negative (sec : Z) : Z := if sec <? 0 then 0 else sec.

Definition pmksa_cache_set_expiration (s : sst) : sst :=
  let s := say (SCancel pmksa_cache_expire_) s in
  let s := say (SCancel pmksa_cache_reauth_) s in
  match entries s with
  | [] => s
  | (_, head) :: _ =>
      let '(now, s) := os_get_time s in
      let sec := not_negative (os_time_t (Entry.expiration head - now)) in
      let s := say (SRegister (sec + 1) pmksa_cache_expire_) s in
      let entry := match Sup.cur_pmksa (su s) with
                   | Some p => Some p
                   | None => pmksa_cache_get (Some (Sup.bssid (su s))) None s
                   end in
      match entry with
      | Some _ =>
          let sec := not_negative (os_time_t (Entry.reauth_time head - now)) in
          say (SRegister sec pmksa_cache_reauth_) s
      | None => s
      end
  end.

Fixpoint expire_loop (fuel : nat) (now : Z) (s : sst) : res sst :=
  match fuel with
  | O => Fault OutOfFuel
  | S fuel =>
      match entries s with
      | (p, entry) :: next =>
          if Entry.expiration entry <=? now then
            let s := set_entries next s in
            s ← pmksa_cache_free_entry p entry false s;
            expire_loop fuel now s
          else mret s
      | [] => mret s
      end
  end.

Definition pmksa_cache_expire (s : sst) : res sst :=
  let '(now, s) := os_get_time (say (SFire pmksa_cache_expire_) s) in
  s ← expire_loop (S (length (entries s))) now s;
  mret (pmksa_cache_set_expiration s).

Definition pmksa_cache_reauth (s : sst) : sst :=
  let s := say (SFire pmksa_cache_reauth_) s in
  say SRequestReauth (set_cur None s).

(** ** Adding *)

Definition pmksa_cache_max_entries : Z := 32.

Definition new_entry (pmk : list Z) (pmk_len : Z) (aa spa : list Z) (network_ctx : option nat)
    (akmp now : Z) (m : Sup.wpa_sm) : Entry.rsn_pmksa_cache_entry :=
  let lifetime := Sup.dot11RSNAConfigPMKLifetime m in
  {| Entry.pmk := copy_front (replicate (Z.to_nat PMK_LEN) 0) pmk;
     Entry.pmk_len := pmk_len;
     Entry.pmkid := rsn_pmkid pmk aa spa (wpa_key_mgmt_sha256 akmp);
     Entry.expiration := os_time_t (now + lifetime);
     Entry.reauth_time :=
       os_time_t (now + u32 (lifetime * Sup.dot11RSNAConfigPMKReauthThreshold m) / 100);
     Entry.akmp := akmp;
     Entry.aa := aa;
     Entry.network_ctx := network_ctx;
     Entry.opportunistic := 0 |}.

(** The first entry of the authenticator, with what is before and behind it. *)
Fixpoint split_at_aa (aa : list Z) (l : list (nat * Entry.rsn_pmksa_cache_entry))
    : option (list (nat * Entry.rsn_pmksa_cache_entry) * (nat * Entry.rsn_pmksa_cache_entry) *
              list (nat * Entry.rsn_pmksa_cache_entry)) :=
  match l with
  | [] => None
  | (p, e) :: l =>
      if os_memcmp aa (Entry.aa e) =? 0 then Some ([], (p, e), l)
      else match split_at_aa aa l with
           | Some (before, x, behind) => Some ((p, e) :: before, x, behind)
           | None => None
           end
  end.

(** [true]: the entry found has the same key. *)
Definition same_key (pmk : list Z) (pmk_len : Z) (pmkid : list Z)
    (pos : Entry.rsn_pmksa_cache_entry) : res bool :=
  if Entry.pmk_len pos =? pmk_len then
    k ← rd_n (Entry.pmk pos) 0 pmk_len;
    mret ((os_memcmp k pmk =? 0) && (os_memcmp (Entry.pmkid pos) pmkid =? 0))
  else mret false.

(** The old entry of the authenticator makes room; [Some p]: it is the entry
    asked for. *)
Definition replace_old (pmk : list Z) (pmk_len : Z) (entry : Entry.rsn_pmksa_cache_entry) (s : sst)
    : res (option nat * sst) :=
  match split_at_aa (Entry.aa entry) (entries s) with
  | None => mret (None, s)
  | Some (before, (p, pos), behind) =>
      same ← same_key pmk pmk_len (Entry.pmkid entry) pos;
      if same : bool then mret (Some p, s)
      else
        let s := set_entries (before ++ behind) s in
        let s := if bool_decide (Sup.cur_pmksa (su s) = Some p) then set_cur None s else s in
        s ← pmksa_cache_free_entry p pos true s;
        mret (None, s)
  end.

Definition remove_oldest (s : sst) : res sst :=
  match entries s with
  | (p, pos) :: next =>
      if pmksa_cache_max_entries <=? Cache.pmksa_count (Sup.pmksa (su s)) then
        let s := set_entries next s in
        let s := say (SRemovePmkid (Entry.aa pos) (Entry.pmkid pos)) s in
        pmksa_cache_free_entry p pos false s
      else mret s
  | [] => mret s
  end.

(** Ordered by expiration; [true]: the new entry is the first. *)
Fixpoint insert_entry (p : nat) (entry : Entry.rsn_pmksa_cache_entry)
    (l : list (nat * Entry.rsn_pmksa_cache_entry))
    : list (nat * Entry.rsn_pmksa_cache_entry) * bool :=
  match l with
  | [] => ([(p, entry)], true)
  | (q, pos) :: next =>
      if Entry.expiration entry <? Entry.expiration pos then ((p, entry) :: l, true)
      else ((q, pos) :: fst (insert_entry p entry next), false)
  end.

Definition sizeof_rsn_pmksa_cache_entry : Z := 84.

Definition pmksa_cache_add (pmk : list Z) (pmk_len : Z) (aa spa : list Z)
    (network_ctx : option nat) (akmp : Z) (s : sst) : res (option nat * sst) :=
  if PMK_LEN <? pmk_len then mret (None, s)
  else
    let '(ok, s) := os_malloc sizeof_rsn_pmksa_cache_entry s in
    if negb ok then mret (None, s)
    else
      let p := Cache.fresh (Sup.pmksa (su s)) in
      let s := on_cache (fun c => c <| Cache.fresh := S p |>) s in
      pmk ← rd_n pmk 0 pmk_len;
      let '(now, s) := os_get_time s in
      let entry := new_entry pmk pmk_len aa spa network_ctx akmp now (su s) in
      '(old, s) ← replace_old pmk pmk_len entry s;
      match old with
      | Some q => mret (Some q, s)
      | None =>
          s ← remove_oldest s;
          let '(l, first) := insert_entry p entry (entries s) in
          let s := set_entries l s in
          let s := if first : bool then pmksa_cache_set_expiration s else s in
          let s := add_count 1 s in
          mret (Some p, say (SAddPmkid (Entry.aa entry) (Entry.pmkid entry)) s)
      end.

(** ** Opportunistic key caching *)

Definition clone_fields (expiration : Z) (e : Entry.rsn_pmksa_cache_entry)
    : Entry.rsn_pmksa_cache_entry :=
  e <| Entry.expiration := expiration |> <| Entry.opportunistic := 1 |>.

(** [old_entry] is a pointer, and read again after [pmksa_cache_add]. *)
Definition pmksa_cache_clone_entry (old_entry : nat) (aa : list Z) (s : sst)
    : res (option nat * sst) :=
  old ← entry_at old_entry (entries s);
  '(new, s) ← pmksa_cache_add (Entry.pmk old) (Entry.pmk_len old) aa (Sup.own_addr (su s))
                (Entry.network_ctx old) (Entry.akmp old) s;
  match new with
  | None => mret (None, s)
  | Some new =>
      old ← entry_at old_entry (entries s);
      let f := clone_fields (Entry.expiration old) in
      mret (Some new, set_entries (update_entry new f (entries s)) s)
  end.

Definition pmksa_cache_get_opportunistic (network_ctx : option nat) (aa : list Z) (s : sst)
    : res (option nat * sst) :=
  match network_ctx with
  | None => mret (None, s)
  | Some ctx =>
      match find_entry (fun e => bool_decide (Entry.network_ctx e = Some ctx)) (entries s) with
      | Some entry => pmksa_cache_clone_entry entry aa s
      | None => mret (None, s)
      end
  end.

Definition pmksa_cache_get_current (m : option Sup.wpa_sm) : option nat :=
  match m with Some m => Sup.cur_pmksa m | None => None end.
Definition pmksa_cache_clear_current (s : sst) : sst := set_cur None s.

Definition pmksa_cache_set_current (pmkid bssid : option (list Z)) (network_ctx : option nat)
    (try_opportunistic : bool) (s : sst) : res (Z * sst) :=
  let s := set_cur None s in
  let s := match pmkid with
           | Some _ => set_cur (pmksa_cache_get None pmkid s) s
           | None => s
           end in
  let s := match Sup.cur_pmksa (su s), bssid with
           | None, Some _ => set_cur (pmksa_cache_get bssid None s) s
           | _, _ => s
           end in
  s ← match Sup.cur_pmksa (su s), bssid with
      | None, Some aa =>
          if try_opportunistic then
            '(p, s) ← pmksa_cache_get_opportunistic network_ctx aa s;
            mret (set_cur p s)
          else mret s
      | _, _ => mret s
      end;
  mret (match Sup.cur_pmksa (su s) with Some _ => 0 | None => -1 end, s).

(** ** The cache as a whole *)

Definition sizeof_rsn_pmksa_cache : Z := 20.
Definition empty_cache : Cache.rsn_pmksa_cache :=
  {| Cache.pmksa := []; Cache.pmksa_count := 0; Cache.fresh := 0 |}.

Definition pmksa_cache_init (l : sup_log) : option Cache.rsn_pmksa_cache * sup_log :=
  let l := SMalloc sizeof_rsn_pmksa_cache :: l in
  (if malloc l then Some empty_cache else None, l).

Definition pmksa_cache_deinit (s : sst) : sst :=
  pmksa_cache_set_expiration (set_entries [] s).
End cache.
