(* ===== verification/WpaSuppIe.v ===== *)
(** * rsn_supp/wpa_ie.c: WPA/RSN elements and KDEs of the supplicant

    Writing the element of the association request, into a buffer of which the
    caller says how much may be used, and parsing the key data of EAPOL-Key
    frames.  Every access is checked against the buffer; pointers into it are
    offsets. *)

From S2P Require Import Prelude WpaCommon WpaSuppI.

Definition wpa_parse_wpa_ie (wpa_ie : list Z) (wpa_ie_len : Z) : res (Z * wpa_ie_data) :=
  is_rsn ← if 1 <=? wpa_ie_len then b ← rd wpa_ie 0; mret (b =? WLAN_EID_RSN) else mret false;
  if is_rsn : bool then wpa_parse_wpa_ie_rsn wpa_ie wpa_ie_len
  else wpa_parse_wpa_ie_wpa wpa_ie wpa_ie_len.

(** ** Writing the elements *)

(** The chains of [if (x == bit) RSN_SELECTOR_PUT(pos, selector); else ...];
    [None] is the last [else]. *)
Fixpoint suite_of (suites : list (Z * Z)) (x : Z) : option Z :=
  match suites with
  | [] => None
  | (bit, selector) :: suites => if x =? bit then Some selector else suite_of suites x
  end.

Definition wpa_group_choice : list (Z * Z) :=
  [(WPA_CIPHER_CCMP, WPA_CIPHER_SUITE_CCMP); (WPA_CIPHER_TKIP, WPA_CIPHER_SUITE_TKIP);
   (WPA_CIPHER_WEP104, WPA_CIPHER_SUITE_WEP104); (WPA_CIPHER_WEP40, WPA_CIPHER_SUITE_WEP40)].
Definition wpa_pairwise_choice : list (Z * Z) :=
  [(WPA_CIPHER_CCMP, WPA_CIPHER_SUITE_CCMP); (WPA_CIPHER_TKIP, WPA_CIPHER_SUITE_TKIP);
   (WPA_CIPHER_NONE, WPA_CIPHER_SUITE_NONE)].
Definition wpa_akm_choice : list (Z * Z) :=
  [(WPA_KEY_MGMT_IEEE8021X, WPA_AUTH_KEY_MGMT_UNSPEC_802_1X);
   (WPA_KEY_MGMT_PSK, WPA_AUTH_KEY_MGMT_PSK_OVER_802_1X);
   (WPA_KEY_MGMT_WPA_NONE, WPA_AUTH_KEY_MGMT_NONE)].
Definition rsn_group_choice : list (Z * Z) :=
  [(WPA_CIPHER_CCMP, RSN_CIPHER_SUITE_CCMP); (WPA_CIPHER_TKIP, RSN_CIPHER_SUITE_TKIP);
   (WPA_CIPHER_WEP104, RSN_CIPHER_SUITE_WEP104); (WPA_CIPHER_WEP40, RSN_CIPHER_SUITE_WEP40)].
Definition rsn_pairwise_choice : list (Z * Z) :=
  [(WPA_CIPHER_CCMP, RSN_CIPHER_SUITE_CCMP); (WPA_CIPHER_TKIP, RSN_CIPHER_SUITE_TKIP);
   (WPA_CIPHER_NONE, RSN_CIPHER_SUITE_NONE)].
Definition rsn_akm_choice : list (Z * Z) :=
  [(WPA_KEY_MGMT_IEEE8021X, RSN_AUTH_KEY_MGMT_UNSPEC_802_1X);
   (WPA_KEY_MGMT_PSK, RSN_AUTH_KEY_MGMT_PSK_OVER_802_1X);
   (WPA_KEY_MGMT_IEEE8021X_SHA256, RSN_AUTH_KEY_MGMT_802_1X_SHA256);
   (WPA_KEY_MGMT_PSK_SHA256, RSN_AUTH_KEY_MGMT_PSK_SHA256)].

(** The three suites: a group suite, and two lists of one.  The offset behind
    them, or [None]. *)
Definition put_three (group pairwise akm : option Z) (ie : list Z) (pos : Z)
    : res (option Z * list Z) :=
  match group with
  | None => mret (None, ie)
  | Some g =>
      ie ← wr_n ie pos (RSN_SELECTOR_PUT g);
      let pos := pos + RSN_SELECTOR_LEN in
      ie ← wr_n ie pos [1; 0];
      let pos := pos + 2 in
      match pairwise with
      | None => mret (None, ie)
      | Some p =>
          ie ← wr_n ie pos (RSN_SELECTOR_PUT p);
          let pos := pos + RSN_SELECTOR_LEN in
          ie ← wr_n ie pos [1; 0];
          let pos := pos + 2 in
          match akm with
          | None => mret (None, ie)
          | Some a =>
              ie ← wr_n ie pos (RSN_SELECTOR_PUT a);
              mret (Some (pos + RSN_SELECTOR_LEN), ie)
          end
      end
  end.

(** [WPA_ASSERT((size_t) (pos - ie) <= ie_len)] *)
Definition wpa_assert (b : bool) : res () := if b then mret () else Fault Aborted.

Definition wpa_gen_wpa_ie_wpa (wpa_ie : list Z) (wpa_ie_len pairwise_cipher group_cipher key_mgmt : Z)
    : res (Z * list Z) :=
  if wpa_ie_len <? sizeof_wpa_ie_hdr + WPA_SELECTOR_LEN + 2 + WPA_SELECTOR_LEN + 2 +
                   WPA_SELECTOR_LEN
  then mret (-1, wpa_ie)
  else
    ie ← wr wpa_ie 0 WLAN_EID_VENDOR_SPECIFIC;
    ie ← wr_n ie 2 (RSN_SELECTOR_PUT WPA_OUI_TYPE);
    ie ← wr_n ie 6 (WPA_PUT_LE16 WPA_VERSION);
    '(r, ie) ← put_three (suite_of wpa_group_choice group_cipher)
                 (suite_of wpa_pairwise_choice pairwise_cipher)
                 (suite_of wpa_akm_choice key_mgmt) ie sizeof_wpa_ie_hdr;
    match r with
    | None => mret (-1, ie)
    | Some pos =>
        ie ← wr ie 1 (u8 (pos - 2));
        _ ← wpa_assert (pos <=? wpa_ie_len);
        mret (pos, ie)
    end.

Definition capab_of (mfp : Z) : Z :=
  let capab := 0 in
  let capab := if negb (mfp =? 0) then Z.lor capab WPA_CAPABILITY_MFPC else capab in
  if mfp =? 2 then Z.lor capab WPA_CAPABILITY_MFPR else capab.

(** [pmkid]: the one of [sm->cur_pmksa]. *)
Definition wpa_gen_wpa_ie_rsn (rsn_ie : list Z)
    (rsn_ie_len pairwise_cipher group_cipher key_mgmt mgmt_group_cipher mfp : Z)
    (pmkid : option (list Z)) : res (Z * list Z) :=
  let pmkid_len := match pmkid with Some _ => 2 + PMKID_LEN | None => 0 end in
  if rsn_ie_len <? sizeof_rsn_ie_hdr + RSN_SELECTOR_LEN + 2 + RSN_SELECTOR_LEN + 2 +
                   RSN_SELECTOR_LEN + 2 + pmkid_len
  then mret (-1, rsn_ie)
  else
    ie ← wr rsn_ie 0 WLAN_EID_RSN;
    ie ← wr_n ie 2 (WPA_PUT_LE16 RSN_VERSION);
    '(r, ie) ← put_three (suite_of rsn_group_choice group_cipher)
                 (suite_of rsn_pairwise_choice pairwise_cipher)
                 (suite_of rsn_akm_choice key_mgmt) ie sizeof_rsn_ie_hdr;
    match r with
    | None => mret (-1, ie)
    | Some pos =>
        ie ← wr_n ie pos (WPA_PUT_LE16 (capab_of mfp));
        let pos := pos + 2 in
        '(pos, ie) ← match pmkid with
                     | Some d =>
                         ie ← wr_n ie pos [1; 0];
                         d ← rd_n d 0 PMKID_LEN;
                         ie ← wr_n ie (pos + 2) d;
                         mret (pos + 2 + PMKID_LEN, ie)
                     | None => mret (pos, ie)
                     end;
        '(pos, ie) ← if mgmt_group_cipher =? WPA_CIPHER_AES_128_CMAC then
                       '(pos, ie) ← match pmkid with
                                    | None => ie ← wr_n ie pos (WPA_PUT_LE16 0); mret (pos + 2, ie)
                                    | Some _ => mret (pos, ie)
                                    end;
                       ie ← wr_n ie pos (RSN_SELECTOR_PUT RSN_CIPHER_SUITE_AES_128_CMAC);
                       mret (pos + RSN_SELECTOR_LEN, ie)
                     else mret (pos, ie);
        ie ← wr ie 1 (u8 (pos - 2));
        _ ← wpa_assert (pos <=? rsn_ie_len);
        mret (pos, ie)
    end.

(** [cur]: the PMKID of the current PMKSA cache entry. *)
Definition wpa_gen_wpa_ie (m : Sup.wpa_sm) (cur : option (list Z)) (wpa_ie : list Z)
    (wpa_ie_len : Z) : res (Z * list Z) :=
  if Sup.proto m =? WPA_PROTO_RSN then
    wpa_gen_wpa_ie_rsn wpa_ie wpa_ie_len (Sup.pairwise_cipher m) (Sup.group_cipher m)
      (Sup.key_mgmt m) (Sup.mgmt_group_cipher m) (Sup.mfp m) cur
  else
    wpa_gen_wpa_ie_wpa wpa_ie wpa_ie_len (Sup.pairwise_cipher m) (Sup.group_cipher m)
      (Sup.key_mgmt m).

(** ** The parser of EAPOL-Key key data *)

Definition WLAN_EID_MOBILITY_DOMAIN : Z := 54.
Definition WLAN_EID_FAST_BSS_TRANSITION : Z := 55.
Definition WLAN_EID_TIMEOUT_INTERVAL : Z := 56.
Definition WLAN_EID_LINK_ID : Z := 101.
Definition WLAN_EID_EXT_CAPAB : Z := 127.
Definition WLAN_TIMEOUT_REASSOC_DEADLINE : Z := 1.
Definition WLAN_TIMEOUT_KEY_LIFETIME : Z := 2.

(** A pointer into the key data, and the length beside it. *)
Module Eie.
#[projections(primitive)]
Record wpa_eapol_ie_parse := {
  wpa_ie : option (Z * Z);
  rsn_ie : option (Z * Z);
  pmkid : option Z;
  gtk : option (Z * Z);
  mac_addr : option (Z * Z);
  igtk : option (Z * Z);
  mdie : option (Z * Z);
  ftie : option (Z * Z);
  reassoc_deadline : option Z;
  key_lifetime : option Z;
  lnkid : option (Z * Z);
  ext_capab : option (Z * Z);
}.
End Eie.

Definition eie_zero : Eie.wpa_eapol_ie_parse := {|
  Eie.wpa_ie := None; Eie.rsn_ie := None; Eie.pmkid := None; Eie.gtk := None;
  Eie.mac_addr := None; Eie.igtk := None; Eie.mdie := None; Eie.ftie := None;
  Eie.reassoc_deadline := None; Eie.key_lifetime := None; Eie.lnkid := None;
  Eie.ext_capab := None |}.

Definition is_wpa_ie (buf : list Z) (pos : Z) : res bool :=
  l ← rd buf (pos + 1);
  if 6 <=? l then
    v ← RSN_SELECTOR_GET buf (pos + 2);
    if v =? WPA_OUI_TYPE then
      v0 ← rd buf (pos + 2 + WPA_SELECTOR_LEN);
      if v0 =? 1 then v1 ← rd buf (pos + 2 + WPA_SELECTOR_LEN + 1); mret (v1 =? 0)
      else mret false
    else mret false
  else mret false.

Definition wpa_parse_generic (buf : list Z) (pos end_ : Z) (ie : Eie.wpa_eapol_ie_parse)
    : res (Z * Eie.wpa_eapol_ie_parse) :=
  l ← rd buf (pos + 1);
  if l =? 0 then mret (1, ie)
  else
    b ← is_wpa_ie buf pos;
    if b : bool then mret (0, ie <| Eie.wpa_ie := Some (pos, l + 2) |>)
    else
      let body := pos + 2 + RSN_SELECTOR_LEN in
      b ← if pos + 1 + RSN_SELECTOR_LEN <? end_
          then is_kde buf pos (RSN_SELECTOR_LEN + PMKID_LEN - 1) RSN_KEY_DATA_PMKID
          else mret false;
      if b : bool then mret (0, ie <| Eie.pmkid := Some body |>)
      else
        b ← is_kde buf pos (RSN_SELECTOR_LEN + 2) RSN_KEY_DATA_GROUPKEY;
        if b : bool then mret (0, ie <| Eie.gtk := Some (body, l - RSN_SELECTOR_LEN) |>)
        else
          b ← is_kde buf pos (RSN_SELECTOR_LEN + 2) RSN_KEY_DATA_MAC_ADDR;
          if b : bool then mret (0, ie <| Eie.mac_addr := Some (body, l - RSN_SELECTOR_LEN) |>)
          else
            b ← is_kde buf pos (RSN_SELECTOR_LEN + 2) RSN_KEY_DATA_IGTK;
            if b : bool then mret (0, ie <| Eie.igtk := Some (body, l - RSN_SELECTOR_LEN) |>)
            else mret (0, ie).

(** What one element that is not vendor specific is noted as. *)
Definition note_element (buf : list Z) (pos id l : Z) (ie : Eie.wpa_eapol_ie_parse)
    : res Eie.wpa_eapol_ie_parse :=
  let here := Some (pos, l + 2) in
  if id =? WLAN_EID_RSN then mret (ie <| Eie.rsn_ie := here |>)
  else if id =? WLAN_EID_MOBILITY_DOMAIN then mret (ie <| Eie.mdie := here |>)
  else if id =? WLAN_EID_FAST_BSS_TRANSITION then mret (ie <| Eie.ftie := here |>)
  else if (id =? WLAN_EID_TIMEOUT_INTERVAL) && (5 <=? l) then
    t ← rd buf (pos + 2);
    mret (if t =? WLAN_TIMEOUT_REASSOC_DEADLINE then ie <| Eie.reassoc_deadline := Some pos |>
          else if t =? WLAN_TIMEOUT_KEY_LIFETIME then ie <| Eie.key_lifetime := Some pos |>
          else ie)
  else if id =? WLAN_EID_LINK_ID then mret (ie <| Eie.lnkid := here |>)
  else if id =? WLAN_EID_EXT_CAPAB then mret (ie <| Eie.ext_capab := here |>)
  else mret ie.

(** The [for] loop; [len] octets of fuel are enough, since [pos] grows by 2 at
    least. *)
Fixpoint parse_ies_loop (fuel : nat) (buf : list Z) (len pos : Z) (ie : Eie.wpa_eapol_ie_parse)
    : res (Z * Eie.wpa_eapol_ie_parse) :=
  match fuel with
  | O => Fault OutOfFuel
  | S fuel =>
      if pos + 1 <? len then
        id ← rd buf pos;
        l ← rd buf (pos + 1);
        if (id =? 221) && ((pos =? len - 1) || (l =? 0)) then mret (0, ie)
        else if len <? pos + 2 + l then mret (-1, ie)
        else if id =? WLAN_EID_VENDOR_SPECIFIC then
          '(ret, ie) ← wpa_parse_generic buf pos len ie;
          if ret <? 0 then mret (ret, ie)
          else if 0 <? ret then mret (0, ie)
          else parse_ies_loop fuel buf len (pos + (2 + l)) ie
        else
          ie ← note_element buf pos id l ie;
          parse_ies_loop fuel buf len (pos + (2 + l)) ie
      else mret (0, ie)
  end.

Definition wpa_supplicant_parse_ies (buf : list Z) (len : Z) : res (Z * Eie.wpa_eapol_ie_parse) :=
  parse_ies_loop (S (Z.to_nat len)) buf len 0 eie_zero.
