(* ===== verification/WpaSupp.v ===== *)
(** * rsn_supp/wpa.c: the WPA supplicant

    The station's end of the 4-way and of the group key handshake: what is done
    with an EAPOL-Key frame ([wpa_sm_rx_eapol]), the answers, the keys given to the
    driver, and the interface to wpa_supplicant.  [key], a pointer into the copy
    of the frame, is the copy itself with the offsets of WpaCommon.v. *)

From S2P Require Import Prelude CommonUtils WpaCommon WpaSuppI WpaSuppPmksa WpaSuppIe.

Definition IEEE802_1X_TYPE_EAPOL_START : Z := 1.
Definition ETH_P_EAPOL : Z := 34958.
Definition WPA_KEY_INFO_KEY_INDEX_MASK : Z := Z.lor (BIT 4) (BIT 5).
Definition WPA_KEY_INFO_TXRX : Z := BIT 6.

Definition is_zero_ether_addr (a : list Z) : bool := forallb (fun b => b =? 0) a.

(** The key data of a frame, and all that is behind it in the buffer. *)
Definition key_data (key : list Z) : list Z := drop (Z.to_nat o_key_data) key.

Section supplicant.
Context {cr : Crypto} {un : KeyUnwrap} {h : Host}.

(** ** wpa_i.h: the callbacks *)
Definition wpa_sm_set_state (state : wpa_states) (s : sst) : sst := say (SSetState state) s.
Definition wpa_sm_get_state (s : sst) : wpa_states * sst :=
  let s := say SGetState s in (get_state (slg s), s).
Definition wpa_sm_set_key (alg : wpa_alg) (addr : option (list Z)) (key_idx set_tx : Z)
    (seq key : list Z) (s : sst) : Z * sst :=
  let s := say (SSetKey alg addr key_idx set_tx seq key) s in (set_key (slg s), s).
Definition wpa_sm_get_network_ctx (s : sst) : option nat * sst :=
  let s := say SGetNetworkCtx s in (get_network_ctx (slg s), s).
Definition wpa_sm_get_bssid (s : sst) : Z * list Z * sst :=
  let s := say SGetBssid s in (get_bssid (slg s), s).
Definition wpa_sm_mlme_setprotection (protect_type : Z) (addr : list Z) (s : sst) : sst :=
  say (SSetProtection addr protect_type MLME_SETPROTECTION_KEY_TYPE_PAIRWISE) s.
Definition wpa_sm_cancel_auth_timeout (s : sst) : sst := say SCancelAuthTimeout s.
Definition wpa_sm_ether_send (dest : list Z) (proto : Z) (msg : list Z) (s : sst) : sst :=
  say (SEtherSend dest proto msg) s.

(** [wpa_alloc_eapol] (wpas_glue.c) with [data] NULL. *)
Definition wpa_sm_alloc_eapol (type data_len : Z) (s : sst) : option (list Z) * sst :=
  let data_len := u16 data_len in
  let '(ok, s) := os_malloc (sizeof_ieee802_1x_hdr + data_len) s in
  if ok then
    (Some ([u8 eapol_version; type] ++ WPA_PUT_BE16 data_len ++ replicate (Z.to_nat data_len) 0), s)
  else (None, s).

(** ** Sending EAPOL-Key frames *)

(** [dest] is [None] when the pointer is to [sm->bssid]; [mic]: [key_mic] is not
    NULL. *)
Definition wpa_eapol_key_send (kck : list Z) (ver : Z) (dest : option (list Z)) (proto : Z)
    (msg : list Z) (mic : bool) (s : sst) : res sst :=
  let value (dest : option (list Z)) (s : sst) :=
    match dest with None => Sup.bssid (su s) | Some d => d end in
  let '(dest, s) :=
    if is_zero_ether_addr (value dest s) && is_zero_ether_addr (Sup.bssid (su s)) then
      let '((r, d), s) := wpa_sm_get_bssid s in
      let s := s <| su; Sup.bssid := d |> in
      (if r <? 0 then dest else None, s)
    else (dest, s) in
  let send (msg : list Z) :=
    mret (say SNotifyTx (wpa_sm_ether_send (value dest s) proto msg s)) in
  if mic then
    match wpa_eapol_key_mic kck ver msg with
    | None => mret s
    | Some m => msg ← wr_n msg o_key_mic m; send msg
    end
  else send msg.

(** The fields every answer has. *)
Definition put_reply (m : Sup.wpa_sm) (key_info : Z) (key_length replay_counter data msg : list Z)
    : res (list Z) :=
  msg ← wr msg o_type (if Sup.proto m =? WPA_PROTO_RSN then EAPOL_KEY_TYPE_RSN
                       else EAPOL_KEY_TYPE_WPA);
  msg ← wr_n msg o_key_info (WPA_PUT_BE16 key_info);
  msg ← wr_n msg o_key_length key_length;
  msg ← wr_n msg o_replay_counter replay_counter;
  msg ← wr_n msg o_key_data_length (WPA_PUT_BE16 (zlen data));
  wr_n msg o_key_data data.

Definition request_ver (m : Sup.wpa_sm) : Z :=
  if wpa_key_mgmt_sha256 (Sup.key_mgmt m) then WPA_KEY_INFO_TYPE_AES_128_CMAC
  else if Sup.pairwise_cipher m =? WPA_CIPHER_CCMP then WPA_KEY_INFO_TYPE_HMAC_SHA1_AES
  else WPA_KEY_INFO_TYPE_HMAC_MD5_RC4.

Definition wpa_sm_key_request (error pairwise : bool) (s : sst) : res sst :=
  let ver := request_ver (su s) in
  let '((r, bssid), s) := wpa_sm_get_bssid s in
  if r <? 0 then mret s
  else
    let '(rbuf, s) := wpa_sm_alloc_eapol IEEE802_1X_TYPE_EAPOL_KEY sizeof_wpa_eapol_key s in
    match rbuf with
    | None => mret s
    | Some rbuf =>
        let key_info := Z.lor WPA_KEY_INFO_REQUEST ver in
        let key_info := if Sup.ptk_set (su s) then Z.lor key_info WPA_KEY_INFO_MIC else key_info in
        let key_info := if error then Z.lor key_info WPA_KEY_INFO_ERROR else key_info in
        let key_info := if pairwise then Z.lor key_info WPA_KEY_INFO_KEY_TYPE else key_info in
        rbuf ← put_reply (su s) key_info (WPA_PUT_BE16 0) (Sup.request_counter (su s)) [] rbuf;
        c ← inc_byte_array (Sup.request_counter (su s)) (Z.to_nat WPA_REPLAY_COUNTER_LEN);
        let s := s <| su; Sup.request_counter := c |> in
        wpa_eapol_key_send (kck (Sup.ptk (su s))) ver (Some bssid) ETH_P_EAPOL rbuf
          (has_bits key_info WPA_KEY_INFO_MIC) s
    end.

Definition wpa_sm_rekey_ptk (s : sst) : res sst :=
  wpa_sm_key_request false true (say (SFire wpa_sm_rekey_ptk_) s).

(** The key length of an answer: 0, or the one of the frame answered. *)
Definition reply_key_length (m : Sup.wpa_sm) (key : list Z) : res (list Z) :=
  if Sup.proto m =? WPA_PROTO_RSN then mret (WPA_PUT_BE16 0) else rd_n key o_key_length 2.

Definition wpa_supplicant_send_2_of_4 (dst : option (list Z)) (key : list Z) (ver : Z)
    (nonce : list Z) (wpa_ie : option (list Z)) (wpa_ie_len : Z) (ptk : list Z) (s : sst)
    : res (Z * sst) :=
  match wpa_ie with
  | None => mret (-1, s)
  | Some wpa_ie =>
      let '(rbuf, s) := wpa_sm_alloc_eapol IEEE802_1X_TYPE_EAPOL_KEY
                          (sizeof_wpa_eapol_key + wpa_ie_len) s in
      match rbuf with
      | None => mret (-1, s)
      | Some rbuf =>
          let key_info := Z.lor (Z.lor ver WPA_KEY_INFO_KEY_TYPE) WPA_KEY_INFO_MIC in
          key_length ← reply_key_length (su s) key;
          replay_counter ← rd_n key o_replay_counter WPA_REPLAY_COUNTER_LEN;
          ie ← rd_n wpa_ie 0 wpa_ie_len;
          rbuf ← put_reply (su s) key_info key_length replay_counter ie rbuf;
          rbuf ← wr_n rbuf o_key_nonce nonce;
          s ← wpa_eapol_key_send (kck ptk) ver dst ETH_P_EAPOL rbuf true s;
          mret (0, s)
      end
  end.

(** [kde] NULL is the empty list. *)
Definition wpa_supplicant_send_4_of_4 (dst : option (list Z)) (key : list Z) (ver key_info : Z)
    (kde : list Z) (ptk : list Z) (s : sst) : res (Z * sst) :=
  let '(rbuf, s) := wpa_sm_alloc_eapol IEEE802_1X_TYPE_EAPOL_KEY
                      (sizeof_wpa_eapol_key + zlen kde) s in
  match rbuf with
  | None => mret (-1, s)
  | Some rbuf =>
      let key_info := Z.land key_info WPA_KEY_INFO_SECURE in
      let key_info := Z.lor key_info (Z.lor (Z.lor ver WPA_KEY_INFO_KEY_TYPE) WPA_KEY_INFO_MIC) in
      key_length ← reply_key_length (su s) key;
      replay_counter ← rd_n key o_replay_counter WPA_REPLAY_COUNTER_LEN;
      rbuf ← put_reply (su s) key_info key_length replay_counter kde rbuf;
      s ← wpa_eapol_key_send (kck ptk) ver dst ETH_P_EAPOL rbuf true s;
      mret (0, s)
  end.

Definition wpa_supplicant_send_2_of_2 (key : list Z) (ver key_info : Z) (s : sst)
    : res (Z * sst) :=
  let '(rbuf, s) := wpa_sm_alloc_eapol IEEE802_1X_TYPE_EAPOL_KEY sizeof_wpa_eapol_key s in
  match rbuf with
  | None => mret (-1, s)
  | Some rbuf =>
      let key_info := Z.land key_info WPA_KEY_INFO_KEY_INDEX_MASK in
      let key_info := Z.lor key_info (Z.lor (Z.lor ver WPA_KEY_INFO_MIC) WPA_KEY_INFO_SECURE) in
      key_length ← reply_key_length (su s) key;
      replay_counter ← rd_n key o_replay_counter WPA_REPLAY_COUNTER_LEN;
      rbuf ← put_reply (su s) key_info key_length replay_counter [] rbuf;
      s ← wpa_eapol_key_send (kck (Sup.ptk (su s))) ver None ETH_P_EAPOL rbuf true s;
      mret (0, s)
  end.

(** ** The pairwise keys *)

Definition wpa_sm_set_pmk_from_pmksa (s : sst) : res sst :=
  match Sup.cur_pmksa (su s) with
  | Some p =>
      e ← entry_at p (entries s);
      let s := s <| su; Sup.pmk_len := Entry.pmk_len e |> in
      d ← rd_n (Entry.pmk e) 0 (Entry.pmk_len e);
      new ← wr_n (Sup.pmk (su s)) 0 d;
      mret (s <| su; Sup.pmk := new |>)
  | None =>
      let s := s <| su; Sup.pmk_len := PMK_LEN |> in
      mret (s <| su; Sup.pmk := replicate (Z.to_nat PMK_LEN) 0 |>)
  end.

(** The key of the EAPOL machine, of 32 or else of 16 octets, in [sm->pmk]; the
    value returned and the length. *)
Definition fetch_pmk (s : sst) : res (Z * Z * sst) :=
  let s := say (SGetKey PMK_LEN) s in
  let '(r, d) := eapol_sm_get_key (slg s) PMK_LEN in
  if r =? 0 then
    new ← wr_n (Sup.pmk (su s)) 0 d;
    mret (0, PMK_LEN, s <| su; Sup.pmk := new |>)
  else
    let s := say (SGetKey 16) s in
    let '(r, d) := eapol_sm_get_key (slg s) 16 in
    if r =? 0 then
      new ← wr_n (Sup.pmk (su s)) 0 d;
      mret (0, 16, s <| su; Sup.pmk := new |>)
    else mret (r, 16, s).

(** [true]: the PMKID is the one of the current entry. *)
Definition pmkid_is_current (pmkid : option (list Z)) (s : sst) : res bool :=
  match pmkid, Sup.cur_pmksa (su s) with
  | Some id, Some p => e ← entry_at p (entries s); mret (os_memcmp id (Entry.pmkid e) =? 0)
  | _, _ => mret false
  end.

(** The branch without a matching entry: [inl] goes on with [abort_cached],
    [inr] returns. *)
Definition pmk_from_eapol (src_addr : list Z) (pmkid : option (list Z)) (abort_cached : bool)
    (s : sst) : res ((bool + Z) * sst) :=
  '(r, pmk_len, s) ← fetch_pmk s;
  if r =? 0 then
    let s := s <| su; Sup.pmk_len := pmk_len |> in
    s ← if Sup.proto (su s) =? WPA_PROTO_RSN then
          '(_, s) ← pmksa_cache_add (Sup.pmk (su s)) pmk_len src_addr (Sup.own_addr (su s))
                      (Sup.network_ctx (su s)) (Sup.key_mgmt (su s)) s;
          mret s
        else mret s;
    let found := match Sup.cur_pmksa (su s), pmkid with
                 | None, Some _ => match pmksa_cache_get (Some src_addr) pmkid s with
                                   | Some _ => true | None => false end
                 | _, _ => false
                 end in
    mret (inl (if found : bool then false else abort_cached), s)
  else
    match Sup.cur_pmksa (su s) with
    | Some _ => mret (inl true, set_cur None s)
    | None => mret (if abort_cached then inl true else inr (-1), s)
    end.

Definition request_full_eap (s : sst) : res (Z * sst) :=
  let '(buf, s) := wpa_sm_alloc_eapol IEEE802_1X_TYPE_EAPOL_START 0 s in
  mret match buf with
       | Some buf => (-2, wpa_sm_ether_send (Sup.bssid (su s)) ETH_P_EAPOL buf s)
       | None => (-1, s)
       end.

Definition wpa_supplicant_get_pmk (src_addr : list Z) (pmkid : option (list Z)) (s : sst)
    : res (Z * sst) :=
  let '(abort_cached, s) :=
    match pmkid, Sup.cur_pmksa (su s) with
    | Some _, None =>
        let cur := pmksa_cache_get (Some src_addr) pmkid s in
        (match cur with Some _ => false | None => true end, set_cur cur s)
    | _, _ => (false, s)
    end in
  current ← pmkid_is_current pmkid s;
  '(next, s) ← if current : bool then
                 s ← wpa_sm_set_pmk_from_pmksa s;
                 mret (inl abort_cached, say SNotifyCached s)
               else if wpa_key_mgmt_wpa_ieee8021x (Sup.key_mgmt (su s)) &&
                       bool_decide (is_Some (Sup.eapol (su s))) then
                 pmk_from_eapol src_addr pmkid abort_cached s
               else mret (inl abort_cached, s);
  match next with
  | inr r => mret (r, s)
  | inl abort_cached =>
      if abort_cached && wpa_key_mgmt_wpa_ieee8021x (Sup.key_mgmt (su s)) then request_full_eap s
      else mret (0, s)
  end.

Definition wpa_derive_ptk (key : list Z) (s : sst) : res (list Z) :=
  let ptk_len := if Sup.pairwise_cipher (su s) =? WPA_CIPHER_CCMP then 48 else 64 in
  pmk ← rd_n (Sup.pmk (su s)) 0 (Sup.pmk_len (su s));
  key_nonce ← rd_n key o_key_nonce WPA_NONCE_LEN;
  mret match wpa_pmk_to_ptk pmk "Pairwise key expansion" (Sup.own_addr (su s))
               (Sup.bssid (su s)) (Sup.snonce (su s)) key_nonce ptk_len
               (wpa_key_mgmt_sha256 (Sup.key_mgmt (su s))) with
       | Some d => copy_front (Sup.tptk (su s)) d
       | None => copy_front (Sup.tptk (su s)) (uninit (slg s) ptk_len)
       end.

(** [u.auth.tx_mic_key] and [u.auth.rx_mic_key] change places. *)
Definition swap_mic_keys (ptk : list Z) : list Z :=
  take 48 ptk ++ take 8 (drop 56 ptk) ++ take 8 (drop 48 ptk).

(** The PMKID of message 1/4. *)
Definition msg1_pmkid (m : Sup.wpa_sm) (key : list Z) : res (option (list Z)) :=
  if Sup.proto m =? WPA_PROTO_RSN then
    len ← WPA_GET_BE16 key o_key_data_length;
    '(_, ie) ← wpa_supplicant_parse_ies (key_data key) len;
    match Eie.pmkid ie with
    | Some p => d ← rd_n (key_data key) p PMKID_LEN; mret (Some d)
    | None => mret None
    end
  else mret None.

(** A new SNonce; [false]: no random data. *)
Definition renew (s : sst) : bool * sst :=
  if Sup.renew_snonce (su s) then
    let s := say (SRandom WPA_NONCE_LEN) s in
    let '(r, d) := random_get_bytes (slg s) WPA_NONCE_LEN in
    let s := s <| su; Sup.snonce := d |> in
    if negb (r =? 0) then (false, s) else (true, s <| su; Sup.renew_snonce := false |>)
  else (true, s).

(** [failed:] *)
Definition failed (s : sst) : res sst := wpa_sm_deauthenticate WLAN_REASON_UNSPECIFIED s.

Definition wpa_supplicant_process_1_of_4 (src_addr key : list Z) (ver : Z) (s : sst) : res sst :=
  let '(ctx, s) := wpa_sm_get_network_ctx s in
  match ctx with
  | None => mret s
  | Some _ =>
      let s := wpa_sm_set_state WPA_4WAY_HANDSHAKE s in
      pmkid ← msg1_pmkid (su s) key;
      '(res, s) ← wpa_supplicant_get_pmk src_addr pmkid s;
      if res =? -2 then mret s
      else if negb (res =? 0) then failed s
      else
        let '(ok, s) := renew s in
        if negb ok then failed s
        else
          ptk ← wpa_derive_ptk key s;
          let ptk := swap_mic_keys ptk in
          let s := s <| su; Sup.tptk := ptk |> in
          let s := s <| su; Sup.tptk_set := true |> in
          '(r, s) ← wpa_supplicant_send_2_of_4 None key ver (Sup.snonce (su s))
                      (Sup.assoc_wpa_ie (su s)) (Sup.assoc_wpa_ie_len (su s)) ptk s;
          if negb (r =? 0) then failed s
          else
            anonce ← rd_n key o_key_nonce WPA_NONCE_LEN;
            mret (s <| su; Sup.anonce := anonce |>)
  end.

(** ** Installing keys *)

Definition clear_opportunistic (e : Entry.rsn_pmksa_cache_entry) : Entry.rsn_pmksa_cache_entry :=
  e <| Entry.opportunistic := 0 |>.

Definition wpa_supplicant_key_neg_complete (addr : list Z) (secure : bool) (s : sst) : res sst :=
  let s := wpa_sm_cancel_auth_timeout s in
  let s := wpa_sm_set_state WPA_COMPLETED s in
  let s := if secure then
             let s := wpa_sm_mlme_setprotection MLME_SETPROTECTION_PROTECT_TYPE_RX_TX addr s in
             let s := say (SPortValid true) s in
             let s := if wpa_key_mgmt_wpa_psk (Sup.key_mgmt (su s))
                      then say (SEapSuccess true) s else s in
             say (SRegister 1 wpa_sm_start_preauth_) s
           else s in
  match Sup.cur_pmksa (su s) with
  | Some p =>
      e ← entry_at p (entries s);
      mret (if negb (Entry.opportunistic e =? 0)
            then set_entries (update_entry p clear_opportunistic (entries s)) s else s)
  | None => mret s
  end.

Definition wpa_supplicant_install_ptk (key : list Z) (s : sst) : res (Z * sst) :=
  let cipher := Sup.pairwise_cipher (su s) in
  let go (alg : wpa_alg) (keylen rsclen : Z) :=
    key_rsc ← if Sup.proto (su s) =? WPA_PROTO_RSN then mret (replicate (Z.to_nat rsclen) 0)
              else rd_n key o_key_rsc rsclen;
    k ← rd_n (Sup.ptk (su s)) 32 keylen;
    let '(r, s) := wpa_sm_set_key alg (Some (Sup.bssid (su s))) 0 1 key_rsc k s in
    if r <? 0 then mret (-1, s)
    else if negb (Sup.wpa_ptk_rekey (su s) =? 0) then
      let s := say (SCancel wpa_sm_rekey_ptk_) s in
      mret (0, say (SRegister (Sup.wpa_ptk_rekey (su s)) wpa_sm_rekey_ptk_) s)
    else mret (0, s) in
  if cipher =? WPA_CIPHER_CCMP then go WPA_ALG_CCMP 16 6
  else if cipher =? WPA_CIPHER_TKIP then go WPA_ALG_TKIP 32 6
  else if cipher =? WPA_CIPHER_NONE then mret (0, s)
  else mret (-1, s).

(** [key_rsc_len] and [alg], or [None] for [-1]. *)
Definition wpa_supplicant_check_group_cipher (group_cipher keylen maxkeylen : Z)
    : option (Z * wpa_alg) :=
  let check (len rsc_len : Z) (alg : wpa_alg) :=
    if negb (keylen =? len) || (maxkeylen <? len) then None else Some (rsc_len, alg) in
  if group_cipher =? WPA_CIPHER_CCMP then check 16 6 WPA_ALG_CCMP
  else if group_cipher =? WPA_CIPHER_TKIP then check 32 6 WPA_ALG_TKIP
  else if group_cipher =? WPA_CIPHER_WEP104 then check 13 0 WPA_ALG_WEP
  else if group_cipher =? WPA_CIPHER_WEP40 then check 5 0 WPA_ALG_WEP
  else None.

#[projections(primitive)]
Record wpa_gtk_data := {
  alg : wpa_alg;
  tx : Z;
  key_rsc_len : Z;
  keyidx : Z;
  gtk : list Z;
  gtk_len : Z;
}.
Definition gd_zero : wpa_gtk_data := {|
  alg := WPA_ALG_NONE; tx := 0; key_rsc_len := 0; keyidx := 0; gtk := replicate 32 0; gtk_len := 0 |}.

(** [key] is the frame, of which [key_rsc] is a field. *)
Definition wpa_supplicant_install_gtk (gd : wpa_gtk_data) (key : list Z) (s : sst)
    : res (Z * sst) :=
  let _gtk := if Sup.group_cipher (su s) =? WPA_CIPHER_TKIP
              then take 16 (gtk gd) ++ take 8 (drop 24 (gtk gd)) ++ take 8 (drop 16 (gtk gd))
              else gtk gd in
  seq ← rd_n key o_key_rsc (key_rsc_len gd);
  k ← rd_n _gtk 0 (gtk_len gd);
  let '(r, s) :=
    if Sup.pairwise_cipher (su s) =? WPA_CIPHER_NONE
    then wpa_sm_set_key (alg gd) None (keyidx gd) 1 seq k s
    else wpa_sm_set_key (alg gd) (Some broadcast_ether_addr) (keyidx gd) (tx gd) seq k s in
  mret (if r <? 0 then -1 else 0, s).

Definition wpa_supplicant_gtk_tx_bit_workaround (m : Sup.wpa_sm) (tx : bool) : Z :=
  if tx && negb (Sup.pairwise_cipher m =? WPA_CIPHER_NONE) then 0 else if tx then 1 else 0.

(** [gtk] and [gtk_len]: the body of the GTK KDE. *)
Definition wpa_supplicant_pairwise_gtk (key kde : list Z) (key_info : Z) (s : sst)
    : res (Z * sst) :=
  if (zlen kde <? 2) || (32 <? zlen kde - 2) then mret (-1, s)
  else
    b ← rd kde 0;
    let gd := gd_zero in
    let gd := gd <| keyidx := Z.land b 3 |> in
    let gd := gd <| tx := wpa_supplicant_gtk_tx_bit_workaround (su s) (has_bits b (BIT 2)) |> in
    let len := zlen kde - 2 in
    d ← rd_n kde 2 len;
    new ← wr_n (gtk gd) 0 d;
    let gd := gd <| gtk := new |> in
    let gd := gd <| gtk_len := len |> in
    match wpa_supplicant_check_group_cipher (Sup.group_cipher (su s)) len len with
    | None => mret (-1, s)
    | Some (rsc_len, a) =>
        let gd := gd <| key_rsc_len := rsc_len |> in
        let gd := gd <| alg := a |> in
        '(r, s) ← wpa_supplicant_install_gtk gd key s;
        if negb (r =? 0) then mret (-1, s)
        else
          s ← wpa_supplicant_key_neg_complete (Sup.bssid (su s))
                (has_bits key_info WPA_KEY_INFO_SECURE) s;
          mret (0, s)
    end.

Definition sizeof_wpa_igtk_kde : Z := 24.

(** [kd]: the key data, into which [igtk] points. *)
Definition ieee80211w_set_keys (kd : list Z) (ie : Eie.wpa_eapol_ie_parse) (s : sst)
    : res (Z * sst) :=
  if negb (Sup.mgmt_group_cipher (su s) =? WPA_CIPHER_AES_128_CMAC) then mret (0, s)
  else
    match Eie.igtk ie with
    | None => mret (0, s)
    | Some (igtk, igtk_len) =>
        if negb (igtk_len =? sizeof_wpa_igtk_kde) then mret (-1, s)
        else
          keyidx ← WPA_GET_LE16 kd igtk;
          if 4095 <? keyidx then mret (-1, s)
          else
            pn ← rd_n kd (igtk + 2) 6;
            k ← rd_n kd (igtk + 8) WPA_IGTK_LEN;
            let '(r, s) := wpa_sm_set_key WPA_ALG_IGTK (Some broadcast_ether_addr) keyidx 0 pn k s in
            mret (if r <? 0 then -1 else 0, s)
    end.

(** ** The elements of the access point *)

(** [os_free(p); p = NULL or a copy]: what is stored, or [None] when memory is
    short. *)
Definition copy_ie (ie : option (list Z)) (len : Z) (s : sst)
    : res (option (option (list Z) * Z) * sst) :=
  match ie with
  | Some ie =>
      if len =? 0 then mret (Some (None, 0), s)
      else
        let '(ok, s) := os_malloc len s in
        if negb ok then mret (None, s) else d ← rd_n ie 0 len; mret (Some (Some d, len), s)
  | None => mret (Some (None, 0), s)
  end.

Definition wpa_sm_set_assoc_wpa_ie (ie : option (list Z)) (len : Z) (s : sst) : res (Z * sst) :=
  '(r, s) ← copy_ie ie len s;
  mret match r with
       | Some (p, n) => (0, s <| su; Sup.assoc_wpa_ie := p |> <| su; Sup.assoc_wpa_ie_len := n |>)
       | None => (-1, s <| su; Sup.assoc_wpa_ie := None |>)
       end.
Definition wpa_sm_set_ap_wpa_ie (ie : option (list Z)) (len : Z) (s : sst) : res (Z * sst) :=
  '(r, s) ← copy_ie ie len s;
  mret match r with
       | Some (p, n) => (0, s <| su; Sup.ap_wpa_ie := p |> <| su; Sup.ap_wpa_ie_len := n |>)
       | None => (-1, s <| su; Sup.ap_wpa_ie := None |>)
       end.
Definition wpa_sm_set_ap_rsn_ie (ie : option (list Z)) (len : Z) (s : sst) : res (Z * sst) :=
  '(r, s) ← copy_ie ie len s;
  mret match r with
       | Some (p, n) => (0, s <| su; Sup.ap_rsn_ie := p |> <| su; Sup.ap_rsn_ie_len := n |>)
       | None => (-1, s <| su; Sup.ap_rsn_ie := None |>)
       end.

(** wpas_glue.c: the element with the length its second octet says. *)
Definition ie_len (ie : option (list Z)) : res Z :=
  match ie with Some ie => l ← rd ie 1; mret (2 + l) | None => mret 0 end.

Definition wpa_get_beacon_ie (s : sst) : res (Z * sst) :=
  let s := say SScanResults s in
  match scan_results (slg s) with
  | Some (wpa_ie, rsn_ie) =>
      len ← ie_len wpa_ie;
      '(r1, s) ← wpa_sm_set_ap_wpa_ie wpa_ie len s;
      len ← ie_len rsn_ie;
      '(r2, s) ← wpa_sm_set_ap_rsn_ie rsn_ie len s;
      mret (if negb (r1 =? 0) || negb (r2 =? 0) then -1 else 0, s)
  | None => mret (-1, s)
  end.

Definition wpa_supplicant_get_beacon_ie (s : sst) : res (Z * sst) :=
  '(r, s) ← wpa_get_beacon_ie s;
  if r =? 0 then mret (0, s)
  else
    let s := say SUpdateScan s in
    if update_scan_results (slg s) <? 0 then mret (-1, s) else wpa_get_beacon_ie s.

(** The octets a parsed pointer stands for. *)
Definition ie_at (kd : list Z) (p : option (Z * Z)) : res (option (list Z)) :=
  match p with Some (o, l) => d ← rd_n kd o l; mret (Some d) | None => mret None end.

Definition stored_ie (ie : option (list Z)) (len : Z) : res (option (list Z)) :=
  match ie with Some ie => d ← rd_n ie 0 len; mret (Some d) | None => mret None end.

Definition is_some {A} (x : option A) : bool := match x with Some _ => true | None => false end.

Definition differs (a b : option (list Z)) : bool :=
  match a, b with
  | Some a, Some b => negb (zlen a =? zlen b) || negb (os_memcmp a b =? 0)
  | _, _ => false
  end.

Definition wpa_report_ie_mismatch (s : sst) : res sst :=
  wpa_sm_disassociate WLAN_REASON_IE_IN_4WAY_DIFFERS s.

Definition wpa_supplicant_validate_ie (kd : list Z) (ie : Eie.wpa_eapol_ie_parse) (s : sst)
    : res (Z * sst) :=
  s ← if negb (is_some (Sup.ap_wpa_ie (su s))) && negb (is_some (Sup.ap_rsn_ie (su s))) then
        '(_, s) ← wpa_supplicant_get_beacon_ie s; mret s
      else mret s;
  wpa_ie ← ie_at kd (Eie.wpa_ie ie);
  rsn_ie ← ie_at kd (Eie.rsn_ie ie);
  ap_wpa ← stored_ie (Sup.ap_wpa_ie (su s)) (Sup.ap_wpa_ie_len (su s));
  ap_rsn ← stored_ie (Sup.ap_rsn_ie (su s)) (Sup.ap_rsn_ie_len (su s));
  if negb (is_some wpa_ie) && negb (is_some rsn_ie) && (is_some ap_wpa || is_some ap_rsn) then
    s ← wpa_report_ie_mismatch s; mret (-1, s)
  else if differs wpa_ie ap_wpa ||
          (is_some rsn_ie && is_some ap_rsn && negb (wpa_compare_rsn_ie ap_rsn rsn_ie =? 0)) then
    s ← wpa_report_ie_mismatch s; mret (-1, s)
  else if (Sup.proto (su s) =? WPA_PROTO_WPA) && is_some rsn_ie && negb (is_some ap_rsn) &&
          negb (Sup.rsn_enabled (su s) =? 0) then
    s ← wpa_report_ie_mismatch s; mret (-1, s)
  else mret (0, s).

(** ** Message 3/4 *)

(** The tests before message 4/4 is sent. *)
Definition kde_in_clear (key_info : Z) (ie : Eie.wpa_eapol_ie_parse) : bool :=
  (is_some (Eie.gtk ie) || is_some (Eie.igtk ie)) &&
  negb (has_bits key_info WPA_KEY_INFO_ENCR_KEY_DATA).
Definition bad_igtk_len (ie : Eie.wpa_eapol_ie_parse) : bool :=
  match Eie.igtk ie with Some (_, l) => negb (l =? sizeof_wpa_igtk_kde) | None => false end.
Definition bad_key_length (cipher keylen : Z) : bool :=
  if cipher =? WPA_CIPHER_CCMP then negb (keylen =? 16)
  else if cipher =? WPA_CIPHER_TKIP then negb (keylen =? 32)
  else false.

(** The port is opened and the group keys are installed; [false]: failed. *)
Definition open_and_install_group (key : list Z) (key_info : Z) (ie : Eie.wpa_eapol_ie_parse)
    (s : sst) : res (bool * sst) :=
  let s := if has_bits key_info WPA_KEY_INFO_SECURE then
             let s := wpa_sm_mlme_setprotection MLME_SETPROTECTION_PROTECT_TYPE_RX
                        (Sup.bssid (su s)) s in
             say (SPortValid true) s
           else s in
  let s := wpa_sm_set_state WPA_GROUP_HANDSHAKE s in
  gtk ← ie_at (key_data key) (Eie.gtk ie);
  '(r, s) ← match gtk with
            | Some kde => wpa_supplicant_pairwise_gtk key kde key_info s
            | None => mret (0, s)
            end;
  if r <? 0 then mret (false, s)
  else
    '(r, s) ← ieee80211w_set_keys (key_data key) ie s;
    mret (negb (r <? 0), s).

(** What follows message 4/4. *)
Definition wpa_supplicant_finish_3_of_4 (key : list Z) (key_info : Z) (ie : Eie.wpa_eapol_ie_parse)
    (s : sst) : res (bool * sst) :=
  let s := s <| su; Sup.renew_snonce := true |> in
  '(r, s) ← if has_bits key_info WPA_KEY_INFO_INSTALL then wpa_supplicant_install_ptk key s
            else mret (0, s);
  if negb (r =? 0) then mret (false, s)
  else open_and_install_group key key_info ie s.

Definition wpa_supplicant_process_3_of_4 (key : list Z) (ver : Z) (s : sst) : res sst :=
  let s := wpa_sm_set_state WPA_4WAY_HANDSHAKE s in
  key_info ← WPA_GET_BE16 key o_key_info;
  len ← WPA_GET_BE16 key o_key_data_length;
  '(_, ie) ← wpa_supplicant_parse_ies (key_data key) len;
  if kde_in_clear key_info ie || bad_igtk_len ie then failed s
  else
    '(r, s) ← wpa_supplicant_validate_ie (key_data key) ie s;
    if r <? 0 then failed s
    else
      key_nonce ← rd_n key o_key_nonce WPA_NONCE_LEN;
      if negb (os_memcmp (Sup.anonce (su s)) key_nonce =? 0) then failed s
      else
        keylen ← WPA_GET_BE16 key o_key_length;
        if bad_key_length (Sup.pairwise_cipher (su s)) keylen then failed s
        else
          '(r, s) ← wpa_supplicant_send_4_of_4 None key ver key_info [] (Sup.ptk (su s)) s;
          if negb (r =? 0) then failed s
          else
            '(ok, s) ← wpa_supplicant_finish_3_of_4 key key_info ie s;
            if ok : bool then mret s else failed s.

(** ** The group key handshake *)

(** [gd], or [None] for [-1]. *)
Definition wpa_supplicant_process_1_of_2_rsn (key : list Z) (keydatalen key_info : Z) (s : sst)
    : res (option wpa_gtk_data * sst) :=
  let kd := key_data key in
  '(_, ie) ← wpa_supplicant_parse_ies kd keydatalen;
  if is_some (Eie.gtk ie) && negb (has_bits key_info WPA_KEY_INFO_ENCR_KEY_DATA)
  then mret (None, s)
  else
    match Eie.gtk ie with
    | None => mret (None, s)
    | Some (p, l) =>
        let gd := gd_zero in
        let maxkeylen := l - 2 in
        let gd := gd <| gtk_len := l - 2 |> in
        match wpa_supplicant_check_group_cipher (Sup.group_cipher (su s)) (gtk_len gd) maxkeylen with
        | None => mret (None, s)
        | Some (rsc_len, a) =>
            let gd := gd <| key_rsc_len := rsc_len |> in
            let gd := gd <| alg := a |> in
            b ← rd kd p;
            let gd := gd <| keyidx := Z.land b 3 |> in
            let gd := gd <| tx :=
                wpa_supplicant_gtk_tx_bit_workaround (su s) (has_bits b (BIT 2)) |> in
            if 32 <? l - 2 then mret (None, s)
            else
              d ← rd_n kd (p + 2) (l - 2);
              new ← wr_n (gtk gd) 0 d;
              let gd := gd <| gtk := new |> in
              '(_, s) ← ieee80211w_set_keys kd ie s;
              mret (Some gd, s)
        end
    end.

Definition wpa_supplicant_process_1_of_2_wpa (key : list Z) (keydatalen key_info extra_len ver : Z)
    (s : sst) : res (option wpa_gtk_data * sst) :=
  let gd := gd_zero in
  klen ← WPA_GET_BE16 key o_key_length;
  let gd := gd <| gtk_len := klen |> in
  let maxkeylen := keydatalen in
  if extra_len <? keydatalen then mret (None, s)
  else if (ver =? WPA_KEY_INFO_TYPE_HMAC_SHA1_AES) && (maxkeylen <? 8) then mret (None, s)
  else
    let maxkeylen := if ver =? WPA_KEY_INFO_TYPE_HMAC_SHA1_AES then maxkeylen - 8 else maxkeylen in
    match wpa_supplicant_check_group_cipher (Sup.group_cipher (su s)) (gtk_len gd) maxkeylen with
    | None => mret (None, s)
    | Some (rsc_len, a) =>
        let gd := gd <| key_rsc_len := rsc_len |> in
        let gd := gd <| alg := a |> in
        let gd := gd <| keyidx := Z.shiftr (Z.land key_info WPA_KEY_INFO_KEY_INDEX_MASK)
                                    WPA_KEY_INFO_KEY_INDEX_SHIFT |> in
        new ← if ver =? WPA_KEY_INFO_TYPE_HMAC_MD5_RC4 then
                iv ← rd_n key o_key_iv 16;
                let ek := iv ++ kek (Sup.ptk (su s)) in
                if 32 <? keydatalen then mret None
                else
                  d ← rd_n (key_data key) 0 keydatalen;
                  new ← wr_n (gtk gd) 0 (rc4_skip ek 256 d);
                  mret (Some new)
              else if ver =? WPA_KEY_INFO_TYPE_HMAC_SHA1_AES then
                if negb (keydatalen mod 8 =? 0) then mret None
                else if 32 <? maxkeylen then mret None
                else
                  d ← rd_n (key_data key) 0 (8 * (maxkeylen / 8 + 1));
                  match aes_unwrap (kek (Sup.ptk (su s))) d with
                  | None => mret None
                  | Some p => new ← wr_n (gtk gd) 0 p; mret (Some new)
                  end
              else mret None;
        match new with
        | None => mret (None, s)
        | Some new =>
            let gd := gd <| gtk := new |> in
            let gd := gd <| tx :=
              wpa_supplicant_gtk_tx_bit_workaround (su s) (has_bits key_info WPA_KEY_INFO_TXRX) |> in
            mret (Some gd, s)
        end
    end.

Definition wpa_supplicant_process_1_of_2 (key : list Z) (extra_len ver : Z) (s : sst) : res sst :=
  let '(state, s) := wpa_sm_get_state s in
  let rekey := bool_decide (state = WPA_COMPLETED) in
  key_info ← WPA_GET_BE16 key o_key_info;
  keydatalen ← WPA_GET_BE16 key o_key_data_length;
  '(gd, s) ← if Sup.proto (su s) =? WPA_PROTO_RSN
             then wpa_supplicant_process_1_of_2_rsn key keydatalen key_info s
             else wpa_supplicant_process_1_of_2_wpa key keydatalen key_info extra_len ver s;
  let s := wpa_sm_set_state WPA_GROUP_HANDSHAKE s in
  match gd with
  | None => failed s
  | Some gd =>
      '(r, s) ← wpa_supplicant_install_gtk gd key s;
      if negb (r =? 0) then failed s
      else
        '(r, s) ← wpa_supplicant_send_2_of_2 key ver key_info s;
        if negb (r =? 0) then failed s
        else if rekey then
          let s := wpa_sm_cancel_auth_timeout s in
          mret (wpa_sm_set_state WPA_COMPLETED s)
        else
          wpa_supplicant_key_neg_complete (Sup.bssid (su s))
            (has_bits key_info WPA_KEY_INFO_SECURE) s
  end.

(** ** Receiving a frame *)

(** The MIC of the frame with its field zeroed; nothing is written when it can
    not be computed.  The frame afterwards, and whether it has the MIC it had. *)
Definition try_mic (k mic : list Z) (ver : Z) (frame : list Z) (len : Z) : res (bool * list Z) :=
  frame ← wr_n frame o_key_mic (replicate 16 0);
  d ← rd_n frame 0 len;
  frame ← match wpa_eapol_key_mic k ver d with
          | Some m => wr_n frame o_key_mic m
          | None => mret frame
          end;
  new ← rd_n frame o_key_mic 16;
  mret (os_memcmp mic new =? 0, frame).

(** The PTK that was derived last is in use. *)
Definition use_tptk (s : sst) : sst :=
  let s := s <| su; Sup.tptk_set := false |> in
  let s := s <| su; Sup.ptk_set := true |> in
  s <| su; Sup.ptk := Sup.tptk (su s) |>.

Definition wpa_supplicant_verify_eapol_key_mic (frame : list Z) (ver len : Z) (s : sst)
    : res (Z * list Z * sst) :=
  mic ← rd_n frame o_key_mic 16;
  '(ok, frame, s) ← if Sup.tptk_set (su s) then
                      '(ok, frame) ← try_mic (kck (Sup.tptk (su s))) mic ver frame len;
                      mret (ok, frame, if ok : bool then use_tptk s else s)
                    else mret (false, frame, s);
  '(ok, frame) ← if negb ok && Sup.ptk_set (su s) then
                   try_mic (kck (Sup.ptk (su s))) mic ver frame len
                 else mret (ok, frame);
  if negb ok then mret (-1, frame, s)
  else
    replay_counter ← rd_n frame o_replay_counter WPA_REPLAY_COUNTER_LEN;
    let s := s <| su; Sup.rx_replay_counter := replay_counter |> in
    mret (0, frame, s <| su; Sup.rx_replay_counter_set := true |>).

Definition wpa_supplicant_decrypt_key_data (frame : list Z) (ver : Z) (s : sst)
    : res (Z * list Z * sst) :=
  keydatalen ← WPA_GET_BE16 frame o_key_data_length;
  if negb (Sup.ptk_set (su s)) then mret (-1, frame, s)
  else if ver =? WPA_KEY_INFO_TYPE_HMAC_MD5_RC4 then
    iv ← rd_n frame o_key_iv 16;
    let ek := iv ++ kek (Sup.ptk (su s)) in
    d ← rd_n frame o_key_data keydatalen;
    frame ← wr_n frame o_key_data (rc4_skip ek 256 d);
    mret (0, frame, s)
  else if (ver =? WPA_KEY_INFO_TYPE_HMAC_SHA1_AES) || (ver =? WPA_KEY_INFO_TYPE_AES_128_CMAC) then
    if negb (keydatalen mod 8 =? 0) then mret (-1, frame, s)
    else
      let keydatalen := u16 (keydatalen - 8) in
      let '(ok, s) := os_malloc keydatalen s in
      if negb ok then mret (-1, frame, s)
      else
        d ← rd_n frame o_key_data (8 * (keydatalen / 8 + 1));
        match aes_unwrap (kek (Sup.ptk (su s))) d with
        | None => mret (-1, frame, s)
        | Some p =>
            frame ← wr_n frame o_key_data p;
            frame ← wr_n frame o_key_data_length (WPA_PUT_BE16 keydatalen);
            mret (0, frame, s)
        end
  else mret (-1, frame, s).

(** The tests of the header: what is returned when one fails. *)
Definition rx_header (frame : list Z) (len : Z) : res (option Z) :=
  plen ← WPA_GET_BE16 frame 2;
  type ← rd frame 1;
  if negb (type =? IEEE802_1X_TYPE_EAPOL_KEY) then mret (Some 0)
  else if (len - sizeof_ieee802_1x_hdr <? plen) || (plen <? sizeof_wpa_eapol_key)
  then mret (Some 0)
  else
    ktype ← rd frame o_type;
    mret (if negb (ktype =? EAPOL_KEY_TYPE_WPA) && negb (ktype =? EAPOL_KEY_TYPE_RSN)
          then Some 0 else None).

(** The tests of the descriptor version: [true] lets the frame pass. *)
Definition rx_version (m : Sup.wpa_sm) (key_info : Z) : bool :=
  let ver := Z.land key_info WPA_KEY_INFO_TYPE_MASK in
  if negb (ver =? WPA_KEY_INFO_TYPE_HMAC_MD5_RC4) &&
     negb (ver =? WPA_KEY_INFO_TYPE_AES_128_CMAC) &&
     negb (ver =? WPA_KEY_INFO_TYPE_HMAC_SHA1_AES) then false
  else if wpa_key_mgmt_sha256 (Sup.key_mgmt m) then ver =? WPA_KEY_INFO_TYPE_AES_128_CMAC
  else if (Sup.pairwise_cipher m =? WPA_CIPHER_CCMP) &&
          negb (ver =? WPA_KEY_INFO_TYPE_HMAC_SHA1_AES)
  then negb (Sup.group_cipher m =? WPA_CIPHER_CCMP) &&
       negb (has_bits key_info WPA_KEY_INFO_KEY_TYPE)
  else true.

(** The replay counter, and the flags a request must not have. *)
Definition rx_fresh (m : Sup.wpa_sm) (frame : list Z) (key_info : Z) : res bool :=
  replay_counter ← rd_n frame o_replay_counter WPA_REPLAY_COUNTER_LEN;
  mret (negb (Sup.rx_replay_counter_set m &&
              (os_memcmp replay_counter (Sup.rx_replay_counter m) <=? 0)) &&
        has_bits key_info (Z.lor WPA_KEY_INFO_ACK WPA_KEY_INFO_SMK_MESSAGE) &&
        negb (has_bits key_info WPA_KEY_INFO_REQUEST)).

(** What the frame is: [ret = 1] behind it, or [goto out]. *)
Definition rx_dispatch (src_addr frame : list Z) (key_info ver extra_len : Z) (s : sst)
    : res (Z * sst) :=
  if has_bits key_info WPA_KEY_INFO_KEY_TYPE then
    if has_bits key_info WPA_KEY_INFO_KEY_INDEX_MASK then mret (-1, s)
    else if has_bits key_info WPA_KEY_INFO_MIC then
      s ← wpa_supplicant_process_3_of_4 frame ver s; mret (1, s)
    else s ← wpa_supplicant_process_1_of_4 src_addr frame ver s; mret (1, s)
  else if has_bits key_info WPA_KEY_INFO_SMK_MESSAGE then mret (1, s)
  else if has_bits key_info WPA_KEY_INFO_MIC then
    s ← wpa_supplicant_process_1_of_2 frame extra_len ver s; mret (1, s)
  else mret (1, s).

(** From the length of the key data on. *)
Definition rx_key_data (src_addr frame : list Z) (key_info ver plen : Z) (s : sst)
    : res (Z * sst) :=
  let extra_len := plen - sizeof_wpa_eapol_key in
  keydatalen ← WPA_GET_BE16 frame o_key_data_length;
  if extra_len <? keydatalen then mret (-1, s)
  else
    '(r, frame, s) ← if (Sup.proto (su s) =? WPA_PROTO_RSN) &&
                        has_bits key_info WPA_KEY_INFO_ENCR_KEY_DATA
                     then wpa_supplicant_decrypt_key_data frame ver s
                     else mret (0, frame, s);
    if negb (r =? 0) then mret (-1, s)
    else
      extra_len ← WPA_GET_BE16 frame o_key_data_length;
      rx_dispatch src_addr frame key_info ver extra_len s.

(** [frame]: the copy of the frame, of [len] octets. *)
Definition rx_frame (src_addr frame : list Z) (len : Z) (s : sst) : res (Z * sst) :=
  bad ← rx_header frame len;
  match bad with
  | Some ret => mret (ret, s)
  | None =>
      plen ← WPA_GET_BE16 frame 2;
      let data_len := plen + sizeof_ieee802_1x_hdr in
      let s := say (SLowerLayerSuccess false) s in
      key_info ← WPA_GET_BE16 frame o_key_info;
      let ver := Z.land key_info WPA_KEY_INFO_TYPE_MASK in
      if negb (rx_version (su s) key_info) then mret (-1, s)
      else
        fresh ← rx_fresh (su s) frame key_info;
        if negb fresh then mret (-1, s)
        else
          '(r, frame, s) ← if has_bits key_info WPA_KEY_INFO_MIC
                           then wpa_supplicant_verify_eapol_key_mic frame ver data_len s
                           else mret (0, frame, s);
          if negb (r =? 0) then mret (-1, s)
          else rx_key_data src_addr frame key_info ver plen s
  end.

Definition wpa_sm_rx_eapol (src_addr buf : list Z) (len : Z) (s : sst) : res (Z * sst) :=
  let s := say (SRx src_addr buf) s in
  if len <? sizeof_ieee802_1x_hdr + sizeof_wpa_eapol_key then mret (0, s)
  else
    let '(ok, s) := os_malloc len s in
    if negb ok then mret (-1, s)
    else frame ← rd_n buf 0 len; rx_frame src_addr frame len s.

(** ** The interface *)

Definition wpa_sm_aborted_cached (s : sst) : sst := set_cur None s.

Definition rsn_preauth_deinit (s : sst) : sst :=
  match Sup.preauth_eapol (su s) with
  | None => s
  | Some _ =>
      let s := say SPreauthDeinit (say (SCancel rsn_preauth_timeout_) s) in
      let s := s <| su; Sup.preauth_eapol := None |> in
      s <| su; Sup.preauth_bssid := replicate 6 0 |>
  end.

(** preauth.c is not modelled: what it does then is not the machine's. *)
Definition wpa_sm_start_preauth (s : sst) : sst :=
  say SPreauthCandidates (say (SFire wpa_sm_start_preauth_) s).

Definition wpa_sm_notify_assoc (bssid : list Z) (s : sst) : sst :=
  let s := s <| su; Sup.bssid := bssid |> in
  let s := s <| su; Sup.rx_replay_counter := replicate (Z.to_nat WPA_REPLAY_COUNTER_LEN) 0 |> in
  let s := s <| su; Sup.rx_replay_counter_set := false |> in
  let s := s <| su; Sup.renew_snonce := true |> in
  let s := if os_memcmp (Sup.preauth_bssid (su s)) bssid =? 0 then rsn_preauth_deinit s else s in
  let s := s <| su; Sup.ptk_set := false |> in
  s <| su; Sup.tptk_set := false |>.

Definition wpa_sm_notify_disassoc (s : sst) : sst :=
  let s := rsn_preauth_deinit s in
  let '(state, s) := wpa_sm_get_state s in
  if bool_decide (state = WPA_4WAY_HANDSHAKE) then
    s <| su; Sup.dot11RSNA4WayHandshakeFailures :=
         u32 (Sup.dot11RSNA4WayHandshakeFailures (su s) + 1) |>
  else s.

Definition wpa_sm_set_pmk (pmk : list Z) (pmk_len : Z) (s : sst) : res sst :=
  let s := s <| su; Sup.pmk_len := pmk_len |> in
  d ← rd_n pmk 0 pmk_len;
  new ← wr_n (Sup.pmk (su s)) 0 d;
  mret (s <| su; Sup.pmk := new |>).

Definition wpa_sm_set_fast_reauth (fast_reauth : Z) (s : sst) : sst :=
  s <| su; Sup.fast_reauth := fast_reauth |>.
(** The EAPOL machine of a pre-authentication, which is told too, belongs to
    preauth.c. *)
Definition wpa_sm_set_scard_ctx (scard_ctx : option nat) (s : sst) : sst :=
  s <| su; Sup.scard_ctx := scard_ctx |>.
Definition wpa_sm_set_own_addr (addr : list Z) (s : sst) : res sst :=
  d ← rd_n addr 0 6; mret (s <| su; Sup.own_addr := d |>).
Definition wpa_sm_set_ifname (ifname bridge_ifname : option nat) (s : sst) : sst :=
  let s := s <| su; Sup.ifname := ifname |> in s <| su; Sup.bridge_ifname := bridge_ifname |>.
Definition wpa_sm_set_eapol (eapol : option nat) (s : sst) : sst := s <| su; Sup.eapol := eapol |>.

Definition wpa_sm_set_param (param : wpa_sm_conf_params) (value : Z) (s : sst) : Z * sst :=
  match param with
  | RSNA_PMK_LIFETIME =>
      if 0 <? value then (0, s <| su; Sup.dot11RSNAConfigPMKLifetime := value |>) else (-1, s)
  | RSNA_PMK_REAUTH_THRESHOLD =>
      if (0 <? value) && (value <=? 100)
      then (0, s <| su; Sup.dot11RSNAConfigPMKReauthThreshold := value |>) else (-1, s)
  | RSNA_SA_TIMEOUT =>
      if 0 <? value then (0, s <| su; Sup.dot11RSNAConfigSATimeout := value |>) else (-1, s)
  | WPA_PARAM_PROTO => (0, s <| su; Sup.proto := value |>)
  | WPA_PARAM_PAIRWISE => (0, s <| su; Sup.pairwise_cipher := value |>)
  | WPA_PARAM_GROUP => (0, s <| su; Sup.group_cipher := value |>)
  | WPA_PARAM_KEY_MGMT => (0, s <| su; Sup.key_mgmt := value |>)
  | WPA_PARAM_MGMT_GROUP => (0, s <| su; Sup.mgmt_group_cipher := value |>)
  | WPA_PARAM_RSN_ENABLED => (0, s <| su; Sup.rsn_enabled := value |>)
  | WPA_PARAM_MFP => (0, s <| su; Sup.mfp := value |>)
  end.

Definition wpa_sm_get_param (m : Sup.wpa_sm) (param : wpa_sm_conf_params) : Z :=
  match param with
  | RSNA_PMK_LIFETIME => Sup.dot11RSNAConfigPMKLifetime m
  | RSNA_PMK_REAUTH_THRESHOLD => Sup.dot11RSNAConfigPMKReauthThreshold m
  | RSNA_SA_TIMEOUT => Sup.dot11RSNAConfigSATimeout m
  | WPA_PARAM_PROTO => Sup.proto m
  | WPA_PARAM_PAIRWISE => Sup.pairwise_cipher m
  | WPA_PARAM_GROUP => Sup.group_cipher m
  | WPA_PARAM_KEY_MGMT => Sup.key_mgmt m
  | WPA_PARAM_MGMT_GROUP => Sup.mgmt_group_cipher m
  | WPA_PARAM_RSN_ENABLED => u32 (Sup.rsn_enabled m)
  | WPA_PARAM_MFP => 0
  end.

(** The PMKID of the current entry, which [wpa_gen_wpa_ie_rsn] reads. *)
Definition cur_pmkid (s : sst) : res (option (list Z)) :=
  match Sup.cur_pmksa (su s) with
  | Some p => e ← entry_at p (entries s); mret (Some (Entry.pmkid e))
  | None => mret None
  end.

(** The value returned, the buffer and [*wpa_ie_len]. *)
Definition wpa_sm_set_assoc_wpa_ie_default (wpa_ie : list Z) (wpa_ie_len : Z) (s : sst)
    : res (Z * list Z * Z * sst) :=
  cur ← cur_pmkid s;
  '(res, ie) ← wpa_gen_wpa_ie (su s) cur wpa_ie wpa_ie_len;
  if res <? 0 then mret (-1, ie, wpa_ie_len, s)
  else
    match Sup.assoc_wpa_ie (su s) with
    | Some _ => mret (0, ie, res, s)
    | None =>
        let '(ok, s) := os_malloc res s in
        if negb ok then mret (-1, ie, res, s)
        else
          d ← rd_n ie 0 res;
          let s := s <| su; Sup.assoc_wpa_ie := Some d |> in
          mret (0, ie, res, s <| su; Sup.assoc_wpa_ie_len := res |>)
    end.

Definition wpa_sm_parse_own_wpa_ie (m : Sup.wpa_sm) : res (Z * option wpa_ie_data) :=
  match Sup.assoc_wpa_ie m with
  | None => mret (-1, None)
  | Some ie =>
      '(r, data) ← wpa_parse_wpa_ie ie (Sup.assoc_wpa_ie_len m);
      mret (if r =? 0 then 0 else -2, Some data)
  end.

Definition wpa_sm_drop_sa (s : sst) : sst :=
  let s := s <| su; Sup.ptk_set := false |> in
  let s := s <| su; Sup.tptk_set := false |> in
  let s := s <| su; Sup.pmk := replicate (Z.to_nat PMK_LEN) 0 |> in
  let s := s <| su; Sup.ptk := replicate (Z.to_nat sizeof_wpa_ptk) 0 |> in
  s <| su; Sup.tptk := replicate (Z.to_nat sizeof_wpa_ptk) 0 |>.

Definition wpa_sm_has_ptk (m : option Sup.wpa_sm) : bool :=
  match m with Some m => Sup.ptk_set m | None => false end.

(** ** The machine comes and goes *)

(** [os_zalloc], and the fields that are set. *)
Definition sm_zero (c : Cache.rsn_pmksa_cache) : Sup.wpa_sm := {|
  Sup.pmk := replicate 32 0; Sup.pmk_len := 0; Sup.ptk := replicate 64 0;
  Sup.tptk := replicate 64 0; Sup.ptk_set := false; Sup.tptk_set := false;
  Sup.snonce := replicate 32 0; Sup.anonce := replicate 32 0; Sup.renew_snonce := true;
  Sup.rx_replay_counter := replicate 8 0; Sup.rx_replay_counter_set := false;
  Sup.request_counter := replicate 8 0; Sup.eapol := None; Sup.pmksa := c;
  Sup.cur_pmksa := None; Sup.preauth_bssid := replicate 6 0; Sup.preauth_eapol := None;
  Sup.scard_ctx := None; Sup.fast_reauth := 0; Sup.network_ctx := None;
  Sup.peerkey_enabled := 0; Sup.allowed_pairwise_cipher := 0; Sup.proactive_key_caching := 0;
  Sup.eap_workaround := 0; Sup.eap_conf_ctx := None; Sup.ssid := replicate 32 0;
  Sup.ssid_len := 0; Sup.wpa_ptk_rekey := 0; Sup.own_addr := replicate 6 0;
  Sup.ifname := None; Sup.bridge_ifname := None; Sup.bssid := replicate 6 0;
  Sup.dot11RSNAConfigPMKLifetime := 43200; Sup.dot11RSNAConfigPMKReauthThreshold := 70;
  Sup.dot11RSNAConfigSATimeout := 60; Sup.dot11RSNA4WayHandshakeFailures := 0;
  Sup.proto := 0; Sup.pairwise_cipher := 0; Sup.group_cipher := 0; Sup.key_mgmt := 0;
  Sup.mgmt_group_cipher := 0; Sup.rsn_enabled := 0; Sup.mfp := 0; Sup.assoc_wpa_ie := None;
  Sup.assoc_wpa_ie_len := 0; Sup.ap_wpa_ie := None; Sup.ap_wpa_ie_len := 0;
  Sup.ap_rsn_ie := None; Sup.ap_rsn_ie_len := 0 |}.

Definition wpa_sm_init (l : sup_log) : option sst * sup_log :=
  let l := SMalloc sizeof_wpa_sm :: l in
  if negb (malloc l) then (None, l)
  else
    let '(c, l) := pmksa_cache_init l in
    match c with
    | Some c => (Some {| su := sm_zero c; slg := l |}, l)
    | None => (None, l)
    end.

(** What is left is freed. *)
Definition wpa_sm_deinit (s : sst) : sup_log :=
  let s := pmksa_cache_deinit s in
  let s := say (SCancel wpa_sm_start_preauth_) s in
  slg (say (SCancel wpa_sm_rekey_ptk_) s).
End supplicant.
