(* ===== verification/WpaSuppWf.v ===== *)
(** * The type invariant of the WPA supplicant

    What the fields of the machine always are ([wf_sup]): the sizes of the arrays,
    the PMKSA cache as a list of entries at different addresses with its count,
    and [cur_pmksa], which never dangles.  Every operation of the cache keeps it
    and returns; [still] says what of the machine it leaves alone. *)

From S2P Require Import Prelude CommonUtils WpaCommon WpaSuppI WpaSuppPmksa WpaSuppIe WpaSupp.

(** ** The invariant *)

Record wf_entry (e : Entry.rsn_pmksa_cache_entry) : Prop := {
  e_pmkid : zlen (Entry.pmkid e) = PMKID_LEN;
  e_pmk : zlen (Entry.pmk e) = PMK_LEN;
  e_pmk_len : 0 <= Entry.pmk_len e <= PMK_LEN;
  e_aa : zlen (Entry.aa e) = 6;
}.

Record wf_sizes (m : Sup.wpa_sm) : Prop := {
  w_pmk : zlen (Sup.pmk m) = PMK_LEN;
  w_pmk_len : 0 <= Sup.pmk_len m <= PMK_LEN;
  w_ptk : zlen (Sup.ptk m) = sizeof_wpa_ptk;
  w_tptk : zlen (Sup.tptk m) = sizeof_wpa_ptk;
  w_snonce : zlen (Sup.snonce m) = WPA_NONCE_LEN;
  w_anonce : zlen (Sup.anonce m) = WPA_NONCE_LEN;
  w_rx : zlen (Sup.rx_replay_counter m) = WPA_REPLAY_COUNTER_LEN;
  w_request : zlen (Sup.request_counter m) = WPA_REPLAY_COUNTER_LEN;
  w_own : zlen (Sup.own_addr m) = 6;
  w_bssid : zlen (Sup.bssid m) = 6;
  w_preauth : zlen (Sup.preauth_bssid m) = 6;
  w_ssid : zlen (Sup.ssid m) = 32;
  w_assoc ie : Sup.assoc_wpa_ie m = Some ie -> zlen ie = Sup.assoc_wpa_ie_len m /\ zlen ie <= 65440;
  w_ap_wpa ie : Sup.ap_wpa_ie m = Some ie -> zlen ie = Sup.ap_wpa_ie_len m;
  w_ap_rsn ie : Sup.ap_rsn_ie m = Some ie -> zlen ie = Sup.ap_rsn_ie_len m;
}.

Abbreviation pmksa_list := (list (nat * Entry.rsn_pmksa_cache_entry)).

Record wf_list (l : pmksa_list) (n : nat) : Prop := {
  l_entries : Forall (fun x => wf_entry (snd x)) l;
  l_fresh : Forall (fun x => (fst x < n)%nat) l;
  l_nodup : NoDup (map fst l);
}.

(** The pointer is NULL or to an entry of the list. *)
Definition held (p : option nat) (l : pmksa_list) : Prop := forall q, p = Some q -> q ∈ map fst l.

Definition fresh (s : sst) : nat := Cache.fresh (Sup.pmksa (su s)).
Definition count (s : sst) : Z := Cache.pmksa_count (Sup.pmksa (su s)).

Record wf_sup (s : sst) : Prop := {
  s_sizes : wf_sizes (su s);
  s_list : wf_list (entries s) (fresh s);
  s_count : count s = zlen (entries s);
  s_max : zlen (entries s) <= pmksa_cache_max_entries;
  s_cur : held (Sup.cur_pmksa (su s)) (entries s);
}.

(** ** What is left alone *)

(** The keys in use, the replay counter, and the parameters. *)
Definition settled (m : Sup.wpa_sm) :=
  (Sup.ptk m, Sup.ptk_set m, Sup.rx_replay_counter m, Sup.rx_replay_counter_set m,
   (Sup.proto m, Sup.pairwise_cipher m, Sup.group_cipher m, Sup.key_mgmt m,
    Sup.mgmt_group_cipher m, Sup.own_addr m)).
(** The handshake under way. *)
Definition pending (m : Sup.wpa_sm) :=
  (Sup.tptk m, Sup.tptk_set m, Sup.snonce m, Sup.anonce m).

Lemma log_ext_step {A} (P : A -> Prop) c l l' : P c -> log_ext P l l' -> log_ext P l (c :: l').
Proof. intros Hc (d & -> & H). exists (c :: d). split; [done|by constructor]. Qed.
(** The entries in front of a log that grew are fine one by one. *)
Ltac grow := repeat (apply log_ext_step; [done|]); first [assumption | apply log_ext_refl].

(** No key for the driver, no port opened, no connection completed. *)
Definition harmless (c : sup_call) : Prop :=
  match c with
  | SSetKey _ _ _ _ _ _ | SPortValid _ | SEapSuccess _ => False
  | SSetState st => st <> WPA_COMPLETED
  | _ => True
  end.

Record still (P : sup_call -> Prop) (s s' : sst) : Prop := {
  st_settled : settled (su s') = settled (su s);
  st_pending : pending (su s') = pending (su s);
  st_log : log_ext P (slg s) (slg s');
}.

Lemma still_refl P s : still P s s.
Proof. split; [done|done|apply log_ext_refl]. Qed.
Lemma still_trans P s1 s2 s3 : still P s1 s2 -> still P s2 s3 -> still P s1 s3.
Proof. intros [] []. split; [congruence|congruence|by eapply log_ext_trans]. Qed.
Lemma still_say (P : sup_call -> Prop) c s : P c -> still P s (say c s).
Proof. split; [done|done|by apply log_ext_cons]. Qed.
Lemma still_weaken (P Q : sup_call -> Prop) s s' :
  (forall c, P c -> Q c) -> still P s s' -> still Q s s'.
Proof. intros H []. split; [done|done|by eapply log_ext_weaken]. Qed.

Create HintDb sup.
#[export] Hint Resolve still_refl : sup.

(** The log alone grew. *)
Lemma wf_sup_log s l : wf_sup s -> wf_sup (s <| slg := l |>).
Proof. intros []. by split. Qed.
Lemma wf_say c s : wf_sup s -> wf_sup (say c s).
Proof. apply wf_sup_log. Qed.
#[export] Hint Resolve wf_sup_log wf_say : sup.

(** An assignment that has nothing to do with the cache. *)
Lemma wf_set s m : wf_sup s -> wf_sizes m -> Sup.pmksa m = Sup.pmksa (su s) ->
  Sup.cur_pmksa m = Sup.cur_pmksa (su s) -> wf_sup (s <| su := m |>).
Proof.
  intros [Hs Hl Hc Hm Hh] Hw Hp Hcur. split; unfold entries, fresh, count in *; cbn; rewrite ?Hp, ?Hcur; done.
Qed.

(** ** The list of the cache *)

Lemma entry_at_runs p l n : wf_list l n -> p ∈ map fst l ->
  exists e, entry_at p l = Ok e /\ wf_entry e /\ (p, e) ∈ l.
Proof.
  intros [He _ _]. induction l as [|[q e] l IH]; cbn [map fst entry_at].
  - by intros ?%not_elem_of_nil.
  - apply Forall_cons in He as [He Hl]. intros Hin. case_decide as Hq.
    + subst. exists e. split; [done|]. split; [done|apply list_elem_of_here].
    + apply elem_of_cons in Hin as [->|Hin]; [done|].
      destruct (IH Hl Hin) as (e' & ? & ? & ?). exists e'. split; [done|]. split; [done|].
      by apply list_elem_of_further.
Qed.

Lemma map_fst_map (f : nat -> Entry.rsn_pmksa_cache_entry -> Entry.rsn_pmksa_cache_entry)
    (l : pmksa_list) : map fst (map (fun '(p, e) => (p, f p e)) l) = map fst l.
Proof. induction l as [|[p e] l IH]; cbn; [done|]. by rewrite IH. Qed.

Lemma wf_list_map (f : nat -> Entry.rsn_pmksa_cache_entry -> Entry.rsn_pmksa_cache_entry) l n :
  (forall p e, wf_entry e -> wf_entry (f p e)) -> wf_list l n ->
  wf_list (map (fun '(p, e) => (p, f p e)) l) n.
Proof.
  intros Hf [He Hn Hd]. split.
  - apply Forall_map. eapply Forall_impl; [exact He|]. intros [p e]. cbn. auto.
  - apply Forall_map. eapply Forall_impl; [exact Hn|]. by intros [p e].
  - by rewrite map_fst_map.
Qed.

(** An assignment to an entry. *)
Lemma update_entry_wf s p f : (forall e, wf_entry e -> wf_entry (f e)) -> wf_sup s ->
  wf_sup (set_entries (update_entry p f (entries s)) s).
Proof.
  unfold update_entry. intros Hf [Hz Hl Hc Hm Hh]. set (g := fun q e => if decide (q = p) then f e else e).
  pose proof (map_fst_map g (entries s)) as Hg. split.
  - destruct Hz. by split.
  - apply (wf_list_map g); [|exact Hl]. intros q e He. unfold g. destruct (decide _); auto.
  - unfold entries. cbn. unfold zlen. rewrite length_map. exact Hc.
  - unfold entries. cbn. unfold zlen. rewrite length_map. exact Hm.
  - intros q Hq. specialize (Hh q Hq). rewrite <- Hg in Hh. exact Hh.
Qed.

Lemma wf_list_sub l1 x l2 n : wf_list (l1 ++ x :: l2) n -> wf_list (l1 ++ l2) n.
Proof.
  intros [He Hn Hd]. rewrite map_app in Hd. cbn in Hd. apply NoDup_app in Hd as (? & ? & Hd).
  apply NoDup_cons in Hd as [? ?].
  split; [by apply Forall_app in He as [? [? ?]%Forall_cons]; apply Forall_app
         |by apply Forall_app in Hn as [? [? ?]%Forall_cons]; apply Forall_app|].
  rewrite map_app. apply NoDup_app. split_and!; [done| |done].
  intros y Hy Hy2. eapply H0; [exact Hy|]. by apply list_elem_of_further.
Qed.

Lemma held_sub p l1 x l2 : held p (l1 ++ x :: l2) -> p <> Some (fst x) -> held p (l1 ++ l2).
Proof.
  intros Hh Hp q Hq. specialize (Hh q Hq). rewrite map_app in *. cbn in Hh.
  apply elem_of_app. apply elem_of_app in Hh as [?|[->|?]%elem_of_cons]; [by left|congruence|by right].
Qed.

Lemma held_none l : held None l.
Proof. by intros ?. Qed.
#[export] Hint Resolve held_none : sup.

Section cache.
Context {cr : Crypto} {c_laws : CryptoLaws cr} {h : Host} {h_laws : HostLaws h}.

(** ** Deauthentication, and what the callbacks do *)

Definition cleared (s : sst) : sst :=
  pmksa_cache_notify_reconfig (s <| su := config_null (su s) |>).

Lemma deauth_eq r s : wpa_sm_deauthenticate r s = Ok (cleared (say (SDeauthenticate r) s)).
Proof. done. Qed.
Lemma disassoc_eq r s : wpa_sm_disassociate r s = Ok (cleared (say (SDisassociate r) s)).
Proof. done. Qed.

Lemma cleared_entries s :
  entries (cleared s) = map (fun '(p, e) => (p, forget_network e)) (entries s).
Proof. done. Qed.
Lemma forget_wf (p : nat) e : wf_entry e -> wf_entry (forget_network e).
Proof. intros []. by split. Qed.
Lemma config_null_sizes m : wf_sizes m -> wf_sizes (config_null m).
Proof. intros []. by split. Qed.

Lemma cleared_wf s : wf_sup s -> wf_sup (cleared s).
Proof.
  intros [Hs Hl Hc Hm Hh]. split.
  - destruct Hs. by split.
  - rewrite cleared_entries. apply (wf_list_map (fun _ => forget_network)); [apply forget_wf|done].
  - rewrite cleared_entries. unfold zlen. by rewrite length_map.
  - rewrite cleared_entries. unfold zlen. by rewrite length_map.
  - intros q Hq. rewrite cleared_entries, (map_fst_map (fun _ => forget_network)). by apply Hh.
Qed.
Lemma cleared_still P s : still P s (cleared s).
Proof. split; [done|done|apply log_ext_refl]. Qed.

(** ** Freeing an entry *)

(** What is left when an entry [p] was taken out of the list and is freed. *)
Record unlinked (p : nat) (s : sst) : Prop := {
  u_sizes : wf_sizes (su s);
  u_list : wf_list (entries s) (fresh s);
  u_count : count s = zlen (entries s) + 1;
  u_max : zlen (entries s) + 1 <= pmksa_cache_max_entries + 1;
  u_cur q : Sup.cur_pmksa (su s) = Some q -> q = p \/ q ∈ map fst (entries s);
}.

Lemma unlink before p e behind s : wf_sup s -> entries s = before ++ (p, e) :: behind ->
  unlinked p (set_entries (before ++ behind) s) /\ wf_entry e.
Proof.
  intros [Hs Hl Hc Hm Hh] He. rewrite He in *. split.
  - split; [destruct Hs; by split|exact (wf_list_sub _ _ _ _ Hl)| | |].
    + change (count (set_entries (before ++ behind) s)) with (count s).
      change (entries (set_entries (before ++ behind) s)) with (before ++ behind).
      rewrite Hc. zlen_simpl. lia.
    + change (entries (set_entries (before ++ behind) s)) with (before ++ behind).
      zlen_simpl. unfold pmksa_cache_max_entries in *. lia.
    + intros q Hq. change (entries (set_entries (before ++ behind) s)) with (before ++ behind).
      specialize (Hh q Hq). rewrite map_app in *. cbn in Hh. set_solver.
  - destruct Hl as [Hl _ _]. apply Forall_app in Hl as [_ [? _]%Forall_cons]. done.
Qed.

(** The list has the same addresses, the rest of the machine is what it was. *)
Record like (P : sup_call -> Prop) (s s' : sst) : Prop := {
  k_still : still P s s';
  k_addresses : map fst (entries s') = map fst (entries s);
  k_fresh : fresh s' = fresh s;
}.

Lemma like_length P s s' : like P s s' -> zlen (entries s') = zlen (entries s).
Proof.
  intros [_ H _]. unfold zlen. by rewrite <- (length_map fst (entries s')), H, length_map.
Qed.

Lemma free_cb_test p e s : wf_sizes (su s) -> wf_entry e ->
  exists b, (if bool_decide (Sup.cur_pmksa (su s) = Some p) then mret true
    else if Sup.pmk_len (su s) =? Entry.pmk_len e then
      a ← rd_n (Sup.pmk (su s)) 0 (Sup.pmk_len (su s));
      b ← rd_n (Entry.pmk e) 0 (Sup.pmk_len (su s));
      mret (os_memcmp a b =? 0)
    else mret false) = Ok b /\ (b = false -> Sup.cur_pmksa (su s) <> Some p).
Proof.
  intros Hs He. case_bool_decide; [by exists true|].
  destruct (_ =? _); [|by exists false].
  destruct (rd_n_runs (Sup.pmk (su s)) 0 (Sup.pmk_len (su s))) as (a & -> & _);
    [lia|apply Hs|rewrite (w_pmk _ Hs); apply Hs|].
  destruct (rd_n_runs (Entry.pmk e) 0 (Sup.pmk_len (su s))) as (b & -> & _);
    [lia|apply Hs|rewrite (e_pmk _ He); apply Hs|].
  by eexists.
Qed.

Lemma free_entry_runs p e replace s : unlinked p s -> wf_entry e ->
  runs (pmksa_cache_free_entry p e replace s) (fun s' => wf_sup s' /\ like harmless s s').
Proof.
  intros [Hs Hl Hc Hm Hh] He. unfold pmksa_cache_free_entry, wpa_sm_pmksa_free_cb.
  set (s0 := add_count (-1) s).
  destruct (free_cb_test p e s0) as (b & -> & Hb); [destruct Hs; by split|done|]. cbn [mbind res_bind].
  assert (count s0 = zlen (entries s0)) as Hc0.
  { change (count s0) with (count s + -1). change (entries s0) with (entries s). lia. }
  assert (zlen (entries s0) <= pmksa_cache_max_entries) as Hm0 by (change (entries s0) with (entries s); lia).
  assert (still harmless s s0) as Hst by (split; [done|done|apply log_ext_refl]).
  assert (wf_sizes (su s0)) as Hs0 by (destruct Hs; by split).
  destruct b.
  - assert (wf_sup (set_cur None s0)) as Hw.
    { split; [destruct Hs; by split|exact Hl|exact Hc0|exact Hm0|apply held_none]. }
    destruct replace.
    + eexists. split; [reflexivity|]. split; [done|].
      split; [split; [done|done|apply log_ext_refl]|done|done].
    + rewrite deauth_eq. eexists. split; [reflexivity|]. split.
      * apply cleared_wf, wf_say, wf_set; [done|destruct Hs; by split|done|done].
      * split; [split; [done|done|by apply log_ext_cons]| |done].
        exact (map_fst_map (fun _ => forget_network) (entries s)).
  - eexists. split; [reflexivity|]. split; [|by split].
    split; [exact Hs0|exact Hl|exact Hc0|exact Hm0|]. intros q Hq. destruct (Hh q Hq) as [-> |?]; [|done]. by destruct (Hb eq_refl).
Qed.

Lemma set_expiration_still s : still harmless s (pmksa_cache_set_expiration s) /\
  su (pmksa_cache_set_expiration s) = su s.
Proof.
  unfold pmksa_cache_set_expiration. cbn [su say].
  change (entries (say (SCancel pmksa_cache_reauth_) (say (SCancel pmksa_cache_expire_) s))) with (entries s).
  destruct (entries s) as [|[p e] l] eqn:He; [split; [split; [done|done|cbn [slg say]; grow]|done]|].
  unfold os_get_time. cbv zeta iota beta.
  match goal with |- context [match ?c with Some p => Some p | None => _ end] => destruct c end;
    [|destruct (pmksa_cache_get _ _ _)].
  all: split; [split; [done|done|]|done].
  all: cbn [slg say]; grow.
Qed.

Lemma wf_set_expiration s : wf_sup s -> wf_sup (pmksa_cache_set_expiration s).
Proof.
  intros Hw. destruct (set_expiration_still s) as [_ Hsu]. destruct Hw as [].
  split; unfold entries, fresh, count in *; rewrite Hsu; done.
Qed.

Lemma expire_loop_runs fuel now s : wf_sup s -> (length (entries s) < fuel)%nat ->
  runs (expire_loop fuel now s) (fun s' => wf_sup s' /\ still harmless s s').
Proof.
  revert s. induction fuel as [|fuel IH]; intros s Hw Hf; [lia|]. cbn [expire_loop].
  destruct (entries s) as [|[p e] l] eqn:He; [apply runs_ret; by auto with sup|].
  destruct (_ <=? now); [|apply runs_ret; by auto with sup].
  destruct (unlink [] p e l s Hw He) as [Hu Hwe].
  rstep ltac:(exact (free_entry_runs p e false (set_entries l s) Hu Hwe)) as s1 H1.
  destruct H1 as [Hw1 Hk]. pose proof (like_length _ _ _ Hk) as Hlen.
  change (entries (set_entries l s)) with l in Hlen.
  eapply runs_weaken; [apply IH; [done|unfold zlen in Hlen; cbn in Hf; lia]|].
  intros s2 [? ?]. split; [done|]. eapply still_trans; [|eassumption].
  destruct Hk as [Hst _ _]. eapply still_trans; [|exact Hst]. by split; [| |apply log_ext_refl].
Qed.

Lemma expire_runs s : wf_sup s ->
  runs (pmksa_cache_expire s) (fun s' => wf_sup s' /\ still harmless s s').
Proof.
  intros Hw. unfold pmksa_cache_expire, os_get_time. cbv zeta iota beta.
  rstep ltac:(apply expire_loop_runs; [by auto with sup|change (entries _) with (entries s); lia]) as s1 H1.
  destruct H1 as [Hw1 Hst]. apply runs_ret. split; [by apply wf_set_expiration|].
  eapply still_trans; [|apply set_expiration_still]. eapply still_trans; [|exact Hst].
  split; [done|done|]. exists [STime; SFire pmksa_cache_expire_]. split; [done|by repeat constructor].
Qed.

Lemma reauth_wf s : wf_sup s -> wf_sup (pmksa_cache_reauth s) /\ still harmless s (pmksa_cache_reauth s).
Proof.
  intros []. split; [split; [|done..|apply held_none]|].
  - by destruct s_sizes0; split.
  - split; [done|done|]. exists [SRequestReauth; SFire pmksa_cache_reauth_]. split; [done|by repeat constructor].
Qed.

(** ** Adding an entry *)

Lemma split_at_aa_app aa l before x behind :
  split_at_aa aa l = Some (before, x, behind) -> l = before ++ x :: behind.
Proof.
  revert before. induction l as [|[p e] l IH]; intros before; cbn [split_at_aa]; [done|].
  destruct (_ =? 0); [by intros [= <- <- <-]|].
  destruct (split_at_aa aa l) as [[[b y] r]|]; [|done]. intros [= <- <- <-]. cbn. f_equal. by apply IH.
Qed.

Lemma same_key_runs pmk pmk_len pmkid pos : wf_entry pos -> 0 <= pmk_len <= PMK_LEN ->
  exists b, same_key pmk pmk_len pmkid pos = Ok b.
Proof.
  intros He Hl. unfold same_key. destruct (_ =? _); [|by eexists].
  destruct (rd_n_runs (Entry.pmk pos) 0 pmk_len) as (k & -> & _); [lia|lia|rewrite (e_pmk _ He); lia|].
  by eexists.
Qed.

Lemma replace_old_runs pmk pmk_len e s : wf_sup s -> 0 <= pmk_len <= PMK_LEN ->
  runs (replace_old pmk pmk_len e s) (fun '(o, s') =>
    match o with
    | Some q => s' = s /\ q ∈ map fst (entries s)
    | None => wf_sup s' /\ still harmless s s' /\ fresh s' = fresh s /\
        map fst (entries s') ⊆ map fst (entries s)
    end).
Proof.
  intros Hw Hl. unfold replace_old.
  destruct (split_at_aa _ _) as [[[before [p pos]] behind]|] eqn:Hs; [|apply runs_ret; by auto with sup].
  apply split_at_aa_app in Hs. destruct (unlink _ _ _ _ s Hw Hs) as [Hu Hwe].
  destruct (same_key_runs pmk pmk_len (Entry.pmkid e) pos Hwe Hl) as [b ->]. cbn [mbind res_bind].
  destruct b.
  { apply runs_ret. split; [done|]. rewrite Hs, map_app. cbn. set_solver. }
  set (s1 := set_entries _ s).
  assert (forall s2, s2 = s1 \/ s2 = set_cur None s1 -> unlinked p s2 /\ still harmless s s2 /\
      map fst (entries s2) ⊆ map fst (entries s)) as Hu1.
  { assert (map fst (before ++ behind) ⊆ map fst (entries s)) as Hsub.
    { rewrite Hs, !map_app. cbn. set_solver. }
    intros s2 [-> | ->].
    - split; [exact Hu|]. split; [split; [done|done|apply log_ext_refl]|exact Hsub].
    - destruct Hu as [Hz ?]. split; [|split; [split; [done|done|apply log_ext_refl]|exact Hsub]].
      split; [destruct Hz; by split|done..]. }
  case_bool_decide.
  all: match goal with |- context [pmksa_cache_free_entry _ _ _ ?s2] =>
         destruct (Hu1 s2) as (Hu2 & Hst2 & Hsub); [by auto|];
         rstep ltac:(exact (free_entry_runs p pos true s2 Hu2 Hwe)) as s3 H3 end.
  all: destruct H3 as [Hw3 [Hst3 Hadr Hf3]]; apply runs_ret.
  all: split_and!; [done|by eapply still_trans|done|by rewrite Hadr].
Qed.

Lemma remove_oldest_runs s : wf_sup s ->
  runs (remove_oldest s) (fun s' => wf_sup s' /\ still harmless s s' /\ fresh s' = fresh s /\
    zlen (entries s') < pmksa_cache_max_entries /\ map fst (entries s') ⊆ map fst (entries s)).
Proof.
  intros Hw. unfold remove_oldest. destruct (entries s) as [|[p e] l] eqn:He.
  { apply runs_ret. rewrite He. split_and!; [done|by auto with sup|done|done|done]. }
  change (Cache.pmksa_count (Sup.pmksa (su s))) with (count s). rewrite (s_count s Hw).
  destruct (Z.leb_spec pmksa_cache_max_entries (zlen (entries s))) as [Hge|Hlt].
  2: { apply runs_ret. split_and!; [done|by auto with sup|done|done|by rewrite He]. }
  destruct (unlink [] p e l s Hw He) as [Hu Hwe].
  set (s1 := say _ (set_entries l s)).
  assert (unlinked p s1) as Hu1 by (by destruct Hu as [[]]; split).
  eapply runs_weaken; [exact (free_entry_runs p e false s1 Hu1 Hwe)|].
  intros s2 [Hw2 Hk]. pose proof (like_length _ _ _ Hk) as Hlen. destruct Hk as [Hst Hadr Hf].
  change (entries s1) with l in *. split_and!; [done| |done| |].
  - eapply still_trans; [|exact Hst]. split; [done|done|by apply log_ext_cons].
  - rewrite Hlen. pose proof (s_max s Hw) as Hm. rewrite He in Hm.
    rewrite zlen_cons in Hm. unfold pmksa_cache_max_entries in *. lia.
  - rewrite Hadr. cbn. set_solver.
Qed.

Lemma insert_entry_perm p e l : fst (insert_entry p e l) ≡ₚ (p, e) :: l.
Proof.
  induction l as [|[q pos] l IH]; cbn [insert_entry]; [done|]. destruct (_ <? _); cbn [fst]; [done|].
  rewrite IH. apply Permutation_swap.
Qed.

Lemma wf_list_insert p e l n : wf_list l n -> wf_entry e -> (p < n)%nat -> p ∉ map fst l ->
  wf_list (fst (insert_entry p e l)) n.
Proof.
  intros [He Hn Hd] Hwe Hp Hin. pose proof (insert_entry_perm p e l) as Hperm. split.
  - rewrite Hperm. by constructor.
  - rewrite Hperm. by constructor.
  - rewrite Hperm. cbn. by apply NoDup_cons.
Qed.

Lemma new_entry_wf pmk pmk_len aa spa ctx akmp now m : zlen pmk = pmk_len -> pmk_len <= PMK_LEN ->
  zlen aa = 6 -> wf_entry (new_entry pmk pmk_len aa spa ctx akmp now m).
Proof.
  intros Hk Hl Ha. pose proof (zlen_nonneg pmk). split; cbn.
  - apply rsn_pmkid_len.
  - rewrite zlen_copy_front; rewrite ?zlen_replicate; unfold PMK_LEN in *; lia.
  - lia.
  - done.
Qed.

(** The entry is in, the timeouts are set, and the driver knows the PMKID. *)
Lemma inserted_wf p l (first : bool) s aa pmkid : wf_sup s -> wf_list l (fresh s) ->
  map fst l ≡ₚ p :: map fst (entries s) -> zlen (entries s) < pmksa_cache_max_entries ->
  let s1 := set_entries l s in
  let s1 := if first then pmksa_cache_set_expiration s1 else s1 in
  let s' := say (SAddPmkid aa pmkid) (add_count 1 s1) in
  wf_sup s' /\ still harmless s s' /\ held (Some p) (entries s').
Proof.
  intros Hw Hwl Hperm Hlt s1 s2 s'.
  assert (su s2 = su s1 /\ still harmless s s2) as [Hsu Hst].
  { unfold s2. destruct first; [destruct (set_expiration_still s1) as [H ->]|].
    - split; [done|]. eapply still_trans; [|exact H]. split; [done|done|apply log_ext_refl].
    - split; [done|]. split; [done|done|apply log_ext_refl]. }
  assert (entries s' = l) as He by (unfold s', entries; cbn; by rewrite Hsu).
  assert (zlen l = zlen (entries s) + 1) as Hlen.
  { unfold zlen. apply Permutation_length in Hperm. cbn in Hperm. rewrite !length_map in Hperm. lia. }
  destruct Hw as [Hz _ Hc Hm Hh]. split; [|split].
  - split.
    + unfold s'. cbn. rewrite Hsu. by destruct Hz; split.
    + rewrite He. unfold fresh, s'. cbn. by rewrite Hsu.
    + rewrite He, Hlen, <- Hc. unfold count, s'. cbn. by rewrite Hsu.
    + rewrite He. lia.
    + intros q Hq. rewrite He, Hperm. apply list_elem_of_further, Hh. rewrite <- Hq.
      unfold s'. cbn. by rewrite Hsu.
  - eapply still_trans; [exact Hst|]. split; [done|done|cbn [slg say]; grow].
  - intros q [= <-]. rewrite He, Hperm. apply list_elem_of_here.
Qed.

Lemma wf_next_address s : wf_sup s ->
  wf_sup (on_cache (fun c => c <| Cache.fresh := S (fresh s) |>) s).
Proof.
  intros [Hz Hl Hc Hm Hh]. destruct Hl as [He Hn Hd].
  split; [destruct Hz; by split| |exact Hc|exact Hm|exact Hh].
  split; [exact He| |exact Hd]. eapply Forall_impl; [exact Hn|]. cbn. lia.
Qed.

Lemma pmksa_cache_add_runs pmk pmk_len aa spa ctx akmp s : wf_sup s -> zlen pmk = PMK_LEN ->
  0 <= pmk_len -> zlen aa = 6 ->
  runs (pmksa_cache_add pmk pmk_len aa spa ctx akmp s) (fun '(o, s') =>
    wf_sup s' /\ still harmless s s' /\ held o (entries s')).
Proof.
  intros Hw Hk Hl Ha. unfold pmksa_cache_add. destruct (Z.ltb_spec PMK_LEN pmk_len) as [|Hle].
  { apply runs_ret. by auto with sup. }
  unfold os_malloc. cbv zeta iota beta. set (s1 := say _ s). assert (wf_sup s1) as Hw1 by (by apply wf_say).
  assert (still harmless s s1) as Hst1 by (by apply still_say).
  destruct (malloc _); cbn [negb]; [|apply runs_ret; by auto with sup].
  destruct (rd_n_runs pmk 0 pmk_len) as (k & -> & Hkl); [lia|lia|lia|]. cbn [mbind res_bind].
  unfold os_get_time. cbv zeta iota beta. set (p := Cache.fresh (Sup.pmksa (su s1))).
  set (s2 := say STime _).
  assert (wf_sup s2 /\ still harmless s1 s2 /\ fresh s2 = S p) as (Hw2 & Hst2 & Hf2).
  { split; [|split; [|reflexivity]].
    - apply wf_say, wf_next_address, Hw1.
    - split; [reflexivity|reflexivity|exact (log_ext_cons harmless STime (slg s1) I)]. }
  set (e := new_entry _ _ _ _ _ _ _ _).
  assert (wf_entry e) as Hwe by (apply new_entry_wf; lia || done).
  rstep ltac:(exact (replace_old_runs k pmk_len e s2 Hw2 (conj Hl Hle))) as r Hr. destruct r as [o s3].
  destruct o as [q|].
  { destruct Hr as [-> Hq]. apply runs_ret. split; [done|]. split; [by eapply still_trans; [|eassumption]|].
    intros ? [= <-]. done. }
  destruct Hr as (Hw3 & Hst3 & Hf3 & Hsub3).
  rstep ltac:(exact (remove_oldest_runs s3 Hw3)) as s4 H4.
  destruct H4 as (Hw4 & Hst4 & Hf4 & Hlt & Hsub4).
  assert (p ∉ map fst (entries s4)) as Hp.
  { intros Hin%Hsub4%Hsub3. change (entries s2) with (entries s1) in Hin.
    apply list_elem_of_In, in_map_iff in Hin as (x & Hx & Hin%list_elem_of_In).
    pose proof (proj1 (Forall_forall _ _) (l_fresh _ _ (s_list s1 Hw1)) x Hin) as Hf.
    change (fresh s1) with p in Hf. cbn in Hf. lia. }
  destruct (insert_entry p e (entries s4)) as [l first] eqn:Hins.
  assert (wf_list l (fresh s4)) as Hwl.
  { pose proof (wf_list_insert p e (entries s4) (fresh s4) (s_list s4 Hw4) Hwe) as Hi.
    rewrite Hins in Hi. apply Hi; [rewrite Hf4, Hf3, Hf2; lia|done]. }
  pose proof (insert_entry_perm p e (entries s4)) as Hperm. rewrite Hins in Hperm. cbn [fst] in Hperm.
  assert (still harmless s s4) as Hst by (repeat (eapply still_trans; [eassumption|]); auto with sup).
  destruct (inserted_wf p l first s4 (Entry.aa e) (Entry.pmkid e) Hw4 Hwl) as (Hw5 & Hst5 & Hin5).
  { by rewrite Hperm. }
  { done. }
  apply runs_ret. split; [exact Hw5|]. split; [by eapply still_trans|exact Hin5].
Qed.
End cache.
