(* ===== verification/WpaSuppIeProps.v ===== *)
(** * The two parsers of key data

    wpa_auth_ie.c and wpa_ie.c each have a parser of the key data of EAPOL-Key
    frames.  They agree: on any octets both return, with the same value, and what
    the one of the supplicant notes, the one of the authenticator notes at the
    same place.  So what is known of the one holds of the other. *)

From S2P Require Import Prelude WpaCommon WpaAuthIe WpaIeProps.
From S2P Require Import WpaSuppI WpaSuppIe.

(** A pointer and its length, in two fields. *)
Definition pair_of (p : option Z) (n : Z) : option (Z * Z) :=
  match p with Some p => Some (p, n) | None => None end.

Record agree (d : WpaAuthIe.wpa_eapol_ie_parse) (ie : Eie.wpa_eapol_ie_parse) : Prop := {
  ag_wpa : Eie.wpa_ie ie = pair_of (WpaAuthIe.wpa_ie d) (WpaAuthIe.wpa_ie_len d);
  ag_rsn : Eie.rsn_ie ie = pair_of (WpaAuthIe.rsn_ie d) (WpaAuthIe.rsn_ie_len d);
  ag_pmkid : Eie.pmkid ie = WpaAuthIe.kde_pmkid d;
  ag_gtk : Eie.gtk ie = pair_of (WpaAuthIe.gtk d) (WpaAuthIe.gtk_len d);
  ag_mac : Eie.mac_addr ie = pair_of (WpaAuthIe.mac_addr d) (WpaAuthIe.mac_addr_len d);
  ag_igtk : Eie.igtk ie = pair_of (WpaAuthIe.igtk d) (WpaAuthIe.igtk_len d);
}.

Section parsers.
Context (buf : list Z) (len : Z) (Hbuf : bytes buf) (Hlen : 0 <= len <= zlen buf).

Lemma generic_agree pos d ie r d' : agree d ie ->
  WpaAuthIe.wpa_parse_generic buf pos len d = Ok (r, d') ->
  exists ie', wpa_parse_generic buf pos len ie = Ok (r, ie') /\ agree d' ie'.
Proof.
  intros Ha. unfold WpaAuthIe.wpa_parse_generic, wpa_parse_generic, is_wpa_ie.
  destruct (rd buf (pos + 1)) as [l|f] eqn:Hl; [|done]. cbn [mbind res_bind].
  destruct (l =? 0); [intros [= <- <-]; by exists ie|].
  match goal with |- (?t ≫= _) = _ -> _ => destruct t as [b|]; [|done] end. cbn [mbind res_bind].
  destruct b; [intros [= <- <-]; eexists; split; [done|]; by destruct Ha; split|].
  match goal with |- (?t ≫= _) = _ -> _ => destruct t as [b|]; [|done] end. cbn [mbind res_bind].
  destruct b; [intros [= <- <-]; eexists; split; [done|]; by destruct Ha; split|].
  repeat (match goal with |- (is_kde ?a ?b ?c ?s ≫= _) = _ -> _ =>
    destruct (is_kde a b c s) as [[|]|]; [| |done] end; cbn [mbind res_bind];
    [intros [= <- <-]; eexists; split; [done|]; by destruct Ha; split|]).
  intros [= <- <-]. by exists ie.
Qed.

Lemma note_agree pos id l d ie : agree d ie -> 0 <= pos -> pos + 2 + l <= len -> id <> WLAN_EID_RSN ->
  exists ie', note_element buf pos id l ie = Ok ie' /\ agree d ie'.
Proof using Hlen.
  intros Ha Hp Hle Hid. unfold note_element. rewrite (proj2 (Z.eqb_neq _ _)) by done.
  destruct (id =? WLAN_EID_MOBILITY_DOMAIN); [eexists; split; [done|]; by destruct Ha; split|].
  destruct (id =? WLAN_EID_FAST_BSS_TRANSITION); [eexists; split; [done|]; by destruct Ha; split|].
  destruct (id =? WLAN_EID_TIMEOUT_INTERVAL), (Z.leb_spec 5 l); cbn [andb].
  1: rewrite rd_ok by lia; cbn [mbind res_bind];
    destruct (_ =? WLAN_TIMEOUT_REASSOC_DEADLINE); [|destruct (_ =? WLAN_TIMEOUT_KEY_LIFETIME)].
  1-3: eexists; split; [done|]; by destruct Ha; split.
  all: destruct (id =? WLAN_EID_LINK_ID); [eexists; split; [done|]; by destruct Ha; split|].
  all: destruct (id =? WLAN_EID_EXT_CAPAB); eexists; split; try done; by destruct Ha; split.
Qed.

Lemma loop_agree fuel pos d ie r d' : agree d ie -> 0 <= pos ->
  parse_kde_loop fuel buf len pos d = Ok (r, d') ->
  exists ie', parse_ies_loop fuel buf len pos ie = Ok (r, ie') /\ agree d' ie'.
Proof using Hlen Hbuf.
  revert pos d ie. induction fuel as [|fuel IH]; intros pos d ie Ha Hp; [done|].
  cbn [parse_kde_loop parse_ies_loop].
  destruct (Z.ltb_spec (pos + 1) len); [|intros [= <- <-]; by exists ie].
  destruct (rd_total buf pos) as (id & -> & Hid); [lia|done|]. cbn [mbind res_bind].
  destruct (rd_total buf (pos + 1)) as (l & -> & Hl); [lia|done|]. cbn [mbind res_bind].
  unfold is_byte in *. destruct (_ && _); [intros [= <- <-]; by exists ie|].
  destruct (Z.ltb_spec len (pos + 2 + l)); [intros [= <- <-]; by exists ie|].
  destruct (Z.eqb_spec id WLAN_EID_RSN) as [-> |Hrsn].
  { change (WLAN_EID_RSN =? WLAN_EID_VENDOR_SPECIFIC) with false. cbv iota.
    intros Hloop. cbn [note_element]. unfold note_element. cbn [mbind res_bind].
    eapply IH; [|lia|exact Hloop]. by destruct Ha; split. }
  destruct (id =? WLAN_EID_VENDOR_SPECIFIC).
  - destruct (WpaAuthIe.wpa_parse_generic buf pos len d) as [[g dg]|] eqn:Hg; [|done].
    destruct (generic_agree _ _ _ _ _ Ha Hg) as (ie' & -> & Ha'). cbn [mbind res_bind].
    destruct (g <? 0); [intros [= <- <-]; by exists ie'|].
    destruct (0 <? g); [intros [= <- <-]; by exists ie'|]. intros Hloop. eapply IH; [exact Ha'|lia|done].
  - destruct (note_agree pos id l d ie Ha Hp) as (ie' & -> & Ha'); [lia|done|]. cbn [mbind res_bind].
    intros Hloop. eapply IH; [exact Ha'|lia|done].
Qed.

(** What a parsed pointer covers is inside the key data. *)
Definition covers (p : option (Z * Z)) : Prop :=
  match p with Some (o, n) => 0 <= o /\ 0 <= n /\ o + n <= len | None => True end.
Definition eie_inside (ie : Eie.wpa_eapol_ie_parse) : Prop :=
  covers (Eie.wpa_ie ie) /\ covers (Eie.rsn_ie ie) /\ covers (Eie.gtk ie) /\
  covers (Eie.igtk ie) /\ covers (pair_of (Eie.pmkid ie) PMKID_LEN).

Lemma parsers_agree_runs : exists r d ie, wpa_parse_kde_ies buf len = Ok (r, d) /\
  wpa_supplicant_parse_ies buf len = Ok (r, ie) /\ agree d ie /\ eie_inside ie.
Proof using Hlen Hbuf.
  destruct (parse_kde_runs buf len Hbuf Hlen) as (r & d & Hp & Hi).
  destruct (loop_agree (S (Z.to_nat len)) 0 ie_parse_zero eie_zero r d) as (ie & Hs & Ha);
    [by split|lia|exact Hp|].
  exists r, d, ie. split; [done|]. split; [done|]. split; [done|].
  destruct Ha as [H1 H2 H3 H4 H5 H6], Hi as (I1 & I2 & I3 & I4 & I5 & I6).
  unfold eie_inside. rewrite H1, H2, H3, H4, H6.
  unfold area_inside, covers, pair_of in *. split_and!; repeat case_match; done.
Qed.
End parsers.

(** C21 ([wpa_parse_kde_ies], [wpa_supplicant_parse_ies]): on any octets the parsers
    of the authenticator and of the supplicant return the same value and find the
    same elements and KDEs at the same places, all inside the key data. *)
Theorem parsers_agree buf len : bytes buf -> 0 <= len <= zlen buf ->
  exists r d ie, wpa_parse_kde_ies buf len = Ok (r, d) /\
    wpa_supplicant_parse_ies buf len = Ok (r, ie) /\ agree d ie /\ eie_inside len ie.
Proof. intros. by apply parsers_agree_runs. Qed.
