(* ===== verification/WpaSuppRun.v ===== *)
(** * The operations of the supplicant run

    Every operation of rsn_supp/wpa.c returns, touches only memory it may, and
    keeps the type invariant; what an operation before authentication does is
    harmless. *)

From S2P Require Import Prelude CommonUtils WpaCommon WpaIeProps WpaSuppI WpaSuppPmksa WpaSuppIe.
From S2P Require Import WpaSupp WpaSuppWf WpaSuppIeProps.

(** Anything may be said to the owner. *)
Definition anything (c : sup_call) : Prop := True.

Lemma still_any P s s' : still P s s' -> still anything s s'.
Proof. by apply still_weaken. Qed.

(** A frame of octets with a header, whose key data is inside. *)
Record wf_frame (frame : list Z) : Prop := {
  f_bytes : bytes frame;
  f_len : o_key_data <= zlen frame;
}.
Definition key_data_inside (frame : list Z) : Prop :=
  exists n, WPA_GET_BE16 frame o_key_data_length = Ok n /\ 0 <= n /\ o_key_data + n <= zlen frame.

Lemma be16_runs frame o : wf_frame frame -> 0 <= o -> o + 2 <= o_key_data ->
  exists v, WPA_GET_BE16 frame o = Ok v /\ 0 <= v < 65536.
Proof.
  intros [Hb Hl] Ho Hle. apply WPA_GET_BE16_total; [done|done|lia].
Qed.

Lemma field_runs frame o n : wf_frame frame -> 0 <= o -> 0 <= n -> o + n <= o_key_data ->
  exists d, rd_n frame o n = Ok d /\ zlen d = n.
Proof. intros [_ Hl] Ho Hn Hle. apply rd_n_runs; lia. Qed.

Section run.
Context {cr : Crypto} {c_laws : CryptoLaws cr} {un : KeyUnwrap} {u_laws : KeyUnwrapLaws cr un}.
Context {h : Host} {h_laws : HostLaws h}.

(** ** Sending *)

Lemma alloc_eapol_eq type data_len s : 0 <= data_len < 65536 ->
  exists o, wpa_sm_alloc_eapol type data_len s = (o, say (SMalloc (4 + data_len)) s) /\
    (forall msg, o = Some msg -> zlen msg = 4 + data_len).
Proof.
  intros Hl. unfold wpa_sm_alloc_eapol, os_malloc. rewrite u16_id by done. cbv zeta iota beta.
  destruct (malloc _); eexists; (split; [reflexivity|]); [|done].
  intros msg H. apply (inj Some) in H. subst msg.
  rewrite !zlen_app, zlen_replicate, zlen_BE16. change (zlen [_; _]) with 2. lia.
Qed.

Lemma put_reply_runs m key_info key_length replay_counter data msg :
  zlen key_length = 2 -> zlen replay_counter = WPA_REPLAY_COUNTER_LEN ->
  o_key_data + zlen data <= zlen msg ->
  exists msg', put_reply m key_info key_length replay_counter data msg = Ok msg' /\
    zlen msg' = zlen msg.
Proof.
  intros Hk Hr Hd. pose proof (zlen_nonneg data). unfold put_reply, WPA_REPLAY_COUNTER_LEN in *.
  unfold o_type, o_key_info, o_key_length, o_replay_counter, o_key_data_length, o_key_data in *.
  rewrite wr_ok by lia. cbn [mbind res_bind]. set (b0 := <[_ := _]> msg).
  assert (zlen b0 = zlen msg) as H0 by apply zlen_insert.
  destruct (wr_n_runs b0 5 (WPA_PUT_BE16 key_info)) as (b1 & -> & H1); [lia|rewrite zlen_BE16; lia|].
  cbn [mbind res_bind]. destruct (wr_n_runs b1 7 key_length) as (b2 & -> & H2); [lia|lia|].
  cbn [mbind res_bind]. destruct (wr_n_runs b2 9 replay_counter) as (b3 & -> & H3); [lia|lia|].
  cbn [mbind res_bind]. destruct (wr_n_runs b3 97 (WPA_PUT_BE16 (zlen data))) as (b4 & -> & H4);
    [lia|rewrite zlen_BE16; lia|].
  cbn [mbind res_bind]. destruct (wr_n_runs b4 99 data) as (b5 & -> & H5); [lia|lia|].
  exists b5. split; [done|lia].
Qed.

Lemma key_send_runs kck ver dest proto msg mic s : wf_sup s -> o_key_data <= zlen msg ->
  runs (wpa_eapol_key_send kck ver dest proto msg mic s) (fun s' => wf_sup s' /\ still harmless s s').
Proof.
  intros Hw Hm. unfold wpa_eapol_key_send.
  match goal with |- runs (let '(_, _) := ?t in _) _ =>
    assert (wf_sup (snd t) /\ still harmless s (snd t)) as [Hw1 Hst1]; [|destruct t as [dest' s1]] end.
  { destruct (_ && _); [|by auto with sup]. unfold wpa_sm_get_bssid. cbv zeta iota beta.
    destruct (get_bssid _) as [r d] eqn:Hg. cbn [snd]. split.
    - apply wf_set; [by apply wf_say| |done|done]. apply get_bssid_len in Hg.
      destruct (s_sizes s Hw). by split.
    - split; [done|done|cbn [slg say]; grow]. }
  cbn [snd] in *. cbv zeta.
  assert (forall msg', runs (mret (say SNotifyTx (wpa_sm_ether_send
    match dest' with Some d => d | None => Sup.bssid (su s1) end proto msg' s1)))
    (fun s' => wf_sup s' /\ still harmless s s')) as Hsend.
  { intros msg'. apply runs_ret. split; [by apply wf_say, wf_say|].
    eapply still_trans; [exact Hst1|]. split; [done|done|cbn [slg say]; grow]. }
  destruct mic; [|apply Hsend]. destruct (wpa_eapol_key_mic _ _ _) as [m|] eqn:Hmic.
  - unfold o_key_data in *. destruct (wr_n_runs msg o_key_mic m) as (msg' & -> & _);
      [done|rewrite (mic_len _ _ _ _ Hmic); unfold o_key_mic; lia|]. apply Hsend.
  - by apply runs_ret.
Qed.

Lemma reply_key_length_runs m frame : wf_frame frame ->
  exists d, reply_key_length m frame = Ok d /\ zlen d = 2.
Proof.
  intros Hf. unfold reply_key_length. destruct (_ =? _); [by eexists|]. by apply field_runs.
Qed.

(** The three answers have the same body. *)
Lemma answer_runs frame ver ki data nonce k msg s : wf_frame frame -> wf_sup s ->
  zlen msg = o_key_data + zlen data -> match nonce with Some n => zlen n = WPA_NONCE_LEN | None => True end ->
  runs (key_length ← reply_key_length (su s) frame;
        replay_counter ← rd_n frame o_replay_counter WPA_REPLAY_COUNTER_LEN;
        rbuf ← put_reply (su s) ki key_length replay_counter data msg;
        rbuf ← match nonce with Some n => wr_n rbuf o_key_nonce n | None => mret rbuf end;
        s ← wpa_eapol_key_send k ver None ETH_P_EAPOL rbuf true s;
        mret (0, s))
    (fun '(r, s') => r = 0 /\ wf_sup s' /\ still harmless s s').
Proof.
  intros Hf Hw Hm Hn. pose proof (zlen_nonneg data).
  destruct (reply_key_length_runs (su s) frame Hf) as (kl & -> & Hkl). cbn [mbind res_bind].
  destruct (field_runs frame o_replay_counter WPA_REPLAY_COUNTER_LEN Hf) as (rc & -> & Hrc); [done..|].
  cbn [mbind res_bind]. destruct (put_reply_runs (su s) ki kl rc data msg Hkl Hrc) as (b & -> & Hb); [lia|].
  cbn [mbind res_bind].
  rstep ltac:(instantiate (1 := fun b => o_key_data <= zlen b)) as b2 Hb2.
  { destruct nonce as [n|]; [|apply runs_ret; lia].
    destruct (wr_n_runs b o_key_nonce n) as (b' & -> & Hb'); [done|rewrite Hn; unfold o_key_data, o_key_nonce, WPA_NONCE_LEN in *; lia|].
    apply runs_ret. lia. }
  rstep ltac:(by apply key_send_runs) as s1 H1. apply runs_ret. done.
Qed.

Lemma send_2_of_4_runs frame ver ptk s : wf_frame frame -> wf_sup s ->
  runs (wpa_supplicant_send_2_of_4 None frame ver (Sup.snonce (su s)) (Sup.assoc_wpa_ie (su s))
          (Sup.assoc_wpa_ie_len (su s)) ptk s)
    (fun '(r, s') => wf_sup s' /\ still harmless s s').
Proof.
  intros Hf Hw. unfold wpa_supplicant_send_2_of_4.
  destruct (Sup.assoc_wpa_ie (su s)) as [ie|] eqn:Hie; [|by apply runs_ret; auto with sup].
  destruct (w_assoc _ (s_sizes s Hw) ie Hie) as [Hlen Hmax]. rewrite <- Hlen. pose proof (zlen_nonneg ie).
  destruct (alloc_eapol_eq IEEE802_1X_TYPE_EAPOL_KEY (sizeof_wpa_eapol_key + zlen ie) s)
    as (o & -> & Ho); [unfold sizeof_wpa_eapol_key; lia|]. cbv zeta iota beta.
  set (s1 := say _ s). assert (wf_sup s1) as Hw1 by by apply wf_say.
  assert (still harmless s s1) as Hst1 by by apply still_say.
  destruct o as [msg|]; [|by apply runs_ret]. rewrite rd_n_all. cbn [mbind res_bind].
  eapply runs_weaken; [apply (answer_runs frame ver _ ie (Some (Sup.snonce (su s)))); try done|].
  - rewrite (Ho msg eq_refl). unfold o_key_data, sizeof_wpa_eapol_key. lia.
  - apply (s_sizes s Hw).
  - intros [r s2] (_ & ? & ?). split; [done|by eapply still_trans].
Qed.

Lemma send_4_of_4_runs frame ver ki ptk s : wf_frame frame -> wf_sup s ->
  runs (wpa_supplicant_send_4_of_4 None frame ver ki [] ptk s)
    (fun '(r, s') => wf_sup s' /\ still harmless s s').
Proof.
  intros Hf Hw. unfold wpa_supplicant_send_4_of_4.
  destruct (alloc_eapol_eq IEEE802_1X_TYPE_EAPOL_KEY (sizeof_wpa_eapol_key + zlen (@nil Z)) s)
    as (o & -> & Ho); [done|]. cbv zeta iota beta.
  set (s1 := say _ s). assert (wf_sup s1) as Hw1 by by apply wf_say.
  assert (still harmless s s1) as Hst1 by by apply still_say.
  destruct o as [msg|]; [|by apply runs_ret].
  eapply runs_weaken; [apply (answer_runs frame ver _ [] None); try done|].
  - by rewrite (Ho msg eq_refl).
  - intros [r s2] (_ & ? & ?). split; [done|by eapply still_trans].
Qed.

Lemma send_2_of_2_runs frame ver ki s : wf_frame frame -> wf_sup s ->
  runs (wpa_supplicant_send_2_of_2 frame ver ki s)
    (fun '(r, s') => wf_sup s' /\ still harmless s s').
Proof.
  intros Hf Hw. unfold wpa_supplicant_send_2_of_2.
  destruct (alloc_eapol_eq IEEE802_1X_TYPE_EAPOL_KEY sizeof_wpa_eapol_key s)
    as (o & -> & Ho); [done|]. cbv zeta iota beta.
  set (s1 := say _ s). assert (wf_sup s1) as Hw1 by by apply wf_say.
  assert (still harmless s s1) as Hst1 by by apply still_say.
  destruct o as [msg|]; [|by apply runs_ret].
  eapply runs_weaken; [apply (answer_runs frame ver _ [] None); try done|].
  - by rewrite (Ho msg eq_refl).
  - intros [r s2] (_ & ? & ?). split; [done|by eapply still_trans].
Qed.

Lemma key_request_runs error pairwise s : wf_sup s ->
  runs (wpa_sm_key_request error pairwise s) (fun s' => wf_sup s' /\ still harmless s s').
Proof.
  intros Hw. unfold wpa_sm_key_request, wpa_sm_get_bssid. cbv zeta iota beta.
  destruct (get_bssid _) as [r d]. destruct (r <? 0).
  { apply runs_ret. split; [by apply wf_say|by apply still_say]. }
  set (s1 := say SGetBssid s).
  destruct (alloc_eapol_eq IEEE802_1X_TYPE_EAPOL_KEY sizeof_wpa_eapol_key s1) as (o & -> & Ho); [done|].
  set (s2 := say _ s1). assert (wf_sup s2) as Hw2 by by apply wf_say, wf_say.
  assert (still harmless s s2) as Hst2 by (split; [done|done|exact (log_ext_step _ _ _ _ I (log_ext_cons _ SGetBssid _ I))]).
  cbv zeta iota beta. destruct o as [msg|]; [|by apply runs_ret].
  set (ki := if pairwise then _ else _).
  destruct (put_reply_runs (su s2) ki (WPA_PUT_BE16 0) (Sup.request_counter (su s2)) [] msg) as (b & -> & Hb);
    [done|apply (s_sizes s Hw)|by rewrite (Ho msg eq_refl)|]. cbn [mbind res_bind].
  pose proof (w_request _ (s_sizes s Hw)) as Hrc. unfold inc_byte_array.
  destruct (inc_byte_array_loop_runs (Z.to_nat WPA_REPLAY_COUNTER_LEN) (Sup.request_counter (su s2))) as (c & -> & Hc).
  { change (Sup.request_counter (su s2)) with (Sup.request_counter (su s)). unfold zlen in Hrc. lia. }
  cbn [mbind res_bind]. set (s3 := s2 <| su; Sup.request_counter := c |>).
  assert (wf_sup s3) as Hw3.
  { apply wf_set; [done| |done|done]. destruct (s_sizes s Hw). split; try done. cbn. by rewrite Hc. }
  eapply runs_weaken; [apply key_send_runs; [done|rewrite Hb, (Ho msg eq_refl); done]|].
  intros s4 [? ?]. split; [done|]. eapply still_trans; [exact Hst2|].
  eapply still_trans; [|eassumption]. by split; [| |apply log_ext_refl].
Qed.

(** ** The pairwise master key *)

Lemma wr_front dst src n m : zlen dst = n -> zlen src = m -> m <= n ->
  exists d, wr_n dst 0 src = Ok d /\ zlen d = n.
Proof. intros <- <- Hle. by apply wr_n_runs. Qed.

Lemma set_pmk_wf s k n : wf_sup s -> zlen k = PMK_LEN -> 0 <= n <= PMK_LEN ->
  wf_sup (s <| su; Sup.pmk_len := n |> <| su; Sup.pmk := k |>) /\
  still harmless s (s <| su; Sup.pmk_len := n |> <| su; Sup.pmk := k |>).
Proof.
  intros Hw Hk Hn. split.
  - apply wf_set; [apply wf_set; [done| |done|done]| |done|done]; destruct (s_sizes s Hw); by split.
  - by split; [| |apply log_ext_refl].
Qed.

Lemma set_pmk_from_pmksa_runs s : wf_sup s ->
  runs (wpa_sm_set_pmk_from_pmksa s) (fun s' => wf_sup s' /\ still harmless s s').
Proof.
  intros Hw. unfold wpa_sm_set_pmk_from_pmksa.
  destruct (Sup.cur_pmksa (su s)) as [p|] eqn:Hc.
  - destruct (entry_at_runs p (entries s) (fresh s)) as (e & -> & He & _);
      [apply Hw|by apply (s_cur s Hw)|]. cbn [mbind res_bind].
    pose proof (e_pmk_len _ He). destruct (rd_n_runs (Entry.pmk e) 0 (Entry.pmk_len e)) as (d & -> & Hd);
      [lia|lia|rewrite (e_pmk _ He); lia|]. cbn [mbind res_bind].
    destruct (wr_front (Sup.pmk (su s)) d PMK_LEN (Entry.pmk_len e)) as (k & Hk & Hkl);
      [apply (s_sizes s Hw)|done|lia|]. cbn [Sup.pmk]. 
    change (Sup.pmk (su (s <| su; Sup.pmk_len := Entry.pmk_len e |>))) with (Sup.pmk (su s)). rewrite Hk.
    by apply runs_ret, set_pmk_wf.
  - by apply runs_ret, set_pmk_wf.
Qed.

Lemma fetch_pmk_runs s : wf_sup s ->
  runs (fetch_pmk s) (fun '(r, n, s') => 0 <= n <= PMK_LEN /\ wf_sup s' /\ still harmless s s' /\
    Sup.cur_pmksa (su s') = Sup.cur_pmksa (su s)).
Proof.
  intros Hw. unfold fetch_pmk. cbv zeta. set (s1 := say _ s).
  assert (wf_sup s1) as Hw1 by by apply wf_say.
  assert (still harmless s s1) as Hst1 by by apply still_say.
  destruct (eapol_sm_get_key (slg s1) PMK_LEN) as [r d] eqn:Hd. apply get_key_len in Hd; [|done].
  pose proof (w_pmk _ (s_sizes s Hw)) as Hp. destruct (Z.eqb_spec r 0).
  - destruct (wr_front (Sup.pmk (su s1)) d PMK_LEN PMK_LEN) as (k & -> & Hk); [done|done|lia|].
    apply runs_ret. split_and!; [done|done| | |done].
    + apply wf_set; [done| |done|done]. destruct (s_sizes s Hw). by split.
    + eapply still_trans; [exact Hst1|]. by split; [| |apply log_ext_refl].
  - set (s2 := say _ s1). assert (wf_sup s2) as Hw2 by by apply wf_say.
    assert (still harmless s s2) as Hst2 by (eapply still_trans; [exact Hst1|]; by apply still_say).
    destruct (eapol_sm_get_key (slg s2) 16) as [r2 d2] eqn:Hd2. apply get_key_len in Hd2; [|done].
    destruct (r2 =? 0); [|by apply runs_ret].
    destruct (wr_front (Sup.pmk (su s2)) d2 PMK_LEN 16) as (k & -> & Hk); [done|done|done|].
    apply runs_ret. split_and!; [done|done| | |done].
    + apply wf_set; [done| |done|done]. destruct (s_sizes s Hw). by split.
    + eapply still_trans; [exact Hst2|]. by split; [| |apply log_ext_refl].
Qed.

Lemma set_cur_wf p s : wf_sup s -> held p (entries s) ->
  wf_sup (set_cur p s) /\ still harmless s (set_cur p s).
Proof.
  intros [Hz Hl Hc Hm Hh] Hp. split; [|by split; [| |apply log_ext_refl]].
  split; [by destruct Hz; split|exact Hl|exact Hc|exact Hm|exact Hp].
Qed.

Lemma find_entry_held test l : held (find_entry test l) l.
Proof.
  intros p. induction l as [|[q e] l IH]; cbn; [done|]. destruct (test e).
  - intros [= <-]. apply list_elem_of_here.
  - intros ?. apply list_elem_of_further. auto.
Qed.

Lemma pmkid_is_current_runs pmkid s : wf_sup s -> exists b, pmkid_is_current pmkid s = Ok b.
Proof.
  intros Hw. unfold pmkid_is_current. destruct pmkid as [id|]; [|by eexists].
  destruct (Sup.cur_pmksa (su s)) as [p|] eqn:Hc; [|by eexists].
  destruct (entry_at_runs p (entries s) (fresh s)) as (e & -> & _);
    [apply Hw|by apply (s_cur s Hw)|]. by eexists.
Qed.

Lemma pmk_from_eapol_runs src pmkid b s : wf_sup s -> zlen src = 6 ->
  runs (pmk_from_eapol src pmkid b s) (fun '(_, s') => wf_sup s' /\ still harmless s s').
Proof.
  intros Hw Hsrc. unfold pmk_from_eapol.
  rstep ltac:(by apply fetch_pmk_runs) as r Hr. destruct r as [[r n] s1].
  destruct Hr as (Hn & Hw1 & Hst1 & Hcur). destruct (r =? 0).
  - set (s2 := s1 <| su; Sup.pmk_len := n |>).
    assert (wf_sup s2) as Hw2.
    { apply wf_set; [done| |done|done]. destruct (s_sizes s1 Hw1). by split. }
    assert (still harmless s s2) as Hst2.
    { eapply still_trans; [exact Hst1|]. by split; [| |apply log_ext_refl]. }
    rstep ltac:(instantiate (1 := fun s3 => wf_sup s3 /\ still harmless s s3)) as s3 H3.
    { destruct (_ =? _); [|by apply runs_ret].
      rstep ltac:(apply pmksa_cache_add_runs; [done|apply (s_sizes s2 Hw2)|lia|done]) as x Hx.
      destruct x as [o s3]. destruct Hx as (? & ? & _). apply runs_ret. split; [done|by eapply still_trans]. }
    by apply runs_ret.
  - destruct (Sup.cur_pmksa (su s1)); apply runs_ret; [|done].
    destruct (set_cur_wf None s1 Hw1 (held_none _)). split; [done|by eapply still_trans].
Qed.

Lemma request_full_eap_runs s : wf_sup s ->
  runs (request_full_eap s) (fun '(_, s') => wf_sup s' /\ still harmless s s').
Proof.
  intros Hw. unfold request_full_eap.
  destruct (alloc_eapol_eq IEEE802_1X_TYPE_EAPOL_START 0 s) as (o & -> & _); [done|].
  apply runs_ret. cbv iota beta. destruct o.
  - split; [by apply wf_say, wf_say|]. split; [done|done|cbn [slg say wpa_sm_ether_send]].
    exact (log_ext_step _ _ _ _ I (log_ext_cons _ (SMalloc (4 + 0)) _ I)).
  - split; [by apply wf_say|by apply still_say].
Qed.

Lemma get_pmk_runs src pmkid s : wf_sup s -> zlen src = 6 ->
  runs (wpa_supplicant_get_pmk src pmkid s) (fun '(_, s') => wf_sup s' /\ still harmless s s').
Proof.
  intros Hw Hsrc. unfold wpa_supplicant_get_pmk.
  match goal with |- runs (let '(_, _) := ?t in _) _ =>
    assert (wf_sup (snd t) /\ still harmless s (snd t)) as [Hw1 Hst1]; [|destruct t as [b s1]] end.
  { destruct pmkid; [|by auto with sup]. destruct (Sup.cur_pmksa (su s)) eqn:Hc; [by auto with sup|].
    cbn [snd]. apply set_cur_wf; [done|apply find_entry_held]. }
  cbn [snd] in *. destruct (pmkid_is_current_runs pmkid s1 Hw1) as (cur & ->). cbn [mbind res_bind].
  rstep ltac:(instantiate (1 := fun '(_, s2) => wf_sup s2 /\ still harmless s s2)) as x Hx.
  { destruct cur; [|destruct (_ && _)].
    - rstep ltac:(by apply set_pmk_from_pmksa_runs) as s2 H2. destruct H2 as [Hw2 Hst2].
      apply runs_ret. split; [by apply wf_say|]. eapply still_trans; [exact Hst1|].
      eapply still_trans; [exact Hst2|by apply still_say].
    - eapply runs_weaken; [by apply pmk_from_eapol_runs|]. intros [y s2] [? ?].
      split; [done|by eapply still_trans].
    - by apply runs_ret. }
  destruct x as [[b'|r] s2]; destruct Hx as [Hw2 Hst2]; [|by apply runs_ret].
  destruct (_ && _); [|by apply runs_ret]. eapply runs_weaken; [by apply request_full_eap_runs|].
  intros [r s3] [? ?]. split; [done|by eapply still_trans].
Qed.

(** ** Message 1/4 *)

Lemma derive_ptk_runs frame s : wf_frame frame -> wf_sup s ->
  exists k, wpa_derive_ptk frame s = Ok k /\ zlen k = sizeof_wpa_ptk.
Proof.
  intros Hf Hw. unfold wpa_derive_ptk. pose proof (w_pmk_len _ (s_sizes s Hw)).
  destruct (rd_n_runs (Sup.pmk (su s)) 0 (Sup.pmk_len (su s))) as (pmk & -> & _);
    [lia|lia|rewrite (w_pmk _ (s_sizes s Hw)); lia|]. cbn [mbind res_bind].
  destruct (field_runs frame o_key_nonce WPA_NONCE_LEN Hf) as (n & -> & _); [done..|]. cbn [mbind res_bind].
  pose proof (w_tptk _ (s_sizes s Hw)) as Ht. unfold sizeof_wpa_ptk in *.
  set (len := if _ =? _ then 48 else 64). assert (0 <= len <= 64) as Hlen by (unfold len; case_match; lia).
  eexists. split; [done|]. destruct (wpa_pmk_to_ptk _ _ _ _ _ _ _ _) as [k|] eqn:Hk.
  - apply pmk_to_ptk_len in Hk; [|lia]. rewrite zlen_copy_front; lia.
  - pose proof (uninit_len (slg s) len). rewrite zlen_copy_front; lia.
Qed.

Lemma zlen_take (l : list Z) n : Z.of_nat n <= zlen l -> zlen (take n l) = Z.of_nat n.
Proof. intros. unfold zlen in *. rewrite length_take. lia. Qed.
Lemma zlen_drop (l : list Z) n : Z.of_nat n <= zlen l -> zlen (drop n l) = zlen l - Z.of_nat n.
Proof. intros. unfold zlen in *. rewrite length_drop. lia. Qed.

Lemma swap_mic_keys_len k : zlen k = sizeof_wpa_ptk -> zlen (swap_mic_keys k) = sizeof_wpa_ptk.
Proof.
  unfold sizeof_wpa_ptk, swap_mic_keys, zlen. intros Hk.
  rewrite !length_app, !length_take, !length_drop. lia.
Qed.

Lemma key_data_len frame : wf_frame frame -> zlen (key_data frame) = zlen frame - o_key_data /\ bytes (key_data frame).
Proof.
  intros [Hb Hl]. unfold key_data. split; [|by apply Forall_drop].
  rewrite zlen_drop; unfold o_key_data in *; lia.
Qed.

Lemma covers_le n m p : n <= m -> covers n p -> covers m p.
Proof. destruct p as [[o l]|]; cbn; [lia|done]. Qed.

Lemma eie_inside_le n m ie : eie_inside n ie -> n <= m -> eie_inside m ie.
Proof. intros (?&?&?&?&?) Hle. split_and!; by apply (covers_le n). Qed.

(** The key data are parsed, and the pointers lead into them. *)
Lemma parse_frame_runs frame : wf_frame frame -> key_data_inside frame ->
  exists n r ie, WPA_GET_BE16 frame o_key_data_length = Ok n /\
    wpa_supplicant_parse_ies (key_data frame) n = Ok (r, ie) /\
    eie_inside (zlen (key_data frame)) ie.
Proof.
  intros Hf (n & Hn & Hpos & Hle). destruct (key_data_len frame Hf) as [Hlen Hb].
  destruct (parsers_agree_runs (key_data frame) n Hb) as (r & d & ie & _ & Hs & _ & Hi); [lia|].
  exists n, r, ie. split; [done|]. split; [done|].
  apply (eie_inside_le n); [done|lia].
Qed.

Lemma msg1_pmkid_reads m frame : wf_frame frame -> key_data_inside frame ->
  exists o, msg1_pmkid m frame = Ok o.
Proof.
  intros Hf Hk. unfold msg1_pmkid. destruct (_ =? _); [|by eexists].
  destruct (parse_frame_runs frame Hf Hk) as (n & r & ie & -> & Hp & Hi). cbn [mbind res_bind].
  rewrite Hp. cbn [mbind res_bind]. destruct Hi as (_ & _ & _ & _ & Hi).
  destruct (Eie.pmkid ie) as [p|]; [|by eexists]. cbn in Hi.
  destruct (rd_n_runs (key_data frame) p PMKID_LEN) as (d & -> & _); [lia|done|lia|]. by eexists.
Qed.

Lemma renew_wf s : wf_sup s -> wf_sup (snd (renew s)) /\
  settled (su (snd (renew s))) = settled (su s) /\ log_ext harmless (slg s) (slg (snd (renew s))).
Proof.
  intros Hw. unfold renew. destruct (Sup.renew_snonce (su s)); [|by split; [|split; [|apply log_ext_refl]]].
  cbv zeta. set (s1 := say _ s). destruct (random_get_bytes _ _) as [r d] eqn:Hd.
  apply random_len in Hd; [|done].
  assert (wf_sup (s1 <| su; Sup.snonce := d |>)) as Hw1.
  { apply wf_set; [by apply wf_say| |done|done]. destruct (s_sizes s Hw). by split. }
  destruct (negb _); cbn [snd]; (split; [|split; [done|by apply log_ext_cons]]); [done|].
  apply wf_set; [done| |done|done]. destruct (s_sizes s Hw). by split.
Qed.

(** What a frame that nobody vouches for may do: neither the keys in use nor the
    replay counter change, no key is installed and no port opened. *)
Definition unproven (s s' : sst) : Prop :=
  settled (su s') = settled (su s) /\ log_ext harmless (slg s) (slg s').

Lemma unproven_trans s1 s2 s3 : unproven s1 s2 -> unproven s2 s3 -> unproven s1 s3.
Proof. intros [] []. split; [congruence|by eapply log_ext_trans]. Qed.
Lemma still_unproven s s' : still harmless s s' -> unproven s s'.
Proof. by intros []. Qed.

Lemma failed_runs P s : P (SDeauthenticate WLAN_REASON_UNSPECIFIED) -> wf_sup s ->
  runs (failed s) (fun s' => wf_sup s' /\ still P s s').
Proof.
  intros HP Hw. unfold failed. rewrite deauth_eq. apply runs_ret.
  split; [by apply cleared_wf, wf_say|]. eapply still_trans; [by apply still_say|apply cleared_still].
Qed.

Lemma process_1_of_4_runs src frame ver s : wf_frame frame -> key_data_inside frame ->
  wf_sup s -> zlen src = 6 ->
  runs (wpa_supplicant_process_1_of_4 src frame ver s) (fun s' => wf_sup s' /\ unproven s s').
Proof.
  intros Hf Hk Hw Hsrc. unfold wpa_supplicant_process_1_of_4, wpa_sm_get_network_ctx. cbv zeta iota beta.
  set (s1 := say SGetNetworkCtx s). assert (wf_sup s1) as Hw1 by by apply wf_say.
  assert (unproven s s1) as Hu1 by (split; [done|by apply log_ext_cons]).
  destruct (get_network_ctx _); [|by apply runs_ret].
  set (s2 := wpa_sm_set_state _ s1). assert (wf_sup s2) as Hw2 by by apply wf_say.
  assert (unproven s s2) as Hu2 by (eapply unproven_trans; [exact Hu1|]; split; [done|by apply log_ext_cons]).
  destruct (msg1_pmkid_reads (su s2) frame Hf Hk) as (pmkid & ->). cbn [mbind res_bind].
  rstep ltac:(by apply get_pmk_runs) as x Hx. destruct x as [r s3]. destruct Hx as [Hw3 Hst3].
  assert (unproven s s3) as Hu3 by (eapply unproven_trans; [exact Hu2|by apply still_unproven]).
  assert (forall s', wf_sup s' -> unproven s s' ->
    runs (failed s') (fun s' => wf_sup s' /\ unproven s s')) as Hfail.
  { intros s' Hw' Hu'. eapply runs_weaken; [by apply (failed_runs harmless)|].
    intros s'' [? ?]. split; [done|]. eapply unproven_trans; [exact Hu'|by apply still_unproven]. }
  destruct (r =? -2); [by apply runs_ret|]. destruct (negb (r =? 0)); [by apply Hfail|].
  destruct (renew_wf s3 Hw3) as (Hw4 & Hset4 & Hlog4). destruct (renew s3) as [ok s4]. cbn [snd] in *.
  assert (unproven s s4) as Hu4 by (eapply unproven_trans; [exact Hu3|done]).
  destruct (negb ok); [by apply Hfail|].
  destruct (derive_ptk_runs frame s4 Hf Hw4) as (k & -> & Hk4). cbn [mbind res_bind]. cbv zeta.
  set (s5 := _ <| su; Sup.tptk_set := true |>).
  assert (wf_sup s5) as Hw5.
  { apply wf_set; [apply wf_set; [done| |done|done]| |done|done]; destruct (s_sizes s4 Hw4);
      split; try done; by apply swap_mic_keys_len. }
  assert (unproven s s5) as Hu5 by (eapply unproven_trans; [exact Hu4|]; split; [done|apply log_ext_refl]).
  rstep ltac:(by apply send_2_of_4_runs) as x Hx. destruct x as [r2 s6]. destruct Hx as [Hw6 Hst6].
  assert (unproven s s6) as Hu6 by (eapply unproven_trans; [exact Hu5|by apply still_unproven]).
  destruct (negb _); [by apply Hfail|].
  destruct (field_runs frame o_key_nonce WPA_NONCE_LEN Hf) as (an & -> & Han); [done..|].
  apply runs_ret. split.
  - apply wf_set; [done| |done|done]. destruct (s_sizes s6 Hw6). by split.
  - eapply unproven_trans; [exact Hu6|]. split; [done|apply log_ext_refl].
Qed.
End run.
