(* ===== verification/WpaSuppKeys.v ===== *)
(** * The supplicant's keys, elements and handshake messages run

    Installing the pairwise, the group and the integrity group key, the elements
    of the access point, message 3/4 and the group key handshake: every one
    returns, keeps the type invariant, and leaves the keys in use and the replay
    counter alone. *)

From S2P Require Import Prelude CommonUtils WpaCommon WpaIeProps WpaSuppI WpaSuppPmksa WpaSuppIe.
From S2P Require Import WpaSupp WpaSuppWf WpaSuppIeProps WpaSuppRun.

(** The outcome of an operation behind authentication. *)
Definition kept (s s' : sst) : Prop := wf_sup s' /\ still anything s s'.

Lemma kept_after s1 s2 s3 : still anything s1 s2 -> kept s2 s3 -> kept s1 s3.
Proof. intros ? []. split; [done|by eapply still_trans]. Qed.
Lemma kept_say c s : wf_sup s -> kept s (say c s).
Proof. intros. split; [by apply wf_say|by apply still_say]. Qed.
Lemma kept_self s : wf_sup s -> kept s s.
Proof. intros. split; [done|apply still_refl]. Qed.
#[export] Hint Resolve kept_say kept_self : sup.

(** The outcome of one that tells the owner nothing that matters. *)
Definition calm (s s' : sst) : Prop := wf_sup s' /\ still harmless s s'.

Lemma calm_kept s s' : calm s s' -> kept s s'.
Proof. intros []. split; [done|by eapply still_any]. Qed.
Lemma calm_trans s1 s2 s3 : calm s1 s2 -> calm s2 s3 -> calm s1 s3.
Proof. intros [] []. split; [done|by eapply still_trans]. Qed.
Lemma calm_say c s : harmless c -> wf_sup s -> calm s (say c s).
Proof. intros. split; [by apply wf_say|by apply still_say]. Qed.
Lemma calm_refl s : wf_sup s -> calm s s.
Proof. intros. split; [done|apply still_refl]. Qed.
#[export] Hint Resolve calm_refl : sup.

(** Assignments to fields that are neither a key in use nor of the handshake. *)
Lemma calm_upd s s' : wf_sup s -> wf_sizes (su s') -> slg s' = slg s ->
  Sup.pmksa (su s') = Sup.pmksa (su s) -> Sup.cur_pmksa (su s') = Sup.cur_pmksa (su s) ->
  settled (su s') = settled (su s) -> pending (su s') = pending (su s) -> calm s s'.
Proof.
  intros Hw Hz Hl Hp Hc Hs Hn. split; [exact (wf_sup_log _ (slg s') (wf_set s (su s') Hw Hz Hp Hc))|].
  split; [done|done|]. rewrite Hl. apply log_ext_refl.
Qed.

Section keys.
Context {cr : Crypto} {c_laws : CryptoLaws cr} {un : KeyUnwrap} {u_laws : KeyUnwrapLaws cr un}.
Context {h : Host} {h_laws : HostLaws h}.

Lemma failed_kept s0 s : still anything s0 s -> wf_sup s -> runs (failed s) (kept s0).
Proof.
  intros Hst Hw. eapply runs_weaken; [by apply (failed_runs anything)|].
  intros s' ?. by eapply kept_after.
Qed.

(** ** Keys for the driver *)

Lemma key_neg_complete_runs addr secure s : wf_sup s ->
  runs (wpa_supplicant_key_neg_complete addr secure s) (kept s).
Proof.
  intros Hw. unfold wpa_supplicant_key_neg_complete. cbv zeta.
  match goal with |- context [if secure then ?a else ?b] => set (s1 := if secure then a else b) end.
  assert (kept s s1) as [Hw1 Hst1].
  { unfold s1. destruct secure; [case_match|]; (split; [by repeat apply wf_say|]).
    all: split; [done|done|cbn [slg say wpa_sm_mlme_setprotection wpa_sm_set_state wpa_sm_cancel_auth_timeout]; grow]. }
  destruct (Sup.cur_pmksa (su s1)) as [p|] eqn:Hc; [|by apply runs_ret].
  destruct (entry_at_runs p (entries s1) (fresh s1)) as (e & -> & _);
    [apply Hw1|by apply (s_cur s1 Hw1)|]. cbn [mbind res_bind]. apply runs_ret.
  destruct (negb _); [|done]. split.
  2: { eapply still_trans; [exact Hst1|]. by split; [| |apply log_ext_refl]. }
  apply update_entry_wf; [by intros ? []; split|done].
Qed.

Lemma install_ptk_runs frame s : wf_frame frame -> wf_sup s ->
  runs (wpa_supplicant_install_ptk frame s) (fun '(_, s') => kept s s').
Proof.
  intros Hf Hw. unfold wpa_supplicant_install_ptk. cbv zeta.
  pose proof (w_ptk _ (s_sizes s Hw)) as Hp.
  assert (forall alg keylen rsclen, 0 <= keylen <= 32 -> 0 <= rsclen <= 8 ->
    runs (key_rsc ← (if Sup.proto (su s) =? WPA_PROTO_RSN then mret (replicate (Z.to_nat rsclen) 0)
                     else rd_n frame o_key_rsc rsclen);
          k ← rd_n (Sup.ptk (su s)) 32 keylen;
          let '(r, s) := wpa_sm_set_key alg (Some (Sup.bssid (su s))) 0 1 key_rsc k s in
          if r <? 0 then mret (-1, s)
          else if negb (Sup.wpa_ptk_rekey (su s) =? 0) then
            mret (0, say (SRegister (Sup.wpa_ptk_rekey (su (say (SCancel wpa_sm_rekey_ptk_) s)))
                            wpa_sm_rekey_ptk_) (say (SCancel wpa_sm_rekey_ptk_) s))
          else mret (0, s)) (fun '(_, s') => kept s s')) as Hgo.
  { intros alg keylen rsclen Hk Hr.
    rstep ltac:(instantiate (1 := fun _ => True)) as rsc Hrsc.
    { destruct (_ =? _); [by apply runs_ret|].
      destruct (field_runs frame o_key_rsc rsclen Hf) as (d & -> & _); [done|lia|unfold o_key_rsc, o_key_data; lia|].
      by apply runs_ret. }
    destruct (rd_n_runs (Sup.ptk (su s)) 32 keylen) as (k & -> & _); [lia|lia|rewrite Hp; unfold sizeof_wpa_ptk; lia|].
    cbn [mbind res_bind]. unfold wpa_sm_set_key. cbv zeta iota beta.
    destruct (_ <? 0); [apply runs_ret; by auto with sup|].
    destruct (negb _); apply runs_ret; [|by auto with sup].
    split; [by repeat apply wf_say|]. split; [done|done|cbn [slg say]; grow]. }
  destruct (Sup.pairwise_cipher (su s) =? WPA_CIPHER_CCMP); [by apply Hgo|].
  destruct (Sup.pairwise_cipher (su s) =? WPA_CIPHER_TKIP); [by apply Hgo|].
  destruct (Sup.pairwise_cipher (su s) =? _); apply runs_ret; by auto with sup.
Qed.

(** A group key the checks let through. *)
Record wf_gd (gd : wpa_gtk_data) : Prop := {
  gd_gtk : zlen (gtk gd) = 32;
  gd_len : 0 <= gtk_len gd <= 32;
  gd_rsc : 0 <= key_rsc_len gd <= 8;
}.

Lemma check_group_cipher_some c keylen max r a :
  wpa_supplicant_check_group_cipher c keylen max = Some (r, a) -> 0 <= keylen <= 32 /\ 0 <= r <= 8 /\ keylen <= max.
Proof.
  unfold wpa_supplicant_check_group_cipher. intros H. repeat case_match; simplify_eq; try done.
  all: match goal with H : (_ || _) = false |- _ => apply orb_false_iff in H as [?%negb_false_iff%Z.eqb_eq ?%Z.ltb_ge] end.
  all: lia.
Qed.

Lemma install_gtk_runs gd frame s : wf_gd gd -> wf_frame frame -> wf_sup s ->
  runs (wpa_supplicant_install_gtk gd frame s) (fun '(_, s') => kept s s').
Proof.
  intros [Hg Hl Hr] Hf Hw. unfold wpa_supplicant_install_gtk. cbv zeta.
  destruct (field_runs frame o_key_rsc (key_rsc_len gd) Hf) as (d & -> & _);
    [done|lia|unfold o_key_rsc, o_key_data; lia|]. cbn [mbind res_bind].
  match goal with |- context [rd_n ?g 0 _] => assert (zlen g = 32) as Hg' end.
  { case_match; [|done]. unfold zlen in *. rewrite !length_app, !length_take, !length_drop. lia. }
  match goal with |- context [rd_n ?g 0 ?n] => destruct (rd_n_runs g 0 n) as (k & -> & _); [lia..|] end.
  cbn [mbind res_bind]. unfold wpa_sm_set_key. cbv zeta.
  destruct (Sup.pairwise_cipher (su s) =? _); apply runs_ret; by auto with sup.
Qed.

Lemma pairwise_gtk_runs frame kde ki s : wf_frame frame -> wf_sup s ->
  runs (wpa_supplicant_pairwise_gtk frame kde ki s) (fun '(_, s') => kept s s').
Proof.
  intros Hf Hw. unfold wpa_supplicant_pairwise_gtk. cbv zeta.
  destruct (Z.ltb_spec (zlen kde) 2); [apply runs_ret; by auto with sup|].
  destruct (Z.ltb_spec 32 (zlen kde - 2)); [apply runs_ret; by auto with sup|]. cbn [orb].
  rewrite rd_ok by lia. cbn [mbind res_bind].
  destruct (rd_n_runs kde 2 (zlen kde - 2)) as (d & -> & Hd); [lia..|]. cbn [mbind res_bind].
  destruct (wr_n_runs (replicate 32 0) 0 d) as (g & Hg & Hgl); [lia|rewrite zlen_replicate; lia|].
  match goal with |- runs (?t ≫= _) _ => change t with (wr_n (replicate 32 0) 0 d) end.
  rewrite Hg. cbn [mbind res_bind].
  destruct (wpa_supplicant_check_group_cipher _ _ _) as [[r a]|] eqn:Hc; [|apply runs_ret; by auto with sup].
  apply check_group_cipher_some in Hc as (? & ? & _).
  rstep ltac:(apply install_gtk_runs; [split; [exact Hgl|done|done]|done|done]) as x Hx.
  destruct x as [r' s1]. destruct Hx as [Hw1 Hst1].
  destruct (negb _); [by apply runs_ret|].
  rstep ltac:(by apply key_neg_complete_runs) as s2 Hs2. apply runs_ret. by eapply kept_after.
Qed.

Lemma set_igtk_runs kd ie s : bytes kd -> eie_inside (zlen kd) ie -> wf_sup s ->
  runs (ieee80211w_set_keys kd ie s) (fun '(_, s') => kept s s').
Proof.
  intros Hb (_ & _ & _ & Hi & _) Hw. unfold ieee80211w_set_keys.
  destruct (negb _); [apply runs_ret; by auto with sup|].
  destruct (Eie.igtk ie) as [[p l]|]; [|apply runs_ret; by auto with sup]. cbn in Hi.
  destruct (Z.eqb_spec l sizeof_wpa_igtk_kde) as [-> |]; [|apply runs_ret; by auto with sup].
  unfold sizeof_wpa_igtk_kde in *. cbn [negb].
  destruct (WPA_GET_LE16_total kd p) as (v & -> & _); [done|lia|lia|]. cbn [mbind res_bind].
  destruct (4095 <? v); [apply runs_ret; by auto with sup|].
  destruct (rd_n_runs kd (p + 2) 6) as (pn & -> & _); [lia..|]. cbn [mbind res_bind].
  destruct (rd_n_runs kd (p + 8) WPA_IGTK_LEN) as (k & -> & _); [unfold WPA_IGTK_LEN; lia..|].
  cbn [mbind res_bind]. unfold wpa_sm_set_key. cbv zeta. apply runs_ret. by auto with sup.
Qed.
(** ** The elements of the access point *)

Lemma copy_ie_runs ie len s : wf_sup s -> (forall d, ie = Some d -> 0 <= len <= zlen d) ->
  runs (copy_ie ie len s) (fun '(r, s') => calm s s' /\ su s' = su s /\
    forall d n, r = Some (Some d, n) -> zlen d = n /\ n = len).
Proof.
  intros Hw Hl. unfold copy_ie. destruct ie as [ie|]; [|apply runs_ret; by split_and!; [auto with sup|..]].
  specialize (Hl ie eq_refl). destruct (len =? 0); [apply runs_ret; by split_and!; [auto with sup|..]|].
  unfold os_malloc. cbv zeta iota beta.
  destruct (negb _); [apply runs_ret; by split_and!; [by apply calm_say|..]|].
  destruct (rd_n_runs ie 0 len) as (d & -> & Hd); [lia..|]. cbn [mbind res_bind].
  apply runs_ret. split_and!; [by apply calm_say|done|]. by intros ? ? [= <- <-].
Qed.

Lemma set_assoc_wpa_ie_runs ie len s : wf_sup s ->
  (forall d, ie = Some d -> 0 <= len <= zlen d) -> len <= 65440 ->
  runs (wpa_sm_set_assoc_wpa_ie ie len s) (fun '(_, s') => calm s s').
Proof.
  intros Hw Hl Hmax. unfold wpa_sm_set_assoc_wpa_ie.
  rstep ltac:(by apply copy_ie_runs) as x Hx. destruct x as [r s1].
  destruct Hx as (Hc1 & Hsu & Hr); pose proof (proj1 Hc1) as Hw1. apply runs_ret.
  destruct r as [[p n]|]; (eapply calm_trans; [exact Hc1|]).
  - apply calm_upd; try done. destruct (s_sizes s1 Hw1). split; try done. cbn. intros d Hd. subst p.
    destruct (Hr d n eq_refl) as [-> ->]. by split.
  - apply calm_upd; try done. destruct (s_sizes s1 Hw1). by split.
Qed.

Lemma set_ap_wpa_ie_runs ie len s : wf_sup s -> (forall d, ie = Some d -> 0 <= len <= zlen d) ->
  runs (wpa_sm_set_ap_wpa_ie ie len s) (fun '(_, s') => calm s s').
Proof.
  intros Hw Hl. unfold wpa_sm_set_ap_wpa_ie.
  rstep ltac:(by apply copy_ie_runs) as x Hx. destruct x as [r s1].
  destruct Hx as (Hc1 & Hsu & Hr); pose proof (proj1 Hc1) as Hw1. apply runs_ret.
  destruct r as [[p n]|]; (eapply calm_trans; [exact Hc1|]).
  - apply calm_upd; try done. destruct (s_sizes s1 Hw1). split; try done. cbn. intros d Hd. subst p.
    destruct (Hr d n eq_refl) as [-> ->]. done.
  - apply calm_upd; try done. destruct (s_sizes s1 Hw1). by split.
Qed.

Lemma set_ap_rsn_ie_runs ie len s : wf_sup s -> (forall d, ie = Some d -> 0 <= len <= zlen d) ->
  runs (wpa_sm_set_ap_rsn_ie ie len s) (fun '(_, s') => calm s s').
Proof.
  intros Hw Hl. unfold wpa_sm_set_ap_rsn_ie.
  rstep ltac:(by apply copy_ie_runs) as x Hx. destruct x as [r s1].
  destruct Hx as (Hc1 & Hsu & Hr); pose proof (proj1 Hc1) as Hw1. apply runs_ret.
  destruct r as [[p n]|]; (eapply calm_trans; [exact Hc1|]).
  - apply calm_upd; try done. destruct (s_sizes s1 Hw1). split; try done. cbn. intros d Hd. subst p.
    destruct (Hr d n eq_refl) as [-> ->]. done.
  - apply calm_upd; try done. destruct (s_sizes s1 Hw1). by split.
Qed.

Lemma ie_len_runs l w r ie : scan_results l = Some (w, r) -> ie = w \/ ie = r ->
  exists n, ie_len ie = Ok n /\ forall d, ie = Some d -> 0 <= n <= zlen d.
Proof.
  intros Hs Hie. destruct ie as [d|]; [|by exists 0]. exists (zlen d).
  unfold ie_len. rewrite (scan_ie_len l w r Hs d) by (destruct Hie; [left|right]; done).
  cbn [mbind res_bind]. split; [f_equal; lia|]. intros ? [= <-]. pose proof (zlen_nonneg d). lia.
Qed.

Lemma get_beacon_ie_runs s : wf_sup s -> runs (wpa_get_beacon_ie s) (fun '(_, s') => kept s s').
Proof.
  intros Hw. unfold wpa_get_beacon_ie. cbv zeta. set (s1 := say _ s).
  assert (kept s s1) as [Hw1 Hst1] by by apply kept_say.
  destruct (scan_results _) as [[w r]|] eqn:Hsc; [|by apply runs_ret].
  destruct (ie_len_runs _ w r w Hsc) as (n & -> & Hn); [by left|]. cbn [mbind res_bind].
  rstep ltac:(by apply set_ap_wpa_ie_runs) as x Hx. destruct x as [r1 s2]. destruct (calm_kept _ _ Hx) as [Hw2 Hst2].
  destruct (ie_len_runs _ w r r Hsc) as (n2 & -> & Hn2); [by right|]. cbn [mbind res_bind].
  rstep ltac:(by apply set_ap_rsn_ie_runs) as x Hx3. destruct x as [r2 s3]. destruct (calm_kept _ _ Hx3) as [Hw3 Hst3].
  apply runs_ret. eapply kept_after; [exact Hst1|]. by eapply kept_after; [exact Hst2|].
Qed.

Lemma supplicant_get_beacon_ie_runs s : wf_sup s ->
  runs (wpa_supplicant_get_beacon_ie s) (fun '(_, s') => kept s s').
Proof.
  intros Hw. unfold wpa_supplicant_get_beacon_ie.
  rstep ltac:(by apply get_beacon_ie_runs) as x Hx. destruct x as [r s1]. destruct Hx as [Hw1 Hst1].
  destruct (r =? 0); [by apply runs_ret|]. cbv zeta.
  destruct (_ <? 0); [apply runs_ret; eapply kept_after; [exact Hst1|by apply kept_say]|].
  eapply runs_weaken; [apply get_beacon_ie_runs; by apply wf_say|].
  intros [r2 s2] H2. eapply kept_after; [exact Hst1|]. eapply kept_after; [by apply still_say|exact H2].
Qed.

Lemma ie_at_runs kd p : covers (zlen kd) p -> exists o, ie_at kd p = Ok o.
Proof.
  destruct p as [[o l]|]; [|by eexists]. cbn. intros. unfold ie_at.
  destruct (rd_n_runs kd o l) as (d & -> & _); [lia..|]. by eexists.
Qed.
Lemma stored_ie_runs ie len : (forall d, ie = Some d -> zlen d = len) -> stored_ie ie len = Ok ie.
Proof.
  destruct ie as [d|]; [|done]. intros H. unfold stored_ie. rewrite <- (H d eq_refl), rd_n_all. done.
Qed.

Lemma mismatch_kept s0 s : still anything s0 s -> wf_sup s ->
  runs (s ← wpa_report_ie_mismatch s; mret (-1, s)) (fun '(_, s') => kept s0 s').
Proof.
  intros Hst Hw. unfold wpa_report_ie_mismatch. rewrite disassoc_eq. apply runs_ret.
  eapply kept_after; [exact Hst|]. split; [by apply cleared_wf, wf_say|].
  eapply still_trans; [by apply still_say|apply cleared_still].
Qed.

Lemma validate_ie_runs kd ie s : eie_inside (zlen kd) ie -> wf_sup s ->
  runs (wpa_supplicant_validate_ie kd ie s) (fun '(_, s') => kept s s').
Proof.
  intros (Hi1 & Hi2 & _) Hw. unfold wpa_supplicant_validate_ie.
  rstep ltac:(instantiate (1 := kept s)) as s1 Hs1.
  { destruct (_ && _); [|apply runs_ret; by auto with sup].
    rstep ltac:(by apply supplicant_get_beacon_ie_runs) as x Hx. destruct x. by apply runs_ret. }
  destruct Hs1 as [Hw1 Hst1].
  destruct (ie_at_runs kd _ Hi1) as (w & ->), (ie_at_runs kd _ Hi2) as (r & ->). cbn [mbind res_bind].
  rewrite !stored_ie_runs by (intros; by apply (s_sizes s1 Hw1)). cbn [mbind res_bind].
  destruct (_ && (_ || _)); [by apply mismatch_kept|].
  destruct (differs _ _ || _); [by apply mismatch_kept|].
  destruct (_ && _); [by apply mismatch_kept|]. by apply runs_ret.
Qed.
End keys.
