(* ===== verification/WpaSuppMsg.v ===== *)
(** * Messages 3/4 and 1/2 run

    What [wpa_supplicant_process_3_of_4] and [wpa_supplicant_process_1_of_2] do
    with a frame whose key data is inside it. *)

From S2P Require Import Prelude CommonUtils WpaCommon WpaIeProps WpaSuppI WpaSuppPmksa WpaSuppIe.
From S2P Require Import WpaSupp WpaSuppWf WpaSuppIeProps WpaSuppRun WpaSuppKeys.

Section messages.
Context {cr : Crypto} {c_laws : CryptoLaws cr} {un : KeyUnwrap} {u_laws : KeyUnwrapLaws cr un}.
Context {h : Host} {h_laws : HostLaws h}.

Lemma group_runs frame ki ie s : wf_frame frame -> eie_inside (zlen (WpaSupp.key_data frame)) ie ->
  wf_sup s -> runs (open_and_install_group frame ki ie s) (fun '(_, s') => kept s s').
Proof.
  intros Hf Hi Hw. unfold open_and_install_group. cbv zeta.
  destruct (key_data_len frame Hf) as [_ Hb].
  match goal with |- context [wpa_sm_set_state WPA_GROUP_HANDSHAKE ?t] =>
    set (s3 := wpa_sm_set_state WPA_GROUP_HANDSHAKE t) end.
  assert (kept s s3) as [Hw3 Hst3].
  { unfold s3. destruct (has_bits ki _).
    all: split; [by repeat apply wf_say|]; split; [done|done|cbn [slg say wpa_sm_set_state wpa_sm_mlme_setprotection]; grow]. }
  destruct (ie_at_runs (WpaSupp.key_data frame) (Eie.gtk ie)) as (g & ->); [apply Hi|]. cbn [mbind res_bind].
  rstep ltac:(instantiate (1 := fun '(_, s') => kept s s')) as x Hx.
  { destruct g; [|by apply runs_ret].
    eapply runs_weaken; [by apply pairwise_gtk_runs|]. intros [r2 s4] ?. by eapply kept_after. }
  destruct x as [r2 s4]. destruct Hx as [Hw4 Hst4]. destruct (r2 <? 0); [by apply runs_ret|].
  rstep ltac:(by apply set_igtk_runs) as x Hx. destruct x as [r3 s5]. apply runs_ret.
  by eapply kept_after.
Qed.

Lemma finish_3_runs frame ki ie s : wf_frame frame -> eie_inside (zlen (WpaSupp.key_data frame)) ie ->
  wf_sup s -> runs (wpa_supplicant_finish_3_of_4 frame ki ie s) (fun '(_, s') => kept s s').
Proof.
  intros Hf Hi Hw. unfold wpa_supplicant_finish_3_of_4. cbv zeta.
  set (s1 := _ <| su; Sup.renew_snonce := true |>).
  assert (kept s s1) as [Hw1 Hst1].
  { apply calm_kept, calm_upd; try done. destruct (s_sizes s Hw). by split. }
  rstep ltac:(instantiate (1 := fun '(_, s') => kept s s')) as x Hx.
  { destruct (has_bits ki WPA_KEY_INFO_INSTALL); [|by apply runs_ret].
    eapply runs_weaken; [by apply install_ptk_runs|]. intros [r s2] ?. by eapply kept_after. }
  destruct x as [r s2]. destruct Hx as [Hw2 Hst2]. destruct (negb _); [by apply runs_ret|].
  eapply runs_weaken; [by apply group_runs|]. intros [b s3] ?. by eapply kept_after.
Qed.

Lemma process_3_of_4_runs frame ver s : wf_frame frame -> key_data_inside frame -> wf_sup s ->
  runs (wpa_supplicant_process_3_of_4 frame ver s) (kept s).
Proof.
  intros Hf Hk Hw. unfold wpa_supplicant_process_3_of_4. cbv zeta.
  set (s1 := wpa_sm_set_state _ s). assert (kept s s1) as [Hw1 Hst1] by by apply kept_say.
  destruct (be16_runs frame o_key_info Hf) as (ki & -> & _); [done..|]. cbn [mbind res_bind].
  destruct (parse_frame_runs frame Hf Hk) as (n & r & ie & -> & Hp & Hi). cbn [mbind res_bind].
  rewrite Hp. cbn [mbind res_bind].
  destruct (_ || _); [by apply failed_kept|].
  rstep ltac:(by apply validate_ie_runs) as x Hx. destruct x as [r2 s2]. destruct Hx as [Hw2 Hst2].
  assert (still anything s s2) as Hs2 by by eapply still_trans.
  destruct (r2 <? 0); [by apply failed_kept|].
  destruct (field_runs frame o_key_nonce WPA_NONCE_LEN Hf) as (nonce & -> & _); [done..|]. cbn [mbind res_bind].
  destruct (negb _); [by apply failed_kept|].
  destruct (be16_runs frame o_key_length Hf) as (kl & -> & _); [done..|]. cbn [mbind res_bind].
  destruct (bad_key_length _ _); [by apply failed_kept|].
  rstep ltac:(by apply send_4_of_4_runs) as x Hx. destruct x as [r3 s3]. destruct Hx as [Hw3 Hst3].
  assert (still anything s s3) as Hs3 by (eapply still_trans; [exact Hs2|by eapply still_any]).
  destruct (negb _); [by apply failed_kept|].
  rstep ltac:(by apply finish_3_runs) as x Hx. destruct x as [ok s4]. destruct Hx as [Hw4 Hst4].
  assert (still anything s s4) as Hs4 by by eapply still_trans.
  destruct ok; [by apply runs_ret|by apply failed_kept].
Qed.

(** ** The group key handshake *)

(** A group key or none. *)
Definition gd_ok (o : option wpa_gtk_data) : Prop := forall gd, o = Some gd -> wf_gd gd.

Lemma gtk_1_of_2_rsn_runs frame n ki s : wf_frame frame -> 0 <= n -> o_key_data + n <= zlen frame ->
  wf_sup s ->
  runs (wpa_supplicant_process_1_of_2_rsn frame n ki s) (fun '(o, s') => kept s s' /\ gd_ok o).
Proof.
  intros Hf Hn Hle Hw. unfold wpa_supplicant_process_1_of_2_rsn. cbv zeta.
  assert (forall s', kept s s' -> runs (mret (None, s')) (fun '(o, s') => kept s s' /\ gd_ok o)) as Hnone.
  { intros s' ?. by apply runs_ret. }
  destruct (key_data_len frame Hf) as [Hlen Hb].
  destruct (parsers_agree_runs (WpaSupp.key_data frame) n Hb) as (r & d & ie & _ & -> & _ & Hi0); [lia|].
  cbn [mbind res_bind]. pose proof (eie_inside_le _ (zlen (WpaSupp.key_data frame)) _ Hi0) as Hi.
  destruct (_ && _); [by apply Hnone, kept_self|].
  assert (0 <= zlen (WpaSupp.key_data frame)) by apply zlen_nonneg.
  assert (eie_inside (zlen (WpaSupp.key_data frame)) ie) as Hi' by (apply Hi; lia). clear Hi.
  pose proof Hi' as (_ & _ & Hg & _ & _).
  destruct (Eie.gtk ie) as [[p l]|]; [|by apply Hnone, kept_self]. cbn in Hg.
  destruct (wpa_supplicant_check_group_cipher _ _ _) as [[rl a]|] eqn:Hc; [|by apply Hnone, kept_self].
  apply check_group_cipher_some in Hc as (Hl2 & Hrl & _).
  change (gtk_len (gd_zero <| gtk_len := l - 2 |>)) with (l - 2) in Hl2.
  rewrite rd_ok by lia. cbn [mbind res_bind].
  destruct (Z.ltb_spec 32 (l - 2)); [by apply Hnone, kept_self|].
  destruct (rd_n_runs (WpaSupp.key_data frame) (p + 2) (l - 2)) as (k & -> & Hk); [lia..|]. cbn [mbind res_bind].
  destruct (wr_n_runs (replicate 32 0) 0 k) as (g & Hgw & Hgl); [lia|rewrite zlen_replicate; lia|].
  match goal with |- runs (?t ≫= _) _ => change t with (wr_n (replicate 32 0) 0 k) end.
  rewrite Hgw. cbn [mbind res_bind].
  rstep ltac:(by apply set_igtk_runs) as x Hx. destruct x as [r2 s2]. apply runs_ret.
  split; [done|]. intros gd Hgd. apply (inj Some) in Hgd. subst gd. split; cbn; [|lia|lia].
  rewrite Hgl. by rewrite zlen_replicate.
Qed.
Lemma gtk_1_of_2_wpa_runs frame n ki extra ver s : wf_frame frame -> 0 <= n ->
  o_key_data + n <= zlen frame -> wf_sup s ->
  runs (wpa_supplicant_process_1_of_2_wpa frame n ki extra ver s)
    (fun '(o, s') => kept s s' /\ gd_ok o).
Proof.
  intros Hf Hn Hle Hw. unfold wpa_supplicant_process_1_of_2_wpa. cbv zeta.
  assert (runs (mret (None, s)) (fun '(o, s') => kept s s' /\ gd_ok o)) as Hnone.
  { apply runs_ret. split; [by auto with sup|done]. }
  destruct (key_data_len frame Hf) as [Hlen Hb].
  destruct (be16_runs frame o_key_length Hf) as (kl & -> & _); [done..|]. cbn [mbind res_bind].
  destruct (extra <? n); [done|]. destruct (_ && _) eqn:Hshort; [done|].
  set (max := if ver =? WPA_KEY_INFO_TYPE_HMAC_SHA1_AES then n - 8 else n).
  destruct (wpa_supplicant_check_group_cipher _ _ _) as [[rl a]|] eqn:Hc; [|done].
  apply check_group_cipher_some in Hc as (Hl2 & Hrl & _).
  match type of Hl2 with 0 <= ?t <= _ => change t with kl in Hl2 end.
  rstep ltac:(instantiate (1 := fun o => forall g, o = Some g -> zlen g = 32)) as o Ho.
  { destruct (ver =? WPA_KEY_INFO_TYPE_HMAC_MD5_RC4).
    - destruct (field_runs frame o_key_iv 16 Hf) as (iv & -> & _); [done..|]. cbn [mbind res_bind].
      destruct (Z.ltb_spec 32 n); [by apply runs_ret|].
      destruct (rd_n_runs (WpaSupp.key_data frame) 0 n) as (d & -> & Hd); [lia..|]. cbn [mbind res_bind].
      match goal with |- context [wr_n _ 0 ?d] => destruct (wr_front (replicate 32 0) d 32 n) as (g & Hgw & Hgl);
        [done|by rewrite rc4_skip_len|lia|] end.
      match goal with |- runs (?t ≫= _) _ => change t with (wr_n (replicate 32 0) 0 (rc4_skip (iv ++ kek (Sup.ptk (su s))) 256 d)) end.
      rewrite Hgw. apply runs_ret. by intros ? [= <-].
    - destruct (ver =? WPA_KEY_INFO_TYPE_HMAC_SHA1_AES); [|by apply runs_ret].
      destruct (Z.eqb_spec (n mod 8) 0) as [Hm|]; [|by apply runs_ret]. cbn [negb].
      destruct (Z.ltb_spec 32 max) as [|Hmax]; [by apply runs_ret|]. cbn [andb] in Hshort.
      apply Z.ltb_ge in Hshort.
      assert (8 * (max / 8 + 1) = n) as Hblocks.
      { unfold max. clear -Hm. zlia. }
      rewrite Hblocks. destruct (rd_n_runs (WpaSupp.key_data frame) 0 n) as (d & -> & Hd); [lia..|].
      cbn [mbind res_bind]. destruct (aes_unwrap _ d) as [p|] eqn:Hu; [|by apply runs_ret].
      apply aes_unwrap_len in Hu; [|lia].
      destruct (wr_front (replicate 32 0) p 32 (n - 8)) as (g & Hgw & Hgl); [done|lia|unfold max in Hmax; lia|].
      match goal with |- runs (?t ≫= _) _ => change t with (wr_n (replicate 32 0) 0 p) end.
      rewrite Hgw. apply runs_ret. by intros ? [= <-]. }
  destruct o as [g|]; [|done]. apply runs_ret. split; [by auto with sup|].
  intros gd Hgd. apply (inj Some) in Hgd. subst gd. split; cbn; [by apply Ho|lia|lia].
Qed.

Lemma process_1_of_2_runs frame extra ver s : wf_frame frame -> key_data_inside frame -> wf_sup s ->
  runs (wpa_supplicant_process_1_of_2 frame extra ver s) (kept s).
Proof.
  intros Hf (n & Hn & Hpos & Hle) Hw. unfold wpa_supplicant_process_1_of_2, wpa_sm_get_state. cbv zeta iota beta.
  set (s1 := say SGetState s). assert (kept s s1) as [Hw1 Hst1] by by apply kept_say.
  destruct (be16_runs frame o_key_info Hf) as (ki & -> & _); [done..|]. cbn [mbind res_bind].
  rewrite Hn. cbn [mbind res_bind].
  rstep ltac:(instantiate (1 := fun '(o, s') => kept s s' /\ gd_ok o)) as x Hx.
  { destruct (_ =? WPA_PROTO_RSN).
    all: eapply runs_weaken; [by first [apply gtk_1_of_2_rsn_runs|apply gtk_1_of_2_wpa_runs]|].
    all: intros [o s2] [? ?]; split; [by eapply kept_after|done]. }
  destruct x as [o s2]. destruct Hx as [[Hw2 Hst2] Ho].
  set (s3 := wpa_sm_set_state _ s2).
  assert (kept s s3) as [Hw3 Hst3] by (eapply kept_after; [exact Hst2|by apply kept_say]).
  destruct o as [gd|]; [|by apply failed_kept].
  rstep ltac:(by apply install_gtk_runs; [apply Ho| |]) as x Hx. destruct x as [r s4]. destruct Hx as [Hw4 Hst4].
  assert (still anything s s4) as Hs4 by by eapply still_trans.
  destruct (negb _); [by apply failed_kept|].
  rstep ltac:(by apply send_2_of_2_runs) as x Hx. destruct x as [r2 s5]. destruct Hx as [Hw5 Hst5].
  assert (still anything s s5) as Hs5 by (eapply still_trans; [exact Hs4|by eapply still_any]).
  destruct (negb _); [by apply failed_kept|].
  case_match.
  - apply runs_ret. eapply kept_after; [exact Hs5|]. split; [by apply wf_say, wf_say|].
    split; [done|done|cbn [slg say wpa_sm_set_state wpa_sm_cancel_auth_timeout]; grow].
  - eapply runs_weaken; [by apply key_neg_complete_runs|]. intros s6 ?. by eapply kept_after.
Qed.
End messages.
