(* ===== verification/WpaSuppRx.v ===== *)
(** * What becomes of a frame

    The message integrity check as a function of the frame and the keys
    ([vouched]), the decryption of the key data, and [wpa_sm_rx_eapol]: a frame
    is dropped, or it is harmless ([unproven]), or a key of the machine vouches
    for it and its replay counter is new ([rx_outcome]). *)

From S2P Require Import Prelude CommonUtils WpaCommon WpaIeProps WpaSuppI WpaSuppPmksa WpaSuppIe.
From S2P Require Import WpaSupp WpaSuppWf WpaSuppIeProps WpaSuppRun WpaSuppKeys WpaSuppMsg.

(** ** The MIC field of a frame *)

Definition mic_of (frame : list Z) : list Z := take 16 (drop 81 frame).
Definition with_mic (mic frame : list Z) : list Z := take 81 frame ++ mic ++ drop 97 frame.
Definition no_mic : list Z := replicate 16 0.

Lemma os_memcmp_eq a b : length a = length b -> os_memcmp a b = 0 -> a = b.
Proof.
  revert b. induction a as [|x a IH]; intros [|y b]; cbn; try done. intros [= Hl].
  destruct (Z.eqb_spec x y) as [-> |]; [|lia]. intros H. f_equal. by apply IH.
Qed.

Lemma os_memcmp_refl a : os_memcmp a a = 0.
Proof. induction a as [|x a IH]; cbn; [done|]. by rewrite Z.eqb_refl. Qed.

Section mic.
Context {cr : Crypto} {c_laws : CryptoLaws cr} {un : KeyUnwrap} {u_laws : KeyUnwrapLaws cr un}.
Context {h : Host} {h_laws : HostLaws h}.

(** The key makes the MIC the frame has.  When the MIC can not be computed, the
    zeros that were written are what the frame is compared with. *)
Definition vouches (k frame : list Z) (ver len : Z) : bool :=
  os_memcmp (mic_of frame)
    match wpa_eapol_key_mic k ver (take (Z.to_nat len) (with_mic no_mic frame)) with
    | Some m => m
    | None => no_mic
    end =? 0.

(** The machine with the replay counter of the frame. *)
Definition counted (frame : list Z) (m : Sup.wpa_sm) : Sup.wpa_sm :=
  let m := m <| Sup.rx_replay_counter := take 8 (drop 9 frame) |> in
  m <| Sup.rx_replay_counter_set := true |>.
Definition promoted (m : Sup.wpa_sm) : Sup.wpa_sm :=
  let m := m <| Sup.tptk_set := false |> in
  let m := m <| Sup.ptk_set := true |> in
  m <| Sup.ptk := Sup.tptk m |>.

(** The machine after a frame a key vouches for: the PTK derived last comes
    first, and is in use from now on. *)
Definition vouched (frame : list Z) (ver len : Z) (m : Sup.wpa_sm) : option Sup.wpa_sm :=
  if Sup.tptk_set m && vouches (kck (Sup.tptk m)) frame ver len
  then Some (counted frame (promoted m))
  else if Sup.ptk_set m && vouches (kck (Sup.ptk m)) frame ver len
  then Some (counted frame m)
  else None.

Lemma wr_mic frame m0 m : 97 <= zlen frame -> zlen m0 = 16 -> zlen m = 16 ->
  wr_n (with_mic m0 frame) o_key_mic m = Ok (with_mic m frame).
Proof.
  intros Hf H0 Hm. unfold with_mic.
  assert (zlen (take 81 frame) = o_key_mic) as Hp by (rewrite zlen_take; unfold o_key_mic; lia).
  rewrite <- Hp. apply wr_n_app. unfold zlen in *. lia.
Qed.
Lemma rd_mic frame m : 97 <= zlen frame -> zlen m = 16 -> rd_n (with_mic m frame) o_key_mic 16 = Ok m.
Proof.
  intros Hf Hm. unfold with_mic.
  assert (zlen (take 81 frame) = o_key_mic) as Hp by (rewrite zlen_take; unfold o_key_mic; lia).
  rewrite <- Hp, <- Hm. apply rd_n_app_mid.
Qed.
Lemma with_own_mic frame : with_mic (mic_of frame) frame = frame.
Proof.
  unfold with_mic, mic_of. change 97%nat with (81 + 16)%nat. rewrite <- drop_drop.
  by rewrite !take_drop.
Qed.
Lemma mic_of_len frame : 97 <= zlen frame -> zlen (mic_of frame) = 16.
Proof. intros. unfold mic_of, zlen in *. rewrite length_take, length_drop. lia. Qed.
Lemma with_mic_len m frame : 97 <= zlen frame -> zlen m = 16 -> zlen (with_mic m frame) = zlen frame.
Proof. intros. unfold with_mic, zlen in *. rewrite !length_app, length_take, length_drop. lia. Qed.

Lemma try_mic_runs k ver frame len m0 : 97 <= zlen frame -> zlen m0 = 16 -> 0 <= len <= zlen frame ->
  exists m, zlen m = 16 /\
    try_mic k (mic_of frame) ver (with_mic m0 frame) len = Ok (vouches k frame ver len, with_mic m frame) /\
    (vouches k frame ver len = true -> m = mic_of frame).
Proof.
  intros Hf H0 Hl. unfold try_mic, vouches.
  rewrite (wr_mic frame m0 (replicate 16 0) Hf H0 eq_refl). cbn [mbind res_bind].
  fold no_mic. rewrite rd_n_ok by (rewrite ?with_mic_len; done || lia). cbn [mbind res_bind].
  change (Z.to_nat 0) with 0%nat. rewrite drop_0.
  set (o := wpa_eapol_key_mic k ver _).
  exists match o with Some m => m | None => no_mic end.
  assert (zlen match o with Some m => m | None => no_mic end = 16) as Hm.
  { destruct o eqn:Ho; [by apply mic_len in Ho|done]. }
  split; [done|]. split.
  - rewrite (bind_eq _ _ (with_mic match o with Some m => m | None => no_mic end frame)).
    2: { destruct o; [by apply wr_mic|done]. }
    rewrite rd_mic by done. done.
  - intros H%Z.eqb_eq. apply os_memcmp_eq in H; [done|].
    pose proof (mic_of_len frame Hf). unfold zlen in *. lia.
Qed.

Lemma rd_counter frame : 97 <= zlen frame ->
  rd_n frame o_replay_counter WPA_REPLAY_COUNTER_LEN = Ok (take 8 (drop 9 frame)).
Proof. intros. apply rd_n_ok; unfold o_replay_counter, WPA_REPLAY_COUNTER_LEN; lia. Qed.

(** The check is the function: on success the frame is unchanged. *)
Lemma verify_eq frame ver len s : 97 <= zlen frame -> 0 <= len <= zlen frame ->
  exists frame', wpa_supplicant_verify_eapol_key_mic frame ver len s =
    Ok match vouched frame ver len (su s) with
       | Some m => (0, frame, s <| su := m |>)
       | None => (-1, frame', s)
       end.
Proof.
  intros Hf Hl. unfold wpa_supplicant_verify_eapol_key_mic, vouched.
  rewrite rd_n_ok by (unfold o_key_mic; lia). cbn [mbind res_bind].
  change (take (Z.to_nat 16) (drop (Z.to_nat o_key_mic) frame)) with (mic_of frame).
  pose proof (mic_of_len frame Hf) as Hml.
  assert (forall m0, zlen m0 = 16 -> exists frame', ('(ok, frame) ←
      (if Sup.ptk_set (su s) then try_mic (kck (Sup.ptk (su s))) (mic_of frame) ver (with_mic m0 frame) len
       else mret (false, with_mic m0 frame));
      if negb ok then mret (-1, frame, s)
      else
        replay_counter ← rd_n frame o_replay_counter WPA_REPLAY_COUNTER_LEN;
        mret (0, frame, s <| su; Sup.rx_replay_counter := replay_counter |>
                          <| su; Sup.rx_replay_counter_set := true |>)) =
      Ok match (if Sup.ptk_set (su s) && vouches (kck (Sup.ptk (su s))) frame ver len
                then Some (counted frame (su s)) else None) with
         | Some m => (0, frame, s <| su := m |>)
         | None => (-1, frame', s)
         end) as Hsecond.
  { intros m0 H0. destruct (Sup.ptk_set (su s)); [|eexists; reflexivity].
    destruct (try_mic_runs (kck (Sup.ptk (su s))) ver frame len m0 Hf H0 Hl) as (m & Hm & -> & Hv).
    cbn [mbind res_bind andb]. destruct (vouches _ _ _ _); cbn [negb]; [|eexists; reflexivity].
    rewrite (Hv eq_refl), with_own_mic, rd_counter by done. exists frame. reflexivity. }
  destruct (Sup.tptk_set (su s)).
  - pose proof (try_mic_runs (kck (Sup.tptk (su s))) ver frame len (mic_of frame) Hf Hml Hl) as (m & Hm & Ht & Hv).
    rewrite with_own_mic in Ht. rewrite Ht. cbn [mbind res_bind andb].
    destruct (vouches (kck (Sup.tptk (su s))) frame ver len) eqn:Hvo; cbn [negb andb].
    + rewrite (Hv eq_refl), with_own_mic. cbn [mbind res_bind mret res_ret negb andb]. rewrite rd_counter by done.
      exists frame. reflexivity.
    + destruct (Hsecond m Hm) as (f' & Hf'). exists f'. exact Hf'.
  - cbn [mbind res_bind andb negb]. destruct (Hsecond (mic_of frame) Hml) as (f' & Hf').
    rewrite with_own_mic in Hf'. exists f'. exact Hf'.
Qed.

(** C22 ([wpa_supplicant_verify_eapol_key_mic]): the check, which overwrites the MIC
    of the frame, is the pure function [vouched]: the PTK derived last is tried
    first and put in use, then the one in use; an accepted frame is unchanged. *)
Theorem verify_eq_spec frame ver len s : 97 <= zlen frame -> 0 <= len <= zlen frame ->
  exists frame', wpa_supplicant_verify_eapol_key_mic frame ver len s =
    Ok match vouched frame ver len (su s) with
       | Some m => (0, frame, s <| su := m |>)
       | None => (-1, frame', s)
       end.
Proof. apply verify_eq. Qed.
End mic.

(** ** Decryption *)

Lemma rd_wr_n_before l i d l' j : wr_n l i d = Ok l' -> 0 <= j < i -> rd l' j = rd l j.
Proof.
  intros (Hi & Hle & ->)%wr_n_inv Hj. rewrite !rd_ok; [f_equal| |].
  - rewrite !nth_lookup, lookup_app_l by (rewrite length_take; unfold zlen in *; lia).
    by rewrite lookup_take_lt by lia.
  - unfold zlen in *. lia.
  - unfold zlen in *. rewrite !length_app, length_take, length_drop. lia.
Qed.

Lemma BE16_wr_n_before l i d l' j : wr_n l i d = Ok l' -> 0 <= j -> j + 2 <= i ->
  WPA_GET_BE16 l' j = WPA_GET_BE16 l j.
Proof. intros H Hj Hle. unfold WPA_GET_BE16. by rewrite !(rd_wr_n_before _ _ _ _ _ H) by lia. Qed.

Lemma BE16_wr_n l i v l' : wr_n l i (WPA_PUT_BE16 v) = Ok l' -> WPA_GET_BE16 l' i = Ok (u16 v).
Proof.
  intros (Hi & Hle & ->)%wr_n_inv. rewrite zlen_BE16 in Hle.
  pose proof (WPA_GET_PUT_BE16 (take (Z.to_nat i) l) v
    (drop (Z.to_nat i + length (WPA_PUT_BE16 v)) l)) as H.
  rewrite zlen_take in H by (unfold zlen in *; lia). rewrite Z2Nat.id in H by done. exact H.
Qed.

Lemma wr_n_wf frame i d frame' : wf_frame frame -> bytes d -> wr_n frame i d = Ok frame' ->
  wf_frame frame' /\ zlen frame' = zlen frame.
Proof.
  intros [Hb Hl] Hd Hw. pose proof (wr_n_length _ _ _ _ Hw) as Hlen. split; [|done].
  split; [|lia]. apply wr_n_inv in Hw as (_ & _ & ->).
  apply Forall_app. split; [by apply Forall_take|]. apply Forall_app. split; [done|by apply Forall_drop].
Qed.

Section rx.
Context {cr : Crypto} {c_laws : CryptoLaws cr} {un : KeyUnwrap} {u_laws : KeyUnwrapLaws cr un}.
Context {h : Host} {h_laws : HostLaws h}.

Lemma wf_key_data frame n : wf_frame frame -> 0 <= n -> o_key_data + n <= zlen frame ->
  exists d, rd_n frame o_key_data n = Ok d /\ zlen d = n /\ bytes d.
Proof.
  intros [Hb _] Hn Hle. rewrite rd_n_ok by (unfold o_key_data in *; lia). eexists. split; [done|].
  split; [|by apply Forall_take, Forall_drop].
  rewrite zlen_take; [lia|]. unfold o_key_data, zlen in *. rewrite length_drop. lia.
Qed.

(** It returns unless the length of the key data is 0 and the cipher is AES. *)
Lemma decrypt_runs frame ver n s : wf_frame frame -> WPA_GET_BE16 frame o_key_data_length = Ok n ->
  0 <= n < 65536 -> o_key_data + n <= zlen frame ->
  Sup.ptk_set (su s) = false \/ ver = WPA_KEY_INFO_TYPE_HMAC_MD5_RC4 \/ n <> 0 -> wf_sup s ->
  runs (wpa_supplicant_decrypt_key_data frame ver s) (fun '(r, frame', s') =>
    wf_sup s' /\ still harmless s s' /\ wf_frame frame' /\ zlen frame' = zlen frame /\
    exists n', WPA_GET_BE16 frame' o_key_data_length = Ok n' /\ 0 <= n' <= n).
Proof.
  intros Hf Hn Hrange Hle Hdec Hw. unfold wpa_supplicant_decrypt_key_data. rewrite Hn. cbn [mbind res_bind].
  assert (forall (r : Z) s', wf_sup s' -> still harmless s s' -> runs (mret (r, frame, s')) (fun '(r, frame', s') =>
    wf_sup s' /\ still harmless s s' /\ wf_frame frame' /\ zlen frame' = zlen frame /\
    exists n', WPA_GET_BE16 frame' o_key_data_length = Ok n' /\ 0 <= n' <= n)) as Hsame.
  { intros r s' ? ?. apply runs_ret. split_and!; try done. exists n. split; [done|lia]. }
  destruct (Sup.ptk_set (su s)) eqn:Hset; cbn [negb]; [|by apply Hsame; auto with sup].
  destruct (Z.eqb_spec ver WPA_KEY_INFO_TYPE_HMAC_MD5_RC4) as [->|Hver].
  - destruct (field_runs frame o_key_iv 16 Hf) as (iv & -> & _); [done..|]. cbn [mbind res_bind].
    destruct (wf_key_data frame n Hf) as (d & -> & Hd & Hb); [lia|done|]. cbn [mbind res_bind]. cbv zeta.
    match goal with |- context [wr_n frame o_key_data ?e] =>
      destruct (wr_n_runs frame o_key_data e) as (f & Hwr & _); [done|rewrite rc4_skip_len; lia|] end.
    rewrite Hwr. apply runs_ret. split; [done|]. split; [apply still_refl|].
    destruct (wr_n_wf _ _ _ _ Hf (rc4_skip_bytes _ _ _ Hb) Hwr) as [Hf' Hlen].
    split_and!; [exact Hf'|done|]. exists n. split; [|lia].
    by rewrite (BE16_wr_n_before _ _ _ _ _ Hwr).
  - destruct (_ || _); [|by apply Hsame; auto with sup].
    destruct (Z.eqb_spec (n mod 8) 0) as [Hm|]; cbn [negb]; [|by apply Hsame; auto with sup].
    assert (8 <= n) as H8 by (clear -Hm Hrange Hdec Hver; destruct Hdec as [?|[?|?]]; [done|done|zlia]).
    cbv zeta. unfold os_malloc. cbv zeta iota beta. rewrite u16_id by lia.
    set (s1 := say _ s). assert (still harmless s s1) as Hst1 by by apply still_say.
    assert (wf_sup s1) as Hw1 by by apply wf_say.
    destruct (malloc _); cbn [negb]; [|by apply Hsame].
    assert (8 * ((n - 8) / 8 + 1) = n) as -> by (clear -Hm; zlia).
    destruct (wf_key_data frame n Hf) as (d & -> & Hd & Hb); [lia|done|]. cbn [mbind res_bind].
    destruct (aes_unwrap _ d) as [p|] eqn:Hu; [|by apply Hsame].
    pose proof (aes_unwrap_bytes _ _ _ Hb Hu) as Hpb. apply aes_unwrap_len in Hu; [|lia].
    destruct (wr_n_runs frame o_key_data p) as (f & Hwr & Hfl); [done|lia|].
    destruct (wr_n_wf _ _ _ _ Hf Hpb Hwr) as [Hf1 Hlen1].
    rewrite Hwr. cbn [mbind res_bind].
    destruct (wr_n_runs f o_key_data_length (WPA_PUT_BE16 (n - 8))) as (f2 & Hwr2 & Hfl2);
      [done|rewrite zlen_BE16; unfold o_key_data_length, o_key_data in *; lia|].
    destruct (wr_n_wf _ _ _ _ Hf1 (WPA_PUT_BE16_bytes _) Hwr2) as [Hf2 Hlen2].
    rewrite Hwr2. apply runs_ret. split_and!; [done|done|done|lia|].
    exists (n - 8). rewrite (BE16_wr_n _ _ _ _ Hwr2), u16_id by lia. split; [done|lia].
Qed.
(** ** The frame is acted upon *)

(** Keys in use and replay counter stay; anything may be said. *)
Definition acted (s s' : sst) : Prop :=
  wf_sup s' /\ settled (su s') = settled (su s) /\ log_ext anything (slg s) (slg s').

Lemma acted_kept s s' : kept s s' -> acted s s'.
Proof. by intros [? []]. Qed.
Lemma acted_unproven s s' : wf_sup s' -> unproven s s' -> acted s s'.
Proof. intros ? []. split; [done|]. split; [done|]. by eapply log_ext_weaken. Qed.
Lemma acted_trans s1 s2 s3 : still harmless s1 s2 -> acted s2 s3 -> acted s1 s3.
Proof.
  intros [H1 _ H2] (? & ? & ?). split; [done|]. split; [congruence|].
  eapply log_ext_trans; [|done]. by eapply log_ext_weaken.
Qed.

(** The key data the frame says is encrypted are not empty, or the cipher is RC4. *)
Definition not_empty_encrypted (ki n : Z) : Prop :=
  has_bits ki WPA_KEY_INFO_ENCR_KEY_DATA = false \/
  Z.land ki WPA_KEY_INFO_TYPE_MASK = WPA_KEY_INFO_TYPE_HMAC_MD5_RC4 \/ n <> 0.

Lemma rx_dispatch_runs src frame ki ver extra s : wf_frame frame -> key_data_inside frame ->
  wf_sup s -> zlen src = 6 ->
  runs (rx_dispatch src frame ki ver extra s) (fun '(_, s') => acted s s' /\
    (has_bits ki WPA_KEY_INFO_MIC = false -> unproven s s')).
Proof.
  intros Hf Hk Hw Hsrc. unfold rx_dispatch.
  assert (forall r : Z, runs (mret (r, s)) (fun '(_, s') => acted s s' /\
    (has_bits ki WPA_KEY_INFO_MIC = false -> unproven s s'))) as Hno.
  { intros r. apply runs_ret. split; [|intros _]; [apply acted_unproven; [done|]|].
    all: split; [done|apply log_ext_refl]. }
  destruct (has_bits ki WPA_KEY_INFO_KEY_TYPE).
  - destruct (has_bits ki WPA_KEY_INFO_KEY_INDEX_MASK); [done|].
    destruct (has_bits ki WPA_KEY_INFO_MIC).
    + rstep ltac:(by apply process_3_of_4_runs) as s1 Hs1. apply runs_ret. split; [by apply acted_kept|done].
    + rstep ltac:(by apply process_1_of_4_runs) as s1 Hs1. apply runs_ret. destruct Hs1.
      split; [by apply acted_unproven|done].
  - destruct (has_bits ki WPA_KEY_INFO_SMK_MESSAGE); [done|].
    destruct (has_bits ki WPA_KEY_INFO_MIC); [|done].
    rstep ltac:(by apply process_1_of_2_runs) as s1 Hs1. apply runs_ret. split; [by apply acted_kept|done].
Qed.

Lemma rx_key_data_runs src frame ki plen n s : wf_frame frame ->
  WPA_GET_BE16 frame o_key_data_length = Ok n -> not_empty_encrypted ki n ->
  plen + 4 <= zlen frame -> wf_sup s -> zlen src = 6 ->
  runs (rx_key_data src frame ki (Z.land ki WPA_KEY_INFO_TYPE_MASK) plen s)
    (fun '(_, s') => acted s s' /\ (has_bits ki WPA_KEY_INFO_MIC = false -> unproven s s')).
Proof.
  intros Hf Hn Hempty Hle Hw Hsrc. unfold rx_key_data. cbv zeta. unfold sizeof_wpa_eapol_key.
  destruct (be16_runs frame o_key_data_length Hf) as (n' & Hn' & Hrange); [done..|].
  assert (n' = n) as -> by congruence. rewrite Hn. cbn [mbind res_bind].
  assert (forall r s', wf_sup s' -> still harmless s s' -> runs (mret (r : Z, s')) (fun '(_, s') => acted s s' /\
    (has_bits ki WPA_KEY_INFO_MIC = false -> unproven s s'))) as Hno.
  { intros r s' Hw' Hst. apply runs_ret. split; [|intros _; by apply still_unproven].
    by apply acted_unproven, still_unproven. }
  destruct (Z.ltb_spec (plen - 95) n); [by apply Hno; auto with sup|].
  assert (o_key_data + n <= zlen frame) as Hin by (unfold o_key_data; lia).
  rstep ltac:(instantiate (1 := fun '(r, frame', s') => wf_sup s' /\ still harmless s s' /\
    wf_frame frame' /\ zlen frame' = zlen frame /\
    exists n', WPA_GET_BE16 frame' o_key_data_length = Ok n' /\ 0 <= n' <= n)) as x Hx.
  { destruct (_ =? WPA_PROTO_RSN), (has_bits ki WPA_KEY_INFO_ENCR_KEY_DATA) eqn:Hencr; cbn [andb].
    1: { eapply decrypt_runs; try done. right. destruct Hempty as [?|[?|?]]; [congruence|by left|by right]. }
    all: apply runs_ret; split_and!; [done|auto with sup|done|done|exists n; split; [done|lia]]. }
  destruct x as [[r frame'] s1]. destruct Hx as (Hw1 & Hst1 & Hf1 & Hl1 & n' & Hn1 & Hr1).
  destruct (negb _); [by apply Hno|]. rewrite Hn1. cbn [mbind res_bind].
  eapply runs_weaken; [apply rx_dispatch_runs; [done| |done|done]|].
  - exists n'. split; [done|]. split; [lia|unfold o_key_data in *; lia].
  - intros [r2 s2] [Ha Hu]. split; [by eapply acted_trans|]. intros Hmic.
    eapply unproven_trans; [by apply still_unproven|by apply Hu].
Qed.

(** What a frame comes to: [m] is the machine the verification left. *)
Definition authentic (frame : list Z) (s s' : sst) : Prop := exists ki plen m,
  WPA_GET_BE16 frame o_key_info = Ok ki /\ WPA_GET_BE16 frame 2 = Ok plen /\
  has_bits ki WPA_KEY_INFO_MIC = true /\ rx_fresh (su s) frame ki = Ok true /\
  vouched frame (Z.land ki WPA_KEY_INFO_TYPE_MASK) (plen + 4) (su s) = Some m /\
  settled (su s') = settled m.

Definition rx_outcome (frame : list Z) (s s' : sst) : Prop :=
  unproven s s' \/ authentic frame s s'.

Lemma rx_fresh_runs m frame ki : wf_frame frame -> exists b, rx_fresh m frame ki = Ok b.
Proof.
  intros Hf. unfold rx_fresh.
  destruct (field_runs frame o_replay_counter WPA_REPLAY_COUNTER_LEN Hf) as (rc & -> & _); [done..|].
  by eexists.
Qed.

Lemma vouched_sizes frame ver len m m' : wf_frame frame -> wf_sizes m ->
  vouched frame ver len m = Some m' ->
  wf_sizes m' /\ Sup.pmksa m' = Sup.pmksa m /\ Sup.cur_pmksa m' = Sup.cur_pmksa m.
Proof.
  intros [_ Hl] Hz Hv. unfold vouched in Hv.
  assert (zlen (take 8 (drop 9 frame)) = WPA_REPLAY_COUNTER_LEN) as Hc.
  { unfold o_key_data, WPA_REPLAY_COUNTER_LEN, zlen in *. rewrite length_take, length_drop. lia. }
  destruct (Sup.tptk_set m && _); [|destruct (Sup.ptk_set m && _); [|done]]; apply (inj Some) in Hv; subst m'.
  all: split; [destruct Hz; by split|done].
Qed.

(** The sizes the tests of the header left. *)
Lemma rx_header_runs frame : wf_frame frame -> exists o plen, rx_header frame (zlen frame) = Ok o /\
  WPA_GET_BE16 frame 2 = Ok plen /\ (o = None -> 95 <= plen /\ plen + 4 <= zlen frame).
Proof.
  intros Hf. pose proof (f_len _ Hf). unfold rx_header, o_key_data in *.
  destruct (be16_runs frame 2 Hf) as (plen & -> & _); [done..|]. cbn [mbind res_bind].
  rewrite (rd_ok frame 1) by lia. cbn [mbind res_bind].
  destruct (negb _); [by eexists _, plen|]. unfold sizeof_ieee802_1x_hdr, sizeof_wpa_eapol_key.
  destruct (Z.ltb_spec (zlen frame - 4) plen); [by eexists _, plen|].
  destruct (Z.ltb_spec plen 95); [by eexists _, plen|]. cbn [orb].
  rewrite rd_ok by (unfold o_type; lia). cbn [mbind res_bind].
  eexists _, plen. split; [done|]. split; [done|]. lia.
Qed.

Lemma rx_frame_runs src frame s : wf_frame frame -> wf_sup s -> zlen src = 6 ->
  (forall ki n, WPA_GET_BE16 frame o_key_info = Ok ki ->
     WPA_GET_BE16 frame o_key_data_length = Ok n -> not_empty_encrypted ki n) ->
  runs (rx_frame src frame (zlen frame) s) (fun '(_, s') => wf_sup s' /\ rx_outcome frame s s').
Proof.
  intros Hf Hw Hsrc Hempty. unfold rx_frame.
  destruct (rx_header_runs frame Hf) as (o & plen & -> & Hplen & Hsize). cbn [mbind res_bind].
  assert (forall r s', wf_sup s' -> unproven s s' -> runs (mret (r : Z, s')) (fun '(_, s') =>
    wf_sup s' /\ rx_outcome frame s s')) as Hno.
  { intros r s' Hw' Hu. apply runs_ret. split; [done|by left]. }
  destruct o as [r|]; [apply Hno; [done|by apply still_unproven; auto with sup]|].
  destruct (Hsize eq_refl) as [H95 Hin]. rewrite Hplen. cbn [mbind res_bind]. cbv zeta.
  set (s1 := say _ s). assert (wf_sup s1) as Hw1 by by apply wf_say.
  assert (unproven s s1) as Hu1 by (apply still_unproven; by apply still_say).
  destruct (be16_runs frame o_key_info Hf) as (ki & Hki & _); [done..|]. rewrite Hki. cbn [mbind res_bind].
  destruct (be16_runs frame o_key_data_length Hf) as (n & Hn & _); [done..|].
  destruct (negb _); [by apply Hno|].
  destruct (rx_fresh_runs (su s1) frame ki Hf) as (fresh & Hfr). rewrite Hfr. cbn [mbind res_bind].
  destruct fresh; cbn [negb]; [|by apply Hno].
  unfold sizeof_ieee802_1x_hdr. destruct (has_bits ki WPA_KEY_INFO_MIC) eqn:Hmic.
  - destruct (verify_eq frame (Z.land ki WPA_KEY_INFO_TYPE_MASK) (plen + 4) s1) as (f' & ->);
      [pose proof (f_len _ Hf); unfold o_key_data in *; lia|lia|]. cbn [mbind res_bind].
    change (su s1) with (su s) in *.
    destruct (vouched _ _ _ _) as [m|] eqn:Hv; [|by apply Hno]. cbn [Z.eqb negb].
    destruct (vouched_sizes _ _ _ _ _ Hf (s_sizes s Hw) Hv) as (Hz & Hp & Hc).
    eapply runs_weaken; [apply (rx_key_data_runs _ _ _ _ n); [done|exact Hn|by apply Hempty|lia| |done]|].
    + by apply wf_set.
    + intros [r s2] [(Hw2 & Hset & Hlog) _]. split; [done|]. right. exists ki, plen, m. done.
  - cbn [mbind res_bind mret res_ret Z.eqb negb].
    eapply runs_weaken; [apply (rx_key_data_runs _ _ _ _ n); [done|exact Hn|by apply Hempty|lia|done|done]|].
    intros [r s2] [(Hw2 & _) Hu]. split; [done|]. left. eapply unproven_trans; [exact Hu1|by apply Hu].
Qed.

Lemma rx_eapol_runs src buf s : bytes buf -> wf_sup s -> zlen src = 6 ->
  (forall ki n, WPA_GET_BE16 buf o_key_info = Ok ki ->
     WPA_GET_BE16 buf o_key_data_length = Ok n -> not_empty_encrypted ki n) ->
  runs (wpa_sm_rx_eapol src buf (zlen buf) s) (fun '(_, s') => wf_sup s' /\ rx_outcome buf s s').
Proof.
  intros Hb Hw Hsrc Hempty. unfold wpa_sm_rx_eapol. cbv zeta. set (s1 := say _ s).
  assert (wf_sup s1) as Hw1 by by apply wf_say.
  assert (unproven s s1) as Hu1 by (apply still_unproven; by apply still_say).
  unfold sizeof_ieee802_1x_hdr, sizeof_wpa_eapol_key.
  destruct (Z.ltb_spec (zlen buf) (4 + 95)); [apply runs_ret; split; [done|by left]|].
  unfold os_malloc. cbv zeta iota beta. set (s2 := say _ s1). assert (wf_sup s2) as Hw2 by by apply wf_say.
  assert (unproven s s2) as Hu2 by (eapply unproven_trans; [exact Hu1|]; apply still_unproven; by apply still_say).
  destruct (malloc _); cbn [negb]; [|apply runs_ret; split; [done|by left]].
  rewrite rd_n_all. cbn [mbind res_bind].
  eapply runs_weaken; [apply rx_frame_runs; [split; [done|unfold o_key_data; lia]|done|done|done]|].
  intros [r s3] [Hw3 Ho]. split; [done|]. destruct Ho as [Hu|Ha]; [left|right].
  - by eapply unproven_trans.
  - exact Ha.
Qed.
End rx.
