(* ===== verification/WpaSuppIeGen.v ===== *)
(** * The element of the association request

    [wpa_gen_wpa_ie_rsn] writes, given room, an element as the standard lays it
    out ([assoc_body]).  It is the element an access point with the same suites
    would write, so the parser of the other end reads it. *)

From S2P Require Import Prelude WpaCommon WpaAuthI WpaAuthIe WpaIeProps.
From S2P Require Import WpaSuppI WpaSuppIe.

Definition assoc_pmkid (pmkid : option (list Z)) (mgmt : Z) : list Z :=
  match pmkid with
  | Some k => WPA_PUT_LE16 1 ++ k
  | None => if mgmt =? WPA_CIPHER_AES_128_CMAC then WPA_PUT_LE16 0 else []
  end.
Definition assoc_mgmt (mgmt : Z) : list Z :=
  if mgmt =? WPA_CIPHER_AES_128_CMAC then RSN_SELECTOR_PUT RSN_CIPHER_SUITE_AES_128_CMAC else [].

(** The element without its header, for one pairwise cipher and one method. *)
Definition assoc_body (pairwise group akm mgmt mfp : Z) (pmkid : option (list Z)) : option (list Z) :=
  match suite_of rsn_group_choice group, suite_of rsn_pairwise_choice pairwise,
        suite_of rsn_akm_choice akm with
  | Some g, Some p, Some a =>
      Some (WPA_PUT_LE16 RSN_VERSION ++ RSN_SELECTOR_PUT g ++ [1; 0] ++ RSN_SELECTOR_PUT p ++
            [1; 0] ++ RSN_SELECTOR_PUT a ++ WPA_PUT_LE16 (capab_of mfp) ++
            assoc_pmkid pmkid mgmt ++ assoc_mgmt mgmt)
  | _, _, _ => None
  end.

(** ** The writer *)

Lemma put_three_wrote group pairwise akm buf0 d buf pos : wrote buf0 0 d buf -> pos = zlen d ->
  zlen d + 16 <= zlen buf0 ->
  match group, pairwise, akm with
  | Some g, Some p, Some a =>
      let d' := d ++ RSN_SELECTOR_PUT g ++ [1; 0] ++ RSN_SELECTOR_PUT p ++ [1; 0] ++ RSN_SELECTOR_PUT a in
      exists buf', put_three group pairwise akm buf pos = Ok (Some (zlen d'), buf') /\ wrote buf0 0 d' buf'
  | _, _, _ => exists buf', put_three group pairwise akm buf pos = Ok (None, buf')
  end.
Proof.
  intros Hw -> Hle. unfold put_three, RSN_SELECTOR_LEN.
  destruct group as [g|]; [|by eexists].
  assert (forall d' d2 buf, wrote buf0 0 d2 buf -> zlen d2 + zlen d' <= zlen buf0 ->
    exists buf', wr_n buf (zlen d2) d' = Ok buf' /\ wrote buf0 0 (d2 ++ d') buf') as Happ.
  { intros d' d2 b Hb Hl. by apply (wrote_append buf0 0). }
  destruct (Happ (RSN_SELECTOR_PUT g) _ _ Hw) as (b1 & -> & Hw1); [rewrite zlen_PUT; lia|]. cbn [mbind res_bind].
  pose proof (zlen_app d (RSN_SELECTOR_PUT g)) as L1. rewrite zlen_PUT in L1. rewrite <- L1.
  destruct (Happ [1; 0] _ _ Hw1) as (b2 & -> & Hw2); [change (zlen [1; 0]) with 2; lia|]. cbn [mbind res_bind].
  pose proof (zlen_app (d ++ RSN_SELECTOR_PUT g) [1; 0]) as L2. change (zlen [1; 0]) with 2 in L2. rewrite <- L2.
  destruct pairwise as [p|]; [|by eexists].
  destruct (Happ (RSN_SELECTOR_PUT p) _ _ Hw2) as (b3 & -> & Hw3); [rewrite zlen_PUT; lia|]. cbn [mbind res_bind].
  pose proof (zlen_app ((d ++ RSN_SELECTOR_PUT g) ++ [1; 0]) (RSN_SELECTOR_PUT p)) as L3. rewrite zlen_PUT in L3.
  rewrite <- L3.
  destruct (Happ [1; 0] _ _ Hw3) as (b4 & -> & Hw4); [change (zlen [1; 0]) with 2; lia|]. cbn [mbind res_bind].
  pose proof (zlen_app (((d ++ RSN_SELECTOR_PUT g) ++ [1; 0]) ++ RSN_SELECTOR_PUT p) [1; 0]) as L4.
  change (zlen [1; 0]) with 2 in L4. rewrite <- L4.
  destruct akm as [a|]; [|by eexists].
  destruct (Happ (RSN_SELECTOR_PUT a) _ _ Hw4) as (b5 & -> & Hw5); [rewrite zlen_PUT; lia|]. cbn [mbind res_bind].
  rewrite <- !app_assoc in Hw5. exists b5. split; [|exact Hw5].
  rewrite !zlen_app, !zlen_PUT in *. change (zlen [1; 0]) with 2 in *. do 3 f_equal. lia.
Qed.

Lemma gen_rsn_wrote buf0 len pairwise group akm mgmt mfp pmkid : wf_pmkid pmkid ->
  44 <= len <= zlen buf0 ->
  writes buf0 0 WLAN_EID_RSN (assoc_body pairwise group akm mgmt mfp pmkid)
    (wpa_gen_wpa_ie_rsn buf0 len pairwise group akm mgmt mfp pmkid).
Proof.
  intros Hk Hlen. unfold wpa_gen_wpa_ie_rsn, sizeof_rsn_ie_hdr, RSN_SELECTOR_LEN. cbv zeta.
  destruct (Z.ltb_spec len (4 + 4 + 2 + 4 + 2 + 4 + 2 + match pmkid with Some _ => 2 + PMKID_LEN | None => 0 end))
    as [H|_]; [exfalso; unfold PMKID_LEN in *; destruct pmkid; lia|].
  destruct (wrote_id buf0 0 WLAN_EID_RSN) as (buf1 & x & -> & Hw1); [lia..|]. cbn [mbind res_bind].
  destruct (wrote_append _ _ _ (WPA_PUT_LE16 RSN_VERSION) _ Hw1) as (buf2 & H2 & Hw2);
    [change (zlen [WLAN_EID_RSN; x]) with 2; rewrite zlen_LE16; lia|].
  rewrite (bind_eq (wr_n buf1 2 _) _ _ H2). unfold assoc_body.
  set (d2 := [WLAN_EID_RSN; x] ++ WPA_PUT_LE16 RSN_VERSION) in *.
  pose proof (put_three_wrote (suite_of rsn_group_choice group) (suite_of rsn_pairwise_choice pairwise)
    (suite_of rsn_akm_choice akm) buf0 d2 buf2 4 Hw2 eq_refl) as H3.
  change (zlen d2) with 4 in H3. specialize (H3 ltac:(lia)).
  destruct (suite_of rsn_group_choice group) as [g|];
    [|destruct H3 as (b & ->); by eexists].
  destruct (suite_of rsn_pairwise_choice pairwise) as [p|];
    [|destruct H3 as (b & ->); by eexists].
  destruct (suite_of rsn_akm_choice akm) as [a|];
    [|destruct H3 as (b & ->); by eexists].
  cbv zeta in H3. destruct H3 as (buf3 & -> & Hw3). cbn [mbind res_bind].
  set (d3 := d2 ++ _) in *. assert (zlen d3 = 20) as L3 by done.
  destruct (wrote_append _ _ _ (WPA_PUT_LE16 (capab_of mfp)) _ Hw3) as (buf4 & H4 & Hw4);
    [rewrite zlen_LE16; lia|]. rewrite Z.add_0_l in H4. rewrite H4. cbn [mbind res_bind].
  set (d4 := d3 ++ _) in *. assert (zlen d4 = 22) as L4 by done.
  replace (zlen d3 + 2) with (zlen d4) by lia.
  assert (exists buf5 d5, match pmkid with
      | Some d => ie ← wr_n buf4 (zlen d4) [1; 0]; d ← rd_n d 0 PMKID_LEN;
                  ie ← wr_n ie (zlen d4 + 2) d; mret (zlen d4 + 2 + PMKID_LEN, ie)
      | None => mret (zlen d4, buf4)
      end = Ok (zlen d5, buf5) /\ wrote buf0 0 d5 buf5 /\
      d5 = d4 ++ match pmkid with Some k => WPA_PUT_LE16 1 ++ k | None => [] end) as (buf5 & d5 & -> & Hw5 & E5).
  { destruct pmkid as [k|]; cbn in Hk.
    - destruct (wrote_append _ _ _ [1; 0] _ Hw4) as (b & Hb & Hwb); [change (zlen [1; 0]) with 2; lia|].
      rewrite Z.add_0_l in Hb. rewrite Hb. cbn [mbind res_bind]. rewrite <- Hk, rd_n_all. cbn [mbind res_bind].
      destruct (wrote_append _ _ _ k _ Hwb) as (b2 & Hb2 & Hwb2);
        [rewrite zlen_app; change (zlen [1; 0]) with 2; unfold PMKID_LEN in *; lia|].
      rewrite Z.add_0_l, zlen_app in Hb2. change (zlen [1; 0]) with 2 in Hb2. rewrite Hb2.
      exists b2, ((d4 ++ [1; 0]) ++ k). split; [|split; [done|by rewrite <- app_assoc]].
      rewrite !zlen_app. reflexivity.
    - exists buf4, d4. by rewrite app_nil_r. }
  cbn [mbind res_bind].
  assert (zlen d5 <= 40) as L5.
  { rewrite E5, zlen_app. destruct pmkid as [k|]; cbn in Hk; rewrite ?zlen_app, ?zlen_LE16;
      unfold PMKID_LEN in *; change (zlen (@nil Z)) with 0; lia. }
  assert (exists buf6 d6, (if mgmt =? WPA_CIPHER_AES_128_CMAC then
       '(pos, ie) ← match pmkid with
                    | None => ie ← wr_n buf5 (zlen d5) (WPA_PUT_LE16 0); mret (zlen d5 + 2, ie)
                    | Some _ => mret (zlen d5, buf5)
                    end;
       ie ← wr_n ie pos (RSN_SELECTOR_PUT RSN_CIPHER_SUITE_AES_128_CMAC); mret (pos + 4, ie)
      else mret (zlen d5, buf5)) = Ok (zlen d6, buf6) /\ wrote buf0 0 d6 buf6 /\
      d6 = d4 ++ assoc_pmkid pmkid mgmt ++ assoc_mgmt mgmt) as (buf6 & d6 & -> & Hw6 & E6).
  { unfold assoc_pmkid, assoc_mgmt. destruct (mgmt =? WPA_CIPHER_AES_128_CMAC).
    2: { exists buf5, d5. rewrite E5, app_nil_r. destruct pmkid; split; try done; split; try done; rewrite <- E5; done. }
    assert (exists b d6, match pmkid with
       | None => ie ← wr_n buf5 (zlen d5) (WPA_PUT_LE16 0); mret (zlen d5 + 2, ie)
       | Some _ => mret (zlen d5, buf5)
       end = Ok (zlen d6, b) /\ wrote buf0 0 d6 b /\ zlen d6 <= 40 /\
       d6 = d4 ++ match pmkid with Some k => WPA_PUT_LE16 1 ++ k | None => WPA_PUT_LE16 0 end)
      as (b & d6 & -> & Hwb & L6 & E6).
    { destruct pmkid as [k|]; [exists buf5, d5; done|].
      destruct (wrote_append _ _ _ (WPA_PUT_LE16 0) _ Hw5) as (b & Hb & Hwb); [rewrite zlen_LE16; lia|].
      rewrite Z.add_0_l in Hb. rewrite Hb. exists b, (d5 ++ WPA_PUT_LE16 0).
      split; [by rewrite zlen_app|]. split; [done|]. rewrite E5, app_nil_r. done. }
    cbn [mbind res_bind].
    destruct (wrote_append _ _ _ (RSN_SELECTOR_PUT RSN_CIPHER_SUITE_AES_128_CMAC) _ Hwb) as (b2 & Hb2 & Hwb2);
      [rewrite zlen_PUT; lia|]. rewrite Z.add_0_l in Hb2. rewrite Hb2.
    exists b2, (d6 ++ RSN_SELECTOR_PUT RSN_CIPHER_SUITE_AES_128_CMAC).
    split; [by rewrite zlen_app|]. split; [done|]. by rewrite E6, <- app_assoc. }
  cbn [mbind res_bind].
  assert (d6 = [WLAN_EID_RSN; x] ++ (WPA_PUT_LE16 RSN_VERSION ++ RSN_SELECTOR_PUT g ++ [1; 0] ++
    RSN_SELECTOR_PUT p ++ [1; 0] ++ RSN_SELECTOR_PUT a ++ WPA_PUT_LE16 (capab_of mfp) ++
    assoc_pmkid pmkid mgmt ++ assoc_mgmt mgmt)) as E by (rewrite E6; unfold d4, d3, d2; by rewrite <- !app_assoc).
  set (body := WPA_PUT_LE16 RSN_VERSION ++ _) in *.
  assert (zlen d6 = 2 + zlen body) as L6 by (rewrite E, zlen_app; reflexivity).
  assert (zlen d6 <= 44) as L6'.
  { rewrite E6, !zlen_app. unfold assoc_pmkid, assoc_mgmt.
    destruct pmkid as [k|], (mgmt =? WPA_CIPHER_AES_128_CMAC); cbn in Hk;
      rewrite ?zlen_app, ?zlen_LE16, ?zlen_PUT; unfold PMKID_LEN in *; change (zlen (@nil Z)) with 0; lia. }
  rewrite E in Hw6. destruct (wrote_len _ _ _ _ _ _ Hw6) as (buf7 & H7 & Hw7).
  rewrite Z.add_0_l in H7. replace (zlen d6 - 2) with (zlen body) by lia. rewrite H7. cbn [mbind res_bind].
  unfold wpa_assert. rewrite (proj2 (Z.leb_le _ _)) by lia. cbn [mbind res_bind mret res_ret].
  exists buf7. split; [|done]. by rewrite L6, zlen_element.
Qed.

(** The same of the older element. *)
Definition assoc_wpa_body (pairwise group akm : Z) : option (list Z) :=
  match suite_of wpa_group_choice group, suite_of wpa_pairwise_choice pairwise,
        suite_of wpa_akm_choice akm with
  | Some g, Some p, Some a =>
      Some (RSN_SELECTOR_PUT WPA_OUI_TYPE ++ WPA_PUT_LE16 WPA_VERSION ++ RSN_SELECTOR_PUT g ++
            [1; 0] ++ RSN_SELECTOR_PUT p ++ [1; 0] ++ RSN_SELECTOR_PUT a)
  | _, _, _ => None
  end.

Lemma gen_wpa_wrote buf0 len pairwise group akm : 24 <= len <= zlen buf0 ->
  writes buf0 0 WLAN_EID_VENDOR_SPECIFIC (assoc_wpa_body pairwise group akm)
    (wpa_gen_wpa_ie_wpa buf0 len pairwise group akm).
Proof.
  intros Hlen. unfold wpa_gen_wpa_ie_wpa, sizeof_wpa_ie_hdr, WPA_SELECTOR_LEN.
  destruct (Z.ltb_spec len (8 + 4 + 2 + 4 + 2 + 4)) as [H|_]; [lia|].
  destruct (wrote_id buf0 0 WLAN_EID_VENDOR_SPECIFIC) as (buf1 & x & -> & Hw1); [lia..|]. cbn [mbind res_bind].
  destruct (wrote_append _ _ _ (RSN_SELECTOR_PUT WPA_OUI_TYPE) _ Hw1) as (buf2 & H2 & Hw2);
    [change (zlen [WLAN_EID_VENDOR_SPECIFIC; x]) with 2; rewrite zlen_PUT; lia|].
  rewrite (bind_eq (wr_n buf1 2 _) _ _ H2).
  destruct (wrote_append _ _ _ (WPA_PUT_LE16 WPA_VERSION) _ Hw2) as (buf3 & H3 & Hw3);
    [rewrite zlen_app; change (zlen [WLAN_EID_VENDOR_SPECIFIC; x]) with 2; rewrite zlen_PUT, zlen_LE16; lia|].
  rewrite (bind_eq (wr_n buf2 6 _) _ _ H3). unfold assoc_wpa_body. rewrite <- app_assoc in Hw3.
  set (d3 := [WLAN_EID_VENDOR_SPECIFIC; x] ++ RSN_SELECTOR_PUT WPA_OUI_TYPE ++ WPA_PUT_LE16 WPA_VERSION) in *.
  pose proof (put_three_wrote (suite_of wpa_group_choice group) (suite_of wpa_pairwise_choice pairwise)
    (suite_of wpa_akm_choice akm) buf0 d3 buf3 8 Hw3 eq_refl) as H4.
  change (zlen d3) with 8 in H4. specialize (H4 ltac:(lia)).
  destruct (suite_of wpa_group_choice group) as [g|]; [|destruct H4 as (b & ->); by eexists].
  destruct (suite_of wpa_pairwise_choice pairwise) as [p|]; [|destruct H4 as (b & ->); by eexists].
  destruct (suite_of wpa_akm_choice akm) as [a|]; [|destruct H4 as (b & ->); by eexists].
  cbv zeta in H4. destruct H4 as (buf4 & -> & Hw4). cbn [mbind res_bind].
  unfold d3 in Hw4. rewrite <- !app_assoc in Hw4.
  destruct (wrote_len _ _ _ _ _ _ Hw4) as (buf5 & H5 & Hw5).
  rewrite Z.add_0_l in H5. change (zlen (d3 ++ _)) with 24. 
  match type of H5 with context [zlen ?t] => change (zlen t) with 22 in H5 end.
  change (u8 (24 - 2)) with (u8 22). rewrite H5. cbn [mbind res_bind].
  unfold wpa_assert. rewrite (proj2 (Z.leb_le _ _)) by lia. cbn [mbind res_bind mret res_ret].
  exists buf5. split; [|done]. by rewrite zlen_element.
Qed.

(** With room for no more than the test asks for, the management group cipher is
    written behind the buffer. *)
Lemma gen_rsn_overrun (buf : list Z) pairwise group akm mfp g p a :
  suite_of rsn_group_choice group = Some g -> suite_of rsn_pairwise_choice pairwise = Some p ->
  suite_of rsn_akm_choice akm = Some a -> zlen buf = 22 ->
  wpa_gen_wpa_ie_rsn buf 22 pairwise group akm WPA_CIPHER_AES_128_CMAC mfp None = Fault OutOfBounds.
Proof.
  intros Hg Hp Ha Hl. unfold zlen in Hl.
  do 22 (destruct buf as [|? buf]; [done|]). destruct buf; [|cbn in Hl; lia].
  unfold wpa_gen_wpa_ie_rsn. rewrite Hg, Hp, Ha. reflexivity.
Qed.

(** ** The other end *)

(** The configuration of an access point with the suites of the association. *)
Definition conf_of (pairwise group akm mfp : Z) : Conf.wpa_auth_config := {|
  Conf.wpa := WPA_PROTO_RSN; Conf.wpa_key_mgmt := akm; Conf.wpa_pairwise := 0;
  Conf.wpa_group := group; Conf.wpa_group_rekey := 0; Conf.wpa_strict_rekey := 0;
  Conf.wpa_gmk_rekey := 0; Conf.wpa_ptk_rekey := 0; Conf.rsn_pairwise := pairwise;
  Conf.rsn_preauth := 0; Conf.eapol_version := 0; Conf.peerkey := 0; Conf.wmm_enabled := 0;
  Conf.wmm_uapsd := 0; Conf.okc := 0; Conf.ieee80211w := mfp |}.

Lemma suite_of_rsn group g : suite_of rsn_group_choice group = Some g -> rsn_group_suite group = Some g.
Proof. unfold rsn_group_choice, rsn_group_suite. cbn [suite_of]. by repeat case_match. Qed.

Lemma suite_of_in suites x s : suite_of suites x = Some s -> (x, s) ∈ suites.
Proof.
  induction suites as [|[b t] suites IH]; cbn; [done|]. destruct (Z.eqb_spec x b) as [-> |].
  - intros [= ->]. apply list_elem_of_here.
  - intros ?. apply list_elem_of_further. auto.
Qed.

Lemma pairwise_bytes x s : suite_of rsn_pairwise_choice x = Some s ->
  enabled rsn_pairwise_suites x = [s] /\
  suite_list_bytes rsn_pairwise_suites x = [1; 0] ++ RSN_SELECTOR_PUT s.
Proof.
  intros H%suite_of_in. unfold rsn_pairwise_choice in H.
  repeat (apply elem_of_cons in H as [[= -> ->]|H]; [by vm_compute|]). by apply not_elem_of_nil in H.
Qed.
Lemma akm_bytes x s : suite_of rsn_akm_choice x = Some s ->
  enabled rsn_akm_suites x = [s] /\
  suite_list_bytes rsn_akm_suites x = [1; 0] ++ RSN_SELECTOR_PUT s.
Proof.
  intros H%suite_of_in. unfold rsn_akm_choice in H.
  repeat (apply elem_of_cons in H as [[= -> ->]|H]; [by vm_compute|]). by apply not_elem_of_nil in H.
Qed.

(** Management frame protection in the capabilities, and its group cipher, go
    together. *)
Definition mfp_consistent (mgmt mfp : Z) : Prop :=
  (mgmt =? WPA_CIPHER_AES_128_CMAC) = negb (mfp =? 0).

(** The two ends write the same element. *)
Lemma assoc_body_eq pairwise group akm mgmt mfp pmkid body : mfp_consistent mgmt mfp ->
  assoc_body pairwise group akm mgmt mfp pmkid = Some body ->
  rsn_ie_body (conf_of pairwise group akm mfp) pmkid = Some body.
Proof.
  intros Hm. unfold assoc_body, rsn_ie_body.
  destruct (suite_of rsn_group_choice group) as [g|] eqn:Hg; [|done].
  destruct (suite_of rsn_pairwise_choice pairwise) as [p|] eqn:Hp; [|done].
  destruct (suite_of rsn_akm_choice akm) as [a|] eqn:Ha; [|done]. intros <-.
  cbn [conf_of Conf.wpa_group Conf.rsn_pairwise Conf.wpa_key_mgmt].
  rewrite (suite_of_rsn _ _ Hg). destruct (pairwise_bytes _ _ Hp) as [-> ->], (akm_bytes _ _ Ha) as [-> ->].
  rewrite <- !app_assoc. do 7 f_equal.
  unfold pmkid_bytes, mgmt_bytes, assoc_pmkid, assoc_mgmt, uses_mfp. cbn [conf_of Conf.ieee80211w].
  unfold mfp_consistent, NO_MGMT_FRAME_PROTECTION in *. rewrite Hm.
  assert (rsn_capab (conf_of pairwise group akm mfp) = capab_of mfp) as ->; [|done].
  unfold rsn_capab, capab_of. cbn. unfold NO_MGMT_FRAME_PROTECTION, MGMT_FRAME_PROTECTION_REQUIRED.
  destruct (Z.eqb_spec mfp 0) as [-> |]; [done|]. cbn [negb]. by destruct (mfp =? 2).
Qed.

