(* ===== verification/WpaSuppOps.v ===== *)
(** * The interface of the supplicant keeps the type invariant

    Every call of wpa_supplicant into the machine, as one executable step
    ([perform]), with what the caller has to see to ([op_ok]). *)

From S2P Require Import Prelude CommonUtils WpaCommon WpaIeProps WpaSuppI WpaSuppPmksa WpaSuppIe.
From S2P Require Import WpaSupp WpaSuppWf WpaSuppIeProps WpaSuppRun WpaSuppKeys WpaSuppMsg WpaSuppRx.

Lemma runs_and {A} (m : res A) P Q : runs m P -> runs m Q -> runs m (fun a => P a /\ Q a).
Proof. intros (a & -> & Ha) (b & [= <-] & Hb). by exists a. Qed.

Section cache.
Context {cr : Crypto} {c_laws : CryptoLaws cr} {un : KeyUnwrap} {u_laws : KeyUnwrapLaws cr un}.
Context {h : Host} {h_laws : HostLaws h}.

(** ** Opportunistic key caching *)

Lemma os_memcmp_sym0 a b : length a = length b -> os_memcmp a b = 0 -> os_memcmp b a = 0.
Proof. intros Hl H. apply os_memcmp_eq in H as ->; [apply os_memcmp_refl|done]. Qed.

Lemma find_entry_none test l : find_entry test l = None -> Forall (fun x => test (snd x) = false) l.
Proof.
  induction l as [|[p e] l IH]; cbn; [done|]. destruct (test e) eqn:Ht; [done|]. constructor; auto.
Qed.

Lemma split_at_aa_none aa (l : pmksa_list) : Forall (fun x => zlen (Entry.aa (snd x)) = 6) l ->
  zlen aa = 6 -> find_entry (entry_matches (Some aa) None) l = None -> split_at_aa aa l = None.
Proof.
  intros Hl Ha Hf%find_entry_none. induction l as [|[p e] l IH]; cbn; [done|].
  apply Forall_cons in Hl as [Hl1 Hl]. apply Forall_cons in Hf as [Hf1 Hf]. cbn in *.
  destruct (Z.eqb_spec (os_memcmp aa (Entry.aa e)) 0) as [H|].
  - apply os_memcmp_sym0 in H; [|unfold zlen in *; lia]. unfold entry_matches in Hf1. rewrite H in Hf1. done.
  - by rewrite IH.
Qed.

(** A new entry for an authenticator that has none, when there is room. *)
Lemma add_new_runs pmk pmk_len aa spa ctx akmp s : wf_sup s -> zlen pmk = PMK_LEN ->
  0 <= pmk_len -> zlen aa = 6 -> zlen (entries s) < pmksa_cache_max_entries ->
  find_entry (entry_matches (Some aa) None) (entries s) = None ->
  runs (pmksa_cache_add pmk pmk_len aa spa ctx akmp s) (fun '(o, s') =>
    map fst (entries s) ⊆ map fst (entries s')).
Proof.
  intros Hw Hk Hl Ha Hroom Hnone. unfold pmksa_cache_add.
  destruct (Z.ltb_spec PMK_LEN pmk_len) as [|Hle]; [by apply runs_ret|].
  unfold os_malloc. cbv zeta iota beta. destruct (negb _); [by apply runs_ret|].
  destruct (rd_n_runs pmk 0 pmk_len) as (k & -> & Hkl); [lia|lia|lia|]. cbn [mbind res_bind].
  unfold os_get_time. cbv zeta iota beta. set (s2 := say STime _).
  set (e := new_entry _ _ _ _ _ _ _ _).
  assert (split_at_aa (Entry.aa e) (entries s2) = None) as Hsplit.
  { change (Entry.aa e) with aa. change (entries s2) with (entries s).
    apply split_at_aa_none; [|done|done]. eapply Forall_impl; [apply (s_list s Hw)|]. by intros [p e'] []. }
  unfold replace_old. rewrite Hsplit. cbn [mbind res_bind mret res_ret].
  assert (remove_oldest s2 = Ok s2) as ->.
  { unfold remove_oldest. change (entries s2) with (entries s).
    change (Cache.pmksa_count (Sup.pmksa (su s2))) with (count s). rewrite (s_count s Hw).
    destruct (entries s) as [|[p e'] l]; [done|]. by rewrite (proj2 (Z.leb_gt _ _)). }
  cbn [mbind res_bind]. change (entries s2) with (entries s). set (p := Cache.fresh _).
  pose proof (insert_entry_perm p e (entries s)) as Hperm.
  destruct (insert_entry p e (entries s)) as [l first]. cbn [fst] in Hperm. apply runs_ret.
  match goal with |- _ ⊆ map fst (entries ?t) => assert (entries t = l) as -> end.
  { destruct first; [|done]. unfold entries. cbn.
    by destruct (set_expiration_still (set_entries l s2)) as [_ ->]. }
  rewrite Hperm. cbn. set_solver.
Qed.

(** Cloning returns as long as the cache has room. *)
Lemma get_opportunistic_runs ctx aa s : wf_sup s -> zlen aa = 6 ->
  zlen (entries s) < pmksa_cache_max_entries ->
  find_entry (entry_matches (Some aa) None) (entries s) = None ->
  runs (pmksa_cache_get_opportunistic ctx aa s) (fun '(o, s') =>
    wf_sup s' /\ still harmless s s' /\ held o (entries s')).
Proof.
  intros Hw Ha Hroom Hnone. unfold pmksa_cache_get_opportunistic.
  assert (runs (mret (None, s)) (fun '(o, s') => wf_sup s' /\ still harmless s s' /\ held o (entries s'))) as Hno.
  { apply runs_ret. auto with sup. }
  destruct ctx as [ctx|]; [|done].
  destruct (find_entry _ (entries s)) as [old|] eqn:Hfind in |- *; [|done].
  apply (find_entry_held _ (entries s)) in Hfind as Hold. unfold pmksa_cache_clone_entry.
  destruct (entry_at_runs old (entries s) (fresh s)) as (e & -> & He & _); [apply Hw|done|].
  cbn [mbind res_bind].
  rstep ltac:(apply runs_and; [apply pmksa_cache_add_runs; [done|apply He|apply He|done]
                              |apply add_new_runs; [done|apply He|apply He|done..]]) as [o s1] Hx.
  destruct Hx as [(Hw1 & Hst1 & Hheld) Hsub]. destruct o as [new|]; [|by apply runs_ret].
  destruct (entry_at_runs old (entries s1) (fresh s1)) as (e' & -> & _); [apply Hw1|by apply Hsub|].
  apply runs_ret. split; [apply update_entry_wf; [by intros ? []; split|done]|]. split.
  - eapply still_trans; [exact Hst1|]. by split; [| |apply log_ext_refl].
  - intros q Hq. apply Hheld in Hq. 
    rewrite <- (map_fst_map (fun q e => if decide (q = new) then clone_fields (Entry.expiration e') e else e)) in Hq.
    exact Hq.
Qed.

Lemma set_current_runs pmkid bssid ctx (opp : bool) s : wf_sup s ->
  (forall b, bssid = Some b -> zlen b = 6) ->
  (opp = true -> zlen (entries s) < pmksa_cache_max_entries) ->
  runs (pmksa_cache_set_current pmkid bssid ctx opp s) (fun '(_, s') =>
    wf_sup s' /\ still harmless s s').
Proof.
  intros Hw Hb Hroom. unfold pmksa_cache_set_current. cbv zeta.
  set (s1 := match pmkid with Some _ => _ | None => _ end).
  assert (exists p, s1 = set_cur p s /\ held p (entries s)) as (p1 & E1 & H1).
  { unfold s1. destruct pmkid as [id|]; [|exists None; by auto with sup].
    eexists. split; [reflexivity|]. exact (find_entry_held _ (entries s)). }
  set (s2 := match Sup.cur_pmksa (su s1) with Some _ => _ | None => _ end).
  assert (exists p, s2 = set_cur p s /\ held p (entries s) /\ (p = None -> forall b, bssid = Some b ->
    find_entry (entry_matches (Some b) None) (entries s) = None)) as (p2 & E2 & H2 & Hn2).
  { unfold s2. rewrite E1. cbn [Sup.cur_pmksa su set_cur]. destruct p1 as [p|], bssid as [b|].
    - exists (Some p). by split_and!.
    - exists (Some p). by split_and!.
    - eexists. split; [reflexivity|]. split; [exact (find_entry_held _ (entries s))|].
      intros Hn ? [= <-]. exact Hn.
    - exists None. by split_and!. }
  destruct (set_cur_wf p2 s Hw H2) as [Hw2 Hst2]. rewrite E2. clear s1 s2 E1 E2.
  assert (runs (mret (set_cur p2 s)) (fun s' => wf_sup s' /\ still harmless s s')) as Hno by by apply runs_ret.
  rstep ltac:(instantiate (1 := fun s' => wf_sup s' /\ still harmless s s')) as s3 Hs3; [|by apply runs_ret].
  change (Sup.cur_pmksa (su (set_cur p2 s))) with p2.
  destruct p2; [done|]. destruct bssid as [b|]; [|done]. destruct opp; [|done].
  rstep ltac:(apply get_opportunistic_runs; [done|by apply Hb|by apply Hroom|by apply Hn2]) as [o s3] Hx.
  destruct Hx as (Hw3 & Hst3 & Hheld). apply runs_ret.
  destruct (set_cur_wf o s3 Hw3 Hheld) as [Hw4 Hst4]. split; [done|].
  eapply still_trans; [exact Hst2|]. by eapply still_trans.
Qed.
End cache.
