(* ===== verification/WpaSuppSteps.v ===== *)
(** * The supplicant as a step system

    Every call of the owner of the machine and every timeout is an operation
    ([sup_op]), performed by one executable step; [op_ok] is what the owner has to
    see to.  Every step returns and keeps the type invariant ([perform_runs]);
    what it may say to the owner is in its outcome. *)

From S2P Require Import Prelude CommonUtils WpaCommon WpaIeProps WpaSuppI WpaSuppPmksa WpaSuppIe.
From S2P Require Import WpaSupp WpaSuppWf WpaSuppIeProps WpaSuppRun WpaSuppKeys WpaSuppMsg WpaSuppRx.
From S2P Require Import WpaSuppIeGen WpaSuppOps.

Inductive sup_op :=
  | ORx (src buf : list Z)
  | ONotifyAssoc (bssid : list Z)
  | ONotifyDisassoc
  | OSetPmk (pmk : list Z) (pmk_len : Z)
  | OSetPmkFromPmksa
  | OSetConfig (config : option Config.rsn_supp_config)
  | OSetOwnAddr (addr : list Z)
  | OSetEapol (eapol : option nat)
  | OSetFastReauth (fast_reauth : Z)
  | OSetScardCtx (ctx : option nat)
  | OSetIfname (ifname bridge : option nat)
  | OSetParam (param : wpa_sm_conf_params) (value : Z)
  | OSetAssocIe (ie : option (list Z)) (len : Z)
  | OSetAssocIeDefault (buf : list Z) (len : Z)
  | OSetApWpaIe (ie : option (list Z)) (len : Z)
  | OSetApRsnIe (ie : option (list Z)) (len : Z)
  | ODropSa
  | OAbortedCached
  | OKeyRequest (error pairwise : bool)
  | OCacheAdd (pmk : list Z) (pmk_len : Z) (aa spa : list Z) (ctx : option nat) (akmp : Z)
  | OSetCurrent (pmkid bssid : option (list Z)) (ctx : option nat) (opportunistic : bool)
  | OClearCurrent
  | ORekeyTimeout
  | OExpireTimeout
  | OReauthTimeout
  | OPreauthTimeout
  | OPreauthDeinit.

Definition op_ok (op : sup_op) (s : sst) : Prop :=
  match op with
  | ORx src buf => zlen src = 6 /\ bytes buf /\ forall ki n,
      WPA_GET_BE16 buf o_key_info = Ok ki -> WPA_GET_BE16 buf o_key_data_length = Ok n ->
      not_empty_encrypted ki n
  | ONotifyAssoc bssid => zlen bssid = 6
  | OSetPmk pmk pmk_len => 0 <= pmk_len <= PMK_LEN /\ pmk_len <= zlen pmk
  | OSetConfig (Some config) => forall d, Config.ssid config = Some d ->
      0 <= Config.ssid_len config <= 32 /\ Config.ssid_len config <= zlen d
  | OSetOwnAddr addr => zlen addr = 6
  | OSetAssocIe ie len => len <= 65440 /\ forall d, ie = Some d -> 0 <= len <= zlen d
  | OSetAssocIeDefault buf len => 44 <= len <= zlen buf
  | OSetApWpaIe ie len | OSetApRsnIe ie len => forall d, ie = Some d -> 0 <= len <= zlen d
  | OCacheAdd pmk pmk_len aa _ _ _ => zlen pmk = PMK_LEN /\ 0 <= pmk_len /\ zlen aa = 6
  | OSetCurrent _ bssid _ opportunistic => (forall b, bssid = Some b -> zlen b = 6) /\
      (opportunistic = true -> zlen (entries s) < pmksa_cache_max_entries)
  | _ => True
  end.

Section steps.
Context {cr : Crypto} {c_laws : CryptoLaws cr} {un : KeyUnwrap} {u_laws : KeyUnwrapLaws cr un}.
Context {h : Host} {h_laws : HostLaws h}.

(** The state behind an operation. *)
Definition state_of {A} (m : res (A * sst)) : res sst := '(_, s) ← m; mret s.

Definition perform (op : sup_op) (s : sst) : res sst :=
  match op with
  | ORx src buf => state_of (wpa_sm_rx_eapol src buf (zlen buf) s)
  | ONotifyAssoc bssid => mret (wpa_sm_notify_assoc bssid s)
  | ONotifyDisassoc => mret (wpa_sm_notify_disassoc s)
  | OSetPmk pmk pmk_len => wpa_sm_set_pmk pmk pmk_len s
  | OSetPmkFromPmksa => wpa_sm_set_pmk_from_pmksa s
  | OSetConfig config => wpa_sm_set_config config s
  | OSetOwnAddr addr => wpa_sm_set_own_addr addr s
  | OSetEapol eapol => mret (wpa_sm_set_eapol eapol s)
  | OSetFastReauth f => mret (wpa_sm_set_fast_reauth f s)
  | OSetScardCtx ctx => mret (wpa_sm_set_scard_ctx ctx s)
  | OSetIfname i b => mret (wpa_sm_set_ifname i b s)
  | OSetParam param value => mret (snd (wpa_sm_set_param param value s))
  | OSetAssocIe ie len => state_of (wpa_sm_set_assoc_wpa_ie ie len s)
  | OSetAssocIeDefault buf len => state_of (wpa_sm_set_assoc_wpa_ie_default buf len s)
  | OSetApWpaIe ie len => state_of (wpa_sm_set_ap_wpa_ie ie len s)
  | OSetApRsnIe ie len => state_of (wpa_sm_set_ap_rsn_ie ie len s)
  | ODropSa => mret (wpa_sm_drop_sa s)
  | OAbortedCached => mret (wpa_sm_aborted_cached s)
  | OKeyRequest error pairwise => wpa_sm_key_request error pairwise s
  | OCacheAdd pmk pmk_len aa spa ctx akmp => state_of (pmksa_cache_add pmk pmk_len aa spa ctx akmp s)
  | OSetCurrent pmkid bssid ctx opp => state_of (pmksa_cache_set_current pmkid bssid ctx opp s)
  | OClearCurrent => mret (pmksa_cache_clear_current s)
  | ORekeyTimeout => wpa_sm_rekey_ptk s
  | OExpireTimeout => pmksa_cache_expire s
  | OReauthTimeout => mret (pmksa_cache_reauth s)
  | OPreauthTimeout => mret (wpa_sm_start_preauth s)
  | OPreauthDeinit => mret (rsn_preauth_deinit s)
  end.

(** The key in use, the replay counter. *)
Definition session (m : Sup.wpa_sm) :=
  (Sup.ptk m, Sup.ptk_set m, Sup.rx_replay_counter m, Sup.rx_replay_counter_set m).

(** What an operation that is neither a frame nor an association does to it:
    nothing, or the key is taken out of use. *)
Definition lapses (m m' : Sup.wpa_sm) : Prop :=
  session m' = session m \/
  Sup.ptk_set m' = false /\ Sup.rx_replay_counter m' = Sup.rx_replay_counter m /\
  Sup.rx_replay_counter_set m' = Sup.rx_replay_counter_set m.

Definition quiet_step (s s' : sst) : Prop :=
  wf_sup s' /\ lapses (su s) (su s') /\ log_ext harmless (slg s) (slg s').

Lemma quiet_still s s' : wf_sup s' -> still harmless s s' -> quiet_step s s'.
Proof. intros Hw [Hs _ Hl]. split; [done|]. split; [|done]. left. unfold settled, session in *. congruence. Qed.

(** Assignments. *)
Lemma quiet_set s s' : wf_sup s -> wf_sizes (su s') -> slg s' = slg s ->
  Sup.pmksa (su s') = Sup.pmksa (su s) -> Sup.cur_pmksa (su s') = Sup.cur_pmksa (su s) ->
  lapses (su s) (su s') -> quiet_step s s'.
Proof.
  intros Hw Hz Hl Hp Hc Hs. split; [exact (wf_sup_log _ (slg s') (wf_set s (su s') Hw Hz Hp Hc))|].
  split; [done|]. rewrite Hl. apply log_ext_refl.
Qed.

Lemma lapses_refl m m' : session m' = session m -> lapses m m'.
Proof. by left. Qed.

(** Taken apart where a field is assigned. *)
Ltac assign s := apply runs_ret, quiet_set; [done|destruct (s_sizes s ltac:(done)); by split|done|done|done|].

Lemma set_pmk_runs pmk n s : wf_sup s -> 0 <= n <= PMK_LEN -> n <= zlen pmk ->
  runs (wpa_sm_set_pmk pmk n s) (quiet_step s).
Proof.
  intros Hw Hn Hl. unfold wpa_sm_set_pmk. cbv zeta.
  destruct (rd_n_runs pmk 0 n) as (d & -> & Hd); [lia..|]. cbn [mbind res_bind].
  destruct (wr_front (Sup.pmk (su s)) d PMK_LEN n) as (k & Hk & Hkl); [apply (s_sizes s Hw)|done|lia|].
  change (Sup.pmk (su (s <| su; Sup.pmk_len := n |>))) with (Sup.pmk (su s)). rewrite Hk.
  apply runs_ret. destruct (set_pmk_wf s k n Hw Hkl Hn). by apply quiet_still.
Qed.

Lemma set_config_runs config s : wf_sup s -> op_ok (OSetConfig config) s ->
  runs (wpa_sm_set_config config s) (quiet_step s).
Proof.
  intros Hw Hok. destruct config as [config|].
  2: { eexists. split; [reflexivity|]. apply quiet_still; [by apply cleared_wf|apply cleared_still]. }
  unfold wpa_sm_set_config.
  rstep ltac:(instantiate (1 := fun m => wf_sizes m /\ session m = session (su s) /\
    Sup.pmksa m = Sup.pmksa (su s) /\ Sup.cur_pmksa m = Sup.cur_pmksa (su s) /\
    Sup.network_ctx m = Config.network_ctx config)) as m Hm.
  - unfold config_from. cbv zeta.
    rstep ltac:(instantiate (1 := fun m => wf_sizes m /\ session m = session (su s) /\
      Sup.pmksa m = Sup.pmksa (su s) /\ Sup.cur_pmksa m = Sup.cur_pmksa (su s) /\
      Sup.network_ctx m = Config.network_ctx config)) as m Hm.
    + destruct (Config.ssid config) as [d|] eqn:Hd.
      * destruct (Hok d Hd). destruct (rd_n_runs d 0 (Config.ssid_len config)) as (x & -> & Hx); [lia..|].
        cbn [mbind res_bind].
        match goal with |- context [wr_n ?b 0 x] => change b with (Sup.ssid (su s)) end.
        destruct (wr_front (Sup.ssid (su s)) x 32 (Config.ssid_len config)) as (k & -> & Hk);
          [apply (s_sizes s Hw)|done|lia|]. apply runs_ret.
        destruct (s_sizes s Hw). split; [by split|]. by split_and!.
      * apply runs_ret. destruct (s_sizes s Hw). split; [by split|]. by split_and!.
    + apply runs_ret. destruct Hm as (Hz & H1 & H2 & H3 & H4). split; [destruct Hz; by split|]. by split_and!.
  - destruct Hm as (Hz & H1 & H2 & H3 & H4). cbv zeta.
    change (Sup.network_ctx (su (s <| su := m |>))) with (Sup.network_ctx m). rewrite H4.
    rewrite bool_decide_true by done. apply runs_ret. apply quiet_set; try done. by apply lapses_refl.
Qed.
Lemma cur_pmkid_runs s : wf_sup s -> exists k, cur_pmkid s = Ok k /\ wf_pmkid k.
Proof.
  intros Hw. unfold cur_pmkid. destruct (Sup.cur_pmksa (su s)) as [p|] eqn:Hc; [|by exists None].
  destruct (entry_at_runs p (entries s) (fresh s)) as (e & -> & He & _);
    [apply Hw|by apply (s_cur s Hw)|]. exists (Some (Entry.pmkid e)). split; [done|]. exact (e_pmkid _ He).
Qed.

(** What a writer of an element returns: an error, or the length of the octets at
    the front of the buffer. *)
Lemma writes_runs buf id body m n : writes buf 0 id body m ->
  (forall b, body = Some b -> 2 + zlen b <= n) ->
  exists r buf', m = Ok (r, buf') /\ (r = -1 \/ 0 <= r <= n /\ r <= zlen buf').
Proof.
  intros Hm Hn. destruct body as [b|]; destruct Hm as (buf' & Hm).
  - destruct Hm as [Hm Hw]. eexists _, buf'. split; [exact Hm|]. right.
    rewrite (wrote_zlen _ _ _ _ Hw). destruct Hw as (_ & Hl & _).
    pose proof (zlen_nonneg b). specialize (Hn b eq_refl). rewrite zlen_element in *. lia.
  - eexists _, buf'. split; [exact Hm|]. by left.
Qed.

Lemma gen_ie_runs m cur buf len : wf_pmkid cur -> 44 <= len <= zlen buf ->
  exists r buf', wpa_gen_wpa_ie m cur buf len = Ok (r, buf') /\ (r = -1 \/ 0 <= r <= 44 /\ r <= zlen buf').
Proof.
  intros Hk Hlen. unfold wpa_gen_wpa_ie. destruct (_ =? WPA_PROTO_RSN).
  - eapply writes_runs; [by apply gen_rsn_wrote|]. intros b. unfold assoc_body.
    repeat (case_match; [|done]). intros <-%(inj Some).
    rewrite !zlen_app, !zlen_PUT, !zlen_LE16. change (zlen [1; 0]) with 2. unfold assoc_pmkid, assoc_mgmt.
    destruct cur as [k|], (_ =? WPA_CIPHER_AES_128_CMAC); cbn in Hk;
      rewrite ?zlen_app, ?zlen_LE16, ?zlen_PUT; unfold PMKID_LEN in *; change (zlen (@nil Z)) with 0; lia.
  - eapply writes_runs; [apply gen_wpa_wrote; lia|]. intros b. unfold assoc_wpa_body.
    repeat (case_match; [|done]). intros <-%(inj Some).
    rewrite !zlen_app, !zlen_PUT, !zlen_LE16. change (zlen [1; 0]) with 2. lia.
Qed.

Lemma assoc_default_runs buf len s : wf_sup s -> 44 <= len <= zlen buf ->
  runs (wpa_sm_set_assoc_wpa_ie_default buf len s) (fun '(_, s') => calm s s').
Proof.
  intros Hw Hlen. unfold wpa_sm_set_assoc_wpa_ie_default.
  destruct (cur_pmkid_runs s Hw) as (k & -> & Hk). cbn [mbind res_bind].
  destruct (gen_ie_runs (su s) k buf len Hk Hlen) as (r & buf' & -> & Hr). cbn [mbind res_bind].
  destruct (Z.ltb_spec r 0); [apply runs_ret; by auto with sup|].
  destruct Hr as [->|[Hr1 Hr2]]; [lia|].
  destruct (Sup.assoc_wpa_ie (su s)); [apply runs_ret; by auto with sup|].
  unfold os_malloc. cbv zeta iota beta. set (s1 := say _ s).
  assert (calm s s1) as Hc1 by by apply calm_say. pose proof (proj1 Hc1) as Hw1.
  destruct (negb _); [by apply runs_ret|].
  destruct (rd_n_runs buf' 0 r) as (d & -> & Hd); [lia..|]. cbn [mbind res_bind]. apply runs_ret.
  eapply calm_trans; [exact Hc1|]. apply calm_upd; try done. destruct (s_sizes s1 Hw1).
  split; try done. cbn. intros ie Hie. apply (inj Some) in Hie. subst ie. lia.
Qed.

(** What a step comes to. *)
Definition step_outcome (op : sup_op) (s s' : sst) : Prop :=
  match op with
  | ORx _ buf => rx_outcome buf s s'
  | ONotifyAssoc _ => Sup.ptk_set (su s') = false /\ Sup.rx_replay_counter_set (su s') = false /\
      log_ext harmless (slg s) (slg s')
  | _ => lapses (su s) (su s') /\ log_ext harmless (slg s) (slg s')
  end.

Lemma calm_quiet s s' : calm s s' -> quiet_step s s'.
Proof. intros []. by apply quiet_still. Qed.

(** An operation that returns a value as well. *)
Lemma state_of_runs {A} (m : res (A * sst)) P : runs m (fun '(_, s') => P s') -> runs (state_of m) P.
Proof. intros ([a s'] & -> & HP). by exists s'. Qed.

Lemma rsn_preauth_deinit_calm s : wf_sup s -> calm s (rsn_preauth_deinit s).
Proof.
  intros Hw. unfold rsn_preauth_deinit. destruct (Sup.preauth_eapol (su s)); [|by apply calm_refl]. cbv zeta.
  set (s1 := say SPreauthDeinit _).
  assert (calm s s1) as Hc by (eapply calm_trans; apply calm_say; [done|done|done|by apply wf_say]).
  eapply calm_trans; [exact Hc|]. destruct Hc as [Hw1 _].
  apply calm_upd; try done. destruct (s_sizes s1 Hw1). by split.
Qed.

Lemma notify_assoc_runs bssid s : wf_sup s -> zlen bssid = 6 ->
  let s' := wpa_sm_notify_assoc bssid s in wf_sup s' /\ step_outcome (ONotifyAssoc bssid) s s'.
Proof.
  intros Hw Hb. unfold wpa_sm_notify_assoc. cbv zeta. cbn [step_outcome].
  set (s1 := _ <| su; Sup.renew_snonce := true |>).
  assert (wf_sup s1) as Hw1.
  { apply (wf_set _ (su s1) Hw); [|done|done]. destruct (s_sizes s Hw). split; try done. }
  match goal with |- context [if ?b then rsn_preauth_deinit s1 else s1] =>
    assert (calm s1 (if b then rsn_preauth_deinit s1 else s1)) as Hc;
      [destruct b; [by apply rsn_preauth_deinit_calm|by apply calm_refl]|];
    set (s2 := if b then _ else _) in * end.
  destruct Hc as [Hw2 [Hst _ Hl2]]. split; [|split; [|split]].
  - match goal with |- wf_sup ?t => apply (wf_set s2 (su t) Hw2) end; [|done|done].
    destruct (s_sizes s2 Hw2). by split.
  - done.
  - change (Sup.rx_replay_counter_set (su s2) = false).
    change false with (Sup.rx_replay_counter_set (su s1)). unfold settled in Hst. congruence.
  - exact Hl2.
Qed.

(** Every operation returns, and keeps the type invariant. *)
Lemma perform_runs_ op s : wf_sup s -> op_ok op s ->
  runs (perform op s) (fun s' => wf_sup s' /\ step_outcome op s s').
Proof.
  intros Hw Hok. destruct op; cbn [perform].
  1: { destruct Hok as (Hsrc & Hb & Hn). apply state_of_runs.
       eapply runs_weaken; [by apply rx_eapol_runs|]. by intros [r s']. }
  1: { by apply runs_ret, notify_assoc_runs. }
  all: match goal with |- runs _ ?P => eapply (runs_weaken _ (quiet_step s));
         [|by intros s' (? & ? & ?); split] end.
  - apply runs_ret. unfold wpa_sm_notify_disassoc, wpa_sm_get_state. cbv zeta iota beta.
    apply calm_quiet. set (s1 := rsn_preauth_deinit s). set (s2 := say SGetState s1).
    assert (calm s s2) as Hc.
    { eapply calm_trans; [by apply rsn_preauth_deinit_calm|]. apply calm_say; [done|].
      by apply rsn_preauth_deinit_calm. }
    case_match; [|done]. eapply calm_trans; [exact Hc|]. apply calm_upd; try done; [apply Hc|].
    destruct (s_sizes s2 (proj1 Hc)). by split.
  - destruct Hok. by apply set_pmk_runs.
  - eapply runs_weaken; [by apply set_pmk_from_pmksa_runs|]. intros s' ?. by apply calm_quiet.
  - by apply set_config_runs.
  - unfold wpa_sm_set_own_addr. cbn in Hok. rewrite <- Hok, rd_n_all. cbn [mbind res_bind]. assign s. by apply lapses_refl.
  - assign s. by apply lapses_refl.
  - assign s. by apply lapses_refl.
  - assign s. by apply lapses_refl.
  - assign s. by apply lapses_refl.
  - apply runs_ret. destruct param; cbn [wpa_sm_set_param]; repeat case_match; cbn [snd];
      first [by apply calm_quiet, calm_refl
            |apply quiet_set; [done|destruct (s_sizes s Hw); by split|done|done|done|by apply lapses_refl]].
  - destruct Hok. apply state_of_runs. eapply runs_weaken; [by apply set_assoc_wpa_ie_runs|].
    intros [r s'] ?. by apply calm_quiet.
  - apply state_of_runs. eapply runs_weaken; [by apply assoc_default_runs|].
    intros [[[r b] n] s'] ?. by apply calm_quiet.
  - apply state_of_runs. eapply runs_weaken; [by apply set_ap_wpa_ie_runs|].
    intros [r s'] ?. by apply calm_quiet.
  - apply state_of_runs. eapply runs_weaken; [by apply set_ap_rsn_ie_runs|].
    intros [r s'] ?. by apply calm_quiet.
  - assign s. right. by split_and!.
  - apply runs_ret. by apply calm_quiet, set_cur_wf.
  - eapply runs_weaken; [by apply key_request_runs|]. intros s' ?. by apply calm_quiet.
  - destruct Hok as (? & ? & ?). apply state_of_runs. eapply runs_weaken; [by apply pmksa_cache_add_runs|].
    intros [o s'] (? & ? & ?). by apply calm_quiet.
  - destruct Hok. apply state_of_runs. eapply runs_weaken; [by apply set_current_runs|].
    intros [o s'] ?. by apply calm_quiet.
  - apply runs_ret. by apply calm_quiet, set_cur_wf.
  - unfold wpa_sm_rekey_ptk. eapply runs_weaken; [apply key_request_runs; by apply wf_say|].
    intros s' ?. apply calm_quiet. eapply calm_trans; [by apply (calm_say (SFire wpa_sm_rekey_ptk_))|done].
  - eapply runs_weaken; [by apply expire_runs|]. intros s' ?. by apply calm_quiet.
  - apply runs_ret. by apply calm_quiet, reauth_wf.
  - apply runs_ret, calm_quiet. split; [by repeat apply wf_say|].
    split; [done|done|cbn [slg say wpa_sm_start_preauth]; grow].
  - apply runs_ret. by apply calm_quiet, rsn_preauth_deinit_calm.
Qed.
End steps.
