(* ===== verification/WpaSuppSpec.v ===== *)
(** * The properties of the supplicant

    From [wpa_sm_init] on every call returns; keys are installed, ports opened and
    the key in use replaced only for a frame a key vouches for; and a frame that
    was accepted is not accepted again. *)

From S2P Require Import Prelude CommonUtils WpaCommon WpaIeProps WpaSuppI WpaSuppPmksa WpaSuppIe.
From S2P Require Import WpaSupp WpaSuppWf WpaSuppIeProps WpaSuppRun WpaSuppKeys WpaSuppMsg WpaSuppRx.
From S2P Require Import WpaSuppIeGen WpaSuppOps WpaSuppSteps.

(** ** The order of replay counters *)

Lemma os_memcmp_flip a b : os_memcmp b a = - os_memcmp a b.
Proof.
  revert b. induction a as [|x a IH]; intros [|y b]; cbn; try done.
  destruct (Z.eqb_spec x y) as [-> |]; [by rewrite Z.eqb_refl|].
  destruct (Z.eqb_spec y x); lia.
Qed.

Lemma os_memcmp_trans a b c : length a = length b -> length b = length c ->
  os_memcmp a b <= 0 -> os_memcmp b c <= 0 -> os_memcmp a c <= 0.
Proof.
  revert b c. induction a as [|x a IH]; intros [|y b] [|z c]; cbn; try done.
  intros [= H1] [= H2]. destruct (Z.eqb_spec x y) as [-> |], (Z.eqb_spec y z) as [-> |].
  - by apply IH.
  - done.
  - rewrite (proj2 (Z.eqb_neq _ _)) by done. done.
  - intros. destruct (Z.eqb_spec x z); lia.
Qed.

Section spec.
Context {cr : Crypto} {c_laws : CryptoLaws cr} {un : KeyUnwrap} {u_laws : KeyUnwrapLaws cr un}.
Context {h : Host} {h_laws : HostLaws h}.

(** ** Reachable states *)

Inductive reachable : sst -> Prop :=
  | reach_init l s l' : wpa_sm_init l = (Some s, l') -> reachable s
  | reach_step s op s' : reachable s -> op_ok op s -> perform op s = Ok s' -> reachable s'.

Lemma init_wf l s l' : wpa_sm_init l = (Some s, l') -> wf_sup s.
Proof.
  unfold wpa_sm_init, pmksa_cache_init. cbv zeta.
  destruct (negb _); [done|]. destruct (malloc _); [|done]. intros [= <- <-].
  split; [by split|split; constructor|done|done|apply held_none].
Qed.

Lemma reachable_wf s : reachable s -> wf_sup s.
Proof.
  induction 1 as [l s l' Hi|s op s' _ IH Hok Hp]; [by eapply init_wf|].
  pose proof (perform_runs_ op s IH Hok) as H. by apply (runs_inv _ _ _ H) in Hp as [? _].
Qed.


(** ** Only a frame that is vouched for *)

(** What the operation [s -> s'] told the owner that was not harmless, or what it
    did to the key in use: a key was installed, a port opened, the connection
    completed, a PTK put in use or replaced, the replay counter moved. *)
Definition consequential (s s' : sst) : Prop :=
  (exists c d, slg s' = d ++ slg s /\ c ∈ d /\ ~ harmless c) \/
  (Sup.ptk_set (su s') = true /\ (Sup.ptk_set (su s), Sup.ptk (su s)) <> (true, Sup.ptk (su s'))) \/
  (Sup.rx_replay_counter_set (su s') = true /\
   (Sup.rx_replay_counter_set (su s), Sup.rx_replay_counter (su s)) <>
   (true, Sup.rx_replay_counter (su s'))).

Lemma harmless_log s s' : log_ext harmless (slg s) (slg s') ->
  ~ exists c d, slg s' = d ++ slg s /\ c ∈ d /\ ~ harmless c.
Proof.
  intros (d1 & E1 & H) (c & d & E & Hc & Hh). rewrite E in E1. apply app_inv_tail in E1 as ->.
  by apply (proj1 (Forall_forall _ _) H) in Hc.
Qed.

Lemma lapsed_quiet s s' : lapses (su s) (su s') -> log_ext harmless (slg s) (slg s') ->
  ~ consequential s s'.
Proof.
  intros Hl Hh [H|[[H1 H2]|[H1 H2]]]; [by eapply harmless_log|..].
  - destruct Hl as [Hl|[Hl _]]; [|congruence]. unfold session in Hl. apply H2. congruence.
  - destruct Hl as [Hl|(_ & E1 & E2)]; [unfold session in Hl|]; apply H2; congruence.
Qed.

Lemma rx_authentic src frame s s' : wf_sup s -> op_ok (ORx src frame) s ->
  perform (ORx src frame) s = Ok s' -> consequential s s' -> wf_sup s' /\ authentic frame s s'.
Proof.
  intros Hw Hok Hp Hc. pose proof (perform_runs_ _ s Hw Hok) as H.
  apply (runs_inv _ _ _ H) in Hp as [Hw' [[Hs Hl]|Ha]]; [|done]. exfalso.
  eapply lapsed_quiet; [|exact Hl|exact Hc]. left. unfold settled, session in *. congruence.
Qed.

(** C5 ([wpa_sm_rx_eapol], [wpa_supplicant_verify_eapol_key_mic]): whatever the
    owner does, a key is given to the driver, the port opened, the connection
    reported as completed, a PTK put in use or the replay counter moved only by a
    frame with a MIC one of the machine's two keys makes, and with a new replay
    counter; the key in use afterwards is the one that vouched. *)
Theorem consequences_need_mic op s s' : reachable s -> op_ok op s -> perform op s = Ok s' ->
  consequential s s' -> exists src frame, op = ORx src frame /\ authentic frame s s'.
Proof.
  intros Hr Hok Hp Hc. pose proof (reachable_wf s Hr) as Hw.
  pose proof (perform_runs_ op s Hw Hok) as H. apply (runs_inv _ _ _ H) in Hp as Ho. destruct Ho as [_ Ho]. clear H.
  destruct op as [src frame|bssid| | | | | | | | | | | | | | | | | | | | | | | | | ].
  1: { exists src, frame. split; [done|]. by apply (rx_authentic src frame s s'). }
  1: { exfalso. destruct Ho as (E1 & E2 & Hh). destruct Hc as [Hc|[[Hc _]|[Hc _]]]; [|congruence..].
       by eapply harmless_log. }
  all: exfalso; destruct Ho as [Hl Hh]; by eapply lapsed_quiet.
Qed.
(** ** Replay *)

Definition counter_of (frame : list Z) : list Z := take 8 (drop 9 frame).

(** Steps of one association. *)
Inductive later : sst -> sst -> Prop :=
  | later_refl s : later s s
  | later_step s op s1 s2 : op_ok op s -> perform op s = Ok s1 ->
      (forall bssid, op <> ONotifyAssoc bssid) -> later s1 s2 -> later s s2.

(** The machine holds a counter that is at least [c]. *)
Definition past (c : list Z) (s : sst) : Prop :=
  Sup.rx_replay_counter_set (su s) = true /\ os_memcmp c (Sup.rx_replay_counter (su s)) <= 0.

Lemma fresh_counter m frame ki : rx_fresh m frame ki = Ok true ->
  zlen (counter_of frame) = WPA_REPLAY_COUNTER_LEN /\
  (Sup.rx_replay_counter_set m = true -> 0 < os_memcmp (counter_of frame) (Sup.rx_replay_counter m)).
Proof.
  unfold rx_fresh, rd_n. destruct (_ && _) eqn:Hle; [|done]. cbn [mbind res_bind]. intros H.
  assert (forall b : bool, (mret b : res bool) = Ok true -> b = true) as Hinv by (by intros b [= ->]).
  apply Hinv in H. apply andb_prop in Hle as [_ Hle%Z.leb_le].
  change (take (Z.to_nat WPA_REPLAY_COUNTER_LEN) (drop (Z.to_nat o_replay_counter) frame)) with (counter_of frame) in H.
  split.
  - unfold counter_of, o_replay_counter, WPA_REPLAY_COUNTER_LEN, zlen in *. rewrite length_take, length_drop. lia.
  - intros Hs. rewrite Hs in H. apply andb_prop in H as [[H _]%andb_prop _].
    apply negb_true_iff, Z.leb_gt in H. done.
Qed.

Lemma authentic_past frame s s' : authentic frame s s' ->
  zlen (counter_of frame) = WPA_REPLAY_COUNTER_LEN /\
  (Sup.rx_replay_counter_set (su s) = true ->
   0 < os_memcmp (counter_of frame) (Sup.rx_replay_counter (su s))) /\
  Sup.rx_replay_counter (su s') = counter_of frame /\ Sup.rx_replay_counter_set (su s') = true.
Proof.
  intros (ki & plen & m & _ & _ & _ & Hf & Hv & Hs). apply fresh_counter in Hf as [Hl Hf].
  split; [done|]. split; [done|]. unfold vouched in Hv. unfold settled in Hs.
  destruct (Sup.tptk_set (su s) && _); [|destruct (Sup.ptk_set (su s) && _); [|done]];
    apply (inj Some) in Hv; subst m; by injection Hs.
Qed.

Lemma op_past c op s s' : wf_sup s -> op_ok op s -> perform op s = Ok s' ->
  (forall bssid, op <> ONotifyAssoc bssid) -> zlen c = WPA_REPLAY_COUNTER_LEN ->
  past c s -> wf_sup s' /\ past c s'.
Proof.
  intros Hw Hok Hp Hno Hc [Hset Hle].
  pose proof (perform_runs_ op s Hw Hok) as H. apply (runs_inv _ _ _ H) in Hp as [Hw' Ho]. clear H.
  split; [done|].
  assert (lapses (su s) (su s') -> past c s') as Hq.
  { intros [H|(_ & E1 & E2)]; unfold past; [unfold session in H; injection H as _ _ -> ->|rewrite E1, E2]; done. }
  destruct op as [src frame|bssid| | | | | | | | | | | | | | | | | | | | | | | | | ].
  2: { by destruct (Hno bssid). }
  2-26: apply Hq, Ho.
  destruct Ho as [[Hs _]|Ha]; [apply Hq; left; unfold settled, session in *; congruence|].
  destruct (authentic_past _ _ _ Ha) as (Hl & Hf & E1 & E2). split; [done|]. rewrite E1.
  specialize (Hf Hset). rewrite os_memcmp_flip in Hf.
  pose proof (w_rx _ (s_sizes s Hw)). unfold zlen in *.
  eapply (os_memcmp_trans _ (Sup.rx_replay_counter (su s))); lia.
Qed.

Lemma later_past c s s' : wf_sup s -> later s s' -> zlen c = WPA_REPLAY_COUNTER_LEN -> past c s ->
  wf_sup s' /\ past c s'.
Proof.
  intros Hw Hl Hc. revert Hw. induction Hl as [|s op s1 s2 Hok Hp Hno _ IH]; [done|].
  intros Hw Hpast. destruct (op_past c op s s1) as [Hw1 Hp1]; try done. by apply IH.
Qed.

(** C6 ([wpa_sm_rx_eapol]): within an association the frames that have an effect
    have ever greater replay counters; in particular no frame has one twice. *)
Theorem accepted_counters_increase src1 f1 s0 s1 s2 src2 f2 s3 :
  reachable s0 -> op_ok (ORx src1 f1) s0 -> perform (ORx src1 f1) s0 = Ok s1 -> consequential s0 s1 ->
  later s1 s2 ->
  op_ok (ORx src2 f2) s2 -> perform (ORx src2 f2) s2 = Ok s3 -> consequential s2 s3 ->
  0 < os_memcmp (counter_of f2) (counter_of f1) /\ f1 <> f2.
Proof.
  intros Hr Hok1 Hp1 Hc1 Hl Hok2 Hp2 Hc2. pose proof (reachable_wf s0 Hr) as Hw.
  destruct (rx_authentic src1 f1 s0 s1 Hw Hok1 Hp1 Hc1) as [Hw1 Ha1].
  destruct (authentic_past _ _ _ Ha1) as (Hl1 & _ & E1 & E2).
  destruct (later_past (counter_of f1) s1 s2 Hw1 Hl Hl1) as [Hw2 [Hs2 Hle]].
  { split; [done|]. by rewrite E1, os_memcmp_refl. }
  destruct (rx_authentic src2 f2 s2 s3 Hw2 Hok2 Hp2 Hc2) as [_ Ha2].
  destruct (authentic_past _ _ _ Ha2) as (Hl2 & Hf & _ & _). specialize (Hf Hs2).
  assert (0 < os_memcmp (counter_of f2) (counter_of f1)) as Hlt.
  { destruct (Z.ltb_spec 0 (os_memcmp (counter_of f2) (counter_of f1))) as [|Hge]; [done|].
    pose proof (w_rx _ (s_sizes s2 Hw2)). unfold zlen in *.
    pose proof (os_memcmp_trans (counter_of f2) (counter_of f1) (Sup.rx_replay_counter (su s2))). lia. }
  split; [done|]. intros <-. rewrite os_memcmp_refl in Hlt. lia.
Qed.
End spec.
