(* ===== verification/WpaSuppErr.v ===== *)
(** * Where the supplicant goes wrong

    The two places where the supplicant leaves its memory: the key data of length
    0 that is said to be encrypted, and an entry of the PMKSA cache that is freed
    while it is cloned.  Also what a new configuration does to the cache. *)

From S2P Require Import Prelude CommonUtils WpaCommon WpaIeProps WpaSuppI WpaSuppPmksa WpaSuppIe.
From S2P Require Import WpaSupp WpaSuppWf WpaSuppIeProps WpaSuppRun WpaSuppKeys WpaSuppMsg WpaSuppRx.
From S2P Require Import WpaSuppIeGen WpaSuppOps WpaSuppSteps.

Section errors.
Context {cr : Crypto} {c_laws : CryptoLaws cr} {un : KeyUnwrap} {u_laws : KeyUnwrapLaws cr un}.
Context {h : Host} {h_laws : HostLaws h}.

(** A frame of the air that passes the tests of the header, without a MIC, that
    says its key data, of length 0, is encrypted with AES. *)
Record empty_encrypted (m : Sup.wpa_sm) (frame : list Z) : Prop := {
  ee_len : 99 <= zlen frame < 65635;
  ee_type : rd frame 1 = Ok IEEE802_1X_TYPE_EAPOL_KEY;
  ee_plen : exists plen, WPA_GET_BE16 frame 2 = Ok plen /\ 95 <= plen <= zlen frame - 4;
  ee_ktype : rd frame o_type = Ok EAPOL_KEY_TYPE_RSN;
  ee_info : exists ki, WPA_GET_BE16 frame o_key_info = Ok ki /\
    has_bits ki WPA_KEY_INFO_MIC = false /\ has_bits ki WPA_KEY_INFO_ENCR_KEY_DATA = true /\
    (Z.land ki WPA_KEY_INFO_TYPE_MASK = WPA_KEY_INFO_TYPE_HMAC_SHA1_AES \/
     Z.land ki WPA_KEY_INFO_TYPE_MASK = WPA_KEY_INFO_TYPE_AES_128_CMAC) /\
    rx_version m ki = true /\ rx_fresh m frame ki = Ok true;
  ee_data : WPA_GET_BE16 frame o_key_data_length = Ok 0;
}.


(** ** Cloning an entry *)

Lemma entry_at_fault p l : p ∉ map fst l -> entry_at p l = Fault OutOfBounds.
Proof.
  induction l as [|[q e] l IH]; cbn; [done|]. intros Hp. rewrite decide_False by set_solver.
  apply IH. set_solver.
Qed.

(** With the cache full the oldest entry goes, whichever it is. *)
Lemma add_full_runs pmk pmk_len aa spa ctx akmp p e l s : wf_sup s -> entries s = (p, e) :: l ->
  zlen (entries s) = pmksa_cache_max_entries ->
  zlen pmk = PMK_LEN -> 0 <= pmk_len <= PMK_LEN -> zlen aa = 6 -> (forall l, malloc l = true) ->
  find_entry (entry_matches (Some aa) None) (entries s) = None ->
  exists q s', pmksa_cache_add pmk pmk_len aa spa ctx akmp s = Ok (Some q, s') /\
    p ∉ map fst (entries s').
Proof.
  intros Hw He Hfull Hk Hl Ha Hm Hnone. unfold pmksa_cache_add.
  rewrite (proj2 (Z.ltb_ge _ _)) by lia. unfold os_malloc. cbv zeta iota beta. rewrite Hm. cbn [negb].
  destruct (rd_n_runs pmk 0 pmk_len) as (k & -> & Hkl); [lia|lia|lia|]. cbn [mbind res_bind].
  unfold os_get_time. cbv zeta iota beta. set (s2 := say STime _).
  assert (wf_sup s2) as Hw2 by (apply wf_say, wf_next_address, wf_say, Hw).
  set (n := new_entry _ _ _ _ _ _ _ _).
  assert (split_at_aa (Entry.aa n) (entries s2) = None) as Hsplit.
  { change (Entry.aa n) with aa. change (entries s2) with (entries s).
    apply split_at_aa_none; [|done|done]. eapply Forall_impl; [apply (s_list s Hw)|]. by intros [? ?] []. }
  unfold replace_old. rewrite Hsplit. cbn [mbind res_bind mret res_ret].
  change (entries s2) with (entries s) in *.
  unfold remove_oldest. change (entries s2) with (entries s). rewrite He.
  change (Cache.pmksa_count (Sup.pmksa (su s2))) with (count s). rewrite (s_count s Hw), Hfull, Z.leb_refl.
  destruct (unlink [] p e l s2 Hw2 He) as [Hu Hwe].
  set (s3 := say _ (set_entries l s2)).
  assert (unlinked p s3) as Hu3 by (by destruct Hu as [[]]; split).
  destruct (free_entry_runs p e false s3 Hu3 Hwe) as (s4 & -> & Hw4 & Hlike). cbn [mbind res_bind].
  destruct (insert_entry _ n (entries s4)) as [l' first] eqn:Hins.
  pose proof (insert_entry_perm (Cache.fresh (Sup.pmksa (su (say (SMalloc sizeof_rsn_pmksa_cache_entry) s)))) n (entries s4)) as Hperm.
  rewrite Hins in Hperm. cbn [fst] in Hperm.
  eexists _, _. split; [reflexivity|].
  match goal with |- _ ∉ map fst (entries ?t) => assert (entries t = l') as -> end.
  { destruct first; [|done]. unfold entries. cbn.
    by destruct (set_expiration_still (set_entries l' s4)) as [_ ->]. }
  rewrite Hperm. cbn [map fst]. rewrite (k_addresses _ _ _ Hlike). change (entries s3) with l.
  destruct (s_list s Hw) as [_ Hfresh Hnd]. rewrite He in Hfresh, Hnd. cbn in Hnd.
  apply NoDup_cons in Hnd as [Hnd _]. apply Forall_cons in Hfresh as [Hfresh _]. cbn in Hfresh.
  intros [->|H]%elem_of_cons; [|done]. unfold fresh in Hfresh. cbn in Hfresh. lia.
Qed.

(** ([pmksa_cache_clone_entry], [pmksa_cache_add]): with the cache full, cloning
    its oldest entry for another authenticator of the network frees the entry,
    and reads its expiration time after that. *)
Theorem clone_full_fault ctx aa p e l s : wf_sup s -> entries s = (p, e) :: l ->
  zlen (entries s) = pmksa_cache_max_entries -> Entry.network_ctx e = Some ctx -> zlen aa = 6 ->
  (forall l, malloc l = true) -> find_entry (entry_matches (Some aa) None) (entries s) = None ->
  pmksa_cache_get_opportunistic (Some ctx) aa s = Fault OutOfBounds.
Proof.
  intros Hw He Hfull Hctx Ha Hm Hnone. unfold pmksa_cache_get_opportunistic. 
  assert (find_entry (fun e => bool_decide (Entry.network_ctx e = Some ctx)) (entries s) = Some p) as ->.
  { rewrite He. cbn. by rewrite bool_decide_true. }
  unfold pmksa_cache_clone_entry.
  assert (entry_at p (entries s) = Ok e) as -> by (rewrite He; cbn; by rewrite decide_True).
  cbn [mbind res_bind].
  assert (wf_entry e) as Hwe by (pose proof (l_entries _ _ (s_list s Hw)) as H; rewrite He in H; by apply Forall_cons in H as [? _]).
  destruct (add_full_runs (Entry.pmk e) (Entry.pmk_len e) aa (Sup.own_addr (su s)) (Entry.network_ctx e)
    (Entry.akmp e) p e l s) as (q & s' & -> & Hp); try done; [apply Hwe..|].
  cbn [mbind res_bind]. by rewrite entry_at_fault.
Qed.

(** ** A new configuration *)

(** The entries keep the network contexts of the configuration before: that the
    context changed is tested when it has been assigned. *)
Lemma set_config_keeps_entries config s s' : wpa_sm_set_config (Some config) s = Ok s' ->
  entries s' = entries s /\ Sup.network_ctx (su s') = Config.network_ctx config.
Proof.
  unfold wpa_sm_set_config. intros H. apply bind_ok in H as (m & Hm & H). cbv zeta in H.
  assert (Sup.network_ctx m = Config.network_ctx config /\ Sup.pmksa m = Sup.pmksa (su s)) as [Hc Hp].
  { unfold config_from in Hm. cbv zeta in Hm. apply bind_ok in Hm as (m1 & Hm1 & Hm).
    destruct (Config.ssid config) as [d|].
    - apply bind_ok in Hm1 as (x & _ & Hm1). apply bind_ok in Hm1 as (y & _ & Hm1).
      injection Hm1 as <-. by injection Hm as <-.
    - injection Hm1 as <-. by injection Hm as <-. }
  change (Sup.network_ctx (su (s <| su := m |>))) with (Sup.network_ctx m) in H.
  rewrite Hc, bool_decide_true in H by done. injection H as <-. split; [|done].
  unfold entries. cbn. by rewrite Hp.
Qed.

(** ** Installing the key again *)

Lemma install_ptk_says frame s r s' : Sup.proto (su s) = WPA_PROTO_RSN ->
  Sup.pairwise_cipher (su s) = WPA_CIPHER_CCMP -> zlen (Sup.ptk (su s)) = sizeof_wpa_ptk ->
  wpa_supplicant_install_ptk frame s = Ok (r, s') ->
  exists d, slg s' = d ++ SSetKey WPA_ALG_CCMP (Some (Sup.bssid (su s))) 0 1 (replicate 6 0)
    (take 16 (drop 32 (Sup.ptk (su s)))) :: slg s.
Proof.
  intros Hp Hc Hl H. unfold wpa_supplicant_install_ptk in H. rewrite Hp, Hc in H. cbv zeta in H.
  change (WPA_CIPHER_CCMP =? WPA_CIPHER_CCMP) with true in H. cbv iota in H.
  change (WPA_PROTO_RSN =? WPA_PROTO_RSN) with true in H. cbv iota in H. cbn [mbind res_bind mret res_ret] in H.
  rewrite rd_n_ok in H by (unfold sizeof_wpa_ptk in *; lia). cbn [mbind res_bind] in H.
  unfold wpa_sm_set_key in H. cbv zeta iota beta in H.
  destruct (_ <? 0); [injection H as _ <-; by exists []|].
  destruct (negb _); injection H as _ <-; [by eexists [_; _]|by exists []].
Qed.

Lemma deauth_in_log s s' d : failed s = Ok s' -> log_ext anything d (slg s) ->
  exists e, slg s' = e ++ d /\ SDeauthenticate WLAN_REASON_UNSPECIFIED ∈ e.
Proof.
  unfold failed. rewrite deauth_eq. intros [= <-] (e & E & _). exists (SDeauthenticate WLAN_REASON_UNSPECIFIED :: e).
  split; [by cbn; rewrite E|apply list_elem_of_here].
Qed.

End errors.
