(* ===== verification/Handshake.v ===== *)
(** * The two ends of the 4-way handshake

    The authenticator (WpaAuthSm.v) and the supplicant (WpaSupp.v) derive the same
    key and accept each other's MICs. *)

From S2P Require Import Prelude CommonUtils EapI WpaCommon Pmksa WpaAuthI WpaAuthIe WpaIeProps.
From S2P Require Import WpaAuthSm WpaAuthWf.
From S2P Require Import WpaSuppI WpaSuppPmksa WpaSuppIe WpaSupp WpaSuppWf WpaSuppIeProps WpaSuppRun.
From S2P Require Import WpaSuppKeys WpaSuppMsg WpaSuppRx WpaSuppSpec.

(** ** Fields of frames *)

Lemma rd_n_wr_n_before l i d l' j n : wr_n l i d = Ok l' -> 0 <= j -> 0 <= n -> j + n <= i ->
  rd_n l' j n = rd_n l j n.
Proof.
  intros H Hj Hn Hle. pose proof (wr_n_length _ _ _ _ H) as Hlen.
  apply wr_n_inv in H as (Hi & Hin & ->). pose proof (zlen_nonneg d).
  rewrite !rd_n_ok by lia. f_equal.
  assert (Z.to_nat j + Z.to_nat n <= length (take (Z.to_nat i) l))%nat as Hb
    by (rewrite length_take; unfold zlen in *; lia).
  rewrite drop_app_le by lia. rewrite take_app_le by (rewrite length_drop; lia).
  rewrite <- (take_drop (Z.to_nat i) l) at 2. rewrite drop_app_le by lia.
  by rewrite take_app_le by (rewrite length_drop; lia).
Qed.

Lemma rd_n_wr_n_after l i d l' j n : wr_n l i d = Ok l' -> i + zlen d <= j -> 0 <= n ->
  rd_n l' j n = rd_n l j n.
Proof.
  intros H Hj Hn. pose proof (wr_n_length _ _ _ _ H) as Hlen.
  apply wr_n_inv in H as (Hi & Hin & E). pose proof (zlen_nonneg d).
  unfold rd_n. rewrite Hlen. destruct (_ && _); [|done]. f_equal. f_equal. subst l'.
  rewrite app_assoc, drop_app_ge by (rewrite length_app, length_take; unfold zlen in *; lia).
  rewrite drop_drop. f_equal. rewrite length_app, length_take. unfold zlen in *. lia.
Qed.

Lemma rd_n_wr_n l i d l' : wr_n l i d = Ok l' -> rd_n l' i (zlen d) = Ok d.
Proof.
  intros (Hi & Hin & ->)%wr_n_inv.
  assert (zlen (take (Z.to_nat i) l) = i) as Hp by (rewrite zlen_take; unfold zlen in *; lia).
  pose proof (rd_n_app_mid (take (Z.to_nat i) l) d (drop (Z.to_nat i + length d) l)) as H.
  by rewrite Hp in H.
Qed.

(** An area no assignment touches. *)
Lemma rd_n_wr_before l i v l' j n : wr l i v = Ok l' -> 0 <= j -> 0 <= n -> j + n <= i \/ i < j ->
  rd_n l' j n = rd_n l j n.
Proof.
  intros H Hj Hn Ho. apply wr_inv in H as [Hi ->]. unfold rd_n. rewrite zlen_insert.
  destruct (_ && _); [|done]. f_equal. apply list_eq. intros k.
  rewrite !lookup_take. case_decide; [|done]. rewrite !lookup_drop, list_lookup_insert_ne; [done|lia].
Qed.

(** The MIC field of the frame is zero. *)
Definition unsigned (frame : list Z) : Prop :=
  97 <= zlen frame /\ rd_n frame o_key_mic 16 = Ok no_mic.

Lemma unsigned_with frame : unsigned frame -> with_mic no_mic frame = frame.
Proof.
  intros [Hl Hm]. rewrite rd_n_ok in Hm by (unfold o_key_mic; lia).
  assert (forall a b : list Z, Ok a = Ok b -> a = b) as Hinv by (by intros a b [= ->]).
  apply Hinv in Hm. rewrite <- Hm. change (take (Z.to_nat 16) (drop (Z.to_nat o_key_mic) frame)) with (mic_of frame).
  apply with_own_mic.
Qed.

Section signed.
Context {cr : Crypto} {c_laws : CryptoLaws cr}.

Lemma with_mic_twice frame m m' : 97 <= zlen frame -> zlen m = 16 ->
  with_mic m' (with_mic m frame) = with_mic m' frame.
Proof.
  intros Hl Hm. assert (length m = 16%nat) as Hm' by (unfold zlen in *; lia).
  assert (length (take 81 frame) = 81%nat) as H81 by (rewrite length_take; unfold zlen in *; lia).
  unfold with_mic. f_equal; [|f_equal].
  - rewrite take_app_le by lia. by rewrite take_take.
  - rewrite app_assoc, drop_app_ge by (rewrite length_app; lia).
    rewrite drop_drop, length_app. f_equal. lia.
Qed.

Lemma mic_of_with frame m : 97 <= zlen frame -> zlen m = 16 -> mic_of (with_mic m frame) = m.
Proof.
  intros Hl Hm. pose proof (rd_mic frame m Hl Hm) as H.
  rewrite rd_n_ok in H by (rewrite ?with_mic_len by done; unfold o_key_mic; lia).
  assert (forall a b : list Z, Ok a = Ok b -> a = b) as Hinv by (by intros a b [= ->]). by apply Hinv in H.
Qed.

(** A frame that was signed is accepted by both ends. *)
Lemma signed_vouches k frame ver m : unsigned frame -> wpa_eapol_key_mic k ver frame = Some m ->
  vouches k (with_mic m frame) ver (zlen frame) = true.
Proof.
  intros Hu Hm. pose proof (mic_len _ _ _ _ Hm) as Hml. pose proof (proj1 Hu) as Hl.
  unfold vouches. rewrite mic_of_with, with_mic_twice, (unsigned_with frame Hu) by done.
  rewrite take_ge by (unfold zlen; lia). rewrite Hm. by rewrite os_memcmp_refl.
Qed.

Lemma signed_verifies K frame ver m ki : unsigned frame -> 99 <= zlen frame ->
  wpa_eapol_key_mic (kck K) ver frame = Some m ->
  WPA_GET_BE16 frame o_key_info = Ok ki -> Z.land ki WPA_KEY_INFO_TYPE_MASK = ver ->
  wpa_verify_key_mic K (with_mic m frame) (zlen (with_mic m frame)) = Ok 0.
Proof.
  intros Hu H99 Hm Hki Hver. pose proof (mic_len _ _ _ _ Hm) as Hml. pose proof (proj1 Hu) as Hl.
  unfold wpa_verify_key_mic, sizeof_ieee802_1x_hdr, sizeof_wpa_eapol_key.
  rewrite with_mic_len, (proj2 (Z.ltb_ge _ _)) by (done || lia).
  assert (wr_n frame o_key_mic m = Ok (with_mic m frame)) as Hw.
  { rewrite <- (unsigned_with frame Hu) at 1. by apply wr_mic. }
  rewrite (BE16_wr_n_before _ _ _ _ _ Hw) by (unfold o_key_info, o_key_mic; lia). rewrite Hki. cbn [mbind res_bind].
  rewrite rd_mic by done. cbn [mbind res_bind]. rewrite (wr_mic frame m (replicate 16 0)) by done.
  cbn [mbind res_bind]. fold no_mic. rewrite (unsigned_with frame Hu), rd_n_all. cbn [mbind res_bind].
  rewrite Hver, Hm. by rewrite os_memcmp_refl.
Qed.
End signed.

(** ** The key *)

Lemma pair_comm (a b : list Z) : length a = length b ->
  (if os_memcmp a b <? 0 then a ++ b else b ++ a) = (if os_memcmp b a <? 0 then b ++ a else a ++ b).
Proof.
  intros Hl. rewrite (os_memcmp_flip a b).
  destruct (Z.ltb_spec (os_memcmp a b) 0), (Z.ltb_spec (- os_memcmp a b) 0); try lia; [done|done|].
  assert (a = b) as -> by (apply os_memcmp_eq; [done|lia]). done.
Qed.

(** Each end gives its own address and nonce first. *)
Lemma ptk_comm {cr : Crypto} pmk label a1 a2 n1 n2 len sha : length a1 = length a2 ->
  length n1 = length n2 ->
  wpa_pmk_to_ptk pmk label a1 a2 n1 n2 len sha = wpa_pmk_to_ptk pmk label a2 a1 n2 n1 len sha.
Proof.
  intros Ha Hn. unfold wpa_pmk_to_ptk, ptk_data. by rewrite (pair_comm a1 a2 Ha), (pair_comm n1 n2 Hn).
Qed.

(** ** The access point stays the same *)

(** Takes a computation that returned apart. *)
Ltac returned H := repeat (cbv zeta iota beta in H; match type of H with
  | (_ ≫= _) = Ok _ => let x := fresh "x" in let E := fresh "E" in apply bind_ok in H as (x & E & H)
  | (let '(_, _) := ?x in _) = Ok _ => destruct x eqn:?
  | (if ?b then _ else _) = Ok _ => destruct b eqn:?
  | match ?x with Some _ => _ | None => _ end = Ok _ => destruct x eqn:?
  | match ?x with [] => _ | _ :: _ => _ end = Ok _ => destruct x eqn:?
  | match ?x with inl _ => _ | inr _ => _ end = Ok _ => destruct x eqn:?
  | mret _ = Ok _ => injection H; clear H; intros; subst
  | Ok _ = Ok _ => injection H; clear H; intros; subst
  | wpa_sm_deauthenticate _ _ = Ok _ => rewrite deauth_eq in H
  end).

Section same.
Context {cr : Crypto} {c_laws : CryptoLaws cr} {un : KeyUnwrap} {h : Host}.

Definition same_ap (s s' : sst) : Prop := Sup.bssid (su s') = Sup.bssid (su s).

Lemma free_entry_same p e r s s' : pmksa_cache_free_entry p e r s = Ok s' -> same_ap s s'.
Proof. unfold pmksa_cache_free_entry, wpa_sm_pmksa_free_cb. intros H. by returned H. Qed.

Lemma replace_old_same k n e s o s' : replace_old k n e s = Ok (o, s') -> same_ap s s'.
Proof.
  unfold replace_old. intros H. destruct (split_at_aa _ _) as [[[b [p pos]] l]|]; returned H; try done.
  match goal with E : pmksa_cache_free_entry _ _ _ _ = _ |- _ => apply free_entry_same in E end.
  match goal with E : same_ap ?t _ |- _ => assert (same_ap s t) by (case_bool_decide; done) end.
  unfold same_ap in *. congruence.
Qed.

Lemma remove_oldest_same s s' : remove_oldest s = Ok s' -> same_ap s s'.
Proof.
  unfold remove_oldest. intros H. destruct (entries s) as [|[p e] l]; returned H; try done.
  by apply free_entry_same in H.
Qed.

Lemma add_same pmk n aa spa ctx akmp s o s' : pmksa_cache_add pmk n aa spa ctx akmp s = Ok (o, s') ->
  same_ap s s'.
Proof.
  unfold pmksa_cache_add, os_malloc, os_get_time. intros H. returned H; try done.
  all: repeat match goal with
    | E : replace_old _ _ _ _ = _ |- _ => apply replace_old_same in E
    | E : remove_oldest _ = _ |- _ => apply remove_oldest_same in E end.
  - unfold same_ap in *. done.
  - unfold same_ap in *. etransitivity; [|etransitivity; [eassumption|etransitivity; [eassumption|reflexivity]]].
    cbn. match goal with |- context [if ?b then _ else _] => destruct b end; [|done].
    by destruct (set_expiration_still (set_entries l x1)) as [_ ->].
Qed.

Lemma set_pmk_same s s' : wpa_sm_set_pmk_from_pmksa s = Ok s' -> same_ap s s'.
Proof. unfold wpa_sm_set_pmk_from_pmksa. intros H. by returned H. Qed.

Lemma fetch_pmk_same s r n s' : fetch_pmk s = Ok (r, n, s') -> same_ap s s'.
Proof.
  unfold fetch_pmk. cbv zeta. intros H.
  destruct (eapol_sm_get_key _ PMK_LEN) as [r1 d1], (eapol_sm_get_key _ 16) as [r2 d2]; by returned H.
Qed.

Lemma pmk_from_eapol_same src id b s o s' : pmk_from_eapol src id b s = Ok (o, s') -> same_ap s s'.
Proof.
  unfold pmk_from_eapol. intros H. apply bind_ok in H as ([[r n] s1] & E1 & H). apply fetch_pmk_same in E1.
  destruct (r =? 0).
  - apply bind_ok in H as (s2 & E2 & H). returned H. destruct (_ =? WPA_PROTO_RSN).
    + apply bind_ok in E2 as ([o2 s3] & E3 & E4). apply add_same in E3. returned E4.
      unfold same_ap in *. etransitivity; [exact E3|exact E1].
    + returned E2. exact E1.
  - destruct (Sup.cur_pmksa (su s1)); returned H; exact E1.
Qed.

Lemma get_pmk_same src id s r s' : wpa_supplicant_get_pmk src id s = Ok (r, s') -> same_ap s s'.
Proof.
  unfold wpa_supplicant_get_pmk. intros H.
  match type of H with (let '(_, _) := ?t in _) = _ => assert (same_ap s (snd t)) as H0; [|destruct t as [b s1]] end.
  { destruct id; [|done]. by destruct (Sup.cur_pmksa (su s)). }
  cbn [snd] in H0. apply bind_ok in H as (cur & _ & H). apply bind_ok in H as ([next s2] & E2 & H).
  assert (same_ap s s2) as H2.
  { destruct cur; [|destruct (_ && _)].
    - apply bind_ok in E2 as (s3 & E3 & E4). apply set_pmk_same in E3. returned E4.
      unfold same_ap in *. etransitivity; [exact E3|exact H0].
    - apply pmk_from_eapol_same in E2. unfold same_ap in *. congruence.
    - by returned E2. }
  destruct next as [b'|r']; [|by returned H]. unfold request_full_eap, wpa_sm_alloc_eapol, os_malloc in H.
  cbv zeta iota beta in H. match type of H with (if ?c then _ else _) = _ => destruct c end; [|by returned H].
  destruct (malloc _); returned H; exact H2.
Qed.

Lemma renew_same s : same_ap s (snd (renew s)).
Proof.
  unfold renew. destruct (Sup.renew_snonce (su s)); [|done]. cbv zeta.
  destruct (random_get_bytes _ _) as [r d]. by destruct (negb _).
Qed.
End same.

(** ** The answer to message 1/4 *)

Lemma inj_ok {A} (a b : A) : Ok a = Ok b -> a = b.
Proof. by intros [= ->]. Qed.

Section answer.
Context {cr : Crypto} {c_laws : CryptoLaws cr} {un : KeyUnwrap} {u_laws : KeyUnwrapLaws cr un}.
Context {h : Host} {h_laws : HostLaws h}.

Lemma alloc_unsigned type n s msg s' : 0 <= n < 65536 -> 93 <= n ->
  wpa_sm_alloc_eapol type n s = (Some msg, s') ->
  unsigned msg /\ zlen msg = 4 + n /\ s' = say (SMalloc (4 + n)) s.
Proof.
  intros Hn H93. unfold wpa_sm_alloc_eapol, os_malloc. rewrite u16_id by done. cbv zeta iota beta.
  destruct (malloc _); [|done]. intros [H <-]%pair_equal_spec. apply (inj Some) in H. subst msg.
  set (hdr := [u8 eapol_version; type] ++ WPA_PUT_BE16 n). rewrite app_assoc. fold hdr.
  assert (zlen hdr = 4) as Hh by done.
  assert (zlen (hdr ++ replicate (Z.to_nat n) 0) = 4 + n) as Hl by (rewrite zlen_app, zlen_replicate; lia).
  split; [|done]. split; [lia|]. rewrite rd_n_ok by (unfold o_key_mic; lia). f_equal.
  assert (length hdr = 4%nat) as Hh' by done.
  rewrite drop_app_ge by (rewrite Hh'; unfold o_key_mic; lia). rewrite drop_replicate, take_replicate.
  unfold no_mic. f_equal. rewrite Hh'. unfold o_key_mic. lia.
Qed.

Lemma put_reply_fields m ki kl rc data msg msg' : zlen kl = 2 -> zlen rc = WPA_REPLAY_COUNTER_LEN ->
  put_reply m ki kl rc data msg = Ok msg' ->
  rd_n msg' o_key_mic 16 = rd_n msg o_key_mic 16 /\ zlen msg' = zlen msg /\
  WPA_GET_BE16 msg' o_key_info = Ok (u16 ki).
Proof.
  intros Hk Hr H. unfold put_reply in H. returned H. rename H into Hw6.
  repeat match goal with E : wr_n _ _ _ = Ok _ |- _ => pose proof (wr_n_length _ _ _ _ E); revert E end.
  match goal with E : wr _ _ _ = Ok _ |- _ => pose proof (wr_inv _ _ _ _ E) as [_ E0]; revert E end.
  intros E Hw1 Hw2 Hw3 Hw4 Hw5. unfold o_type, o_key_info, o_key_length, o_replay_counter, o_key_data_length,
    o_key_data, o_key_mic, WPA_REPLAY_COUNTER_LEN in *.
  assert (zlen (WPA_PUT_BE16 ki) = 2 /\ zlen (WPA_PUT_BE16 (zlen data)) = 2) as [L1 L2] by done.
  split; [|split].
  - rewrite (rd_n_wr_n_before _ _ _ _ _ _ Hw5), (rd_n_wr_n_before _ _ _ _ _ _ Hw4) by lia.
    rewrite (rd_n_wr_n_after _ _ _ _ _ _ Hw3), (rd_n_wr_n_after _ _ _ _ _ _ Hw2),
      (rd_n_wr_n_after _ _ _ _ _ _ Hw1) by lia.
    apply (rd_n_wr_before _ _ _ _ _ _ E); lia.
  - rewrite H, H0, H1, H2, H3, E0. apply zlen_insert.
  - rewrite (BE16_wr_n_before _ _ _ _ _ Hw5), (BE16_wr_n_before _ _ _ _ _ Hw4),
      (BE16_wr_n_before _ _ _ _ _ Hw3), (BE16_wr_n_before _ _ _ _ _ Hw2) by lia.
    exact (BE16_wr_n _ _ _ _ Hw1).
Qed.

(** A frame is sent to the access point with its MIC, or not at all. *)
Lemma key_send_eq k ver proto msg s : unsigned msg -> is_zero_ether_addr (Sup.bssid (su s)) = false ->
  wpa_eapol_key_send k ver None proto msg true s =
  Ok match wpa_eapol_key_mic k ver msg with
     | Some m => say SNotifyTx (say (SEtherSend (Sup.bssid (su s)) proto (with_mic m msg)) s)
     | None => s
     end.
Proof.
  intros Hu Hz. unfold wpa_eapol_key_send. cbv zeta. rewrite Hz. cbn [andb].
  destruct (wpa_eapol_key_mic k ver msg) as [m|] eqn:Hm; [|done].
  rewrite <- (unsigned_with msg Hu) at 1.
  rewrite (wr_mic msg no_mic m (proj1 Hu) eq_refl (mic_len _ _ _ _ Hm)). done.
Qed.

(** What is sent for message 2/4. *)
Definition answer (k : list Z) (ver : Z) (nonce msg m : list Z) : Prop :=
  unsigned msg /\ 99 <= zlen msg /\ wpa_eapol_key_mic k ver msg = Some m /\
  WPA_GET_BE16 msg o_key_info = Ok (u16 (Z.lor (Z.lor ver WPA_KEY_INFO_KEY_TYPE) WPA_KEY_INFO_MIC)) /\
  rd_n msg o_key_nonce WPA_NONCE_LEN = Ok nonce.

Lemma send_2_of_4_answer frame ver nonce ie ptk s s' : wf_frame frame -> zlen ie <= 65440 ->
  zlen nonce = WPA_NONCE_LEN -> is_zero_ether_addr (Sup.bssid (su s)) = false ->
  wpa_supplicant_send_2_of_4 None frame ver nonce (Some ie) (zlen ie) ptk s = Ok (0, s') ->
  exists n, s' = say (SMalloc n) s \/ exists msg m, answer (kck ptk) ver nonce msg m /\
    s' = say SNotifyTx (say (SEtherSend (Sup.bssid (su s)) ETH_P_EAPOL (with_mic m msg)) (say (SMalloc n) s)).
Proof.
  intros Hf Hie Hn Hz H. unfold wpa_supplicant_send_2_of_4 in H. pose proof (zlen_nonneg ie).
  destruct (wpa_sm_alloc_eapol _ _ s) as [o s1] eqn:Ha. destruct o as [msg|]; [|by returned H].
  apply alloc_unsigned in Ha as ([Hu1 Hu2] & Hl & ->); [|unfold sizeof_wpa_eapol_key; lia..].
  exists (4 + (sizeof_wpa_eapol_key + zlen ie)).
  apply bind_ok in H as (kl & Hkl & H). apply bind_ok in H as (rc & Hrc & H).
  apply bind_ok in H as (d & _ & H). apply bind_ok in H as (b & Hb & H). apply bind_ok in H as (b2 & Hb2 & H).
  apply bind_ok in H as (s2 & Hs2 & H). returned H.
  assert (zlen kl = 2) as Lk.
  { match type of Hkl with reply_key_length ?m _ = _ => destruct (reply_key_length_runs m frame Hf) as (x & E & Hx) end.
    assert (kl = x) as -> by congruence. done. }
  assert (zlen rc = WPA_REPLAY_COUNTER_LEN) as Lr.
  { destruct (field_runs frame o_replay_counter WPA_REPLAY_COUNTER_LEN Hf) as (x & E & Hx); [done..|].
    assert (rc = x) as -> by congruence. done. }
  destruct (put_reply_fields _ _ _ _ _ _ _ Lk Lr Hb) as (F1 & F2 & F3).
  pose proof (wr_n_length _ _ _ _ Hb2) as F4. unfold sizeof_wpa_eapol_key in *.
  assert (unsigned b2) as Hu.
  { split; [lia|]. rewrite (rd_n_wr_n_after _ _ _ _ _ _ Hb2), F1; [done|rewrite Hn; done|done]. }
  rewrite key_send_eq in Hs2 by done. apply (inj_ok) in Hs2. subst s'.
  destruct (wpa_eapol_key_mic (kck ptk) ver b2) as [m|] eqn:Hm; [right|by left].
  exists b2, m. split; [|done]. split; [done|]. split; [lia|]. split; [done|]. split.
  - rewrite (BE16_wr_n_before _ _ _ _ _ Hb2) by done. exact F3.
  - rewrite <- Hn. by apply (rd_n_wr_n _ _ _ _ Hb2).
Qed.
End answer.

Section composition.
Context {cr : Crypto} {c_laws : CryptoLaws cr} {un : KeyUnwrap} {u_laws : KeyUnwrapLaws cr un}.
Context {h : Host} {h_laws : HostLaws h}.
Context {o : Owner}.

Lemma get_pmk_asks src id s s' : wpa_supplicant_get_pmk src id s = Ok (-2, s') ->
  exists d p b l, slg s' = SEtherSend d p b :: l.
Proof.
  unfold wpa_supplicant_get_pmk. intros H.
  match type of H with (let '(_, _) := ?t in _) = _ => destruct t as [b s1] end.
  apply bind_ok in H as (cur & _ & H). apply bind_ok in H as ([next s2] & E2 & H).
  assert (forall r, next = inr r -> r <> -2) as Hr.
  { destruct cur; [|destruct (_ && _)].
    - apply bind_ok in E2 as (s3 & _ & E4). by returned E4.
    - unfold pmk_from_eapol in E2. apply bind_ok in E2 as ([[r n] s3] & _ & E2). destruct (r =? 0).
      + apply bind_ok in E2 as (s4 & _ & E2). by returned E2.
      + destruct (Sup.cur_pmksa (su s3)); returned E2; try destruct b; congruence.
    - by returned E2. }
  destruct next as [b'|r]; [|returned H; by destruct (Hr (-2))].
  match type of H with (if ?c then _ else _) = _ => destruct c end; [|by returned H].
  unfold request_full_eap, wpa_sm_alloc_eapol, os_malloc in H. cbv zeta iota beta in H.
  destruct (malloc _); [|by returned H]. returned H. by eexists _, _, _, _.
Qed.

Lemma take_copy_front n dst k : (n <= length k)%nat -> take n (copy_front dst k) = take n k.
Proof. intros. unfold copy_front. by rewrite take_app_le. Qed.

(** The front of the key, which the MIC and the encryption of key data use, and
    the temporal key of CCMP. *)
Lemma take_swap k : (48 <= length k)%nat -> take 48 (swap_mic_keys k) = take 48 k.
Proof. intros. unfold swap_mic_keys. rewrite take_app_le by (rewrite length_take; lia). by rewrite take_take. Qed.
Lemma kck_take k : kck k = take 16 (take 48 k).
Proof. unfold kck. by rewrite take_take. Qed.

Lemma info_version ver : Z.land ver WPA_KEY_INFO_TYPE_MASK = ver ->
  Z.land (u16 (Z.lor (Z.lor ver WPA_KEY_INFO_KEY_TYPE) WPA_KEY_INFO_MIC)) WPA_KEY_INFO_TYPE_MASK = ver.
Proof.
  change WPA_KEY_INFO_TYPE_MASK with (2 ^ 3 - 1). intros H.
  assert (0 <= ver < 8) as Hr.
  { rewrite land_ones_mod in H by done. pose proof (Z.mod_pos_bound ver (2 ^ 3)). lia. }
  assert (ver = 0 \/ ver = 1 \/ ver = 2 \/ ver = 3 \/ ver = 4 \/ ver = 5 \/ ver = 6 \/ ver = 7) as Hc by lia.
  clear H Hr. by repeat destruct Hc as [-> |Hc]; [..|subst].
Qed.

(** The step that sends the answer. *)
Lemma process_1_of_4_answer src frame ver s s' d p f l : wf_frame frame -> key_data_inside frame ->
  wf_sup s -> zlen src = 6 -> is_zero_ether_addr (Sup.bssid (su s)) = false ->
  wpa_supplicant_process_1_of_4 src frame ver s = Ok s' -> slg s' = SNotifyTx :: SEtherSend d p f :: l ->
  exists s4 k msg m, wpa_derive_ptk frame s4 = Ok k /\ zlen (Sup.tptk (su s4)) = sizeof_wpa_ptk /\
    settled (su s4) = settled (su s) /\ Sup.bssid (su s4) = Sup.bssid (su s) /\
    zlen (Sup.snonce (su s4)) = WPA_NONCE_LEN /\
    Sup.tptk (su s') = swap_mic_keys k /\ Sup.pmk (su s') = Sup.pmk (su s4) /\
    Sup.pmk_len (su s') = Sup.pmk_len (su s4) /\
    answer (kck (swap_mic_keys k)) ver (Sup.snonce (su s4)) msg m /\ d = Sup.bssid (su s) /\ f = with_mic m msg.
Proof.
  intros Hf Hk Hw Hsrc Hz H Hlog. unfold wpa_supplicant_process_1_of_4, wpa_sm_get_network_ctx in H.
  cbv zeta iota beta in H. set (s1 := say SGetNetworkCtx s) in *.
  destruct (get_network_ctx _); [|apply inj_ok in H; subst s'; by cbn in Hlog].
  set (s2 := wpa_sm_set_state _ s1) in *. assert (wf_sup s2) as Hw2 by by apply wf_say, wf_say.
  apply bind_ok in H as (id & _ & H). apply bind_ok in H as ([r s3] & E3 & H).
  destruct (runs_inv _ _ _ (get_pmk_runs src id s2 Hw2 Hsrc) E3) as [Hw3 [Hset3 _ _]].
  assert (Sup.bssid (su s3) = Sup.bssid (su s)) as Hb3 by exact (get_pmk_same _ _ _ _ _ E3).
  destruct (Z.eqb_spec r (-2)) as [->|_].
  { apply inj_ok in H. subst s'. destruct (get_pmk_asks _ _ _ _ E3) as (? & ? & ? & ? & E). by rewrite E in Hlog. }
  assert (forall s5 s6, failed s5 = Ok s6 -> slg s6 <> SNotifyTx :: SEtherSend d p f :: l) as Hfail.
  { intros s5 s6 E. unfold failed in E. rewrite deauth_eq in E. apply inj_ok in E. by subst s6. }
  destruct (negb (r =? 0)); [by apply Hfail in H|].
  destruct (renew_wf s3 Hw3) as (Hw4 & Hset4 & _). pose proof (renew_same s3) as Hb4.
  destruct (renew s3) as [ok s4]. cbn [snd] in *.
  destruct (negb ok); [by apply Hfail in H|].
  destruct (derive_ptk_runs frame s4 Hf Hw4) as (k & Ek & Lk). rewrite Ek in H. cbn [mbind res_bind] in H. cbv zeta in H.
  set (s5 := _ <| su; Sup.tptk_set := true |>) in H.
  apply bind_ok in H as ([r2 s6] & E6 & H).
  destruct (Z.eqb_spec r2 0) as [->|]; cbn [negb] in H; [|by apply Hfail in H].
  apply bind_ok in H as (an & _ & H). apply inj_ok in H. subst s'.
  assert (Sup.bssid (su s4) = Sup.bssid (su s)) as Hb by (unfold same_ap in Hb4; congruence).
  change (Sup.snonce (su s5)) with (Sup.snonce (su s4)) in E6.
  change (Sup.assoc_wpa_ie (su s5)) with (Sup.assoc_wpa_ie (su s4)) in E6.
  change (Sup.assoc_wpa_ie_len (su s5)) with (Sup.assoc_wpa_ie_len (su s4)) in E6.
  destruct (Sup.assoc_wpa_ie (su s4)) as [ie|] eqn:Hie; [|unfold wpa_supplicant_send_2_of_4 in E6; by returned E6].
  destruct (w_assoc _ (s_sizes s4 Hw4) ie Hie) as [Hil Himax]. rewrite <- Hil in E6.
  destruct (send_2_of_4_answer frame ver (Sup.snonce (su s4)) ie (swap_mic_keys k) s5 s6 Hf Himax) as (size & Hs6); [|by change (Sup.bssid (su s5)) with (Sup.bssid (su s4)); rewrite Hb|exact E6|].
  { apply (s_sizes s4 Hw4). }
  destruct Hs6 as [->|(msg & m & Ha & ->)]; [by cbn in Hlog|].
  cbn [slg say] in Hlog. injection Hlog as <- _ <- _.
  exists s4, k, msg, m. split; [done|]. split; [apply (s_sizes s4 Hw4)|]. split; [etransitivity; [exact Hset4|exact Hset3]|]. split; [done|].
  split; [apply (s_sizes s4 Hw4)|]. split_and!; try reflexivity; done.
Qed.
(** The authenticator and the supplicant that belong together: the addresses, the
    cipher, the way keys are derived. *)
Record peers (a : st) (m : Sup.wpa_sm) : Prop := {
  p_ap : Auth.addr (au a) = Sup.bssid m;
  p_sta : my_addr a = Sup.own_addr m;
  p_cipher : Sm.pairwise (sm a) = Sup.pairwise_cipher m;
  p_akm : wpa_key_mgmt_sha256 (Sm.wpa_key_mgmt (sm a)) = wpa_key_mgmt_sha256 (Sup.key_mgmt m);
}.

End composition.

(** ** The frames of the authenticator *)

Section authenticator.
Context {cr : Crypto} {c_laws : CryptoLaws cr} {o : Owner} {o_laws : OwnerLaws o}.

(** Everything but the MIC field may have been written. *)
Definition mic_free (b b' : list Z) : Prop := zlen b' = zlen b /\ rd_n b' o_key_mic 16 = rd_n b o_key_mic 16.

Lemma mic_free_refl b : mic_free b b.
Proof. done. Qed.
Lemma mic_free_trans b1 b2 b3 : mic_free b1 b2 -> mic_free b2 b3 -> mic_free b1 b3.
Proof. intros [] []. split; congruence. Qed.
Lemma mic_free_wr b i v b' : wr b i v = Ok b' -> i < o_key_mic \/ 97 <= i -> mic_free b b'.
Proof.
  intros H Hi. split; [apply wr_inv in H as [_ ->]; apply zlen_insert|].
  eapply rd_n_wr_before; [exact H|done|done|unfold o_key_mic in *; lia].
Qed.
Lemma mic_free_wr_n b i d b' : wr_n b i d = Ok b' -> i + zlen d <= o_key_mic \/ 97 <= i -> mic_free b b'.
Proof.
  intros H Hi. split; [by eapply wr_n_length|]. unfold o_key_mic in *.
  destruct Hi; [eapply rd_n_wr_n_after|eapply rd_n_wr_n_before]; try exact H; lia.
Qed.

Lemma put_key_header_free s key_info len key_rsc nonce b : 97 <= len -> wf_replay (Sm.key_replay (sm s)) ->
  opt_len WPA_KEY_RSC_LEN key_rsc -> opt_len WPA_NONCE_LEN nonce ->
  put_key_header s key_info len key_rsc nonce = Ok b -> unsigned b /\ zlen b = len.
Proof.
  intros Hlen [_ Hrf] Hrsc Hnonce H. unfold put_key_header in H. cbv zeta in H.
  assert (zlen (replicate (Z.to_nat len) 0) = len) as H0 by (rewrite zlen_replicate; lia).
  assert (mic_free (replicate (Z.to_nat len) 0) b) as [Hl Hm].
  { repeat (apply bind_ok in H as (? & ? & H)).
    repeat match goal with
    | E : wr_n _ _ _ = Ok _ |- _ => apply mic_free_wr_n in E; [|rewrite ?zlen_BE16; left; done]
    | E : wr _ _ _ = Ok _ |- _ => apply mic_free_wr in E; [|left; done]
    end.
    assert (mic_free x2 x3) as F3.
    { destruct (key_length_of _); [apply mic_free_wr_n in H5; [done|left; done]|by returned H5]. }
    assert (mic_free x3 x4) as F4.
    { destruct (has_bits key_info WPA_KEY_INFO_SMK_MESSAGE); [apply mic_free_wr_n in H6; [done|left; done]|by returned H6]. }
    assert (mic_free x4 x5) as F5.
    { destruct (Sm.key_replay (sm s)) as [|r0 r]; [done|]. apply Forall_cons in Hrf as [Hr _].
      apply mic_free_wr_n in H7; [done|left; rewrite Hr; done]. }
    assert (mic_free x5 x6) as F6.
    { destruct nonce as [n|]; [|by returned H8]. apply mic_free_wr_n in H8; [done|left; rewrite (Hnonce n eq_refl); done]. }
    assert (mic_free x6 b) as F7.
    { destruct key_rsc as [r|]; [|by returned H]. apply mic_free_wr_n in H; [done|left; rewrite (Hrsc r eq_refl); done]. }
    repeat (eapply mic_free_trans; [eassumption|]). apply mic_free_refl. }
  split; [|lia]. split; [lia|]. rewrite Hm, rd_n_ok by (unfold o_key_mic; lia).
  rewrite drop_replicate, take_replicate. unfold no_mic. do 2 f_equal. unfold o_key_mic. lia.
Qed.

Lemma put_key_data_free buf version n pad kde encr s b s' : wf_gr (gr s) ->
  put_key_data buf version n pad kde encr s = Ok (Some b, s') -> mic_free buf b.
Proof.
  intros Hg H. unfold put_key_data in H. destruct kde as [kde|]; [|by returned H].
  destruct (negb encr).
  { returned H. repeat match goal with E : wr_n _ _ _ = Ok _ |- _ => apply mic_free_wr_n in E; [|right; done] end.
    by eapply mic_free_trans. }
  destruct (WpaAuthSm.os_malloc n s) as [ok s1] eqn:Hma. destruct (negb ok); [by returned H|]. cbv zeta in H.
  apply bind_ok in H as (p1 & _ & H). apply bind_ok in H as (p2 & _ & H).
  match type of H with (if ?c then _ else _) = _ => destruct c end.
  - apply bind_ok in H as (p & _ & H). destruct (aes_wrap _ p) as [c|]; [|by returned H].
    returned H. repeat match goal with E : wr_n _ _ _ = Ok _ |- _ => apply mic_free_wr_n in E; [|right; done] end.
    by eapply mic_free_trans.
  - apply bind_ok in H as (iv & Hiv & H). returned H.
    assert (zlen iv = 16) as Liv.
    { pose proof (g_counter _ Hg) as Lc. destruct (rd_n_runs (Group.Counter (gr s)) (WPA_NONCE_LEN - 16) 16) as (v & Ev & Hv);
        [done|done|rewrite Lc; done|].
      unfold WpaAuthSm.os_malloc in Hma. injection Hma as _ <-. change (gr (emit (CMalloc n) s)) with (gr s) in Hiv.
      assert (iv = v) as -> by congruence. done. }
    repeat match goal with E : wr_n _ o_key_data _ = Ok _ |- _ => apply mic_free_wr_n in E; [|right; done] end.
    repeat match goal with E : wr_n _ o_key_data_length _ = Ok _ |- _ => apply mic_free_wr_n in E; [|right; done] end.
    match goal with E : wr_n _ o_key_iv _ = Ok _ |- _ => apply mic_free_wr_n in E; [|left; rewrite Liv; done] end.
    eapply mic_free_trans; [eassumption|]. by eapply mic_free_trans.
Qed.

Lemma put_key_data_log buf version n pad kde encr s b s' :
  put_key_data buf version n pad kde encr s = Ok (b, s') ->
  sm s' = sm s /\ (lg s' = lg s \/ lg s' = CMalloc n :: lg s).
Proof.
  intros H. unfold put_key_data in H. destruct kde as [kde|]; [|returned H; by split; [|left]].
  destruct (negb encr); [returned H; by split; [|left]|].
  unfold WpaAuthSm.os_malloc in H. cbv zeta iota beta in H. destruct (negb _); [returned H; by split; [|right]|].
  apply bind_ok in H as (p1 & _ & H). apply bind_ok in H as (p2 & _ & H).
  match type of H with (if ?c then _ else _) = _ => destruct c end.
  - apply bind_ok in H as (p & _ & H). destruct (aes_wrap _ p) as [c|]; returned H; by split; [|right].
  - apply bind_ok in H as (iv & Hiv & H). returned H. by split; [|right].
Qed.

End authenticator.

(** ** The key data *)

Section keydata.
Context {cr : Crypto} {c_laws : CryptoLaws cr} {un : KeyUnwrap} {u_laws : KeyUnwrapLaws cr un}.
Context {h : Host} {h_laws : HostLaws h}.
Context {o : Owner} {o_laws : OwnerLaws o}.

Lemma rd_n_sub l i n d j k : rd_n l i n = Ok d -> 0 <= j -> 0 <= k -> j + k <= n ->
  rd_n l (i + j) k = rd_n d j k.
Proof.
  intros H Hj Hk Hle. unfold rd_n in H. destruct (_ && _) eqn:Hb; [|done]. apply inj_ok in H. subst d.
  apply andb_prop in Hb as [[Hi%Z.leb_le Hn%Z.leb_le]%andb_prop Hin%Z.leb_le].
  rewrite !rd_n_ok by (unfold zlen in *; rewrite ?length_take, ?length_drop; lia). f_equal.
  rewrite skipn_firstn_comm, take_take, drop_drop. f_equal; [lia|]. f_equal. lia.
Qed.

Lemma rd_n_front l d r : l = d ++ r -> rd_n l 0 (zlen d) = Ok d.
Proof. intros ->. exact (rd_n_app_mid [] d r). Qed.

(** C9 ([__wpa_send_eapol], [wpa_supplicant_decrypt_key_data]): the supplicant
    decrypts key data the authenticator encrypted: with the same KEK the frame
    holds the KDEs again where the parser looks for them. *)
Theorem key_data_decrypts buf version kde s b s' u n pad :
  zlen buf = key_header_len + n -> n < 65536 -> wf_gr (gr s) -> padded version (zlen kde) pad n true ->
  (version = WPA_KEY_INFO_TYPE_HMAC_SHA1_AES \/ version = WPA_KEY_INFO_TYPE_AES_128_CMAC \/
   version = WPA_KEY_INFO_TYPE_HMAC_MD5_RC4) ->
  put_key_data buf version n pad (Some kde) true s = Ok (Some b, s') ->
  Sup.ptk_set (su u) = true -> kek (Sup.ptk (su u)) = kek (Sm.PTK (sm s)) ->
  (forall l, WpaSuppI.malloc l = true) ->
  exists b' u' n', wpa_supplicant_decrypt_key_data b version u = Ok (0, b', u') /\
    WPA_GET_BE16 b' o_key_data_length = Ok n' /\ zlen kde <= n' <= zlen b' - o_key_data /\
    rd_n b' o_key_data (zlen kde) = Ok kde.
Proof.
  unfold key_header_len, sizeof_ieee802_1x_hdr, sizeof_wpa_eapol_key.
  intros Hbuf Hn Hg Hpad Hver H Hset Hkek Hmal. pose proof (zlen_nonneg kde) as Hk0.
  apply padded_cases in Hpad; [|done].
  unfold put_key_data in H. cbn [negb] in H.
  destruct (WpaAuthSm.os_malloc n s) as [ok s1] eqn:Hma. destruct (negb ok); [by returned H|]. cbv zeta in H.
  apply bind_ok in H as (p1 & Hp1 & H). apply bind_ok in H as (p2 & Hp2 & H).
  assert (zlen p2 = n) as Lp2.
  { pose proof (wr_n_length _ _ _ _ Hp1) as E. rewrite zlen_replicate in E.
    destruct (negb _); [apply wr_inv in Hp2 as [_ ->]; rewrite zlen_insert|apply inj_ok in Hp2; subst p2]; lia. }
  assert (rd_n p2 0 (zlen kde) = Ok kde) as Hkde.
  { destruct (negb _); [|apply inj_ok in Hp2; subst p2; exact (rd_n_wr_n _ _ _ _ Hp1)].
    rewrite (rd_n_wr_before _ _ _ _ 0 (zlen kde) Hp2) by lia. exact (rd_n_wr_n _ _ _ _ Hp1). }
  assert (Sm.PTK (sm s1) = Sm.PTK (sm s) /\ gr s1 = gr s) as [Hptk Hgr] by (unfold WpaAuthSm.os_malloc in Hma; by injection Hma as _ <-).
  unfold wpa_supplicant_decrypt_key_data. unfold o_key_data, o_key_data_length, o_key_iv in *.
  destruct Hpad as [(Hc & Hp & Hnn & Hmod)|(Hc & -> & ->)]; rewrite ?andb_true_r in Hc; rewrite Hc in H.
  - apply bind_ok in H as (p & Hp' & H). destruct (aes_wrap _ p) as [c|] eqn:Hw; [|by returned H].
    apply bind_ok in H as (b1 & Hb1 & H). apply bind_ok in H as (b2 & Hb2 & H). apply inj_ok in H. injection H as -> _.
    replace (8 * ((n - 8) / 8)) with (n - 8) in Hp' by (clear -Hmod; zlia).
    assert (zlen p = n - 8) as Lp.
    { destruct (rd_n_runs p2 0 (n - 8)) as (q & E & Hq); [lia..|]. by rewrite (inj_ok _ _ (eq_trans (eq_sym Hp') E)). }
    pose proof (aes_wrap_len _ _ _ Hw) as Lc.
    rewrite (BE16_wr_n _ _ _ _ Hb2), u16_id by lia. cbn [mbind res_bind]. rewrite Hset. cbn [negb].
    assert ((version =? WPA_KEY_INFO_TYPE_HMAC_MD5_RC4) = false) as -> by (destruct Hver as [-> |[-> | ->]]; done).
    rewrite Hc. assert (n mod 8 = 0) as Hm8 by (clear -Hmod; zlia). rewrite Hm8. cbn [Z.eqb negb].
    rewrite u16_id by lia. unfold os_malloc. rewrite Hmal. cbn [negb].
    replace (8 * ((n - 8) / 8 + 1)) with (zlen c) by (clear -Hm8 Lc Lp; zlia).
    rewrite (rd_n_wr_n_after _ _ _ _ _ _ Hb2), (rd_n_wr_n _ _ _ _ Hb1) by (rewrite ?zlen_BE16; lia).
    cbn [mbind res_bind su say]. change (su (say _ u)) with (su u). rewrite Hkek, <- Hptk, (aes_unwrap_wrap _ _ _ Hw).
    pose proof (wr_n_length _ _ _ _ Hb1) as L1. pose proof (wr_n_length _ _ _ _ Hb2) as L2.
    destruct (wr_n_runs b 99 p) as (b3 & Hb3 & L3); [done|lia|]. rewrite Hb3. cbn [mbind res_bind].
    destruct (wr_n_runs b3 97 (WPA_PUT_BE16 (n - 8))) as (b4 & Hb4 & L4); [done|rewrite zlen_BE16; lia|]. rewrite Hb4.
    eexists _, _, (n - 8). split; [reflexivity|]. split; [rewrite (BE16_wr_n _ _ _ _ Hb4), u16_id by lia; done|].
    split; [lia|]. rewrite (rd_n_wr_n_after _ _ _ _ _ _ Hb4) by (rewrite ?zlen_BE16; lia).
    pose proof (rd_n_wr_n _ _ _ _ Hb3) as E.
    pose proof (rd_n_sub _ _ _ _ 0 (zlen kde) E) as E2. rewrite Z.add_0_r in E2. rewrite E2 by lia.
    pose proof (rd_n_sub _ _ _ _ 0 (zlen kde) Hp') as E3. rewrite Z.add_0_r in E3. rewrite <- E3 by lia. done.
  - assert (version = WPA_KEY_INFO_TYPE_HMAC_MD5_RC4) as -> by (destruct Hver as [-> |[-> |]]; done).
    apply bind_ok in H as (iv & Hiv & H). apply bind_ok in H as (b1 & Hb1 & H).
    apply bind_ok in H as (c & _ & H). apply bind_ok in H as (b2 & Hb2 & H). apply bind_ok in H as (b3 & Hb3 & H).
    apply inj_ok in H. injection H as -> _. cbn [sm] in Hb2.
    assert (zlen iv = 16) as Liv.
    { rewrite Hgr in Hiv. pose proof (g_counter _ Hg) as Lctr.
      destruct (rd_n_runs (Group.Counter (gr s)) (WPA_NONCE_LEN - 16) 16) as (v & Ev & Hv);
        [done|done|rewrite Lctr; done|]. by rewrite (inj_ok _ _ (eq_trans (eq_sym Hiv) Ev)). }
    set (e := rc4_skip _ _ _) in Hb2. assert (zlen e = zlen kde) as Le by (unfold e; rewrite rc4_skip_len; lia).
    rewrite (BE16_wr_n _ _ _ _ Hb3), u16_id by lia. cbn [mbind res_bind]. rewrite Hset. cbn [negb Z.eqb].
    rewrite Z.eqb_refl.
    rewrite (rd_n_wr_n_before _ _ _ _ 49 16 Hb3), (rd_n_wr_n_before _ _ _ _ 49 16 Hb2) by done.
    pose proof (rd_n_wr_n _ _ _ _ Hb1) as E1. rewrite Liv in E1. rewrite E1. cbn [mbind res_bind].
    rewrite (rd_n_wr_n_after _ _ _ _ _ _ Hb3) by (rewrite ?zlen_BE16; lia).
    pose proof (rd_n_wr_n _ _ _ _ Hb2) as E2. rewrite Le in E2. rewrite E2. cbn [mbind res_bind].
    assert (rc4_skip (iv ++ kek (Sup.ptk (su u))) 256 e = p2) as ->.
    { unfold e. rewrite Hkek, <- Hptk. apply rc4_skip_twice. }
    pose proof (wr_n_length _ _ _ _ Hb1) as L1. pose proof (wr_n_length _ _ _ _ Hb2) as L2.
    pose proof (wr_n_length _ _ _ _ Hb3) as L3.
    destruct (wr_n_runs b 99 p2) as (b4 & Hb4 & L4); [done|lia|]. rewrite Hb4.
    eexists _, _, (zlen kde). split; [reflexivity|].
    split; [rewrite (BE16_wr_n_before _ _ _ _ _ Hb4), (BE16_wr_n _ _ _ _ Hb3), u16_id by lia; done|].
    split; [lia|]. pose proof (rd_n_wr_n _ _ _ _ Hb4) as E4. rewrite Lp2 in E4. rewrite E4.
    rewrite <- Lp2, rd_n_all in Hkde. done.
Qed.
End keydata.
