(* ===== verification/HandshakeEx.v ===== *)
(** * A station joins an access point

    A concrete owner of the supplicant, and the 4-way handshake between it and the
    access point of WpaAuthEx.v, run by evaluation; the witnesses of the theorems
    on the supplicant are at points of this run. *)

From stdpp Require Import gmap.
From S2P Require Import Prelude CommonUtils EapI WpaCommon Pmksa PmksaProps WpaAuthI.
From S2P Require Import WpaAuthIe WpaIeProps WpaIeSpec WpaAuthSm WpaAuthWf WpaAuthCtl.
From S2P Require Import WpaAuthRest WpaAuthRef WpaAuthRun WpaAuth WpaAuthWorld WpaAuthRx.
From S2P Require Import WpaAuthEvents WpaAuthRekey WpaAuthRecv WpaAuthReach WpaAuthInit WpaAuthEx.
From S2P Require Import WpaSuppI WpaSuppPmksa WpaSuppIe WpaSupp WpaSuppWf WpaSuppIeProps WpaSuppRun.
From S2P Require Import WpaSuppKeys WpaSuppMsg WpaSuppRx WpaSuppIeGen WpaSuppOps WpaSuppSteps.
From S2P Require Import WpaSuppSpec WpaSuppErr Handshake.
Import Toy.

Module Air.
#[export] Existing Instances Net.owner Net.owner_laws.
Definition ap_rsn : list Z := element WLAN_EID_RSN (default [] (rsn_ie_body Ap.conf None)).
Definition ap_wpa : list Z := element WLAN_EID_VENDOR_SPECIFIC (default [] (wpa_ie_body Ap.conf)).

(** Memory for everything, and no EAPOL machine. *)
#[export] Instance host : Host := {|
  get_state _ := WPA_ASSOCIATED;
  WpaSuppI.set_key _ := 0;
  get_network_ctx _ := Some 0%nat;
  get_bssid _ := (0, Net.ap);
  scan_results _ := Some (Some ap_wpa, Some ap_rsn);
  update_scan_results _ := 0;
  eapol_sm_get_key _ n := (-1, replicate (Z.to_nat n) 0);
  WpaSuppI.random_get_bytes l n := (0, replicate (Z.to_nat n) (zlen l mod 256));
  WpaSuppI.malloc _ := true;
  WpaSuppI.time _ := 1300000000;
  uninit _ n := replicate (Z.to_nat n) 0;
  eapol_version := 1;
  sizeof_wpa_sm := 900;
|}.
#[export] Instance host_laws : HostLaws host.
Proof.
  assert (forall n x, 0 <= n -> zlen (replicate (Z.to_nat n) x : list Z) = n) as Hrep
    by (intros n x Hn; rewrite zlen_replicate; lia).
  split; cbn.
  - by intros l r d [= _ <-].
  - intros l n r d Hn [= _ <-]. by apply Hrep.
  - intros l n r d Hn [= _ <-]. by apply Hrep.
  - intros l n Hn. by apply Hrep.
  - intros l w r [= <- <-] ie [[= <-]|[= <-]]; by vm_compute.
Qed.

(** What the owner does until the station is associated. *)
Definition configured : list sup_op :=
  [OSetOwnAddr Net.sta_addr; OSetParam WPA_PARAM_PROTO WPA_PROTO_RSN;
   OSetParam WPA_PARAM_PAIRWISE WPA_CIPHER_CCMP; OSetParam WPA_PARAM_GROUP WPA_CIPHER_CCMP;
   OSetParam WPA_PARAM_KEY_MGMT WPA_KEY_MGMT_PSK_SHA256;
   OSetParam WPA_PARAM_MGMT_GROUP WPA_CIPHER_AES_128_CMAC; OSetParam WPA_PARAM_RSN_ENABLED 1;
   OSetParam WPA_PARAM_MFP 2; OSetPmk Net.psk 32; OSetAssocIeDefault (replicate 80 0) 80;
   ONotifyAssoc Net.ap].

Fixpoint run (l : list sup_op) (s : sst) : res sst :=
  match l with
  | [] => mret s
  | op :: l => s ← perform op s; run l s
  end.
Definition nobody : sst := {| su := sm_zero empty_cache; slg := [] |}.
Definition get (r : res sst) : sst := match r with Ok s => s | Fault _ => nobody end.

Definition s_init : sst := default nobody (fst (wpa_sm_init [])).
Definition s0 : sst := get (run configured s_init).
Definition sta_ie : list Z := default [] (Sup.assoc_wpa_ie (su s0)).

(** The access point lets the station with that element in. *)
Definition w1 : world := Net.get (Net.run
  [In_join Net.sta_addr; In_validate 1 sta_ie (zlen sta_ie); In_event 1 WPA_ASSOC; In_associated 1] Net.w0) Net.none.

(** The frame that was sent last. *)
Fixpoint last_of_ap (l : log) : list Z :=
  match l with [] => [] | CSendEapol _ d _ :: _ => d | _ :: l => last_of_ap l end.
Fixpoint last_of_sta (l : sup_log) : list Z :=
  match l with [] => [] | SEtherSend _ _ d :: _ => d | _ :: l => last_of_sta l end.

Definition to_sta (w : world) (s : sst) : sst := get (perform (ORx Net.ap (last_of_ap (wlog w))) s).
Definition to_ap (s : sst) (w : world) : world := Net.get (handle (In_frame 1 (last_of_sta (slg s))) w) Net.none.

Definition s1 : sst := to_sta w1 s0.
Definition w2 : world := to_ap s1 w1.
Definition s2 : sst := to_sta w2 s1.
Definition w3 : world := to_ap s2 w2.
End Air.

Import Air.

(** ** The run is one of the machine *)

Fixpoint all_ok (l : list sup_op) (s : sst) : Prop :=
  match l with
  | [] => True
  | op :: l => op_ok op s /\ match perform op s with Ok s => all_ok l s | Fault _ => False end
  end.
Lemma run_reachable l s : reachable s -> all_ok l s -> reachable (Air.get (Air.run l s)).
Proof.
  revert s. induction l as [|op l IH]; intros s Hr; [done|]. cbn [all_ok Air.run]. intros [Ha Hl].
  destruct (perform op s) as [s'|] eqn:E; [|done]. cbn [mbind res_bind]. apply IH; [|done].
  by eapply reach_step.
Qed.

(** What an operation on a frame asks for, by evaluation. *)
Lemma rx_ok src buf s ki n : zlen src = 6 -> bytes buf -> WPA_GET_BE16 buf o_key_info = Ok ki ->
  WPA_GET_BE16 buf o_key_data_length = Ok n -> not_empty_encrypted ki n -> op_ok (ORx src buf) s.
Proof. intros ? ? Hk Hn H. split; [done|]. split; [done|]. intros ki' n' Hk' Hn'. assert (ki' = ki) as -> by congruence. by assert (n' = n) as -> by congruence. Qed.

Lemma init_reachable : reachable s_init.
Proof. by eapply (reach_init [] s_init). Qed.
Lemma s0_reachable : reachable s0.
Proof.
  apply (run_reachable configured); [apply init_reachable|].
  cbn [all_ok configured]. repeat (split; [vm_compute; repeat split; (done || intros; congruence)|]; cbv beta iota;
    match goal with |- match ?t with Ok _ => _ | Fault _ => _ end => let r := eval vm_compute in t in change t with r end; cbv beta iota).
  done.
Qed.

(** The messages of the access point; the third is sent again when its timeout
    fires before message 4/4 is there. *)
Definition msg1 : list Z := last_of_ap (wlog w1).
Definition msg3 : list Z := last_of_ap (wlog w2).
Definition w2_again : world := Net.get (handle (In_eapol_timeout 1) w2) Net.none.
Definition msg3_again : list Z := last_of_ap (wlog w2_again).
Definition s3 : sst := to_sta w2_again s2.

Lemma bytes_of (l : list Z) : forallb (fun b => (0 <=? b) && (b <? 256)) l = true -> bytes l.
Proof.
  intros H. apply Forall_forall. intros b Hb%list_elem_of_In. rewrite forallb_forall in H.
  apply H, andb_prop in Hb as [?%Z.leb_le ?%Z.ltb_lt]. by split.
Qed.

(** [vm_compute] on what a frame has to be. *)
Ltac frame_ok := eapply rx_ok; [reflexivity|by apply bytes_of; vm_compute|by vm_compute|by vm_compute|
  first [by left; vm_compute|by right; right|by right; left]].

Lemma msg1_ok s : op_ok (ORx Net.ap msg1) s.
Proof. frame_ok. Qed.
Lemma msg3_ok s : op_ok (ORx Net.ap msg3) s.
Proof. frame_ok. Qed.
Lemma msg3_again_ok s : op_ok (ORx Net.ap msg3_again) s.
Proof. frame_ok. Qed.

Lemma s1_step : perform (ORx Net.ap msg1) s0 = Ok s1.
Proof. vm_compute. reflexivity. Qed.
Lemma s2_step : perform (ORx Net.ap msg3) s1 = Ok s2.
Proof. vm_compute. reflexivity. Qed.
Lemma s3_step : perform (ORx Net.ap msg3_again) s2 = Ok s3.
Proof. vm_compute. reflexivity. Qed.
Lemma s1_reachable : reachable s1.
Proof. eapply reach_step; [apply s0_reachable|apply msg1_ok|apply s1_step]. Qed.
Lemma s2_reachable : reachable s2.
Proof. eapply reach_step; [apply s1_reachable|apply msg3_ok|apply s2_step]. Qed.

(** The temporal key, and the call that gives it to the driver. *)
Definition tk : list Z := take 16 (drop 32 (Sup.ptk (su s2))).
Definition key_to_driver : sup_call := SSetKey WPA_ALG_CCMP (Some Net.ap) 0 1 (replicate 6 0) tk.

Lemma consequential_by (s s' : sst) c n : slg s' = take n (slg s') ++ slg s -> c ∈ take n (slg s') ->
  ~ harmless c -> consequential s s'.
Proof. intros E Hc Hh. left. by exists c, (take n (slg s')). Qed.
Lemma s2_consequential : consequential s1 s2.
Proof.
  apply (consequential_by s1 s2 key_to_driver (length (slg s2) - length (slg s1))); [by vm_compute| |exact (fun H => H)].
  apply (bool_decide_unpack _). by vm_compute.
Qed.
Lemma s3_consequential : consequential s2 s3.
Proof.
  apply (consequential_by s2 s3 key_to_driver (length (slg s3) - length (slg s2))); [by vm_compute| |exact (fun H => H)].
  apply (bool_decide_unpack _). by vm_compute.
Qed.

(** ** Witnesses *)


Lemma consequences_need_mic_witness : exists src frame, ORx Net.ap msg3 = ORx src frame /\ authentic frame s1 s2.
Proof.
  apply (consequences_need_mic (ORx Net.ap msg3) s1 s2);
    [apply s1_reachable|apply msg3_ok|apply s2_step|apply s2_consequential].
Defined.

Lemma accepted_counters_increase_witness :
  0 < os_memcmp (counter_of msg3_again) (counter_of msg3) /\ msg3 <> msg3_again.
Proof.
  apply (accepted_counters_increase Net.ap msg3 s1 s2 s2 Net.ap msg3_again s3); [apply s1_reachable
    |apply msg3_ok|apply s2_step|apply s2_consequential|constructor|apply msg3_again_ok|apply s3_step
    |apply s3_consequential].
Defined.

(** A forged frame: no MIC, and empty key data said to be encrypted. *)
Definition forged : list Z := [2; 3; 0; 95; 2; 16; 139; 0; 16] ++ replicate 8 255 ++ replicate 82 0.
Lemma forged_is : empty_encrypted (su s2) forged.
Proof.
  split; [by vm_compute; split|by vm_compute|exists 95; by vm_compute; repeat split|by vm_compute| |by vm_compute].
  exists 4235. repeat split; try by vm_compute. right. by vm_compute.
Qed.

(** A full cache. *)
Definition fill : list sup_op :=
  map (fun i => OCacheAdd Net.psk 32 [2; 0; 0; 0; 1; Z.of_nat i] Net.sta_addr (Some 7%nat) WPA_KEY_MGMT_IEEE8021X)
    (seq 0 32).
Definition s_full : sst := Air.get (Air.run fill s0).
Lemma s_full_reachable : reachable s_full.
Proof.
  apply (run_reachable fill); [apply s0_reachable|].
  assert (forall l s, Forall (fun op => forall s, op_ok op s) l -> is_Some (match Air.run l s with Ok s => Some s | _ => None end) ->
    all_ok l s) as H.
  { induction l as [|op l IH]; intros s Hl Hr; [done|]. apply Forall_cons in Hl as [Hop Hl]. cbn [all_ok].
    split; [done|]. cbn [Air.run] in Hr. destruct (perform op s) as [s'|]; [by apply IH|]. by destruct Hr. }
  apply H; [|by vm_compute; eexists]. apply Forall_forall. intros op (i & -> & Hi)%list_elem_of_fmap s. by vm_compute.
Qed.

Lemma clone_full_fault_witness :
  pmksa_cache_get_opportunistic (Some 7%nat) [2; 0; 0; 0; 2; 0] s_full = Fault OutOfBounds.
Proof.
  destruct (entries s_full) as [|[p e] l] eqn:E; [by vm_compute in E|].
  apply (clone_full_fault 7 [2; 0; 0; 0; 2; 0] p e l s_full); [apply reachable_wf, s_full_reachable|exact E
    |by vm_compute| |done|done|by vm_compute].
  vm_compute in E. by injection E as _ <- _.
Defined.

(** Message 3/4 as [wpa_supplicant_process_3_of_4] gets it. *)
Definition s_verified : sst := s1 <| su := counted msg3 (promoted (su s1)) |>.
Definition plain3 : list Z :=
  match wpa_supplicant_decrypt_key_data msg3 3 s_verified with Ok (_, frame, _) => frame | Fault _ => [] end.
Definition s_installed : sst := Air.get (wpa_supplicant_process_3_of_4 plain3 3 s_verified).

Lemma s_verified_wf : wf_sup s_verified.
Proof.
  pose proof (reachable_wf s1 s1_reachable) as Hw.
  destruct (vouched_sizes msg3 3 (zlen msg3) (su s1) (counted msg3 (promoted (su s1)))) as (Hz & Hp & Hc).
  - split; [by apply bytes_of; vm_compute|by vm_compute].
  - apply Hw.
  - vm_compute. reflexivity.
  - by apply wf_set.
Qed.

Lemma plain3_frame : wf_frame plain3 /\ key_data_inside plain3.
Proof.
  split; [split; [by apply bytes_of; vm_compute|by vm_compute]|]. exists 120. vm_compute. split; [done|]. by split.
Qed.

Lemma s_installed_by : wpa_supplicant_process_3_of_4 plain3 3 s_verified = Ok s_installed.
Proof. vm_compute. reflexivity. Qed.
Definition installing : sup_log := take 19 (slg s_installed).


(** The authenticator when it has the answer to message 1/4. *)
Definition s_answered : sst := Air.get (wpa_supplicant_process_1_of_4 Net.ap msg1 3 s0).
Definition answer_frame : list Z := last_of_sta (slg s_answered).
Definition ap_answered : st :=
  let sta := default (sta_zero 0 []) (stas w1 !! 1%nat) in
  let sta := sta <| Sm.SNonce := Sup.snonce (su s_answered) |> in
  {| sm := sta; gr := default group_zero (groups w1 !! Sm.group sta); au := auth w1; lg := wlog w1 |}.
Definition both_ptk : list Z := default [] (wpa_pmk_to_ptk Net.psk "Pairwise key expansion" Net.ap Net.sta_addr
  (Sm.ANonce (sm ap_answered)) (Sm.SNonce (sm ap_answered)) 48 true).

Lemma msg1_frame : wf_frame msg1 /\ key_data_inside msg1.
Proof.
  split; [split; [by apply bytes_of; vm_compute|by vm_compute]|]. exists 0. vm_compute. split; [done|]. by split.
Qed.
Lemma s_answered_by : wpa_supplicant_process_1_of_4 Net.ap msg1 3 s0 = Ok s_answered.
Proof. vm_compute. reflexivity. Qed.
Lemma s_answered_log : slg s_answered =
  SNotifyTx :: SEtherSend Net.ap ETH_P_EAPOL answer_frame :: drop 2 (slg s_answered).
Proof. vm_compute. reflexivity. Qed.


(** The authenticator as it sends message 3/4, and its encrypted key data. *)
Definition ap_local : st :=
  let sta := default (sta_zero 0 []) (stas w2 !! 1%nat) in
  {| sm := sta; gr := default group_zero (groups w2 !! Sm.group sta); au := auth w2; lg := wlog w2 |}.
Lemma ap_local_replay : wf_replay (Sm.key_replay (sm ap_local)).
Proof. split; [by vm_compute|]. vm_compute. by repeat constructor. Qed.
Lemma ap_local_group : wf_gr (gr ap_local).
Proof.
  split; vm_compute; repeat split; try done; try congruence; first [by left|by right|by repeat constructor].
Qed.

Lemma anonce_len : opt_len WPA_NONCE_LEN (Some (Sm.ANonce (sm ap_local))).
Proof. intros d Hd. apply (inj Some) in Hd. subst d. vm_compute. reflexivity. Qed.

Definition kdes : list Z := kde_bytes RSN_KEY_DATA_GROUPKEY ([1; 0] ++ replicate 16 47).
Definition sent_by : st := match wpa_send_eapol_ ap_local 5064 (Some (replicate 8 0))
  (Some (Sm.ANonce (sm ap_local))) (Some kdes) 0 true 0 with Ok s => s | Fault _ => ap_local end.
Definition sent_frame : list Z := last_of_ap (lg sent_by).
Lemma sent_by_ok : wpa_send_eapol_ ap_local 5064 (Some (replicate 8 0))
  (Some (Sm.ANonce (sm ap_local))) (Some kdes) 0 true 0 = Ok sent_by.
Proof. vm_compute. reflexivity. Qed.
Lemma sent_by_log : lg sent_by = CSendEapol Net.sta_addr sent_frame false :: drop 1 (lg sent_by).
Proof. vm_compute. reflexivity. Qed.


(** Encrypted by the one, decrypted by the other. *)
Definition kd_buf : list Z := replicate 131 0.
Definition kd_out : res (option (list Z) * st) := put_key_data kd_buf 3 32 0 (Some kdes) true ap_local.
Definition kd_frame : list Z := match kd_out with Ok (Some b, _) => b | _ => [] end.
Definition kd_after : st := match kd_out with Ok (_, s) => s | Fault _ => ap_local end.
Lemma kd_out_ok : put_key_data kd_buf 3 32 0 (Some kdes) true ap_local = Ok (Some kd_frame, kd_after).
Proof. vm_compute. reflexivity. Qed.

Lemma key_data_decrypts_witness : exists b' u' n',
  wpa_supplicant_decrypt_key_data kd_frame 3 s2 = Ok (0, b', u') /\
  WPA_GET_BE16 b' o_key_data_length = Ok n' /\ zlen kdes <= n' <= zlen b' - o_key_data /\
  rd_n b' o_key_data (zlen kdes) = Ok kdes.
Proof.
  apply (key_data_decrypts kd_buf 3 kdes ap_local kd_frame kd_after s2 32 0);
    [by vm_compute|by vm_compute|apply ap_local_group|by vm_compute|by (right; left)|apply kd_out_ok
    |by vm_compute|by vm_compute|done].
Defined.


Lemma parsers_agree_witness : exists r d ie, wpa_parse_kde_ies kdes (zlen kdes) = Ok (r, d) /\
  wpa_supplicant_parse_ies kdes (zlen kdes) = Ok (r, ie) /\ agree d ie /\ eie_inside (zlen kdes) ie.
Proof. apply (parsers_agree kdes (zlen kdes)); [by apply bytes_of; vm_compute|by vm_compute]. Defined.

Lemma verify_eq_spec_witness : exists frame',
  wpa_supplicant_verify_eapol_key_mic msg3 3 (zlen msg3) s1 =
    Ok match vouched msg3 3 (zlen msg3) (su s1) with
       | Some m => (0, msg3, s1 <| su := m |>)
       | None => (-1, frame', s1)
       end.
Proof. apply (verify_eq_spec msg3 3 (zlen msg3) s1); [by vm_compute|by vm_compute]. Defined.

(** ** The handshake *)

Definition gtk_of_ap (w : world) : list Z :=
  match groups w !! 0%nat with Some g => take 16 (nth 0 (Group.GTK g) []) | None => [] end.

