(* ===== verification/AesProps.v ===== *)
(** * AES-128: decryption undoes encryption

    [rijndaelDecrypt] is the equivalent inverse cipher: its rounds work on the
    substituted and shifted words.  What the tables have to satisfy is checked for
    every octet by evaluation; that the columns of the inverse table are linear
    extends the checks to words, and then each round of one undoes a round of the
    other. *)

From S2P Require Import Prelude Aes.

(** ** Octets of a word *)

Definition pack (a b c d : Z) : Z :=
  xor4 (Z.shiftl a 24) (Z.shiftl b 16) (Z.shiftl c 8) d.

Lemma testbit_byte b i : is_byte b -> 8 <= i -> Z.testbit b i = false.
Proof.
  intros [H0 H1] Hi. destruct (decide (b = 0)) as [->|]; [apply Z.testbit_0_l|].
  apply Z.bits_above_log2; [lia|].
  assert (Z.log2 b < 8) by (apply Z.log2_lt_pow2; lia). lia.
Qed.

Lemma byte_of_byte w n : is_byte (byte_of w n).
Proof. unfold byte_of, is_byte. rewrite land_255. zlia. Qed.

Lemma byte_of_xor a b n : byte_of (Z.lxor a b) n = Z.lxor (byte_of a n) (byte_of b n).
Proof.
  unfold byte_of. rewrite Z.shiftr_lxor. apply Z.bits_inj'. intros i Hi.
  rewrite !Z.land_spec, !Z.lxor_spec, !Z.land_spec. by destruct (Z.testbit 255 i); rewrite ?andb_true_r, ?andb_false_r.
Qed.

Lemma testbit_255 i : 0 <= i -> Z.testbit 255 i = (i <? 8).
Proof. intros. rewrite (Z.testbit_ones_nonneg 8) by lia. done. Qed.

Ltac by_bits :=
  apply Z.bits_inj'; intros i Hi; unfold pack, xor4, byte_of;
  rewrite ?Z.lxor_spec, ?Z.land_spec, ?Z.shiftr_spec, ?Z.lxor_spec, ?Z.shiftl_spec, ?testbit_255 by lia.

(** Bits outside an octet are 0. *)
Ltac outside :=
  repeat match goal with
  | H : is_byte ?x |- context [Z.testbit ?x ?j] =>
      first [rewrite (testbit_byte x j H) by lia | rewrite (Z.testbit_neg_r x j) by lia]
  end;
  rewrite ?xorb_false_l, ?xorb_false_r.

Lemma byte_of_pack a b c d : is_byte a -> is_byte b -> is_byte c -> is_byte d ->
  byte_of (pack a b c d) 24 = a /\ byte_of (pack a b c d) 16 = b /\
  byte_of (pack a b c d) 8 = c /\ byte_of (pack a b c d) 0 = d.
Proof.
  intros Ha Hb Hc Hd. split_and!; by_bits.
  all: destruct (Z.ltb_spec i 8); rewrite ?andb_true_r, ?andb_false_r;
    [|by rewrite testbit_byte by (done || lia)].
  all: outside; f_equal; lia.
Qed.

Lemma testbit_byte_of w n j : 0 <= n ->
  Z.testbit (byte_of w n) j = (0 <=? j) && (j <? 8) && Z.testbit w (j + n).
Proof.
  intros Hn. destruct (Z.leb_spec 0 j); [|by rewrite Z.testbit_neg_r by lia].
  unfold byte_of. rewrite Z.land_spec, Z.shiftr_spec, testbit_255 by lia. cbn [andb].
  apply andb_comm.
Qed.

Lemma pack_byte_of w : 0 <= w < 2 ^ 32 ->
  pack (byte_of w 24) (byte_of w 16) (byte_of w 8) (byte_of w 0) = w.
Proof.
  intros Hw. apply Z.bits_inj'. intros i Hi. unfold pack, xor4.
  rewrite !Z.lxor_spec, !Z.shiftl_spec, !testbit_byte_of by lia.
  replace (i - 24 + 24) with i by lia. replace (i - 16 + 16) with i by lia.
  replace (i - 8 + 8) with i by lia. replace (i + 0) with i by lia.
  destruct (decide (32 <= i)).
  - assert (Z.testbit w i = false) as ->; [|by rewrite !andb_false_r].
    rewrite Z.testbit_odd, Z.shiftr_div_pow2, Z.div_small; [done| |lia].
    assert (2 ^ 32 <= 2 ^ i) by (apply Z.pow_le_mono_r; lia). lia.
  - repeat match goal with |- context [?a <=? ?b] => destruct (Z.leb_spec a b) end;
    repeat match goal with |- context [?a <? ?b] => destruct (Z.ltb_spec a b) end;
      try lia; cbn [andb]; by rewrite ?xorb_false_l, ?xorb_false_r.
Qed.

(** ** The tables *)

Definition S_ (x : Z) : Z := TE4 x.
(** The columns of the inverse transform of an octet. *)
Definition d0 (x : Z) : Z := TD0_ (TE4 x).
Definition d1 (x : Z) : Z := TD1_ (TE4 x).
Definition d2 (x : Z) : Z := TD2_ (TE4 x).
Definition d3 (x : Z) : Z := TD3_ (TE4 x).

Definition all_bytes (p : Z -> bool) : bool := forallb (fun n => p (Z.of_nat n)) (seq 0 256).
Lemma all_bytes_spec p x : all_bytes p = true -> is_byte x -> p x = true.
Proof.
  unfold all_bytes. rewrite forallb_forall. intros H Hx. rewrite <-(Z2Nat.id x) by apply Hx.
  apply H, in_seq. destruct Hx. lia.
Qed.

(** An octet is the sum of its bits. *)
Definition linear_part (f : Z -> Z) (x : Z) : Z :=
  fold_right (fun k acc => Z.lxor (if Z.testbit x k then f (2 ^ k) else 0) acc) 0
    [0; 1; 2; 3; 4; 5; 6; 7].

Lemma linear_part_xor f x y :
  linear_part f (Z.lxor x y) = Z.lxor (linear_part f x) (linear_part f y).
Proof.
  unfold linear_part. induction [0; 1; 2; 3; 4; 5; 6; 7] as [|k l IH]; [done|]. cbn [fold_right].
  rewrite Z.lxor_spec, IH. destruct (Z.testbit x k), (Z.testbit y k); cbn [xorb];
    rewrite ?Z.lxor_0_l; try done.
  - rewrite <-!Z.lxor_assoc. f_equal. rewrite (Z.lxor_comm (Z.lxor (f (2 ^ k)) _)), <-Z.lxor_assoc.
    by rewrite Z.lxor_nilpotent, Z.lxor_0_l.
  - by rewrite Z.lxor_assoc.
  - rewrite <-!Z.lxor_assoc. f_equal. apply Z.lxor_comm.
Qed.

Definition linear (f : Z -> Z) : Prop :=
  forall x y, is_byte x -> is_byte y -> f (Z.lxor x y) = Z.lxor (f x) (f y).

Lemma is_byte_xor x y : is_byte x -> is_byte y -> is_byte (Z.lxor x y).
Proof.
  intros Hx Hy.
  assert (byte_of (pack 0 0 0 x) 0 = x) as <- by (by apply byte_of_pack).
  assert (byte_of (pack 0 0 0 y) 0 = y) as <- by (by apply byte_of_pack).
  rewrite <-byte_of_xor. apply byte_of_byte.
Qed.

Lemma linear_by_bits f : all_bytes (fun x => f x =? linear_part f x) = true -> linear f.
Proof.
  intros H x y Hx Hy.
  assert (forall x, is_byte x -> f x = linear_part f x) as Hf.
  { intros z Hz. apply Z.eqb_eq. exact (all_bytes_spec _ z H Hz). }
  rewrite !Hf by eauto using is_byte_xor. apply linear_part_xor.
Qed.

Lemma d0_linear : linear d0.
Proof. apply linear_by_bits. vm_compute. reflexivity. Qed.
Lemma d1_linear : linear d1.
Proof. apply linear_by_bits. vm_compute. reflexivity. Qed.
Lemma d2_linear : linear d2.
Proof. apply linear_by_bits. vm_compute. reflexivity. Qed.
Lemma d3_linear : linear d3.
Proof. apply linear_by_bits. vm_compute. reflexivity. Qed.

(** The inverse transform of a word, octet by octet. *)
Definition imc (w : Z) : Z :=
  xor4 (d0 (byte_of w 24)) (d1 (byte_of w 16)) (d2 (byte_of w 8)) (d3 (byte_of w 0)).

Lemma xor4_xor a b c d a' b' c' d' :
  xor4 (Z.lxor a a') (Z.lxor b b') (Z.lxor c c') (Z.lxor d d') =
  Z.lxor (xor4 a b c d) (xor4 a' b' c' d').
Proof.
  apply Z.bits_inj'. intros i _. unfold xor4. rewrite !Z.lxor_spec.
  by destruct (Z.testbit a i), (Z.testbit b i), (Z.testbit c i), (Z.testbit d i),
    (Z.testbit a' i), (Z.testbit b' i), (Z.testbit c' i), (Z.testbit d' i).
Qed.

Lemma imc_xor a b : imc (Z.lxor a b) = Z.lxor (imc a) (imc b).
Proof.
  unfold imc. rewrite !byte_of_xor.
  rewrite d0_linear, d1_linear, d2_linear, d3_linear by apply byte_of_byte. apply xor4_xor.
Qed.

Lemma inv_mix_column_eq w : 0 <= w < 2 ^ 32 -> inv_mix_column w = imc w.
Proof.
  intros Hw. unfold inv_mix_column, imc. repeat f_equal.
  unfold d0. repeat f_equal. unfold byte_of. rewrite land_255, Z.mod_small; [done|].
  rewrite Z.shiftr_div_pow2 by lia. change (2 ^ 32) with 4294967296 in Hw.
  change (2 ^ 24) with 16777216. zlia.
Qed.

(** What the tables say about each octet: the inverse transform takes a forward
    column back, the tables of the last rounds hold the substitution in each octet,
    and the substitutions are inverse. *)
Lemma S_byte x : is_byte (S_ x).
Proof. unfold S_, TE4, is_byte. rewrite land_255. zlia. Qed.

Definition table_law (x : Z) : bool :=
  (imc (at_ Te0 x) =? Z.shiftl (S_ x) 24) && (imc (rotr (at_ Te0 x) 8) =? Z.shiftl (S_ x) 16) &&
  (imc (rotr (at_ Te0 x) 16) =? Z.shiftl (S_ x) 8) && (imc (rotr (at_ Te0 x) 24) =? S_ x) &&
  (Z.land (u32 (Z.shiftl (at_ Te0 x) 8)) 0xff000000 =? Z.shiftl (S_ x) 24) &&
  (Z.land (at_ Te0 x) 0x00ff0000 =? Z.shiftl (S_ x) 16) &&
  (Z.land (at_ Te0 x) 0x0000ff00 =? Z.shiftl (S_ x) 8) && (at_ Td4s (S_ x) =? x).

Lemma table_laws : all_bytes table_law = true.
Proof. vm_compute. reflexivity. Qed.

Lemma table_facts x : is_byte x ->
  imc (at_ Te0 x) = Z.shiftl (S_ x) 24 /\ imc (rotr (at_ Te0 x) 8) = Z.shiftl (S_ x) 16 /\
  imc (rotr (at_ Te0 x) 16) = Z.shiftl (S_ x) 8 /\ imc (rotr (at_ Te0 x) 24) = S_ x /\
  Z.land (u32 (Z.shiftl (at_ Te0 x) 8)) 0xff000000 = Z.shiftl (S_ x) 24 /\
  Z.land (at_ Te0 x) 0x00ff0000 = Z.shiftl (S_ x) 16 /\
  Z.land (at_ Te0 x) 0x0000ff00 = Z.shiftl (S_ x) 8 /\ at_ Td4s (S_ x) = x.
Proof.
  intros Hx. pose proof (all_bytes_spec _ x table_laws Hx) as H. unfold table_law in H.
  rewrite !andb_true_iff, !Z.eqb_eq in H. tauto.
Qed.

(** ** Rounds *)

(** The substituted and shifted words. *)
Definition sub_shift (s : words) : words :=
  let b w n := S_ (byte_of w n) in
  W4 (pack (b (w0 s) 24) (b (w1 s) 16) (b (w2 s) 8) (b (w3 s) 0))
     (pack (b (w1 s) 24) (b (w2 s) 16) (b (w3 s) 8) (b (w0 s) 0))
     (pack (b (w2 s) 24) (b (w3 s) 16) (b (w0 s) 8) (b (w1 s) 0))
     (pack (b (w3 s) 24) (b (w0 s) 16) (b (w1 s) 8) (b (w2 s) 0)).
Definition imc_words (s : words) : words := W4 (imc (w0 s)) (imc (w1 s)) (imc (w2 s)) (imc (w3 s)).

Lemma imc_column a b c d k :
  imc (Z.lxor (xor4 (TE0 a) (TE1 b) (TE2 c) (TE3 d)) k) =
  Z.lxor (pack (S_ (byte_of a 24)) (S_ (byte_of b 16)) (S_ (byte_of c 8)) (S_ (byte_of d 0))) (imc k).
Proof.
  rewrite imc_xor. unfold xor4 at 1. rewrite !imc_xor. unfold pack, xor4, TE0, TE1, TE2, TE3.
  destruct (table_facts (byte_of a 24) (byte_of_byte _ _)) as (-> & _).
  destruct (table_facts (byte_of b 16) (byte_of_byte _ _)) as (_ & -> & _).
  destruct (table_facts (byte_of c 8) (byte_of_byte _ _)) as (_ & _ & -> & _).
  by destruct (table_facts (byte_of d 0) (byte_of_byte _ _)) as (_ & _ & _ & -> & _).
Qed.

Lemma imc_enc_round r s : imc_words (enc_round r s) = xor_words (sub_shift s) (imc_words r).
Proof. unfold imc_words, enc_round, xor_words. cbn [w0 w1 w2 w3]. by rewrite !imc_column. Qed.

Lemma byte_id b : is_byte b -> byte_of b 0 = b.
Proof. intros Hb. unfold byte_of. rewrite Z.shiftr_0_r, land_255. by apply Z.mod_small. Qed.

Lemma imc_dec_round r s : dec_round r (sub_shift s) = xor_words (imc_words s) r.
Proof.
  unfold dec_round, xor_words, imc_words, sub_shift. cbn [w0 w1 w2 w3].
  unfold TD0, TD1, TD2, TD3, imc, d0, d1, d2, d3, TD0_, TD1_, TD2_, TD3_.
  repeat match goal with |- context [byte_of (pack ?a ?b ?c ?d) ?n] =>
    let H := fresh in
    destruct (byte_of_pack a b c d (S_byte _) (S_byte _) (S_byte _) (S_byte _)) as (H0 & H1 & H2 & H3);
    rewrite ?H0, ?H1, ?H2, ?H3; clear H0 H1 H2 H3 end.
  change TE4 with S_. rewrite !(byte_id (S_ _)) by apply S_byte. done.
Qed.

(** One round of decryption takes one round of encryption back. *)
Lemma xor_words_cancel s k : xor_words (xor_words s k) k = s.
Proof.
  destruct s as [a b c d], k. unfold xor_words. cbn.
  by rewrite !Z.lxor_assoc, !Z.lxor_nilpotent, !Z.lxor_0_r.
Qed.

Lemma round_back r s : dec_round (imc_words r) (sub_shift (enc_round r s)) = sub_shift s.
Proof. by rewrite imc_dec_round, imc_enc_round, xor_words_cancel. Qed.

(** ** The key schedules *)

Definition in_range (w : Z) : Prop := 0 <= w < 2 ^ 32.

Lemma in_range_mod w : in_range (w mod 2 ^ 32).
Proof. apply Z.mod_pos_bound. done. Qed.

Lemma in_range_xor a b : in_range a -> in_range b -> in_range (Z.lxor a b).
Proof.
  unfold in_range. intros Ha Hb.
  rewrite <-(Z.mod_small a (2 ^ 32)), <-(Z.mod_small b (2 ^ 32)), <-!Z.land_ones by done.
  assert (Z.lxor (Z.land a (Z.ones 32)) (Z.land b (Z.ones 32)) = Z.land (Z.lxor a b) (Z.ones 32)) as ->.
  { apply Z.bits_inj'. intros i Hi. rewrite Z.lxor_spec, !Z.land_spec, Z.lxor_spec.
    by destruct (Z.testbit a i), (Z.testbit b i), (Z.testbit (Z.ones 32) i). }
  rewrite Z.land_ones by done. apply in_range_mod.
Qed.

Lemma in_range_mask a m : in_range m -> in_range (Z.land a m).
Proof.
  unfold in_range. intros Hm. split; [apply Z.land_nonneg; lia|].
  destruct (decide (Z.land a m = 0)) as [->|]; [lia|].
  assert (0 <= Z.land a m) by (apply Z.land_nonneg; lia).
  apply Z.log2_lt_pow2; [lia|].
  destruct (decide (m = 0)) as [->|]; [by rewrite Z.land_0_r in *|].
  assert (Z.log2 m < 32) by (apply Z.log2_lt_pow2; lia).
  destruct (Z.lt_ge_cases (Z.log2 (Z.land a m)) 32) as [|Hge]; [done|].
  pose proof (Z.bit_log2 (Z.land a m) ltac:(lia)) as Hb. rewrite Z.land_spec in Hb.
  rewrite (Z.bits_above_log2 m) in Hb by lia. by rewrite andb_false_r in Hb.
Qed.

Lemma in_range_byte b n : is_byte b -> n = 0 \/ n = 8 \/ n = 16 \/ n = 24 -> in_range (Z.shiftl b n).
Proof.
  unfold in_range, is_byte. intros Hb Hn. rewrite Z.shiftl_mul_pow2 by lia.
  change (2 ^ 32) with 4294967296. destruct Hn as [->|[->|[->| ->]]]; lia.
Qed.

Lemma in_range_xor4 a b c d : in_range a -> in_range b -> in_range c -> in_range d ->
  in_range (xor4 a b c d).
Proof. intros. unfold xor4. auto using in_range_xor. Qed.

Definition words_in_range (s : words) : Prop :=
  in_range (w0 s) /\ in_range (w1 s) /\ in_range (w2 s) /\ in_range (w3 s).

Lemma nth_byte l i : bytes l -> is_byte (nth i l 0).
Proof.
  intros Hl. destruct (nth_in_or_default i l 0) as [Hin| ->]; [|done].
  by eapply List.Forall_forall in Hl.
Qed.

Lemma get_words_in_range l : bytes l -> words_in_range (get_words l).
Proof.
  intros Hl. assert (forall i, in_range (GETU32 l i)) as H; [|by repeat split; apply H].
  intros i. unfold GETU32. apply in_range_xor4; [apply in_range_byte; [by apply nth_byte|tauto]..|].
  pose proof (nth_byte l (i + 3) Hl) as [? ?]. unfold in_range. lia.
Qed.

Lemma RCON_in_range i : in_range (RCON i).
Proof.
  apply in_range_byte; [|tauto]. apply nth_byte. by repeat constructor.
Qed.

Lemma next_round_key_in_range i k : words_in_range k -> words_in_range (next_round_key i k).
Proof.
  intros (H0 & H1 & H2 & H3). unfold next_round_key. cbv zeta.
  assert (in_range (xor4 (TE421 (w3 k)) (TE432 (w3 k)) (TE443 (w3 k)) (TE414 (w3 k)))) as Hx
    by (apply in_range_xor4; by apply in_range_mask).
  pose proof (RCON_in_range i). repeat split; cbn [w0 w1 w2 w3]; repeat (assumption || apply in_range_xor).
Qed.

Lemma expand_key_facts n i k : words_in_range k ->
  length (expand_key n i k) = (4 * S n)%nat /\ Forall in_range (expand_key n i k) /\
  round_key (expand_key n i k) 0 = k.
Proof.
  revert i k. induction n as [|n IH]; intros i k Hk; cbn [expand_key].
  all: assert (Forall in_range [w0 k; w1 k; w2 k; w3 k]) as Hf
    by (destruct Hk as (? & ? & ? & ?); repeat (apply Forall_cons_2; [done|]); by apply Forall_nil_2).
  - rewrite app_nil_r. split_and!; [done|done|by destruct k].
  - destruct (IH (S i) _ (next_round_key_in_range i k Hk)) as (Hl & Hf' & _).
    split_and!; [rewrite length_app, Hl; cbn; lia|by apply Forall_app_2|by destruct k].
Qed.

(** The round keys of decryption. *)
Definition map_words (f : Z -> Z) (s : words) : words := W4 (f (w0 s)) (f (w1 s)) (f (w2 s)) (f (w3 s)).

Lemma schedule_order (f : Z -> Z) rk : length rk = 44%nat ->
  let rk' := invert_order 6 0 40 rk in
  let dk := take 4 rk' ++ map f (take 36 (drop 4 rk')) ++ drop 40 rk' in
  round_key dk 0 = round_key rk 40 /\ round_key dk 40 = round_key rk 0 /\
  forall i, (0 < i < 10)%nat -> round_key dk (4 * i) = map_words f (round_key rk (40 - 4 * i)).
Proof.
  intros Hl. do 44 (destruct rk as [|? rk]; [discriminate Hl|]).
  destruct rk; [|discriminate Hl]. cbv zeta.
  split; [reflexivity|]. split; [reflexivity|]. intros i Hi.
  assert (i = 1 \/ i = 2 \/ i = 3 \/ i = 4 \/ i = 5 \/ i = 6 \/ i = 7 \/ i = 8 \/ i = 9)%nat as Hc by lia.
  clear Hi. repeat destruct Hc as [->|Hc]; [reflexivity..|subst i; reflexivity].
Qed.

Lemma round_key_in_range rk i : Forall in_range rk -> words_in_range (round_key rk i).
Proof.
  intros H. assert (forall j, in_range (nth j rk 0)) as Hn; [|by repeat split; apply Hn].
  intros j. destruct (nth_in_or_default j rk 0) as [Hin| ->]; [|done].
  by eapply List.Forall_forall in H.
Qed.

Lemma map_inv_mix_column s : words_in_range s -> map_words inv_mix_column s = imc_words s.
Proof.
  intros (? & ? & ? & ?). unfold map_words, imc_words. by rewrite !inv_mix_column_eq.
Qed.

(** ** The cipher *)

Lemma nth_drop_Z (l : list Z) n i : nth i (drop n l) 0 = nth (n + i) l 0.
Proof. by rewrite !nth_lookup, lookup_drop. Qed.

Lemma round_key_drop rk n i : round_key (drop n rk) i = round_key rk (n + i).
Proof. unfold round_key. by rewrite !nth_drop_Z, !Nat.add_assoc. Qed.

(** The state after [i] rounds. *)
Fixpoint after (f : words -> words -> words) (rk : list Z) (s : words) (i : nat) : words :=
  match i with O => s | S j => f (round_key rk (4 * i)) (after f rk s j) end.

(** Both loops, round by round. *)
Lemma rounds_eq f rk s : rounds f 5 rk s = (after f rk s 9, drop 40 rk).
Proof. cbn [rounds]. rewrite !drop_drop, !round_key_drop. reflexivity. Qed.

Lemma last_round_enc a b c d : xor4 (TE41 a) (TE42 b) (TE43 c) (TE44 d) =
  pack (S_ (byte_of a 24)) (S_ (byte_of b 16)) (S_ (byte_of c 8)) (S_ (byte_of d 0)).
Proof.
  unfold pack, TE41, TE42, TE43, TE44. fold (S_ (byte_of d 0)).
  destruct (table_facts (byte_of a 24) (byte_of_byte _ _)) as (_ & _ & _ & _ & -> & _).
  destruct (table_facts (byte_of b 16) (byte_of_byte _ _)) as (_ & _ & _ & _ & _ & -> & _).
  by destruct (table_facts (byte_of c 8) (byte_of_byte _ _)) as (_ & _ & _ & _ & _ & _ & -> & _).
Qed.

(** The last round of decryption takes the substitution back. *)
Lemma last_round_dec s : words_in_range s ->
  let t := sub_shift s in
  W4 (xor4 (TD41 (w0 t)) (TD42 (w3 t)) (TD43 (w2 t)) (TD44 (w1 t)))
     (xor4 (TD41 (w1 t)) (TD42 (w0 t)) (TD43 (w3 t)) (TD44 (w2 t)))
     (xor4 (TD41 (w2 t)) (TD42 (w1 t)) (TD43 (w0 t)) (TD44 (w3 t)))
     (xor4 (TD41 (w3 t)) (TD42 (w2 t)) (TD43 (w1 t)) (TD44 (w0 t))) = s.
Proof.
  intros (H0 & H1 & H2 & H3). unfold sub_shift. cbn [w0 w1 w2 w3]. unfold TD41, TD42, TD43, TD44.
  repeat match goal with |- context [byte_of (pack ?a ?b ?c ?d) ?n] =>
    let H := fresh in
    destruct (byte_of_pack a b c d (S_byte _) (S_byte _) (S_byte _) (S_byte _)) as (E0 & E1 & E2 & E3);
    rewrite ?E0, ?E1, ?E2, ?E3; clear E0 E1 E2 E3 end.
  assert (forall w n, at_ Td4s (S_ (byte_of w n)) = byte_of w n) as E
    by (intros w n; apply (table_facts _ (byte_of_byte w n))).
  rewrite !E.
  change (forall w, xor4 (Z.shiftl (byte_of w 24) 24) (Z.shiftl (byte_of w 16) 16)
    (Z.shiftl (byte_of w 8) 8) (byte_of w 0) = w) in E || idtac.
  assert (forall w, in_range w -> xor4 (Z.shiftl (byte_of w 24) 24) (Z.shiftl (byte_of w 16) 16)
    (Z.shiftl (byte_of w 8) 8) (byte_of w 0) = w) as E' by exact pack_byte_of.
  rewrite !E' by done. by destruct s.
Qed.

(** Words and octets. *)
Lemma GETU32_PUTU32 w : in_range w -> forall p q, GETU32 (p ++ PUTU32 w ++ q) (length p) = w.
Proof.
  intros Hw p q. unfold GETU32.
  assert (forall k, nth (length p + k) (p ++ PUTU32 w ++ q) 0 = nth k (PUTU32 w ++ q) 0) as E.
  { intros k. by rewrite app_nth2_plus. }
  rewrite <-(Nat.add_0_r (length p)) at 1. rewrite !E. cbn.
  rewrite <-(pack_byte_of w Hw) at 5. unfold pack, byte_of, u8. by rewrite !land_255, Z.shiftr_0_r.
Qed.

Lemma get_put_words s : words_in_range s -> get_words (put_words s) = s.
Proof.
  intros (H0 & H1 & H2 & H3). unfold get_words, put_words.
  pose proof (GETU32_PUTU32 _ H0 [] (PUTU32 (w1 s) ++ PUTU32 (w2 s) ++ PUTU32 (w3 s))) as E0.
  pose proof (GETU32_PUTU32 _ H1 (PUTU32 (w0 s)) (PUTU32 (w2 s) ++ PUTU32 (w3 s))) as E1.
  pose proof (GETU32_PUTU32 _ H2 (PUTU32 (w0 s) ++ PUTU32 (w1 s)) (PUTU32 (w3 s))) as E2.
  pose proof (GETU32_PUTU32 _ H3 (PUTU32 (w0 s) ++ PUTU32 (w1 s) ++ PUTU32 (w2 s)) []) as E3.
  cbn [length] in E0. change (length (PUTU32 (w0 s))) with 4%nat in E1.
  change (length (PUTU32 (w0 s) ++ PUTU32 (w1 s))) with 8%nat in E2.
  change (length (PUTU32 (w0 s) ++ PUTU32 (w1 s) ++ PUTU32 (w2 s))) with 12%nat in E3.
  rewrite <-!app_assoc, ?app_nil_r in *. cbn [app] in E0.
  rewrite E0, E1, E2, E3. by destruct s.
Qed.

Lemma PUTU32_GETU32 pt i : bytes pt ->
  PUTU32 (GETU32 pt i) = [nth i pt 0; nth (i + 1) pt 0; nth (i + 2) pt 0; nth (i + 3) pt 0].
Proof.
  intros Hb. destruct (byte_of_pack _ _ _ _ (nth_byte pt i Hb) (nth_byte pt (i + 1) Hb)
    (nth_byte pt (i + 2) Hb) (nth_byte pt (i + 3) Hb)) as (E0 & E1 & E2 & E3).
  fold (GETU32 pt i) in *. change (pack _ _ _ _) with (GETU32 pt i) in *.
  unfold byte_of in *. rewrite land_255, ?Z.shiftr_0_r in *. unfold PUTU32, u8.
  by rewrite E0, E1, E2, E3.
Qed.

Lemma put_get_words pt : bytes pt -> length pt = 16%nat -> put_words (get_words pt) = pt.
Proof.
  intros Hb Hl. unfold put_words, get_words. cbn [w0 w1 w2 w3]. rewrite !PUTU32_GETU32 by done.
  do 16 (destruct pt as [|? pt]; [discriminate Hl|]). by destruct pt.
Qed.

Lemma sub_shift_in_range s : words_in_range (sub_shift s).
Proof.
  assert (forall a b c d, is_byte a -> is_byte b -> is_byte c -> is_byte d -> in_range (pack a b c d)) as H.
  { intros. apply in_range_xor4; [apply in_range_byte; tauto..|]. unfold in_range, is_byte in *. lia. }
  repeat split; apply H; apply S_byte.
Qed.

Lemma xor_words_in_range s k : words_in_range s -> words_in_range k -> words_in_range (xor_words s k).
Proof. intros (? & ? & ? & ?) (? & ? & ? & ?). repeat split; cbn; by apply in_range_xor. Qed.

Lemma encrypt_eq rk pt : rijndaelEncrypt rk pt =
  put_words (xor_words
    (sub_shift (after enc_round rk (xor_words (get_words pt) (round_key rk 0)) 9)) (round_key rk 40)).
Proof.
  unfold rijndaelEncrypt. change (Nr / 2)%nat with 5%nat. rewrite rounds_eq.
  set (t := after _ _ _ _). cbv beta iota zeta. by rewrite !last_round_enc, round_key_drop.
Qed.

Lemma decrypt_eq dk ct s : after dec_round dk (xor_words (get_words ct) (round_key dk 0)) 9 = sub_shift s ->
  words_in_range s -> rijndaelDecrypt dk ct = put_words (xor_words s (round_key dk 40)).
Proof.
  intros Ht Hs. unfold rijndaelDecrypt. change (Nr / 2)%nat with 5%nat. rewrite rounds_eq, Ht.
  cbv beta iota zeta. by rewrite last_round_dec, round_key_drop.
Qed.

Lemma schedule_facts key : bytes key ->
  let ek := rijndaelKeySetupEnc key in let dk := rijndaelKeySetupDec key in
  Forall in_range ek /\ round_key dk 0 = round_key ek 40 /\ round_key dk 40 = round_key ek 0 /\
  forall i, (0 < i < 10)%nat -> round_key dk (4 * i) = imc_words (round_key ek (4 * (10 - i))).
Proof.
  intros Hk ek dk.
  destruct (expand_key_facts 10 0 _ (get_words_in_range key Hk)) as (Hl & Hr & _).
  destruct (schedule_order inv_mix_column ek Hl) as (H0 & H40 & Hi).
  split; [done|]. split; [done|]. split; [done|]. intros i Hlt. unfold dk, rijndaelKeySetupDec. fold ek.
  rewrite Hi by exact Hlt.
  rewrite map_inv_mix_column by (apply round_key_in_range; exact Hr).
  replace (40 - 4 * i)%nat with (4 * (10 - i))%nat by lia. reflexivity.
Qed.

Lemma aes_inverse key pt : bytes key -> bytes pt -> length pt = 16%nat ->
  aes_decrypt (rijndaelKeySetupDec key) (aes_encrypt (rijndaelKeySetupEnc key) pt) = pt.
Proof.
  intros Hk Hp Hl. unfold aes_decrypt, aes_encrypt.
  destruct (schedule_facts key Hk) as (Hr & H0 & H40 & Hi).
  set (ek := rijndaelKeySetupEnc key) in *. set (dk := rijndaelKeySetupDec key) in *.
  assert (words_in_range (round_key ek 0)) as Hr0 by by apply round_key_in_range.
  assert (words_in_range (round_key ek 40)) as Hr40 by by apply round_key_in_range.
  assert (words_in_range (xor_words (get_words pt) (round_key ek 0))) as Hs
    by (by apply xor_words_in_range; [apply get_words_in_range|]).
  rewrite encrypt_eq. erewrite decrypt_eq; [|..|exact Hs].
  - rewrite H40, xor_words_cancel. by apply put_get_words.
  - rewrite get_put_words by (apply xor_words_in_range; [apply sub_shift_in_range|done]).
    rewrite H0, xor_words_cancel. cbn [after]. rewrite !Hi by lia. cbn [Nat.sub]. by rewrite !round_back.
Qed.

Lemma put_words_bytes s : bytes (put_words s) /\ length (put_words s) = 16%nat.
Proof. split; [|done]. unfold put_words, PUTU32. repeat (apply Forall_cons_2; [apply u8_byte|]). by apply Forall_nil_2. Qed.

Lemma aes_encrypt_block rk pt : bytes (aes_encrypt rk pt) /\ length (aes_encrypt rk pt) = 16%nat.
Proof. unfold aes_encrypt. rewrite encrypt_eq. apply put_words_bytes. Qed.
Lemma aes_decrypt_block rk ct : bytes (aes_decrypt rk ct) /\ length (aes_decrypt rk ct) = 16%nat.
Proof. unfold aes_decrypt, rijndaelDecrypt. destruct (rounds _ _ _ _). apply put_words_bytes. Qed.

(** C15 ([rijndaelEncrypt], [rijndaelDecrypt], [rijndaelKeySetupDec]): for every key
    and every block, decryption with the decryption key schedule undoes encryption
    with the encryption key schedule, and the ciphertext is a block of octets. *)
Theorem aes_decrypt_encrypt key pt : bytes key -> bytes pt -> length pt = 16%nat ->
  aes_decrypt (rijndaelKeySetupDec key) (aes_encrypt (rijndaelKeySetupEnc key) pt) = pt /\
  bytes (aes_encrypt (rijndaelKeySetupEnc key) pt) /\
  length (aes_encrypt (rijndaelKeySetupEnc key) pt) = 16%nat.
Proof. intros. split; [by apply aes_inverse|]. apply aes_encrypt_block. Qed.

Lemma aes_decrypt_encrypt_witness :
  let key := map Z.of_nat (seq 0 16) in let pt := map (fun i => 17 * Z.of_nat i) (seq 0 16) in
  aes_decrypt (rijndaelKeySetupDec key) (aes_encrypt (rijndaelKeySetupEnc key) pt) = pt /\
  bytes (aes_encrypt (rijndaelKeySetupEnc key) pt) /\
  length (aes_encrypt (rijndaelKeySetupEnc key) pt) = 16%nat.
Proof. intros key pt. apply (aes_decrypt_encrypt key pt); [repeat constructor; done..|done]. Defined.

(** FIPS 197, C.1. *)
Example aes_vector : aes_encrypt (rijndaelKeySetupEnc (map Z.of_nat (seq 0 16))) (map (fun i => 17 * Z.of_nat i) (seq 0 16)) =
  [0x69; 0xc4; 0xe0; 0xd8; 0x6a; 0x7b; 0x04; 0x30; 0xd8; 0xcd; 0xb7; 0x80; 0x70; 0xb4; 0xc5; 0x5a].
Proof. vm_compute. reflexivity. Qed.

(** From here on the cipher is known by its lemmas; evaluation still unfolds it. *)
#[global] Opaque aes_encrypt aes_decrypt rijndaelKeySetupEnc rijndaelKeySetupDec.
