(* ===== verification/AesModes.v ===== *)
(** * crypto/aes-wrap.c, aes-unwrap.c, aes-omac1.c, aes-ctr.c, aes-eax.c,
    aes-cbc.c, aes-encblock.c: the modes of AES-128

    The functions work in place in the code; here they give the value returned and
    what the output buffer holds then.  [os_malloc n] says whether [n] octets can be
    had. *)

From S2P Require Import Prelude Aes.

(** [for (i = 0; i < n; i++) a[i] ^= b[i]] *)
Fixpoint xor_octets (a b : list Z) : list Z :=
  match a, b with
  | x :: a, y :: b => Z.lxor x y :: xor_octets a b
  | _, _ => a
  end.

Section modes.
Context (os_malloc : Z -> bool).

(** ** aes-wrap.c, aes-unwrap.c *)

(** [a[7] ^= n * j + i] *)
Definition xor_counter (a : list Z) (t : Z) : list Z := take 7 a ++ [u8 (Z.lxor (nth 7 a 0) t)].

(** One pass of the inner loop: [r] walks over the blocks, of which [k] are left
    and [i] is the next. *)
Fixpoint wrap_pass (ctx : list Z) (n j i : Z) (k : nat) (a r : list Z) : list Z * list Z :=
  match k with
  | O => (a, [])
  | S k =>
      let b := aes_encrypt ctx (a ++ take 8 r) in
      let a := xor_counter (take 8 b) (n * j + i) in
      let '(a, rest) := wrap_pass ctx n j (i + 1) k a (drop 8 r) in
      (a, drop 8 b ++ rest)
  end.
(** [for (j = 0; j <= 5; j++)]; [m] turns are left. *)
Fixpoint wrap_loop (ctx : list Z) (n : Z) (m : nat) (j : Z) (a r : list Z) : list Z * list Z :=
  match m with
  | O => (a, r)
  | S m => let '(a, r) := wrap_pass ctx n j 1 (Z.to_nat n) a r in wrap_loop ctx n m (j + 1) a r
  end.
Definition aes_wrap (kek : list Z) (n : Z) (plain : list Z) : Z * list Z :=
  let a := replicate 8 0xa6 in
  let r := take (Z.to_nat (8 * n)) plain in
  match aes_encrypt_init os_malloc kek 16 with
  | None => (-1, a ++ r)
  | Some ctx => let '(a, r) := wrap_loop ctx n 6 0 a r in (0, a ++ r)
  end.

(** [r] walks back from the last block: those behind the first come first. *)
Fixpoint unwrap_pass (ctx : list Z) (n j i : Z) (k : nat) (a r : list Z) : list Z * list Z :=
  match k with
  | O => (a, [])
  | S k =>
      let '(a, rest) := unwrap_pass ctx n j (i + 1) k a (drop 8 r) in
      let b := aes_decrypt ctx (xor_counter a (n * j + i) ++ take 8 r) in
      (take 8 b, drop 8 b ++ rest)
  end.
(** [for (j = 5; j >= 0; j--)] *)
Fixpoint unwrap_loop (ctx : list Z) (n : Z) (m : nat) (a r : list Z) : list Z * list Z :=
  match m with
  | O => (a, r)
  | S j => let '(a, r) := unwrap_pass ctx n (Z.of_nat j) 1 (Z.to_nat n) a r in unwrap_loop ctx n j a r
  end.
Definition aes_unwrap (kek : list Z) (n : Z) (cipher : list Z) : Z * list Z :=
  let a := take 8 cipher in
  let r := take (Z.to_nat (8 * n)) (drop 8 cipher) in
  match aes_decrypt_init os_malloc kek 16 with
  | None => (-1, r)
  | Some ctx =>
      let '(a, r) := unwrap_loop ctx n 6 a r in
      (if forallb (fun x => x =? 0xa6) a then 0 else -1, r)
  end.

(** ** aes-omac1.c *)

(** [pad[i] = (pad[i] << 1) | (pad[i + 1] >> 7)] *)
Fixpoint shift_left (pad : list Z) : list Z :=
  match pad with
  | [] => []
  | x :: pad =>
      match pad with
      | [] => [u8 (Z.shiftl x 1)]
      | y :: _ => u8 (Z.lor (Z.shiftl x 1) (Z.shiftr y 7)) :: shift_left pad
      end
  end.
Definition gf_mulx (pad : list Z) : list Z :=
  let carry := Z.land (nth 0 pad 0) 0x80 in
  let pad := shift_left pad in
  if negb (carry =? 0) then <[15%nat := Z.lxor (nth 15 pad 0) 0x87]> pad else pad.

(** The data areas that are left, the first one from [pos] on.  [*pos++], and the
    next area when this one is at its end; behind the last area [addr[e]] is not an
    element of the vector, and the pointer read there is not to be followed. *)
Definition next_octet (v : list (list Z)) : res (Z * list (list Z)) :=
  match v with
  | (x :: pos) :: rest => Ok (x, match pos with [] => rest | _ => pos :: rest end)
  | _ => Fault OutOfBounds
  end.
(** [for (i = 0; i < k; i++) cbc[i] ^= *pos++] *)
Fixpoint xor_next (k : nat) (cbc : list Z) (v : list (list Z)) : res (list Z * list (list Z)) :=
  match k, cbc with
  | S k, c :: cbc =>
      '(x, v) ← next_octet v;
      '(cbc, v) ← xor_next k cbc v;
      mret (Z.lxor c x :: cbc, v)
  | _, _ => mret (cbc, v)
  end.
(** [while (left >= AES_BLOCK_SIZE)]: a turn takes a block away, so [left] turns
    are enough. *)
Fixpoint omac_blocks (fuel : nat) (ctx : list Z) (left_ : nat) (cbc : list Z) (v : list (list Z))
    : res (list Z * nat * list (list Z)) :=
  if decide (AES_BLOCK_SIZE <= left_)%nat then
    match fuel with
    | O => Fault OutOfFuel
    | S fuel =>
        '(cbc, v) ← xor_next AES_BLOCK_SIZE cbc v;
        let cbc := if decide (AES_BLOCK_SIZE < left_)%nat then aes_encrypt ctx cbc else cbc in
        omac_blocks fuel ctx (left_ - AES_BLOCK_SIZE) cbc v
    end
  else mret (cbc, left_, v).

Definition omac1_aes_128_vector (key : list Z) (addr : list (list Z)) : res (Z * list Z) :=
  match aes_encrypt_init os_malloc key 16 with
  | None => mret (-1, [])
  | Some ctx =>
      let cbc := replicate AES_BLOCK_SIZE 0 in
      let total_len := length (concat addr) in
      '(cbc, left_, v) ← omac_blocks total_len ctx total_len cbc addr;
      let pad := aes_encrypt ctx (replicate AES_BLOCK_SIZE 0) in
      let pad := gf_mulx pad in
      '(cbc, pad) ← if negb (Nat.eqb left_ 0) || Nat.eqb total_len 0 then
                      '(cbc, _) ← xor_next left_ cbc v;
                      let cbc := <[left_ := Z.lxor (nth left_ cbc 0) 0x80]> cbc in
                      mret (cbc, gf_mulx pad)
                    else mret (cbc, pad);
      mret (0, aes_encrypt ctx (xor_octets pad cbc))
  end.
Definition omac1_aes_128 (key data : list Z) : res (Z * list Z) := omac1_aes_128_vector key [data].

(** ** aes-encblock.c *)
Definition aes_128_encrypt_block (key block : list Z) : Z * list Z :=
  match aes_encrypt_init os_malloc key 16 with
  | None => (-1, [])
  | Some ctx => (0, aes_encrypt ctx block)
  end.

(** ** aes-ctr.c *)

(** From the last octet on, up to the first that does not become 0; [true]: all
    did. *)
Fixpoint count_up (counter : list Z) : bool * list Z :=
  match counter with
  | [] => (true, [])
  | x :: l =>
      let '(carry, l) := count_up l in
      if carry : bool then (u8 (x + 1) =? 0, u8 (x + 1) :: l) else (false, x :: l)
  end.
(** [while (left > 0)]; [n] turns, one for each block that is begun. *)
Fixpoint ctr_loop (n : nat) (ctx counter pos : list Z) : list Z :=
  match n with
  | O => pos
  | S n =>
      let buf := aes_encrypt ctx counter in
      xor_octets (take AES_BLOCK_SIZE pos) buf ++
      ctr_loop n ctx (snd (count_up counter)) (drop AES_BLOCK_SIZE pos)
  end.
Definition blocks_begun (len : nat) : nat := ((len + 15) / 16)%nat.
Definition aes_128_ctr_encrypt (key nonce data : list Z) : Z * list Z :=
  match aes_encrypt_init os_malloc key 16 with
  | None => (-1, data)
  | Some ctx => (0, ctr_loop (blocks_begun (length data)) ctx nonce data)
  end.

(** ** aes-eax.c *)

(** [buf] with [buf[15] = t] and the data behind it. *)
Definition eax_mac (key : list Z) (t : Z) (d : list Z) : res (Z * list Z) :=
  omac1_aes_128 key (replicate 15 0 ++ [t] ++ d).
Definition eax_buf_len (nonce hdr data : list Z) : Z :=
  let buf_len := if zlen data <? zlen nonce then zlen nonce else zlen data in
  (if buf_len <? zlen hdr then zlen hdr else buf_len) + 16.
Definition eax_tag (nonce_mac data_mac hdr_mac : list Z) : list Z :=
  xor_octets (xor_octets nonce_mac data_mac) hdr_mac.

(** The value returned, [data] and [tag]. *)
Definition aes_128_eax_encrypt (key nonce hdr data tag : list Z) : res (Z * list Z * list Z) :=
  if negb (os_malloc (eax_buf_len nonce hdr data)) then mret (-1, data, tag)
  else
    '(r, nonce_mac) ← eax_mac key 0 nonce;
    if negb (r =? 0) then mret (-1, data, tag)
    else
      '(r, hdr_mac) ← eax_mac key 1 hdr;
      if negb (r =? 0) then mret (-1, data, tag)
      else
        let '(r, data) := aes_128_ctr_encrypt key nonce_mac data in
        if negb (r =? 0) then mret (-1, data, tag)
        else
          '(r, data_mac) ← eax_mac key 2 data;
          if negb (r =? 0) then mret (-1, data, tag)
          else mret (0, data, eax_tag nonce_mac data_mac hdr_mac).

Definition aes_128_eax_decrypt (key nonce hdr data tag : list Z) : res (Z * list Z) :=
  if negb (os_malloc (eax_buf_len nonce hdr data)) then mret (-1, data)
  else
    '(r, nonce_mac) ← eax_mac key 0 nonce;
    if negb (r =? 0) then mret (-1, data)
    else
      '(r, hdr_mac) ← eax_mac key 1 hdr;
      if negb (r =? 0) then mret (-1, data)
      else
        '(r, data_mac) ← eax_mac key 2 data;
        if negb (r =? 0) then mret (-1, data)
        else if decide (tag = eax_tag nonce_mac data_mac hdr_mac) then
          mret (aes_128_ctr_encrypt key nonce_mac data)
        else mret (-2, data).

(** ** aes-cbc.c *)
Fixpoint cbc_encrypt_loop (blocks : nat) (ctx cbc pos : list Z) : list Z :=
  match blocks with
  | O => pos
  | S blocks =>
      let cbc := aes_encrypt ctx (xor_octets cbc (take AES_BLOCK_SIZE pos)) in
      cbc ++ cbc_encrypt_loop blocks ctx cbc (drop AES_BLOCK_SIZE pos)
  end.
Definition aes_128_cbc_encrypt (key iv data : list Z) : Z * list Z :=
  match aes_encrypt_init os_malloc key 16 with
  | None => (-1, data)
  | Some ctx => (0, cbc_encrypt_loop (length data / 16) ctx iv data)
  end.
Fixpoint cbc_decrypt_loop (blocks : nat) (ctx cbc pos : list Z) : list Z :=
  match blocks with
  | O => pos
  | S blocks =>
      let tmp := take AES_BLOCK_SIZE pos in
      xor_octets (aes_decrypt ctx tmp) cbc ++
      cbc_decrypt_loop blocks ctx tmp (drop AES_BLOCK_SIZE pos)
  end.
Definition aes_128_cbc_decrypt (key iv data : list Z) : Z * list Z :=
  match aes_decrypt_init os_malloc key 16 with
  | None => (-1, data)
  | Some ctx => (0, cbc_decrypt_loop (length data / 16) ctx iv data)
  end.
End modes.
