(* ===== verification/AesModesProps.v ===== *)
(** * Key wrapping: round trip and standard

    Key unwrapping undoes key wrapping, and wrapping is RFC 3394 as long as its step
    counter fits into an octet. *)

From S2P Require Import Prelude Aes AesProps AesModes.

(** ** Octets *)

Lemma length_xor_octets a b : length (xor_octets a b) = length a.
Proof. revert b. induction a as [|x a IH]; intros [|y b]; cbn; [done..|]. by rewrite IH. Qed.

Lemma xor_octets_twice a b : xor_octets (xor_octets a b) b = a.
Proof.
  revert b. induction a as [|x a IH]; intros [|y b]; cbn; [done..|].
  by rewrite IH, Z.lxor_assoc, Z.lxor_nilpotent, Z.lxor_0_r.
Qed.

Lemma xor_octets_bytes a b : bytes a -> bytes b -> bytes (xor_octets a b).
Proof.
  intros Ha. revert b. induction Ha as [|x a Hx Ha IH]; intros b Hb; destruct Hb as [|y b Hy Hb];
    cbn; constructor; eauto using is_byte_xor.
Qed.

Lemma xor_octets_app a b c d : length a = length b ->
  xor_octets (a ++ c) (b ++ d) = xor_octets a b ++ xor_octets c d.
Proof.
  revert b. induction a as [|x a IH]; intros [|y b] H; [done| |discriminate..|]; try discriminate H.
  cbn. by rewrite IH by (cbn in H; lia).
Qed.

Lemma take_drop_bytes n l : bytes l -> bytes (take n l) /\ bytes (drop n l).
Proof. split; [by apply Forall_take|by apply Forall_drop]. Qed.

(** ** Key wrapping *)

Definition octets (n : nat) (l : list Z) : Prop := bytes l /\ length l = n.

Lemma octets_app m n a b : octets m a -> octets n b -> octets (m + n) (a ++ b).
Proof. intros [? ?] [? ?]. split; [by apply Forall_app_2|]. rewrite length_app. lia. Qed.
Lemma octets_take m n l : octets (m + n) l -> octets m (take m l).
Proof. intros [? ?]. split; [by apply Forall_take|]. rewrite length_take. lia. Qed.
Lemma octets_drop m n l : octets (m + n) l -> octets n (drop m l).
Proof. intros [? ?]. split; [by apply Forall_drop|]. rewrite length_drop. lia. Qed.
Lemma octets_concat blocks : Forall (octets 8) blocks -> octets (8 * length blocks) (concat blocks).
Proof.
  induction 1 as [|b blocks Hb Hbs IH]; [by split; [apply Forall_nil_2|]|].
  cbn [concat length]. replace (8 * S (length blocks))%nat with (8 + 8 * length blocks)%nat by lia.
  by apply octets_app.
Qed.

Lemma u8_xor_u8 x t : u8 (Z.lxor (u8 (Z.lxor x t)) t) = u8 x.
Proof.
  unfold u8. rewrite <-!land_255. apply Z.bits_inj'. intros i Hi.
  rewrite !Z.land_spec, !Z.lxor_spec, Z.land_spec, Z.lxor_spec.
  by destruct (Z.testbit x i), (Z.testbit t i), (Z.testbit 255 i).
Qed.

Lemma xor_counter_octets a t : octets 8 a -> octets 8 (xor_counter a t).
Proof.
  intros [Hb Hl]. split.
  - apply Forall_app_2; [by apply Forall_take|]. constructor; [apply u8_byte|done].
  - unfold xor_counter. rewrite length_app, length_take, Hl. done.
Qed.

Lemma xor_counter_twice a t : octets 8 a -> xor_counter (xor_counter a t) t = a.
Proof.
  intros [Hb Hl]. do 8 (destruct a as [|? a]; [discriminate Hl|]). destruct a; [|discriminate Hl].
  unfold xor_counter. cbn [take nth app]. rewrite u8_xor_u8.
  repeat (apply Forall_cons in Hb as [? Hb]). by rewrite u8_id.
Qed.

Section wrapping.
Context (ek : list Z).

Lemma wrap_pass_octets n j k i a r : octets 8 a -> octets (8 * k) r ->
  octets 8 (fst (wrap_pass ek n j i k a r)) /\ octets (8 * k) (snd (wrap_pass ek n j i k a r)).
Proof.
  revert i a r. induction k as [|k IH]; intros i a r Ha Hr; cbn [wrap_pass].
  { split; [done|]. split; [by apply Forall_nil_2|done]. }
  replace (8 * S k)%nat with (8 + 8 * k)%nat in * by lia.
  pose proof (aes_encrypt_block ek (a ++ take 8 r)) as Hb. set (b := aes_encrypt _ _) in *.
  destruct (IH (i + 1) (xor_counter (take 8 b) (n * j + i)) (drop 8 r)) as [H1 H2].
  { apply xor_counter_octets. by apply (octets_take 8 8). } { by apply octets_drop. }
  destruct (wrap_pass _ _ _ _ _ _ _) as [a' rest]. cbn [fst snd] in *. split; [done|].
  apply octets_app; [by apply (octets_drop 8 8)|done].
Qed.

Lemma wrap_loop_octets n m j a r : 0 <= n -> octets 8 a -> octets (8 * Z.to_nat n) r ->
  octets 8 (fst (wrap_loop ek n m j a r)) /\ octets (8 * Z.to_nat n) (snd (wrap_loop ek n m j a r)).
Proof.
  intros Hn. revert j a r. induction m as [|m IH]; intros j a r Ha Hr; cbn [wrap_loop]; [done|].
  destruct (wrap_pass_octets n j (Z.to_nat n) 1 a r Ha Hr) as [H1 H2].
  destruct (wrap_pass _ _ _ _ _ _ _) as [a' r']. by apply IH.
Qed.

(** The loop of [aes_wrap] from its end. *)
Lemma wrap_loop_last n m j a r : wrap_loop ek n (S m) j a r =
  (let '(a, r) := wrap_loop ek n m j a r in
   wrap_pass ek n (j + Z.of_nat m) 1 (Z.to_nat n) a r).
Proof.
  revert j a r. induction m as [|m IH]; intros j a r.
  - cbn. rewrite Z.add_0_r. by destruct (wrap_pass _ _ _ _ _ _ _).
  - change (wrap_loop ek n (S (S m)) j a r) with
      (let '(a, r) := wrap_pass ek n j 1 (Z.to_nat n) a r in wrap_loop ek n (S m) (j + 1) a r).
    change (wrap_loop ek n (S m) j a r) with
      (let '(a, r) := wrap_pass ek n j 1 (Z.to_nat n) a r in wrap_loop ek n m (j + 1) a r).
    destruct (wrap_pass _ _ _ _ _ _ _) as [a' r']. rewrite IH.
    destruct (wrap_loop _ _ _ _ _ _). f_equal. lia.
Qed.

End wrapping.

Section wrap.
Context (key : list Z) (Hkey : bytes key).
Let ek := rijndaelKeySetupEnc key.
Let dk := rijndaelKeySetupDec key.

Lemma unwrap_wrap_pass n j k i a r : octets 8 a -> octets (8 * k) r ->
  unwrap_pass dk n j i k (fst (wrap_pass ek n j i k a r)) (snd (wrap_pass ek n j i k a r)) = (a, r).
Proof.
  revert i a r. induction k as [|k IH]; intros i a r Ha Hr; cbn [wrap_pass unwrap_pass].
  { destruct Hr as [_ Hl]. by destruct r. }
  replace (8 * S k)%nat with (8 + 8 * k)%nat in * by lia.
  pose proof (aes_encrypt_block ek (a ++ take 8 r)) as Hb.
  assert (aes_decrypt dk (aes_encrypt ek (a ++ take 8 r)) = a ++ take 8 r) as Hinv.
  { destruct (octets_app 8 8 a (take 8 r) Ha (octets_take 8 _ r Hr)) as [? ?]. by apply aes_inverse. }
  set (b := aes_encrypt _ _) in *.
  assert (octets 8 (take 8 b)) as Hb1 by by apply (octets_take 8 8).
  assert (octets 8 (drop 8 b)) as Hb2 by by apply (octets_drop 8 8).
  specialize (IH (i + 1) (xor_counter (take 8 b) (n * j + i)) (drop 8 r)
    (xor_counter_octets _ _ Hb1) (octets_drop 8 _ r Hr)).
  destruct (wrap_pass _ _ _ _ _ _ _) as [a' rest]. cbn [fst snd] in *.
  rewrite (drop_app_length' (drop 8 b)), (take_app_length' (drop 8 b)) by (symmetry; apply Hb2).
  rewrite IH, xor_counter_twice, take_drop, Hinv by done.
  destruct Ha as [_ Ha]. rewrite take_app_length', drop_app_length' by done. by rewrite take_drop.
Qed.

Lemma unwrap_wrap_loop n m a r : 0 <= n -> octets 8 a -> octets (8 * Z.to_nat n) r ->
  unwrap_loop dk n m (fst (wrap_loop ek n m 0 a r)) (snd (wrap_loop ek n m 0 a r)) = (a, r).
Proof.
  intros Hn Ha Hr. induction m as [|m IH]; [done|]. rewrite wrap_loop_last.
  destruct (wrap_loop_octets ek n m 0 a r Hn Ha Hr) as [H1 H2].
  destruct (wrap_loop ek n m 0 a r) as [a' r'] eqn:E. cbn [fst snd] in *. cbn [unwrap_loop].
  rewrite Z.add_0_l, unwrap_wrap_pass by done. exact IH.
Qed.
End wrap.

(** *** RFC 3394, 2.2.1, with the array [R] of 64-bit blocks and the 64-bit [t] *)
Definition be64 (t : Z) : list Z := map (fun k => u8 (Z.shiftr t k)) [56; 48; 40; 32; 24; 16; 8; 0].
Definition rfc_step (E : list Z -> list Z) (n : nat) (st : list Z * list (list Z)) (ji : nat * nat)
    : list Z * list (list Z) :=
  let '(A, R) := st in let '(j, i) := ji in
  let B := E (A ++ nth (i - 1) R []) in
  (xor_octets (take 8 B) (be64 (Z.of_nat (n * j + i))), <[(i - 1)%nat := drop 8 B]> R).
Definition rfc_pass (E : list Z -> list Z) (n j : nat) (st : list Z * list (list Z)) :=
  foldl (rfc_step E n) st (map (pair j) (seq 1 n)).
Definition rfc3394_wrap (E : list Z -> list Z) (n : nat) (P : list (list Z)) : list Z :=
  let '(A, R) := foldl (fun st j => rfc_pass E n j st) (replicate 8 0xa6, P) (seq 0 6) in A ++ concat R.

Lemma be64_small t : 0 <= t < 256 -> be64 t = replicate 7 0 ++ [t].
Proof.
  intros Ht. unfold be64.
  assert (forall k, 8 <= k -> u8 (Z.shiftr t k) = 0) as H.
  { intros k Hk. rewrite Z.shiftr_div_pow2, Z.div_small; [done| |lia].
    assert (2 ^ 8 <= 2 ^ k) by (apply Z.pow_le_mono_r; lia). lia. }
  cbn [map replicate app]. by rewrite !H, Z.shiftr_0_r, u8_id by (done || lia).
Qed.

Lemma xor_counter_be64 a t : octets 8 a -> 0 <= t < 256 -> xor_counter a t = xor_octets a (be64 t).
Proof.
  intros [Hb Hl] Ht. rewrite be64_small by done.
  do 8 (destruct a as [|? a]; [discriminate Hl|]). destruct a; [|discriminate Hl].
  unfold xor_counter. cbn. rewrite !Z.lxor_0_r. repeat (apply Forall_cons in Hb as [? Hb]).
  by rewrite u8_id by by apply is_byte_xor.
Qed.

Section rfc.
Context (ek : list Z) (n : nat).

Lemma wrap_pass_rfc (j k i : nat) a pre blocks : octets 8 a -> length blocks = k ->
  Forall (octets 8) blocks -> length pre = (i - 1)%nat -> (0 < i)%nat -> (n * j + i + k <= 256)%nat ->
  exists out, length out = k /\ Forall (octets 8) out /\
    foldl (rfc_step (aes_encrypt ek) n) (a, pre ++ blocks) (map (pair j) (seq i k)) =
      (fst (wrap_pass ek (Z.of_nat n) (Z.of_nat j) (Z.of_nat i) k a (concat blocks)), pre ++ out) /\
    snd (wrap_pass ek (Z.of_nat n) (Z.of_nat j) (Z.of_nat i) k a (concat blocks)) = concat out.
Proof.
  revert i a pre blocks. induction k as [|k IH]; intros i a pre blocks Ha Hl Hbl Hpre Hi Ht.
  { destruct blocks; [|discriminate Hl]. exists []. rewrite app_nil_r. by split_and!. }
  destruct blocks as [|r blocks]; [discriminate Hl|]. cbn [seq map foldl wrap_pass concat].
  apply Forall_cons in Hbl as [Hr Hbl]. cbn [length] in Hl.
  rewrite (take_app_length' r), (drop_app_length' r) by (symmetry; apply Hr).
  cbn [rfc_step]. rewrite <-Hpre, (app_nth2 pre), Nat.sub_diag by lia. cbn [nth].
  rewrite (insert_app_r_alt pre) by lia. rewrite Nat.sub_diag. cbn [insert list_insert].
  pose proof (aes_encrypt_block ek (a ++ r)) as Hb. set (b := aes_encrypt _ _) in *.
  assert (octets 8 (take 8 b)) as Hb1 by by apply (octets_take 8 8).
  assert (octets 8 (drop 8 b)) as Hb2 by by apply (octets_drop 8 8).
  rewrite <-xor_counter_be64 by (done || lia). replace (Z.of_nat (n * j + i)) with
    (Z.of_nat n * Z.of_nat j + Z.of_nat i) by lia.
  destruct (IH (S i) (xor_counter (take 8 b) (Z.of_nat n * Z.of_nat j + Z.of_nat i))
    (pre ++ [drop 8 b]) blocks) as (out & Hlo & Hfo & Hfold & Hsnd);
    [by apply xor_counter_octets|lia|done|rewrite length_app; cbn; lia|lia|lia|].
  exists (drop 8 b :: out). replace (Z.of_nat (S i)) with (Z.of_nat i + 1) in * by lia.
  rewrite <-app_assoc in Hfold. cbn [app] in Hfold. rewrite Hfold.
  destruct (wrap_pass _ _ _ _ _ _ _) as [a' rest]. cbn [fst snd] in *. rewrite Hsnd, <-app_assoc.
  split_and!; [cbn; lia|by constructor|done|done].
Qed.

Lemma wrap_loop_rfc (m j : nat) a blocks : octets 8 a -> length blocks = n -> Forall (octets 8) blocks ->
  (n * (j + m - 1) + n < 256)%nat ->
  (let '(A, R) := foldl (fun st j => rfc_pass (aes_encrypt ek) n j st) (a, blocks) (seq j m) in
   A ++ concat R) =
  (let '(a, r) := wrap_loop ek (Z.of_nat n) m (Z.of_nat j) a (concat blocks) in a ++ r).
Proof.
  revert j a blocks. induction m as [|m IH]; intros j a blocks Ha Hl Hb Ht; [done|].
  cbn [seq foldl wrap_loop]. rewrite Nat2Z.id. unfold rfc_pass at 2.
  destruct (wrap_pass_rfc j n 1 a [] blocks Ha Hl Hb) as (out & Hlo & Hfo & Hfold & Hsnd); [done|lia|nia|].
  cbn [app] in Hfold. rewrite Hfold. change (Z.of_nat 1) with 1 in *.
  assert (octets 8 (fst (wrap_pass ek (Z.of_nat n) (Z.of_nat j) 1 n a (concat blocks)))) as Ha'.
  { apply wrap_pass_octets; [done|]. rewrite <-Hl. by apply octets_concat. }
  destruct (wrap_pass _ _ _ _ _ _ _) as [a' rest]. cbn [fst snd] in *. subst rest.
  replace (Z.of_nat j + 1) with (Z.of_nat (S j)) by lia. apply IH; [done..|nia].
Qed.
End rfc.

Section modes.
Context (os_malloc : Z -> bool).

Lemma aes_wrap_unwrap key n plain : bytes key -> 0 <= n -> bytes plain -> zlen plain = 8 * n ->
  os_malloc AES_PRIV_SIZE = true ->
  exists cipher, aes_wrap os_malloc key n plain = (0, cipher) /\ bytes cipher /\ zlen cipher = 8 * (n + 1) /\
    aes_unwrap os_malloc key n cipher = (0, plain).
Proof.
  intros Hk Hn Hp Hl Hm. unfold aes_wrap, aes_unwrap, aes_encrypt_init, aes_decrypt_init. cbn [Z.eqb negb Pos.eqb].
  rewrite Hm, take_ge by (unfold zlen in Hl; lia).
  assert (octets (8 * Z.to_nat n) plain) as Hr by (split; [done|]; unfold zlen in Hl; lia).
  assert (octets 8 (replicate 8 0xa6)) as Ha by (split; [by apply Forall_replicate|done]).
  destruct (wrap_loop_octets (rijndaelKeySetupEnc key) n 6 0 _ _ Hn Ha Hr) as [[Hb1 Hl1] [Hb2 Hl2]].
  pose proof (unwrap_wrap_loop key Hk n 6 _ _ Hn Ha Hr) as Hinv.
  destruct (wrap_loop _ _ _ _ _ _) as [a r]. cbn [fst snd] in *.
  exists (a ++ r). split_and!; [done|by apply Forall_app_2|rewrite zlen_app; unfold zlen; lia|].
  rewrite take_app_length', drop_app_length' by done. rewrite take_ge by lia.
  by rewrite Hinv.
Qed.

Lemma aes_wrap_eq_rfc3394 key (n : nat) plain blocks : os_malloc AES_PRIV_SIZE = true -> (n <= 42)%nat ->
  length blocks = n -> Forall (octets 8) blocks -> plain = concat blocks ->
  aes_wrap os_malloc key (Z.of_nat n) plain = (0, rfc3394_wrap (aes_encrypt (rijndaelKeySetupEnc key)) n blocks).
Proof.
  intros Hm Hn Hl Hb ->. unfold aes_wrap, aes_encrypt_init. cbn [Z.eqb negb Pos.eqb]. rewrite Hm.
  unfold rfc3394_wrap.
  assert (octets 8 (replicate 8 0xa6)) as Ha by (split; [by apply Forall_replicate|done]).
  rewrite (wrap_loop_rfc _ n 6 0 _ blocks Ha Hl Hb) by lia. change (Z.of_nat 0) with 0.
  rewrite take_ge.
  - by destruct (wrap_loop _ _ _ _ _ _).
  - destruct (octets_concat blocks Hb) as [_ ->]. lia.
Qed.

(** ** The properties *)

(** (roundtrip): given memory for the key schedule, a key of octets and [8 * n]
    octets of plain text, [aes_wrap] succeeds with [8 * (n + 1)] octets, and
    [aes_unwrap] of them under the same key succeeds with the plain text. *)
Theorem aes_unwrap_wrap key n plain : bytes key -> 0 <= n -> bytes plain -> zlen plain = 8 * n ->
  os_malloc AES_PRIV_SIZE = true ->
  exists cipher, aes_wrap os_malloc key n plain = (0, cipher) /\ bytes cipher /\ zlen cipher = 8 * (n + 1) /\
    aes_unwrap os_malloc key n cipher = (0, plain).
Proof. apply aes_wrap_unwrap. Qed.

(** C18 (equivalence): as long as the step counter [n * j + i] fits into an octet ([n]
    at most 42), [aes_wrap], which works in place on the octets of its output and
    xors the counter into one octet, is the index-based key wrap of RFC 3394, 2.2.1,
    with its array of 64-bit blocks and its 64-bit counter. *)
Theorem aes_wrap_rfc3394 key (n : nat) plain blocks : os_malloc AES_PRIV_SIZE = true -> (n <= 42)%nat ->
  length blocks = n -> Forall (octets 8) blocks -> plain = concat blocks ->
  aes_wrap os_malloc key (Z.of_nat n) plain = (0, rfc3394_wrap (aes_encrypt (rijndaelKeySetupEnc key)) n blocks).
Proof. apply aes_wrap_eq_rfc3394. Qed.
End modes.

(** From 43 blocks on ([6 * 43 = 258]) the counter of the standard reaches the second
    octet, that of the code does not. *)
Example xor_counter_256 : xor_counter (replicate 8 0) 256 <> xor_octets (replicate 8 0) (be64 256).
Proof. vm_compute. discriminate. Qed.

Lemma aes_unwrap_wrap_witness :
  exists cipher, aes_wrap (fun _ => true) (replicate 16 1) 2 (map Z.of_nat (seq 0 16)) = (0, cipher) /\
    bytes cipher /\ zlen cipher = 24 /\
    aes_unwrap (fun _ => true) (replicate 16 1) 2 cipher = (0, map Z.of_nat (seq 0 16)).
Proof.
  apply (aes_unwrap_wrap (fun _ => true) (replicate 16 1) 2 (map Z.of_nat (seq 0 16)));
    [by apply Forall_replicate|done|repeat constructor; done|done|done].
Defined.

Lemma aes_wrap_rfc3394_witness :
  aes_wrap (fun _ => true) (replicate 16 1) 2 (replicate 8 2 ++ replicate 8 3) =
  (0, rfc3394_wrap (aes_encrypt (rijndaelKeySetupEnc (replicate 16 1))) 2 [replicate 8 2; replicate 8 3]).
Proof.
  apply (aes_wrap_rfc3394 (fun _ => true) (replicate 16 1) 2 (replicate 8 2 ++ replicate 8 3)
    [replicate 8 2; replicate 8 3]); [done|lia|done| |done].
  by repeat constructor.
Defined.

(** RFC 3394, 4.1. *)
Example aes_wrap_vector :
  aes_wrap (fun _ => true) (map Z.of_nat (seq 0 16)) 2 (map (fun i => 17 * Z.of_nat i) (seq 0 16)) =
  (0, [0x1f; 0xa6; 0x8b; 0x0a; 0x81; 0x12; 0xb4; 0x47; 0xae; 0xf3; 0x4b; 0xd8; 0xfb; 0x5a; 0x7b; 0x82;
       0x9d; 0x3e; 0x86; 0x23; 0x71; 0xd2; 0xcf; 0xe5]).
Proof. vm_compute. reflexivity. Qed.
