(* ===== verification/AesMac.v ===== *)
(** * The one-key MAC, counter mode, CBC and EAX

    The MAC over a vector of data areas is the CMAC of SP 800-38B of the areas put
    together; counter mode and CBC are undone by their decryption; EAX decryption
    gives back what was encrypted and refuses any other tag. *)

From S2P Require Import Prelude CommonUtils Aes AesProps AesModes AesModesProps.

(** ** The one-key MAC *)

(** SP 800-38B: the subkeys are doubled in the field GF(2^128), the last block is
    masked with one of them, and the message is chained. *)
Definition gf_double (x : Z) : Z :=
  let y := (2 * x) mod 2 ^ 128 in if Z.testbit x 127 then Z.lxor y 0x87 else y.
Fixpoint be_octets (n : nat) (x : Z) : list Z :=
  match n with O => [] | S n => be_octets n (x / 256) ++ [x mod 256] end.
Definition cmac_double (l : list Z) : list Z := be_octets 16 (gf_double (be_value l)).
Fixpoint cmac_chain (E : list Z -> list Z) (blocks : nat) (c m : list Z) : list Z :=
  match blocks with
  | O => c
  | S blocks => cmac_chain E blocks (E (xor_octets c (take 16 m))) (drop 16 m)
  end.
Definition cmac (E : list Z -> list Z) (m : list Z) : list Z :=
  let K1 := cmac_double (E (replicate 16 0)) in
  let K2 := cmac_double K1 in
  let n := ((length m - 1) / 16)%nat in
  let c := cmac_chain E n (replicate 16 0) m in
  let last := drop (16 * n) m in
  E (if decide (length last = 16%nat) then xor_octets K1 (xor_octets c last)
     else xor_octets K2 (xor_octets c (last ++ 0x80 :: replicate (15 - length last) 0))).

Lemma be_octets_value n l : octets n l -> be_octets n (be_value l) = l.
Proof.
  revert l. induction n as [|n IH]; intros l [Hb Hl]; [by destruct l|].
  destruct l as [|b l _] using rev_ind; [discriminate Hl|]. rewrite length_app in Hl. cbn in Hl.
  apply Forall_app in Hb as [Hb Hx]. apply Forall_cons in Hx as [Hx _]. rewrite be_value_snoc. cbn [be_octets].
  unfold is_byte in Hx.
  replace ((be_value l * 256 + b) / 256) with (be_value l) by (rewrite Z.div_add_l, Z.div_small; lia).
  replace ((be_value l * 256 + b) mod 256) with b by (rewrite Z.add_comm, Z.mod_add, Z.mod_small; lia).
  rewrite IH; [done|]. split; [done|lia].
Qed.

Lemma be_value_cons x l : be_value (x :: l) = x * 256 ^ zlen l + be_value l.
Proof. change (x :: l) with ([x] ++ l). rewrite be_value_app. unfold be_value at 1. cbn [foldl]. lia. Qed.

Lemma shift_left_cons x y l :
  shift_left (x :: y :: l) = u8 (Z.lor (Z.shiftl x 1) (Z.shiftr y 7)) :: shift_left (y :: l).
Proof. reflexivity. Qed.

Lemma shift_left_octets l : octets (length l) (shift_left l).
Proof.
  induction l as [|x [|y l] IH]; [by split; [apply Forall_nil_2|]| |rewrite shift_left_cons].
  - split; [|done]. constructor; [apply u8_byte|by apply Forall_nil_2].
  - destruct IH as [Hb Hl]. split; [|exact (f_equal S Hl)]. constructor; [apply u8_byte|done].
Qed.

Lemma shift_left_value l : bytes l -> be_value (shift_left l) = (2 * be_value l) mod 256 ^ zlen l.
Proof.
  induction l as [|x l IH]; intros Hb; [done|]. apply Forall_cons in Hb as [Hx Hb]. unfold is_byte in Hx.
  specialize (IH Hb). pose proof (be_value_bound l Hb) as Hv. rewrite zlen_cons, be_value_cons.
  rewrite Z.pow_add_r by (pose proof (zlen_nonneg l); lia).
  assert (0 < 256 ^ zlen l) as HP by (apply Z.pow_pos_nonneg; [lia|apply zlen_nonneg]).
  destruct l as [|y l].
  - cbn [shift_left]. unfold be_value, u8. cbn [foldl]. rewrite Z.shiftl_mul_pow2 by lia.
    change (256 ^ zlen []) with 1. change (256 ^ 1 * 1) with 256. rewrite Z.mul_0_l, Z.add_0_l. f_equal. lia.
  - rewrite shift_left_cons, be_value_cons. destruct (shift_left_octets (y :: l)) as [_ Hl].
    assert (zlen (shift_left (y :: l)) = zlen (y :: l)) as -> by (unfold zlen; by rewrite Hl).
    rewrite IH. set (P := 256 ^ zlen (y :: l)) in *. set (V := be_value (y :: l)) in *.
    apply Forall_cons in Hb as [Hy Hb]. unfold is_byte in Hy. pose proof (be_value_bound l Hb) as Hv1.
    assert (Z.shiftr y 7 = 2 * V / P) as Hc.
    { subst V. rewrite be_value_cons. subst P. rewrite zlen_cons, Z.pow_add_r by (pose proof (zlen_nonneg l); lia).
      assert (0 < 256 ^ zlen l) by (apply Z.pow_pos_nonneg; [lia|apply zlen_nonneg]).
      rewrite Z.shiftr_div_pow2 by lia. apply (Z.div_unique _ _ _ (2 * ((y mod 128) * 256 ^ zlen l + be_value l)));
        [left; pose proof (Z.mod_pos_bound y 128); nia|].
      pose proof (Z.div_mod y 128). change (2 ^ 7) with 128. nia. }
    assert (0 <= 2 * V / P < 2) as Hc2.
    { split; [apply Z.div_pos; lia|apply Z.div_lt_upper_bound; lia]. }
    rewrite (Z.lor_comm (Z.shiftl x 1)), Hc, Z.lor_comm. unfold u8.
    rewrite lor_shiftl_add by (change (2 ^ 1) with 2; lia). change (2 ^ 1) with 2.
    apply (Z.mod_unique _ _ ((x * 2 + 2 * V / P) / 256));
      [left; pose proof (Z.mod_pos_bound (x * 2 + 2 * V / P) 256); pose proof (Z.mod_pos_bound (2 * V) P); nia|].
    pose proof (Z.div_mod (2 * V) P). pose proof (Z.div_mod (x * 2 + 2 * V / P) 256). change (256 ^ 1) with 256. nia.
Qed.

Lemma byte_lxor V z : is_byte z -> V * 256 + z = Z.lxor (V * 256) z.
Proof.
  intros Hz. apply Z.add_nocarry_lxor. apply Z.bits_inj'. intros i Hi. rewrite Z.land_spec, Z.bits_0.
  change 256 with (2 ^ 8). rewrite <-Z.shiftl_mul_pow2 by lia. destruct (Z.lt_ge_cases i 8).
  - by rewrite Z.shiftl_spec_low.
  - rewrite <-(Z.mod_small z (2 ^ 8)), Z.mod_pow2_bits_high by (unfold is_byte in Hz; lia). apply andb_false_r.
Qed.

Lemma msb_byte x : is_byte x -> negb (Z.land x 0x80 =? 0) = Z.testbit x 7.
Proof.
  intros Hx. assert (forallb (fun x => Bool.eqb (negb (Z.land x 0x80 =? 0)) (Z.testbit x 7))
    (map Z.of_nat (seq 0 256)) = true) as H by by vm_compute.
  rewrite forallb_forall in H. apply Bool.eqb_prop, H, in_map_iff. exists (Z.to_nat x).
  unfold is_byte in Hx. split; [lia|]. apply in_seq. lia.
Qed.

Lemma msb_value l : octets 16 l -> Z.testbit (be_value l) 127 = Z.testbit (nth 0 l 0) 7.
Proof.
  intros [Hb Hl]. destruct l as [|x l]; [discriminate Hl|]. apply Forall_cons in Hb as [Hx Hb].
  rewrite be_value_cons. pose proof (be_value_bound l Hb) as Hv. cbn [nth].
  assert (zlen l = 15) as E by (cbn in Hl; unfold zlen; lia). rewrite E in *.
  change 127 with (7 + 120). rewrite <-Z.shiftr_spec, Z.shiftr_div_pow2 by lia. change (2 ^ 120) with (256 ^ 15).
  by rewrite Z.div_add_l, Z.div_small, Z.add_0_r by lia.
Qed.

Lemma gf_mulx_double l : octets 16 l -> octets 16 (gf_mulx l) /\ gf_mulx l = cmac_double l.
Proof.
  intros Hl. enough (octets 16 (gf_mulx l) /\ be_value (gf_mulx l) = gf_double (be_value l)) as [Ho He].
  { split; [done|]. unfold cmac_double. by rewrite <-He, be_octets_value. }
  pose proof (shift_left_octets l) as Hs. pose proof Hl as [Hb Hn]. rewrite Hn in Hs.
  pose proof (shift_left_value l Hb) as Hv. change (256 ^ zlen l) with (256 ^ Z.of_nat (length l)) in Hv.
  rewrite Hn in Hv. change (256 ^ Z.of_nat 16) with (2 ^ 128) in Hv.
  unfold gf_mulx, gf_double. rewrite msb_value, <-msb_byte by
    (done || (destruct Hl as [Hl _]; destruct l; [done|by apply Forall_cons in Hl as [? _]])).
  destruct (negb _); [|done]. rewrite <-Hv. clear Hv. destruct Hs as [Hsb Hsn].
  destruct (shift_left l) as [|z s _] using rev_ind; [discriminate Hsn|]. rewrite length_app in Hsn. cbn in Hsn.
  assert (length s = 15%nat) as Es by lia. apply Forall_app in Hsb as [Hsb Hz].
  apply Forall_cons in Hz as [Hz _].
  rewrite (insert_app_r_alt s), app_nth2, Es by lia. cbn [Nat.sub nth insert list_insert].
  split; [split; [|rewrite length_app, Es; done]|].
  - apply Forall_app_2; [done|]. constructor; [by apply is_byte_xor|by apply Forall_nil_2].
  - rewrite !be_value_snoc, !byte_lxor by (done || by apply is_byte_xor). symmetry. apply Z.lxor_assoc.
Qed.

(** The areas of a vector are not empty. *)
Definition full (v : list (list Z)) : Prop := Forall (fun d => d <> []) v.

Lemma next_octet_full v : full v -> v <> [] -> exists x v',
  next_octet v = Ok (x, v') /\ full v' /\ concat v = x :: concat v'.
Proof.
  intros Hv Hne. destruct v as [|[|x pos] rest]; [done| |].
  - by apply Forall_cons in Hv as [? _].
  - apply Forall_cons in Hv as [_ Hv]. cbn [next_octet]. destruct pos as [|y pos].
    + by exists x, rest.
    + exists x, ((y :: pos) :: rest). split_and!; [done|by constructor|done].
Qed.

Lemma xor_next_full k cbc v : full v -> (k <= length (concat v))%nat -> (k <= length cbc)%nat ->
  exists v', xor_next k cbc v = Ok (xor_octets cbc (take k (concat v)), v') /\ full v' /\
    concat v' = drop k (concat v).
Proof.
  revert cbc v. induction k as [|k IH]; intros cbc v Hv Hk Hc.
  { exists v. rewrite drop_0. split_and!; [by destruct cbc|done|done]. }
  destruct cbc as [|c cbc]; [cbn in Hc; lia|].
  assert (v <> []) as Hne by (intros ->; cbn in Hk; lia).
  destruct (next_octet_full v Hv Hne) as (x & v1 & Hn & Hv1 & Hc1). cbn [xor_next]. rewrite Hn, Hc1.
  cbn [mbind res_bind]. rewrite Hc1 in Hk. cbn [length] in *.
  destruct (IH cbc v1) as (v2 & -> & Hv2 & Hc2); [done|lia|lia|].
  exists v2. split_and!; [reflexivity|exact Hv2|exact Hc2].
Qed.

Lemma length_aes_encrypt ctx b : length (aes_encrypt ctx b) = 16%nat.
Proof. apply aes_encrypt_block. Qed.

(** The loop leaves the last block, xored already when it is a whole one. *)
Lemma omac_blocks_full fuel ctx left cbc v : full v -> length cbc = 16%nat ->
  length (concat v) = left -> (left <= fuel)%nat ->
  let n := ((left - 1) / 16)%nat in
  let c := cmac_chain (aes_encrypt ctx) n cbc (concat v) in
  let last := drop (16 * n) (concat v) in
  exists v', omac_blocks fuel ctx left cbc v =
    Ok (if decide (length last = 16%nat) then (xor_octets c last, O, v') else (c, length last, v')) /\
    (length last <> 16%nat -> full v' /\ concat v' = last).
Proof.
  revert left cbc v. induction fuel as [|fuel IH]; intros left cbc v Hv Hc Hl Hf; cbv zeta; cbn [omac_blocks].
  { assert (left = O) as -> by lia. destruct (concat v) eqn:E; [|cbn in Hl; lia]. cbn.
    exists v. rewrite E. done. }
  unfold AES_BLOCK_SIZE. destruct (decide (16 <= left)%nat) as [Hge|Hlt].
  - destruct (xor_next_full 16 cbc v Hv ltac:(lia) ltac:(lia)) as (v1 & -> & Hv1 & Hc1).
    cbn [mbind res_bind]. destruct (decide (16 < left)%nat) as [Hgt|].
    + destruct (IH (left - 16)%nat (aes_encrypt ctx (xor_octets cbc (take 16 (concat v)))) v1 Hv1
        (length_aes_encrypt _ _)) as (v2 & Heq & Hv2); [rewrite Hc1, length_drop; lia|lia|].
      assert ((left - 1) / 16 = S ((left - 16 - 1) / 16))%nat as En.
      { replace (left - 1)%nat with (left - 16 - 1 + 1 * 16)%nat by lia. rewrite Nat.div_add by lia. lia. }
      rewrite En. cbn [cmac_chain]. rewrite Hc1, drop_drop in Heq, Hv2.
      replace (16 * S ((left - 16 - 1) / 16))%nat with (16 + 16 * ((left - 16 - 1) / 16))%nat by lia.
      exists v2. split; [exact Heq|exact Hv2].
    + assert (left = 16%nat) as -> by lia. change ((16 - 1) / 16)%nat with 0%nat. cbn [cmac_chain Nat.mul].
      rewrite drop_0. exists v1. rewrite (take_ge (concat v)) by lia.
      destruct (decide (length (concat v) = 16%nat)); [|done].
      split; [by destruct fuel|done].
  - rewrite Nat.div_small by lia. cbn [cmac_chain Nat.mul]. rewrite drop_0.
    destruct (decide (length (concat v) = 16%nat)); [lia|]. exists v. subst left. done.
Qed.

Lemma cmac_rest_short (m : list Z) : length (drop (16 * ((length m - 1) / 16)) m) <> 16%nat ->
  (length (drop (16 * ((length m - 1) / 16)) m) < 16)%nat.
Proof.
  rewrite length_drop. pose proof (Nat.div_mod_eq (length m - 1) 16).
  pose proof (Nat.mod_upper_bound (length m - 1) 16 ltac:(lia)). lia.
Qed.

Lemma length_cmac_chain E n c m : (forall b, length (E b) = 16%nat) -> length c = 16%nat ->
  length (cmac_chain E n c m) = 16%nat.
Proof. intros HE. revert c m. induction n as [|n IH]; intros c m Hc; cbn; [done|]. apply IH, HE. Qed.

(** The vectors that can be read: no area is empty, or there is only one. *)
Definition areas (v : list (list Z)) : Prop := full v \/ v = [[]].

Lemma omac_blocks_areas ctx cbc v : areas v -> length cbc = 16%nat ->
  let m := concat v in
  let n := ((length m - 1) / 16)%nat in
  let c := cmac_chain (aes_encrypt ctx) n cbc m in
  let last := drop (16 * n) m in
  exists v', omac_blocks (length m) ctx (length m) cbc v =
    Ok (if decide (length last = 16%nat) then (xor_octets c last, O, v') else (c, length last, v')) /\
    (length last <> 16%nat -> exists v2, xor_next (length last) c v' = Ok (xor_octets c last, v2)).
Proof.
  intros Hv Hc. cbv zeta. destruct Hv as [Hv| ->].
  - destruct (omac_blocks_full (length (concat v)) ctx (length (concat v)) cbc v Hv Hc eq_refl (le_n _))
      as (v' & -> & Hv'). exists v'. split; [done|]. intros Hl. destruct (Hv' Hl) as [Hf Hc'].
    pose proof (cmac_rest_short _ Hl) as Hs.
    pose proof (length_cmac_chain (aes_encrypt ctx) ((length (concat v) - 1) / 16) cbc (concat v)
      (length_aes_encrypt ctx) Hc) as Hlc.
    set (c := cmac_chain _ _ _ _) in *. set (last := drop _ _) in *.
    destruct (xor_next_full (length last) c v' Hf) as (v2 & Hx & _); [rewrite Hc'; lia|lia|].
    rewrite Hc', take_ge in Hx by lia. by exists v2.
  - exists [[]]. split; [reflexivity|]. intros _. exists [[]]. by destruct cbc.
Qed.

(** The code pads in place. *)
Lemma pad_in_place (c last : list Z) : (length last < length c)%nat ->
  <[length last := Z.lxor (nth (length last) (xor_octets c last) 0) 0x80]> (xor_octets c last) =
  xor_octets c (last ++ 0x80 :: replicate (length c - 1 - length last) 0).
Proof.
  revert last. induction c as [|x c IH]; intros last Hl; [cbn in Hl; lia|]. destruct last as [|y last].
  - cbn. f_equal. rewrite Nat.sub_0_r, Nat.sub_0_r. clear. induction c as [|x c IH]; [done|].
    cbn. by rewrite Z.lxor_0_r, <-IH.
  - cbn [length] in *. specialize (IH last ltac:(lia)). cbn [xor_octets nth insert list_insert app].
    f_equal. etransitivity; [exact IH|]. do 4 f_equal. lia.
Qed.

Section modes.
Context (os_malloc : Z -> bool).

Lemma omac1_areas key addr : os_malloc AES_PRIV_SIZE = true -> areas addr ->
  omac1_aes_128_vector os_malloc key addr = Ok (0, cmac (aes_encrypt (rijndaelKeySetupEnc key)) (concat addr)).
Proof.
  intros Hm Hv. unfold omac1_aes_128_vector, aes_encrypt_init. cbn [Z.eqb negb Pos.eqb]. rewrite Hm.
  set (ctx := rijndaelKeySetupEnc key). set (m := concat addr). unfold cmac. cbv zeta.
  pose proof (omac_blocks_areas ctx (replicate AES_BLOCK_SIZE 0) addr Hv eq_refl) as H.
  cbv zeta in H. fold m in H.
  destruct (gf_mulx_double _ (aes_encrypt_block ctx (replicate 16 0))) as [Hk1 <-].
  destruct (gf_mulx_double _ Hk1) as [_ <-]. set (n := ((length m - 1) / 16)%nat) in *.
  pose proof (length_cmac_chain (aes_encrypt ctx) n (replicate AES_BLOCK_SIZE 0) m (length_aes_encrypt ctx) eq_refl) as Hlc.
  set (c := cmac_chain _ _ _ _) in *. set (last := drop (16 * n) m) in *.
  destruct H as (v' & -> & Hv'). change (replicate AES_BLOCK_SIZE 0) with (replicate 16 0) in *. fold c.
  destruct (decide (length last = 16%nat)) as [El|Nl]; cbn [mbind res_bind].
  - assert (length m <> 0%nat) as Hm0.
    { intros E. subst last. rewrite length_drop in El. lia. }
    apply Nat.eqb_neq in Hm0. rewrite Hm0. reflexivity.
  - pose proof (cmac_rest_short m Nl) as Hs. fold n last in Hs. destruct (Hv' Nl) as [v2 Hx].
    assert (negb (length last =? 0)%nat || (length m =? 0)%nat = true) as ->.
    { destruct (length last =? 0)%nat eqn:E0; [|done]. apply Nat.eqb_eq in E0. apply Nat.eqb_eq. cbn.
      subst last n. rewrite length_drop in E0. pose proof (Nat.div_mod_eq (length m - 1) 16).
      pose proof (Nat.mod_upper_bound (length m - 1) 16 ltac:(lia)). lia. }
    rewrite Hx. cbn [mbind res_bind mret res_ret].
    rewrite pad_in_place by lia. rewrite Hlc. reflexivity.
Qed.

Lemma omac1_one key d : os_malloc AES_PRIV_SIZE = true ->
  omac1_aes_128 os_malloc key d = Ok (0, cmac (aes_encrypt (rijndaelKeySetupEnc key)) d).
Proof.
  intros Hm. unfold omac1_aes_128. rewrite omac1_areas; [by rewrite (app_nil_r d : concat [d] = d)|done|].
  destruct d; [by right|left]. by constructor; [|apply Forall_nil_2].
Qed.

(** ** Counter mode *)

Lemma length_ctr_loop n ctx counter pos : length (ctr_loop n ctx counter pos) = length pos.
Proof.
  revert counter pos. induction n as [|n IH]; intros counter pos; cbn [ctr_loop]; [done|].
  rewrite length_app, length_xor_octets, IH, length_take, length_drop. lia.
Qed.

Lemma ctr_loop_bytes n ctx counter pos : bytes pos -> bytes (ctr_loop n ctx counter pos).
Proof.
  revert counter pos. induction n as [|n IH]; intros counter pos Hp; cbn [ctr_loop]; [done|].
  apply Forall_app_2; [apply xor_octets_bytes; [by apply Forall_take|apply aes_encrypt_block]|].
  apply IH. by apply Forall_drop.
Qed.

Lemma ctr_loop_twice n ctx counter pos : ctr_loop n ctx counter (ctr_loop n ctx counter pos) = pos.
Proof.
  revert counter pos. induction n as [|n IH]; intros counter pos; cbn [ctr_loop]; [done|].
  destruct (Nat.le_gt_cases AES_BLOCK_SIZE (length pos)).
  - rewrite take_app_length', drop_app_length' by (rewrite length_xor_octets, length_take; lia).
    by rewrite xor_octets_twice, IH, take_drop.
  - rewrite (drop_ge pos) by lia.
    assert (forall c, ctr_loop n ctx c [] = []) as Hnil.
    { intros c. apply nil_length_inv. by rewrite length_ctr_loop. }
    rewrite Hnil, app_nil_r, (take_ge pos) by lia. rewrite take_ge, drop_ge by (rewrite length_xor_octets; lia).
    by rewrite Hnil, app_nil_r, xor_octets_twice.
Qed.

Lemma ctr_encrypt key nonce d : os_malloc AES_PRIV_SIZE = true ->
  exists e, aes_128_ctr_encrypt os_malloc key nonce d = (0, e) /\ length e = length d /\ (bytes d -> bytes e) /\
    aes_128_ctr_encrypt os_malloc key nonce e = (0, d).
Proof.
  intros Hm. unfold aes_128_ctr_encrypt, aes_encrypt_init. cbn [Z.eqb negb Pos.eqb]. rewrite Hm.
  eexists. split; [reflexivity|]. split; [apply length_ctr_loop|]. split; [apply ctr_loop_bytes|].
  by rewrite length_ctr_loop, ctr_loop_twice.
Qed.

(** ** CBC *)

Section cbc.
Context (key : list Z) (Hkey : bytes key).
Let ek := rijndaelKeySetupEnc key.
Let dk := rijndaelKeySetupDec key.

Lemma length_cbc_encrypt n ctx cbc pos : length pos = (16 * n)%nat ->
  length (cbc_encrypt_loop n ctx cbc pos) = (16 * n)%nat.
Proof.
  revert cbc pos. induction n as [|n IH]; intros cbc pos Hl; cbn [cbc_encrypt_loop]; [done|].
  rewrite length_app, length_aes_encrypt, IH; [lia|]. rewrite length_drop. unfold AES_BLOCK_SIZE. lia.
Qed.

Lemma cbc_decrypt_encrypt n cbc pos : octets 16 cbc -> octets (16 * n) pos ->
  cbc_decrypt_loop n dk cbc (cbc_encrypt_loop n ek cbc pos) = pos.
Proof.
  revert cbc pos. induction n as [|n IH]; intros cbc pos Hc Hp; cbn [cbc_encrypt_loop cbc_decrypt_loop].
  { done. }
  replace (16 * S n)%nat with (16 + 16 * n)%nat in Hp by lia. unfold AES_BLOCK_SIZE.
  pose proof (octets_take 16 _ _ Hp) as [Hb Hl]. pose proof (octets_drop 16 _ _ Hp) as Hr.
  assert (octets 16 (xor_octets cbc (take 16 pos))) as [Hxb Hxl].
  { destruct Hc. split; [by apply xor_octets_bytes|by rewrite length_xor_octets]. }
  set (b := aes_encrypt ek _). assert (octets 16 b) as Hb16 by apply aes_encrypt_block.
  rewrite take_app_length', drop_app_length' by (symmetry; apply Hb16). rewrite IH by done.
  unfold b, ek, dk. rewrite aes_inverse by done. rewrite <-(take_drop 16 pos) at 3. f_equal.
  destruct Hc as [_ Hcl]. generalize (take 16 pos) cbc Hl Hcl. clear. generalize 16%nat.
  induction n as [|n IH]; intros [|x a] [|y c] Ha Hc; try discriminate; [done|]. cbn.
  cbn in Ha, Hc. rewrite IH by lia. f_equal. rewrite Z.lxor_comm, <-Z.lxor_assoc, Z.lxor_nilpotent. apply Z.lxor_0_l.
Qed.
End cbc.

Lemma cbc_encrypt key iv d : os_malloc AES_PRIV_SIZE = true -> bytes key -> octets 16 iv ->
  octets (16 * (length d / 16)) d ->
  exists e, aes_128_cbc_encrypt os_malloc key iv d = (0, e) /\ length e = length d /\
    aes_128_cbc_decrypt os_malloc key iv e = (0, d).
Proof.
  intros Hm Hk Hiv Hd. unfold aes_128_cbc_encrypt, aes_128_cbc_decrypt, aes_encrypt_init, aes_decrypt_init.
  cbn [Z.eqb negb Pos.eqb]. rewrite Hm. eexists. split; [reflexivity|].
  assert (length (cbc_encrypt_loop (length d / 16) (rijndaelKeySetupEnc key) iv d) = length d) as El.
  { rewrite length_cbc_encrypt by apply Hd. symmetry. apply Hd. }
  split; [exact El|]. by rewrite El, cbc_decrypt_encrypt.
Qed.

(** ** EAX *)

Lemma eax_mac_ok key t d : os_malloc AES_PRIV_SIZE = true -> exists m, eax_mac os_malloc key t d = Ok (0, m).
Proof. intros Hm. eexists. by apply omac1_one. Qed.

Lemma eax_encrypt_decrypt key nonce hdr d tag0 : os_malloc AES_PRIV_SIZE = true ->
  os_malloc (eax_buf_len nonce hdr d) = true ->
  exists e tag, aes_128_eax_encrypt os_malloc key nonce hdr d tag0 = Ok (0, e, tag) /\ length e = length d /\
    aes_128_eax_decrypt os_malloc key nonce hdr e tag = Ok (0, d) /\
    (forall tag', tag' <> tag -> aes_128_eax_decrypt os_malloc key nonce hdr e tag' = Ok (-2, e)).
Proof.
  intros Hm Hb. destruct (eax_mac_ok key 0 nonce Hm) as [nm Hn]. destruct (eax_mac_ok key 1 hdr Hm) as [hm Hh].
  destruct (ctr_encrypt key nm d Hm) as (e & Hc & Hl & _ & Hd). destruct (eax_mac_ok key 2 e Hm) as [dm He].
  assert (eax_buf_len nonce hdr e = eax_buf_len nonce hdr d) as Hbl by (unfold eax_buf_len, zlen; by rewrite Hl).
  exists e, (eax_tag nm dm hm). unfold aes_128_eax_encrypt, aes_128_eax_decrypt. rewrite Hbl, Hb, Hn, Hh.
  cbn [negb mbind res_bind Z.eqb]. rewrite Hc. cbn [negb mbind res_bind Z.eqb]. rewrite He.
  cbn [negb mbind res_bind Z.eqb]. split_and!; [done|done|by rewrite decide_True, Hd by done|].
  intros tag' Ht. by rewrite decide_False.
Qed.

(** ** The properties *)


(** (roundtrip): given memory, EAX encryption succeeds and keeps the length;
    decryption of its output under the same key, nonce, header and tag gives the
    plain data back; under any other tag it answers -2 and leaves the data as they
    are. *)
Theorem eax_roundtrip key nonce hdr d tag0 : os_malloc AES_PRIV_SIZE = true ->
  os_malloc (eax_buf_len nonce hdr d) = true ->
  exists e tag, aes_128_eax_encrypt os_malloc key nonce hdr d tag0 = Ok (0, e, tag) /\ length e = length d /\
    aes_128_eax_decrypt os_malloc key nonce hdr e tag = Ok (0, d) /\
    (forall tag', tag' <> tag -> aes_128_eax_decrypt os_malloc key nonce hdr e tag' = Ok (-2, e)).
Proof. intros Hm Hb. by apply eax_encrypt_decrypt. Qed.
End modes.

(** A vector whose second area is empty: the octet behind it is read. *)
Example omac1_empty_area : omac1_aes_128_vector (fun _ => true) (replicate 16 0) [[1]; []; [2]] = Fault OutOfBounds.
Proof. vm_compute. reflexivity. Qed.


Lemma eax_roundtrip_witness :
  exists e tag, aes_128_eax_encrypt (fun _ => true) (replicate 16 7) [1; 2] [3] [4; 5; 6] [] = Ok (0, e, tag) /\
    length e = 3%nat /\ aes_128_eax_decrypt (fun _ => true) (replicate 16 7) [1; 2] [3] e tag = Ok (0, [4; 5; 6]) /\
    (forall tag', tag' <> tag -> aes_128_eax_decrypt (fun _ => true) (replicate 16 7) [1; 2] [3] e tag' = Ok (-2, e)).
Proof. exact (eax_roundtrip (fun _ => true) (replicate 16 7) [1; 2] [3] [4; 5; 6] [] eq_refl eq_refl). Defined.
