(* ===== verification/Hash.v ===== *)
(** * Hashing 64 octets at a time

    What md5-internal.c, sha1-internal.c and sha256-internal.c have in common: words
    in memory, a 64-octet buffer, and the standards' view of a message, which is
    padded and cut into blocks.  The lemmas say how a message that comes in pieces
    is hashed. *)

From S2P Require Import Prelude.

(** ** Words and memory *)

(** [rol(value, bits)], [w<<s | w>>(32-s)] *)
Definition rol (value bits : Z) : Z := u32 (Z.lor (Z.shiftl value bits) (Z.shiftr value (32 - bits))).
Definition not32 (x : Z) : Z := Z.lxor x 0xffffffff.

(** The [u32] at an address of a little-endian machine, and [WPA_GET_BE32]. *)
Definition load_le32 (l : list Z) : Z :=
  Z.lor (Z.lor (Z.lor (nth 0 l 0) (Z.shiftl (nth 1 l 0) 8)) (Z.shiftl (nth 2 l 0) 16)) (Z.shiftl (nth 3 l 0) 24).
Definition load_be32 (l : list Z) : Z :=
  Z.lor (Z.lor (Z.lor (Z.shiftl (nth 0 l 0) 24) (Z.shiftl (nth 1 l 0) 16)) (Z.shiftl (nth 2 l 0) 8)) (nth 3 l 0).
(** The [n] words at an address. *)
Fixpoint load_words (load : list Z -> Z) (n : nat) (l : list Z) : list Z :=
  match n with O => [] | S n => load (take 4 l) :: load_words load n (drop 4 l) end.

(** [os_memcpy(&buf[j], d, length d)] *)
Definition put_at (buf : list Z) (j : nat) (d : list Z) : list Z := take j buf ++ d ++ drop (j + length d) buf.

Lemma length_put_at buf j d : (j + length d <= length buf)%nat -> length (put_at buf j d) = length buf.
Proof. intros. unfold put_at. rewrite !length_app, length_take, length_drop. lia. Qed.

Lemma take_put_at buf j d : (j + length d <= length buf)%nat ->
  take (j + length d) (put_at buf j d) = take j buf ++ d.
Proof.
  intros. unfold put_at. rewrite app_assoc. apply take_app_length'. rewrite length_app, length_take. lia.
Qed.

Lemma put_at_full buf j d : (j + length d = length buf)%nat -> put_at buf j d = take j buf ++ d.
Proof. intros. unfold put_at. rewrite (drop_ge buf) by lia. by rewrite app_nil_r. Qed.

(** ** Blocks *)

Section blocks.
Context {S : Type} (C : S -> list Z -> S).

(** The state after the whole blocks of [m]. *)
Fixpoint blocks (n : nat) (st : S) (m : list Z) : S :=
  match n with O => st | Datatypes.S n => blocks n (C st (take 64 m)) (drop 64 m) end.
Definition absorb (st : S) (m : list Z) : S := blocks (length m / 64) st m.
(** What is left of [m] behind them. *)
Definition rest (m : list Z) : list Z := drop (64 * (length m / 64)) m.

Lemma absorb_short st m : (length m < 64)%nat -> absorb st m = st.
Proof. intros. unfold absorb. by rewrite Nat.div_small. Qed.
Lemma rest_short m : (length m < 64)%nat -> rest m = m.
Proof. intros. unfold rest. by rewrite Nat.div_small. Qed.

Lemma block_div (b m : list Z) : length b = 64%nat -> (length (b ++ m) / 64 = 1 + length m / 64)%nat.
Proof.
  intros Hb. rewrite length_app, Hb. replace (64 + length m)%nat with (1 * 64 + length m)%nat by lia.
  by rewrite Nat.div_add_l.
Qed.
Lemma absorb_block st b m : length b = 64%nat -> absorb st (b ++ m) = absorb (C st b) m.
Proof.
  intros Hb. unfold absorb. rewrite block_div by done. cbn [Nat.add blocks].
  by rewrite take_app_length', drop_app_length' by done.
Qed.
Lemma absorb_one st b : length b = 64%nat -> absorb st b = C st b.
Proof. intros Hb. by rewrite <-(app_nil_r b) at 1; rewrite absorb_block. Qed.
Lemma rest_block b m : length b = 64%nat -> rest (b ++ m) = rest m.
Proof.
  intros Hb. unfold rest. rewrite block_div by done.
  replace (64 * (1 + length m / 64))%nat with (length b + 64 * (length m / 64))%nat by lia.
  by rewrite drop_app_add.
Qed.

Lemma length_rest m : length (rest m) = (length m mod 64)%nat.
Proof. unfold rest. rewrite length_drop. pose proof (Nat.div_mod_eq (length m) 64). lia. Qed.
Lemma rest_lt m : (length (rest m) < 64)%nat.
Proof. rewrite length_rest. by apply Nat.mod_upper_bound. Qed.

(** A message block by block. *)
Lemma message_ind (P : list Z -> Prop) :
  (forall m, (length m < 64)%nat -> P m) -> (forall b m, length b = 64%nat -> P m -> P (b ++ m)) -> forall m, P m.
Proof.
  intros Hs Hb m. remember (length m) as n eqn:E. revert m E. induction n as [n IH] using lt_wf_ind. intros m ->.
  destruct (Nat.lt_ge_cases (length m) 64); [by apply Hs|]. rewrite <-(take_drop 64 m). apply Hb.
  - rewrite length_take. lia.
  - eapply IH; [|reflexivity]. rewrite length_drop. lia.
Qed.

Lemma absorb_app st m d : absorb st (m ++ d) = absorb (absorb st m) (rest m ++ d).
Proof.
  revert st. induction m as [m Hm|b m Hb IH] using message_ind; intros st.
  - by rewrite (absorb_short st m), rest_short.
  - rewrite <-app_assoc, (absorb_block st b (m ++ d)), (absorb_block st b m), (rest_block b m) by done. apply IH.
Qed.
Lemma rest_app m d : rest (m ++ d) = rest (rest m ++ d).
Proof.
  induction m as [m Hm|b m Hb IH] using message_ind; [by rewrite (rest_short m)|].
  by rewrite <-app_assoc, (rest_block b (m ++ d)), (rest_block b m).
Qed.
End blocks.

(** ** Padding *)

(** A one bit, zeros up to 8 octets short of a block, and the length in bits. *)
Definition md_pad (len8 : Z -> list Z) (m : list Z) : list Z :=
  m ++ 0x80 :: replicate ((119 - length m mod 64) mod 64) 0 ++ len8 ((8 * zlen m) mod 2 ^ 64).
Definition WPA_PUT_BE64 (val : Z) : list Z := map (fun k => u8 (Z.shiftr val k)) [56; 48; 40; 32; 24; 16; 8; 0].
Definition PUT_LE64 (val : Z) : list Z := map (fun k => u8 (Z.shiftr val k)) [0; 8; 16; 24; 32; 40; 48; 56].

Lemma absorb_pad {S} (C : S -> list Z -> S) st len8 m : (forall v, length (len8 v) = 8%nat) ->
  let r := rest m in let l := len8 ((8 * zlen m) mod 2 ^ 64) in
  absorb C st (md_pad len8 m) =
  if decide (length r < 56)%nat then C (absorb C st m) (r ++ 0x80 :: replicate (55 - length r) 0 ++ l)
  else C (C (absorb C st m) (r ++ 0x80 :: replicate (63 - length r) 0)) (replicate 56 0 ++ l).
Proof.
  intros Hl r l. unfold md_pad. fold l. rewrite absorb_app. fold r. pose proof (rest_lt m) as Hr. fold r in Hr.
  rewrite <-length_rest. fold r. specialize (Hl ((8 * zlen m) mod 2 ^ 64)). fold l in Hl.
  destruct (decide _).
  - replace ((119 - length r) mod 64)%nat with (55 - length r)%nat by (apply (Nat.mod_unique _ _ 1); lia).
    apply absorb_one. rewrite length_app. cbn [length].
    rewrite length_app, length_replicate. lia.
  - rewrite Nat.mod_small by lia. replace (119 - length r)%nat with (63 - length r + 56)%nat by lia.
    rewrite replicate_add, <-app_assoc, app_comm_cons, app_assoc.
    rewrite absorb_block by (rewrite length_app; cbn [length]; rewrite length_replicate; lia).
    apply absorb_one. rewrite length_app, length_replicate. lia.
Qed.

(** ** A message that comes in pieces *)

Section pieces.
Context {S : Type} (C : S -> list Z -> S) (init : S).

(** The state and the buffer after the octets [m]. *)
Definition holds (m : list Z) (st : S) (buf : list Z) : Prop :=
  st = absorb C init m /\ length buf = 64%nat /\ take (length (rest m)) buf = rest m.

Lemma holds_nil buf : length buf = 64%nat -> holds [] init buf.
Proof. by intros. Qed.

(** The buffer does not overflow. *)
Lemma holds_fill m st buf d : holds m st buf -> (length (rest m) + length d < 64)%nat ->
  holds (m ++ d) st (put_at buf (length (rest m)) d).
Proof.
  intros (-> & Hl & Hr) Hd. unfold holds. rewrite absorb_app, rest_app.
  assert (length (rest m ++ d) < 64)%nat by (rewrite length_app; lia).
  rewrite (absorb_short C _ (rest m ++ d)), (rest_short (rest m ++ d)) by done. split; [done|].
  rewrite length_put_at by lia. split; [done|]. by rewrite (length_app (rest m)), take_put_at, Hr by lia.
Qed.

(** It gets full; what it holds next does not matter. *)
Lemma holds_flush m st buf d buf' : holds m st buf -> (length (rest m) + length d = 64)%nat -> length buf' = 64%nat ->
  holds (m ++ d) (C st (put_at buf (length (rest m)) d)) buf' /\ rest (m ++ d) = [].
Proof.
  intros (-> & Hl & Hr) Hd Hl'. unfold holds. rewrite absorb_app, rest_app.
  assert (length (rest m ++ d) = 64%nat) as H64 by by rewrite length_app.
  assert (rest (rest m ++ d) = []) as Hn by (by rewrite <-(app_nil_r (rest m ++ d)), rest_block).
  rewrite (absorb_one C _ (rest m ++ d)) by done. rewrite Hn, put_at_full by lia. by rewrite Hr.
Qed.

(** A whole block straight from the data. *)
Lemma holds_block m st buf b buf' : holds m st buf -> rest m = [] -> length b = 64%nat -> length buf' = 64%nat ->
  holds (m ++ b) (C st b) buf' /\ rest (m ++ b) = [].
Proof.
  intros Hh Hr Hb Hl'. pose proof Hh as (_ & Hl & _).
  destruct (holds_flush m st buf b buf' Hh) as [H1 H2]; [rewrite Hr; done|done|].
  rewrite Hr in H1. rewrite put_at_full in H1 by (cbn; lia). by split.
Qed.
End pieces.

(** ** The number of bits, in two words *)

Definition bits_of (c0 c1 n : Z) : Prop := 0 <= c0 < 2 ^ 32 /\ 0 <= c1 < 2 ^ 32 /\ c1 * 2 ^ 32 + c0 = (8 * n) mod 2 ^ 64.

Lemma bits_of_add c0 c1 n len : bits_of c0 c1 n -> 0 <= len < 2 ^ 32 ->
  let s := u32 (Z.shiftl len 3) in let c0' := u32 (c0 + s) in
  bits_of c0' (u32 ((if c0' <? s then u32 (c1 + 1) else c1) + Z.shiftr len 29)) (n + len) /\
  (c0' <? s) = (c0' <? c0).
Proof.
  intros (H0 & H1 & Hv) Hl s c0'. subst s c0'. unfold bits_of, u32. rewrite Z.shiftl_mul_pow2, Z.shiftr_div_pow2 by lia.
  change (2 ^ 3) with 8. change (2 ^ 29) with 536870912. change (2 ^ 32) with 4294967296 in *.
  change (2 ^ 64) with 18446744073709551616 in *.
  pose proof (Z.mod_pos_bound (len * 8) 4294967296 ltac:(lia)).
  set (s := (len * 8) mod 4294967296) in *.
  assert (len * 8 = 4294967296 * (len / 536870912) + s) as Hs by (subst s; zlia).
  set (q := len / 536870912) in *. assert (0 <= q < 8) as Hq by (subst q; zlia).
  assert ((c0 + s) mod 4294967296 = if c0 + s <? 4294967296 then c0 + s else c0 + s - 4294967296) as ->.
  { destruct (Z.ltb_spec (c0 + s) 4294967296); [by apply Z.mod_small; lia|].
    symmetry. apply (Z.mod_unique _ _ 1); lia. }
  replace (8 * (n + len)) with (8 * n + (4294967296 * q + s)) by lia.
  rewrite <-(Z.add_mod_idemp_l (8 * n) _ 18446744073709551616), <-Hv by done. clearbody s q. clear Hs Hv Hl.
  destruct (Z.ltb_spec (c0 + s) 4294967296) as [Hc|Hc].
  - destruct (Z.ltb_spec (c0 + s) s); [lia|]. destruct (Z.ltb_spec (c0 + s) c0); [lia|]. split; [|done]. zlia.
  - destruct (Z.ltb_spec (c0 + s - 4294967296) s); [|lia]. destruct (Z.ltb_spec (c0 + s - 4294967296) c0); [|lia].
    split; [|done]. zlia.
Qed.

(** [(count >> 3) & 63] *)
Lemma bits_octets c0 c1 n : bits_of c0 c1 n -> 0 <= n -> Z.land (Z.shiftr c0 3) 63 = n mod 64.
Proof.
  intros (H0 & H1 & Hv) Hn. rewrite Z.shiftr_div_pow2 by lia. change 63 with (2 ^ 6 - 1).
  rewrite land_ones_mod by lia. change (2 ^ 3) with 8. change (2 ^ 6) with 64.
  change (2 ^ 32) with 4294967296 in *. change (2 ^ 64) with 18446744073709551616 in *. zlia.
Qed.

Lemma length_rest_mod m : Z.of_nat (length (rest m)) = zlen m mod 64.
Proof. rewrite length_rest, Nat2Z.inj_mod. done. Qed.

(** Lengths that do not wrap in the hash functions' [u32]s. *)
Definition fits (d : list Z) : Prop := zlen d + 64 <= 2 ^ 32.

(** ** A buffer that is written from its front *)

Definition starts (buf pre : list Z) : Prop := length buf = 64%nat /\ take (length pre) buf = pre.

Lemma starts_put buf pre d k : starts buf pre -> k = length pre -> (length pre + length d <= 64)%nat ->
  starts (put_at buf k d) (pre ++ d).
Proof.
  intros [Hl Ht] -> Hd. split; [rewrite length_put_at; lia|]. rewrite length_app, take_put_at by lia. by rewrite Ht.
Qed.
Lemma starts_nil buf : length buf = 64%nat -> starts buf [].
Proof. by intros. Qed.
Lemma starts_full buf pre : starts buf pre -> length pre = 64%nat -> buf = pre.
Proof. intros [Hl Ht] Hp. by rewrite Hp, take_ge in Ht by lia. Qed.
Lemma holds_starts {S} (C : S -> list Z -> S) init m st buf :
  holds C init m st buf -> st = absorb C init m /\ starts buf (rest m).
Proof. by intros (-> & Hl & Hr). Qed.
