(* ===== verification/Md5.v ===== *)
(** * crypto/md5-internal.c: MD5

    The context is the record of the code, its buffer included; [md5_vector] starts
    from whatever the stack holds.  The machine is little-endian: [byteReverse] does
    nothing. *)

From S2P Require Import Prelude Hash.

Record MD5Context := { buf : Z * Z * Z * Z; bits0 : Z; bits1 : Z; in_ : list Z }.

Definition F1 (x y z : Z) : Z := Z.lxor z (Z.land x (Z.lxor y z)).
Definition F2 (x y z : Z) : Z := F1 z x y.
Definition F3 (x y z : Z) : Z := Z.lxor (Z.lxor x y) z.
Definition F4 (x y z : Z) : Z := Z.lxor y (Z.lor x (not32 z)).

(** [w += f(x, y, z) + data, w = w<<s | w>>(32-s), w += x] *)
Definition MD5STEP (f : Z -> Z -> Z -> Z) (w x y z data s : Z) : Z :=
  let w := u32 (w + f x y z + data) in
  let w := rol w s in
  u32 (w + x).

(** The calls: the function, the word of [in], the constant, the shift.  Each call's
    four variables are those of the one before moved on by one. *)
Definition md5_steps : list ((Z -> Z -> Z -> Z) * nat * Z * Z) :=
  [(F1, 0%nat, 0xd76aa478, 7); (F1, 1%nat, 0xe8c7b756, 12);
   (F1, 2%nat, 0x242070db, 17); (F1, 3%nat, 0xc1bdceee, 22);
   (F1, 4%nat, 0xf57c0faf, 7); (F1, 5%nat, 0x4787c62a, 12);
   (F1, 6%nat, 0xa8304613, 17); (F1, 7%nat, 0xfd469501, 22);
   (F1, 8%nat, 0x698098d8, 7); (F1, 9%nat, 0x8b44f7af, 12);
   (F1, 10%nat, 0xffff5bb1, 17); (F1, 11%nat, 0x895cd7be, 22);
   (F1, 12%nat, 0x6b901122, 7); (F1, 13%nat, 0xfd987193, 12);
   (F1, 14%nat, 0xa679438e, 17); (F1, 15%nat, 0x49b40821, 22);
   (F2, 1%nat, 0xf61e2562, 5); (F2, 6%nat, 0xc040b340, 9);
   (F2, 11%nat, 0x265e5a51, 14); (F2, 0%nat, 0xe9b6c7aa, 20);
   (F2, 5%nat, 0xd62f105d, 5); (F2, 10%nat, 0x02441453, 9);
   (F2, 15%nat, 0xd8a1e681, 14); (F2, 4%nat, 0xe7d3fbc8, 20);
   (F2, 9%nat, 0x21e1cde6, 5); (F2, 14%nat, 0xc33707d6, 9);
   (F2, 3%nat, 0xf4d50d87, 14); (F2, 8%nat, 0x455a14ed, 20);
   (F2, 13%nat, 0xa9e3e905, 5); (F2, 2%nat, 0xfcefa3f8, 9);
   (F2, 7%nat, 0x676f02d9, 14); (F2, 12%nat, 0x8d2a4c8a, 20);
   (F3, 5%nat, 0xfffa3942, 4); (F3, 8%nat, 0x8771f681, 11);
   (F3, 11%nat, 0x6d9d6122, 16); (F3, 14%nat, 0xfde5380c, 23);
   (F3, 1%nat, 0xa4beea44, 4); (F3, 4%nat, 0x4bdecfa9, 11);
   (F3, 7%nat, 0xf6bb4b60, 16); (F3, 10%nat, 0xbebfbc70, 23);
   (F3, 13%nat, 0x289b7ec6, 4); (F3, 0%nat, 0xeaa127fa, 11);
   (F3, 3%nat, 0xd4ef3085, 16); (F3, 6%nat, 0x04881d05, 23);
   (F3, 9%nat, 0xd9d4d039, 4); (F3, 12%nat, 0xe6db99e5, 11);
   (F3, 15%nat, 0x1fa27cf8, 16); (F3, 2%nat, 0xc4ac5665, 23);
   (F4, 0%nat, 0xf4292244, 6); (F4, 7%nat, 0x432aff97, 10);
   (F4, 14%nat, 0xab9423a7, 15); (F4, 5%nat, 0xfc93a039, 21);
   (F4, 12%nat, 0x655b59c3, 6); (F4, 3%nat, 0x8f0ccc92, 10);
   (F4, 10%nat, 0xffeff47d, 15); (F4, 1%nat, 0x85845dd1, 21);
   (F4, 8%nat, 0x6fa87e4f, 6); (F4, 15%nat, 0xfe2ce6e0, 10);
   (F4, 6%nat, 0xa3014314, 15); (F4, 13%nat, 0x4e0811a1, 21);
   (F4, 4%nat, 0xf7537e82, 6); (F4, 11%nat, 0xbd3af235, 10);
   (F4, 2%nat, 0x2ad7d2bb, 15); (F4, 9%nat, 0xeb86d391, 21)].
Definition md5_step (w16 : list Z) (st : Z * Z * Z * Z) (call : (Z -> Z -> Z -> Z) * nat * Z * Z) : Z * Z * Z * Z :=
  let '(w, x, y, z) := st in let '(f, i, k, s) := call in
  (z, MD5STEP f w x y z (u32 (nth i w16 0 + k)) s, x, y).
Definition MD5Transform (buf : Z * Z * Z * Z) (w16 : list Z) : Z * Z * Z * Z :=
  let '(b0, b1, b2, b3) := buf in
  let '(a, b, c, d) := foldl (md5_step w16) buf md5_steps in
  (u32 (b0 + a), u32 (b1 + b), u32 (b2 + c), u32 (b3 + d)).
(** [MD5Transform] of [ctx->in] read as sixteen words. *)
Definition md5_block (st : Z * Z * Z * Z) (b : list Z) : Z * Z * Z * Z := MD5Transform st (load_words load_le32 16 b).

Definition md5_start : Z * Z * Z * Z := (0x67452301, 0xefcdab89, 0x98badcfe, 0x10325476).
Definition MD5Init (ctx : MD5Context) : MD5Context :=
  {| buf := md5_start; bits0 := 0; bits1 := 0; in_ := in_ ctx |}.

(** [while (len >= 64)]: a turn takes 64 octets away. *)
Fixpoint md5_chunks (fuel : nat) (st : Z * Z * Z * Z) (inb data : list Z) : Z * Z * Z * Z * list Z * list Z :=
  if decide (64 <= length data)%nat then
    match fuel with
    | O => (st, inb, data)
    | S fuel =>
        let inb := put_at inb 0 (take 64 data) in
        md5_chunks fuel (md5_block st inb) inb (drop 64 data)
    end
  else (st, inb, data).

Definition MD5Update (ctx : MD5Context) (data : list Z) : MD5Context :=
  let len := zlen data in
  let t := bits0 ctx in
  let b0 := u32 (t + u32 (Z.shiftl len 3)) in
  let b1 := if b0 <? t then u32 (bits1 ctx + 1) else bits1 ctx in
  let b1 := u32 (b1 + Z.shiftr len 29) in
  let t := Z.land (Z.shiftr t 3) 0x3f in
  let p := Z.to_nat t in
  if negb (t =? 0) && (len <? 64 - t) then
    {| buf := buf ctx; bits0 := b0; bits1 := b1; in_ := put_at (in_ ctx) p data |}
  else
    let '(st, inb, data) :=
      if negb (t =? 0) then
        let t := Z.to_nat (64 - t) in
        let inb := put_at (in_ ctx) p (take t data) in
        (md5_block (buf ctx) inb, inb, drop t data)
      else (buf ctx, in_ ctx, data) in
    let '(st, inb, data) := md5_chunks (length data) st inb data in
    {| buf := st; bits0 := b0; bits1 := b1; in_ := put_at inb 0 data |}.

(** [os_memcpy(digest, ctx->buf, 16)] *)
Definition md5_digest (st : Z * Z * Z * Z) : list Z :=
  let '(a, b, c, d) := st in
  WPA_PUT_LE32 a ++ WPA_PUT_LE32 b ++ WPA_PUT_LE32 c ++ WPA_PUT_LE32 d.
Definition MD5Final (ctx : MD5Context) : list Z :=
  let count := Z.to_nat (Z.land (Z.shiftr (bits0 ctx) 3) 0x3f) in
  let inb := put_at (in_ ctx) count [0x80] in
  let p := S count in
  let count := (64 - 1 - count)%nat in
  let '(st, inb) :=
    if decide (count < 8)%nat then
      let inb := put_at inb p (replicate count 0) in
      let st := md5_block (buf ctx) inb in
      (st, put_at inb 0 (replicate 56 0))
    else (buf ctx, put_at inb p (replicate (count - 8) 0)) in
  let inb := put_at inb 56 (WPA_PUT_LE32 (bits0 ctx)) in
  let inb := put_at inb 60 (WPA_PUT_LE32 (bits1 ctx)) in
  md5_digest (md5_block st inb).

(** [ctx] is what the stack holds; the function returns 0. *)
Definition md5_vector (ctx : MD5Context) (addr : list (list Z)) : Z * list Z :=
  (0, MD5Final (foldl MD5Update (MD5Init ctx) addr)).
