(* ===== verification/Sha1.v ===== *)
(** * crypto/sha1-internal.c: SHA-1

    The context is the record of the code, its buffer included; [sha1_vector] starts
    from whatever the stack holds.  The machine is little-endian. *)

From S2P Require Import Prelude Hash.

Record SHA1Context := { state : Z * Z * Z * Z * Z; count0 : Z; count1 : Z; buffer : list Z }.

(** [block->l]; each expansion writes the word it gives. *)
Definition blk0 (l : list Z) (i : nat) : Z * list Z :=
  let w := nth i l 0 in
  let w := Z.lor (Z.land (rol w 24) 0xFF00FF00) (Z.land (rol w 8) 0x00FF00FF) in
  (w, <[i := w]> l).
Definition blk (l : list Z) (i : nat) : Z * list Z :=
  let at_ k := nth (k mod 16) l 0 in
  let w := rol (Z.lxor (Z.lxor (Z.lxor (at_ (i + 13)) (at_ (i + 8))) (at_ (i + 2))) (at_ i))%nat 1 in
  (w, <[(i mod 16)%nat := w]> l).

Definition Ch (w x y : Z) : Z := Z.lxor (Z.land w (Z.lxor x y)) y.
Definition Parity (w x y : Z) : Z := Z.lxor (Z.lxor w x) y.
Definition Maj (w x y : Z) : Z := Z.lor (Z.land (Z.lor w x) y) (Z.land w x).

(** The macros [R0] to [R4]: the expansion, the function and the constant. *)
Definition sha1_round (i : nat) : (list Z -> nat -> Z * list Z) * (Z -> Z -> Z -> Z) * Z :=
  if decide (i < 16)%nat then (blk0, Ch, 0x5A827999)
  else if decide (i < 20)%nat then (blk, Ch, 0x5A827999)
  else if decide (i < 40)%nat then (blk, Parity, 0x6ED9EBA1)
  else if decide (i < 60)%nat then (blk, Maj, 0x8F1BBCDC)
  else (blk, Parity, 0xCA62C1D6).
(** [z += f(w, x, y) + blk(i) + K + rol(v, 5); w = rol(w, 30);] and the next call's
    five variables, those of this one moved on by one. *)
Definition sha1_step (st : Z * Z * Z * Z * Z * list Z) (i : nat) : Z * Z * Z * Z * Z * list Z :=
  let '(v, w, x, y, z, l) := st in
  let '(expand, f, k) := sha1_round i in
  let '(b, l) := expand l i in
  let z := u32 (z + u32 (f w x y + b + k + rol v 5)) in
  let w := rol w 30 in
  (z, v, w, x, y, l).
Definition SHA1Transform (state : Z * Z * Z * Z * Z) (buffer : list Z) : Z * Z * Z * Z * Z :=
  let '(s0, s1, s2, s3, s4) := state in
  let '(a, b, c, d, e, _) := foldl sha1_step (state, load_words load_le32 16 buffer) (seq 0 80) in
  (u32 (s0 + a), u32 (s1 + b), u32 (s2 + c), u32 (s3 + d), u32 (s4 + e)).

Definition sha1_start : Z * Z * Z * Z * Z := (0x67452301, 0xEFCDAB89, 0x98BADCFE, 0x10325476, 0xC3D2E1F0).
Definition SHA1Init (context : SHA1Context) : SHA1Context :=
  {| state := sha1_start; count0 := 0; count1 := 0; buffer := buffer context |}.

(** [for ( ; i + 63 < len; i += 64)]: a turn takes 64 octets away. *)
Fixpoint sha1_chunks (fuel : nat) (st : Z * Z * Z * Z * Z) (data : list Z) : Z * Z * Z * Z * Z * list Z :=
  if decide (63 < length data)%nat then
    match fuel with
    | O => (st, data)
    | S fuel => sha1_chunks fuel (SHA1Transform st (take 64 data)) (drop 64 data)
    end
  else (st, data).

(** [len] is a [u32], and so is [j + len]. *)
Definition SHA1Update (context : SHA1Context) (data : list Z) : SHA1Context :=
  let len := zlen data in
  let j := Z.land (Z.shiftr (count0 context) 3) 63 in
  let bits := u32 (Z.shiftl len 3) in
  let c0 := u32 (count0 context + bits) in
  let c1 := if c0 <? bits then u32 (count1 context + 1) else count1 context in
  let c1 := u32 (c1 + Z.shiftr len 29) in
  if 63 <? u32 (j + len) then
    let i := Z.to_nat (64 - j) in
    let buf := put_at (buffer context) (Z.to_nat j) (take i data) in
    let st := SHA1Transform (state context) buf in
    let '(st, data) := sha1_chunks (length data) st (drop i data) in
    {| state := st; count0 := c0; count1 := c1; buffer := put_at buf 0 data |}
  else {| state := state context; count0 := c0; count1 := c1; buffer := put_at (buffer context) (Z.to_nat j) data |}.

(** [while ((context->count[0] & 504) != 448)]: at most 63 turns. *)
Fixpoint sha1_zeros (fuel : nat) (context : SHA1Context) : SHA1Context :=
  if negb (Z.land (count0 context) 504 =? 448) then
    match fuel with O => context | S fuel => sha1_zeros fuel (SHA1Update context [0]) end
  else context.
(** [(count[(i >= 4 ? 0 : 1)] >> ((3-(i & 3)) * 8)) & 255] *)
Definition sha1_octet (w i : Z) : Z := Z.land (Z.shiftr w ((3 - Z.land i 3) * 8)) 255.
Definition sha1_digest (st : Z * Z * Z * Z * Z) : list Z :=
  let '(a, b, c, d, e) := st in
  concat (map (fun w => map (sha1_octet w) [0; 1; 2; 3]) [a; b; c; d; e]).
Definition SHA1Final (context : SHA1Context) : list Z :=
  let finalcount := map (fun i => sha1_octet (if 4 <=? i then count0 context else count1 context) i) [0; 1; 2; 3; 4; 5; 6; 7] in
  let context := SHA1Update context [0x80] in
  let context := sha1_zeros 63 context in
  let context := SHA1Update context finalcount in
  sha1_digest (state context).

(** [ctx] is what the stack holds; the function returns 0. *)
Definition sha1_vector (ctx : SHA1Context) (addr : list (list Z)) : Z * list Z :=
  (0, SHA1Final (foldl SHA1Update (SHA1Init ctx) addr)).
