(* ===== verification/Sha256.v ===== *)
(** * crypto/sha256-internal.c: SHA-256

    The state is the record of the code, its buffer included; [sha256_vector] starts
    from whatever the stack holds. *)

From S2P Require Import Prelude Hash.

Record sha256_state := { length_ : Z; state : list Z; curlen : nat; buf : list Z }.

(** Rows of four. *)
Definition K : list Z :=
  concat [[0x428a2f98; 0x71374491; 0xb5c0fbcf; 0xe9b5dba5]; [0x3956c25b; 0x59f111f1; 0x923f82a4; 0xab1c5ed5];
    [0xd807aa98; 0x12835b01; 0x243185be; 0x550c7dc3]; [0x72be5d74; 0x80deb1fe; 0x9bdc06a7; 0xc19bf174];
    [0xe49b69c1; 0xefbe4786; 0x0fc19dc6; 0x240ca1cc]; [0x2de92c6f; 0x4a7484aa; 0x5cb0a9dc; 0x76f988da];
    [0x983e5152; 0xa831c66d; 0xb00327c8; 0xbf597fc7]; [0xc6e00bf3; 0xd5a79147; 0x06ca6351; 0x14292967];
    [0x27b70a85; 0x2e1b2138; 0x4d2c6dfc; 0x53380d13]; [0x650a7354; 0x766a0abb; 0x81c2c92e; 0x92722c85];
    [0xa2bfe8a1; 0xa81a664b; 0xc24b8b70; 0xc76c51a3]; [0xd192e819; 0xd6990624; 0xf40e3585; 0x106aa070];
    [0x19a4c116; 0x1e376c08; 0x2748774c; 0x34b0bcb5]; [0x391c0cb3; 0x4ed8aa4a; 0x5b9cca4f; 0x682e6ff3];
    [0x748f82ee; 0x78a5636f; 0x84c87814; 0x8cc70208]; [0x90befffa; 0xa4506ceb; 0xbef9a3f7; 0xc67178f2]].

Definition RORc (x y : Z) : Z :=
  Z.land (Z.lor (Z.shiftr (Z.land x 0xFFFFFFFF) (Z.land y 31)) (Z.shiftl x (32 - Z.land y 31))) 0xFFFFFFFF.
Definition Ch (x y z : Z) : Z := Z.lxor z (Z.land x (Z.lxor y z)).
Definition Maj (x y z : Z) : Z := Z.lor (Z.land (Z.lor x y) z) (Z.land x y).
Definition R (x n : Z) : Z := Z.shiftr (Z.land x 0xFFFFFFFF) n.
Definition Sigma0 (x : Z) : Z := Z.lxor (Z.lxor (RORc x 2) (RORc x 13)) (RORc x 22).
Definition Sigma1 (x : Z) : Z := Z.lxor (Z.lxor (RORc x 6) (RORc x 11)) (RORc x 25).
Definition Gamma0 (x : Z) : Z := Z.lxor (Z.lxor (RORc x 7) (RORc x 18)) (R x 3).
Definition Gamma1 (x : Z) : Z := Z.lxor (Z.lxor (RORc x 17) (RORc x 19)) (R x 10).

(** [W[16..63]]: the array so far, [n] more words. *)
Fixpoint fill_W (n : nat) (W : list Z) : list Z :=
  match n with
  | O => W
  | S n =>
      let i := length W in
      let w k := nth (i - k) W 0 in
      fill_W n (W ++ [u32 (Gamma1 (w 2%nat) + w 7%nat + Gamma0 (w 15%nat) + w 16%nat)])
  end.
(** [RND] and the rotation of [S]. *)
Definition sha256_round (W : list Z) (S : Z * Z * Z * Z * Z * Z * Z * Z) (i : nat) : Z * Z * Z * Z * Z * Z * Z * Z :=
  let '(a, b, c, d, e, f, g, h) := S in
  let t0 := u32 (h + Sigma1 e + Ch e f g + nth i K 0 + nth i W 0) in
  let t1 := u32 (Sigma0 a + Maj a b c) in
  let d := u32 (d + t0) in
  let h := u32 (t0 + t1) in
  (h, a, b, c, d, e, f, g).
Definition sha256_compress (state buf : list Z) : list Z :=
  let s k := nth k state 0 in
  let W := fill_W 48 (load_words load_be32 16 buf) in
  let '(a, b, c, d, e, f, g, h) :=
    foldl (sha256_round W) (s 0%nat, s 1%nat, s 2%nat, s 3%nat, s 4%nat, s 5%nat, s 6%nat, s 7%nat) (seq 0 64) in
  [u32 (s 0%nat + a); u32 (s 1%nat + b); u32 (s 2%nat + c); u32 (s 3%nat + d);
   u32 (s 4%nat + e); u32 (s 5%nat + f); u32 (s 6%nat + g); u32 (s 7%nat + h)].

Definition sha256_start : list Z :=
  [0x6A09E667; 0xBB67AE85; 0x3C6EF372; 0xA54FF53A; 0x510E527F; 0x9B05688C; 0x1F83D9AB; 0x5BE0CD19].
Definition sha256_init (md : sha256_state) : sha256_state :=
  {| length_ := 0; state := sha256_start; curlen := 0; buf := buf md |}.
Definition u64 (z : Z) : Z := z mod 2 ^ 64.

(** [while (inlen > 0)]: a turn takes an octet at least, or empties a full buffer. *)
Fixpoint sha256_loop (fuel : nat) (md : sha256_state) (inb : list Z) : sha256_state :=
  match fuel, inb with
  | S fuel, _ :: _ =>
      if decide (curlen md = 0 /\ 64 <= length inb)%nat then
        sha256_loop fuel {| length_ := u64 (length_ md + 512); state := sha256_compress (state md) (take 64 inb);
                            curlen := curlen md; buf := buf md |} (drop 64 inb)
      else
        let n := Nat.min (length inb) (64 - curlen md) in
        let b := put_at (buf md) (curlen md) (take n inb) in
        let md := if decide (curlen md + n = 64)%nat then
                    {| length_ := u64 (length_ md + 512); state := sha256_compress (state md) b; curlen := 0; buf := b |}
                  else {| length_ := length_ md; state := state md; curlen := curlen md + n; buf := b |} in
        sha256_loop fuel md (drop n inb)
  | _, _ => md
  end.
Definition sha256_process (md : sha256_state) (inb : list Z) : Z * sha256_state :=
  if decide (64 < curlen md)%nat then (-1, md) else (0, sha256_loop (S (length inb)) md inb).

(** The value returned and [out]. *)
Definition sha256_done (md : sha256_state) (out : list Z) : Z * list Z :=
  if decide (64 <= curlen md)%nat then (-1, out)
  else
    let len := u64 (length_ md + Z.of_nat (curlen md) * 8) in
    let b := put_at (buf md) (curlen md) [0x80] in
    let cur := S (curlen md) in
    let '(st, b, cur) :=
      if decide (56 < cur)%nat then
        let b := put_at b cur (replicate (64 - cur) 0) in (sha256_compress (state md) b, b, 0%nat)
      else (state md, b, cur) in
    let b := put_at b cur (replicate (56 - cur) 0) in
    let b := put_at b 56 (WPA_PUT_BE64 len) in
    (0, concat (map WPA_PUT_BE32 (sha256_compress st b))).

(** [if (sha256_process(&ctx, addr[i], len[i])) return -1;] *)
Fixpoint sha256_pieces (ctx : sha256_state) (addr : list (list Z)) : option sha256_state :=
  match addr with
  | [] => Some ctx
  | d :: addr => let '(r, ctx) := sha256_process ctx d in if negb (r =? 0) then None else sha256_pieces ctx addr
  end.
(** [ctx] is what the stack holds and [mac] the buffer for the hash. *)
Definition sha256_vector (ctx : sha256_state) (addr : list (list Z)) (mac : list Z) : Z * list Z :=
  match sha256_pieces (sha256_init ctx) addr with
  | None => (-1, mac)
  | Some ctx => let '(r, mac) := sha256_done ctx mac in if negb (r =? 0) then (-1, mac) else (0, mac)
  end.
