(* ===== verification/HashProps.v ===== *)
(** * The hash functions over a vector are the hash of the areas put together

    For each of the three: what a context stands for, what an update does to it, the
    final block, and the function over a vector of data areas. *)

From S2P Require Import Prelude Hash.
From S2P Require Md5 Sha1 Sha256.

Lemma rest_position m c0 c1 : bits_of c0 c1 (zlen m) -> Z.to_nat (Z.land (Z.shiftr c0 3) 63) = length (rest m).
Proof. intros Hb. rewrite (bits_octets _ _ _ Hb), <-length_rest_mod by apply zlen_nonneg. lia. Qed.

Lemma next_position n : ((n + 1) mod 64 = if decide (n mod 64 = 63) then 0 else n mod 64 + 1)%nat.
Proof.
  pose proof (Nat.div_mod_eq n 64). pose proof (Nat.mod_upper_bound n 64 ltac:(lia)). destruct (decide _).
  - symmetry. apply (Nat.mod_unique _ _ (n / 64 + 1)); lia.
  - symmetry. apply (Nat.mod_unique _ _ (n / 64)); lia.
Qed.
(** The zeros from position [r] of a block up to position 56. *)
Lemma zeros_left r : (r < 64)%nat -> ((120 - r) mod 64 = if decide (r <= 56) then 56 - r else 120 - r)%nat.
Proof.
  intros Hr. destruct (decide _); [symmetry; apply (Nat.mod_unique _ _ 1); lia|apply Nat.mod_small; lia].
Qed.

Module MD5.
Import Md5.

Definition md5 (m : list Z) : list Z := md5_digest (absorb md5_block md5_start (md_pad PUT_LE64 m)).

Definition rep (ctx : MD5Context) (m : list Z) : Prop :=
  holds md5_block md5_start m (buf ctx) (in_ ctx) /\ bits_of (bits0 ctx) (bits1 ctx) (zlen m).

Lemma md5_chunks_holds fuel m st inb d : holds md5_block md5_start m st inb -> rest m = [] -> (length d <= fuel)%nat ->
  exists st' inb' d1 d2, md5_chunks fuel st inb d = (st', inb', d2) /\ d = d1 ++ d2 /\ (length d2 < 64)%nat /\
    holds md5_block md5_start (m ++ d1) st' inb' /\ rest (m ++ d1) = [].
Proof.
  revert m st inb d. induction fuel as [|fuel IH]; intros m st inb d Hh Hr Hf; cbn [md5_chunks].
  - destruct (decide _) as [Hd|Hd]; [lia|]. exists st, inb, [], d. rewrite app_nil_r. split_and!; (done || lia).
  - destruct (decide _) as [Hd|Hd].
    2: { exists st, inb, [], d. rewrite app_nil_r. split_and!; (done || lia). }
    assert (length (take 64 d) = 64%nat) as Ht by (rewrite length_take; lia).
    pose proof Hh as (_ & Hl & _).
    assert (put_at inb 0 (take 64 d) = take 64 d) as -> by (rewrite put_at_full by lia; reflexivity).
    destruct (holds_block md5_block md5_start m st inb (take 64 d) (take 64 d) Hh Hr Ht Ht) as [Hh1 Hr1].
    destruct (IH _ _ _ (drop 64 d) Hh1 Hr1) as (st' & inb' & d1 & d2 & -> & Hd12 & Hlt & Hh2 & Hr2).
    { rewrite length_drop. lia. }
    exists st', inb', (take 64 d ++ d1), d2. rewrite <-app_assoc, <-Hd12, take_drop, app_assoc. by split_and!.
Qed.

Lemma md5_update_rep ctx m d : rep ctx m -> zlen d < 2 ^ 32 -> rep (MD5Update ctx d) (m ++ d).
Proof.
  intros [Hh Hb] Hd. pose proof (zlen_nonneg d) as Hd0.
  destruct (bits_of_add _ _ _ (zlen d) Hb (conj Hd0 Hd)) as [Hb' Hcmp]. rewrite Hcmp in Hb'. cbv zeta in Hb'.
  rewrite <-zlen_app in Hb'. unfold MD5Update. cbv zeta.
  pose proof (rest_position m _ _ Hb) as Hp. set (t := Z.land (Z.shiftr (bits0 ctx) 3) 63) in *.
  assert (0 <= t) as Ht0 by (subst t; apply Z.land_nonneg; right; lia).
  pose proof (rest_lt m) as Hlt. pose proof Hh as (_ & Hl & _).
  destruct (negb (t =? 0) && (zlen d <? 64 - t)) eqn:E.
  { split; [|exact Hb']. apply andb_true_iff in E as [_ E]. cbn [buf in_]. rewrite Hp.
    apply holds_fill; [done|]. unfold zlen in E. lia. }
  assert (exists st inb d1 d2, (if negb (t =? 0) then
    (md5_block (buf ctx) (put_at (in_ ctx) (Z.to_nat t) (take (Z.to_nat (64 - t)) d)),
     put_at (in_ ctx) (Z.to_nat t) (take (Z.to_nat (64 - t)) d), drop (Z.to_nat (64 - t)) d)
    else (buf ctx, in_ ctx, d)) = (st, inb, d2) /\ d = d1 ++ d2 /\
    holds md5_block md5_start (m ++ d1) st inb /\ rest (m ++ d1) = []) as (st & inb & d1 & d2 & -> & Hd12 & Hh1 & Hr1).
  { destruct (Z.eqb_spec t 0) as [E0|E0]; cbn [negb andb] in *.
    - exists (buf ctx), (in_ ctx), [], d. rewrite app_nil_r. split_and!; [done..|].
      apply nil_length_inv. lia.
    - eexists _, _, (take (Z.to_nat (64 - t)) d), _. split; [reflexivity|]. rewrite take_drop. split; [done|].
      unfold zlen in E. assert (length (take (Z.to_nat (64 - t)) d) = Z.to_nat (64 - t)) by (rewrite length_take; lia).
      rewrite Hp. apply holds_flush; [done|lia|]. rewrite length_put_at; lia. }
  destruct (md5_chunks_holds (length d2) _ _ _ d2 Hh1 Hr1 (le_n _)) as (st' & inb' & d3 & d4 & -> & -> & Hlt4 & Hh2 & Hr2).
  split; [|exact Hb']. cbn [buf in_]. rewrite Hd12, !app_assoc.
  pose proof (holds_fill _ _ _ _ _ d4 Hh2) as H. rewrite Hr2 in H. by apply H.
Qed.

Lemma bits_le c0 c1 n : bits_of c0 c1 n -> PUT_LE64 ((8 * n) mod 2 ^ 64) = WPA_PUT_LE32 c0 ++ WPA_PUT_LE32 c1.
Proof.
  intros (H0 & H1 & <-). unfold PUT_LE64, WPA_PUT_LE32, u8, u32. cbn [map app]. rewrite !land_255.
  rewrite !Z.shiftr_div_pow2 by lia. cbn [Z.pow Z.pow_pos Pos.iter Z.mul Pos.mul] in *.
  repeat (apply f_equal2; [zlia|]). done.
Qed.

Lemma md5_final_rep ctx m : rep ctx m -> MD5Final ctx = md5 m.
Proof.
  intros [Hh Hb]. unfold MD5Final, md5. rewrite absorb_pad by done. cbv zeta.
  rewrite (bits_le _ _ _ Hb). change 0x3f with 63. rewrite (rest_position m _ _ Hb).
  apply holds_starts in Hh as [Hst Hs]. pose proof (rest_lt m) as Hlt. rewrite Hst.
  set (r := rest m) in *. apply (starts_put _ _ [0x80] (length r)) in Hs; [|done|cbn [length]; lia].
  assert (length (r ++ [0x80]) = S (length r)) as E1 by (rewrite length_app; cbn [length]; lia).
  destruct (decide (64 - 1 - length r < 8)%nat) as [E|E]; destruct (decide (length r < 56)%nat); try lia.
  - apply (starts_put _ _ (replicate (64 - 1 - length r) 0) (S (length r))) in Hs; [|done|rewrite length_replicate; lia].
    pose proof (starts_full _ _ Hs) as Hf. rewrite Hf by (rewrite length_app, length_replicate; lia).
    rewrite <-app_assoc. cbn [app]. do 2 f_equal.
  - replace (64 - 1 - length r - 8)%nat with (55 - length r)%nat by lia.
    apply (starts_put _ _ (replicate (55 - length r) 0) (S (length r))) in Hs; [|done|rewrite length_replicate; lia].
    assert (length ((r ++ [0x80]) ++ replicate (55 - length r) 0) = 56%nat) as E2.
    { rewrite length_app, length_replicate. lia. }
    apply (starts_put _ _ (WPA_PUT_LE32 (bits0 ctx)) 56) in Hs; [|done|rewrite E2; change (56 + 4 <= 64)%nat; lia].
    pose proof (length_app ((r ++ [0x80]) ++ replicate (55 - length r) 0) (WPA_PUT_LE32 (bits0 ctx))) as E3.
    rewrite E2 in E3. change (56 + length (WPA_PUT_LE32 (bits0 ctx)))%nat with 60%nat in E3.
    apply (starts_put _ _ (WPA_PUT_LE32 (bits1 ctx)) 60) in Hs; [|done|rewrite E3; change (60 + 4 <= 64)%nat; lia].
    apply starts_full in Hs; [|rewrite length_app, E3; done].
    by rewrite Hs, <-!app_assoc.
Qed.

Lemma vector_md5 ctx addr : length (in_ ctx) = 64%nat -> Forall (fun d => zlen d < 2 ^ 32) addr ->
  md5_vector ctx addr = (0, md5 (concat addr)).
Proof.
  intros Hl Ha. unfold md5_vector. f_equal. apply md5_final_rep.
  assert (rep (MD5Init ctx) []) as H0 by (split; [by apply holds_nil|by split_and!]).
  change (concat addr) with ([] ++ concat addr). revert H0. generalize (MD5Init ctx) (@nil Z).
  induction Ha as [|d addr Hd Ha IH]; intros c m H; cbn [foldl concat]; [by rewrite app_nil_r|].
  rewrite app_assoc. apply IH. by apply md5_update_rep.
Qed.

Lemma length_md5 m : length (md5 m) = 16%nat.
Proof. unfold md5, md5_digest. by destruct (absorb _ _ _) as [[[? ?] ?] ?]. Qed.
Lemma length_final ctx : length (MD5Final ctx) = 16%nat.
Proof. unfold MD5Final, md5_digest. repeat case_match; done. Qed.
End MD5.

Module SHA1.
Import Sha1.

Definition sha1 (m : list Z) : list Z := sha1_digest (absorb SHA1Transform sha1_start (md_pad WPA_PUT_BE64 m)).

Definition rep (ctx : SHA1Context) (m : list Z) : Prop :=
  holds SHA1Transform sha1_start m (state ctx) (buffer ctx) /\ bits_of (count0 ctx) (count1 ctx) (zlen m).

Lemma sha1_chunks_holds fuel m st b d : holds SHA1Transform sha1_start m st b -> rest m = [] -> (length d <= fuel)%nat ->
  exists st' d1 d2, sha1_chunks fuel st d = (st', d2) /\ d = d1 ++ d2 /\ (length d2 < 64)%nat /\
    holds SHA1Transform sha1_start (m ++ d1) st' b /\ rest (m ++ d1) = [].
Proof.
  revert m st d. induction fuel as [|fuel IH]; intros m st d Hh Hr Hf; cbn [sha1_chunks].
  - destruct (decide _) as [Hd|Hd]; [lia|]. exists st, [], d. rewrite app_nil_r. split_and!; (done || lia).
  - destruct (decide _) as [Hd|Hd].
    2: { exists st, [], d. rewrite app_nil_r. split_and!; (done || lia). }
    assert (length (take 64 d) = 64%nat) as Ht by (rewrite length_take; lia).
    pose proof Hh as (_ & Hl & _).
    destruct (holds_block SHA1Transform sha1_start m st b (take 64 d) b Hh Hr Ht Hl) as [Hh1 Hr1].
    destruct (IH _ _ (drop 64 d) Hh1 Hr1) as (st' & d1 & d2 & -> & Hd12 & Hlt & Hh2 & Hr2).
    { rewrite length_drop. lia. }
    exists st', (take 64 d ++ d1), d2. rewrite <-app_assoc, <-Hd12, take_drop, app_assoc. by split_and!.
Qed.

(** [j + len] does not wrap. *)
Lemma sha1_update_rep ctx m d : rep ctx m -> zlen d + 64 <= 2 ^ 32 -> rep (SHA1Update ctx d) (m ++ d).
Proof.
  intros [Hh Hb] Hd. pose proof (zlen_nonneg d) as Hd0.
  destruct (bits_of_add _ _ _ (zlen d) Hb ltac:(lia)) as [Hb' _]. cbv zeta in Hb'.
  rewrite <-zlen_app in Hb'. unfold SHA1Update. cbv zeta.
  pose proof (rest_position m _ _ Hb) as Hp.
  pose proof (bits_octets _ _ _ Hb (zlen_nonneg m)) as Hj. rewrite Hj in *. rewrite <-length_rest_mod in *.
  pose proof (rest_lt m) as Hlt. pose proof Hh as (_ & Hl & _).
  rewrite u32_id by lia. rewrite Nat2Z.id. destruct (Z.ltb_spec 63 (Z.of_nat (length (rest m)) + zlen d)) as [Hg|Hg].
  - set (i := Z.to_nat (64 - Z.of_nat (length (rest m)))).
    assert (length (take i d) = i) as Hi by (rewrite length_take; unfold zlen in Hg; lia).
    destruct (holds_flush SHA1Transform sha1_start m (state ctx) (buffer ctx) (take i d)
      (put_at (buffer ctx) (length (rest m)) (take i d)) Hh) as [Hh1 Hr1];
      [lia|rewrite length_put_at; lia|].
    destruct (sha1_chunks_holds (length d) _ _ _ (drop i d) Hh1 Hr1) as (st' & d1 & d2 & -> & Hd12 & Hlt2 & Hh2 & Hr2).
    { rewrite length_drop. lia. }
    split; [|exact Hb']. cbn [state buffer].
    rewrite <-(take_drop i d) at 1. rewrite Hd12, !app_assoc.
    pose proof (holds_fill _ _ _ _ _ d2 Hh2) as H. rewrite Hr2 in H. by apply H.
  - split; [|exact Hb']. cbn [state buffer]. apply holds_fill; [done|]. unfold zlen in Hg. lia.
Qed.

Lemma zeros_test ctx m : rep ctx m -> (Z.land (count0 ctx) 504 =? 448) = (length m mod 64 =? 56)%nat.
Proof.
  intros [_ Hb]. pose proof (bits_octets _ _ _ Hb (zlen_nonneg m)) as Hj.
  assert (Z.land (count0 ctx) 504 = 8 * Z.land (Z.shiftr (count0 ctx) 3) 63) as ->.
  { rewrite (Z.mul_comm 8). change 8 with (2 ^ 3). rewrite <-Z.shiftl_mul_pow2 by lia.
    apply Z.bits_inj'. intros i Hi. rewrite Z.land_spec, Z.shiftl_spec by lia.
    destruct (Z.lt_ge_cases i 3) as [H3|H3].
    - rewrite (Z.testbit_neg_r _ (i - 3)) by lia. change 504 with (Z.shiftl 63 3).
      rewrite Z.shiftl_spec, (Z.testbit_neg_r 63) by lia. apply andb_false_r.
    - rewrite Z.land_spec, Z.shiftr_spec by lia. change 504 with (Z.shiftl 63 3).
      rewrite Z.shiftl_spec by lia. do 2 f_equal. lia. }
  rewrite Hj. change (zlen m mod 64) with (Z.of_nat (length m) mod Z.of_nat 64). rewrite <-Nat2Z.inj_mod.
  destruct (Nat.eqb_spec (length m mod 64) 56); [apply Z.eqb_eq|apply Z.eqb_neq]; lia.
Qed.

Lemma zeros_rep fuel ctx m : rep ctx m -> ((120 - length m mod 64) mod 64 <= fuel)%nat ->
  rep (sha1_zeros fuel ctx) (m ++ replicate ((120 - length m mod 64) mod 64) 0).
Proof.
  revert ctx m. induction fuel as [|fuel IH]; intros ctx m Hr Hf; cbn [sha1_zeros]; rewrite (zeros_test _ m) by done;
    pose proof (Nat.mod_upper_bound (length m) 64 ltac:(lia)) as Hb;
    destruct (Nat.eqb_spec (length m mod 64) 56) as [->|Hn]; cbn [negb]; try by rewrite app_nil_r.
  - assert ((120 - length m mod 64) mod 64 <> 0)%nat; [|lia].
    rewrite zeros_left by done. destruct (decide _); lia.
  - assert ((120 - length m mod 64) mod 64 = S ((120 - length (m ++ [0%Z]) mod 64) mod 64))%nat as E.
    { rewrite length_app. cbn [length]. rewrite !zeros_left, next_position by (done || by apply Nat.mod_upper_bound).
      repeat destruct (decide _); lia. }
    rewrite E in *. cbn [replicate]. rewrite (app_assoc m [0] (replicate _ 0) : m ++ 0 :: replicate _ 0 = _).
    apply IH; [|lia]. by apply sha1_update_rep.
Qed.

Lemma bits_be c0 c1 n : bits_of c0 c1 n -> WPA_PUT_BE64 ((8 * n) mod 2 ^ 64) =
  map (fun i => sha1_octet (if 4 <=? i then c0 else c1) i) [0; 1; 2; 3; 4; 5; 6; 7].
Proof.
  intros (H0 & H1 & <-).
  transitivity (map (fun k => Z.land (Z.shiftr c1 k) 255) [24; 16; 8; 0] ++
                map (fun k => Z.land (Z.shiftr c0 k) 255) [24; 16; 8; 0]); [|reflexivity].
  unfold WPA_PUT_BE64, u8. cbn [map app]. rewrite !land_255, !Z.shiftr_div_pow2 by lia.
  repeat (apply f_equal2; [zlia|]). done.
Qed.

Lemma sha1_final_rep ctx m : rep ctx m -> SHA1Final ctx = sha1 m.
Proof.
  intros Hr. unfold SHA1Final, sha1. rewrite <-bits_be with (n := zlen m) by apply Hr.
  set (l := WPA_PUT_BE64 _). assert (length l = 8%nat) as Hl by done. f_equal.
  pose proof (sha1_update_rep _ _ [0x80] Hr ltac:(done)) as H1.
  pose proof (Nat.mod_upper_bound (120 - length (m ++ [0x80]) mod 64) 64 ltac:(lia)) as Hlt.
  apply (zeros_rep 63) in H1; [|lia].
  apply (fun H => sha1_update_rep _ _ l H ltac:(unfold zlen; rewrite Hl; done)) in H1.
  destruct H1 as [(-> & _) _]. f_equal. unfold md_pad. fold l. rewrite <-!app_assoc. cbn [app]. do 4 f_equal.
  rewrite length_app. cbn [length]. pose proof (Nat.mod_upper_bound (length m) 64 ltac:(lia)).
  rewrite zeros_left, next_position by by apply Nat.mod_upper_bound.
  destruct (decide (length m mod 64 = 63)%nat) as [->|]; [done|]. destruct (decide _).
  - apply (Nat.mod_unique _ _ 1); lia.
  - replace (120 - (length m mod 64 + 1))%nat with (119 - length m mod 64)%nat by lia.
    symmetry. apply Nat.mod_small. lia.
Qed.

Lemma vector_sha1 ctx addr : length (buffer ctx) = 64%nat -> Forall fits addr ->
  sha1_vector ctx addr = (0, sha1 (concat addr)).
Proof.
  intros Hl Ha. unfold sha1_vector. f_equal. apply sha1_final_rep.
  assert (rep (SHA1Init ctx) []) as H0 by (split; [by apply holds_nil|by split_and!]).
  change (concat addr) with ([] ++ concat addr). revert H0. generalize (SHA1Init ctx) (@nil Z).
  induction Ha as [|d addr Hd Ha IH]; intros c m H; cbn [foldl concat]; [by rewrite app_nil_r|].
  rewrite app_assoc. apply IH. by apply sha1_update_rep.
Qed.

Lemma length_sha1_digest st : length (sha1_digest st) = 20%nat.
Proof. by destruct st as [[[[? ?] ?] ?] ?]. Qed.
End SHA1.

Module SHA256.
Import Sha256.

Definition sha256 (m : list Z) : list Z :=
  concat (map WPA_PUT_BE32 (absorb sha256_compress sha256_start (md_pad WPA_PUT_BE64 m))).

Definition rep (md : sha256_state) (m : list Z) : Prop :=
  holds sha256_compress sha256_start m (state md) (buf md) /\ curlen md = length (rest m) /\
  length_ md = (8 * (zlen m - Z.of_nat (curlen md))) mod 2 ^ 64.

Lemma rep_lt md m : rep md m -> (curlen md < 64)%nat.
Proof. intros (_ & -> & _). apply rest_lt. Qed.

Lemma u64_block l x : l = (8 * x) mod 2 ^ 64 -> u64 (l + 512) = (8 * (x + 64)) mod 2 ^ 64.
Proof. intros ->. unfold u64. rewrite Z.add_mod_idemp_l by done. f_equal. lia. Qed.

Lemma loop_rep fuel md m d : rep md m -> (length d < fuel)%nat -> rep (sha256_loop fuel md d) (m ++ d).
Proof.
  revert md m d. induction fuel as [|fuel IH]; intros md m d Hrep Hf; [lia|]. cbn [sha256_loop].
  destruct d as [|x d']; [by rewrite app_nil_r|]. set (d := x :: d') in *. assert (length d <> 0%nat) by done.
  pose proof (rep_lt _ _ Hrep) as Hlt. pose proof Hrep as (Hh & Hc & Hn). pose proof Hh as (_ & Hl & _).
  destruct (decide _) as [[Hc0 H64]|Hd].
  - assert (length (take 64 d) = 64%nat) as Ht by (rewrite length_take; lia).
    assert (rest m = []) as Hr by (apply nil_length_inv; lia).
    destruct (holds_block _ _ m _ (buf md) (take 64 d) (buf md) Hh Hr Ht Hl) as [Hh1 Hr1].
    replace (m ++ d) with ((m ++ take 64 d) ++ drop 64 d) by (by rewrite <-app_assoc, take_drop). apply IH; [|rewrite length_drop; lia].
    split; [exact Hh1|]. split; [by rewrite Hr1|]. cbn [length_ curlen]. rewrite Hc0 in *.
    rewrite (u64_block _ _ Hn). do 2 f_equal. rewrite zlen_app. unfold zlen. rewrite Ht. lia.
  - set (n := Nat.min (length d) (64 - curlen md)). assert (length (take n d) = n) as Ht by (rewrite length_take; lia).
    replace (m ++ d) with ((m ++ take n d) ++ drop n d) by (by rewrite <-app_assoc, take_drop). apply IH; [|rewrite length_drop; lia].
    destruct (decide _) as [E|E].
    + destruct (holds_flush _ _ m _ (buf md) (take n d) (put_at (buf md) (curlen md) (take n d)) Hh) as [Hh1 Hr1];
        [lia|rewrite length_put_at; lia|].
      rewrite <-Hc in Hh1. split; [exact Hh1|]. split; [by rewrite Hr1|]. cbn [length_ curlen].
      rewrite (u64_block _ _ Hn). do 2 f_equal. rewrite zlen_app. unfold zlen. lia.
    + pose proof (holds_fill _ _ m _ (buf md) (take n d) Hh ltac:(lia)) as Hh1.
      rewrite <-Hc in Hh1. split; [exact Hh1|]. cbn [length_ curlen]. split.
      * rewrite rest_app, rest_short; rewrite length_app; lia.
      * rewrite Hn. do 2 f_equal. rewrite zlen_app. unfold zlen. lia.
Qed.

Lemma process_rep md m d : rep md m -> exists md', sha256_process md d = (0, md') /\ rep md' (m ++ d).
Proof.
  intros Hr. pose proof (rep_lt _ _ Hr). unfold sha256_process. destruct (decide _); [lia|].
  eexists. split; [reflexivity|]. apply loop_rep; [done|lia].
Qed.

Lemma done_rep md m out : rep md m -> sha256_done md out = (0, sha256 m).
Proof.
  intros Hrep. pose proof (rep_lt _ _ Hrep) as Hlt. destruct Hrep as (Hh & Hc & Hn).
  unfold sha256_done, sha256. rewrite absorb_pad by done. cbv zeta. destruct (decide _); [lia|].
  assert (u64 (length_ md + Z.of_nat (curlen md) * 8) = (8 * zlen m) mod 2 ^ 64) as ->.
  { rewrite Hn. unfold u64. rewrite Z.add_mod_idemp_l by done. f_equal. lia. }
  set (l := WPA_PUT_BE64 _). assert (length l = 8%nat) as Hl8 by done.
  apply holds_starts in Hh as [-> Hs]. rewrite Hc in *. set (r := rest m) in *. clearbody l r.
  apply (starts_put _ _ [0x80] (length r)) in Hs; [|done|cbn [length]; lia].
  assert (length (r ++ [0x80]) = S (length r)) as E1 by (rewrite length_app; cbn; lia).
  destruct (decide (56 < S (length r))%nat) as [E|E]; destruct (decide (length r < 56)%nat); try lia.
  - apply (starts_put _ _ (replicate (64 - S (length r)) 0) (S (length r))) in Hs; [|done|rewrite length_replicate; lia].
    pose proof Hs as [Hlen _]. apply starts_full in Hs; [|rewrite length_app, length_replicate; lia].
    apply starts_nil in Hlen. apply (starts_put _ _ (replicate (56 - 0) 0) 0) in Hlen; [|done|cbn; lia].
    apply (starts_put _ _ l 56) in Hlen; [|done|rewrite Hl8; cbn; lia].
    apply starts_full in Hlen; [|rewrite length_app, Hl8; done]. rewrite Hlen, Hs, <-app_assoc. cbn [app].
    by replace (64 - S (length r))%nat with (63 - length r)%nat by lia.
  - apply (starts_put _ _ (replicate (56 - S (length r)) 0) (S (length r))) in Hs; [|done|rewrite length_replicate; lia].
    assert (length ((r ++ [0x80]) ++ replicate (56 - S (length r)) 0) = 56%nat) as E2.
    { rewrite length_app, length_replicate. lia. }
    apply (starts_put _ _ l 56) in Hs; [|done|lia].
    apply starts_full in Hs; [|rewrite length_app; lia]. rewrite Hs, <-!app_assoc. cbn [app].
    by replace (56 - S (length r))%nat with (55 - length r)%nat by lia.
Qed.

Lemma vector_sha256 ctx addr mac : length (buf ctx) = 64%nat ->
  sha256_vector ctx addr mac = (0, sha256 (concat addr)).
Proof.
  intros Hl. unfold sha256_vector.
  assert (rep (sha256_init ctx) []) as H0 by (split; [by apply holds_nil|done]).
  enough (forall c m, rep c m -> exists c', sha256_pieces c addr = Some c' /\ rep c' (m ++ concat addr)) as H.
  { destruct (H _ _ H0) as (c' & -> & Hr). by rewrite (done_rep _ _ _ Hr). }
  clear H0. induction addr as [|d addr IH]; intros c m H; cbn [sha256_pieces concat].
  - exists c. by rewrite app_nil_r.
  - destruct (process_rep c m d H) as (c1 & -> & H1). cbn [negb Z.eqb]. rewrite app_assoc. by apply IH.
Qed.
End SHA256.

(** ** The properties *)

(** C14 (equivalence): whatever the stack held where the contexts are put, [md5_vector],
    [sha1_vector] and [sha256_vector] over data areas (of lengths that do not wrap a
    [u32]) return 0 with the hash, in the standards' form - pad the message with a one
    bit, zeros and its length in bits, run the compression function over the blocks -
    of the areas put together: how the data are cut into areas, and the buffering of
    what does not fill a block, cannot be seen. *)
Theorem hash_vectors_concat md5_ctx sha1_ctx sha256_ctx addr mac :
  length (Md5.in_ md5_ctx) = 64%nat -> length (Sha1.buffer sha1_ctx) = 64%nat ->
  length (Sha256.buf sha256_ctx) = 64%nat -> Forall fits addr ->
  Md5.md5_vector md5_ctx addr = (0, MD5.md5 (concat addr)) /\
  Sha1.sha1_vector sha1_ctx addr = (0, SHA1.sha1 (concat addr)) /\
  Sha256.sha256_vector sha256_ctx addr mac = (0, SHA256.sha256 (concat addr)).
Proof.
  intros Hm Hs1 Hs2 Ha. split_and!; [|by apply SHA1.vector_sha1|by apply SHA256.vector_sha256].
  apply MD5.vector_md5; [done|]. eapply Forall_impl; [exact Ha|]. unfold fits. lia.
Qed.

Lemma hash_vectors_concat_witness :
  let junk := replicate 64 7 in
  Md5.md5_vector {| Md5.buf := (1, 2, 3, 4); Md5.bits0 := 5; Md5.bits1 := 6; Md5.in_ := junk |} [[97]; []; [98; 99]] =
    (0, MD5.md5 [97; 98; 99]) /\
  Sha1.sha1_vector {| Sha1.state := (1, 2, 3, 4, 5); Sha1.count0 := 6; Sha1.count1 := 7; Sha1.buffer := junk |}
    [[97]; []; [98; 99]] = (0, SHA1.sha1 [97; 98; 99]) /\
  Sha256.sha256_vector {| Sha256.length_ := 1; Sha256.state := [2]; Sha256.curlen := 3; Sha256.buf := junk |}
    [[97]; []; [98; 99]] [] = (0, SHA256.sha256 [97; 98; 99]).
Proof.
  intros junk. apply (hash_vectors_concat
    {| Md5.buf := (1, 2, 3, 4); Md5.bits0 := 5; Md5.bits1 := 6; Md5.in_ := junk |}
    {| Sha1.state := (1, 2, 3, 4, 5); Sha1.count0 := 6; Sha1.count1 := 7; Sha1.buffer := junk |}
    {| Sha256.length_ := 1; Sha256.state := [2]; Sha256.curlen := 3; Sha256.buf := junk |} [[97]; []; [98; 99]] []);
    [done|done|done|by repeat constructor].
Defined.

(** The digests of "abc". *)
Example hash_abc :
  MD5.md5 [97; 98; 99] =
    [0x90; 0x01; 0x50; 0x98; 0x3c; 0xd2; 0x4f; 0xb0; 0xd6; 0x96; 0x3f; 0x7d; 0x28; 0xe1; 0x7f; 0x72] /\
  SHA1.sha1 [97; 98; 99] =
    [0xa9; 0x99; 0x3e; 0x36; 0x47; 0x06; 0x81; 0x6a; 0xba; 0x3e; 0x25; 0x71; 0x78; 0x50; 0xc2; 0x6c; 0x9c; 0xd0;
     0xd8; 0x9d] /\
  SHA256.sha256 [97; 98; 99] =
    [0xba; 0x78; 0x16; 0xbf; 0x8f; 0x01; 0xcf; 0xea; 0x41; 0x41; 0x40; 0xde; 0x5d; 0xae; 0x22; 0x23; 0xb0; 0x03;
     0x61; 0xa3; 0x96; 0x17; 0x7a; 0x9c; 0xb4; 0x10; 0xff; 0x61; 0xf2; 0x00; 0x15; 0xad].
Proof. vm_compute. done. Qed.
