(* ===== verification/Sha1Fips.v ===== *)
(** * SHA1Transform is the SHA-1 of FIPS 180-2

    The code expands the message in a ring of 16 words while it runs the rounds; the
    standard first writes a schedule of 80 words.  The functions and the byte order
    are written differently, too. *)

From S2P Require Import Prelude Hash HashProps Sha1.

(** ** FIPS 180-2, 6.1 *)

Definition back (W : list Z) (t k : nat) : Z := nth (t - k) W 0.
Definition fips_word (W : list Z) (t : nat) : Z :=
  rol (Z.lxor (Z.lxor (Z.lxor (back W t 3) (back W t 8)) (back W t 14)) (back W t 16)) 1.
Fixpoint fips_extend (n : nat) (W : list Z) : list Z :=
  match n with O => W | S n => fips_extend n (W ++ [fips_word W (length W)]) end.
Definition fips_schedule (block : list Z) : list Z := fips_extend 64 (load_words load_be32 16 block).
Definition fips_f (t : nat) (x y z : Z) : Z :=
  if decide (t < 20)%nat then Z.lxor (Z.land x y) (Z.land (not32 x) z)
  else if decide (t < 40)%nat then Z.lxor (Z.lxor x y) z
  else if decide (t < 60)%nat then Z.lxor (Z.lxor (Z.land x y) (Z.land x z)) (Z.land y z)
  else Z.lxor (Z.lxor x y) z.
Definition fips_K (t : nat) : Z :=
  if decide (t < 20)%nat then 0x5a827999 else if decide (t < 40)%nat then 0x6ed9eba1
  else if decide (t < 60)%nat then 0x8f1bbcdc else 0xca62c1d6.
Definition fips_round (W : list Z) (st : Z * Z * Z * Z * Z) (t : nat) : Z * Z * Z * Z * Z :=
  let '(a, b, c, d, e) := st in
  let T := u32 (rol a 5 + fips_f t b c d + e + fips_K t + nth t W 0) in
  (T, a, rol b 30, c, d).
Definition fips_compress (st : Z * Z * Z * Z * Z) (block : list Z) : Z * Z * Z * Z * Z :=
  let '(s0, s1, s2, s3, s4) := st in
  let '(a, b, c, d, e) := foldl (fips_round (fips_schedule block)) st (seq 0 80) in
  (u32 (s0 + a), u32 (s1 + b), u32 (s2 + c), u32 (s3 + d), u32 (s4 + e)).

(** ** Words *)

Definition word (x : Z) : Prop := 0 <= x < 2 ^ 32.
Lemma u32_word x : word (u32 x).
Proof. unfold word, u32. apply Z.mod_pos_bound. lia. Qed.
Lemma word_bits x i : word x -> 32 <= i -> Z.testbit x i = false.
Proof. intros Hx Hi. rewrite <-(Z.mod_small x (2 ^ 32)), Z.mod_pow2_bits_high by (done || lia). done. Qed.

Lemma Ch_fips x y z : word y -> word z -> Ch x y z = Z.lxor (Z.land x y) (Z.land (not32 x) z).
Proof.
  intros Hy Hz. unfold Ch, not32. apply Z.bits_inj'. intros i Hi.
  rewrite !Z.lxor_spec, !Z.land_spec, !Z.lxor_spec. destruct (Z.lt_ge_cases i 32) as [H|H].
  - assert (Z.testbit 0xffffffff i = true) as ->.
    { change 0xffffffff with (Z.ones 32). apply Z.ones_spec_low. lia. }
    by destruct (Z.testbit x i), (Z.testbit y i), (Z.testbit z i).
  - rewrite (word_bits y), (word_bits z) by done. by rewrite !andb_false_r.
Qed.
Lemma Maj_fips x y z : Maj x y z = Z.lxor (Z.lxor (Z.land x y) (Z.land x z)) (Z.land y z).
Proof.
  unfold Maj. apply Z.bits_inj'. intros i Hi. rewrite !Z.lor_spec, !Z.lxor_spec, !Z.land_spec, Z.lor_spec.
  by destruct (Z.testbit x i), (Z.testbit y i), (Z.testbit z i).
Qed.

Lemma byte_bits b i : is_byte b -> 8 <= i -> Z.testbit b i = false.
Proof.
  intros Hb Hi. rewrite <-(Z.mod_small b (2 ^ 8)), Z.mod_pow2_bits_high by (done || unfold is_byte in Hb; lia). done.
Qed.

Lemma rol_bits x s i : word x -> 0 < s < 32 -> 0 <= i < 32 ->
  Z.testbit (rol x s) i = Z.testbit x (if i <? s then i + 32 - s else i - s).
Proof.
  intros Hx Hs Hi. unfold rol, u32. change 4294967296 with (2 ^ 32).
  rewrite Z.mod_pow2_bits_low, Z.lor_spec, Z.shiftl_spec, Z.shiftr_spec by lia.
  destruct (Z.ltb_spec i s).
  - rewrite Z.testbit_neg_r by lia. cbn [orb]. f_equal. lia.
  - rewrite (word_bits x (i + (32 - s))) by (done || lia). apply orb_false_r.
Qed.

(** The bits of a word made of four octets. *)
Lemma four_bits b0 b1 b2 b3 i : is_byte b0 -> is_byte b1 -> is_byte b2 -> is_byte b3 -> 0 <= i < 32 ->
  Z.testbit (Z.lor (Z.lor (Z.lor b0 (Z.shiftl b1 8)) (Z.shiftl b2 16)) (Z.shiftl b3 24)) i =
  if i <? 8 then Z.testbit b0 i else if i <? 16 then Z.testbit b1 (i - 8)
  else if i <? 24 then Z.testbit b2 (i - 16) else Z.testbit b3 (i - 24).
Proof.
  intros H0 H1 H2 H3 Hi. rewrite !Z.lor_spec, !Z.shiftl_spec by lia.
  destruct (Z.ltb_spec i 8); [|destruct (Z.ltb_spec i 16); [|destruct (Z.ltb_spec i 24)]];
    rewrite ?(byte_bits b0 i), ?(byte_bits b1 (i - 8)), ?(byte_bits b2 (i - 16)),
      ?(Z.testbit_neg_r b1 (i - 8)), ?(Z.testbit_neg_r b2 (i - 16)), ?(Z.testbit_neg_r b3 (i - 24)) by (done || lia);
    rewrite ?orb_false_r, ?orb_false_l; done.
Qed.

Lemma four_word b0 b1 b2 b3 : is_byte b0 -> is_byte b1 -> is_byte b2 -> is_byte b3 ->
  word (Z.lor (Z.lor (Z.lor b0 (Z.shiftl b1 8)) (Z.shiftl b2 16)) (Z.shiftl b3 24)).
Proof.
  unfold is_byte, word. intros H0 H1 H2 H3.
  rewrite (Z.lor_comm b0), lor_shiftl_add by (change (2 ^ 8) with 256; lia). change (2 ^ 8) with 256.
  rewrite (Z.lor_comm (b1 * 256 + b0)), lor_shiftl_add by (change (2 ^ 16) with 65536; lia). change (2 ^ 16) with 65536.
  rewrite (Z.lor_comm (b2 * 65536 + _)), lor_shiftl_add by (change (2 ^ 24) with 16777216; lia).
  change (2 ^ 24) with 16777216. lia.
Qed.

(** [blk0] turns the octets of a word round. *)
Lemma blk0_swap b0 b1 b2 b3 : is_byte b0 -> is_byte b1 -> is_byte b2 -> is_byte b3 ->
  let w := load_le32 [b0; b1; b2; b3] in
  Z.lor (Z.land (rol w 24) 0xFF00FF00) (Z.land (rol w 8) 0x00FF00FF) = load_be32 [b0; b1; b2; b3].
Proof.
  intros H0 H1 H2 H3 w. assert (word w) as Hw by (by apply four_word).
  assert (load_be32 [b0; b1; b2; b3] =
    Z.lor (Z.lor (Z.lor b3 (Z.shiftl b2 8)) (Z.shiftl b1 16)) (Z.shiftl b0 24)) as ->.
  { unfold load_be32. cbn [nth]. apply Z.bits_inj'. intros i Hi. rewrite !Z.lor_spec.
    by destruct (Z.testbit (Z.shiftl b0 24) i), (Z.testbit (Z.shiftl b1 16) i), (Z.testbit (Z.shiftl b2 8) i), (Z.testbit b3 i). }
  apply Z.bits_inj'. intros i Hi. destruct (Z.lt_ge_cases i 32) as [Hlt|Hge].
  - rewrite (four_bits b3 b2 b1 b0) by (done || lia). rewrite Z.lor_spec, !Z.land_spec, !rol_bits by (done || lia).
    assert (forall k, 0 <= k < 32 -> Z.testbit w k = if k <? 8 then Z.testbit b0 k else if k <? 16 then Z.testbit b1 (k - 8)
      else if k <? 24 then Z.testbit b2 (k - 16) else Z.testbit b3 (k - 24)) as Hwb by (intros; by apply four_bits).
    assert (In i (map Z.of_nat (seq 0 32))) as Hin by (apply in_map_iff; exists (Z.to_nat i); split; [lia|apply in_seq; lia]).
    vm_compute in Hin. clearbody w. repeat (destruct Hin as [<-|Hin]; [cbn; rewrite !Hwb by lia; cbn; by rewrite ?andb_true_r, ?andb_false_r, ?orb_false_r|]).
    all: try done.
  - rewrite (word_bits (Z.lor _ (Z.shiftl b0 24))) by (done || by apply four_word).
    rewrite Z.lor_spec, !Z.land_spec, !word_bits by (done || apply u32_word). done.
Qed.

(** ** The schedule *)

Lemma nth_load_words load n l k : (k < n)%nat -> nth k (load_words load n l) 0 = load (take 4 (drop (4 * k) l)).
Proof.
  revert l k. induction n as [|n IH]; intros l k Hk; [lia|]. destruct k as [|k]; cbn [load_words nth]; [done|].
  rewrite IH, drop_drop by lia. do 3 f_equal. lia.
Qed.
Lemma length_load_words load n l : length (load_words load n l) = n.
Proof. revert l. induction n as [|n IH]; intros l; cbn; [done|]. by rewrite IH. Qed.

Lemma fips_extend_nth n W t : (t < length W)%nat -> nth t (fips_extend n W) 0 = nth t W 0.
Proof.
  revert W. induction n as [|n IH]; intros W Ht; cbn [fips_extend]; [done|].
  rewrite IH by (rewrite length_app; lia). by apply app_nth1.
Qed.
Lemma fips_word_ext W W' t : (16 <= t)%nat -> (forall k, (k < t)%nat -> nth k W 0 = nth k W' 0) ->
  fips_word W t = fips_word W' t.
Proof. intros Ht H. unfold fips_word, back. by rewrite !H by lia. Qed.
Lemma fips_extend_word n W t : (16 <= length W)%nat -> (length W <= t < length W + n)%nat ->
  nth t (fips_extend n W) 0 = fips_word (fips_extend n W) t.
Proof.
  revert W. induction n as [|n IH]; intros W HW Ht; [lia|]. cbn [fips_extend].
  destruct (decide (t = length W)) as [->|Hne].
  - rewrite fips_extend_nth by (rewrite length_app; cbn; lia). rewrite app_nth2, Nat.sub_diag by lia. cbn [nth].
    apply fips_word_ext; [done|]. intros k Hk. rewrite fips_extend_nth by (rewrite length_app; cbn; lia).
    by rewrite app_nth1.
  - apply IH; rewrite length_app; cbn; lia.
Qed.

Lemma four_octets block k : bytes block -> length block = 64%nat -> (k < 16)%nat -> exists b0 b1 b2 b3, take 4 (drop (4 * k) block) = [b0; b1; b2; b3] /\
  is_byte b0 /\ is_byte b1 /\ is_byte b2 /\ is_byte b3.
Proof.
  intros Hb Hl Hk. assert (bytes (take 4 (drop (4 * k) block))) as Hq by by apply Forall_take, Forall_drop.
  assert (length (take 4 (drop (4 * k) block)) = 4%nat) as H4 by (rewrite length_take, length_drop; lia).
  destruct (take 4 _) as [|b0 [|b1 [|b2 [|b3 [|]]]]]; try discriminate H4. exists b0, b1, b2, b3.
  repeat (apply Forall_cons in Hq as [? Hq]). done.
Qed.

(** The schedule [W] and the words of the block as they are in memory. *)
Section ring.
Context (W raw : list Z) (Hraw_len : length raw = 16%nat)
  (W_first : forall k, (k < 16)%nat ->
    Z.lor (Z.land (rol (nth k raw 0) 24) 0xFF00FF00) (Z.land (rol (nth k raw 0) 8) 0x00FF00FF) = nth k W 0)
  (W_next : forall t, (16 <= t < 80)%nat -> nth t W 0 = fips_word W t).

(** The ring before round [t]: the last words of the schedule, and those of the
    block that are still to be turned round. *)
Definition ring (t : nat) (l : list Z) : Prop :=
  length l = 16%nat /\ (forall k, (t <= k < 16)%nat -> nth k l 0 = nth k raw 0) /\
  (forall k, (k < t <= k + 16)%nat -> nth (k mod 16) l 0 = nth k W 0).

Lemma ring_0 : ring 0 raw.
Proof. split; [done|]. split; [done|lia]. Qed.

Lemma ring_write t l : ring t l -> (t < 80)%nat -> ring (S t) (<[(t mod 16)%nat := nth t W 0]> l).
Proof.
  intros (Hlen & Hraw & Hw) Ht. pose proof (Nat.mod_upper_bound t 16 ltac:(lia)) as Hm.
  assert (forall j x, nth j (<[(t mod 16)%nat := x]> l) 0 = if decide (j = t mod 16)%nat then x else nth j l 0) as Hn.
  { intros j x. rewrite !nth_lookup. destruct (decide _) as [->|Hne].
    - by rewrite list_lookup_insert_eq by lia.
    - by rewrite list_lookup_insert_ne. }
  split; [by rewrite length_insert|]. split.
  - intros k Hk. rewrite Hn, Nat.mod_small by lia. destruct (decide _); [lia|]. apply Hraw. lia.
  - intros k Hk. rewrite Hn. destruct (decide (k = t)) as [->|Hne]; [by rewrite decide_True|].
    rewrite decide_False; [apply Hw; lia|]. pose proof (Nat.div_mod_eq k 16). pose proof (Nat.div_mod_eq t 16). nia.
Qed.

(** Both expansions give the word of the schedule and write it. *)
Lemma expand_first t l : ring t l -> (t < 16)%nat -> blk0 l t = (nth t W 0, <[(t mod 16)%nat := nth t W 0]> l).
Proof using Hraw_len W_first.
  intros (Hlen & Hraw & _) Ht. unfold blk0. cbv zeta. rewrite Hraw by lia. rewrite W_first by done.
  by rewrite Nat.mod_small by lia.
Qed.
Lemma expand_next t l : ring t l -> (16 <= t < 80)%nat -> blk l t = (nth t W 0, <[(t mod 16)%nat := nth t W 0]> l).
Proof.
  intros (_ & _ & Hw) Ht. unfold blk. cbv zeta.
  assert (forall k, (1 <= k <= 16)%nat -> nth ((t + (16 - k)) mod 16) l 0 = back W t k) as Hback.
  { intros k Hk. unfold back. rewrite <-Hw by lia. f_equal.
    replace (t + (16 - k))%nat with (t - k + 1 * 16)%nat by lia. by rewrite Nat.Div0.mod_add. }
  pose proof (Hback 3%nat ltac:(lia)) as H3. pose proof (Hback 8%nat ltac:(lia)) as H8.
  pose proof (Hback 14%nat ltac:(lia)) as H14. pose proof (Hback 16%nat ltac:(lia)) as H16.
  cbn [Nat.sub] in H3, H8, H14, H16. rewrite Nat.add_0_r in H16. rewrite H3, H8, H14, H16.
  pose proof (W_next t Ht) as HW. unfold fips_word in HW. rewrite <-HW. reflexivity.
Qed.

Definition words5 (st : Z * Z * Z * Z * Z) : Prop :=
  let '(a, b, c, d, e) := st in word a /\ word b /\ word c /\ word d /\ word e.

Lemma step_fips t st l : ring t l -> (t < 80)%nat -> words5 st ->
  exists l', sha1_step (st, l) t = (fips_round W st t, l') /\ ring (S t) l' /\ words5 (fips_round W st t).
Proof using Hraw_len W_first W_next.
  intros Hr Ht Hst. destruct st as [[[[a b] c] d] e]. destruct Hst as (Ha & Hbw & Hc & Hd & He).
  exists (<[(t mod 16)%nat := nth t W 0]> l). split; [|split; [by apply ring_write|]].
  2: { cbn. split_and!; (done || apply u32_word). }
  unfold sha1_step, fips_round, sha1_round, fips_f, fips_K.
  assert (forall f k, u32 (e + u32 (f + nth t W 0 + k + rol a 5)) = u32 (rol a 5 + f + e + k + nth t W 0)) as Hsum.
  { intros f k. unfold u32. rewrite Z.add_mod_idemp_r by done. f_equal. lia. }
  destruct (decide (t < 16)%nat) as [H16|H16].
  - rewrite expand_first by done. destruct (decide (t < 20)%nat); [|lia]. by rewrite Hsum, Ch_fips.
  - repeat destruct (decide _); rewrite expand_next, Hsum, ?Ch_fips, ?Maj_fips by (done || lia); done.
Qed.

Lemma rounds_fips n t st l : ring t l -> (t + n <= 80)%nat -> words5 st ->
  fst (foldl sha1_step (st, l) (seq t n)) = foldl (fips_round W) st (seq t n).
Proof using Hraw_len W_first W_next.
  revert t st l. induction n as [|n IH]; intros t st l Hr Ht Hst; [done|]. cbn [seq foldl].
  destruct (step_fips t st l Hr ltac:(lia) Hst) as (l' & -> & Hr' & Hst'). apply IH; (done || lia).
Qed.

End ring.

Lemma transform_fips block st : bytes block -> length block = 64%nat -> words5 st ->
  SHA1Transform st block = fips_compress st block /\ words5 (fips_compress st block).
Proof.
  intros Hb Hl Hst. unfold SHA1Transform, fips_compress.
  assert (forall k, (k < 16)%nat ->
    Z.lor (Z.land (rol (nth k (load_words load_le32 16 block) 0) 24) 0xFF00FF00)
          (Z.land (rol (nth k (load_words load_le32 16 block) 0) 8) 0x00FF00FF) = nth k (fips_schedule block) 0) as Hfirst.
  { intros k Hk. unfold fips_schedule. rewrite fips_extend_nth by by rewrite length_load_words.
    rewrite !nth_load_words by done. destruct (four_octets block k Hb Hl Hk) as (b0 & b1 & b2 & b3 & -> & ? & ? & ? & ?).
    by apply blk0_swap. }
  assert (forall t, (16 <= t < 80)%nat -> nth t (fips_schedule block) 0 = fips_word (fips_schedule block) t) as Hnext.
  { intros t Ht. unfold fips_schedule. apply fips_extend_word; rewrite length_load_words; lia. }
  pose proof (length_load_words load_le32 16 block) as Hlen.
  generalize dependent (fips_schedule block). intros W Hfirst Hnext. generalize dependent (load_words load_le32 16 block).
  intros raw Hlen Hfirst.
  pose proof (rounds_fips W raw Hlen Hfirst Hnext 80 0 st raw (ring_0 W raw Hlen) (le_n _) Hst) as H.
  destruct st as [[[[s0 s1] s2] s3] s4]. rewrite <-H.
  destruct (foldl _ _ _) as [[[[[a b] c] d] e] l]. cbn [fst]. split; [done|]. cbn. split_and!; apply u32_word.
Qed.

(** Over a message of octets. *)
Lemma absorb_fips st m : words5 st -> bytes m -> absorb SHA1Transform st m = absorb fips_compress st m.
Proof.
  intros Hst Hm. revert st Hst. induction m as [m Hs|b m Hb IH] using message_ind; intros st Hst.
  - by rewrite !absorb_short.
  - apply Forall_app in Hm as [Hbb Hm]. rewrite !absorb_block by done.
    destruct (transform_fips b st Hbb Hb Hst) as [-> Hw]. by apply IH.
Qed.

(** ** The hash function *)

Definition sha1_fips (m : list Z) : list Z := sha1_digest (absorb fips_compress sha1_start (md_pad WPA_PUT_BE64 m)).

Lemma md_pad_bytes len8 m : (forall v, bytes (len8 v)) -> bytes m -> bytes (md_pad len8 m).
Proof.
  intros H8 Hm. unfold md_pad. apply Forall_app_2; [done|]. constructor; [done|].
  apply Forall_app_2; [by apply Forall_replicate|apply H8].
Qed.

(** C16 (equivalence): over data areas that hold octets, [sha1_vector] is the SHA-1 of
    FIPS 180-2: [SHA1Transform], which expands the message in a ring of 16 words while
    it runs the unrolled rounds, turns the octets of each word round with rotations and
    masks and writes the functions with fewer operations, is the standard's compression
    with its schedule of 80 words, its big-endian words and its functions. *)
Theorem sha1_vector_fips ctx addr : length (buffer ctx) = 64%nat -> Forall fits addr ->
  Forall (Forall is_byte) addr -> sha1_vector ctx addr = (0, sha1_fips (concat addr)).
Proof.
  intros Hl Hf Hb. rewrite SHA1.vector_sha1 by done. unfold SHA1.sha1, sha1_fips. rewrite absorb_fips; [done| |].
  - unfold sha1_start. cbn. unfold word. lia.
  - apply md_pad_bytes; [|by apply Forall_concat].
    intros v. unfold WPA_PUT_BE64. apply Forall_map, Forall_forall. intros k _. apply u8_byte.
Qed.

Lemma sha1_vector_fips_witness :
  sha1_vector {| state := (1, 2, 3, 4, 5); count0 := 6; count1 := 7; buffer := replicate 64 8 |} [[97]; [98; 99]] =
  (0, sha1_fips [97; 98; 99]).
Proof.
  apply (sha1_vector_fips {| state := (1, 2, 3, 4, 5); count0 := 6; count1 := 7; buffer := replicate 64 8 |}
    [[97]; [98; 99]]); [done|by repeat constructor|repeat constructor; done].
Defined.
