(* ===== verification/Hmac.v ===== *)
(** * crypto/md5.c, sha1.c, sha256.c, sha1-pbkdf2.c: HMAC and key derivation

    The functions write into a buffer of the caller, which is an argument here: it
    keeps its contents where the code leaves it alone.  What the stack holds where a
    hash function puts its context is an argument, too. *)

From S2P Require Import Prelude Hash.
From S2P Require Md5 Sha1 Sha256.

Section hmac.
Context (md5_stack : Md5.MD5Context) (sha1_stack : Sha1.SHA1Context) (sha256_stack : Sha256.sha256_state).

Definition md5_vector (addr : list (list Z)) : Z * list Z := Md5.md5_vector md5_stack addr.
Definition sha1_vector (addr : list (list Z)) : Z * list Z := Sha1.sha1_vector sha1_stack addr.
Definition sha256_vector (addr : list (list Z)) (mac : list Z) : Z * list Z := Sha256.sha256_vector sha256_stack addr mac.

(** [os_memset(k_pad, 0, 64); os_memcpy(k_pad, key, key_len);] and the loop that
    xors [pad]. *)
Definition k_pad (key : list Z) (pad : Z) : list Z := map (fun b => Z.lxor b pad) (put_at (replicate 64 0) 0 key).

(** ** md5.c *)

Definition hmac_md5_vector (key : list Z) (addr : list (list Z)) (mac : list Z) : Z * list Z :=
  if decide (5 < length addr)%nat then (-1, mac)
  else
    let '(r, key) := if 64 <? zlen key then md5_vector [key] else (0, key) in
    if negb (r =? 0) then (-1, mac)
    else
      let '(r, mac) := md5_vector (k_pad key 0x36 :: addr) in
      if negb (r =? 0) then (-1, mac) else md5_vector [k_pad key 0x5c; mac].
Definition hmac_md5 (key data mac : list Z) : Z * list Z := hmac_md5_vector key [data] mac.

(** ** sha1.c *)

Definition hmac_sha1_vector (key : list Z) (addr : list (list Z)) (mac : list Z) : Z * list Z :=
  if decide (5 < length addr)%nat then (-1, mac)
  else
    let '(r, key) := if 64 <? zlen key then sha1_vector [key] else (0, key) in
    if negb (r =? 0) then (-1, mac)
    else
      let '(r, mac) := sha1_vector (k_pad key 0x36 :: addr) in
      if negb (r =? 0) then (-1, mac) else sha1_vector [k_pad key 0x5c; mac].
Definition hmac_sha1 (key data mac : list Z) : Z * list Z := hmac_sha1_vector key [data] mac.

Definition SHA1_MAC_LEN : nat := 20.

(** [while (pos < buf_len)]: a turn writes an octet at least.  [counter] is a
    [u8]; [label] comes with its NUL. *)
Fixpoint sha1_prf_loop (fuel : nat) (key label data : list Z) (counter : Z) (pos : nat) (buf : list Z) : Z * list Z :=
  match fuel with
  | O => (0, buf)
  | S fuel =>
      if decide (pos < length buf)%nat then
        let plen := (length buf - pos)%nat in
        let addr := [label; data; [counter]] in
        if decide (SHA1_MAC_LEN <= plen)%nat then
          let '(r, mac) := hmac_sha1_vector key addr (take SHA1_MAC_LEN (drop pos buf)) in
          let buf := put_at buf pos mac in
          if negb (r =? 0) then (-1, buf)
          else sha1_prf_loop fuel key label data (u8 (counter + 1)) (pos + SHA1_MAC_LEN) buf
        else
          let '(r, hash) := hmac_sha1_vector key addr (replicate SHA1_MAC_LEN 0) in
          if negb (r =? 0) then (-1, buf) else (0, put_at buf pos (take plen hash))
      else (0, buf)
  end.
Definition sha1_prf (key label data buf : list Z) : Z * list Z :=
  sha1_prf_loop (length buf) key (label ++ [0]) data 0 0 buf.

(** ** sha256.c *)

(** Nothing is returned: what [mac] holds then. *)
Definition hmac_sha256_vector (key : list Z) (addr : list (list Z)) (mac tk : list Z) : list Z :=
  if decide (5 < length addr)%nat then mac
  else
    let key := if 64 <? zlen key then snd (sha256_vector [key] tk) else key in
    let mac := snd (sha256_vector (k_pad key 0x36 :: addr) mac) in
    snd (sha256_vector [k_pad key 0x5c; mac] mac).
Definition hmac_sha256 (key data mac tk : list Z) : list Z := hmac_sha256_vector key [data] mac tk.

Definition SHA256_MAC_LEN : nat := 32.

(** [counter] is a [u16]. *)
Fixpoint sha256_prf_loop (fuel : nat) (key label data length_le tk : list Z) (counter : Z) (pos : nat) (buf : list Z)
    : list Z :=
  match fuel with
  | O => buf
  | S fuel =>
      if decide (pos < length buf)%nat then
        let plen := (length buf - pos)%nat in
        let addr := [WPA_PUT_LE16 counter; label; data; length_le] in
        if decide (SHA256_MAC_LEN <= plen)%nat then
          let mac := hmac_sha256_vector key addr (take SHA256_MAC_LEN (drop pos buf)) tk in
          sha256_prf_loop fuel key label data length_le tk (u16 (counter + 1)) (pos + SHA256_MAC_LEN) (put_at buf pos mac)
        else
          let hash := hmac_sha256_vector key addr (replicate SHA256_MAC_LEN 0) tk in
          put_at buf pos (take plen hash)
      else buf
  end.
Definition sha256_prf (key label data buf tk : list Z) : list Z :=
  sha256_prf_loop (length buf) key label data (WPA_PUT_LE16 (zlen buf * 8)) tk 1 0 buf.

(** ** sha1-pbkdf2.c *)

(** [digest[j] ^= tmp2[j]], and the iterations [i] to [iterations - 1]. *)
Fixpoint pbkdf2_loop (n : nat) (passphrase tmp digest : list Z) : Z * list Z :=
  match n with
  | O => (0, digest)
  | S n =>
      let '(r, tmp2) := hmac_sha1 passphrase tmp (replicate SHA1_MAC_LEN 0) in
      if negb (r =? 0) then (-1, digest)
      else pbkdf2_loop n passphrase tmp2 (zip_with Z.lxor digest tmp2)
  end.
Definition pbkdf2_sha1_f (passphrase ssid : list Z) (iterations count : Z) (digest : list Z) : Z * list Z :=
  let count_buf := map (fun k => Z.land (Z.shiftr count k) 0xff) [24; 16; 8; 0] in
  let '(r, tmp) := hmac_sha1_vector passphrase [ssid; count_buf] (replicate SHA1_MAC_LEN 0) in
  if negb (r =? 0) then (-1, digest) else pbkdf2_loop (Z.to_nat (iterations - 1)) passphrase tmp tmp.
(** [while (left > 0)]: a turn writes an octet at least. *)
Fixpoint pbkdf2_blocks (fuel : nat) (passphrase ssid : list Z) (iterations count : Z) (pos : nat) (digest buf : list Z)
    : Z * list Z :=
  match fuel with
  | O => (0, buf)
  | S fuel =>
      if decide (pos < length buf)%nat then
        let count := u32 (count + 1) in
        let '(r, digest) := pbkdf2_sha1_f passphrase ssid iterations count digest in
        if negb (r =? 0) then (-1, buf)
        else
          let plen := Nat.min SHA1_MAC_LEN (length buf - pos) in
          pbkdf2_blocks fuel passphrase ssid iterations count (pos + plen) digest (put_at buf pos (take plen digest))
      else (0, buf)
  end.
Definition pbkdf2_sha1 (passphrase ssid : list Z) (iterations : Z) (buf : list Z) : Z * list Z :=
  pbkdf2_blocks (length buf) passphrase ssid iterations 0 0 (replicate SHA1_MAC_LEN 0) buf.
End hmac.
