(* ===== verification/HmacProps.v ===== *)
(** * HMAC is RFC 2104, the derived keys are prefixes of its streams *)

From S2P Require Import Prelude Hash HashProps Hmac.
From S2P Require Md5 Sha1 Sha256.

(** ** RFC 2104 *)

(** [H(K xor opad, H(K xor ipad, text))], for a hash with blocks of 64 octets; a key
    that is longer than a block is hashed first. *)
Definition hmac_rfc2104 (H : list Z -> list Z) (key text : list Z) : list Z :=
  let key := if 64 <? zlen key then H key else key in
  let K0 := key ++ replicate (64 - length key) 0 in
  H (map (fun b => Z.lxor b 0x5c) K0 ++ H (map (fun b => Z.lxor b 0x36) K0 ++ text)).

Lemma k_pad_key key pad : (length key <= 64)%nat ->
  k_pad key pad = map (fun b => Z.lxor b pad) (key ++ replicate (64 - length key) 0).
Proof.
  intros. unfold k_pad, put_at. cbn [take app Nat.add]. by rewrite drop_replicate.
Qed.
Lemma k_pad_fits key pad : (length key <= 64)%nat -> length (k_pad key pad) = 64%nat /\ fits (k_pad key pad).
Proof.
  intros Hk. assert (length (k_pad key pad) = 64%nat) as E.
  { rewrite k_pad_key, length_map, length_app, length_replicate by done. lia. }
  split; [done|]. unfold fits, zlen. rewrite E. lia.
Qed.

Lemma length_concat_words l : length (concat (map WPA_PUT_BE32 l)) = (4 * length l)%nat.
Proof. induction l as [|w l IH]; [done|]. cbn [map concat length]. rewrite length_app, IH. cbn [length WPA_PUT_BE32]. lia. Qed.

Lemma length_sha256 m : length (SHA256.sha256 m) = 32%nat.
Proof.
  unfold SHA256.sha256. rewrite length_concat_words.
  enough (forall n st x, length st = 8%nat -> length (blocks Sha256.sha256_compress n st x) = 8%nat) as H.
  { unfold absorb. by rewrite H. }
  induction n as [|n IH]; intros st x Hst; cbn [blocks]; [done|]. apply IH. unfold Sha256.sha256_compress.
  by destruct (foldl _ _ _) as [[[[[[[? ?] ?] ?] ?] ?] ?] ?].
Qed.
Lemma length_sha1 m : length (SHA1.sha1 m) = 20%nat.
Proof. apply SHA1.length_sha1_digest. Qed.

Lemma md5_ok md5_stack addr : length (Md5.in_ md5_stack) = 64%nat -> Forall fits addr -> md5_vector md5_stack addr = (0, MD5.md5 (concat addr)).
Proof. intros Hm Ha. apply MD5.vector_md5; [done|]. eapply Forall_impl; [exact Ha|]. unfold fits. lia. Qed.
Lemma sha1_ok sha1_stack addr : length (Sha1.buffer sha1_stack) = 64%nat -> Forall fits addr -> sha1_vector sha1_stack addr = (0, SHA1.sha1 (concat addr)).
Proof. apply SHA1.vector_sha1. Qed.
Lemma sha256_ok sha256_stack addr mac : length (Sha256.buf sha256_stack) = 64%nat ->
  sha256_vector sha256_stack addr mac = (0, SHA256.sha256 (concat addr)).
Proof. apply SHA256.vector_sha256. Qed.

(** The three steps of the functions, for a hash that is right on vectors of short
    areas. *)
Lemma hmac_steps (V : list (list Z) -> Z * list Z) H n key addr :
  (forall a, Forall fits a -> V a = (0, H (concat a))) -> (forall m, length (H m) = n) -> (n <= 64)%nat ->
  fits key -> Forall fits addr ->
  (let '(r, key) := if 64 <? zlen key then V [key] else (0, key) in
   if negb (r =? 0) then (-1, @nil Z)
   else let '(r, mac) := V (k_pad key 0x36 :: addr) in
        if negb (r =? 0) then (-1, []) else V [k_pad key 0x5c; mac]) =
  (0, hmac_rfc2104 H key (concat addr)).
Proof.
  intros HV Hlen Hn Hk Ha. unfold hmac_rfc2104.
  assert (exists key', (if 64 <? zlen key then V [key] else (0, key)) = (0, key') /\
    (if 64 <? zlen key then H key else key) = key' /\ (length key' <= 64)%nat) as (key' & -> & -> & Hl).
  { destruct (Z.ltb_spec 64 (zlen key)) as [Hg|Hg].
    - rewrite HV by by constructor. cbn [concat]. rewrite app_nil_r. eexists. split_and!; [done..|]. rewrite Hlen. lia.
    - eexists. split_and!; [done..|]. unfold zlen in Hg. lia. }
  cbn [negb Z.eqb]. rewrite HV by (constructor; [by apply k_pad_fits|done]). cbn [negb Z.eqb concat].
  assert (forall m, fits (H m)) as HH by (intros m; unfold fits, zlen; rewrite Hlen; lia).
  rewrite HV by (repeat constructor; [by apply k_pad_fits|apply HH]). cbn [concat].
  by rewrite app_nil_r, !k_pad_key.
Qed.

Lemma hmac_md5_ok md5_stack key addr mac : length (Md5.in_ md5_stack) = 64%nat ->
  (length addr <= 5)%nat -> fits key -> Forall fits addr ->
  hmac_md5_vector md5_stack key addr mac = (0, hmac_rfc2104 MD5.md5 key (concat addr)).
Proof.
  intros Hs Hl Hk Ha.
  rewrite <-(hmac_steps (md5_vector md5_stack) MD5.md5 16 key addr (fun a => md5_ok _ a Hs) MD5.length_md5 ltac:(lia) Hk Ha).
  unfold hmac_md5_vector. destruct (decide _); [lia|]. destruct (64 <? zlen key); [rewrite md5_ok by (done || by constructor)|];
    cbn [negb Z.eqb]; unfold md5_vector, Md5.md5_vector; reflexivity.
Qed.

Lemma hmac_sha1_ok sha1_stack key addr mac : length (Sha1.buffer sha1_stack) = 64%nat ->
  (length addr <= 5)%nat -> fits key -> Forall fits addr ->
  hmac_sha1_vector sha1_stack key addr mac = (0, hmac_rfc2104 SHA1.sha1 key (concat addr)).
Proof.
  intros Hs Hl Hk Ha.
  rewrite <-(hmac_steps (sha1_vector sha1_stack) SHA1.sha1 20 key addr (fun a => sha1_ok _ a Hs) length_sha1 ltac:(lia) Hk Ha).
  unfold hmac_sha1_vector. destruct (decide _); [lia|]. destruct (64 <? zlen key); [rewrite sha1_ok by (done || by constructor)|];
    cbn [negb Z.eqb]; unfold sha1_vector, Sha1.sha1_vector; reflexivity.
Qed.

Lemma hmac_sha256_ok sha256_stack key addr mac tk : length (Sha256.buf sha256_stack) = 64%nat ->
  (length addr <= 5)%nat ->
  hmac_sha256_vector sha256_stack key addr mac tk = hmac_rfc2104 SHA256.sha256 key (concat addr).
Proof.
  intros Hs Hl. unfold hmac_sha256_vector, hmac_rfc2104. destruct (decide _); [lia|]. rewrite !sha256_ok by done. cbn [snd concat].
  set (key' := if 64 <? zlen key then SHA256.sha256 key else key).
  rewrite !app_nil_r. assert ((if 64 <? zlen key then SHA256.sha256 key else key) = key') as -> by done.
  assert (length key' <= 64)%nat.
  { subst key'. destruct (Z.ltb_spec 64 (zlen key)) as [Hg|Hg]; [rewrite length_sha256; lia|unfold zlen in Hg; lia]. }
  by rewrite !k_pad_key.
Qed.

(** More than five areas. *)
Lemma hmac_refuses md5_stack sha1_stack sha256_stack key addr mac tk : (5 < length addr)%nat ->
  hmac_md5_vector md5_stack key addr mac = (-1, mac) /\ hmac_sha1_vector sha1_stack key addr mac = (-1, mac) /\
  hmac_sha256_vector sha256_stack key addr mac tk = mac.
Proof.
  intros Hl. unfold hmac_md5_vector, hmac_sha1_vector, hmac_sha256_vector. by repeat destruct (decide _).
Qed.

(** ** Streams of blocks *)

Section stream.
Context (T : nat -> list Z) (L : nat) (HT : forall i, length (T i) = L) (HL : (0 < L)%nat).

Definition stream (k : nat) : list Z := concat (map T (seq 0 k)).
Lemma stream_S k : stream (S k) = stream k ++ T k.
Proof. unfold stream. rewrite seq_S, map_app, concat_app. cbn. by rewrite app_nil_r. Qed.
Lemma length_stream k : length (stream k) = (L * k)%nat.
Proof. induction k as [|k IH]; [cbn; lia|]. rewrite stream_S, length_app, IH, HT. lia. Qed.
Lemma stream_prefix j k : (j <= k)%nat -> take (L * j) (stream k) = stream j.
Proof.
  induction 1 as [|k Hk IH]; [apply take_ge; rewrite length_stream; lia|].
  rewrite stream_S, take_app_le, IH; [done|]. rewrite length_stream. nia.
Qed.
(** The first [n] octets, whatever the number of blocks. *)
Definition prefix (n : nat) : list Z := take n (stream (S (n / L))).
Lemma prefix_take n k : (n <= L * k)%nat -> take n (stream k) = prefix n.
Proof.
  intros Hn. unfold prefix. pose proof (Nat.mul_succ_div_gt n L ltac:(lia)).
  destruct (Nat.le_ge_cases k (S (n / L))) as [Hk|Hk].
  - rewrite <-(stream_prefix k (S (n / L))), take_take by done. f_equal. lia.
  - rewrite <-(stream_prefix (S (n / L)) k), take_take by done. f_equal. lia.
Qed.
Lemma length_prefix n : length (prefix n) = n.
Proof. unfold prefix. rewrite length_take, length_stream. pose proof (Nat.mul_succ_div_gt n L ltac:(lia)). lia. Qed.

(** What a loop has written: [i] blocks. *)
Definition written (buf : list Z) (i : nat) : Prop := (L * i <= length buf)%nat /\ take (L * i) buf = stream i.
Lemma written_0 buf : written buf 0.
Proof using Type. split; [rewrite Nat.mul_0_r; apply Nat.le_0_l|]. by rewrite Nat.mul_0_r. Qed.
Lemma written_block buf i : written buf i -> (L * S i <= length buf)%nat ->
  length (put_at buf (L * i) (T i)) = length buf /\ written (put_at buf (L * i) (T i)) (S i).
Proof.
  intros [Hi Ht] Hl. assert (length (put_at buf (L * i) (T i)) = length buf) as E by (apply length_put_at; rewrite HT; lia).
  split; [done|]. split; [lia|]. replace (L * S i)%nat with (L * i + length (T i))%nat by (rewrite HT; lia).
  rewrite take_put_at, Ht, stream_S by (rewrite HT; lia). done.
Qed.
Lemma written_all buf i : written buf i -> (length buf <= L * i)%nat -> buf = prefix (length buf).
Proof.
  intros [Hi Ht] Hl. rewrite <-(prefix_take (length buf) i) by lia. rewrite <-Ht, take_take.
  by rewrite take_ge by lia.
Qed.
Lemma written_last buf i : written buf i -> (L * i <= length buf < L * S i)%nat ->
  put_at buf (L * i) (take (length buf - L * i) (T i)) = prefix (length buf).
Proof.
  intros [Hi Ht] Hl. rewrite <-(prefix_take (length buf) (S i)), stream_S by lia.
  assert (length (take (length buf - L * i) (T i)) = length buf - L * i)%nat as E by (rewrite length_take, HT; lia).
  rewrite put_at_full by lia. rewrite Ht. rewrite take_app_ge by (rewrite length_stream; lia).
  by rewrite length_stream.
Qed.
End stream.

(** IEEE 802.11i, 8.5.1.1, with the counter in an octet. *)
Definition prf_block (key label data : list Z) (i : nat) : list Z :=
  hmac_rfc2104 SHA1.sha1 key (label ++ [0] ++ data ++ [u8 (Z.of_nat i)]).
(** IEEE 802.11r, 8.5.1.5.2: the counter and the number of bits in front and behind. *)
Definition kdf_block (key label data : list Z) (n : Z) (i : nat) : list Z :=
  hmac_rfc2104 SHA256.sha256 key (WPA_PUT_LE16 (Z.of_nat i + 1) ++ label ++ data ++ WPA_PUT_LE16 (n * 8)).

Lemma length_hmac_sha1 key m : length (hmac_rfc2104 SHA1.sha1 key m) = 20%nat.
Proof. apply length_sha1. Qed.
Lemma length_hmac_sha256 key m : length (hmac_rfc2104 SHA256.sha256 key m) = 32%nat.
Proof. apply length_sha256. Qed.

Lemma u8_next i : u8 (u8 (Z.of_nat i) + 1) = u8 (Z.of_nat (S i)).
Proof. unfold u8. rewrite Z.add_mod_idemp_l by done. f_equal. lia. Qed.

Section derive_sha1.
Context (sha1_stack : Sha1.SHA1Context) (Hs1 : length (Sha1.buffer sha1_stack) = 64%nat).

Lemma sha1_prf_loop_ok fuel key label data i buf : fits key -> fits (label ++ [0]) -> fits data ->
  written (prf_block key label data) 20 buf i -> (length buf - 20 * i <= fuel)%nat ->
  sha1_prf_loop sha1_stack fuel key (label ++ [0]) data (u8 (Z.of_nat i)) (20 * i) buf =
  (0, prefix (prf_block key label data) 20 (length buf)).
Proof.
  intros Hk Hl Hd. assert (forall i, length (prf_block key label data i) = 20%nat) as HT
    by (intros; apply length_hmac_sha1).
  revert i buf. induction fuel as [|fuel IH]; intros i buf Hw Hf; cbn [sha1_prf_loop].
  { pose proof Hw as [? _]. by rewrite <-(written_all _ 20 HT ltac:(lia) buf i Hw) by lia. }
  destruct (decide (20 * i < length buf)%nat) as [Hlt|Hge];
    [|by rewrite <-(written_all _ 20 HT ltac:(lia) buf i Hw) by lia].
  assert (forall mac, hmac_sha1_vector sha1_stack key [label ++ [0]; data; [u8 (Z.of_nat i)]] mac =
    (0, prf_block key label data i)) as Hh.
  { intros mac. rewrite hmac_sha1_ok by (done || (cbn; lia) || by repeat constructor).
    unfold prf_block. cbn [concat]. by rewrite app_nil_r, <-app_assoc. }
  rewrite !Hh. cbn [negb Z.eqb]. unfold SHA1_MAC_LEN. destruct (decide _) as [H20|H20].
  - destruct (written_block _ 20 HT ltac:(lia) buf i Hw) as [Hl' Hw']; [lia|]. rewrite u8_next.
    replace (20 * i + 20)%nat with (20 * S i)%nat by lia. rewrite IH by (done || lia). by rewrite Hl'.
  - by rewrite written_last by (done || lia).
Qed.

Lemma sha1_prf_ok key label data buf : fits key -> fits (label ++ [0]) -> fits data ->
  sha1_prf sha1_stack key label data buf = (0, prefix (prf_block key label data) 20 (length buf)).
Proof.
  intros. apply (sha1_prf_loop_ok (length buf) key label data 0 buf); [done..|apply written_0|lia].
Qed.

End derive_sha1.

Lemma LE16_next i : u16 (u16 (Z.of_nat i + 1) + 1) = u16 (Z.of_nat (S i) + 1).
Proof. unfold u16. rewrite Z.add_mod_idemp_l by done. f_equal. lia. Qed.
Lemma LE16_u16 v : WPA_PUT_LE16 (u16 v) = WPA_PUT_LE16 v.
Proof. unfold WPA_PUT_LE16, u16. by rewrite Z.mod_mod. Qed.

Section derive_sha256.
Context (sha256_stack : Sha256.sha256_state) (Hs2 : length (Sha256.buf sha256_stack) = 64%nat).

Lemma sha256_prf_loop_ok fuel key label data n tk i buf :
  written (kdf_block key label data n) 32 buf i -> (length buf - 32 * i <= fuel)%nat ->
  sha256_prf_loop sha256_stack fuel key label data (WPA_PUT_LE16 (n * 8)) tk (u16 (Z.of_nat i + 1)) (32 * i) buf =
  prefix (kdf_block key label data n) 32 (length buf).
Proof.
  assert (forall i, length (kdf_block key label data n i) = 32%nat) as HT by (intros; apply length_hmac_sha256).
  revert i buf. induction fuel as [|fuel IH]; intros i buf Hw Hf; cbn [sha256_prf_loop].
  { pose proof Hw as [? _]. by rewrite <-(written_all _ 32 HT ltac:(lia) buf i Hw) by lia. }
  destruct (decide (32 * i < length buf)%nat) as [Hlt|Hge];
    [|by rewrite <-(written_all _ 32 HT ltac:(lia) buf i Hw) by lia].
  assert (forall mac, hmac_sha256_vector sha256_stack key
    [WPA_PUT_LE16 (u16 (Z.of_nat i + 1)); label; data; WPA_PUT_LE16 (n * 8)] mac tk = kdf_block key label data n i) as Hh.
  { intros mac. rewrite hmac_sha256_ok by (done || (cbn; lia)).
    unfold kdf_block. cbn [concat]. by rewrite app_nil_r, LE16_u16. }
  rewrite !Hh. unfold SHA256_MAC_LEN. destruct (decide _) as [H32|H32].
  - destruct (written_block _ 32 HT ltac:(lia) buf i Hw) as [Hl' Hw']; [lia|]. rewrite LE16_next.
    replace (32 * i + 32)%nat with (32 * S i)%nat by lia. rewrite IH by (done || lia). by rewrite Hl'.
  - by rewrite written_last by (done || lia).
Qed.

Lemma sha256_prf_ok key label data buf tk :
  sha256_prf sha256_stack key label data buf tk = prefix (kdf_block key label data (zlen buf)) 32 (length buf).
Proof. apply (sha256_prf_loop_ok (length buf) key label data (zlen buf) tk 0 buf); [apply written_0|lia]. Qed.

End derive_sha256.

(** *** PKCS #5 v2.0, 5.2 *)
Fixpoint pbkdf2_U (passphrase salt : list Z) (j : nat) : list Z :=
  match j with
  | O => hmac_rfc2104 SHA1.sha1 passphrase salt
  | S j => hmac_rfc2104 SHA1.sha1 passphrase (pbkdf2_U passphrase salt j)
  end.
Definition pbkdf2_F (passphrase ssid : list Z) (c : nat) (i : nat) : list Z :=
  let U := pbkdf2_U passphrase (ssid ++ WPA_PUT_BE32 (Z.of_nat i + 1)) in
  foldl (zip_with Z.lxor) (U O) (map U (seq 1 (c - 1))).

Lemma length_pbkdf2_F passphrase ssid c i : length (pbkdf2_F passphrase ssid c i) = 20%nat.
Proof.
  unfold pbkdf2_F. cbv zeta. generalize (length_hmac_sha1 passphrase (ssid ++ WPA_PUT_BE32 (Z.of_nat i + 1))).
  set (U := pbkdf2_U _ _). change (hmac_rfc2104 _ _ _) with (U O).
  assert (forall j, length (U j) = 20%nat) as HU by (intros []; apply length_hmac_sha1).
  generalize (U O). induction (seq 1 (c - 1)) as [|j l IH]; intros d Hd; cbn [map foldl]; [done|].
  apply IH. rewrite length_zip_with, HU. lia.
Qed.

Section derive_pbkdf2.
Context (sha1_stack : Sha1.SHA1Context) (Hs1 : length (Sha1.buffer sha1_stack) = 64%nat).

Lemma pbkdf2_loop_ok n passphrase salt j digest : fits passphrase ->
  pbkdf2_loop sha1_stack n passphrase (pbkdf2_U passphrase salt j) digest =
  (0, foldl (zip_with Z.lxor) digest (map (pbkdf2_U passphrase salt) (seq (S j) n))).
Proof.
  intros Hp. revert j digest. induction n as [|n IH]; intros j digest; cbn [pbkdf2_loop]; [done|].
  unfold hmac_sha1. rewrite hmac_sha1_ok.
  - cbn [concat negb Z.eqb seq map foldl]. rewrite app_nil_r. apply (IH (S j)).
  - done.
  - cbn. lia.
  - done.
  - constructor; [|done]. unfold fits, zlen. destruct j; cbn [pbkdf2_U]; rewrite length_hmac_sha1; lia.
Qed.

Lemma pbkdf2_f_ok passphrase ssid c i digest : fits passphrase -> fits ssid ->
  pbkdf2_sha1_f sha1_stack passphrase ssid (Z.of_nat c) (u32 (Z.of_nat i + 1)) digest = (0, pbkdf2_F passphrase ssid c i).
Proof.
  intros Hp Hs. unfold pbkdf2_sha1_f. rewrite hmac_sha1_ok by (done || (cbn; lia) || by repeat constructor).
  cbn [negb Z.eqb concat]. rewrite app_nil_r. set (salt := ssid ++ _).
  replace (Z.to_nat (Z.of_nat c - 1)) with (c - 1)%nat by lia.
  rewrite (pbkdf2_loop_ok (c - 1) passphrase salt 0) by done. unfold pbkdf2_F.
  assert (salt = ssid ++ WPA_PUT_BE32 (Z.of_nat i + 1)) as ->; [|done].
  unfold salt, WPA_PUT_BE32. f_equal. cbn [map]. rewrite Z.shiftr_0_r.
  assert (forall x, u8 (Z.land x 255) = Z.land x 255) as E by (intros x; rewrite land_255; unfold u8; by rewrite Z.mod_mod).
  by rewrite !E.
Qed.

Lemma u32_next i : u32 (u32 (Z.of_nat i) + 1) = u32 (Z.of_nat i + 1).
Proof. unfold u32. by rewrite Z.add_mod_idemp_l. Qed.

Lemma pbkdf2_blocks_ok fuel passphrase ssid c i digest buf : fits passphrase -> fits ssid ->
  written (pbkdf2_F passphrase ssid c) 20 buf i -> (length buf - 20 * i <= fuel)%nat ->
  pbkdf2_blocks sha1_stack fuel passphrase ssid (Z.of_nat c) (u32 (Z.of_nat i)) (20 * i) digest buf =
  (0, prefix (pbkdf2_F passphrase ssid c) 20 (length buf)).
Proof.
  intros Hp Hs. pose proof (length_pbkdf2_F passphrase ssid c) as HT.
  revert i digest buf. induction fuel as [|fuel IH]; intros i digest buf Hw Hf; cbn [pbkdf2_blocks].
  { pose proof Hw as [? _]. by rewrite <-(written_all _ 20 HT ltac:(lia) buf i Hw) by lia. }
  destruct (decide (20 * i < length buf)%nat) as [Hlt|Hge];
    [|by rewrite <-(written_all _ 20 HT ltac:(lia) buf i Hw) by lia].
  rewrite u32_next, pbkdf2_f_ok by done. cbn [negb Z.eqb]. unfold SHA1_MAC_LEN.
  destruct (Nat.le_gt_cases 20 (length buf - 20 * i)) as [H20|H20].
  - rewrite Nat.min_l, take_ge by (rewrite ?HT; lia). destruct (written_block _ 20 HT ltac:(lia) buf i Hw) as [Hl' Hw']; [lia|].
    replace (20 * i + 20)%nat with (20 * S i)%nat by lia.
    replace (u32 (Z.of_nat i + 1)) with (u32 (Z.of_nat (S i))) by (f_equal; lia).
    rewrite IH by (done || lia). by rewrite Hl'.
  - rewrite Nat.min_r by lia. rewrite written_last by (done || lia).
    destruct fuel; cbn [pbkdf2_blocks]; [done|]. destruct (decide _) as [Hn|]; [|done].
    rewrite length_prefix in Hn by (done || lia). lia.
Qed.

Lemma pbkdf2_ok passphrase ssid c buf : fits passphrase -> fits ssid ->
  pbkdf2_sha1 sha1_stack passphrase ssid (Z.of_nat c) buf = (0, prefix (pbkdf2_F passphrase ssid c) 20 (length buf)).
Proof. intros. apply (pbkdf2_blocks_ok (length buf) passphrase ssid c 0); [done..|apply written_0|lia]. Qed.
End derive_pbkdf2.

(** ** The properties *)

(** C13 (equivalence): over at most five data areas, with a key and areas whose lengths
    fit the [u32]s of the hash functions, [hmac_md5_vector], [hmac_sha1_vector] and
    [hmac_sha256_vector] give the HMAC of RFC 2104 of the areas put together, whatever
    the stack and the output buffer held; over more than five they leave the output
    alone, and the first two answer -1 (the third cannot tell its caller). *)
Theorem hmac_vectors_rfc2104 md5_stack sha1_stack sha256_stack key addr mac tk :
  length (Md5.in_ md5_stack) = 64%nat -> length (Sha1.buffer sha1_stack) = 64%nat ->
  length (Sha256.buf sha256_stack) = 64%nat -> fits key -> Forall fits addr ->
  (hmac_md5_vector md5_stack key addr mac, hmac_sha1_vector sha1_stack key addr mac,
   hmac_sha256_vector sha256_stack key addr mac tk) =
  if decide (length addr <= 5)%nat then
    ((0, hmac_rfc2104 MD5.md5 key (concat addr)), (0, hmac_rfc2104 SHA1.sha1 key (concat addr)),
     hmac_rfc2104 SHA256.sha256 key (concat addr))
  else ((-1, mac), (-1, mac), mac).
Proof.
  intros Hm Hs1 Hs2 Hk Ha. destruct (decide (length addr <= 5)%nat) as [Hl|Hl].
  - by rewrite hmac_md5_ok, hmac_sha1_ok, hmac_sha256_ok.
  - destruct (hmac_refuses md5_stack sha1_stack sha256_stack key addr mac tk ltac:(lia)) as (-> & -> & ->). done.
Qed.

(** C19 (functional): [sha1_prf], [sha256_prf] and [pbkdf2_sha1] end with the whole
    output buffer written: its octets are the first of the standards' streams of
    blocks (IEEE 802.11i 8.5.1.1 with its counter in an octet, IEEE 802.11r 8.5.1.5.2,
    PKCS #5 v2.0 5.2), whether or not the last block is needed in full. *)
Theorem prf_prefixes sha1_stack sha256_stack key label data salt c buf tk :
  length (Sha1.buffer sha1_stack) = 64%nat -> length (Sha256.buf sha256_stack) = 64%nat ->
  fits key -> fits (label ++ [0]) -> fits data -> fits salt ->
  sha1_prf sha1_stack key label data buf = (0, prefix (prf_block key label data) 20 (length buf)) /\
  sha256_prf sha256_stack key label data buf tk = prefix (kdf_block key label data (zlen buf)) 32 (length buf) /\
  pbkdf2_sha1 sha1_stack key salt (Z.of_nat c) buf = (0, prefix (pbkdf2_F key salt c) 20 (length buf)).
Proof. intros. split_and!; [by apply sha1_prf_ok|by apply sha256_prf_ok|by apply pbkdf2_ok]. Qed.

(** Contexts to run the functions in. *)
Definition md5_junk : Md5.MD5Context :=
  {| Md5.buf := (1, 2, 3, 4); Md5.bits0 := 5; Md5.bits1 := 6; Md5.in_ := replicate 64 7 |}.
Definition sha1_junk : Sha1.SHA1Context :=
  {| Sha1.state := (1, 2, 3, 4, 5); Sha1.count0 := 6; Sha1.count1 := 7; Sha1.buffer := replicate 64 8 |}.
Definition sha256_junk : Sha256.sha256_state :=
  {| Sha256.length_ := 1; Sha256.state := [2]; Sha256.curlen := 3; Sha256.buf := replicate 64 4 |}.

Lemma hmac_vectors_rfc2104_witness :
  (hmac_md5_vector md5_junk [1; 2] [[3]; [4; 5]] [], hmac_sha1_vector sha1_junk [1; 2] [[3]; [4; 5]] [],
   hmac_sha256_vector sha256_junk [1; 2] [[3]; [4; 5]] [] []) =
  ((0, hmac_rfc2104 MD5.md5 [1; 2] [3; 4; 5]), (0, hmac_rfc2104 SHA1.sha1 [1; 2] [3; 4; 5]),
   hmac_rfc2104 SHA256.sha256 [1; 2] [3; 4; 5]).
Proof.
  apply (hmac_vectors_rfc2104 md5_junk sha1_junk sha256_junk [1; 2] [[3]; [4; 5]] [] []);
    [done|done|done|done|by repeat constructor].
Defined.

Lemma prf_prefixes_witness :
  sha1_prf sha1_junk [1] [65] [2; 3] (replicate 45 0) = (0, prefix (prf_block [1] [65] [2; 3]) 20 45) /\
  sha256_prf sha256_junk [1] [65] [2; 3] (replicate 45 0) [] = prefix (kdf_block [1] [65] [2; 3] 45) 32 45 /\
  pbkdf2_sha1 sha1_junk [1] [9] 2 (replicate 45 0) = (0, prefix (pbkdf2_F [1] [9] 2) 20 45).
Proof. apply (prf_prefixes sha1_junk sha256_junk [1] [65] [2; 3] [9] 2 (replicate 45 0) []); done. Defined.

(** RFC 2202, test case 2 of each function; IEEE 802.11i, H.4.1 with few iterations. *)
Example hmac_rfc2202 :
  let key := [74; 101; 102; 101] in
  let text := [119; 104; 97; 116; 32; 100; 111; 32; 121; 97; 32; 119; 97; 110; 116; 32; 102; 111; 114; 32;
               110; 111; 116; 104; 105; 110; 103; 63] in
  hmac_md5 md5_junk key text [] =
    (0, [0x75; 0x0c; 0x78; 0x3e; 0x6a; 0xb0; 0xb5; 0x03; 0xea; 0xa8; 0x6e; 0x31; 0x0a; 0x5d; 0xb7; 0x38]) /\
  hmac_sha1 sha1_junk key text [] =
    (0, [0xef; 0xfc; 0xdf; 0x6a; 0xe5; 0xeb; 0x2f; 0xa2; 0xd2; 0x74; 0x16; 0xd5; 0xf1; 0x84; 0xdf; 0x9c;
         0x25; 0x9a; 0x7c; 0x79]).
Proof. vm_compute. done. Qed.
