(* ===== verification/Rc4.v ===== *)
(** * crypto/rc4.c

    The key stream does not depend on the data, so encrypting twice gives the data
    back.  The octets of the key are read one by one: an empty key is read too. *)

From S2P Require Import Prelude Aes AesProps.

(** [S_SWAP(a,b)] *)
Definition S_SWAP (box : list Z) (a b : nat) : list Z :=
  let t := nth a box 0 in let box := <[a := nth b box 0]> box in <[b := t]> box.

(** [for (i = 0; i < 256; i++)]: [n] turns are left. *)
Fixpoint rc4_setup (n : nat) (key : list Z) (i j kpos : Z) (box : list Z) : res (list Z) :=
  match n with
  | O => mret box
  | S n =>
      k ← rd key kpos;
      let j := Z.land (j + nth (Z.to_nat i) box 0 + k) 0xff in
      let kpos := kpos + 1 in
      let kpos := if zlen key <=? kpos then 0 else kpos in
      rc4_setup n key (i + 1) j kpos (S_SWAP box (Z.to_nat i) (Z.to_nat j))
  end.
(** A step of the key stream: the two indices and [S]. *)
Definition rc4_next (st : Z * Z * list Z) : Z * Z * list Z :=
  let '(i, j, box) := st in
  let i := Z.land (i + 1) 0xff in
  let j := Z.land (j + nth (Z.to_nat i) box 0) 0xff in
  (i, j, S_SWAP box (Z.to_nat i) (Z.to_nat j)).
Fixpoint rc4_drop (skip : nat) (st : Z * Z * list Z) : Z * Z * list Z :=
  match skip with O => st | S skip => rc4_drop skip (rc4_next st) end.
Fixpoint rc4_apply (st : Z * Z * list Z) (data : list Z) : list Z :=
  match data with
  | [] => []
  | x :: pos =>
      let '(i, j, box) := rc4_next st in
      let s k := nth (Z.to_nat k) box 0 in
      Z.lxor x (s (Z.land (s i + s j) 0xff)) :: rc4_apply (i, j, box) pos
  end.

(** The function returns 0. *)
Definition rc4_skip (key : list Z) (skip : Z) (data : list Z) : res (Z * list Z) :=
  box ← rc4_setup 256 key 0 0 0 (map Z.of_nat (seq 0 256));
  mret (0, rc4_apply (rc4_drop (Z.to_nat skip) (0, 0, box)) data).

(** ** Proofs *)

Lemma bytes_nth n box : bytes box -> is_byte (nth n box 0).
Proof.
  intros HS. destruct (Nat.lt_ge_cases n (length box)) as [H|H].
  - by apply (proj1 (List.Forall_nth is_byte box) HS).
  - by rewrite nth_overflow.
Qed.

Lemma S_SWAP_bytes box a b : bytes box -> bytes (S_SWAP box a b).
Proof. intros HS. unfold S_SWAP. apply Forall_insert; [apply Forall_insert; [done|]|]; by apply bytes_nth. Qed.

Lemma rc4_setup_ok n key i j kpos box : 0 <= kpos < zlen key -> bytes key -> bytes box ->
  runs (rc4_setup n key i j kpos box) bytes.
Proof.
  intros Hk Hb. revert i j kpos Hk box. induction n as [|n IH]; intros i j kpos Hk box HS; cbn [rc4_setup].
  { by apply runs_ret. }
  rewrite rd_ok by done. cbn [mbind res_bind]. apply IH; [|by apply S_SWAP_bytes].
  destruct (Z.leb_spec (zlen key) (kpos + 1)); lia.
Qed.

Definition stream_ok (st : Z * Z * list Z) : Prop := bytes (snd st).
Lemma rc4_next_ok st : stream_ok st -> stream_ok (rc4_next st).
Proof. destruct st as [[i j] box]. apply S_SWAP_bytes. Qed.
Lemma rc4_drop_ok n st : stream_ok st -> stream_ok (rc4_drop n st).
Proof. revert st. induction n as [|n IH]; intros st H; [done|]. by apply IH, rc4_next_ok. Qed.

Lemma rc4_apply_bytes st data : stream_ok st -> bytes data -> bytes (rc4_apply st data).
Proof.
  intros Hs Hd. revert st Hs. induction Hd as [|x pos Hx Hd IH]; intros st Hs; cbn [rc4_apply]; [by apply Forall_nil_2|].
  apply rc4_next_ok in Hs. destruct (rc4_next st) as [[i j] box]. constructor; [|by apply IH].
  apply is_byte_xor; [done|]. by apply bytes_nth.
Qed.

Lemma rc4_apply_twice st data : rc4_apply st (rc4_apply st data) = data.
Proof.
  revert st. induction data as [|x pos IH]; intros st; cbn [rc4_apply]; [done|].
  destruct (rc4_next st) as [[i j] box] eqn:E. cbn [rc4_apply]. rewrite E, IH.
  by rewrite Z.lxor_assoc, Z.lxor_nilpotent, Z.lxor_0_r.
Qed.

Lemma length_rc4_apply st data : length (rc4_apply st data) = length data.
Proof.
  revert st. induction data as [|x pos IH]; intros st; cbn [rc4_apply]; [done|].
  destruct (rc4_next st) as [[i j] box]. cbn [length]. by rewrite IH.
Qed.

(** With a key the function succeeds, and is its own inverse. *)
Lemma rc4_skip_ok key skip data : bytes key -> key <> [] ->
  exists e, rc4_skip key skip data = Ok (0, e) /\ length e = length data /\ (bytes data -> bytes e) /\
    rc4_skip key skip e = Ok (0, data).
Proof.
  intros Hk Hne. unfold rc4_skip.
  destruct (rc4_setup_ok 256 key 0 0 0 (map Z.of_nat (seq 0 256))) as (box & -> & HS).
  { destruct key; [done|]. zlen_lia. } { done. }
  { apply Forall_map, Forall_forall. intros k Hi. apply elem_of_seq in Hi. unfold is_byte. cbn. lia. }
  cbn [mbind res_bind mret res_ret]. eexists. split; [reflexivity|].
  split; [apply length_rc4_apply|]. split; [|by rewrite rc4_apply_twice].
  apply rc4_apply_bytes. by apply rc4_drop_ok.
Qed.

(** The key "Key", the text "Plaintext". *)
Example rc4_vector : rc4_skip [75; 101; 121] 0 [80; 108; 97; 105; 110; 116; 101; 120; 116] =
  Ok (0, [0xbb; 0xf3; 0x16; 0xe8; 0xd9; 0x40; 0xaf; 0x0a; 0xd3]).
Proof. vm_compute. reflexivity. Qed.
