(* ===== verification/CryptoInst.v ===== *)
(** * The cryptographic library of the handshake, from its source

    An instance of the classes [Crypto] and [KeyUnwrap] made of the functions of
    crypto/, the proof that it satisfies the laws the authenticator and the
    supplicant are verified against, and what the handshake's keys and checksums are
    with it, in terms of the standards. *)

From S2P Require Import Prelude Hash HashProps HmacProps AesProps AesModesProps AesMac WpaCommon.
From S2P Require Md5 Sha1 Sha256 Hmac Aes AesModes Rc4.

(** The octets of a C string, without its NUL. *)
Definition str_octets (s : string) : list Z := map (fun a => Z.of_nat (Ascii.nat_of_ascii a)) (String.list_ascii_of_string s).

(** What the environment gives: memory for the AES key schedule or not, and the
    former contents of the stack where the hash contexts are put. *)
Record machine := {
  os_malloc : Z -> bool;
  md5_stack : Md5.MD5Context;
  sha1_stack : Sha1.SHA1Context;
  sha256_stack : Sha256.sha256_state;
}.
Definition machine_ok (e : machine) : Prop :=
  length (Md5.in_ (md5_stack e)) = 64%nat /\ length (Sha1.buffer (sha1_stack e)) = 64%nat /\
  length (Sha256.buf (sha256_stack e)) = 64%nat.

(** The output if the function returned 0. *)
Definition on_success (p : Z * list Z) : option (list Z) := if fst p =? 0 then Some (snd p) else None.
Definition zeros (n : nat) : list Z := replicate n 0.

(** The arguments for which the code of key wrapping is meant: a key of 16 octets
    and blocks of 8. *)
Definition wrap_args (k d : list Z) : Prop := bytes k /\ length k = 16%nat /\ bytes d /\ (length d mod 8 = 0)%nat.
#[export] Instance is_byte_dec b : Decision (is_byte b).
Proof. unfold is_byte. apply _. Defined.
#[export] Instance wrap_args_dec k d : Decision (wrap_args k d).
Proof. unfold wrap_args. apply _. Defined.

Definition library (e : machine) : Crypto := {|
  hmac_md5 k m := on_success (Hmac.hmac_md5 (md5_stack e) k m (zeros 16));
  hmac_sha1 k m := on_success (Hmac.hmac_sha1 (sha1_stack e) k m (zeros 20));
  omac1_aes_128 k m := match AesModes.omac1_aes_128 (os_malloc e) k m with Ok p => on_success p | Fault _ => None end;
  sha1_prf k l d n := on_success (Hmac.sha1_prf (sha1_stack e) k (str_octets l) d (zeros (Z.to_nat n)));
  sha256_prf k l d n := Hmac.sha256_prf (sha256_stack e) k (str_octets l) d (zeros (Z.to_nat n)) (zeros 32);
  hmac_sha1_vector k m := snd (Hmac.hmac_sha1_vector (sha1_stack e) k m (zeros 20));
  hmac_sha256_vector k m := Hmac.hmac_sha256_vector (sha256_stack e) k m (zeros 32) (zeros 32);
  aes_wrap k p :=
    if decide (wrap_args k p) then on_success (AesModes.aes_wrap (os_malloc e) k (zlen p / 8) p) else None;
  rc4_skip k s d :=
    if decide (bytes k) then match Rc4.rc4_skip k s d with Ok (_, x) => x | Fault _ => d end else d;
|}.
Definition unwrap_library (e : machine) : KeyUnwrap := {|
  aes_unwrap k d :=
    if decide (wrap_args k d /\ 8 <= zlen d) then on_success (AesModes.aes_unwrap (os_malloc e) k (zlen d / 8 - 1) d)
    else None;
|}.

(** ** Lengths, whatever the arguments *)

Lemma on_success_len p h : on_success p = Some h -> h = snd p /\ fst p = 0.
Proof. unfold on_success. destruct (Z.eqb_spec (fst p) 0); [|done]. by intros [= <-]. Qed.

Lemma hmac_sha1_vector_length stack k m mac : length mac = 20%nat ->
  length (snd (Hmac.hmac_sha1_vector stack k m mac)) = 20%nat.
Proof.
  intros Hm. unfold Hmac.hmac_sha1_vector. destruct (decide _); [done|].
  destruct (if 64 <? zlen k then _ else _) as [r k']. destruct (negb (r =? 0)); [done|].
  cbn [Hmac.sha1_vector Sha1.sha1_vector fst snd negb Z.eqb]. apply SHA1.length_sha1_digest.
Qed.

Lemma hmac_sha256_vector_length e k m mac tk : machine_ok e -> length mac = 32%nat ->
  length (Hmac.hmac_sha256_vector (sha256_stack e) k m mac tk) = 32%nat.
Proof.
  intros (_ & _ & Hs) Hm. destruct (decide (5 < length m)%nat) as [H|H].
  - unfold Hmac.hmac_sha256_vector. by destruct (decide _).
  - rewrite hmac_sha256_ok by (done || lia). apply length_hmac_sha256.
Qed.

Lemma sha1_prf_length stack fuel key label data c pos buf : (pos <= length buf)%nat ->
  length (snd (Hmac.sha1_prf_loop stack fuel key label data c pos buf)) = length buf.
Proof.
  revert c pos buf. induction fuel as [|fuel IH]; intros c pos buf Hp; cbn [Hmac.sha1_prf_loop]; [done|].
  destruct (decide _); [|done]. unfold Hmac.SHA1_MAC_LEN. cbv zeta.
  pose proof (hmac_sha1_vector_length stack key) as Hlen.
  destruct (decide _) as [H20|H20].
  - specialize (Hlen [label; data; [c]] (take 20 (drop pos buf))). rewrite length_take, length_drop in Hlen.
    specialize (Hlen ltac:(lia)). destruct (Hmac.hmac_sha1_vector _ _ _ _) as [r mac]. cbn [snd] in Hlen.
    assert (length (put_at buf pos mac) = length buf) as E by (apply length_put_at; lia).
    destruct (negb (r =? 0)); [done|]. rewrite IH; [done|lia].
  - specialize (Hlen [label; data; [c]] (replicate 20 0) eq_refl).
    destruct (Hmac.hmac_sha1_vector _ _ _ _) as [r mac]. cbn [snd] in Hlen.
    destruct (negb (r =? 0)); [done|]. cbn [snd]. apply length_put_at. rewrite length_take. lia.
Qed.

Lemma unwrap_pass_octets dk n j k i a r : octets 8 a -> octets (8 * k) r ->
  octets 8 (fst (AesModes.unwrap_pass dk n j i k a r)) /\ octets (8 * k) (snd (AesModes.unwrap_pass dk n j i k a r)).
Proof.
  intros Ha. revert i r. induction k as [|k IH]; intros i r Hr; cbn [AesModes.unwrap_pass].
  { split; [done|]. split; [by apply Forall_nil_2|done]. }
  replace (8 * S k)%nat with (8 + 8 * k)%nat in * by lia.
  destruct (IH (i + 1) (drop 8 r) (octets_drop 8 _ _ Hr)) as [H1 H2].
  destruct (AesModes.unwrap_pass _ _ _ _ _ _ _) as [a' rst]. cbn [fst snd] in *.
  set (b := Aes.aes_decrypt _ _). assert (octets 16 b) as Hb by apply aes_decrypt_block.
  split; [by apply (octets_take 8 8)|]. apply octets_app; [by apply (octets_drop 8 8)|done].
Qed.

Lemma unwrap_loop_octets dk n m a r : 0 <= n -> octets 8 a -> octets (8 * Z.to_nat n) r ->
  octets (8 * Z.to_nat n) (snd (AesModes.unwrap_loop dk n m a r)).
Proof.
  intros Hn. revert a r. induction m as [|m IH]; intros a r Ha Hr; cbn [AesModes.unwrap_loop]; [done|].
  destruct (unwrap_pass_octets dk n (Z.of_nat m) (Z.to_nat n) 1 a r Ha Hr) as [H1 H2].
  destruct (AesModes.unwrap_pass _ _ _ _ _ _ _) as [a' r']. by apply IH.
Qed.

Lemma aes_unwrap_octets mall k n d p : 0 <= n -> bytes d -> zlen d = 8 * (n + 1) ->
  on_success (AesModes.aes_unwrap mall k n d) = Some p -> octets (8 * Z.to_nat n) p.
Proof.
  intros Hn Hb Hl. unfold AesModes.aes_unwrap. destruct (Aes.aes_decrypt_init _ _ _) as [ctx|]; [|done].
  assert (octets (8 + 8 * Z.to_nat n) d) as Hd by (split; [done|]; unfold zlen in Hl; lia).
  assert (octets (8 * Z.to_nat n) (take (Z.to_nat (8 * n)) (drop 8 d))) as Hr.
  { replace (Z.to_nat (8 * n)) with (8 * Z.to_nat n)%nat by lia.
    pose proof (octets_drop 8 _ _ Hd) as H. rewrite take_ge; [done|]. destruct H. lia. }
  pose proof (unwrap_loop_octets ctx n 6 _ _ Hn (octets_take 8 _ _ Hd) Hr) as H.
  destruct (AesModes.unwrap_loop _ _ _ _ _) as [a r]. intros E. apply on_success_len in E as [-> _]. exact H.
Qed.

(** ** The laws *)

Lemma hmac_md5_some stack k m h : on_success (Hmac.hmac_md5 stack k m (zeros 16)) = Some h -> zlen h = 16.
Proof.
  intros H. apply on_success_len in H as [-> Hr]. revert Hr. unfold Hmac.hmac_md5, Hmac.hmac_md5_vector.
  destruct (decide _); [done|]. destruct (if 64 <? zlen k then _ else _) as [r k'].
  destruct (negb (r =? 0)); [done|]. cbn [Hmac.md5_vector Md5.md5_vector fst snd negb Z.eqb]. intros _.
  unfold zlen. by rewrite MD5.length_final.
Qed.

Lemma omac1_some mall k m h :
  match AesModes.omac1_aes_128 mall k m with Ok p => on_success p | Fault _ => None end = Some h -> zlen h = 16.
Proof.
  unfold AesModes.omac1_aes_128. destruct (mall Aes.AES_PRIV_SIZE) eqn:Hm.
  - pose proof (omac1_one mall k m Hm) as E. unfold AesModes.omac1_aes_128 in E. rewrite E.
    intros H. apply on_success_len in H as [-> _]. cbn [snd]. unfold cmac, zlen. cbv zeta. by rewrite length_aes_encrypt.
  - unfold AesModes.omac1_aes_128_vector, Aes.aes_encrypt_init. cbn [Z.eqb negb Pos.eqb]. by rewrite Hm.
Qed.

Lemma wrap_args_blocks k d : wrap_args k d -> zlen d = 8 * (zlen d / 8) /\ 0 <= zlen d / 8.
Proof.
  intros (_ & _ & _ & H). pose proof (zlen_nonneg d).
  assert (zlen d mod 8 = 0).
  { unfold zlen. change 8 with (Z.of_nat 8). rewrite <-Nat2Z.inj_mod. lia. }
  split; [pose proof (Z.div_mod (zlen d) 8); lia|by apply Z.div_pos].
Qed.

Lemma lib_wrap_some e k p d : @aes_wrap (library e) k p = Some d ->
  wrap_args k p /\ bytes d /\ zlen d = zlen p + 8 /\ AesModes.aes_unwrap (os_malloc e) k (zlen p / 8) d = (0, p).
Proof.
  cbn [library aes_wrap]. destruct (decide _) as [Ha|]; [|done].
  destruct (wrap_args_blocks k p Ha) as [Hl Hn]. pose proof Ha as (Hk & _ & Hp & _).
  intros H. apply on_success_len in H as [-> H0]. destruct (os_malloc e Aes.AES_PRIV_SIZE) eqn:Hm.
  - destruct (aes_wrap_unwrap (os_malloc e) k (zlen p / 8) p Hk Hn Hp Hl Hm) as (c & -> & Hb & Hc & Hu).
    cbn [snd]. split_and!; [done..|lia|done].
  - exfalso. revert H0. unfold AesModes.aes_wrap, Aes.aes_encrypt_init. cbn [Z.eqb negb Pos.eqb]. by rewrite Hm.
Qed.

Lemma library_laws e : machine_ok e -> CryptoLaws (library e).
Proof.
  intros He. split.
  - intros k m h. apply hmac_md5_some.
  - intros k m h H. apply on_success_len in H as [-> _]. unfold zlen, Hmac.hmac_sha1. by rewrite hmac_sha1_vector_length.
  - intros k m h. apply omac1_some.
  - intros k l d n h Hn H. apply on_success_len in H as [-> _]. unfold zlen, Hmac.sha1_prf.
    rewrite sha1_prf_length by lia. unfold zeros. rewrite length_replicate. lia.
  - intros k l d n Hn. cbn [library sha256_prf]. rewrite sha256_prf_ok by apply He. unfold zlen.
    rewrite length_prefix; [unfold zeros; rewrite length_replicate; lia| |lia]. intros. apply length_hmac_sha256.
  - intros k m. unfold zlen. cbn [library hmac_sha1_vector]. by rewrite hmac_sha1_vector_length.
  - intros k m. unfold zlen. cbn [library hmac_sha256_vector]. by rewrite hmac_sha256_vector_length.
  - intros k p h H. apply lib_wrap_some in H as (_ & _ & -> & _). lia.
  - intros k s d. cbn [library rc4_skip]. destruct (decide _); [|done].
    unfold Rc4.rc4_skip. destruct (Rc4.rc4_setup _ _ _ _ _ _); [|done].
    cbn [mbind res_bind mret res_ret]. unfold zlen. by rewrite Rc4.length_rc4_apply.
Qed.

Lemma unwrap_laws e : KeyUnwrapLaws (library e) (unwrap_library e).
Proof.
  assert (forall k d p, @aes_unwrap (unwrap_library e) k d = Some p ->
    wrap_args k d /\ zlen d = 8 * (zlen d / 8 - 1 + 1) /\ octets (8 * Z.to_nat (zlen d / 8 - 1)) p /\ 1 <= zlen d / 8) as Hu.
  { intros k d p. cbn [unwrap_library aes_unwrap]. destruct (decide _) as [[Ha Hd]|]; [|done].
    destruct (wrap_args_blocks k d Ha) as [Hl _].
    intros H. assert (1 <= zlen d / 8) by (apply Z.div_le_lower_bound; lia).
    split_and!; [done|lia| |done]. eapply aes_unwrap_octets; [| | |exact H]; [lia|apply Ha|lia]. }
  split.
  - intros k d p _ H. apply Hu in H as (_ & Hl & [_ Hp] & H1). unfold zlen in *. lia.
  - intros k d p _ H. apply Hu in H as (_ & _ & [Hp _] & _). done.
  - intros k p d H. apply lib_wrap_some in H as (Ha & Hb & Hl & Hun). cbn [unwrap_library aes_unwrap].
    destruct (wrap_args_blocks k p Ha) as [Hp Hp0]. rewrite decide_True.
    + replace (zlen d / 8 - 1) with (zlen p / 8); [by rewrite Hun|].
      rewrite Hl. replace (zlen p + 8) with (zlen p + 1 * 8) by lia. rewrite Z.div_add by lia. lia.
    + destruct Ha as (Hk & Hk16 & _ & Hm). split; [split_and!; try done|unfold zlen in *; lia].
      replace (length d) with (length p + 1 * 8)%nat by (unfold zlen in Hl; lia). by rewrite Nat.Div0.mod_add.
  - intros k s d Hd. cbn [library rc4_skip]. destruct (decide _) as [Hk|]; [|done].
    destruct k as [|k0 k].
    + done.
    + destruct (Rc4.rc4_skip_ok (k0 :: k) s d Hk ltac:(done)) as (x & -> & _ & Hb & _). by apply Hb.
  - intros k s d. cbn [library rc4_skip]. destruct (decide _) as [Hk|]; [|done]. destruct k as [|k0 k].
    + done.
    + destruct (Rc4.rc4_skip_ok (k0 :: k) s d Hk ltac:(done)) as (x & -> & _ & _ & E). by rewrite E.
Qed.

(** ** The handshake's checksums and keys *)

(** IEEE 802.11i, 8.5.2: the checksum of a frame for each version of the key
    descriptor. *)
Definition mic_standard (key : list Z) (ver : Z) (buf : list Z) : option (list Z) :=
  if ver =? 1 then Some (hmac_rfc2104 MD5.md5 key buf)
  else if ver =? 2 then Some (take 16 (hmac_rfc2104 SHA1.sha1 key buf))
  else if ver =? 3 then Some (cmac (Aes.aes_encrypt (Aes.rijndaelKeySetupEnc key)) buf)
  else None.

Lemma mic_library e key ver buf : machine_ok e -> os_malloc e Aes.AES_PRIV_SIZE = true -> fits key -> fits buf ->
  @wpa_eapol_key_mic (library e) key ver buf = mic_standard key ver buf.
Proof.
  intros (Hm & Hs & _) Hmall Hk Hb. unfold wpa_eapol_key_mic, mic_standard.
  unfold WPA_KEY_INFO_TYPE_HMAC_MD5_RC4, WPA_KEY_INFO_TYPE_HMAC_SHA1_AES, WPA_KEY_INFO_TYPE_AES_128_CMAC.
  destruct (ver =? 1); [|destruct (ver =? 2); [|destruct (ver =? 3); [|done]]];
    cbn [library hmac_md5 hmac_sha1 omac1_aes_128].
  - unfold Hmac.hmac_md5. rewrite hmac_md5_ok by (done || (cbn; lia) || by constructor).
    unfold on_success. cbn [fst snd concat Z.eqb]. by rewrite app_nil_r.
  - unfold Hmac.hmac_sha1. rewrite hmac_sha1_ok by (done || (cbn; lia) || by constructor).
    unfold on_success. cbn [fst snd concat Z.eqb]. by rewrite app_nil_r.
  - rewrite omac1_one by done. reflexivity.
Qed.

Lemma ptk_library e pmk label a1 a2 n1 n2 len sha : machine_ok e -> fits pmk -> fits (str_octets label ++ [0]) ->
  fits (ptk_data a1 a2 n1 n2) -> 0 <= len ->
  @wpa_pmk_to_ptk (library e) pmk label a1 a2 n1 n2 len sha =
  Some (let data := ptk_data a1 a2 n1 n2 in
        if sha then prefix (kdf_block pmk (str_octets label) data len) 32 (Z.to_nat len)
        else prefix (prf_block pmk (str_octets label) data) 20 (Z.to_nat len)).
Proof.
  intros (_ & Hs1 & Hs2) Hk Hl Hd Hn. unfold wpa_pmk_to_ptk. cbv zeta. destruct sha; cbn [library sha256_prf sha1_prf].
  - rewrite sha256_prf_ok by done. unfold zeros, zlen. rewrite length_replicate. by rewrite Z2Nat.id.
  - rewrite sha1_prf_ok by done. unfold on_success, zeros. cbn [fst snd Z.eqb]. by rewrite length_replicate.
Qed.

Lemma pmkid_library e pmk aa spa sha : machine_ok e -> fits pmk -> fits aa -> fits spa ->
  @rsn_pmkid (library e) pmk aa spa sha =
  take 16 (hmac_rfc2104 (if sha then SHA256.sha256 else SHA1.sha1) pmk (pmk_name ++ aa ++ spa)).
Proof.
  intros (_ & Hs1 & Hs2) Hk Ha Hp. unfold rsn_pmkid. destruct sha; cbn [library hmac_sha256_vector hmac_sha1_vector].
  - rewrite hmac_sha256_ok by (done || (cbn; lia)). cbn [concat]. by rewrite app_nil_r.
  - rewrite hmac_sha1_ok by (done || (cbn; lia) || by repeat constructor). cbn [snd concat]. by rewrite app_nil_r.
Qed.

(** ** The properties *)



(** A machine with memory. *)
Definition junk_machine : machine := {|
  os_malloc _ := true; md5_stack := md5_junk; sha1_stack := sha1_junk; sha256_stack := sha256_junk;
|}.


