(* ===== verification/Radius.v ===== *)
(** * radius/radius.c, radius/radius.h: RADIUS messages

    A message is a buffer of octets and an array with the offsets of its attributes.
    [msg->hdr] and the pointers to attributes point into that buffer: they are
    offsets here ([msg->hdr] is always offset 0), and a read or write outside the
    allocation is a fault.  [malloc_ok] says which allocations succeed, [uninit]
    what fresh memory and the stack hold, [md5_stack] what the stack holds where
    [md5_vector] puts its context. *)

From S2P Require Import Prelude WpaBuf Hmac.
From S2P Require Md5.

Definition RADIUS_CODE_ACCESS_REQUEST : Z := 1.
Definition RADIUS_CODE_ACCESS_ACCEPT : Z := 2.
Definition RADIUS_CODE_ACCESS_REJECT : Z := 3.
Definition RADIUS_CODE_ACCOUNTING_REQUEST : Z := 4.
Definition RADIUS_CODE_ACCOUNTING_RESPONSE : Z := 5.
Definition RADIUS_CODE_ACCESS_CHALLENGE : Z := 11.

Definition RADIUS_ATTR_USER_PASSWORD : Z := 2.
Definition RADIUS_ATTR_VENDOR_SPECIFIC : Z := 26.
Definition RADIUS_ATTR_TUNNEL_TYPE : Z := 64.
Definition RADIUS_ATTR_TUNNEL_MEDIUM_TYPE : Z := 65.
Definition RADIUS_ATTR_EAP_MESSAGE : Z := 79.
Definition RADIUS_ATTR_MESSAGE_AUTHENTICATOR : Z := 80.
Definition RADIUS_ATTR_TUNNEL_PRIVATE_GROUP_ID : Z := 81.

Definition RADIUS_TUNNEL_TAGS : Z := 32.
Definition RADIUS_TUNNEL_TYPE_VLAN : Z := 13.
Definition RADIUS_TUNNEL_MEDIUM_TYPE_802 : Z := 6.
Definition RADIUS_VENDOR_ID_CISCO : Z := 9.
Definition RADIUS_CISCO_AV_PAIR : Z := 1.
Definition RADIUS_VENDOR_ID_MICROSOFT : Z := 311.
Definition RADIUS_VENDOR_ATTR_MS_MPPE_SEND_KEY : Z := 16.
Definition RADIUS_VENDOR_ATTR_MS_MPPE_RECV_KEY : Z := 17.

(** [sizeof(struct radius_hdr)], [sizeof(struct radius_attr_hdr)] *)
Definition sizeof_radius_hdr : Z := 20.
Definition sizeof_attr_hdr : Z := 2.
Definition RADIUS_MAX_ATTR_LEN : Z := 255 - sizeof_attr_hdr.
Definition RADIUS_DEFAULT_MSG_SIZE : Z := 1024.
Definition RADIUS_DEFAULT_ATTR_COUNT : Z := 16.
Definition MD5_MAC_LEN : Z := 16.

#[projections(primitive)]
Record radius_msg := mk_radius_msg {
  buf : wpabuf;
  attr_pos : list Z;
  attr_size : Z;
  attr_used : Z;
}.
(** [sizeof(struct radius_msg)]: two pointers, a pointer and two [size_t]. *)
Definition sizeof_radius_msg : Z := 20.
Definition sizeof_size_t : Z := 4.

(** The conversion of a [size_t] to [int]. *)
Definition to_int (z : Z) : Z := (z + 2147483648) mod 4294967296 - 2147483648.

Definition radius_msg_get_hdr (msg : radius_msg) : Z := 0.
Definition radius_msg_get_buf (msg : radius_msg) : wpabuf := buf msg.
Definition radius_get_attr_hdr (msg : radius_msg) (idx : Z) : res Z := rd (attr_pos msg) idx.

(** Loads and stores through pointers into the buffer. *)
Definition mem (msg : radius_msg) : list Z := wpabuf_head (buf msg).
Definition store (msg : radius_msg) (p : Z) (d : list Z) : res radius_msg :=
  h ← wr_n (mem msg) p d; mret (msg <| buf := wpabuf_mhead_set (buf msg) h |>).
Definition attr_type (msg : radius_msg) (attr : Z) : res Z := rd (mem msg) attr.
Definition attr_length (msg : radius_msg) (attr : Z) : res Z := rd (mem msg) (attr + 1).
(** [msg->hdr->authenticator], [wpabuf_head(msg->buf)] up to its length. *)
Definition get_authenticator (msg : radius_msg) : res (list Z) := rd_n (mem msg) 4 16.
Definition set_authenticator (msg : radius_msg) (d : list Z) : res radius_msg := store msg 4 d.
Definition whole (msg : radius_msg) : res (list Z) := rd_n (mem msg) 0 (wpabuf_len (buf msg)).

Definition radius_msg_set_hdr (msg : radius_msg) (code identifier : Z) : res radius_msg :=
  store msg 0 [u8 code; u8 identifier].
(** [msg->hdr->length = htons(wpabuf_len(msg->buf))] *)
Definition set_length (msg : radius_msg) : res radius_msg := store msg 2 (WPA_PUT_BE16 (wpabuf_len (buf msg))).

(** [for (i = 0; i < msg->attr_used; i++)]: the body gets the pointer to the
    attribute and goes on ([inl]) or leaves the loop ([inr]). *)
Fixpoint attr_loop {A R} (body : A -> Z -> res (A + R)) (msg : radius_msg) (n : nat) (i : Z) (a : A) : res (A + R) :=
  match n with
  | O => mret (inl a)
  | S n =>
      attr ← radius_get_attr_hdr msg i;
      r ← body a attr;
      match r with inl a => attr_loop body msg n (i + 1) a | inr r => mret (inr r) end
  end.
Definition for_attrs {A R} (body : A -> Z -> res (A + R)) (msg : radius_msg) (a : A) : res (A + R) :=
  attr_loop body msg (Z.to_nat (attr_used msg)) 0 a.

Section radius.
Context (malloc_ok : Z -> bool) (uninit : nat -> Z) (md5_stack : Md5.MD5Context).

Definition fresh (n : Z) : list Z := map uninit (seq 0 (Z.to_nat n)).

(** ** Building messages *)

(** The result of [os_zalloc] for [attr_pos]; [None]: the message is freed. *)
Definition radius_msg_initialize (b : wpabuf) : option radius_msg :=
  if malloc_ok (RADIUS_DEFAULT_ATTR_COUNT * sizeof_size_t) then
    Some {| buf := b; attr_pos := replicate (Z.to_nat RADIUS_DEFAULT_ATTR_COUNT) 0;
            attr_size := RADIUS_DEFAULT_ATTR_COUNT; attr_used := 0 |}
  else None.

Definition radius_msg_new (code identifier : Z) : res (option radius_msg) :=
  if malloc_ok sizeof_radius_msg then
    match wpabuf_alloc malloc_ok RADIUS_DEFAULT_MSG_SIZE ≫= radius_msg_initialize with
    | None => mret None
    | Some msg =>
        '(_, b) ← wpabuf_put (buf msg) sizeof_radius_hdr;
        msg ← radius_msg_set_hdr (msg <| buf := b |>) code identifier;
        mret (Some msg)
    end
  else mret None.

(** [os_realloc(msg->attr_pos, nlen * sizeof(size_t))], [nlen] an [int]. *)
Definition radius_msg_add_attr_to_array (msg : radius_msg) (attr : Z) : res (Z * radius_msg) :=
  let grown :=
    if attr_size msg <=? attr_used msg then
      let nlen := to_int (attr_size msg * 2) in
      let n := size_t (nlen * sizeof_size_t) in
      if malloc_ok n then
        Some (msg <| attr_pos := take (Z.to_nat (n / sizeof_size_t)) (attr_pos msg ++ fresh (n / sizeof_size_t)) |>
                  <| attr_size := size_t nlen |>)
      else None
    else Some msg in
  match grown with
  | None => mret (-1, msg)
  | Some msg =>
      p ← wr (attr_pos msg) (attr_used msg) attr;
      mret (0, msg <| attr_pos := p |> <| attr_used := size_t (attr_used msg + 1) |>)
  end.

(** The attribute that is returned, if any. *)
Definition radius_msg_add_attr (msg : radius_msg) (type : Z) (data : list Z) (data_len : Z)
    : res (option Z * radius_msg) :=
  if RADIUS_MAX_ATTR_LEN <? data_len then mret (None, msg)
  else
    let buf_needed := sizeof_attr_hdr + data_len in
    '(r, msg) ←
      (if wpabuf_tailroom (buf msg) <? buf_needed then
         '(r, b) ← wpabuf_resize malloc_ok (Some (buf msg)) buf_needed;
         match b with
         | Some b => mret (r, msg <| buf := b |>)
         | None => Fault NullDeref
         end
       else mret (0, msg));
    if r <? 0 then mret (None, msg)
    else
      '(attr, b) ← wpabuf_put (buf msg) sizeof_attr_hdr;
      msg ← store (msg <| buf := b |>) attr [u8 type];
      msg ← store msg (attr + 1) [u8 (sizeof_attr_hdr + data_len)];
      b ← wpabuf_put_data (buf msg) (Some data) data_len;
      '(r, msg) ← radius_msg_add_attr_to_array (msg <| buf := b |>) attr;
      mret (if r =? 0 then Some attr else None, msg).

Definition radius_msg_add_attr_int32 (msg : radius_msg) (type value : Z) : res (bool * radius_msg) :=
  '(attr, msg) ← radius_msg_add_attr msg type (WPA_PUT_BE32 value) 4;
  mret (match attr with Some _ => true | None => false end, msg).

(** [while (left > 0)]: a turn takes an octet at least. *)
Fixpoint add_eap_loop (fuel : nat) (msg : radius_msg) (data : list Z) (pos left : Z) : res (Z * radius_msg) :=
  if 0 <? left then
    match fuel with
    | O => Fault OutOfFuel
    | S fuel =>
        let len := if RADIUS_MAX_ATTR_LEN <? left then RADIUS_MAX_ATTR_LEN else left in
        '(attr, msg) ← radius_msg_add_attr msg RADIUS_ATTR_EAP_MESSAGE (drop (Z.to_nat pos) data) len;
        match attr with
        | None => mret (0, msg)
        | Some _ => add_eap_loop fuel msg data (pos + len) (size_t (left - len))
        end
    end
  else mret (1, msg).
Definition radius_msg_add_eap (msg : radius_msg) (data : list Z) (data_len : Z) : res (Z * radius_msg) :=
  add_eap_loop (Z.to_nat data_len) msg data 0 data_len.

(** [src] is another message than [dst]. *)
Definition radius_msg_copy_attr (dst src : radius_msg) (type : Z) : res (Z * radius_msg) :=
  r ← for_attrs (fun '(count, dst) attr =>
        t ← attr_type src attr;
        if t =? type then
          l ← attr_length src attr;
          '(a, dst) ← radius_msg_add_attr dst type (drop (Z.to_nat (attr + 2)) (mem src)) (size_t (l - sizeof_attr_hdr));
          match a with
          | None => mret (inr (-1, dst))
          | Some _ => mret (inl (count + 1, dst))
          end
        else mret (inl (count, dst))) src (0, dst);
  match r with inl r | inr r => mret r end.

(** [tv] and [l]: the octets of the time and of the random number. *)
Definition radius_msg_make_authenticator (msg : radius_msg) (tv l data : list Z) : res radius_msg :=
  set_authenticator msg (snd (md5_vector md5_stack [tv; data; l])).

(** ** Finishing messages *)

Definition too_long (msg : radius_msg) : bool := 0xffff <? wpabuf_len (buf msg).

Definition radius_msg_finish (msg : radius_msg) (secret : option (list Z)) : res (Z * radius_msg) :=
  match secret with
  | Some secret =>
      '(attr, msg) ← radius_msg_add_attr msg RADIUS_ATTR_MESSAGE_AUTHENTICATOR
                       (replicate (Z.to_nat MD5_MAC_LEN) 0) MD5_MAC_LEN;
      match attr with
      | None => mret (-1, msg)
      | Some attr =>
          msg ← set_length msg;
          d ← whole msg;
          mac ← rd_n (mem msg) (attr + 2) MD5_MAC_LEN;
          msg ← store msg (attr + 2) (snd (hmac_md5 md5_stack secret d mac));
          mret (if too_long msg then -1 else 0, msg)
      end
  | None =>
      msg ← set_length msg;
      mret (if too_long msg then -1 else 0, msg)
  end.

(** ResponseAuth = MD5(Code+ID+Length+RequestAuth+Attributes+Secret) *)
Definition response_auth (msg : radius_msg) (secret req_authenticator : list Z) : res (list Z) :=
  h ← rd_n (mem msg) 0 (1 + 1 + 2);
  a ← rd_n (mem msg) sizeof_radius_hdr (size_t (wpabuf_len (buf msg) - sizeof_radius_hdr));
  mret (snd (md5_vector md5_stack [h; req_authenticator; a; secret])).

Definition radius_msg_finish_srv (msg : radius_msg) (secret req_authenticator : list Z) : res (Z * radius_msg) :=
  '(attr, msg) ← radius_msg_add_attr msg RADIUS_ATTR_MESSAGE_AUTHENTICATOR
                   (replicate (Z.to_nat MD5_MAC_LEN) 0) MD5_MAC_LEN;
  match attr with
  | None => mret (-1, msg)
  | Some attr =>
      msg ← set_length msg;
      req ← rd_n req_authenticator 0 16;
      msg ← set_authenticator msg req;
      d ← whole msg;
      mac ← rd_n (mem msg) (attr + 2) MD5_MAC_LEN;
      msg ← store msg (attr + 2) (snd (hmac_md5 md5_stack secret d mac));
      hash ← response_auth msg secret req;
      msg ← set_authenticator msg hash;
      mret (if too_long msg then -1 else 0, msg)
  end.

Definition radius_msg_finish_acct (msg : radius_msg) (secret : list Z) : res radius_msg :=
  msg ← set_length msg;
  msg ← set_authenticator msg (replicate (Z.to_nat MD5_MAC_LEN) 0);
  d ← whole msg;
  set_authenticator msg (snd (md5_vector md5_stack [d; secret])).

(** ** Parsing *)

(** [while (pos < end)]: a turn takes two octets at least; [None] is [goto fail]. *)
Fixpoint parse_attrs (fuel : nat) (msg : radius_msg) (pos end_ : Z) : res (option radius_msg) :=
  if pos <? end_ then
    match fuel with
    | O => Fault OutOfFuel
    | S fuel =>
        if end_ - pos <? sizeof_attr_hdr then mret None
        else
          l ← attr_length msg pos;
          if (end_ <? pos + l) || (l <? sizeof_attr_hdr) then mret None
          else
            '(r, msg) ← radius_msg_add_attr_to_array msg pos;
            if negb (r =? 0) then mret None else parse_attrs fuel msg (pos + l) end_
    end
  else mret (Some msg).

Definition radius_msg_parse (data : option (list Z)) (len : Z) : res (option radius_msg) :=
  match data with
  | None => mret None
  | Some data =>
      if len <? sizeof_radius_hdr then mret None
      else
        msg_len ← WPA_GET_BE16 data 2;
        if (msg_len <? sizeof_radius_hdr) || (len <? msg_len) then mret None
        else if negb (malloc_ok sizeof_radius_msg) then mret None
        else
          b ← wpabuf_alloc_copy malloc_ok (Some data) msg_len;
          match b ≫= radius_msg_initialize with
          | None => mret None
          | Some msg =>
              parse_attrs (Z.to_nat (wpabuf_len (buf msg))) msg sizeof_radius_hdr (wpabuf_len (buf msg))
          end
  end.

(** The octets of the EAP packet, in a block of [*eap_len] octets. *)
Definition radius_msg_get_eap (msg : option radius_msg) : res (option (list Z)) :=
  match msg with
  | None => mret None
  | Some msg =>
      len ← for_attrs (R := unit) (fun len attr =>
        t ← attr_type msg attr;
        if t =? RADIUS_ATTR_EAP_MESSAGE then
          l ← attr_length msg attr;
          mret (inl (size_t (len + l - sizeof_attr_hdr)))
        else mret (inl len)) msg 0;
      let len := match len with inl len => len | inr _ => 0 end in
      if len =? 0 then mret None
      else if negb (malloc_ok len) then mret None
      else
        r ← for_attrs (R := unit) (fun '(eap, pos) attr =>
          t ← attr_type msg attr;
          if t =? RADIUS_ATTR_EAP_MESSAGE then
            l ← attr_length msg attr;
            let flen := l - sizeof_attr_hdr in
            d ← rd_n (mem msg) (attr + 2) flen;
            eap ← wr_n eap pos d;
            mret (inl (eap, pos + flen))
          else mret (inl (eap, pos))) msg (fresh len, 0);
        mret (match r with inl (eap, _) => Some eap | inr _ => None end)
  end.

(** ** Verification *)

(** The attribute, or a second one. *)
Definition find_msg_auth (msg : radius_msg) : res (option Z + unit) :=
  for_attrs (fun (attr : option Z) tmp =>
    t ← attr_type msg tmp;
    if t =? RADIUS_ATTR_MESSAGE_AUTHENTICATOR then
      match attr with Some _ => mret (inr tt) | None => mret (inl (Some tmp)) end
    else mret (inl attr)) msg None.

(** The message is changed and put back. *)
Definition check_msg_auth (msg : radius_msg) (attr : Z) (secret : list Z) (req_auth : option (list Z))
    : res (Z * radius_msg) :=
  orig ← rd_n (mem msg) (attr + 2) MD5_MAC_LEN;
  msg ← store msg (attr + 2) (replicate (Z.to_nat MD5_MAC_LEN) 0);
  '(orig_authenticator, msg) ←
    match req_auth with
    | Some req_auth =>
        o ← get_authenticator msg;
        d ← rd_n req_auth 0 16;
        msg ← set_authenticator msg d;
        mret (o, msg)
    | None => mret ([], msg)
    end;
  d ← whole msg;
  let auth := snd (hmac_md5 md5_stack secret d (fresh MD5_MAC_LEN)) in
  msg ← store msg (attr + 2) orig;
  msg ← match req_auth with Some _ => set_authenticator msg orig_authenticator | None => mret msg end;
  mret (if bool_decide (orig = auth) then 0 else 1, msg).
Definition radius_msg_verify_msg_auth (msg : radius_msg) (secret : list Z) (req_auth : option (list Z))
    : res (Z * radius_msg) :=
  attr ← find_msg_auth msg;
  match attr with
  | inr _ | inl None => mret (1, msg)
  | inl (Some attr) => check_msg_auth msg attr secret req_auth
  end.

Definition radius_msg_verify (msg : radius_msg) (secret : list Z) (sent_msg : option radius_msg) (auth : bool)
    : res (Z * radius_msg) :=
  match sent_msg with
  | None => mret (1, msg)
  | Some sent_msg =>
      req ← get_authenticator sent_msg;
      '(r, msg) ← (if auth then radius_msg_verify_msg_auth msg secret (Some req) else mret (0, msg));
      if negb (r =? 0) then mret (1, msg)
      else
        hash ← response_auth msg secret req;
        a ← get_authenticator msg;
        mret (if bool_decide (hash = a) then 0 else 1, msg)
  end.

(** ** Keys and passwords *)

(** [while (left >= sizeof( *vhdr))]: a turn takes two octets at least.  [Some]:
    the payload, or [NULL] when there is no memory; [None]: the next attribute. *)
Fixpoint vendor_loop (fuel : nat) (msg : radius_msg) (subtype pos left : Z) : res (option (option (list Z))) :=
  if sizeof_attr_hdr <=? left then
    match fuel with
    | O => Fault OutOfFuel
    | S fuel =>
        l ← rd (mem msg) (pos + 1);
        if (left <? l) || (l <? sizeof_attr_hdr) then mret None
        else
          t ← rd (mem msg) pos;
          if negb (t =? subtype) then vendor_loop fuel msg subtype (pos + l) (left - l)
          else if negb (malloc_ok (l - sizeof_attr_hdr)) then mret (Some None)
          else
            d ← rd_n (mem msg) (pos + sizeof_attr_hdr) (l - sizeof_attr_hdr);
            mret (Some (Some d))
    end
  else mret None.

(** The payload; its length is [*alen]. *)
Definition radius_msg_get_vendor_attr (msg : option radius_msg) (vendor subtype : Z) : res (option (list Z)) :=
  match msg with
  | None => mret None
  | Some msg =>
      r ← for_attrs (fun (_ : unit) attr =>
        t ← attr_type msg attr;
        if negb (t =? RADIUS_ATTR_VENDOR_SPECIFIC) then mret (inl tt)
        else
          l ← attr_length msg attr;
          let left := size_t (l - sizeof_attr_hdr) in
          if left <? 4 then mret (inl tt)
          else
            vendor_id ← WPA_GET_BE32 (mem msg) (attr + 2);
            if negb (vendor_id =? vendor) then mret (inl tt)
            else
              r ← vendor_loop (Z.to_nat left) msg subtype (attr + 6) (left - 4);
              mret (match r with Some d => inr d | None => inl tt end)) msg tt;
      mret (match r with inr d => d | inl _ => None end)
  end.

(** [while (left > 0)]: [fuel] blocks of 16; [plain] is what has been written. *)
Fixpoint decrypt_loop (fuel : nat) (key req_authenticator secret : list Z) (first : bool) (pos : Z) (plain : list Z)
    : res (list Z) :=
  match fuel with
  | O => mret plain
  | S fuel =>
      area ← (if first then salt ← rd_n key 0 2; mret [secret; req_authenticator; salt]
              else c ← rd_n key (pos - MD5_MAC_LEN) MD5_MAC_LEN; mret [secret; c]);
      let hash := snd (md5_vector md5_stack area) in
      c ← rd_n key pos MD5_MAC_LEN;
      decrypt_loop fuel key req_authenticator secret false (pos + MD5_MAC_LEN) (plain ++ zip_with Z.lxor c hash)
  end.

(** The key; its length is [*reslen]. *)
Definition decrypt_ms_key (key req_authenticator secret : list Z) : res (option (list Z)) :=
  let len := zlen key in
  if len <? 2 + 16 then mret None
  else
    let left := len - 2 in
    if negb (left mod 16 =? 0) then mret None
    else
      let plen := left in
      if negb (malloc_ok plen) then mret None
      else
        req ← rd_n req_authenticator 0 MD5_MAC_LEN;
        plain ← decrypt_loop (Z.to_nat (left / 16)) key req secret true 2 [];
        p0 ← rd plain 0;
        if (p0 =? 0) || (plen - 1 <? p0) then mret None
        else if negb (malloc_ok p0) then mret None
        else r ← rd_n plain 1 p0; mret (Some r).

(** [while (len > 0)] over [ebuf], which is at [pos] in the buffer [b]; [fuel]
    blocks of 16. *)
Fixpoint encrypt_loop (fuel : nat) (b saltbuf req_authenticator secret : list Z) (first : bool) (pos : Z) : res (list Z) :=
  match fuel with
  | O => mret b
  | S fuel =>
      area ← (if first then mret [secret; req_authenticator; saltbuf]
              else c ← rd_n b (pos - MD5_MAC_LEN) MD5_MAC_LEN; mret [secret; c]);
      let hash := snd (md5_vector md5_stack area) in
      p ← rd_n b pos MD5_MAC_LEN;
      b ← wr_n b pos (zip_with Z.lxor p hash);
      encrypt_loop fuel b saltbuf req_authenticator secret false (pos + MD5_MAC_LEN)
  end.

(** The buffer and [*elen]; [len] is an [int]. *)
Definition encrypt_ms_key (key : list Z) (salt : Z) (req_authenticator secret b : list Z) (ebuf : Z)
    : res (list Z * Z) :=
  let saltbuf := WPA_PUT_BE16 salt in
  let key_len := zlen key in
  let len := to_int (1 + key_len) in
  let len := if negb (Z.land len 0x0f =? 0) then Z.land len 0xf0 + 16 else len in
  b ← wr_n b ebuf (replicate (Z.to_nat len) 0);
  b ← wr_n b ebuf [u8 key_len];
  b ← wr_n b (ebuf + 1) key;
  req ← rd_n req_authenticator 0 MD5_MAC_LEN;
  b ← encrypt_loop (Z.to_nat (len / 16)) b saltbuf req secret true ebuf;
  mret (b, size_t len).

Record radius_ms_mppe_keys := { send : option (list Z); recv : option (list Z) }.
Definition sizeof_ms_mppe_keys : Z := 16.

(** The key of an attribute, if it is there. *)
Definition get_ms_key (msg : radius_msg) (attr : Z) (req secret : list Z) : res (option (list Z)) :=
  key ← radius_msg_get_vendor_attr (Some msg) RADIUS_VENDOR_ID_MICROSOFT attr;
  match key with Some key => decrypt_ms_key key req secret | None => mret None end.

Definition radius_msg_get_ms_keys (msg sent_msg : option radius_msg) (secret : list Z) : res (option radius_ms_mppe_keys) :=
  match msg, sent_msg with
  | Some msg, Some sent_msg =>
      if negb (malloc_ok sizeof_ms_mppe_keys) then mret None
      else
        req ← get_authenticator sent_msg;
        s ← get_ms_key msg RADIUS_VENDOR_ATTR_MS_MPPE_SEND_KEY req secret;
        r ← get_ms_key msg RADIUS_VENDOR_ATTR_MS_MPPE_RECV_KEY req secret;
        mret (Some {| send := s; recv := r |})
  | _, _ => mret None
  end.

(** ["leap:session-key="] *)
Definition leap_session_key : list Z :=
  [108; 101; 97; 112; 58; 115; 101; 115; 115; 105; 111; 110; 45; 107; 101; 121; 61].

Definition radius_msg_get_cisco_keys (msg sent_msg : option radius_msg) (secret : list Z)
    : res (option radius_ms_mppe_keys) :=
  match msg, sent_msg with
  | Some msg, Some sent_msg =>
      if negb (malloc_ok sizeof_ms_mppe_keys) then mret None
      else
        key ← radius_msg_get_vendor_attr (Some msg) RADIUS_VENDOR_ID_CISCO RADIUS_CISCO_AV_PAIR;
        match key with
        | Some key =>
            if (zlen key =? 51) && bool_decide (take 17 key = leap_session_key) then
              req ← get_authenticator sent_msg;
              r ← decrypt_ms_key (drop 17 key) req secret;
              mret (Some {| send := None; recv := r |})
            else mret (Some {| send := None; recv := None |})
        | None => mret (Some {| send := None; recv := None |})
        end
  | _, _ => mret None
  end.

(** One of the two halves: an attribute with an encrypted key, in a buffer of
    [hlen + buf_key_len + 16] octets. *)
Definition mppe_hlen : Z := 4 + sizeof_attr_hdr + 2.
Definition add_mppe_key (msg : radius_msg) (vendor_type salt : Z) (req_authenticator secret key : list Z) (buf_key_len : Z)
    : res (Z * radius_msg) :=
  let hlen := mppe_hlen in
  if negb (malloc_ok (size_t (hlen + buf_key_len + 16))) then mret (0, msg)
  else
    let b := fresh (size_t (hlen + buf_key_len + 16)) in
    b ← wr_n b 0 (WPA_PUT_BE32 RADIUS_VENDOR_ID_MICROSOFT);
    b ← wr b 4 vendor_type;
    b ← wr_n b 6 (WPA_PUT_BE16 salt);
    '(b, elen) ← encrypt_ms_key key salt req_authenticator secret b 8;
    b ← wr b 5 (u8 (hlen + elen - 4));
    '(attr, msg) ← radius_msg_add_attr msg RADIUS_ATTR_VENDOR_SPECIFIC b (hlen + elen);
    mret (match attr with None => 0 | Some _ => 1 end, msg).

(** [os_random]: [rnd]. *)
Definition radius_msg_add_mppe_keys (msg : radius_msg) (rnd : Z) (req_authenticator secret send_key recv_key : list Z)
    : res (Z * radius_msg) :=
  let salt := u16 (Z.lor rnd 0x8000) in
  '(r, msg) ← add_mppe_key msg RADIUS_VENDOR_ATTR_MS_MPPE_SEND_KEY salt req_authenticator secret send_key (zlen send_key);
  if r =? 0 then mret (0, msg)
  else
    let salt := Z.lxor salt 1 in
    add_mppe_key msg RADIUS_VENDOR_ATTR_MS_MPPE_RECV_KEY salt req_authenticator secret recv_key (zlen send_key).

(** [while (pos < buf_len)]: a turn takes 16 octets. *)
Fixpoint password_loop (fuel : nat) (secret b : list Z) (pos buf_len : Z) : res (list Z) :=
  if pos <? buf_len then
    match fuel with
    | O => Fault OutOfFuel
    | S fuel =>
        c ← rd_n b (pos - 16) 16;
        let hash := snd (md5_vector md5_stack [secret; c]) in
        p ← rd_n b pos 16;
        b ← wr_n b pos (zip_with Z.lxor p hash);
        password_loop fuel secret b (pos + 16) buf_len
    end
  else mret b.

Definition radius_msg_add_attr_user_password (msg : radius_msg) (data secret : list Z) : res (option Z * radius_msg) :=
  let data_len := zlen data in
  if 128 <? data_len then mret (None, msg)
  else
    b ← wr_n (fresh 128) 0 data;
    let padlen := data_len mod 16 in
    '(b, buf_len) ←
      (if negb (padlen =? 0) then
         let padlen := 16 - padlen in
         b ← wr_n b data_len (replicate (Z.to_nat padlen) 0);
         mret (b, data_len + padlen)
       else mret (b, data_len));
    a ← get_authenticator msg;
    let hash := snd (md5_vector md5_stack [secret; a]) in
    p ← rd_n b 0 16;
    b ← wr_n b 0 (zip_with Z.lxor p hash);
    b ← password_loop (Z.to_nat buf_len) secret b 16 buf_len;
    radius_msg_add_attr msg RADIUS_ATTR_USER_PASSWORD b buf_len.

(** ** Reading attributes *)

(** The first attribute with the type, behind [start] if there is one. *)
Definition find_attr (msg : radius_msg) (type : Z) (start : option Z) : res (option Z) :=
  r ← for_attrs (fun (_ : unit) tmp =>
        t ← attr_type msg tmp;
        mret (if (t =? type) && match start with None => true | Some s => s <? tmp end
              then inr tmp else inl tt)) msg tt;
  mret (match r with inr a => Some a | inl _ => None end).

(** The length of the attribute or -1, and [buf]. *)
Definition radius_msg_get_attr (msg : radius_msg) (type : Z) (b : option (list Z)) (len : Z) : res (Z * option (list Z)) :=
  attr ← find_attr msg type None;
  match attr with
  | None => mret (-1, b)
  | Some attr =>
      l ← attr_length msg attr;
      let dlen := size_t (l - sizeof_attr_hdr) in
      match b with
      | Some b =>
          d ← rd_n (mem msg) (attr + 2) (if len <? dlen then len else dlen);
          b ← wr_n b 0 d;
          mret (to_int dlen, Some b)
      | None => mret (to_int dlen, None)
      end
  end.

Definition radius_msg_get_attr_int32 (msg : radius_msg) (type : Z) : res (option Z) :=
  '(r, val) ← radius_msg_get_attr msg type (Some (fresh 4)) 4;
  if negb (r =? 4) then mret None
  else match val with Some val => v ← WPA_GET_BE32 val 0; mret (Some v) | None => mret None end.

(** [*buf] and [*len]; the pointer [start] is an offset. *)
Definition radius_msg_get_attr_ptr (msg : radius_msg) (type : Z) (start : option Z) : res (option (Z * Z)) :=
  attr ← find_attr msg type start;
  match attr with
  | None => mret None
  | Some attr => l ← attr_length msg attr; mret (Some (attr + 2, size_t (l - sizeof_attr_hdr)))
  end.

Definition radius_msg_count_attr (msg : radius_msg) (type min_len : Z) : res Z :=
  r ← for_attrs (R := unit) (fun count attr =>
        t ← attr_type msg attr;
        if t =? type then
          l ← attr_length msg attr;
          mret (inl (if size_t (sizeof_attr_hdr + min_len) <=? l then count + 1 else count))
        else mret (inl count)) msg 0;
  mret (match r with inl count => count | inr _ => 0 end).

(** ** radius_msg_get_vlanid *)

#[projections(primitive)]
Record radius_tunnel_attrs := mk_tunnel { tag_used : Z; type : Z; medium_type : Z; vlanid : Z }.

(** [atoi] of a string of at most nine characters: white space, a sign, digits. *)
Definition isspace (c : Z) : bool := (c =? 32) || ((9 <=? c) && (c <=? 13)).
Definition isdigit (c : Z) : bool := (48 <=? c) && (c <=? 57).
Fixpoint digits (s : list Z) (n : Z) : Z :=
  match s with
  | c :: s => if isdigit c then digits s (10 * n + (c - 48)) else n
  | [] => n
  end.
Fixpoint atoi (s : list Z) : Z :=
  match s with
  | c :: s =>
      if isspace c then atoi s
      else if c =? 45 then - digits s 0
      else if c =? 43 then digits s 0
      else digits (c :: s) 0
  | [] => 0
  end.

Definition tunnel_get (tunnel : list radius_tunnel_attrs) (tag : Z) : res radius_tunnel_attrs :=
  match tunnel !! Z.to_nat tag with Some t => mret t | None => Fault OutOfBounds end.

(** [int]s that are counted up once for an attribute do not overflow. *)
Definition vlan_attr (msg : radius_msg) (tunnel : list radius_tunnel_attrs) (attr : Z) : res (list radius_tunnel_attrs) :=
  l ← attr_length msg attr;
  let data := attr + 2 in
  let dlen := size_t (l - sizeof_attr_hdr) in
  if l <? 3 then mret tunnel
  else
    d0 ← rd (mem msg) data;
    let tag := if RADIUS_TUNNEL_TAGS <=? d0 then 0 else d0 in
    tun ← tunnel_get tunnel tag;
    t ← attr_type msg attr;
    if t =? RADIUS_ATTR_TUNNEL_TYPE then
      if negb (l =? 6) then mret tunnel
      else
        v ← WPA_GET_BE24 (mem msg) (data + 1);
        mret (<[Z.to_nat tag := tun <| tag_used := tag_used tun + 1 |> <| type := v |>]> tunnel)
    else if t =? RADIUS_ATTR_TUNNEL_MEDIUM_TYPE then
      if negb (l =? 6) then mret tunnel
      else
        v ← WPA_GET_BE24 (mem msg) (data + 1);
        mret (<[Z.to_nat tag := tun <| tag_used := tag_used tun + 1 |> <| medium_type := v |>]> tunnel)
    else if t =? RADIUS_ATTR_TUNNEL_PRIVATE_GROUP_ID then
      let '(data, dlen) := if d0 <? RADIUS_TUNNEL_TAGS then (data + 1, size_t (dlen - 1)) else (data, dlen) in
      if 10 <=? dlen then mret tunnel
      else
        d ← rd_n (mem msg) data dlen;
        b ← wr_n (fresh 10) 0 d;
        b ← wr b dlen 0;
        n ← os_strlen b;
        mret (<[Z.to_nat tag := tun <| tag_used := tag_used tun + 1 |> <| vlanid := atoi (take (Z.to_nat n) b) |>]> tunnel)
    else mret tunnel.

Definition is_vlan (tun : radius_tunnel_attrs) : bool :=
  negb (tag_used tun =? 0) && (type tun =? RADIUS_TUNNEL_TYPE_VLAN) &&
  (medium_type tun =? RADIUS_TUNNEL_MEDIUM_TYPE_802) && (0 <? vlanid tun).

Definition radius_msg_get_vlanid (msg : radius_msg) : res Z :=
  r ← for_attrs (R := unit) (fun tunnel attr => tunnel ← vlan_attr msg tunnel attr; mret (inl tunnel)) msg
        (replicate (Z.to_nat RADIUS_TUNNEL_TAGS) {| tag_used := 0; type := 0; medium_type := 0; vlanid := 0 |});
  mret (match r with
        | inl tunnel => match List.find is_vlan tunnel with Some tun => vlanid tun | None => -1 end
        | inr _ => -1
        end).
End radius.
