(* ===== verification/RadiusRep.v ===== *)
(** * What a RADIUS message represents

    [holds msg h attrs]: the message consists of the 20 octets [h] and the attributes
    [attrs], and the array of offsets points to them.  The lemmas say what loads,
    stores, the loops over the attributes and [radius_msg_add_attr] do in terms of
    this view. *)

From S2P Require Import Prelude WpaBuf Radius.

(** A type and a value. *)
Abbreviation attribute := (Z * list Z)%type.
Definition enc_attr (a : attribute) : list Z := a.1 :: (2 + zlen a.2) :: a.2.
Definition enc_attrs (attrs : list attribute) : list Z := concat (map enc_attr attrs).
Definition wf_attr (a : attribute) : Prop := is_byte a.1 /\ bytes a.2 /\ zlen a.2 <= RADIUS_MAX_ATTR_LEN.
Fixpoint positions (o : Z) (attrs : list attribute) : list Z :=
  match attrs with
  | [] => []
  | a :: attrs => o :: positions (o + zlen (enc_attr a)) attrs
  end.

Lemma zlen_enc_attr a : zlen (enc_attr a) = 2 + zlen a.2.
Proof. unfold enc_attr. zlen_lia. Qed.
Lemma enc_attrs_app l k : enc_attrs (l ++ k) = enc_attrs l ++ enc_attrs k.
Proof. unfold enc_attrs. by rewrite map_app, concat_app. Qed.
Lemma enc_attrs_cons a l : enc_attrs (a :: l) = enc_attr a ++ enc_attrs l.
Proof. done. Qed.
Lemma enc_attrs_snoc l a : enc_attrs (l ++ [a]) = enc_attrs l ++ enc_attr a.
Proof. rewrite enc_attrs_app, enc_attrs_cons. unfold enc_attrs at 2. cbn. by rewrite app_nil_r. Qed.
Lemma enc_attrs_long l : 2 * zlen l <= zlen (enc_attrs l).
Proof.
  induction l as [|a l IH]; [done|]. rewrite enc_attrs_cons, zlen_app, zlen_enc_attr, zlen_cons.
  pose proof (zlen_nonneg a.2). lia.
Qed.
Lemma enc_attr_bytes a : wf_attr a -> bytes (enc_attr a).
Proof.
  intros (Ht & Hb & Hl). unfold enc_attr. constructor; [done|]. constructor; [|done].
  unfold is_byte, RADIUS_MAX_ATTR_LEN, sizeof_attr_hdr in *. pose proof (zlen_nonneg a.2). lia.
Qed.
Lemma enc_attrs_bytes l : Forall wf_attr l -> bytes (enc_attrs l).
Proof.
  induction 1; [constructor|]. rewrite enc_attrs_cons. apply Forall_app. split; [by apply enc_attr_bytes|done].
Qed.
Lemma length_positions o l : length (positions o l) = length l.
Proof. revert o. induction l as [|a l IH]; intros o; cbn; [done|]. by rewrite IH. Qed.
Lemma positions_app o l k : positions o (l ++ k) = positions o l ++ positions (o + zlen (enc_attrs l)) k.
Proof.
  revert o. induction l as [|a l IH]; intros o; cbn [app positions].
  - change (enc_attrs []) with (@nil Z). change (zlen []) with 0. by rewrite Z.add_0_r.
  - rewrite IH, enc_attrs_cons, zlen_app. do 3 f_equal. lia.
Qed.

(** ** The buffer *)

Definition brepr (msg : radius_msg) (l : list Z) : Prop := exists cap, repr (buf msg) l cap.
Definition same_array (msg msg' : radius_msg) : Prop :=
  attr_pos msg' = attr_pos msg /\ attr_size msg' = attr_size msg /\ attr_used msg' = attr_used msg.

Lemma same_array_refl msg : same_array msg msg.
Proof. done. Qed.
Lemma same_array_trans m1 m2 m3 : same_array m1 m2 -> same_array m2 m3 -> same_array m1 m3.
Proof. intros (?&?&?) (?&?&?). split_and!; congruence. Qed.

Lemma brepr_len msg l : brepr msg l -> wpabuf_len (buf msg) = zlen l /\ zlen l < max_wpabuf.
Proof. intros (cap & H). destruct (repr_len _ _ _ H). unfold wpabuf_len. lia. Qed.
Lemma brepr_bytes msg l : brepr msg l -> bytes l.
Proof. intros (cap & H). by eapply repr_bytes. Qed.
Lemma mem_split msg l : brepr msg l -> exists r, mem msg = l ++ r.
Proof. intros (cap & H). destruct (wpabuf_head_split _ _ _ H) as (r & ? & _). by exists r. Qed.

Lemma mem_rd msg p x r : brepr msg (p ++ x :: r) -> rd (mem msg) (zlen p) = Ok x.
Proof.
  intros (s & ->)%mem_split. rewrite <-app_assoc. rewrite rd_shift0 by (cbn [app]; zlen_lia). done.
Qed.
Lemma mem_rd_n msg p d r : brepr msg (p ++ d ++ r) -> rd_n (mem msg) (zlen p) (zlen d) = Ok d.
Proof. intros (s & ->)%mem_split. rewrite <-!app_assoc. apply rd_n_app_mid. Qed.
Lemma whole_spec msg l : brepr msg l -> whole msg = Ok l.
Proof.
  intros H. unfold whole. destruct (brepr_len _ _ H) as [-> _].
  rewrite <-(app_nil_r l) in H. by apply (mem_rd_n msg [] l []).
Qed.

Lemma radius_store_repr msg p d0 d r cap : repr (buf msg) (p ++ d0 ++ r) cap -> length d0 = length d -> bytes d ->
  runs (store msg (zlen p) d) (fun m => repr (buf m) (p ++ d ++ r) cap /\ same_array msg m).
Proof.
  intros H Hd Hb. unfold store, mem. destruct (wpabuf_head_split _ _ _ H) as (s & Hh & Hs & Hbs).
  destruct (repr_len _ _ _ H) as [Hu Hc]. rewrite Hh.
  rewrite <-!app_assoc, wr_n_app by done. cbn [mbind res_bind]. eexists. split; [done|]. split; [|done].
  destruct H as ((Hu' & Hsz & Hz & Hbh) & _ & Hcap). unfold repr, wf, contents. cbn [buf put].
  rewrite wpabuf_mhead_set_used, wpabuf_mhead_set_size, wpabuf_mhead_set_head. rewrite Hh in Hz, Hbh.
  assert (zlen (p ++ d0 ++ r) = zlen (p ++ d ++ r)) as El by (rewrite !zlen_app; unfold zlen; lia).
  split_and!; try done; try (clear -Hu'; lia).
  - rewrite <-Hz. rewrite !zlen_app in *. unfold zlen in *. lia.
  - rewrite !Forall_app in *. tauto.
  - rewrite Hu, El. unfold zlen. rewrite Nat2Z.id.
    replace (p ++ d ++ r ++ s) with ((p ++ d ++ r) ++ s) by by rewrite <-!app_assoc.
    apply take_app_length.
Qed.

Lemma store_spec msg p d0 d r : brepr msg (p ++ d0 ++ r) -> length d0 = length d -> bytes d ->
  runs (store msg (zlen p) d) (fun m => brepr m (p ++ d ++ r) /\ same_array msg m).
Proof.
  intros (cap & H) Hd Hb. eapply runs_weaken; [by eapply radius_store_repr|]. intros m [Hm Hs]. split; [by exists cap|done].
Qed.

(** The octets that [wpabuf_put] makes room for hold anything. *)
Lemma wpabuf_put_spec b l cap n : repr b l cap -> 0 <= n -> zlen l + n <= cap ->
  exists b' x, wpabuf_put b n = Ok (zlen l, b') /\ zlen x = n /\ repr b' (l ++ x) cap.
Proof.
  intros H Hn Hfit. destruct (repr_len _ _ _ H) as [Hu Hc]. destruct (wpabuf_head_split _ _ _ H) as (r & Hh & Hr & Hbr).
  pose proof (repr_bytes _ _ _ H) as Hbl. destruct H as ((_ & Hmx & Hz & Hbh) & _ & Hs).
  unfold wpabuf_put, wpabuf_len, max_wpabuf, sizeof_wpabuf in *. cbn [put used size].
  rewrite Hu, Hs, size_t_id by zlen_lia. rewrite (proj2 (Z.ltb_ge _ _)) by lia.
  eexists _, (take (Z.to_nat n) r). split; [done|].
  assert (zlen (take (Z.to_nat n) r) = n) as Ex by (unfold zlen in *; rewrite length_take; lia).
  split; [done|]. unfold repr, wf, contents, max_wpabuf, sizeof_wpabuf. cbn [put used size].
  change (wpabuf_head _) with (wpabuf_head b). rewrite Hs in *.
  split_and!; try (done || zlen_lia).
  rewrite Hh. replace (Z.to_nat (zlen l + n)) with (length l + Z.to_nat n)%nat by (unfold zlen; lia).
  apply take_app_add.
Qed.

(** ** Messages *)

Definition array_of (msg : radius_msg) (attrs : list attribute) : Prop :=
  zlen (attr_pos msg) = attr_size msg /\ attr_used msg = zlen attrs /\
  take (length attrs) (attr_pos msg) = positions sizeof_radius_hdr attrs /\
  16 <= attr_size msg <= Z.max 16 (2 * zlen attrs) /\ zlen attrs <= attr_size msg.

Definition holds (msg : radius_msg) (h : list Z) (attrs : list attribute) : Prop :=
  zlen h = sizeof_radius_hdr /\ brepr msg (h ++ enc_attrs attrs) /\ Forall wf_attr attrs /\ array_of msg attrs.

(** Messages below 16 megabytes: lengths do not wrap. *)
Definition short (attrs : list attribute) : Prop := zlen (enc_attrs attrs) <= 2 ^ 24.

Lemma array_same msg msg' attrs : array_of msg attrs -> same_array msg msg' -> array_of msg' attrs.
Proof. unfold array_of. by intros H (-> & -> & ->). Qed.

(** Where the attribute behind [pre] is, and what the loads there give. *)
Definition at_ (pre : list attribute) : Z := sizeof_radius_hdr + zlen (enc_attrs pre).

Section loads.
Context (msg : radius_msg) (h : list Z) (pre : list attribute) (t : Z) (v : list Z) (post : list attribute).
Hypothesis Hm : holds msg h (pre ++ (t, v) :: post).

Local Lemma split_at : zlen (h ++ enc_attrs pre) = at_ pre /\
  brepr msg ((h ++ enc_attrs pre) ++ t :: (2 + zlen v) :: v ++ enc_attrs post).
Proof.
  destruct Hm as (Hh & Hb & _). split; [by rewrite zlen_app, Hh|].
  rewrite enc_attrs_app, enc_attrs_cons in Hb. rewrite <-app_assoc. exact Hb.
Qed.
Lemma load_type : attr_type msg (at_ pre) = Ok t.
Proof. destruct split_at as [<- Hb]. by eapply mem_rd. Qed.
Lemma load_length : attr_length msg (at_ pre) = Ok (2 + zlen v).
Proof.
  destruct split_at as [E Hb]. rewrite cons_middle, app_assoc in Hb. unfold attr_length.
  rewrite <-E. erewrite <-mem_rd; [|exact Hb]. do 2 f_equal. zlen_lia.
Qed.
Lemma load_split : zlen ((h ++ enc_attrs pre) ++ [t; 2 + zlen v]) = at_ pre + 2 /\
  brepr msg (((h ++ enc_attrs pre) ++ [t; 2 + zlen v]) ++ v ++ enc_attrs post).
Proof.
  destruct split_at as [E Hb]. split; [rewrite zlen_app, E; done|]. rewrite <-(app_assoc _ [t; _]). exact Hb.
Qed.
Lemma load_value : rd_n (mem msg) (at_ pre + 2) (zlen v) = Ok v.
Proof. destruct load_split as [<- Hb]. by eapply mem_rd_n. Qed.
Lemma load_drop : exists k, drop (Z.to_nat (at_ pre + 2)) (mem msg) = v ++ k.
Proof.
  destruct load_split as [<- Hb]. destruct (mem_split _ _ Hb) as [k ->]. exists (enc_attrs post ++ k).
  unfold zlen. rewrite Nat2Z.id, <-(app_assoc ((h ++ _) ++ _)), drop_app_length. by rewrite <-app_assoc.
Qed.
Lemma load_wf : wf_attr (t, v).
Proof. destruct Hm as (_ & _ & Hw & _). rewrite Forall_app, Forall_cons in Hw. tauto. Qed.
(** The value as [size_t] arithmetic finds its length. *)
Lemma load_len : size_t (2 + zlen v - sizeof_attr_hdr) = zlen v /\ 0 <= zlen v <= 253.
Proof.
  destruct load_wf as (_ & _ & Hl). cbn in Hl. unfold RADIUS_MAX_ATTR_LEN, sizeof_attr_hdr in *.
  pose proof (zlen_nonneg v). split; [|lia]. rewrite size_t_id; lia.
Qed.
End loads.

(** ** The loops *)

Section loops.
Context {A R : Type}.

(** A loop over attributes, the first of them at [o]. *)
Fixpoint fold_attrs (body : A -> Z -> attribute -> res (A + R)) (o : Z) (attrs : list attribute) (s : A) : res (A + R) :=
  match attrs with
  | [] => mret (inl s)
  | a :: attrs =>
      r ← body s o a;
      match r with inl s => fold_attrs body (o + zlen (enc_attr a)) attrs s | inr r => mret (inr r) end
  end.

Lemma for_attrs_spec (body : A -> Z -> res (A + R)) (abody : A -> Z -> attribute -> res (A + R)) msg h attrs s :
  holds msg h attrs ->
  (forall pre t v post s, attrs = pre ++ (t, v) :: post -> body s (at_ pre) = abody s (at_ pre) (t, v)) ->
  for_attrs body msg s = fold_attrs abody sizeof_radius_hdr attrs s.
Proof.
  intros (Hh & Hb & _ & (Hz & Hu & Hp & _)) Hbody. unfold for_attrs. rewrite Hu. unfold zlen. rewrite Nat2Z.id.
  change 0 with (zlen (@nil attribute)).
  replace sizeof_radius_hdr with (at_ []) by done.
  assert (attrs = [] ++ attrs) as E by done. revert s. revert E.
  generalize attrs at 2 3 4. generalize (@nil attribute).
  intros pre l. revert pre. induction l as [|[t v] l IH]; intros pre E s; [done|].
  cbn [length attr_loop fold_attrs].
  assert (radius_get_attr_hdr msg (zlen pre) = Ok (at_ pre)) as ->.
  { unfold radius_get_attr_hdr. apply rd_lookup; [zlen_lia|]. unfold zlen. rewrite Nat2Z.id.
    rewrite <-(lookup_take_lt _ (length attrs)) by (rewrite E, length_app; cbn [length]; lia). rewrite Hp, E, positions_app.
    rewrite lookup_app_r by (rewrite length_positions; lia). by rewrite length_positions, Nat.sub_diag. }
  cbn [mbind res_bind]. rewrite (Hbody pre t v l) by done. destruct (abody s (at_ pre) (t, v)) as [[s'|r]|f]; [|done..].
  cbn [mbind res_bind].
  replace (zlen pre + 1) with (zlen (pre ++ [(t, v)])) by by rewrite zlen_app.
  replace (at_ pre + zlen (enc_attr (t, v))) with (at_ (pre ++ [(t, v)])).
  2: { unfold at_. rewrite enc_attrs_snoc, zlen_app. lia. }
  apply IH. rewrite <-app_assoc. exact E.
Qed.

Lemma for_attrs_fold (body : A -> Z -> res (A + R)) msg h attrs s : holds msg h attrs ->
  for_attrs body msg s = fold_attrs (fun s o _ => body s o) sizeof_radius_hdr attrs s.
Proof. intros Hm. by eapply for_attrs_spec. Qed.

(** A body that always goes on. *)
Lemma fold_attrs_next (f : A -> attribute -> A) (body : A -> Z -> attribute -> res (A + R)) o attrs s :
  (forall s o a, a ∈ attrs -> body s o a = Ok (inl (f s a))) ->
  fold_attrs body o attrs s = Ok (inl (foldl f s attrs)).
Proof.
  revert o s. induction attrs as [|a attrs IH]; intros o s H; cbn [fold_attrs foldl]; [done|].
  rewrite H by left. cbn [mbind res_bind]. apply IH. intros. apply H. by right.
Qed.

(** An invariant over the attributes that have been visited, and what holds of a
    result that leaves the loop. *)
Lemma fold_attrs_rule (I : list attribute -> A -> Prop) (Q : R -> Prop) (body : A -> Z -> attribute -> res (A + R)) attrs s :
  I [] s ->
  (forall pre a post s, attrs = pre ++ a :: post -> I pre s ->
    runs (body s (at_ pre) a) (fun r => match r with inl s' => I (pre ++ [a]) s' | inr r => Q r end)) ->
  runs (fold_attrs body sizeof_radius_hdr attrs s) (fun r => match r with inl s' => I attrs s' | inr r => Q r end).
Proof.
  change sizeof_radius_hdr with (at_ []). intros HI H. assert (attrs = [] ++ attrs) as E by done. revert s HI E.
  generalize attrs at 2 3. generalize (@nil attribute).
  intros pre l. revert pre. induction l as [|a l IH]; intros pre s HI E; cbn [fold_attrs].
  - apply runs_ret. by rewrite E, app_nil_r.
  - rstep ltac:(by eapply (H pre a l)) as r Hr. destruct r as [s'|r]; [|by apply runs_ret].
    replace (at_ pre + zlen (enc_attr a)) with (at_ (pre ++ [a])).
    2: { unfold at_. rewrite enc_attrs_snoc, zlen_app. lia. }
    apply IH; [done|]. by rewrite <-app_assoc.
Qed.
Lemma fold_attrs_runs (I : list attribute -> A -> Prop) (body : A -> Z -> attribute -> res (A + R)) attrs s :
  I [] s ->
  (forall pre a post s, attrs = pre ++ a :: post -> I pre s ->
    runs (body s (at_ pre) a) (fun r => exists s', r = inl s' /\ I (pre ++ [a]) s')) ->
  runs (fold_attrs body sizeof_radius_hdr attrs s) (fun r => exists s', r = inl s' /\ I attrs s').
Proof.
  intros HI H. eapply runs_weaken; [apply (fold_attrs_rule I (fun _ => False)); [done|]|].
  - intros pre a post s' E Hs. eapply runs_weaken; [by eapply H|]. by intros r (s'' & -> & ?).
  - intros [s'|r]; [|done]. by exists s'.
Qed.
End loops.

(** ** Adding attributes *)

Section adding.
Context (malloc_ok : Z -> bool) (uninit : nat -> Z).

Definition enough_memory : Prop := forall n, malloc_ok n = true.

(** An array of offsets with one more of them. *)
Lemma array_snoc m pos attrs a : attr_pos m = <[length attrs := at_ attrs]> pos -> attr_used m = zlen attrs + 1 ->
  zlen pos = attr_size m -> zlen attrs < zlen pos -> take (length attrs) pos = positions sizeof_radius_hdr attrs ->
  16 <= attr_size m <= Z.max 16 (2 * (zlen attrs + 1)) -> array_of m (attrs ++ [a]).
Proof.
  intros Em Eu Hz Hl Hp Hs. unfold array_of. rewrite Em, Eu, zlen_insert, zlen_app. change (zlen [a]) with 1.
  split_and!; try (done || lia).
  rewrite length_app, positions_app. cbn [positions length]. fold (at_ attrs). rewrite <-Hp.
  unfold zlen in *. rewrite <-(take_drop (length attrs) pos) at 1.
  assert (length (take (length attrs) pos) = length attrs) as Et by (rewrite length_take; lia).
  rewrite insert_app_r_alt by lia. rewrite Et, Nat.sub_diag.
  destruct (drop (length attrs) pos) as [|x r] eqn:E.
  { apply (f_equal length) in E. rewrite length_drop in E. cbn in E. lia. }
  rewrite <-Et at 1. by rewrite take_app_add.
Qed.

Lemma add_to_array_spec msg attrs a : array_of msg attrs -> short attrs ->
  runs (radius_msg_add_attr_to_array malloc_ok uninit msg (at_ attrs)) (fun '(r, m) =>
    r = 0 /\ buf m = buf msg /\ array_of m (attrs ++ [a]) \/ r = -1 /\ ~ enough_memory).
Proof.
  intros (Hz & Hu & Hp & Hs & Hl) Hsh. unfold short in Hsh. pose proof (enc_attrs_long attrs) as Hlong.
  pose proof (zlen_nonneg attrs) as H0.
  unfold radius_msg_add_attr_to_array. rewrite Hu.
  destruct (Z.leb_spec (attr_size msg) (zlen attrs)) as [Hg|Hg].
  - assert (attr_size msg = zlen attrs) as Hsz by lia.
    assert (to_int (attr_size msg * 2) = 2 * zlen attrs) as -> by (unfold to_int; rewrite Z.mod_small; lia).
    unfold sizeof_size_t. rewrite (size_t_id (2 * zlen attrs * 4)), (size_t_id (2 * zlen attrs)), Z.div_mul by lia.
    destruct (malloc_ok _) eqn:E.
    2: { eexists. split; [done|]. right. split; [done|]. intros M. by rewrite M in E. }
    cbn [put attr_pos attr_used attr_size].
    set (arr := take _ _).
    assert (zlen arr = 2 * zlen attrs) as Ha.
    { subst arr. unfold zlen in *. rewrite length_take, length_app. unfold fresh. rewrite length_map, length_seq. lia. }
    rewrite Hu, wr_ok by lia. cbn [mbind res_bind]. eexists. split; [done|]. left. split; [done|]. split; [done|].
    rewrite (size_t_id (zlen attrs + 1)) by lia. replace (Z.to_nat (zlen attrs)) with (length attrs) by (unfold zlen; lia).
    apply (array_snoc _ arr); cbn [put attr_pos attr_size attr_used]; try (done || lia).
    subst arr. rewrite take_take, Nat.min_l by (unfold zlen; lia). rewrite take_app_le by (unfold zlen in *; lia). done.
  - rewrite Hu, wr_ok by lia. cbn [mbind res_bind]. eexists. split; [done|]. left. split; [done|]. split; [done|].
    rewrite (size_t_id (zlen attrs + 1)) by lia. replace (Z.to_nat (zlen attrs)) with (length attrs) by (unfold zlen; lia). by apply (array_snoc _ (attr_pos msg)); cbn [put attr_pos attr_size attr_used]; try lia.
Qed.

Lemma resize_fails b n : enough_memory -> 0 <= n ->
  forall b', wpabuf_resize malloc_ok (Some b) n <> Ok (-1, b').
Proof.
  intros M Hn b'. unfold wpabuf_resize. rewrite !M. case_match; [|done].
  case_match; destruct (realloc_clear _ _ _ _); cbn [mbind res_bind mret res_ret]; intros [=].
Qed.

(** Room for [n] octets more. *)
Lemma make_room msg l n : brepr msg l -> 0 <= n -> zlen l + n < max_wpabuf ->
  runs (if wpabuf_tailroom (buf msg) <? n then
          '(r, b) ← wpabuf_resize malloc_ok (Some (buf msg)) n;
          match b with Some b => mret (r, msg <| buf := b |>) | None => Fault NullDeref end
        else mret (0, msg)) (fun '(r, m) =>
    (r = 0 /\ (exists cap, repr (buf m) l cap /\ zlen l + n <= cap) \/ r = -1 /\ ~ enough_memory) /\ same_array msg m).
Proof.
  intros (cap & Hb) Hn Hm. destruct (repr_len _ _ _ Hb) as [Hu Hc]. pose proof Hb as (_ & _ & Hs).
  unfold wpabuf_tailroom. rewrite Hu, Hs, size_t_id by (unfold max_wpabuf, sizeof_wpabuf in *; zlen_lia).
  destruct (Z.ltb_spec (cap - zlen l) n).
  - destruct (wpabuf_resize_repr malloc_ok _ _ _ n Hb Hn Hm) as [E|(b' & cap' & E & Hr & Hfit)]; rewrite E.
    + eexists. split; [done|]. split; [|done]. right. split; [done|]. intros M. by eapply resize_fails.
    + eexists. split; [done|]. split; [|done]. left. split; [done|]. by exists cap'.
  - apply runs_ret. split; [|done]. left. split; [done|]. exists cap. split; [done|lia].
Qed.

Lemma put_data_spec msg l cap d rest : repr (buf msg) l cap -> bytes d -> zlen l + zlen d <= cap ->
  runs (wpabuf_put_data (buf msg) (Some (d ++ rest)) (zlen d)) (fun b => repr b (l ++ d) cap).
Proof.
  intros H Hd Hfit. unfold wpabuf_put_data.
  pose proof (rd_n_app_mid [] d rest) as E. change (rd_n (d ++ rest) 0 (zlen d) = Ok d) in E. rewrite E.
  destruct (wpabuf_put_bytes_fits _ _ _ _ H Hd Hfit) as (b & Eb & Hb). cbn [mbind res_bind]. by exists b.
Qed.

Lemma add_attr_spec msg h attrs t d rest : holds msg h attrs -> wf_attr (t, d) -> short attrs ->
  runs (radius_msg_add_attr malloc_ok uninit msg t (d ++ rest) (zlen d)) (fun '(r, m) =>
    r = Some (at_ attrs) /\ holds m h (attrs ++ [(t, d)]) \/ r = None /\ ~ enough_memory).
Proof.
  intros (Hh & Hb & Hw & Ha) Hwd Hsh. pose proof Hwd as (Ht & Hd & Hl). cbn in Ht, Hd, Hl.
  unfold RADIUS_MAX_ATTR_LEN, sizeof_attr_hdr in *. pose proof (zlen_nonneg d) as H0.
  assert (zlen (h ++ enc_attrs attrs) = at_ attrs) as El by (rewrite zlen_app, Hh; done).
  assert (at_ attrs <= 2 ^ 24 + 20) as Hat by (unfold at_, short, sizeof_radius_hdr in *; lia).
  unfold radius_msg_add_attr, RADIUS_MAX_ATTR_LEN, sizeof_attr_hdr. rewrite (proj2 (Z.ltb_ge _ _)) by lia.
  rstep ltac:(eapply (make_room msg _ (2 + zlen d) Hb);
    rewrite ?El; unfold max_wpabuf, sizeof_wpabuf; lia) as [r m] Hm. destruct Hm as [[[-> (cap & Hr & Hfit)]|[-> Hno]] Hs1].
  2: { apply runs_ret. by right. }
  cbn [Z.ltb Z.compare].
  destruct (wpabuf_put_spec _ _ _ 2 Hr) as (b & x & -> & Hx & Hb1); [lia..|]. cbn [mbind res_bind].
  destruct x as [|x0 [|x1 [|x2 x]]]; try (exfalso; zlen_lia).
  rstep ltac:(eapply (radius_store_repr (m <| buf := b |>) (h ++ enc_attrs attrs) [x0] [u8 t] [x1]);
    [exact Hb1|done|repeat constructor; apply u8_byte]) as m1 H1. destruct H1 as [Hb2 Hs2].
  rewrite (u8_id t Ht), app_assoc in Hb2.
  rstep ltac:(replace (zlen (h ++ enc_attrs attrs) + 1) with (zlen ((h ++ enc_attrs attrs) ++ [t])) by zlen_lia;
    eapply (radius_store_repr m1 _ [x1] [u8 (2 + zlen d)] []);
    [rewrite app_nil_r; exact Hb2|done|repeat constructor; apply u8_byte]) as m2 H2.
  destruct H2 as [Hb3 Hs3]. rewrite app_nil_r, u8_id in Hb3 by (unfold is_byte; lia).
  rstep ltac:(eapply (put_data_spec m2 _ cap d rest Hb3 Hd); rewrite !zlen_app in *; change (zlen [_]) with 1 in *; lia) as b4 Hb4.
  rewrite El.
  rstep ltac:(eapply (add_to_array_spec (m2 <| buf := b4 |>) attrs (t, d));
    [|exact Hsh]; eapply (array_same msg); [exact Ha|];
    eapply same_array_trans; [exact Hs1|]; eapply same_array_trans; [exact Hs2|exact Hs3]) as [r m4] H4.
  apply runs_ret. destruct H4 as [(-> & Hbuf & Ha4)|[-> Hno]]; [left|by right].
  split; [done|]. split; [done|]. split_and!; [|by rewrite Forall_app, Forall_singleton|done].
  exists cap. rewrite Hbuf, enc_attrs_snoc. unfold enc_attr. cbn [fst snd].
  rewrite <-!app_assoc in Hb4. exact Hb4.
Qed.
End adding.
