(* ===== verification/RadiusProps.v ===== *)
(** * RADIUS messages: parsing, building and reading

    [is_message data h attrs] is the format of RFC 2865: a header with its length
    field, then attributes; octets behind the length are ignored.  The parser accepts
    exactly that, and what was put into a message is read from it.  Then the functions
    that look attributes up, count, copy and interpret them, on any message the parser
    accepts: what they return, and that they never read outside of the message nor
    write outside of their arrays. *)

From S2P Require Import Prelude WpaBuf Radius RadiusRep.

Definition is_message (data h : list Z) (attrs : list attribute) : Prop :=
  zlen h = sizeof_radius_hdr /\ Forall wf_attr attrs /\
  WPA_GET_BE16 h 2 = Ok (zlen (h ++ enc_attrs attrs)) /\ h ++ enc_attrs attrs `prefix_of` data.

(** ** The encoding is unambiguous *)

Lemma enc_attrs_inj l k : enc_attrs l = enc_attrs k -> l = k.
Proof.
  revert k. induction l as [|[t v] l IH]; intros [|[t' v'] k] E; [done|discriminate E..|].
  rewrite !enc_attrs_cons in E. unfold enc_attr in E. cbn [fst snd app] in E. injection E as -> Hl E.
  assert (length v = length v') as El by (unfold zlen in Hl; lia).
  apply app_inj_1 in E as [-> E]; [|done]. f_equal. by apply IH.
Qed.

Lemma holds_attrs_inj msg h attrs h' attrs' : holds msg h attrs -> holds msg h' attrs' -> h = h' /\ attrs = attrs'.
Proof.
  intros (Hh & (cap & Hb) & _) (Hh' & (cap' & Hb') & _). destruct Hb as (_ & E & _), Hb' as (_ & E' & _).
  rewrite E in E'. apply app_inj_1 in E' as [-> E']; [|unfold zlen in *; lia]. split; [done|]. by apply enc_attrs_inj.
Qed.

Lemma GET_BE16_app h l : zlen h = sizeof_radius_hdr -> WPA_GET_BE16 (h ++ l) 2 = WPA_GET_BE16 h 2.
Proof. intros Hh. unfold WPA_GET_BE16. by rewrite !rd_app_l by (rewrite Hh; done). Qed.

Lemma prefix_bytes l data : l `prefix_of` data -> bytes data -> bytes l.
Proof. intros [k ->] [? _]%Forall_app. done. Qed.
Lemma split_prefix data n : 20 <= n <= zlen data -> exists h rest : list Z,
  h ++ rest `prefix_of` data /\ zlen h = 20 /\ zlen (h ++ rest) = n.
Proof.
  intros Hn. exists (take 20 data), (drop 20 (take (Z.to_nat n) data)).
  assert (take 20 data = take 20 (take (Z.to_nat n) data)) as -> by by rewrite take_take, Nat.min_l by lia.
  rewrite take_drop. split_and!; [apply prefix_take| |]; unfold zlen in *; rewrite !length_take; lia.
Qed.

Lemma is_message_inj data h attrs h' attrs' : is_message data h attrs -> is_message data h' attrs' -> h = h' /\ attrs = attrs'.
Proof.
  intros (Hh & _ & El & [k ->]) (Hh' & _ & El' & [k' E]).
  rewrite <-!app_assoc in E. apply app_inj_1 in E as [-> E]; [|unfold zlen in *; lia]. split; [done|].
  rewrite El in El'. injection El' as El'. rewrite !zlen_app in El'.
  apply app_inj_1 in E as [E _]; [|unfold zlen in *; lia]. by apply enc_attrs_inj.
Qed.

Section parsing.
Context (malloc_ok : Z -> bool) (uninit : nat -> Z).

(** [pre] has been parsed, [rest] is left. *)
Definition partly (msg : radius_msg) (h : list Z) (pre : list attribute) (rest : list Z) : Prop :=
  zlen h = sizeof_radius_hdr /\ brepr msg (h ++ enc_attrs pre ++ rest) /\ Forall wf_attr pre /\ array_of msg pre.
Definition attributes (rest : list Z) (post : list attribute) : Prop := Forall wf_attr post /\ rest = enc_attrs post.

Lemma attributes_cons t l r post : attributes (t :: l :: r) post ->
  exists v post', post = (t, v) :: post' /\ l = 2 + zlen v /\ wf_attr (t, v) /\ r = v ++ enc_attrs post' /\ Forall wf_attr post'.
Proof.
  intros [Hw E]. destruct post as [|[t' v] post]; [discriminate E|].
  rewrite enc_attrs_cons in E. injection E as -> -> ->. apply Forall_cons in Hw as [Hv Hw].
  exists v, post. by split_and!.
Qed.

Lemma parse_attrs_spec fuel msg h pre rest : partly msg h pre rest -> zlen (enc_attrs pre ++ rest) <= 2 ^ 24 ->
  (length rest <= fuel)%nat ->
  runs (parse_attrs malloc_ok uninit fuel msg (at_ pre) (at_ pre + zlen rest)) (fun r =>
    (forall m, r = Some m -> buf m = buf msg /\ exists post, attributes rest post /\ holds m h (pre ++ post)) /\
    (r = None -> enough_memory malloc_ok -> forall post, ~ attributes rest post)).
Proof.
  revert msg pre rest. induction fuel as [|fuel IH]; intros msg pre rest Hp Hs Hf.
  all: destruct Hp as (Hh & Hb & Hw & Ha); cbn [parse_attrs].
  all: destruct (decide (rest = [])) as [->|Hne];
    [change (zlen []) with 0; rewrite Z.add_0_r, Z.ltb_irrefl; apply runs_ret; split; [|done];
     intros m [= <-]; split; [done|]; exists []; rewrite app_nil_r in *; by split_and!|].
  { exfalso. by destruct rest; cbn in Hf; [|lia]. }
  pose proof (zlen_nonneg rest) as H0.
  assert (0 < zlen rest) as Hpos by (destruct rest; [done|zlen_lia]).
  rewrite (proj2 (Z.ltb_lt _ _)) by lia. replace (at_ pre + zlen rest - at_ pre) with (zlen rest) by lia.
  unfold sizeof_attr_hdr at 1. destruct (Z.ltb_spec (zlen rest) 2) as [H2|H2].
  { apply runs_ret. split; [done|]. intros _ _ post [_ ->]. destruct post as [|a post]; [done|].
    rewrite enc_attrs_cons, zlen_app, zlen_enc_attr in H2. zlen_lia. }
  destruct rest as [|t [|l r]]; [done|exfalso; zlen_lia|].
  assert (attr_length msg (at_ pre) = Ok l) as ->.
  { unfold attr_length. replace (at_ pre + 1) with (zlen ((h ++ enc_attrs pre) ++ [t])) by (rewrite !zlen_app, Hh; unfold at_; zlen_lia).
    eapply mem_rd. rewrite <-!app_assoc. exact Hb. }
  cbn [mbind res_bind]. unfold sizeof_attr_hdr.
  destruct (Z.ltb_spec (at_ pre + zlen (t :: l :: r)) (at_ pre + l)) as [Hl|Hl], (Z.ltb_spec l 2) as [Hl2|Hl2]; cbn [orb].
  1-3: apply runs_ret; split; [done|]; intros _ _ post (v & post' & _ & -> & _ & -> & _)%attributes_cons.
  1-3: clear IH Hs Hf Hne; pose proof (zlen_nonneg (enc_attrs post')); pose proof (zlen_nonneg v); rewrite ?zlen_cons, ?zlen_app in *; try lia.

  assert (exists v r', r = v ++ r' /\ l = 2 + zlen v) as (v & r' & -> & ->).
  { exists (take (Z.to_nat (l - 2)) r), (drop (Z.to_nat (l - 2)) r). split; [by rewrite take_drop|].
    rewrite !zlen_cons in Hl. unfold zlen in *. rewrite length_take. lia. }
  assert (wf_attr (t, v)) as Hv.
  { pose proof (brepr_bytes _ _ Hb) as Hbb. rewrite !Forall_app, !Forall_cons, Forall_app in Hbb.
    destruct Hbb as (_ & _ & Ht & Hl' & Hbv & _). split_and!; cbn; [done..|]. unfold is_byte, RADIUS_MAX_ATTR_LEN, sizeof_attr_hdr in *. lia. }
  assert (short pre) as Hsp by (unfold short; zlen_lia).
  rstep ltac:(eapply (add_to_array_spec malloc_ok uninit msg pre (t, v) Ha Hsp)) as [k m] Hm.
  destruct Hm as [(-> & Hbuf & Ha')|[-> Hno]]; cbn [Z.eqb negb].
  2: { apply runs_ret. by split. }
  assert (at_ pre + (2 + zlen v) = at_ (pre ++ [(t, v)])) as E.
  { unfold at_. rewrite enc_attrs_snoc, zlen_app, zlen_enc_attr. cbn [snd]. lia. }
  rewrite E. replace (at_ pre + zlen (t :: 2 + zlen v :: v ++ r')) with (at_ (pre ++ [(t, v)]) + zlen r') by (rewrite <-E, !zlen_cons, zlen_app; lia).
  assert (enc_attrs (pre ++ [(t, v)]) ++ r' = enc_attrs pre ++ t :: 2 + zlen v :: v ++ r') as Ee.
  { rewrite enc_attrs_snoc, <-app_assoc. done. }
  eapply runs_weaken.
  - apply (IH m (pre ++ [(t, v)]) r').
    + split; [done|]. rewrite Ee. split_and!; [|by apply Forall_app; split; [|constructor]|done].
      destruct Hb as (cap & Hb). exists cap. by rewrite Hbuf.
    + by rewrite Ee.
    + cbn [length] in Hf. rewrite length_app in Hf. lia.
  - intros q [Hsome Hnone]. split.
    + intros m' Hq. destruct (Hsome m' Hq) as (Hbuf' & post & [Hwp ->] & Hm'). split; [congruence|]. exists ((t, v) :: post).
      rewrite <-app_assoc in Hm'. split; [|exact Hm']. split; [by constructor|done].
    + intros Hq M post (v' & post' & -> & El & _ & Er & Hw')%attributes_cons.
      apply app_inj_1 in Er as [-> Er]; [|unfold zlen in El; lia]. by apply (Hnone Hq M post').
Qed.

Lemma initialize_spec b h rest : zlen h = sizeof_radius_hdr -> (exists cap, repr b (h ++ rest) cap) ->
  match radius_msg_initialize malloc_ok b with
  | Some msg => partly msg h [] rest /\ buf msg = b
  | None => ~ enough_memory malloc_ok
  end.
Proof.
  intros Hh Hb. unfold radius_msg_initialize. destruct (malloc_ok _) eqn:E.
  - by split.
  - intros M. by rewrite M in E.
Qed.

(** The first [n] octets, copied. *)
Lemma copy_spec data l : l `prefix_of` data -> bytes l -> zlen l < max_wpabuf ->
  runs (wpabuf_alloc_copy malloc_ok (Some data) (zlen l)) (fun b =>
    match b with Some b => repr b l (zlen l) | None => ~ enough_memory malloc_ok end).
Proof.
  intros [k ->] Hl Hm. pose proof (zlen_nonneg l) as H0.
  assert (wpabuf_alloc_copy malloc_ok (Some (l ++ k)) (zlen l) = wpabuf_alloc_copy malloc_ok (Some l) (zlen l)) as ->.
  { unfold wpabuf_alloc_copy, wpabuf_put_data. rewrite rd_n_all.
    pose proof (rd_n_app_mid [] l k) as E. change (rd_n (l ++ k) 0 (zlen l) = Ok l) in E. by rewrite E. }
  destruct (wpabuf_alloc_copy_repr malloc_ok l (zlen l) Hl) as [Ec|(b & Ec & Hb)]; [lia|done|..]; rewrite Ec.
  2: by exists (Some b).
  exists None. split; [done|]. intros M. revert Ec. unfold wpabuf_alloc_copy.
  destruct (wpabuf_alloc_some malloc_ok (zlen l)) as (b & Eb); [lia|apply M|]. rewrite Eb.
  destruct (wpabuf_put_data _ _ _); cbn [mbind res_bind mret res_ret]; intros [=].
Qed.

(** The length field of a message is right. *)
Lemma is_message_length data h attrs n : is_message data h attrs -> WPA_GET_BE16 data 2 = Ok n ->
  n = zlen (h ++ enc_attrs attrs) /\ 20 <= n <= zlen data.
Proof.
  intros (Hh & _ & Eh & [k ->]) En. rewrite <-app_assoc, GET_BE16_app, Eh in En by done. injection En as <-.
  split; [done|]. rewrite !zlen_app, Hh. unfold sizeof_radius_hdr.
  pose proof (zlen_nonneg (enc_attrs attrs)). pose proof (zlen_nonneg k). lia.
Qed.
(** A message is its first 20 octets and attributes. *)
Lemma is_message_split data n h rest : WPA_GET_BE16 data 2 = Ok n -> h ++ rest `prefix_of` data -> zlen h = 20 -> zlen (h ++ rest) = n ->
  (forall attrs, attributes rest attrs -> is_message data h attrs) /\
  (forall h' attrs, is_message data h' attrs -> attributes rest attrs).
Proof.
  intros En Hp Hh El. split.
  - intros attrs [Hw ->]. split; [done|]. split; [done|]. split; [|done]. rewrite El.
    destruct Hp as [k ->]. by rewrite <-app_assoc, GET_BE16_app in En by done.
  - intros h' attrs Hm. destruct (is_message_length _ _ _ _ Hm En) as [El' _]. destruct Hm as (Hh' & Hw & _ & [k' Ek']), Hp as [k Ek].
    split; [done|]. rewrite Ek in Ek'. apply app_inj_1 in Ek' as [E _]; [|rewrite El' in El; unfold zlen in El; lia].
    apply app_inj_1 in E as [_ E]; [done|]. unfold zlen, sizeof_radius_hdr in *. lia.
Qed.

(** What [radius_msg_parse] does with any octets. *)
Lemma parse_spec data : bytes data -> zlen data < 2 ^ 32 ->
  runs (radius_msg_parse malloc_ok uninit (Some data) (zlen data)) (fun r =>
    (forall msg, r = Some msg -> exists h attrs, is_message data h attrs /\ holds msg h attrs /\
      zlen (mem msg) = zlen (h ++ enc_attrs attrs)) /\
    (r = None -> enough_memory malloc_ok -> forall h attrs, ~ is_message data h attrs)).
Proof.
  intros Hd Hlt. pose proof (zlen_nonneg data) as H0. unfold radius_msg_parse, sizeof_radius_hdr.
  destruct (Z.ltb_spec (zlen data) 20) as [H20|H20].
  { apply runs_ret. split; [done|]. intros _ _ h attrs (Hh & _ & _ & [k ->]). rewrite !zlen_app, Hh in H20.
    pose proof (zlen_nonneg (enc_attrs attrs)). pose proof (zlen_nonneg k). unfold sizeof_radius_hdr in *. lia. }
  destruct (WPA_GET_BE16_total data 2 Hd) as (n & En & Hn); [lia..|]. rewrite En. cbn [mbind res_bind].
  destruct (Z.ltb_spec n 20) as [|Hn20], (Z.ltb_spec (zlen data) n) as [|Hnd]; cbn [orb].
  1-3: apply runs_ret; split; [done|]; intros _ _ h attrs Hm; apply (is_message_length _ _ _ n) in Hm; (done || lia).
  destruct (malloc_ok sizeof_radius_msg) eqn:Em; cbn [negb].
  2: { apply runs_ret. split; [done|]. intros _ M. by rewrite M in Em. }
  destruct (split_prefix data n) as (h & rest & Hpre & Hh & El); [lia..|].
  destruct (is_message_split data n h rest En Hpre Hh El) as [Hto Hfrom]. rewrite <-El.
  rstep ltac:(apply (copy_spec data (h ++ rest) Hpre);
    [by eapply prefix_bytes|rewrite El; unfold max_wpabuf, sizeof_wpabuf; lia]) as b Hb.
  destruct b as [b|]; cbn [option_bind mbind].
  2: { apply runs_ret. by split. }
  pose proof (initialize_spec b h rest Hh (ex_intro _ _ Hb)) as Hi. destruct (radius_msg_initialize malloc_ok b) as [msg|].
  2: { apply runs_ret. by split. }
  destruct Hi as [Hp Hbm]. rewrite Hbm. destruct (repr_len _ _ _ Hb) as [Hu _].
  assert (wpabuf_len b = at_ [] + zlen rest) as -> by (unfold wpabuf_len; rewrite Hu, zlen_app, Hh; done).
  change 20 with (at_ []).
  eapply runs_weaken; [apply (parse_attrs_spec _ msg h [] rest Hp)|].
  - change (enc_attrs []) with (@nil Z). cbn [app]. rewrite zlen_app in El. lia.
  - change (at_ []) with 20. unfold zlen. lia.
  - intros q [Hsome Hnone]. split.
    + intros m Hq. destruct (Hsome m Hq) as (Hbuf & post & Hpost & Hm). exists h, post. split; [by apply Hto|].
      split; [exact Hm|]. destruct Hpost as [_ <-]. unfold mem. rewrite Hbuf, Hbm. by destruct Hb as ((_ & _ & -> & _) & _ & ->).
    + intros Hq M h' attrs Hm. by eapply (Hnone Hq M attrs), Hfrom.
Qed.
End parsing.

(** ** New messages *)

Section building.
Context (malloc_ok : Z -> bool) (uninit : nat -> Z).

Lemma new_spec code identifier : is_byte code -> is_byte identifier ->
  runs (radius_msg_new malloc_ok code identifier) (fun r =>
    match r with
    | Some m => exists x, zlen x = 18 /\ holds m (code :: identifier :: x) []
    | None => ~ enough_memory malloc_ok
    end).
Proof.
  intros Hc Hi. unfold radius_msg_new.
  destruct (malloc_ok sizeof_radius_msg) eqn:Em.
  2: { apply runs_ret. intros M. by rewrite M in Em. }
  destruct (wpabuf_alloc malloc_ok RADIUS_DEFAULT_MSG_SIZE) as [b|] eqn:Eb; cbn [mbind option_bind].
  2: { apply runs_ret. intros M. destruct (wpabuf_alloc_some malloc_ok RADIUS_DEFAULT_MSG_SIZE) as (b & Eb');
       [done|apply M|congruence]. }
  apply wpabuf_alloc_repr in Eb; [|done].
  unfold radius_msg_initialize. destruct (malloc_ok (RADIUS_DEFAULT_ATTR_COUNT * sizeof_size_t)) eqn:Ei; cbn [mbind option_bind].
  2: { apply runs_ret. intros M. by rewrite M in Ei. }
  destruct (wpabuf_put_spec b [] _ sizeof_radius_hdr Eb) as (b' & x & E & Hx & Hb'); [done..|].
  cbn [buf] in *. rewrite E. cbn [mbind res_bind]. unfold sizeof_radius_hdr in Hx.
  destruct x as [|x0 [|x1 x]]; try (exfalso; zlen_lia). cbn [app] in Hb'.
  rstep ltac:(eapply (radius_store_repr _ [] [x0; x1] [u8 code; u8 identifier] x);
    [exact Hb'|done|repeat constructor; apply u8_byte]) as m Hm.
  destruct Hm as [Hm Hs]. apply runs_ret. exists x. rewrite !u8_id in Hm by done. cbn [app] in Hm.
  split; [rewrite !zlen_cons in Hx; lia|]. split; [rewrite !zlen_cons in *; unfold sizeof_radius_hdr; lia|].
  split; [eexists; change (enc_attrs []) with (@nil Z); rewrite app_nil_r; exact Hm|]. split; [done|].
  eapply array_same; [|exact Hs]. by split_and!.
Qed.

(** ** EAP packets *)

(** The values of the attributes with a type. *)
Definition values (t : Z) (attrs : list attribute) : list (list Z) :=
  map snd (filter (fun a => a.1 = t) attrs).
Lemma values_app t l k : values t (l ++ k) = values t l ++ values t k.
Proof. unfold values. by rewrite filter_app, map_app. Qed.
Lemma values_eq t a : a.1 = t -> values t [a] = [a.2].
Proof. intros. unfold values. by rewrite filter_cons_True. Qed.
Lemma values_ne t a : a.1 <> t -> values t [a] = [].
Proof. intros. unfold values. by rewrite filter_cons_False. Qed.
Lemma values_none t l : Forall (fun a => a.1 <> t) l -> values t l = [].
Proof.
  induction 1 as [|a l Ha Hl IH]; [done|]. change (a :: l) with ([a] ++ l). by rewrite values_app, IH, values_ne.
Qed.
Lemma values_all t l : Forall (fun a => a.1 = t) l -> values t l = map snd l.
Proof.
  induction 1 as [|a l Ha Hl IH]; [done|]. change (a :: l) with ([a] ++ l). by rewrite values_app, IH, values_eq.
Qed.
Lemma values_short t l : zlen (concat (values t l)) <= zlen (enc_attrs l).
Proof.
  induction l as [|a l IH]; [done|]. change (a :: l) with ([a] ++ l).
  rewrite values_app, concat_app, enc_attrs_app, !zlen_app. change (enc_attrs [a]) with (enc_attr a ++ []).
  rewrite app_nil_r, zlen_enc_attr. pose proof (zlen_nonneg a.2).
  destruct (decide (a.1 = t)); [rewrite values_eq by done|rewrite values_ne by done]; cbn [concat];
    rewrite ?app_nil_r; change (zlen (@nil Z)) with 0; lia.
Qed.

Lemma zlen_fresh n : 0 <= n -> zlen (fresh uninit n) = n.
Proof. intros. unfold zlen, fresh. rewrite length_map, length_seq. lia. Qed.

(** The EAP packet of a message. *)
Definition eap_of (attrs : list attribute) : list Z := concat (values RADIUS_ATTR_EAP_MESSAGE attrs).
Lemma eap_of_snoc pre a : eap_of (pre ++ [a]) = eap_of pre ++ (if a.1 =? RADIUS_ATTR_EAP_MESSAGE then a.2 else []).
Proof.
  unfold eap_of. rewrite values_app, concat_app. f_equal. destruct (Z.eqb_spec a.1 RADIUS_ATTR_EAP_MESSAGE).
  - rewrite values_eq by done. apply app_nil_r.
  - by rewrite values_ne.
Qed.
Lemma eap_of_prefix pre a post : zlen (eap_of (pre ++ [a])) <= zlen (eap_of (pre ++ a :: post)).
Proof.
  replace (pre ++ a :: post) with ((pre ++ [a]) ++ post) by by rewrite <-app_assoc. unfold eap_of. rewrite (values_app _ (pre ++ [a]) post), concat_app, zlen_app.
  pose proof (zlen_nonneg (concat (values RADIUS_ATTR_EAP_MESSAGE post))). lia.
Qed.
Lemma eap_of_bound msg h attrs : holds msg h attrs -> zlen (eap_of attrs) < 4294967296.
Proof.
  intros (Hh & Hb & _). pose proof (values_short RADIUS_ATTR_EAP_MESSAGE attrs). apply brepr_len in Hb as [_ Hb].
  rewrite zlen_app in Hb. pose proof (zlen_nonneg h). unfold eap_of, max_wpabuf, sizeof_wpabuf in *. lia.
Qed.

(** The first loop: the length. *)
Lemma eap_length attrs : zlen (eap_of attrs) < 4294967296 ->
  runs (fold_attrs (R := unit) (fun len _ a => mret (inl (if a.1 =? RADIUS_ATTR_EAP_MESSAGE
    then size_t (len + (2 + zlen a.2) - sizeof_attr_hdr) else len))) sizeof_radius_hdr attrs 0)
    (fun r => r = inl (zlen (eap_of attrs))).
Proof.
  intros Hlt. eapply runs_weaken.
  - apply (fold_attrs_runs (fun pre len => len = zlen (eap_of pre))); [done|].
    intros pre a post s E ->. apply runs_ret. eexists. split; [done|].
    pose proof (eap_of_prefix pre a post) as Hle. rewrite <-E, eap_of_snoc in Hle. rewrite eap_of_snoc.
    pose proof (zlen_nonneg (eap_of pre)). pose proof (zlen_nonneg a.2). rewrite zlen_app in *. unfold sizeof_attr_hdr.
    destruct (a.1 =? _) in Hle |- *; [rewrite size_t_id; lia|]. change (zlen []) with 0. lia.
  - by intros r (s & -> & ->).
Qed.

(** The second loop: the octets. *)
Lemma eap_copy attrs f : zlen f = zlen (eap_of attrs) ->
  runs (fold_attrs (R := unit) (fun '(e, pos) _ a => if a.1 =? RADIUS_ATTR_EAP_MESSAGE
    then e ← wr_n e pos a.2; mret (inl (e, pos + zlen a.2)) else mret (inl (e, pos))) sizeof_radius_hdr attrs (f, 0))
    (fun r => r = inl (eap_of attrs, zlen (eap_of attrs))).
Proof.
  intros Hf. eapply runs_weaken.
  - apply (fold_attrs_runs (fun pre '(e, pos) => pos = zlen (eap_of pre) /\
      exists f, e = eap_of pre ++ f /\ zlen e = zlen (eap_of attrs))); [split; [done|by exists f]|].
    intros pre a post [e pos] E (-> & g & -> & Hg).
    pose proof (eap_of_prefix pre a post) as Hle. rewrite <-E, eap_of_snoc in Hle. rewrite !eap_of_snoc.
    destruct (a.1 =? _) in Hle |- *; [|rewrite !app_nil_r; apply runs_ret; eexists; split; [done|]; split; [done|]; by exists g].
    rewrite !zlen_app in *. rewrite <-(take_drop (length a.2) g).
    rewrite wr_n_app by (rewrite length_take; unfold zlen in *; lia).
    apply runs_ret. eexists. split; [done|]. split; [done|]. eexists. rewrite <-app_assoc. split; [done|].
    rewrite !zlen_app. unfold zlen in *. rewrite length_drop. lia.
  - intros r ([e pos] & -> & -> & g & -> & Hg). do 2 f_equal.
    assert (g = []) as ->; [|by rewrite app_nil_r]. destruct g; [done|]. rewrite zlen_app, zlen_cons in Hg.
    pose proof (zlen_nonneg g). lia.
Qed.

Lemma get_eap_spec msg h attrs : holds msg h attrs ->
  runs (radius_msg_get_eap malloc_ok uninit (Some msg)) (fun r =>
    r = (if decide (eap_of attrs = []) then None else Some (eap_of attrs)) \/ r = None /\ ~ enough_memory malloc_ok).
Proof.
  intros Hm. pose proof (eap_of_bound _ _ _ Hm) as Hlt. unfold radius_msg_get_eap.
  erewrite (for_attrs_spec _ (fun len _ a => mret (inl (if a.1 =? RADIUS_ATTR_EAP_MESSAGE
    then size_t (len + (2 + zlen a.2) - sizeof_attr_hdr) else len)))); [|exact Hm|].
  2: { intros pre t v post s ->. rewrite (load_type _ _ _ _ _ _ Hm). cbn [mbind res_bind fst snd].
       destruct (t =? _); [|done]. by rewrite (load_length _ _ _ _ _ _ Hm). }
  rstep ltac:(apply (eap_length attrs Hlt)) as r Hr. subst r.
  destruct (decide (eap_of attrs = [])) as [->|Hne]; [apply runs_ret; by left|].
  destruct (Z.eqb_spec (zlen (eap_of attrs)) 0) as [E|_].
  { exfalso. destruct (eap_of attrs) as [|x l]; [done|]. rewrite zlen_cons in E. pose proof (zlen_nonneg l). lia. }
  destruct (malloc_ok (zlen (eap_of attrs))) eqn:Em; cbn [negb].
  2: { apply runs_ret. right. split; [done|]. intros M. by rewrite M in Em. }
  erewrite (for_attrs_spec _ (fun '(e, pos) _ a => if a.1 =? RADIUS_ATTR_EAP_MESSAGE
    then e ← wr_n e pos a.2; mret (inl (e, pos + zlen a.2)) else mret (inl (e, pos)))); [|exact Hm|].
  2: { intros pre t v post [e pos] ->. rewrite (load_type _ _ _ _ _ _ Hm). cbn [mbind res_bind fst snd].
       destruct (t =? _); [|done]. rewrite (load_length _ _ _ _ _ _ Hm). cbn [mbind res_bind].
       unfold sizeof_attr_hdr. replace (2 + zlen v - 2) with (zlen v) by lia.
       by rewrite (load_value _ _ _ _ _ _ Hm). }
  rstep ltac:(apply (eap_copy attrs), zlen_fresh, zlen_nonneg) as r Hr. subst r. apply runs_ret. by left.
Qed.

(** Longer packets are cut into several attributes. *)
Lemma add_eap_spec fuel p r msg h attrs : holds msg h attrs -> bytes r ->
  zlen (enc_attrs attrs) + 3 * zlen r <= 2 ^ 24 -> (length r <= fuel)%nat ->
  runs (add_eap_loop malloc_ok uninit fuel msg (p ++ r) (zlen p) (zlen r)) (fun '(k, m) =>
    k = 1 /\ (exists l, holds m h (attrs ++ l) /\ Forall (fun a => a.1 = RADIUS_ATTR_EAP_MESSAGE) l /\ concat (map snd l) = r /\
      zlen (enc_attrs l) <= 3 * zlen r)
    \/ k = 0 /\ ~ enough_memory malloc_ok).
Proof.
  revert p r msg attrs. induction fuel as [|fuel IH]; intros p r msg attrs Hm Hr Hs Hf; cbn [add_eap_loop].
  all: destruct (decide (r = [])) as [->|Hne];
    [apply runs_ret; left; split; [done|]; exists []; rewrite app_nil_r; by split_and!|].
  { destruct r; cbn in Hf; [done|lia]. }
  pose proof (zlen_nonneg r) as H0. assert (0 < zlen r) as Hpos by (destruct r; [done|zlen_lia]).
  rewrite (proj2 (Z.ltb_lt _ _)) by lia. set (len := if RADIUS_MAX_ATTR_LEN <? zlen r then RADIUS_MAX_ATTR_LEN else zlen r).
  assert (0 < len <= 253 /\ len <= zlen r) as Hlen.
  { subst len. change RADIUS_MAX_ATTR_LEN with 253. destruct (Z.ltb_spec 253 (zlen r)); lia. }
  assert (exists c r', r = c ++ r' /\ zlen c = len) as (c & r' & -> & Hc).
  { exists (take (Z.to_nat len) r), (drop (Z.to_nat len) r). rewrite take_drop. split; [done|].
    unfold zlen in *. rewrite length_take. lia. }
  clearbody len. subst len. apply Forall_app in Hr as [Hbc Hr']. replace (Z.to_nat (zlen p)) with (length p) by (unfold zlen; lia). rewrite drop_app_length.
  rewrite zlen_app in *. pose proof (zlen_nonneg r'); pose proof (zlen_nonneg (enc_attrs attrs)).
  rstep ltac:(eapply (add_attr_spec malloc_ok uninit msg h attrs RADIUS_ATTR_EAP_MESSAGE c r' Hm);
    [split_and!; cbn; [done|done|unfold RADIUS_MAX_ATTR_LEN, sizeof_attr_hdr; lia]|unfold short; lia]) as [k m] Hk.
  destruct Hk as [[-> Hm']|[-> Hno]]; [|apply runs_ret; by right].
  replace (zlen c + zlen r' - zlen c) with (zlen r') by lia. rewrite size_t_id by lia.
  rewrite app_assoc, <-zlen_app. eapply runs_weaken.
  - apply (IH (p ++ c) r' m _ Hm' Hr').
    + rewrite enc_attrs_snoc, zlen_app, zlen_enc_attr. cbn [snd]. lia.
    + rewrite length_app in Hf. unfold zlen in *. lia.
  - intros [k m'] [(-> & l & Hl & Ht & Ec & Ez)|Hno]; [left|by right]. split; [done|].
    exists ((RADIUS_ATTR_EAP_MESSAGE, c) :: l). rewrite <-app_assoc in Hl. split; [exact Hl|].
    split; [by constructor|]. cbn [map snd concat]. rewrite Ec. split; [done|].
    rewrite enc_attrs_cons, zlen_app, zlen_enc_attr. cbn [snd]. lia.
Qed.

Lemma add_eap_full msg h attrs eap : holds msg h attrs -> bytes eap -> zlen (enc_attrs attrs) + 3 * zlen eap <= 2 ^ 24 ->
  runs (radius_msg_add_eap malloc_ok uninit msg eap (zlen eap)) (fun '(k, m) =>
    k = 1 /\ (exists l : list attribute, holds m h (attrs ++ l) /\ Forall (fun a => a.1 = RADIUS_ATTR_EAP_MESSAGE) l /\
      concat (map snd l) = eap /\ zlen (enc_attrs l) <= 3 * zlen eap) \/ k = 0 /\ ~ enough_memory malloc_ok).
Proof. intros. apply (add_eap_spec _ [] eap); (done || unfold zlen; lia). Qed.
End building.

(** ** Reading attributes *)

(** The first value of a type. *)
Definition first_value (t : Z) (attrs : list attribute) : option (list Z) := head (values t attrs).

(** [pre] holds no attribute of the type behind [start]. *)
Definition none_behind (t : Z) (start : option Z) (pre : list attribute) : Prop :=
  forall p v q, pre = p ++ (t, v) :: q -> exists s, start = Some s /\ at_ p <= s.

Lemma none_behind_nil t start : none_behind t start [].
Proof. intros [|? ?] v q E; discriminate E. Qed.
Lemma none_behind_snoc t start pre a : none_behind t start pre ->
  (a.1 = t -> exists s, start = Some s /\ at_ pre <= s) -> none_behind t start (pre ++ [a]).
Proof.
  intros H Ha p v q E. destruct q as [|b q _] using rev_ind.
  - apply app_inj_tail in E as [-> ->]. by apply Ha.
  - rewrite app_comm_cons, app_assoc in E. apply app_inj_tail in E as [-> _]. by eapply H.
Qed.
Lemma none_values t pre : none_behind t None pre -> values t pre = [].
Proof.
  intros H. apply values_none, Forall_forall. intros [t' v] (p & q & ->)%list_elem_of_split Ht. cbn in Ht. subst t'.
  by destruct (H p v q eq_refl) as (s & ? & _).
Qed.

Lemma enc_filter_le t l : zlen (enc_attrs (filter (fun a => a.1 = t) l)) <= zlen (enc_attrs l).
Proof.
  induction l as [|a l IH]; [done|]. pose proof (zlen_nonneg (enc_attr a)).
  destruct (decide (a.1 = t)); [rewrite filter_cons_True by done|rewrite filter_cons_False by done];
    rewrite !enc_attrs_cons, !zlen_app; lia.
Qed.

(** [atoi] of at most nine characters is an [int]. *)
Lemma digits_bound s n : 0 <= n -> 0 <= digits s n < (n + 1) * 10 ^ zlen s.
Proof.
  revert n. induction s as [|c s IH]; intros n Hn; cbn [digits]; [change (zlen (@nil Z)) with 0; lia|].
  rewrite zlen_cons. pose proof (zlen_nonneg s). rewrite Z.pow_add_r by lia.
  assert (1 <= 10 ^ zlen s) by (change 1 with (10 ^ 0); apply Z.pow_le_mono_r; lia).
  unfold isdigit. destruct (Z.leb_spec 48 c), (Z.leb_spec c 57); cbn [andb]; [|nia..].
  specialize (IH (10 * n + (c - 48)) ltac:(lia)). nia.
Qed.
Lemma atoi_bound s : zlen s <= 9 -> - 10 ^ 9 < atoi s < 10 ^ 9.
Proof.
  induction s as [|c s IH]; cbn [atoi]; [done|]. intros Hs. rewrite zlen_cons in Hs. pose proof (zlen_nonneg s).
  assert (10 ^ zlen s <= 10 ^ 9) by (apply Z.pow_le_mono_r; lia).
  assert (10 ^ zlen (c :: s) <= 10 ^ 9) by (apply Z.pow_le_mono_r; rewrite ?zlen_cons; lia).
  pose proof (digits_bound s 0 ltac:(lia)). pose proof (digits_bound (c :: s) 0 ltac:(lia)).
  repeat case_match; lia.
Qed.
Lemma strlen_nul (s : list Z) k : s !! k = Some 0 -> runs (os_strlen s) (fun n => 0 <= n <= Z.of_nat k).
Proof.
  revert k. induction s as [|c s IH]; intros [|k] Hk; [done..| |]; cbn [lookup list_lookup os_strlen] in *.
  - injection Hk as ->. apply runs_ret. lia.
  - destruct (c =? 0); [apply runs_ret; lia|]. rstep ltac:(by apply IH) as n Hn. apply runs_ret. lia.
Qed.

Section reading.
Context (malloc_ok : Z -> bool) (uninit : nat -> Z) (msg : radius_msg) (h : list Z) (attrs : list attribute).
Hypothesis Hm : holds msg h attrs.

(** The abstract body of [find_attr]. *)
Definition find_body (t : Z) (start : option Z) (_ : unit) (o : Z) (a : attribute) : res (unit + Z) :=
  mret (if (a.1 =? t) && match start with None => true | Some s => s <? o end then inr o else inl tt).

Lemma find_fold t start l pre : none_behind t start pre ->
  runs (fold_attrs (find_body t start) (at_ pre) l tt) (fun r =>
    match r with
    | inr p => exists q v post, pre ++ l = q ++ (t, v) :: post /\ p = at_ q /\ none_behind t start q /\
        (forall s, start = Some s -> s < p)
    | inl _ => none_behind t start (pre ++ l)
    end).
Proof.
  revert pre. induction l as [|a l IH]; intros pre H; cbn [fold_attrs]; [apply runs_ret; by rewrite app_nil_r|].
  change (find_body t start tt (at_ pre) a) with (Ok (if (a.1 =? t) && match start with None => true | Some s => s <? at_ pre end
    then inr (at_ pre) else inl tt)). cbn [mbind res_bind].
  destruct ((a.1 =? t) && match start with None => true | Some s => s <? at_ pre end) eqn:E.
  - apply andb_true_iff in E as [Et%Z.eqb_eq Es]. apply runs_ret. exists pre, a.2, l. destruct a as [t' v]. cbn in Et |- *. subst t'.
    split_and!; [done..|]. intros s ->. lia.
  - replace (at_ pre + zlen (enc_attr a)) with (at_ (pre ++ [a])).
    2: { unfold at_. rewrite enc_attrs_snoc, zlen_app. lia. }
    eapply runs_weaken; [apply IH|].
    + apply none_behind_snoc; [done|]. intros Ha. rewrite Ha, Z.eqb_refl in E. cbn in E.
      destruct start as [s|]; [|done]. exists s. split; [done|]. lia.
    + intros r. rewrite <-!app_assoc. done.
Qed.

Lemma find_attr_spec t start : runs (find_attr msg t start) (fun r =>
  match r with
  | Some p => exists q v post, attrs = q ++ (t, v) :: post /\ p = at_ q /\ none_behind t start q /\
      (forall s, start = Some s -> s < p)
  | None => none_behind t start attrs
  end).
Proof.
  unfold find_attr. erewrite (for_attrs_spec _ (find_body t start)); [|exact Hm|].
  2: { intros pre t' v post s ->. by rewrite (load_type _ _ _ _ _ _ Hm). }
  change sizeof_radius_hdr with (at_ []).
  rstep ltac:(apply (find_fold t start attrs []), none_behind_nil) as r Hr. apply runs_ret. by destruct r.
Qed.

(** [radius_msg_get_attr] without a buffer: the length of the first value. *)
Lemma get_attr_length t len : radius_msg_get_attr msg t None len =
  Ok (match first_value t attrs with Some v => zlen v | None => -1 end, None).
Proof.
  unfold radius_msg_get_attr. destruct (find_attr_spec t None) as (r & -> & Hr). cbn [mbind res_bind].
  destruct r as [p|].
  - destruct Hr as (q & v & post & E & -> & Hq & _). pose proof Hm as Hm'. rewrite E in Hm'.
    rewrite (load_length _ _ _ _ _ _ Hm'). destruct (load_len _ _ _ _ _ _ Hm') as [Hl Hv]. cbn [mbind res_bind].
    rewrite Hl. unfold first_value. rewrite E, values_app, (none_values t q Hq). cbn [app].
    change ((t, v) :: post) with ([(t, v)] ++ post). rewrite values_app, values_eq by done. cbn [app head snd].
    do 2 f_equal. unfold to_int. rewrite Z.mod_small; lia.
  - unfold first_value. by rewrite (none_values t attrs Hr).
Qed.

(** With a buffer: the octets that fit. *)
Lemma get_attr_buffer t b len : zlen b = len -> radius_msg_get_attr msg t (Some b) len =
  Ok (match first_value t attrs with
      | Some v => (zlen v, Some (take (Z.to_nat len) v ++ drop (length v) b))
      | None => (-1, Some b)
      end).
Proof.
  intros Hb. unfold radius_msg_get_attr. destruct (find_attr_spec t None) as (r & -> & Hr). cbn [mbind res_bind].
  destruct r as [p|].
  - destruct Hr as (q & v & post & E & -> & Hq & _). pose proof Hm as Hm'. rewrite E in Hm'.
    rewrite (load_length _ _ _ _ _ _ Hm'). destruct (load_len _ _ _ _ _ _ Hm') as [Hl Hv]. cbn [mbind res_bind].
    rewrite Hl. unfold first_value. rewrite E, values_app, (none_values t q Hq). cbn [app].
    change ((t, v) :: post) with ([(t, v)] ++ post). rewrite values_app, values_eq by done. cbn [app head snd].
    pose proof (zlen_nonneg b).
    assert (rd_n (mem msg) (at_ q + 2) (if len <? zlen v then len else zlen v) = Ok (take (Z.to_nat len) v)) as ->.
    { pose proof (load_value _ _ _ _ _ _ Hm') as Hr. revert Hr. unfold rd_n.
      destruct (Z.ltb_spec len (zlen v)).
      - destruct ((0 <=? at_ q + 2) && (0 <=? zlen v) && (at_ q + 2 + zlen v <=? zlen (mem msg))) eqn:Ec; [|done].
        intros [= Ev]. rewrite !andb_true_iff, !Z.leb_le in Ec. rewrite !(proj2 (Z.leb_le _ _)) by lia. cbn [andb].
        f_equal. rewrite <-Ev. rewrite take_take. f_equal. unfold zlen in *. lia.
      - intros ->. by rewrite take_ge by (unfold zlen in *; lia). }
    cbn [mbind res_bind].
    rewrite wr_n_ok by (unfold zlen in *; rewrite ?length_take; lia). cbn [mbind res_bind mret res_ret]. do 2 f_equal.
    + unfold to_int. rewrite Z.mod_small; lia.
    + f_equal. change (Z.to_nat 0) with 0%nat. cbn [take app Nat.add]. rewrite length_take.
      destruct (decide (Z.to_nat len <= length v)%nat); [|by rewrite Nat.min_r by lia].
      rewrite Nat.min_l, !drop_ge by (unfold zlen in *; lia). done.
  - unfold first_value. by rewrite (none_values t attrs Hr).
Qed.

(** [radius_msg_get_attr_int32]: an attribute of four octets. *)
Lemma get_attr_int32_spec t : radius_msg_get_attr_int32 uninit msg t =
  match first_value t attrs with
  | Some v => if zlen v =? 4 then v ← WPA_GET_BE32 v 0; mret (Some v) else mret None
  | None => mret None
  end.
Proof.
  unfold radius_msg_get_attr_int32. rewrite get_attr_buffer by by apply (zlen_fresh uninit 4).
  cbn [mbind res_bind]. destruct (first_value t attrs) as [v|]; [|done].
  destruct (Z.eqb_spec (zlen v) 4) as [E|]; cbn [negb]; [|done].
  rewrite take_ge, drop_ge, app_nil_r; [done| |]; unfold zlen, fresh in *; rewrite ?length_map, ?length_seq; lia.
Qed.

Lemma get_attr_ptr_spec t start : runs (radius_msg_get_attr_ptr msg t start) (fun r =>
  match r with
  | Some (p, len) => exists q v post, attrs = q ++ (t, v) :: post /\ p = at_ q + 2 /\ len = zlen v /\
      none_behind t start q /\ (forall s, start = Some s -> s < at_ q) /\ rd_n (mem msg) p len = Ok v
  | None => none_behind t start attrs
  end).
Proof.
  unfold radius_msg_get_attr_ptr. destruct (find_attr_spec t start) as (r & -> & Hr). cbn [mbind res_bind].
  destruct r as [p|]; [|by apply runs_ret]. destruct Hr as (q & v & post & E & -> & Hq & Hs).
  pose proof Hm as Hm'. rewrite E in Hm'.
  rewrite (load_length _ _ _ _ _ _ Hm'). destruct (load_len _ _ _ _ _ _ Hm') as [Hl Hv]. cbn [mbind res_bind].
  rewrite Hl. apply runs_ret. exists q, v, post. split_and!; try done. by apply (load_value _ _ _ _ _ _ Hm').
Qed.

Lemma count_attr_spec t min_len : 0 <= min_len <= 253 -> radius_msg_count_attr msg t min_len =
  Ok (zlen (filter (fun v => min_len <= zlen v) (values t attrs))).
Proof.
  intros Hn. unfold radius_msg_count_attr.
  erewrite (for_attrs_spec _ (fun count _ a => mret (inl (if (a.1 =? t) && (min_len <=? zlen a.2) then count + 1 else count))));
    [|exact Hm|].
  2: { intros pre t' v post s ->. rewrite (load_type _ _ _ _ _ _ Hm). cbn [mbind res_bind fst snd].
       destruct (t' =? t); [|done]. rewrite (load_length _ _ _ _ _ _ Hm). cbn [mbind res_bind andb].
       unfold sizeof_attr_hdr. rewrite size_t_id by lia. do 2 f_equal.
       destruct (Z.leb_spec (2 + min_len) (2 + zlen v)), (Z.leb_spec min_len (zlen v)); (done || lia). }
  destruct (fold_attrs_runs (R := unit) (fun pre c => c = zlen (filter (fun v => min_len <= zlen v) (values t pre)))
    (fun count _ a => mret (inl (if (a.1 =? t) && (min_len <=? zlen a.2) then count + 1 else count))) attrs 0)
    as (r & -> & s & -> & ->); [done| |done].
  intros pre a post s E ->. apply runs_ret. eexists. split; [done|]. rewrite values_app, filter_app, zlen_app.
  destruct (Z.eqb_spec a.1 t); [rewrite values_eq by done|by rewrite values_ne by done; change (zlen (filter _ [])) with 0; rewrite Z.add_0_r].
  destruct (Z.leb_spec min_len (zlen a.2)); cbn [andb].
  - by rewrite filter_cons_True by done.
  - rewrite filter_cons_False by lia. change (zlen (filter _ [])) with 0. lia.
Qed.

(** ** radius_msg_copy_attr *)

Lemma copy_attr_spec t dst hd attrs_d : holds dst hd attrs_d ->
  zlen (enc_attrs attrs_d) + zlen (enc_attrs attrs) <= 2 ^ 24 ->
  runs (radius_msg_copy_attr malloc_ok uninit dst msg t) (fun '(k, m) =>
    k = zlen (values t attrs) /\ holds m hd (attrs_d ++ filter (fun a => a.1 = t) attrs) \/ k = -1 /\ ~ enough_memory malloc_ok).
Proof.
  intros Hd Hs. unfold radius_msg_copy_attr.
  erewrite (for_attrs_spec _ (fun '(count, dst) o a =>
    if a.1 =? t then
      '(r, dst) ← radius_msg_add_attr malloc_ok uninit dst t (drop (Z.to_nat (o + 2)) (mem msg)) (zlen a.2);
      match r with None => mret (inr (-1, dst)) | Some _ => mret (inl (count + 1, dst)) end
    else mret (inl (count, dst)))); [|exact Hm|].
  2: { intros pre t' v post [count m] E. pose proof Hm as Hm'. rewrite E in Hm'.
       rewrite (load_type _ _ _ _ _ _ Hm'). cbn [mbind res_bind fst snd]. destruct (t' =? t); [|done].
       rewrite (load_length _ _ _ _ _ _ Hm'). cbn [mbind res_bind]. by destruct (load_len _ _ _ _ _ _ Hm') as [-> _]. }
  rstep ltac:(apply (fold_attrs_rule
    (fun pre '(count, m) => count = zlen (values t pre) /\ holds m hd (attrs_d ++ filter (fun a => a.1 = t) pre))
    (fun '(k, _) => k = -1 /\ ~ enough_memory malloc_ok))) as r Hr.
  - split; [done|]. by rewrite app_nil_r.
  - intros pre [t' v] post [count m] E [-> Hmm]. pose proof Hm as Hm'. rewrite E in Hm'. cbn [fst snd].
    rewrite values_app, filter_app, zlen_app, app_assoc.
    destruct (Z.eqb_spec t' t) as [->|Hne].
    2: { apply runs_ret. rewrite values_ne, filter_cons_False by done. by rewrite Z.add_0_r, app_nil_r. }
    destruct (load_drop _ _ _ _ _ _ Hm') as [k ->]. rewrite values_eq, filter_cons_True by done.
    rstep ltac:(eapply (add_attr_spec malloc_ok uninit m hd _ t v k Hmm (load_wf _ _ _ _ _ _ Hm'))) as [r m'] Hr.
    { unfold short. rewrite enc_attrs_app, zlen_app. pose proof (enc_filter_le t pre).
      rewrite E, enc_attrs_app, zlen_app in Hs. pose proof (zlen_nonneg (enc_attrs ((t, v) :: post))). lia. }
    destruct Hr as [[-> Hm2]|[-> Hno]]; apply runs_ret; by split.
  - destruct r as [[k m]|[k m]]; apply runs_ret; [by left|by right].
Qed.

(** ** radius_msg_get_vendor_attr *)

(** The payload of the first sub-attribute with a type, in a well-formed list. *)
Fixpoint sub_attr (fuel : nat) (subtype : Z) (r : list Z) : option (list Z) :=
  match fuel, r with
  | S fuel, t :: l :: r =>
      if (2 + zlen r <? l) || (l <? 2) then None
      else if t =? subtype then Some (take (Z.to_nat (l - 2)) r) else sub_attr fuel subtype (drop (Z.to_nat (l - 2)) r)
  | _, _ => None
  end.
Definition vendor_of (vendor subtype : Z) (a : attribute) : option (list Z) :=
  if (a.1 =? RADIUS_ATTR_VENDOR_SPECIFIC) && (4 <=? zlen a.2) && match WPA_GET_BE32 a.2 0 with Ok id => id =? vendor | Fault _ => false end
  then sub_attr (length a.2) subtype (drop 4 a.2) else None.

Lemma vendor_loop_spec fuel p r q subtype : brepr msg (p ++ r ++ q) -> (length r <= fuel)%nat ->
  runs (vendor_loop malloc_ok fuel msg subtype (zlen p) (zlen r)) (fun x =>
    match sub_attr fuel subtype r with
    | Some d => x = Some (Some d) \/ x = Some None /\ ~ enough_memory malloc_ok
    | None => x = None
    end).
Proof.
  revert p r. induction fuel as [|fuel IH]; intros p r Hb Hf; cbn [vendor_loop sub_attr]; unfold sizeof_attr_hdr.
  { destruct r; [|cbn in Hf; lia]. by apply runs_ret. }
  destruct r as [|t [|l r]]; [by apply runs_ret..|].
  rewrite !zlen_cons. pose proof (zlen_nonneg r). rewrite (proj2 (Z.leb_le _ _)) by lia.
  assert (rd (mem msg) (zlen p + 1) = Ok l) as ->.
  { replace (zlen p + 1) with (zlen (p ++ [t])) by (rewrite zlen_app; done). eapply mem_rd. rewrite <-app_assoc. exact Hb. }
  cbn [mbind res_bind]. replace (1 + (1 + zlen r)) with (2 + zlen r) by lia.
  destruct ((2 + zlen r <? l) || (l <? 2)) eqn:Ec; [by apply runs_ret|].
  apply orb_false_iff in Ec as [Hl%Z.ltb_ge Hl2%Z.ltb_ge].
  rewrite (mem_rd _ p t _ Hb). cbn [mbind res_bind].
  set (d := take (Z.to_nat (l - 2)) r). set (r' := drop (Z.to_nat (l - 2)) r).
  assert (r = d ++ r') as Er by (unfold d, r'; by rewrite take_drop).
  assert (l = 2 + zlen d) as El by (unfold d, zlen in *; rewrite length_take; lia).
  assert (zlen ((p ++ [t; l]) ++ d) = zlen p + l) as Ep by (rewrite !zlen_app; change (zlen [t; l]) with 2; lia).
  destruct (t =? subtype); cbn [negb].
  - destruct (malloc_ok (l - 2)) eqn:Em; cbn [negb].
    2: { apply runs_ret. right. split; [done|]. intros M. by rewrite M in Em. }
    replace (zlen p + 2) with (zlen (p ++ [t; l])) by (rewrite zlen_app; done).
    replace (l - 2) with (zlen d) by lia. rewrite (mem_rd_n msg (p ++ [t; l]) d (r' ++ q)).
    + apply runs_ret. by left.
    + rewrite <-app_assoc. cbn [app]. rewrite app_assoc, <-Er. exact Hb.
  - rewrite <-Ep. replace (2 + zlen r - l) with (zlen r') by (rewrite Er, zlen_app; lia). apply IH.
    + rewrite <-!app_assoc. cbn [app]. rewrite (app_assoc d), <-Er. exact Hb.
    + cbn [length] in Hf. unfold r'. rewrite length_drop. lia.
Qed.

Lemma vendor_value pre t v post : attrs = pre ++ (t, v) :: post -> 4 <= zlen v ->
  WPA_GET_BE32 (mem msg) (at_ pre + 2) = WPA_GET_BE32 v 0 /\
  exists p q, zlen p = at_ pre + 6 /\ brepr msg (p ++ drop 4 v ++ q).
Proof.
  intros E Hv. pose proof Hm as Hm'. rewrite E in Hm'. destruct (load_split _ _ _ _ _ _ Hm') as [Ep Hb].
  split.
  - destruct (mem_split _ _ Hb) as [k ->]. rewrite <-Ep, <-!app_assoc. unfold WPA_GET_BE32.
    rewrite !app_assoc, <-(app_assoc (_ ++ _) v). rewrite <-(app_assoc _ (v ++ _)).
    rewrite rd_shift0, !rd_shift by (rewrite !zlen_app; pose proof (zlen_nonneg k); pose proof (zlen_nonneg (enc_attrs post)); lia).
    by rewrite <-!app_assoc, !rd_app_l by lia.
  - exists (((h ++ enc_attrs pre) ++ [t; 2 + zlen v]) ++ take 4 v), (enc_attrs post). split.
    + rewrite zlen_app, Ep. unfold zlen in *. rewrite length_take. lia.
    + rewrite <-(app_assoc _ (take 4 v)), (app_assoc (take 4 v)), take_drop. exact Hb.
Qed.

Lemma get_vendor_attr_spec vendor subtype :
  runs (radius_msg_get_vendor_attr malloc_ok (Some msg) vendor subtype) (fun r =>
    r = head (omap (vendor_of vendor subtype) attrs) \/ r = None /\ ~ enough_memory malloc_ok).
Proof.
  unfold radius_msg_get_vendor_attr. rewrite (for_attrs_fold _ _ _ _ _ Hm).
  rstep ltac:(apply (fold_attrs_rule (fun pre _ => omap (vendor_of vendor subtype) pre = [])
    (fun r => r = head (omap (vendor_of vendor subtype) attrs) \/ r = None /\ ~ enough_memory malloc_ok))) as r Hr.
  - done.
  - intros pre [t v] post [] E Hp. pose proof Hm as Hm'. rewrite E in Hm'.
    rewrite (load_type _ _ _ _ _ _ Hm'). cbn [mbind res_bind].
    assert (forall x, vendor_of vendor subtype (t, v) = x ->
      omap (vendor_of vendor subtype) (pre ++ [(t, v)]) = match x with Some d => [d] | None => [] end /\
      (forall d, x = Some d -> head (omap (vendor_of vendor subtype) attrs) = Some d)) as Hx.
    { intros x Hx. rewrite E, !omap_app, Hp. cbn [omap list_omap app]. rewrite Hx. split; [by destruct x|].
      by intros d ->. }
    unfold vendor_of in Hx at 1. cbn [fst snd] in Hx.
    destruct (t =? RADIUS_ATTR_VENDOR_SPECIFIC); cbn [negb andb] in *; [|apply runs_ret; by apply (Hx None)].
    rewrite (load_length _ _ _ _ _ _ Hm'). cbn [mbind res_bind]. destruct (load_len _ _ _ _ _ _ Hm') as [-> Hv].
    destruct (Z.ltb_spec (zlen v) 4); [rewrite (proj2 (Z.leb_gt _ _)) in Hx by lia; apply runs_ret; by apply (Hx None)|].
    rewrite (proj2 (Z.leb_le _ _)) in Hx by lia. cbn [andb] in Hx.
    destruct (vendor_value pre t v post E) as (-> & p & q & Ep & Hb); [done|].
    destruct (WPA_GET_BE32_total v 0) as (id & Eid & _); [apply (load_wf _ _ _ _ _ _ Hm')|lia..|].
    rewrite Eid in *. cbn [mbind res_bind].
    destruct (Z.eqb_spec id vendor) as [Ev|Hne]; cbn [negb].
    2: { apply runs_ret. by apply (Hx None). }
    assert (zlen (drop 4 v) = zlen v - 4) as El by (unfold zlen in *; rewrite length_drop; lia).
    rewrite <-El, <-Ep. unfold zlen at 1. rewrite Nat2Z.id.
    rstep ltac:(apply (vendor_loop_spec (length v) p (drop 4 v) q subtype Hb); rewrite length_drop; lia) as x Hres.
    apply runs_ret. destruct (sub_attr _ _ _) as [d|].
    + destruct Hres as [->|[-> Hno]]; [left|by right]. symmetry. by apply (Hx (Some d)).
    + subst x. by apply (Hx None).
  - apply runs_ret. destruct r as [[]|r]; [left; by rewrite Hr|exact Hr].
Qed.

(** ** radius_msg_get_vlanid *)

(** The 32 entries; the VLANs are [int]s of at most nine digits. *)
Definition tunnels_ok (l : list radius_tunnel_attrs) : Prop :=
  length l = 32%nat /\ Forall (fun t => - 10 ^ 9 < vlanid t < 10 ^ 9) l.

Lemma tunnels_insert l k t : tunnels_ok l -> - 10 ^ 9 < vlanid t < 10 ^ 9 -> tunnels_ok (<[k := t]> l).
Proof. intros [Hl Ha] Ht. split; [by rewrite length_insert|]. by apply Forall_insert. Qed.

Lemma vlan_name d : zlen d < 10 -> exists b b' n, wr_n (fresh uninit 10) 0 d = Ok b /\ wr b (zlen d) 0 = Ok b' /\
  os_strlen b' = Ok n /\ - 10 ^ 9 < atoi (take (Z.to_nat n) b') < 10 ^ 9.
Proof.
  intros Hlt. pose proof (zlen_nonneg d). pose proof (zlen_fresh uninit 10 ltac:(lia)) as Ef.
  destruct (wr_n_runs (fresh uninit 10) 0 d) as (b & -> & Hb); [lia..|].
  destruct (strlen_nul (<[Z.to_nat (zlen d) := 0]> b) (Z.to_nat (zlen d))) as (n & En & Hn).
  { apply list_lookup_insert_eq. unfold zlen in *. lia. }
  eexists _, _, n. split; [done|]. split; [apply wr_ok; lia|]. split; [done|].
  apply atoi_bound. unfold zlen. rewrite length_take. lia.
Qed.

Lemma attr_inside pre t v post : attrs = pre ++ (t, v) :: post ->
  at_ pre + 2 + zlen v <= zlen (mem msg) /\ bytes (mem msg) /\ 0 <= at_ pre.
Proof.
  intros E. pose proof Hm as Hm'. rewrite E in Hm'. pose proof (load_value _ _ _ _ _ _ Hm') as Hv.
  split_and!.
  - unfold rd_n in Hv. destruct (_ <=? zlen (mem msg)) eqn:El; [by apply Z.leb_le|by rewrite andb_false_r in Hv].
  - destruct Hm as (_ & (cap & (_ & _ & _ & Hb) & _) & _). exact Hb.
  - unfold at_, sizeof_radius_hdr. pose proof (zlen_nonneg (enc_attrs pre)). lia.
Qed.

Lemma vlan_attr_spec tunnel pre t v post : attrs = pre ++ (t, v) :: post -> tunnels_ok tunnel ->
  runs (vlan_attr uninit msg tunnel (at_ pre)) tunnels_ok.
Proof.
  intros E Ht. pose proof Hm as Hm'. rewrite E in Hm'. destruct (attr_inside _ _ _ _ E) as (Hin & Hb & H0). unfold vlan_attr.
  rewrite (load_length _ _ _ _ _ _ Hm'), (load_type _ _ _ _ _ _ Hm'). cbn [mbind res_bind].
  destruct (load_len _ _ _ _ _ _ Hm') as [-> Hv].
  destruct (Z.ltb_spec (2 + zlen v) 3) as [|H3]; [by apply runs_ret|].
  destruct (rd_total (mem msg) (at_ pre + 2)) as (d0 & -> & Hd0); [lia|done|]. cbn [mbind res_bind].
  set (tag := if RADIUS_TUNNEL_TAGS <=? d0 then 0 else d0).
  assert (0 <= tag < 32) as Htag by (unfold tag, RADIUS_TUNNEL_TAGS, is_byte in *; destruct (Z.leb_spec 32 d0); lia).
  unfold tunnel_get. destruct (lookup_lt_is_Some_2 tunnel (Z.to_nat tag)) as [tun Htun]; [destruct Ht as [-> _]; lia|].
  rewrite Htun. cbn [mbind res_bind mret res_ret].
  assert (- 10 ^ 9 < vlanid tun < 10 ^ 9) as Hvl by (destruct Ht as [_ Ha]; exact (Forall_lookup_1 _ _ _ _ Ha Htun)).
  destruct (t =? RADIUS_ATTR_TUNNEL_TYPE); [|destruct (t =? RADIUS_ATTR_TUNNEL_MEDIUM_TYPE)].
  1-2: destruct (Z.eqb_spec (2 + zlen v) 6); cbn [negb]; [|by apply runs_ret];
    destruct (WPA_GET_BE24_total (mem msg) (at_ pre + 2 + 1)) as (x & -> & _); [done|lia..|];
    apply runs_ret; by apply tunnels_insert.
  destruct (t =? RADIUS_ATTR_TUNNEL_PRIVATE_GROUP_ID); [|by apply runs_ret].
  assert (exists o l, (if d0 <? RADIUS_TUNNEL_TAGS then (at_ pre + 2 + 1, size_t (zlen v - 1)) else (at_ pre + 2, zlen v)) =
    (o, l) /\ 0 <= o /\ 0 <= l /\ o + l <= zlen (mem msg)) as (o & l & -> & Ho & Hl & Hol).
  { destruct (d0 <? _); do 2 eexists; (split; [done|]); [rewrite size_t_id|]; lia. }
  destruct (Z.leb_spec 10 l) as [|Hl10]; [by apply runs_ret|].
  destruct (rd_n_runs (mem msg) o l Ho Hl Hol) as (d & -> & <-). cbn [mbind res_bind].
  destruct (vlan_name d Hl10) as (b & b' & n & -> & Eb & En & Hn). cbn [mbind res_bind]. rewrite Eb. cbn [mbind res_bind].
  rewrite En. cbn [mbind res_bind]. apply runs_ret. by apply tunnels_insert.
Qed.

Lemma get_vlanid_spec : runs (radius_msg_get_vlanid uninit msg) (fun r => r = -1 \/ 0 < r < 10 ^ 9).
Proof.
  unfold radius_msg_get_vlanid. rewrite (for_attrs_fold _ _ _ _ _ Hm).
  rstep ltac:(apply (fold_attrs_rule (fun _ => tunnels_ok) (fun _ => False))) as r Hr.
  - split; [done|]. by apply Forall_replicate.
  - intros pre [t v] post tunnel E Ht. rstep ltac:(by eapply vlan_attr_spec) as x Hx. by apply runs_ret.
  - destruct r as [tunnel|[]]; [|done]. apply runs_ret. destruct (List.find is_vlan tunnel) as [tun|] eqn:Ef; [right|by left].
    apply find_some in Ef as [Hin Hv]. unfold is_vlan in Hv. rewrite !andb_true_iff in Hv. destruct Hr as [_ Ha].
    rewrite Forall_forall in Ha. specialize (Ha tun). rewrite list_elem_of_In in Ha. specialize (Ha Hin). lia.
Qed.
End reading.
