(* ===== verification/RadiusAuth.v ===== *)
(** * RADIUS messages: authenticators

    The Response Authenticator of RFC 2865 and the Message-Authenticator of RFC 3579
    as functions of header and attributes.  [radius_msg_finish_srv] puts exactly
    these into a message, [radius_msg_verify] accepts exactly these. *)

From S2P Require Import Prelude WpaBuf Hash HashProps Hmac HmacProps Radius RadiusRep RadiusProps.
From S2P Require Md5.

Lemma md5_bytes m : bytes (MD5.md5 m).
Proof.
  unfold MD5.md5, Md5.md5_digest. destruct (absorb _ _ _) as [[[a b] c] d]. rewrite !Forall_app.
  unfold WPA_PUT_LE32. split_and!; repeat constructor; apply u8_byte.
Qed.
Lemma hmac_md5_bytes key m : bytes (hmac_rfc2104 MD5.md5 key m) /\ zlen (hmac_rfc2104 MD5.md5 key m) = 16.
Proof. unfold hmac_rfc2104. split; [apply md5_bytes|]. unfold zlen. by rewrite MD5.length_md5. Qed.

(** ** The standards *)

(** MD5(Code+ID+Length+RequestAuth+Attributes+Secret) *)
Definition response_authenticator (secret hd req : list Z) (attrs : list attribute) : list Z :=
  MD5.md5 (hd ++ req ++ enc_attrs attrs ++ secret).
(** HMAC-MD5 with the shared secret over the message with [auth] for authenticator
    and zeros for the value. *)
Definition message_authenticator (secret hd auth : list Z) (pre post : list attribute) : list Z :=
  hmac_rfc2104 MD5.md5 secret
    (hd ++ auth ++ enc_attrs (pre ++ (RADIUS_ATTR_MESSAGE_AUTHENTICATOR, replicate 16 0) :: post)).

Lemma message_authenticator_ok secret hd auth pre post :
  bytes (message_authenticator secret hd auth pre post) /\ length (message_authenticator secret hd auth pre post) = 16%nat.
Proof.
  unfold message_authenticator. destruct (hmac_md5_bytes secret (hd ++ auth ++
    enc_attrs (pre ++ (RADIUS_ATTR_MESSAGE_AUTHENTICATOR, replicate 16 0) :: post))) as [Hb Hl].
  split; [done|]. unfold zlen in Hl. lia.
Qed.
Lemma enc_attrs_value attrs t v : length v = 16%nat -> zlen (enc_attrs (attrs ++ [(t, v)])) = zlen (enc_attrs attrs) + 18.
Proof. intros Hv. rewrite enc_attrs_snoc, zlen_app, zlen_enc_attr. cbn [snd]. unfold zlen at 2. lia. Qed.

(** The message has exactly one Message-Authenticator, with value [v]. *)
Definition only_msg_auth (attrs pre : list attribute) (v : list Z) (post : list attribute) : Prop :=
  attrs = pre ++ (RADIUS_ATTR_MESSAGE_AUTHENTICATOR, v) :: post /\
  values RADIUS_ATTR_MESSAGE_AUTHENTICATOR pre = [] /\ values RADIUS_ATTR_MESSAGE_AUTHENTICATOR post = [].

Lemma values_cons_ne t a l : values t (a :: l) = [] -> a.1 <> t /\ values t l = [].
Proof.
  change (a :: l) with ([a] ++ l). rewrite values_app. destruct (decide (a.1 = t)); [by rewrite values_eq|].
  by rewrite values_ne.
Qed.
Lemma only_msg_auth_inj attrs pre v post pre' v' post' : only_msg_auth attrs pre v post ->
  only_msg_auth attrs pre' v' post' -> pre = pre' /\ v = v' /\ post = post'.
Proof.
  intros (-> & H1 & H2) (E & H1' & H2'). revert pre' E H1'. induction pre as [|a pre IH]; intros [|a' pre'] E H1'; cbn in E.
  - by injection E as -> ->.
  - injection E as <- ->. by apply values_cons_ne in H1' as [? _].
  - injection E as -> E. by apply values_cons_ne in H1 as [? _].
  - injection E as -> E. apply values_cons_ne in H1 as [_ H1]. apply values_cons_ne in H1' as [_ H1'].
    by destruct (IH H1 pre' E H1') as (-> & -> & ->).
Qed.
Lemma only_msg_auth_values attrs pre v post : only_msg_auth attrs pre v post ->
  values RADIUS_ATTR_MESSAGE_AUTHENTICATOR attrs = [v].
Proof.
  intros (-> & E1 & E2). change ((RADIUS_ATTR_MESSAGE_AUTHENTICATOR, v) :: post) with
    ([(RADIUS_ATTR_MESSAGE_AUTHENTICATOR, v)] ++ post). by rewrite !values_app, E1, E2, values_eq.
Qed.

(** ** Changes of a message *)

Lemma positions_value o pre t v v' post : length v = length v' ->
  positions o (pre ++ (t, v) :: post) = positions o (pre ++ (t, v') :: post).
Proof.
  intros Hl. rewrite !positions_app. cbn [positions]. do 2 f_equal. rewrite !zlen_enc_attr. cbn [snd].
  unfold zlen. by rewrite Hl.
Qed.

Lemma set_value msg h pre t v v' post : holds msg h (pre ++ (t, v) :: post) -> length v = length v' -> bytes v' ->
  runs (store msg (at_ pre + 2) v') (fun m => holds m h (pre ++ (t, v') :: post) /\ zlen (mem m) = zlen (mem msg)).
Proof.
  intros Hm Hl Hb. destruct (load_split _ _ _ _ _ _ Hm) as [<- (cap & Hs)].
  assert (zlen v = zlen v') as Ez by (unfold zlen; by rewrite Hl).
  eapply runs_weaken; [by eapply radius_store_repr|]. intros m [Hr Hsame].
  destruct Hm as (Hh & (cap' & Hr') & Hw & Ha). split.
  - split; [done|]. split_and!.
    + exists cap. rewrite enc_attrs_app, enc_attrs_cons. unfold enc_attr. cbn [fst snd]. rewrite <-Ez.
      rewrite <-!app_assoc in Hr. exact Hr.
    + rewrite !Forall_app, !Forall_cons in *. destruct Hw as (? & (Ht & ? & Hz) & ?). cbn in Ht, Hz.
      split; [done|]. split; [|done]. split; [done|]. split; [done|]. cbn [snd]. by rewrite <-Ez.
    + apply (array_same msg m); [|done]. unfold array_of in *.
      assert (length (pre ++ (t, v') :: post) = length (pre ++ (t, v) :: post)) as El by by rewrite !length_app.
      unfold zlen in *. rewrite El, <-(positions_value _ pre t v v' post Hl). exact Ha.
  - unfold mem. destruct Hr as ((_ & _ & -> & _) & _ & ->), Hs as ((_ & _ & -> & _) & _ & ->). done.
Qed.

(** Octets of the header. *)
Lemma set_header msg p d0 d r attrs : holds msg (p ++ d0 ++ r) attrs -> length d0 = length d -> bytes d ->
  runs (store msg (zlen p) d) (fun m => holds m (p ++ d ++ r) attrs /\ zlen (mem m) = zlen (mem msg)).
Proof.
  intros (Hh & (cap & Hr) & Hw & Ha) Hl Hb. rewrite <-!app_assoc in Hr.
  eapply runs_weaken; [by eapply radius_store_repr|]. intros m [Hr' Hsame]. split.
  - split; [|split_and!; [|done|by eapply array_same]].
    + rewrite !zlen_app in *. unfold zlen in *. lia.
    + exists cap. rewrite <-!app_assoc. exact Hr'.
  - unfold mem. destruct Hr as ((_ & _ & -> & _) & _ & ->), Hr' as ((_ & _ & -> & _) & _ & ->). done.
Qed.

(** A header: code and identifier, length, authenticator. *)
Definition header (ci len auth : list Z) : list Z := ci ++ len ++ auth.
Definition header_ok (ci len auth : list Z) : Prop := zlen ci = 2 /\ zlen len = 2 /\ zlen auth = 16.

Lemma set_auth msg ci len auth d attrs : holds msg (header ci len auth) attrs -> header_ok ci len auth ->
  length d = 16%nat -> bytes d ->
  runs (set_authenticator msg d) (fun m => holds m (header ci len d) attrs /\ zlen (mem m) = zlen (mem msg)).
Proof.
  intros Hm (Hc & Hl & Ha) Hd Hb. unfold set_authenticator. replace 4 with (zlen (ci ++ len)) by (rewrite zlen_app; lia).
  unfold header in *. rewrite app_assoc in Hm. rewrite <-(app_nil_r auth) in Hm.
  eapply runs_weaken; [eapply (set_header msg (ci ++ len) auth d []); [exact Hm|unfold zlen in *; lia|done]|].
  intros m. by rewrite app_nil_r, <-app_assoc.
Qed.
Lemma set_len msg ci len auth attrs : holds msg (header ci len auth) attrs -> header_ok ci len auth ->
  runs (set_length msg) (fun m => holds m (header ci (WPA_PUT_BE16 (sizeof_radius_hdr + zlen (enc_attrs attrs))) auth) attrs).
Proof.
  intros Hm (Hc & Hl & Ha). unfold set_length. pose proof Hm as (Hh & Hb & _).
  destruct (brepr_len _ _ Hb) as [-> _]. rewrite zlen_app, Hh.
  eapply runs_weaken; [replace 2 with (zlen ci) by done;
    eapply (set_header msg ci len (WPA_PUT_BE16 (sizeof_radius_hdr + zlen (enc_attrs attrs))) auth);
    [exact Hm|unfold zlen in Hl; cbn [length WPA_PUT_BE16]; lia|apply WPA_PUT_BE16_bytes]|].
  by intros m [? _].
Qed.
Lemma get_auth msg ci len auth attrs : holds msg (header ci len auth) attrs -> header_ok ci len auth ->
  get_authenticator msg = Ok auth.
Proof.
  intros (Hh & Hb & _) (Hc & Hl & Ha). unfold get_authenticator. replace 4 with (zlen (ci ++ len)) by (rewrite zlen_app; lia).
  rewrite <-Ha. unfold header in Hb. rewrite <-!app_assoc, (app_assoc ci) in Hb. by eapply mem_rd_n.
Qed.
Lemma whole_holds msg h attrs : holds msg h attrs -> whole msg = Ok (h ++ enc_attrs attrs).
Proof. intros (_ & Hb & _). by apply whole_spec. Qed.
Lemma split_header msg h attrs : holds msg h attrs -> exists ci len auth, h = header ci len auth /\ header_ok ci len auth.
Proof.
  intros (Hh & _). unfold sizeof_radius_hdr in Hh. exists (take 2 h), (take 2 (drop 2 h)), (drop 4 h). unfold header.
  replace 4%nat with (2 + 2)%nat by done. rewrite <-drop_drop, !take_drop. split; [done|].
  unfold header_ok, zlen in *. rewrite !length_take, !length_drop. lia.
Qed.

Lemma fits_short d : zlen d <= 2 ^ 25 -> fits d.
Proof. unfold fits. lia. Qed.

(** The octets that are authenticated. *)
Lemma message_authenticator_eq secret ci len auth pre post :
  hmac_rfc2104 MD5.md5 secret (header ci len auth ++ enc_attrs (pre ++ (RADIUS_ATTR_MESSAGE_AUTHENTICATOR, replicate 16 0) :: post)) =
  message_authenticator secret (ci ++ len) auth pre post.
Proof. unfold message_authenticator, header. by rewrite <-!app_assoc. Qed.
Lemma fits_message ci len auth attrs : header_ok ci len auth -> short attrs -> fits (header ci len auth ++ enc_attrs attrs).
Proof.
  intros (Hc & Hl & Ha) Hs. apply fits_short. unfold header, short in *. rewrite !zlen_app, Hc, Hl, Ha. lia.
Qed.

Section hashing.
Context (md5_stack : Md5.MD5Context).
Hypothesis Hstack : length (Md5.in_ md5_stack) = 64%nat.

Lemma md5_value addr : Forall fits addr -> snd (md5_vector md5_stack addr) = MD5.md5 (concat addr).
Proof. intros. by rewrite md5_ok. Qed.
Lemma hmac_value key d mac : fits key -> fits d -> snd (hmac_md5 md5_stack key d mac) = hmac_rfc2104 MD5.md5 key d.
Proof.
  intros Hk Hd. unfold hmac_md5. rewrite hmac_md5_ok; [|done|cbn; lia|done|by constructor]. cbn [snd concat].
  by rewrite app_nil_r.
Qed.

(** [response_auth] is RFC 2865. *)
Lemma response_auth_spec msg ci len auth attrs secret req : holds msg (header ci len auth) attrs ->
  header_ok ci len auth -> short attrs -> fits secret -> zlen req = 16 ->
  response_auth md5_stack msg secret req = Ok (response_authenticator secret (ci ++ len) req attrs).
Proof.
  intros Hm Hok Hs Hsec Hreq. pose proof Hok as (Hc & Hl & Ha). pose proof Hm as (Hh & Hb & _). unfold response_auth.
  destruct (brepr_len _ _ Hb) as [-> Hlt]. rewrite zlen_app, Hh in *. unfold sizeof_radius_hdr in *.
  pose proof (zlen_nonneg (enc_attrs attrs)).
  replace (size_t (20 + zlen (enc_attrs attrs) - 20)) with (zlen (enc_attrs attrs))
    by (rewrite size_t_id; unfold max_wpabuf, sizeof_wpabuf in *; lia).
  assert (rd_n (mem msg) 0 (1 + 1 + 2) = Ok (ci ++ len)) as ->.
  { replace (1 + 1 + 2) with (zlen (ci ++ len)) by (rewrite zlen_app; lia).
    unfold header in Hb. rewrite <-!app_assoc, (app_assoc ci) in Hb. by apply (mem_rd_n msg [] (ci ++ len) (auth ++ enc_attrs attrs)). }
  assert (rd_n (mem msg) 20 (zlen (enc_attrs attrs)) = Ok (enc_attrs attrs)) as ->.
  { rewrite <-Hh. rewrite <-(app_nil_r (enc_attrs attrs)) in Hb. by eapply mem_rd_n. }
  cbn [mbind res_bind mret res_ret]. f_equal. rewrite md5_value.
  - unfold response_authenticator. cbn [concat]. by rewrite app_nil_r.
  - unfold short in Hs. repeat constructor; try done; apply fits_short; rewrite ?zlen_app; lia.
Qed.

End hashing.

(** ** Verification *)

Lemma find_msg_auth_spec msg h attrs : holds msg h attrs ->
  runs (find_msg_auth msg) (fun r =>
    match r with
    | inl None => values RADIUS_ATTR_MESSAGE_AUTHENTICATOR attrs = []
    | inl (Some p) => exists pre v post, only_msg_auth attrs pre v post /\ p = at_ pre
    | inr _ => (2 <= length (values RADIUS_ATTR_MESSAGE_AUTHENTICATOR attrs))%nat
    end).
Proof.
  intros Hm. unfold find_msg_auth. rewrite (for_attrs_fold _ _ _ _ _ Hm).
  eapply runs_weaken; [apply (fold_attrs_rule
    (fun pre r => match r with
      | None => values RADIUS_ATTR_MESSAGE_AUTHENTICATOR pre = []
      | Some p => exists pre' v post, only_msg_auth pre pre' v post /\ p = at_ pre'
      end)
    (fun _ => (2 <= length (values RADIUS_ATTR_MESSAGE_AUTHENTICATOR attrs))%nat)); [done|]|by intros [[p|]|[]]].
  intros pre [t v] post o E Ho. pose proof Hm as Hm'. rewrite E in Hm'. rewrite (load_type _ _ _ _ _ _ Hm').
  cbn [mbind res_bind]. destruct (Z.eqb_spec t RADIUS_ATTR_MESSAGE_AUTHENTICATOR) as [->|Hne].
  - destruct o as [p|]; apply runs_ret.
    + destruct Ho as (pre' & v' & post' & Ho & _). apply only_msg_auth_values in Ho.
      change ((RADIUS_ATTR_MESSAGE_AUTHENTICATOR, v) :: post) with ([(RADIUS_ATTR_MESSAGE_AUTHENTICATOR, v)] ++ post) in E.
      rewrite E, !values_app, Ho, values_eq by done. cbn. lia.
    + exists pre, v, []. by split.
  - apply runs_ret. destruct o as [p|].
    + destruct Ho as (pre' & v' & post' & (-> & H1 & H2) & ->). exists pre', v', (post' ++ [(t, v)]).
      split; [|done]. split; [by rewrite <-app_assoc|]. split; [done|]. by rewrite values_app, H2, values_ne.
    + by rewrite values_app, Ho, values_ne.
Qed.

Section auth.
Context (uninit : nat -> Z) (md5_stack : Md5.MD5Context).
Hypothesis Hstack : length (Md5.in_ md5_stack) = 64%nat.

Lemma check_msg_auth_spec msg ci len auth pre v post secret req :
  holds msg (header ci len auth) (pre ++ (RADIUS_ATTR_MESSAGE_AUTHENTICATOR, v) :: post) -> header_ok ci len auth ->
  short (pre ++ (RADIUS_ATTR_MESSAGE_AUTHENTICATOR, v) :: post) -> fits secret ->
  (forall a, req = Some a -> zlen a = 16 /\ bytes a) -> length v = 16%nat ->
  runs (check_msg_auth uninit md5_stack msg (at_ pre) secret req) (fun '(r, m) =>
    holds m (header ci len auth) (pre ++ (RADIUS_ATTR_MESSAGE_AUTHENTICATOR, v) :: post) /\
    r = if bool_decide (v = message_authenticator secret (ci ++ len) (default auth req) pre post) then 0 else 1).
Proof.
  intros Hm Hok Hs Hsec Hreq Hv. pose proof Hok as (Hc & Hl & Ha). unfold check_msg_auth.
  set (MA := RADIUS_ATTR_MESSAGE_AUTHENTICATOR) in *. change (Z.to_nat MD5_MAC_LEN) with 16%nat. set (zeros := replicate 16 0).
  assert (zlen v = 16) as Hv16 by (unfold zlen; lia).
  assert (bytes v /\ bytes auth) as [Hbv Hba].
  { pose proof (load_wf _ _ _ _ _ _ Hm) as (_ & ? & _). split; [done|]. destruct Hm as (_ & Hb & _). apply brepr_bytes in Hb.
    unfold header in Hb. rewrite !Forall_app in Hb. tauto. }
  pose proof (load_value _ _ _ _ _ _ Hm) as Hload. rewrite Hv16 in Hload. change MD5_MAC_LEN with 16 in *.
  rewrite Hload. cbn [mbind res_bind].
  rstep ltac:(apply (set_value msg _ pre MA v zeros post Hm); [done|by apply Forall_replicate]) as m1 Hm1. destruct Hm1 as [Hm1 _].
  assert (short (pre ++ (MA, zeros) :: post)) as Hs'.
  { unfold short in *. rewrite enc_attrs_app, enc_attrs_cons, !zlen_app, zlen_enc_attr in *. cbn [snd] in *.
    rewrite Hv16 in Hs. exact Hs. }
  rstep ltac:(instantiate (1 := fun '(o, m) => holds m (header ci len (default auth req)) (pre ++ (MA, zeros) :: post) /\
     (req <> None -> o = auth))) as [o m2] H2.
  { destruct req as [a|]; [|by apply runs_ret]. destruct (Hreq a eq_refl) as [Ea Hbq].
    rewrite (get_auth _ _ _ _ _ Hm1 Hok). cbn [mbind res_bind].
    pose proof (rd_n_all a) as Er. rewrite Ea in Er. rewrite Er. cbn [mbind res_bind].
    rstep ltac:(apply (set_auth m1 _ _ _ a _ Hm1 Hok); [unfold zlen in Ea; lia|done]) as m Hm'. destruct Hm' as [? _]. by apply runs_ret. }
  destruct H2 as [Hm2 Ho]. rewrite (whole_holds _ _ _ Hm2). cbn [mbind res_bind].
  assert (header_ok ci len (default auth req)) as Hok2.
  { split_and!; [done..|]. destruct req as [a|]; [by apply Hreq|done]. }
  rewrite (hmac_value md5_stack Hstack); [|done|by apply fits_message]. rewrite message_authenticator_eq.
  rstep ltac:(apply (set_value m2 _ pre MA zeros v post Hm2); [by rewrite Hv|done]) as m3 Hm3. destruct Hm3 as [Hm3 _].
  rstep ltac:(instantiate (1 := fun m => holds m (header ci len auth) (pre ++ (MA, v) :: post))) as m4 Hm4.
  { destruct req as [a|]; [|by apply runs_ret]. rewrite (Ho ltac:(done)).
    eapply runs_weaken; [apply (set_auth m3 _ _ _ auth _ Hm3 Hok2); [unfold zlen in Ha; lia|done]|]. by intros m [? _]. }
  by apply runs_ret.
Qed.

Lemma verify_msg_auth_spec msg ci len auth attrs secret req : holds msg (header ci len auth) attrs -> header_ok ci len auth ->
  short attrs -> fits secret -> (forall a, req = Some a -> zlen a = 16 /\ bytes a) ->
  Forall (fun v => length v = 16%nat) (values RADIUS_ATTR_MESSAGE_AUTHENTICATOR attrs) ->
  runs (radius_msg_verify_msg_auth uninit md5_stack msg secret req) (fun '(r, m) =>
    holds m (header ci len auth) attrs /\ (r = 0 \/ r = 1) /\
    (r = 0 <-> exists pre v post, only_msg_auth attrs pre v post /\
      v = message_authenticator secret (ci ++ len) (default auth req) pre post)).
Proof.
  intros Hm Hok Hs Hsec Hreq Hvals. unfold radius_msg_verify_msg_auth.
  rstep ltac:(by eapply find_msg_auth_spec) as r Hr.
  assert (values RADIUS_ATTR_MESSAGE_AUTHENTICATOR attrs = [] \/ (2 <= length (values RADIUS_ATTR_MESSAGE_AUTHENTICATOR attrs))%nat ->
    holds msg (header ci len auth) attrs /\ (1 = 0 \/ 1 = 1) /\ (1 = 0 <-> exists pre v post, only_msg_auth attrs pre v post /\
      v = message_authenticator secret (ci ++ len) (default auth req) pre post)) as Hno.
  { intros Hv. split; [done|]. split; [by right|]. split; [done|]. intros (pre & v & post & Ho & _).
    apply only_msg_auth_values in Ho. rewrite Ho in Hv. cbn in Hv. destruct Hv; [done|lia]. }
  destruct r as [[p|]|[]]; [|apply runs_ret; apply Hno; by left|apply runs_ret; apply Hno; by right].
  clear Hno. destruct Hr as (pre & v & post & Ho & ->). pose proof (only_msg_auth_values _ _ _ _ Ho) as Ev.
  rewrite Ev, Forall_singleton in Hvals. pose proof Ho as (E & _ & _). rewrite E in Hm, Hs.
  eapply runs_weaken; [by eapply check_msg_auth_spec|]. intros [r m] [Hmm ->]. rewrite <-E in Hmm. split; [done|].
  case_bool_decide as Hd.
  - split; [by left|]. split; [|done]. intros _. by exists pre, v, post.
  - split; [by right|]. split; [done|]. intros (pre' & v' & post' & Ho' & Hv').
    destruct (only_msg_auth_inj _ _ _ _ _ _ _ Ho Ho') as (-> & -> & ->). done.
Qed.

(** [radius_msg_verify] *)
Lemma verify_spec msg ci len auth attrs sent ci' len' req attrs' secret check : holds msg (header ci len auth) attrs -> header_ok ci len auth ->
  holds sent (header ci' len' req) attrs' -> header_ok ci' len' req -> short attrs -> fits secret ->
  (check = true -> Forall (fun v => length v = 16%nat) (values RADIUS_ATTR_MESSAGE_AUTHENTICATOR attrs)) ->
  runs (radius_msg_verify uninit md5_stack msg secret (Some sent) check) (fun '(r, m) =>
    holds m (header ci len auth) attrs /\ (r = 0 \/ r = 1) /\
    (r = 0 <-> auth = response_authenticator secret (ci ++ len) req attrs /\
      (check = true -> exists pre v post, only_msg_auth attrs pre v post /\
        v = message_authenticator secret (ci ++ len) req pre post))).
Proof.
  intros Hm Hok Hsent Hok' Hs Hsec Hvals. unfold radius_msg_verify. rewrite (get_auth _ _ _ _ _ Hsent Hok'). cbn [mbind res_bind].
  assert (zlen req = 16 /\ bytes req) as [Hr16 Hrb].
  { split; [apply Hok'|]. destruct Hsent as (_ & Hb & _). apply brepr_bytes in Hb. unfold header in Hb. rewrite !Forall_app in Hb. tauto. }
  set (C := exists pre v post, only_msg_auth attrs pre v post /\ v = message_authenticator secret (ci ++ len) req pre post).
  rstep ltac:(instantiate (1 := fun '(r, m) => holds m (header ci len auth) attrs /\ (r = 0 \/ r = 1) /\ (r = 0 <-> (check = true -> C))))
    as [r m] H1.
  { destruct check; [|apply runs_ret; by split_and!; [|left|]].
    eapply runs_weaken; [eapply (verify_msg_auth_spec _ _ _ _ _ _ (Some req) Hm Hok Hs Hsec); [|by apply Hvals]|].
    - by intros a [= <-].
    - intros [r m] (? & ? & Hiff). split; [done|]. split; [done|].
      split; [intros E _; by apply Hiff|intros HC; apply Hiff; by apply HC]. }
  destruct H1 as (Hm1 & Hr & Hiff).
  destruct (Z.eqb_spec r 0) as [E|E]; cbn [negb].
  2: { apply runs_ret. split; [done|]. split; [by right|]. split; [done|]. intros [_ HC]. by apply Hiff in HC. }
  rewrite (response_auth_spec md5_stack Hstack _ _ _ _ _ _ _ Hm1) by done. rewrite (get_auth _ _ _ _ _ Hm1 Hok). cbn [mbind res_bind].
  apply runs_ret. split; [done|]. pose proof (proj1 Hiff E) as HC. case_bool_decide as Hd.
  - split; [by left|]. by split.
  - split; [by right|]. split; [done|]. by intros [-> _].
Qed.

End auth.

(** ** Finishing a message *)

Section finishing.
Context (malloc_ok : Z -> bool) (uninit : nat -> Z) (md5_stack : Md5.MD5Context).
Hypothesis Hstack : length (Md5.in_ md5_stack) = 64%nat.

(** [radius_msg_finish_srv]: the request's authenticator goes into the
    Message-Authenticator and into the Response Authenticator. *)
Lemma finish_srv_spec msg ci len auth attrs secret req : holds msg (header ci len auth) attrs -> header_ok ci len auth ->
  zlen (enc_attrs attrs) + 18 <= 2 ^ 24 -> fits secret -> zlen req = 16 -> bytes req ->
  runs (radius_msg_finish_srv malloc_ok uninit md5_stack msg secret req) (fun '(r, m) =>
    let n := 20 + zlen (enc_attrs attrs) + 18 in
    let len := WPA_PUT_BE16 n in
    let attrs' := attrs ++ [(RADIUS_ATTR_MESSAGE_AUTHENTICATOR, message_authenticator secret (ci ++ len) req attrs [])] in
    r = (if 0xffff <? n then -1 else 0) /\ holds m (header ci len (response_authenticator secret (ci ++ len) req attrs')) attrs'
    \/ r = -1 /\ ~ enough_memory malloc_ok).
Proof.
  intros Hm Hok Hs Hsec Hreq Hbr. pose proof Hok as (Hc & Hl & Ha). pose proof (zlen_nonneg (enc_attrs attrs)) as H0.
  unfold radius_msg_finish_srv, MD5_MAC_LEN. change (Z.to_nat 16) with 16%nat. set (zeros := replicate 16 0).
  set (MA := RADIUS_ATTR_MESSAGE_AUTHENTICATOR).
  rstep ltac:(pose proof (add_attr_spec malloc_ok uninit msg (header ci len auth) attrs MA zeros [] Hm) as Hadd;
    rewrite app_nil_r in Hadd; apply Hadd;
    [split; [done|]; split; [apply Forall_replicate; done|done]|unfold short; lia]) as [r m1] Hr.
  destruct Hr as [[-> Hm1]|[-> Hno]]; [|apply runs_ret; by right].
  pose proof (enc_attrs_value attrs MA zeros eq_refl) as En.
  rstep ltac:(by apply (set_len m1 _ _ _ _ Hm1)) as m2 Hm2. rewrite En, Z.add_assoc in Hm2.
  change sizeof_radius_hdr with 20 in *. cbv zeta. set (n := 20 + zlen (enc_attrs attrs) + 18) in *.
  set (len' := WPA_PUT_BE16 n) in *. assert (header_ok ci len' auth) as Hok2 by done.
  pose proof (rd_n_all req) as Er. rewrite Hreq in Er. rewrite Er. cbn [mbind res_bind].
  rstep ltac:(apply (set_auth m2 _ _ _ req _ Hm2 Hok2); [unfold zlen in Hreq; lia|done]) as m3 Hm3. destruct Hm3 as [Hm3 _].
  rewrite (whole_holds _ _ _ Hm3). cbn [mbind res_bind].
  rewrite (load_value m3 _ attrs MA zeros [] Hm3 : rd_n (mem m3) (at_ attrs + 2) 16 = Ok zeros). cbn [mbind res_bind].
  rewrite (hmac_value md5_stack Hstack); [|done|].
  2: { apply fits_short. unfold header. rewrite !zlen_app, En, Hc, Hreq. change (zlen len') with 2. lia. }
  replace (header ci len' req ++ enc_attrs (attrs ++ [(MA, zeros)]))
    with ((ci ++ len') ++ req ++ enc_attrs (attrs ++ (MA, zeros) :: [])) by by unfold header; rewrite <-!app_assoc.
  destruct (message_authenticator_ok secret (ci ++ len') req attrs []) as [Hmb Hml].
  change (hmac_rfc2104 _ _ _) with (message_authenticator secret (ci ++ len') req attrs []).
  set (mac := message_authenticator _ _ _ _ _) in *.
  rstep ltac:(by apply (set_value m3 _ attrs MA zeros mac [] Hm3)) as m4 Hm4. destruct Hm4 as [Hm4 _].
  pose proof (enc_attrs_value attrs MA mac Hml) as En4.
  rewrite (response_auth_spec md5_stack Hstack _ _ _ _ _ _ _ Hm4) by (try done; unfold short; lia). cbn [mbind res_bind].
  rstep ltac:(apply (set_auth m4 _ _ _ _ _ Hm4 ltac:(done)); [apply MD5.length_md5|apply md5_bytes]) as m5 Hm5.
  destruct Hm5 as [Hm5 _]. apply runs_ret. left. split; [|done].
  unfold too_long. pose proof Hm5 as (Hh5 & Hb5 & _). destruct (brepr_len _ _ Hb5) as [-> _].
  by rewrite zlen_app, Hh5, En4, Z.add_assoc.
Qed.

(** A request carries its own authenticator. *)
Lemma finish_spec msg ci len auth attrs secret : holds msg (header ci len auth) attrs -> header_ok ci len auth ->
  zlen (enc_attrs attrs) + 18 <= 2 ^ 24 -> fits secret ->
  runs (radius_msg_finish malloc_ok uninit md5_stack msg (Some secret)) (fun '(r, m) =>
    let n := 20 + zlen (enc_attrs attrs) + 18 in
    let len := WPA_PUT_BE16 n in
    r = (if 0xffff <? n then -1 else 0) /\ holds m (header ci len auth)
      (attrs ++ [(RADIUS_ATTR_MESSAGE_AUTHENTICATOR, message_authenticator secret (ci ++ len) auth attrs [])])
    \/ r = -1 /\ ~ enough_memory malloc_ok).
Proof.
  intros Hm Hok Hs Hsec. pose proof Hok as (Hc & Hl & Ha). pose proof (zlen_nonneg (enc_attrs attrs)) as H0.
  unfold radius_msg_finish, MD5_MAC_LEN. change (Z.to_nat 16) with 16%nat. set (zeros := replicate 16 0).
  set (MA := RADIUS_ATTR_MESSAGE_AUTHENTICATOR).
  rstep ltac:(pose proof (add_attr_spec malloc_ok uninit msg (header ci len auth) attrs MA zeros [] Hm) as Hadd;
    rewrite app_nil_r in Hadd; apply Hadd;
    [split; [done|]; split; [apply Forall_replicate; done|done]|unfold short; lia]) as [r m1] Hr.
  destruct Hr as [[-> Hm1]|[-> Hno]]; [|apply runs_ret; by right].
  pose proof (enc_attrs_value attrs MA zeros eq_refl) as En.
  rstep ltac:(by apply (set_len m1 _ _ _ _ Hm1)) as m2 Hm2. rewrite En, Z.add_assoc in Hm2.
  change sizeof_radius_hdr with 20 in *. cbv zeta. set (n := 20 + zlen (enc_attrs attrs) + 18) in *.
  set (len' := WPA_PUT_BE16 n) in *. assert (header_ok ci len' auth) as Hok2 by done.
  rewrite (whole_holds _ _ _ Hm2). cbn [mbind res_bind].
  rewrite (load_value m2 _ attrs MA zeros [] Hm2 : rd_n (mem m2) (at_ attrs + 2) 16 = Ok zeros). cbn [mbind res_bind].
  rewrite (hmac_value md5_stack Hstack), message_authenticator_eq by (first [done|apply fits_message; [done|unfold short; lia]]).
  destruct (message_authenticator_ok secret (ci ++ len') auth attrs []) as [Hmb Hml].
  set (mac := message_authenticator _ _ _ _ _) in *.
  rstep ltac:(by apply (set_value m2 _ attrs MA zeros mac [] Hm2)) as m4 Hm4. destruct Hm4 as [Hm4 _].
  apply runs_ret. left. split; [|done].
  unfold too_long. pose proof Hm4 as (Hh4 & Hb4 & _). destruct (brepr_len _ _ Hb4) as [-> _].
  by rewrite zlen_app, Hh4, (enc_attrs_value attrs MA mac Hml), Z.add_assoc.
Qed.

(** An accounting request: MD5 over the message with zeros, and the secret. *)
Lemma finish_acct_spec msg ci len auth attrs secret : holds msg (header ci len auth) attrs -> header_ok ci len auth ->
  short attrs -> fits secret ->
  runs (radius_msg_finish_acct md5_stack msg secret) (fun m =>
    let len := WPA_PUT_BE16 (sizeof_radius_hdr + zlen (enc_attrs attrs)) in
    holds m (header ci len (response_authenticator secret (ci ++ len) (replicate 16 0) attrs)) attrs).
Proof.
  intros Hm Hok Hs Hsec. unfold radius_msg_finish_acct. change (Z.to_nat MD5_MAC_LEN) with 16%nat. cbv zeta.
  set (len' := WPA_PUT_BE16 _). set (zeros := replicate 16 0). pose proof Hok as (Hc & Hl & Ha).
  rstep ltac:(by apply (set_len msg _ _ _ _ Hm)) as m1 Hm1. fold len' in Hm1.
  rstep ltac:(apply (set_auth m1 _ _ _ zeros _ Hm1); [done|done|by apply Forall_replicate]) as m2 Hm2. destruct Hm2 as [Hm2 _].
  rewrite (whole_holds _ _ _ Hm2). cbn [mbind res_bind].
  rewrite (md5_value md5_stack Hstack) by (constructor; [by apply fits_message|by constructor]). cbn [concat]. rewrite app_nil_r.
  replace (MD5.md5 _) with (response_authenticator secret (ci ++ len') zeros attrs)
    by (unfold response_authenticator, header; by rewrite <-!app_assoc).
  eapply runs_weaken; [apply (set_auth m2 _ _ _ _ _ Hm2 ltac:(done)); [apply MD5.length_md5|apply md5_bytes]|].
  by intros m [? _].
Qed.

End finishing.

(** ** From one end to the other *)

Section ends.
Context (malloc_ok : Z -> bool) (uninit : nat -> Z).

(** The octets of a message with a right length field are parsed to the message. *)
Lemma parse_whole m h attrs : holds m h attrs -> zlen (h ++ enc_attrs attrs) <= 0xffff ->
  WPA_GET_BE16 h 2 = Ok (zlen (h ++ enc_attrs attrs)) -> enough_memory malloc_ok ->
  runs (radius_msg_parse malloc_ok uninit (Some (h ++ enc_attrs attrs)) (zlen (h ++ enc_attrs attrs))) (fun p =>
    exists p', p = Some p' /\ holds p' h attrs).
Proof.
  intros Hm Hn El Hmem. pose proof Hm as (Hh & Hb & Hw & _).
  assert (is_message (h ++ enc_attrs attrs) h attrs) as Hi by by split_and!.
  eapply runs_weaken; [apply parse_spec; [by eapply brepr_bytes|lia]|]. intros [p'|] [Hsome Hnone].
  - destruct (Hsome p' eq_refl) as (h' & attrs' & Hi' & Hp & _). destruct (is_message_inj _ _ _ _ _ Hi Hi') as [-> ->].
    by exists p'.
  - exfalso. by eapply Hnone.
Qed.

Lemma header_length ci auth n : zlen ci = 2 -> 0 <= n < 65536 -> WPA_GET_BE16 (header ci (WPA_PUT_BE16 n) auth) 2 = Ok n.
Proof.
  intros Hc Hn. unfold header. replace 2 with (zlen ci) by done. rewrite WPA_GET_PUT_BE16. f_equal. unfold u16. by rewrite Z.mod_small.
Qed.
End ends.
