(* ===== verification/RadiusKeys.v ===== *)
(** * RADIUS messages: keys and passwords

    MS-MPPE keys (RFC 2548) and User-Password (RFC 2865, 5.2) use the same cipher:
    blocks of 16 octets, each with the MD5 of the secret and the block before.  The
    loops of the code are that cipher in place; decryption undoes encryption. *)

From S2P Require Import Prelude WpaBuf Hash HashProps Hmac HmacProps Radius RadiusRep RadiusProps RadiusAuth.
From S2P Require Md5.

(** ** The cipher *)

Section cipher.
Context (secret : list Z).

(** [n] blocks; [iv] is what the first pad is made of. *)
Fixpoint hide (iv : list Z) (n : nat) (p : list Z) : list Z :=
  match n with
  | O => []
  | S n => let c := zip_with Z.lxor (take 16 p) (MD5.md5 (secret ++ iv)) in c ++ hide c n (drop 16 p)
  end.
Fixpoint reveal (iv : list Z) (n : nat) (c : list Z) : list Z :=
  match n with
  | O => []
  | S n => zip_with Z.lxor (take 16 c) (MD5.md5 (secret ++ iv)) ++ reveal (take 16 c) n (drop 16 c)
  end.

Lemma lxor_pad (p h : list Z) : (length p <= length h)%nat -> zip_with Z.lxor (zip_with Z.lxor p h) h = p.
Proof.
  revert h. induction p as [|x p IH]; intros [|y h] Hl; cbn in *; [done..|lia|].
  rewrite Z.lxor_assoc, Z.lxor_nilpotent, Z.lxor_0_r. f_equal. apply IH. lia.
Qed.
Lemma length_pad (p : list Z) iv : length p = 16%nat -> length (zip_with Z.lxor p (MD5.md5 (secret ++ iv))) = 16%nat.
Proof. intros. rewrite length_zip_with, MD5.length_md5. lia. Qed.
Lemma length_hide iv n p : length p = (16 * n)%nat -> length (hide iv n p) = (16 * n)%nat.
Proof.
  revert iv p. induction n as [|n IH]; intros iv p Hp; [done|]. cbn [hide].
  rewrite length_app, length_pad, IH; [lia| |]; rewrite ?length_drop, ?length_take; lia.
Qed.
Lemma reveal_hide iv n p : length p = (16 * n)%nat -> reveal iv n (hide iv n p) = p.
Proof.
  revert iv p. induction n as [|n IH]; intros iv p Hp; cbn [hide reveal]; [by destruct p|].
  assert (length (take 16 p) = 16%nat) as Ht by (rewrite length_take; lia).
  rewrite take_app_length', drop_app_length' by by rewrite length_pad.
  rewrite lxor_pad by (rewrite MD5.length_md5; lia). rewrite IH by (rewrite length_drop; lia). apply take_drop.
Qed.
Lemma lxor_byte a b : is_byte a -> is_byte b -> is_byte (Z.lxor a b).
Proof.
  intros Ha Hb. assert (0 <= a < 2 ^ 8 /\ 0 <= b < 2 ^ 8) as [Ha' Hb'] by (unfold is_byte in *; lia).
  assert (0 <= Z.lxor a b) by (apply Z.lxor_nonneg; lia).
  assert (Z.lxor a b < 2 ^ 8); [|unfold is_byte; lia].
  destruct (decide (Z.lxor a b = 0)); [lia|]. apply Z.log2_lt_pow2; [lia|].
  pose proof (Z.log2_lxor a b ltac:(lia) ltac:(lia)).
  destruct (decide (a = 0)) as [->|], (decide (b = 0)) as [->|]; rewrite ?Z.lxor_0_l, ?Z.lxor_0_r in *; [done|..].
  1-2: apply Z.log2_lt_pow2; lia.
  pose proof (proj1 (Z.log2_lt_pow2 a 8 ltac:(lia)) ltac:(lia)). pose proof (proj1 (Z.log2_lt_pow2 b 8 ltac:(lia)) ltac:(lia)). lia.
Qed.
Lemma hide_bytes iv n p : bytes p -> bytes (hide iv n p).
Proof.
  revert iv p. induction n as [|n IH]; intros iv p Hp; cbn [hide]; [done|]. apply Forall_app. split.
  - generalize (Forall_take is_byte 16 p Hp), (md5_bytes (secret ++ iv)). generalize (take 16 p) (MD5.md5 (secret ++ iv)).
    induction l as [|x l IHl]; intros [|y l'] H1 H2; cbn; [constructor..|]. apply Forall_cons in H1 as [? ?], H2 as [? ?].
    constructor; [by apply lxor_byte|by apply IHl].
  - apply IH. by apply Forall_drop.
Qed.
End cipher.

(** [if (len & 0x0f) len = (len & 0xf0) + 16]: up to 255, the next multiple of 16. *)
Lemma round_up len : 0 < len < 256 -> (if negb (Z.land len 0x0f =? 0) then Z.land len 0xf0 + 16 else len) = 16 * ((len + 15) / 16).
Proof.
  intros Hl. assert (forallb (fun len => (if negb (Z.land len 0x0f =? 0) then Z.land len 0xf0 + 16 else len) =? 16 * ((len + 15) / 16))
    (map Z.of_nat (seq 1 255)) = true) as H by by vm_compute.
  rewrite forallb_forall in H. apply Z.eqb_eq, H. apply in_map_iff. exists (Z.to_nat len). split; [lia|]. apply in_seq. lia.
Qed.

(** Blocks of an encrypted key: its length, the key, zeros. *)
Definition key_blocks (key : list Z) : nat := Z.to_nat ((1 + zlen key + 15) / 16).
Definition pad_key (key : list Z) : list Z :=
  zlen key :: key ++ replicate (16 * key_blocks key - 1 - length key) 0.

Lemma length_pad_key key : length (pad_key key) = (16 * key_blocks key)%nat.
Proof.
  unfold pad_key, key_blocks. cbn [length]. rewrite length_app, length_replicate. unfold zlen.
  zify. Z.to_euclidean_division_equations. lia.
Qed.
Lemma key_blocks_pos key : (0 < key_blocks key)%nat.
Proof. unfold key_blocks. pose proof (zlen_nonneg key). zify. Z.to_euclidean_division_equations. lia. Qed.

Lemma key_blocks_bound key : zlen key <= 239 -> (key_blocks key <= 15)%nat.
Proof. intros. pose proof (zlen_nonneg key). unfold key_blocks. zify. Z.to_euclidean_division_equations. lia. Qed.
(** Blocks of a password, and the password with zeros. *)
Definition password_blocks (data : list Z) : nat := Z.to_nat ((zlen data + 15) / 16).
Definition pad_password (data : list Z) : list Z := data ++ replicate (16 * password_blocks data - length data) 0.
Lemma length_pad_password data : length (pad_password data) = (16 * password_blocks data)%nat.
Proof.
  unfold pad_password, password_blocks. rewrite length_app, length_replicate. unfold zlen.
  zify. Z.to_euclidean_division_equations. lia.
Qed.


Lemma wr_app (p : list Z) x r v : wr (p ++ x :: r) (zlen p) v = Ok (p ++ v :: r).
Proof.
  rewrite wr_ok by (rewrite zlen_app, zlen_cons; pose proof (zlen_nonneg p); pose proof (zlen_nonneg r); lia).
  f_equal. replace (Z.to_nat (zlen p)) with (length p + 0)%nat by (unfold zlen; lia). by rewrite insert_app_r.
Qed.
Lemma split_n k (l : list Z) : (k <= length l)%nat -> exists a b, l = a ++ b /\ length a = k.
Proof. intros. exists (take k l), (drop k l). rewrite take_drop, length_take. split; [done|lia]. Qed.
Lemma split_buffer n (l : list Z) : (8 + 16 * n <= length l)%nat -> exists a0 t0 l0 s0 room r,
  l = a0 ++ t0 :: l0 :: s0 ++ room ++ r /\ length a0 = 4%nat /\ length s0 = 2%nat /\ length room = (16 * n)%nat.
Proof.
  intros Hl. destruct (split_n 4 l) as (a0 & l1 & -> & Ha); [lia|]. rewrite length_app in Hl.
  destruct (split_n 2 l1) as (a1 & l2 & -> & H1); [lia|]. rewrite length_app in Hl.
  destruct (split_n 2 l2) as (s0 & l3 & -> & Hs); [lia|]. rewrite length_app in Hl.
  destruct (split_n (16 * n) l3) as (room & r & -> & Hr); [lia|].
  destruct a1 as [|t0 [|l0 [|]]]; try discriminate H1. by exists a0, t0, l0, s0, room, r.
Qed.

Lemma fits_16 (l : list Z) : length l = 16%nat -> fits l.
Proof. intros E. unfold fits, zlen. rewrite E. lia. Qed.

Lemma fits_2 (l : list Z) : length l = 2%nat -> fits l.
Proof. intros E. unfold fits, zlen. rewrite E. lia. Qed.

Lemma split_16 (x : list Z) n : length x = (16 * S n)%nat -> exists y x', x = y ++ x' /\ length y = 16%nat /\ length x' = (16 * n)%nat /\
  take 16 x = y /\ drop 16 x = x'.
Proof.
  intros Hx. exists (take 16 x), (drop 16 x). rewrite take_drop, length_take, length_drop. split_and!; (done || lia).
Qed.

Lemma omap_vendor_none vendor sub attrs : values RADIUS_ATTR_VENDOR_SPECIFIC attrs = [] -> omap (vendor_of vendor sub) attrs = [].
Proof.
  induction attrs as [|a attrs IH]; [done|]. intros [Ha Hv]%values_cons_ne. cbn [omap list_omap]. unfold vendor_of at 1.
  rewrite (proj2 (Z.eqb_neq _ _) Ha). cbn [andb]. by apply IH.
Qed.

Section value.
Context (secret : list Z).

(** The value of the attribute that carries a key. *)
Definition mppe_value (vendor_type salt : Z) (req key : list Z) : list Z :=
  WPA_PUT_BE32 RADIUS_VENDOR_ID_MICROSOFT ++ [vendor_type; 4 + 16 * Z.of_nat (key_blocks key)] ++
  WPA_PUT_BE16 salt ++ hide secret (req ++ WPA_PUT_BE16 salt) (key_blocks key) (pad_key key).

Lemma length_hidden key salt req : length (hide secret (req ++ WPA_PUT_BE16 salt) (key_blocks key) (pad_key key)) = (16 * key_blocks key)%nat.
Proof. apply length_hide, length_pad_key. Qed.
Lemma zlen_mppe_value vt salt req key : zlen (mppe_value vt salt req key) = 8 + 16 * Z.of_nat (key_blocks key).
Proof. unfold mppe_value. rewrite !zlen_app. unfold zlen at 4. rewrite length_hidden. change (zlen (WPA_PUT_BE32 _)) with 4.
  change (zlen (WPA_PUT_BE16 _)) with 2. change (zlen [_; _]) with 2. lia. Qed.
Lemma mppe_value_bytes vt salt req key : is_byte vt -> bytes key -> zlen key <= 239 -> bytes (mppe_value vt salt req key).
Proof.
  intros Hv Hk Hl. pose proof (key_blocks_bound key Hl). pose proof (zlen_nonneg key). unfold mppe_value. rewrite !Forall_app. split_and!.
  - apply WPA_PUT_BE32_bytes.
  - repeat constructor; [apply Hv|apply Hv|unfold is_byte; lia..].
  - apply WPA_PUT_BE16_bytes.
  - apply hide_bytes. unfold pad_key. constructor; [unfold is_byte; lia|]. apply Forall_app. split; [done|]. by apply Forall_replicate.
Qed.

Lemma vendor_of_mppe vt salt req key sub : is_byte vt -> zlen key <= 239 ->
  vendor_of RADIUS_VENDOR_ID_MICROSOFT sub (RADIUS_ATTR_VENDOR_SPECIFIC, mppe_value vt salt req key) =
  if vt =? sub then Some (WPA_PUT_BE16 salt ++ hide secret (req ++ WPA_PUT_BE16 salt) (key_blocks key) (pad_key key)) else None.
Proof.
  intros Hv Hk. pose proof (key_blocks_bound key Hk). unfold vendor_of. cbn [fst snd]. rewrite Z.eqb_refl. cbn [andb].
  rewrite (proj2 (Z.leb_le _ _)) by (rewrite zlen_mppe_value; lia). cbn [andb].
  set (sealed := WPA_PUT_BE16 salt ++ hide _ _ _ _).
  assert (zlen sealed = 2 + 16 * Z.of_nat (key_blocks key)) as Es.
  { unfold sealed. rewrite zlen_app. unfold zlen at 2. rewrite length_hidden. rewrite zlen_BE16. lia. }
  change (mppe_value vt salt req key) with (WPA_PUT_BE32 RADIUS_VENDOR_ID_MICROSOFT ++ [vt; 4 + 16 * Z.of_nat (key_blocks key)] ++ sealed).
  pose proof (WPA_GET_PUT_BE32 [] RADIUS_VENDOR_ID_MICROSOFT ([vt; 4 + 16 * Z.of_nat (key_blocks key)] ++ sealed)) as Eg.
  change (WPA_GET_BE32 (WPA_PUT_BE32 RADIUS_VENDOR_ID_MICROSOFT ++ [vt; 4 + 16 * Z.of_nat (key_blocks key)] ++ sealed) 0 = Ok 311) in Eg.
  rewrite Eg. change (311 =? RADIUS_VENDOR_ID_MICROSOFT) with true. cbv iota.
  change (drop 4 (WPA_PUT_BE32 _ ++ ?k)) with k. rewrite length_app. cbn [length WPA_PUT_BE32 Nat.add sub_attr app].
  rewrite Es. rewrite (proj2 (Z.ltb_ge _ _)), (proj2 (Z.ltb_ge _ _)) by lia. cbn [orb].
  assert (Z.to_nat (4 + 16 * Z.of_nat (key_blocks key) - 2) = length sealed) as -> by (unfold zlen in Es; lia).
  rewrite take_ge, drop_ge by done. by destruct (vt =? sub), (length sealed).
Qed.

End value.

Section keys.
Context (malloc_ok : Z -> bool) (uninit : nat -> Z) (md5_stack : Md5.MD5Context).
Hypothesis Hstack : length (Md5.in_ md5_stack) = 64%nat.
Context (secret : list Z).
Hypothesis Hsec : fits secret.

Lemma pad_value iv : fits iv -> snd (md5_vector md5_stack [secret; iv]) = MD5.md5 (secret ++ iv).
Proof. intros Hi. rewrite (md5_value md5_stack Hstack) by (done || by repeat constructor). cbn [concat]. by rewrite app_nil_r. Qed.
Lemma pad_value3 req salt : fits req -> fits salt ->
  snd (md5_vector md5_stack [secret; req; salt]) = MD5.md5 (secret ++ req ++ salt).
Proof. intros Hr Hs. rewrite (md5_value md5_stack Hstack) by (done || by repeat constructor). cbn [concat]. by rewrite app_nil_r. Qed.
(** Encryption in place, behind a block [iv]. *)
Lemma encrypt_loop_spec n p iv x r salt req : length iv = 16%nat -> length x = (16 * n)%nat ->
  encrypt_loop md5_stack n (p ++ iv ++ x ++ r) salt req secret false (zlen (p ++ iv)) =
  Ok (p ++ iv ++ hide secret iv n x ++ r).
Proof.
  revert p iv x. induction n as [|n IH]; intros p iv x Hi Hx; cbn [encrypt_loop hide].
  { destruct x; [done|cbn in Hx; lia]. }
  destruct (split_16 x n Hx) as (y & x' & -> & Hy & Hx' & -> & ->). unfold MD5_MAC_LEN.
  assert (zlen iv = 16) as Ei by (unfold zlen; lia). assert (zlen y = 16) as Ey by (unfold zlen; lia).
  assert (rd_n (p ++ iv ++ (y ++ x') ++ r) (zlen (p ++ iv) - 16) 16 = Ok iv) as ->.
  { rewrite zlen_app, Ei. replace (zlen p + 16 - 16) with (zlen p) by lia. rewrite <-Ei. apply rd_n_app_mid. }
  cbn [mbind res_bind mret res_ret]. rewrite pad_value by by apply fits_16.
  assert (rd_n (p ++ iv ++ (y ++ x') ++ r) (zlen (p ++ iv)) 16 = Ok y) as ->.
  { rewrite <-Ey at 1. rewrite app_assoc, <-(app_assoc y). apply rd_n_app_mid. }
  cbn [mbind res_bind]. set (c := zip_with _ _ _). assert (length c = 16%nat) as Hc by by apply length_pad.
  rewrite app_assoc, <-(app_assoc y), wr_n_app by lia. cbn [mbind res_bind].
  replace (zlen (p ++ iv) + 16) with (zlen ((p ++ iv) ++ c)) by (rewrite (zlen_app (p ++ iv)); unfold zlen at 2; lia).
  rewrite (IH (p ++ iv) c x' Hc Hx'). by rewrite <-!app_assoc.
Qed.
Lemma encrypt_loop_first n p x r salt req : length req = 16%nat -> length salt = 2%nat -> length x = (16 * S n)%nat ->
  encrypt_loop md5_stack (S n) (p ++ x ++ r) salt req secret true (zlen p) =
  Ok (p ++ hide secret (req ++ salt) (S n) x ++ r).
Proof.
  intros Hr Hs Hx. cbn [encrypt_loop hide]. destruct (split_16 x n Hx) as (y & x' & -> & Hy & Hx' & -> & ->).
  unfold MD5_MAC_LEN. assert (zlen y = 16) as Ey by (unfold zlen; lia).
  cbn [mbind res_bind mret res_ret]. rewrite pad_value3 by first [by apply fits_16|by apply fits_2].
  assert (rd_n (p ++ (y ++ x') ++ r) (zlen p) 16 = Ok y) as ->.
  { rewrite <-Ey at 1. rewrite <-(app_assoc y). apply rd_n_app_mid. }
  cbn [mbind res_bind]. set (c := zip_with _ _ _). assert (length c = 16%nat) as Hc by by apply length_pad.
  rewrite <-(app_assoc y), wr_n_app by lia. cbn [mbind res_bind].
  replace (zlen p + 16) with (zlen (p ++ c)) by (rewrite zlen_app; unfold zlen at 2; lia).
  rewrite (encrypt_loop_spec n p c x' r salt req Hc Hx'). by rewrite <-!app_assoc.
Qed.

(** Decryption of a key attribute: a salt, then blocks. *)
Lemma decrypt_loop_spec n p iv c req plain : length iv = 16%nat -> length c = (16 * n)%nat ->
  decrypt_loop md5_stack n (p ++ iv ++ c) req secret false (zlen (p ++ iv)) plain = Ok (plain ++ reveal secret iv n c).
Proof.
  revert p iv c plain. induction n as [|n IH]; intros p iv c plain Hi Hc; cbn [decrypt_loop reveal].
  { by rewrite app_nil_r. }
  destruct (split_16 c n Hc) as (y & c' & -> & Hy & Hc' & -> & ->). unfold MD5_MAC_LEN.
  assert (zlen iv = 16) as Ei by (unfold zlen; lia). assert (zlen y = 16) as Ey by (unfold zlen; lia).
  assert (rd_n (p ++ iv ++ y ++ c') (zlen (p ++ iv) - 16) 16 = Ok iv) as ->.
  { rewrite zlen_app, Ei. replace (zlen p + 16 - 16) with (zlen p) by lia. rewrite <-Ei. apply rd_n_app_mid. }
  cbn [mbind res_bind mret res_ret]. rewrite pad_value by by apply fits_16.
  assert (rd_n (p ++ iv ++ y ++ c') (zlen (p ++ iv)) 16 = Ok y) as ->.
  { rewrite <-Ey at 1. rewrite app_assoc. apply rd_n_app_mid. }
  cbn [mbind res_bind]. rewrite app_assoc.
  replace (zlen (p ++ iv) + 16) with (zlen ((p ++ iv) ++ y)) by (rewrite (zlen_app (p ++ iv)); lia).
  rewrite (IH (p ++ iv) y c' _ Hy Hc'). by rewrite <-!app_assoc.
Qed.
Lemma decrypt_loop_first n salt c req : length salt = 2%nat -> length req = 16%nat -> length c = (16 * S n)%nat ->
  decrypt_loop md5_stack (S n) (salt ++ c) req secret true 2 [] = Ok (reveal secret (req ++ salt) (S n) c).
Proof.
  intros Hs Hr Hc. cbn [decrypt_loop reveal]. destruct (split_16 c n Hc) as (y & c' & -> & Hy & Hc' & -> & ->).
  unfold MD5_MAC_LEN. assert (zlen y = 16) as Ey by (unfold zlen; lia). assert (zlen salt = 2) as Es by (unfold zlen; lia).
  assert (rd_n (salt ++ y ++ c') 0 2 = Ok salt) as -> by (rewrite <-Es; apply (rd_n_app_mid [] salt)).
  cbn [mbind res_bind mret res_ret]. rewrite pad_value3 by first [by apply fits_16|by apply fits_2].
  assert (rd_n (salt ++ y ++ c') 2 16 = Ok y) as -> by (rewrite <-Ey, <-Es at 1; apply rd_n_app_mid).
  cbn [mbind res_bind app].
  replace (2 + 16) with (zlen (salt ++ y)) by (rewrite zlen_app; lia). apply (decrypt_loop_spec n salt y c' req _ Hy Hc').
Qed.

(** ** MS-MPPE keys *)

Lemma encrypt_ms_key_spec key salt req p room r : zlen key < 255 -> bytes key -> length req = 16%nat ->
  length room = (16 * key_blocks key)%nat ->
  encrypt_ms_key md5_stack key salt req secret (p ++ room ++ r) (zlen p) =
  Ok (p ++ hide secret (req ++ WPA_PUT_BE16 salt) (key_blocks key) (pad_key key) ++ r, 16 * Z.of_nat (key_blocks key)).
Proof.
  intros Hk Hb Hr Hroom. pose proof (zlen_nonneg key) as H0. unfold encrypt_ms_key.
  assert (to_int (1 + zlen key) = 1 + zlen key) as -> by (unfold to_int; rewrite Z.mod_small; lia).
  rewrite round_up by lia.
  assert (16 * ((1 + zlen key + 15) / 16) = 16 * Z.of_nat (key_blocks key)) as ->.
  { unfold key_blocks. rewrite Z2Nat.id; [done|]. apply Z.div_pos; lia. }
  pose proof (key_blocks_pos key) as Hpos. pose proof (length_pad_key key) as Hpad.
  assert (Z.of_nat (key_blocks key) <= 16) as Hle by (unfold key_blocks; rewrite Z2Nat.id by (apply Z.div_pos; lia); Z.to_euclidean_division_equations; lia).
  set (n := key_blocks key) in *.
  rewrite (wr_n_app p room r) by (rewrite length_replicate; lia). cbn [mbind res_bind].
  assert (replicate (Z.to_nat (16 * Z.of_nat n)) 0 = [0] ++ replicate (length key) 0 ++ replicate (16 * n - 1 - length key) 0) as ->.
  { unfold pad_key in Hpad. cbn [length] in Hpad. rewrite length_app, length_replicate in Hpad. fold n in Hpad.
    rewrite <-replicate_add. change ([0] ++ replicate ?k 0) with (replicate (S k) 0). f_equal. lia. }
  rewrite <-!app_assoc, (wr_n_app p [0] _ [u8 (zlen key)]) by done. cbn [mbind res_bind].
  replace (zlen p + 1) with (zlen (p ++ [u8 (zlen key)])) by (rewrite zlen_app; done).
  rewrite (app_assoc p), wr_n_app by by rewrite length_replicate.
  cbn [mbind res_bind]. rewrite u8_id by (unfold is_byte; lia).
  replace ((p ++ [zlen key]) ++ key ++ replicate (16 * n - 1 - length key) 0 ++ r) with (p ++ pad_key key ++ r)
    by (unfold pad_key; fold n; rewrite <-!app_assoc; cbn [app]; by rewrite <-!app_assoc).
  pose proof (rd_n_all req) as Er. assert (zlen req = 16) as E16 by (unfold zlen; lia). rewrite E16 in Er.
  unfold MD5_MAC_LEN. rewrite Er. cbn [mbind res_bind].
  rewrite (Z.mul_comm 16), Z.div_mul, Nat2Z.id by lia. destruct n as [|n']; [lia|].
  rewrite (encrypt_loop_first n' p (pad_key key) r (WPA_PUT_BE16 salt) req Hr eq_refl Hpad).
  cbn [mbind res_bind mret res_ret]. rewrite size_t_id by lia. do 2 f_equal.
Qed.

Lemma decrypt_ms_key_spec key salt req : 0 < zlen key < 255 -> length req = 16%nat ->
  runs (decrypt_ms_key malloc_ok md5_stack (WPA_PUT_BE16 salt ++ hide secret (req ++ WPA_PUT_BE16 salt) (key_blocks key) (pad_key key)) req secret)
    (fun r => r = Some key \/ r = None /\ ~ enough_memory malloc_ok).
Proof.
  intros Hk Hr. pose proof (key_blocks_pos key) as Hpos. pose proof (length_pad_key key) as Hpad. set (n := key_blocks key) in *.
  set (c := hide _ _ _ _). assert (length c = (16 * n)%nat) as Hc by by apply length_hide.
  unfold decrypt_ms_key, MD5_MAC_LEN.
  assert (zlen (WPA_PUT_BE16 salt ++ c) = 2 + 16 * Z.of_nat n) as -> by (rewrite zlen_app; unfold zlen at 2; rewrite Hc; cbn [zlen]; rewrite zlen_BE16; lia).
  rewrite (proj2 (Z.ltb_ge _ _)) by lia. replace (2 + 16 * Z.of_nat n - 2) with (Z.of_nat n * 16) by lia.
  rewrite Z.mod_mul, Z.div_mul, Nat2Z.id by lia. cbn [Z.eqb negb].
  destruct (malloc_ok (Z.of_nat n * 16)) eqn:Em; cbn [negb].
  2: { apply runs_ret. right. split; [done|]. intros M. by rewrite M in Em. }
  pose proof (rd_n_all req) as Er. assert (zlen req = 16) as E16 by (unfold zlen; lia). rewrite E16 in Er. rewrite Er. cbn [mbind res_bind].
  destruct n as [|n']; [lia|].
  rewrite (decrypt_loop_first n' (WPA_PUT_BE16 salt) c req eq_refl Hr Hc). cbn [mbind res_bind].
  unfold c. rewrite reveal_hide by done.
  set (zeros := replicate (16 * key_blocks key - 1 - length key) 0).
  assert (pad_key key = [zlen key] ++ key ++ zeros) as Ep by done. rewrite Ep in Hpad |- *.
  assert (zlen key <= Z.of_nat (S n') * 16 - 1) as Hfit by (rewrite !length_app in Hpad; unfold zlen; cbn [length] in Hpad; lia).
  change (rd ([zlen key] ++ key ++ zeros) 0) with (Ok (A := Z) (zlen key)). cbn [mbind res_bind].
  destruct (Z.eqb_spec (zlen key) 0); [lia|]. rewrite (proj2 (Z.ltb_ge _ _)) by lia. cbn [orb].
  destruct (malloc_ok (zlen key)) eqn:Ek; cbn [negb].
  2: { apply runs_ret. right. split; [done|]. intros M. by rewrite M in Ek. }
  rewrite (rd_n_app_mid [zlen key] key zeros : rd_n ([zlen key] ++ key ++ zeros) 1 (zlen key) = Ok key).
  apply runs_ret. by left.
Qed.

Lemma add_mppe_key_spec msg h attrs vt salt req key blen : holds msg h attrs -> is_byte vt -> zlen key <= 239 -> bytes key ->
  length req = 16%nat -> 16 * Z.of_nat (key_blocks key) <= blen + 16 -> blen < 2 ^ 31 -> short attrs ->
  runs (add_mppe_key malloc_ok uninit md5_stack msg vt salt req secret key blen) (fun '(r, m) =>
    r = 1 /\ holds m h (attrs ++ [(RADIUS_ATTR_VENDOR_SPECIFIC, mppe_value secret vt salt req key)]) \/ r = 0 /\ ~ enough_memory malloc_ok).
Proof.
  intros Hm Hv Hk Hb Hr Hfit Hbl Hs. pose proof (zlen_nonneg key). pose proof (key_blocks_bound key Hk) as H15.
  unfold add_mppe_key, mppe_hlen, sizeof_attr_hdr. rewrite size_t_id by lia.
  destruct (malloc_ok (4 + 2 + 2 + blen + 16)) eqn:Em; cbn [negb].
  2: { apply runs_ret. right. split; [done|]. intros M. by rewrite M in Em. }
  set (n := key_blocks key) in *.
  destruct (split_buffer n (fresh uninit (4 + 2 + 2 + blen + 16))) as (a0 & t0 & l0 & s0 & room & r & -> & Ha & Hs0 & Hroom).
  { pose proof (zlen_fresh uninit (4 + 2 + 2 + blen + 16) ltac:(lia)) as E. unfold zlen in E. lia. }
  set (id := WPA_PUT_BE32 RADIUS_VENDOR_ID_MICROSOFT). set (s := WPA_PUT_BE16 salt).
  assert (forall k, wr_n (a0 ++ k) 0 id = Ok (id ++ k)) as E1 by (intros k; by apply (wr_n_app [] a0 k id)).
  assert (forall k, wr (id ++ t0 :: k) 4 vt = Ok (id ++ vt :: k)) as E2 by (intros k; apply (wr_app id)).
  assert (forall k, wr_n (id ++ vt :: l0 :: s0 ++ k) 6 s = Ok (id ++ vt :: l0 :: s ++ k)) as E3
    by (intros k; by apply (wr_n_app (id ++ [vt; l0]) s0 k s)).
  set (c := hide secret (req ++ s) n (pad_key key)).
  assert (encrypt_ms_key md5_stack key salt req secret (id ++ vt :: l0 :: s ++ room ++ r) 8 =
    Ok ((id ++ vt :: l0 :: s) ++ c ++ r, 16 * Z.of_nat n)) as E4
    by exact (encrypt_ms_key_spec key salt req (id ++ vt :: l0 :: s) room r ltac:(lia) Hb Hr Hroom).
  rewrite E1. cbn [mbind res_bind]. rewrite E2. cbn [mbind res_bind]. rewrite E3. cbn [mbind res_bind]. rewrite E4.
  cbn [mbind res_bind].
  assert (forall k, wr ((id ++ vt :: l0 :: s) ++ k) 5 (u8 (4 + 2 + 2 + 16 * Z.of_nat n - 4)) =
    Ok (id ++ vt :: 4 + 16 * Z.of_nat n :: s ++ k)) as E5.
  { intros k. rewrite u8_id by (unfold is_byte; lia). replace (4 + 2 + 2 + 16 * Z.of_nat n - 4) with (4 + 16 * Z.of_nat n) by lia.
    apply (wr_app (id ++ [vt])). }
  rewrite E5. cbn [mbind res_bind].
  change (id ++ vt :: 4 + 16 * Z.of_nat n :: s ++ c ++ r) with (id ++ [vt; 4 + 16 * Z.of_nat n] ++ s ++ c ++ r).
  assert (id ++ [vt; 4 + 16 * Z.of_nat n] ++ s ++ c ++ r = mppe_value secret vt salt req key ++ r) as ->
    by (unfold mppe_value; by rewrite <-!app_assoc).
  replace (4 + 2 + 2 + 16 * Z.of_nat n) with (zlen (mppe_value secret vt salt req key)) by (rewrite zlen_mppe_value; fold n; lia).
  rstep ltac:(eapply (add_attr_spec malloc_ok uninit msg h attrs RADIUS_ATTR_VENDOR_SPECIFIC _ r Hm);
    [split; [done|]; split; [by apply mppe_value_bytes|cbn [snd]; rewrite zlen_mppe_value; fold n;
       unfold RADIUS_MAX_ATTR_LEN, sizeof_attr_hdr; lia]|done]) as [a m] Ha'.
  apply runs_ret. destruct Ha' as [[-> Hm']|[-> Hno]]; [by left|by right].
Qed.

(** ** Both keys *)

Lemma get_ms_key_spec msg h attrs vt key salt req : holds msg h attrs -> length req = 16%nat -> 0 < zlen key < 255 ->
  head (omap (vendor_of RADIUS_VENDOR_ID_MICROSOFT vt) attrs) =
    Some (WPA_PUT_BE16 salt ++ hide secret (req ++ WPA_PUT_BE16 salt) (key_blocks key) (pad_key key)) ->
  runs (get_ms_key malloc_ok md5_stack msg vt req secret) (fun r => r = Some key \/ r = None /\ ~ enough_memory malloc_ok).
Proof.
  intros Hm Hr Hk Ho. unfold get_ms_key. rstep ltac:(by eapply get_vendor_attr_spec) as r Hv. rewrite Ho in Hv.
  destruct Hv as [->|[-> Hno]]; [by apply decrypt_ms_key_spec|]. apply runs_ret. by right.
Qed.

(** Both keys, from the first attributes of their types. *)
Lemma get_ms_keys_spec msg h attrs s1 s2 k1 k2 sent ci len req attrs' : holds msg h attrs -> holds sent (header ci len req) attrs' ->
  header_ok ci len req -> 0 < zlen k1 < 255 -> 0 < zlen k2 < 255 ->
  (forall vt, omap (vendor_of RADIUS_VENDOR_ID_MICROSOFT vt) attrs =
    omap (fun x => x) [if 16 =? vt then Some (WPA_PUT_BE16 s1 ++ hide secret (req ++ WPA_PUT_BE16 s1) (key_blocks k1) (pad_key k1)) else None;
      if 17 =? vt then Some (WPA_PUT_BE16 s2 ++ hide secret (req ++ WPA_PUT_BE16 s2) (key_blocks k2) (pad_key k2)) else None]) ->
  runs (radius_msg_get_ms_keys malloc_ok md5_stack (Some msg) (Some sent) secret) (fun r =>
    r = Some {| send := Some k1; recv := Some k2 |} \/ ~ enough_memory malloc_ok).
Proof.
  intros Hm Hsent Hok H1 H2 Ho. assert (length req = 16%nat) as Hreq by (destruct Hok as (_ & _ & H); unfold zlen in H; lia).
  unfold radius_msg_get_ms_keys. destruct (malloc_ok sizeof_ms_mppe_keys) eqn:Em; cbn [negb].
  2: { apply runs_ret. right. intros M. by rewrite M in Em. }
  rewrite (get_auth _ _ _ _ _ Hsent Hok). cbn [mbind res_bind].
  rstep ltac:(by apply (get_ms_key_spec msg h attrs RADIUS_VENDOR_ATTR_MS_MPPE_SEND_KEY k1 s1 req Hm Hreq H1); rewrite Ho) as r1 Hr1.
  rstep ltac:(by apply (get_ms_key_spec msg h attrs RADIUS_VENDOR_ATTR_MS_MPPE_RECV_KEY k2 s2 req Hm Hreq H2); rewrite Ho) as r2 Hr2.
  apply runs_ret. destruct Hr1 as [->|[_ ?]]; [|by right]. destruct Hr2 as [->|[_ ?]]; [by left|by right].
Qed.

(** ** User-Password *)

Lemma password_loop_spec fuel n p iv x r : length iv = 16%nat -> length x = (16 * n)%nat -> (n <= fuel)%nat ->
  password_loop md5_stack fuel secret (p ++ iv ++ x ++ r) (zlen (p ++ iv)) (zlen (p ++ iv) + 16 * Z.of_nat n) =
  Ok (p ++ iv ++ hide secret iv n x ++ r).
Proof.
  revert fuel p iv x. induction n as [|n IH]; intros fuel p iv x Hi Hx Hf.
  { destruct x; [|cbn in Hx; lia]. replace (zlen (p ++ iv) + 16 * Z.of_nat 0) with (zlen (p ++ iv)) by lia.
    by destruct fuel; cbn [password_loop]; rewrite Z.ltb_irrefl. }
  destruct fuel as [|fuel]; [lia|]. cbn [password_loop hide]. rewrite (proj2 (Z.ltb_lt _ _)) by lia.
  destruct (split_16 x n Hx) as (y & x' & -> & Hy & Hx' & -> & ->).
  assert (zlen iv = 16) as Ei by (unfold zlen; lia). assert (zlen y = 16) as Ey by (unfold zlen; lia).
  assert (rd_n (p ++ iv ++ (y ++ x') ++ r) (zlen (p ++ iv) - 16) 16 = Ok iv) as ->.
  { rewrite zlen_app, Ei. replace (zlen p + 16 - 16) with (zlen p) by lia. rewrite <-Ei. apply rd_n_app_mid. }
  cbn [mbind res_bind mret res_ret]. rewrite pad_value by by apply fits_16.
  assert (rd_n (p ++ iv ++ (y ++ x') ++ r) (zlen (p ++ iv)) 16 = Ok y) as ->.
  { rewrite <-Ey at 1. rewrite app_assoc, <-(app_assoc y). apply rd_n_app_mid. }
  cbn [mbind res_bind]. set (c := zip_with _ _ _). assert (length c = 16%nat) as Hc by by apply length_pad.
  rewrite app_assoc, <-(app_assoc y), wr_n_app by lia. cbn [mbind res_bind].
  assert (zlen ((p ++ iv) ++ c) = zlen (p ++ iv) + 16) as Ec by (rewrite (zlen_app (p ++ iv)); unfold zlen at 2; lia).
  rewrite <-Ec. replace (zlen (p ++ iv) + 16 * Z.of_nat (S n)) with (zlen ((p ++ iv) ++ c) + 16 * Z.of_nat n) by lia.
  rewrite (IH fuel (p ++ iv) c x' Hc Hx') by lia. by rewrite <-!app_assoc.
Qed.

(** The padded password in the local buffer. *)
Lemma password_pad_in_place data k : zlen data <= 128 -> length k = (128 - length data)%nat ->
  exists k', (if negb (zlen data mod 16 =? 0) then
      b ← wr_n (data ++ k) (zlen data) (replicate (Z.to_nat (16 - zlen data mod 16)) 0);
      mret (b, zlen data + (16 - zlen data mod 16))
    else mret (data ++ k, zlen data)) = Ok (pad_password data ++ k', 16 * Z.of_nat (password_blocks data)).
Proof.
  intros Hl Hk. pose proof (zlen_nonneg data) as H0. unfold pad_password, password_blocks.
  rewrite Z2Nat.id by (apply Z.div_pos; lia). set (m := zlen data mod 16).
  assert (0 <= m < 16) as Hm by by apply Z.mod_pos_bound.
  pose proof (Z.div_mod (zlen data) 16 ltac:(lia)) as Ed. fold m in Ed.
  destruct (Z.eqb_spec m 0) as [E|E]; cbn [negb].
  - exists k. assert (16 * ((zlen data + 15) / 16) = zlen data) as Eq by (Z.to_euclidean_division_equations; lia).
    rewrite Eq. assert (16 * Z.to_nat ((zlen data + 15) / 16) - length data = 0)%nat as -> by (unfold zlen in *; lia).
    cbn [replicate]. by rewrite app_nil_r.
  - assert (16 * ((zlen data + 15) / 16) = zlen data + (16 - m)) as Eq by (Z.to_euclidean_division_equations; lia).
    assert (Z.to_nat (16 - m) <= length k)%nat by (unfold zlen in *; Z.to_euclidean_division_equations; lia).
    rewrite <-(take_drop (Z.to_nat (16 - m)) k).
    rewrite wr_n_app by (rewrite length_take, length_replicate; lia). cbn [mbind res_bind mret res_ret].
    exists (drop (Z.to_nat (16 - m)) k). rewrite Eq, <-app_assoc. do 3 f_equal. f_equal. f_equal.
    unfold zlen in *. lia.
Qed.

Lemma user_password_spec msg ci len auth attrs data : holds msg (header ci len auth) attrs -> header_ok ci len auth ->
  short attrs -> bytes data -> 0 < zlen data <= 128 ->
  runs (radius_msg_add_attr_user_password malloc_ok uninit md5_stack msg data secret) (fun '(r, m) =>
    r = Some (at_ attrs) /\ holds m (header ci len auth)
      (attrs ++ [(RADIUS_ATTR_USER_PASSWORD, hide secret auth (password_blocks data) (pad_password data))])
    \/ r = None /\ ~ enough_memory malloc_ok).
Proof.
  intros Hm Hok Hs Hb Hl. pose proof Hok as (_ & _ & Ha). unfold radius_msg_add_attr_user_password.
  rewrite (proj2 (Z.ltb_ge _ _)) by lia.
  destruct (split_n (length data) (fresh uninit 128)) as (d0 & k & Ef & Hd0).
  { pose proof (zlen_fresh uninit 128 ltac:(lia)). unfold zlen in *. lia. }
  assert (length k = (128 - length data)%nat) as Hk.
  { apply (f_equal length) in Ef. unfold fresh in Ef. rewrite length_map, length_seq, length_app in Ef. lia. }
  rewrite Ef, (wr_n_app [] d0 k data Hd0 : wr_n (d0 ++ k) 0 data = Ok (data ++ k)). cbn [mbind res_bind].
  destruct (password_pad_in_place data k) as (k' & ->); [lia|done|]. cbn [mbind res_bind].
  rewrite (get_auth _ _ _ _ _ Hm Hok). cbn [mbind res_bind].
  assert (length auth = 16%nat) as Ha16 by (unfold zlen in Ha; lia). rewrite pad_value by by apply fits_16.
  pose proof (length_pad_password data) as Hp. set (pad := pad_password data) in *. set (n := password_blocks data) in *.
  assert (bytes pad) as Hbp by (apply Forall_app; split; [done|by apply Forall_replicate]).
  assert (1 <= n <= 8)%nat as Hn.
  { unfold n, password_blocks. zify. Z.to_euclidean_division_equations. lia. }
  pose proof (length_hide secret auth n pad Hp) as Hh. pose proof (hide_bytes secret auth n pad Hbp) as Hhb.
  destruct n as [|n']; [lia|]. cbn [hide] in Hh, Hhb |- *.
  destruct (split_16 pad n' Hp) as (y & x & -> & Hy & Hx & Ey & Ex). rewrite Ey, Ex in *.
  assert (zlen y = 16) as E16 by (unfold zlen; lia).
  assert (rd_n ((y ++ x) ++ k') 0 16 = Ok y) as -> by (rewrite <-E16, <-app_assoc; apply (rd_n_app_mid [] y)).
  cbn [mbind res_bind]. set (c := zip_with _ _ _) in *. assert (length c = 16%nat) as Hc by by apply length_pad.
  rewrite <-app_assoc, (wr_n_app [] y (x ++ k') c ltac:(lia) : wr_n (y ++ x ++ k') 0 c = Ok (c ++ x ++ k')). cbn [mbind res_bind].
  pose proof (password_loop_spec (Z.to_nat (16 * Z.of_nat (S n'))) n' [] c x k' Hc Hx ltac:(lia)) as El. cbn [app] in El.
  assert (zlen c = 16) as Ec by (unfold zlen; lia). rewrite Ec in El.
  replace (16 + 16 * Z.of_nat n') with (16 * Z.of_nat (S n')) in El by lia. rewrite El. cbn [mbind res_bind].
  rewrite app_assoc. set (v := c ++ hide secret c n' x) in *.
  replace (16 * Z.of_nat (S n')) with (zlen v) by (unfold zlen; rewrite Hh; lia).
  apply (add_attr_spec malloc_ok uninit msg _ attrs RADIUS_ATTR_USER_PASSWORD v k' Hm); [|done].
  split; [done|]. split; [done|]. cbn [snd]. unfold zlen, RADIUS_MAX_ATTR_LEN, sizeof_attr_hdr. rewrite Hh. lia.
Qed.
End keys.
