(* ===== verification/RadiusSpec.v ===== *)
(** * RADIUS messages: what the functions of radius.c promise

    The parser accepts the format and nothing else, the verification the messages
    with the authenticators of the standards and no others; what a server puts into a
    response arrives; and two ways in which the code writes outside of its memory. *)

From S2P Require Import Prelude WpaBuf Hash HashProps Hmac HmacProps Radius RadiusRep RadiusProps RadiusAuth RadiusKeys.
From S2P Require Md5.

(** C27 ([radius_msg_parse]): whatever octets arrive, the parser returns without
    reading outside of them; a message it returns is one of RFC 2865, with exactly the
    header and the attributes of the octets; and, unless memory runs out, it refuses
    only what is no such message. *)
Theorem radius_parse_exact malloc_ok uninit data : bytes data -> zlen data < 2 ^ 32 ->
  runs (radius_msg_parse malloc_ok uninit (Some data) (zlen data)) (fun r =>
    (forall msg, r = Some msg -> exists h attrs, is_message data h attrs /\ holds msg h attrs) /\
    (r = None -> enough_memory malloc_ok -> forall h attrs, ~ is_message data h attrs)).
Proof.
  intros Hd Hl. eapply runs_weaken; [by apply parse_spec|]. intros r [Hsome Hnone]. split; [|done].
  intros msg ->. destruct (Hsome msg eq_refl) as (h & attrs & ? & ? & _). by exists h, attrs.
Qed.

(** C26 ([radius_msg_verify]): for every message and every request sent, verification
    returns 0 or 1 and leaves the message as it was; it returns 0 exactly when the
    Response Authenticator is that of RFC 2865 for the authenticator of the request
    and, if asked for, there is exactly one Message-Authenticator and it is that of
    RFC 3579.  The proviso is that the Message-Authenticators have 16 octets. *)
Theorem radius_verify_exact uninit md5_stack msg ci len auth attrs sent ci' len' req attrs' secret check :
  length (Md5.in_ md5_stack) = 64%nat -> holds msg (header ci len auth) attrs -> header_ok ci len auth ->
  holds sent (header ci' len' req) attrs' -> header_ok ci' len' req -> short attrs -> fits secret ->
  (check = true -> Forall (fun v => length v = 16%nat) (values RADIUS_ATTR_MESSAGE_AUTHENTICATOR attrs)) ->
  runs (radius_msg_verify uninit md5_stack msg secret (Some sent) check) (fun '(r, m) =>
    holds m (header ci len auth) attrs /\ (r = 0 \/ r = 1) /\
    (r = 0 <-> auth = response_authenticator secret (ci ++ len) req attrs /\
      (check = true -> exists pre v post, only_msg_auth attrs pre v post /\
        v = message_authenticator secret (ci ++ len) req pre post))).
Proof. intros. by eapply verify_spec. Qed.

(** C25 ([radius_msg_add_eap], [radius_msg_finish_srv], [radius_msg_parse],
    [radius_msg_verify], [radius_msg_get_eap]): an EAP packet of any length that fits
    is cut into attributes, the response is finished with the authenticator of the
    request, and at the other end the octets are parsed, pass the verification
    against the request and give the EAP packet back. *)
Theorem radius_eap_delivered malloc_ok uninit md5_stack msg ci len auth attrs sent ci' len' req attrs' secret eap :
  length (Md5.in_ md5_stack) = 64%nat -> enough_memory malloc_ok ->
  holds msg (header ci len auth) attrs -> header_ok ci len auth ->
  values RADIUS_ATTR_EAP_MESSAGE attrs = [] -> values RADIUS_ATTR_MESSAGE_AUTHENTICATOR attrs = [] ->
  holds sent (header ci' len' req) attrs' -> header_ok ci' len' req -> fits secret -> bytes eap -> eap <> [] ->
  20 + zlen (enc_attrs attrs) + 3 * zlen eap + 18 <= 0xffff ->
  runs ('(r, m) ← radius_msg_add_eap malloc_ok uninit msg eap (zlen eap);
        '(r', m) ← radius_msg_finish_srv malloc_ok uninit md5_stack m secret req;
        d ← whole m;
        p ← radius_msg_parse malloc_ok uninit (Some d) (zlen d);
        match p with
        | None => mret None
        | Some p =>
            '(v, p) ← radius_msg_verify uninit md5_stack p secret (Some sent) true;
            e ← radius_msg_get_eap malloc_ok uninit (Some p);
            mret (Some (r, r', v, e))
        end)
    (fun x => x = Some (1, 0, 0, Some eap)).
Proof.
  intros Hst Hmem Hm Hok Heap Hma Hsent Hok' Hsec Hb Hne Hlen. pose proof Hok as (Hc & _).
  assert (zlen req = 16 /\ bytes req) as [Hreq Hbr].
  { split; [apply Hok'|]. destruct Hsent as (_ & Hbs & _). apply brepr_bytes in Hbs. unfold header in Hbs.
    rewrite !Forall_app in Hbs. tauto. }
  pose proof (zlen_nonneg (enc_attrs attrs)) as H0. pose proof (zlen_nonneg eap) as H1.
  rstep ltac:(apply (add_eap_full malloc_ok uninit msg _ attrs eap Hm Hb); lia) as [r m1] Hr.
  destruct Hr as [(-> & l & Hm1 & Ht & Hl & Hbl)|[_ Hno]]; [|done].
  rstep ltac:(apply (finish_srv_spec malloc_ok uninit md5_stack Hst m1 _ _ _ _ secret req Hm1 Hok);
    [rewrite enc_attrs_app, zlen_app; lia|done..]) as [r m2] Hr.
  destruct Hr as [[-> Hm2]|[_ Hno]]; [|done]. rewrite enc_attrs_app, zlen_app in Hm2 |- *.
  set (n := 20 + (zlen (enc_attrs attrs) + zlen (enc_attrs l)) + 18) in *.
  pose proof (zlen_nonneg (enc_attrs l)) as H2.
  assert (n <= 0xffff) as Hn by (unfold n; lia). rewrite (proj2 (Z.ltb_ge _ _) Hn).
  set (len2 := WPA_PUT_BE16 n) in *. set (mac := message_authenticator _ _ _ _ _) in *.
  set (attrs2 := (attrs ++ l) ++ [(RADIUS_ATTR_MESSAGE_AUTHENTICATOR, mac)]) in *.
  set (ra := response_authenticator _ _ _ _) in *.
  assert (length mac = 16%nat) as Hmac by apply message_authenticator_ok.
  assert (zlen (enc_attrs attrs2) = n - 20) as En.
  { unfold attrs2. rewrite enc_attrs_value by done. rewrite enc_attrs_app, zlen_app. unfold n. lia. }
  assert (header_ok ci len2 ra) as Hok2.
  { split_and!; [done..|]. unfold zlen, ra, response_authenticator. by rewrite MD5.length_md5. }
  assert (zlen (header ci len2 ra ++ enc_attrs attrs2) = n) as Ez.
  { pose proof Hm2 as (Hh2 & _). rewrite zlen_app, Hh2, En. unfold sizeof_radius_hdr. lia. }
  rewrite (whole_holds _ _ _ Hm2). cbn [mbind res_bind]. rstep ltac:(apply (parse_whole malloc_ok uninit m2 _ _ Hm2);
    [by rewrite Ez|rewrite Ez; apply header_length; [done|lia]|done]) as p Hp.
  destruct Hp as (p' & -> & Hp). cbn [mbind res_bind].
  assert (only_msg_auth attrs2 (attrs ++ l) mac []) as Honly.
  { split; [done|]. split; [|done]. rewrite values_app, Hma. cbn [app].
    apply values_none. eapply Forall_impl; [exact Ht|]. by intros a ->. }
  rstep ltac:(eapply (verify_spec uninit md5_stack Hst p' _ _ _ _ sent _ _ _ _ secret true Hp Hok2 Hsent Hok');
    [unfold short; lia|done|intros _; rewrite (only_msg_auth_values _ _ _ _ Honly); by constructor]) as [v p3] Hv.
  destruct Hv as (Hp3 & _ & Hv). rewrite (proj2 Hv).
  2: { split; [done|]. intros _. by exists (attrs ++ l), mac, []. }
  rstep ltac:(by eapply get_eap_spec) as e He. apply runs_ret.
  assert (eap_of attrs2 = eap) as Ee.
  { unfold eap_of, attrs2. rewrite !values_app, Heap, (values_all _ _ Ht), (values_ne _ (_, mac)) by done.
    cbn [app]. by rewrite app_nil_r. }
  rewrite Ee in He. destruct He as [->|[_ Hno]]; [|done]. by rewrite decide_False.
Qed.

(** C28 ([radius_msg_add_mppe_keys], [radius_msg_get_ms_keys]): the two keys that a
    server puts into a message without vendor attributes, encrypted with the secret,
    random salts and the authenticator of the request, are the keys that the
    access point gets from it, for keys of up to 239 octets. *)
Theorem radius_keys_delivered malloc_ok uninit md5_stack msg h attrs sent ci len req attrs' secret rnd send_key recv_key :
  length (Md5.in_ md5_stack) = 64%nat -> enough_memory malloc_ok -> holds msg h attrs ->
  values RADIUS_ATTR_VENDOR_SPECIFIC attrs = [] -> zlen (enc_attrs attrs) + 512 <= 2 ^ 24 ->
  holds sent (header ci len req) attrs' -> header_ok ci len req -> fits secret ->
  bytes send_key -> bytes recv_key -> 0 < zlen send_key <= 239 -> 0 < zlen recv_key <= 239 ->
  16 * Z.of_nat (key_blocks recv_key) <= zlen send_key + 16 ->
  runs ('(r, m) ← radius_msg_add_mppe_keys malloc_ok uninit md5_stack msg rnd req secret send_key recv_key;
        k ← radius_msg_get_ms_keys malloc_ok md5_stack (Some m) (Some sent) secret;
        mret (r, k))
    (fun x => x = (1, Some {| send := Some send_key; recv := Some recv_key |})).
Proof.
  intros Hst Hmem Hm Hnone Hs Hsent Hok Hsec Hbs Hbr Hls Hlr Hfit.
  assert (length req = 16%nat) as Hreq by (destruct Hok as (_ & _ & H); unfold zlen in H; lia).
  unfold radius_msg_add_mppe_keys. set (s1 := u16 _).
  assert (16 * Z.of_nat (key_blocks send_key) <= zlen send_key + 16) as Hfs.
  { unfold key_blocks. rewrite Z2Nat.id by (apply Z.div_pos; lia). Z.to_euclidean_division_equations. lia. }
  pose proof (key_blocks_bound send_key ltac:(lia)) as Hkb.
  rstep ltac:(rstep ltac:(apply (add_mppe_key_spec malloc_ok uninit md5_stack Hst secret Hsec msg h attrs 16 s1 req send_key _ Hm);
      [done|lia|done|done|exact Hfs|lia|unfold short; lia]) as [r m1] H1;
    instantiate (1 := fun '(r, m) => r = 1 /\ holds m h ((attrs ++ [(RADIUS_ATTR_VENDOR_SPECIFIC, mppe_value secret 16 s1 req send_key)]) ++
      [(RADIUS_ATTR_VENDOR_SPECIFIC, mppe_value secret 17 (Z.lxor s1 1) req recv_key)]))) as [r m] H2.
  { destruct H1 as [[-> Hm1]|[_ Hno]]; [|done]. cbn [Z.eqb].
    eapply runs_weaken; [apply (add_mppe_key_spec malloc_ok uninit md5_stack Hst secret Hsec m1 h _ 17 (Z.lxor s1 1) req recv_key _ Hm1);
      [done|lia|done|done|exact Hfit|lia|]|].
    - unfold short. rewrite enc_attrs_snoc, zlen_app, zlen_enc_attr. cbn [snd]. rewrite zlen_mppe_value. lia.
    - intros [r m] [H|[_ Hno]]; done. }
  destruct H2 as [-> Hm2].
  rstep ltac:(apply (get_ms_keys_spec malloc_ok md5_stack Hst secret Hsec m h _ s1 (Z.lxor s1 1) send_key recv_key _ _ _ _ _ Hm2 Hsent Hok);
    [lia|lia|]) as k Hk.
  - intros vt. rewrite !omap_app, omap_vendor_none by done.
    assert (forall a, omap (vendor_of RADIUS_VENDOR_ID_MICROSOFT vt) [a] =
      match vendor_of RADIUS_VENDOR_ID_MICROSOFT vt a with Some d => [d] | None => [] end) as E by done.
    rewrite !E, !vendor_of_mppe by (done || lia). by destruct (16 =? vt), (17 =? vt).
  - destruct Hk as [->|Hno]; [by apply runs_ret|done].
Qed.

(** C29 ([radius_msg_verify_msg_auth]): the length of a Message-Authenticator is not
    checked.  When it is the last attribute but for fewer than 16 octets, the parser
    accepts the message, and the verification, before it has authenticated anything,
    reads and clears octets behind the message. *)
Theorem radius_short_msg_auth_overrun malloc_ok uninit md5_stack data h attrs pre v post msg sent ci len req attrs' secret :
  bytes data -> zlen data < 2 ^ 32 -> is_message data h attrs -> only_msg_auth attrs pre v post ->
  zlen v + zlen (enc_attrs post) < 16 ->
  radius_msg_parse malloc_ok uninit (Some data) (zlen data) = Ok (Some msg) ->
  holds sent (header ci len req) attrs' -> header_ok ci len req ->
  radius_msg_verify uninit md5_stack msg secret (Some sent) true = Fault OutOfBounds.
Proof.
  intros Hd Hl Hi Ho Hv Hp Hsent Hok. destruct (parse_spec malloc_ok uninit data Hd Hl) as (r & Er & Hsome & _).
  rewrite Hp in Er. injection Er as <-. destruct (Hsome msg eq_refl) as (h' & attrs2 & Hi' & Hm & Hfull).
  destruct (is_message_inj _ _ _ _ _ Hi Hi') as [<- <-].
  unfold radius_msg_verify. rewrite (get_auth _ _ _ _ _ Hsent Hok). cbn [mbind res_bind].
  unfold radius_msg_verify_msg_auth. destruct (find_msg_auth_spec msg h attrs Hm) as (r & -> & Hr).
  pose proof (only_msg_auth_values _ _ _ _ Ho) as Ev. cbn [mbind res_bind].
  destruct r as [[p|]|[]]; [|congruence|rewrite Ev in Hr; cbn in Hr; lia].
  destruct Hr as (pre' & v' & post' & Ho' & ->). destruct (only_msg_auth_inj _ _ _ _ _ _ _ Ho Ho') as (<- & <- & <-).
  unfold check_msg_auth, MD5_MAC_LEN, rd_n.
  assert (zlen (mem msg) < at_ pre + 2 + 16) as Hshort.
  { rewrite Hfull. destruct Hm as (Hh & _). destruct Ho as (-> & _). rewrite enc_attrs_app, enc_attrs_cons, !zlen_app, zlen_enc_attr, Hh.
    unfold at_. cbn [snd]. lia. }
  rewrite (proj2 (Z.leb_gt (at_ pre + 2 + 16) _) Hshort), andb_false_r. done.
Qed.

(** ([radius_msg_add_mppe_keys]): the buffer for the second key is allocated with
    the length of the first; a longer second key is encrypted past its end. *)
Theorem radius_recv_key_overrun malloc_ok uninit md5_stack msg h attrs secret rnd req send_key recv_key :
  length (Md5.in_ md5_stack) = 64%nat -> enough_memory malloc_ok -> holds msg h attrs -> zlen (enc_attrs attrs) + 512 <= 2 ^ 24 ->
  fits secret -> length req = 16%nat -> bytes send_key -> 0 < zlen send_key <= 239 -> 0 < zlen recv_key <= 239 ->
  zlen send_key + 16 < 16 * Z.of_nat (key_blocks recv_key) ->
  radius_msg_add_mppe_keys malloc_ok uninit md5_stack msg rnd req secret send_key recv_key = Fault OutOfBounds.
Proof.
  intros Hst Hmem Hm Hs Hsec Hreq Hbs Hls Hlr Hover. unfold radius_msg_add_mppe_keys. set (s1 := u16 _).
  assert (16 * Z.of_nat (key_blocks send_key) <= zlen send_key + 16) as Hfs.
  { unfold key_blocks. rewrite Z2Nat.id by (apply Z.div_pos; lia). Z.to_euclidean_division_equations. lia. }
  destruct (add_mppe_key_spec malloc_ok uninit md5_stack Hst secret Hsec msg h attrs 16 s1 req send_key (zlen send_key) Hm)
    as ([r m] & E & Hr); [done|lia|done|done|exact Hfs|lia|unfold short; lia|].
  change RADIUS_VENDOR_ATTR_MS_MPPE_SEND_KEY with 16. rewrite E. destruct Hr as [[-> Hm1]|[_ Hno]]; [|done]. cbn [mbind res_bind Z.eqb].
  unfold add_mppe_key, mppe_hlen, sizeof_attr_hdr. rewrite Hmem, size_t_id by lia. cbn [negb].
  pose proof (zlen_fresh uninit (4 + 2 + 2 + zlen send_key + 16) ltac:(lia)) as Ef.
  destruct (wr_n_runs (fresh uninit (4 + 2 + 2 + zlen send_key + 16)) 0 (WPA_PUT_BE32 RADIUS_VENDOR_ID_MICROSOFT)) as (b1 & -> & E1);
    [lia|change (zlen (WPA_PUT_BE32 _)) with 4; lia|]. cbn [mbind res_bind].
  rewrite wr_ok by lia. cbn [mbind res_bind]. set (b2 := <[_ := _]> b1).
  assert (zlen b2 = zlen b1) as E2 by apply zlen_insert.
  destruct (wr_n_runs b2 6 (WPA_PUT_BE16 (Z.lxor s1 1))) as (b3 & -> & E3); [lia|rewrite zlen_BE16; lia|]. cbn [mbind res_bind].
  unfold encrypt_ms_key. assert (to_int (1 + zlen recv_key) = 1 + zlen recv_key) as -> by (unfold to_int; rewrite Z.mod_small; lia).
  rewrite round_up by lia.
  assert (16 * ((1 + zlen recv_key + 15) / 16) = 16 * Z.of_nat (key_blocks recv_key)) as ->.
  { unfold key_blocks. rewrite Z2Nat.id; [done|]. apply Z.div_pos; lia. }
  assert (wr_n b3 8 (replicate (Z.to_nat (16 * Z.of_nat (key_blocks recv_key))) 0) = Fault OutOfBounds) as ->; [|done].
  unfold wr_n. rewrite zlen_replicate, (proj2 (Z.leb_gt _ (zlen b3))), andb_false_r; [done|lia].
Qed.

(** ** The properties on examples *)

Definition ex_malloc (n : Z) : bool := true.
Definition ex_uninit (n : nat) : Z := 170.
Definition ex_stack : Md5.MD5Context := {| Md5.buf := (1, 2, 3, 4); Md5.bits0 := 5; Md5.bits1 := 6; Md5.in_ := replicate 64 7 |}.
Definition ex_auth : list Z := replicate 16 9.
(** A message without attributes. *)
Definition ex_msg : radius_msg :=
  {| buf := {| size := 20; used := 20; ext_data := None; inline := [2; 7; 0; 20] ++ ex_auth |};
     attr_pos := replicate 16 0; attr_size := 16; attr_used := 0 |}.
(** A response with a State attribute, and two octets behind it. *)
Definition ex_data : list Z := [11; 7; 0; 23] ++ ex_auth ++ [24; 3; 5] ++ [1; 1].
(** A response whose Message-Authenticator has no octets. *)
Definition ex_short : list Z := [11; 7; 0; 22] ++ ex_auth ++ [80; 2].

Lemma octets_ok l : forallb (fun x => (0 <=? x) && (x <? 256)) l = true -> bytes l.
Proof.
  intros H. rewrite forallb_forall in H. apply List.Forall_forall. intros x Hx. apply H in Hx. unfold is_byte.
  rewrite andb_true_iff in Hx. lia.
Qed.
Lemma ex_holds : holds ex_msg (header [2; 7] [0; 20] ex_auth) [].
Proof.
  split; [done|]. split; [|split; [done|]].
  - exists 20. split; [|split; done]. split; [done|]. split; [done|]. split; [done|]. by apply octets_ok.
  - by split_and!.
Qed.
Lemma ex_header : header_ok [2; 7] [0; 20] ex_auth.
Proof. done. Qed.
Lemma ex_memory : enough_memory ex_malloc.
Proof. done. Qed.

Lemma radius_parse_exact_witness :
  runs (radius_msg_parse ex_malloc ex_uninit (Some ex_data) (zlen ex_data)) (fun r =>
    (forall msg, r = Some msg -> exists h attrs, is_message ex_data h attrs /\ holds msg h attrs) /\
    (r = None -> enough_memory ex_malloc -> forall h attrs, ~ is_message ex_data h attrs)).
Proof. apply (radius_parse_exact ex_malloc ex_uninit ex_data); [by apply octets_ok|done]. Defined.

Lemma radius_verify_exact_witness :
  runs (radius_msg_verify ex_uninit ex_stack ex_msg [115] (Some ex_msg) true) (fun '(r, m) =>
    holds m (header [2; 7] [0; 20] ex_auth) [] /\ (r = 0 \/ r = 1) /\
    (r = 0 <-> ex_auth = response_authenticator [115] ([2; 7] ++ [0; 20]) ex_auth [] /\
      (true = true -> exists pre v post, only_msg_auth [] pre v post /\
        v = message_authenticator [115] ([2; 7] ++ [0; 20]) ex_auth pre post))).
Proof.
  apply (radius_verify_exact ex_uninit ex_stack ex_msg [2; 7] [0; 20] ex_auth [] ex_msg [2; 7] [0; 20] ex_auth [] [115] true);
    [done|exact ex_holds|exact ex_header|exact ex_holds|exact ex_header|done|done|by intros _].
Defined.

Lemma radius_eap_delivered_witness :
  runs ('(r, m) ← radius_msg_add_eap ex_malloc ex_uninit ex_msg (replicate 300 1) (zlen (replicate 300 1));
        '(r', m) ← radius_msg_finish_srv ex_malloc ex_uninit ex_stack m [115] ex_auth;
        d ← whole m;
        p ← radius_msg_parse ex_malloc ex_uninit (Some d) (zlen d);
        match p with
        | None => mret None
        | Some p =>
            '(v, p) ← radius_msg_verify ex_uninit ex_stack p [115] (Some ex_msg) true;
            e ← radius_msg_get_eap ex_malloc ex_uninit (Some p);
            mret (Some (r, r', v, e))
        end)
    (fun x => x = Some (1, 0, 0, Some (replicate 300 1))).
Proof.
  apply (radius_eap_delivered ex_malloc ex_uninit ex_stack ex_msg [2; 7] [0; 20] ex_auth [] ex_msg [2; 7] [0; 20] ex_auth [] [115]
    (replicate 300 1)); [done|exact ex_memory|exact ex_holds|exact ex_header|done|done|exact ex_holds|exact ex_header|done|
    by apply octets_ok|done|done].
Defined.

Lemma radius_keys_delivered_witness :
  runs ('(r, m) ← radius_msg_add_mppe_keys ex_malloc ex_uninit ex_stack ex_msg 4660 ex_auth [115] (replicate 32 1) (replicate 32 2);
        k ← radius_msg_get_ms_keys ex_malloc ex_stack (Some m) (Some ex_msg) [115];
        mret (r, k))
    (fun x => x = (1, Some {| send := Some (replicate 32 1); recv := Some (replicate 32 2) |})).
Proof.
  apply (radius_keys_delivered ex_malloc ex_uninit ex_stack ex_msg (header [2; 7] [0; 20] ex_auth) [] ex_msg [2; 7] [0; 20] ex_auth [] [115] 4660
    (replicate 32 1) (replicate 32 2)); [done|exact ex_memory|exact ex_holds|done|done|exact ex_holds|exact ex_header|done|
    by apply octets_ok|by apply octets_ok|done|done|done].
Defined.

Definition ex_parsed : radius_msg :=
  match radius_msg_parse ex_malloc ex_uninit (Some ex_short) (zlen ex_short) with Ok (Some msg) => msg | _ => ex_msg end.
Lemma radius_short_msg_auth_overrun_witness :
  radius_msg_parse ex_malloc ex_uninit (Some ex_short) (zlen ex_short) = Ok (Some ex_parsed) /\
  radius_msg_verify ex_uninit ex_stack ex_parsed [115] (Some ex_msg) true = Fault OutOfBounds.
Proof.
  split; [by vm_compute|].
  apply (radius_short_msg_auth_overrun ex_malloc ex_uninit ex_stack ex_short ([11; 7; 0; 22] ++ ex_auth) [(80, [])] [] [] []
    ex_parsed ex_msg [2; 7] [0; 20] ex_auth [] [115]); [by apply octets_ok|done| |by split|done|by vm_compute|exact ex_holds|exact ex_header].
  split; [done|]. split; [by repeat constructor|]. split; [done|]. by exists [].
Defined.
